(* ===== verification/_CoqProject ===== *)
-Q . S2P
Prelude.v
PyStr.v
PyInt.v
PyFloat.v
FloatFacts.v
FloatText.v
FloatMono.v
PyDict.v
Crc.v
SocCore.v
Enums.v
Voltronic.v
Pi18.v
ModbusRtu.v
ModbusAdapter.v
Diagnostics.v
Transports.v
CommandQueue.v
Uri.v
QueueRegistry.v
Bus.v
BusSpec.v
Sanity.v
FailureTracker.v
Coordinator.v
AgentHttp.v
Discovery.v
EybondFrame.v
ChildUri.v
EybondManager.v
Adapters.v
Entities.v
EnergySensors.v
SocSensor.v
DirectSensors.v
BinarySensors.v
ConfigFlow.v
Forms.v
EybondHub.v
HubRuntime.v
EybondSend.v
Flows.v
FlowEntries.v
EndToEnd.v
ModbusEndToEnd.v
Pi18EndToEnd.v
BenchScript.v
Controls.v
SettingEndToEnd.v
ControlEntities.v
Broadcast.v
DebugPanel.v
Dump.v
EntrySetup.v
