(* ===== verification/Prelude.v ===== *)
(** * DESS Monitor Local: a verification library

    The program is a Home Assistant integration that polls hybrid inverters
    over several buses, turns their replies into readings, and sends settings
    back. All sources are under [src/custom_components/dess_monitor_local/];
    paths below are relative to it.

    ** The parts and how they interact

    A config entry names one device, or a _hub_ of dongles that dial in. A
    _coordinator_ polls the entry's targets: every cycle it asks the
    _dispatcher_ for the due commands of each target, retries, suppresses
    commands the inverter refuses, and publishes one dict of sections per
    target. The dispatcher picks the _adapter_ of the target's URI; the adapter
    frames the request, gives it to a _transport_, checks the reply and decodes
    it. All traffic of one bus goes through one _command queue_, owned by the
    entries that use it. Dongle targets go through the _EyBond listener_, whose
    sessions are routed by product number and whose arrivals fill a _discovery
    registry_ the hub shows, saves and polls. Entities read the published
    sections; the energy and state-of-charge entities integrate them.

    ** Files, in dependency order

    - Language: [Prelude] (exceptions, the error monad, words, shared tactics
      and lemmas), [PyStr], [PyInt], [PyFloat], [PyDict] (the operations of
      Python's [str], [bytes], [int], [float] and [dict] the sources use),
      [FloatFacts], [FloatText] and [FloatMono] (rounding bounds, exact decimals
      and their reading back, monotone sums), [Uri] ([urlparse]).
    - Wire: [Crc] ([api/crc.py]), [Enums] and [Voltronic] and [Pi18]
      ([api/decoders/]), [ModbusRtu] ([api/protocols/modbus_rtu.py]),
      [ModbusAdapter] ([api/adapters/modbus.py]), [Transports]
      ([api/protocols/elfin_tcp.py], [serial_uart.py], [pi18_tcp.py]),
      [AgentHttp] ([api/protocols/agent_http.py]), [Adapters] ([api/adapters/],
      [api/dispatcher.py]), [Diagnostics] ([frame_log.py], [diag_hub.py]).
    - Diagnosis: [DebugPanel] ([debug_panel.py] over [Diagnostics]: the event
      stream, the commands, the sidebar entry), [Dump] ([diagnostics.py] and the
      state snapshot of the panel).
    - Bus: [CommandQueue] (one queue), [QueueRegistry] (who owns which) and
      [Bus] (the registry with its queues, as a step relation over both), all of
      [api/commands/direct_command_queue.py]; [BusSpec] (what the bus promises:
      one line of commands per transport, which the bus refines).
    - Polling: [Sanity] ([sanity.py]), [FailureTracker]
      ([coordinators/failure_tracker.py]), [Coordinator]
      ([coordinators/direct_coordinator.py]).
    - Dongles: [Discovery] ([api/protocols/eybond_discovery.py],
      [coordinators/eybond_children.py]), [EybondFrame], [ChildUri] and
      [EybondManager] ([api/protocols/eybond_dongle.py]: framing, URIs, then
      sessions, requests, replies, cancellation, and the edits the hub's form makes
      to the registry they share), [EybondSend] (one caller's
      [send_frame] among the other tasks), [EybondHub] ([eybond_hub.py],
      [__init__.py], the listener registry, the hub's forms), [HubRuntime] (its
      persistence loop and [sensors/eybond_hub_sensor.py]), [Broadcast] (the
      broadcast address of the announcements).
    - Entities: [Entities] (what all of them declare and share), [SocCore]
      ([soc_core.py]), [EnergySensors] and [SocSensor]
      ([sensors/direct_energy_sensors.py]), [DirectSensors]
      ([sensors/direct_sensor.py], [sensor.py]), [BinarySensors]
      ([binary_sensor.py]), [Controls] and [ControlEntities] ([select.py],
      [number.py], [switch.py], [button.py], [hub.py]: behaviour, then
      declarations and set-up).
    - Configuration: [ConfigFlow] (what the forms of [config_flow.py] store),
      [Forms] (their schemas), [Flows] and [FlowEntries] (the flows as state
      machines, and the entries they leave).
    - Composition: [EndToEnd] (from the bytes of a status reply to the numbers
      of the entities), [ModbusEndToEnd] (from the registers),
      [Pi18EndToEnd] (from a PI18 frame), [SettingEndToEnd] (from an option
      picked in the interface to the inverter and back) and [EntrySetup] (the
      set-up of [__init__.py] for a device: from the forms of the flow to the
      target that is polled).
    - [BenchScript]: the bench script [test_tty.py] and the helper of [util.py],
      and how what the script prints relates to the live decoder.

    ** How state and effects are modelled

    A function that may raise gives [res]: [Ok] or [Raise] with the exception's
    class. A component's attributes are a Record, an operation a function from
    the state to the new state and what it published or sent. Components whose
    operations interleave (the command queue, the queue registry, the dongle
    manager, the coordinator, the hub, the state-of-charge estimator, the
    configuration flows) have a
    step relation whose steps are those functions, and their theorems hold in
    every reachable state. Shared objects (queues, sessions, requests, discovery
    registries) are referred to by number through a store, so sharing and
    aliasing are visible. Floats are binary64 ([SpecFloat]); integers are
    unbounded as in Python, and 16- and 32-bit wherever the wire makes them so.

    What lies outside the sources is an argument: sockets and serial ports (the
    chunks they deliver, the replies they give), the HTTP client, Home
    Assistant's states and stored data, the entity ids it gives, the clocks, and the
    order in which coroutines run.

    ** What the theorems show

    - End to end: a status reply, however the network cuts it, reaches the entities
      as the numbers that were sent; the registers of an SMG-II reach every numeric
      entity of the status section, exactly where nothing is reduced on the way and as
      a table says (magnitudes, whole amperes, a tenth of a hertz) where something is;
      an option picked in the interface reaches a PI30 inverter as its command, letter
      for letter, and is shown once the inverter shows it.
    - Wire: burst detection of the PI18 checksum; equivalence of the shift loop
      with the bitwise CRC; round trips of Modbus replies, PI18 frames, hex
      dumps and dongle frame streams (cut anywhere); the session reader against the
      wire format, over any chunks; totality and exact decimal
      rendering of the SMG-II and PI18 projections; independence of the
      collectors from how TCP cuts the stream; clamping of the settings.
    - Bus: exactly-once execution, priority order, one command in flight; one
      queue per transport, alive exactly while an entry owns it; the refinement
      of one priority line per transport.
    - Polling: only good sections are published, the freeze/unavailable
      timeline over any sequence of answers and outages, cadence and carry-forward, NAK suppression for good,
      independence of the targets of one cycle.
    - Dongles: routing by product number, also while the user edits the registry,
      matching of replies to requests,
      failing of pending requests on disconnect, delivery of the reply to its
      caller, one shared registry per hub and listener, restart and
      reconfiguration round trips, what a crash can lose, announce spacing, and
      announcements sent to a subnet that holds the announced address.
    - Entities: energy never decreases; the estimator stays in [0, 100] unless it is handed a
      percentage outside it, which it keeps until the next measuring tick; the
      snap debounce counts a balance; the entity refines the estimator; restart
      keeps the percentage; warning entities agree; a select holds the user's
      choice until it is confirmed or expires, and a failed write ends there;
      every sensor publishes values of the type it declares; the ids the state of
      charge follows are those of its inverter's controls, when no two inverters have
      names of the same slug.
    - Configuration: supported pairs, device strings that parse back, forms that
      save exactly what was chosen; the flows answer every offered choice and
      accepted form and leave well-formed entries.
    - Diagnosis: what the download and the panel show, and the address the
      download does not hide.

    ** Bounds and fuel

    [digits_lsd] has one unit of fuel per decimal digit and its adequacy is part
    of the formatting lemmas; the frame readers and the Modbus stream reader
    recurse on the bytes received ([EybondFrame] proves that the fuel given, two turns
    for each byte, reads every frame); the collectors recurse on the list of chunks. The step
    relations need no bound: their theorems are by induction on reachability.
    The CRC and rounding lemmas hold for every length; the finite case checks
    are over bytes, bits and enumeration members.

    ** Not modelled, and why

    - Translations, and the JavaScript of the debug panel: presentation.
    - The re-export shim [api/commands/direct_commands.py], and the opening of
      the port by the bench script [test_tty.py].
    - The sockets, serial ports and the datagram endpoint themselves, and the
      operating-system calls behind the lists of ports, networks and the local
      address: their answers are arguments.
    - Logging.
    - [asyncio] task cancellation inside a single-shot transport (a cancelled
      poll is modelled by the reads it did not get; the dongle manager models
      cancellation of a waiting request).
    - Non-ASCII white space, digits and case mapping; bracketed IPv6 hosts.
*)

From Stdlib Require Import ZArith List Bool Lia String Ascii.
Import ListNotations.
#[local] Open Scope list_scope.
#[local] Open Scope Z_scope.

(** ** Exceptions and the error monad

    Python code that may raise is a function into [res]: [Ok] carries the
    value returned, [Raise] the exception, with the class the callers tell
    apart by their [except] clauses. *)

Inductive exn : Type :=
| ValueError (msg : string)
| TypeError (msg : string)
| KeyError (msg : string)
| IndexError (msg : string)
| OverflowError (msg : string)
| ZeroDivisionError
| StructError (msg : string)
| UnicodeEncodeError
| ConnectionError (msg : string)
| TimeoutError
| OSError (msg : string)
| GenericException (msg : string).

Inductive res (A : Type) : Type :=
| Ok (a : A)
| Raise (e : exn).

Arguments Ok {A} a.
Arguments Raise {A} e.

Definition rbind {A B : Type} (r : res A) (f : A -> res B) : res B :=
  match r with
  | Ok a => f a
  | Raise e => Raise e
  end.

Definition rmap {A B : Type} (f : A -> B) (r : res A) : res B :=
  rbind r (fun a => Ok (f a)).

(** [try r except Exception: d] *)
Definition rcatch {A : Type} (r : res A) (d : A) : A :=
  match r with
  | Ok a => a
  | Raise _ => d
  end.

Definition is_ok {A : Type} (r : res A) : bool :=
  match r with
  | Ok _ => true
  | Raise _ => false
  end.

(** [except ValueError] also catches [UnicodeEncodeError], its subclass. *)
Definition is_ValueError (e : exn) : bool :=
  match e with
  | ValueError _ | UnicodeEncodeError => true
  | _ => false
  end.

Definition is_TypeError (e : exn) : bool :=
  match e with
  | TypeError _ => true
  | _ => false
  end.

Definition is_KeyError (e : exn) : bool :=
  match e with
  | KeyError _ => true
  | _ => false
  end.

Declare Scope py_scope.
Delimit Scope py_scope with py.

Notation "'let!' x ':=' c1 'in' c2" := (rbind c1 (fun x => c2))
  (at level 10, x pattern, c1 at level 100, c2 at level 200) : py_scope.

Fixpoint rmapM {A B : Type} (f : A -> res B) (l : list A) : res (list B) :=
  match l with
  | [] => Ok []
  | a :: l' => rbind (f a) (fun b => rbind (rmapM f l') (fun bs => Ok (b :: bs)))
  end.

Lemma ok_inj {A : Type} (x y : A) : Ok x = Ok y -> x = y.
Proof. intros H. now injection H. Qed.

Lemma rbind_ok_inv {A B : Type} (r : res A) (f : A -> res B) b :
  rbind r f = Ok b -> exists a, r = Ok a /\ f a = Ok b.
Proof. destruct r as [a|e]; simpl; intros H; [eauto|discriminate]. Qed.

(** ** Bytes

    A [bytes] object is the list of its byte values; [byte_ok] is the range
    every element of a Python [bytes] has. *)

Definition bytes := list Z.

Definition byte_ok (b : Z) : Prop := 0 <= b < 256.
Definition bytes_ok (l : bytes) : Prop := Forall byte_ok l.

Definition byte_okb (b : Z) : bool := (0 <=? b) && (b <? 256).

Lemma byte_okb_spec b : byte_okb b = true <-> byte_ok b.
Proof. unfold byte_okb, byte_ok. rewrite andb_true_iff, Z.leb_le, Z.ltb_lt. lia. Qed.

Lemma bytes_ok_app l1 l2 : bytes_ok (l1 ++ l2) <-> bytes_ok l1 /\ bytes_ok l2.
Proof. unfold bytes_ok. apply Forall_app. Qed.

Lemma bytes_ok_dec l : forallb byte_okb l = true -> bytes_ok l.
Proof.
  intros H. apply Forall_forall. intros b Hb.
  rewrite forallb_forall in H. apply byte_okb_spec, H, Hb.
Qed.

(** ** Finite checks

    A statement about every value below a concrete bound is decided by
    evaluating a boolean test on the whole range. *)

Definition zrange (n : Z) : list Z := map Z.of_nat (seq 0 (Z.to_nat n)).

Lemma in_zrange n z : 0 <= z < n -> In z (zrange n).
Proof.
  intros [H0 H1]. unfold zrange. apply in_map_iff.
  exists (Z.to_nat z). split; [lia|]. apply in_seq. lia.
Qed.

Lemma zrange_forall (P : Z -> bool) n :
  forallb P (zrange n) = true -> forall z, 0 <= z < n -> P z = true.
Proof. intros H z Hz. rewrite forallb_forall in H. apply H, in_zrange, Hz. Qed.

Ltac by_range n :=
  lazymatch goal with
  | |- forall z : Z, 0 <= z < n -> @?P z = true =>
      apply (zrange_forall P n); vm_compute; reflexivity
  end.

(** ** Bit-level facts on non-negative integers *)

Lemma land_ones_small a n : 0 <= n -> 0 <= a < 2 ^ n -> Z.land a (Z.ones n) = a.
Proof. intros Hn Ha. rewrite Z.land_ones by lia. apply Z.mod_small. lia. Qed.

Lemma testbit_high a n i : 0 <= a < 2 ^ n -> n <= i -> Z.testbit a i = false.
Proof.
  intros Ha Hi. destruct (Z.eq_dec a 0) as [->|Hne]; [apply Z.bits_0|].
  apply Z.bits_above_log2; [lia|].
  apply Z.lt_le_trans with n; [|exact Hi].
  apply Z.log2_lt_pow2; lia.
Qed.

Lemma bound_by_bits a n :
  0 <= n -> 0 <= a -> (forall i, n <= i -> Z.testbit a i = false) -> a < 2 ^ n.
Proof.
  intros Hn Ha H. destruct (Z.eq_dec a 0) as [->|Hne].
  { apply Z.pow_pos_nonneg; lia. }
  apply Z.log2_lt_pow2; [lia|].
  destruct (Z.lt_ge_cases (Z.log2 a) n) as [|Hge]; [assumption|].
  specialize (H (Z.log2 a) Hge).
  rewrite Z.bit_log2 in H by lia. discriminate.
Qed.

Lemma lxor_bound a b n :
  0 <= n -> 0 <= a < 2 ^ n -> 0 <= b < 2 ^ n -> 0 <= Z.lxor a b < 2 ^ n.
Proof.
  intros Hn Ha Hb. split; [apply Z.lxor_nonneg; lia|].
  apply bound_by_bits; [lia|apply Z.lxor_nonneg; lia|].
  intros i Hi. rewrite Z.lxor_spec.
  rewrite (testbit_high a n), (testbit_high b n) by assumption. reflexivity.
Qed.

(** Xor with a fixed value cancels. *)
Lemma lxor_inj_l a b c : Z.lxor a b = Z.lxor a c -> b = c.
Proof.
  intros H. apply (f_equal (Z.lxor a)) in H.
  rewrite <- !Z.lxor_assoc, Z.lxor_nilpotent, !Z.lxor_0_l in H. exact H.
Qed.

Lemma hi_lo_split a : Z.lor (Z.shiftl (Z.shiftr a 8) 8) (Z.land a 255) = a.
Proof.
  apply Z.bits_inj'. intros i Hi.
  rewrite Z.lor_spec, Z.land_spec, Z.shiftl_spec by lia.
  change 255 with (Z.ones 8).
  destruct (Z.lt_ge_cases i 8).
  - rewrite Z.testbit_neg_r, Z.ones_spec_low by lia. apply andb_true_r.
  - rewrite Z.shiftr_spec, Z.ones_spec_high by lia.
    rewrite andb_false_r, orb_false_r. f_equal. lia.
Qed.

(** Joining a high part and a low part that does not overlap it. *)
Lemma lor_shiftl_add a b n : 0 <= n -> 0 <= b < 2 ^ n ->
  Z.lor (Z.shiftl a n) b = a * 2 ^ n + b.
Proof.
  intros Hn Hb.
  assert (Z.land (Z.shiftl a n) b = 0) as H0.
  { apply Z.bits_inj'. intros i Hi. rewrite Z.land_spec, Z.bits_0, Z.shiftl_spec by lia.
    destruct (Z.lt_ge_cases i n).
    - now rewrite Z.testbit_neg_r by lia.
    - rewrite (testbit_high b n) by lia. apply andb_false_r. }
  rewrite <- Z.lxor_lor, <- Z.add_nocarry_lxor, Z.shiftl_mul_pow2 by assumption. reflexivity.
Qed.

Lemma lor_shiftl_add_r a b n : 0 <= n -> 0 <= b < 2 ^ n ->
  Z.lor b (Z.shiftl a n) = a * 2 ^ n + b.
Proof. intros. rewrite Z.lor_comm. now apply lor_shiftl_add. Qed.

Lemma land_ones_mod a n : 0 <= n -> Z.land a (Z.ones n) = a mod 2 ^ n.
Proof. apply Z.land_ones. Qed.
