(* ===== verification/PyStr.v ===== *)
(** Python [str] and [bytes]: the operations of the language the sources use.

    A [str] is its UTF-8 encoding, a [String.string]; white space, digits and
    letter case are those of the ASCII range, the only one the inverter
    protocols carry. A [bytes] is a list of byte values ([Prelude.bytes]). *)

From Stdlib Require Import ZArith List Bool Lia String Ascii.
From S2P Require Import Prelude.
Import ListNotations.
#[local] Open Scope string_scope.
#[local] Open Scope Z_scope.

(** ** Characters *)

Definition ord (c : ascii) : Z := Z.of_N (N_of_ascii c).
Definition chr (z : Z) : ascii := ascii_of_N (Z.to_N z).

Definition is_space (c : ascii) : bool :=
  let n := ord c in ((9 <=? n) && (n <=? 13)) || ((28 <=? n) && (n <=? 32)).

Definition is_digit (c : ascii) : bool := (48 <=? ord c) && (ord c <=? 57).

Definition upper_char (c : ascii) : ascii :=
  if (97 <=? ord c) && (ord c <=? 122) then chr (ord c - 32) else c.

Definition lower_char (c : ascii) : ascii :=
  if (65 <=? ord c) && (ord c <=? 90) then chr (ord c + 32) else c.

Lemma ord_bound c : 0 <= ord c < 256.
Proof. unfold ord. pose proof (N_ascii_bounded c). lia. Qed.

Lemma chr_ord c : chr (ord c) = c.
Proof. unfold chr, ord. rewrite N2Z.id. apply ascii_N_embedding. Qed.

Lemma ord_chr z : byte_ok z -> ord (chr z) = z.
Proof.
  unfold byte_ok, ord, chr. intros H. rewrite N_ascii_embedding by lia. lia.
Qed.

(** ** Strings as lists of characters *)

Definition chars (s : string) : list ascii := list_ascii_of_string s.
Definition str (l : list ascii) : string := string_of_list_ascii l.

Lemma str_chars s : str (chars s) = s.
Proof. apply string_of_list_ascii_of_string. Qed.

Lemma chars_str l : chars (str l) = l.
Proof. apply list_ascii_of_string_of_list_ascii. Qed.

Lemma chars_app s1 s2 : chars (s1 ++ s2) = (chars s1 ++ chars s2)%list.
Proof. induction s1 as [|c s1 IH]; simpl; [reflexivity|]. now rewrite IH. Qed.

Lemma chars_length s : List.length (chars s) = String.length s.
Proof. induction s; simpl; congruence. Qed.

(** [len(s)] *)
Definition len (s : string) : Z := Z.of_nat (String.length s).

Fixpoint dropwhile {A} (p : A -> bool) (l : list A) : list A :=
  match l with
  | [] => []
  | a :: l' => if p a then dropwhile p l' else l
  end.

Definition rdropwhile {A} (p : A -> bool) (l : list A) : list A :=
  rev (dropwhile p (rev l)).

Definition on_chars (f : list ascii -> list ascii) (s : string) : string :=
  str (f (chars s)).

Definition lstrip_p (p : ascii -> bool) : string -> string := on_chars (dropwhile p).
Definition rstrip_p (p : ascii -> bool) : string -> string := on_chars (rdropwhile p).
Definition strip_p (p : ascii -> bool) (s : string) : string := rstrip_p p (lstrip_p p s).

(** [s.strip()] *)
Definition strip (s : string) : string := strip_p is_space s.

Definition upper (s : string) : string := on_chars (map upper_char) s.
Definition lower (s : string) : string := on_chars (map lower_char) s.

Definition startswith (s p : string) : bool := String.prefix p s.

(** [p in s] for strings *)
Fixpoint str_contains (p s : string) : bool :=
  String.prefix p s ||
  match s with
  | EmptyString => false
  | String _ s' => str_contains p s'
  end.

(** [s[n:]] for [n >= 0] *)
Definition sdrop (n : nat) (s : string) : string := on_chars (skipn n) s.

(** [s[:n]] for [n >= 0] *)
Definition stake (n : nat) (s : string) : string := on_chars (firstn n) s.

(** [s.replace(c, "")] for a one-character pattern *)
Definition remove_char (c : ascii) (s : string) : string :=
  on_chars (filter (fun x => negb (Ascii.eqb x c))) s.

(** [s.replace(p, r)]: occurrences from the left, not overlapping. *)
Fixpoint replace_fuel (fuel : nat) (p r s : string) : string :=
  match fuel with
  | O => s
  | S fuel' =>
      match s with
      | EmptyString => s
      | String c s' =>
          if String.prefix p s
          then r ++ replace_fuel fuel' p r (sdrop (String.length p) s)
          else String c (replace_fuel fuel' p r s')
      end
  end.

Definition replace (p r s : string) : string := replace_fuel (String.length s) p r s.

(** [s.split()]: maximal runs of non-space characters. *)
Fixpoint split_ws_aux (cur : list ascii) (l : list ascii) : list string :=
  match l with
  | [] => match cur with [] => [] | _ => [str (rev cur)] end
  | c :: l' =>
      if is_space c
      then match cur with
           | [] => split_ws_aux [] l'
           | _ => str (rev cur) :: split_ws_aux [] l'
           end
      else split_ws_aux (c :: cur) l'
  end.

Definition split_ws (s : string) : list string := split_ws_aux [] (chars s).

(** [s.split(sep)] for a one-character separator. *)
Fixpoint split_char_aux (sep : ascii) (cur l : list ascii) : list string :=
  match l with
  | [] => [str (rev cur)]
  | c :: l' =>
      if Ascii.eqb c sep then str (rev cur) :: split_char_aux sep [] l'
      else split_char_aux sep (c :: cur) l'
  end.

Definition split_char (sep : ascii) (s : string) : list string :=
  split_char_aux sep [] (chars s).

(** [sep.join(l)] *)
Definition join (sep : string) (l : list string) : string := String.concat sep l.

(** ** Encoding *)

(** A [b"..."] literal. *)
Definition b_ (s : string) : bytes := map ord (chars s).

(** [s.encode("ascii")] *)
Definition encode_ascii (s : string) : res bytes :=
  if forallb (fun c => ord c <? 128) (chars s) then Ok (b_ s) else Raise UnicodeEncodeError.

(** [b.decode("ascii", errors="ignore")] *)
Definition decode_ascii_ignore (b : bytes) : string :=
  str (map chr (filter (fun z => z <? 128) b)).

(** [b.decode(errors="ignore")], UTF-8: well-formed sequences are kept,
    the maximal ill-formed subparts are dropped. *)
Definition is_cont (z : Z) : bool := (128 <=? z) && (z <? 192).
Definition in_rng (lo hi z : Z) : bool := (lo <=? z) && (z <=? hi).

(** The range of the second byte of a sequence that starts with [z], and the
    number of continuation bytes. *)
Definition utf8_lead (z : Z) : option (nat * (Z -> bool)) :=
  if in_rng 0xC2 0xDF z then Some (1%nat, is_cont)
  else if z =? 0xE0 then Some (2%nat, in_rng 0xA0 0xBF)
  else if z =? 0xED then Some (2%nat, in_rng 0x80 0x9F)
  else if in_rng 0xE1 0xEF z then Some (2%nat, is_cont)
  else if z =? 0xF0 then Some (3%nat, in_rng 0x90 0xBF)
  else if z =? 0xF4 then Some (3%nat, in_rng 0x80 0x8F)
  else if in_rng 0xF1 0xF3 z then Some (3%nat, is_cont)
  else None.

(** What a byte does when no sequence is open: the bytes it emits, and the
    sequence it opens. *)
Definition utf8_start (z : Z) : bytes * (bytes * nat * (Z -> bool)) :=
  if z <? 128 then ([z], ([], O, is_cont))
  else match utf8_lead z with
       | Some (n, ok) => ([], ([z], n, ok))
       | None => ([], ([], O, is_cont))
       end.

(** [pend] holds the bytes of the open sequence (last first), [need] how many
    more it takes and [ok] the range of the next one. *)
Fixpoint utf8_scan (pend : bytes) (need : nat) (ok : Z -> bool) (b : bytes) : bytes :=
  match b with
  | [] => []
  | z :: b' =>
      if (0 <? need)%nat && ok z then
        match need with
        | S (S n) => utf8_scan (z :: pend) (S n) is_cont b'
        | _ => (rev (z :: pend) ++ utf8_scan [] O is_cont b')%list
        end
      else
        let '(out, (pend', need', ok')) := utf8_start z in
        (out ++ utf8_scan pend' need' ok' b')%list
  end.

Definition decode_utf8_ignore (b : bytes) : string :=
  str (map chr (utf8_scan [] O is_cont b)).

(** ** Operations on [bytes] *)

(** [b.find(x)] for a one-byte pattern, as an option. *)
Fixpoint bfind (x : Z) (b : bytes) : option nat :=
  match b with
  | [] => None
  | y :: b' => if y =? x then Some O else option_map S (bfind x b')
  end.

(** [b.startswith(p)] *)
Fixpoint bstartswith (b p : bytes) {struct p} : bool :=
  match p, b with
  | [], _ => true
  | x :: p', y :: b' => (x =? y) && bstartswith b' p'
  | _ :: _, [] => false
  end.

(** [p in b] *)
Fixpoint bcontains (p b : bytes) : bool :=
  bstartswith b p ||
  match b with
  | [] => false
  | _ :: b' => bcontains p b'
  end.

(** The part before the first [x]: [b.split(x, 1)[0]], [b.partition(x)[0]]. *)
Fixpoint bbefore (x : Z) (b : bytes) : bytes :=
  match b with
  | [] => []
  | y :: b' => if y =? x then [] else y :: bbefore x b'
  end.

(** [b.lstrip(chars)] and [b.strip()]. *)
Definition blstrip (cs : bytes) (b : bytes) : bytes :=
  dropwhile (fun x => existsb (Z.eqb x) cs) b.

Definition b_space : bytes := [32; 9; 10; 13; 11; 12].

Definition bstrip (b : bytes) : bytes :=
  rdropwhile (fun x => existsb (Z.eqb x) b_space) (blstrip b_space b).

(** [b[:-n]] and [b[-n:]] *)
Definition bdroplast (n : nat) (b : bytes) : bytes := firstn (List.length b - n) b.
Definition blast (n : nat) (b : bytes) : bytes := skipn (List.length b - n) b.

(** Equality of [bytes] (and of lists of ints). *)
Fixpoint zlist_eqb (a b : list Z) : bool :=
  match a, b with
  | [], [] => true
  | x :: a', y :: b' => (x =? y) && zlist_eqb a' b'
  | _, _ => false
  end.

Lemma zlist_eqb_spec a b : zlist_eqb a b = true <-> a = b.
Proof.
  revert b. induction a as [|x a IH]; intros [|y b]; simpl; try easy.
  rewrite andb_true_iff, Z.eqb_eq, IH. split.
  - intros [-> ->]. reflexivity.
  - intros H. injection H. auto.
Qed.

Lemma bfind_app_skip x pre suf :
  Forall (fun y => y <> x) pre ->
  bfind x (pre ++ x :: suf)%list = Some (List.length pre).
Proof.
  induction pre as [|y pre IH]; simpl; intros H.
  - rewrite Z.eqb_refl. reflexivity.
  - inversion H; subst. destruct (Z.eqb_spec y x); [contradiction|].
    rewrite IH by assumption. reflexivity.
Qed.

Lemma bbefore_app x pre suf :
  Forall (fun y => y <> x) pre -> bbefore x (pre ++ x :: suf)%list = pre.
Proof.
  induction pre as [|y pre IH]; simpl; intros H.
  - rewrite Z.eqb_refl. reflexivity.
  - inversion H; subst. destruct (Z.eqb_spec y x); [contradiction|].
    now rewrite IH.
Qed.

Lemma bdroplast_app b t : bdroplast (List.length t) (b ++ t)%list = b.
Proof.
  unfold bdroplast. rewrite length_app, Nat.add_sub, firstn_app, firstn_all.
  rewrite Nat.sub_diag. simpl. apply app_nil_r.
Qed.

Lemma blast_app b t : blast (List.length t) (b ++ t)%list = t.
Proof.
  unfold blast. rewrite length_app, Nat.add_sub, skipn_app, skipn_all.
  rewrite Nat.sub_diag. reflexivity.
Qed.

Lemma bstartswith_app p b : bstartswith (p ++ b)%list p = true.
Proof. induction p as [|x p IH]; simpl; [reflexivity|]. now rewrite Z.eqb_refl. Qed.

(** ** Stripping *)

Lemma chars_on_chars f s : chars (on_chars f s) = f (chars s).
Proof. unfold on_chars. apply chars_str. Qed.

Lemma chars_strip s : chars (strip s) = rdropwhile is_space (dropwhile is_space (chars s)).
Proof.
  unfold strip, strip_p, rstrip_p, lstrip_p. now rewrite !chars_on_chars.
Qed.

Lemma chars_inj s1 s2 : chars s1 = chars s2 -> s1 = s2.
Proof. intros H. now rewrite <- (str_chars s1), H, str_chars. Qed.

Lemma dropwhile_first {A} (p : A -> bool) c l : p c = false -> dropwhile p (c :: l) = c :: l.
Proof. simpl. now intros ->. Qed.

Lemma dropwhile_app_keep {A} (p : A -> bool) l c :
  p c = false -> dropwhile p (l ++ [c])%list = (dropwhile p l ++ [c])%list.
Proof.
  intros H. induction l as [|a l IH]; simpl; [now rewrite H|]. now destruct (p a).
Qed.

Lemma rdropwhile_first {A} (p : A -> bool) c l :
  p c = false -> rdropwhile p (c :: l) = c :: rdropwhile p l.
Proof.
  intros H. unfold rdropwhile. simpl. rewrite dropwhile_app_keep by exact H.
  now rewrite rev_app_distr.
Qed.

Lemma rdropwhile_last {A} (p : A -> bool) l c :
  p c = false -> rdropwhile p (l ++ [c])%list = (l ++ [c])%list.
Proof.
  intros H. unfold rdropwhile. rewrite rev_app_distr. simpl. rewrite H.
  simpl. now rewrite rev_involutive.
Qed.

Lemma dropwhile_idem {A} (p : A -> bool) l : dropwhile p (dropwhile p l) = dropwhile p l.
Proof.
  induction l as [|a l IH]; simpl; [reflexivity|].
  destruct (p a) eqn:E; [exact IH|]. simpl. now rewrite E.
Qed.

Lemma rdropwhile_idem {A} (p : A -> bool) l : rdropwhile p (rdropwhile p l) = rdropwhile p l.
Proof. unfold rdropwhile. now rewrite rev_involutive, dropwhile_idem. Qed.

(** A string that begins and ends with other characters is its own [strip]. *)
Lemma strip_framed l a z :
  is_space a = false -> is_space z = false ->
  strip (str (a :: l ++ [z])%list) = str (a :: l ++ [z])%list.
Proof.
  intros Ha Hz. apply chars_inj. rewrite chars_strip, chars_str.
  rewrite dropwhile_first by exact Ha.
  exact (rdropwhile_last is_space (a :: l)%list z Hz).
Qed.

Lemma strip_cons c l : is_space c = false ->
  chars (strip (str (c :: l))) = c :: rdropwhile is_space l.
Proof.
  intros H. rewrite chars_strip, chars_str, dropwhile_first by exact H.
  now apply rdropwhile_first.
Qed.

Lemma strip_idem s : strip (strip s) = strip s.
Proof.
  apply chars_inj. rewrite !chars_strip.
  destruct (dropwhile is_space (chars s)) as [|c l] eqn:E; [reflexivity|].
  assert (is_space c = false) as Hc.
  { pose proof (dropwhile_idem is_space (chars s)) as H. rewrite E in H. simpl in H.
    destruct (is_space c); [|reflexivity]. exfalso.
    assert (forall l : list ascii, List.length (dropwhile is_space l) <= List.length l)%nat as Hl.
    { intros k. induction k as [|x k IH]; simpl; [lia|]. destruct (is_space x); simpl; lia. }
    specialize (Hl l). rewrite H in Hl. simpl in Hl. lia. }
  rewrite rdropwhile_first, dropwhile_first by exact Hc.
  rewrite <- rdropwhile_first by exact Hc. apply rdropwhile_idem.
Qed.

Lemma length_filter_le {A} (p : A -> bool) l : (List.length (filter p l) <= List.length l)%nat.
Proof. induction l as [|a l IH]; simpl; [lia|]. destruct (p a); simpl; lia. Qed.

(** [s.split(sep, 1)], [None] when [sep] does not occur. *)
Fixpoint split_once (sep s : string) : option (string * string) :=
  if String.prefix sep s then Some (EmptyString, sdrop (String.length sep) s)
  else match s with
       | EmptyString => None
       | String c s' => option_map (fun ab => (String c (fst ab), snd ab)) (split_once sep s')
       end.

Lemma prefix_app p s : String.prefix p (p ++ s) = true.
Proof.
  induction p as [|c p IH]; [now destruct s|]. simpl.
  destruct (ascii_dec c c); [exact IH|easy].
Qed.

Lemma sdrop_app p s : sdrop (String.length p) (p ++ s) = s.
Proof.
  apply chars_inj. unfold sdrop. rewrite chars_on_chars, chars_app, <- chars_length.
  now rewrite skipn_app, skipn_all, Nat.sub_diag.
Qed.

Lemma split_once_prefix sep s : split_once sep (sep ++ s) = Some (EmptyString, s).
Proof.
  pose proof (prefix_app sep s) as Hp. pose proof (sdrop_app sep s) as Hd.
  destruct (sep ++ s) as [|c r]; cbn [split_once]; now rewrite Hp, Hd.
Qed.

(** What starts with [p] is [p] and a rest. *)
Lemma prefix_inv p s : String.prefix p s = true -> exists r, s = (p ++ r)%string.
Proof.
  revert s. induction p as [|c p IH]; intros s H; [now exists s|].
  destruct s as [|d s]; [discriminate|]. simpl in H. destruct (ascii_dec c d) as [->|]; [|discriminate].
  destruct (IH s H) as [r ->]. now exists r.
Qed.

(** What is stripped at the right stops at a character that is kept. *)
Lemma rdropwhile_app_stop {A} (p : A -> bool) l c r : p c = false ->
  rdropwhile p (l ++ c :: r)%list = (l ++ c :: rdropwhile p r)%list.
Proof.
  intros H. unfold rdropwhile. rewrite rev_app_distr. cbn [rev]. rewrite <- app_assoc. cbn [app].
  assert (forall q, dropwhile p (q ++ c :: rev l)%list = (dropwhile p q ++ c :: rev l)%list) as ->.
  { induction q as [|a q IH]; cbn [app dropwhile]; [now rewrite H|]. now destruct (p a). }
  rewrite rev_app_distr. cbn [rev]. now rewrite rev_involutive, <- !app_assoc.
Qed.

Lemma length_rdropwhile {A} (p : A -> bool) l : (List.length (rdropwhile p l) <= List.length l)%nat.
Proof.
  unfold rdropwhile. rewrite length_rev, <- (length_rev l).
  induction (rev l) as [|a q IH]; cbn [dropwhile List.length]; [lia|]. destruct (p a); cbn [List.length]; lia.
Qed.

(** Decoding UTF-8 keeps an ASCII prefix and never lengthens. *)
Lemma utf8_scan_ascii a t : Forall (fun z => z < 128) a ->
  utf8_scan [] O is_cont (a ++ t)%list = (a ++ utf8_scan [] O is_cont t)%list.
Proof.
  induction 1 as [|z a Hz _ IH]; [reflexivity|]. cbn [app utf8_scan Nat.ltb Nat.leb andb]. unfold utf8_start.
  rewrite (proj2 (Z.ltb_lt z 128) Hz). cbn [app]. now rewrite IH.
Qed.

Lemma length_utf8_scan b : forall pend need ok,
  (List.length (utf8_scan pend need ok b) <= List.length pend + List.length b)%nat.
Proof.
  induction b as [|z b IH]; intros pend need ok; [cbn; lia|]. cbn [utf8_scan]. destruct ((0 <? need)%nat && ok z).
  - destruct need as [|[|n]].
    + rewrite length_app, length_rev. specialize (IH [] O is_cont). cbn [List.length] in *. lia.
    + rewrite length_app, length_rev. specialize (IH [] O is_cont). cbn [List.length] in *. lia.
    + specialize (IH (z :: pend) (S n) is_cont). cbn [List.length] in *. lia.
  - unfold utf8_start. destruct (z <? 128); [|destruct (utf8_lead z) as [[n ok']|]]; rewrite length_app;
      [specialize (IH [] O is_cont)|specialize (IH [z] n ok')|specialize (IH [] O is_cont)]; cbn [List.length] in *; lia.
Qed.
