(* ===== verification/PyInt.v ===== *)
(** Python [int]: decimal formatting ([str(n)], the [0Nd] format) and the
    [int(...)] conversions, with the round trip between them. *)

From Stdlib Require Import ZArith List Bool Lia String Ascii.
From S2P Require Import Prelude PyStr.
Import ListNotations.
#[local] Open Scope string_scope.
#[local] Open Scope Z_scope.

(** ** Formatting *)

(** Decimal digits of [n >= 0], least significant first. *)
Fixpoint digits_lsd (fuel : nat) (n : Z) : list Z :=
  match fuel with
  | O => [n]
  | S fuel' => if n <? 10 then [n] else n mod 10 :: digits_lsd fuel' (n / 10)
  end.

Definition digits (n : Z) : list Z := rev (digits_lsd (Z.to_nat (Z.log2 n)) n).

Definition digit_char (d : Z) : ascii := chr (48 + d).

Definition digit_string (ds : list Z) : string := str (map digit_char ds).

(** [str(n)] *)
Definition str_of_int (n : Z) : string :=
  if n <? 0 then "-" ++ digit_string (digits (- n)) else digit_string (digits n).

Definition zeros (n : nat) : string := str (repeat "0"%char n).

(** The format [0<w>d]: zero padding goes between the sign and the digits. *)
Definition fmt_0d (w : nat) (n : Z) : string :=
  let sign := if n <? 0 then "-" else "" in
  let body := digit_string (digits (Z.abs n)) in
  sign ++ zeros (w - String.length sign - String.length body) ++ body.

(** ** Conversion *)

Definition digit_val (c : ascii) : Z := ord c - 48.

(** The rest of a digit string whose last character was a digit: digits, each
    one optionally preceded by a single underscore. Returns the value and the
    number of digits. *)
Fixpoint int_digits (acc : Z) (k : Z) (l : list ascii) : option (Z * Z) :=
  match l with
  | [] => Some (acc, k)
  | c :: l' =>
      if is_digit c then int_digits (10 * acc + digit_val c) (k + 1) l'
      else if Ascii.eqb c "_" then
        match l' with
        | d :: l'' =>
            if is_digit d then int_digits (10 * acc + digit_val d) (k + 1) l'' else None
        | [] => None
        end
      else None
  end.

Definition int_unsigned (l : list ascii) : option (Z * Z) :=
  match l with
  | c :: l' => if is_digit c then int_digits (digit_val c) 1 l' else None
  | [] => None
  end.

Definition split_sign (l : list ascii) : bool * list ascii :=
  match l with
  | c :: l' =>
      if Ascii.eqb c "-" then (true, l')
      else if Ascii.eqb c "+" then (false, l') else (false, l)
  | [] => (false, [])
  end.

(** [sys.int_info.default_max_str_digits] *)
Definition max_str_digits : Z := 4300.

(** [int(s)] *)
Definition py_int (s : string) : res Z :=
  let '(neg, l) := split_sign (chars (strip s)) in
  match int_unsigned l with
  | Some (v, k) =>
      if k <=? max_str_digits then Ok (if neg then - v else v)
      else Raise (ValueError "Exceeds the limit for integer string conversion")
  | None => Raise (ValueError "invalid literal for int() with base 10")
  end.

(** [int(s, 16)] and [int(s, 2)] on a string of digits of that base; the
    callers test the characters first. *)
Definition hex_val (c : ascii) : option Z :=
  let n := ord c in
  if is_digit c then Some (n - 48)
  else if (65 <=? n) && (n <=? 70) then Some (n - 55)
  else if (97 <=? n) && (n <=? 102) then Some (n - 87)
  else None.

Fixpoint int_base_digits (base acc : Z) (l : list ascii) : option Z :=
  match l with
  | [] => Some acc
  | c :: l' =>
      match hex_val c with
      | Some d => if d <? base then int_base_digits base (base * acc + d) l' else None
      | None => None
      end
  end.

Definition py_int_base (base : Z) (s : string) : res Z :=
  match chars s with
  | [] => Raise (ValueError "invalid literal for int()")
  | l => match int_base_digits base 0 l with
         | Some v => Ok v
         | None => Raise (ValueError "invalid literal for int()")
         end
  end.

(** ** Round trip *)

Definition digit_ok (d : Z) : Prop := 0 <= d < 10.

Definition value_msd (acc : Z) (ds : list Z) : Z :=
  fold_left (fun a d => 10 * a + d) ds acc.

Lemma value_msd_app acc l1 l2 :
  value_msd acc (l1 ++ l2)%list = value_msd (value_msd acc l1) l2.
Proof. apply fold_left_app. Qed.

Lemma log2_div10 n : 10 <= n -> Z.log2 (n / 10) < Z.log2 n.
Proof.
  intros H. apply Z.log2_lt_pow2.
  - apply Z.div_str_pos. lia.
  - apply Z.div_lt_upper_bound; [lia|].
    pose proof (Z.log2_spec n ltac:(lia)) as [_ Hu].
    rewrite Z.pow_succ_r in Hu by apply Z.log2_nonneg. lia.
Qed.

Lemma digits_lsd_spec fuel n :
  0 <= n -> Z.log2 n <= Z.of_nat fuel ->
  Forall digit_ok (digits_lsd fuel n)
  /\ value_msd 0 (rev (digits_lsd fuel n)) = n.
Proof.
  revert n. induction fuel as [|fuel IH]; intros n Hn Hf; simpl.
  - assert (n < 2) by (destruct (Z.lt_ge_cases n 2) as [|Hg]; [assumption|];
      pose proof (Z.log2_le_mono 2 n Hg); change (Z.log2 2) with 1 in *; lia).
    split; [|unfold value_msd; simpl; lia].
    constructor; [unfold digit_ok; lia|constructor].
  - destruct (Z.ltb_spec n 10) as [Hlt|Hge].
    + split; [|unfold value_msd; simpl; lia].
      constructor; [unfold digit_ok; lia|constructor].
    + pose proof (log2_div10 n Hge).
      destruct (IH (n / 10)) as [Hd Hv]; [apply Z.div_pos; lia|lia|].
      pose proof (Z.mod_pos_bound n 10 ltac:(lia)).
      split; [constructor; [unfold digit_ok; lia|assumption]|].
      cbn [rev]. rewrite value_msd_app, Hv. unfold value_msd. cbn [fold_left].
      pose proof (Z.div_mod n 10 ltac:(lia)). lia.
Qed.

Lemma digits_lsd_length fuel n k :
  0 <= n < 10 ^ Z.of_nat k -> (0 < k)%nat -> Z.log2 n <= Z.of_nat fuel ->
  (List.length (digits_lsd fuel n) <= k)%nat.
Proof.
  revert n k. induction fuel as [|fuel IH]; intros n k Hn Hk Hf; simpl; [lia|].
  destruct (Z.ltb_spec n 10) as [Hlt|Hge]; simpl; [lia|].
  destruct k as [|[|k]]; [lia|simpl in Hn; lia|].
  apply le_n_S, IH; [|lia|pose proof (log2_div10 n Hge); lia].
  rewrite (Nat2Z.inj_succ (S k)), Z.pow_succ_r in Hn by lia.
  split; [apply Z.div_pos; lia|apply Z.div_lt_upper_bound; lia].
Qed.

Lemma digits_lsd_nonnil fuel n : digits_lsd fuel n <> [].
Proof. destruct fuel; simpl; [|destruct (n <? 10)]; discriminate. Qed.

Lemma log2_to_nat n : Z.log2 n <= Z.of_nat (Z.to_nat (Z.log2 n)).
Proof. pose proof (Z.log2_nonneg n). lia. Qed.

Lemma digits_spec n : 0 <= n ->
  Forall digit_ok (digits n) /\ value_msd 0 (digits n) = n.
Proof.
  intros H. unfold digits.
  destruct (digits_lsd_spec (Z.to_nat (Z.log2 n)) n H (log2_to_nat n)) as [Hd Hv].
  split; [apply Forall_rev, Hd|exact Hv].
Qed.

Lemma digits_length n k :
  0 <= n < 10 ^ Z.of_nat k -> (0 < k)%nat -> (List.length (digits n) <= k)%nat.
Proof.
  intros Hn Hk. unfold digits. rewrite length_rev.
  apply digits_lsd_length; [assumption..|apply log2_to_nat].
Qed.

Lemma digits_nonnil n : digits n <> [].
Proof.
  unfold digits. intros H. apply (f_equal (@rev Z)) in H. rewrite rev_involutive in H.
  exact (digits_lsd_nonnil _ _ H).
Qed.

Lemma digit_char_ord d : digit_ok d -> ord (digit_char d) = 48 + d.
Proof. unfold digit_ok, digit_char. intros. apply ord_chr. unfold byte_ok. lia. Qed.

Lemma is_digit_digit_char d : digit_ok d -> is_digit (digit_char d) = true.
Proof.
  intros H. unfold is_digit. rewrite digit_char_ord by assumption.
  unfold digit_ok in H. rewrite andb_true_iff, !Z.leb_le. lia.
Qed.

Lemma digit_val_char d : digit_ok d -> digit_val (digit_char d) = d.
Proof. intros H. unfold digit_val. rewrite digit_char_ord by assumption. lia. Qed.

Lemma is_digit_not_space c : is_digit c = true -> is_space c = false.
Proof.
  unfold is_digit, is_space. rewrite andb_true_iff, !Z.leb_le. intros H.
  apply orb_false_iff. split; apply andb_false_iff; rewrite !Z.leb_gt; lia.
Qed.

Lemma int_digits_spec ds acc k :
  Forall digit_ok ds ->
  int_digits acc k (map digit_char ds)
  = Some (value_msd acc ds, k + Z.of_nat (List.length ds)).
Proof.
  revert acc k. induction ds as [|d ds IH]; intros acc k H; cbn [int_digits map].
  - unfold value_msd. simpl. f_equal. f_equal. lia.
  - inversion H; subst.
    rewrite is_digit_digit_char, digit_val_char by assumption.
    rewrite IH by assumption. unfold value_msd. simpl fold_left.
    f_equal. f_equal. cbn [List.length]. lia.
Qed.

Lemma int_unsigned_spec ds :
  Forall digit_ok ds -> ds <> [] ->
  int_unsigned (map digit_char ds)
  = Some (value_msd 0 ds, Z.of_nat (List.length ds)).
Proof.
  intros H Hne. destruct ds as [|d ds]; [congruence|].
  inversion H; subst. cbn [int_unsigned map].
  rewrite is_digit_digit_char, digit_val_char by assumption.
  rewrite int_digits_spec by assumption. f_equal. f_equal.
  cbn [List.length]. lia.
Qed.

Lemma dropwhile_none {A} (p : A -> bool) l :
  Forall (fun a => p a = false) l -> dropwhile p l = l.
Proof. destruct l; [reflexivity|]. intros H. inversion H; subst. simpl. now rewrite H2. Qed.

Lemma rdropwhile_none {A} (p : A -> bool) l :
  Forall (fun a => p a = false) l -> rdropwhile p l = l.
Proof.
  intros H. unfold rdropwhile. rewrite dropwhile_none by (apply Forall_rev, H).
  apply rev_involutive.
Qed.

Lemma strip_none s :
  Forall (fun c => is_space c = false) (chars s) -> strip s = s.
Proof.
  intros H. unfold strip, strip_p, rstrip_p, lstrip_p, on_chars.
  rewrite dropwhile_none by assumption. rewrite chars_str.
  rewrite rdropwhile_none by assumption. apply str_chars.
Qed.

Lemma digit_chars_not_space ds :
  Forall digit_ok ds -> Forall (fun c => is_space c = false) (map digit_char ds).
Proof.
  intros H. apply Forall_map. eapply Forall_impl; [|exact H].
  intros d Hd. apply is_digit_not_space, is_digit_digit_char, Hd.
Qed.

Lemma value_msd_zeros n ds : value_msd 0 (repeat 0 n ++ ds)%list = value_msd 0 ds.
Proof. induction n as [|n IH]; [reflexivity|]. exact IH. Qed.

Lemma zeros_chars n : chars (zeros n) = map digit_char (repeat 0 n).
Proof.
  unfold zeros. rewrite chars_str, map_repeat. reflexivity.
Qed.

(** The characters of a non-empty run of digits, after an optional sign. *)
Lemma py_int_signed (neg : bool) ds :
  Forall digit_ok ds -> ds <> [] -> Z.of_nat (List.length ds) <= max_str_digits ->
  py_int ((if neg then "-" else "") ++ digit_string ds)%string
  = Ok (if neg then - value_msd 0 ds else value_msd 0 ds).
Proof.
  intros Hd Hne Hlen. unfold py_int.
  assert (chars ((if neg then "-" else "") ++ digit_string ds)%string
          = ((if neg then ["-"%char] else []) ++ map digit_char ds)%list) as Hc.
  { rewrite chars_app. unfold digit_string. rewrite chars_str. now destruct neg. }
  rewrite strip_none.
  2:{ rewrite Hc. apply Forall_app. split; [|apply digit_chars_not_space, Hd].
      destruct neg; repeat constructor. }
  rewrite Hc. destruct neg.
  - cbn [app split_sign]. rewrite Ascii.eqb_refl.
    rewrite int_unsigned_spec by assumption.
    apply Z.leb_le in Hlen. now rewrite Hlen.
  - cbn [app].
    assert (split_sign (map digit_char ds) = (false, map digit_char ds)) as ->.
    { destruct ds as [|d ds]; [congruence|]. inversion Hd; subst.
      cbn [map split_sign].
      pose proof (digit_char_ord d H1) as Ho. unfold digit_ok in H1.
      destruct (Ascii.eqb_spec (digit_char d) "-") as [E|_].
      { rewrite E in Ho. change (ord "-") with 45 in Ho. lia. }
      destruct (Ascii.eqb_spec (digit_char d) "+") as [E|_]; [|reflexivity].
      rewrite E in Ho. change (ord "+") with 43 in Ho. lia. }
    rewrite int_unsigned_spec by assumption.
    apply Z.leb_le in Hlen. now rewrite Hlen.
Qed.

Lemma digit_string_app a b : digit_string a ++ digit_string b = digit_string (a ++ b)%list.
Proof.
  unfold digit_string. rewrite map_app.
  rewrite <- (str_chars (str (map digit_char a) ++ str (map digit_char b))).
  now rewrite chars_app, !chars_str.
Qed.

Lemma digit_string_length ds : String.length (digit_string ds) = List.length ds.
Proof. unfold digit_string. now rewrite <- chars_length, chars_str, length_map. Qed.

Lemma zeros_digits n : zeros n = digit_string (repeat 0 n).
Proof. unfold digit_string. now rewrite <- zeros_chars, str_chars. Qed.

Lemma fmt_0d_unfold w n :
  fmt_0d w n
  = (if n <? 0 then "-" else "")
     ++ digit_string (repeat 0 (w - (if n <? 0 then 1 else 0)
                                - List.length (digits (Z.abs n)))
                      ++ digits (Z.abs n))%list.
Proof.
  unfold fmt_0d. rewrite digit_string_length, <- digit_string_app, zeros_digits.
  destruct (n <? 0); simpl String.length; rewrite ?Nat.sub_0_r; reflexivity.
Qed.

(** Reading back a zero-padded decimal gives the integer written. *)
Lemma py_int_fmt_0d w n :
  Z.of_nat w <= max_str_digits -> Z.abs n < 10 ^ max_str_digits ->
  py_int (fmt_0d w n) = Ok n.
Proof.
  assert (0 < max_str_digits) as HM by reflexivity.
  intros Hw Hn. rewrite fmt_0d_unfold.
  destruct (digits_spec (Z.abs n) ltac:(lia)) as [Hd Hv].
  pose proof (digits_length (Z.abs n) (Z.to_nat max_str_digits)) as Hl.
  rewrite Z2Nat.id in Hl by lia. specialize (Hl ltac:(lia) ltac:(lia)).
  rewrite py_int_signed.
  - rewrite value_msd_zeros, Hv. destruct (Z.ltb_spec n 0); f_equal; lia.
  - apply Forall_app. split; [|exact Hd].
    apply Forall_forall. intros x Hx. apply repeat_spec in Hx. subst.
    unfold digit_ok. lia.
  - intros H. apply app_eq_nil in H. now apply (digits_nonnil (Z.abs n)).
  - rewrite length_app, repeat_length. lia.
Qed.

(** The padded text is at least [w] characters wide, and exactly [w] when the
    number fits. *)
Lemma fmt_0d_length w n :
  0 <= n < 10 ^ Z.of_nat w -> (0 < w)%nat -> String.length (fmt_0d w n) = w.
Proof.
  intros Hn Hw. rewrite fmt_0d_unfold.
  destruct (Z.ltb_spec n 0); [lia|]. simpl append.
  rewrite digit_string_length, length_app, repeat_length, Nat.sub_0_r.
  pose proof (digits_length (Z.abs n) w ltac:(lia) Hw). lia.
Qed.
