(* ===== verification/FloatFacts.v ===== *)
(** Facts about binary64: the shape of a rounded result, the one-ulp bound of
    a division, exact conversion of small integers, order of clamped values,
    and the exactness of [f"{n / c:.pf}"] for an integer [n] and a power of
    ten [c]. *)

From Stdlib Require Import ZArith List Bool Lia String Ascii Floats.SpecFloat.
From S2P Require Import Prelude PyStr PyInt PyFloat.
Import ListNotations.
#[local] Open Scope string_scope.
#[local] Open Scope Z_scope.

(** ** Digits and shifts *)

Lemma digits2_log2 m : Zpos (digits2_pos m) = Z.log2 (Zpos m) + 1.
Proof.
  induction m as [m IH|m IH|]; simpl digits2_pos; [| |reflexivity];
    rewrite Pos2Z.inj_succ, IH.
  - rewrite (Pos2Z.inj_xI m), Z.log2_succ_double by lia. lia.
  - rewrite (Pos2Z.inj_xO m), Z.log2_double by lia. lia.
Qed.

Lemma Zdigits2_log2 m : 0 < m -> Zdigits2 m = Z.log2 m + 1.
Proof. destruct m; try lia. intros _. apply digits2_log2. Qed.

Lemma iter_pos_comm {A} (f : A -> A) p x : iter_pos f p (f x) = f (iter_pos f p x).
Proof.
  revert x. induction p as [p IH|p IH|]; intros x; simpl; [now rewrite !IH..|].
  reflexivity.
Qed.

Lemma iter_pos_succ {A} (f : A -> A) p x : iter_pos f (Pos.succ p) x = iter_pos f p (f x).
Proof.
  revert x. induction p as [p IH|p IH|]; intros x; simpl; [|reflexivity..].
  now rewrite !IH, (iter_pos_comm f p (f x)).
Qed.

Lemma shr_1_m r : 0 <= shr_m r -> shr_m (shr_1 r) = shr_m r / 2.
Proof.
  destruct r as [m r s]. simpl. intros H.
  destruct m as [|[p|p|]|p]; simpl; try reflexivity; [..|lia].
  - rewrite (Pos2Z.inj_xI p), Z.add_comm, Z.mul_comm, Z.div_add by lia.
    now rewrite Z.div_small.
  - now rewrite (Pos2Z.inj_xO p), Z.mul_comm, Z.div_mul.
Qed.

Lemma iter_shr_m p r :
  0 <= shr_m r -> shr_m (iter_pos shr_1 p r) = shr_m r / 2 ^ Zpos p.
Proof.
  revert r. induction p as [|p IH] using Pos.peano_ind; intros r H.
  - apply shr_1_m, H.
  - rewrite iter_pos_succ, IH, shr_1_m.
    + rewrite Z.div_div by lia. f_equal.
      now rewrite Pos2Z.inj_succ, Z.pow_succ_r by lia.
    + assumption.
    + rewrite shr_1_m by assumption. apply Z.div_pos; lia.
Qed.

Lemma shr_spec r e n :
  0 <= shr_m r -> 0 <= n ->
  shr_m (fst (shr r e n)) = shr_m r / 2 ^ n /\ snd (shr r e n) = e + n.
Proof.
  intros Hr Hn. destruct n as [|p|p]; simpl; [|split; [apply iter_shr_m, Hr|]|lia].
  - split; [symmetry; apply Z.div_1_r|lia].
  - reflexivity.
Qed.

Lemma shr_record_m m l : shr_m (shr_record_of_loc m l) = m.
Proof. now destruct l as [|[]]. Qed.

(** What rounding to nearest may do to a mantissa. *)
Lemma round_nearest_even_cases m l :
  round_nearest_even m l = m \/ round_nearest_even m l = m + 1.
Proof. destruct l as [|[]]; simpl; auto. destruct (Z.even m); auto. Qed.

Abbreviation fexp64 := (fexp 53 1024).

Lemma fexp64_le e : e - 53 <= fexp64 e.
Proof. unfold fexp. lia. Qed.

Lemma fexp64_normal e : -1021 <= e -> fexp64 e = e - 53.
Proof. unfold fexp, emin. lia. Qed.

Lemma log2_of_bounds a n : 0 <= n -> 2 ^ n <= a < 2 ^ (n + 1) -> Z.log2 a = n.
Proof. intros Hn H. apply Z.log2_unique; [lia|]. now rewrite Z.add_1_r in H. Qed.

Create HintDb pyfloat.

(** ** A rounded result has at most 53 bits *)

Definition small_mant (x : float) : Prop :=
  match x with
  | S754_finite _ m _ => Zpos m < 2 ^ 53
  | _ => True
  end.

Lemma shr_fexp_bound m e l :
  0 <= m -> 0 <= shr_m (fst (shr_fexp 53 1024 m e l)) < 2 ^ 53.
Proof.
  intros Hm. unfold shr_fexp.
  set (n := fexp64 (Zdigits2 m + e) - e).
  pose proof (fexp64_le (Zdigits2 m + e)) as Hf.
  assert (Hb : m < 2 ^ (53 + Z.max n 0)).
  { destruct (Z.eq_dec m 0) as [->|Hne]; [apply Z.pow_pos_nonneg; lia|].
    rewrite Zdigits2_log2 in Hf by lia. unfold n. rewrite Zdigits2_log2 by lia.
    apply Z.log2_lt_pow2; lia. }
  destruct (Z.le_gt_cases 0 n) as [Hn|Hn].
  - destruct (shr_spec (shr_record_of_loc m l) e n) as [-> _];
      rewrite ?shr_record_m; [assumption..|].
    rewrite Z.max_l, Z.add_comm, Z.pow_add_r in Hb by lia.
    assert (0 < 2 ^ n) by (apply Z.pow_pos_nonneg; lia).
    split; [apply Z.div_pos; lia|apply Z.div_lt_upper_bound; lia].
  - rewrite Z.max_r in Hb by lia.
    destruct n as [|p|p]; simpl shr; simpl fst; rewrite ?shr_record_m; lia.
Qed.

Lemma binary_round_aux_small s m e l :
  0 <= m -> small_mant (binary_round_aux 53 1024 s m e l).
Proof.
  intros Hm. unfold binary_round_aux.
  destruct (shr_fexp 53 1024 m e l) as [r1 e1] eqn:E1.
  pose proof (shr_fexp_bound m e l Hm) as H1. rewrite E1 in H1. simpl fst in H1.
  set (m2 := round_nearest_even _ _).
  assert (0 <= m2) as Hm2.
  { unfold m2. destruct (round_nearest_even_cases (shr_m r1) (loc_of_shr_record r1))
      as [-> | ->]; lia. }
  destruct (shr_fexp 53 1024 m2 e1 loc_Exact) as [r2 e2] eqn:E2.
  pose proof (shr_fexp_bound m2 e1 loc_Exact Hm2) as H2. rewrite E2 in H2. simpl fst in H2.
  destruct (shr_m r2); simpl; try exact I. destruct (e2 <=? _); simpl; [lia|exact I].
Qed.

Lemma SFdiv_core_nonneg m1 e1 m2 e2 q e l :
  0 < m2 -> 0 <= m1 -> SFdiv_core_binary 53 1024 m1 e1 m2 e2 = (q, e, l) -> 0 <= q.
Proof.
  intros H2 H1. unfold SFdiv_core_binary.
  set (m' := match _ with Z0 => _ | Zpos _ => _ | Zneg _ => _ end).
  assert (0 <= m') as Hm'.
  { unfold m'. destruct (_ - _ - _); [assumption|apply Z.shiftl_nonneg, H1|lia]. }
  pose proof (Z.div_pos m' m2 Hm' H2) as Hq. unfold Z.div in Hq.
  destruct (Z.div_eucl m' m2) as [q' r]. intros H. injection H as <- _ _. exact Hq.
Qed.

Lemma fratio_small s n d : small_mant (fratio s n d).
Proof.
  unfold fratio, round_mant.
  destruct (SFdiv_core_binary _ _ _ _ _ _) as [[q e] l] eqn:E.
  apply binary_round_aux_small. apply SFdiv_core_nonneg in E; lia.
Qed.

Lemma fdiv_nz_small x y : small_mant (fdiv_nz x y).
Proof.
  destruct x as [sx|sx| |sx mx ex], y as [sy|sy| |sy my ey]; try exact I.
  unfold fdiv_nz, SFdiv.
  destruct (SFdiv_core_binary _ _ _ _ _ _) as [[q e] l] eqn:E.
  apply binary_round_aux_small. apply SFdiv_core_nonneg in E; lia.
Qed.

Lemma fmul_small x y : small_mant (fmul x y).
Proof.
  destruct x as [sx|sx| |sx mx ex], y as [sy|sy| |sy my ey]; try exact I.
  unfold fmul, SFmul. apply binary_round_aux_small. lia.
Qed.

#[export] Hint Resolve fratio_small fdiv_nz_small fmul_small : pyfloat.

Lemma binary_normalize_small m e z : small_mant (binary_normalize 53 1024 m e z).
Proof.
  assert (forall s p, small_mant (binary_round 53 1024 s p e)) as H.
  { intros s p. unfold binary_round. destruct (shl_align _ _ _) as [mz ez].
    apply binary_round_aux_small. lia. }
  destruct m; [exact I|apply H..].
Qed.

Lemma fadd_small x y : small_mant x -> small_mant y -> small_mant (fadd x y).
Proof.
  intros Hx Hy. destruct x as [[]|[]| |[] mx ex], y as [[]|[]| |[] my ey];
    try exact I; try assumption; apply binary_normalize_small.
Qed.

Lemma fsub_small x y : small_mant x -> small_mant y -> small_mant (fsub x y).
Proof.
  intros Hx Hy. destruct x as [[]|[]| |[] mx ex], y as [[]|[]| |[] my ey];
    try exact I; try assumption; apply binary_normalize_small.
Qed.

#[export] Hint Resolve binary_normalize_small fadd_small fsub_small : pyfloat.

(** ** Rounding a mantissa with at least 53 bits *)

(** A mantissa [q >= 2^52] whose exponent leaves the result in the normal
    range is rounded to 53 bits, to one of the two neighbours. *)
Lemma binary_round_aux_normal s q e l :
  2 ^ 52 <= q -> -1074 <= e -> Z.log2 q + e < 1000 ->
  exists m e1 r k, binary_round_aux 53 1024 s q e l = S754_finite s m e1
  /\ 2 ^ 52 <= Zpos m < 2 ^ 53
  /\ k = Z.log2 q - 52 /\ 0 <= k
  /\ (r = q / 2 ^ k \/ r = q / 2 ^ k + 1)
  /\ e + k <= e1 <= e + k + 1 /\ Zpos m * 2 ^ (e1 - (e + k)) = r
  /\ (k = 0 -> l = loc_Exact -> r = q).
Proof.
  intros Hq He Hl.
  assert (Hlog : 52 <= Z.log2 q) by (apply Z.log2_le_pow2; lia).
  set (k := Z.log2 q - 52).
  unfold binary_round_aux, shr_fexp.
  rewrite Zdigits2_log2, fexp64_normal by lia.
  replace (Z.log2 q + 1 + e - 53 - e) with k by (unfold k; lia).
  destruct (shr_spec (shr_record_of_loc q l) e k) as [Hm He1];
    rewrite ?shr_record_m in *; [lia|unfold k; lia|].
  destruct (shr (shr_record_of_loc q l) e k) as [r1 e1] eqn:Er1.
  simpl fst in *; simpl snd in *. subst e1.
  assert (Hr1 : 2 ^ 52 <= shr_m r1 < 2 ^ 53).
  { rewrite Hm. pose proof (Z.log2_spec q ltac:(lia)) as [Hlo Hhi].
    replace (Z.log2 q) with (52 + k) in Hlo, Hhi by (unfold k; lia).
    assert (0 < 2 ^ k) by (apply Z.pow_pos_nonneg; unfold k; lia).
    rewrite Z.pow_add_r in Hlo by (unfold k; lia).
    replace (Z.succ (52 + k)) with (53 + k) in Hhi by lia.
    rewrite Z.pow_add_r in Hhi by (unfold k; lia).
    split; [apply Z.div_le_lower_bound|apply Z.div_lt_upper_bound]; lia. }
  set (m2 := round_nearest_even _ _).
  assert (Hm2 : m2 = shr_m r1 \/ m2 = shr_m r1 + 1) by apply round_nearest_even_cases.
  assert (Hexact : k = 0 -> l = loc_Exact -> m2 = q).
  { intros Hk ->. unfold m2. rewrite Hk in Er1. simpl in Er1.
    injection Er1 as <- _. reflexivity. }
  rewrite Zdigits2_log2 by lia.
  destruct (Z.eq_dec m2 (2 ^ 53)) as [E53|N53].
  - (* carry out of the 53 bits *)
    rewrite E53. change (Z.log2 (2 ^ 53)) with 53.
    rewrite fexp64_normal by lia.
    replace (53 + 1 + (e + k) - 53 - (e + k)) with 1 by lia.
    simpl shr. cbn [shr_m].
    destruct (Z.leb_spec (e + k + 1) (1024 - 53)); [|unfold k in *; lia].
    exists 4503599627370496%positive, (e + k + 1), m2, k.
    repeat split; try lia.
    + replace (e + k + 1 - (e + k)) with 1 by lia. lia.
    + exact Hexact.
  - assert (Hm2r : 2 ^ 52 <= m2 < 2 ^ 53) by lia.
    rewrite (log2_of_bounds m2 52) by lia.
    rewrite fexp64_normal by lia.
    replace (52 + 1 + (e + k) - 53 - (e + k)) with 0 by lia.
    simpl shr. cbn [shr_m]. destruct m2 as [|p|p] eqn:Em2; [lia| |lia].
    destruct (Z.leb_spec (e + k) (1024 - 53)); [|unfold k in *; lia].
    exists p, (e + k), (Zpos p), k.
    repeat split; try lia.
    + rewrite Z.sub_diag. lia.
    + exact Hexact.
Qed.

(** ** Small integers convert exactly *)

Definition zval (n : positive) : float :=
  S754_finite false (Z.to_pos (Zpos n * 2 ^ (52 - Z.log2 (Zpos n)))) (Z.log2 (Zpos n) - 52).

Lemma norm_mant_bounds n : Zpos n < 2 ^ 53 ->
  2 ^ 52 <= Zpos n * 2 ^ (52 - Z.log2 (Zpos n)) < 2 ^ 53.
Proof.
  intros Hn. pose proof (Z.log2_spec (Zpos n) ltac:(lia)) as [Hlo Hhi].
  assert (Z.log2 (Zpos n) < 53) by (apply Z.log2_lt_pow2; lia).
  pose proof (Z.log2_nonneg (Zpos n)).
  set (L := Z.log2 (Zpos n)) in *.
  assert (0 < 2 ^ (52 - L)) by (apply Z.pow_pos_nonneg; lia).
  assert (2 ^ L * 2 ^ (52 - L) = 2 ^ 52) by (rewrite <- Z.pow_add_r by lia; f_equal; lia).
  assert (2 ^ Z.succ L * 2 ^ (52 - L) = 2 ^ 53)
    by (rewrite <- Z.pow_add_r by lia; f_equal; lia).
  nia.
Qed.

Lemma Pos_iter_xO n p : Zpos (Pos.iter xO n p) = Zpos n * 2 ^ Zpos p.
Proof.
  induction p as [|p IH] using Pos.peano_ind; [simpl; lia|].
  rewrite Pos.iter_succ, Pos2Z.inj_xO, IH, Pos2Z.inj_succ, Z.pow_succ_r by lia. lia.
Qed.

Lemma float_of_Z_pos n : Zpos n < 2 ^ 53 -> float_of_Z (Zpos n) = zval n.
Proof.
  intros Hn. pose proof (norm_mant_bounds n Hn) as Hb.
  assert (HL : Z.log2 (Zpos n) < 53) by (apply Z.log2_lt_pow2; lia).
  pose proof (Z.log2_nonneg (Zpos n)) as HL0.
  unfold float_of_Z, binary_normalize, binary_round.
  rewrite digits2_log2, fexp64_normal by lia.
  replace (Z.log2 (Zpos n) + 1 + 0 - 53) with (Z.log2 (Zpos n) - 52) by lia.
  assert (shl_align n 0 (Z.log2 (Zpos n) - 52)
          = (Z.to_pos (Zpos n * 2 ^ (52 - Z.log2 (Zpos n))), Z.log2 (Zpos n) - 52)) as ->.
  { unfold shl_align. rewrite Z.sub_0_r.
    destruct (Z.log2 (Zpos n) - 52) as [|d|d] eqn:Ed; [|lia|].
    - replace (52 - Z.log2 (Zpos n)) with 0 by lia. rewrite Z.mul_1_r. reflexivity.
    - f_equal. apply Pos2Z.inj. rewrite Pos_iter_xO, Z2Pos.id by lia.
      f_equal. f_equal. lia. }
  set (M := Zpos n * 2 ^ (52 - Z.log2 (Zpos n))) in *.
  assert (HM : Zpos (Z.to_pos M) = M) by (apply Z2Pos.id; lia).
  assert (HlogM : Z.log2 (Zpos (Z.to_pos M)) = 52)
    by (apply log2_of_bounds; rewrite ?HM; lia).
  edestruct (binary_round_aux_normal false (Zpos (Z.to_pos M))
               (Z.log2 (Zpos n) - 52) loc_Exact)
    as (m & e1 & r & k & -> & Hm & Hk & Hk0 & _ & He1 & Hr & Hex); [lia..|].
  assert (k = 0) by lia. clear Hk. subst k.
  rewrite Hex in Hr by (lia || reflexivity). unfold zval. fold M.
  assert (e1 - (Z.log2 (Zpos n) - 52 + 0) = 0) as Hz.
  { destruct (Z.eq_dec (e1 - (Z.log2 (Zpos n) - 52 + 0)) 0) as [|Hne]; [assumption|].
    assert (2 <= 2 ^ (e1 - (Z.log2 (Zpos n) - 52 + 0)))
      by (change 2 with (2 ^ 1) at 1; apply Z.pow_le_mono_r; lia).
    set (P := 2 ^ (e1 - _)) in *.
    assert (2 ^ 52 * 2 <= Zpos m * P) by (apply Z.mul_le_mono_nonneg; lia). lia. }
  rewrite Hz, Z.mul_1_r, HM in Hr. f_equal; lia.
Qed.

(** ** The rounding bound of a division *)

Lemma floor_bounds a b : 0 < b -> a / b * b <= a < (a / b + 1) * b.
Proof. intros Hb. pose proof (Z.div_mod a b). pose proof (Z.mod_pos_bound a b). nia. Qed.

(** Arithmetic core: [r] is one of the two multiples of [2^k] around the
    truncated quotient [q]. *)
Lemma quotient_error m' m2 q k r B :
  0 < m2 -> 0 < B -> 0 <= k -> q = m' / m2 ->
  r = q / 2 ^ k \/ r = q / 2 ^ k + 1 ->
  Z.abs (r * (2 ^ k * B) * m2 - m' * B) <= m2 * (2 ^ k * B).
Proof.
  intros H2 HB Hk -> Hr.
  pose proof (floor_bounds m' m2 H2) as [Hq1 Hq2]. set (q := m' / m2) in *.
  assert (HK : 0 < 2 ^ k) by (apply Z.pow_pos_nonneg; lia).
  pose proof (floor_bounds q (2 ^ k) HK) as [Hj1 Hj2]. set (j := q / 2 ^ k) in *.
  set (K := 2 ^ k) in *.
  assert (j * K * m2 <= m') by nia.
  assert (m' <= (j + 1) * K * m2) by (assert (q + 1 <= (j + 1) * K) by lia; nia).
  assert (j * K * m2 * B <= m' * B) by nia.
  assert (m' * B <= (j + 1) * K * m2 * B) by nia.
  destruct Hr as [-> | ->]; apply Z.abs_le; lia.
Qed.

Lemma pow2_split a b : 0 <= a -> 0 <= b -> 2 ^ (a + b) = 2 ^ a * 2 ^ b.
Proof. apply Z.pow_add_r. Qed.

Lemma abs_scale_le x y t : 0 < t -> Z.abs (x * t) <= y * t -> Z.abs x <= y.
Proof. intros Ht H. rewrite Z.abs_mul, (Z.abs_eq t) in H by lia. nia. Qed.

(** The quotient computed with one guard shift has at least 53 bits. *)
Lemma core_quotient_bounds m1 m2 s :
  0 < m1 -> 0 < m2 -> 0 <= s -> Z.log2 m2 - Z.log2 m1 + 53 <= s ->
  2 ^ 52 <= m1 * 2 ^ s / m2
  /\ Z.log2 (m1 * 2 ^ s / m2) <= Z.log2 m1 + s - Z.log2 m2.
Proof.
  intros H1 H2 Hs HL.
  pose proof (Z.log2_spec m1 H1) as [Hl1 Hh1].
  pose proof (Z.log2_spec m2 H2) as [Hl2 Hh2].
  pose proof (Z.log2_nonneg m1). pose proof (Z.log2_nonneg m2).
  set (L1 := Z.log2 m1) in *. set (L2 := Z.log2 m2) in *.
  assert (HS : 0 < 2 ^ s) by (apply Z.pow_pos_nonneg; lia).
  assert (Hlow : 2 ^ 52 * m2 <= m1 * 2 ^ s).
  { transitivity (2 ^ (L1 + s)).
    - transitivity (2 ^ (52 + Z.succ L2)); [rewrite pow2_split by lia; nia|].
      apply Z.pow_le_mono_r; lia.
    - rewrite pow2_split by lia. nia. }
  assert (Hq : 2 ^ 52 <= m1 * 2 ^ s / m2) by (apply Z.div_le_lower_bound; lia).
  split; [exact Hq|].
  apply Z.lt_succ_r, Z.log2_lt_pow2; [lia|].
  apply Z.div_lt_upper_bound; [lia|].
  apply Z.lt_le_trans with (2 ^ L2 * 2 ^ Z.succ (L1 + s - L2)).
  - rewrite <- pow2_split by lia.
    replace (L2 + Z.succ (L1 + s - L2)) with (Z.succ L1 + s) by lia.
    rewrite pow2_split by lia. nia.
  - assert (0 < 2 ^ Z.succ (L1 + s - L2)) by (apply Z.pow_pos_nonneg; lia). nia.
Qed.

Lemma div_core_bound sg m1 e1 m2 e2 :
  0 < m1 -> 0 < m2 -> -1000 <= e1 - e2 ->
  -1000 <= (Z.log2 m1 + e1) - (Z.log2 m2 + e2) < 900 ->
  exists m e,
    round_mant sg (SFdiv_core_binary 53 1024 m1 e1 m2 e2) = S754_finite sg m e
    /\ 2 ^ 52 <= Zpos m < 2 ^ 53
    /\ forall p, 1 <= p + e -> 0 <= p + e1 - e2 ->
       Z.abs (Zpos m * 2 ^ (p + e) * m2 - m1 * 2 ^ (p + e1 - e2)) <= m2 * 2 ^ (p + e).
Proof.
  intros H1 H2 He HD. unfold SFdiv_core_binary.
  rewrite !Zdigits2_log2, fexp64_normal by lia.
  set (e' := Z.min _ _). set (s := e1 - e2 - e').
  assert (Hs : 0 <= s) by (unfold s, e'; lia).
  assert (Hm' : match s with Z0 => m1 | Zpos _ => Z.shiftl m1 s | Zneg _ => 0 end
                = m1 * 2 ^ s).
  { destruct s; [|apply Z.shiftl_mul_pow2; lia|lia]. simpl. lia. }
  rewrite Hm'.
  destruct (core_quotient_bounds m1 m2 s H1 H2 Hs) as [Hq HLq]; [unfold s, e'; lia|].
  pose proof (eq_refl (m1 * 2 ^ s / m2)) as Hdiv. unfold Z.div at 1 in Hdiv.
  destruct (Z.div_eucl (m1 * 2 ^ s) m2) as [q rm]. subst q.
  set (q := m1 * 2 ^ s / m2) in *. simpl round_mant.
  destruct (binary_round_aux_normal sg q e' (new_location m2 rm))
    as (m & ef & r & k & -> & Hm & Hk & Hk0 & Hr & Hef & Hmr & _);
    [assumption|unfold e'; lia|unfold s in HLq; lia|].
  exists m, ef. split; [reflexivity|]. split; [exact Hm|]. intros p Hp Hp2.
  set (t := Z.max 0 (- (p + e'))).
  apply (abs_scale_le _ _ (2 ^ t)); [apply Z.pow_pos_nonneg; lia|].
  pose proof (quotient_error (m1 * 2 ^ s) m2 q k r (2 ^ (p + t + e')) H2
                ltac:(apply Z.pow_pos_nonneg; lia) Hk0 eq_refl Hr) as Herr.
  assert (HV : Zpos m * 2 ^ (p + ef) * 2 ^ t = r * (2 ^ k * 2 ^ (p + t + e'))).
  { rewrite <- Hmr, <- !Z.mul_assoc, <- !pow2_split by lia.
    do 2 f_equal. lia. }
  assert (HT : m1 * 2 ^ (p + e1 - e2) * 2 ^ t = m1 * 2 ^ s * 2 ^ (p + t + e')).
  { rewrite <- !Z.mul_assoc, <- !pow2_split by lia. do 2 f_equal. unfold s. lia. }
  assert (HU : 2 ^ k * 2 ^ (p + t + e') <= 2 ^ (p + ef) * 2 ^ t).
  { rewrite <- !pow2_split by lia. apply Z.pow_le_mono_r; lia. }
  replace ((Zpos m * 2 ^ (p + ef) * m2 - m1 * 2 ^ (p + e1 - e2)) * 2 ^ t)
    with (Zpos m * 2 ^ (p + ef) * 2 ^ t * m2 - m1 * 2 ^ (p + e1 - e2) * 2 ^ t) by ring.
  rewrite HV, HT. etransitivity; [exact Herr|]. nia.
Qed.

(** ** Scaled integers render exactly *)

Lemma rhe_near a d N : 0 < d -> 2 * Z.abs (a - N * d) < d -> rhe a d = N.
Proof.
  intros Hd H. unfold rhe.
  destruct (Z.le_gt_cases (N * d) a) as [Hge|Hlt].
  - assert (a / d = N) as Hq by (symmetry; apply (Z.div_unique _ _ _ (a - N * d)); lia).
    assert (a mod d = a - N * d) as -> by (rewrite Z.mod_eq, Hq by lia; ring).
    rewrite Hq. destruct (Z.compare_spec (2 * (a - N * d)) d); [lia|reflexivity|lia].
  - assert (a / d = N - 1) as Hq
      by (symmetry; apply (Z.div_unique _ _ _ (a - (N - 1) * d)); lia).
    assert (a mod d = a - (N - 1) * d) as -> by (rewrite Z.mod_eq, Hq by lia; ring).
    rewrite Hq. destruct (Z.compare_spec (2 * (a - (N - 1) * d)) d); [lia..|].
    lia.
Qed.

Lemma zval_div n c : Zpos n < 2 ^ 53 -> Zpos c < 2 ^ 53 ->
  fdiv_nz (zval n) (zval c)
  = round_mant false
      (SFdiv_core_binary 53 1024 (Zpos n * 2 ^ (52 - Z.log2 (Zpos n))) (Z.log2 (Zpos n) - 52)
         (Zpos c * 2 ^ (52 - Z.log2 (Zpos c))) (Z.log2 (Zpos c) - 52)).
Proof.
  intros Hn Hc. unfold fdiv_nz, zval, SFdiv.
  pose proof (norm_mant_bounds n Hn). pose proof (norm_mant_bounds c Hc).
  rewrite !Z2Pos.id by lia.
  destruct (SFdiv_core_binary _ _ _ _ _ _) as [[q e] l]. reflexivity.
Qed.

(** [n / c] is the real quotient up to one unit in the last place. *)
Lemma fdiv_int_bound n c : Zpos n < 2 ^ 50 -> Zpos c < 2 ^ 53 ->
  exists m e, fdiv_nz (zval n) (zval c) = S754_finite false m e
  /\ 2 ^ 52 <= Zpos m < 2 ^ 53 /\ e < 0
  /\ Z.abs (Zpos m * Zpos c - Zpos n * 2 ^ (- e)) <= Zpos c.
Proof.
  intros Hn Hc. rewrite zval_div by lia.
  pose proof (norm_mant_bounds n ltac:(lia)) as HN.
  pose proof (norm_mant_bounds c Hc) as HC.
  pose proof (Z.log2_nonneg (Zpos n)). pose proof (Z.log2_nonneg (Zpos c)).
  assert (Z.log2 (Zpos n) < 50) by (apply Z.log2_lt_pow2; lia).
  assert (Z.log2 (Zpos c) < 53) by (apply Z.log2_lt_pow2; lia).
  set (Ln := Z.log2 (Zpos n)) in *. set (Lc := Z.log2 (Zpos c)) in *.
  edestruct (div_core_bound false (Zpos n * 2 ^ (52 - Ln)) (Ln - 52)
               (Zpos c * 2 ^ (52 - Lc)) (Lc - 52)) as (m & e & -> & Hm & Herr);
    [lia..|rewrite (log2_of_bounds _ 52), (log2_of_bounds (Zpos c * _) 52) by lia; lia|].
  exists m, e. split; [reflexivity|]. split; [exact Hm|].
  (* the error with a common scale [P] and without the normalising shifts *)
  assert (Hb : forall P, 1 <= P + e -> 0 <= P -> 0 <= P + Ln - Lc ->
     Z.abs (Zpos m * Zpos c * 2 ^ (P + e) - Zpos n * 2 ^ P) <= Zpos c * 2 ^ (P + e)).
  { intros P HP HP0 HPL. specialize (Herr P HP ltac:(lia)).
    apply (abs_scale_le _ _ (2 ^ (52 - Lc))); [apply Z.pow_pos_nonneg; lia|].
    assert (Hs : Zpos n * 2 ^ (52 - Ln) * 2 ^ (P + (Ln - 52) - (Lc - 52))
                 = Zpos n * 2 ^ P * 2 ^ (52 - Lc)).
    { rewrite <- !Z.mul_assoc, <- !pow2_split by lia. do 2 f_equal. lia. }
    rewrite Hs in Herr.
    replace ((Zpos m * Zpos c * 2 ^ (P + e) - Zpos n * 2 ^ P) * 2 ^ (52 - Lc))
      with (Zpos m * 2 ^ (P + e) * (Zpos c * 2 ^ (52 - Lc))
            - Zpos n * 2 ^ P * 2 ^ (52 - Lc)) by ring.
    etransitivity; [exact Herr|]. lia. }
  assert (He : e < 0).
  { destruct (Z.lt_ge_cases e 0) as [|Hge]; [assumption|exfalso].
    specialize (Hb 60 ltac:(lia) ltac:(lia) ltac:(lia)).
    rewrite pow2_split in Hb by lia.
    assert (0 < 2 ^ e) by (apply Z.pow_pos_nonneg; lia).
    assert (2 ^ 52 * 2 ^ 60 <= Zpos m * Zpos c * (2 ^ 60 * 2 ^ e) - Zpos c * (2 ^ 60 * 2 ^ e)
            + 2 ^ 60 * 1) by nia.
    assert (Zpos n * 2 ^ 60 < 2 ^ 50 * 2 ^ 60) by nia. lia. }
  split; [exact He|].
  set (P := 60 - e). specialize (Hb P ltac:(unfold P; lia) ltac:(unfold P; lia) ltac:(unfold P; lia)).
  apply (abs_scale_le _ _ (2 ^ 60)); [lia|].
  replace (P + e) with 60 in Hb by (unfold P; lia).
  replace (2 ^ P) with (2 ^ (- e) * 2 ^ 60) in Hb
    by (rewrite <- pow2_split by lia; f_equal; unfold P; lia).
  replace ((Zpos m * Zpos c - Zpos n * 2 ^ (- e)) * 2 ^ 60)
    with (Zpos m * Zpos c * 2 ^ 60 - Zpos n * (2 ^ (- e) * 2 ^ 60)) by ring.
  exact Hb.
Qed.

Lemma binary_round_aux_neg m e l :
  binary_round_aux 53 1024 true m e l = fneg (binary_round_aux 53 1024 false m e l).
Proof.
  unfold binary_round_aux. destruct (shr_fexp 53 1024 m e l) as [r1 e1].
  destruct (shr_fexp _ _ _ e1 loc_Exact) as [r2 e2].
  destruct (shr_m r2); [reflexivity| |reflexivity]. destruct (e2 <=? _); reflexivity.
Qed.

Lemma float_of_Z_neg n : float_of_Z (Zneg n) = fneg (float_of_Z (Zpos n)).
Proof.
  unfold float_of_Z, binary_normalize, binary_round.
  destruct (shl_align _ _ _) as [mz ez]. apply binary_round_aux_neg.
Qed.

Lemma fdiv_neg n c : fdiv_nz (fneg (zval n)) (zval c) = fneg (fdiv_nz (zval n) (zval c)).
Proof.
  unfold fdiv_nz, zval, fneg, SFopp, SFdiv.
  destruct (SFdiv_core_binary _ _ _ _ _ _) as [[q e1] l]. apply binary_round_aux_neg.
Qed.

(** The digits printed for [n / c] with [p] places are those of the exact
    decimal [n * (10^p / c) / 10^p]. *)
Lemma fdiv_int_digits n c g p : Zpos n < 2 ^ 40 -> (p <= 2)%nat ->
  Zpos c * Zpos g = 10 ^ Z.of_nat p ->
  exists m e, fdiv_nz (zval n) (zval c) = S754_finite false m e
  /\ rhe (frac_num m e (10 ^ Z.of_nat p)) (frac_den e) = Zpos n * Zpos g.
Proof.
  intros Hn Hp Hcg.
  assert (H10 : 10 ^ Z.of_nat p <= 100) by (change 100 with (10 ^ 2); apply Z.pow_le_mono_r; lia).
  destruct (fdiv_int_bound n c) as (m & e & Hdiv & Hm & He & Herr); [lia|nia|].
  exists m, e. split; [exact Hdiv|].
  unfold frac_num, frac_den. rewrite Z.max_r, (Z.max_l (- e)) by lia.
  apply rhe_near; [apply Z.pow_pos_nonneg; lia|].
  set (D := 2 ^ (- e)) in *.
  assert (HD : 2 ^ 10 < D).
  { assert (HDp : 0 < D) by (apply Z.pow_pos_nonneg; lia).
    assert ((2 ^ 52 - 1) * Zpos c <= Zpos n * D) by nia. nia. }
  replace (Zpos m * 2 ^ 0 * 10 ^ Z.of_nat p - Zpos n * Zpos g * D)
    with ((Zpos m * Zpos c - Zpos n * D) * Zpos g) by (rewrite <- Hcg; ring).
  rewrite Z.abs_mul. nia.
Qed.

(** Rounding to the nearest integer is off by half at most. *)
Lemma rhe_half a d : 0 < d -> 2 * Z.abs (a - rhe a d * d) <= d.
Proof.
  intros Hd. unfold rhe. pose proof (Z.div_mod a d ltac:(lia)) as E. pose proof (Z.mod_pos_bound a d Hd) as Hm.
  set (q := a / d) in *. set (r := a mod d) in *. clearbody q r. subst a.
  destruct (Z.compare_spec (2 * r) d); [destruct (Z.even q)|..]; nia.
Qed.

(** [f"{n / 100:.1f}"] prints a nearest tenth. *)
Lemma fmt_hundredths_1 n : 0 <= n < 2 ^ 40 -> exists N, 0 <= N /\ Z.abs (10 * N - n) <= 5
  /\ fmt_f 1 (fdiv_nz (float_of_Z n) (float_of_Z 100)) = fixed_text 1 N.
Proof.
  intros Hn. destruct n as [|n|n]; [exists 0; repeat split; lia| |lia].
  change (float_of_Z 100) with (zval 100). rewrite float_of_Z_pos by lia.
  destruct (fdiv_int_bound n 100) as (m & e & -> & Hm & He & Herr); [lia..|].
  unfold fmt_f. cbn [append]. unfold frac_num, frac_den. rewrite Z.max_r, (Z.max_l (- e)) by lia.
  set (D := 2 ^ (- e)) in *. assert (0 < D) as HDp by (apply Z.pow_pos_nonneg; lia).
  assert (2 ^ 10 < D) as HD by (assert ((2 ^ 52 - 1) * 100 <= Zpos n * D) by nia; nia).
  set (a := Zpos m * 2 ^ 0 * 10 ^ Z.of_nat 1). assert (a = 10 * Zpos m) as Ea by (unfold a; change (2 ^ 0) with 1; change (10 ^ Z.of_nat 1) with 10; lia).
  pose proof (rhe_half a D HDp) as Hr. exists (rhe a D). split; [|split; [|reflexivity]]; nia.
Qed.

(** [f"{n:.1f}"] of an integer. *)
Lemma fmt_int_1 n : 0 <= n < 2 ^ 40 -> fmt_f 1 (float_of_Z n) = fixed_text 1 (10 * n).
Proof.
  intros Hn. destruct n as [|n|n]; [reflexivity| |lia]. rewrite float_of_Z_pos by lia. unfold zval, fmt_f. cbn [append].
  assert (Z.log2 (Zpos n) < 40) by (apply Z.log2_lt_pow2; lia). pose proof (Z.log2_nonneg (Zpos n)).
  unfold frac_num, frac_den. rewrite Z.max_r, Z.max_l by lia.
  assert (0 < 2 ^ (52 - Z.log2 (Zpos n))) as HD by (apply Z.pow_pos_nonneg; lia).
  rewrite Z2Pos.id by nia. rewrite (rhe_near _ _ (10 * Zpos n)); [reflexivity| |].
  - apply Z.pow_pos_nonneg; lia.
  - replace (- (Z.log2 (Zpos n) - 52)) with (52 - Z.log2 (Zpos n)) by lia. change (10 ^ Z.of_nat 1) with 10.
    change (2 ^ 0) with 1. lia.
Qed.

(** [f"{n / c:.pf}"] for a divisor [c] of [10^p]. *)
Theorem fmt_scaled n c g p : Z.abs n < 2 ^ 40 -> (p <= 2)%nat ->
  Zpos c * Zpos g = 10 ^ Z.of_nat p ->
  fmt_f p (fdiv_nz (float_of_Z n) (float_of_Z (Zpos c)))
  = (if n <? 0 then "-" else "") ++ fixed_text p (Z.abs n * Zpos g).
Proof.
  intros Hn Hp Hcg.
  assert (H10 : 10 ^ Z.of_nat p <= 100) by (change 100 with (10 ^ 2); apply Z.pow_le_mono_r; lia).
  rewrite (float_of_Z_pos c) by nia.
  destruct n as [|n|n].
  - reflexivity.
  - rewrite float_of_Z_pos by lia.
    destruct (fdiv_int_digits n c g p) as (m & e & -> & Hr); [lia..|].
    unfold fmt_f. rewrite Hr. reflexivity.
  - assert (float_of_Z (Zneg n) = fneg (zval n)) as ->.
    { rewrite <- float_of_Z_pos by lia. apply float_of_Z_neg. }
    destruct (fdiv_int_digits n c g p) as (m & e & Hd & Hr); [lia..|].
    rewrite fdiv_neg, Hd. unfold fneg, SFopp, fmt_f. rewrite Hr. reflexivity.
Qed.

(** ** Order *)

Lemma SFcompare_refl x : is_nan x = false -> SFcompare x x = Some Eq.
Proof.
  destruct x as [[]|[]| |[] m e]; try discriminate; try reflexivity; intros _;
    simpl; rewrite Z.compare_refl, Pos.compare_cont_refl; reflexivity.
Qed.

Lemma fle_refl x : is_nan x = false -> fle x x = true.
Proof. intros H. unfold fle, SFleb. now rewrite SFcompare_refl. Qed.

Lemma flt_fle x y : flt x y = true -> fle x y = true.
Proof. unfold flt, fle, SFltb, SFleb. destruct (SFcompare x y) as [[]|]; easy. Qed.

(** [max(lo, min(hi, v))] *)
Definition clamp (value lo hi : float) : float := fmax lo (fmin hi value).

(** The clamp lands between its bounds whatever the value is, NaN included. *)
Lemma clamp_range v lo hi :
  is_nan lo = false -> is_nan hi = false -> fle lo hi = true ->
  fle lo (clamp v lo hi) = true /\ fle (clamp v lo hi) hi = true.
Proof.
  intros Hlo Hhi Hle. unfold clamp, fmax, fmin, fgt.
  destruct (flt v hi) eqn:Ev.
  - destruct (flt lo v) eqn:El; split; auto using flt_fle, fle_refl.
  - destruct (flt lo hi) eqn:El; split; auto using flt_fle, fle_refl.
Qed.

Lemma clamp_cases v lo hi :
  clamp v lo hi = lo \/ clamp v lo hi = hi \/ clamp v lo hi = v.
Proof. unfold clamp, fmax, fmin. destruct (flt v hi), (fgt _ lo); auto. Qed.

Lemma clamp_id v lo hi : flt lo v = true -> flt v hi = true -> clamp v lo hi = v.
Proof. intros Hl Hh. unfold clamp, fmin, fmax, fgt. now rewrite Hh, Hl. Qed.

(** ** [round(x, 2)] of a percentage *)

Definition f100 : float := float_of_Z 100.
Definition f0 : float := S754_zero false.

Lemma f100_val : f100 = S754_finite false 7036874417766400 (-46).
Proof. reflexivity. Qed.

(** The order of two positive finite values, exponent first. *)
Lemma fle_finite m1 e1 m2 e2 :
  fle (S754_finite false m1 e1) (S754_finite false m2 e2) = true
  <-> e1 < e2 \/ (e1 = e2 /\ Zpos m1 <= Zpos m2).
Proof.
  unfold fle, SFleb, SFcompare. destruct (Z.compare_spec e1 e2) as [->|H|H].
  - replace (Pos.compare_cont Eq m1 m2) with (Pos.compare m1 m2) by reflexivity.
    destruct (Pos.compare_spec m1 m2) as [->|Hc|Hc]; intuition (lia || discriminate).
  - intuition lia.
  - intuition (lia || discriminate).
Qed.

(** The scaled integer of a value in [0, 100] is at most 10000. *)
Lemma pct_scaled_bound m e :
  Zpos m < 2 ^ 53 -> fle (S754_finite false m e) f100 = true ->
  0 <= rhe (frac_num m e 100) (frac_den e) <= 10000.
Proof.
  intros Hm Hle. rewrite f100_val in Hle.
  assert (Hval : e < 0 /\ Zpos m <= 100 * 2 ^ (- e)).
  { apply fle_finite in Hle as [Hlt|[-> Hmm]].
    - split; [lia|]. assert (2 ^ 47 <= 2 ^ (- e)) by (apply Z.pow_le_mono_r; lia). lia.
    - split; [lia|]. change (2 ^ (- (-46))) with 70368744177664. lia. }
  destruct Hval as [He Hv]. unfold frac_num, frac_den.
  rewrite Z.max_r, (Z.max_l (- e)) by lia. set (D := 2 ^ (- e)) in *.
  assert (HD : 0 < D) by (apply Z.pow_pos_nonneg; lia).
  set (a := Zpos m * 2 ^ 0 * 100). assert (Ha : 0 <= a <= 10000 * D) by lia.
  assert (Hq : 0 <= a / D <= 10000)
    by (split; [apply Z.div_pos; lia|apply Z.div_le_upper_bound; lia]).
  unfold rhe. destruct (Z.eq_dec (a / D) 10000) as [E|E].
  - pose proof (Z.mod_pos_bound a D HD) as Hmod.
    pose proof (Z.mod_eq a D ltac:(lia)) as Heq. rewrite E in Heq.
    assert (a mod D = 0) as -> by lia.
    rewrite Z.mul_0_r. destruct (Z.compare_spec 0 D); lia.
  - destruct (Z.compare _ _); [destruct (Z.even _)|..]; lia.
Qed.

Definition in_pct (x : float) : Prop := fle f0 x = true /\ fle x f100 = true.

Lemma fratio_pct n : Zpos n <= 10000 -> in_pct (fratio false n 100).
Proof.
  intros Hn. destruct (Z.eq_dec (Zpos n) 10000) as [E|E].
  { injection E as ->. split; reflexivity. }
  assert (HL : 0 <= Z.log2 (Zpos n) < 14)
    by (split; [apply Z.log2_nonneg|apply Z.log2_lt_pow2; lia]).
  unfold fratio.
  edestruct (div_core_bound false (Zpos n) 0 100 0) as (m & e & -> & Hm & Herr);
    [lia..|change (Z.log2 100) with 6; lia|].
  assert (He : e <= -46 /\ (e = -46 -> Zpos m <= 7036874417766400)).
  { set (P := 100 + Z.abs e). specialize (Herr P ltac:(unfold P; lia) ltac:(unfold P; lia)).
    rewrite !Z.sub_0_r, Z.add_0_r in Herr.
    destruct (Z.le_gt_cases e (-46)) as [Hle|Hgt].
    - split; [exact Hle|]. intros ->. change P with 146 in Herr.
      change (146 + -46) with 100 in Herr. lia.
    - exfalso. assert (HP : 2 ^ P = 2 ^ (P + -45) * 2 ^ 45)
        by (rewrite <- pow2_split by (unfold P; lia); f_equal; lia).
      assert (2 ^ (P + -45) <= 2 ^ (P + e)) by (apply Z.pow_le_mono_r; unfold P; lia).
      assert (0 < 2 ^ (P + -45)) by (apply Z.pow_pos_nonneg; unfold P; lia).
      rewrite HP in Herr. nia. }
  split; [reflexivity|]. rewrite f100_val. apply fle_finite. lia.
Qed.

Lemma round_to_2_pct x : small_mant x -> in_pct x -> in_pct (round_to 2 x).
Proof.
  intros Hs [H0 H1]. destruct x as [s|s| |s m e]; [now split| |discriminate|].
  - destruct s; discriminate.
  - destruct s; [discriminate|]. simpl in Hs.
    pose proof (pct_scaled_bound m e Hs H1) as HN. unfold round_to.
    change (10 ^ Z.of_nat 2) with 100 in *.
    destruct (rhe _ _) as [|n|n]; [now split|apply fratio_pct; lia|lia].
Qed.

(** ** A fraction in [0, 1] times 100 *)

Definition f1 : float := flit 1 1.

Lemma shr_max_spec r e n :
  0 <= shr_m r ->
  shr_m (fst (shr r e n)) = shr_m r / 2 ^ Z.max n 0 /\ snd (shr r e n) = e + Z.max n 0.
Proof.
  intros Hr. destruct (Z.le_gt_cases 0 n).
  - rewrite Z.max_l by lia. now apply shr_spec.
  - destruct n; try lia. simpl. rewrite Z.div_1_r. lia.
Qed.

(** One normalisation step of a value at most [100], scale fixed at [e <= -46]. *)
Lemma shr_fexp_le_100 q e l : 0 <= q -> e <= -46 -> q <= 100 * 2 ^ (- e) ->
  exists k, 0 <= k /\ e + k <= -46
  /\ shr_m (fst (shr_fexp 53 1024 q e l)) = q / 2 ^ k
  /\ snd (shr_fexp 53 1024 q e l) = e + k.
Proof.
  intros Hq He Hb. unfold shr_fexp. set (n := fexp64 (Zdigits2 q + e) - e).
  exists (Z.max n 0).
  destruct (shr_max_spec (shr_record_of_loc q l) e n) as [H1 H2];
    [rewrite shr_record_m; lia|]. rewrite shr_record_m in H1.
  repeat split; auto; [lia|].
  assert (Zdigits2 q + e <= 7).
  { destruct (Z.eq_dec q 0) as [->|]; [simpl; lia|]. rewrite Zdigits2_log2 by lia.
    assert (Z.log2 q < 7 - e); [|lia]. apply Z.log2_lt_pow2; [lia|].
    replace (7 - e) with (7 + - e) by lia. rewrite Z.pow_add_r by lia.
    assert (0 < 2 ^ (- e)) by (apply Z.pow_pos_nonneg; lia). lia. }
  unfold n, fexp, emin. lia.
Qed.

Lemma round_le_100 q e : 0 < q -> e <= -46 -> q < 100 * 2 ^ (- e) ->
  in_pct (binary_round_aux 53 1024 false q e loc_Exact).
Proof.
  intros Hq He Hb. unfold binary_round_aux.
  destruct (shr_fexp_le_100 q e loc_Exact) as (k & Hk & Hek & Hm & Hs); [lia..|].
  destruct (shr_fexp 53 1024 q e loc_Exact) as [r1 e1]. cbn [fst snd] in *. subst e1.
  set (m2 := round_nearest_even _ _).
  assert (HK : 0 < 2 ^ k) by (apply Z.pow_pos_nonneg; lia).
  assert (HE : 0 < 2 ^ (- (e + k))) by (apply Z.pow_pos_nonneg; lia).
  assert (Hsplit : 2 ^ (- e) = 2 ^ (- (e + k)) * 2 ^ k)
    by (rewrite <- pow2_split by lia; f_equal; lia).
  assert (Hq1 : 0 <= q / 2 ^ k < 100 * 2 ^ (- (e + k))).
  { split; [apply Z.div_pos; lia|]. apply Z.div_lt_upper_bound; [lia|]. nia. }
  assert (Hm2 : 0 <= m2 <= 100 * 2 ^ (- (e + k))).
  { unfold m2. destruct (round_nearest_even_cases (shr_m r1) (loc_of_shr_record r1)) as [-> | ->];
      rewrite Hm; lia. }
  clearbody m2.
  destruct (shr_fexp_le_100 m2 (e + k) loc_Exact) as (k2 & Hk2 & Hek2 & Hm3 & Hs3); [lia..|].
  destruct (shr_fexp 53 1024 m2 (e + k) loc_Exact) as [r3 e3]. cbn [fst snd] in *. subst e3.
  assert (HK2 : 0 < 2 ^ k2) by (apply Z.pow_pos_nonneg; lia).
  assert (Hsplit2 : 2 ^ (- (e + k)) = 2 ^ (- (e + k + k2)) * 2 ^ k2)
    by (rewrite <- pow2_split by lia; f_equal; lia).
  assert (Hr3 : 0 <= shr_m r3 <= 100 * 2 ^ (- (e + k + k2))).
  { rewrite Hm3. split; [apply Z.div_pos; lia|]. apply Z.div_le_upper_bound; [lia|]. nia. }
  destruct (shr_m r3) as [|p|p]; [now split| |lia].
  destruct (_ <=? _) eqn:Emax; [|apply Z.leb_gt in Emax; lia].
  split; [reflexivity|]. rewrite f100_val. apply fle_finite.
  destruct (Z.eq_dec (e + k + k2) (-46)) as [E|]; [|lia].
  right. split; [exact E|]. rewrite E in Hr3. change (- (-46)) with 46 in Hr3. lia.
Qed.

Lemma fmul_f100_pct x : small_mant x -> fle f0 x = true -> fle x f1 = true ->
  in_pct (fmul x f100).
Proof.
  intros Hs H0 H1. destruct x as [s|s| |s m e]; [destruct s; now split| |discriminate|].
  - destruct s; discriminate.
  - destruct s; [discriminate|]. simpl in Hs.
    change f1 with (S754_finite false 4503599627370496 (-52)) in H1.
    apply fle_finite in H1.
    destruct (Z.eq_dec e (-52)) as [->|Hne].
    + destruct (Z.eq_dec (Zpos m) 4503599627370496) as [E|]; [injection E as ->; now split|].
      unfold fmul, SFmul. rewrite f100_val. cbn [xorb].
      apply round_le_100; [lia..|]. rewrite Pos2Z.inj_mul.
      change (- (-52 + -46)) with (52 + 46). rewrite Z.pow_add_r by lia. lia.
    + unfold fmul, SFmul. rewrite f100_val. cbn [xorb].
      apply round_le_100; [lia..|]. rewrite Pos2Z.inj_mul.
      replace (- (e + -46)) with (53 + 46 + (- e - 53)) by lia.
      rewrite !Z.pow_add_r by lia.
      assert (0 < 2 ^ (- e - 53)) by (apply Z.pow_pos_nonneg; lia). nia.
Qed.
