(* ===== verification/FloatText.v ===== *)
(** Reading decimals back: [float(s)] on the texts the decoders render. *)

From Stdlib Require Import ZArith List Bool Lia String Ascii Floats.SpecFloat.
From S2P Require Import Prelude PyStr PyInt PyFloat.
Import ListNotations.
#[local] Open Scope string_scope.
#[local] Open Scope list_scope.
#[local] Open Scope Z_scope.

(** ** Scanning *)

(** What may follow a run of digits. *)
Definition ends_run (l : list ascii) : bool :=
  match l with [] => true | c :: _ => negb (is_digit c) && negb (Ascii.eqb c "_") end.

Lemma scan_digits_spec ds rest : Forall digit_ok ds -> ends_run rest = true -> forall acc k,
  scan_digits acc k (map digit_char ds ++ rest) = (value_msd acc ds, k + Z.of_nat (List.length ds), rest).
Proof.
  intros Hd Hr. induction Hd as [|d ds Hd _ IH]; intros acc k.
  - cbn [map app List.length]. unfold value_msd. cbn [fold_left]. rewrite Z.add_0_r.
    destruct rest as [|c l]; [reflexivity|]. cbn [ends_run] in Hr. apply andb_prop in Hr as [H1 H2].
    apply negb_true_iff in H1, H2. cbn [scan_digits]. now rewrite H1, H2.
  - cbn [map app scan_digits]. rewrite is_digit_digit_char, digit_val_char, IH by exact Hd.
    unfold value_msd. cbn [fold_left List.length]. do 2 f_equal. lia.
Qed.

(** A digit is neither a sign nor a letter. *)
Lemma digit_char_range d : digit_ok d -> 48 <= ord (digit_char d) <= 57.
Proof. intros H. rewrite digit_char_ord by exact H. unfold digit_ok in H. lia. Qed.

Lemma split_sign_digits ds rest : Forall digit_ok ds -> ds <> [] ->
  split_sign (map digit_char ds ++ rest) = (false, map digit_char ds ++ rest).
Proof.
  intros H Hne. destruct ds as [|d ds]; [congruence|]. inversion H as [|? ? Hd _]; subst. apply digit_char_range in Hd.
  cbn [map app split_sign].
  destruct (Ascii.eqb_spec (digit_char d) "-") as [E|_]; [rewrite E in Hd; change (ord "-") with 45 in Hd; lia|].
  destruct (Ascii.eqb_spec (digit_char d) "+") as [E|_]; [rewrite E in Hd; change (ord "+") with 43 in Hd; lia|]. reflexivity.
Qed.

(** Text that begins with a digit is no special value. *)
Lemma digit_not_word d l w : digit_ok d -> match w with String c _ => 97 <=? ord c | EmptyString => true end = true ->
  String.eqb (lower (str (digit_char d :: l))) w = false.
Proof.
  intros Hd Hw. apply String.eqb_neq. intros E. pose proof (digit_char_range d Hd) as H.
  assert (lower_char (digit_char d) = digit_char d) as Hl.
  { unfold lower_char. now replace (65 <=? ord (digit_char d)) with false by lia. }
  unfold lower, on_chars in E. rewrite chars_str in E. cbn [map] in E. rewrite Hl in E. subst w.
  cbn in Hw. lia.
Qed.

(** ** Unsigned decimals *)

Lemma py_float_run ds rest : Forall digit_ok ds -> ds <> [] -> Forall (fun c => is_space c = false) rest ->
  py_float (str (map digit_char ds ++ rest))
  = match float_decimal false (map digit_char ds ++ rest) with
    | Some x => Ok x
    | None => Raise (ValueError "could not convert string to float")
    end.
Proof.
  intros Hd Hne Hr. unfold py_float. rewrite strip_none.
  2:{ rewrite chars_str. apply Forall_app. split; [now apply digit_chars_not_space|exact Hr]. }
  rewrite chars_str, split_sign_digits by assumption. destruct ds as [|d ds]; [congruence|].
  inversion Hd as [|? ? H _]; subst. cbn [map app]. now rewrite !digit_not_word by (exact H || reflexivity).
Qed.

Lemma float_of_decimal_flit N p : 0 <= N -> float_of_decimal false N (- Z.of_nat p) = flit N (Z.to_pos (10 ^ Z.of_nat p)).
Proof.
  intros HN. destruct N as [|n|n]; [reflexivity| |lia]. unfold float_of_decimal, flit.
  destruct (Z.leb_spec 0 (- Z.of_nat p)).
  - replace p with 0%nat by lia. cbn [Z.of_nat Z.opp Z.pow]. now rewrite Z.mul_1_r.
  - now rewrite Z.opp_involutive.
Qed.

(** A number without a point. *)
Lemma py_float_digits ds : Forall digit_ok ds -> ds <> [] ->
  py_float (digit_string ds) = Ok (float_of_decimal false (value_msd 0 ds) 0).
Proof.
  intros Hd Hne. unfold digit_string. pose proof (py_float_run ds [] Hd Hne (Forall_nil _)) as H. rewrite !app_nil_r in H.
  rewrite H. unfold float_decimal. pose proof (scan_digits_spec ds [] Hd eq_refl 0 0) as Hs. rewrite app_nil_r in Hs. rewrite Hs.
  cbv beta iota zeta. destruct ds as [|d ds]; [congruence|].
  rewrite (proj2 (Z.ltb_lt 0 _)) by (cbn [List.length]; lia). reflexivity.
Qed.

(** The same behind a minus sign. *)
Lemma py_float_minus ds : Forall digit_ok ds -> ds <> [] ->
  py_float ("-" ++ digit_string ds)%string = Ok (float_of_decimal true (value_msd 0 ds) 0).
Proof.
  intros Hd Hne. assert (("-" ++ digit_string ds)%string = str ("-"%char :: map digit_char ds)) as -> by reflexivity.
  unfold py_float. rewrite strip_none.
  2:{ rewrite chars_str. constructor; [reflexivity|now apply digit_chars_not_space]. }
  rewrite chars_str. cbn [split_sign Ascii.eqb Bool.eqb].
  unfold float_decimal. pose proof (scan_digits_spec ds [] Hd eq_refl 0 0) as Hs. rewrite app_nil_r in Hs. rewrite Hs.
  cbv beta iota zeta. destruct ds as [|d ds]; [congruence|]. inversion Hd as [|? ? H _]; subst.
  cbn [map]. rewrite !digit_not_word by (exact H || reflexivity).
  rewrite (proj2 (Z.ltb_lt 0 _)) by (cbn [List.length]; lia). reflexivity.
Qed.

(** A number with a point. *)
Lemma py_float_point ip fp : Forall digit_ok ip -> ip <> [] -> Forall digit_ok fp ->
  py_float (digit_string ip ++ "." ++ digit_string fp)%string
  = Ok (float_of_decimal false (value_msd 0 ip * 10 ^ Z.of_nat (List.length fp) + value_msd 0 fp) (- Z.of_nat (List.length fp))).
Proof.
  intros Hi Hne Hf.
  assert ((digit_string ip ++ "." ++ digit_string fp)%string = str (map digit_char ip ++ "."%char :: map digit_char fp)) as ->.
  { apply chars_inj. rewrite !chars_app, chars_str. unfold digit_string. now rewrite !chars_str. }
  assert (Forall (fun c => is_space c = false) ("."%char :: map digit_char fp)) as Hr
    by (constructor; [reflexivity|now apply digit_chars_not_space]).
  rewrite (py_float_run ip _ Hi Hne Hr).
  unfold float_decimal. rewrite scan_digits_spec by (exact Hi || reflexivity). cbv beta iota zeta. cbn [Ascii.eqb Bool.eqb].
  pose proof (scan_digits_spec fp [] Hf eq_refl 0 0) as Hs. rewrite app_nil_r in Hs. rewrite Hs.
  cbv beta iota zeta. rewrite !Z.add_0_l. destruct ip as [|d ip]; [congruence|].
  rewrite (proj2 (Z.ltb_lt 0 _)) by (cbn [List.length]; lia). reflexivity.
Qed.

(** ** The rendered texts *)

Lemma str_of_int_digits n : 0 <= n -> str_of_int n = digit_string (digits n).
Proof. intros H. unfold str_of_int. now replace (n <? 0) with false by lia. Qed.

(** A zero-padded integer. *)
Lemma py_float_fmt_0d w n : 0 <= n -> py_float (fmt_0d w n) = Ok (flit n 1).
Proof.
  intros Hn. rewrite fmt_0d_unfold. replace (n <? 0) with false by lia. cbn [append]. rewrite Z.abs_eq by exact Hn.
  destruct (digits_spec n Hn) as [Hd Hv].
  rewrite py_float_digits.
  - rewrite value_msd_zeros, Hv. f_equal. exact (float_of_decimal_flit n 0 Hn).
  - apply Forall_app. split; [|exact Hd]. apply Forall_forall. intros x Hx. apply repeat_spec in Hx. subst. unfold digit_ok. lia.
  - intros E. apply app_eq_nil in E. now apply (digits_nonnil n).
Qed.

(** A zero-padded integer, with its sign. *)
Lemma py_float_signed w n : py_float (fmt_0d w n) = Ok (flit n 1).
Proof.
  destruct (Z.ltb_spec n 0) as [Hn|Hn]; [|now apply py_float_fmt_0d].
  rewrite fmt_0d_unfold. replace (n <? 0) with true by lia.
  destruct (digits_spec (Z.abs n) (Z.abs_nonneg n)) as [Hd Hv]. set (z := repeat 0 _).
  assert (Forall digit_ok (z ++ digits (Z.abs n))) as Hok
    by (apply Forall_app; split; [apply Forall_forall; intros x Hx; apply repeat_spec in Hx; subst; unfold digit_ok; lia|exact Hd]).
  assert (z ++ digits (Z.abs n) <> []) as Hne by (intros E; apply app_eq_nil in E; now apply (digits_nonnil (Z.abs n))).
  rewrite py_float_minus by assumption. unfold z. rewrite value_msd_zeros, Hv. f_equal.
  destruct n as [|p|p]; [lia|lia|]. cbn. now rewrite ?Z.mul_1_r, ?Pos.mul_1_r.
Qed.

(** A fixed-point text with [p] places. *)
Lemma py_float_fixed p N : (0 < p)%nat -> 0 <= N -> py_float (fixed_text p N) = Ok (flit N (Z.to_pos (10 ^ Z.of_nat p))).
Proof.
  intros Hp HN. set (T := 10 ^ Z.of_nat p). assert (0 < T) as HT by (apply Z.pow_pos_nonneg; lia).
  pose proof (Z.mod_pos_bound N T HT) as Hm. pose proof (Z.div_pos N T HN HT) as Hq.
  destruct (digits_spec (N / T) Hq) as [Hd Hv]. destruct (digits_spec (N mod T) ltac:(lia)) as [Hd' Hv'].
  assert (Hf : exists fp, fmt_0d p (N mod T) = digit_string fp /\ Forall digit_ok fp /\ value_msd 0 fp = N mod T
    /\ List.length fp = p).
  { eexists. split; [rewrite fmt_0d_unfold; replace (N mod T <? 0) with false by lia; cbn [append]; reflexivity|].
    rewrite Z.abs_eq by lia. split; [|split].
    - apply Forall_app. split; [|exact Hd']. apply Forall_forall. intros x Hx. apply repeat_spec in Hx. subst. unfold digit_ok. lia.
    - now rewrite value_msd_zeros.
    - pose proof (digits_length (N mod T) p ltac:(subst T; lia) Hp). rewrite length_app, repeat_length. lia. }
  destruct Hf as (fp & Ef & Hfd & Hfv & Hfl). unfold fixed_text. destruct p as [|p']; [lia|]. fold T. rewrite Ef, str_of_int_digits by exact Hq.
  rewrite (py_float_point _ _ Hd (digits_nonnil _) Hfd), Hv, Hfv, Hfl. fold T.
  replace (N / T * T + N mod T) with N by (rewrite (Z.div_mod N T) at 1; lia).
  f_equal. now apply float_of_decimal_flit.
Qed.
