(* ===== verification/FloatMono.v ===== *)
(** Adding a non-negative float never decreases a non-negative one: the
    canonical form of rounded results, and the order of a rounded sum. *)

From Stdlib Require Import ZArith List Bool Lia Floats.SpecFloat.
From S2P Require Import Prelude PyFloat FloatFacts.
#[local] Open Scope Z_scope.

(** ** Canonical floats *)

(** A mantissa of at most 53 bits, with all 53 unless the exponent is least. *)
Definition canon_mant (m e : Z) : Prop := m < 2 ^ 53 /\ -1074 <= e /\ (e = -1074 \/ 2 ^ 52 <= m).

(** A non-negative float in canonical form, infinity included. *)
Definition nonneg (x : float) : Prop :=
  match x with
  | S754_zero _ | S754_infinity false => True
  | S754_finite false m e => canon_mant (Zpos m) e
  | _ => False
  end.

Lemma emin_val : emin 53 1024 = -1074.
Proof. reflexivity. Qed.

Lemma Zdigits2_nonneg q : 0 <= Zdigits2 q.
Proof. destruct q; simpl; lia. Qed.

Lemma Zdigits2_bound q : 0 <= q -> q < 2 ^ Zdigits2 q.
Proof.
  intros H. destruct (Z.eq_dec q 0) as [->|Hne]; [reflexivity|].
  rewrite Zdigits2_log2 by lia. pose proof (Z.log2_spec q ltac:(lia)).
  replace (Z.log2 q + 1) with (Z.succ (Z.log2 q)) by lia. lia.
Qed.

Lemma Zdigits2_lower q : 0 < q -> 2 ^ (Zdigits2 q - 1) <= q.
Proof.
  intros H. rewrite Zdigits2_log2 by lia. pose proof (Z.log2_spec q H).
  replace (Z.log2 q + 1 - 1) with (Z.log2 q) by lia. lia.
Qed.

(** What the rounded mantissa [n] at exponent [e] becomes: itself, with the
    carry out of the 53 bits moved into the exponent. *)
Definition carried (s : bool) (n e : Z) : float :=
  if n =? 2 ^ 53 then (if e + 1 <=? 971 then S754_finite s 4503599627370496 (e + 1) else S754_infinity s)
  else match n with
       | Zpos m => if e <=? 971 then S754_finite s m e else S754_infinity s
       | _ => S754_zero s
       end.

(** The first shift of a rounding, for an exponent not above its target. *)
Lemma shr_fexp_target q e l : 0 <= q -> e <= fexp64 (Zdigits2 q + e) ->
  let E := fexp64 (Zdigits2 q + e) in
  shr_m (fst (shr_fexp 53 1024 q e l)) = q / 2 ^ (E - e)
  /\ snd (shr_fexp 53 1024 q e l) = E
  /\ -1074 <= E /\ (E = -1074 \/ 2 ^ 52 <= q / 2 ^ (E - e)).
Proof.
  intros Hq He E. unfold shr_fexp. fold E.
  destruct (shr_spec (shr_record_of_loc q l) e (E - e)) as [H1 H2]; rewrite ?shr_record_m; [lia|unfold E; lia|].
  rewrite shr_record_m in H1. split; [exact H1|]. split; [rewrite H2; lia|].
  pose proof (Zdigits2_nonneg q). unfold E, fexp in *. rewrite emin_val in *. split; [lia|].
  destruct (Z.max_spec (Zdigits2 q + e - 53) (-1074)) as [[Hc Hm]|[Hc Hm]]; rewrite Hm in *; [now left|right].
  assert (0 < q) as Hq'. { destruct (Z.eq_dec q 0) as [->|]; [simpl in *; lia|lia]. }
  pose proof (Zdigits2_lower q Hq'). replace (Zdigits2 q + e - 53 - e) with (Zdigits2 q - 53) by lia.
  apply Z.div_le_lower_bound; [apply Z.pow_pos_nonneg; lia|].
  rewrite <- pow2_split by lia. now replace (Zdigits2 q - 53 + 52) with (Zdigits2 q - 1) by lia.
Qed.

(** The second shift does nothing but carry. *)
Lemma shr_fexp_carry s n E : 0 <= n <= 2 ^ 53 -> -1074 <= E -> E = -1074 \/ 2 ^ 52 <= n ->
  (let '(r, e) := shr_fexp 53 1024 n E loc_Exact in
   match shr_m r with
   | Z0 => S754_zero s
   | Zpos m => if e <=? 1024 - 53 then S754_finite s m e else S754_infinity s
   | _ => S754_nan
   end) = carried s n E.
Proof.
  intros Hn HE Hc. unfold carried. destruct (Z.eqb_spec n (2 ^ 53)) as [->|Hne].
  - unfold shr_fexp. rewrite Zdigits2_log2 by lia. change (Z.log2 (2 ^ 53)) with 53.
    rewrite fexp64_normal by lia. now replace (53 + 1 + E - 53 - E) with 1 by lia.
  - unfold shr_fexp. assert (fexp64 (Zdigits2 n + E) - E = 0) as Ez.
    { unfold fexp. rewrite emin_val. pose proof (Zdigits2_nonneg n).
      assert (Zdigits2 n <= 53).
      { destruct (Z.eq_dec n 0) as [->|]; [simpl; lia|]. rewrite Zdigits2_log2 by lia.
        assert (Z.log2 n < 53) by (apply Z.log2_lt_pow2; lia). lia. }
      destruct Hc as [->|Hc]; [lia|]. rewrite Zdigits2_log2 by lia. rewrite (log2_of_bounds n 52) by lia. lia. }
    rewrite Ez. cbn [shr]. rewrite shr_record_m. now destruct n.
Qed.

(** A rounded result is the carried quotient or its successor. *)
Lemma round_aux_carried s q e l : 0 <= q -> e <= fexp64 (Zdigits2 q + e) ->
  exists n E, binary_round_aux 53 1024 s q e l = carried s n E
  /\ e <= E /\ -1074 <= E /\ 0 <= n <= 2 ^ 53 /\ (E = -1074 \/ 2 ^ 52 <= q / 2 ^ (E - e))
  /\ q / 2 ^ (E - e) <= n.
Proof.
  intros Hq He. destruct (shr_fexp_target q e l Hq He) as (H1 & H2 & H3 & H4).
  pose proof (shr_fexp_bound q e l Hq) as Hb. unfold binary_round_aux.
  destruct (shr_fexp 53 1024 q e l) as [r E]. cbn [fst snd] in *. subst E.
  set (E := fexp64 (Zdigits2 q + e)) in *. set (n := round_nearest_even _ _).
  assert (n = shr_m r \/ n = shr_m r + 1) as Hn by apply round_nearest_even_cases.
  exists n, E. rewrite <- H1 in *. split; [|repeat split; lia || exact H4].
  apply shr_fexp_carry; lia.
Qed.

Lemma carried_nonneg n E : 0 <= n <= 2 ^ 53 -> -1074 <= E -> E = -1074 \/ 2 ^ 52 <= n ->
  nonneg (carried false n E).
Proof.
  intros Hn HE Hc. unfold carried, nonneg, canon_mant. destruct (Z.eqb_spec n (2 ^ 53)).
  - destruct (Z.leb_spec (E + 1) 971); [lia|exact I].
  - destruct n as [|m|m]; [exact I| |exact I]. destruct (Z.leb_spec E 971); [lia|exact I].
Qed.

(** A canonical value not above the exact one is not above the rounded one. *)
Lemma carried_ge mx ex n E e q : canon_mant (Zpos mx) ex -> e <= E -> e <= ex -> 0 <= n <= 2 ^ 53 -> -1074 <= E ->
  E = -1074 \/ 2 ^ 52 <= q / 2 ^ (E - e) -> q / 2 ^ (E - e) <= n ->
  Zpos mx * 2 ^ (ex - e) <= q ->
  fle (S754_finite false mx ex) (carried false n E) = true.
Proof.
  intros (Hm & Hex & Hcan) HeE Heex Hn HE Hc Hqn Hle. set (Q := q / 2 ^ (E - e)) in *.
  assert (Hbig : E <= ex -> Zpos mx * 2 ^ (ex - E) <= Q).
  { intros H. apply Z.div_le_lower_bound; [apply Z.pow_pos_nonneg; lia|].
    replace (ex - e) with ((E - e) + (ex - E)) in Hle by lia. rewrite pow2_split in Hle by lia. lia. }
  assert (Hinf : forall b (y : float), (b = true -> fle (S754_finite false mx ex) y = true) ->
    fle (S754_finite false mx ex) (if b then y else S754_infinity false) = true)
    by (intros [] y H; [now apply H|reflexivity]).
  unfold carried. destruct (Z.eqb_spec n (2 ^ 53)) as [En|Hne].
  - apply Hinf. intros _. apply fle_finite. destruct (Z.lt_ge_cases ex (E + 1)) as [|Hge]; [now left|right].
    specialize (Hbig ltac:(lia)). destruct (Z.eq_dec ex (E + 1)) as [->|].
    + split; [reflexivity|]. replace (E + 1 - E) with 1 in Hbig by lia. lia.
    + exfalso. assert (2 ^ 2 <= 2 ^ (ex - E)) by (apply Z.pow_le_mono_r; lia). nia.
  - assert (0 < n \/ n = 0) as [Hpos|Hz] by lia.
    + destruct n as [|m|m]; [lia| |lia]. apply Hinf. intros _. apply fle_finite.
      destruct (Z.lt_ge_cases ex E) as [|Hge]; [now left|right]. specialize (Hbig ltac:(lia)).
      destruct (Z.eq_dec ex E) as [->|]; [rewrite Z.sub_diag in Hbig; lia|].
      exfalso. assert (2 ^ 1 <= 2 ^ (ex - E)) by (apply Z.pow_le_mono_r; lia). nia.
    + exfalso. assert (Q <= 0) by lia. destruct Hc as [->|]; [|lia]. specialize (Hbig ltac:(lia)).
      assert (0 < 2 ^ (ex - -1074)) by (apply Z.pow_pos_nonneg; lia). nia.
Qed.

(** ** Sums and quotients *)

Lemma shl_align_spec m e e' : let '(m', e'') := shl_align m e e' in
  e'' = Z.min e e' /\ Zpos m' = Zpos m * 2 ^ (e - e'').
Proof.
  unfold shl_align. destruct (e' - e) as [|d|d] eqn:Ed.
  - split; [lia|]. rewrite Z.sub_diag. lia.
  - split; [lia|]. rewrite Z.sub_diag. lia.
  - split; [lia|]. rewrite Pos_iter_xO. f_equal. f_equal. lia.
Qed.

Lemma binary_round_carried m ez : exists q e, binary_round 53 1024 false m ez = binary_round_aux 53 1024 false q e loc_Exact
  /\ 0 < q /\ e <= ez /\ q = Zpos m * 2 ^ (ez - e) /\ e <= fexp64 (Zdigits2 q + e).
Proof.
  unfold binary_round.
  pose proof (shl_align_spec m ez (fexp64 (Zpos (digits2_pos m) + ez))) as H.
  destruct (shl_align m ez _) as [q e]. destruct H as [He Hq].
  exists (Zpos q), e. split; [reflexivity|]. split; [lia|]. split; [lia|]. split; [exact Hq|].
  assert (Zdigits2 (Zpos q) + e = Zpos (digits2_pos m) + ez) as ->; [|lia].
  change (Zpos (digits2_pos m)) with (Zdigits2 (Zpos m)). rewrite !Zdigits2_log2 by lia.
  rewrite Hq, Z.log2_mul_pow2 by lia. lia.
Qed.

Lemma binary_round_nonneg m e : nonneg (binary_round 53 1024 false m e).
Proof.
  destruct (binary_round_carried m e) as (q & e' & -> & Hq & _ & _ & Hf).
  destruct (round_aux_carried false q e' loc_Exact ltac:(lia) Hf) as (n & E & -> & H1 & H2 & H3 & H4 & H5).
  apply carried_nonneg; lia.
Qed.

(** The rounded sum of two positive values. *)
Lemma fadd_finite m1 e1 m2 e2 :
  exists m, fadd (S754_finite false m1 e1) (S754_finite false m2 e2) = binary_round 53 1024 false m (Z.min e1 e2)
  /\ Zpos m1 * 2 ^ (e1 - Z.min e1 e2) <= Zpos m.
Proof.
  unfold fadd, SFadd. cbn [cond_Zopp].
  pose proof (shl_align_spec m1 e1 (Z.min e1 e2)) as H1. pose proof (shl_align_spec m2 e2 (Z.min e1 e2)) as H2.
  destruct (shl_align m1 e1 _) as [a ea], (shl_align m2 e2 _) as [b eb]. cbn [fst].
  destruct H1 as [-> H1], H2 as [-> H2]. exists (a + b)%positive. split; [reflexivity|].
  replace (Z.min e1 (Z.min e1 e2)) with (Z.min e1 e2) in H1 by lia. lia.
Qed.

(** Adding a non-negative float to a non-negative one. *)
Lemma fadd_nonneg_ge x s : nonneg x -> nonneg s -> nonneg (fadd x s) /\ fle x (fadd x s) = true.
Proof.
  intros Hx Hs. destruct x as [sx|[]| |[] mx ex], s as [ss|[]| |[] ms es]; try easy;
    try (destruct sx; try destruct ss; now split).
  - split; [exact Hx|]. apply fle_refl. reflexivity.
  - destruct (fadd_finite mx ex ms es) as (m & -> & Hm). split; [apply binary_round_nonneg|].
    destruct (binary_round_carried m (Z.min ex es)) as (q & e & -> & Hq & He & Eq & Hf).
    destruct (round_aux_carried false q e loc_Exact ltac:(lia) Hf) as (n & E & -> & H1 & H2 & H3 & H4 & H5).
    apply (carried_ge mx ex n E e q); auto; [lia|]. rewrite Eq.
    replace (ex - e) with ((ex - Z.min ex es) + (Z.min ex es - e)) by lia.
    rewrite pow2_split, Z.mul_assoc by lia.
    apply Z.mul_le_mono_nonneg_r; [apply Z.pow_nonneg; lia|exact Hm].
Qed.

(** The exponent a division starts from is not above its target. *)
Lemma div_core_target m1 e1 m2 e2 q e l : 0 < m1 -> 0 < m2 ->
  SFdiv_core_binary 53 1024 m1 e1 m2 e2 = (q, e, l) -> e <= fexp64 (Zdigits2 q + e).
Proof.
  intros Hp1 Hp2 H. pose proof H as Hn. apply SFdiv_core_nonneg in Hn; [|lia..]. revert H.
  unfold SFdiv_core_binary. set (d1 := Zdigits2 m1). set (d2 := Zdigits2 m2).
  set (e' := Z.min (fexp64 (d1 + e1 - (d2 + e2))) (e1 - e2)). set (s := e1 - e2 - e').
  set (m' := match s with Z0 => _ | Zpos _ => _ | Zneg _ => _ end).
  assert (Hs : 0 <= s) by (unfold s, e'; lia).
  assert (Em : m' = m1 * 2 ^ s).
  { unfold m'. destruct s; [lia|now rewrite Z.shiftl_mul_pow2 by lia|lia]. }
  pose proof (Z_div_mod m' m2 ltac:(lia)) as Hdm. destruct (Z.div_eucl m' m2) as [q' r].
  intros H. injection H as <- <- _. destruct Hdm as [Hd Hr].
  assert (d1 + s - d2 <= Zdigits2 q').
  { destruct (Z.le_gt_cases (d1 - 1 + s - d2) (-1)); [pose proof (Zdigits2_nonneg q'); lia|].
    pose proof (Zdigits2_lower m1 Hp1) as L1. pose proof (Zdigits2_bound m2 ltac:(lia)) as L2.
    pose proof (Zdigits2_bound q' Hn) as L3. fold d1 in L1. fold d2 in L2.
    pose proof (Zdigits2_nonneg m2) as L4. fold d2 in L4. pose proof (Zdigits2_nonneg q').
    apply Z.nlt_ge. intros Hlt.
    assert (2 ^ (d1 - 1 + s) < 2 ^ (d2 + Zdigits2 q')) as Hpow.
    { assert (0 < d1) by (unfold d1; rewrite Zdigits2_log2 by lia; pose proof (Z.log2_nonneg m1); lia).
      rewrite pow2_split by lia. rewrite pow2_split by lia.
      assert (0 < 2 ^ s) by (apply Z.pow_pos_nonneg; lia).
      apply Z.le_lt_trans with (m1 * 2 ^ s); [nia|]. rewrite <- Em. nia. }
    apply Z.pow_lt_mono_r_iff in Hpow; lia. }
  unfold e', s, fexp in *. lia.
Qed.

Lemma fdiv_nonneg x y : fle f0 (fdiv_nz x y) = true -> nonneg (fdiv_nz x y).
Proof.
  destruct x as [sx|sx| |sx mx ex], y as [sy|sy| |sy my ey]; unfold fdiv_nz; cbn [SFdiv];
    try (destruct sx, sy; easy); try easy.
  destruct (SFdiv_core_binary _ _ _ _ _ _) as [[q e] l] eqn:E.
  pose proof E as Hq. apply SFdiv_core_nonneg in Hq; [|lia..].
  apply div_core_target in E; [|lia..].
  destruct (round_aux_carried (xorb sx sy) q e l Hq E) as (n & E' & -> & H1 & H2 & H3 & H4 & H5).
  destruct (xorb sx sy).
  - unfold carried. destruct (n =? 2 ^ 53); [destruct (_ <=? _); easy|].
    destruct n; try easy. destruct (_ <=? _); easy.
  - intros _. apply carried_nonneg; lia.
Qed.

Lemma fle_trans_nonneg x y z : nonneg x -> nonneg y -> nonneg z -> fle x y = true -> fle y z = true -> fle x z = true.
Proof.
  intros Hx Hy Hz. destruct x as [sx|[]| |[] mx ex], y as [sy|[]| |[] my ey], z as [sz|[]| |[] mz ez]; try easy.
  rewrite !fle_finite. lia.
Qed.

(** ** Truncation *)

(** A canonical finite value, as a multiple of the least positive float. *)
Definition units (m : positive) (e : Z) : Z := Zpos m * 2 ^ (e + 1074).

Lemma int_units m e : -1074 <= e -> frac_num m e 1 / frac_den e = units m e / 2 ^ 1074.
Proof.
  intros He. unfold frac_num, frac_den, units. rewrite Z.mul_1_r. destruct (Z.le_gt_cases 0 e) as [H|H].
  - rewrite Z.max_l, Z.max_r by lia. rewrite Z.pow_0_r, Z.div_1_r, pow2_split, Z.mul_assoc by lia.
    now rewrite Z.div_mul by (apply Z.pow_nonzero; lia).
  - rewrite Z.max_r, Z.max_l, Z.pow_0_r, Z.mul_1_r by lia. replace 1074 with (- e + (e + 1074)) at 2 by lia.
    rewrite (pow2_split (- e)) by lia. now rewrite Z.div_mul_cancel_r by (apply Z.pow_nonzero; lia).
Qed.

Lemma units_mono m1 e1 m2 e2 : canon_mant (Zpos m1) e1 -> canon_mant (Zpos m2) e2 ->
  fle (S754_finite false m1 e1) (S754_finite false m2 e2) = true -> units m1 e1 <= units m2 e2.
Proof.
  intros (H1 & H2 & _) (H3 & H4 & H5). rewrite fle_finite. unfold units. intros [H|[-> H]].
  - destruct H5 as [->|H5]; [lia|]. transitivity (2 ^ (53 + (e1 + 1074))).
    + rewrite (pow2_split 53) by lia. apply Z.mul_le_mono_nonneg_r; [apply Z.pow_nonneg; lia|lia].
    + transitivity (2 ^ (52 + (e2 + 1074))); [apply Z.pow_le_mono_r; lia|].
      rewrite (pow2_split 52) by lia. apply Z.mul_le_mono_nonneg_r; [apply Z.pow_nonneg; lia|lia].
  - apply Z.mul_le_mono_nonneg_r; [apply Z.pow_nonneg; lia|exact H].
Qed.

(** [int] follows the order of the floats. *)
Lemma int_of_float_mono x y n m : nonneg x -> nonneg y -> fle x y = true ->
  int_of_float x = Ok n -> int_of_float y = Ok m -> n <= m.
Proof.
  intros Hx Hy. destruct x as [sx|[]| |[] mx ex], y as [sy|[]| |[] my ey]; try easy; cbn [int_of_float signed].
  - intros _ H1 H2. apply ok_inj in H1, H2. lia.
  - intros _ H1 H2. apply ok_inj in H1, H2. subst. apply Z.div_pos; [|apply Z.pow_pos_nonneg; lia].
    unfold frac_num. repeat apply Z.mul_nonneg_nonneg; try lia; apply Z.pow_nonneg; lia.
  - intros Hle H1 H2. apply ok_inj in H1, H2. cbn [nonneg] in Hx, Hy. rewrite int_units in H1 by apply Hx.
    rewrite int_units in H2 by apply Hy. subst. apply Z.div_le_mono; [apply Z.pow_pos_nonneg; lia|].
    now apply units_mono.
Qed.
