(* ===== verification/PyDict.v ===== *)
(** Python values held in the decoded dicts, and [dict] itself: an
    insertion-ordered association list with distinct string keys. *)

From Stdlib Require Import ZArith List Bool Lia String Ascii.
From S2P Require Import Prelude PyStr PyInt PyFloat.
Import ListNotations.
#[local] Open Scope list_scope.
#[local] Open Scope Z_scope.

(** ** Dicts *)

Section Dict.
Context {V : Type}.

Definition dict := list (string * V).

(** [d.get(k)] *)
Fixpoint dget (k : string) (d : dict) : option V :=
  match d with
  | [] => None
  | (k', v) :: d' => if String.eqb k k' then Some v else dget k d'
  end.

(** [k in d] *)
Definition dmem (k : string) (d : dict) : bool :=
  match dget k d with Some _ => true | None => false end.

(** [d[k] = v]: in place when the key exists, else at the end. *)
Fixpoint dset (k : string) (v : V) (d : dict) : dict :=
  match d with
  | [] => [(k, v)]
  | (k', v') :: d' =>
      if String.eqb k k' then (k', v) :: d' else (k', v') :: dset k v d'
  end.

(** [d.setdefault(k, v)], the dict part. *)
Definition dsetdefault (k : string) (v : V) (d : dict) : dict :=
  if dmem k d then d else dset k v d.

(** [d.pop(k, None)], the dict part: no pair of the key is left. *)
Fixpoint dpop (k : string) (d : dict) : dict :=
  match d with
  | [] => []
  | (k', v') :: d' => if String.eqb k k' then dpop k d' else (k', v') :: dpop k d'
  end.

Definition dkeys (d : dict) : list string := map fst d.
Definition dvalues (d : dict) : list V := map snd d.

(** [dict(pairs)] *)
Definition dict_of (l : list (string * V)) : dict :=
  fold_left (fun d kv => dset (fst kv) (snd kv) d) l [].

(** Distinct keys. *)
Definition dict_ok (d : dict) : Prop := NoDup (dkeys d).

Lemma dget_dset_eq k v d : dget k (dset k v d) = Some v.
Proof.
  induction d as [|[k' v'] d IH]; simpl; [now rewrite String.eqb_refl|].
  destruct (String.eqb k k') eqn:E; simpl; now rewrite E.
Qed.

Lemma dget_dset_ne k k' v d : k <> k' -> dget k (dset k' v d) = dget k d.
Proof.
  intros H. induction d as [|[k1 v1] d IH]; simpl.
  - now rewrite (proj2 (String.eqb_neq k k') H).
  - destruct (String.eqb_spec k' k1) as [->|]; simpl.
    + now rewrite (proj2 (String.eqb_neq k k1) H).
    + now rewrite IH.
Qed.

Lemma dget_none_keys k d : dget k d = None <-> ~ In k (dkeys d).
Proof.
  induction d as [|[k' v'] d IH]; simpl; [easy|].
  destruct (String.eqb_spec k k') as [->|Hne].
  - split; [discriminate|]. intros H. exfalso. apply H. now left.
  - rewrite IH. split; intros H; [intros [->|]; auto|auto].
Qed.

Lemma dget_some_in k v d : dget k d = Some v -> In (k, v) d.
Proof.
  induction d as [|[k' v'] d IH]; simpl; [easy|].
  destruct (String.eqb_spec k k') as [->|]; [|auto].
  intros H. injection H as ->. now left.
Qed.

Lemma dget_in k v d : dict_ok d -> In (k, v) d -> dget k d = Some v.
Proof.
  unfold dict_ok. induction d as [|[k' v'] d IH]; simpl; [easy|].
  intros Hnd [H|H]; inversion Hnd; subst.
  - injection H as -> ->. now rewrite String.eqb_refl.
  - destruct (String.eqb_spec k k') as [->|]; [|auto].
    exfalso. apply H2. now apply (in_map fst) in H.
Qed.

Lemma dset_keys_new k v d : dget k d = None -> dset k v d = d ++ [(k, v)].
Proof.
  induction d as [|[k' v'] d IH]; simpl; [reflexivity|].
  destruct (String.eqb k k'); [discriminate|]. intros H. now rewrite IH.
Qed.

Lemma dset_keys_old k v d : dget k d <> None -> dkeys (dset k v d) = dkeys d.
Proof.
  induction d as [|[k' v'] d IH]; simpl; [congruence|].
  destruct (String.eqb_spec k k') as [->|]; simpl; [reflexivity|].
  intros H. now rewrite IH.
Qed.

Lemma dset_ok k v d : dict_ok d -> dict_ok (dset k v d).
Proof.
  intros H. unfold dict_ok. destruct (dget k d) eqn:E.
  - rewrite dset_keys_old by congruence. exact H.
  - rewrite dset_keys_new by assumption. unfold dkeys.
    rewrite map_app. apply NoDup_app; [exact H|repeat constructor; auto|].
    simpl. intros x Hx [->|[]]. apply dget_none_keys in E. contradiction.
Qed.

Lemma dpop_keys_incl k d x : In x (dkeys (dpop k d)) -> In x (dkeys d).
Proof.
  induction d as [|[k' v'] d IH]; simpl; [auto|].
  destruct (String.eqb k k'); simpl; [auto|]. intros [->|]; auto.
Qed.

Lemma dpop_ok k d : dict_ok d -> dict_ok (dpop k d).
Proof.
  unfold dict_ok. induction d as [|[k' v'] d IH]; simpl; [auto|].
  intros H. inversion H; subst. destruct (String.eqb k k'); [auto|].
  simpl. constructor; [intros Hin; apply dpop_keys_incl in Hin; auto|auto].
Qed.

Lemma dget_dpop_ne k k' d : k <> k' -> dget k (dpop k' d) = dget k d.
Proof.
  intros H. induction d as [|[k1 v1] d IH]; simpl; [reflexivity|].
  destruct (String.eqb_spec k' k1) as [->|]; simpl.
  - now rewrite (proj2 (String.eqb_neq k k1) H).
  - now rewrite IH.
Qed.

Lemma dget_dpop_eq k d : dget k (dpop k d) = None.
Proof.
  induction d as [|[k1 v1] d IH]; simpl; [reflexivity|].
  destruct (String.eqb_spec k k1) as [->|Hne]; [exact IH|].
  simpl. now rewrite (proj2 (String.eqb_neq k k1) Hne).
Qed.

(** Building a dict from pairs with distinct keys keeps them in order. *)
Lemma dict_of_app_nodup l d :
  NoDup (dkeys d ++ map fst l) ->
  fold_left (fun d kv => dset (fst kv) (snd kv) d) l d = d ++ l.
Proof.
  revert d. induction l as [|[k v] l IH]; intros d H; simpl; [now rewrite app_nil_r|].
  assert (dget k d = None) as E.
  { apply dget_none_keys. intros Hin. apply NoDup_remove_2 in H.
    apply H, in_or_app. now left. }
  rewrite dset_keys_new by assumption.
  rewrite IH; [now rewrite <- app_assoc|].
  unfold dkeys. rewrite map_app, <- app_assoc. exact H.
Qed.

Lemma dget_dict_of_in k v l : dget k (dict_of l) = Some v -> In (k, v) l.
Proof.
  unfold dict_of. assert (forall d, dget k (fold_left (fun d kv => dset (fst kv) (snd kv) d) l d) = Some v ->
    In (k, v) l \/ dget k d = Some v) as H.
  { induction l as [|[k' v'] l IH]; intros d; simpl; [auto|]. intros H. apply IH in H as [H|H]; [auto|].
    destruct (String.eqb_spec k k') as [->|Hne].
    - rewrite dget_dset_eq in H. injection H as ->. auto.
    - rewrite dget_dset_ne in H by exact Hne. auto. }
  intros E. apply H in E as [E|E]; [exact E|discriminate].
Qed.

Lemma dict_of_nodup l : NoDup (map fst l) -> dict_of l = l.
Proof. intros H. unfold dict_of. now rewrite dict_of_app_nodup. Qed.
End Dict.

Arguments dict : clear implicits.

(** [zip(keys, values)] *)
Definition zip {A B} (l : list A) (l' : list B) : list (A * B) := combine l l'.

Lemma zip_keys_nodup {B} (ks : list string) (vs : list B) :
  NoDup ks -> NoDup (map fst (zip ks vs)).
Proof.
  unfold zip. revert vs. induction ks as [|k ks IH]; intros [|v vs] H; simpl;
    try constructor.
  - inversion H; subst. intros Hin. apply in_map_iff in Hin as [[k' v'] [E Hin]].
    simpl in E. subst k'. apply in_combine_l in Hin. contradiction.
  - inversion H; subst. auto.
Qed.

(** The lookup of a field is the value at its position. *)
Lemma dget_zip {B} (ks : list string) (vs : list B) i k :
  NoDup ks -> nth_error ks i = Some k -> dget k (zip ks vs) = nth_error vs i.
Proof.
  unfold zip. revert vs i. induction ks as [|k0 ks IH]; intros vs i Hnd Hi;
    [now destruct i|].
  inversion Hnd; subst. destruct i as [|i]; simpl in Hi.
  - injection Hi as ->. destruct vs; simpl; [reflexivity|]. now rewrite String.eqb_refl.
  - destruct vs as [|v vs]; simpl; [reflexivity|].
    destruct (String.eqb_spec k k0) as [->|]; [|auto].
    exfalso. apply H1. now apply nth_error_In in Hi.
Qed.

Fixpoint string_nodupb (l : list string) : bool :=
  match l with
  | [] => true
  | x :: l' => negb (existsb (String.eqb x) l') && string_nodupb l'
  end.

Lemma string_nodupb_sound l : string_nodupb l = true -> NoDup l.
Proof.
  induction l as [|x l IH]; simpl; [constructor|].
  rewrite andb_true_iff, negb_true_iff. intros [H1 H2]. constructor; [|auto].
  intros Hin. rewrite <- not_true_iff_false in H1. apply H1.
  apply existsb_exists. exists x. split; [exact Hin|apply String.eqb_refl].
Qed.

Ltac nodup_strings := apply string_nodupb_sound; vm_compute; reflexivity.

(** ** Values

    [VEnum cls name] is an enumeration member kept as such in a dict. *)

Inductive pyval : Type :=
| VNone
| VBool (b : bool)
| VInt (z : Z)
| VFloat (f : float)
| VStr (s : string)
| VEnum (cls name : string)
| VTime (t : Z)
| VList (l : list pyval)
| VDict (d : list (string * pyval)).

Definition pydict := dict pyval.

(** [bool(v)] *)
Definition truthy (v : pyval) : bool :=
  match v with
  | VNone => false
  | VBool b => b
  | VInt z => negb (z =? 0)
  | VFloat f => negb (is_zero f)
  | VStr s => negb (String.eqb s "")
  | VEnum _ _ | VTime _ => true
  | VList l => match l with [] => false | _ => true end
  | VDict d => match d with [] => false | _ => true end
  end.

(** [d.get(k)] as a value *)
Definition vget (k : string) (d : pydict) : pyval :=
  match dget k d with Some v => v | None => VNone end.

(** [float(v)]: a [TypeError] on what is neither a number nor a string. *)
Definition float_of_val (v : pyval) : res float :=
  match v with
  | VBool b => Ok (float_of_Z (if b then 1 else 0))
  | VInt z => float_of_int z
  | VFloat f => Ok f
  | VStr s => py_float s
  | _ => Raise (TypeError "float() argument must be a string or a real number")
  end.

(** [int(v)] *)
Definition int_of_val (v : pyval) : res Z :=
  match v with
  | VBool b => Ok (if b then 1 else 0)
  | VInt z => Ok z
  | VFloat f => int_of_float f
  | VStr s => py_int s
  | _ => Raise (TypeError "int() argument must be a string or a real number")
  end.

Definition strdict (d : dict string) : pydict := map (fun kv => (fst kv, VStr (snd kv))) d.

Lemma dget_strdict k d : dget k (strdict d) = option_map VStr (dget k d).
Proof.
  induction d as [|[k' v] d IH]; simpl; [reflexivity|].
  destruct (String.eqb k k'); auto.
Qed.
