(* ===== verification/Crc.v ===== *)
(** CRC routines of [api/crc.py]: the three checksums, the PI30 request frame
    and the two response validators, with the equivalence of the table-free
    Voltronic loop to the bitwise XMODEM definition and the single-byte error
    detection the PI18 validator relies on. *)

From Stdlib Require Import ZArith List Bool Lia String Ascii.
From S2P Require Import Prelude PyStr.
Import ListNotations.
#[local] Open Scope list_scope.
#[local] Open Scope Z_scope.

(** ** Checksums *)

(** One iteration of the inner loop of [crc16_xmodem]. *)
Definition xmodem_bit (crc : Z) : Z :=
  let crc := if negb (Z.land crc 0x8000 =? 0)
             then Z.lxor (Z.shiftl crc 1) 0x1021
             else Z.shiftl crc 1 in
  Z.land crc 0xFFFF.

Definition xmodem_byte (crc byte : Z) : Z :=
  Nat.iter 8 xmodem_bit (Z.lxor crc (Z.shiftl byte 8)).

Definition crc16_xmodem (data : bytes) : Z := fold_left xmodem_byte data 0.

Definition crc16_xmodem_bytes (data : bytes) : bytes :=
  let crc := crc16_xmodem data in
  [Z.land (Z.shiftr crc 8) 0xFF; Z.land crc 0xFF].

(** One iteration of the loop of [crc16_voltronic]. *)
Definition voltronic_byte (crc b : Z) : Z :=
  let x := Z.lxor (Z.shiftr crc 8) b in
  let x := Z.lxor x (Z.shiftr x 4) in
  Z.land (Z.lxor (Z.lxor (Z.lxor (Z.shiftl crc 8) (Z.shiftl x 12)) (Z.shiftl x 5)) x) 0xFFFF.

(** [if high in (0x28, 0x0D, 0x0A): high += 1] *)
Definition bump (b : Z) : Z :=
  if existsb (Z.eqb b) [0x28; 0x0D; 0x0A] then b + 1 else b.

Definition crc16_voltronic (data : bytes) : bytes :=
  let crc := fold_left voltronic_byte data 0 in
  let high := Z.land (Z.shiftr crc 8) 0xFF in
  let low := Z.land crc 0xFF in
  [bump high; bump low].

(** One iteration of the inner loop of [crc16_modbus]. *)
Definition modbus_bit (crc : Z) : Z :=
  if negb (Z.land crc 1 =? 0) then Z.lxor (Z.shiftr crc 1) 0xA001
  else Z.shiftr crc 1.

Definition modbus_byte (crc b : Z) : Z := Nat.iter 8 modbus_bit (Z.lxor crc b).

Definition crc16_modbus (data : bytes) : Z :=
  Z.land (fold_left modbus_byte data 0xFFFF) 0xFFFF.

(** ** Frames and validators *)

Definition CR : Z := 0x0D.

Definition build_pi30_frame (command : string) : res bytes :=
  rmap (fun body => body ++ crc16_voltronic body ++ [CR])%list (encode_ascii command).

(** [(ok, payload)]: the payload is what follows the first [(], without the
    two CRC bytes; on a short frame it is the unstripped body. *)
Definition validate_voltronic_response (raw : bytes) : bool * bytes :=
  let body := match bfind 0x28 raw with
              | Some idx => skipn (idx + 1) raw
              | None => blstrip [0x20; 0x09; 0x0D; 0x0A; 0x00] raw
              end in
  if (List.length body <? 3)%nat then (false, body)
  else
    let payload := bdroplast 2 body in
    let received := blast 2 body in
    let scopes := [payload; 0x28 :: payload; payload ++ [CR]]%list in
    let accepts scope :=
      let raw_crc := crc16_xmodem scope in
      let unbumped := [Z.land (Z.shiftr raw_crc 8) 0xFF; Z.land raw_crc 0xFF] in
      zlist_eqb received unbumped || zlist_eqb received (crc16_voltronic scope) in
    (existsb accepts scopes, payload).

Definition validate_pi18_response (raw : bytes) : bool * bytes :=
  if (List.length raw <? 3)%nat then (false, raw)
  else
    let payload := bdroplast 2 raw in
    (zlist_eqb (blast 2 raw) (crc16_xmodem_bytes payload), payload).

(** ** Structure of the byte step

    Over 16-bit states the XMODEM step is the table form
    [T[hi xor b] xor (lo << 8)]; the table is the step applied to a state
    whose low byte is zero. *)

Definition word (z : Z) : Prop := 0 <= z < 2 ^ 16.

Definition xtable (i : Z) : Z := Nat.iter 8 xmodem_bit (Z.shiftl i 8).

Lemma word_land z : word (Z.land z 0xFFFF).
Proof.
  unfold word. change 0xFFFF with (Z.ones 16). rewrite Z.land_ones by lia.
  apply Z.mod_pos_bound. lia.
Qed.

Lemma word_lxor a b : word a -> word b -> word (Z.lxor a b).
Proof. intros. apply lxor_bound; unfold word in *; lia. Qed.

Lemma xmodem_bit_word c : word (xmodem_bit c).
Proof. apply word_land. Qed.

Lemma iter_xmodem_bit_word n c : word c -> word (Nat.iter n xmodem_bit c).
Proof. destruct n; [auto|]. intros _. apply xmodem_bit_word. Qed.

Create HintDb crc.
#[export] Hint Resolve word_land word_lxor xmodem_bit_word iter_xmodem_bit_word : crc.

(** The test of the loop is bit 15 of the state. *)
Lemma xmodem_bit_testbit c :
  word c -> negb (Z.land c 0x8000 =? 0) = Z.testbit c 15.
Proof.
  intros Hc. change 0x8000 with (Z.shiftl 1 15).
  destruct (Z.testbit c 15) eqn:E.
  - apply negb_true_iff, Z.eqb_neq. intros H0.
    apply (f_equal (fun z => Z.testbit z 15)) in H0.
    rewrite Z.land_spec, E, Z.bits_0, Z.shiftl_spec in H0 by lia. discriminate.
  - apply negb_false_iff, Z.eqb_eq. apply Z.bits_inj'. intros i Hi.
    rewrite Z.land_spec, Z.bits_0, Z.shiftl_spec by lia.
    destruct (Z.eq_dec i 15) as [->|Hne]; [rewrite E; reflexivity|].
    assert (Z.testbit 1 (i - 15) = false) as ->.
    { destruct (Z.lt_ge_cases i 15); [apply Z.testbit_neg_r; lia|].
      apply (testbit_high 1 1); lia. }
    apply andb_false_r.
Qed.

Lemma xmodem_bit_linear a b :
  word a -> word b -> xmodem_bit (Z.lxor a b) = Z.lxor (xmodem_bit a) (xmodem_bit b).
Proof.
  intros Ha Hb. unfold xmodem_bit.
  rewrite !xmodem_bit_testbit by auto with crc. rewrite Z.lxor_spec.
  apply Z.bits_inj'. intros i Hi.
  destruct (Z.testbit a 15), (Z.testbit b 15); simpl xorb; cbv iota;
    rewrite ?Z.lxor_spec, ?Z.land_spec, ?Z.lxor_spec, ?Z.shiftl_spec,
      ?Z.lxor_spec by lia;
    destruct (Z.testbit a (i - 1)), (Z.testbit b (i - 1)),
      (Z.testbit 4129 i), (Z.testbit 65535 i); reflexivity.
Qed.

Lemma iter_xmodem_bit_linear n a b :
  word a -> word b ->
  Nat.iter n xmodem_bit (Z.lxor a b)
  = Z.lxor (Nat.iter n xmodem_bit a) (Nat.iter n xmodem_bit b).
Proof.
  intros Ha Hb. induction n as [|n IH]; simpl; [reflexivity|].
  rewrite IH. apply xmodem_bit_linear; auto with crc.
Qed.

Lemma shiftl_byte_word x : byte_ok x -> word (Z.shiftl x 8).
Proof. unfold byte_ok, word. rewrite Z.shiftl_mul_pow2 by lia. lia. Qed.

Lemma lo_byte c : byte_ok (Z.land c 255).
Proof.
  unfold byte_ok. change 255 with (Z.ones 8). rewrite Z.land_ones by lia.
  apply (Z.mod_pos_bound c (2 ^ 8)). lia.
Qed.

Lemma hi_byte c : word c -> byte_ok (Z.shiftr c 8).
Proof.
  unfold word, byte_ok. intros H. rewrite Z.shiftr_div_pow2 by lia.
  split; [apply Z.div_pos; lia|apply Z.div_lt_upper_bound; lia].
Qed.

Lemma byte_lxor a b : byte_ok a -> byte_ok b -> byte_ok (Z.lxor a b).
Proof. intros. apply (lxor_bound a b 8); unfold byte_ok in *; lia. Qed.

Lemma byte_word b : byte_ok b -> word b.
Proof. unfold byte_ok, word. lia. Qed.

#[export] Hint Resolve shiftl_byte_word lo_byte hi_byte byte_lxor byte_word : crc.

(** A state with its next input byte, split at the byte boundary. *)
Lemma feed_split c b :
  Z.lxor c (Z.shiftl b 8)
  = Z.lxor (Z.shiftl (Z.lxor (Z.shiftr c 8) b) 8) (Z.land c 255).
Proof.
  rewrite <- (hi_lo_split c) at 1. apply Z.bits_inj'. intros i Hi.
  rewrite !Z.lxor_spec, Z.lor_spec, !Z.shiftl_spec, Z.land_spec by lia.
  destruct (Z.lt_ge_cases i 8) as [Hl|Hh].
  - rewrite !(Z.testbit_neg_r _ (i - 8)) by lia.
    destruct (_ && _); reflexivity.
  - rewrite Z.lxor_spec, (testbit_high 255 8 i) by lia.
    rewrite andb_false_r, orb_false_r, xorb_false_r. reflexivity.
Qed.

Definition xlow_shifts (lo : Z) : bool :=
  Nat.iter 8 xmodem_bit lo =? Z.shiftl lo 8.

Lemma xlow_shifts_all : forall lo, 0 <= lo < 256 -> xlow_shifts lo = true.
Proof. by_range 256. Qed.

(** The bitwise loop is the table step. *)
Lemma xmodem_byte_table c b :
  word c -> byte_ok b ->
  xmodem_byte c b
  = Z.lxor (xtable (Z.lxor (Z.shiftr c 8) b)) (Z.shiftl (Z.land c 255) 8).
Proof.
  intros Hc Hb. unfold xmodem_byte. rewrite feed_split.
  rewrite iter_xmodem_bit_linear by auto 6 with crc.
  f_equal. apply Z.eqb_eq, xlow_shifts_all, lo_byte.
Qed.

Definition vtable (x : Z) : Z :=
  let x := Z.lxor x (Z.shiftr x 4) in
  Z.land (Z.lxor (Z.lxor (Z.shiftl x 12) (Z.shiftl x 5)) x) 0xFFFF.

Lemma vtable_xtable_all : forall x, 0 <= x < 256 -> (vtable x =? xtable x) = true.
Proof. by_range 256. Qed.

Lemma shiftl_land_lo c : Z.land (Z.shiftl c 8) 0xFFFF = Z.shiftl (Z.land c 255) 8.
Proof.
  change 0xFFFF with (Z.ones 16). change 255 with (Z.ones 8).
  apply Z.bits_inj'. intros i Hi.
  rewrite Z.land_spec, !Z.shiftl_spec by lia.
  destruct (Z.lt_ge_cases i 8).
  - rewrite !(Z.testbit_neg_r _ (i - 8)) by lia. reflexivity.
  - rewrite Z.land_spec. destruct (Z.lt_ge_cases i 16).
    + rewrite !Z.ones_spec_low by lia. reflexivity.
    + rewrite !Z.ones_spec_high by lia. reflexivity.
Qed.

Lemma land_lxor_distr a b c : Z.land (Z.lxor a b) c = Z.lxor (Z.land a c) (Z.land b c).
Proof.
  apply Z.bits_inj'. intros i Hi. rewrite Z.lxor_spec, !Z.land_spec, Z.lxor_spec.
  destruct (Z.testbit a i), (Z.testbit b i), (Z.testbit c i); reflexivity.
Qed.

Lemma voltronic_byte_table c b :
  voltronic_byte c b
  = Z.lxor (vtable (Z.lxor (Z.shiftr c 8) b)) (Z.shiftl (Z.land c 255) 8).
Proof.
  unfold voltronic_byte, vtable. rewrite <- shiftl_land_lo, !land_lxor_distr.
  rewrite !(Z.lxor_assoc (Z.land (Z.shiftl c 8) _)).
  apply Z.lxor_comm.
Qed.

Lemma voltronic_byte_xmodem c b :
  word c -> byte_ok b -> voltronic_byte c b = xmodem_byte c b.
Proof.
  intros Hc Hb. rewrite voltronic_byte_table, xmodem_byte_table by assumption.
  f_equal. apply Z.eqb_eq, vtable_xtable_all. apply byte_lxor; auto with crc.
Qed.

Lemma xmodem_byte_word c b : word c -> byte_ok b -> word (xmodem_byte c b).
Proof.
  intros Hc Hb. unfold xmodem_byte. apply iter_xmodem_bit_word. auto with crc.
Qed.
#[export] Hint Resolve xmodem_byte_word : crc.

Lemma fold_xmodem_word data c :
  word c -> bytes_ok data -> word (fold_left xmodem_byte data c).
Proof.
  revert c. induction data as [|b data IH]; simpl; intros c Hc Hd; [assumption|].
  inversion Hd; subst. apply IH; auto with crc.
Qed.

Lemma word_0 : word 0.
Proof. unfold word. lia. Qed.
#[export] Hint Resolve fold_xmodem_word word_0 : crc.

Lemma crc16_xmodem_word data : bytes_ok data -> word (crc16_xmodem data).
Proof. unfold crc16_xmodem. auto with crc. Qed.

Lemma fold_voltronic_xmodem data c :
  word c -> bytes_ok data ->
  fold_left voltronic_byte data c = fold_left xmodem_byte data c.
Proof.
  revert c. induction data as [|b data IH]; simpl; intros c Hc Hd; [reflexivity|].
  inversion Hd; subst. rewrite voltronic_byte_xmodem by assumption.
  apply IH; auto with crc.
Qed.

(** ** Injectivity of the byte step *)

Definition xtable_low_zero (x : Z) : bool :=
  implb (Z.land (xtable x) 255 =? 0) (x =? 0).

Lemma xtable_low_zero_all : forall x, 0 <= x < 256 -> xtable_low_zero x = true.
Proof. by_range 256. Qed.

Lemma xtable_linear x y :
  byte_ok x -> byte_ok y -> xtable (Z.lxor x y) = Z.lxor (xtable x) (xtable y).
Proof.
  intros Hx Hy. unfold xtable. rewrite Z.shiftl_lxor.
  apply iter_xmodem_bit_linear; auto with crc.
Qed.

Lemma xtable_low_inj x y :
  byte_ok x -> byte_ok y ->
  Z.land (xtable x) 255 = Z.land (xtable y) 255 -> x = y.
Proof.
  intros Hx Hy H. apply Z.lxor_eq.
  pose proof (xtable_low_zero_all _ (byte_lxor x y Hx Hy)) as H0.
  unfold xtable_low_zero in H0.
  rewrite xtable_linear, land_lxor_distr, H, Z.lxor_nilpotent in H0 by assumption.
  apply Z.eqb_eq, H0.
Qed.

Lemma land_shiftl_8 x : Z.land (Z.shiftl x 8) 255 = 0.
Proof.
  change 255 with (Z.ones 8). apply Z.bits_inj'. intros i Hi.
  rewrite Z.land_spec, Z.shiftl_spec, Z.bits_0 by lia.
  destruct (Z.lt_ge_cases i 8).
  - rewrite Z.testbit_neg_r by lia. reflexivity.
  - rewrite Z.ones_spec_high by lia. apply andb_false_r.
Qed.

(** Equal successor states have the same low byte and the same xor of high
    byte and input. *)
Lemma xmodem_byte_inj c c' b b' :
  word c -> word c' -> byte_ok b -> byte_ok b' ->
  xmodem_byte c b = xmodem_byte c' b' ->
  Z.land c 255 = Z.land c' 255
  /\ Z.lxor (Z.shiftr c 8) b = Z.lxor (Z.shiftr c' 8) b'.
Proof.
  intros Hc Hc' Hb Hb' H. rewrite !xmodem_byte_table in H by assumption.
  assert (Z.lxor (Z.shiftr c 8) b = Z.lxor (Z.shiftr c' 8) b') as E.
  { apply xtable_low_inj; [auto with crc..|].
    apply (f_equal (fun z => Z.land z 255)) in H.
    rewrite !land_lxor_distr, !land_shiftl_8, !Z.lxor_0_r in H. exact H. }
  split; [|exact E]. rewrite E in H. apply lxor_inj_l in H.
  apply (f_equal (fun z => Z.shiftr z 8)) in H.
  rewrite !Z.shiftr_shiftl_l, !Z.shiftl_0_r in H by lia. exact H.
Qed.

Lemma xmodem_byte_inj_state c c' b :
  word c -> word c' -> byte_ok b -> xmodem_byte c b = xmodem_byte c' b -> c = c'.
Proof.
  intros Hc Hc' Hb H. apply xmodem_byte_inj in H as [Hl Hh]; try assumption.
  rewrite Z.lxor_comm, (Z.lxor_comm _ b) in Hh. apply lxor_inj_l in Hh.
  rewrite <- (hi_lo_split c), <- (hi_lo_split c'), Hl, Hh. reflexivity.
Qed.

Lemma xmodem_byte_inj_byte c b b' :
  word c -> byte_ok b -> byte_ok b' -> xmodem_byte c b = xmodem_byte c b' -> b = b'.
Proof.
  intros Hc Hb Hb' H. apply xmodem_byte_inj in H as [_ Hh]; try assumption.
  apply lxor_inj_l in Hh. exact Hh.
Qed.

Lemma fold_xmodem_inj_state data c c' :
  word c -> word c' -> bytes_ok data ->
  fold_left xmodem_byte data c = fold_left xmodem_byte data c' -> c = c'.
Proof.
  revert c c'. induction data as [|b data IH]; simpl; intros c c' Hc Hc' Hd H;
    [exact H|].
  inversion Hd; subst. apply IH in H; auto with crc.
  apply xmodem_byte_inj_state in H; auto.
Qed.

(** Two adjacent input bytes are determined by the state they lead to. *)
Lemma xmodem_two_bytes_inj c a b a' b' :
  word c -> byte_ok a -> byte_ok b -> byte_ok a' -> byte_ok b' ->
  xmodem_byte (xmodem_byte c a) b = xmodem_byte (xmodem_byte c a') b' ->
  a = a' /\ b = b'.
Proof.
  intros Hc Ha Hb Ha' Hb' H.
  pose proof H as H'. apply xmodem_byte_inj in H' as [Hl _]; auto with crc.
  assert (a = a') as ->.
  { rewrite !xmodem_byte_table, !land_lxor_distr, !land_shiftl_8, !Z.lxor_0_r
      in Hl by assumption.
    apply xtable_low_inj in Hl; auto with crc.
    apply lxor_inj_l in Hl. exact Hl. }
  split; [reflexivity|].
  apply xmodem_byte_inj_byte in H; auto with crc.
Qed.

(** A change confined to two adjacent bytes (a burst of at most 16 bits)
    changes the checksum. *)
Lemma crc16_xmodem_burst pre suf a b a' b' :
  bytes_ok pre -> bytes_ok suf ->
  byte_ok a -> byte_ok b -> byte_ok a' -> byte_ok b' ->
  crc16_xmodem (pre ++ [a; b] ++ suf) = crc16_xmodem (pre ++ [a'; b'] ++ suf) ->
  a = a' /\ b = b'.
Proof.
  unfold crc16_xmodem. rewrite !fold_left_app. cbn [fold_left].
  intros Hp Hs Ha Hb Ha' Hb' H.
  apply fold_xmodem_inj_state in H; auto 6 with crc.
  apply xmodem_two_bytes_inj in H; auto with crc.
Qed.

(** ** Properties *)

Lemma crc16_voltronic_bytes data :
  bytes_ok data ->
  crc16_voltronic data = map bump (crc16_xmodem_bytes data).
Proof.
  intros H. unfold crc16_voltronic, crc16_xmodem_bytes, crc16_xmodem.
  now rewrite fold_voltronic_xmodem by auto with crc.
Qed.

Lemma bump_range b : byte_ok b ->
  byte_ok (bump b) /\ bump b <> 0x28 /\ bump b <> 0x0D /\ bump b <> 0x0A.
Proof.
  unfold byte_ok, bump. simpl. intros H.
  destruct (Z.eqb_spec b 40), (Z.eqb_spec b 13), (Z.eqb_spec b 10); simpl; lia.
Qed.

Lemma xmodem_bytes_ok data : bytes_ok (crc16_xmodem_bytes data).
Proof. repeat constructor; apply lo_byte. Qed.

Lemma xmodem_bytes_length data : List.length (crc16_xmodem_bytes data) = 2%nat.
Proof. reflexivity. Qed.

Lemma xmodem_bytes_inj a b :
  bytes_ok a -> bytes_ok b ->
  crc16_xmodem_bytes a = crc16_xmodem_bytes b -> crc16_xmodem a = crc16_xmodem b.
Proof.
  intros Ha Hb H. unfold crc16_xmodem_bytes in H. injection H as Hh Hl.
  change 255 with (Z.ones 8) in Hh.
  rewrite !land_ones_small in Hh by (lia || apply hi_byte; auto using crc16_xmodem_word).
  rewrite <- (hi_lo_split (crc16_xmodem a)), <- (hi_lo_split (crc16_xmodem b)).
  now rewrite Hh, Hl.
Qed.

Lemma firstn_last_two {A} (l : list A) x y :
  skipn (List.length l) (l ++ [x; y]) = [x; y].
Proof. now rewrite skipn_app, skipn_all, Nat.sub_diag. Qed.

(** The table-free loop of [crc16_voltronic] computes the
    XMODEM checksum, then moves each byte off the frame control bytes; no
    control byte is ever emitted and nothing overflows a byte. *)
Theorem voltronic_crc_is_bumped_xmodem (data : bytes) (Hd : bytes_ok data) :
  crc16_voltronic data = map bump (crc16_xmodem_bytes data)
  /\ bytes_ok (crc16_voltronic data)
  /\ Forall (fun b => ~ In b [0x28; 0x0D; 0x0A]) (crc16_voltronic data).
Proof.
  rewrite crc16_voltronic_bytes by assumption. split; [reflexivity|].
  split; apply Forall_map; eapply Forall_impl; try apply xmodem_bytes_ok;
    intros b Hb; destruct (bump_range b Hb) as (? & ? & ? & ?); [assumption|].
  simpl. intuition congruence.
Qed.

Lemma voltronic_crc_is_bumped_xmodem_witness :
  bytes_ok (b_ "POP02")
  /\ crc16_voltronic (b_ "POP02") = [0xE2; 0x0B]
  /\ crc16_voltronic (b_ "POP02") = map bump (crc16_xmodem_bytes (b_ "POP02")).
Proof.
  assert (bytes_ok (b_ "POP02")) as H by (apply bytes_ok_dec; reflexivity).
  split; [exact H|]. split; [reflexivity|].
  exact (proj1 (voltronic_crc_is_bumped_xmodem (b_ "POP02") H)).
Defined.

(** A well-formed PI30 response is accepted and its payload
    recovered, whichever of the three CRC scopes and two CRC encodings the
    firmware uses and whatever junk without a frame start precedes it. *)
Theorem validate_voltronic_accepts (junk payload scope crc : bytes)
    (Hj : Forall (fun b => b <> 0x28) junk)
    (Hp : (0 < List.length payload)%nat)
    (Hs : In scope [payload; 0x28 :: payload; payload ++ [CR]])
    (Hc : crc = crc16_xmodem_bytes scope \/ crc = crc16_voltronic scope) :
  validate_voltronic_response (junk ++ 0x28 :: payload ++ crc) = (true, payload).
Proof.
  unfold validate_voltronic_response.
  rewrite bfind_app_skip by assumption.
  replace (List.length junk + 1)%nat with (List.length (junk ++ [0x28]))
    by (rewrite length_app; reflexivity).
  replace (junk ++ 0x28 :: payload ++ crc) with ((junk ++ [0x28]) ++ payload ++ crc)
    by now rewrite <- app_assoc.
  rewrite skipn_app, skipn_all, Nat.sub_diag. simpl app. simpl skipn.
  assert (List.length crc = 2%nat) as Hl by (destruct Hc as [-> | ->]; reflexivity).
  rewrite length_app, Hl. destruct (Nat.ltb_spec (List.length payload + 2) 3); [lia|].
  pose proof (bdroplast_app payload crc) as Hd. rewrite Hl in Hd. rewrite Hd.
  pose proof (blast_app payload crc) as Hb. rewrite Hl in Hb. rewrite Hb.
  f_equal. apply existsb_exists. exists scope. split; [exact Hs|].
  apply orb_true_iff. rewrite !zlist_eqb_spec.
  destruct Hc as [-> | ->]; [left|right]; reflexivity.
Qed.

Lemma validate_voltronic_accepts_witness :
  validate_voltronic_response
    ([0; 0] ++ 0x28 :: b_ "NAK" ++ crc16_voltronic (0x28 :: b_ "NAK"))
  = (true, b_ "NAK").
Proof.
  apply (validate_voltronic_accepts [0; 0] (b_ "NAK") (0x28 :: b_ "NAK")).
  - repeat constructor; lia.
  - simpl; lia.
  - right; left; reflexivity.
  - right; reflexivity.
Defined.

(** C21: the PI18 validator accepts exactly the frames that end in
    the XMODEM checksum of what precedes, and any corruption confined to two
    adjacent payload bytes (a burst of at most 16 bits) makes it reject. *)
Theorem validate_pi18_detects_bursts (pre suf : bytes) (a b a' b' : Z)
    (Hpre : bytes_ok pre) (Hsuf : bytes_ok suf)
    (Ha : byte_ok a) (Hb : byte_ok b) (Ha' : byte_ok a') (Hb' : byte_ok b')
    (Hdiff : (a, b) <> (a', b')) :
  let sent := pre ++ [a; b] ++ suf in
  let corrupted := pre ++ [a'; b'] ++ suf in
  validate_pi18_response (sent ++ crc16_xmodem_bytes sent) = (true, sent)
  /\ validate_pi18_response (corrupted ++ crc16_xmodem_bytes sent) = (false, corrupted).
Proof.
  intros sent corrupted.
  assert (forall p c, (2 <= List.length p)%nat -> List.length c = 2%nat ->
    validate_pi18_response (p ++ c) = (zlist_eqb c (crc16_xmodem_bytes p), p)) as V.
  { intros p c Hp Hc. unfold validate_pi18_response.
    rewrite length_app, Hc. destruct (Nat.ltb_spec (List.length p + 2) 3); [lia|].
    pose proof (bdroplast_app p c) as Hd. rewrite Hc in Hd. rewrite Hd.
    pose proof (blast_app p c) as Hl. rewrite Hc in Hl. now rewrite Hl. }
  assert (forall x y, 2 <= List.length (pre ++ [x; y] ++ suf))%nat as L
    by (intros; rewrite !length_app; simpl; lia).
  split; (rewrite V; [|apply L|reflexivity]); f_equal.
  - now apply zlist_eqb_spec.
  - apply not_true_iff_false. rewrite zlist_eqb_spec. intros E. apply Hdiff.
    assert (forall x y, byte_ok x -> byte_ok y -> bytes_ok (pre ++ [x; y] ++ suf)) as Hok.
    { intros x y Hx Hy. apply bytes_ok_app. split; [exact Hpre|].
      constructor; [exact Hx|]. constructor; [exact Hy|exact Hsuf]. }
    apply xmodem_bytes_inj in E; [|apply Hok; assumption..].
    apply crc16_xmodem_burst in E as [-> ->]; auto.
Qed.

Lemma validate_pi18_detects_bursts_witness :
  validate_pi18_response ((b_ "^D00" ++ [0x38; 0x31] ++ b_ "26")
     ++ crc16_xmodem_bytes (b_ "^D00" ++ [0x38; 0x30] ++ b_ "26"))
  = (false, b_ "^D00" ++ [0x38; 0x31] ++ b_ "26").
Proof.
  apply (validate_pi18_detects_bursts (b_ "^D00") (b_ "26") 0x38 0x30 0x38 0x31);
    try (apply bytes_ok_dec; reflexivity); try (unfold byte_ok; lia).
  congruence.
Defined.
