(* ===== verification/SocCore.v ===== *)
(** State-of-charge estimator: [soc_core.py].

    One [estimator] per battery; the configuration mutators, [restore] and the
    integrator step [update] are state-passing functions over binary64 floats.
    The wall-clock stamp type is a parameter. *)

From Stdlib Require Import ZArith List Bool Lia String Floats.SpecFloat.
From S2P Require Import Prelude PyFloat FloatFacts.
Import ListNotations.
#[local] Open Scope list_scope.
#[local] Open Scope Z_scope.

(** ** Chemistry presets *)

Inductive battery_mode := LI_VOLTAGE | LI_BMS | LEAD_ACID.

Definition BATTERY_MODE_LI_VOLTAGE : string := "Lithium (Voltage)".
Definition BATTERY_MODE_LI_BMS : string := "Lithium (BMS)".
Definition BATTERY_MODE_LEAD_ACID : string := "Lead-acid".

(** The keys of [CHEMISTRY_PARAMS]. *)
Definition mode_of_string (s : string) : option battery_mode :=
  if String.eqb s BATTERY_MODE_LI_VOLTAGE then Some LI_VOLTAGE
  else if String.eqb s BATTERY_MODE_LI_BMS then Some LI_BMS
  else if String.eqb s BATTERY_MODE_LEAD_ACID then Some LEAD_ACID
  else None.

Definition mode_eqb (a b : battery_mode) : bool :=
  match a, b with
  | LI_VOLTAGE, LI_VOLTAGE | LI_BMS, LI_BMS | LEAD_ACID, LEAD_ACID => true
  | _, _ => false
  end.

Record ChemistryParams := {
  charge_eff : float;
  discharge_eff : float;
  tail_c_rate : float
}.

Definition CHEMISTRY_PARAMS (m : battery_mode) : ChemistryParams :=
  match m with
  | LI_VOLTAGE => {| charge_eff := flit 99 100; discharge_eff := flit 1 1; tail_c_rate := flit 5 100 |}
  | LEAD_ACID => {| charge_eff := flit 90 100; discharge_eff := flit 95 100; tail_c_rate := flit 2 100 |}
  | LI_BMS => {| charge_eff := flit 1 1; discharge_eff := flit 1 1; tail_c_rate := flit 5 100 |}
  end.

Definition DEFAULT_FLOAT_VOLTAGE_WINDOW_V : float := flit 1 2.
Definition DEFAULT_FLOAT_NOISE_FLOOR_A : float := flit 3 2.
Definition SYNC_DEBOUNCE_TICKS : Z := 3.

Section Estimator.
(** [datetime] *)
Context {T : Type}.

Record estimator := {
  capacity_ah : option float;
  mode : battery_mode;
  deadband_enabled : bool;
  float_voltage_window : float;
  float_noise_floor : float;
  accumulated_charge_ah : float;
  at_sync_ticks : Z;
  prev_current_a : option float;
  prev_effective_current_a : option float;
  prev_ts : option float;
  last_sync_at : option T;
  soc_percent : option float
}.

(** [SocEstimator.__init__] *)
Definition initial : estimator := {|
  capacity_ah := None;
  mode := LI_VOLTAGE;
  deadband_enabled := true;
  float_voltage_window := DEFAULT_FLOAT_VOLTAGE_WINDOW_V;
  float_noise_floor := DEFAULT_FLOAT_NOISE_FLOOR_A;
  accumulated_charge_ah := f0;
  at_sync_ticks := 0;
  prev_current_a := None;
  prev_effective_current_a := None;
  prev_ts := None;
  last_sync_at := None;
  soc_percent := None
|}.

Definition with_config (st : estimator) m en w n : estimator := {|
  capacity_ah := capacity_ah st; mode := m; deadband_enabled := en;
  float_voltage_window := w; float_noise_floor := n;
  accumulated_charge_ah := accumulated_charge_ah st;
  at_sync_ticks := at_sync_ticks st; prev_current_a := prev_current_a st;
  prev_effective_current_a := prev_effective_current_a st; prev_ts := prev_ts st;
  last_sync_at := last_sync_at st; soc_percent := soc_percent st |}.

Definition with_charge (st : estimator) cap acc soc : estimator := {|
  capacity_ah := cap; mode := mode st; deadband_enabled := deadband_enabled st;
  float_voltage_window := float_voltage_window st;
  float_noise_floor := float_noise_floor st;
  accumulated_charge_ah := acc;
  at_sync_ticks := at_sync_ticks st; prev_current_a := prev_current_a st;
  prev_effective_current_a := prev_effective_current_a st; prev_ts := prev_ts st;
  last_sync_at := last_sync_at st; soc_percent := soc |}.

Definition with_sync (st : estimator) ticks last : estimator := {|
  capacity_ah := capacity_ah st; mode := mode st;
  deadband_enabled := deadband_enabled st;
  float_voltage_window := float_voltage_window st;
  float_noise_floor := float_noise_floor st;
  accumulated_charge_ah := accumulated_charge_ah st;
  at_sync_ticks := ticks; prev_current_a := prev_current_a st;
  prev_effective_current_a := prev_effective_current_a st; prev_ts := prev_ts st;
  last_sync_at := last; soc_percent := soc_percent st |}.

Definition with_prev (st : estimator) cur eff ts : estimator := {|
  capacity_ah := capacity_ah st; mode := mode st;
  deadband_enabled := deadband_enabled st;
  float_voltage_window := float_voltage_window st;
  float_noise_floor := float_noise_floor st;
  accumulated_charge_ah := accumulated_charge_ah st;
  at_sync_ticks := at_sync_ticks st; prev_current_a := cur;
  prev_effective_current_a := eff; prev_ts := ts;
  last_sync_at := last_sync_at st; soc_percent := soc_percent st |}.

(** ** Configuration mutators *)

Definition set_mode (m : string) (st : estimator) : estimator :=
  match mode_of_string m with
  | None => st
  | Some m' =>
      let st := if mode_eqb m' (mode st) then st
                else with_sync st 0 (last_sync_at st) in
      with_config st m' (deadband_enabled st) (float_voltage_window st)
        (float_noise_floor st)
  end.

Definition set_deadband (enabled : bool) (window noise_floor : float)
    (st : estimator) : estimator :=
  with_config st (mode st) enabled (fmax f0 window) (fmax f0 noise_floor).

Definition set_capacity (value : option float) (st : estimator) : estimator :=
  match value with
  | None => with_charge st None (accumulated_charge_ah st) (soc_percent st)
  | Some v =>
      if fle v f0
      then with_charge st None (accumulated_charge_ah st) (soc_percent st)
      else match capacity_ah st with
           | None =>
               match soc_percent st with
               | Some s =>
                   let frac := clamp (fdiv_nz s f100) f0 (flit 1 1) in
                   with_charge st (Some v) (fmul frac v) (Some s)
               | None => with_charge st (Some v) v (Some f100)
               end
           | Some old =>
               let frac :=
                 if fgt old f0 then fdiv_nz (accumulated_charge_ah st) old
                 else match soc_percent st with
                      | Some s => fdiv_nz s f100
                      | None => flit 1 1
                      end in
               let frac := clamp frac f0 (flit 1 1) in
               with_charge st (Some v) (fmul frac v)
                 (Some (round_to 2 (fmul frac f100)))
           end
  end.

Definition restore (soc : option float) (acc : float) (last : option T)
    (st : estimator) : estimator :=
  with_sync (with_charge st (capacity_ah st) acc soc) (at_sync_ticks st) last.

(** ** The integrator *)

Record tick := {
  signed_current_a : float;
  voltage : float;
  now : float;
  sync_voltage : option float;
  floating_voltage : option float;
  bms_soc : option float;
  wall_now : option T
}.

Definition in_float_deadband (st : estimator) (i : tick) : bool :=
  deadband_enabled st &&
  match floating_voltage i with
  | Some fv => flt (fabs (fsub (voltage i) fv)) (float_voltage_window st)
  | None => false
  end &&
  fle (fabs (signed_current_a i)) (float_noise_floor st).

Definition effective_current (st : estimator) (i : tick) : float :=
  let params := CHEMISTRY_PARAMS (mode st) in
  if fge (signed_current_a i) f0
  then fmul (signed_current_a i) (charge_eff params)
  else fdiv_nz (signed_current_a i) (discharge_eff params).

(** The trapezoid step: deadband ticks only move the baseline. *)
Definition integrate (st : estimator) (i : tick) : estimator :=
  let elapsed := match prev_ts st with
                 | Some t => fsub (now i) t
                 | None => f0
                 end in
  if in_float_deadband st i
  then with_prev st (Some (signed_current_a i)) None (Some (now i))
  else
    let eff := effective_current st i in
    let st' :=
      match prev_effective_current_a st with
      | Some prev =>
          let inc := fdiv_nz (fmul (fdiv_nz elapsed (float_of_Z 3600)) (fadd prev eff))
                       (float_of_Z 2) in
          with_charge st (capacity_ah st) (fadd (accumulated_charge_ah st) inc)
            (soc_percent st)
      | None => st
      end in
    with_prev st' (Some (signed_current_a i)) (Some eff) (Some (now i)).

Definition tail_current (st : estimator) (cap : float) : float :=
  fmul cap (tail_c_rate (CHEMISTRY_PARAMS (mode st))).

(** The snap condition of one tick. *)
Definition qualifies (st : estimator) (cap sync : float) (i : tick) : bool :=
  let v_full :=
    match floating_voltage i with
    | Some fv => if fgt fv f0 then fmin sync fv else sync
    | None => sync
    end in
  fge (voltage i) v_full && fle (fabs (signed_current_a i)) (tail_current st cap).

Definition next_ticks (st : estimator) (cap sync : float) (i : tick) : Z :=
  if qualifies st cap sync i then at_sync_ticks st + 1
  else if flt (signed_current_a i) (fneg (tail_current st cap)) then 0
  else Z.max 0 (at_sync_ticks st - 1).

Definition update (i : tick) (st : estimator) : estimator * option float :=
  match capacity_ah st with
  | None =>
      (with_charge st (capacity_ah st) (accumulated_charge_ah st) None, None)
  | Some cap =>
      if fle cap f0
      then (with_charge st (capacity_ah st) (accumulated_charge_ah st) None, None)
      else
        match (if mode_eqb (mode st) LI_BMS then bms_soc i else None) with
        | Some b =>
            let soc := Some (round_to 2 b) in
            let st := with_charge st (Some cap) (fmul (fdiv_nz b f100) cap) soc in
            let st := with_prev st (Some (signed_current_a i)) None (Some (now i)) in
            (with_sync st 0 (last_sync_at st), soc)
        | None =>
            match sync_voltage i with
            | None =>
                (with_charge st (Some cap) (accumulated_charge_ah st) None, None)
            | Some sync =>
                let ticks := next_ticks st cap sync i in
                let st := integrate st i in
                let snap := SYNC_DEBOUNCE_TICKS <=? ticks in
                let last :=
                  if snap && (ticks =? SYNC_DEBOUNCE_TICKS) then
                    match wall_now i with
                    | Some w => Some w
                    | None => last_sync_at st
                    end
                  else last_sync_at st in
                let acc := if snap then cap
                           else clamp (accumulated_charge_ah st) f0 cap in
                let raw := if snap then f100 else fmul (fdiv_nz acc cap) f100 in
                let soc := Some (round_to 2 (clamp raw f0 f100)) in
                (with_sync (with_charge st (Some cap) acc soc) ticks last, soc)
            end
        end
  end.
(** A sequence of ticks, oldest first. *)
Definition run (ts : list tick) (st : estimator) : estimator :=
  fold_left (fun st i => fst (update i st)) ts st.

(** ** The debounce as an abstract counter

    What a tick means to the snap counter, decided by the configuration
    alone: ticks never change the capacity nor the mode. *)

Inductive tick_class := Full | Drop | Decay | Ignored.

Definition class_of (st : estimator) (i : tick) : tick_class :=
  match capacity_ah st with
  | None => Ignored
  | Some cap =>
      if fle cap f0 then Ignored
      else match (if mode_eqb (mode st) LI_BMS then bms_soc i else None) with
           | Some _ => Drop
           | None =>
               match sync_voltage i with
               | None => Ignored
               | Some sync =>
                   if qualifies st cap sync i then Full
                   else if flt (signed_current_a i) (fneg (tail_current st cap))
                        then Drop else Decay
               end
           end
  end.

(** The balance of a stretch of ticks: full ones minus decaying ones. *)
Fixpoint balance (cs : list tick_class) : Z :=
  match cs with
  | [] => 0
  | Full :: cs => 1 + balance cs
  | Decay :: cs => balance cs - 1
  | _ :: cs => balance cs
  end.

Definition no_drop (cs : list tick_class) : Prop := ~ In Drop cs.

Lemma update_config i st :
  capacity_ah (fst (update i st)) = capacity_ah st /\ mode (fst (update i st)) = mode st
  /\ deadband_enabled (fst (update i st)) = deadband_enabled st
  /\ float_voltage_window (fst (update i st)) = float_voltage_window st
  /\ float_noise_floor (fst (update i st)) = float_noise_floor st.
Proof.
  unfold update. destruct (capacity_ah st) as [cap|] eqn:E; [|now repeat split].
  destruct (fle cap f0); [now repeat split|].
  destruct (if mode_eqb _ _ then _ else _) as [b|]; [now repeat split|].
  destruct (sync_voltage i) as [sync|]; [|now repeat split].
  unfold integrate. destruct (in_float_deadband st i); [now repeat split|].
  destruct (prev_effective_current_a st); now repeat split.
Qed.

Lemma class_of_update i j st : class_of (fst (update i st)) j = class_of st j.
Proof.
  pose proof (update_config i st) as (Hc & Hm & _).
  unfold class_of, qualifies, tail_current. rewrite Hc, Hm. reflexivity.
Qed.

(** One tick of the counter. *)
Definition count (n : Z) (c : tick_class) : Z :=
  match c with
  | Full => n + 1
  | Drop => 0
  | Decay => Z.max 0 (n - 1)
  | Ignored => n
  end.

Lemma update_count i st :
  at_sync_ticks (fst (update i st)) = count (at_sync_ticks st) (class_of st i).
Proof.
  unfold update, class_of. destruct (capacity_ah st) as [cap|] eqn:E; [|reflexivity].
  destruct (fle cap f0); [reflexivity|].
  destruct (if mode_eqb _ _ then _ else _) as [b|]; [reflexivity|].
  destruct (sync_voltage i) as [sync|]; [|reflexivity].
  unfold next_ticks. simpl. destruct (qualifies st cap sync i); [reflexivity|].
  destruct (flt _ _); reflexivity.
Qed.

Lemma run_count ts st :
  at_sync_ticks (run ts st) = fold_left count (map (class_of st) ts) (at_sync_ticks st).
Proof.
  revert st. induction ts as [|i ts IH]; intros st; [reflexivity|].
  cbn [run fold_left map]. fold (run ts (fst (update i st))). rewrite IH, update_count.
  f_equal. apply map_ext. intros j. apply class_of_update.
Qed.

Lemma balance_app a b : balance (a ++ b) = balance a + balance b.
Proof. induction a as [|[] a IH]; cbn [balance app]; lia. Qed.

Lemma count_nonneg cs : 0 <= fold_left count cs 0.
Proof.
  induction cs as [|c cs IH] using rev_ind; simpl; [lia|].
  rewrite fold_left_app. cbn [fold_left]. destruct c; cbn [count]; lia.
Qed.

(** The counter is the largest balance of a suffix without a hard discharge. *)
Lemma count_suffix_bound cs : forall pre suf, cs = pre ++ suf -> no_drop suf ->
  balance suf <= fold_left count cs 0.
Proof.
  induction cs as [|c cs IH] using rev_ind; intros pre suf E H.
  - symmetry in E. apply app_eq_nil in E as [-> ->]. simpl. lia.
  - rewrite fold_left_app. cbn [fold_left]. pose proof (count_nonneg cs) as Hn.
    destruct suf as [|d suf _] using rev_ind; [destruct c; simpl; lia|].
    rewrite app_assoc in E. apply app_inj_tail in E as [-> <-].
    assert (no_drop suf) as Hs by (intros Hi; apply H, in_or_app; now left).
    specialize (IH pre suf eq_refl Hs). rewrite balance_app.
    destruct c; simpl; try lia.
    exfalso. apply H, in_or_app. right. now left.
Qed.

Lemma count_suffix_reached cs : exists pre suf, cs = pre ++ suf /\ no_drop suf
  /\ balance suf = fold_left count cs 0.
Proof.
  induction cs as [|c cs (pre & suf & E & Hd & Hb)] using rev_ind.
  - exists [], []. repeat split. easy.
  - rewrite fold_left_app. cbn [fold_left].
    assert (Hnil : exists pre' suf', cs ++ [c] = pre' ++ suf' /\ no_drop suf'
      /\ balance suf' = 0).
    { exists (cs ++ [c]), []. rewrite app_nil_r. repeat split. easy. }
    assert (Hext : c <> Drop -> exists pre' suf', cs ++ [c] = pre' ++ suf' /\ no_drop suf'
      /\ balance suf' = fold_left count cs 0 + balance [c]).
    { intros Hc. exists pre, (suf ++ [c]). rewrite E, app_assoc. split; [reflexivity|].
      split; [intros [Hi|[Hi|[]]]%in_app_or; [now apply Hd|congruence]|].
      rewrite balance_app, Hb, E. reflexivity. }
    destruct c; simpl in *.
    + destruct Hext as (p & q & H1 & H2 & H3); [easy|]. exists p, q. repeat split; auto; lia.
    + exact Hnil.
    + destruct (Z.leb_spec (fold_left count cs 0) 1).
      * pose proof (count_nonneg cs). destruct Hnil as (p & q & H1 & H2 & H3).
        exists p, q. repeat split; auto; lia.
      * destruct Hext as (p & q & H1 & H2 & H3); [easy|]. exists p, q. repeat split; auto; lia.
    + destruct Hext as (p & q & H1 & H2 & H3); [easy|]. exists p, q. repeat split; auto; lia.
Qed.

(** ** Lemmas on one step *)

Lemma clamp_small v lo hi : small_mant v -> small_mant lo -> small_mant hi ->
  small_mant (clamp v lo hi).
Proof. intros. now destruct (clamp_cases v lo hi) as [->|[->| ->]]. Qed.

Lemma clamp_idem v lo hi : clamp (clamp v lo hi) lo hi = clamp v lo hi.
Proof.
  unfold clamp, fmax, fmin, fgt.
  destruct (flt v hi) eqn:E1, (flt lo hi) eqn:E2; rewrite ?E2.
  - destruct (flt lo v) eqn:E3; rewrite ?E1, ?E2, ?E3; [reflexivity|].
    rewrite ?E2; now destruct (flt lo lo).
  - destruct (flt lo v) eqn:E3; now rewrite ?E1, ?E2, ?E3.
  - destruct (flt hi hi); now rewrite ?E2.
  - destruct (flt lo hi), (flt hi hi), (flt lo lo); congruence.
Qed.

Lemma pct_of_clamp v : small_mant v -> in_pct (round_to 2 (clamp v f0 f100)).
Proof.
  intros Hv. apply round_to_2_pct.
  - apply clamp_small; [exact Hv|exact I|reflexivity].
  - apply clamp_range; reflexivity.
Qed.

Lemma integrate_deadband st i : in_float_deadband st i = true ->
  integrate st i = with_prev st (Some (signed_current_a i)) None (Some (now i)).
Proof. intros H. unfold integrate. now rewrite H. Qed.

Lemma integrate_baseline st i : prev_effective_current_a st = None ->
  accumulated_charge_ah (integrate st i) = accumulated_charge_ah st.
Proof. intros H. unfold integrate. rewrite H. now destruct (in_float_deadband st i). Qed.

(** An idle tick of a configured estimator: in the deadband, with a sync
    reference, not mirrored from the BMS and not completing the debounce. *)
Definition idle (st : estimator) (cap : float) (i : tick) : Prop :=
  in_float_deadband st i = true
  /\ (if mode_eqb (mode st) LI_BMS then bms_soc i else None) = None
  /\ exists sync, sync_voltage i = Some sync /\ next_ticks st cap sync i < SYNC_DEBOUNCE_TICKS.

Lemma update_idle st cap i :
  capacity_ah st = Some cap -> fle cap f0 = false -> idle st cap i ->
  accumulated_charge_ah (fst (update i st)) = clamp (accumulated_charge_ah st) f0 cap
  /\ prev_effective_current_a (fst (update i st)) = None.
Proof.
  intros Hc Hp (Hd & Hb & sync & Hs & Hn). unfold update.
  rewrite Hc, Hp, Hb, Hs. destruct (Z.leb_spec SYNC_DEBOUNCE_TICKS (next_ticks st cap sync i)); [lia|].
  rewrite integrate_deadband by exact Hd. split; reflexivity.
Qed.

(** ** Reachable estimators

    What may be done to an estimator, in any order and with any arguments: no
    reading, restored value or BMS percentage is assumed to be in a range. *)

Inductive op :=
| SetMode (m : string)
| SetDeadband (enabled : bool) (window noise_floor : float)
| SetCapacity (value : option float)
| RestoreState (soc : option float) (acc : float) (last : option T)
| Update (i : tick).

Definition apply_op (st : estimator) (o : op) : estimator :=
  match o with
  | SetMode m => set_mode m st
  | SetDeadband en w n => set_deadband en w n st
  | SetCapacity v => set_capacity v st
  | RestoreState soc acc last => restore soc acc last st
  | Update i => fst (update i st)
  end.

Definition run_ops (ops : list op) (st : estimator) : estimator := fold_left apply_op ops st.

(** The percentage an operation takes over from outside, unclamped: a restored
    one as it is, the one of the BMS rounded. *)
Definition imposed (o : op) (st : estimator) : option float :=
  match o with
  | RestoreState soc _ _ => soc
  | Update i =>
      match capacity_ah st with
      | Some cap =>
          if fle cap f0 then None
          else if mode_eqb (mode st) LI_BMS then option_map (round_to 2) (bms_soc i) else None
      | None => None
      end
  | _ => None
  end.

Definition pct_value (o : option float) : Prop :=
  match o with Some s => small_mant s /\ in_pct s | None => True end.

(** The percentages given from outside are percentages. *)
Definition bounded (o : op) : Prop :=
  match o with
  | RestoreState soc _ _ => pct_value soc
  | Update i => pct_value (bms_soc i)
  | _ => True
  end.

(** The transitions by operations in [P], and what they reach. *)
Definition soc_step (P : op -> Prop) (st st' : estimator) : Prop := exists o, P o /\ st' = apply_op st o.

Inductive reachable (P : op -> Prop) : estimator -> Prop :=
| reachable_initial : reachable P initial
| reachable_step st st' : reachable P st -> soc_step P st st' -> reachable P st'.

(** What holds of any estimator, and with its percentage. *)
Definition config_inv (st : estimator) : Prop :=
  0 <= at_sync_ticks st
  /\ (forall cap, capacity_ah st = Some cap -> fle cap f0 = false)
  /\ (fle f0 (float_voltage_window st) = true /\ fle f0 (float_noise_floor st) = true).

Definition soc_inv (st : estimator) : Prop := config_inv st /\ pct_value (soc_percent st).

Lemma round_to_small n x : small_mant x -> small_mant (round_to n x).
Proof.
  destruct x as [| | |b m e]; intros H; try exact H. unfold round_to.
  destruct (rhe _ _); [exact I|apply fratio_small|exact I].
Qed.

Lemma pct_round x : small_mant x -> in_pct x -> pct_value (Some (round_to 2 x)).
Proof. intros Hs Hp. split; [now apply round_to_small|now apply round_to_2_pct]. Qed.

Lemma pct_round_clamp x : small_mant x -> pct_value (Some (round_to 2 (clamp x f0 f100))).
Proof.
  intros Hs. apply pct_round; [now apply clamp_small|]. split; now apply clamp_range.
Qed.

Lemma clamp_unit_pct x : small_mant x ->
  pct_value (Some (round_to 2 (fmul (clamp x f0 f1) f100))).
Proof.
  intros Hs. destruct (clamp_range x f0 f1) as [H0 H1]; try reflexivity.
  apply pct_round; [apply fmul_small|]. apply fmul_f100_pct; auto.
  now apply clamp_small.
Qed.

Lemma set_capacity_config v st : config_inv st -> config_inv (set_capacity v st).
Proof.
  intros (Ht & Hc & Hw). unfold set_capacity. destruct v as [v|]; [|now repeat split].
  destruct (fle v f0) eqn:Ev; [now repeat split|].
  assert (forall cap, Some v = Some cap -> fle cap f0 = false) as Hv by congruence.
  destruct (capacity_ah st); [|destruct (soc_percent st)]; exact (conj Ht (conj Hv Hw)).
Qed.

Lemma update_config_inv i st : config_inv st -> config_inv (fst (update i st)).
Proof.
  intros (Ht & Hc & Hw). pose proof (update_config i st) as (Ec & _ & _ & Ew & En). pose proof (update_count i st) as Eu.
  split; [rewrite Eu; destruct (class_of st i); simpl; lia|]. rewrite Ec, Ew, En. now split.
Qed.

Lemma fmax_nonneg x : fle f0 (fmax f0 x) = true.
Proof. unfold fmax, fgt. destruct (flt f0 x) eqn:E; auto using flt_fle. Qed.

Lemma apply_config_inv o st : config_inv st -> config_inv (apply_op st o).
Proof.
  intros H. pose proof H as (Ht & Hc & Hw). destruct o as [m|en w n|v|soc acc last|i]; cbn [apply_op].
  - unfold set_mode. destruct (mode_of_string m) as [m'|]; [|exact H].
    destruct (mode_eqb m' (mode st)); repeat split; auto; try apply Hw; cbn; lia.
  - split; [exact Ht|]. split; [exact Hc|]. split; apply fmax_nonneg.
  - now apply set_capacity_config.
  - exact H.
  - now apply update_config_inv.
Qed.

(** Where the percentage after an operation comes from: computed and in range,
    imposed by the operation, or the one before. *)
Lemma capacity_source v st s : soc_percent (set_capacity v st) = Some s ->
  pct_value (Some s) \/ soc_percent st = Some s.
Proof.
  unfold set_capacity. destruct v as [v|]; [|now right]. destruct (fle v f0); [now right|].
  destruct (capacity_ah st) as [old|].
  - intros [= <-]. left. apply clamp_unit_pct.
    destruct (fgt old f0); [auto with pyfloat|destruct (soc_percent st); [auto with pyfloat|reflexivity]].
  - destruct (soc_percent st); intros [= <-]; [now right|left; now split].
Qed.

Lemma update_source i st s : soc_percent (fst (update i st)) = Some s ->
  pct_value (Some s) \/ imposed (Update i) st = Some s.
Proof.
  unfold update, imposed. destruct (capacity_ah st) as [cap|]; [|discriminate].
  destruct (fle cap f0); [discriminate|].
  destruct (mode_eqb (mode st) LI_BMS); [destruct (bms_soc i) as [b|]; [now right|]|];
    (destruct (sync_voltage i); [|discriminate]; intros [= <-]; left; apply pct_round_clamp;
     destruct (_ <=? _); [reflexivity|auto with pyfloat]).
Qed.

Lemma soc_source o st s : soc_percent (apply_op st o) = Some s ->
  pct_value (Some s) \/ imposed o st = Some s \/ soc_percent st = Some s.
Proof.
  destruct o as [m|en w n|v|soc acc last|i]; cbn [apply_op].
  - unfold set_mode. destruct (mode_of_string m) as [m'|]; [|auto]. destruct (mode_eqb m' (mode st)); auto.
  - auto.
  - intros H%capacity_source. tauto.
  - auto.
  - intros H%update_source. tauto.
Qed.

Lemma imposed_bounded o st s : bounded o -> imposed o st = Some s -> pct_value (Some s).
Proof.
  destruct o as [m|en w n|v|soc acc last|i]; cbn [bounded imposed]; try discriminate.
  - intros H ->. exact H.
  - destruct (capacity_ah st) as [cap|]; [|discriminate]. destruct (fle cap f0); [discriminate|].
    destruct (mode_eqb (mode st) LI_BMS); [|discriminate]. destruct (bms_soc i) as [b|]; [|discriminate].
    intros [Hs Hp] [= <-]. now apply pct_round.
Qed.

Lemma soc_step_inv st st' : soc_step bounded st st' -> soc_inv st -> soc_inv st'.
Proof.
  intros (o & Hb & ->) [Hc Hs]. split; [now apply apply_config_inv|].
  destruct (soc_percent (apply_op st o)) as [s|] eqn:E; [|exact I].
  destruct (soc_source o st s E) as [H|[H|H]]; [exact H|now apply (imposed_bounded o st)|now rewrite <- H].
Qed.

Lemma run_ops_app a b st : run_ops (a ++ b) st = run_ops b (run_ops a st).
Proof. apply fold_left_app. Qed.

Lemma run_ops_reachable P ops : Forall P ops -> reachable P (run_ops ops initial).
Proof.
  induction ops as [|o ops IH] using rev_ind; intros H; [constructor|].
  apply Forall_app in H as [H1 H2]. rewrite run_ops_app. apply (reachable_step P _ _ (IH H1)).
  exists o. split; [now inversion H2|reflexivity].
Qed.

Lemma initial_inv : soc_inv initial.
Proof. repeat split; easy. Qed.

Lemma reachable_inv st : reachable bounded st -> soc_inv st.
Proof. induction 1 as [|st st' _ IH Hstep]; [exact initial_inv|exact (soc_step_inv _ _ Hstep IH)]. Qed.

Lemma run_config_inv ops : config_inv (run_ops ops initial).
Proof.
  induction ops as [|o ops IH] using rev_ind; [exact (proj1 initial_inv)|]. rewrite run_ops_app. now apply apply_config_inv.
Qed.

(** A percentage an operation left that no later one has replaced. *)
Definition held_since (pre : list op) (o : op) (post : list op) (s : float) : Prop :=
  forall mid rest, post = mid ++ rest -> soc_percent (run_ops (pre ++ o :: mid) initial) = Some s.

Lemma held_extend pre o post o' s : held_since pre o post s ->
  soc_percent (run_ops (pre ++ o :: post ++ [o']) initial) = Some s -> held_since pre o (post ++ [o']) s.
Proof.
  intros H He mid rest E. destruct rest as [|x rest _] using rev_ind.
  - rewrite app_nil_r in E. now subst.
  - rewrite app_assoc in E. apply app_inj_tail in E as [E _]. now apply (H mid rest).
Qed.

Lemma soc_provenance ops : forall s, soc_percent (run_ops ops initial) = Some s ->
  pct_value (Some s)
  \/ exists pre o post, ops = pre ++ o :: post /\ imposed o (run_ops pre initial) = Some s /\ held_since pre o post s.
Proof.
  induction ops as [|o ops IH] using rev_ind; intros s H; [discriminate|].
  pose proof H as H'. rewrite run_ops_app in H. destruct (soc_source o _ s H) as [Hp|[Hi|Hk]]; [now left| |].
  - right. exists ops, o, []. split; [reflexivity|]. split; [exact Hi|].
    intros mid rest E. symmetry in E. now apply app_eq_nil in E as [-> _].
  - destruct (IH s Hk) as [Hp|(pre & o1 & post & -> & Hi & Hh)]; [now left|]. right.
    exists pre, o1, (post ++ [o]). rewrite <- app_assoc in *. cbn [app] in *.
    split; [reflexivity|]. split; [exact Hi|]. now apply held_extend.
Qed.

(** Outside the BMS mirror every percentage a tick publishes is computed and in
    range, whatever the state before was. *)
Lemma measured_pct i st s : mode st <> LI_BMS \/ bms_soc i = None -> snd (update i st) = Some s -> in_pct s.
Proof.
  intros Hbms. unfold update. destruct (capacity_ah st) as [cap|]; [|discriminate]. destruct (fle cap f0); [discriminate|].
  assert ((if mode_eqb (mode st) LI_BMS then bms_soc i else None) = None) as ->
    by (destruct Hbms as [H| ->]; [destruct (mode st)|destruct (mode_eqb _ _)]; easy).
  destruct (sync_voltage i); [|discriminate]. intros [= <-]. apply pct_of_clamp.
  destruct (_ <=? _); [reflexivity|auto with pyfloat].
Qed.

(** ** Properties *)

(** Outside the BMS mirror, every state of charge [update]
    publishes is a float in [0, 100], whatever the configuration, the
    accumulated charge and the readings are, NaN and infinities included. *)
Theorem update_soc_in_pct (st st' : estimator) (i : tick) (s : float)
    (Hbms : mode st <> LI_BMS \/ bms_soc i = None)
    (Hupd : update i st = (st', Some s)) :
  in_pct s /\ soc_percent st' = Some s.
Proof.
  unfold update in Hupd. destruct (capacity_ah st) as [cap|]; [|discriminate].
  destruct (fle cap f0); [discriminate|].
  assert ((if mode_eqb (mode st) LI_BMS then bms_soc i else None) = None) as Hn.
  { destruct Hbms as [H| ->]; [destruct (mode st)|destruct (mode_eqb _ _)]; easy. }
  rewrite Hn in Hupd. destruct (sync_voltage i); [|discriminate].
  apply (f_equal snd) in Hupd as Hs. apply (f_equal fst) in Hupd as Hst.
  cbn [fst snd] in Hs, Hst. subst st'. split; [|exact Hs].
  injection Hs as <-. apply pct_of_clamp. destruct (_ <=? _); [reflexivity|auto with pyfloat].
Qed.

(** C3: whatever is done to an estimator, in any order and with any arguments, the
    debounce counter is not negative, a known capacity is not [<= 0], the deadband
    thresholds are not negative, and the percentage is a float in [0, 100] unless
    it was taken over from outside: then it is exactly the value of one restore, or
    the rounded value of one BMS tick, that nothing has replaced since. So it is in
    [0, 100] when the restored and BMS percentages are; and in any state the next
    tick that measures instead of mirroring publishes a percentage in [0, 100]. *)
Theorem reachable_soc_inv (ops : list op) :
  let st := run_ops ops initial in
  0 <= at_sync_ticks st
  /\ (forall cap, capacity_ah st = Some cap -> fle cap f0 = false)
  /\ (fle f0 (float_voltage_window st) = true /\ fle f0 (float_noise_floor st) = true)
  /\ (forall s, soc_percent st = Some s ->
       in_pct s
       \/ exists pre o post, ops = pre ++ o :: post /\ imposed o (run_ops pre initial) = Some s /\ held_since pre o post s)
  /\ (Forall bounded ops -> forall s, soc_percent st = Some s -> in_pct s)
  /\ (forall i s, mode st <> LI_BMS \/ bms_soc i = None -> snd (update i st) = Some s -> in_pct s).
Proof.
  cbv zeta. destruct (run_config_inv ops) as (Ht & Hc & Hw). do 3 (split; [assumption|]). split; [|split].
  - intros s Hs. destruct (soc_provenance ops s Hs) as [[_ Hp]|H]; [now left|now right].
  - intros Hb s Hs. pose proof (reachable_inv _ (run_ops_reachable _ _ Hb)) as [_ Hp]. rewrite Hs in Hp. apply Hp.
  - intros i s. apply measured_pct.
Qed.

(** C19: after any run of ticks from a reset counter, the snap
    condition [at_sync_ticks >= 3] holds exactly when some most recent stretch
    of the run contains no hard discharge and at least three more full ticks
    than decaying ones. *)
Theorem snap_iff_balance (st : estimator) (ts : list tick) (H0 : at_sync_ticks st = 0) :
  SYNC_DEBOUNCE_TICKS <= at_sync_ticks (run ts st) <->
  exists pre suf, ts = pre ++ suf
    /\ Forall (fun i => class_of st i <> Drop) suf
    /\ SYNC_DEBOUNCE_TICKS <= balance (map (class_of st) suf).
Proof.
  rewrite run_count, H0. split.
  - intros H. destruct (count_suffix_reached (map (class_of st) ts)) as (p & q & E & Hd & Hb).
    apply map_eq_app in E as (pre & suf & -> & <- & <-).
    exists pre, suf. split; [reflexivity|]. split; [|lia].
    apply Forall_forall. intros i Hi Hc. apply Hd. rewrite <- Hc. now apply in_map.
  - intros (pre & suf & -> & Hd & Hb). rewrite map_app.
    etransitivity; [exact Hb|]. apply (count_suffix_bound _ (map (class_of st) pre)); [reflexivity|].
    intros Hin. apply in_map_iff in Hin as (i & Hc & Hi).
    rewrite Forall_forall in Hd. now apply (Hd i).
Qed.

(** A tick of the voltage branch publishes exactly 100 and pins
    the accumulator to the capacity when it leaves the counter at three or
    more; below three the accumulator ends inside [0, capacity]; and the
    [last_sync_at] stamp moves only on a tick that brings the counter to
    three, from two (a completed debounce) or from four (a decay). *)
Theorem update_snap (st : estimator) (i : tick) (cap sync : float)
    (Hcap : capacity_ah st = Some cap) (Hpos : fle cap f0 = false)
    (Hbms : mode st <> LI_BMS \/ bms_soc i = None)
    (Hsync : sync_voltage i = Some sync) :
  let st' := fst (update i st) in
  (SYNC_DEBOUNCE_TICKS <= at_sync_ticks st' ->
     soc_percent st' = Some (float_of_Z 100) /\ accumulated_charge_ah st' = cap)
  /\ (at_sync_ticks st' < SYNC_DEBOUNCE_TICKS -> is_nan cap = false ->
     fle f0 (accumulated_charge_ah st') = true /\ fle (accumulated_charge_ah st') cap = true)
  /\ (last_sync_at st' = last_sync_at st
      \/ (at_sync_ticks st' = SYNC_DEBOUNCE_TICKS
          /\ (at_sync_ticks st = SYNC_DEBOUNCE_TICKS - 1 \/ at_sync_ticks st = SYNC_DEBOUNCE_TICKS + 1)
          /\ wall_now i <> None /\ last_sync_at st' = wall_now i)).
Proof.
  assert ((if mode_eqb (mode st) LI_BMS then bms_soc i else None) = None) as Hn.
  { destruct Hbms as [H| ->]; [destruct (mode st)|destruct (mode_eqb _ _)]; easy. }
  assert (last_sync_at (integrate st i) = last_sync_at st) as Hl.
  { unfold integrate. destruct (in_float_deadband st i), (prev_effective_current_a st); reflexivity. }
  unfold update. rewrite Hcap, Hpos, Hn, Hsync. cbn -[integrate next_ticks Z.leb Z.eqb fle clamp].
  rewrite Hl. set (n := next_ticks st cap sync i).
  assert (n = SYNC_DEBOUNCE_TICKS -> at_sync_ticks st = SYNC_DEBOUNCE_TICKS - 1
    \/ at_sync_ticks st = SYNC_DEBOUNCE_TICKS + 1) as Hstep.
  { unfold n, next_ticks, SYNC_DEBOUNCE_TICKS.
    destruct (qualifies st cap sync i); [lia|]. destruct (flt (signed_current_a i) _); lia. }
  destruct (Z.leb_spec SYNC_DEBOUNCE_TICKS n) as [Hge|Hlt]; cbn [andb].
  - split; [intros _; split; reflexivity|]. split; [intros; lia|].
    destruct (Z.eqb_spec n SYNC_DEBOUNCE_TICKS) as [E|]; [|now left].
    destruct (wall_now i); [right|now left]. now repeat split; auto.
  - split; [intros; lia|]. split; [|now left]. intros _ Hnan.
    apply clamp_range; [reflexivity|exact Hnan|].
    unfold fle, SFleb in *. destruct cap as [[]|[]| |[] m e]; try discriminate; reflexivity.
Qed.

(** While the battery floats, no drift accumulates: over any
    number of idle ticks the accumulated charge is that of the start,
    clamped to the capacity, and the first tick after them integrates
    nothing, whatever time has passed. *)
Theorem idle_ticks_no_drift (st : estimator) (cap : float) (ts : list tick) (j : tick)
    (Hcap : capacity_ah st = Some cap) (Hpos : fle cap f0 = false)
    (Hne : ts <> [])
    (Hidle : forall pre i suf, ts = pre ++ i :: suf -> idle (run pre st) cap i) :
  accumulated_charge_ah (run ts st) = clamp (accumulated_charge_ah st) f0 cap
  /\ accumulated_charge_ah (integrate (run ts st) j) = accumulated_charge_ah (run ts st).
Proof.
  assert (Hrun : forall ts, capacity_ah (run ts st) = Some cap).
  { intros l. induction l as [|i l IH] using rev_ind; [exact Hcap|].
    unfold run in *. rewrite fold_left_app. cbn [fold_left].
    now rewrite (proj1 (update_config _ _)). }
  assert (accumulated_charge_ah (run ts st) = clamp (accumulated_charge_ah st) f0 cap
          /\ prev_effective_current_a (run ts st) = None) as [Ha Hp].
  { induction ts as [|i ts IH] using rev_ind; [easy|].
    pose proof (Hidle ts i [] eq_refl) as Hi.
    assert (Hlast : run (ts ++ [i]) st = fst (update i (run ts st)))
      by (unfold run; now rewrite fold_left_app).
    destruct (update_idle (run ts st) cap i) as [H1 H2]; auto. rewrite Hlast, H1, H2.
    split; [|reflexivity]. destruct ts as [|k ts]; [reflexivity|].
    destruct IH as [IH _]; [easy| |].
    - intros pre i' suf E. apply (Hidle pre i' (suf ++ [i])). rewrite E.
      now rewrite <- app_assoc.
    - rewrite IH. apply clamp_idem. }
  split; [exact Ha|]. now apply integrate_baseline.
Qed.

End Estimator.

Arguments estimator : clear implicits.
Arguments tick : clear implicits.

(** ** Witnesses *)

Definition demo : estimator Z := set_capacity (Some (float_of_Z 100)) initial.

Definition demo_tick (v a t : Z) : tick Z := {|
  signed_current_a := flit a 10; voltage := flit v 10; now := float_of_Z t;
  sync_voltage := Some (flit 560 10); floating_voltage := Some (flit 540 10);
  bms_soc := None; wall_now := Some t |}.

Lemma update_soc_in_pct_witness :
  exists st' s, update (demo_tick 500 (-300) 10) demo = (st', Some s)
  /\ (in_pct s /\ soc_percent st' = Some s).
Proof.
  eexists; eexists; split; [vm_compute; reflexivity|].
  refine (update_soc_in_pct demo _ (demo_tick 500 (-300) 10) _ _ _);
    [now right|vm_compute; reflexivity].
Defined.

(** A restored 150 % stays until the first tick. *)
Definition over_ops : list (op (T := Z)) :=
  [SetCapacity (Some f100); RestoreState (Some (float_of_Z 150)) f0 None; SetDeadband true f1 f1].

Lemma reachable_soc_inv_witness :
  soc_percent (run_ops over_ops initial) = Some (float_of_Z 150)
  /\ (exists pre o post, over_ops = pre ++ o :: post /\ imposed o (run_ops pre initial) = Some (float_of_Z 150))
  /\ (forall s, snd (update (demo_tick 500 (-300) 10) (run_ops over_ops initial)) = Some s -> in_pct s).
Proof.
  pose proof (reachable_soc_inv over_ops) as (_ & _ & _ & H & _ & Hm).
  split; [vm_compute; reflexivity|]. split.
  - destruct (H (float_of_Z 150) ltac:(vm_compute; reflexivity)) as [[_ Hp]|(pre & o & post & E & Hi & _)]; [vm_compute in Hp; discriminate|].
    now exists pre, o, post.
  - intros s. apply Hm. now left.
Defined.

(** Three full ticks snap; a fourth below the threshold decays. *)
Definition demo_run : list (tick Z) :=
  [demo_tick 500 (-300) 0; demo_tick 560 20 10; demo_tick 560 20 20; demo_tick 560 20 30].

Lemma snap_iff_balance_witness :
  at_sync_ticks demo = 0
  /\ (SYNC_DEBOUNCE_TICKS <= at_sync_ticks (run demo_run demo) <->
      exists pre suf, demo_run = pre ++ suf
        /\ Forall (fun i => class_of demo i <> Drop) suf
        /\ SYNC_DEBOUNCE_TICKS <= balance (map (class_of demo) suf)).
Proof. split; [reflexivity|exact (snap_iff_balance demo demo_run eq_refl)]. Defined.

Example demo_run_snaps :
  (at_sync_ticks (run demo_run demo), soc_percent (run demo_run demo), last_sync_at (run demo_run demo))
  = (3, Some (float_of_Z 100), Some 30).
Proof. vm_compute. reflexivity. Qed.

Lemma update_snap_witness :
  let st := run [demo_tick 560 20 10; demo_tick 560 20 20] demo in
  let st' := fst (update (demo_tick 560 20 30) st) in
  soc_percent st' = Some (float_of_Z 100) /\ last_sync_at st' = Some 30.
Proof.
  destruct (update_snap (run [demo_tick 560 20 10; demo_tick 560 20 20] demo)
    (demo_tick 560 20 30) (float_of_Z 100) (flit 560 10)) as (H & _);
    [vm_compute; reflexivity|vm_compute; reflexivity|right; reflexivity|reflexivity|].
  split; [apply H; vm_compute; discriminate|vm_compute; reflexivity].
Defined.

Lemma idle_ticks_no_drift_witness :
  let st := run [demo_tick 500 (-300) 0] demo in
  accumulated_charge_ah (run [demo_tick 541 10 10; demo_tick 538 (-10) 3600] st)
  = clamp (accumulated_charge_ah st) f0 (float_of_Z 100).
Proof.
  set (st := run [demo_tick 500 (-300) 0] demo).
  refine (proj1 (idle_ticks_no_drift st (float_of_Z 100)
    [demo_tick 541 10 10; demo_tick 538 (-10) 3600] (demo_tick 520 50 7200) _ _ _ _));
    [vm_compute; reflexivity|vm_compute; reflexivity|discriminate|].
  assert (forall (st : estimator Z) (i : tick Z), in_float_deadband st i = true -> bms_soc i = None ->
    sync_voltage i = Some (flit 560 10) ->
    (next_ticks st (float_of_Z 100) (flit 560 10) i <? 3) = true ->
    idle st (float_of_Z 100) i) as Hi.
  { intros s i H1 H2 H3 H4. split; [exact H1|]. split; [rewrite H2; now destruct (mode_eqb _ _)|].
    exists (flit 560 10). split; [exact H3|]. now apply Z.ltb_lt in H4. }
  intros [|a [|b [|c pre]]] i suf E; try discriminate E.
  - injection E as <- _. apply Hi; vm_compute; reflexivity.
  - injection E as <- <- _. apply Hi; vm_compute; reflexivity.
Defined.
