(* ===== verification/Enums.v ===== *)
(** Protocol enumerations and status-bit parsers: [api/decoders/enums.py].

    Every Python [Enum] is an inductive type with the source's members; the
    class [PyEnum] states what the decoders rely on (member lookup by value),
    and each enumeration is an instance. *)

From Stdlib Require Import ZArith List Bool Lia String Ascii.
From S2P Require Import Prelude PyStr PyInt PyFloat PyDict.
Import ListNotations.
#[local] Open Scope string_scope.
#[local] Open Scope Z_scope.

(** ** Enumerations *)

Class PyEnum (E : Type) := {
  members : list E;
  enum_value : E -> string;
  enum_name : E -> string;
  enum_value_inj : forall a b, enum_value a = enum_value b -> a = b;
  members_complete : forall e, In e members
}.

(** [E(v)], [None] where Python raises [ValueError]. *)
Definition of_value {E} `{PyEnum E} (v : string) : option E :=
  find (fun e => String.eqb (enum_value e) v) members.

Section EnumLaws.
Context {E : Type} `{PyEnum E}.

Lemma of_value_value (e : E) : of_value (enum_value e) = Some e.
Proof.
  unfold of_value.
  destruct (find _ members) as [e'|] eqn:F.
  - apply find_some in F as [_ F]. apply String.eqb_eq in F. f_equal. now apply enum_value_inj.
  - pose proof (find_none _ _ F e (members_complete e)) as Hf. cbn in Hf.
    now rewrite String.eqb_refl in Hf.
Qed.

Lemma of_value_some v (e : E) : of_value v = Some e <-> enum_value e = v.
Proof.
  split; [|intros <-; apply of_value_value].
  intros F. apply find_some in F as [_ F]. now apply String.eqb_eq.
Qed.
End EnumLaws.

(** [E(v).name], with the [except ValueError] fallback of the callers. *)
Definition enum_name_or {E} `{PyEnum E} (v fallback : string) : string :=
  match of_value v with
  | Some e => enum_name e
  | None => fallback
  end.

Lemma enum_name_or_value {E} `{PyEnum E} (e : E) d : enum_name_or (enum_value e) d = enum_name e.
Proof. unfold enum_name_or. now rewrite of_value_value. Qed.

Ltac enum_inj := intros [] []; cbn; intros; congruence.
Ltac enum_complete := intros []; cbn; repeat (first [left; reflexivity | right]).

Inductive BatteryType :=
| BatteryType_AGM
| BatteryType_Flooded
| BatteryType_UserDefined
| BatteryType_LIB
| BatteryType_LIC
| BatteryType_RESERVED
| BatteryType_RESERVED_1
| BatteryType_RESERVED_2.

#[export, program] Instance BatteryType_enum : PyEnum BatteryType := {
  members := [BatteryType_AGM;
              BatteryType_Flooded;
              BatteryType_UserDefined;
              BatteryType_LIB;
              BatteryType_LIC;
              BatteryType_RESERVED;
              BatteryType_RESERVED_1;
              BatteryType_RESERVED_2];
  enum_value e := match e with
    | BatteryType_AGM => "0"
    | BatteryType_Flooded => "1"
    | BatteryType_UserDefined => "2"
    | BatteryType_LIB => "3"
    | BatteryType_LIC => "4"
    | BatteryType_RESERVED => "5"
    | BatteryType_RESERVED_1 => "6"
    | BatteryType_RESERVED_2 => "7"
    end;
  enum_name e := match e with
    | BatteryType_AGM => "AGM"
    | BatteryType_Flooded => "Flooded"
    | BatteryType_UserDefined => "UserDefined"
    | BatteryType_LIB => "LIB"
    | BatteryType_LIC => "LIC"
    | BatteryType_RESERVED => "RESERVED"
    | BatteryType_RESERVED_1 => "RESERVED_1"
    | BatteryType_RESERVED_2 => "RESERVED_2"
    end
}.
Next Obligation. revert a b H. enum_inj. Qed.
Next Obligation. revert e. enum_complete. Qed.

Inductive ACInputVoltageRange :=
| ACInputVoltageRange_Appliance
| ACInputVoltageRange_UPS.

#[export, program] Instance ACInputVoltageRange_enum : PyEnum ACInputVoltageRange := {
  members := [ACInputVoltageRange_Appliance;
              ACInputVoltageRange_UPS];
  enum_value e := match e with
    | ACInputVoltageRange_Appliance => "0"
    | ACInputVoltageRange_UPS => "1"
    end;
  enum_name e := match e with
    | ACInputVoltageRange_Appliance => "Appliance"
    | ACInputVoltageRange_UPS => "UPS"
    end
}.
Next Obligation. revert a b H. enum_inj. Qed.
Next Obligation. revert e. enum_complete. Qed.

Inductive OutputSourcePriority :=
| OutputSourcePriority_UtilityFirst
| OutputSourcePriority_SolarFirst
| OutputSourcePriority_SBU
| OutputSourcePriority_BatteryOnly
| OutputSourcePriority_UtilityOnly
| OutputSourcePriority_SolarAndUtility
| OutputSourcePriority_Smart.

#[export, program] Instance OutputSourcePriority_enum : PyEnum OutputSourcePriority := {
  members := [OutputSourcePriority_UtilityFirst;
              OutputSourcePriority_SolarFirst;
              OutputSourcePriority_SBU;
              OutputSourcePriority_BatteryOnly;
              OutputSourcePriority_UtilityOnly;
              OutputSourcePriority_SolarAndUtility;
              OutputSourcePriority_Smart];
  enum_value e := match e with
    | OutputSourcePriority_UtilityFirst => "0"
    | OutputSourcePriority_SolarFirst => "1"
    | OutputSourcePriority_SBU => "2"
    | OutputSourcePriority_BatteryOnly => "4"
    | OutputSourcePriority_UtilityOnly => "5"
    | OutputSourcePriority_SolarAndUtility => "6"
    | OutputSourcePriority_Smart => "7"
    end;
  enum_name e := match e with
    | OutputSourcePriority_UtilityFirst => "UtilityFirst"
    | OutputSourcePriority_SolarFirst => "SolarFirst"
    | OutputSourcePriority_SBU => "SBU"
    | OutputSourcePriority_BatteryOnly => "BatteryOnly"
    | OutputSourcePriority_UtilityOnly => "UtilityOnly"
    | OutputSourcePriority_SolarAndUtility => "SolarAndUtility"
    | OutputSourcePriority_Smart => "Smart"
    end
}.
Next Obligation. revert a b H. enum_inj. Qed.
Next Obligation. revert e. enum_complete. Qed.

Inductive ChargerSourcePriority :=
| ChargerSourcePriority_UtilityFirst
| ChargerSourcePriority_SolarFirst
| ChargerSourcePriority_SolarAndUtility
| ChargerSourcePriority_OnlySolar.

#[export, program] Instance ChargerSourcePriority_enum : PyEnum ChargerSourcePriority := {
  members := [ChargerSourcePriority_UtilityFirst;
              ChargerSourcePriority_SolarFirst;
              ChargerSourcePriority_SolarAndUtility;
              ChargerSourcePriority_OnlySolar];
  enum_value e := match e with
    | ChargerSourcePriority_UtilityFirst => "0"
    | ChargerSourcePriority_SolarFirst => "1"
    | ChargerSourcePriority_SolarAndUtility => "2"
    | ChargerSourcePriority_OnlySolar => "3"
    end;
  enum_name e := match e with
    | ChargerSourcePriority_UtilityFirst => "UtilityFirst"
    | ChargerSourcePriority_SolarFirst => "SolarFirst"
    | ChargerSourcePriority_SolarAndUtility => "SolarAndUtility"
    | ChargerSourcePriority_OnlySolar => "OnlySolar"
    end
}.
Next Obligation. revert a b H. enum_inj. Qed.
Next Obligation. revert e. enum_complete. Qed.

Inductive ParallelMode :=
| ParallelMode_Master
| ParallelMode_Slave
| ParallelMode_Standalone
| ParallelMode_PARALLEL_1_PHASE
| ParallelMode_PARALLEL_3_PHASE.

#[export, program] Instance ParallelMode_enum : PyEnum ParallelMode := {
  members := [ParallelMode_Master;
              ParallelMode_Slave;
              ParallelMode_Standalone;
              ParallelMode_PARALLEL_1_PHASE;
              ParallelMode_PARALLEL_3_PHASE];
  enum_value e := match e with
    | ParallelMode_Master => "0"
    | ParallelMode_Slave => "1"
    | ParallelMode_Standalone => "2"
    | ParallelMode_PARALLEL_1_PHASE => "3"
    | ParallelMode_PARALLEL_3_PHASE => "4"
    end;
  enum_name e := match e with
    | ParallelMode_Master => "Master"
    | ParallelMode_Slave => "Slave"
    | ParallelMode_Standalone => "Standalone"
    | ParallelMode_PARALLEL_1_PHASE => "PARALLEL_1_PHASE"
    | ParallelMode_PARALLEL_3_PHASE => "PARALLEL_3_PHASE"
    end
}.
Next Obligation. revert a b H. enum_inj. Qed.
Next Obligation. revert e. enum_complete. Qed.

Inductive OperatingMode :=
| OperatingMode_PowerOn
| OperatingMode_Standby
| OperatingMode_Line
| OperatingMode_Battery
| OperatingMode_ShutdownApproaching
| OperatingMode_Fault.

#[export, program] Instance OperatingMode_enum : PyEnum OperatingMode := {
  members := [OperatingMode_PowerOn;
              OperatingMode_Standby;
              OperatingMode_Line;
              OperatingMode_Battery;
              OperatingMode_ShutdownApproaching;
              OperatingMode_Fault];
  enum_value e := match e with
    | OperatingMode_PowerOn => "P"
    | OperatingMode_Standby => "S"
    | OperatingMode_Line => "L"
    | OperatingMode_Battery => "B"
    | OperatingMode_ShutdownApproaching => "D"
    | OperatingMode_Fault => "F"
    end;
  enum_name e := match e with
    | OperatingMode_PowerOn => "PowerOn"
    | OperatingMode_Standby => "Standby"
    | OperatingMode_Line => "Line"
    | OperatingMode_Battery => "Battery"
    | OperatingMode_ShutdownApproaching => "ShutdownApproaching"
    | OperatingMode_Fault => "Fault"
    end
}.
Next Obligation. revert a b H. enum_inj. Qed.
Next Obligation. revert e. enum_complete. Qed.

Inductive PI18MPPTStatus :=
| PI18MPPTStatus_Abnormal
| PI18MPPTStatus_NotCharging
| PI18MPPTStatus_Charging.

#[export, program] Instance PI18MPPTStatus_enum : PyEnum PI18MPPTStatus := {
  members := [PI18MPPTStatus_Abnormal;
              PI18MPPTStatus_NotCharging;
              PI18MPPTStatus_Charging];
  enum_value e := match e with
    | PI18MPPTStatus_Abnormal => "0"
    | PI18MPPTStatus_NotCharging => "1"
    | PI18MPPTStatus_Charging => "2"
    end;
  enum_name e := match e with
    | PI18MPPTStatus_Abnormal => "Abnormal"
    | PI18MPPTStatus_NotCharging => "NotCharging"
    | PI18MPPTStatus_Charging => "Charging"
    end
}.
Next Obligation. revert a b H. enum_inj. Qed.
Next Obligation. revert e. enum_complete. Qed.

Inductive PI18BatteryPowerDirection :=
| PI18BatteryPowerDirection_Idle
| PI18BatteryPowerDirection_Charging
| PI18BatteryPowerDirection_Discharging.

#[export, program] Instance PI18BatteryPowerDirection_enum : PyEnum PI18BatteryPowerDirection := {
  members := [PI18BatteryPowerDirection_Idle;
              PI18BatteryPowerDirection_Charging;
              PI18BatteryPowerDirection_Discharging];
  enum_value e := match e with
    | PI18BatteryPowerDirection_Idle => "0"
    | PI18BatteryPowerDirection_Charging => "1"
    | PI18BatteryPowerDirection_Discharging => "2"
    end;
  enum_name e := match e with
    | PI18BatteryPowerDirection_Idle => "Idle"
    | PI18BatteryPowerDirection_Charging => "Charging"
    | PI18BatteryPowerDirection_Discharging => "Discharging"
    end
}.
Next Obligation. revert a b H. enum_inj. Qed.
Next Obligation. revert e. enum_complete. Qed.

Inductive PI18DCACPowerDirection :=
| PI18DCACPowerDirection_Idle
| PI18DCACPowerDirection_ACtoDC
| PI18DCACPowerDirection_DCtoAC.

#[export, program] Instance PI18DCACPowerDirection_enum : PyEnum PI18DCACPowerDirection := {
  members := [PI18DCACPowerDirection_Idle;
              PI18DCACPowerDirection_ACtoDC;
              PI18DCACPowerDirection_DCtoAC];
  enum_value e := match e with
    | PI18DCACPowerDirection_Idle => "0"
    | PI18DCACPowerDirection_ACtoDC => "1"
    | PI18DCACPowerDirection_DCtoAC => "2"
    end;
  enum_name e := match e with
    | PI18DCACPowerDirection_Idle => "Idle"
    | PI18DCACPowerDirection_ACtoDC => "ACtoDC"
    | PI18DCACPowerDirection_DCtoAC => "DCtoAC"
    end
}.
Next Obligation. revert a b H. enum_inj. Qed.
Next Obligation. revert e. enum_complete. Qed.

Inductive PI18LinePowerDirection :=
| PI18LinePowerDirection_Idle
| PI18LinePowerDirection_Input
| PI18LinePowerDirection_Output.

#[export, program] Instance PI18LinePowerDirection_enum : PyEnum PI18LinePowerDirection := {
  members := [PI18LinePowerDirection_Idle;
              PI18LinePowerDirection_Input;
              PI18LinePowerDirection_Output];
  enum_value e := match e with
    | PI18LinePowerDirection_Idle => "0"
    | PI18LinePowerDirection_Input => "1"
    | PI18LinePowerDirection_Output => "2"
    end;
  enum_name e := match e with
    | PI18LinePowerDirection_Idle => "Idle"
    | PI18LinePowerDirection_Input => "Input"
    | PI18LinePowerDirection_Output => "Output"
    end
}.
Next Obligation. revert a b H. enum_inj. Qed.
Next Obligation. revert e. enum_complete. Qed.

Inductive BatteryTypeSetting :=
| BatteryTypeSetting_AGM
| BatteryTypeSetting_FLOODED
| BatteryTypeSetting_USER
| BatteryTypeSetting_LIFEP04.

#[export, program] Instance BatteryTypeSetting_enum : PyEnum BatteryTypeSetting := {
  members := [BatteryTypeSetting_AGM;
              BatteryTypeSetting_FLOODED;
              BatteryTypeSetting_USER;
              BatteryTypeSetting_LIFEP04];
  enum_value e := match e with
    | BatteryTypeSetting_AGM => "PBT00"
    | BatteryTypeSetting_FLOODED => "PBT01"
    | BatteryTypeSetting_USER => "PBT02"
    | BatteryTypeSetting_LIFEP04 => "PBT03"
    end;
  enum_name e := match e with
    | BatteryTypeSetting_AGM => "AGM"
    | BatteryTypeSetting_FLOODED => "FLOODED"
    | BatteryTypeSetting_USER => "USER"
    | BatteryTypeSetting_LIFEP04 => "LIFEP04"
    end
}.
Next Obligation. revert a b H. enum_inj. Qed.
Next Obligation. revert e. enum_complete. Qed.

Inductive OutputSourcePrioritySetting :=
| OutputSourcePrioritySetting_UTILITY_FIRST
| OutputSourcePrioritySetting_SOLAR_FIRST
| OutputSourcePrioritySetting_SBU_PRIORITY.

#[export, program] Instance OutputSourcePrioritySetting_enum : PyEnum OutputSourcePrioritySetting := {
  members := [OutputSourcePrioritySetting_UTILITY_FIRST;
              OutputSourcePrioritySetting_SOLAR_FIRST;
              OutputSourcePrioritySetting_SBU_PRIORITY];
  enum_value e := match e with
    | OutputSourcePrioritySetting_UTILITY_FIRST => "POP00"
    | OutputSourcePrioritySetting_SOLAR_FIRST => "POP01"
    | OutputSourcePrioritySetting_SBU_PRIORITY => "POP02"
    end;
  enum_name e := match e with
    | OutputSourcePrioritySetting_UTILITY_FIRST => "UTILITY_FIRST"
    | OutputSourcePrioritySetting_SOLAR_FIRST => "SOLAR_FIRST"
    | OutputSourcePrioritySetting_SBU_PRIORITY => "SBU_PRIORITY"
    end
}.
Next Obligation. revert a b H. enum_inj. Qed.
Next Obligation. revert e. enum_complete. Qed.

Inductive ChargeSourcePrioritySetting :=
| ChargeSourcePrioritySetting_UTILITY_FIRST
| ChargeSourcePrioritySetting_SOLAR_FIRST
| ChargeSourcePrioritySetting_SOLAR_AND_UTILITY.

#[export, program] Instance ChargeSourcePrioritySetting_enum : PyEnum ChargeSourcePrioritySetting := {
  members := [ChargeSourcePrioritySetting_UTILITY_FIRST;
              ChargeSourcePrioritySetting_SOLAR_FIRST;
              ChargeSourcePrioritySetting_SOLAR_AND_UTILITY];
  enum_value e := match e with
    | ChargeSourcePrioritySetting_UTILITY_FIRST => "PCP00"
    | ChargeSourcePrioritySetting_SOLAR_FIRST => "PCP01"
    | ChargeSourcePrioritySetting_SOLAR_AND_UTILITY => "PCP02"
    end;
  enum_name e := match e with
    | ChargeSourcePrioritySetting_UTILITY_FIRST => "UTILITY_FIRST"
    | ChargeSourcePrioritySetting_SOLAR_FIRST => "SOLAR_FIRST"
    | ChargeSourcePrioritySetting_SOLAR_AND_UTILITY => "SOLAR_AND_UTILITY"
    end
}.
Next Obligation. revert a b H. enum_inj. Qed.
Next Obligation. revert e. enum_complete. Qed.

(** ** Device status bits *)

Definition is_bit (c : ascii) : bool := Ascii.eqb c "0" || Ascii.eqb c "1".

Definition rjust (w : nat) (pad : ascii) (l : list ascii) : list ascii :=
  (repeat pad (w - List.length l) ++ l)%list.

(** [_extract_bits] *)
Definition extract_bits (raw : string) (count : nat) : string :=
  str (rjust count "0" (firstn count (filter is_bit (chars raw)))).

Inductive DeviceStatusBitsB7B0 :=
| FAULT | RESERVED_B6 | BUS_OVER | LINE_FAIL | BATTERY_LOW | BATTERY_HIGH
| INVERTER_OVERLOAD | INVERTER_ON.

Definition b7b0_mask (b : DeviceStatusBitsB7B0) : Z :=
  match b with
  | FAULT => Z.shiftl 1 7
  | RESERVED_B6 => Z.shiftl 1 6
  | BUS_OVER => Z.shiftl 1 5
  | LINE_FAIL => Z.shiftl 1 4
  | BATTERY_LOW => Z.shiftl 1 3
  | BATTERY_HIGH => Z.shiftl 1 2
  | INVERTER_OVERLOAD => Z.shiftl 1 1
  | INVERTER_ON => Z.shiftl 1 0
  end.

Inductive DeviceStatusBitsB10B8 :=
| CHARGING_TO_BATTERY | CHARGING_AC_ACTIVE | CHARGING_SCC_ACTIVE.

Definition b10b8_mask (b : DeviceStatusBitsB10B8) : Z :=
  match b with
  | CHARGING_TO_BATTERY => Z.shiftl 1 2
  | CHARGING_AC_ACTIVE => Z.shiftl 1 1
  | CHARGING_SCC_ACTIVE => Z.shiftl 1 0
  end.

Definition masked (value mask : Z) : pyval := VBool (negb (Z.land value mask =? 0)).

Definition parse_device_status_bits_b7_b0 (raw : string) : res pydict :=
  let bits := extract_bits raw 8 in
  (let! value := py_int_base 2 bits in
   Ok [("fault", masked value (b7b0_mask FAULT));
       ("line_fail", masked value (b7b0_mask LINE_FAIL));
       ("bus_over", masked value (b7b0_mask BUS_OVER));
       ("battery_low", masked value (b7b0_mask BATTERY_LOW));
       ("battery_high", masked value (b7b0_mask BATTERY_HIGH));
       ("inverter_overload", masked value (b7b0_mask INVERTER_OVERLOAD));
       ("inverter_on", masked value (b7b0_mask INVERTER_ON));
       ("_raw_b7_b0", VStr bits)])%py.

Definition parse_device_status_bits_b10_b8 (raw : string) : res pydict :=
  let bits := extract_bits raw 3 in
  (let! value := py_int_base 2 bits in
   Ok [("charging_to_battery", masked value (b10b8_mask CHARGING_TO_BATTERY));
       ("charging_scc_active", masked value (b10b8_mask CHARGING_SCC_ACTIVE));
       ("charging_ac_active", masked value (b10b8_mask CHARGING_AC_ACTIVE));
       ("_raw_b10_b8", VStr bits)])%py.

(** ** Lemmas *)

Definition bit_char (b : bool) : ascii := if b then "1"%char else "0"%char.

Lemma is_bit_char c : is_bit c = true -> exists b, c = bit_char b.
Proof.
  unfold is_bit. rewrite orb_true_iff, !Ascii.eqb_eq. intros [->| ->];
    [now exists false|now exists true].
Qed.

(** The characters [_extract_bits] returns are exactly [count] bits. *)
Lemma extract_bits_shape raw n :
  exists bs, extract_bits raw n = str (map bit_char bs) /\ List.length bs = n.
Proof.
  unfold extract_bits, rjust.
  assert (Hf : forall l, Forall (fun c => is_bit c = true) l -> exists bs, l = map bit_char bs).
  { intros l H. induction H as [|c l Hc _ (bs & ->)]; [now exists []|].
    destruct (is_bit_char c Hc) as [b ->]. now exists (b :: bs). }
  set (l := firstn n _).
  assert (Forall (fun c => is_bit c = true) (repeat "0"%char (n - List.length l) ++ l)%list) as H.
  { apply Forall_app. split; apply Forall_forall; intros c Hc.
    - apply repeat_spec in Hc. now subst.
    - assert (In c (filter is_bit (chars raw))) as Hin.
      { rewrite <- (firstn_skipn n). apply in_or_app. now left. }
      now apply filter_In in Hin. }
  destruct (Hf _ H) as [bs E]. exists bs. rewrite E. split; [reflexivity|].
  rewrite <- (length_map bit_char bs), <- E, length_app, repeat_length.
  assert (List.length l <= n)%nat by apply firstn_le_length. lia.
Qed.

(** On a field with at least [n] bit characters the kept bits are the first
    ones, whatever else bled into the field. *)
Lemma extract_bits_prefix bs junk n :
  List.length bs = n -> extract_bits (str (map bit_char bs ++ junk)) n = str (map bit_char bs).
Proof.
  intros <-. unfold extract_bits, rjust. rewrite chars_str, filter_app.
  assert (filter is_bit (map bit_char bs) = map bit_char bs) as ->.
  { induction bs as [|[] bs IH]; simpl; now rewrite ?IH. }
  rewrite <- (length_map bit_char bs), firstn_app, firstn_all, Nat.sub_diag.
  simpl. now rewrite app_nil_r, Nat.sub_diag.
Qed.

Example parse_b7_b0_1 :
  rmap (fun d => (vget "fault" d, vget "line_fail" d, vget "inverter_on" d))
    (parse_device_status_bits_b7_b0 "00010001") = Ok (VBool false, VBool true, VBool true).
Proof. reflexivity. Qed.

(** Whatever the inverter put in the field, both status-bit
    parsers return (they never raise), read exactly eight and three bits, and
    each named flag is the bit at its documented position. *)
Theorem parse_device_status_bits_total (raw : string) :
  (exists b7 b6 b5 b4 b3 b2 b1 b0,
     extract_bits raw 8 = str (map bit_char [b7; b6; b5; b4; b3; b2; b1; b0]) /\
     parse_device_status_bits_b7_b0 raw =
     Ok [("fault", VBool b7); ("line_fail", VBool b4); ("bus_over", VBool b5);
         ("battery_low", VBool b3); ("battery_high", VBool b2);
         ("inverter_overload", VBool b1); ("inverter_on", VBool b0);
         ("_raw_b7_b0", VStr (extract_bits raw 8))])
  /\ (exists b10 b9 b8,
     extract_bits raw 3 = str (map bit_char [b10; b9; b8]) /\
     parse_device_status_bits_b10_b8 raw =
     Ok [("charging_to_battery", VBool b10); ("charging_scc_active", VBool b8);
         ("charging_ac_active", VBool b9); ("_raw_b10_b8", VStr (extract_bits raw 3))]).
Proof.
  split.
  - destruct (extract_bits_shape raw 8) as (bs & E & L).
    do 8 (destruct bs as [|? bs]; [discriminate L|]). destruct bs; [|discriminate L].
    do 8 eexists. split; [exact E|]. unfold parse_device_status_bits_b7_b0. rewrite E.
    repeat match goal with b : bool |- _ => destruct b end; reflexivity.
  - destruct (extract_bits_shape raw 3) as (bs & E & L).
    do 3 (destruct bs as [|? bs]; [discriminate L|]). destruct bs; [|discriminate L].
    do 3 eexists. split; [exact E|]. unfold parse_device_status_bits_b10_b8. rewrite E.
    repeat match goal with b : bool |- _ => destruct b end; reflexivity.
Qed.
