(* ===== verification/Voltronic.v ===== *)
(** Voltronic Axpert (PI30) response decoders: [api/decoders/voltronic.py].

    A decoder maps an ASCII payload to a flat dict; [decode_direct_response]
    accepts the live ASCII form and the hex-dump form of a reply. *)

From Stdlib Require Import ZArith List Bool Lia String Ascii.
From S2P Require Import Prelude PyStr PyInt PyFloat PyDict Crc Enums.
Import ListNotations.
#[local] Open Scope string_scope.
#[local] Open Scope Z_scope.

(** ** The hex-dump form *)

Definition byte_of_hex (b : string) : res Z :=
  (let! v := py_int_base 16 b in
   if v <? 256 then Ok v else Raise (ValueError "bytes must be in range(0, 256)"))%py.

Definition decode_ascii_response (hex_string : string) : res string :=
  (let! byte_values := rmapM byte_of_hex (split_ws (strip hex_string)) in
   let ascii_str := strip (decode_ascii_ignore byte_values) in
   Ok (if startswith ascii_str "(" then sdrop 1 ascii_str else ascii_str))%py.

Definition is_hex_char (c : ascii) : bool :=
  match hex_val c with Some _ => true | None => false end.

Definition is_hex_string (s : string) : bool :=
  let s := remove_char " " (strip s) in
  negb (String.eqb s "") && forallb is_hex_char (chars s) && Z.even (len s).

(** ** Per-command decoders *)

Definition QPIGS_FIELDS : list string :=
  [ "grid_voltage";
    "grid_frequency";
    "ac_output_voltage";
    "ac_output_frequency";
    "output_apparent_power";
    "output_active_power";
    "load_percent";
    "bus_voltage";
    "battery_voltage";
    "battery_charging_current";
    "battery_capacity";
    "inverter_heat_sink_temperature";
    "pv_input_current";
    "pv_input_voltage";
    "scc_battery_voltage";
    "battery_discharge_current";
    "device_status_bits_b7_b0";
    "battery_voltage_offset";
    "eeprom_version";
    "pv_charging_power";
    "device_status_bits_b10_b8";
    "reserved_a";
    "reserved_bb";
    "reserved_cccc" ].

Definition QPIGS2_FIELDS : list string :=
  [ "pv_current";
    "pv_voltage";
    "pv_daily_energy" ].

Definition QPIWS_FIELDS : list string :=
  [ "_reserved_0";
    "inverter_fault";
    "bus_over";
    "bus_under";
    "bus_soft_fail";
    "line_fail";
    "opv_short";
    "inverter_voltage_too_low";
    "inverter_voltage_too_high";
    "over_temperature";
    "fan_locked";
    "battery_voltage_high";
    "battery_low_alarm";
    "_reserved_13";
    "battery_under_shutdown";
    "_reserved_15";
    "overload";
    "eeprom_fault";
    "inverter_over_current";
    "inverter_soft_fail";
    "self_test_fail";
    "op_dc_voltage_over";
    "battery_open";
    "current_sensor_fail";
    "battery_short";
    "power_limit";
    "pv_voltage_high";
    "mppt_overload_fault";
    "mppt_overload_warning";
    "battery_too_low_to_charge";
    "_reserved_30";
    "_reserved_31" ].

Definition QPIRI_FIELDS : list string :=
  [ "rated_grid_voltage";
    "rated_input_current";
    "rated_ac_output_voltage";
    "rated_output_frequency";
    "rated_output_current";
    "rated_output_apparent_power";
    "rated_output_active_power";
    "rated_battery_voltage";
    "low_battery_to_ac_bypass_voltage";
    "shut_down_battery_voltage";
    "bulk_charging_voltage";
    "float_charging_voltage";
    "battery_type";
    "max_utility_charging_current";
    "max_charging_current";
    "ac_input_voltage_range";
    "output_source_priority";
    "charger_source_priority";
    "parallel_max_number";
    "reserved_uu";
    "reserved_v";
    "parallel_mode";
    "high_battery_voltage_to_battery_mode";
    "solar_work_condition_in_parallel";
    "solar_max_charging_power_auto_adjust";
    "rated_battery_capacity";
    "reserved_b";
    "reserved_ccc" ].

Definition QBEQI_FIELDS : list string :=
  [ "equalization_function";
    "equalization_time";
    "interval_days";
    "max_charging_current";
    "float_voltage";
    "reserved_1";
    "equalization_timeout";
    "immediate_activation_flag";
    "elapsed_time" ].

(** [_clean_bits] *)
Definition clean_bits (raw : string) (width : nat) : string :=
  str (firstn width (filter is_bit (chars raw))).

Definition clean_field (k : string) (width : nat) (d : dict string) : dict string :=
  match dget k d with
  | Some v => dset k (clean_bits v width) d
  | None => d
  end.

Definition decode_qpigs (ascii_str : string) : dict string :=
  let result := zip QPIGS_FIELDS (split_ws ascii_str) in
  let result := clean_field "device_status_bits_b10_b8" 3 result in
  clean_field "device_status_bits_b7_b0" 8 result.

Definition decode_qpigs2 (ascii_str : string) : dict string :=
  zip QPIGS2_FIELDS (split_ws ascii_str).

Definition qpiws_flag (bits : list ascii) (i : nat) : bool :=
  match nth_error bits i with
  | Some c => negb (Ascii.eqb c "0")
  | None => false
  end.

Definition decode_qpiws (ascii_str : string) : dict bool :=
  let bits := filter is_bit (chars ascii_str) in
  map (fun ix => (snd ix, qpiws_flag bits (fst ix)))
    (combine (seq 0 (List.length QPIWS_FIELDS)) QPIWS_FIELDS).

Definition transform_qpiri_value (index : nat) (value : string) : string :=
  match index with
  | 12%nat => enum_name_or (E := BatteryType) value value
  | 15%nat => enum_name_or (E := ACInputVoltageRange) value value
  | 16%nat => enum_name_or (E := OutputSourcePriority) value value
  | 17%nat => enum_name_or (E := ChargerSourcePriority) value value
  | 21%nat => enum_name_or (E := ParallelMode) value value
  | _ => value
  end.

Definition mapi {A B} (f : nat -> A -> B) (l : list A) : list B :=
  map (fun ix => f (fst ix) (snd ix)) (combine (seq 0 (List.length l)) l).

Definition decode_qpiri (ascii_str : string) : dict string :=
  zip QPIRI_FIELDS (mapi transform_qpiri_value (split_ws ascii_str)).

(** The member itself is stored, not its name. *)
Definition decode_qmod (ascii_str : string) : pydict :=
  let code := stake 1 (strip ascii_str) in
  [("operating_mode",
    match of_value (E := OperatingMode) code with
    | Some m => VEnum "OperatingMode" (enum_name m)
    | None => VStr "Unknown"
    end)].

Definition decode_qmn (s : string) : dict string := [("Model", strip s)].
Definition decode_qid (s : string) : dict string := [("Device ID", strip s)].
Definition decode_qflag (s : string) : dict string := [("Enabled/Disabled Flags", strip s)].
Definition decode_qvfw (s : string) : dict string :=
  [("Firmware Version", strip (replace "VERFW:" "" s))].
Definition decode_qbeqi (s : string) : dict string := zip QBEQI_FIELDS (split_ws s).

(** ** Dispatch *)

Definition booldict (d : dict bool) : pydict := map (fun kv => (fst kv, VBool (snd kv))) d.

Definition strip_framing (s : string) : string :=
  remove_char "010" (remove_char "013" (remove_char ")" (remove_char "(" (strip s)))).

Definition decode_command (command ascii_str : string) : pydict :=
  let c := upper command in
  if String.eqb c "QPIGS" then strdict (decode_qpigs ascii_str)
  else if String.eqb c "QPIGS2" then strdict (decode_qpigs2 ascii_str)
  else if String.eqb c "QPIRI" then strdict (decode_qpiri ascii_str)
  else if String.eqb c "QMOD" then decode_qmod ascii_str
  else if String.eqb c "QMN" then strdict (decode_qmn ascii_str)
  else if String.eqb c "QID" || String.eqb c "QSID" then strdict (decode_qid ascii_str)
  else if String.eqb c "QFLAG" then strdict (decode_qflag ascii_str)
  else if String.eqb c "QVFW" then strdict (decode_qvfw ascii_str)
  else if String.eqb c "QBEQI" then strdict (decode_qbeqi ascii_str)
  else if String.eqb c "QPIWS" then booldict (decode_qpiws ascii_str)
  else [("Raw", VStr ascii_str)].

Definition decode_direct_response (command input_str : string) : res pydict :=
  if String.eqb input_str "" then Ok [("error", VStr "empty response")]
  else if String.eqb input_str "null"
  then Ok [("error", VStr "null response received. Command not accepted.")]
  else
    (let! ascii_str := (if is_hex_string input_str
                        then decode_ascii_response input_str
                        else Ok (strip input_str)) in
     let ascii_str := strip_framing ascii_str in
     if startswith ascii_str "NAK" || str_contains "NAK" ascii_str
     then Ok [("error", VStr "NAK response received. Command not accepted.")]
     else Ok (decode_command command ascii_str))%py.

(** ** The hex command table *)

Definition direct_commands : dict string :=
  [ ("QPIGS", "51 50 49 47 53 B7 A9 0D");
    ("QPIGS2", "51 50 49 47 53 32 2B 8A 0D");
    ("QPIRI", "51 50 49 52 49 F8 54 0D");
    ("QMOD", "51 4D 4F 44 49 C1 0D");
    ("QPIWS", "51 50 49 57 53 B4 DA 0D");
    ("QVFW", "51 56 46 57 62 99 0D");
    ("QMCHGCR", "51 4D 43 48 47 43 52 D8 55 0D");
    ("QMUCHGCR", "51 4D 55 43 48 47 43 52 26 34 0D");
    ("QFLAG", "51 46 4C 41 47 98 74 0D");
    ("QSID", "51 53 49 44 BB 05 0D");
    ("QID", "51 49 44 D6 EA 0D");
    ("QMN", "51 4D 4E BB 64 0D");
    ("QBEQI", "51 42 45 51 49 31 6B 0D") ].

Definition get_command_hex (command_name : string) : string :=
  match dget (upper command_name) direct_commands with
  | Some h => h
  | None => "Unknown command"
  end.

Fixpoint command_name_of (normalized_input : string) (l : dict string) : string :=
  match l with
  | [] => "Unknown HEX command"
  | (name, hex_cmd) :: l' =>
      if String.eqb normalized_input (upper hex_cmd) then name
      else command_name_of normalized_input l'
  end.

Definition get_command_name_by_hex (hex_string : string) : string :=
  command_name_of (replace "  " " " (upper (strip hex_string))) direct_commands.

(** ** Lemmas: field lists *)

Lemma qpigs_fields_nodup : NoDup QPIGS_FIELDS. Proof. nodup_strings. Qed.
Lemma qpiri_fields_nodup : NoDup QPIRI_FIELDS. Proof. nodup_strings. Qed.
Lemma qpiws_fields_nodup : NoDup QPIWS_FIELDS. Proof. nodup_strings. Qed.

Lemma dget_clean_field k k' w d :
  dget k (clean_field k' w d)
  = if String.eqb k k' then option_map (fun v => clean_bits v w) (dget k d) else dget k d.
Proof.
  unfold clean_field. destruct (String.eqb_spec k k') as [->|Hne].
  - destruct (dget k' d) eqn:E; simpl; [apply dget_dset_eq|exact E].
  - destruct (dget k' d); [now apply dget_dset_ne|reflexivity].
Qed.

Lemma clean_bits_prefix bs junk :
  clean_bits (str (map bit_char bs ++ junk)) (List.length bs) = str (map bit_char bs).
Proof.
  unfold clean_bits. rewrite chars_str, filter_app.
  assert (filter is_bit (map bit_char bs) = map bit_char bs) as ->.
  { induction bs as [|[] bs IH]; simpl; now rewrite ?IH. }
  rewrite <- (length_map bit_char bs), firstn_app, firstn_all, Nat.sub_diag.
  simpl. now rewrite app_nil_r.
Qed.

Lemma nth_error_mapi {A B} (f : nat -> A -> B) l i :
  nth_error (mapi f l) i = option_map (f i) (nth_error l i).
Proof.
  unfold mapi. rewrite nth_error_map.
  assert (forall k (l : list A) i, nth_error (combine (seq k (List.length l)) l) i
          = option_map (fun a => (k + i, a)%nat) (nth_error l i)) as H.
  { clear. intros k l. revert k. induction l as [|a l IH]; intros k [|i]; simpl; try reflexivity.
    - now rewrite Nat.add_0_r.
    - rewrite IH. now replace (S k + i)%nat with (k + S i)%nat by lia. }
  rewrite H. now destruct (nth_error l i).
Qed.

(** ** Lemmas: the hex-dump form *)

(** Two upper-case digits, as the captures of the protocol show bytes. *)
Definition hex_digit (d : Z) : ascii := if d <? 10 then chr (48 + d) else chr (55 + d).
Definition hex2 (b : Z) : list ascii := [hex_digit (b / 16); hex_digit (b mod 16)].
Definition hexdump (bs : bytes) : string := join " " (map (fun b => str (hex2 b)) bs).

Definition hexdump_tail (bs : bytes) : list ascii := flat_map (fun b => " "%char :: hex2 b) bs.

Lemma chars_hexdump b bs : chars (hexdump (b :: bs)) = (hex2 b ++ hexdump_tail bs)%list.
Proof.
  revert b. induction bs as [|b' bs IH]; intros b.
  - unfold hexdump, join. simpl. reflexivity.
  - change (hexdump (b :: b' :: bs)) with (str (hex2 b) ++ " " ++ hexdump (b' :: bs)).
    rewrite !chars_app, chars_str, IH. reflexivity.
Qed.

Definition hex_digit_ok (d : Z) : bool :=
  match hex_val (hex_digit d) with Some v => v =? d | None => false end
  && negb (is_space (hex_digit d)) && negb (Ascii.eqb (hex_digit d) " ").

Lemma hex_digit_all : forall d, 0 <= d < 16 -> hex_digit_ok d = true.
Proof. by_range 16. Qed.

Lemma hex_digit_spec d : 0 <= d < 16 ->
  hex_val (hex_digit d) = Some d /\ is_space (hex_digit d) = false
  /\ Ascii.eqb (hex_digit d) " " = false.
Proof.
  intros H. apply hex_digit_all in H. unfold hex_digit_ok in H.
  rewrite !andb_true_iff, !negb_true_iff in H. destruct H as [[H1 H2] H3].
  destruct (hex_val (hex_digit d)) as [v|]; [|discriminate].
  apply Z.eqb_eq in H1. now subst.
Qed.

Lemma nibbles b : byte_ok b -> 0 <= b / 16 < 16 /\ 0 <= b mod 16 < 16.
Proof. unfold byte_ok. intros. pose proof (Z.div_mod b 16). pose proof (Z.mod_pos_bound b 16). lia. Qed.

Lemma byte_of_hex2 b : byte_ok b -> byte_of_hex (str (hex2 b)) = Ok b.
Proof.
  intros H. destruct (nibbles b H) as [Hh Hl].
  destruct (hex_digit_spec _ Hh) as (E1 & _), (hex_digit_spec _ Hl) as (E2 & _).
  unfold byte_of_hex, py_int_base. rewrite chars_str. unfold hex2.
  cbn [int_base_digits]. rewrite E1, E2.
  rewrite !(proj2 (Z.ltb_lt _ 16)) by lia. cbn [rbind].
  replace (16 * (16 * 0 + b / 16) + b mod 16) with b by (rewrite (Z.div_mod b 16) at 1; lia).
  unfold byte_ok in H. now rewrite (proj2 (Z.ltb_lt b 256)) by lia.
Qed.

Lemma rmapM_hex bs : bytes_ok bs -> rmapM byte_of_hex (map (fun b => str (hex2 b)) bs) = Ok bs.
Proof.
  induction 1 as [|b bs Hb _ IH]; [reflexivity|].
  cbn [map rmapM]. now rewrite byte_of_hex2, IH.
Qed.

Lemma split_ws_tail bs cur : bytes_ok bs -> cur <> [] ->
  split_ws_aux cur (hexdump_tail bs) = str (rev cur) :: map (fun b => str (hex2 b)) bs.
Proof.
  intros H. revert cur. induction H as [|b bs Hb _ IH]; intros cur Hc.
  - now destruct cur.
  - destruct (nibbles b Hb) as [Hh Hl].
    destruct (hex_digit_spec _ Hh) as (_ & S1 & _), (hex_digit_spec _ Hl) as (_ & S2 & _).
    destruct cur as [|c cur]; [easy|].
    cbn -[str rev hex_digit]. rewrite S1, S2. f_equal.
    fold (hexdump_tail bs). now rewrite IH.
Qed.

Lemma split_ws_hexdump b bs : bytes_ok (b :: bs) ->
  split_ws (hexdump (b :: bs)) = map (fun b => str (hex2 b)) (b :: bs).
Proof.
  intros H. inversion H as [|? ? Hb Hbs]; subst. unfold split_ws. rewrite chars_hexdump.
  destruct (nibbles b Hb) as [Hh Hl].
  destruct (hex_digit_spec _ Hh) as (_ & S1 & _), (hex_digit_spec _ Hl) as (_ & S2 & _).
  cbn -[str rev hex_digit hexdump_tail]. rewrite S1, S2.
  now rewrite split_ws_tail.
Qed.

Lemma hexdump_snoc b bs : bytes_ok (b :: bs) -> exists l z,
  chars (hexdump (b :: bs)) = (hex_digit (b / 16) :: l ++ [z])%list /\ is_space z = false.
Proof.
  intros H. destruct (exists_last (l := b :: bs)) as (pre & last & E); [easy|].
  assert (byte_ok last) as Hb by (rewrite E in H; apply bytes_ok_app in H as [_ H]; now inversion H).
  destruct (nibbles last Hb) as [_ Hl]. destruct (hex_digit_spec _ Hl) as (_ & S2 & _).
  rewrite chars_hexdump. destruct pre as [|b' pre]; injection E as -> ->.
  - exists [], (hex_digit (last mod 16)). split; [reflexivity|exact S2].
  - exists (hex_digit (b' mod 16) :: hexdump_tail pre ++ [" "%char; hex_digit (last / 16)])%list.
    exists (hex_digit (last mod 16)). split; [|exact S2].
    unfold hexdump_tail. rewrite flat_map_app. cbn -[hex_digit].
    now rewrite <- !app_assoc.
Qed.

Lemma strip_hexdump b bs : bytes_ok (b :: bs) ->
  strip (hexdump (b :: bs)) = hexdump (b :: bs).
Proof.
  intros H. destruct (hexdump_snoc b bs H) as (l & z & E & Hz).
  inversion H as [|? ? Hb _]; subst. destruct (nibbles b Hb) as [Hh _].
  destruct (hex_digit_spec _ Hh) as (_ & S1 & _).
  rewrite <- (str_chars (hexdump (b :: bs))), E. now apply strip_framed.
Qed.

Lemma filter_hexdump_tail bs : bytes_ok bs ->
  filter (fun x => negb (Ascii.eqb x " ")) (hexdump_tail bs) = flat_map hex2 bs.
Proof.
  induction 1 as [|b bs Hb _ IH]; [reflexivity|].
  destruct (nibbles b Hb) as [Hh Hl].
  destruct (hex_digit_spec _ Hh) as (_ & _ & S1), (hex_digit_spec _ Hl) as (_ & _ & S2).
  cbn -[hex_digit]. rewrite S1, S2. cbn -[hex_digit]. fold (hexdump_tail bs). now rewrite IH.
Qed.

Lemma is_hex_hexdump b bs : bytes_ok (b :: bs) -> is_hex_string (hexdump (b :: bs)) = true.
Proof.
  intros H. unfold is_hex_string. rewrite strip_hexdump by exact H.
  set (r := remove_char _ _).
  assert (chars r = flat_map hex2 (b :: bs)) as Hr.
  { unfold r, remove_char. rewrite chars_on_chars, chars_hexdump, filter_app.
    inversion H as [|? ? Hb Hbs]; subst. rewrite filter_hexdump_tail by exact Hbs.
    destruct (nibbles b Hb) as [Hh Hl].
    destruct (hex_digit_spec _ Hh) as (_ & _ & S1), (hex_digit_spec _ Hl) as (_ & _ & S2).
    cbn -[hex_digit]. now rewrite S1, S2. }
  rewrite Hr, !andb_true_iff. repeat split.
  - apply negb_true_iff, String.eqb_neq. intros E. rewrite E in Hr. discriminate Hr.
  - clear r Hr. induction H as [|x l Hx _ IH]; [reflexivity|].
    destruct (nibbles x Hx) as [Hh Hl]. cbn -[hex_digit]. unfold is_hex_char at 1 2.
    now rewrite (proj1 (hex_digit_spec _ Hh)), (proj1 (hex_digit_spec _ Hl)).
  - unfold len. rewrite <- chars_length, Hr. clear. induction (b :: bs) as [|x l IH]; [reflexivity|].
    cbn [flat_map]. rewrite length_app, Nat2Z.inj_add, Z.even_add, IH. reflexivity.
Qed.

(** A live reply: ASCII text with the frame start, then a non-space. *)
Definition ascii_only (l : list ascii) : Prop := Forall (fun c => ord c < 128) l.

Lemma decode_ascii_b s : ascii_only (chars s) -> decode_ascii_ignore (b_ s) = s.
Proof.
  intros H. unfold decode_ascii_ignore, b_. apply chars_inj. rewrite chars_str.
  induction H as [|c l Hc _ IH]; [reflexivity|].
  cbn -[chr ord Z.ltb]. apply Z.ltb_lt in Hc. rewrite Hc. cbn -[chr ord Z.ltb].
  now rewrite chr_ord, IH.
Qed.

Lemma b_bytes_ok s : bytes_ok (b_ s).
Proof. unfold b_, bytes_ok. apply Forall_map, Forall_forall. intros c _. apply ord_bound. Qed.

(** Nothing that starts with the frame start is taken for a hex dump. *)
Lemma not_hex_paren l : is_hex_string (str ("("%char :: l)) = false.
Proof.
  unfold is_hex_string, remove_char. rewrite chars_on_chars, strip_cons by reflexivity.
  cbn [filter]. cbn -[rdropwhile filter]. now rewrite andb_false_r.
Qed.

Lemma strip_framing_paren c l : is_space c = false ->
  strip_framing (strip (str ("("%char :: c :: l)))
  = strip_framing (sdrop 1 (strip (str ("("%char :: c :: l)))).
Proof.
  intros Hc. unfold strip_framing. rewrite strip_idem.
  assert (strip (str ("("%char :: c :: l)) = str ("("%char :: c :: rdropwhile is_space l)) as ->.
  { apply chars_inj. rewrite strip_cons by reflexivity.
    now rewrite rdropwhile_first, chars_str by exact Hc. }
  assert (strip (sdrop 1 (str ("("%char :: c :: rdropwhile is_space l)))
          = str (c :: rdropwhile is_space l)) as ->.
  { apply chars_inj. unfold sdrop, on_chars. rewrite chars_str. cbn [skipn].
    rewrite strip_cons, rdropwhile_idem by exact Hc. now rewrite chars_str. }
  reflexivity.
Qed.

Lemma prefix_char c l : startswith (str (c :: l)) (String c "") = true.
Proof.
  unfold startswith. cbn. destruct (ascii_dec c c); [|easy].
  now destruct (string_of_list_ascii l).
Qed.

Lemma decode_hexdump command b bs : bytes_ok (b :: bs) ->
  decode_direct_response command (hexdump (b :: bs))
  = let s := strip (decode_ascii_ignore (b :: bs)) in
    let s := strip_framing (if startswith s "(" then sdrop 1 s else s) in
    Ok (if startswith s "NAK" || str_contains "NAK" s
        then [("error", VStr "NAK response received. Command not accepted.")]
        else decode_command command s).
Proof.
  intros H. unfold decode_direct_response. rewrite is_hex_hexdump by exact H.
  pose proof (is_hex_hexdump b bs H) as Hx.
  destruct (String.eqb_spec (hexdump (b :: bs)) "") as [E|_];
    [rewrite E in Hx; discriminate Hx|].
  destruct (String.eqb_spec (hexdump (b :: bs)) "null") as [E|_];
    [rewrite E in Hx; discriminate Hx|].
  unfold decode_ascii_response. rewrite strip_hexdump, split_ws_hexdump, rmapM_hex by exact H.
  cbn [rbind]. cbv zeta. now destruct (_ || _).
Qed.

Lemma decode_live command l : let s := strip_framing (strip (str ("("%char :: l))) in
  decode_direct_response command (str ("("%char :: l))
  = Ok (if startswith s "NAK" || str_contains "NAK" s
        then [("error", VStr "NAK response received. Command not accepted.")]
        else decode_command command s).
Proof.
  unfold decode_direct_response. rewrite not_hex_paren.
  change (String.eqb (str ("("%char :: l)) "") with false.
  change (String.eqb (str ("("%char :: l)) "null") with false.
  cbn [rbind]. cbv zeta. now destruct (_ || _).
Qed.

Lemma decode_ascii_response_error s e : decode_ascii_response s = Raise e -> is_ValueError e = true.
Proof.
  unfold decode_ascii_response. destruct (rmapM _ _) as [v|e'] eqn:E; [discriminate|].
  intros H. injection H as <-. revert E. generalize (split_ws (strip s)).
  intros l. induction l as [|t l IH]; simpl; [discriminate|].
  unfold byte_of_hex at 1, py_int_base.
  destruct (chars t) as [|c cs]; simpl; [intros E; now injection E as <-|].
  destruct (match hex_val c with Some d => _ | None => None end) as [v|]; simpl;
    [|intros E; now injection E as <-].
  destruct (v <? 256); simpl; [|intros E; now injection E as <-].
  destruct (rmapM byte_of_hex l); [discriminate|exact IH].
Qed.

(** ** Properties *)

(** The two accepted forms of a reply agree: decoding the hex dump
    of the bytes of a live reply gives what decoding the live reply gives, for
    every command. *)
Theorem hexdump_decodes_as_live (command : string) (c : ascii) (l : list ascii)
    (Hc : is_space c = false) (Hascii : ascii_only (c :: l)) :
  let reply := str ("("%char :: c :: l) in
  decode_direct_response command (hexdump (b_ reply)) = decode_direct_response command reply.
Proof.
  cbv zeta. rewrite decode_live.
  assert (ascii_only (chars (str ("("%char :: c :: l)))) as Ha
    by (rewrite chars_str; constructor; [reflexivity|exact Hascii]).
  pose proof (b_bytes_ok (str ("("%char :: c :: l))) as Hb.
  pose proof (decode_ascii_b _ Ha) as Hd.
  destruct (b_ (str ("("%char :: c :: l))) as [|b bs] eqn:E;
    [unfold b_ in E; rewrite chars_str in E; discriminate E|].
  rewrite decode_hexdump by exact Hb. rewrite Hd. cbv zeta.
  assert (startswith (strip (str ("("%char :: c :: l))) "(" = true) as ->.
  { rewrite <- (str_chars (strip _)), strip_cons by reflexivity. apply prefix_char. }
  now rewrite <- strip_framing_paren by exact Hc.
Qed.

Lemma hexdump_decodes_as_live_witness :
  decode_direct_response "qmod" (hexdump (b_ "(L")) = Ok [("operating_mode", VEnum "OperatingMode" "Line")].
Proof.
  refine (eq_trans (hexdump_decodes_as_live "qmod" "L" [] _ _) _); [reflexivity| |reflexivity].
  repeat constructor.
Defined.

(** A reply that starts with the frame start is decoded without
    an exception, as text, never as a hex dump; the only replies that raise are
    those taken for a hex dump, and the exception is a [ValueError]. *)
Theorem decode_live_never_raises (command : string) (l : list ascii) :
  (exists d, decode_direct_response command (str ("("%char :: l)) = Ok d)
  /\ (forall input e, decode_direct_response command input = Raise e ->
        is_hex_string input = true /\ is_ValueError e = true).
Proof.
  split; [rewrite decode_live; eauto|]. intros input e. unfold decode_direct_response.
  destruct (String.eqb input ""); [discriminate|].
  destruct (String.eqb input "null"); [discriminate|].
  destruct (is_hex_string input); cbn [rbind].
  - destruct (decode_ascii_response input) as [s|e'] eqn:E; cbn [rbind].
    + destruct (_ || _); discriminate.
    + intros H. injection H as <-. split; [reflexivity|]. now apply (decode_ascii_response_error input).
  - destruct (_ || _); discriminate.
Qed.

(** The hex path does raise on text that only looks like hex. *)
Example decode_hex_like_text_raises :
  decode_direct_response "QID" "A BCD" = Raise (ValueError "bytes must be in range(0, 256)").
Proof. reflexivity. Qed.

(** Every field of a decoded QPIGS reply is the token at its position,
    the two status-bit fields reduced to their 0/1 characters at the documented
    width, so trailing CRC bytes never reach a consumer. *)
Theorem decode_qpigs_fields (s : string) (i : nat) (k : string)
    (Hk : nth_error QPIGS_FIELDS i = Some k) :
  dget k (decode_qpigs s)
  = option_map (fun v =>
      if String.eqb k "device_status_bits_b7_b0" then clean_bits v 8
      else if String.eqb k "device_status_bits_b10_b8" then clean_bits v 3
      else v) (nth_error (split_ws s) i)
  /\ (forall bs junk, nth_error (split_ws s) i = Some (str (map bit_char bs ++ junk)) ->
      (k = "device_status_bits_b7_b0" -> List.length bs = 8%nat ->
         dget k (decode_qpigs s) = Some (str (map bit_char bs)))
      /\ (k = "device_status_bits_b10_b8" -> List.length bs = 3%nat ->
         dget k (decode_qpigs s) = Some (str (map bit_char bs)))).
Proof.
  assert (dget k (decode_qpigs s)
    = option_map (fun v =>
        if String.eqb k "device_status_bits_b7_b0" then clean_bits v 8
        else if String.eqb k "device_status_bits_b10_b8" then clean_bits v 3
        else v) (nth_error (split_ws s) i)) as H.
  { unfold decode_qpigs. cbv zeta. rewrite !dget_clean_field.
    rewrite (dget_zip _ _ i k qpigs_fields_nodup Hk).
    destruct (String.eqb_spec k "device_status_bits_b7_b0") as [->|]; cbn.
    - reflexivity.
    - destruct (String.eqb k "device_status_bits_b10_b8"); [reflexivity|].
      now destruct (nth_error (split_ws s) i). }
  split; [exact H|]. intros bs junk E. rewrite H, E.
  split; intros -> Hl; cbn -[clean_bits]; rewrite <- Hl; f_equal; apply clean_bits_prefix.
Qed.

Lemma decode_qpigs_fields_witness :
  dget "device_status_bits_b10_b8"
    (decode_qpigs "230 50 230 50 1 2 3 4 5 6 7 8 9 10 11 12 00010001 0 0 0 110s") = Some "110".
Proof.
  refine (proj2 (proj2 (decode_qpigs_fields
    "230 50 230 50 1 2 3 4 5 6 7 8 9 10 11 12 00010001 0 0 0 110s" 20 _ eq_refl)
    [true; true; false] ["s"%char] _) _ _); reflexivity.
Defined.

(** The warning decoder always returns the full set of named flags, and
    the flag at position [i] is set exactly when the [i]-th 0/1 character of the
    reply is a 1; missing bits are clear, stray characters do not shift. *)
Theorem decode_qpiws_flags (s : string) :
  dkeys (decode_qpiws s) = QPIWS_FIELDS
  /\ forall i name, nth_error QPIWS_FIELDS i = Some name ->
     dget name (decode_qpiws s)
     = Some (nth i (map (Ascii.eqb "1") (filter is_bit (chars s))) false).
Proof.
  set (bits := filter is_bit (chars s)).
  assert (Hz : decode_qpiws s = zip QPIWS_FIELDS (mapi (fun i _ => qpiws_flag bits i) QPIWS_FIELDS)).
  { reflexivity. }
  split; [reflexivity|]. intros i name Hi.
  rewrite Hz, (dget_zip _ _ i name qpiws_fields_nodup Hi), nth_error_mapi, Hi. cbn [option_map].
  f_equal. unfold qpiws_flag. rewrite <- nth_default_eq. unfold nth_default.
  rewrite nth_error_map. destruct (nth_error bits i) as [c|] eqn:E; [|reflexivity].
  assert (is_bit c = true) as Hc by (apply nth_error_In in E; now apply filter_In in E).
  destruct (is_bit_char c Hc) as [[] ->]; reflexivity.
Qed.

Lemma decode_qpiws_flags_witness :
  dget "over_temperature" (decode_qpiws "0000 0000 01?") = Some true.
Proof.
  refine (proj2 (decode_qpiws_flags "0000 0000 01?") 9%nat "over_temperature" _). reflexivity.
Defined.

(** A configuration column coded by an enumeration decodes to the
    member's name for every code the firmware documents, every other code and
    every other column is passed through unchanged. *)
Theorem decode_qpiri_fields (s : string) (i : nat) (k : string)
    (Hk : nth_error QPIRI_FIELDS i = Some k) :
  dget k (decode_qpiri s) = option_map (transform_qpiri_value i) (nth_error (split_ws s) i)
  /\ (forall e : OutputSourcePriority, transform_qpiri_value 16 (enum_value e) = enum_name e)
  /\ (forall e : ChargerSourcePriority, transform_qpiri_value 17 (enum_value e) = enum_name e)
  /\ (forall e : BatteryType, transform_qpiri_value 12 (enum_value e) = enum_name e)
  /\ (forall v, of_value (E := OutputSourcePriority) v = None -> transform_qpiri_value 16 v = v)
  /\ (~ In i [12; 15; 16; 17; 21]%nat -> forall v, transform_qpiri_value i v = v).
Proof.
  split.
  { unfold decode_qpiri. rewrite (dget_zip _ _ i k qpiri_fields_nodup Hk).
    apply nth_error_mapi. }
  repeat (split; [intros e; exact (enum_name_or_value e _)|]).
  split; [intros v Hv; unfold transform_qpiri_value, enum_name_or; now rewrite Hv|].
  intros Hn v. do 22 (destruct i as [|i]; [try reflexivity; exfalso; apply Hn; cbn; tauto|]).
  reflexivity.
Qed.

Lemma decode_qpiri_fields_witness :
  dget "output_source_priority"
    (decode_qpiri "230.0 21.7 230.0 50.0 21.7 5000 4000 48.0 46.0 42.0 56.4 54.0 2 10 60 0 2 3")
  = Some "SBU".
Proof.
  rewrite (proj1 (decode_qpiri_fields _ 16 "output_source_priority" eq_refl)). reflexivity.
Defined.

(** Of the diagnostic hex table, exactly the entries of QPIGS2 and
    QBEQI are not the frame the protocol builds for the command: their two CRC
    bytes are wrong. *)
Theorem direct_commands_frames :
  forall name hex, In (name, hex) direct_commands ->
  (build_pi30_frame name = rmapM byte_of_hex (split_ws hex)
   <-> name <> "QPIGS2" /\ name <> "QBEQI")
  /\ get_command_hex name = hex /\ get_command_name_by_hex hex = name.
Proof.
  intros name hex Hin. cbn in Hin.
  repeat (destruct Hin as [Hin|Hin];
    [injection Hin as <- <-; split; [|split; vm_compute; reflexivity]; split;
      [vm_compute; congruence || (split; congruence)|
       intros [H1 H2]; (now elim H1) || (now elim H2) || (vm_compute; reflexivity)]|]).
  destruct Hin.
Qed.

Lemma direct_commands_frames_witness :
  build_pi30_frame "QPIGS2" <> rmapM byte_of_hex (split_ws "51 50 49 47 53 32 2B 8A 0D").
Proof.
  intros E.
  destruct (direct_commands_frames "QPIGS2" "51 50 49 47 53 32 2B 8A 0D") as [[H _] _];
    [right; left; reflexivity|]. now destruct (H E) as [H1 _].
Defined.

Lemma decode_live_never_raises_witness :
  is_hex_string "A BCD" = true
  /\ is_ValueError (ValueError "bytes must be in range(0, 256)") = true.
Proof.
  exact (proj2 (decode_live_never_raises "QID" (chars "NAK")) "A BCD" _
    decode_hex_like_text_raises).
Defined.
