(* ===== verification/Pi18.v ===== *)
(** PI18 / InfiniSolar-V codec: [api/decoders/pi18.py].

    Request framing, frame stripping and one decoder per command. Numeric
    tokens go through [safe_int]; the values are rendered with the fixed-point
    formats of the source, so a decoder can raise only where an [int] is too
    large for a [float]. *)

From Stdlib Require Import ZArith List Bool Lia String Ascii.
From S2P Require Import Prelude PyStr PyInt PyFloat FloatFacts PyDict Crc Enums.
Import ListNotations.
#[local] Open Scope string_scope.
#[local] Open Scope Z_scope.

(** ** Framing *)

Definition LOGICAL_TO_NATIVE : dict string :=
  [ ("QPIGS", "GS");
    ("QPIRI", "PIRI");
    ("QMOD", "MOD");
    ("QPI", "PI");
    ("QID", "ID");
    ("QVFW", "VFW");
    ("QFWS", "FWS");
    ("QFLAG", "FLAG");
    ("QDI", "DI");
    ("QMCHGCR", "MCHGCR");
    ("QMUCHGCR", "MUCHGCR") ].

Definition native_of (command : string) : string :=
  let cmd := upper command in
  match dget cmd LOGICAL_TO_NATIVE with
  | Some n => n
  | None => cmd
  end.

Definition safe_int (token : string) (default : Z) : Z := rcatch (py_int token) default.

Definition strip_pi18_frame (raw : bytes) : bytes :=
  match raw with
  | [] => raw
  | _ =>
      let payload := match bfind CR raw with
                     | Some i => firstn i raw
                     | None => raw
                     end in
      let payload := if 2 <=? Z.of_nat (List.length payload)
                     then bdroplast 2 payload else payload in
      if bstartswith payload (b_ "^D") && (5 <=? Z.of_nat (List.length payload))
      then skipn 5 payload
      else if bstartswith payload (b_ "(") then skipn 1 payload
      else payload
  end.

Definition build_request_frame (command : string) : res bytes :=
  (let body := native_of command in
   let! body_bytes := encode_ascii body in
   let length := Z.of_nat (List.length body_bytes) + 3 in
   let! prefix := encode_ascii ("^P" ++ fmt_0d 3 length) in
   let head := (prefix ++ body_bytes)%list in
   Ok (head ++ crc16_xmodem_bytes head ++ [CR])%list)%py.

(** ** Fields *)

(** [list(tokens) + [''] * (n - len(tokens))] *)
Definition padded (n : nat) (tokens : list string) : list string :=
  (tokens ++ repeat "" (n - List.length tokens))%list.

Definition raw_dict (fields : list string) (tokens : list string) : dict string :=
  zip fields (padded (List.length fields) tokens).

(** [raw[k]] *)
Definition item (raw : dict string) (k : string) : res string :=
  match dget k raw with
  | Some v => Ok v
  | None => Raise (KeyError k)
  end.

Definition int_item (raw : dict string) (k : string) : res Z :=
  (let! t := item raw k in Ok (safe_int t 0))%py.

(** [n / 10.0] *)
Definition tenth (n : Z) : res float :=
  (let! x := float_of_int n in Ok (fdiv_nz x (float_of_Z 10)))%py.

(** The formats of [n / 10.0] with [.<p>f], of [n] with [.<p>f] and of [n]
    with [0<w>d]. *)
Definition tenths_f (p : nat) (raw : dict string) (k : string) : res pyval :=
  (let! n := int_item raw k in let! x := tenth n in Ok (VStr (fmt_f p x)))%py.

Definition int_f (p : nat) (raw : dict string) (k : string) : res pyval :=
  (let! n := int_item raw k in let! x := float_of_int n in Ok (VStr (fmt_f p x)))%py.

Definition padded_d (w : nat) (raw : dict string) (k : string) : res pyval :=
  (let! n := int_item raw k in Ok (VStr (fmt_0d w n)))%py.

(** [_enum_name] *)
Definition enum_field {E} `{PyEnum E} (raw : dict string) (k default : string) : res pyval :=
  (let! code := item raw k in Ok (VStr (enum_name_or (E := E) code default)))%py.

Definition or_zero (raw : dict string) (k : string) : res pyval :=
  (let! t := item raw k in Ok (VStr (if String.eqb t "" then "0" else t)))%py.

(** A dict display: the values are computed in order. *)
Definition build_dict (entries : list (string * res pyval)) : res pydict :=
  rmapM (fun kv => rmap (fun v => (fst kv, v)) (snd kv)) entries.

(** ** GS *)

Definition GS_FIELDS : list string :=
  [ "grid_voltage";
    "grid_frequency";
    "ac_output_voltage";
    "ac_output_frequency";
    "output_apparent_power";
    "output_active_power";
    "load_percent";
    "battery_voltage";
    "scc_battery_voltage";
    "_battery_voltage_scc2";
    "battery_discharge_current";
    "battery_charging_current";
    "battery_capacity";
    "inverter_heat_sink_temperature";
    "_mppt1_temp";
    "_mppt2_temp";
    "pv_charging_power";
    "_pv2_input_power";
    "pv_input_voltage";
    "_pv2_input_voltage";
    "_settings_changed";
    "_mppt1_status";
    "_mppt2_status";
    "_load_connected";
    "_battery_power_dir";
    "_dcac_power_dir";
    "_line_power_dir";
    "_local_parallel_id" ].

(** Current from power and voltage, zero at zero voltage. *)
Definition derived_current (p_int : Z) (v : float) : res float :=
  if is_zero v then Ok f0
  else (let! p := float_of_int p_int in Ok (fdiv_nz p v))%py.

Definition decode_gs (tokens : list string) : res pydict :=
  let raw := raw_dict GS_FIELDS tokens in
  (let! pv_v_int := int_item raw "pv_input_voltage" in
   let! pv_p_int := int_item raw "pv_charging_power" in
   let! pv_v := tenth pv_v_int in
   let! pv_input_current := derived_current pv_p_int pv_v in
   let! pv2_v_int := int_item raw "_pv2_input_voltage" in
   let! pv2_p_int := int_item raw "_pv2_input_power" in
   let! pv2_v := tenth pv2_v_int in
   let! pv2_input_current := derived_current pv2_p_int pv2_v in
   let status_b7_b0 := "00010001" in
   let status_b10_b8 := "010" in
   build_dict
     [ ("grid_voltage", tenths_f 1 raw "grid_voltage");
       ("grid_frequency", tenths_f 1 raw "grid_frequency");
       ("ac_output_voltage", tenths_f 1 raw "ac_output_voltage");
       ("ac_output_frequency", tenths_f 1 raw "ac_output_frequency");
       ("output_apparent_power", padded_d 4 raw "output_apparent_power");
       ("output_active_power", padded_d 4 raw "output_active_power");
       ("load_percent", padded_d 3 raw "load_percent");
       ("bus_voltage", Ok (VStr "400"));
       ("battery_voltage", tenths_f 2 raw "battery_voltage");
       ("battery_charging_current", padded_d 3 raw "battery_charging_current");
       ("battery_capacity", padded_d 3 raw "battery_capacity");
       ("inverter_heat_sink_temperature", int_f 1 raw "inverter_heat_sink_temperature");
       ("pv_input_current", Ok (VStr (fmt_f 1 pv_input_current)));
       ("pv_input_voltage", Ok (VStr (fmt_f 1 pv_v)));
       ("scc_battery_voltage", tenths_f 2 raw "scc_battery_voltage");
       ("battery_discharge_current", padded_d 5 raw "battery_discharge_current");
       ("device_status_bits_b7_b0", Ok (VStr status_b7_b0));
       ("battery_voltage_offset", Ok (VStr "00"));
       ("eeprom_version", Ok (VStr "00"));
       ("pv_charging_power", Ok (VStr (fmt_0d 5 pv_p_int)));
       ("device_status_bits_b10_b8", Ok (VStr status_b10_b8));
       ("pv2_input_power", Ok (VStr (fmt_0d 5 pv2_p_int)));
       ("pv2_input_voltage", Ok (VStr (fmt_f 1 pv2_v)));
       ("pv2_input_current", Ok (VStr (fmt_f 1 pv2_input_current)));
       ("mppt1_temperature", int_f 1 raw "_mppt1_temp");
       ("mppt2_temperature", int_f 1 raw "_mppt2_temp");
       ("scc2_battery_voltage", tenths_f 2 raw "_battery_voltage_scc2");
       ("mppt1_status", enum_field (E := PI18MPPTStatus) raw "_mppt1_status" "Abnormal");
       ("mppt2_status", enum_field (E := PI18MPPTStatus) raw "_mppt2_status" "Abnormal");
       ("battery_power_direction", enum_field (E := PI18BatteryPowerDirection) raw "_battery_power_dir" "Idle");
       ("dcac_power_direction", enum_field (E := PI18DCACPowerDirection) raw "_dcac_power_dir" "Idle");
       ("line_power_direction", enum_field (E := PI18LinePowerDirection) raw "_line_power_dir" "Idle") ])%py.

(** ** PIRI *)

Definition PIRI_FIELDS : list string :=
  [ "rated_grid_voltage";
    "rated_input_current";
    "rated_ac_output_voltage";
    "rated_output_frequency";
    "rated_output_current";
    "rated_output_apparent_power";
    "rated_output_active_power";
    "rated_battery_voltage";
    "battery_recharge_voltage";
    "battery_redischarge_voltage";
    "battery_under_voltage";
    "battery_bulk_voltage";
    "battery_float_voltage";
    "battery_type_code";
    "max_ac_charging_current";
    "max_charging_current";
    "input_voltage_range_code";
    "output_priority_code";
    "charger_priority_code";
    "parallel_max";
    "machine_type";
    "topology";
    "output_model_setting";
    "solar_power_priority_code";
    "mppt_string" ].

Definition PI18_OUTPUT_PRIORITY (n : Z) : option string :=
  match n with
  | 0 => Some (enum_name OutputSourcePriority_SolarFirst)
  | 1 => Some (enum_name OutputSourcePriority_SBU)
  | _ => None
  end.

Definition PI18_CHARGER_PRIORITY (n : Z) : option string :=
  match n with
  | 0 => Some (enum_name ChargerSourcePriority_SolarFirst)
  | 1 => Some (enum_name ChargerSourcePriority_SolarAndUtility)
  | 2 => Some (enum_name ChargerSourcePriority_OnlySolar)
  | _ => None
  end.

(** [table.get(k, d)] *)
Definition get_or {A} (o : option A) (d : A) : A := match o with Some x => x | None => d end.

Definition decode_piri (tokens : list string) : res pydict :=
  let raw := raw_dict PIRI_FIELDS tokens in
  (let! bt := item raw "battery_type_code" in
   let battery_type := enum_name_or (E := BatteryType) bt bt in
   let! ar := item raw "input_voltage_range_code" in
   let ac_range := enum_name_or (E := ACInputVoltageRange) ar ar in
   let! op := item raw "output_priority_code" in
   let output_priority := get_or (PI18_OUTPUT_PRIORITY (safe_int op (-1))) op in
   let! cp := item raw "charger_priority_code" in
   let charger_priority := get_or (PI18_CHARGER_PRIORITY (safe_int cp (-1))) cp in
   build_dict
     [ ("rated_grid_voltage", tenths_f 1 raw "rated_grid_voltage");
       ("rated_input_current", tenths_f 1 raw "rated_input_current");
       ("rated_ac_output_voltage", tenths_f 1 raw "rated_ac_output_voltage");
       ("rated_output_frequency", tenths_f 1 raw "rated_output_frequency");
       ("rated_output_current", tenths_f 1 raw "rated_output_current");
       ("rated_output_apparent_power", padded_d 4 raw "rated_output_apparent_power");
       ("rated_output_active_power", padded_d 4 raw "rated_output_active_power");
       ("rated_battery_voltage", tenths_f 1 raw "rated_battery_voltage");
       ("low_battery_to_ac_bypass_voltage", tenths_f 1 raw "battery_redischarge_voltage");
       ("shut_down_battery_voltage", tenths_f 1 raw "battery_under_voltage");
       ("bulk_charging_voltage", tenths_f 1 raw "battery_bulk_voltage");
       ("float_charging_voltage", tenths_f 1 raw "battery_float_voltage");
       ("battery_type", Ok (VStr battery_type));
       ("max_utility_charging_current", padded_d 2 raw "max_ac_charging_current");
       ("max_charging_current", padded_d 3 raw "max_charging_current");
       ("ac_input_voltage_range", Ok (VStr ac_range));
       ("output_source_priority", Ok (VStr output_priority));
       ("charger_source_priority", Ok (VStr charger_priority));
       ("parallel_max_number", or_zero raw "parallel_max");
       ("reserved_uu", Ok (VStr "00"));
       ("reserved_v", Ok (VStr "0"));
       ("parallel_mode", Ok (VStr "Standalone"));
       ("high_battery_voltage_to_battery_mode", tenths_f 1 raw "battery_recharge_voltage");
       ("solar_work_condition_in_parallel", Ok (VStr "0"));
       ("solar_max_charging_power_auto_adjust", Ok (VStr "1_"));
       ("rated_battery_capacity", Ok (VStr "200"));
       ("reserved_b", Ok (VStr "0"));
       ("reserved_ccc", Ok (VStr "0")) ])%py.

(** ** MOD, FWS, FLAG and DI *)

Definition PI18_MODE_TO_OPERATING_MODE (n : Z) : option OperatingMode :=
  match n with
  | 0 => Some OperatingMode_PowerOn
  | 1 => Some OperatingMode_Standby
  | 2 => Some OperatingMode_Line
  | 3 => Some OperatingMode_Battery
  | 4 => Some OperatingMode_Fault
  | 5 => Some OperatingMode_Line
  | _ => None
  end.

Definition decode_mod (payload : string) : pydict :=
  [("operating_mode",
    match PI18_MODE_TO_OPERATING_MODE (safe_int (strip payload) (-1)) with
    | Some m => VEnum "OperatingMode" (enum_name m)
    | None => VStr "Unknown"
    end)].

Definition PI18_FAULT_CODES (n : Z) : option string :=
  match n with
  | 0 => Some "No fault"
  | 1 => Some "Fan is locked"
  | 2 => Some "Over temperature"
  | 3 => Some "Battery voltage is too high"
  | 4 => Some "Battery voltage is too low"
  | 5 => Some "Output short circuited or over temperature"
  | 6 => Some "Output voltage is too high"
  | 7 => Some "Over load time out"
  | 8 => Some "Bus voltage is too high"
  | 9 => Some "Bus soft start failed"
  | 11 => Some "Main relay failed"
  | 51 => Some "Over current inverter"
  | 52 => Some "Bus soft start failed"
  | 53 => Some "Inverter soft start failed"
  | 54 => Some "Self-test failed"
  | 55 => Some "Over DC voltage on output of inverter"
  | 56 => Some "Battery connection is open"
  | 57 => Some "Current sensor failed"
  | 58 => Some "Output voltage is too low"
  | 60 => Some "Inverter negative power"
  | 71 => Some "Parallel version different"
  | 72 => Some "Output circuit failed"
  | 80 => Some "CAN communication failed"
  | 81 => Some "Parallel host line lost"
  | 82 => Some "Parallel synchronized signal lost"
  | 83 => Some "Parallel battery voltage detect different"
  | 84 => Some "Parallel line voltage or frequency detect different"
  | 85 => Some "Parallel line input current unbalanced"
  | 86 => Some "Parallel output setting different"
  | _ => None
  end.

Definition FWS_WARNING_FIELDS : list string :=
  [ "warn_line_fail";
    "warn_output_short";
    "warn_inverter_over_temperature";
    "warn_fan_lock";
    "warn_battery_voltage_high";
    "warn_battery_low";
    "warn_battery_under";
    "warn_overload";
    "warn_eeprom_fail";
    "warn_power_limit";
    "warn_pv1_voltage_high";
    "warn_pv2_voltage_high";
    "warn_mppt1_overload";
    "warn_mppt2_overload";
    "warn_battery_too_low_scc1";
    "warn_battery_too_low_scc2" ].

(** [bool(_safe_int(token, 0))] *)
Definition flag_of (token : string) : pyval := VBool (negb (safe_int token 0 =? 0)).

Definition decode_fws (tokens : list string) : pydict :=
  match tokens with
  | [] => []
  | t0 :: rest =>
      let fault_code := safe_int t0 0 in
      let result :=
        [("fault_code", VInt fault_code);
         ("fault_description",
          VStr (get_or (PI18_FAULT_CODES fault_code) ("Unknown (" ++ str_of_int fault_code ++ ")")));
         ("has_fault", VBool (negb (fault_code =? 0)))] in
      fold_left (fun d kv => dset (fst kv) (flag_of (snd kv)) d)
        (zip FWS_WARNING_FIELDS (padded (List.length FWS_WARNING_FIELDS) rest)) result
  end.

Definition FLAG_FIELDS : list string :=
  [ "flag_silence_buzzer";
    "flag_overload_bypass";
    "flag_lcd_escape_default";
    "flag_overload_restart";
    "flag_over_temperature_restart";
    "flag_backlight_on";
    "flag_alarm_primary_source_interrupt";
    "flag_fault_code_record";
    "flag_reserved" ].

Definition decode_flag (tokens : list string) : pydict :=
  map (fun kv => (fst kv, flag_of (snd kv)))
    (zip FLAG_FIELDS (padded (List.length FLAG_FIELDS) tokens)).

(** The third component of a [_DI_FIELDS] row. *)
Inductive di_scale := DiTenth | DiInt | DiBool.

Definition DI_FIELDS : list (string * di_scale) :=
  [ ("default_ac_output_voltage", DiTenth);
    ("default_ac_output_frequency", DiTenth);
    ("default_ac_input_voltage_range", DiInt);
    ("default_battery_under_voltage", DiTenth);
    ("default_charging_float_voltage", DiTenth);
    ("default_charging_bulk_voltage", DiTenth);
    ("default_battery_recharge_voltage", DiTenth);
    ("default_battery_redischarge_voltage", DiTenth);
    ("default_max_charging_current", DiInt);
    ("default_max_ac_charging_current", DiInt);
    ("default_battery_type", DiInt);
    ("default_output_source_priority", DiInt);
    ("default_charger_source_priority", DiInt);
    ("default_solar_power_priority", DiInt);
    ("default_machine_type", DiInt);
    ("default_output_model_setting", DiInt);
    ("default_flag_silence_buzzer", DiBool);
    ("default_flag_overload_restart", DiBool);
    ("default_flag_over_temperature_restart", DiBool);
    ("default_flag_lcd_backlight_on", DiBool);
    ("default_flag_alarm_primary_source_interrupt", DiBool);
    ("default_flag_fault_code_record", DiBool);
    ("default_flag_overload_bypass", DiBool);
    ("default_flag_lcd_escape_default", DiBool) ].

Definition di_value (scale : di_scale) (token : string) : res pyval :=
  match scale with
  | DiBool => Ok (flag_of token)
  | DiInt => Ok (VInt (safe_int token 0))
  | DiTenth =>
      (let! x := float_of_int (safe_int token 0) in
       Ok (VFloat (round_to 2 (fmul x (flit 1 10)))))%py
  end.

Definition decode_di (tokens : list string) : res pydict :=
  build_dict (map (fun ft => (fst (fst ft), di_value (snd (fst ft)) (snd ft)))
                (zip DI_FIELDS (padded (List.length DI_FIELDS) tokens))).

(** ** ID, T, VFW, selectable currents and energy *)

Definition decode_id (payload : string) : pydict :=
  if len payload <? 2 then [("serial_number", VStr payload)]
  else match py_int (stake 2 payload) with
       | Raise _ =>
           let s := rstrip_p (Ascii.eqb "0") (sdrop 2 payload) in
           [("serial_number", VStr (if String.eqb s "" then payload else s))]
       | Ok length =>
           let digits := sdrop 2 payload in
           let serial := if (0 <? length) && (length <=? len digits)
                         then stake (Z.to_nat length) digits else digits in
           [("serial_number", VStr serial)]
       end.

(** [payload[a:b]] *)
Definition substr (a b : nat) (s : string) : string := stake (b - a) (sdrop a s).

Definition decode_t (payload : string) : pydict :=
  if len payload <? 14 then [("device_time", VStr payload)]
  else
    let yyyy := substr 0 4 payload in
    let mm := substr 4 6 payload in
    let dd := substr 6 8 payload in
    let hh := substr 8 10 payload in
    let ff := substr 10 12 payload in
    let ss := substr 12 14 payload in
    [("device_time", VStr (yyyy ++ "-" ++ mm ++ "-" ++ dd ++ " " ++ hh ++ ":" ++ ff ++ ":" ++ ss))].

Definition decode_vfw (tokens : list string) : pydict :=
  let p := padded 3 tokens in
  [("cpu_main_version", VStr (nth 0 p ""));
   ("cpu_slave1_version", VStr (nth 1 p ""));
   ("cpu_slave2_version", VStr (nth 2 p ""))].

Definition decode_selectable_currents (tokens : list string) (key : string) : pydict :=
  [(key, VList (map (fun t => VInt (safe_int t 0))
                  (filter (fun t => negb (String.eqb t "")) tokens)))].

Definition decode_energy (native payload : string) : pydict :=
  let value := VInt (safe_int (strip payload) 0) in
  if String.eqb native "ET" then [("total_energy_kwh", value)]
  else if startswith native "EY"
  then [("yearly_energy_kwh", value); ("energy_period", VStr (sdrop 2 native))]
  else if startswith native "EM"
  then [("monthly_energy_kwh", value); ("energy_period", VStr (sdrop 2 native))]
  else if startswith native "ED"
  then [("daily_energy_wh", value); ("energy_period", VStr (sdrop 2 native))]
  else [("energy_value", value)].

(** ** Top-level decoding *)

Definition is_energy (native : string) : bool :=
  String.eqb native "ET"
  || (startswith native "ED" || startswith native "EM" || startswith native "EY").

Definition decode_payload (native payload : string) : res pydict :=
  if String.eqb native "MOD" then Ok (decode_mod payload)
  else if String.eqb native "PI" then Ok [("protocol_id", VStr payload)]
  else if String.eqb native "ID" then Ok (decode_id payload)
  else if String.eqb native "T" then Ok (decode_t payload)
  else if is_energy native then Ok (decode_energy native payload)
  else
    let tokens := map strip (split_char "," payload) in
    if String.eqb native "GS" then decode_gs tokens
    else if String.eqb native "PIRI" then decode_piri tokens
    else if String.eqb native "FWS" then Ok (decode_fws tokens)
    else if String.eqb native "FLAG" then Ok (decode_flag tokens)
    else if String.eqb native "DI" then decode_di tokens
    else if String.eqb native "VFW" then Ok (decode_vfw tokens)
    else if String.eqb native "MCHGCR"
    then Ok (decode_selectable_currents tokens "max_charging_current_options")
    else if String.eqb native "MUCHGCR"
    then Ok (decode_selectable_currents tokens "max_ac_charging_current_options")
    else Ok [("raw_tokens", VList (map VStr tokens))].

Definition decode_pi18_response (command : string) (raw : bytes) : res pydict :=
  if match raw with [] => true | _ => false end || zlist_eqb raw (b_ "null")
  then Ok [("error", VStr "null response received. Command not accepted.")]
  else if zlist_eqb (firstn 2 raw) (b_ "^1") then Ok [("status", VStr "ACK")]
  else if zlist_eqb (firstn 2 raw) (b_ "^0") then Ok [("status", VStr "NAK")]
  else
    let payload := strip (decode_ascii_ignore (strip_pi18_frame raw)) in
    if String.eqb payload "" then Ok [("error", VStr "empty PI18 payload")]
    else decode_payload (native_of command) payload.

(** ** Lemmas: padded field dicts *)

Fixpoint index_of (k : string) (l : list string) : nat :=
  match l with
  | [] => 0
  | x :: l' => if String.eqb k x then O else S (index_of k l')
  end.

Lemma nth_error_index_of k l : In k l -> nth_error l (index_of k l) = Some k.
Proof.
  induction l as [|x l IH]; [easy|]. simpl. destruct (String.eqb_spec k x) as [->|Hne].
  - reflexivity.
  - intros [->|H]; [easy|]. now apply IH.
Qed.

Lemma nth_error_padded n tokens i : (i < n)%nat ->
  nth_error (padded n tokens) i = Some (nth i tokens "").
Proof.
  intros Hi. unfold padded. destruct (Nat.lt_ge_cases i (List.length tokens)) as [H|H].
  - rewrite nth_error_app1 by exact H. now apply nth_error_nth'.
  - rewrite nth_error_app2 by exact H. rewrite nth_overflow by exact H.
    apply nth_error_repeat. lia.
Qed.

Lemma in_dec_true k l : existsb (String.eqb k) l = true -> In k l.
Proof.
  intros H. apply existsb_exists in H as (x & Hx & E). apply String.eqb_eq in E. now subst.
Qed.

(** The token of a field, the empty string when the reply is short. *)
Definition token_of (fields tokens : list string) (k : string) : string :=
  nth (index_of k fields) tokens "".

Lemma item_raw_dict fields tokens k :
  NoDup fields -> existsb (String.eqb k) fields = true ->
  item (raw_dict fields tokens) k = Ok (token_of fields tokens k).
Proof.
  intros Hnd Hin. apply in_dec_true, nth_error_index_of in Hin.
  unfold item, raw_dict. rewrite (dget_zip _ _ _ _ Hnd Hin), nth_error_padded; [reflexivity|].
  apply nth_error_Some. congruence.
Qed.

Lemma gs_fields_nodup : NoDup GS_FIELDS. Proof. nodup_strings. Qed.
Lemma piri_fields_nodup : NoDup PIRI_FIELDS. Proof. nodup_strings. Qed.

Create HintDb pi18.
#[export] Hint Resolve gs_fields_nodup piri_fields_nodup : pi18.

(** ** Lemmas: rendered numbers *)

(** The decimal text of [n / 10] with [p] places. *)
Definition tenths_text (p : nat) (n : Z) : string :=
  (if n <? 0 then "-" else "") ++ fixed_text p (Z.abs n * 10 ^ (Z.of_nat p - 1)).

Lemma float_of_int_small n : Z.abs n < 2 ^ 40 -> float_of_int n = Ok (float_of_Z n).
Proof.
  intros Hn. unfold float_of_int. destruct n as [|n|n].
  - reflexivity.
  - rewrite float_of_Z_pos by lia. reflexivity.
  - rewrite float_of_Z_neg, float_of_Z_pos by lia. reflexivity.
Qed.

Lemma tenth_text p n : Z.abs n < 2 ^ 40 -> (1 <= p <= 2)%nat ->
  rmap (fmt_f p) (tenth n) = Ok (tenths_text p n).
Proof.
  intros Hn Hp. unfold tenth. rewrite float_of_int_small by exact Hn. cbn [rmap rbind].
  f_equal. unfold tenths_text.
  destruct p as [|[|[|p]]]; [lia| | |lia].
  - now rewrite (fmt_scaled n 10 1 1) by (reflexivity || lia).
  - now rewrite (fmt_scaled n 10 10 2) by (reflexivity || lia).
Qed.

Lemma tenths_f_text fields tokens p k :
  NoDup fields -> existsb (String.eqb k) fields = true -> (1 <= p <= 2)%nat ->
  Z.abs (safe_int (token_of fields tokens k) 0) < 2 ^ 40 ->
  tenths_f p (raw_dict fields tokens) k
  = Ok (VStr (tenths_text p (safe_int (token_of fields tokens k) 0))).
Proof.
  intros Hnd Hin Hp Hn. unfold tenths_f, int_item. rewrite item_raw_dict by assumption.
  cbn [rbind]. pose proof (tenth_text p _ Hn Hp) as H.
  destruct (tenth _) as [x|e]; [|discriminate]. cbn in *. now injection H as ->.
Qed.

(** ** Lemmas: exceptions *)

(** The only exception a computation may raise. *)
Definition overflow_only {A} (r : res A) : Prop :=
  forall e, r = Raise e -> exists m, e = OverflowError m.

Lemma overflow_ok {A} (a : A) : overflow_only (Ok a).
Proof. intros e H. discriminate. Qed.

Lemma overflow_bind {A B} (r : res A) (f : A -> res B) :
  overflow_only r -> (forall a, overflow_only (f a)) -> overflow_only (rbind r f).
Proof. intros Hr Hf e. destruct r as [a|e']; simpl; [apply Hf|]. intros H. injection H as <-. now apply Hr. Qed.

Lemma overflow_item fields tokens k :
  NoDup fields -> existsb (String.eqb k) fields = true ->
  overflow_only (item (raw_dict fields tokens) k).
Proof. intros Hn Hi. rewrite item_raw_dict by assumption. apply overflow_ok. Qed.

Lemma overflow_float n : overflow_only (float_of_int n).
Proof.
  intros e. unfold float_of_int. destruct (float_of_Z n); try discriminate.
  intros H. injection H as <-. eauto.
Qed.

Lemma overflow_build l : Forall (fun kv => overflow_only (snd kv)) l -> overflow_only (build_dict l).
Proof.
  unfold build_dict. induction 1 as [|kv l H _ IH]; [apply overflow_ok|].
  cbn [rmapM]. apply overflow_bind; [apply overflow_bind; [exact H|intros; apply overflow_ok]|].
  intros a. apply overflow_bind; [exact IH|intros; apply overflow_ok].
Qed.

#[export] Hint Resolve overflow_ok overflow_bind overflow_item overflow_float : pi18.

Ltac overflow_tac := repeat first
  [ apply overflow_ok | apply overflow_float
  | apply overflow_item; [auto with pi18|reflexivity]
  | apply overflow_bind; [|intros] ].

Lemma overflow_int_item fields tokens k :
  NoDup fields -> existsb (String.eqb k) fields = true ->
  overflow_only (int_item (raw_dict fields tokens) k).
Proof. intros. unfold int_item. apply overflow_bind; [now apply overflow_item|]. intros; apply overflow_ok. Qed.

Lemma overflow_decode_gs tokens : overflow_only (decode_gs tokens).
Proof.
  unfold decode_gs, derived_current.
  repeat first [ apply overflow_int_item; [auto with pi18|reflexivity]
               | apply overflow_bind; [|intros] | progress overflow_tac
               | progress unfold tenth | match goal with |- context [is_zero ?v] => destruct (is_zero v) end ].
Qed.

Lemma overflow_decode_piri tokens : overflow_only (decode_piri tokens).
Proof.
  unfold decode_piri. overflow_tac.
Qed.

Lemma overflow_decode_di tokens : overflow_only (decode_di tokens).
Proof.
  unfold decode_di. apply overflow_build. apply Forall_map, Forall_forall.
  intros [[k sc] t] _. cbn [snd fst]. unfold di_value. destruct sc; overflow_tac.
Qed.

(** ** Lemmas: framing *)

Definition no_cr (b : bytes) : Prop := Forall (fun x => x <> CR) b.

(** The reply the inverter sends: header, payload, checksum, terminator. *)
Definition data_head (nnn payload : bytes) : bytes := (b_ "^D" ++ nnn ++ payload)%list.
Definition data_frame (nnn payload : bytes) : bytes :=
  (data_head nnn payload ++ crc16_xmodem_bytes (data_head nnn payload) ++ [CR])%list.

Lemma data_head_no_cr nnn payload : no_cr nnn -> no_cr payload -> no_cr (data_head nnn payload).
Proof.
  intros H1 H2. unfold data_head, no_cr. apply Forall_app. split; [repeat constructor; easy|].
  apply Forall_app. now split.
Qed.

(** What is left of a frame cut at its first carriage return. *)
Lemma strip_cut pre suf : no_cr pre -> (2 <= List.length pre)%nat ->
  strip_pi18_frame (pre ++ CR :: suf)%list
  = let p := bdroplast 2 pre in
    if bstartswith p (b_ "^D") && (5 <=? Z.of_nat (List.length p)) then skipn 5 p
    else if bstartswith p (b_ "(") then skipn 1 p else p.
Proof.
  intros H HL. unfold strip_pi18_frame. rewrite (bfind_app_skip CR pre suf H).
  destruct (pre ++ CR :: suf)%list as [|x l] eqn:E; [now destruct pre|]. rewrite <- E.
  rewrite firstn_app, Nat.sub_diag, firstn_all, app_nil_r.
  rewrite (proj2 (Z.leb_le 2 (Z.of_nat (List.length pre)))) by lia. reflexivity.
Qed.

Lemma strip_data_head nnn payload suf : List.length nnn = 3%nat ->
  (List.length suf = 2 \/ (List.length suf <= 2 <= List.length suf + List.length payload))%nat ->
  let p := bdroplast 2 (data_head nnn payload ++ suf)%list in
  (if bstartswith p (b_ "^D") && (5 <=? Z.of_nat (List.length p)) then skipn 5 p
   else if bstartswith p (b_ "(") then skipn 1 p else p)
  = firstn (List.length payload + List.length suf - 2) payload.
Proof.
  intros Hn Hs p.
  assert (p = b_ "^D" ++ nnn ++ firstn (List.length payload + List.length suf - 2) payload)%list as ->.
  { unfold p, bdroplast, data_head. rewrite !length_app, Hn. change (List.length (b_ "^D")) with 2%nat.
    replace (2 + (3 + List.length payload) + List.length suf - 2)%nat
      with (2 + (3 + (List.length payload + List.length suf - 2)))%nat by lia.
    rewrite <- !app_assoc. cbn [b_ chars list_ascii_of_string map app firstn Nat.add].
    do 2 f_equal. destruct nnn as [|x [|y [|z [|]]]]; try discriminate Hn.
    cbn [app firstn Nat.add]. do 3 f_equal.
    rewrite firstn_app. replace (List.length payload + List.length suf - 2 - List.length payload)%nat
      with 0%nat by lia. simpl. apply app_nil_r. }
  rewrite bstartswith_app. rewrite !length_app, Hn. change (List.length (b_ "^D")) with 2%nat.
  rewrite (proj2 (Z.leb_le 5 _)) by lia. cbn [andb].
  destruct nnn as [|x [|y [|z [|]]]]; try discriminate Hn. reflexivity.
Qed.

Lemma xmodem_bytes_two d : exists hi lo, crc16_xmodem_bytes d = [hi; lo].
Proof. unfold crc16_xmodem_bytes. eauto. Qed.

(** ** Properties *)

(** Stripping a reply frame returns its payload when no checksum
    byte is a carriage return; when one is, the frame is cut there and the last
    payload byte or the last two are lost, because PI18 does not escape the
    terminator in its checksum. *)
Theorem strip_pi18_frame_payload (nnn payload : bytes)
    (Hn : List.length nnn = 3%nat) (H1 : no_cr nnn) (H2 : no_cr payload) :
  exists hi lo, crc16_xmodem_bytes (data_head nnn payload) = [hi; lo]
  /\ (hi <> CR -> lo <> CR -> strip_pi18_frame (data_frame nnn payload) = payload)
  /\ (hi <> CR -> lo = CR -> (1 <= List.length payload)%nat ->
      strip_pi18_frame (data_frame nnn payload) = bdroplast 1 payload)
  /\ (hi = CR -> (2 <= List.length payload)%nat ->
      strip_pi18_frame (data_frame nnn payload) = bdroplast 2 payload).
Proof.
  destruct (xmodem_bytes_two (data_head nnn payload)) as (hi & lo & E).
  exists hi, lo. split; [exact E|]. unfold data_frame. rewrite E.
  pose proof (data_head_no_cr nnn payload H1 H2) as H.
  assert (HL : List.length (data_head nnn payload) = (5 + List.length payload)%nat)
    by (unfold data_head; rewrite !length_app, Hn; reflexivity).
  split; [|split].
  - intros Hh Hl. rewrite app_assoc, strip_cut; [|apply Forall_app; split; [exact H|now repeat constructor]
      |rewrite length_app; simpl; lia].
    cbv zeta. rewrite strip_data_head by (auto; simpl; lia). apply firstn_all2. simpl. lia.
  - intros Hh -> Hp. change ([hi; CR] ++ [CR])%list with ([hi] ++ CR :: [CR])%list.
    rewrite app_assoc, strip_cut; [|apply Forall_app; split; [exact H|now repeat constructor]
      |rewrite length_app; simpl; lia].
    cbv zeta. rewrite strip_data_head by (auto; simpl; lia).
    unfold bdroplast. f_equal. simpl. lia.
  - intros -> Hp. change ([CR; lo] ++ [CR])%list with (CR :: [lo; CR])%list.
    rewrite strip_cut; [|exact H|lia].
    pose proof (strip_data_head nnn payload [] Hn ltac:(simpl; lia)) as Hd.
    rewrite app_nil_r in Hd. etransitivity; [exact Hd|].
    unfold bdroplast. f_equal. simpl. lia.
Qed.

(** A total-energy reply of 158 kWh has a checksum that ends in a carriage
    return, and decodes as 15 kWh; 159 kWh decodes as itself. *)
Lemma strip_pi18_frame_payload_witness :
  strip_pi18_frame (data_frame (b_ "011") (b_ "00000158")) = b_ "0000015"
  /\ decode_pi18_response "ET" (data_frame (b_ "011") (b_ "00000158"))
     = Ok [("total_energy_kwh", VInt 15)]
  /\ decode_pi18_response "ET" (data_frame (b_ "011") (b_ "00000159"))
     = Ok [("total_energy_kwh", VInt 159)].
Proof.
  split; [|split; vm_compute; reflexivity].
  destruct (strip_pi18_frame_payload (b_ "011") (b_ "00000158") eq_refl) as (hi & lo & E & _ & H & _).
  - repeat (constructor; [easy|]); constructor.
  - repeat (constructor; [easy|]); constructor.
  - vm_compute in E. injection E as <- <-.
    exact (H ltac:(discriminate) eq_refl ltac:(repeat constructor)).
Defined.

(** A request frame is [^P], the three-digit decimal length of
    everything after it, the native command, its XMODEM checksum and the
    terminator; the length field reads back as the number of bytes that follow
    it and the frame passes the frame validator. *)
Theorem build_request_frame_shape (command : string) (frame : bytes)
    (Hb : build_request_frame command = Ok frame) (Hlen : len (native_of command) <= 996) :
  exists nnn rest, frame = (b_ "^P" ++ b_ nnn ++ rest)%list
  /\ String.length nnn = 3%nat
  /\ py_int nnn = Ok (Z.of_nat (List.length rest))
  /\ bstartswith rest (b_ (native_of command)) = true
  /\ exists head, frame = (head ++ [CR])%list
     /\ validate_pi18_response head = (true, (b_ "^P" ++ b_ nnn ++ b_ (native_of command))%list).
Proof.
  unfold build_request_frame, encode_ascii in Hb.
  destruct (forallb _ (chars (native_of command))); [|discriminate]. cbn [rbind] in Hb.
  set (body := native_of command) in *.
  assert (HLb : Z.of_nat (List.length (b_ body)) = len body)
    by (unfold b_, len; now rewrite length_map, chars_length).
  rewrite HLb in Hb. set (nnn := fmt_0d 3 (len body + 3)) in *.
  assert (0 <= len body) by (unfold len; lia).
  destruct (forallb _ _); [|discriminate]. cbn [rbind] in Hb.
  apply ok_inj in Hb as <-.
  assert (b_ ("^P" ++ nnn) = b_ "^P" ++ b_ nnn)%list as -> by (unfold b_; rewrite chars_app; apply map_app).
  set (head := ((b_ "^P" ++ b_ nnn) ++ b_ body)%list).
  destruct (xmodem_bytes_two head) as (hi & lo & E).
  exists nnn, (b_ body ++ crc16_xmodem_bytes head ++ [CR])%list. repeat split.
  - unfold head. rewrite <- !app_assoc. reflexivity.
  - apply fmt_0d_length; [|lia]. change (10 ^ Z.of_nat 3) with 1000. lia.
  - rewrite !length_app, E. cbn [List.length Nat.add]. rewrite Nat2Z.inj_add, HLb.
    apply py_int_fmt_0d; [discriminate|].
    apply Z.lt_trans with (10 ^ 3); [rewrite Z.abs_eq by lia; change (10 ^ 3) with 1000; lia|].
    apply Z.pow_lt_mono_r; [lia|discriminate|reflexivity].
  - apply bstartswith_app.
  - exists (head ++ crc16_xmodem_bytes head)%list. split; [now rewrite app_assoc|].
    unfold validate_pi18_response. rewrite E.
    assert ((List.length (head ++ [hi; lo])%list <? 3)%nat = false) as ->
      by (apply Nat.ltb_ge; rewrite length_app; unfold head; rewrite !length_app; simpl; lia).
    change 2%nat with (List.length [hi; lo]). rewrite bdroplast_app, blast_app, E.
    rewrite (proj2 (zlist_eqb_spec _ _)) by reflexivity. unfold head. now rewrite <- app_assoc.
Qed.

Lemma build_request_frame_shape_witness :
  exists nnn rest, build_request_frame "qpigs" = Ok (b_ "^P" ++ b_ nnn ++ rest)%list
  /\ py_int nnn = Ok (Z.of_nat (List.length rest)).
Proof.
  destruct (build_request_frame "qpigs") as [f|] eqn:E; [|discriminate E].
  destruct (build_request_frame_shape "qpigs" f E) as (nnn & rest & -> & _ & H & _);
    [vm_compute; discriminate|]. eauto.
Defined.

(** Decoding any reply to any command either returns a dict or
    raises [OverflowError]; it returns for every reply that is not a status,
    rating or default-parameter table. *)
Theorem decode_pi18_overflow_only (command : string) (raw : bytes) :
  (forall e, decode_pi18_response command raw = Raise e -> exists m, e = OverflowError m)
  /\ (~ In (native_of command) ["GS"; "PIRI"; "DI"] ->
      exists d, decode_pi18_response command raw = Ok d).
Proof.
  unfold decode_pi18_response.
  destruct (_ || _); [split; [discriminate|eauto]|].
  destruct (zlist_eqb _ _); [split; [discriminate|eauto]|].
  destruct (zlist_eqb _ _); [split; [discriminate|eauto]|].
  destruct (String.eqb _ ""); [split; [discriminate|eauto]|].
  unfold decode_payload. cbv zeta. set (tokens := map strip _). set (n := native_of command).
  repeat match goal with
  | |- context [if String.eqb n ?s then decode_gs _ else _] =>
      destruct (String.eqb_spec n s);
        [split; [apply overflow_decode_gs|intros Hn; elim Hn; subst; cbn; auto]|]
  | |- context [if String.eqb n ?s then decode_piri _ else _] =>
      destruct (String.eqb_spec n s);
        [split; [apply overflow_decode_piri|intros Hn; elim Hn; subst; cbn; auto]|]
  | |- context [if String.eqb n ?s then decode_di _ else _] =>
      destruct (String.eqb_spec n s);
        [split; [apply overflow_decode_di|intros Hn; elim Hn; subst; cbn; auto]|]
  | |- context [if ?b then Ok _ else _] => destruct b; [split; [discriminate|eauto]|]
  end.
  split; [discriminate|eauto].
Qed.

Lemma decode_pi18_overflow_only_witness :
  exists d, decode_pi18_response "QFWS" (b_ "^D034") = Ok d.
Proof.
  refine (proj2 (decode_pi18_overflow_only "QFWS" (b_ "^D034")) _).
  vm_compute. intuition discriminate.
Defined.

(** The scaled columns of a status reply: output key, input column, places. *)
Definition GS_TENTHS : list (string * string * nat) :=
  [ ("grid_voltage", "grid_voltage", 1%nat); ("grid_frequency", "grid_frequency", 1%nat);
    ("ac_output_voltage", "ac_output_voltage", 1%nat);
    ("ac_output_frequency", "ac_output_frequency", 1%nat);
    ("battery_voltage", "battery_voltage", 2%nat);
    ("scc_battery_voltage", "scc_battery_voltage", 2%nat);
    ("scc2_battery_voltage", "_battery_voltage_scc2", 2%nat);
    ("pv_input_voltage", "pv_input_voltage", 1%nat);
    ("pv2_input_voltage", "_pv2_input_voltage", 1%nat) ].

Definition GS_PADDED : list (string * string * nat) :=
  [ ("output_apparent_power", "output_apparent_power", 4%nat);
    ("output_active_power", "output_active_power", 4%nat);
    ("load_percent", "load_percent", 3%nat);
    ("battery_charging_current", "battery_charging_current", 3%nat);
    ("battery_capacity", "battery_capacity", 3%nat);
    ("battery_discharge_current", "battery_discharge_current", 5%nat);
    ("pv_charging_power", "pv_charging_power", 5%nat);
    ("pv2_input_power", "_pv2_input_power", 5%nat) ].

Lemma int_item_raw fields tokens k :
  NoDup fields -> existsb (String.eqb k) fields = true ->
  int_item (raw_dict fields tokens) k = Ok (safe_int (token_of fields tokens k) 0).
Proof. intros. unfold int_item. now rewrite item_raw_dict. Qed.

Lemma tenth_ok n : Z.abs n < 2 ^ 40 ->
  exists x, tenth n = Ok x /\ fmt_f 1 x = tenths_text 1 n.
Proof.
  intros Hn. pose proof (tenth_text 1 n Hn ltac:(lia)) as H.
  destruct (tenth n) as [x|]; [|discriminate]. exists x. split; [reflexivity|]. now apply ok_inj in H.
Qed.

Lemma derived_current_ok n x : Z.abs n < 2 ^ 40 -> exists y, derived_current n x = Ok y.
Proof.
  intros Hn. unfold derived_current. destruct (is_zero x); [eauto|].
  rewrite float_of_int_small by exact Hn. cbn. eauto.
Qed.

Lemma build_dict_map l : Forall (fun kv => is_ok (snd kv) = true) l ->
  exists d, build_dict l = Ok d
  /\ forall k r, In (k, r) l -> NoDup (map fst l) -> exists v, r = Ok v /\ dget k d = Some v.
Proof.
  induction 1 as [|[k0 r0] l H _ (d & E & IH)]; [exists []; split; [reflexivity|easy]|].
  destruct r0 as [v0|]; [|discriminate]. exists ((k0, v0) :: d). split.
  - unfold build_dict in *. cbn. now rewrite E.
  - intros k r [Hin|Hin] Hnd; inversion Hnd as [|? ? Hni Hnd']; subst.
    + injection Hin as <- <-. exists v0. split; [reflexivity|]. cbn. now rewrite String.eqb_refl.
    + destruct (IH k r Hin Hnd') as (v & -> & Hv). exists v. split; [reflexivity|].
      cbn. destruct (String.eqb_spec k k0) as [->|]; [|exact Hv].
      exfalso. apply Hni. now apply (in_map fst) in Hin.
Qed.

Lemma build_dict_keys l d : build_dict l = Ok d -> dkeys d = map fst l.
Proof.
  revert d. unfold build_dict. induction l as [|[k r] l IH]; intros d; cbn [rmapM map fst].
  - intros [= <-]. reflexivity.
  - intros H. apply rbind_ok_inv in H as (kv & Hkv & H). apply rbind_ok_inv in H as (d' & Hd' & H). injection H as <-.
    unfold rmap in Hkv. apply rbind_ok_inv in Hkv as (v & _ & Hv). injection Hv as <-. cbn. f_equal. now apply IH.
Qed.

(** Every token of the reply is a number the fixed-point rendering is exact on
    (a token that is not a number counts as zero). *)
Definition small_tokens (tokens : list string) : Prop :=
  Forall (fun t => Z.abs (safe_int t 0) < 2 ^ 40) tokens.

Lemma small_token fields tokens k : small_tokens tokens ->
  Z.abs (safe_int (token_of fields tokens k) 0) < 2 ^ 40.
Proof.
  intros H. unfold token_of. destruct (nth_in_or_default (index_of k fields) tokens "") as [Hin| ->].
  - unfold small_tokens in H. rewrite Forall_forall in H. now apply H.
  - reflexivity.
Qed.

Lemma int_f_ok fields tokens p k :
  NoDup fields -> existsb (String.eqb k) fields = true -> small_tokens tokens ->
  is_ok (int_f p (raw_dict fields tokens) k) = true.
Proof.
  intros Hn Hi Hs. unfold int_f. rewrite int_item_raw by assumption. cbn [rbind].
  now rewrite float_of_int_small by now apply small_token.
Qed.

Lemma tenths_f_ok fields tokens p k :
  NoDup fields -> existsb (String.eqb k) fields = true -> (1 <= p <= 2)%nat ->
  small_tokens tokens -> is_ok (tenths_f p (raw_dict fields tokens) k) = true.
Proof. intros. rewrite tenths_f_text; auto using small_token. Qed.

Lemma padded_d_text fields tokens w k :
  NoDup fields -> existsb (String.eqb k) fields = true ->
  padded_d w (raw_dict fields tokens) k
  = Ok (VStr (fmt_0d w (safe_int (token_of fields tokens k) 0))).
Proof. intros. unfold padded_d. now rewrite int_item_raw. Qed.

Lemma enum_field_ok {E} `{PyEnum E} fields tokens k d :
  NoDup fields -> existsb (String.eqb k) fields = true ->
  is_ok (enum_field (E := E) (raw_dict fields tokens) k d) = true.
Proof. intros. unfold enum_field. now rewrite item_raw_dict. Qed.

Ltac gs_entry_ok := first
  [ reflexivity
  | apply tenths_f_ok; [apply gs_fields_nodup|reflexivity|lia|assumption]
  | apply int_f_ok; [apply gs_fields_nodup|reflexivity|assumption]
  | rewrite padded_d_text by (apply gs_fields_nodup || reflexivity); reflexivity
  | apply enum_field_ok; [apply gs_fields_nodup|reflexivity] ].

(** The section of a status reply, with the keys it does not have. *)
Lemma gs_section (tokens : list string) : small_tokens tokens ->
  exists d, decode_gs tokens = Ok d
  /\ dmem "error" d = false /\ dmem "status" d = false
  /\ (forall k c p, In (k, c, p) GS_TENTHS ->
      dget k d = Some (VStr (tenths_text p (safe_int (token_of GS_FIELDS tokens c) 0))))
  /\ (forall k c w, In (k, c, w) GS_PADDED ->
      dget k d = Some (VStr (fmt_0d w (safe_int (token_of GS_FIELDS tokens c) 0)))).
Proof.
  intros Hs. unfold decode_gs. cbv zeta. rewrite !int_item_raw by (apply gs_fields_nodup || reflexivity).
  cbn [rbind].
  destruct (tenth_ok _ (small_token GS_FIELDS tokens "pv_input_voltage" Hs)) as (x & -> & Ex).
  destruct (tenth_ok _ (small_token GS_FIELDS tokens "_pv2_input_voltage" Hs)) as (x2 & -> & Ex2).
  cbn [rbind].
  destruct (derived_current_ok _ x (small_token GS_FIELDS tokens "pv_charging_power" Hs)) as [y ->].
  destruct (derived_current_ok _ x2 (small_token GS_FIELDS tokens "_pv2_input_power" Hs)) as [y2 ->].
  cbn [rbind]. rewrite Ex, Ex2.
  match goal with |- context [build_dict ?l] =>
    destruct (build_dict_map l) as (d & Ed & Hd); [|
      rewrite Ed; apply build_dict_keys in Ed; assert (NoDup (map fst l)) as Hnd by (cbn [map fst]; nodup_strings);
      assert (Hget : forall k r v, In (k, r) l -> r = Ok v -> dget k d = Some v);
      [intros k r v Hin Hr; destruct (Hd k r Hin Hnd) as (v' & Hv' & Hg); congruence|]] end.
  - repeat (apply Forall_cons; [cbn [snd]; gs_entry_ok|]). constructor.
  - clear Hd Hnd. exists d. split; [reflexivity|].
    assert (forall key, ~ In key (dkeys d) -> dmem key d = false) as Hno
      by (intros key Hkey; unfold dmem; now rewrite (proj2 (dget_none_keys key d) Hkey)).
    split; [apply Hno; rewrite Ed; cbn; intuition discriminate|].
    split; [apply Hno; rewrite Ed; cbn; intuition discriminate|]. clear Ed Hno.
    split; intros k c p Hin; cbn in Hin;
      repeat (destruct Hin as [Hin|Hin];
        [injection Hin as <- <- <-;
         (eapply Hget; [cbn [In]; tauto|]);
         first [reflexivity|rewrite tenths_f_text; auto using gs_fields_nodup, small_token with arith
               |apply padded_d_text; auto using gs_fields_nodup]|]); destruct Hin.
Qed.

(** A status reply of any length, with tokens in the range of the
    protocol, decodes without an exception; every voltage and frequency is the
    exact decimal of its token in tenths, every power, percentage and current is
    its token zero-padded to the documented width. *)
Theorem decode_gs_rendered (tokens : list string) (Hs : small_tokens tokens) :
  exists d, decode_gs tokens = Ok d
  /\ (forall k c p, In (k, c, p) GS_TENTHS ->
      dget k d = Some (VStr (tenths_text p (safe_int (token_of GS_FIELDS tokens c) 0))))
  /\ (forall k c w, In (k, c, w) GS_PADDED ->
      dget k d = Some (VStr (fmt_0d w (safe_int (token_of GS_FIELDS tokens c) 0)))).
Proof.
  destruct (gs_section tokens Hs) as (d & E & _ & _ & Ht & Hp). now exists d.
Qed.

Lemma decode_gs_rendered_witness :
  exists d, decode_gs ["2300"; "499"; "2301"; "bad"; "0512"; "478"; "9"; "267"; "-3"] = Ok d
  /\ dget "grid_voltage" d = Some (VStr "230.0") /\ dget "battery_voltage" d = Some (VStr "26.70")
  /\ dget "scc_battery_voltage" d = Some (VStr "-0.30")
  /\ dget "output_active_power" d = Some (VStr "0478") /\ dget "pv_charging_power" d = Some (VStr "00000").
Proof.
  destruct (decode_gs_rendered ["2300"; "499"; "2301"; "bad"; "0512"; "478"; "9"; "267"; "-3"])
    as (d & E & Ht & Hp).
  - repeat (apply Forall_cons; [vm_compute; reflexivity|]). apply Forall_nil.
  - exists d. split; [exact E|].
    split; [exact (Ht _ _ _ (or_introl eq_refl))|].
    split; [exact (Ht "battery_voltage" "battery_voltage" 2%nat ltac:(cbn; tauto))|].
    split; [exact (Ht "scc_battery_voltage" "scc_battery_voltage" 2%nat ltac:(cbn; tauto))|].
    split; [exact (Hp "output_active_power" "output_active_power" 4%nat ltac:(cbn; tauto))|].
    exact (Hp "pv_charging_power" "pv_charging_power" 5%nat ltac:(cbn; tauto)).
Defined.

(** ** Fault and warning status *)

Lemma fold_dset_map {A} (f : A -> pyval) (l : list (string * A)) (d : pydict) :
  fold_left (fun d kv => dset (fst kv) (f (snd kv)) d) l d
  = fold_left (fun d kv => dset (fst kv) (snd kv) d) (map (fun kv => (fst kv, f (snd kv))) l) d.
Proof. revert d. induction l as [|kv l IH]; intros d; [reflexivity|]. cbn. apply IH. Qed.

Lemma map_zip_flags (ks : list string) ts :
  map (fun kv => (fst kv, flag_of (snd kv))) (zip ks ts) = zip ks (map flag_of ts).
Proof.
  unfold zip. revert ts. induction ks as [|k ks IH]; intros [|t ts]; [reflexivity..|].
  cbn. now rewrite IH.
Qed.

Lemma padded_length n tokens : (n <= List.length (padded n tokens))%nat.
Proof. unfold padded. rewrite length_app, repeat_length. lia. Qed.

Lemma zip_keys {B} (ks : list string) (vs : list B) :
  (List.length ks <= List.length vs)%nat -> map fst (zip ks vs) = ks.
Proof.
  unfold zip. revert vs. induction ks as [|k ks IH]; intros [|v vs] H; simpl in *; try easy; try lia.
  now rewrite IH by lia.
Qed.

Lemma decode_fws_app t0 rest :
  decode_fws (t0 :: rest)
  = ([("fault_code", VInt (safe_int t0 0));
      ("fault_description",
       VStr (get_or (PI18_FAULT_CODES (safe_int t0 0))
               ("Unknown (" ++ str_of_int (safe_int t0 0) ++ ")")%string));
      ("has_fault", VBool (negb (safe_int t0 0 =? 0)))]
     ++ zip FWS_WARNING_FIELDS (map flag_of (padded (List.length FWS_WARNING_FIELDS) rest)))%list.
Proof.
  unfold decode_fws. rewrite fold_dset_map, map_zip_flags. apply dict_of_app_nodup.
  rewrite zip_keys by (rewrite length_map; apply padded_length).
  cbn [dkeys map fst app]. nodup_strings.
Qed.

(** A fault/warning reply always yields the complete set of flags,
    [has_fault] is set exactly when the fault code is not zero, and the [i]-th
    warning is set exactly when its token is a non-zero number; a missing or
    unreadable token clears it. *)
Theorem decode_fws_flags (t0 : string) (rest : list string) :
  let d := decode_fws (t0 :: rest) in
  dkeys d = (["fault_code"; "fault_description"; "has_fault"] ++ FWS_WARNING_FIELDS)%list
  /\ dget "has_fault" d = Some (VBool (negb (safe_int t0 0 =? 0)))
  /\ dget "fault_code" d = Some (VInt (safe_int t0 0))
  /\ forall i k, nth_error FWS_WARNING_FIELDS i = Some k ->
     dget k d = Some (VBool (negb (safe_int (nth i rest "") 0 =? 0))).
Proof.
  cbv zeta. rewrite decode_fws_app. split; [|split; [reflexivity|split; [reflexivity|]]].
  - unfold dkeys. rewrite map_app, zip_keys by (rewrite length_map; apply padded_length).
    reflexivity.
  - intros i k Hk.
    assert (NoDup FWS_WARNING_FIELDS) as Hnd by nodup_strings.
    cbn [app dget].
    destruct (String.eqb_spec k "fault_code") as [->|_];
      [apply nth_error_In in Hk; cbn in Hk; intuition discriminate|].
    destruct (String.eqb_spec k "fault_description") as [->|_];
      [apply nth_error_In in Hk; cbn in Hk; intuition discriminate|].
    destruct (String.eqb_spec k "has_fault") as [->|_];
      [apply nth_error_In in Hk; cbn in Hk; intuition discriminate|].
    rewrite (dget_zip _ _ i k Hnd Hk), nth_error_map, nth_error_padded; [reflexivity|].
    apply nth_error_Some. congruence.
Qed.

Lemma decode_fws_flags_witness :
  dget "warn_overload" (decode_fws ["00"; "0"; "0"; "0"; "0"; "0"; "0"; "0"; "1"]) = Some (VBool true).
Proof.
  exact (proj2 (proj2 (proj2 (decode_fws_flags "00" ["0"; "0"; "0"; "0"; "0"; "0"; "0"; "1"])))
    7%nat "warn_overload" eq_refl).
Defined.
