(* ===== verification/ModbusRtu.v ===== *)
(** Modbus RTU transport and the SMG-II register map:
    [api/protocols/modbus_rtu.py].

    Frames are byte lists; a transport is an instance of [RegisterTransport],
    the interface the snapshot reader and the adapter are written against. *)

From Stdlib Require Import ZArith List Bool Lia String Ascii Floats.SpecFloat.
From S2P Require Import Prelude PyStr PyInt PyFloat FloatFacts PyDict Crc Enums Pi18.
Import ListNotations.
#[local] Open Scope string_scope.
#[local] Open Scope Z_scope.

Definition UNIT_ID : Z := 1.

(** [_i16] *)
Definition i16 (v : Z) : Z := if 32768 <=? v then v - 65536 else v.

Definition hi_byte_of (v : Z) : Z := Z.land (Z.shiftr v 8) 0xFF.
Definition lo_byte_of (v : Z) : Z := Z.land v 0xFF.

(** [(hi << 8) | lo] *)
Definition word_of (hi lo : Z) : Z := Z.lor (Z.shiftl hi 8) lo.

(** ** Frames *)

(** The request with its checksum, low byte first. *)
Definition with_crc (req : bytes) : bytes :=
  let crc := crc16_modbus req in
  (req ++ [lo_byte_of crc; hi_byte_of crc])%list.

Definition build_read_holding_frame (start count unit_id : Z) : bytes :=
  with_crc [lo_byte_of unit_id; 3; hi_byte_of start; lo_byte_of start;
            hi_byte_of count; lo_byte_of count].

(** [b[i]] *)
Definition byte_at (b : list Z) (i : nat) : res Z :=
  match nth_error b i with
  | Some x => Ok x
  | None => Raise (IndexError "index out of range")
  end.

(** [for i in range(0, 2 * n, 2)]: the register words of [data]. *)
Fixpoint words_from (data : bytes) (i n : nat) : res (list Z) :=
  match n with
  | O => Ok []
  | S n' =>
      (let! hi := byte_at data i in
       let! lo := byte_at data (i + 1) in
       let! rest := words_from data (i + 2) n' in
       Ok (word_of hi lo :: rest))%py
  end.

(** The number of iterations of [range(0, min(byte_count, count * 2), 2)]. *)
Definition word_count (byte_count count : Z) : nat :=
  Z.to_nat ((Z.min byte_count (count * 2) + 1) / 2).

Definition parse_read_holding_response (resp : bytes) (count unit_id : Z) : res (list Z) :=
  match resp with
  | uid :: func :: byte_count :: _ :: _ :: _ =>
      if negb (uid =? unit_id)
      then Raise (ValueError ("unexpected unit id " ++ str_of_int uid))
      else if negb (Z.land func 0x80 =? 0)
      then Raise (ValueError ("modbus exception " ++ str_of_int byte_count))
      else
        let n := Z.to_nat byte_count in
        let stop := (3 + n)%nat in
        if (List.length resp <? stop + 2)%nat then Raise (ValueError "short modbus data")
        else
          let data := firstn n (skipn 3 resp) in
          (let! lo := byte_at resp stop in
           let! hi := byte_at resp (stop + 1) in
           let recv_crc := Z.lor lo (Z.shiftl hi 8) in
           if negb (recv_crc =? crc16_modbus (firstn stop resp))
           then Raise (ValueError "modbus CRC mismatch")
           else words_from data 0 (word_count byte_count count))%py
  | _ => Raise (ValueError "short modbus read response")
  end.

Definition build_write_single_frame (address value unit_id func_code : Z) : res bytes :=
  let req := [lo_byte_of unit_id; lo_byte_of func_code; hi_byte_of address; lo_byte_of address] in
  if func_code =? 0x06
  then Ok (with_crc (req ++ [hi_byte_of value; lo_byte_of value])%list)
  else if func_code =? 0x10
  then Ok (with_crc (req ++ [0x00; 0x01; 0x02; hi_byte_of value; lo_byte_of value])%list)
  else Raise (ValueError ("unsupported func_code " ++ str_of_int func_code)).

Definition error_dict (msg : string) : pydict := [("error", VStr msg)].

Definition parse_write_response (resp : bytes) (unit_id : Z) : pydict :=
  match resp with
  | uid :: func :: code :: _ :: _ =>
      if negb (Z.land func 0x80 =? 0)
      then error_dict ("modbus exception " ++ str_of_int code)
      else if negb (uid =? unit_id)
      then error_dict ("unexpected unit id " ++ str_of_int uid)
      else if (8 <=? List.length resp)%nat
              && negb (Z.lor (nth 6 resp 0) (Z.shiftl (nth 7 resp 0) 8)
                       =? crc16_modbus (firstn 6 resp))
      then error_dict "modbus write CRC mismatch"
      else [("status", VStr "OK"); ("func", VInt func)]
  | _ => error_dict "short modbus write response"
  end.

(** ** The TCP path

    [peer] is the other end of a fresh connection: given the request it either
    fails to connect or produces the byte stream the reader then sees, up to
    its end. *)

Definition tcp_peer (S : Type) := bytes -> S -> res bytes * S.

(** [await reader.readexactly(n)] *)
Definition readexactly (n : nat) (stream : bytes) : res (bytes * bytes) :=
  if (List.length stream <? n)%nat then Raise (GenericException "incomplete read")
  else Ok (firstn n stream, skipn n stream).

(** The reply parser of [read_modbus_block]. *)
Definition receive_block (stream : bytes) (count unit_id : Z) : res (list Z) :=
  (let! (header2, stream) := readexactly 2 stream in
   let uid := nth 0 header2 0 in
   let func := nth 1 header2 0 in
   if negb (uid =? unit_id)
   then Raise (GenericException ("Unexpected unit id: " ++ str_of_int uid))
   else if negb (Z.land func 0x80 =? 0)
   then
     (let! (exc_and_crc, _) := readexactly 3 stream in
      Raise (GenericException ("Modbus exception " ++ str_of_int (nth 0 exc_and_crc 0))))
   else
     let! (bc_bytes, stream) := readexactly 1 stream in
     let byte_count := nth 0 bc_bytes 0 in
     let! (data_plus_crc, _) := readexactly (Z.to_nat byte_count + 2) stream in
     let data := bdroplast 2 data_plus_crc in
     let crc_lo := nth 0 (blast 2 data_plus_crc) 0 in
     let crc_hi := nth 1 (blast 2 data_plus_crc) 0 in
     let recv_crc := Z.lor crc_lo (Z.shiftl crc_hi 8) in
     let calc_crc := crc16_modbus (header2 ++ bc_bytes ++ data)%list in
     if negb (recv_crc =? calc_crc) then Raise (GenericException "Modbus CRC mismatch")
     else if negb (byte_count mod 2 =? 0)
     then Raise (GenericException "Modbus byte_count not even")
     else words_from data 0 (word_count byte_count count))%py.

Definition read_modbus_block {S} (peer : tcp_peer S) (start count unit_id : Z) (s : S)
    : res (list Z) * S :=
  let '(stream, s) := peer (build_read_holding_frame start count unit_id) s in
  (rbind stream (fun stream => receive_block stream count unit_id), s).

(** [str(e)] *)
Definition exn_str (e : exn) : string :=
  match e with
  | ValueError m | TypeError m | KeyError m | IndexError m | OverflowError m
  | StructError m | ConnectionError m | OSError m | GenericException m => m
  | ZeroDivisionError => "float division by zero"
  | UnicodeEncodeError => "codec can't encode character"
  | TimeoutError => ""
  end.

(** [_send] *)
Definition receive_write (stream : bytes) (unit_id func_code : Z) : res pydict :=
  (let! (resp, _) := readexactly 8 stream in
   let body := bdroplast 2 resp in
   let recv_crc := Z.lor (nth 6 resp 0) (Z.shiftl (nth 7 resp 0) 8) in
   if negb (recv_crc =? crc16_modbus body) then Raise (GenericException "Modbus write CRC mismatch")
   else if negb (nth 0 body 0 =? unit_id)
   then Raise (GenericException
                 ("Unexpected unit id in write response: " ++ str_of_int (nth 0 body 0)))
   else if negb (Z.land (nth 1 body 0) 0x80 =? 0)
   then Raise (GenericException ("Modbus exception in write: " ++ str_of_int (nth 2 body 0)))
   else Ok [("status", VStr "OK"); ("func", VInt func_code)])%py.

Definition send_write {S} (peer : tcp_peer S) (address value unit_id func_code : Z) (s : S)
    : res pydict * S :=
  match build_write_single_frame address value unit_id func_code with
  | Raise e => (Raise e, s)
  | Ok req =>
      let '(stream, s) := peer req s in
      (rbind stream (fun stream => receive_write stream unit_id func_code), s)
  end.

Definition write_modbus_single_register {S} (peer : tcp_peer S)
    (address value unit_id : Z) (s : S) : pydict * S :=
  match send_write peer address value unit_id 0x06 s with
  | (Ok d, s) => (d, s)
  | (Raise e1, s) =>
      match send_write peer address value unit_id 0x10 s with
      | (Ok d, s) => (d, s)
      | (Raise e2, s) =>
          (error_dict ("modbus write failed (0x06: " ++ exn_str e1 ++ ", 0x10: "
                       ++ exn_str e2 ++ ")"), s)
      end
  end.

(** ** The transport interface

    What the snapshot reader and the adapter rely on: a block read that
    succeeds returns at most [count] 16-bit words, and a write answers with a
    dict. [S] is the state of the world behind the transport. *)

Definition is_word (v : Z) : Prop := 0 <= v < 65536.

Class RegisterTransport (S : Type) := {
  read_block : Z -> Z -> S -> res (list Z) * S;
  write_register : Z -> Z -> S -> res pydict * S;
  read_block_words : forall start count s regs s', 0 <= count ->
    read_block start count s = (Ok regs, s') ->
    Forall is_word regs /\ Z.of_nat (List.length regs) <= count
}.

(** ** The SMG-II snapshot *)

Definition OPERATION_MODES (n : Z) : pyval :=
  match n with
  | 0 => VStr "Power On"
  | 1 => VStr "Standby"
  | 2 => VStr "Mains"
  | 3 => VStr "Off-Grid"
  | 4 => VStr "Bypass"
  | 5 => VStr "Charging"
  | 6 => VStr "Fault"
  | _ => VNone
  end.

(** [n / 10.0] and [n / 100.0] of a register *)
Definition over (d : Z) (n : Z) : pyval := VFloat (fdiv_nz (float_of_Z n) (float_of_Z d)).

Section Registers.
Context (R : Z -> res Z).
Definition word_reg (a : Z) : res pyval := rmap VInt (R a).
Definition signed_reg (a : Z) : res pyval := rmap (fun v => VInt (i16 v)) (R a).
Definition tenths (a : Z) : res pyval := rmap (over 10) (R a).
Definition hundredths (a : Z) : res pyval := rmap (over 100) (R a).
Definition signed_tenths (a : Z) : res pyval := rmap (fun v => over 10 (i16 v)) (R a).
Definition mode_reg (a : Z) : res pyval := rmap OPERATION_MODES (R a).
End Registers.

(** Eight upper-case hex digits. *)
Definition hex8 (n : Z) : string :=
  str (map (fun i => let d := Z.land (Z.shiftr n (4 * i)) 15 in
                     if d <? 10 then chr (48 + d) else chr (55 + d))
         [7; 6; 5; 4; 3; 2; 1; 0]).

Definition dword (hi lo : Z) : Z := Z.lor (Z.shiftl hi 16) lo.

Definition smg2_faults (block_100 : list Z) : pydict :=
  if (List.length block_100 <? 10)%nat then []
  else
    let fault_code := dword (nth 0 block_100 0) (nth 1 block_100 0) in
    let warning_code := dword (nth 8 block_100 0) (nth 9 block_100 0) in
    [ ("fault_code", VInt fault_code);
      ("warning_code", VInt warning_code);
      ("has_fault", VBool (negb (fault_code =? 0)));
      ("has_warning", VBool (negb (warning_code =? 0)));
      ("fault_description",
       if fault_code =? 0 then VNone else VStr ("SMG-II fault 0x" ++ hex8 fault_code)) ].

Definition smg2_sensors (block_200 : list Z) : res pydict :=
  let R200 addr := byte_at block_200 (Z.to_nat (addr - 201)) in
  build_dict
     [ ("operation_mode", mode_reg R200 201);
       ("mains_voltage", tenths R200 202);
       ("mains_frequency", hundredths R200 203);
       ("mains_power", signed_reg R200 204);
       ("inverter_voltage", tenths R200 205);
       ("inverter_current", signed_tenths R200 206);
       ("inverter_frequency", hundredths R200 207);
       ("inverter_power", signed_reg R200 208);
       ("inverter_charge_power", signed_reg R200 209);
       ("output_voltage", tenths R200 210);
       ("output_current", signed_tenths R200 211);
       ("output_frequency", hundredths R200 212);
       ("output_active_power", signed_reg R200 213);
       ("battery_voltage", tenths R200 215);
       ("battery_current", signed_tenths R200 216);
       ("battery_power", signed_reg R200 217);
       ("pv_voltage", tenths R200 219);
       ("pv_current", tenths R200 220);
       ("pv_power", signed_reg R200 223);
       ("pv_charge_power", signed_reg R200 224);
       ("load_percent", word_reg R200 225);
       ("temp_dcdc", word_reg R200 226);
       ("temp_inverter", word_reg R200 227) ].

Definition smg2_config (block_300 : list Z) : res pydict :=
  let R300 addr := byte_at block_300 (Z.to_nat (addr - 300)) in
  build_dict
     [ ("output_mode", word_reg R300 300);
       ("output_priority", word_reg R300 301);
       ("input_voltage_range", word_reg R300 302);
       ("buzzer_mode", word_reg R300 303);
       ("lcd_backlight", word_reg R300 305);
       ("lcd_auto_return", word_reg R300 306);
       ("energy_saving_mode", word_reg R300 307);
       ("overload_auto_restart", word_reg R300 308);
       ("overtemp_auto_restart", word_reg R300 309);
       ("overload_transfer_to_bypass", word_reg R300 310);
       ("battery_eq_enabled", word_reg R300 313);
       ("output_voltage_setting", tenths R300 320);
       ("output_freq_setting", hundredths R300 321);
       ("battery_ovp", tenths R300 323);
       ("max_charge_voltage", tenths R300 324);
       ("float_charge_voltage", tenths R300 325);
       ("battery_discharge_recovery_mains", tenths R300 326);
       ("battery_low_protection_mains", tenths R300 327);
       ("battery_low_protection_offgrid", tenths R300 329);
       ("battery_charging_priority", word_reg R300 331);
       ("max_charging_current", tenths R300 332);
       ("max_mains_charging_current", tenths R300 333);
       ("eq_charging_voltage", tenths R300 334);
       ("eq_time_minutes", word_reg R300 335);
       ("eq_timeout", word_reg R300 336);
       ("eq_interval_days", word_reg R300 337) ].

Definition snapshot := (pydict * pydict * pydict)%type.

Definition read_smg2_snapshot_via {S} `{RegisterTransport S} (s : S) : res snapshot * S :=
  let '(b100, s) := read_block 100 16 s in
  let faults := match b100 with
                | Ok block_100 => smg2_faults block_100
                | Raise _ => []
                end in
  let '(b200, s) := read_block 201 31 s in
  match rbind b200 smg2_sensors with
  | Raise e => (Raise e, s)
  | Ok sensors =>
      let '(b300, s) := read_block 300 38 s in
      (rmap (fun config => (sensors, config, faults)) (rbind b300 smg2_config), s)
  end.

(** ** Projections *)

Definition val_item (d : pydict) (k : string) : res pyval :=
  match dget k d with
  | Some v => Ok v
  | None => Raise (KeyError k)
  end.

Definition format_error : exn := ValueError "unknown format code for object".

(** The format [.<p>f] of a number. *)
Definition fmt_val (p : nat) (v : pyval) : res pyval :=
  match v with
  | VFloat x => Ok (VStr (fmt_f p x))
  | VInt n => (let! x := float_of_int n in Ok (VStr (fmt_f p x)))%py
  | VNone => Raise (TypeError "unsupported format string passed to NoneType.__format__")
  | _ => Raise format_error
  end.

Definition int_val (v : pyval) : res Z :=
  match v with
  | VInt n => Ok n
  | _ => Raise format_error
  end.

Definition fmt_item (p : nat) (d : pydict) (k : string) : res pyval :=
  rbind (val_item d k) (fmt_val p).
Definition abs_item (w : nat) (d : pydict) (k : string) : res pyval :=
  rmap (fun n => VStr (fmt_0d w (Z.abs n))) (rbind (val_item d k) int_val).
Definition int_fmt_item (w : nat) (d : pydict) (k : string) : res pyval :=
  rmap (fun n => VStr (fmt_0d w n)) (rbind (val_item d k) int_val).
Definition trunc_item (w : nat) (d : pydict) (k : string) : res pyval :=
  rmap (fun n => VStr (fmt_0d w n)) (rbind (val_item d k) int_of_val).

(** [-v] of a number *)
Definition neg_val (v : pyval) : pyval :=
  match v with
  | VFloat x => VFloat (fneg x)
  | VInt n => VInt (- n)
  | _ => v
  end.

Definition smg2_to_qpigs (s : pydict) : res pydict :=
  let bus_voltage := 400 in
  (let! current := val_item s "battery_current" in
   let! charging := int_of_val current in
   let battery_charging_current := Z.max 0 charging in
   let! discharging := int_of_val (neg_val current) in
   let battery_discharge_current := Z.max 0 discharging in
   build_dict
     [ ("grid_voltage", fmt_item 1 s "mains_voltage");
       ("grid_frequency", fmt_item 1 s "mains_frequency");
       ("ac_output_voltage", fmt_item 1 s "output_voltage");
       ("ac_output_frequency", fmt_item 2 s "output_frequency");
       ("output_apparent_power", abs_item 4 s "output_active_power");
       ("output_active_power", abs_item 4 s "output_active_power");
       ("load_percent", int_fmt_item 3 s "load_percent");
       ("bus_voltage", Ok (VStr (str_of_int bus_voltage)));
       ("battery_voltage", fmt_item 2 s "battery_voltage");
       ("battery_charging_current", Ok (VStr (fmt_0d 3 battery_charging_current)));
       ("battery_capacity", Ok (VStr "100"));
       ("inverter_heat_sink_temperature", fmt_item 1 s "temp_inverter");
       ("inverter_dcdc_module_temperature", fmt_item 1 s "temp_dcdc");
       ("pv_input_current", fmt_item 1 s "pv_current");
       ("pv_input_voltage", fmt_item 1 s "pv_voltage");
       ("scc_battery_voltage", fmt_item 2 s "battery_voltage");
       ("battery_discharge_current", Ok (VStr (fmt_0d 5 battery_discharge_current)));
       ("device_status_bits_b7_b0", Ok (VStr "00010000"));
       ("battery_voltage_offset", Ok (VStr "00"));
       ("eeprom_version", Ok (VStr "00"));
       ("pv_charging_power", trunc_item 5 s "pv_power");
       ("device_status_bits_b10_b8", Ok (VStr "010"));
       ("grid_ac_in_power", abs_item 5 s "mains_power") ])%py.

Definition OUTPUT_PRIORITY_MAP (v : pyval) : option string :=
  match v with
  | VInt 0 => Some (enum_name OutputSourcePriority_UtilityFirst)
  | VInt 1 => Some (enum_name OutputSourcePriority_SolarFirst)
  | VInt 2 => Some (enum_name OutputSourcePriority_SBU)
  | _ => None
  end.

Definition CHARGER_PRIORITY_MAP (v : pyval) : option string :=
  match v with
  | VInt 0 => Some (enum_name ChargerSourcePriority_UtilityFirst)
  | VInt 1 => Some (enum_name ChargerSourcePriority_SolarFirst)
  | VInt 2 => Some (enum_name ChargerSourcePriority_SolarAndUtility)
  | VInt 3 => Some (enum_name ChargerSourcePriority_OnlySolar)
  | _ => None
  end.

Definition is_VInt (v : pyval) (n : Z) : bool :=
  match v with VInt m => m =? n | _ => false end.

Definition smg2_to_qpiri (c : pydict) : res pydict :=
  (let! range := val_item c "input_voltage_range" in
   let ac_range_name := if is_VInt range 1 then enum_name ACInputVoltageRange_UPS
                        else enum_name ACInputVoltageRange_Appliance in
   let! output_priority := val_item c "output_priority" in
   let! charging_priority := val_item c "battery_charging_priority" in
   build_dict
     [ ("rated_grid_voltage", Ok (VStr "230.0"));
       ("rated_input_current", Ok (VStr "15.2"));
       ("rated_ac_output_voltage", Ok (VStr "230.0"));
       ("rated_output_frequency", Ok (VStr "50.0"));
       ("rated_output_current", Ok (VStr "15.2"));
       ("rated_output_apparent_power", Ok (VStr "4000"));
       ("rated_output_active_power", Ok (VStr "4000"));
       ("rated_battery_voltage", Ok (VStr "24.0"));
       ("low_battery_to_ac_bypass_voltage", fmt_item 1 c "battery_low_protection_mains");
       ("shut_down_battery_voltage", fmt_item 1 c "battery_low_protection_offgrid");
       ("bulk_charging_voltage", fmt_item 1 c "max_charge_voltage");
       ("float_charging_voltage", fmt_item 1 c "float_charge_voltage");
       ("battery_type", Ok (VStr "UserDefined"));
       ("max_utility_charging_current", trunc_item 2 c "max_mains_charging_current");
       ("max_charging_current", trunc_item 3 c "max_charging_current");
       ("ac_input_voltage_range", Ok (VStr ac_range_name));
       ("output_source_priority", Ok (VStr (get_or (OUTPUT_PRIORITY_MAP output_priority) (enum_name OutputSourcePriority_UtilityFirst))));
       ("charger_source_priority", Ok (VStr (get_or (CHARGER_PRIORITY_MAP charging_priority) (enum_name ChargerSourcePriority_UtilityFirst))));
       ("parallel_max_number", Ok (VStr "6"));
       ("reserved_uu", Ok (VStr "01"));
       ("reserved_v", Ok (VStr "0"));
       ("parallel_mode", Ok (VStr "Master"));
       ("high_battery_voltage_to_battery_mode", fmt_item 1 c "battery_discharge_recovery_mains");
       ("solar_work_condition_in_parallel", Ok (VStr "0"));
       ("solar_max_charging_power_auto_adjust", Ok (VStr "1_"));
       ("rated_battery_capacity", Ok (VStr "200"));
       ("reserved_b", Ok (VStr "0"));
       ("reserved_ccc", Ok (VStr "0")) ])%py.

(** ** Lemmas: words and bytes *)

Lemma byte_of_land v : byte_ok (Z.land v 0xFF).
Proof. unfold byte_ok. change 0xFF with (Z.ones 8). rewrite Z.land_ones by lia. apply Z.mod_pos_bound. lia. Qed.

Lemma lo_byte_ok v : byte_ok (lo_byte_of v). Proof. apply byte_of_land. Qed.
Lemma hi_byte_ok v : byte_ok (hi_byte_of v). Proof. apply byte_of_land. Qed.

Create HintDb modbus.
#[export] Hint Resolve lo_byte_ok hi_byte_ok : modbus.

Lemma word_of_arith hi lo : byte_ok lo -> word_of hi lo = hi * 256 + lo.
Proof. intros H. apply (lor_shiftl_add hi lo 8); [lia|exact H]. Qed.

Lemma lo_byte_mod v : lo_byte_of v = v mod 256.
Proof. apply (Z.land_ones v 8). lia. Qed.

Lemma hi_byte_div v : hi_byte_of v = (v / 256) mod 256.
Proof.
  unfold hi_byte_of. rewrite Z.shiftr_div_pow2 by lia. apply (Z.land_ones _ 8). lia.
Qed.

(** The two bytes a frame carries for a value are its low 16 bits. *)
Lemma word_of_bytes v : word_of (hi_byte_of v) (lo_byte_of v) = v mod 65536.
Proof.
  rewrite word_of_arith by apply lo_byte_ok. rewrite lo_byte_mod, hi_byte_div.
  change 65536 with (256 * 256). rewrite Z.rem_mul_r by lia. lia.
Qed.

Lemma word_of_word hi lo : byte_ok hi -> byte_ok lo -> is_word (word_of hi lo).
Proof. intros H1 H2. rewrite word_of_arith by exact H2. unfold byte_ok, is_word in *. lia. Qed.

Lemma crc16_modbus_word data : is_word (crc16_modbus data).
Proof.
  exact (word_land _).
Qed.

Lemma crc_bytes_join data :
  Z.lor (lo_byte_of (crc16_modbus data)) (Z.shiftl (hi_byte_of (crc16_modbus data)) 8)
  = crc16_modbus data.
Proof.
  rewrite Z.lor_comm. etransitivity; [apply word_of_bytes|].
  pose proof (crc16_modbus_word data) as H. unfold is_word in H. apply Z.mod_small. lia.
Qed.

(** ** Lemmas: register words *)

Lemma byte_at_app b t i : (i < List.length b)%nat -> byte_at (b ++ t)%list i = byte_at b i.
Proof. intros H. unfold byte_at. now rewrite nth_error_app1. Qed.

Lemma byte_at_ok b i d : (i < List.length b)%nat -> byte_at b i = Ok (nth i b d).
Proof. intros H. unfold byte_at. now rewrite (nth_error_nth' b d H). Qed.

Definition reg_bytes (regs : list Z) : bytes :=
  flat_map (fun r => [hi_byte_of r; lo_byte_of r]) regs.

Lemma reg_bytes_length regs : List.length (reg_bytes regs) = (2 * List.length regs)%nat.
Proof. induction regs as [|r regs IH]; [reflexivity|]. cbn [reg_bytes flat_map app List.length].
  fold (reg_bytes regs). rewrite IH. cbn [List.length]. lia. Qed.

Lemma words_from_regs pre regs n tail : Forall is_word regs -> (n <= List.length regs)%nat ->
  words_from (pre ++ reg_bytes regs ++ tail)%list (List.length pre) n = Ok (firstn n regs).
Proof.
  intros H. revert pre n. induction H as [|r regs Hr _ IH]; intros pre n Hn.
  - destruct n; [reflexivity|simpl in Hn; lia].
  - destruct n as [|n]; [reflexivity|]. cbn [words_from].
    assert (forall i, (i < 2)%nat -> byte_at (pre ++ reg_bytes (r :: regs) ++ tail)%list (List.length pre + i)
            = Ok (nth i [hi_byte_of r; lo_byte_of r] 0)) as Hb.
    { intros i Hi. unfold byte_at. rewrite nth_error_app2 by lia.
      replace (List.length pre + i - List.length pre)%nat with i by lia.
      destruct i as [|[|i]]; [reflexivity..|lia]. }
    rewrite <- (Nat.add_0_r (List.length pre)) at 1. rewrite !Hb by lia. cbn [nth rbind].
    specialize (IH (pre ++ [hi_byte_of r; lo_byte_of r])%list n ltac:(simpl in Hn; lia)).
    rewrite length_app, <- app_assoc in IH. cbn [List.length] in IH.
    cbn [reg_bytes flat_map app] in *. fold (reg_bytes regs) in *. rewrite IH.
    cbn [rbind firstn]. rewrite word_of_bytes. unfold is_word in Hr.
    now rewrite Z.mod_small by lia.
Qed.

Lemma words_from_words data n : bytes_ok data -> forall i regs,
  words_from data i n = Ok regs -> Forall is_word regs /\ List.length regs = n.
Proof.
  intros Hd. induction n as [|n IH]; intros i regs; simpl.
  - intros H. apply ok_inj in H as <-. now split.
  - assert (Hb : forall j x, byte_at data j = Ok x -> byte_ok x).
    { intros j x. unfold byte_at. destruct (nth_error data j) as [y|] eqn:E; [|discriminate].
      intros H. apply ok_inj in H as <-. apply nth_error_In in E.
      unfold bytes_ok in Hd. rewrite Forall_forall in Hd. now apply Hd. }
    intros H. apply rbind_ok_inv in H as (hi & H1 & H).
    apply rbind_ok_inv in H as (lo & H2 & H). apply rbind_ok_inv in H as (rest & H3 & H).
    apply ok_inj in H as <-. destruct (IH _ _ H3) as [IH1 IH2].
    split; [constructor; eauto using word_of_word|now simpl; f_equal].
Qed.

Lemma word_count_le byte_count count : 0 <= count -> Z.of_nat (word_count byte_count count) <= count.
Proof.
  intros H. unfold word_count.
  assert ((Z.min byte_count (count * 2) + 1) / 2 <= count)
    by (apply Z.lt_succ_r, Z.div_lt_upper_bound; lia).
  lia.
Qed.

Lemma word_count_even n count : 0 <= count ->
  word_count (2 * Z.of_nat n) count = Nat.min n (Z.to_nat count).
Proof.
  intros H. unfold word_count.
  replace (Z.min (2 * Z.of_nat n) (count * 2)) with (2 * Z.min (Z.of_nat n) count) by lia.
  rewrite Z.mul_comm, Z.add_comm, Z.div_add by lia. change (1 / 2) with 0. lia.
Qed.

(** ** Lemmas: the stream reader *)

Lemma readexactly_app a b n : n = List.length a -> readexactly n (a ++ b)%list = Ok (a, b).
Proof.
  intros ->. unfold readexactly. rewrite length_app.
  rewrite (proj2 (Nat.ltb_ge _ _)) by lia.
  now rewrite firstn_app, firstn_all, Nat.sub_diag, app_nil_r, skipn_app, skipn_all, Nat.sub_diag.
Qed.

Lemma readexactly_ok n s a b : readexactly n s = Ok (a, b) ->
  s = (a ++ b)%list /\ List.length a = n.
Proof.
  unfold readexactly. destruct (Nat.ltb_spec (List.length s) n); [discriminate|].
  intros E. apply ok_inj in E. injection E as <- <-. split; [now rewrite firstn_skipn|].
  rewrite length_firstn. lia.
Qed.

(** The frame a slave answers a read with, followed by anything. *)
Definition read_response (unit_id : Z) (regs : list Z) : bytes :=
  with_crc ([unit_id; 3; 2 * Z.of_nat (List.length regs)] ++ reg_bytes regs)%list.

(** A frame with a correct checksum, a complete body and the right unit, seen
    by both parsers: [h] is the header, [data] the body, [lo hi] the checksum. *)
Lemma parse_read_frame uid func data lo hi tail count unit_id :
  let bc := Z.of_nat (List.length data) in
  let h := uid :: func :: bc :: data in
  uid = unit_id -> Z.land func 0x80 = 0 -> Z.lor lo (Z.shiftl hi 8) = crc16_modbus h ->
  parse_read_holding_response (h ++ [lo; hi] ++ tail)%list count unit_id
  = words_from data 0 (word_count bc count).
Proof.
  cbv zeta. intros -> Hf Hc. unfold parse_read_holding_response.
  set (h := unit_id :: func :: Z.of_nat (List.length data) :: data) in *.
  assert (exists x y rest, (h ++ [lo; hi] ++ tail)%list
          = unit_id :: func :: Z.of_nat (List.length data) :: x :: y :: rest) as (x & y & rest & E).
  { unfold h. destruct data as [|d1 [|d2 data]]; simpl; eauto. }
  rewrite E at 1. cbn [nth]. rewrite Z.eqb_refl, Hf. cbn [negb Z.eqb].
  rewrite Nat2Z.id. rewrite E.
  replace (unit_id :: func :: Z.of_nat (List.length data) :: x :: y :: rest)
    with (h ++ [lo; hi] ++ tail)%list by now rewrite E.
  assert (HL : List.length h = (3 + List.length data)%nat) by reflexivity.
  rewrite (proj2 (Nat.ltb_ge _ _)) by (rewrite !length_app, HL; simpl; lia).
  assert (Hat : forall i, (i < 2)%nat ->
    byte_at (h ++ [lo; hi] ++ tail)%list (3 + List.length data + i) = Ok (nth i [lo; hi] 0)).
  { intros i Hi. unfold byte_at. rewrite nth_error_app2 by lia. rewrite HL.
    replace (3 + List.length data + i - (3 + List.length data))%nat with i by lia.
    destruct i as [|[|i]]; [reflexivity..|lia]. }
  pose proof (Hat 0%nat ltac:(lia)) as Hat0. rewrite Nat.add_0_r in Hat0.
  rewrite Hat0, (Hat 1%nat ltac:(lia)). cbn [nth rbind].
  rewrite firstn_app, <- HL, Nat.sub_diag, firstn_all, app_nil_r, Hc, Z.eqb_refl. cbn [negb].
  f_equal. change (skipn 3 (h ++ [lo; hi] ++ tail)%list) with (data ++ [lo; hi] ++ tail)%list.
  now rewrite firstn_app, Nat.sub_diag, firstn_all, app_nil_r.
Qed.

Lemma receive_read_frame uid func data lo hi tail count unit_id :
  let bc := Z.of_nat (List.length data) in
  let h := uid :: func :: bc :: data in
  uid = unit_id -> Z.land func 0x80 = 0 -> Z.lor lo (Z.shiftl hi 8) = crc16_modbus h ->
  receive_block (h ++ [lo; hi] ++ tail)%list count unit_id
  = if bc mod 2 =? 0 then words_from data 0 (word_count bc count)
    else Raise (GenericException "Modbus byte_count not even").
Proof.
  cbv zeta. intros -> Hf Hc. unfold receive_block.
  change ((unit_id :: func :: Z.of_nat (List.length data) :: data) ++ [lo; hi] ++ tail)%list
    with ([unit_id; func] ++ [Z.of_nat (List.length data)] ++ data ++ [lo; hi] ++ tail)%list.
  rewrite readexactly_app by reflexivity. cbn [rbind nth]. rewrite Z.eqb_refl, Hf. cbn [negb Z.eqb].
  rewrite readexactly_app by reflexivity. cbn [rbind nth]. rewrite Nat2Z.id.
  rewrite (app_assoc data), readexactly_app by (rewrite length_app; reflexivity). cbn [rbind].
  change 2%nat with (List.length [lo; hi]). rewrite bdroplast_app, blast_app. cbn [nth].
  change ([unit_id; func] ++ [Z.of_nat (List.length data)] ++ data)%list
    with (unit_id :: func :: Z.of_nat (List.length data) :: data).
  rewrite Hc, Z.eqb_refl. cbn [negb]. now destruct (_ =? 0).
Qed.

(** What either parser accepts has this shape. *)
Definition read_frame_ok (unit_id : Z) (resp : bytes) : Prop :=
  exists func data lo hi tail,
    resp = ((unit_id :: func :: Z.of_nat (List.length data) :: data) ++ [lo; hi] ++ tail)%list
    /\ Z.land func 0x80 = 0
    /\ Z.lor lo (Z.shiftl hi 8)
       = crc16_modbus (unit_id :: func :: Z.of_nat (List.length data) :: data).

Lemma parse_read_ok_inv resp count unit_id regs : bytes_ok resp ->
  parse_read_holding_response resp count unit_id = Ok regs -> read_frame_ok unit_id resp.
Proof.
  intros Hok. unfold parse_read_holding_response.
  destruct resp as [|uid [|func [|bc [|x [|y l]]]]]; try discriminate.
  destruct (Z.eqb_spec uid unit_id) as [->|]; [|discriminate].
  destruct (Z.eqb_spec (Z.land func 0x80) 0) as [Hf|]; [|discriminate]. cbn [negb].
  set (resp := unit_id :: func :: bc :: x :: y :: l) in *.
  destruct (Nat.ltb_spec (List.length resp) (3 + Z.to_nat bc + 2)) as [|HL]; [discriminate|].
  intros H. apply rbind_ok_inv in H as (lo & Hlo & H). apply rbind_ok_inv in H as (hi & Hhi & H).
  destruct (Z.eqb_spec (Z.lor lo (Z.shiftl hi 8)) (crc16_modbus (firstn (3 + Z.to_nat bc) resp)))
    as [Hc|]; [|discriminate]. clear H.
  assert (Hbc : 0 <= bc) by (do 3 (inversion Hok as [|? ? ? Hok']; subst; clear Hok; rename Hok' into Hok);
    unfold byte_ok in *; lia).
  set (data := firstn (Z.to_nat bc) (x :: y :: l)).
  assert (Hdl : List.length data = Z.to_nat bc)
    by (unfold data; rewrite length_firstn; unfold resp in HL; simpl in HL |- *; lia).
  assert (Hbce : Z.of_nat (List.length data) = bc) by lia.
  exists func, data, lo, hi, (skipn (3 + Z.to_nat bc + 2) resp).
  rewrite Hbce. split; [|split; [exact Hf|exact Hc]].
  unfold byte_at in Hlo, Hhi.
  destruct (nth_error resp (3 + Z.to_nat bc)) as [a|] eqn:Ea; [|discriminate].
  destruct (nth_error resp (3 + Z.to_nat bc + 1)) as [b|] eqn:Eb; [|discriminate].
  apply ok_inj in Hlo as <-. apply ok_inj in Hhi as <-.
  rewrite <- (firstn_skipn (3 + Z.to_nat bc) resp) at 1. f_equal.
  apply nth_error_split in Ea as (l1 & l2 & E & HL1).
  rewrite E in *. rewrite <- HL1 in *.
  rewrite nth_error_app2 in Eb by lia.
  replace (List.length l1 + 1 - List.length l1)%nat with 1%nat in Eb by lia.
  destruct l2 as [|b' l2]; [discriminate|]. injection Eb as ->.
  rewrite skipn_app, skipn_all, Nat.sub_diag. cbn [app skipn]. do 2 f_equal.
  rewrite skipn_app, skipn_all2 by lia.
  replace (List.length l1 + 2 - List.length l1)%nat with 2%nat by lia. reflexivity.
Qed.

Lemma read_response_shape unit_id regs : (List.length regs <= 127)%nat ->
  exists lo hi, read_response unit_id regs
    = ((unit_id :: 3 :: Z.of_nat (List.length (reg_bytes regs)) :: reg_bytes regs) ++ [lo; hi])%list
  /\ Z.lor lo (Z.shiftl hi 8)
     = crc16_modbus (unit_id :: 3 :: Z.of_nat (List.length (reg_bytes regs)) :: reg_bytes regs).
Proof.
  intros H. unfold read_response, with_crc.
  assert (2 * Z.of_nat (List.length regs) = Z.of_nat (List.length (reg_bytes regs))) as ->
    by (rewrite reg_bytes_length; lia).
  eexists; eexists. split; [reflexivity|]. apply crc_bytes_join.
Qed.

Lemma read_frame_ok_receive unit_id resp count regs : bytes_ok resp ->
  receive_block resp count unit_id = Ok regs -> read_frame_ok unit_id resp.
Proof.
  intros Hok. unfold receive_block. intros H.
  apply rbind_ok_inv in H as ([h2 s1] & E1 & H). apply readexactly_ok in E1 as [-> L1].
  destruct h2 as [|uid [|func [|]]]; try discriminate L1. cbn [nth] in H.
  destruct (Z.eqb_spec uid unit_id) as [->|]; [|discriminate]. cbn [negb] in H.
  destruct (Z.eqb_spec (Z.land func 0x80) 0) as [Hf|]; [|cbn [negb] in H;
    apply rbind_ok_inv in H as ([? ?] & _ & H); discriminate]. cbn [negb] in H.
  apply rbind_ok_inv in H as ([bcb s2] & E2 & H). apply readexactly_ok in E2 as [-> L2].
  destruct bcb as [|bc [|]]; try discriminate L2. cbn [nth] in H.
  apply rbind_ok_inv in H as ([dc s3] & E3 & H). apply readexactly_ok in E3 as [-> L3].
  assert (Hbc : 0 <= bc) by (do 3 (inversion Hok as [|? ? ? Hok']; subst; clear Hok; rename Hok' into Hok);
    unfold byte_ok in *; lia).
  assert (dc = firstn (Z.to_nat bc) dc ++ skipn (Z.to_nat bc) dc)%list as Edc
    by now rewrite firstn_skipn.
  set (data := firstn (Z.to_nat bc) dc) in *.
  assert (Hdl : List.length data = Z.to_nat bc) by (unfold data; rewrite length_firstn; lia).
  destruct (skipn (Z.to_nat bc) dc) as [|lo [|hi [|]]] eqn:Es;
    try (apply (f_equal (@List.length Z)) in Edc; rewrite length_app in Edc; simpl in Edc; lia).
  rewrite Edc in H. change 2%nat with (List.length [lo; hi]) in H.
  rewrite bdroplast_app, blast_app in H. cbn [nth] in H.
  destruct (Z.eqb_spec (Z.lor lo (Z.shiftl hi 8)) (crc16_modbus ([unit_id; func] ++ [bc] ++ data)%list))
    as [Hc|]; [|discriminate].
  exists func, data, lo, hi, s3. replace (Z.of_nat (List.length data)) with bc by lia.
  split; [|split; [exact Hf|exact Hc]]. rewrite Edc, <- app_assoc. reflexivity.
Qed.

(** ** The TCP transport implements the interface *)

Section Tcp.
Context {S : Type} (peer : tcp_peer S) (peer_bytes : forall f s b s', peer f s = (Ok b, s') -> bytes_ok b)
        (unit_id : Z).

Lemma receive_block_words resp count regs : bytes_ok resp -> 0 <= count ->
  receive_block resp count unit_id = Ok regs ->
  Forall is_word regs /\ Z.of_nat (List.length regs) <= count.
Proof.
  intros Hok Hc H. pose proof (read_frame_ok_receive _ _ _ _ Hok H) as
    (func & data & lo & hi & tail & -> & Hf & Hcrc).
  rewrite receive_read_frame in H by auto.
  destruct (_ =? 0); [|discriminate].
  assert (bytes_ok data) as Hd.
  { apply bytes_ok_app in Hok as [Hok _].
    do 3 (inversion Hok as [|? ? ? Hok']; subst; clear Hok; rename Hok' into Hok). exact Hok. }
  destruct (words_from_words data _ Hd _ _ H) as [H1 H2]. split; [exact H1|].
  rewrite H2. now apply word_count_le.
Qed.

#[refine] Instance tcp_transport : RegisterTransport S := {
  read_block start count s := read_modbus_block peer start count unit_id s;
  write_register address value s :=
    let '(d, s) := write_modbus_single_register peer address value unit_id s in (Ok d, s)
}.
Proof.
  intros start count s regs s' Hc. unfold read_modbus_block.
  destruct (peer _ s) as [[stream|e] s1] eqn:E; [|discriminate].
  cbn [rbind]. intros H. injection H as H <-.
  eapply receive_block_words; eauto.
Defined.

(** [read_smg2_snapshot] *)
Definition read_smg2_snapshot (s : S) : res snapshot * S := read_smg2_snapshot_via (H := tcp_transport) s.
End Tcp.

(** ** Properties: frames *)

(** C29: the reply of a slave, possibly followed by more bytes, is read
    back as the registers it carries, cut to the number requested, by the frame
    parser and by the TCP stream reader alike. *)
Theorem read_response_roundtrip (unit_id count : Z) (regs : list Z) (tail : bytes)
    (Hw : Forall is_word regs) (Hl : (List.length regs <= 127)%nat) (Hc : 0 <= count) :
  let resp := (read_response unit_id regs ++ tail)%list in
  parse_read_holding_response resp count unit_id = Ok (firstn (Z.to_nat count) regs)
  /\ receive_block resp count unit_id = Ok (firstn (Z.to_nat count) regs).
Proof.
  cbv zeta. destruct (read_response_shape unit_id regs Hl) as (lo & hi & -> & Hcrc).
  rewrite <- app_assoc. rewrite parse_read_frame, receive_read_frame by auto.
  rewrite reg_bytes_length, Nat2Z.inj_mul. change (Z.of_nat 2) with 2.
  rewrite Z.mul_comm, Z.mod_mul by lia. cbn [Z.eqb].
  rewrite Z.mul_comm, word_count_even by exact Hc.
  pose proof (words_from_regs [] regs (Nat.min (List.length regs) (Z.to_nat count)) [] Hw ltac:(lia)) as H.
  cbn [app List.length] in H. rewrite app_nil_r in H. rewrite H.
  assert (firstn (Nat.min (List.length regs) (Z.to_nat count)) regs = firstn (Z.to_nat count) regs) as ->.
  { destruct (Nat.le_ge_cases (List.length regs) (Z.to_nat count)).
    - rewrite Nat.min_l by lia. now rewrite firstn_all, firstn_all2.
    - now rewrite Nat.min_r by lia. }
  now split.
Qed.

Lemma read_response_roundtrip_witness :
  parse_read_holding_response (read_response 1 [2301; 5000; 65535] ++ [0])%list 2 1 = Ok [2301; 5000].
Proof.
  refine (proj1 (read_response_roundtrip 1 2 [2301; 5000; 65535] [0] _ _ _));
    [repeat constructor; easy|simpl; lia|lia].
Defined.

(** The two implementations of the reply check accept the same
    frames and read the same words, except that the TCP reader also requires
    an even byte count; whatever either accepts comes from the right unit,
    carries no exception bit and a correct checksum, and holds at most [count]
    16-bit words. *)
Theorem read_parsers_agree (resp : bytes) (count unit_id : Z) (regs : list Z)
    (Hok : bytes_ok resp) (Hc : 0 <= count) :
  (receive_block resp count unit_id = Ok regs
   <-> parse_read_holding_response resp count unit_id = Ok regs /\ nth 2 resp 0 mod 2 = 0)
  /\ (parse_read_holding_response resp count unit_id = Ok regs ->
      read_frame_ok unit_id resp /\ Forall is_word regs /\ Z.of_nat (List.length regs) <= count).
Proof.
  split; [split|].
  - intros H. pose proof (read_frame_ok_receive _ _ _ _ Hok H) as
      (func & data & lo & hi & tail & -> & Hf & Hcrc).
    rewrite receive_read_frame in H by auto. rewrite parse_read_frame by auto.
    cbn [app nth]. destruct (Z.eqb_spec (Z.of_nat (List.length data) mod 2) 0); [auto|discriminate].
  - intros [H He]. pose proof (parse_read_ok_inv _ _ _ _ Hok H) as
      (func & data & lo & hi & tail & -> & Hf & Hcrc).
    rewrite parse_read_frame in H by auto. rewrite receive_read_frame by auto.
    cbn [app nth] in He. now rewrite He.
  - intros H. pose proof (parse_read_ok_inv _ _ _ _ Hok H) as Hfr. split; [exact Hfr|].
    destruct Hfr as (func & data & lo & hi & tail & -> & Hf & Hcrc).
    rewrite parse_read_frame in H by auto.
    assert (bytes_ok data) as Hd.
    { apply bytes_ok_app in Hok as [Hok _].
      do 3 (inversion Hok as [|? ? ? Hok']; subst; clear Hok; rename Hok' into Hok). exact Hok. }
    destruct (words_from_words data _ Hd _ _ H) as [H1 H2]. split; [exact H1|].
    rewrite H2. now apply word_count_le.
Qed.

Lemma read_parsers_agree_witness :
  receive_block (read_response 1 [2301; 5000]) 2 1 = Ok [2301; 5000].
Proof.
  refine (proj2 (proj1 (read_parsers_agree (read_response 1 [2301; 5000]) 2 1 [2301; 5000] _ _)) _).
  - apply bytes_ok_dec. vm_compute. reflexivity.
  - lia.
  - split; vm_compute; reflexivity.
Defined.

(** What a slave stores when it executes a write request. *)
Definition written_value (func_code : Z) (req : bytes) : Z :=
  if func_code =? 0x06 then word_of (nth 4 req 0) (nth 5 req 0)
  else word_of (nth 7 req 0) (nth 8 req 0).

Definition written_address (req : bytes) : Z := word_of (nth 2 req 0) (nth 3 req 0).

(** Both write requests address the register and carry the value
    modulo 2^16 with a correct checksum; reading that register back as a signed
    word gives the value for every value a signed register can hold. *)
Theorem write_frame_value (address value unit_id func_code : Z) (req : bytes)
    (Hb : build_write_single_frame address value unit_id func_code = Ok req) :
  written_address req = address mod 65536
  /\ written_value func_code req = value mod 65536
  /\ (-32768 <= value < 32768 -> i16 (written_value func_code req) = value)
  /\ (exists body, req = with_crc body /\ nth 0 body 0 = unit_id mod 256
      /\ nth 1 body 0 = func_code mod 256)
  /\ bytes_ok req.
Proof.
  assert (Hcrc : forall b, bytes_ok b -> bytes_ok (with_crc b)).
  { intros b H. unfold with_crc. apply bytes_ok_app. split; [exact H|].
    repeat constructor; apply byte_of_land. }
  assert (Hi : forall v, -32768 <= v < 32768 -> i16 (v mod 65536) = v).
  { intros v Hv. unfold i16. destruct (Z.lt_ge_cases v 0).
    - replace (v mod 65536) with (v + 65536)
        by (rewrite <- (Z.mod_add v 1 65536) by lia; rewrite Z.mod_small by lia; lia).
      destruct (Z.leb_spec 32768 (v + 65536)); lia.
    - rewrite Z.mod_small by lia. destruct (Z.leb_spec 32768 v); lia. }
  unfold build_write_single_frame in Hb.
  destruct (Z.eqb_spec func_code 0x06) as [->|]; [|destruct (Z.eqb_spec func_code 0x10) as [->|]; [|discriminate]];
    apply ok_inj in Hb as <-;
    (split; [apply word_of_bytes|split; [apply word_of_bytes|split;
      [intros Hv; etransitivity; [|exact (Hi value Hv)]; f_equal; apply word_of_bytes|]]]);
    (split; [eexists; split; [reflexivity|split; [apply lo_byte_mod|reflexivity]]|]);
    apply Hcrc; cbn [app];
    repeat (apply Forall_cons; [first [apply lo_byte_ok|apply hi_byte_ok|unfold byte_ok; lia]|]);
    apply Forall_nil.
Qed.

Lemma write_frame_value_witness :
  exists req, build_write_single_frame 324 (-5) 1 0x10 = Ok req /\ i16 (written_value 0x10 req) = -5.
Proof.
  destruct (build_write_single_frame 324 (-5) 1 0x10) as [req|] eqn:E; [|discriminate E].
  exists req. split; [reflexivity|].
  exact (proj1 (proj2 (proj2 (write_frame_value 324 (-5) 1 0x10 req E))) ltac:(lia)).
Defined.

(** ** Lemmas: the snapshot *)

(** The register at an address of a block read from [base]. *)
Definition reg_of (base : Z) (block : list Z) (addr : Z) : Z := nth (Z.to_nat (addr - base)) block 0.

Lemma byte_at_reg base block addr : base <= addr < base + Z.of_nat (List.length block) ->
  byte_at block (Z.to_nat (addr - base)) = Ok (reg_of base block addr).
Proof. intros H. apply byte_at_ok. lia. Qed.

Ltac block_regs Hl :=
  unfold mode_reg, tenths, hundredths, signed_reg, signed_tenths, word_reg;
  rewrite !byte_at_reg by (rewrite Hl; lia); cbn [rmap rbind].

(** Reads every entry of a display whose values all succeeded. *)
Ltac all_entries_ok :=
  match goal with |- exists d, build_dict ?l = Ok d /\ _ =>
    let d := fresh "d" in let Hd := fresh "Hd" in
    destruct (build_dict_map l) as (d & -> & Hd);
      [repeat (apply Forall_cons; [reflexivity|]); apply Forall_nil|];
    exists d; split; [reflexivity|];
    assert (NoDup (map fst l)) as Hnd by (cbn [map fst]; nodup_strings);
    intros k v Hin;
    destruct (Hd k (Ok v) Hin Hnd) as (v' & Hv' & Hg); apply ok_inj in Hv' as <-; exact Hg
  end.

Definition sensor_entries (b : list Z) : list (string * pyval) :=
  let R := reg_of 201 b in
  [ ("mains_voltage", over 10 (R 202)); ("mains_frequency", over 100 (R 203));
    ("mains_power", VInt (i16 (R 204))); ("output_voltage", over 10 (R 210));
    ("output_frequency", over 100 (R 212)); ("output_active_power", VInt (i16 (R 213)));
    ("battery_voltage", over 10 (R 215)); ("battery_current", over 10 (i16 (R 216)));
    ("pv_voltage", over 10 (R 219)); ("pv_current", over 10 (R 220));
    ("pv_power", VInt (i16 (R 223))); ("load_percent", VInt (R 225));
    ("temp_dcdc", VInt (R 226)); ("temp_inverter", VInt (R 227)) ].

Lemma smg2_sensors_ok b : List.length b = 31%nat ->
  exists d, smg2_sensors b = Ok d
  /\ forall k v, In (k, v) (sensor_entries b) -> dget k d = Some v.
Proof.
  intros Hl. unfold smg2_sensors. cbv zeta beta. block_regs Hl.
  match goal with |- context [build_dict ?l] =>
    assert (exists d, build_dict l = Ok d /\ forall k v, In (k, Ok v) l -> dget k d = Some v) as (d & -> & Hd)
      by all_entries_ok end.
  exists d. split; [reflexivity|]. intros k v Hin. apply Hd. unfold sensor_entries in Hin. cbn [In] in *.
  repeat (destruct Hin as [Hin|Hin]; [injection Hin as <- <-; tauto|]). destruct Hin.
Qed.

Definition config_entries (b : list Z) : list (string * pyval) :=
  let R := reg_of 300 b in
  [ ("output_priority", VInt (R 301)); ("input_voltage_range", VInt (R 302));
    ("max_charge_voltage", over 10 (R 324)); ("float_charge_voltage", over 10 (R 325));
    ("battery_discharge_recovery_mains", over 10 (R 326));
    ("battery_low_protection_mains", over 10 (R 327));
    ("battery_low_protection_offgrid", over 10 (R 329));
    ("battery_charging_priority", VInt (R 331)); ("max_charging_current", over 10 (R 332));
    ("max_mains_charging_current", over 10 (R 333)) ].

Lemma smg2_config_ok b : List.length b = 38%nat ->
  exists d, smg2_config b = Ok d
  /\ forall k v, In (k, v) (config_entries b) -> dget k d = Some v.
Proof.
  intros Hl. unfold smg2_config. cbv zeta beta. block_regs Hl.
  match goal with |- context [build_dict ?l] =>
    assert (exists d, build_dict l = Ok d /\ forall k v, In (k, Ok v) l -> dget k d = Some v) as (d & -> & Hd)
      by all_entries_ok end.
  exists d. split; [reflexivity|]. intros k v Hin. apply Hd. unfold config_entries in Hin. cbn [In] in *.
  repeat (destruct Hin as [Hin|Hin]; [injection Hin as <- <-; tauto|]). destruct Hin.
Qed.

Lemma dword_range hi lo : is_word hi -> is_word lo -> 0 <= dword hi lo < 2 ^ 32
  /\ (dword hi lo = 0 <-> hi = 0 /\ lo = 0).
Proof.
  unfold is_word, dword. intros H1 H2. rewrite (lor_shiftl_add hi lo 16) by lia.
  change (2 ^ 16) with 65536. change (2 ^ 32) with 4294967296. lia.
Qed.

(** A snapshot from complete status and configuration blocks. *)
Lemma snapshot_ok {S} `{RegisterTransport S} (s s1 s2 s3 : S) (b100 : res (list Z)) (b200 b300 : list Z) :
  read_block 100 16 s = (b100, s1) -> read_block 201 31 s1 = (Ok b200, s2) -> read_block 300 38 s2 = (Ok b300, s3) ->
  List.length b200 = 31%nat -> List.length b300 = 38%nat ->
  exists sensors config,
    read_smg2_snapshot_via s
      = (Ok (sensors, config, match b100 with Ok b => smg2_faults b | Raise _ => [] end), s3)
    /\ smg2_sensors b200 = Ok sensors /\ smg2_config b300 = Ok config.
Proof.
  intros H100 H200 H300 L200 L300.
  destruct (smg2_sensors_ok b200 L200) as (sensors & Es & _). destruct (smg2_config_ok b300 L300) as (config & Ec & _).
  exists sensors, config. split; [|now split]. unfold read_smg2_snapshot_via. rewrite H100, H200. cbn [rbind].
  rewrite Es, H300. cbn [rbind]. now rewrite Ec.
Qed.

(** Over any transport, a snapshot whose status and configuration
    blocks are complete succeeds whether or not the fault block could be read:
    a failed or short fault block only empties the fault section, a complete one
    yields 32-bit codes with [has_fault] and [has_warning] set exactly when the
    code is not zero; a failed status block fails the snapshot before the
    configuration block is asked for. *)
Theorem snapshot_of_blocks {S} `{RegisterTransport S} (s s1 s2 s3 : S)
    (b100 : res (list Z)) (b200 b300 : list Z)
    (H100 : read_block 100 16 s = (b100, s1)) (H200 : read_block 201 31 s1 = (Ok b200, s2))
    (H300 : read_block 300 38 s2 = (Ok b300, s3))
    (L200 : List.length b200 = 31%nat) (L300 : List.length b300 = 38%nat) :
  exists sensors config faults,
    read_smg2_snapshot_via s = (Ok (sensors, config, faults), s3)
    /\ smg2_sensors b200 = Ok sensors /\ smg2_config b300 = Ok config
    /\ (faults = [] <-> ~ exists b, b100 = Ok b /\ (10 <= List.length b)%nat)
    /\ (forall b, b100 = Ok b -> (10 <= List.length b)%nat -> exists fault warning,
          dget "fault_code" faults = Some (VInt fault)
          /\ dget "warning_code" faults = Some (VInt warning)
          /\ 0 <= fault < 2 ^ 32 /\ 0 <= warning < 2 ^ 32
          /\ dget "has_fault" faults = Some (VBool (negb (fault =? 0)))
          /\ dget "has_warning" faults = Some (VBool (negb (warning =? 0)))).
Proof.
  destruct (snapshot_ok s s1 s2 s3 b100 b200 b300 H100 H200 H300 L200 L300) as (sensors & config & Er & Es & Ec).
  exists sensors, config, (match b100 with Ok b => smg2_faults b | Raise _ => [] end).
  split; [exact Er|split; [exact Es|split; [exact Ec|]]].
  split.
  - destruct b100 as [b|e]; [|split; [intros _ (b & E & _); discriminate|reflexivity]].
    unfold smg2_faults. destruct (Nat.ltb_spec (List.length b) 10) as [Hs|Hs]; split; try easy.
    + intros _ (b' & E & HL). apply ok_inj in E as <-. lia.
    + intros Hn. elim Hn. eauto.
  - intros b -> HL. unfold smg2_faults. rewrite (proj2 (Nat.ltb_ge _ _)) by lia.
    destruct (read_block_words 100 16 s b s1 ltac:(lia) H100) as [Hw _].
    assert (forall i, (i < 10)%nat -> is_word (nth i b 0)) as Hi.
    { intros i Hi. rewrite Forall_forall in Hw. apply Hw, nth_In. lia. }
    eexists; eexists. split; [reflexivity|split; [reflexivity|]].
    split; [apply dword_range; apply Hi; lia|split; [apply dword_range; apply Hi; lia|]].
    split; reflexivity.
Qed.

(** A slave whose register [a] holds [a]. *)
Definition demo_peer (req : bytes) (s : unit) : res bytes * unit :=
  let start := word_of (nth 2 req 0) (nth 3 req 0) in
  let count := word_of (nth 4 req 0) (nth 5 req 0) in
  if count <=? 127
  then (Ok (read_response UNIT_ID (map (fun i => start + Z.of_nat i) (seq 0 (Z.to_nat count)))), s)
  else (Raise TimeoutError, s).

Lemma with_crc_bytes b : bytes_ok b -> bytes_ok (with_crc b).
Proof.
  intros H. unfold with_crc. apply bytes_ok_app. split; [exact H|].
  repeat constructor; apply byte_of_land.
Qed.

Lemma reg_bytes_ok regs : bytes_ok (reg_bytes regs).
Proof.
  induction regs as [|r regs IH]; [constructor|]. cbn [reg_bytes flat_map app].
  repeat (apply Forall_cons; [apply byte_of_land|]). exact IH.
Qed.

Lemma demo_peer_bytes f s b s' : demo_peer f s = (Ok b, s') -> bytes_ok b.
Proof.
  unfold demo_peer. destruct (Z.leb_spec (word_of (nth 4 f 0) (nth 5 f 0)) 127) as [Hc|]; [|discriminate].
  intros H. injection H as <- _. apply with_crc_bytes. repeat (apply Forall_cons; [|]).
  - unfold byte_ok, UNIT_ID. lia.
  - unfold byte_ok. lia.
  - unfold byte_ok. rewrite length_map, length_seq. lia.
  - apply reg_bytes_ok.
Qed.

#[local] Instance demo_transport : RegisterTransport unit :=
  tcp_transport demo_peer demo_peer_bytes UNIT_ID.

Lemma snapshot_of_blocks_witness :
  exists sensors config faults,
    read_smg2_snapshot_via tt = (Ok (sensors, config, faults), tt)
    /\ smg2_sensors (map (fun i => 201 + Z.of_nat i) (seq 0 31)) = Ok sensors.
Proof.
  destruct (snapshot_of_blocks tt tt tt tt
    (Ok (map (fun i => 100 + Z.of_nat i) (seq 0 16)))
    (map (fun i => 201 + Z.of_nat i) (seq 0 31)) (map (fun i => 300 + Z.of_nat i) (seq 0 38)))
    as (sensors & config & faults & H & Hs & _); try (vm_compute; reflexivity).
  exists sensors, config, faults. split; [exact H|exact Hs].
Defined.

(** ** Lemmas: projections *)

Lemma val_item_get d k v : dget k d = Some v -> val_item d k = Ok v.
Proof. unfold val_item. now intros ->. Qed.

(** The decimal of [n / 100] with two places. *)
Definition hundredths_text (n : Z) : string :=
  (if n <? 0 then "-" else "") ++ fixed_text 2 (Z.abs n).

Lemma fmt_over_10 p n : Z.abs n < 2 ^ 40 -> (1 <= p <= 2)%nat ->
  fmt_val p (over 10 n) = Ok (VStr (tenths_text p n)).
Proof.
  intros Hn Hp. unfold fmt_val, over. do 2 f_equal.
  pose proof (tenth_text p n Hn Hp) as H. unfold tenth in H.
  rewrite float_of_int_small in H by exact Hn. now apply ok_inj in H.
Qed.

Lemma fmt_over_100 n : Z.abs n < 2 ^ 40 -> fmt_val 2 (over 100 n) = Ok (VStr (hundredths_text n)).
Proof.
  intros Hn. unfold fmt_val, over, hundredths_text. do 2 f_equal.
  rewrite (fmt_scaled n 100 1 2) by (reflexivity || lia || exact Hn). now rewrite Z.mul_1_r.
Qed.

Lemma fmt_over_any p d n : exists s, fmt_val p (over d n) = Ok (VStr s).
Proof. unfold fmt_val, over. eauto. Qed.

Lemma fmt_int p n : Z.abs n < 2 ^ 40 -> exists s, fmt_val p (VInt n) = Ok (VStr s).
Proof. intros H. unfold fmt_val. rewrite float_of_int_small by exact H. cbn. eauto. Qed.

(** Truncating [n / 10] and its opposite gives opposite integers. *)
Lemma trunc_over_10 n : Z.abs n < 2 ^ 40 -> exists k,
  int_of_val (over 10 n) = Ok k /\ int_of_val (neg_val (over 10 n)) = Ok (- k).
Proof.
  intros Hn. unfold over, neg_val, int_of_val.
  change (float_of_Z 10) with (zval 10).
  assert (Hpos : forall p, Zpos p < 2 ^ 40 -> exists m e,
    fdiv_nz (float_of_Z (Zpos p)) (zval 10) = S754_finite false m e).
  { intros p Hp. rewrite float_of_Z_pos by lia.
    destruct (fdiv_int_digits p 10 1 1 Hp ltac:(lia) eq_refl) as (m & e & E & _). eauto. }
  destruct n as [|p|p].
  - exists 0. split; reflexivity.
  - destruct (Hpos p ltac:(lia)) as (m & e & ->). eexists. split; [reflexivity|]. cbn. reflexivity.
  - destruct (Hpos p ltac:(lia)) as (m & e & E).
    assert (fdiv_nz (float_of_Z (Zneg p)) (zval 10) = fneg (S754_finite false m e)) as ->.
    { rewrite <- E, float_of_Z_neg. rewrite float_of_Z_pos by lia. apply fdiv_neg. }
    eexists. split; [reflexivity|]. cbn. now rewrite Z.opp_involutive.
Qed.

Lemma reg_word base b a : Forall is_word b -> is_word (reg_of base b a).
Proof.
  intros H. unfold reg_of. destruct (nth_in_or_default (Z.to_nat (a - base)) b 0) as [Hin| ->].
  - rewrite Forall_forall in H. now apply H.
  - unfold is_word. lia.
Qed.

Lemma word_small v : is_word v -> Z.abs v < 2 ^ 40.
Proof. unfold is_word. lia. Qed.

Lemma i16_small v : is_word v -> Z.abs (i16 v) < 2 ^ 40.
Proof. unfold is_word, i16. destruct (Z.leb_spec 32768 v); lia. Qed.

Lemma i16_range v : is_word v -> -32768 <= i16 v < 32768.
Proof. unfold is_word, i16. destruct (Z.leb_spec 32768 v); lia. Qed.

#[export] Hint Resolve reg_word word_small i16_small : modbus.

Lemma fmt_item_over p d k n : dget k d = Some (over 10 n) -> Z.abs n < 2 ^ 40 -> (1 <= p <= 2)%nat ->
  fmt_item p d k = Ok (VStr (tenths_text p n)).
Proof. intros H Hn Hp. unfold fmt_item. rewrite (val_item_get _ _ _ H). now apply fmt_over_10. Qed.

Lemma is_ok_ex {A} (r : res A) a : r = Ok a -> is_ok r = true.
Proof. now intros ->. Qed.

Lemma fmt_item_ok p d k dv n : dget k d = Some (over dv n) -> is_ok (fmt_item p d k) = true.
Proof. intros H. unfold fmt_item. now rewrite (val_item_get _ _ _ H). Qed.

Lemma fmt_item_int_ok p d k n : dget k d = Some (VInt n) -> Z.abs n < 2 ^ 40 ->
  is_ok (fmt_item p d k) = true.
Proof.
  intros H Hn. unfold fmt_item. rewrite (val_item_get _ _ _ H). cbn [rbind].
  destruct (fmt_int p n Hn) as [s E]. now rewrite E.
Qed.

Lemma abs_item_text w d k n : dget k d = Some (VInt n) ->
  abs_item w d k = Ok (VStr (fmt_0d w (Z.abs n))).
Proof. intros H. unfold abs_item. now rewrite (val_item_get _ _ _ H). Qed.

Lemma int_fmt_item_text w d k n : dget k d = Some (VInt n) ->
  int_fmt_item w d k = Ok (VStr (fmt_0d w n)).
Proof. intros H. unfold int_fmt_item. now rewrite (val_item_get _ _ _ H). Qed.

Lemma trunc_item_int w d k n : dget k d = Some (VInt n) ->
  trunc_item w d k = Ok (VStr (fmt_0d w n)).
Proof. intros H. unfold trunc_item. now rewrite (val_item_get _ _ _ H). Qed.

Lemma trunc_item_over w d k n : dget k d = Some (over 10 n) -> Z.abs n < 2 ^ 40 ->
  is_ok (trunc_item w d k) = true.
Proof.
  intros H Hn. unfold trunc_item. rewrite (val_item_get _ _ _ H). cbn [rbind].
  destruct (trunc_over_10 n Hn) as (m & E & _). now rewrite E.
Qed.

Ltac entry_ok Hs Hw := first
  [ reflexivity
  | eapply fmt_item_ok; apply Hs; cbn [In sensor_entries config_entries]; tauto
  | eapply fmt_item_int_ok; [apply Hs; cbn [In sensor_entries config_entries]; tauto|auto with modbus]
  | eapply is_ok_ex, abs_item_text; apply Hs; cbn [In sensor_entries config_entries]; tauto
  | eapply is_ok_ex, int_fmt_item_text; apply Hs; cbn [In sensor_entries config_entries]; tauto
  | eapply is_ok_ex, trunc_item_int; apply Hs; cbn [In sensor_entries config_entries]; tauto
  | eapply trunc_item_over; [apply Hs; cbn [In sensor_entries config_entries]; tauto|auto with modbus] ].

(** The texts of the status section; [k] is the battery current in amperes,
    towards zero, and [f] the mains frequency in tenths of a hertz. *)
Definition qpigs_texts (b : list Z) (k f : Z) : list (string * string) :=
  let R := reg_of 201 b in
  [ ("grid_voltage", tenths_text 1 (R 202)); ("ac_output_voltage", tenths_text 1 (R 210));
    ("ac_output_frequency", hundredths_text (R 212)); ("output_apparent_power", fmt_0d 4 (Z.abs (i16 (R 213))));
    ("output_active_power", fmt_0d 4 (Z.abs (i16 (R 213)))); ("load_percent", fmt_0d 3 (R 225)); ("bus_voltage", str_of_int 400);
    ("battery_voltage", tenths_text 2 (R 215)); ("battery_charging_current", fmt_0d 3 (Z.max 0 k)); ("battery_capacity", "100");
    ("pv_input_current", tenths_text 1 (R 220)); ("pv_input_voltage", tenths_text 1 (R 219));
    ("scc_battery_voltage", tenths_text 2 (R 215)); ("battery_discharge_current", fmt_0d 5 (Z.max 0 (- k)));
    ("pv_charging_power", fmt_0d 5 (i16 (R 223))); ("grid_ac_in_power", fmt_0d 5 (Z.abs (i16 (R 204))));
    ("grid_frequency", fixed_text 1 f); ("inverter_heat_sink_temperature", fixed_text 1 (10 * R 227));
    ("inverter_dcdc_module_temperature", fixed_text 1 (10 * R 226)) ].

Lemma fmt_item_over_100 d k n : dget k d = Some (over 100 n) -> Z.abs n < 2 ^ 40 ->
  fmt_item 2 d k = Ok (VStr (hundredths_text n)).
Proof. intros H Hn. unfold fmt_item. rewrite (val_item_get _ _ _ H). now apply fmt_over_100. Qed.

Lemma word_40 v : is_word v -> 0 <= v < 2 ^ 40.
Proof. unfold is_word. lia. Qed.

#[export] Hint Resolve word_40 : modbus.

Lemma fmt_item_int_1 d k n : dget k d = Some (VInt n) -> 0 <= n < 2 ^ 40 ->
  fmt_item 1 d k = Ok (VStr (fixed_text 1 (10 * n))).
Proof.
  intros H Hn. unfold fmt_item. rewrite (val_item_get _ _ _ H). cbn [rbind fmt_val].
  rewrite float_of_int_small by lia. cbn [rbind]. now rewrite fmt_int_1.
Qed.

Lemma fmt_item_near d k n f : fmt_f 1 (fdiv_nz (float_of_Z n) (float_of_Z 100)) = fixed_text 1 f ->
  dget k d = Some (over 100 n) -> fmt_item 1 d k = Ok (VStr (fixed_text 1 f)).
Proof. intros Ef H. unfold fmt_item. rewrite (val_item_get _ _ _ H). unfold over. cbn [rbind fmt_val]. now rewrite Ef. Qed.

Lemma smg2_qpigs_fields (b : list Z) : List.length b = 31%nat -> Forall is_word b ->
  exists s d k f, smg2_sensors b = Ok s /\ smg2_to_qpigs s = Ok d
  /\ int_of_val (over 10 (i16 (reg_of 201 b 216))) = Ok k
  /\ (0 <= f /\ Z.abs (10 * f - reg_of 201 b 203) <= 5)
  /\ dmem "error" d = false /\ dmem "status" d = false
  /\ forall key text, In (key, text) (qpigs_texts b k f) -> dget key d = Some (VStr text).
Proof.
  intros Hl Hw. destruct (smg2_sensors_ok b Hl) as (s & Es & Hs).
  assert (Hin : In ("battery_current", over 10 (i16 (reg_of 201 b 216))) (sensor_entries b))
    by (cbn [In sensor_entries]; tauto).
  destruct (trunc_over_10 (i16 (reg_of 201 b 216)) ltac:(auto with modbus)) as (k & Ek & Enk).
  destruct (fmt_hundredths_1 (reg_of 201 b 203) (word_40 _ (reg_word 201 b 203 Hw))) as (f & Hf0 & Hf & Ef).
  exists s. unfold smg2_to_qpigs. rewrite (val_item_get _ _ _ (Hs _ _ Hin)). cbn [rbind].
  rewrite Ek, Enk. cbn [rbind]. cbv zeta.
  match goal with |- context [build_dict ?l] =>
    destruct (build_dict_map l) as (d & Ed & Hd); [|
      rewrite Ed; apply build_dict_keys in Ed; assert (NoDup (map fst l)) as Hnd by (cbn [map fst]; nodup_strings);
      assert (Hget : forall k r v, In (k, r) l -> r = Ok v -> dget k d = Some v);
      [intros k' r v Hin' Hr; destruct (Hd k' r Hin' Hnd) as (v' & Hv' & Hg); congruence|]] end.
  - repeat (apply Forall_cons; [cbn [snd]; entry_ok Hs Hw|]). apply Forall_nil.
  - clear Hd Hnd. exists d, k, f. split; [exact Es|]. do 2 (split; [reflexivity|]). split; [now split|].
    assert (forall x, ~ In x (dkeys d) -> dmem x d = false) as Hno
      by (intros x Hx; unfold dmem; now rewrite (proj2 (dget_none_keys x d) Hx)).
    split; [apply Hno; rewrite Ed; cbn; intuition discriminate|].
    split; [apply Hno; rewrite Ed; cbn; intuition discriminate|]. clear Ed Hno.
    intros key text Hi. cbn [In qpigs_texts] in Hi.
    repeat (destruct Hi as [Hi|Hi]; [injection Hi as <- <-; (eapply Hget; [cbn [In]; tauto|]);
      first [ reflexivity
            | apply fmt_item_over; [apply Hs; cbn [In sensor_entries]; tauto|auto with modbus|lia]
            | apply fmt_item_over_100; [apply Hs; cbn [In sensor_entries]; tauto|auto with modbus]
            | apply fmt_item_int_1; [apply Hs; cbn [In sensor_entries]; tauto|auto with modbus]
            | apply (fmt_item_near _ _ _ _ Ef), Hs; cbn [In sensor_entries]; tauto
            | apply abs_item_text, Hs; cbn [In sensor_entries]; tauto
            | apply int_fmt_item_text, Hs; cbn [In sensor_entries]; tauto
            | apply trunc_item_int, Hs; cbn [In sensor_entries]; tauto ]|]).
    destruct Hi.
Qed.

(** The status section of an SMG-II poll is produced for every
    content of the 31 status registers; its voltages are the exact decimals of
    the registers in tenths, its powers the magnitudes of the two's-complement
    registers, and the charging and discharging currents are never both
    non-zero. *)
Theorem smg2_qpigs_rendered (b : list Z) (Hl : List.length b = 31%nat) (Hw : Forall is_word b) :
  exists s d charge discharge, smg2_sensors b = Ok s /\ smg2_to_qpigs s = Ok d
  /\ (forall k a p, In (k, a, p) [("grid_voltage", 202, 1%nat); ("ac_output_voltage", 210, 1%nat);
        ("battery_voltage", 215, 2%nat); ("pv_input_voltage", 219, 1%nat);
        ("pv_input_current", 220, 1%nat)] ->
      dget k d = Some (VStr (tenths_text p (reg_of 201 b a))))
  /\ (forall k a w, In (k, a, w) [("output_active_power", 213, 4%nat); ("grid_ac_in_power", 204, 5%nat)] ->
      dget k d = Some (VStr (fmt_0d w (Z.abs (i16 (reg_of 201 b a))))))
  /\ dget "load_percent" d = Some (VStr (fmt_0d 3 (reg_of 201 b 225)))
  /\ dget "battery_charging_current" d = Some (VStr (fmt_0d 3 charge))
  /\ dget "battery_discharge_current" d = Some (VStr (fmt_0d 5 discharge))
  /\ 0 <= charge /\ 0 <= discharge /\ (charge = 0 \/ discharge = 0).
Proof.
  destruct (smg2_qpigs_fields b Hl Hw) as (s & d & k & f & Es & Ed & _ & _ & _ & _ & Ht).
  exists s, d, (Z.max 0 k), (Z.max 0 (- k)). split; [exact Es|]. split; [exact Ed|].
  assert (forall key text, In (key, text) (qpigs_texts b k f) -> dget key d = Some (VStr text)) as Hg by exact Ht.
  cbn [In qpigs_texts] in Hg.
  split; [|split; [|split; [|split; [|split; [|lia]]]]]; try (apply Hg; tauto).
  - intros key a p Hi. cbn [In] in Hi.
    repeat (destruct Hi as [Hi|Hi]; [injection Hi as <- <- <-; apply Hg; tauto|]). destruct Hi.
  - intros key a w Hi. cbn [In] in Hi.
    repeat (destruct Hi as [Hi|Hi]; [injection Hi as <- <- <-; apply Hg; tauto|]). destruct Hi.
Qed.

Lemma smg2_qpigs_rendered_witness :
  exists s d, smg2_sensors (map (fun i => 201 + Z.of_nat i) (seq 0 31)) = Ok s
  /\ smg2_to_qpigs s = Ok d /\ dget "battery_voltage" d = Some (VStr "21.50").
Proof.
  destruct (smg2_qpigs_rendered (map (fun i => 201 + Z.of_nat i) (seq 0 31)) eq_refl)
    as (s & d & c & dc & Es & Ed & Hv & _).
  - repeat (apply Forall_cons; [unfold is_word; cbn; lia|]). apply Forall_nil.
  - exists s, d. split; [exact Es|split; [exact Ed|]].
    exact (Hv "battery_voltage" 215 2%nat ltac:(cbn; tauto)).
Defined.

(** The configuration section of an SMG-II poll is produced for every
    content of the 38 configuration registers; the priorities are the names of
    the coded values and the documented default for any other value. *)
Theorem smg2_qpiri_rendered (b : list Z) (Hl : List.length b = 38%nat) (Hw : Forall is_word b) :
  exists c d, smg2_config b = Ok c /\ smg2_to_qpiri c = Ok d
  /\ (forall k a, In (k, a) [("low_battery_to_ac_bypass_voltage", 327);
        ("shut_down_battery_voltage", 329); ("bulk_charging_voltage", 324);
        ("float_charging_voltage", 325); ("high_battery_voltage_to_battery_mode", 326)] ->
      dget k d = Some (VStr (tenths_text 1 (reg_of 300 b a))))
  /\ dget "output_source_priority" d
     = Some (VStr (nth (Z.to_nat (reg_of 300 b 301)) ["UtilityFirst"; "SolarFirst"; "SBU"] "UtilityFirst"))
  /\ dget "charger_source_priority" d
     = Some (VStr (nth (Z.to_nat (reg_of 300 b 331))
         ["UtilityFirst"; "SolarFirst"; "SolarAndUtility"; "OnlySolar"] "UtilityFirst")).
Proof.
  destruct (smg2_config_ok b Hl) as (s & Es & Hs).
  exists s. unfold smg2_to_qpiri.
  rewrite (val_item_get s "input_voltage_range" (VInt (reg_of 300 b 302))) by (apply Hs; cbn [In config_entries]; tauto).
  rewrite (val_item_get s "output_priority" (VInt (reg_of 300 b 301))) by (apply Hs; cbn [In config_entries]; tauto).
  rewrite (val_item_get s "battery_charging_priority" (VInt (reg_of 300 b 331))) by (apply Hs; cbn [In config_entries]; tauto).
  cbn [rbind]. cbv zeta.
  match goal with |- context [build_dict ?l] =>
    destruct (build_dict_map l) as (d & -> & Hd); [|
      assert (NoDup (map fst l)) as Hnd by (cbn [map fst]; nodup_strings);
      assert (Hget : forall k r v, In (k, r) l -> r = Ok v -> dget k d = Some v);
      [intros k' r v Hin' Hr; destruct (Hd k' r Hin' Hnd) as (v' & Hv' & Hg); congruence|]] end.
  - repeat (apply Forall_cons; [cbn [snd]; entry_ok Hs Hw|]). apply Forall_nil.
  - clear Hd Hnd. exists d.
    split; [exact Es|split; [reflexivity|]]. split; [|split].
    + intros k' a Hi. cbn [In] in Hi.
      repeat (destruct Hi as [Hi|Hi]; [injection Hi as <- <-;
        (eapply Hget; [cbn [In]; tauto|]);
        apply fmt_item_over; [apply Hs; cbn [In config_entries]; tauto|auto with modbus|lia]|]).
      destruct Hi.
    + eapply Hget; [cbn [In]; tauto|]. do 2 f_equal.
      pose proof (reg_word 300 b 301 Hw) as Hr. unfold is_word in Hr.
      destruct (reg_of 300 b 301) as [|[[p|p|]|[p|p|]|]|]; try lia; try reflexivity;
        rewrite nth_overflow by (simpl; lia); reflexivity.
    + eapply Hget; [cbn [In]; tauto|]. do 2 f_equal.
      pose proof (reg_word 300 b 331 Hw) as Hr. unfold is_word in Hr.
      destruct (reg_of 300 b 331) as [|[[p|p|]|[p|p|]|]|]; try lia; try reflexivity;
        rewrite nth_overflow by (simpl; lia); reflexivity.
Qed.

Lemma smg2_qpiri_rendered_witness :
  exists c d, smg2_config (map (fun i => if (i =? 1)%nat then 2 else 300) (seq 0 38)) = Ok c
  /\ smg2_to_qpiri c = Ok d /\ dget "output_source_priority" d = Some (VStr "SBU").
Proof.
  destruct (smg2_qpiri_rendered (map (fun i => if (i =? 1)%nat then 2 else 300) (seq 0 38)) eq_refl)
    as (s & d & Es & Ed & _ & Ho & _).
  - repeat (apply Forall_cons; [unfold is_word; cbn; lia|]). apply Forall_nil.
  - exists s, d. split; [exact Es|split; [exact Ed|]]. exact Ho.
Defined.
