(* ===== verification/ModbusAdapter.v ===== *)
(** SMG-II adapter: [api/adapters/modbus.py].

    The snapshot cache and the semantic setters, over any [RegisterTransport];
    the EyBond transport is the second implementation of that interface. *)

From Stdlib Require Import ZArith List Bool Lia String Ascii.
From S2P Require Import Prelude PyStr PyInt PyFloat FloatFacts PyDict Crc Enums Pi18 ModbusRtu.
Import ListNotations.
#[local] Open Scope string_scope.
#[local] Open Scope Z_scope.

(** ** Modbus through an EyBond dongle

    [send] is [send_eybond_bytes] for the adapter's URI: the reply is empty when
    the dongle did not answer. *)

Section EybondTransport.
Context {S : Type} (send : bytes -> S -> res bytes * S).

Definition eybond_read_block (unit_id start count : Z) (s : S) : res (list Z) * S :=
  let '(resp, s) := send (build_read_holding_frame start count unit_id) s in
  (rbind resp (fun resp =>
     match resp with
     | [] => Raise (ConnectionError "no eybond-modbus response")
     | _ => parse_read_holding_response resp count unit_id
     end), s).

(** One round of the write loop: [inl] the answer to return, [inr] the error to
    remember. *)
Definition eybond_write_once (unit_id address value func_code : Z) (s : S)
    : res (pydict + pydict) * S :=
  match build_write_single_frame address value unit_id func_code with
  | Raise e => (Raise e, s)
  | Ok frame =>
      let '(resp, s) := send frame s in
      (rbind resp (fun resp =>
         match resp with
         | [] => Ok (inr (error_dict "no eybond-modbus write response"))
         | _ => let result := parse_write_response resp unit_id in
                Ok (if dmem "error" result then inr result else inl result)
         end), s)
  end.

Fixpoint eybond_write_loop (unit_id address value : Z) (codes : list Z) (last : pydict) (s : S)
    : res pydict * S :=
  match codes with
  | [] => (Ok last, s)
  | func_code :: codes =>
      match eybond_write_once unit_id address value func_code s with
      | (Raise e, s) => (Raise e, s)
      | (Ok (inl result), s) => (Ok result, s)
      | (Ok (inr last), s) => eybond_write_loop unit_id address value codes last s
      end
  end.

Definition eybond_write_register (unit_id address value : Z) (s : S) : res pydict * S :=
  eybond_write_loop unit_id address value [0x06; 0x10] (error_dict "eybond-modbus write failed") s.

Context (send_bytes : forall f s b s', send f s = (Ok b, s') -> bytes_ok b) (unit_id : Z).

#[refine] Instance eybond_transport : RegisterTransport S := {
  read_block start count s := eybond_read_block unit_id start count s;
  write_register address value s := eybond_write_register unit_id address value s
}.
Proof.
  intros start count s regs s' Hc. unfold eybond_read_block.
  destruct (send _ s) as [[resp|e] s1] eqn:E; [|discriminate]. cbn [rbind].
  intros H. injection H as H <-. apply send_bytes in E.
  destruct resp as [|x resp]; [discriminate|].
  pose proof (parse_read_ok_inv _ _ _ _ E H) as Hfr.
  destruct Hfr as (func & data & lo & hi & tail & Er & Hf & Hcrc). rewrite Er in *.
  rewrite parse_read_frame in H by auto.
  assert (bytes_ok data) as Hd.
  { apply bytes_ok_app in E as [Hok _].
    do 3 (inversion Hok as [|? ? ? Hok']; subst; clear Hok; rename Hok' into Hok). exact Hok. }
  destruct (words_from_words data _ Hd _ _ H) as [H1 H2]. split; [exact H1|].
  rewrite H2. now apply word_count_le.
Defined.
End EybondTransport.

(** ** The adapter *)

(** [_SNAPSHOT_TTL] *)
Definition SNAPSHOT_TTL : float := flit 5 1.

(** [_SNAPSHOT_CACHE]: device URI to the time of the read and its result. *)
Definition snapshot_cache := dict (float * option snapshot).

Section Adapter.
Context {S : Type} `{RegisterTransport S} (uri : string).

(** [_cached_snapshot]; [now] is [time.monotonic()]. *)
Definition cached_snapshot (now : float) (st : snapshot_cache * S)
    : option snapshot * (snapshot_cache * S) :=
  let '(cache, s) := st in
  let miss :=
    let '(r, s) := read_smg2_snapshot_via s in
    let snap := match r with Ok x => Some x | Raise _ => None end in
    (snap, (dset uri (now, snap) cache, s)) in
  match dget uri cache with
  | Some (ts, snap) => if flt (fsub now ts) SNAPSHOT_TTL then (snap, (cache, s)) else miss
  | None => miss
  end.

(** What one command makes of a snapshot. *)
Definition project (command : string) (snap : option snapshot) : res pydict :=
  match snap with
  | None => Ok []
  | Some (sensors, config, faults) =>
      if String.eqb command "QPIGS" then smg2_to_qpigs sensors
      else if String.eqb command "QPIRI" then smg2_to_qpiri config
      else Ok [("sensors", VDict sensors); ("config", VDict config); ("faults", VDict faults)]
  end.

Definition modbus_get_data (now : float) (command : string) (st : snapshot_cache * S)
    : res pydict * (snapshot_cache * S) :=
  let '(snap, st) := cached_snapshot now st in (project command snap, st).

Definition modbus_set_data (command : string) : pydict :=
  error_dict "raw set_data is not supported for Modbus; use semantic setters".

Definition priority_value (mode : OutputSourcePrioritySetting) : Z :=
  match mode with
  | OutputSourcePrioritySetting_UTILITY_FIRST => 0
  | OutputSourcePrioritySetting_SOLAR_FIRST => 1
  | OutputSourcePrioritySetting_SBU_PRIORITY => 2
  end.

Definition modbus_set_output_source_priority (mode : OutputSourcePrioritySetting) (s : S)
    : res pydict * S := write_register 301 (priority_value mode) s.

Definition charge_priority_value (mode : ChargeSourcePrioritySetting) : Z :=
  match mode with
  | ChargeSourcePrioritySetting_UTILITY_FIRST => 0
  | ChargeSourcePrioritySetting_SOLAR_FIRST => 1
  | ChargeSourcePrioritySetting_SOLAR_AND_UTILITY => 2
  end.

Definition modbus_set_charge_source_priority (mode : ChargeSourcePrioritySetting) (s : S)
    : res pydict * S := write_register 331 (charge_priority_value mode) s.

(** [max(0, min(0xFFFF, int(round(v * 10.0))))] *)
Definition reg_value_of (v : float) : res Z :=
  rmap (fun n => Z.max 0 (Z.min 0xFFFF n)) (round_to_int (fmul v (float_of_Z 10))).

Definition write_res (address : Z) (value : res Z) (s : S) : res pydict * S :=
  match value with
  | Raise e => (Raise e, s)
  | Ok v => write_register address v s
  end.

Definition modbus_set_battery_bulk_voltage (voltage : float) (s : S) : res pydict * S :=
  write_res 324 (reg_value_of voltage) s.

Definition modbus_set_battery_float_voltage (voltage : float) (s : S) : res pydict * S :=
  write_res 325 (reg_value_of voltage) s.

Definition modbus_set_max_combined_charge_current (amps : Z) (s : S) : res pydict * S :=
  write_res 332 (rbind (float_of_int amps) reg_value_of) s.

Definition modbus_set_battery_charge_current (amps : Z) (s : S) : res pydict * S :=
  modbus_set_max_combined_charge_current amps s.

Definition modbus_set_max_utility_charge_current (amps : Z) (s : S) : res pydict * S :=
  write_register 333 (amps * 10) s.

(** ** Lemmas *)

Lemma cached_snapshot_fresh now cache s :
  let '(snap, (cache', s')) := cached_snapshot now (cache, s) in
  exists ts, dget uri cache' = Some (ts, snap)
  /\ (ts = now \/ (dget uri cache = Some (ts, snap) /\ cache' = cache /\ s' = s)).
Proof.
  unfold cached_snapshot.
  destruct (dget uri cache) as [[ts snap]|] eqn:E.
  - destruct (flt (fsub now ts) SNAPSHOT_TTL).
    + exists ts. split; [exact E|]. right. auto.
    + destruct (read_smg2_snapshot_via s) as [r s']. exists now. split; [apply dget_dset_eq|auto].
  - destruct (read_smg2_snapshot_via s) as [r s']. exists now. split; [apply dget_dset_eq|auto].
Qed.

Lemma cached_snapshot_hit now ts snap cache s :
  dget uri cache = Some (ts, snap) -> flt (fsub now ts) SNAPSHOT_TTL = true ->
  cached_snapshot now (cache, s) = (snap, (cache, s)).
Proof. intros E Hf. unfold cached_snapshot. now rewrite E, Hf. Qed.

(** A poll cycle: commands with the times they run at, results in order. *)
Fixpoint get_all (cmds : list (float * string)) (st : snapshot_cache * S)
    : list (res pydict) * (snapshot_cache * S) :=
  match cmds with
  | [] => ([], st)
  | (now, c) :: cmds =>
      let '(r, st) := modbus_get_data now c st in
      let '(rs, st) := get_all cmds st in
      (r :: rs, st)
  end.

Lemma get_all_hits cmds ts snap cache s :
  dget uri cache = Some (ts, snap) ->
  Forall (fun nc => flt (fsub (fst nc) ts) SNAPSHOT_TTL = true) cmds ->
  get_all cmds (cache, s) = (map (fun nc => project (snd nc) snap) cmds, (cache, s)).
Proof.
  intros E Hf. induction Hf as [|[now c] cmds Hn _ IH]; [reflexivity|].
  cbn [get_all]. unfold modbus_get_data. rewrite (cached_snapshot_hit _ _ _ _ _ E Hn), IH.
  reflexivity.
Qed.

(** ** Properties *)

(** All the commands of a poll cycle that start within the cache
    lifetime of the first read share one snapshot, a failed one included: the
    transport is not used again and every section is a projection of the same
    registers. *)
Theorem poll_cycle_reads_once (now : float) (c : string) (cmds : list (float * string))
    (cache : snapshot_cache) (s : S)
    (Hmiss : dget uri cache = None)
    (Hcycle : Forall (fun nc => flt (fsub (fst nc) now) SNAPSHOT_TTL = true) cmds) :
  exists snap cache',
    get_all ((now, c) :: cmds) (cache, s)
    = (map (fun nc => project (snd nc) snap) ((now, c) :: cmds),
       (cache', snd (read_smg2_snapshot_via s)))
    /\ (snap = None <-> is_ok (fst (read_smg2_snapshot_via s)) = false).
Proof.
  cbn [get_all]. unfold modbus_get_data at 1, cached_snapshot. rewrite Hmiss.
  destruct (read_smg2_snapshot_via s) as [r s'] eqn:E. cbn [fst snd].
  set (snap := match r with Ok x => Some x | Raise _ => None end).
  rewrite (get_all_hits cmds now snap) by (apply dget_dset_eq || exact Hcycle).
  exists snap. eexists. split; [reflexivity|]. unfold snap. now destruct r.
Qed.

(** No section the SMG-II adapter answers to a fault or warning
    query carries the keys the warning entities look for: the fault codes stay
    nested one level below. *)
Theorem modbus_fault_section_nested (now : float) (st : snapshot_cache * S) (c : string) (d : pydict)
    (Hc : In c ["QFWS"; "QPIWS"])
    (Hget : fst (modbus_get_data now c st) = Ok d) :
  dget "fault_code" d = None /\ dget "has_fault" d = None /\ dget "has_warning" d = None
  /\ (d = [] \/ exists sensors config faults,
        d = [("sensors", VDict sensors); ("config", VDict config); ("faults", VDict faults)]).
Proof.
  unfold modbus_get_data in Hget. destruct (cached_snapshot now st) as [snap st'].
  cbn [fst] in Hget. unfold project in Hget. destruct snap as [[[se co] fa]|].
  - assert (String.eqb c "QPIGS" = false /\ String.eqb c "QPIRI" = false) as [E1 E2]
      by (cbn [In] in Hc; destruct Hc as [<-|[<-|[]]]; now split).
    rewrite E1, E2 in Hget. apply ok_inj in Hget as <-. repeat split; try reflexivity. right. eauto.
  - apply ok_inj in Hget as <-. repeat split; try reflexivity. now left.
Qed.

(** The voltage setters write a register value in [0, 65535] for
    every finite voltage, and refuse NaN and infinities with an exception before
    anything is sent. *)
Theorem voltage_register_clamped (v : float) (s : S) :
  (forall n, reg_value_of v = Ok n -> is_word n
     /\ modbus_set_battery_bulk_voltage v s = write_register 324 n s
     /\ modbus_set_battery_float_voltage v s = write_register 325 n s)
  /\ (forall e, reg_value_of v = Raise e ->
        modbus_set_battery_bulk_voltage v s = (Raise e, s)
        /\ modbus_set_battery_float_voltage v s = (Raise e, s)).
Proof.
  unfold modbus_set_battery_bulk_voltage, modbus_set_battery_float_voltage. split.
  - intros n E. rewrite E. cbn [write_res]. split; [|now split].
    unfold reg_value_of in E. destruct (round_to_int _) as [m|]; [|discriminate].
    apply ok_inj in E as <-. unfold is_word. lia.
  - intros e E. rewrite E. now split.
Qed.
End Adapter.

Lemma poll_cycle_reads_once_witness :
  exists snap cache',
    get_all (S := unit) (H := demo_transport) "modbus://h:502"
      [(float_of_Z 100, "QPIGS"); (float_of_Z 101, "QPIRI"); (float_of_Z 104, "QFWS")] ([], tt)
    = (map (fun nc => project (snd nc) snap)
         [(float_of_Z 100, "QPIGS"); (float_of_Z 101, "QPIRI"); (float_of_Z 104, "QFWS")],
       (cache', tt)).
Proof.
  destruct (poll_cycle_reads_once (H := demo_transport) "modbus://h:502" (float_of_Z 100) "QPIGS"
    [(float_of_Z 101, "QPIRI"); (float_of_Z 104, "QFWS")] [] tt) as (snap & cache' & E & _).
  - reflexivity.
  - repeat (apply Forall_cons; [vm_compute; reflexivity|]). apply Forall_nil.
  - exists snap, cache'. exact E.
Defined.

Lemma modbus_fault_section_nested_witness :
  exists d, fst (modbus_get_data (S := unit) (H := demo_transport) "u" (float_of_Z 0) "QFWS" ([], tt)) = Ok d
  /\ dget "fault_code" d = None.
Proof.
  destruct (fst (modbus_get_data (S := unit) (H := demo_transport) "u" (float_of_Z 0) "QFWS" ([], tt)))
    as [d|] eqn:E; [|vm_compute in E; discriminate E].
  exists d. split; [reflexivity|].
  exact (proj1 (modbus_fault_section_nested (H := demo_transport) "u" (float_of_Z 0) ([], tt) "QFWS" d
    (or_introl eq_refl) E)).
Defined.

Lemma voltage_register_clamped_witness :
  is_word 564 /\ modbus_set_battery_bulk_voltage (S := unit) (H := demo_transport) (flit 564 10) tt
     = write_register (RegisterTransport := demo_transport) 324 564 tt.
Proof.
  destruct (proj1 (voltage_register_clamped (H := demo_transport) (flit 564 10) tt) 564) as (H1 & H2 & _).
  - vm_compute. reflexivity.
  - split; [exact H1|exact H2].
Defined.
