(* ===== verification/Diagnostics.v ===== *)
(** Diagnostics buffers: [frame_log.py] (per-command ring of raw frames) and
    [diag_hub.py] (event ring with live subscribers). *)

From Stdlib Require Import ZArith List Bool Lia String Ascii.
From S2P Require Import Prelude PyStr PyInt PyFloat PyDict.
Import ListNotations.
#[local] Open Scope string_scope.
#[local] Open Scope list_scope.
#[local] Open Scope Z_scope.

(** ** Bounded rings *)

(** [deque(maxlen=n)]: appending drops from the left. *)
Definition ring_append {A} (maxlen : nat) (x : A) (buf : list A) : list A :=
  let buf := buf ++ [x] in skipn (List.length buf - maxlen) buf.

(** The last [n] elements. *)
Definition lastn {A} (n : nat) (l : list A) : list A := skipn (List.length l - n) l.

Lemma lastn_length {A} n (l : list A) : (List.length (lastn n l) <= n)%nat.
Proof. unfold lastn. rewrite length_skipn. lia. Qed.

Lemma ring_append_lastn {A} n (x : A) l : ring_append n x (lastn n l) = lastn n (l ++ [x]).
Proof.
  unfold ring_append, lastn.
  set (k := (List.length l - n)%nat).
  replace (skipn k l ++ [x]) with (skipn k (l ++ [x])).
  - rewrite skipn_skipn, length_skipn, length_app. cbn [List.length]. f_equal. unfold k. lia.
  - rewrite skipn_app. replace (k - List.length l)%nat with 0%nat by (unfold k; lia). reflexivity.
Qed.

(** ** Frame log *)

Definition MAX_FRAMES_PER_COMMAND : nat := 20.

Definition hex_lower (d : Z) : ascii := if d <? 10 then chr (48 + d) else chr (87 + d).

(** [f'{c:02x}'] of a byte *)
Definition hex2_lower (c : Z) : string := str [hex_lower (c / 16); hex_lower (c mod 16)].

(** [_safe_ascii] *)
Definition safe_ascii (b : bytes) : string :=
  fold_right (fun (c : Z) (s : string) =>
    ((if ((0x20 <=? c) && (c <? 0x7F))%Z then str [chr c]
      else "\x" ++ hex2_lower c) ++ s)%string) EmptyString b.

Record frame_record := {
  timestamp : string;
  byte_count : Z;
  crc_valid : bool;
  raw_hex : string;
  raw_ascii : string
}.

Definition frame_log := dict (list frame_record).

(** [record]; [now] is the formatted current time. *)
Definition record_frame (now command : string) (raw_bytes : bytes) (ok : bool) (log : frame_log)
    : frame_log :=
  let buf := match dget command log with Some buf => buf | None => [] end in
  let entry := {| timestamp := now; byte_count := Z.of_nat (List.length raw_bytes);
                  crc_valid := ok; raw_hex := join " " (map hex2_lower raw_bytes);
                  raw_ascii := safe_ascii raw_bytes |} in
  dset command (ring_append MAX_FRAMES_PER_COMMAND entry buf) log.

Definition log_snapshot (log : frame_log) : frame_log := log.
Definition log_clear (log : frame_log) : frame_log := [].

(** One call of [record]. *)
Record frame_call := { fc_now : string; fc_command : string; fc_raw : bytes; fc_ok : bool }.

Definition record_call (log : frame_log) (c : frame_call) : frame_log :=
  record_frame (fc_now c) (fc_command c) (fc_raw c) (fc_ok c) log.

Definition entry_of (c : frame_call) : frame_record :=
  {| timestamp := fc_now c; byte_count := Z.of_nat (List.length (fc_raw c)); crc_valid := fc_ok c;
     raw_hex := join " " (map hex2_lower (fc_raw c)); raw_ascii := safe_ascii (fc_raw c) |}.

(** Abstract view: the whole history of a command. *)
Definition history (command : string) (calls : list frame_call) : list frame_record :=
  map entry_of (filter (fun c => String.eqb (fc_command c) command) calls).

Lemma history_snoc k calls c :
  history k (calls ++ [c]) = history k calls ++ (if String.eqb (fc_command c) k then [entry_of c] else []).
Proof.
  unfold history. rewrite filter_app, map_app. cbn [filter].
  now destruct (String.eqb (fc_command c) k).
Qed.

(** After any sequence of recorded frames the buffer of a command
    holds exactly the most recent twenty frames of that command, oldest first;
    frames of other commands never evict them. *)
Theorem frame_log_keeps_last (calls : list frame_call) (k : string) :
  let log := fold_left record_call calls [] in
  match dget k log with
  | Some buf => buf = lastn MAX_FRAMES_PER_COMMAND (history k calls) /\ (List.length buf <= 20)%nat
  | None => history k calls = []
  end.
Proof.
  cbv zeta.
  assert (match dget k (fold_left record_call calls []) with
          | Some buf => buf = lastn MAX_FRAMES_PER_COMMAND (history k calls)
          | None => history k calls = []
          end) as H.
  { induction calls as [|c calls IH] using rev_ind; [reflexivity|].
    rewrite fold_left_app. cbn [fold_left]. unfold record_call at 1, record_frame.
    rewrite history_snoc. destruct (String.eqb_spec (fc_command c) k) as [E|E].
    - rewrite E, dget_dset_eq. destruct (dget k (fold_left record_call calls [])) as [buf|].
      + rewrite IH. apply ring_append_lastn.
      + rewrite IH. reflexivity.
    - rewrite dget_dset_ne by congruence. now rewrite app_nil_r. }
  destruct (dget k _); [|exact H]. split; [exact H|]. rewrite H. apply lastn_length.
Qed.

(** ** Diagnostic event hub *)

Definition RING_MAX : nat := 1000.

Definition event := pydict.

(** A subscriber queue: its capacity ([0] is unbounded) and contents. *)
Record sub_queue := { q_max : nat; q_items : list event }.

Definition queue_full (q : sub_queue) : bool :=
  (0 <? q_max q)%nat && (q_max q <=? List.length (q_items q))%nat.

(** [put_nowait], with the exception swallowed *)
Definition put_or_drop (e : event) (q : sub_queue) : sub_queue :=
  if queue_full q then q else {| q_max := q_max q; q_items := q_items q ++ [e] |}.

Record hub := { ring : list event; subscribers : list (Z * sub_queue) }.

Definition hub_active (h : hub) : bool :=
  match subscribers h with [] => false | _ => true end.

(** [publish]; [now] is [round(time.time(), 3)]. *)
Definition publish (now : float) (e : event) (h : hub) : hub :=
  if hub_active h then
    let e := dsetdefault "ts" (VFloat now) e in
    {| ring := ring_append RING_MAX e (ring h);
       subscribers := map (fun iq => (fst iq, put_or_drop e (snd iq))) (subscribers h) |}
  else h.

Definition has_sub (i : Z) (h : hub) : bool := existsb (fun iq => fst iq =? i) (subscribers h).

Definition subscribe (i : Z) (q : sub_queue) (h : hub) : hub :=
  if has_sub i h then h
  else {| ring := ring h; subscribers := subscribers h ++ [(i, q)] |}.

Definition unsubscribe (i : Z) (h : hub) : hub :=
  {| ring := ring h; subscribers := filter (fun iq => negb (fst iq =? i)) (subscribers h) |}.

(** [items[-limit:] if limit else items] *)
Definition recent (limit : nat) (h : hub) : list event :=
  match limit with
  | O => ring h
  | _ => lastn limit (ring h)
  end.

Definition hub_clear (h : hub) : hub := {| ring := []; subscribers := [] |}.

(** Publishing changes nothing while nobody is subscribed; otherwise
    every subscriber with room receives the event as its last item, a full one
    is left as it was, nobody is added or removed, and the ring never exceeds
    its bound. *)
Theorem publish_fanout (now : float) (e : event) (h : hub) :
  (subscribers h = [] -> publish now e h = h)
  /\ map fst (subscribers (publish now e h)) = map fst (subscribers h)
  /\ (forall i q, In (i, q) (subscribers h) -> exists q', In (i, q') (subscribers (publish now e h))
       /\ q_items q' = q_items q ++ (if queue_full q then [] else [dsetdefault "ts" (VFloat now) e]))
  /\ ((List.length (ring h) <= RING_MAX)%nat ->
      (List.length (ring (publish now e h)) <= RING_MAX)%nat).
Proof.
  unfold publish, hub_active. destruct (subscribers h) as [|iq subs] eqn:E.
  - rewrite E. split; [reflexivity|]. split; [reflexivity|]. split; [intros i q []|auto].
  - cbn [subscribers ring]. split; [discriminate|]. split; [|split].
    + rewrite map_map. reflexivity.
    + intros i q Hin.
      exists (put_or_drop (dsetdefault "ts" (VFloat now) e) q). split.
      * apply (in_map (fun iq => (fst iq, put_or_drop (dsetdefault "ts" (VFloat now) e) (snd iq)))) in Hin.
        exact Hin.
      * unfold put_or_drop. destruct (queue_full q); [now rewrite app_nil_r|reflexivity].
    + intros _. unfold ring_append. rewrite length_skipn. lia.
Qed.

Lemma publish_fanout_witness :
  publish (flit 1 1) [("t", VStr "frame")] {| ring := []; subscribers := [] |}
  = {| ring := []; subscribers := [] |}.
Proof.
  exact (proj1 (publish_fanout (flit 1 1) [("t", VStr "frame")] {| ring := []; subscribers := [] |}) eq_refl).
Defined.
