(* ===== verification/Transports.v ===== *)
(** Single-shot transports: [api/protocols/elfin_tcp.py], [serial_uart.py] and
    [pi18_tcp.py], with the query functions built on them.

    A protocol object is its buffer; [data_received] maps the buffer and a chunk
    to the new buffer and the effects of the call, in order. A query plays the
    chunks the connection delivers until the transport is closed. *)

From Stdlib Require Import ZArith List Bool Lia String Ascii.
From S2P Require Import Prelude PyStr PyInt PyFloat PyDict Crc Voltronic Pi18 Diagnostics.
Import ListNotations.
#[local] Open Scope string_scope.
#[local] Open Scope list_scope.
#[local] Open Scope Z_scope.

(** ** Device URIs *)

(** [_, addr = device.split(scheme, 1); host, port_str = addr.split(':')] *)
Definition parse_host_port (scheme device : string) : res (string * Z) :=
  match split_once scheme device with
  | None => Raise (ValueError "not enough values to unpack (expected 2, got 1)")
  | Some (_, addr) =>
      match split_char ":" addr with
      | [host; port_str] => (let! port := py_int port_str in Ok (host, port))%py
      | _ => Raise (ValueError "wrong number of values to unpack")
      end
  end.

Definition parse_tcp_uri : string -> res (string * Z) := parse_host_port "tcp://".
Definition parse_pi18_tcp_uri : string -> res (string * Z) := parse_host_port "pi18://".
Definition parse_modbus_uri : string -> res (string * Z) := parse_host_port "modbus://".

Definition parse_pi18_serial_uri (device : string) : res string :=
  match split_once "pi18-serial://" device with
  | None => Raise (ValueError "not enough values to unpack (expected 2, got 1)")
  | Some (_, path) => Ok path
  end.

(** ** Protocol objects *)

(** What a call of [data_received] does. *)
Inductive effect (A : Type) : Type :=
| RecordFrame (command : string) (raw : bytes) (ok : bool)
| Respond (data : A)
| RespondError (e : exn)
| Close.

Arguments RecordFrame {A}.
Arguments Respond {A}.
Arguments RespondError {A}.
Arguments Close {A}.

Definition LF : Z := 0x0A.

(** [connection_made] *)
Definition voltronic_packet (command_bytes : bytes) : bytes :=
  command_bytes ++ crc16_voltronic command_bytes ++ [CR].

(** The part of [data_received] after a terminator was seen. *)
Definition voltronic_complete (command : string) (strict_crc : bool) (buffer : bytes)
    : list (effect string) :=
  let raw_bytes := bbefore CR buffer in
  let ok := fst (validate_voltronic_response raw_bytes) in
  RecordFrame command raw_bytes ok ::
  (if negb ok && strict_crc then [RespondError (ValueError "CRC mismatch"); Close]
   else [Respond (decode_utf8_ignore (bstrip raw_bytes)); Close]).

Definition has_byte (x : Z) (b : bytes) : bool := existsb (Z.eqb x) b.

Definition elfin_data_received (command : string) (strict_crc : bool) (buffer data : bytes)
    : bytes * list (effect string) :=
  let buffer := buffer ++ data in
  if has_byte CR buffer || has_byte LF buffer
  then (buffer, voltronic_complete (upper command) strict_crc buffer)
  else (buffer, []).

Definition serial_data_received (command : string) (strict_crc : bool) (buffer data : bytes)
    : bytes * list (effect string) :=
  let buffer := buffer ++ data in
  if has_byte CR buffer
  then (buffer, voltronic_complete (upper command) strict_crc buffer)
  else (buffer, []).

Definition pi18_data_received (command : string) (strict_crc : bool) (buffer data : bytes)
    : bytes * list (effect bytes) :=
  let buffer := buffer ++ data in
  if has_byte CR buffer then
    let body := bbefore CR buffer in
    let ok := fst (validate_pi18_response body) in
    (buffer,
     RecordFrame ("PI18:" ++ (if String.eqb command "" then "?" else command))%string body ok ::
     (if negb ok && strict_crc then [RespondError (ValueError "CRC mismatch"); Close]
      else [Respond (body ++ [CR]); Close]))
  else (buffer, []).

(** ** One query

    [fut] is resolved by the first response: [Some None] for an error. *)

Definition is_close {A} (e : effect A) : bool := match e with Close => true | _ => false end.

Definition resolve {A} (fut : option (option A)) (e : effect A) : option (option A) :=
  match fut, e with
  | None, Respond d => Some (Some d)
  | None, RespondError _ => Some None
  | _, _ => fut
  end.

(** The chunks up to the one after which the transport is closed. *)
Fixpoint play {A} (recv : bytes -> bytes -> bytes * list (effect A))
    (buffer : bytes) (chunks : list bytes) (fut : option (option A)) : option (option A) :=
  match chunks with
  | [] => fut
  | data :: chunks =>
      let '(buffer, effects) := recv buffer data in
      let fut := fold_left resolve effects fut in
      if existsb is_close effects then fut else play recv buffer chunks fut
  end.

(** What [await asyncio.wait_for(fut, timeout)] gives: [connection_lost] with an
    exception resolves the future with an error, a timeout leaves [None]. *)
Definition query {A} (recv : bytes -> bytes -> bytes * list (effect A)) (chunks : list bytes)
    : option A :=
  match play recv [] chunks None with
  | Some (Some d) => Some d
  | _ => None
  end.

(** [connection_lost]: a connection that breaks with an exception reports it. *)
Definition connection_lost {A} (exc : option exn) : list (effect A) :=
  match exc with Some e => [RespondError e] | None => [] end.

(** A query whose connection ends after the chunks, before the timeout. *)
Definition query_lost {A} (recv : bytes -> bytes -> bytes * list (effect A)) (chunks : list bytes) (exc : option exn)
    : option A :=
  match fold_left resolve (connection_lost exc) (play recv [] chunks None) with
  | Some (Some d) => Some d
  | _ => None
  end.

(** The network as a query sees it: connecting may fail; otherwise the chunks
    delivered before the timeout or the end of the connection. *)
Definition connection := res (list bytes).

(** [VoltronicAdapter.get_data] *)
Definition voltronic_get_data (uri command : string) (strict_crc : bool) (conn : connection)
    : pydict :=
  let recv := if startswith uri "tcp://" then elfin_data_received command strict_crc
              else serial_data_received command strict_crc in
  let connect :=
    (let! _ := (if startswith uri "tcp://" then rmap (fun _ => tt) (parse_tcp_uri uri) else Ok tt) in
     let! _ := encode_ascii command in
     conn)%py in
  match connect with
  | Raise _ => []
  | Ok chunks =>
      match query recv chunks with
      | None => []
      | Some result =>
          if String.eqb result "" then []
          else rcatch (decode_direct_response command result) []
      end
  end.

(** [query_pi18]; the frame is built before the [try]. *)
Definition query_pi18 (device command : string) (strict_crc : bool) (conn : connection)
    : res pydict :=
  (let! _ := build_request_frame command in
   let connect :=
     if startswith device "pi18://" then (let! _ := parse_pi18_tcp_uri device in conn)
     else if startswith device "pi18-serial://" then (let! _ := parse_pi18_serial_uri device in conn)
     else Raise (GenericException "unknown scheme") in
   Ok (match connect with
       | Raise _ => []
       | Ok chunks =>
           match query (pi18_data_received command strict_crc) chunks with
           | None => []
           | Some raw => rcatch (decode_pi18_response command raw) []
           end
       end))%py.

(** [send_voltronic_set_command]: the reply read within the timeout, [None] on a
    timeout. *)
Definition send_voltronic_set_command (command : string) (conn : res (option bytes))
    (exn_str : exn -> string) : pydict :=
  match (let! _ := encode_ascii (strip command) in conn)%py with
  | Raise e => [("error", VStr (exn_str e))]
  | Ok None => [("error", VStr "timeout waiting for ACK/NAK")]
  | Ok (Some data) =>
      let resp := strip (decode_utf8_ignore data) in
      if str_contains "ACK" resp then [("status", VStr "ACK")]
      else if str_contains "NAK" resp then [("status", VStr "NAK")]
      else if String.eqb resp "" then [("error", VStr "empty response")]
      else [("raw", VStr resp)]
  end.

(** ** Lemmas *)

(** However the connection ends, the query gives what the chunks before gave: an
    answer already taken is kept, and a loss reads as the timeout does. *)
Lemma query_lost_chunks {A} (recv : bytes -> bytes -> bytes * list (effect A)) chunks exc :
  query_lost recv chunks exc = query recv chunks.
Proof. unfold query_lost, query. now destruct exc, (play recv [] chunks None) as [[d|]|]. Qed.

Lemma has_byte_app x a b : has_byte x (a ++ b) = has_byte x a || has_byte x b.
Proof. apply existsb_app. Qed.

Lemma bbefore_has x a b : has_byte x a = true -> bbefore x (a ++ b) = bbefore x a.
Proof.
  unfold has_byte. induction a as [|y a IH]; simpl; [discriminate|].
  rewrite Z.eqb_sym. destruct (y =? x); [reflexivity|]. simpl. intros H. now rewrite IH.
Qed.

(** The reply of a collector that waits for one terminator, from the whole
    stream it received. *)
Section Chunks.
Context {A : Type} (recv : bytes -> bytes -> bytes * list (effect A))
        (complete : bytes -> list (effect A)) (term : bytes -> bool).

Context (recv_spec : forall b d, recv b d = (b ++ d, if term (b ++ d) then complete (b ++ d) else []))
        (term_app : forall b d, term b = true -> term (b ++ d) = true)
        (complete_prefix : forall b d, term b = true -> complete (b ++ d) = complete b)
        (complete_closes : forall b, existsb is_close (complete b) = true).

Lemma play_stream buffer chunks :
  term buffer = false ->
  play recv buffer chunks None
  = if term (buffer ++ List.concat chunks)
    then fold_left resolve (complete (buffer ++ List.concat chunks)) None else None.
Proof.
  revert buffer. induction chunks as [|d chunks IH]; intros buffer Hb.
  - cbn [play List.concat]. rewrite app_nil_r. now rewrite Hb.
  - cbn [play List.concat]. rewrite recv_spec, app_assoc.
    destruct (term (buffer ++ d)) eqn:E.
    + rewrite complete_closes, (term_app _ _ E), (complete_prefix _ _ E). reflexivity.
    + cbn [fold_left existsb]. now rewrite IH.
Qed.
End Chunks.

Lemma voltronic_complete_closes c s b : existsb is_close (voltronic_complete c s b) = true.
Proof. unfold voltronic_complete. cbn. now destruct (negb _ && s). Qed.

Lemma voltronic_complete_prefix c s b d : has_byte CR b = true ->
  voltronic_complete c s (b ++ d) = voltronic_complete c s b.
Proof. intros H. unfold voltronic_complete. now rewrite bbefore_has. Qed.

(** The reply both Voltronic transports extract from a stream. *)
Definition voltronic_reply (strict_crc : bool) (stream : bytes) : option string :=
  if has_byte CR stream then
    let raw := bbefore CR stream in
    if negb (fst (validate_voltronic_response raw)) && strict_crc then None
    else Some (decode_utf8_ignore (bstrip raw))
  else None.

Lemma serial_query_stream c s chunks :
  query (serial_data_received c s) chunks = voltronic_reply s (List.concat chunks).
Proof.
  unfold query. rewrite (play_stream (serial_data_received c s) (voltronic_complete (upper c) s) (has_byte CR)).
  - cbn [app]. unfold voltronic_reply, voltronic_complete. destruct (has_byte CR (List.concat chunks)); [|reflexivity].
    now destruct (negb _ && s).
  - intros b d. unfold serial_data_received. now destruct (has_byte CR (b ++ d)).
  - intros b d H. now rewrite has_byte_app, H.
  - intros b d H. now apply voltronic_complete_prefix.
  - apply voltronic_complete_closes.
  - reflexivity.
Qed.

(** Without a line feed before the carriage return the Elfin collector answers alike. *)
Lemma elfin_query_stream command strict chunks : has_byte LF (List.concat chunks) = false ->
  query (elfin_data_received command strict) chunks = voltronic_reply strict (List.concat chunks).
Proof.
  intros Hlf. rewrite <- serial_query_stream with (c := command).
  unfold query. f_equal.
  assert (Hgen : forall buffer chunks fut, has_byte LF (buffer ++ List.concat chunks) = false ->
    play (elfin_data_received command strict) buffer chunks fut
    = play (serial_data_received command strict) buffer chunks fut).
  { clear. intros buffer chunks. revert buffer.
    induction chunks as [|d chunks IH]; intros buffer fut H; [reflexivity|].
    cbn [play List.concat] in *. rewrite app_assoc in H.
    unfold elfin_data_received, serial_data_received. cbv zeta.
    assert (has_byte LF (buffer ++ d) = false) as ->.
    { rewrite has_byte_app in H. now apply orb_false_iff in H as [H _]. }
    rewrite orb_false_r. destruct (has_byte CR (buffer ++ d)) eqn:E.
    - now rewrite voltronic_complete_closes.
    - cbn [fold_left existsb]. now apply IH. }
  rewrite Hgen; [reflexivity|exact Hlf].
Qed.

(** The PI18 collector answers from the whole stream as well. *)
Definition pi18_reply (strict : bool) (stream : bytes) : option bytes :=
  let body := bbefore CR stream in
  if has_byte CR stream && negb (negb (fst (validate_pi18_response body)) && strict) then Some (body ++ [CR]) else None.

Lemma pi18_query_stream command strict chunks :
  query (pi18_data_received command strict) chunks = pi18_reply strict (List.concat chunks).
Proof.
  unfold query, pi18_reply.
  rewrite (play_stream _ (fun b => let body := bbefore CR b in
     RecordFrame ("PI18:" ++ (if String.eqb command "" then "?" else command))%string body
       (fst (validate_pi18_response body)) ::
     (if negb (fst (validate_pi18_response body)) && strict
      then [RespondError (ValueError "CRC mismatch"); Close]
      else [Respond (body ++ [CR]); Close])) (has_byte CR)); try reflexivity.
  + cbn [app]. cbv zeta. destruct (has_byte CR (List.concat chunks)); [|reflexivity].
    now destruct (negb _ && strict).
  + intros b d. unfold pi18_data_received. cbv zeta. now destruct (has_byte CR (b ++ d)).
  + intros b d H. now rewrite has_byte_app, H.
  + intros b d H. cbv zeta. now rewrite bbefore_has.
  + intros b. cbn. now destruct (negb _ && strict).
Qed.

(** ** Properties *)

(** How the network cuts a reply into chunks does not matter: the serial
    and PI18 collectors answer from the concatenation of the chunks alone, with
    what precedes its first carriage return; the Elfin collector does the same on
    every stream without a line feed before that carriage return. *)
Theorem query_chunk_independent (command : string) (strict : bool) (chunks : list bytes) :
  query (serial_data_received command strict) chunks = voltronic_reply strict (List.concat chunks)
  /\ query (pi18_data_received command strict) chunks
     = (let body := bbefore CR (List.concat chunks) in
        if has_byte CR (List.concat chunks)
           && negb (negb (fst (validate_pi18_response body)) && strict)
        then Some (body ++ [CR]) else None)
  /\ (has_byte LF (List.concat chunks) = false ->
      query (elfin_data_received command strict) chunks = voltronic_reply strict (List.concat chunks)).
Proof.
  split; [apply serial_query_stream|split].
  - apply pi18_query_stream.
  - apply elfin_query_stream.
Qed.

Lemma query_chunk_independent_witness :
  query (elfin_data_received "QMOD" false) [b_ "("; b_ "L"; [0x06; 0x07]; [CR]]
  = voltronic_reply false (b_ "(L" ++ [0x06; 0x07; CR]).
Proof.
  exact (proj2 (proj2 (query_chunk_independent "QMOD" false [b_ "("; b_ "L"; [0x06; 0x07]; [CR]])) eq_refl).
Defined.

(** With a stray line feed the Elfin collector answers from the first chunk that
    has one, the serial collector from the whole frame. *)
Example elfin_line_feed :
  (query (elfin_data_received "QMOD" false) [[LF]; b_ "(L" ++ [0x06; 0x07; CR]],
   query (serial_data_received "QMOD" false) [[LF]; b_ "(L" ++ [0x06; 0x07; CR]])
  = (Some EmptyString, Some (str [chr 40; chr 76; chr 6; chr 7])).
Proof. vm_compute. reflexivity. Qed.

(** With strict checking a Voltronic reading is produced only from a
    frame whose checksum is accepted; transport failures, timeouts, rejected
    frames and undecodable replies all read as the empty dict, never as an
    exception. *)
Theorem voltronic_get_data_strict (uri command : string) (chunks : list bytes)
    (Hserial : startswith uri "tcp://" = false)
    (Hd : voltronic_get_data uri command true (Ok chunks) <> []) :
  has_byte CR (List.concat chunks) = true
  /\ fst (validate_voltronic_response (bbefore CR (List.concat chunks))) = true
  /\ exists d, voltronic_get_data uri command true (Ok chunks) = d
     /\ decode_direct_response command
          (decode_utf8_ignore (bstrip (bbefore CR (List.concat chunks)))) = Ok d.
Proof.
  revert Hd. unfold voltronic_get_data. rewrite Hserial. cbn [rbind].
  destruct (encode_ascii command); [|easy]. cbn [rbind].
  rewrite serial_query_stream. unfold voltronic_reply.
  destruct (has_byte CR (List.concat chunks)); [|easy].
  destruct (fst (validate_voltronic_response _)); [|easy]. cbn [negb andb].
  destruct (String.eqb _ ""); [easy|].
  destruct (decode_direct_response _ _) as [d|e]; [|easy]. cbn [rcatch]. eauto 6.
Qed.

Lemma voltronic_get_data_strict_witness :
  fst (validate_voltronic_response (bbefore CR (b_ "(L" ++ crc16_voltronic (b_ "(L") ++ [CR]))) = true.
Proof.
  assert (E : List.concat [b_ "(L" ++ crc16_voltronic (b_ "(L"); [CR]] = b_ "(L" ++ crc16_voltronic (b_ "(L") ++ [CR])
    by reflexivity.
  rewrite <- E.
  apply (voltronic_get_data_strict "/dev/ttyUSB0" "QMOD" [b_ "(L" ++ crc16_voltronic (b_ "(L"); [CR]]);
    [reflexivity|vm_compute; discriminate].
Defined.
