(* ===== verification/CommandQueue.v ===== *)
(** Per-transport command queue: [CommandQueue] of
    [api/commands/direct_command_queue.py].

    The queue is a step relation on its state: enqueueing, the worker taking the
    least (priority, sequence) entry, the running command finishing, and the
    worker being stopped. The awaited I/O of a command is the [Finish] event. *)

From Stdlib Require Import ZArith List Bool Lia Sorting.Permutation Sorting.Sorted Relations.
From S2P Require Import Prelude.
Import ListNotations.
#[local] Open Scope list_scope.
#[local] Open Scope Z_scope.

(** Lower number = higher priority. *)
Definition PRIORITY_USER : Z := 0.
Definition PRIORITY_POLL : Z := 1.

Section Queue.
(** The commands ([fn]) and the values their futures resolve to. *)
Context {F R : Type}.

(** An entry of the [PriorityQueue]; its future is named by its number. *)
Record entry := { e_prio : Z; e_seq : Z; e_fn : F }.

Record queue_state := {
  q_queue : list entry;            (* waiting entries *)
  q_seq : Z;                       (* next sequence number *)
  q_running : option entry;        (* the entry whose [fn] is awaited *)
  q_worker : bool;                 (* a worker task exists *)
  q_started : list entry;          (* entries taken by the worker, in order *)
  q_futures : list (Z * R)         (* resolved futures, oldest first *)
}.

Definition queue_init : queue_state := {|
  q_queue := []; q_seq := 0; q_running := None; q_worker := false;
  q_started := []; q_futures := [] |}.

(** Tuples are compared by priority, then sequence number. *)
Definition entry_le (a b : entry) : bool :=
  (e_prio a <? e_prio b) || ((e_prio a =? e_prio b) && (e_seq a <=? e_seq b)).

(** [heappop]: the least entry and the rest. *)
Fixpoint pop_min (m : entry) (l : list entry) : entry * list entry :=
  match l with
  | [] => (m, [])
  | x :: l =>
      if entry_le m x then let '(r, rest) := pop_min m l in (r, x :: rest)
      else let '(r, rest) := pop_min x l in (r, m :: rest)
  end.

Definition start (st : queue_state) : queue_state :=
  {| q_queue := q_queue st; q_seq := q_seq st; q_running := q_running st; q_worker := true;
     q_started := q_started st; q_futures := q_futures st |}.

(** [stop]: the worker task is cancelled, with the command it awaits. *)
Definition stop (st : queue_state) : queue_state :=
  {| q_queue := q_queue st; q_seq := q_seq st; q_running := None; q_worker := false;
     q_started := q_started st; q_futures := q_futures st |}.

Definition enqueue (prio : Z) (fn : F) (st : queue_state) : queue_state :=
  {| q_queue := q_queue st ++ [{| e_prio := prio; e_seq := q_seq st; e_fn := fn |}];
     q_seq := q_seq st + 1; q_running := q_running st; q_worker := q_worker st;
     q_started := q_started st; q_futures := q_futures st |}.

(** The worker's [await self._queue.get()] returning. *)
Definition take (st : queue_state) : option queue_state :=
  match q_worker st, q_running st, q_queue st with
  | true, None, m :: l =>
      let '(e, rest) := pop_min m l in
      Some {| q_queue := rest; q_seq := q_seq st; q_running := Some e; q_worker := true;
              q_started := q_started st ++ [e]; q_futures := q_futures st |}
  | _, _, _ => None
  end.

(** [await fn()] returning or raising [r]. *)
Definition finish (r : R) (st : queue_state) : option queue_state :=
  match q_running st with
  | Some e =>
      Some {| q_queue := q_queue st; q_seq := q_seq st; q_running := None;
              q_worker := q_worker st; q_started := q_started st;
              q_futures := q_futures st ++ [(e_seq e, r)] |}
  | None => None
  end.

Inductive qstep : queue_state -> queue_state -> Prop :=
| q_start st : qstep st (start st)
| q_stop st : qstep st (stop st)
| q_enqueue prio fn st : qstep st (enqueue prio fn st)
| q_take st st' : take st = Some st' -> qstep st st'
| q_finish r st st' : finish r st = Some st' -> qstep st st'.

Inductive qreach : queue_state -> Prop :=
| qreach_init : qreach queue_init
| qreach_step st st' : qreach st -> qstep st st' -> qreach st'.

(** ** Lemmas *)

Lemma entry_le_total a b : entry_le a b = false -> entry_le b a = true.
Proof.
  unfold entry_le. rewrite orb_false_iff, andb_false_iff, orb_true_iff, andb_true_iff.
  rewrite !Z.ltb_ge, !Z.eqb_neq, Z.ltb_lt, Z.eqb_eq, Z.leb_gt, Z.leb_le. lia.
Qed.

Lemma entry_le_trans a b c : entry_le a b = true -> entry_le b c = true -> entry_le a c = true.
Proof.
  unfold entry_le. rewrite !orb_true_iff, !andb_true_iff, !Z.ltb_lt, !Z.eqb_eq, !Z.leb_le. lia.
Qed.

Lemma pop_min_perm m l e rest : pop_min m l = (e, rest) -> Permutation (m :: l) (e :: rest).
Proof.
  revert m e rest. induction l as [|x l IH]; intros m e rest; simpl.
  - intros H. injection H as <- <-. reflexivity.
  - destruct (entry_le m x).
    + destruct (pop_min m l) as [r rs] eqn:E. intros H. injection H as <- <-.
      rewrite (perm_swap x m l), (perm_swap x r rs). constructor. now apply IH.
    + destruct (pop_min x l) as [r rs] eqn:E. intros H. injection H as <- <-.
      rewrite (perm_swap m r rs). constructor. now apply IH.
Qed.

Lemma entry_le_refl a : entry_le a a = true.
Proof. unfold entry_le. now rewrite Z.eqb_refl, Z.leb_refl, orb_true_r. Qed.

Lemma pop_min_least m l e rest : pop_min m l = (e, rest) ->
  entry_le e m = true /\ Forall (fun x => entry_le e x = true) rest.
Proof.
  revert m e rest. induction l as [|x l IH]; intros m e rest; simpl.
  - intros H. injection H as <- <-. split; [apply entry_le_refl|constructor].
  - destruct (entry_le m x) eqn:Em.
    + destruct (pop_min m l) as [r rs] eqn:E. intros H. injection H as <- <-.
      destruct (IH _ _ _ E) as [H1 H2]. split; [exact H1|]. constructor; [|exact H2].
      now apply (entry_le_trans _ m).
    + destruct (pop_min x l) as [r rs] eqn:E. intros H. injection H as <- <-.
      destruct (IH _ _ _ E) as [H1 H2]. apply entry_le_total in Em.
      assert (entry_le r m = true) by now apply (entry_le_trans _ x).
      split; [assumption|]. now constructor.
Qed.

(** ** Invariant

    Every number below the counter belongs to exactly one entry, waiting or
    taken; a future is resolved at most once, only for a taken entry, in the
    order the entries were taken; the running entry is the last one taken. *)

Definition subseq_of_started (st : queue_state) : Prop :=
  exists l1 l2, q_started st = l1 ++ l2
  /\ incl (map fst (q_futures st)) (map e_seq l1)
  /\ match q_running st with Some e => l2 = [e] | None => l2 = [] end.

Definition queue_inv (st : queue_state) : Prop :=
  0 <= q_seq st
  /\ NoDup (map e_seq (q_queue st ++ q_started st))
  /\ (forall n, In n (map e_seq (q_queue st ++ q_started st)) <-> 0 <= n < q_seq st)
  /\ NoDup (map fst (q_futures st))
  /\ subseq_of_started st.

Lemma map_app_perm {A B} (f : A -> B) l l' : Permutation l l' -> Permutation (map f l) (map f l').
Proof. apply Permutation_map. Qed.

Lemma queue_inv_perm st st' :
  Permutation (q_queue st ++ q_started st) (q_queue st' ++ q_started st') ->
  q_seq st' = q_seq st -> q_futures st' = q_futures st -> subseq_of_started st' ->
  queue_inv st -> queue_inv st'.
Proof.
  intros HP Hs Hf Hsub (H1 & H2 & H3 & H4 & _). apply (Permutation_map e_seq) in HP.
  unfold queue_inv. rewrite Hs, Hf. split; [exact H1|].
  split; [exact (Permutation_NoDup HP H2)|]. split; [|now split].
  intros n. rewrite <- H3. split; apply Permutation_in; [now symmetry|exact HP].
Qed.

Lemma subseq_last l1 l2 e (fs : list Z) :
  incl fs (map e_seq l1) -> incl fs (map e_seq (l1 ++ l2 ++ [e])).
Proof. intros H x Hx. rewrite map_app. apply in_or_app. left. now apply H. Qed.

Lemma qstep_inv st st' : qstep st st' -> queue_inv st -> queue_inv st'.
Proof.
  intros Hstep Hinv. destruct Hstep as [st|st|prio fn st|st st' Ht|r st st' Ht].
  - refine (queue_inv_perm st _ _ _ _ _ Hinv); try reflexivity.
    destruct Hinv as (_ & _ & _ & _ & Hs). exact Hs.
  - destruct Hinv as (H1 & H2 & H3 & H4 & l1 & l2 & E & Hi & Hr).
    apply (queue_inv_perm st); try reflexivity.
    + exists (q_started st), []. rewrite app_nil_r. split; [reflexivity|]. split; [|reflexivity].
      cbn [q_futures stop]. rewrite E, map_app. intros x Hx. apply in_or_app. left. now apply Hi.
    + split; [exact H1|]. split; [exact H2|]. split; [exact H3|]. split; [exact H4|].
      exists l1, l2. auto.
  - destruct Hinv as (H1 & H2 & H3 & H4 & l1 & l2 & E & Hi & Hr).
    assert (HP : Permutation (map e_seq ((q_queue st ++ [{| e_prio := prio; e_seq := q_seq st; e_fn := fn |}])
        ++ q_started st)) (q_seq st :: map e_seq (q_queue st ++ q_started st))).
    { rewrite <- app_assoc, !map_app. cbn [map app e_seq]. symmetry. apply Permutation_middle. }
    unfold queue_inv. cbn [q_seq q_queue q_started q_futures enqueue].
    split; [lia|]. split; [|split; [|split; [exact H4|exists l1, l2; auto]]].
    + apply (Permutation_NoDup (Permutation_sym HP)). constructor; [|exact H2].
      intros Hin. apply H3 in Hin. lia.
    + intros n. split; intros Hin.
      * apply (Permutation_in _ HP) in Hin. destruct Hin as [<-|Hin]; [lia|]. apply H3 in Hin. lia.
      * apply (Permutation_in _ (Permutation_sym HP)).
        destruct (Z.eq_dec n (q_seq st)) as [->|]; [now left|right; apply H3; lia].
  - unfold take in Ht. destruct (q_worker st); [|discriminate].
    destruct (q_running st) eqn:Er; [discriminate|].
    destruct (q_queue st) as [|m l] eqn:Eq; [discriminate|].
    destruct (pop_min m l) as [e rest] eqn:Ep. injection Ht as <-.
    apply pop_min_perm in Ep.
    assert (HP : Permutation (q_queue st ++ q_started st) (rest ++ q_started st ++ [e])).
    { rewrite Eq, Ep. cbn [app]. rewrite app_assoc. apply Permutation_cons_append. }
    refine (queue_inv_perm st _ _ _ _ _ Hinv); try reflexivity; [exact HP|].
    destruct Hinv as (_ & _ & _ & _ & l1 & l2 & E & Hi & Hr). rewrite Er in Hr. subst l2.
    exists l1, [e]. cbn [q_started q_futures q_running]. rewrite E, app_nil_r. auto.
  - unfold finish in Ht. destruct (q_running st) as [e|] eqn:Er; [|discriminate].
    injection Ht as <-. destruct Hinv as (H1 & H2 & H3 & H4 & l1 & l2 & E & Hi & Hr).
    rewrite Er in Hr. subst l2. unfold queue_inv. cbn [q_seq q_queue q_started q_futures q_running].
    split; [exact H1|split; [exact H2|split; [exact H3|split]]].
    + rewrite map_app. cbn [map fst]. apply NoDup_app; [exact H4|repeat constructor; auto|].
      intros x Hx [<-|[]]. apply Hi in Hx.
      rewrite E, map_app, map_app in H2. apply NoDup_app_remove_l in H2.
      cbn [map] in H2. apply NoDup_remove_2 in H2. rewrite app_nil_r in H2. contradiction.
    + exists (q_started st), []. rewrite app_nil_r. split; [reflexivity|]. split; [|reflexivity].
      cbn [q_futures]. rewrite map_app. cbn [map fst]. rewrite E, map_app. apply incl_app.
      * intros x Hx. apply in_or_app. left. now apply Hi.
      * intros x [<-|[]]. apply in_or_app. right. now left.
Qed.

(** Serving what is waiting, one command after the other. *)
Fixpoint drain (r : entry -> R) (fuel : nat) (st : queue_state) : queue_state :=
  match fuel with
  | O => st
  | S fuel =>
      match take st with
      | Some st1 =>
          match q_running st1 with
          | Some e => match finish (r e) st1 with
                      | Some st2 => drain r fuel st2
                      | None => st1
                      end
          | None => st1
          end
      | None => st
      end
  end.

Lemma drain_sorted r fuel st :
  q_worker st = true -> q_running st = None -> (List.length (q_queue st) <= fuel)%nat ->
  exists served, q_started (drain r fuel st) = q_started st ++ served
  /\ Permutation served (q_queue st)
  /\ StronglySorted (fun a b => entry_le a b = true) served
  /\ q_futures (drain r fuel st) = q_futures st ++ map (fun e => (e_seq e, r e)) served
  /\ q_queue (drain r fuel st) = [] /\ q_running (drain r fuel st) = None.
Proof.
  revert st. induction fuel as [|fuel IH]; intros st Hw Hr Hl.
  - destruct (q_queue st) eqn:E; [|simpl in Hl; lia]. exists []. simpl. rewrite !app_nil_r, E, Hr.
    repeat split; constructor.
  - cbn [drain]. unfold take. rewrite Hw, Hr. destruct (q_queue st) as [|m l] eqn:Eq.
    + exists []. rewrite !app_nil_r, Eq, Hr. repeat split; constructor.
    + destruct (pop_min m l) as [e rest] eqn:Ep. cbn [q_running finish].
      pose proof (pop_min_perm _ _ _ _ Ep) as HP. pose proof (pop_min_least _ _ _ _ Ep) as [_ Hle].
      set (st2 := Build_queue_state _ _ _ _ _ _).
      destruct (IH st2) as (served & E1 & P1 & S1 & F1 & Q1 & R1); try reflexivity.
      { cbn [q_queue st2]. apply Permutation_length in HP. simpl in HP, Hl. lia. }
      exists (e :: served). cbn [q_started q_futures q_queue st2] in *.
      rewrite E1, F1, <- !app_assoc. repeat split; auto.
      * now rewrite P1.
      * constructor; [exact S1|]. now rewrite P1.
Qed.

(** ** Properties *)

(** In every reachable state of a queue each accepted command is
    waiting or has been taken, never both and never twice; a future is resolved
    at most once and only for a taken command, and at most one command is in
    flight, the last one taken. *)
Theorem queue_exactly_once (st : queue_state) (Hr : qreach st) :
  queue_inv st.
Proof.
  induction Hr as [|st st' _ IH Hs].
  - split; [reflexivity|]. split; [constructor|].
    split; [cbn; intros n; split; [easy|lia]|]. split; [constructor|].
    exists [], []. repeat split. easy.
  - now apply (qstep_inv st).
Qed.

(** An idle worker serves the waiting commands in one pass: user
    commands before poll commands, first come first served within a priority;
    each future gets the result of its own command and nothing is left over. *)
Theorem drain_serves_by_priority (r : entry -> R) (st : queue_state)
    (Hw : q_worker st = true) (Hi : q_running st = None) :
  exists served, q_started (drain r (List.length (q_queue st)) st) = q_started st ++ served
  /\ Permutation served (q_queue st)
  /\ StronglySorted (fun a b => e_prio a < e_prio b \/ (e_prio a = e_prio b /\ e_seq a <= e_seq b)) served
  /\ q_futures (drain r (List.length (q_queue st)) st)
     = q_futures st ++ map (fun e => (e_seq e, r e)) served
  /\ q_queue (drain r (List.length (q_queue st)) st) = [].
Proof.
  destruct (drain_sorted r _ st Hw Hi (le_n _)) as (served & H1 & H2 & H3 & H4 & H5 & _).
  exists served. repeat split; auto.
  clear - H3. induction H3 as [|a l _ IH Hf]; constructor; auto.
  eapply Forall_impl; [|exact Hf]. intros b Hb. unfold entry_le in Hb.
  rewrite orb_true_iff, andb_true_iff, Z.ltb_lt, Z.eqb_eq, Z.leb_le in Hb. exact Hb.
Qed.

(** A stopped queue never answers what it still holds: from the
    stop on, as long as no worker is started, every future that was pending
    stays pending, the one of the interrupted command included. *)
Theorem stopped_queue_never_answers (st st' : queue_state)
    (Hsteps : clos_refl_trans _ (fun a b => qstep a b /\ q_worker b = false) (stop st) st') :
  q_futures st' = q_futures st.
Proof.
  assert (forall a, q_worker a = false -> q_running a = None ->
    forall b, clos_refl_trans _ (fun a b => qstep a b /\ q_worker b = false) a b ->
    q_futures b = q_futures a /\ q_worker b = false /\ q_running b = None) as H.
  { intros a Ha Hra b Hab. apply clos_rt_rt1n in Hab.
    revert Ha Hra. induction Hab as [a|a b c [Hs Hwb] _ IH]; intros Ha Hra; [auto|].
    destruct Hs as [a|a|prio fn a|a b Ht|r a b Ht].
    - discriminate Hwb.
    - destruct IH as (E & ? & ?); auto.
    - destruct IH as (E & ? & ?); auto.
    - unfold take in Ht. rewrite Ha in Ht. discriminate.
    - unfold finish in Ht. rewrite Hra in Ht. discriminate. }
  exact (proj1 (H (stop st) eq_refl eq_refl st' Hsteps)).
Qed.
End Queue.

Arguments entry : clear implicits.
Arguments queue_state : clear implicits.

(** ** Witnesses *)

Definition demo_queue : queue_state Z Z :=
  enqueue PRIORITY_USER 30 (enqueue PRIORITY_POLL 20 (enqueue PRIORITY_POLL 10 (start queue_init))).

Lemma queue_exactly_once_witness : qreach demo_queue /\ queue_inv demo_queue.
Proof.
  assert (qreach demo_queue) as H.
  { repeat (eapply qreach_step; [|apply q_enqueue]). eapply qreach_step; [apply qreach_init|apply q_start]. }
  split; [exact H|exact (queue_exactly_once demo_queue H)].
Defined.

Lemma drain_serves_by_priority_witness :
  exists served, q_started (drain (fun e => e_fn e + 1) 3 demo_queue) = served
  /\ map (fun e => e_fn e) served = [30; 10; 20].
Proof.
  destruct (drain_serves_by_priority (fun e => e_fn e + 1) demo_queue eq_refl eq_refl)
    as (served & E & _). exists served. split; [exact E|].
  apply (f_equal (map (fun e => e_fn e))) in E. exact (eq_sym E).
Defined.

Lemma stopped_queue_never_answers_witness :
  q_futures (enqueue PRIORITY_USER 40 (stop demo_queue)) = [].
Proof.
  apply (stopped_queue_never_answers demo_queue).
  apply rt_step. split; [apply q_enqueue|reflexivity].
Defined.
