(* ===== verification/Uri.v ===== *)
(** Python's [urllib.parse.urlparse] on the device URIs of the integration:
    scheme, network location, path and query, with the [hostname] and [port]
    properties. Bracketed IPv6 literals and per-segment parameters, which no
    device URI uses, are not modelled. *)

From Stdlib Require Import ZArith List Bool Lia String Ascii.
From S2P Require Import Prelude PyStr PyInt.
Import ListNotations.
#[local] Open Scope string_scope.
#[local] Open Scope Z_scope.

Record url := { u_scheme : string; u_netloc : string; u_path : string; u_query : string }.

(** [s.partition(c)]: before, whether found, after. *)
Fixpoint partition_at (stop : ascii -> bool) (l : list ascii) : list ascii * list ascii :=
  match l with
  | [] => ([], [])
  | c :: l' => if stop c then ([], l)
               else let '(a, b) := partition_at stop l' in (c :: a, b)
  end.

Definition cut (c : ascii) (s : string) : string * bool * string :=
  match partition_at (Ascii.eqb c) (chars s) with
  | (a, []) => (str a, false, "")
  | (a, _ :: b) => (str a, true, str b)
  end.

Definition before (c : ascii) (s : string) : string := let '(a, _, _) := cut c s in a.
Definition after (c : ascii) (s : string) : string := let '(_, _, b) := cut c s in b.

(** [s.rpartition(c)[2]] *)
Definition after_last (c : ascii) (s : string) : string :=
  str (rev (fst (partition_at (Ascii.eqb c) (rev (chars s))))).

Definition is_alpha (c : ascii) : bool :=
  let n := ord c in ((65 <=? n) && (n <=? 90)) || ((97 <=? n) && (n <=? 122)).

Definition is_scheme_char (c : ascii) : bool :=
  is_alpha c || is_digit c || Ascii.eqb c "+" || Ascii.eqb c "-" || Ascii.eqb c ".".

Definition is_netloc_end (c : ascii) : bool :=
  Ascii.eqb c "/" || Ascii.eqb c "?" || Ascii.eqb c "#".

Definition is_c0_or_space (c : ascii) : bool := ord c <=? 32.
Definition is_unsafe (c : ascii) : bool :=
  let n := ord c in (n =? 9) || (n =? 10) || (n =? 13).

Definition split_scheme (s : string) : string * string :=
  let '(sch, found, rest) := cut ":" s in
  match chars sch with
  | c :: _ =>
      if found && is_alpha c && forallb is_scheme_char (chars sch) then (lower sch, rest)
      else ("", s)
  | [] => ("", s)
  end.

Definition urlparse (s : string) : url :=
  let s := str (filter (fun c => negb (is_unsafe c)) (chars (lstrip_p is_c0_or_space s))) in
  let '(scheme, rest) := split_scheme s in
  let '(netloc, rest) :=
    if startswith rest "//"
    then let '(a, b) := partition_at is_netloc_end (chars (sdrop 2 rest)) in (str a, str b)
    else ("", rest) in
  let rest := before "#" rest in
  {| u_scheme := scheme; u_netloc := netloc; u_path := before "?" rest; u_query := after "?" rest |}.

Definition u_hostname (u : url) : option string :=
  let host := before ":" (after_last "@" (u_netloc u)) in
  if String.eqb host "" then None
  else let '(h, p, zone) := cut "%" host in
       Some (lower h ++ (if p then "%" else "") ++ zone).

Definition u_port (u : url) : res (option Z) :=
  let port := after ":" (after_last "@" (u_netloc u)) in
  if String.eqb port "" then Ok None
  else if forallb is_digit (chars port) then
    (let! n := py_int port in
     if n <=? 65535 then Ok (Some n) else Raise (ValueError "Port out of range 0-65535"))%py
  else Raise (ValueError "Port could not be cast to integer value").

Example urlparse_1 :
  let u := urlparse "eybond-pi18://0.0.0.0:8899/2?pn=Q123&announce=10.0.0.2" in
  (u_scheme u, u_netloc u, u_path u, u_query u, u_hostname u, u_port u)
  = ("eybond-pi18", "0.0.0.0:8899", "/2", "pn=Q123&announce=10.0.0.2", Some "0.0.0.0", Ok (Some 8899)).
Proof. reflexivity. Qed.

Example urlparse_2 :
  let u := urlparse "pi18-serial:///dev/ttyUSB0" in (u_scheme u, u_netloc u, u_path u)
  = ("pi18-serial", "", "/dev/ttyUSB0").
Proof. reflexivity. Qed.

(** ** [parse_qs] *)

Definition plus_to_space (s : string) : string :=
  on_chars (map (fun c => if Ascii.eqb c "+" then " "%char else c)) s.

(** [unquote]: percent escapes of byte values; the result is their bytes. *)
Fixpoint unquote_chars (l : list ascii) : list ascii :=
  match l with
  | c :: l' =>
      match l' with
      | h :: l1 =>
          match l1 with
          | o :: l2 =>
              if Ascii.eqb c "%" then
                match hex_val h, hex_val o with
                | Some a, Some b => chr (16 * a + b) :: unquote_chars l2
                | _, _ => c :: unquote_chars l'
                end
              else c :: unquote_chars l'
          | [] => c :: unquote_chars l'
          end
      | [] => [c]
      end
  | [] => []
  end.

Definition unquote (s : string) : string := on_chars unquote_chars s.

(** [parse_qs(q)]: pairs in order; fields without a value are dropped. *)
Definition parse_qsl (q : string) : list (string * string) :=
  flat_map (fun f =>
    let '(k, found, v) := cut "=" f in
    if found && negb (String.eqb v "")
    then [(unquote (plus_to_space k), unquote (plus_to_space v))] else [])
    (split_char "&" q).

(** [(query.get(k) or [d])[0]] *)
Definition query_first (k d : string) (q : string) : string :=
  match find (fun kv => String.eqb (fst kv) k) (parse_qsl q) with
  | Some (_, v) => v
  | None => d
  end.

Example parse_qs_1 :
  (query_first "pn" "" "devaddr=3&pn=Q%2012+x&pn=Z", query_first "announce" "" "announce=") = ("Q 12 x", "").
Proof. reflexivity. Qed.
