(* ===== verification/QueueRegistry.v ===== *)
(** Queue ownership: [transport_key], [QueueRegistry] and [run_on_bus] of
    [api/commands/direct_command_queue.py].

    The registry's three dictionaries are stdpp maps; a queue is named by the
    order of its creation. *)

From Stdlib Require Import ZArith String Ascii.
From stdpp Require Import base gmap sets fin_sets fin_maps list strings.
From S2P Require Import Prelude PyStr PyInt Uri.
#[local] Set Warnings "-clear-no-such-hyp".
#[local] Open Scope string_scope.
#[local] Open Scope Z_scope.

(** ** Transport identity *)

Definition transport_key (uri : string) : string :=
  if String.eqb uri "" then ""
  else if negb (str_contains "://" uri) then "serial:" +:+ uri
  else
    let parsed := urlparse uri in
    let scheme := lower (u_scheme parsed) in
    let nonempty (s : string) := if String.eqb s "" then uri else s in
    if existsb (String.eqb scheme) ["eybond"; "eybond-pi18"; "eybond-modbus"]
    then "eybond:" +:+ nonempty (u_netloc parsed)
    else if existsb (String.eqb scheme) ["tcp"; "pi18"; "modbus"; "agent"]
    then scheme +:+ ":" +:+ lower (u_netloc parsed)
    else if existsb (String.eqb scheme) ["pi18-serial"; "serial"]
    then "serial:" +:+ nonempty (u_path parsed)
    else uri.

Definition is_tcp_transport (uri : string) : bool :=
  existsb (startswith uri) ["tcp://"; "pi18://"; "modbus://"; "agent://"].

(** ** Registry *)

Record registry := {
  r_next : Z;                              (* queues created so far *)
  r_queues : gmap string Z;                (* [_queues] *)
  r_refcount : gmap string Z;              (* [_refcount] *)
  r_entry_keys : gmap string (gset string) (* [_entry_keys] *)
}.

Definition registry_init : registry :=
  {| r_next := 0; r_queues := ∅; r_refcount := ∅; r_entry_keys := ∅ |}.

(** Creating the queue of a key that has none. *)
Definition add_queue (key : string) (r : registry) : registry :=
  match r_queues r !! key with
  | Some _ => r
  | None => {| r_next := r_next r + 1; r_queues := <[key := r_next r]> (r_queues r);
               r_refcount := <[key := 0]> (r_refcount r); r_entry_keys := r_entry_keys r |}
  end.

Definition owned (entry_id : string) (r : registry) : gset string :=
  default ∅ (r_entry_keys r !! entry_id).

Definition ensure (entry_id key : string) (r : registry) : registry :=
  let r := add_queue key r in
  let keys := owned entry_id r in
  if decide (key ∈ keys)
  then {| r_next := r_next r; r_queues := r_queues r; r_refcount := r_refcount r;
          r_entry_keys := <[entry_id := keys]> (r_entry_keys r) |}
  else {| r_next := r_next r; r_queues := r_queues r;
          r_refcount := <[key := default 0 (r_refcount r !! key) + 1]> (r_refcount r);
          r_entry_keys := <[entry_id := {[key]} ∪ keys]> (r_entry_keys r) |}.

(** One iteration of the loop of [release_entry]. *)
Definition release_key (r : registry) (key : string) : registry :=
  let left := default 1 (r_refcount r !! key) - 1 in
  if left <=? 0
  then {| r_next := r_next r; r_queues := delete key (r_queues r);
          r_refcount := delete key (r_refcount r); r_entry_keys := r_entry_keys r |}
  else {| r_next := r_next r; r_queues := r_queues r;
          r_refcount := <[key := left]> (r_refcount r); r_entry_keys := r_entry_keys r |}.

Definition release_entry (entry_id : string) (r : registry) : registry :=
  let keys := owned entry_id r in
  foldl release_key
    {| r_next := r_next r; r_queues := r_queues r; r_refcount := r_refcount r;
       r_entry_keys := delete entry_id (r_entry_keys r) |}
    (elements keys).

(** ** [run_on_bus]: where a command runs *)

Definition BUS_MODE_SERIALIZED : string := "serialized".
Definition BUS_MODE_CONCURRENT_WRITES : string := "concurrent_writes".

Inductive route := Direct | Queued (key : string) (priority : Z).

Definition run_on_bus (uri : string) (priority : Z) (bus_mode : string) : route :=
  if startswith uri "eybond" then Direct
  else if String.eqb bus_mode BUS_MODE_CONCURRENT_WRITES && (priority =? 0) && is_tcp_transport uri
  then Direct
  else Queued (transport_key uri) priority.

(** ** Ownership invariant *)

(** The entries that own a key. *)
Definition owners (r : registry) (key : string) : gset string :=
  dom (filter (fun kv => key ∈ kv.2) (r_entry_keys r)).

Definition registry_inv (r : registry) : Prop :=
  forall key,
    (r_refcount r !! key = if decide (owners r key = ∅) then None else Some (Z.of_nat (size (owners r key))))
    /\ (is_Some (r_queues r !! key) <-> owners r key <> ∅).

Lemma elem_of_owners r key e : e ∈ owners r key <-> key ∈ owned e r.
Proof.
  unfold owners, owned. rewrite elem_of_dom. split.
  - intros [ks Hks]. apply map_lookup_filter_Some in Hks as [-> H]. exact H.
  - destruct (r_entry_keys r !! e) as [ks|] eqn:E; simpl; [|set_solver].
    intros H. exists ks. now apply map_lookup_filter_Some.
Qed.

Lemma registry_init_inv : registry_inv registry_init.
Proof.
  intros key. assert (owners registry_init key = ∅) as ->.
  { apply set_eq. intros e. rewrite elem_of_owners. unfold owned. simpl. set_solver. }
  rewrite decide_True by reflexivity. simpl. split; [apply lookup_empty|].
  rewrite lookup_empty. split; [intros [? [=]]|congruence].
Qed.

(** The registry with its owners as the only view of [_entry_keys]. *)
Lemma owned_insert r e ks nx q rc e' :
  owned e' {| r_next := nx; r_queues := q; r_refcount := rc; r_entry_keys := <[e := ks]> (r_entry_keys r) |}
  = if decide (e' = e) then ks else owned e' r.
Proof.
  unfold owned. simpl. destruct (decide (e' = e)) as [->|Hne]; [now rewrite lookup_insert_eq|].
  now rewrite lookup_insert_ne by congruence.
Qed.

(** Counting with one more owner. *)
Lemma size_add (X : gset string) e : e ∉ X -> size ({[e]} ∪ X) = S (size X).
Proof. intros H. rewrite size_union by set_solver. now rewrite size_singleton. Qed.

Definition inv_at (q : option Z) (rc : option Z) (X : gset string) : Prop :=
  (rc = if decide (X = ∅) then None else Some (Z.of_nat (size X))) /\ (is_Some q <-> X <> ∅).

Lemma inv_at_add q rc X e n : inv_at q rc X -> e ∉ X -> is_Some n ->
  inv_at n (Some (default 0 (match q with Some _ => rc | None => Some 0 end) + 1)) ({[e]} ∪ X).
Proof.
  intros [Hrc Hq] He Hn. split; [|split; [set_solver|auto]].
  rewrite decide_False by set_solver. rewrite size_add by exact He.
  destruct (decide (X = ∅)) as [->|Hne].
  - destruct q as [?|]; [destruct Hq as [Hq _]; now destruct (Hq ltac:(eauto))|].
    simpl. f_equal.
  - destruct q as [?|]; [|destruct Hq as [_ Hq]; destruct (Hq Hne); discriminate].
    rewrite Hrc. simpl. f_equal. lia.
Qed.

Lemma ensure_inv e key r : registry_inv r -> registry_inv (ensure e key r) /\
  is_Some (r_queues (ensure e key r) !! key) /\
  (forall k, owners (ensure e key r) k = if decide (k = key) then {[e]} ∪ owners r k else owners r k).
Proof.
  intros Hinv.
  assert (Hown : forall e', owned e' (add_queue key r) = owned e' r)
    by (intros e'; unfold add_queue; now destruct (r_queues r !! key)).
  assert (Hq : is_Some (r_queues (add_queue key r) !! key)).
  { unfold add_queue. destruct (r_queues r !! key) eqn:E; [rewrite E; eauto|].
    simpl. rewrite lookup_insert_eq. eauto. }
  assert (Hqk : r_queues (ensure e key r) = r_queues (add_queue key r))
    by (unfold ensure; now destruct (decide _)).
  assert (Hk : forall e', owned e' (ensure e key r) = if decide (e' = e) then {[key]} ∪ owned e r else owned e' r).
  { intros e'. unfold ensure. rewrite Hown. destruct (decide (key ∈ owned e r)) as [Hin|Hin].
    - rewrite owned_insert, !Hown. destruct (decide (e' = e)); [set_solver|reflexivity].
    - rewrite owned_insert, !Hown. destruct (decide (e' = e)); [set_solver|reflexivity]. }
  assert (Ho : forall k, owners (ensure e key r) k = if decide (k = key) then {[e]} ∪ owners r k else owners r k).
  { intros k. apply set_eq. intros e'. rewrite elem_of_owners, Hk.
    destruct (decide (e' = e)) as [->|Hne], (decide (k = key)) as [->|Hnk];
      rewrite ?elem_of_union, ?elem_of_singleton, ?elem_of_owners; naive_solver. }
  split; [|split; [rewrite Hqk; exact Hq|exact Ho]].
  intros k. rewrite Ho. specialize (Hinv k). destruct (decide (k = key)) as [->|Hnk].
  - destruct (decide (e ∈ owners r key)) as [Hin|Hin].
    + assert ({[e]} ∪ owners r key = owners r key) as -> by set_solver.
      assert (is_Some (r_queues r !! key)) as [q0 Eq] by (apply Hinv; set_solver).
      assert (key ∈ owned e r) by now apply elem_of_owners.
      assert (add_queue key r = r) as Ha by (unfold add_queue; now rewrite Eq).
      unfold ensure. rewrite Ha, decide_True by assumption. simpl. exact Hinv.
    + assert (key ∉ owned e r) by (now rewrite <- elem_of_owners).
      pose proof (inv_at_add _ _ _ e _ Hinv Hin Hq) as H'. unfold inv_at in H'.
      rewrite <- Hqk in H'. destruct H' as [H1 H2]. split; [|exact H2].
      rewrite <- H1. unfold ensure. rewrite Hown, decide_False by assumption. simpl.
      rewrite lookup_insert_eq. do 2 f_equal. unfold add_queue.
      destruct (r_queues r !! key); [reflexivity|]. simpl. now rewrite lookup_insert_eq.
  - assert (r_queues (ensure e key r) !! k = r_queues r !! k) as ->.
    { rewrite Hqk. unfold add_queue. destruct (r_queues r !! key); [reflexivity|].
      simpl. now rewrite lookup_insert_ne by congruence. }
    assert (r_refcount (ensure e key r) !! k = r_refcount r !! k) as ->; [|exact Hinv].
    assert (r_refcount (add_queue key r) !! k = r_refcount r !! k) as E1.
    { unfold add_queue. destruct (r_queues r !! key); [reflexivity|].
      simpl. now rewrite lookup_insert_ne by congruence. }
    unfold ensure. destruct (decide (key ∈ owned e (add_queue key r))); simpl; [exact E1|].
    rewrite lookup_insert_ne by congruence. exact E1.
Qed.

Lemma release_key_at r key k : 
  (k <> key -> r_queues (release_key r key) !! k = r_queues r !! k
               /\ r_refcount (release_key r key) !! k = r_refcount r !! k)
  /\ r_entry_keys (release_key r key) = r_entry_keys r.
Proof.
  unfold release_key. destruct (_ <=? 0); simpl; split; try reflexivity; intros Hne;
    rewrite ?lookup_delete_ne, ?lookup_insert_ne by congruence; auto.
Qed.

Lemma inv_at_remove q rc X e : inv_at q rc X -> e ∈ X ->
  inv_at (if decide (default 1 rc - 1 <= 0) then None else q)
         (if decide (default 1 rc - 1 <= 0) then None else Some (default 1 rc - 1)) (X ∖ {[e]}).
Proof.
  intros [-> Hq] He. assert (X <> ∅) as Hne by set_solver.
  rewrite (decide_False (P := X = ∅)) by exact Hne. simpl.
  assert (size X = S (size (X ∖ {[e]}))) as Hs.
  { rewrite <- (size_add (X ∖ {[e]}) e) by set_solver. f_equal.
    apply set_eq. intros x. destruct (decide (x = e)); set_solver. }
  destruct (decide (X ∖ {[e]} = ∅)) as [E|E].
  - rewrite E in *. rewrite size_empty in Hs. rewrite !decide_True by lia.
    split; [now rewrite decide_True|]. split; [intros [? [=]]|congruence].
  - assert (size (X ∖ {[e]}) <> 0%nat) by (rewrite size_non_empty_iff; exact E || set_solver).
    rewrite !decide_False by lia. split; [rewrite decide_False by exact E; f_equal; lia|].
    split; [auto|]. intros _. now apply Hq.
Qed.

(** Releasing the keys one after the other. *)
Lemma release_keys l : forall r (X : string -> gset string) e, NoDup l ->
  (forall k, inv_at (r_queues r !! k) (r_refcount r !! k) (X k)) ->
  (forall k, k ∈ l -> e ∈ X k) ->
  forall k, inv_at (r_queues (foldl release_key r l) !! k) (r_refcount (foldl release_key r l) !! k)
              (if decide (k ∈ l) then X k ∖ {[e]} else X k).
Proof.
  induction l as [|key l IH]; intros r X e Hnd Hinv Hown k; simpl.
  - apply Hinv.
  - apply NoDup_cons in Hnd as [Hk Hnd].
    specialize (IH (release_key r key) (fun k' => if decide (k' = key) then X k' ∖ {[e]} else X k') e Hnd).
    assert (H1 : forall k', inv_at (r_queues (release_key r key) !! k') (r_refcount (release_key r key) !! k')
              (if decide (k' = key) then X k' ∖ {[e]} else X k')).
    { intros k'. destruct (decide (k' = key)) as [->|Hne].
      - pose proof (inv_at_remove _ _ _ e (Hinv key) (Hown key ltac:(set_solver))) as H.
        unfold release_key. destruct (Z.leb_spec (default 1 (r_refcount r !! key) - 1) 0); simpl.
        + rewrite !lookup_delete_eq. rewrite !decide_True in H by lia. exact H.
        + rewrite lookup_insert_eq. rewrite !decide_False in H by lia. exact H.
      - destruct (proj1 (release_key_at r key k') Hne) as [-> ->]. apply Hinv. }
    specialize (IH H1). assert (H2 : forall k', k' ∈ l -> e ∈ (if decide (k' = key) then X k' ∖ {[e]} else X k')).
    { intros k' Hin. destruct (decide (k' = key)) as [->|]; [contradiction|]. apply Hown. set_solver. }
    specialize (IH H2 k).
    destruct (decide (k ∈ key :: l)) as [Hin|Hin], (decide (k ∈ l)) as [Hl|Hl], (decide (k = key)) as [->|Hne];
      try set_solver; try exact IH.
Qed.

Lemma release_entry_inv e r : registry_inv r -> registry_inv (release_entry e r)
  /\ (forall k, owners (release_entry e r) k = owners r k ∖ {[e]}).
Proof.
  intros Hinv. unfold release_entry.
  set (r0 := {| r_next := r_next r; r_queues := r_queues r; r_refcount := r_refcount r;
                r_entry_keys := delete e (r_entry_keys r) |}).
  assert (Hek : forall l r', r_entry_keys (foldl release_key r' l) = r_entry_keys r').
  { induction l as [|k l IH]; intros r'; simpl; [reflexivity|]. rewrite IH.
    apply (proj2 (release_key_at r' k k)). }
  assert (Ho : forall k, owners (foldl release_key r0 (elements (owned e r))) k = owners r k ∖ {[e]}).
  { intros k. apply set_eq. intros e'. rewrite elem_of_owners, elem_of_difference, elem_of_singleton, elem_of_owners.
    unfold owned at 1. rewrite Hek. simpl. destruct (decide (e' = e)) as [->|Hne].
    - rewrite lookup_delete_eq. simpl. set_solver.
    - rewrite lookup_delete_ne by congruence. fold (owned e' r). naive_solver. }
  split; [|exact Ho]. intros k. rewrite Ho.
  pose proof (release_keys (elements (owned e r)) r0 (owners r) e (NoDup_elements _)) as H.
  specialize (H Hinv). assert (H2 : forall k, k ∈ elements (owned e r) -> e ∈ owners r k).
  { intros k' Hin. apply elem_of_elements in Hin. now apply elem_of_owners. }
  specialize (H H2 k). destruct (decide (k ∈ elements (owned e r))) as [Hin|Hin]; [exact H|].
  assert (owners r k ∖ {[e]} = owners r k) as ->; [|exact H].
  rewrite elem_of_elements, <- elem_of_owners in Hin. set_solver.
Qed.

(** ** Properties *)

Inductive reg_reach : registry -> Prop :=
| reg_init : reg_reach registry_init
| reg_ensure e k r : reg_reach r -> reg_reach (ensure e k r)
| reg_release e r : reg_reach r -> reg_reach (release_entry e r).

Lemma reg_reach_inv r : reg_reach r -> registry_inv r.
Proof.
  intros Hr. induction Hr as [|e k r _ IH|e r _ IH].
  - apply registry_init_inv.
  - apply ensure_inv, IH.
  - apply release_entry_inv, IH.
Qed.

(** After any sequence of uses and entry unloads, the reference count
    of a transport is the number of config entries that own it, and its queue
    exists exactly while at least one does. *)
Theorem registry_counts_owners (r : registry) (Hr : reg_reach r) :
  forall key,
    (r_refcount r !! key = if decide (owners r key = ∅) then None
                           else Some (Z.of_nat (size (owners r key))))
    /\ (is_Some (r_queues r !! key) <-> owners r key <> ∅).
Proof. exact (reg_reach_inv r Hr). Qed.

Lemma registry_counts_owners_witness :
  is_Some (r_queues (release_entry "e1" (ensure "e2" "tcp:h:1" (ensure "e1" "tcp:h:1" registry_init))) !! "tcp:h:1").
Proof.
  assert (reg_reach (release_entry "e1" (ensure "e2" "tcp:h:1" (ensure "e1" "tcp:h:1" registry_init)))) as H
    by (apply reg_release, reg_ensure, reg_ensure, reg_init).
  apply (registry_counts_owners _ H). intros E.
  assert ("e2" ∈ owners (release_entry "e1" (ensure "e2" "tcp:h:1" (ensure "e1" "tcp:h:1" registry_init))) "tcp:h:1") as Hin.
  { apply elem_of_owners. apply (bool_decide_unpack _). vm_compute. exact I. }
  rewrite E in Hin. exact (not_elem_of_empty _ Hin).
Defined.

(** Over one TCP bridge the three direct protocols get three
    different queues, and a serial path reached as [pi18-serial://] only shares
    the queue of the bare path when it is absolute. *)
Theorem transport_keys_by_scheme :
  transport_key "tcp://10.0.0.5:8899" = "tcp:10.0.0.5:8899"
  /\ transport_key "pi18://10.0.0.5:8899" = "pi18:10.0.0.5:8899"
  /\ transport_key "modbus://10.0.0.5:8899" = "modbus:10.0.0.5:8899"
  /\ transport_key "pi18-serial:///dev/ttyUSB0" = transport_key "/dev/ttyUSB0"
  /\ transport_key "pi18-serial://COM3" <> transport_key "COM3".
Proof. vm_compute. repeat split; discriminate. Qed.
