(* ===== verification/Bus.v ===== *)
(** The bus: [QueueRegistry.enqueue], [release_entry] and [run_on_bus] of
    [api/commands/direct_command_queue.py] over the queues themselves, which
    composes the ownership of [QueueRegistry] with the queues of [CommandQueue].

    [release_entry] holds the lock of [_ensure] throughout, so no queue is
    created or chosen meanwhile; the worker of another queue may run between two
    of its stops, which commutes with them. *)

From Stdlib Require Import ZArith String Ascii.
From stdpp Require Import base gmap sets fin_sets fin_maps list strings.
From S2P Require Import Prelude PyStr PyInt Uri CommandQueue QueueRegistry.
#[local] Set Warnings "-clear-no-such-hyp".
#[local] Open Scope string_scope.
#[local] Open Scope list_scope.
#[local] Open Scope Z_scope.

(** ** State and operations *)

Section Bus.
Context {F R : Type}.

(** A command: who runs it, on which device, what it does. *)
Record command := { c_entry : string; c_uri : string; c_priority : Z; c_mode : string; c_fn : F }.

Record bus := {
  b_reg : registry;
  b_queues : gmap Z (queue_state command R);   (* every queue object ever made *)
  b_direct : list command                      (* commands awaited outside any queue *)
}.

Definition bus_init : bus := {| b_reg := registry_init; b_queues := ∅; b_direct := [] |}.

(** [QueueRegistry.enqueue]: a queue that is new is started, then the command is put. *)
Definition bus_enqueue (c : command) (key : string) (b : bus) : bus :=
  let reg := ensure (c_entry c) key (b_reg b) in
  let fresh := match r_queues (b_reg b) !! key with Some _ => false | None => true end in
  let n := default (r_next (b_reg b)) (r_queues reg !! key) in
  let queues := if fresh then <[n := start queue_init]> (b_queues b) else b_queues b in
  {| b_reg := reg; b_queues := alter (enqueue (c_priority c) c) n queues; b_direct := b_direct b |}.

(** [run_on_bus] up to its [await]. *)
Definition bus_run (c : command) (b : bus) : bus :=
  match run_on_bus (c_uri c) (c_priority c) (c_mode c) with
  | Direct => {| b_reg := b_reg b; b_queues := b_queues b; b_direct := c :: b_direct b |}
  | Queued key _ => bus_enqueue c key b
  end.

(** One iteration of the loop of [release_entry]. *)
Definition bus_release_key (b : bus) (key : string) : bus :=
  let left := default 1 (r_refcount (b_reg b) !! key) - 1 in
  {| b_reg := release_key (b_reg b) key;
     b_queues := if left <=? 0 then match r_queues (b_reg b) !! key with
                                    | Some n => alter stop n (b_queues b)
                                    | None => b_queues b
                                    end
                 else b_queues b;
     b_direct := b_direct b |}.

Definition disown (entry_id : string) (r : registry) : registry :=
  {| r_next := r_next r; r_queues := r_queues r; r_refcount := r_refcount r;
     r_entry_keys := delete entry_id (r_entry_keys r) |}.

Definition bus_release (entry_id : string) (b : bus) : bus :=
  foldl bus_release_key {| b_reg := disown entry_id (b_reg b); b_queues := b_queues b; b_direct := b_direct b |}
    (elements (owned entry_id (b_reg b))).

(** A worker's turn. *)
Definition bus_worker (n : Z) (q' : queue_state command R) (b : bus) : bus :=
  {| b_reg := b_reg b; b_queues := <[n := q']> (b_queues b); b_direct := b_direct b |}.

Inductive bus_step : bus -> bus -> Prop :=
| bs_run c b : bus_step b (bus_run c b)
| bs_release e b : bus_step b (bus_release e b)
| bs_take n q q' b : b_queues b !! n = Some q -> take q = Some q' -> bus_step b (bus_worker n q' b)
| bs_finish r n q q' b : b_queues b !! n = Some q -> finish r q = Some q' -> bus_step b (bus_worker n q' b)
| bs_direct l1 c l2 b : b_direct b = l1 ++ c :: l2 ->
    bus_step b {| b_reg := b_reg b; b_queues := b_queues b; b_direct := l1 ++ l2 |}.

Inductive bus_reach : bus -> Prop :=
| breach_init : bus_reach bus_init
| breach_step b b' : bus_reach b -> bus_step b b' -> bus_reach b'.

(** ** Invariant *)

Definition command_key (c : command) : string := transport_key (c_uri c).

(** A queue in use: its worker exists and every command in it is for its key.
    One that is not has no worker, and none is in flight. *)
Definition live (key : string) (q : queue_state command R) : Prop :=
  q_worker q = true
  /\ Forall (fun e => command_key (e_fn e) = key) (q_queue q)
  /\ (forall e, q_running q = Some e -> command_key (e_fn e) = key).
Definition dead (q : queue_state command R) : Prop := q_worker q = false /\ q_running q = None.

(** When a command bypasses the queues. *)
Definition bypasses (c : command) : Prop := run_on_bus (c_uri c) (c_priority c) (c_mode c) = Direct.

Definition queues_inv (keys : gmap string Z) (next : Z) (queues : gmap Z (queue_state command R)) : Prop :=
  (forall key n, keys !! key = Some n -> exists q, queues !! n = Some q /\ live key q)
  /\ (forall k1 k2 n, keys !! k1 = Some n -> keys !! k2 = Some n -> k1 = k2)
  /\ (forall n q, queues !! n = Some q -> n < next /\ queue_inv q /\ ((exists key, keys !! key = Some n) \/ dead q)).

Definition bus_inv (b : bus) : Prop :=
  registry_inv (b_reg b) /\ queues_inv (r_queues (b_reg b)) (r_next (b_reg b)) (b_queues b)
  /\ Forall bypasses (b_direct b).

(** ** Lemmas: one queue *)

Lemma queue_init_inv : queue_inv (@queue_init command R).
Proof.
  split; [reflexivity|]. split; [constructor|]. split; [cbn; intros n; split; [easy|lia]|]. split; [constructor|].
  exists [], []. repeat split. easy.
Qed.

Lemma live_enqueue key c q : command_key c = key -> live key q -> live key (enqueue (c_priority c) c q).
Proof. intros Hc (Hw & Hq & Hr). split; [exact Hw|]. split; [|exact Hr]. apply Forall_app. split; [exact Hq|now repeat constructor]. Qed.

Lemma live_take key q q' : take q = Some q' -> live key q -> live key q'.
Proof.
  unfold take. intros Ht (Hw & Hq & _). rewrite Hw in Ht. destruct (q_running q); [discriminate|].
  destruct (q_queue q) as [|m l]; [discriminate|]. destruct (pop_min m l) as [e rest] eqn:E. injection Ht as <-.
  apply pop_min_perm in E. rewrite E in Hq. inversion Hq as [|? ? He Hrest]; subst.
  split; [reflexivity|]. split; [exact Hrest|]. now intros e' [= <-].
Qed.

Lemma live_finish key r q q' : finish r q = Some q' -> live key q -> live key q'.
Proof.
  unfold finish. intros Ht (Hw & Hq & _). destruct (q_running q); [|discriminate]. injection Ht as <-.
  split; [exact Hw|]. split; [exact Hq|]. discriminate.
Qed.

Lemma dead_take q q' : take q = Some q' -> ~ dead q.
Proof. intros Ht [Hw _]. unfold take in Ht. now rewrite Hw in Ht. Qed.

Lemma dead_finish r q q' : finish r q = Some q' -> ~ dead q.
Proof. intros Ht [_ Hr]. unfold finish in Ht. now rewrite Hr in Ht. Qed.

(** ** Lemmas: the queues of the registry *)

Lemma queues_alter keys next qs key n (f : queue_state command R -> queue_state command R) :
  queues_inv keys next qs -> keys !! key = Some n ->
  (forall q, live key q -> live key (f q)) -> (forall q, queue_inv q -> queue_inv (f q)) ->
  queues_inv keys next (alter f n qs).
Proof.
  intros (H1 & H2 & H3) Hk Hl Hi. split; [|split; [exact H2|]].
  - intros k m Hm. destruct (H1 k m Hm) as (q & Hq & Hlive). destruct (decide (m = n)) as [->|Hne].
    + assert (k = key) as -> by (now apply (H2 _ _ n)). exists (f q). rewrite lookup_alter_eq, Hq. split; [reflexivity|now apply Hl].
    + exists q. now rewrite lookup_alter_ne by congruence.
  - intros m q Hq. destruct (decide (m = n)) as [->|Hne].
    + rewrite lookup_alter_eq in Hq. destruct (qs !! n) as [q0|] eqn:E; [|discriminate]. injection Hq as <-.
      destruct (H3 n q0 E) as (Hn & Hinv & _). split; [exact Hn|]. split; [now apply Hi|]. left. now exists key.
    + rewrite lookup_alter_ne in Hq by congruence. now apply H3.
Qed.

Lemma queues_new keys next qs key q : queues_inv keys next qs -> keys !! key = None -> live key q -> queue_inv q ->
  queues_inv (<[key := next]> keys) (next + 1) (<[next := q]> qs).
Proof.
  intros (H1 & H2 & H3) Hk Hl Hi.
  assert (forall k n, keys !! k = Some n -> n < next) as Hlt.
  { intros k n Hn. destruct (H1 k n Hn) as (q0 & Hq0 & _). now apply (H3 n q0). }
  split; [|split].
  - intros k n Hn. apply lookup_insert_Some in Hn as [[<- <-]|[Hne Hn]].
    + exists q. now rewrite lookup_insert_eq.
    + pose proof (Hlt k n Hn). destruct (H1 k n Hn) as (q0 & Hq0 & Hl0). exists q0. now rewrite lookup_insert_ne by lia.
  - intros k1 k2 n Hn1 Hn2. apply lookup_insert_Some in Hn1 as [[<- <-]|[Hne1 Hn1]], Hn2 as [[<- E2]|[Hne2 Hn2]].
    + reflexivity.
    + apply Hlt in Hn2. lia.
    + subst. apply Hlt in Hn1. lia.
    + now apply (H2 _ _ n).
  - intros n q0 Hq0. apply lookup_insert_Some in Hq0 as [[<- <-]|[Hne Hq0]].
    + split; [lia|]. split; [exact Hi|]. left. exists key. apply lookup_insert_eq.
    + destruct (H3 n q0 Hq0) as (Hn & Hinv & [[k Hk0]|Hd]); (split; [lia|]); (split; [exact Hinv|]); [left|now right].
      exists k. rewrite lookup_insert_ne; congruence.
Qed.

Lemma queues_stop keys next qs key n : queues_inv keys next qs -> keys !! key = Some n ->
  queues_inv (delete key keys) next (alter stop n qs).
Proof.
  intros (H1 & H2 & H3) Hk. split; [|split].
  - intros k m Hm. apply lookup_delete_Some in Hm as [Hne Hm]. destruct (H1 k m Hm) as (q & Hq & Hl). exists q.
    rewrite lookup_alter_ne; [now split|]. intros ->. apply Hne. now apply (H2 _ _ m).
  - intros k1 k2 m Hm1 Hm2. apply lookup_delete_Some in Hm1 as [_ Hm1], Hm2 as [_ Hm2]. now apply (H2 _ _ m).
  - intros m q Hq. destruct (decide (m = n)) as [->|Hne].
    + rewrite lookup_alter_eq in Hq. destruct (qs !! n) as [q0|] eqn:E; [|discriminate]. injection Hq as <-.
      destruct (H3 n q0 E) as (Hn & Hinv & _). split; [exact Hn|]. split; [|right; now split].
      eapply qstep_inv; [apply q_stop|exact Hinv].
    + rewrite lookup_alter_ne in Hq by congruence. destruct (H3 m q Hq) as (Hn & Hinv & [[k Hk0]|Hd]).
      * split; [exact Hn|]. split; [exact Hinv|]. left. exists k. rewrite lookup_delete_ne; congruence.
      * now split; [|split; [|right]].
Qed.

Lemma queues_worker keys next qs n q q' : queues_inv keys next qs -> qs !! n = Some q ->
  (forall key, live key q -> live key q') -> ~ dead q -> queue_inv q' -> queues_inv keys next (<[n := q']> qs).
Proof.
  intros (H1 & H2 & H3) Hq Hl Hd Hi. split; [|split; [exact H2|]].
  - intros k m Hm. destruct (H1 k m Hm) as (q0 & Hq0 & Hl0). destruct (decide (m = n)) as [->|Hne].
    + exists q'. rewrite lookup_insert_eq. split; [reflexivity|]. apply Hl. congruence.
    + exists q0. now rewrite lookup_insert_ne by congruence.
  - intros m q0 Hq0. apply lookup_insert_Some in Hq0 as [[<- <-]|[Hne Hq0]]; [|now apply H3].
    destruct (H3 n q Hq) as (Hn & _ & [Hk|Hdead]); [|contradiction]. now split; [|split; [|left]].
Qed.

(** ** Lemmas: the operations *)

Lemma ensure_queues e key r : r_queues (ensure e key r) = r_queues (add_queue key r)
  /\ r_next (ensure e key r) = r_next (add_queue key r).
Proof. unfold ensure. now destruct (decide _). Qed.

Lemma bus_enqueue_inv c key b : command_key c = key -> bus_inv b -> bus_inv (bus_enqueue c key b).
Proof.
  intros Hc (Hreg & Hq & Hd). split; [apply ensure_inv, Hreg|]. split; [|exact Hd].
  cbn [bus_enqueue b_reg b_queues]. destruct (ensure_queues (c_entry c) key (b_reg b)) as [-> ->]. unfold add_queue.
  assert (forall q : queue_state command R, queue_inv q -> queue_inv (enqueue (c_priority c) c q)) as Hi
    by (intros q H; eapply qstep_inv; [apply q_enqueue|exact H]).
  destruct (r_queues (b_reg b) !! key) as [n|] eqn:E.
  - rewrite E. cbn [default id]. apply (queues_alter _ _ _ key); [exact Hq|exact E|intros q; now apply live_enqueue|exact Hi].
  - cbn [r_queues r_next]. rewrite lookup_insert_eq. cbn [default id].
    apply (queues_alter _ _ _ key); [|apply lookup_insert_eq|intros q; now apply live_enqueue|exact Hi].
    apply queues_new; [exact Hq|exact E|split; [reflexivity|now split]|].
    eapply qstep_inv; [apply q_start|apply queue_init_inv].
Qed.

(** Releasing: the registry's part, and the queues that lose their last owner. *)
Lemma bus_release_reg l b : b_reg (foldl bus_release_key b l) = foldl release_key (b_reg b) l
  /\ b_direct (foldl bus_release_key b l) = b_direct b.
Proof. revert b. induction l as [|k l IH]; intros b; [now split|]. cbn [foldl]. destruct (IH (bus_release_key b k)) as [-> ->]. now split. Qed.

Lemma bus_release_queues l b : queues_inv (r_queues (b_reg b)) (r_next (b_reg b)) (b_queues b) ->
  let b' := foldl bus_release_key b l in queues_inv (r_queues (b_reg b')) (r_next (b_reg b')) (b_queues b').
Proof.
  revert b. induction l as [|k l IH]; intros b H; [exact H|]. cbn [foldl]. apply IH.
  unfold bus_release_key, release_key. cbn [b_reg b_queues]. destruct (_ <=? 0); cbn [r_queues r_next]; [|exact H].
  destruct (r_queues (b_reg b) !! k) as [n|] eqn:E; [now apply queues_stop|].
  rewrite delete_id by exact E. exact H.
Qed.

Lemma bus_step_inv b b' : bus_step b b' -> bus_inv b -> bus_inv b'.
Proof.
  intros Hs Hinv. destruct Hs as [c b|e b|n q q' b Hq Ht|r n q q' b Hq Ht|l1 c l2 b Hl].
  - unfold bus_run. destruct (run_on_bus _ _ _) as [|key prio] eqn:E.
    + destruct Hinv as (H1 & H2 & H3). split; [exact H1|]. split; [exact H2|]. now constructor.
    + apply bus_enqueue_inv; [|exact Hinv]. unfold run_on_bus in E.
      destruct (startswith _ _); [discriminate|]. destruct (_ && _); [discriminate|]. now injection E.
  - destruct Hinv as (H1 & H2 & H3). unfold bus_release. split; [|split].
    + rewrite (proj1 (bus_release_reg _ _)). exact (proj1 (release_entry_inv e _ H1)).
    + now apply bus_release_queues.
    + now rewrite (proj2 (bus_release_reg _ _)).
  - destruct Hinv as (H1 & H2 & H3). split; [exact H1|]. split; [|exact H3].
    apply (queues_worker _ _ _ n q); [exact H2|exact Hq|intros key; now apply live_take|now apply (dead_take q q')|].
    apply (qstep_inv q); [now apply q_take|now apply (proj2 (proj2 H2) n q)].
  - destruct Hinv as (H1 & H2 & H3). split; [exact H1|]. split; [|exact H3].
    apply (queues_worker _ _ _ n q); [exact H2|exact Hq|intros key; now apply (live_finish key r)|now apply (dead_finish r q q')|].
    apply (qstep_inv q); [now apply (q_finish r)|now apply (proj2 (proj2 H2) n q)].
  - destruct Hinv as (H1 & H2 & H3). split; [exact H1|]. split; [exact H2|]. cbn [b_direct]. rewrite Hl in H3.
    apply Forall_app in H3 as [H3 H4]. inversion H4; subst. now apply Forall_app.
Qed.

Lemma bus_reach_inv b : bus_reach b -> bus_inv b.
Proof.
  intros Hr. induction Hr as [|b b' _ IH Hs]; [|now apply (bus_step_inv b)].
  split; [apply registry_init_inv|]. split; [|constructor]. split; [|split].
  - intros k n Hn. cbn in Hn. now rewrite lookup_empty in Hn.
  - intros k1 k2 n Hn. cbn in Hn. now rewrite lookup_empty in Hn.
  - intros n q Hn. cbn in Hn. now rewrite lookup_empty in Hn.
Qed.

(** ** Lemmas: what is in flight *)

Definition in_flight (b : bus) (n : Z) (e : entry command) : Prop :=
  exists q, b_queues b !! n = Some q /\ q_running q = Some e.

Lemma flight_key b n e : bus_inv b -> in_flight b n e -> r_queues (b_reg b) !! command_key (e_fn e) = Some n.
Proof.
  intros (_ & (H1 & H2 & H3) & _) (q & Hq & He). destruct (H3 n q Hq) as (_ & _ & [[key Hk]|[_ Hd]]); [|congruence].
  destruct (H1 key n Hk) as (q' & Hq' & _ & _ & Hrun). rewrite Hq in Hq'. injection Hq' as <-. now rewrite (Hrun e He).
Qed.

(** A worker serving its queue, as steps of the bus. *)
Lemma drain_steps (answer : entry command -> R) fuel n : forall b q, b_queues b !! n = Some q ->
  exists b', rtc bus_step b b' /\ b_queues b' !! n = Some (drain answer fuel q).
Proof.
  induction fuel as [|fuel IH]; intros b q Hq; cbn [drain]; [now exists b|].
  destruct (take q) as [q1|] eqn:Et; [|now exists b].
  assert (rtc bus_step b (bus_worker n q1 b)) as Hs1 by (apply rtc_once; now apply (bs_take n q)).
  assert (b_queues (bus_worker n q1 b) !! n = Some q1) as Hq1 by apply lookup_insert_eq.
  destruct (q_running q1) as [e|]; [|now exists (bus_worker n q1 b)].
  destruct (finish (answer e) q1) as [q2|] eqn:Ef; [|now exists (bus_worker n q1 b)].
  destruct (IH (bus_worker n q2 (bus_worker n q1 b)) q2 (lookup_insert_eq _ _ _)) as (b' & Hs & Hq').
  exists b'. split; [|exact Hq']. etransitivity; [exact Hs1|]. eapply rtc_l; [|exact Hs].
  now apply (bs_finish (answer e) n q1).
Qed.

(** A live queue can be served to the last command. *)
Lemma served_queue (answer : entry command -> R) b n q e : b_queues b !! n = Some q -> q_worker q = true -> In e (q_queue q) ->
  exists b' q', rtc bus_step b b' /\ b_queues b' !! n = Some q' /\ In (e_seq e, answer e) (q_futures q').
Proof.
  intros Hq Hw He.
  assert (forall b q, b_queues b !! n = Some q -> q_worker q = true -> In e (q_queue q) -> q_running q = None ->
    exists b' q', rtc bus_step b b' /\ b_queues b' !! n = Some q' /\ In (e_seq e, answer e) (q_futures q')) as Hidle.
  { intros b0 q0 Hq0 Hw0 He0 Hr0. destruct (drain_steps answer (List.length (q_queue q0)) n b0 q0 Hq0) as (b' & Hs & Hq').
    destruct (drain_sorted answer _ q0 Hw0 Hr0 (le_n _)) as (served & _ & Hp & _ & Hf & _).
    exists b', (drain answer (List.length (q_queue q0)) q0). split; [exact Hs|]. split; [exact Hq'|].
    rewrite Hf. apply in_or_app. right. apply (in_map (fun x => (e_seq x, answer x))).
    now apply (Permutation.Permutation_in e (Permutation.Permutation_sym Hp)). }
  destruct (q_running q) as [e0|] eqn:Er; [|now apply (Hidle b q)].
  destruct (finish (answer e0) q) as [q1|] eqn:Ef; [|unfold finish in Ef; now rewrite Er in Ef].
  assert (q_worker q1 = true /\ q_queue q1 = q_queue q /\ q_running q1 = None) as (Hw1 & Hq1 & Hr1)
    by (unfold finish in Ef; rewrite Er in Ef; now injection Ef as <-).
  destruct (Hidle (bus_worker n q1 b) q1) as (b' & q' & Hs & H); [apply lookup_insert_eq|exact Hw1|now rewrite Hq1|exact Hr1|].
  exists b', q'. split; [|exact H]. eapply rtc_l; [|exact Hs]. now apply (bs_finish (answer e0) n q).
Qed.

(** A waiting command has no answer yet. *)
Lemma waiting_pending (q : queue_state command R) e : queue_inv q -> In e (q_queue q) -> ~ In (e_seq e) (map fst (q_futures q)).
Proof.
  intros (_ & Hnd & _ & _ & l1 & l2 & El & Hi & _) He Hf. apply Hi in Hf. rewrite map_app in Hnd.
  apply (NoDup_ListNoDup) in Hnd. apply NoDup_app in Hnd as (_ & Hdis & _). apply (Hdis (e_seq e)).
  - apply list_elem_of_In. now apply in_map.
  - apply list_elem_of_In. rewrite El, map_app. apply in_or_app. now left.
Qed.

(** Where [bus_run] puts a command. *)
Lemma run_queued c b : bus_inv b -> ~ bypasses c -> exists n q e,
  r_queues (b_reg (bus_run c b)) !! command_key c = Some n /\ b_queues (bus_run c b) !! n = Some q
  /\ q_worker q = true /\ In e (q_queue q) /\ e_fn e = c.
Proof.
  intros Hinv Hb. assert (run_on_bus (c_uri c) (c_priority c) (c_mode c) = Queued (command_key c) (c_priority c)) as E.
  { unfold bypasses, run_on_bus in *. destruct (startswith _ _); [now destruct Hb|]. now destruct (_ && _); [destruct Hb|]. }
  unfold bus_run. rewrite E. destruct (bus_enqueue_inv c (command_key c) b eq_refl Hinv) as (_ & (H1 & _ & _) & _).
  destruct (proj1 (proj2 (ensure_inv (c_entry c) (command_key c) (b_reg b) (proj1 Hinv)))) as [n Hn].
  destruct (H1 (command_key c) n Hn) as (q & Hq & Hw & _ & _). exists n, q.
  pose proof Hq as Hq'. cbn [bus_enqueue b_queues] in Hq'. rewrite Hn in Hq'. cbn [default id] in Hq'.
  rewrite lookup_alter_eq in Hq'. apply fmap_Some_1 in Hq' as (q0 & _ & ->). eexists. split; [exact Hn|]. split; [exact Hq|]. split; [exact Hw|].
  split; [cbn [q_queue enqueue]; apply in_or_app; right; now left|reflexivity].
Qed.

(** ** Properties *)

(** C12: one command at a time on a transport: however many config entries,
    polls and user commands share a bus, and whichever entries come and go, two
    commands in flight on the same transport are one and the same, every queue
    that ever existed serves each of its commands at most once, and the only
    commands awaited outside the queues are those of a dongle and the user's
    writes over a network bridge in the concurrent mode. *)
Theorem bus_exclusive (b : bus) (Hr : bus_reach b) :
  (forall n1 e1 n2 e2, in_flight b n1 e1 -> in_flight b n2 e2 ->
     transport_key (c_uri (e_fn e1)) = transport_key (c_uri (e_fn e2)) -> n1 = n2 /\ e1 = e2)
  /\ (forall n q, b_queues b !! n = Some q -> queue_inv q)
  /\ Forall (fun c => startswith (c_uri c) "eybond" = true
       \/ (c_mode c = BUS_MODE_CONCURRENT_WRITES /\ c_priority c = PRIORITY_USER /\ is_tcp_transport (c_uri c) = true)) (b_direct b).
Proof.
  pose proof (bus_reach_inv b Hr) as Hinv. split; [|split].
  - intros n1 e1 n2 e2 H1 H2 E. pose proof (flight_key b n1 e1 Hinv H1) as K1. pose proof (flight_key b n2 e2 Hinv H2) as K2.
    unfold command_key in *. rewrite E in K1. rewrite K1 in K2. injection K2 as ->. split; [reflexivity|].
    destruct H1 as (q1 & Q1 & R1), H2 as (q2 & Q2 & R2). congruence.
  - intros n q Hq. destruct Hinv as (_ & (_ & _ & H3) & _). now apply (H3 n q).
  - destruct Hinv as (_ & _ & Hd). eapply Forall_impl; [exact Hd|]. intros c Hc. unfold bypasses, run_on_bus in Hc.
    destruct (startswith (c_uri c) "eybond"); [now left|]. right.
    destruct (String.eqb_spec (c_mode c) BUS_MODE_CONCURRENT_WRITES); [|discriminate].
    destruct (Z.eqb_spec (c_priority c) 0); [|discriminate]. destruct (is_tcp_transport (c_uri c)); [now auto|discriminate].
Qed.

(** A command handed to the bus is always put in a queue that has a worker, the
    one its transport's other commands are in; its caller has no answer yet, and
    gets its own answer once the commands before it finish. *)
Theorem bus_answers (answer : entry command -> R) (b : bus) (c : command) (Hr : bus_reach b) (Hc : ~ bypasses c) :
  exists n e q b' q', r_queues (b_reg (bus_run c b)) !! transport_key (c_uri c) = Some n
  /\ b_queues (bus_run c b) !! n = Some q /\ e_fn e = c /\ ~ In (e_seq e) (map fst (q_futures q))
  /\ rtc bus_step (bus_run c b) b' /\ b_queues b' !! n = Some q' /\ In (e_seq e, answer e) (q_futures q').
Proof.
  pose proof (bus_reach_inv b Hr) as Hinv. destruct (run_queued c b Hinv Hc) as (n & q & e & Hn & Hq & Hw & He & Ec).
  destruct (served_queue answer (bus_run c b) n q e Hq Hw He) as (b' & q' & Hs & Hq' & Hf).
  exists n, e, q, b', q'. repeat (split; [assumption|]). split; [|now split].
  apply waiting_pending; [|exact He].
  destruct (bus_step_inv _ _ (bs_run c b) Hinv) as (_ & (_ & _ & H3) & _). now apply (H3 n q).
Qed.
End Bus.

Arguments command : clear implicits.
Arguments bus : clear implicits.

(** ** Witnesses *)

(** A poll and a user's write of two config entries over one bridge. *)
Definition poll_1 : command Z := {| c_entry := "e1"; c_uri := "tcp://10.0.0.5:8899"; c_priority := PRIORITY_POLL; c_mode := BUS_MODE_SERIALIZED; c_fn := 1 |}.
Definition write_2 : command Z := {| c_entry := "e2"; c_uri := "tcp://10.0.0.5:8899"; c_priority := PRIORITY_USER; c_mode := BUS_MODE_SERIALIZED; c_fn := 2 |}.
Definition write_3 : command Z := {| c_entry := "e2"; c_uri := "tcp://10.0.0.5:8899"; c_priority := PRIORITY_USER; c_mode := BUS_MODE_CONCURRENT_WRITES; c_fn := 3 |}.
Definition demo_bus : bus Z Z := bus_run write_3 (bus_run write_2 (bus_run poll_1 bus_init)).

Lemma demo_bus_reach : bus_reach demo_bus.
Proof. do 3 (eapply breach_step; [|apply bs_run]). apply breach_init. Qed.

Lemma bus_exclusive_witness : queue_inv (default queue_init (b_queues demo_bus !! 0)) /\ List.length (b_direct demo_bus) = 1%nat.
Proof.
  destruct (bus_exclusive demo_bus demo_bus_reach) as (_ & H & _). split; [|reflexivity].
  apply (H 0). vm_compute. reflexivity.
Defined.

Lemma bus_answers_witness : exists n e (q : queue_state (command Z) Z) b' q',
  r_queues (b_reg (bus_run write_2 demo_bus)) !! "tcp:10.0.0.5:8899" = Some n
  /\ b_queues (bus_run write_2 demo_bus) !! n = Some q /\ e_fn e = write_2 /\ ~ In (e_seq e) (map fst (q_futures q))
  /\ rtc bus_step (bus_run write_2 demo_bus) b' /\ b_queues b' !! n = Some q' /\ In (e_seq e, c_fn (e_fn e) * 10) (q_futures q').
Proof. apply (bus_answers (fun e => c_fn (e_fn e) * 10) demo_bus write_2 demo_bus_reach). vm_compute. discriminate. Defined.
