(* ===== verification/BusSpec.v ===== *)
(** What the bus promises, and that it keeps it: [Bus] refines a specification
    without queues, reference counts or sequence numbers.

    The specification is one line of commands per transport, with the config
    entries that use the transport; a trace of the bus is a trace of the
    specification. *)

From Stdlib Require Import ZArith String Ascii Sorting.Permutation Sorting.Sorted.
From stdpp Require Import base gmap sets fin_sets fin_maps list strings.
From S2P Require Import Prelude PyStr PyInt Uri CommandQueue QueueRegistry Bus.
#[local] Set Warnings "-clear-no-such-hyp".
#[local] Open Scope string_scope.
#[local] Open Scope list_scope.
#[local] Open Scope Z_scope.

Section BusSpec.
Context {F R : Type}.
Abbreviation command := (command F).
Abbreviation bus := (bus F R).

(** ** What happens on a bus *)

Inductive label : Type :=
| Submit (c : command)            (* a command is put in line *)
| Serve (c : command)             (* its transport starts it *)
| Answer (c : command) (r : R)    (* its caller gets a result *)
| Leave (e : string)              (* a config entry is unloaded *)
| Bypass (c : command)            (* a command starts at once, outside the lines *)
| BypassDone (c : command).

(** ** The specification *)

Record bus_spec := {
  s_users : string -> gset string;       (* the entries that use a transport *)
  s_line : string -> list command;       (* the commands waiting for it, oldest first *)
  s_serving : string -> option command;  (* the one it is serving *)
  s_aside : list command                 (* the ones outside the lines *)
}.

Definition spec_init : bus_spec :=
  {| s_users := fun _ => ∅; s_line := fun _ => []; s_serving := fun _ => None; s_aside := [] |}.

Definition upd {A} (k : string) (v : A) (f : string -> A) (k' : string) : A := if decide (k' = k) then v else f k'.

Definition submit (c : command) (s : bus_spec) : bus_spec :=
  let k := command_key c in
  {| s_users := upd k ({[c_entry c]} ∪ s_users s k) (s_users s);
     s_line := upd k (s_line s k ++ [c]) (s_line s); s_serving := s_serving s; s_aside := s_aside s |}.

(** A transport nobody uses any more forgets its line and drops what it serves. *)
Definition leave (e : string) (s : bus_spec) : bus_spec :=
  let gone k := bool_decide (s_users s k ∖ {[e]} = ∅) in
  {| s_users := fun k => s_users s k ∖ {[e]};
     s_line := fun k => if gone k then [] else s_line s k;
     s_serving := fun k => if gone k then None else s_serving s k; s_aside := s_aside s |}.

(** A transport serves one command at a time: the oldest of the most urgent. *)
Inductive spec_step : label -> bus_spec -> bus_spec -> Prop :=
| ss_submit c s : ~ bypasses c -> spec_step (Submit c) s (submit c s)
| ss_serve k l1 c l2 s : s_serving s k = None -> s_line s k = l1 ++ c :: l2 ->
    Forall (fun x => c_priority c < c_priority x) l1 -> Forall (fun x => c_priority c <= c_priority x) l2 ->
    spec_step (Serve c) s
      {| s_users := s_users s; s_line := upd k (l1 ++ l2) (s_line s);
         s_serving := upd k (Some c) (s_serving s); s_aside := s_aside s |}
| ss_answer k c r s : s_serving s k = Some c ->
    spec_step (Answer c r) s
      {| s_users := s_users s; s_line := s_line s; s_serving := upd k None (s_serving s); s_aside := s_aside s |}
| ss_leave e s : spec_step (Leave e) s (leave e s)
| ss_bypass c s : bypasses c ->
    spec_step (Bypass c) s {| s_users := s_users s; s_line := s_line s; s_serving := s_serving s; s_aside := c :: s_aside s |}
| ss_bypass_done l1 c l2 s : s_aside s = l1 ++ c :: l2 ->
    spec_step (BypassDone c) s {| s_users := s_users s; s_line := s_line s; s_serving := s_serving s; s_aside := l1 ++ l2 |}.

(** ** The bus, with its events *)

Inductive bus_event : label -> bus -> bus -> Prop :=
| be_submit c b : ~ bypasses c -> bus_event (Submit c) b (bus_run c b)
| be_bypass c b : bypasses c -> bus_event (Bypass c) b (bus_run c b)
| be_serve n q q' e b : b_queues b !! n = Some q -> take q = Some q' -> q_running q' = Some e ->
    bus_event (Serve (e_fn e)) b (bus_worker n q' b)
| be_answer r n q q' e b : b_queues b !! n = Some q -> q_running q = Some e -> finish r q = Some q' ->
    bus_event (Answer (e_fn e) r) b (bus_worker n q' b)
| be_leave e b : bus_event (Leave e) b (bus_release e b)
| be_bypass_done l1 c l2 b : b_direct b = l1 ++ c :: l2 ->
    bus_event (BypassDone c) b {| b_reg := b_reg b; b_queues := b_queues b; b_direct := l1 ++ l2 |}.

(** A run with the events it shows. *)
Inductive run {S : Type} (step : label -> S -> S -> Prop) : S -> list label -> S -> Prop :=
| run_nil s : run step s [] s
| run_cons e s s' t s'' : step e s s' -> run step s' t s'' -> run step s (e :: t) s''.

(** The labels leave nothing out: the steps are those of [Bus]. *)
Lemma bus_event_step ev b b' : bus_event ev b b' -> bus_step b b'.
Proof.
  intros [c b0 _|c b0 _|n q q' e b0 Hq Ht _|r n q q' e b0 Hq _ Hf|e b0|l1 c l2 b0 Hl].
  - apply bs_run.
  - apply bs_run.
  - now apply (bs_take n q).
  - now apply (bs_finish r n q).
  - apply bs_release.
  - now apply (bs_direct l1 c l2).
Qed.

Lemma bus_step_event b b' : bus_step b b' -> exists ev, bus_event ev b b'.
Proof.
  intros [c b0|e b0|n q q' b0 Hq Ht|r n q q' b0 Hq Hf|l1 c l2 b0 Hl].
  - destruct (run_on_bus (c_uri c) (c_priority c) (c_mode c)) eqn:E.
    + exists (Bypass c). now apply be_bypass.
    + exists (Submit c). apply be_submit. unfold bypasses. congruence.
  - exists (Leave e). apply be_leave.
  - assert (exists e, q_running q' = Some e) as [e He].
    { unfold take in Ht. destruct (q_worker q), (q_running q), (q_queue q) as [|m l]; try discriminate.
      destruct (pop_min m l) as [e rest]. injection Ht as <-. now exists e. }
    exists (Serve (e_fn e)). now apply (be_serve n q).
  - assert (exists e, q_running q = Some e) as [e He] by (unfold finish in Hf; destruct (q_running q); [eauto|discriminate]).
    exists (Answer (e_fn e) r). now apply (be_answer r n q).
  - exists (BypassDone c). now apply (be_bypass_done l1 c l2).
Qed.

(** ** How a state of the bus stands for one of the specification *)

Definition seq_lt (a b : entry command) : Prop := e_seq a < e_seq b.

(** A queue and its line: the waiting entries in the order of their numbers. *)
Definition mirrors (q : queue_state command R) (line : list command) (serving : option command) : Prop :=
  exists es, Permutation es (q_queue q) /\ StronglySorted seq_lt es /\ map e_fn es = line
  /\ option_map e_fn (q_running q) = serving
  /\ Forall (fun e => e_prio e = c_priority (e_fn e) /\ e_seq e < q_seq q) es.

Definition slot (b : bus) (k : string) : option (queue_state command R) :=
  r_queues (b_reg b) !! k ≫= fun n => b_queues b !! n.

Definition mirrors_slot (o : option (queue_state command R)) (line : list command) (serving : option command) : Prop :=
  match o with
  | Some q => mirrors q line serving
  | None => line = [] /\ serving = None
  end.

Definition stands_for (b : bus) (s : bus_spec) : Prop :=
  (forall k, owners (b_reg b) k = s_users s k)
  /\ (forall k, mirrors_slot (slot b k) (s_line s k) (s_serving s k))
  /\ b_direct b = s_aside s.

(** ** Lemmas: one queue *)

Lemma upd_eq {A} k (v : A) f : upd k v f k = v.
Proof. unfold upd. now rewrite decide_True. Qed.

Lemma upd_ne {A} k k' (v : A) f : k' <> k -> upd k v f k' = f k'.
Proof. intros H. unfold upd. now rewrite decide_False. Qed.

(** A sorted list around one of its elements. *)
Lemma sorted_around {A} (lt : A -> A -> Prop) l1 x l2 : StronglySorted lt (l1 ++ x :: l2) ->
  StronglySorted lt (l1 ++ l2) /\ Forall (fun y => lt y x) l1 /\ Forall (fun y => lt x y) l2.
Proof.
  induction l1 as [|a l1 IH]; cbn; intros H; inversion H as [|? ? Hs Hf]; subst; [now split|].
  destruct (IH Hs) as (H1 & H2 & H3). apply Forall_app in Hf as [Hf1 Hf2]. inversion Hf2; subst.
  split; [constructor; [exact H1|now apply Forall_app]|]. split; [now constructor|exact H3].
Qed.

Lemma sorted_snoc {A} (lt : A -> A -> Prop) l x : StronglySorted lt l -> Forall (fun y => lt y x) l -> StronglySorted lt (l ++ [x]).
Proof.
  induction 1 as [|a l Hs IH Hf]; cbn; intros H; inversion H; subst; [repeat constructor|].
  constructor; [now apply IH|]. apply Forall_app. split; [exact Hf|now constructor].
Qed.

Lemma mirrors_start : mirrors (start queue_init) [] None.
Proof. exists []. repeat split; constructor. Qed.

Lemma mirrors_enqueue q line serving c : mirrors q line serving -> mirrors (enqueue (c_priority c) c q) (line ++ [c]) serving.
Proof.
  intros (es & Hp & Hs & Hl & Hr & Hf). exists (es ++ [{| e_prio := c_priority c; e_seq := q_seq q; e_fn := c |}]).
  split; [cbn [q_queue enqueue]; now apply Permutation_app_tail|]. split; [|split; [|split; [exact Hr|]]].
  - apply sorted_snoc; [exact Hs|]. eapply Forall_impl; [exact Hf|]. intros e [_ He]. exact He.
  - rewrite map_app, Hl. reflexivity.
  - cbn [q_seq enqueue]. apply Forall_app. split; [|repeat constructor; cbn; lia].
    eapply Forall_impl; [exact Hf|]. cbn. intros e [He1 He2]. split; [exact He1|lia].
Qed.

(** The worker takes the oldest of the most urgent. *)
Lemma mirrors_take q q' e line serving : mirrors q line serving -> take q = Some q' -> q_running q' = Some e ->
  serving = None /\ exists l1 l2, line = l1 ++ e_fn e :: l2
  /\ Forall (fun x => c_priority (e_fn e) < c_priority x) l1 /\ Forall (fun x => c_priority (e_fn e) <= c_priority x) l2
  /\ mirrors q' (l1 ++ l2) (Some (e_fn e)).
Proof.
  intros (es & Hp & Hs & <- & <- & Hf) Ht Hr. unfold take in Ht.
  destruct (q_worker q); [|discriminate]. destruct (q_running q) eqn:Er; [discriminate|].
  destruct (q_queue q) as [|m l] eqn:Eq; [discriminate|]. destruct (pop_min m l) as [e' rest] eqn:Ep.
  injection Ht as <-. cbn [q_running] in Hr. injection Hr as ->. split; [reflexivity|].
  pose proof (pop_min_perm _ _ _ _ Ep) as Hperm. pose proof (pop_min_least _ _ _ _ Ep) as [_ Hleast].
  rewrite Hperm in Hp. assert (In e es) as Hin by (apply (Permutation_in e (Permutation_sym Hp)); now left).
  apply in_split in Hin as (l1 & l2 & ->). apply Permutation_sym, Permutation_cons_app_inv, Permutation_sym in Hp.
  destruct (sorted_around _ _ _ _ Hs) as (Hs' & Hbefore & Hafter).
  assert (Forall (fun x => entry_le e x = true) (l1 ++ l2)) as Hle
    by (rewrite List.Forall_forall in *; intros x Hx; apply Hleast; now apply (Permutation_in x Hp)).
  apply Forall_app in Hf as [Hf1 Hf2]. inversion Hf2 as [|? ? [He1 He2] Hf3]; subst.
  apply Forall_app in Hle as [Hle1 Hle2]. rewrite map_app. exists (map e_fn l1), (map e_fn l2). split; [reflexivity|].
  split; [|split].
  - apply Forall_fmap. rewrite List.Forall_forall in *. intros x Hx. cbn.
    specialize (Hle1 x Hx). specialize (Hbefore x Hx). destruct (Hf1 x Hx) as [Hx1 _].
    unfold entry_le, seq_lt in *. rewrite orb_true_iff, andb_true_iff, Z.ltb_lt, Z.eqb_eq, Z.leb_le in Hle1. lia.
  - apply Forall_fmap. rewrite List.Forall_forall in *. intros x Hx. cbn.
    specialize (Hle2 x Hx). destruct (Hf3 x Hx) as [Hx1 _].
    unfold entry_le in Hle2. rewrite orb_true_iff, andb_true_iff, Z.ltb_lt, Z.eqb_eq, Z.leb_le in Hle2. lia.
  - exists (l1 ++ l2). split; [exact Hp|]. split; [exact Hs'|]. split; [apply map_app|]. split; [reflexivity|now apply Forall_app].
Qed.

Lemma mirrors_finish r q q' e line serving : mirrors q line serving -> q_running q = Some e -> finish r q = Some q' ->
  serving = Some (e_fn e) /\ mirrors q' line None.
Proof.
  intros (es & Hp & Hs & <- & <- & Hf) Hr Ht. unfold finish in Ht. rewrite Hr in *. injection Ht as <-.
  split; [reflexivity|]. exists es. now repeat split.
Qed.

(** ** Lemmas: the slots of the operations *)

(** A worker's turn changes its own slot only. *)
Lemma slot_worker (b : bus) n q q' key : bus_inv b -> b_queues b !! n = Some q -> r_queues (b_reg b) !! key = Some n ->
  slot (bus_worker n q' b) key = Some q' /\ forall k, k <> key -> slot (bus_worker n q' b) k = slot b k.
Proof.
  intros (_ & (_ & Hinj & _) & _) Hq Hk. unfold slot. cbn [bus_worker b_reg b_queues]. split.
  - rewrite Hk. cbn. apply lookup_insert_eq.
  - intros k Hne. destruct (r_queues (b_reg b) !! k) as [m|] eqn:E; [|reflexivity]. cbn.
    rewrite lookup_insert_ne; [reflexivity|]. intros ->. apply Hne. now apply (Hinj _ _ m).
Qed.

Lemma slot_key (b : bus) n q : bus_inv b -> b_queues b !! n = Some q -> ~ dead q -> exists key,
  r_queues (b_reg b) !! key = Some n /\ live key q /\ slot b key = Some q.
Proof.
  intros (_ & (H1 & _ & H3) & _) Hq Hd. destruct (H3 n q Hq) as (_ & _ & [[key Hk]|]); [|contradiction].
  exists key. split; [exact Hk|]. unfold slot. rewrite Hk. cbn. split; [|exact Hq].
  destruct (H1 key n Hk) as (q0 & Hq0 & Hl). congruence.
Qed.

(** Putting a command. *)
Lemma slot_enqueue c (b : bus) : bus_inv b -> let key := command_key c in let b' := bus_enqueue c key b in
  slot b' key = Some (enqueue (c_priority c) c (default (start queue_init) (slot b key)))
  /\ forall k, k <> key -> slot b' k = slot b k.
Proof.
  intros (_ & (H1 & Hinj & H3) & _) key b'. unfold b', slot, bus_enqueue. cbn [b_reg b_queues].
  rewrite (proj1 (ensure_queues _ _ _)). unfold add_queue.
  destruct (r_queues (b_reg b) !! key) as [n|] eqn:E.
  - rewrite E. destruct (H1 key n E) as (q & Hq & _). cbn. rewrite Hq, lookup_alter_eq, Hq. split; [reflexivity|].
    intros k Hne. destruct (r_queues (b_reg b) !! k) as [m|] eqn:Em; [|reflexivity]. cbn.
    rewrite lookup_alter_ne; [reflexivity|]. intros ->. apply Hne. now apply (Hinj _ _ m).
  - cbn [r_queues]. rewrite lookup_insert_eq. cbn. rewrite lookup_alter_eq, lookup_insert_eq. split; [reflexivity|].
    intros k Hne. rewrite lookup_insert_ne by congruence. destruct (r_queues (b_reg b) !! k) as [m|] eqn:Em; [|reflexivity]. cbn.
    destruct (H1 k m Em) as (q & Hq & _). destruct (H3 m q Hq) as (Hm & _).
    rewrite lookup_alter_ne, lookup_insert_ne by lia. reflexivity.
Qed.

(** Releasing keeps the slots it does not remove. *)
Lemma slot_release_key (b : bus) key : queues_inv (r_queues (b_reg b)) (r_next (b_reg b)) (b_queues b) ->
  forall k n, r_queues (b_reg (bus_release_key b key)) !! k = Some n ->
  r_queues (b_reg b) !! k = Some n /\ b_queues (bus_release_key b key) !! n = b_queues b !! n.
Proof.
  intros (_ & Hinj & _) k n. unfold bus_release_key, release_key. cbn [b_reg b_queues].
  destruct (_ <=? 0); cbn [r_queues]; [|now split]. intros Hk. apply lookup_delete_Some in Hk as [Hne Hk]. split; [exact Hk|].
  destruct (r_queues (b_reg b) !! key) as [m|] eqn:E; [|reflexivity].
  rewrite lookup_alter_ne; [reflexivity|]. intros ->. apply Hne. now apply (Hinj _ _ n).
Qed.

Lemma slot_release_keys l : forall b : bus, queues_inv (r_queues (b_reg b)) (r_next (b_reg b)) (b_queues b) ->
  forall k n, r_queues (b_reg (foldl bus_release_key b l)) !! k = Some n ->
  r_queues (b_reg b) !! k = Some n /\ b_queues (foldl bus_release_key b l) !! n = b_queues b !! n.
Proof.
  induction l as [|key l IH]; intros b Hinv k n Hk; [now split|]. cbn [foldl] in *.
  destruct (IH (bus_release_key b key) (bus_release_queues [key] b Hinv) k n Hk) as [Hk1 ->].
  exact (slot_release_key b key Hinv k n Hk1).
Qed.

Lemma slot_release e (b : bus) : bus_inv b -> forall k,
  slot (bus_release e b) k = if decide (owners (b_reg b) k ∖ {[e]} = ∅) then None else slot b k.
Proof.
  intros (Hreg & Hinv & _) k. unfold slot, bus_release. set (b0 := Build_bus _ _ _).
  pose proof (slot_release_keys (elements (owned e (b_reg b))) b0 Hinv k) as Hkeep.
  assert (b_reg (foldl bus_release_key b0 (elements (owned e (b_reg b)))) = release_entry e (b_reg b)) as Er
    by (rewrite (proj1 (bus_release_reg _ _)); reflexivity).
  rewrite Er in *. destruct (release_entry_inv e _ Hreg) as [Hreg' Ho]. destruct (Hreg' k) as [_ Hq]. rewrite Ho in Hq.
  destruct (r_queues (release_entry e (b_reg b)) !! k) as [n|] eqn:E; destruct (decide _) as [Ed|Ed].
  - now destruct (proj1 Hq ltac:(eauto)).
  - destruct (Hkeep n eq_refl) as [Hk Hn]. cbn [b_reg b0 disown r_queues] in Hk. rewrite Hk. cbn. exact Hn.
  - reflexivity.
  - destruct (proj2 Hq Ed) as [n Hn]. discriminate.
Qed.

(** ** The simulation *)

Lemma bus_run_queued (c : command) (b : bus) : ~ bypasses c -> bus_run c b = bus_enqueue c (command_key c) b.
Proof.
  unfold bypasses, bus_run, run_on_bus. destruct (startswith _ _); [now intros []|].
  destruct (_ && _); [now intros []|reflexivity].
Qed.

Lemma stands_init : stands_for bus_init spec_init.
Proof.
  split; [|split; [|reflexivity]].
  - intros k. apply set_eq. intros e. rewrite elem_of_owners. unfold owned. cbn. now rewrite lookup_empty.
  - intros k. unfold slot. cbn. rewrite lookup_empty. now split.
Qed.

Lemma stands_submit c (b : bus) s : bus_inv b -> stands_for b s -> ~ bypasses c -> stands_for (bus_run c b) (submit c s).
Proof.
  intros Hinv (Ho & Hs & Hd) Hc. rewrite (bus_run_queued c b Hc). destruct (slot_enqueue c b Hinv) as [Hk Hne].
  destruct (ensure_inv (c_entry c) (command_key c) (b_reg b) (proj1 Hinv)) as (_ & _ & Hown).
  split; [|split; [|exact Hd]]; intros k; cbn [bus_enqueue b_reg submit s_users s_line s_serving].
  - rewrite Hown, !Ho. unfold upd. now destruct (decide (k = command_key c)) as [->|].
  - specialize (Hs k). destruct (decide (k = command_key c)) as [->|Hkc].
    + rewrite upd_eq, Hk. cbn [mirrors_slot]. apply mirrors_enqueue.
      destruct (slot b (command_key c)); [exact Hs|]. destruct Hs as [-> ->]. exact mirrors_start.
    + rewrite upd_ne, (Hne k Hkc) by exact Hkc. exact Hs.
Qed.

Lemma stands_leave e (b : bus) s : bus_inv b -> stands_for b s -> stands_for (bus_release e b) (leave e s).
Proof.
  intros Hinv (Ho & Hs & Hd). pose proof Hinv as (Hreg & _ & _). unfold stands_for. unfold bus_release at 1 3.
  rewrite (proj1 (bus_release_reg _ _)), (proj2 (bus_release_reg _ _)).
  split; [|split; [|exact Hd]]; intros k; cbn [leave s_users s_line s_serving].
  - rewrite <- Ho. exact (proj2 (release_entry_inv e _ Hreg) k).
  - rewrite (slot_release e b Hinv k), Ho. specialize (Hs k). case_bool_decide as Eb.
    + rewrite decide_True by exact Eb. now split.
    + now rewrite decide_False by exact Eb.
Qed.

(** A worker's turn, for the users and the commands outside the lines. *)
Lemma stands_worker (b : bus) s s' n q q' key line serving :
  bus_inv b -> stands_for b s -> b_queues b !! n = Some q -> r_queues (b_reg b) !! key = Some n ->
  mirrors q' line serving -> s_users s' = s_users s -> s_aside s' = s_aside s ->
  (forall k, s_line s' k = upd key line (s_line s) k) -> (forall k, s_serving s' k = upd key serving (s_serving s) k) ->
  stands_for (bus_worker n q' b) s'.
Proof.
  intros Hinv (Ho & Hs & Hd) Hq Hk Hm Hu Ha Hl Hr. destruct (slot_worker b n q q' key Hinv Hq Hk) as [Hkey Hne].
  unfold stands_for. rewrite Hu, Ha. split; [exact Ho|]. split; [|exact Hd].
  intros k. rewrite Hl, Hr. destruct (decide (k = key)) as [->|Hkk].
  - now rewrite !upd_eq, Hkey.
  - rewrite !upd_ne, (Hne k Hkk) by exact Hkk. apply Hs.
Qed.

Lemma simulate ev (b b' : bus) s : bus_inv b -> stands_for b s -> bus_event ev b b' ->
  exists s', spec_step ev s s' /\ stands_for b' s'.
Proof.
  intros Hinv Hst Hev. destruct Hev as [c b Hc|c b Hc|n q q' e b Hq Ht Hr|r n q q' e b Hq Hr Hf|e b|l1 c l2 b Hl].
  - exists (submit c s). split; [now constructor|now apply stands_submit].
  - eexists. split; [now constructor|]. unfold bus_run. rewrite Hc. destruct Hst as (Ho & Hs & Hd).
    split; [exact Ho|]. split; [exact Hs|]. cbn. now rewrite Hd.
  - destruct (slot_key b n q Hinv Hq (dead_take q q' Ht)) as (key & Hk & _ & Hslot).
    pose proof Hst as (_ & Hs & _). specialize (Hs key). rewrite Hslot in Hs.
    destruct (mirrors_take q q' e _ _ Hs Ht Hr) as (Hnone & l1 & l2 & Hline & H1 & H2 & Hm).
    eexists. split; [now apply (ss_serve key l1 (e_fn e) l2)|]. now apply (stands_worker b s _ n q q' key (l1 ++ l2) (Some (e_fn e))).
  - destruct (slot_key b n q Hinv Hq (dead_finish r q q' Hf)) as (key & Hk & _ & Hslot).
    pose proof Hst as (_ & Hs & _). specialize (Hs key). rewrite Hslot in Hs.
    destruct (mirrors_finish r q q' e _ _ Hs Hr Hf) as (Hserv & Hm).
    eexists. split; [now apply (ss_answer key)|]. apply (stands_worker b s _ n q q' key (s_line s key) None); try assumption; try reflexivity.
    intros k. cbn. unfold upd. now destruct (decide (k = key)) as [->|].
  - exists (leave e s). split; [constructor|now apply stands_leave].
  - destruct Hst as (Ho & Hs & Hd). eexists. split; [apply (ss_bypass_done l1 c l2); now rewrite <- Hd|].
    split; [exact Ho|]. now split.
Qed.

Lemma simulate_run t : forall (b b' : bus) s, bus_inv b -> stands_for b s -> run bus_event b t b' ->
  exists s', run spec_step s t s' /\ stands_for b' s'.
Proof.
  induction t as [|ev t IH]; intros b b' s Hinv Hst Hrun; inversion Hrun as [|? ? b1 ? ? Hev Ht]; subst.
  - exists s. split; [constructor|exact Hst].
  - destruct (simulate ev b b1 s Hinv Hst Hev) as (s1 & Hs1 & Hst1).
    destruct (IH b1 b' s1 (bus_step_inv _ _ (bus_event_step _ _ _ Hev) Hinv) Hst1 Ht) as (s' & Hs' & Hst').
    exists s'. split; [now apply (run_cons spec_step ev s s1)|exact Hst'].
Qed.

(** ** What a trace says of a transport *)

Definition of_key (k : string) (c : command) : option command := if decide (command_key c = k) then Some c else None.

Definition submitted_on (k : string) : list label -> list command :=
  omap (fun ev => match ev with Submit c => of_key k c | _ => None end).
Definition served_on (k : string) : list label -> list command :=
  omap (fun ev => match ev with Serve c => of_key k c | _ => None end).
Definition answered_on (k : string) : list label -> list command :=
  omap (fun ev => match ev with Answer c _ => of_key k c | _ => None end).

(** Every command put in line is waiting, has been served, or was given up with
    its transport; every one served is being served, has been answered, or was
    given up. *)
Definition accounts (k : string) (t : list label) (s : bus_spec) : Prop :=
  Forall (fun c => command_key c = k) (s_line s k)
  /\ Forall (fun c => command_key c = k) (option_list (s_serving s k))
  /\ (exists given_up, submitted_on k t ≡ₚ served_on k t ++ s_line s k ++ given_up)
  /\ (exists given_up, served_on k t ≡ₚ answered_on k t ++ option_list (s_serving s k) ++ given_up).

(** An event that is not of the transport changes none of its lists. *)
Lemma of_key_this c : of_key (command_key c) c = Some c.
Proof. unfold of_key. now rewrite decide_True. Qed.

Lemma of_key_other k c : command_key c <> k -> of_key k c = None.
Proof. intros H. unfold of_key. now rewrite decide_False. Qed.

Lemma accounts_init k : accounts k [] spec_init.
Proof. split; [constructor|]. split; [constructor|]. split; now exists []. Qed.

Lemma accounts_step ev s s' t : (forall k, accounts k t s) -> spec_step ev s s' -> forall k, accounts k (t ++ [ev]) s'.
Proof.
  intros Hall Hstep k. destruct (Hall k) as (Hl & Hr & (g1 & H1) & (g2 & H2)).
  unfold accounts, submitted_on, served_on, answered_on in *. rewrite !omap_app.
  destruct Hstep as [c s Hc|key l1 c l2 s Hn Hline _ _|key c r s Hs|e s|c s Hc|l1 c l2 s Ha];
    cbn [omap list_omap submit leave s_line s_serving]; rewrite ?app_nil_r; [..|now eauto|now eauto].
  - destruct (decide (command_key c = k)) as [<-|Hk].
    + rewrite of_key_this, upd_eq. split; [apply Forall_app; split; [exact Hl|now repeat constructor]|].
      split; [exact Hr|]. split; [exists g1|now exists g2]. rewrite H1. solve_Permutation.
    + rewrite of_key_other, upd_ne, app_nil_r by congruence. now eauto.
  - destruct (Hall key) as (Hlk & _). rewrite Hline in Hlk. apply Forall_app in Hlk as [Hl1 Hl2].
    inversion Hl2 as [|? ? Hc Hl3]; subst. destruct (decide (command_key c = k)) as [<-|Hk].
    + rewrite of_key_this, !upd_eq. cbn [option_list]. split; [now apply Forall_app|]. split; [now repeat constructor|].
      rewrite Hline in H1. rewrite Hn in H2. cbn [option_list] in H2. split.
      * exists g1. rewrite H1. solve_Permutation.
      * exists g2. rewrite H2. solve_Permutation.
    + rewrite of_key_other, !upd_ne, app_nil_r by congruence. now eauto.
  - destruct (Hall key) as (_ & Hc & _). rewrite Hs in Hc. cbn [option_list] in Hc. inversion Hc as [|? ? Hck _]; subst.
    destruct (decide (command_key c = k)) as [<-|Hk].
    + rewrite of_key_this, upd_eq. split; [exact Hl|]. split; [constructor|]. split; [now exists g1|].
      exists g2. rewrite H2, Hs. cbn [option_list]. solve_Permutation.
    + rewrite of_key_other, upd_ne, app_nil_r by congruence. now eauto.
  - case_bool_decide; [|now eauto]. split; [constructor|]. split; [constructor|]. split.
    + exists (s_line s k ++ g1). rewrite H1. solve_Permutation.
    + exists (option_list (s_serving s k) ++ g2). rewrite H2. solve_Permutation.
Qed.

Lemma accounts_run t : forall t0 s s', (forall k, accounts k t0 s) -> run spec_step s t s' -> forall k, accounts k (t0 ++ t) s'.
Proof.
  induction t as [|ev t IH]; intros t0 s s' Hacc Hrun; inversion Hrun as [|? ? s1 ? ? Hev Ht]; subst.
  - now rewrite app_nil_r.
  - rewrite (app_assoc t0 [ev] t : t0 ++ ev :: t = _). apply (IH _ s1); [now apply (accounts_step ev s)|exact Ht].
Qed.

(** ** Property *)

(** C11: the bus refines its specification: whatever it does in any run, from
    nothing, however many config entries, polls and user commands share it and
    whichever entries are unloaded, the specification of one line per transport
    does too, event by event - a transport serves one command at a time, always
    the oldest of the most urgent, and forgets its line when its last user
    leaves - and ends in the state the bus stands for; so on every transport no
    command is served that was not submitted, none answered that was not served,
    and none more often. *)
Theorem bus_refines_spec (t : list label) (b : bus) (Hrun : run bus_event bus_init t b) :
  (exists s, run spec_step spec_init t s /\ stands_for b s)
  /\ forall k, served_on k t ⊆+ submitted_on k t /\ answered_on k t ⊆+ served_on k t.
Proof.
  destruct (simulate_run t bus_init b spec_init (bus_reach_inv _ breach_init) stands_init Hrun) as (s & Hs & Hst).
  split; [now exists s|]. intros k.
  destruct (accounts_run t [] _ _ accounts_init Hs k) as (_ & _ & (g1 & H1) & (g2 & H2)). cbn [app] in *.
  split; [rewrite H1|rewrite H2]; now apply submseteq_inserts_r.
Qed.
End BusSpec.

Arguments label : clear implicits.
Arguments bus_spec : clear implicits.

(** ** Witness *)

(** A poll, then a user's write of another entry: the write is served first. *)
Definition demo_trace : list (label Z Z) := [Submit poll_1; Submit write_2; Serve write_2; Answer write_2 20; Leave "e1"].
Definition demo_queue_1 : queue_state (command Z) Z :=
  enqueue PRIORITY_USER write_2 (enqueue PRIORITY_POLL poll_1 (start queue_init)).
Definition write_2_entry : entry (command Z) := {| e_prio := PRIORITY_USER; e_seq := 1; e_fn := write_2 |}.
Definition demo_queue_2 : queue_state (command Z) Z := default demo_queue_1 (take demo_queue_1).
Definition demo_queue_3 : queue_state (command Z) Z := default demo_queue_1 (finish 20 demo_queue_2).
Definition demo_end : bus Z Z :=
  bus_release "e1" (bus_worker 0 demo_queue_3 (bus_worker 0 demo_queue_2 (bus_run write_2 (bus_run poll_1 bus_init)))).

Lemma demo_run : run bus_event bus_init demo_trace demo_end.
Proof.
  eapply run_cons; [apply be_submit; vm_compute; discriminate|].
  eapply run_cons; [apply be_submit; vm_compute; discriminate|].
  eapply run_cons; [apply (be_serve 0 demo_queue_1 demo_queue_2 write_2_entry); vm_compute; reflexivity|].
  eapply run_cons; [apply (be_answer 20 0 demo_queue_2 demo_queue_3 write_2_entry); vm_compute; reflexivity|].
  eapply run_cons; [apply be_leave|apply run_nil].
Qed.

Lemma bus_refines_spec_witness : exists s, run spec_step spec_init demo_trace s
  /\ s_users s "tcp:10.0.0.5:8899" = owners (b_reg demo_end) "tcp:10.0.0.5:8899".
Proof.
  destruct (bus_refines_spec demo_trace demo_end demo_run) as [(s & Hs & Hu & _) _].
  exists s. split; [exact Hs|]. symmetry. apply Hu.
Defined.
