(* ===== verification/Sanity.v ===== *)
(** Plausibility bounds of readings: [sanity.py]. *)

From Stdlib Require Import ZArith List Bool Lia String Ascii Floats.SpecFloat.
From S2P Require Import Prelude PyStr PyInt PyFloat PyDict.
Import ListNotations.
#[local] Open Scope string_scope.
#[local] Open Scope list_scope.
#[local] Open Scope Z_scope.

Definition MIN_BATTERY_VOLTAGE_V : float := flit 10 1.
Definition MAX_BATTERY_VOLTAGE_V : float := flit 120 1.
Definition MAX_BATTERY_CURRENT_A : float := flit 300 1.
Definition MAX_PLAUSIBLE_POWER_W : float := flit 50000 1.

Definition within (lo hi value : float) : bool := fle lo value && fle value hi.

Definition is_plausible_battery_current (value : float) : bool :=
  within (flit 0 1) MAX_BATTERY_CURRENT_A value.

Definition is_plausible_battery_voltage (value : float) : bool :=
  within MIN_BATTERY_VOLTAGE_V MAX_BATTERY_VOLTAGE_V value.

Definition is_plausible_power (value : float) : bool :=
  within (fneg MAX_PLAUSIBLE_POWER_W) MAX_PLAUSIBLE_POWER_W value.

(** [float(raw)] of a field, [None] when missing or not a number; only an
    integer too large for a float still raises. *)
Definition float_field (data : pydict) (key : string) : res (option float) :=
  match vget key data with
  | VNone | VStr "" => Ok None
  | raw => match float_of_val raw with
           | Ok f => Ok (Some f)
           | Raise e => if is_TypeError e || is_ValueError e then Ok None else Raise e
           end
  end.

Definition field_plausible (ok : float -> bool) (data : pydict) (key : string) : res bool :=
  rmap (fun v => match v with Some x => ok x | None => true end) (float_field data key).

(** The conjunction of the checks, the first failing one deciding. *)
Fixpoint all_plausible (l : list (res bool)) : res bool :=
  match l with
  | [] => Ok true
  | r :: l' => rbind r (fun b => if b then all_plausible l' else Ok false)
  end.

(** [data] not being a dict is the caller's [None] case. *)
Definition is_plausible_qpigs (data : pydict) : res bool :=
  if dmem "error" data then Ok false
  else all_plausible
    (field_plausible is_plausible_battery_voltage data "battery_voltage"
     :: map (field_plausible is_plausible_battery_current data)
          ["battery_charging_current"; "battery_discharge_current"]).

Definition max_step_wh (elapsed_seconds : float) : float :=
  fmax (fdiv_nz (fmul MAX_PLAUSIBLE_POWER_W elapsed_seconds) (flit 3600 1)) (flit 100 1).

(** ** Lemmas *)

Lemma all_plausible_true l : all_plausible l = Ok true <-> Forall (fun r => r = Ok true) l.
Proof.
  induction l as [|[[|]|e] l IH]; simpl; split; intros H; try discriminate; auto.
  - constructor; [reflexivity|now apply IH].
  - inversion H; subst. now apply IH.
  - inversion H; discriminate.
  - inversion H; discriminate.
Qed.

(** A comparison with a NaN is false. *)
Lemma within_not_nan lo hi v : within lo hi v = true -> is_nan v = false.
Proof. unfold within. destruct v, lo; simpl; auto; destruct s0; discriminate. Qed.

(** A field is fine when it is no number, or a number in its range. *)
Definition field_in (ok : float -> bool) (data : pydict) (key : string) : Prop :=
  float_field data key = Ok None \/ exists v, float_field data key = Ok (Some v) /\ ok v = true.

Lemma field_plausible_true ok data key :
  field_plausible ok data key = Ok true <-> field_in ok data key.
Proof.
  unfold field_plausible, field_in, rmap, rbind.
  destruct (float_field data key) as [[v|]|e]; split; intros H; auto.
  - right. exists v. split; [reflexivity|now apply ok_inj in H].
  - destruct H as [H|(v' & H & Hv)]; [discriminate|]. apply ok_inj in H. injection H as ->. now rewrite Hv.
  - discriminate.
  - destruct H as [H|(v' & H & _)]; discriminate.
Qed.

(** A status reading is accepted exactly when it carries no error and
    each battery field is missing, not a number, or a non-NaN value inside its
    window: 10 to 120 V, 0 to 300 A. *)
Theorem plausible_qpigs_window (data : pydict) :
  is_plausible_qpigs data = Ok true <->
  dmem "error" data = false
  /\ field_in (fun v => negb (is_nan v) && within (flit 10 1) (flit 120 1) v) data "battery_voltage"
  /\ field_in (fun v => negb (is_nan v) && within (flit 0 1) (flit 300 1) v) data "battery_charging_current"
  /\ field_in (fun v => negb (is_nan v) && within (flit 0 1) (flit 300 1) v) data "battery_discharge_current".
Proof.
  unfold is_plausible_qpigs. destruct (dmem "error" data); [split; [discriminate|now intros [? _]]|].
  rewrite all_plausible_true. cbn [map].
  assert (Hin : forall lo hi k, field_plausible (within lo hi) data k = Ok true
            <-> field_in (fun v => negb (is_nan v) && within lo hi v) data k).
  { intros lo hi k. rewrite field_plausible_true. unfold field_in.
    split; (intros [H|(v & H & Hv)]; [now left|right; exists v; split; [exact H|]]).
    - now rewrite (within_not_nan _ _ _ Hv), Hv.
    - now apply andb_prop in Hv. }
  rewrite <- !Hin. split.
  - intros H. inversion_clear H as [|? ? H1 Hl]. inversion_clear Hl as [|? ? H2 Hl'].
    inversion_clear Hl' as [|? ? H3 _]. auto.
  - intros (_ & H1 & H2 & H3). repeat constructor; assumption.
Qed.

Example plausible_1 :
  (is_plausible_qpigs [("battery_voltage", VStr "26.40"); ("battery_charging_current", VStr "450")],
   is_plausible_qpigs [("battery_voltage", VStr "nan")], is_plausible_qpigs [("battery_voltage", VStr "26.40")])
  = (Ok false, Ok false, Ok true).
Proof. vm_compute. reflexivity. Qed.
