(* ===== verification/FailureTracker.v ===== *)
(** Consecutive-failure counting and the freeze/unavailable verdict:
    [coordinators/failure_tracker.py]. *)

From Stdlib Require Import ZArith String Ascii.
From stdpp Require Import base gmap list strings.
From S2P Require Import Prelude PyDict.
#[local] Open Scope Z_scope.

Definition DEFAULT_MAX_CONSECUTIVE_FAILURES : Z := 3.

Inductive FailureOutcome := FREEZE | NO_DATA | UNAVAILABLE.

(** [_counts]: device, command, consecutive failures. *)
Abbreviation tracker := (gmap string (gmap string Z)).

Definition per_device (t : tracker) (device : string) : gmap string Z := default ∅ (t !! device).

Definition count (t : tracker) (device command : string) : Z :=
  default 0 (per_device t device !! command).

Definition set_count (t : tracker) (device command : string) (n : Z) : tracker :=
  <[device := <[command := n]> (per_device t device)]> t.

Definition on_success (t : tracker) (device command : string) : tracker :=
  set_count t device command 0.

Definition on_failure (t : tracker) (device command : string) : Z * tracker :=
  let n := count t device command + 1 in (n, set_count t device command n).

Definition resolve (max_consecutive n : Z) (last_known : option pydict) : pydict * FailureOutcome :=
  if n <? max_consecutive then
    match last_known with
    | Some ((_ :: _) as d) => (d, FREEZE)
    | _ => ([], NO_DATA)
    end
  else ([], UNAVAILABLE).

(** ** Lemmas *)

Lemma count_set_eq t d c n : count (set_count t d c n) d c = n.
Proof. unfold count, set_count, per_device. rewrite lookup_insert_eq. cbn [default from_option id]. now rewrite lookup_insert_eq. Qed.

Lemma count_set_ne t d c n d' c' : (d, c) <> (d', c') -> count (set_count t d c n) d' c' = count t d' c'.
Proof.
  intros Hne. unfold count, set_count, per_device. destruct (decide (d = d')) as [->|Hd].
  - rewrite lookup_insert_eq. simpl. rewrite lookup_insert_ne by congruence. reflexivity.
  - now rewrite lookup_insert_ne by congruence.
Qed.

Lemma resolve_below m n d : n < m -> fst (resolve m n (Some d)) = d.
Proof. intros H. unfold resolve. rewrite (proj2 (Z.ltb_lt _ _) H). now destruct d. Qed.

Lemma resolve_above m n o : m <= n -> resolve m n o = ([], UNAVAILABLE).
Proof. intros H. unfold resolve. destruct (Z.ltb_spec n m); [lia|reflexivity]. Qed.
