(* ===== verification/Coordinator.v ===== *)
(** The polling coordinator: [coordinators/direct_coordinator.py].

    The reads of one device in one cycle are the list of the results its
    attempts get, in order ([VNone] for a raise); a list that runs out is the
    poll being cancelled by its timeout while awaiting the next read. The
    device polls of a cycle run concurrently but touch disjoint keys, so they
    are composed in sequence. What the base class keeps as [data] is the last
    value a poll returned or [async_set_updated_data] published; a poll works on
    the value it saw when it began ([prev_data]). *)

From Stdlib Require Import ZArith String Ascii.
From stdpp Require Import base gmap sets list strings.
From S2P Require Import Prelude PyStr PyInt PyFloat PyDict Sanity FailureTracker.
#[local] Set Warnings "-clear-no-such-hyp".
#[local] Open Scope Z_scope.

(** [coordinators/device_target.py] *)
Record DeviceTarget := { t_id : string; t_uri : string; t_protocol : string; t_name : string }.

Definition NAK_SUPPRESS_THRESHOLD : Z := 2.
Definition MAX_CONSECUTIVE_FAILURES : Z := 6.

(** command, section, every n cycles *)
Definition CMD_SCHEDULE : list (string * string * Z) :=
  [("QPIGS", "qpigs", 1); ("QMOD", "qmod", 2); ("QPIGS2", "qpigs2", 2);
   ("QPIWS", "qpiws", 3); ("QFWS", "qfws", 3); ("QPIRI", "qpiri", 6)]%string.

(** The sections of a device, with their ["timestamp"] apart. *)
Record devdata := { d_timestamp : option Z; d_sections : dict pydict }.

Definition devdata_empty : devdata := {| d_timestamp := None; d_sections := [] |}.

Record coord := {
  c_devices : list DeviceTarget;
  c_failures : tracker;
  c_unsupported : gset (string * string);
  c_nak_counts : gmap (string * string) Z;
  c_cycle : Z;
  c_data : dict devdata
}.

Definition coord_init (devices : list DeviceTarget) : coord :=
  {| c_devices := devices; c_failures := ∅; c_unsupported := ∅; c_nak_counts := ∅;
     c_cycle := 0; c_data := [] |}.

Definition with_failures (t : tracker) (st : coord) : coord :=
  {| c_devices := c_devices st; c_failures := t; c_unsupported := c_unsupported st;
     c_nak_counts := c_nak_counts st; c_cycle := c_cycle st; c_data := c_data st |}.
Definition with_nak (u : gset (string * string)) (n : gmap (string * string) Z) (st : coord) : coord :=
  {| c_devices := c_devices st; c_failures := c_failures st; c_unsupported := u;
     c_nak_counts := n; c_cycle := c_cycle st; c_data := c_data st |}.
Definition with_cycle (n : Z) (st : coord) : coord :=
  {| c_devices := c_devices st; c_failures := c_failures st; c_unsupported := c_unsupported st;
     c_nak_counts := c_nak_counts st; c_cycle := n; c_data := c_data st |}.
Definition with_data (d : dict devdata) (st : coord) : coord :=
  {| c_devices := c_devices st; c_failures := c_failures st; c_unsupported := c_unsupported st;
     c_nak_counts := c_nak_counts st; c_cycle := c_cycle st; c_data := d |}.

(** ** Classification of a result *)

Definition status_nak (d : pydict) : bool :=
  match dget "status" d with Some (VStr s) => String.eqb s "NAK" | _ => false end.

Definition is_error_result (result : pyval) : bool :=
  match result with
  | VDict [] => true
  | VDict d => dmem "error" d || status_nak d
  | _ => true
  end.

Definition is_nak_result (result : pyval) : bool :=
  match result with
  | VDict d => status_nak d || match dget "error" d with
                               | Some (VStr err) => str_contains "NAK" err
                               | _ => false
                               end
  | _ => false
  end.

Definition is_unsupported (key cmd : string) (st : coord) : bool :=
  bool_decide ((key, cmd) ∈ c_unsupported st).

Definition note_nak (key cmd : string) (st : coord) : coord * bool :=
  if is_unsupported key cmd st then (st, true)
  else
    let count := default 0 (c_nak_counts st !! (key, cmd)) + 1 in
    let naks := <[(key, cmd) := count]> (c_nak_counts st) in
    if NAK_SUPPRESS_THRESHOLD <=? count
    then (with_nak ({[(key, cmd)]} ∪ c_unsupported st) naks st, true)
    else (with_nak (c_unsupported st) naks st, false).

Definition clear_nak_streak (key cmd : string) (st : coord) : coord :=
  with_nak (c_unsupported st) (delete (key, cmd) (c_nak_counts st)) st.

(** The tail of [_accept_result]: streak cleared, success recorded. *)
Definition accept_good (key cmd : string) (st : coord) : coord :=
  with_failures (on_success (c_failures st) key cmd) (clear_nak_streak key cmd st).

Definition accept_result (key cmd : string) (result : pyval) (st : coord)
  : coord * res (option pydict) :=
  if is_nak_result result then (fst (note_nak key cmd st), Ok None)
  else if is_error_result result then (st, Ok None)
  else match result with
       | VDict d =>
           if String.eqb cmd "QPIGS" then
             match is_plausible_qpigs d with
             | Ok true => (accept_good key cmd st, Ok (Some d))
             | Ok false => (st, Ok None)
             | Raise e => (st, Raise e)
             end
           else (accept_good key cmd st, Ok (Some d))
       | _ => (st, Ok None)
       end.

(** ** One section *)

Inductive fetched := Fetched (d : pydict) | Cancelled | Raised (e : exn).

Definition prev_section (data : dict devdata) (key section : string) : pydict :=
  match dget key data with
  | Some dev => default [] (dget section (d_sections dev))
  | None => []
  end.

(** [prev_section if "error" not in prev_section else {}] *)
Definition no_error (d : pydict) : pydict := if dmem "error" d then [] else d.

(** The attempts of [fetch_with_retry]; [None] when all of them failed. *)
Fixpoint attempts (n : nat) (key cmd : string) (prev : pydict) (st : coord) (rs : list pyval)
  : coord * list pyval * option fetched :=
  match n with
  | O => (st, rs, None)
  | S n =>
      match rs with
      | [] => (st, [], Some Cancelled)
      | VNone :: rs => attempts n key cmd prev st rs
      | r :: rs =>
          if is_nak_result r then
            let '(st, unsupported) := note_nak key cmd st in
            if unsupported then (st, rs, Some (Fetched (no_error prev)))
            else attempts n key cmd prev st rs
          else
            match accept_result key cmd r st with
            | (st, Ok (Some d)) => (st, rs, Some (Fetched d))
            | (st, Ok None) => attempts n key cmd prev st rs
            | (st, Raise e) => (st, rs, Some (Raised e))
            end
      end
  end.

Definition fetch_with_retry (prev_data : dict devdata) (key cmd section : string) (st : coord) (rs : list pyval)
  : coord * list pyval * fetched :=
  let prev := prev_section prev_data key section in
  if is_unsupported key cmd st then (st, rs, Fetched (no_error prev))
  else
    match attempts 2 key cmd prev st rs with
    | (st, rs, Some r) => (st, rs, r)
    | (st, rs, None) =>
        let '(count, failures) := on_failure (c_failures st) key cmd in
        (with_failures failures st, rs,
         Fetched (fst (resolve MAX_CONSECUTIVE_FAILURES count (Some (no_error prev)))))
    end.

(** ** One device *)

Inductive polled (A : Type) := Polled (a : A) | PCancelled | PRaised (e : exn).
Arguments Polled {A}. Arguments PCancelled {A}. Arguments PRaised {A}.

(** The loop over the schedule; [acc] is [sections]. *)
Fixpoint poll_sections (prev_data : dict devdata) (schedule : list (string * string * Z)) (cycle : Z) (key : string)
    (acc : dict pydict) (st : coord) (rs : list pyval) : coord * polled (dict pydict) :=
  match schedule with
  | [] => (st, Polled acc)
  | (cmd, section, cadence) :: schedule =>
      if cycle mod cadence =? 0 then
        match fetch_with_retry prev_data key cmd section st rs with
        | (st, rs, Fetched d) => poll_sections prev_data schedule cycle key (dset section d acc) st rs
        | (st, _, Cancelled) => (st, PCancelled)
        | (st, _, Raised e) => (st, PRaised e)
        end
      else
        poll_sections prev_data schedule cycle key
          (dset section (prev_section prev_data key section) acc) st rs
  end.

Definition fetch_device_data (prev_data : dict devdata) (now : Z) (key : string) (st : coord) (rs : list pyval)
  : coord * polled devdata :=
  match poll_sections prev_data CMD_SCHEDULE (c_cycle st) key [] st rs with
  | (st, Polled s) => (st, Polled {| d_timestamp := Some now; d_sections := s |})
  | (st, PCancelled) => (st, PCancelled)
  | (st, PRaised e) => (st, PRaised e)
  end.

(** With several devices a timeout freezes the device on its last data. *)
Definition fetch_device_guarded (prev_data : dict devdata) (multi : bool) (now : Z) (key : string) (st : coord) (rs : list pyval)
  : coord * polled devdata :=
  match fetch_device_data prev_data now key st rs with
  | (st, PCancelled) =>
      if multi then (st, Polled (default devdata_empty (dget key prev_data)))
      else (st, PCancelled)
  | r => r
  end.

(** ** One cycle *)

(** [gather]: the polls that raise do not stop the others; the first failure is
    the one reported. *)
Fixpoint poll_devices (prev_data : dict devdata) (multi : bool) (now : Z) (bus : string -> list pyval)
    (devices : list DeviceTarget) (st : coord) : coord * res (list (string * devdata)) :=
  match devices with
  | [] => (st, Ok [])
  | t :: devices =>
      let '(st, r) := fetch_device_guarded prev_data multi now (t_id t) st (bus (t_id t)) in
      let '(st, rest) := poll_devices prev_data multi now bus devices st in
      (st, match r with
           | Polled d => rmap (cons (t_id t, d)) rest
           | PCancelled => Raise TimeoutError
           | PRaised e => Raise e
           end)
  end.

Definition update_data (prev_data : dict devdata) (now : Z) (bus : string -> list pyval) (st : coord)
  : coord * res (dict devdata) :=
  let multi := (1 <? Z.of_nat (length (c_devices st))) in
  match poll_devices prev_data multi now bus (c_devices st) st with
  | (st, Ok l) => (with_cycle (c_cycle st + 1) st, Ok (dict_of l))
  | (st, Raise e) => (st, Raise e)
  end.

(** A scheduled refresh: the base class keeps the old data when the poll raises. *)
Definition refresh (now : Z) (bus : string -> list pyval) (st : coord) : coord :=
  match update_data (c_data st) now bus st with
  | (st, Ok data) => with_data data st
  | (st, Raise _) => st
  end.

Definition set_targets (targets : list DeviceTarget) (st : coord) : coord :=
  {| c_devices := targets; c_failures := c_failures st; c_unsupported := c_unsupported st;
     c_nak_counts := c_nak_counts st; c_cycle := c_cycle st; c_data := c_data st |}.

(** [get_active_devices] *)
Definition get_active_devices (targets : option (list DeviceTarget)) (device protocol name : option string)
  : list DeviceTarget :=
  match targets with
  | Some l => l
  | None =>
      match device with
      | None | Some EmptyString => []
      | Some d => [{| t_id := d; t_uri := d; t_protocol := default "voltronic"%string protocol;
                      t_name := match name with
                                | None | Some EmptyString => "Inverter"%string
                                | Some n => n
                                end |}]
      end
  end.

(** [async_refresh_command] with the result of its read ([VNone] for a raise). *)
Definition refresh_command (key cmd section : string) (result : pyval) (st : coord)
  : coord * res unit :=
  if negb (existsb (fun t => String.eqb (t_id t) key) (c_devices st)) then (st, Ok tt)
  else if negb (truthy result) then (st, Ok tt)
  else
    match accept_result key cmd result st with
    | (st, Ok (Some ((_ :: _) as accepted))) =>
        let dev := default devdata_empty (dget key (c_data st)) in
        let dev := {| d_timestamp := d_timestamp dev;
                      d_sections := dset section accepted (d_sections dev) |} in
        (with_data (dset key dev (c_data st)) st, Ok tt)
    | (st, Ok _) => (st, Ok tt)
    | (st, Raise e) => (st, Raise e)
    end.

(** ["ok"] or ["fail:n"] per child. *)
Definition child_failures (t : tracker) (key : string) : Z :=
  foldr Z.add 0 (snd <$> map_to_list (per_device t key)).

Definition child_failure_summary (st : coord) : dict string :=
  dict_of (map (fun t => (t_id t,
    let n := child_failures (c_failures st) (t_id t) in
    if (n =? 0)%Z then "ok" else String.append "fail:" (str_of_int n))%string) (c_devices st)).

(** ** Frame: an operation on one device leaves the others as they were *)

Definition agree (k : string) (st st' : coord) : Prop :=
  c_cycle st = c_cycle st' /\
  forall cmd, count (c_failures st) k cmd = count (c_failures st') k cmd
  /\ c_nak_counts st !! (k, cmd) = c_nak_counts st' !! (k, cmd)
  /\ is_unsupported k cmd st = is_unsupported k cmd st'.

#[local] Instance agree_equiv k : Equivalence (agree k).
Proof.
  split; unfold agree.
  - intros st. auto.
  - intros st st' [Hc H]. split; [easy|]. intros cmd. now destruct (H cmd) as (-> & -> & ->).
  - intros x y z [Hc H] [Hc' H']. split; [congruence|]. intros cmd.
    destruct (H cmd) as (-> & -> & ->). apply H'.
Qed.

Definition local_to (key : string) (st st' : coord) : Prop :=
  c_data st' = c_data st /\ c_devices st' = c_devices st /\ c_cycle st' = c_cycle st
  /\ c_unsupported st ⊆ c_unsupported st' /\ forall k, k <> key -> agree k st st'.

Lemma local_refl key st : local_to key st st.
Proof. unfold local_to. do 4 (split; [reflexivity|]). now intros. Qed.

Lemma local_trans key a b c : local_to key a b -> local_to key b c -> local_to key a c.
Proof.
  intros (E1 & E2 & E3 & E4 & H1) (F1 & F2 & F3 & F4 & H2).
  split; [congruence|split; [congruence|split; [congruence|split; [set_solver|]]]].
  intros k Hk. etransitivity; [now apply H1|now apply H2].
Qed.

(** A change of the NAK bookkeeping of one pair. *)
Lemma local_with_nak key st u n :
  c_unsupported st ⊆ u ->
  (forall k cmd, k <> key -> n !! (k, cmd) = c_nak_counts st !! (k, cmd)
                 /\ ((k, cmd) ∈ u <-> (k, cmd) ∈ c_unsupported st)) ->
  local_to key st (with_nak u n st).
Proof.
  intros Hu H. unfold local_to. do 4 (split; [reflexivity || exact Hu|]).
  intros k Hk. split; [reflexivity|]. intros cmd. destruct (H k cmd Hk) as [H1 H2].
  split; [reflexivity|split; [easy|]]. unfold is_unsupported. apply bool_decide_ext. easy.
Qed.

Lemma local_note_nak key cmd st : local_to key st (fst (note_nak key cmd st)).
Proof.
  unfold note_nak. destruct (is_unsupported key cmd st); [apply local_refl|].
  destruct (_ <=? _); simpl; (apply local_with_nak; [set_solver|]); intros k c Hk;
    (split; [now rewrite lookup_insert_ne by congruence|set_solver]).
Qed.

Lemma local_failures key cmd n st :
  local_to key st (with_failures (set_count (c_failures st) key cmd n) st).
Proof.
  unfold local_to. do 4 (split; [reflexivity|]). intros k Hk. split; [reflexivity|].
  intros c. simpl. now rewrite count_set_ne by congruence.
Qed.

Lemma local_accept_good key cmd st : local_to key st (accept_good key cmd st).
Proof.
  apply (local_trans _ _ (clear_nak_streak key cmd st));
    [|exact (local_failures key cmd 0 (clear_nak_streak key cmd st))].
  apply local_with_nak; [reflexivity|]. intros k c Hk. split; [|reflexivity].
  now rewrite lookup_delete_ne by congruence.
Qed.

(** What an accepted result is. *)
Definition good_result (cmd : string) (d : pydict) : Prop :=
  d <> [] /\ dmem "error" d = false /\ status_nak d = false
  /\ (cmd = "QPIGS"%string -> is_plausible_qpigs d = Ok true).

Lemma accept_result_spec key cmd r st st' o : accept_result key cmd r st = (st', o) ->
  local_to key st st' /\
  (forall d, o = Ok (Some d) -> r = VDict d /\ good_result cmd d /\ st' = accept_good key cmd st).
Proof.
  unfold accept_result. destruct (is_nak_result r) eqn:En.
  { intros [= <- <-]. split; [apply local_note_nak|discriminate]. }
  destruct (is_error_result r) eqn:Ee; [intros [= <- <-]; split; [apply local_refl|discriminate]|].
  destruct r as [| | | | | | | |d]; try (intros [= <- <-]; split; [apply local_refl|discriminate]).
  assert (Hg : (cmd = "QPIGS"%string -> is_plausible_qpigs d = Ok true) -> good_result cmd d).
  { intros Hp. unfold is_error_result in Ee. destruct d as [|kv d]; [discriminate|].
    apply orb_false_iff in Ee as [? ?]. now repeat split. }
  destruct (String.eqb_spec cmd "QPIGS") as [->|Hne].
  - destruct (is_plausible_qpigs d) as [[|]|e] eqn:Ep; intros [= <- <-];
      try (split; [apply local_refl|discriminate]).
    split; [apply (local_accept_good key "QPIGS")|]. intros d' [= <-]. auto.
  - intros [= <- <-]. split; [apply (local_accept_good key cmd)|]. intros d' [= <-].
    split; [reflexivity|split; [apply Hg; congruence|reflexivity]].
Qed.

Definition is_none (r : pyval) : bool := match r with VNone => true | _ => false end.

(** One attempt, as a case analysis shared by the lemmas on [attempts]. *)
Lemma attempts_S n key cmd prev st r rs :
  attempts (S n) key cmd prev st (r :: rs) =
  if is_none r then attempts n key cmd prev st rs
  else if is_nak_result r then
    let '(st, unsupported) := note_nak key cmd st in
    if unsupported then (st, rs, Some (Fetched (no_error prev)))
    else attempts n key cmd prev st rs
  else
    match accept_result key cmd r st with
    | (st, Ok (Some d)) => (st, rs, Some (Fetched d))
    | (st, Ok None) => attempts n key cmd prev st rs
    | (st, Raise e) => (st, rs, Some (Raised e))
    end.
Proof. destruct r; reflexivity. Qed.

Lemma attempts_spec n key cmd prev : forall st rs st' rs' o,
  attempts n key cmd prev st rs = (st', rs', o) ->
  local_to key st st' /\ (forall d, o = Some (Fetched d) -> d = no_error prev \/ good_result cmd d).
Proof.
  induction n as [|n IH]; intros st rs st' rs' o.
  { intros [= <- <- <-]. split; [apply local_refl|discriminate]. }
  destruct rs as [|r rs]; [intros [= <- <- <-]; split; [apply local_refl|discriminate]|].
  rewrite attempts_S.
  assert (Hgo : forall st1, local_to key st st1 -> attempts n key cmd prev st1 rs = (st', rs', o) ->
    local_to key st st' /\ (forall d, o = Some (Fetched d) -> d = no_error prev \/ good_result cmd d)).
  { intros st1 H1 H. apply IH in H as [H2 H3]. split; [now apply (local_trans _ _ st1)|exact H3]. }
  destruct (is_none r); [apply Hgo, local_refl|]. destruct (is_nak_result r).
  - pose proof (local_note_nak key cmd st) as Hl. destruct (note_nak key cmd st) as [st1 [|]]; [|now apply Hgo].
    intros [= <- <- <-]. split; [exact Hl|]. intros d [= <-]. now left.
  - destruct (accept_result key cmd r st) as [st2 o2] eqn:E. apply accept_result_spec in E as [Hl Hd].
    destruct o2 as [[d|]|e]; [|now apply Hgo|]; intros [= <- <- <-]; (split; [exact Hl|]); [|discriminate].
    intros d' [= <-]. right. now apply (Hd d).
Qed.

(** ** What an operation on a device depends on: only that device's state *)

Lemma is_unsupported_add key cmd n st k c :
  is_unsupported k c (with_nak ({[(key, cmd)]} ∪ c_unsupported st) n st)
  = bool_decide ((k, c) = (key, cmd)) || is_unsupported k c st.
Proof.
  unfold is_unsupported. simpl. rewrite <- bool_decide_or. apply bool_decide_ext.
  now rewrite elem_of_union, elem_of_singleton.
Qed.

Lemma agree_note_nak key cmd s1 s2 : agree key s1 s2 ->
  agree key (fst (note_nak key cmd s1)) (fst (note_nak key cmd s2))
  /\ snd (note_nak key cmd s1) = snd (note_nak key cmd s2).
Proof.
  intros H. pose proof H as [Hc Hv]. destruct (Hv cmd) as (_ & Hn & Hu). unfold note_nak.
  rewrite <- Hu, <- Hn. destruct (is_unsupported key cmd s1); [now split|].
  destruct (NAK_SUPPRESS_THRESHOLD <=? _); (split; [|reflexivity]); (split; [exact Hc|]);
    intros c; destruct (Hv c) as (E1 & E2 & E3); (split; [exact E1|]); simpl;
    (split; [destruct (decide (c = cmd)) as [->|Hne];
             [now rewrite !lookup_insert_eq|now rewrite !lookup_insert_ne by congruence]|]).
  - rewrite !is_unsupported_add. now rewrite E3.
  - exact E3.
Qed.

Lemma agree_set_count key cmd n s1 s2 : agree key s1 s2 ->
  agree key (with_failures (set_count (c_failures s1) key cmd n) s1)
            (with_failures (set_count (c_failures s2) key cmd n) s2).
Proof.
  intros [Hc Hv]. split; [exact Hc|]. intros c. destruct (Hv c) as (E1 & E2 & E3). simpl.
  split; [|now split]. destruct (decide (c = cmd)) as [->|Hne]; [now rewrite !count_set_eq|].
  now rewrite !count_set_ne by congruence.
Qed.

Lemma agree_accept_good key cmd s1 s2 : agree key s1 s2 ->
  agree key (accept_good key cmd s1) (accept_good key cmd s2).
Proof.
  intros [Hc Hv]. apply (agree_set_count key cmd 0 (clear_nak_streak key cmd s1) (clear_nak_streak key cmd s2)).
  split; [exact Hc|]. intros c. destruct (Hv c) as (E1 & E2 & E3). simpl.
  split; [exact E1|split; [|exact E3]]. destruct (decide (c = cmd)) as [->|Hne].
  - now rewrite !lookup_delete_eq.
  - now rewrite !lookup_delete_ne by congruence.
Qed.

Lemma agree_accept key cmd r s1 s2 : agree key s1 s2 ->
  agree key (fst (accept_result key cmd r s1)) (fst (accept_result key cmd r s2))
  /\ snd (accept_result key cmd r s1) = snd (accept_result key cmd r s2).
Proof.
  intros H. unfold accept_result. destruct (is_nak_result r).
  { split; [now apply agree_note_nak|reflexivity]. }
  destruct (is_error_result r); [now split|]. destruct r; try now split.
  destruct (String.eqb cmd "QPIGS"); [destruct (is_plausible_qpigs _) as [[|]|e]|];
    split; try reflexivity; simpl; try exact H; now apply agree_accept_good.
Qed.

Ltac same_outcome := do 4 eexists; split; [reflexivity|split; [reflexivity|assumption]].

Lemma agree_attempts n key cmd prev : forall s1 s2 rs, agree key s1 s2 ->
  exists s1' s2' rs' o, attempts n key cmd prev s1 rs = (s1', rs', o)
  /\ attempts n key cmd prev s2 rs = (s2', rs', o) /\ agree key s1' s2'.
Proof.
  induction n as [|n IH]; intros s1 s2 rs H; [same_outcome|].
  destruct rs as [|r rs]; [same_outcome|]. rewrite !attempts_S.
  destruct (is_none r); [now apply IH|]. destruct (is_nak_result r).
  - pose proof (agree_note_nak key cmd s1 s2 H) as [Ha Hb].
    destruct (note_nak key cmd s1) as [t1 b1], (note_nak key cmd s2) as [t2 b2]; simpl in *. subst b2.
    destruct b1; [same_outcome|now apply IH].
  - pose proof (agree_accept key cmd r s1 s2 H) as [Ha Hb].
    destruct (accept_result key cmd r s1) as [t1 b1], (accept_result key cmd r s2) as [t2 b2]; simpl in *.
    subst b2. destruct b1 as [[d|]|e]; [same_outcome|now apply IH|same_outcome].
Qed.

Lemma agree_fetch prev key cmd section s1 s2 rs : agree key s1 s2 ->
  exists s1' s2' rs' o, fetch_with_retry prev key cmd section s1 rs = (s1', rs', o)
  /\ fetch_with_retry prev key cmd section s2 rs = (s2', rs', o) /\ agree key s1' s2'.
Proof.
  intros H. unfold fetch_with_retry. pose proof H as [_ Hv]. destruct (Hv cmd) as (_ & _ & <-).
  destruct (is_unsupported key cmd s1); [same_outcome|].
  destruct (agree_attempts 2 key cmd (prev_section prev key section) s1 s2 rs H)
    as (t1 & t2 & rs' & o & -> & -> & Ht).
  destruct o as [o|]; [same_outcome|]. unfold on_failure.
  pose proof Ht as [_ Hw]. destruct (Hw cmd) as (<- & _ & _).
  do 4 eexists. split; [reflexivity|]. split; [reflexivity|]. now apply agree_set_count.
Qed.

Lemma agree_sections prev key cycle sched : forall acc s1 s2 rs, agree key s1 s2 ->
  snd (poll_sections prev sched cycle key acc s1 rs) = snd (poll_sections prev sched cycle key acc s2 rs).
Proof.
  induction sched as [|[[cmd section] cadence] sched IH]; intros acc s1 s2 rs H; [reflexivity|].
  cbn [poll_sections]. destruct (cycle mod cadence =? 0); [|now apply IH].
  destruct (agree_fetch prev key cmd section s1 s2 rs H) as (t1 & t2 & rs' & o & -> & -> & Ht).
  destruct o; [now apply IH|reflexivity..].
Qed.

Lemma agree_guarded prev multi now key s1 s2 rs : agree key s1 s2 ->
  snd (fetch_device_guarded prev multi now key s1 rs) = snd (fetch_device_guarded prev multi now key s2 rs).
Proof.
  intros H. pose proof H as [Hc _]. unfold fetch_device_guarded, fetch_device_data. rewrite <- Hc.
  pose proof (agree_sections prev key (c_cycle s1) CMD_SCHEDULE [] s1 s2 rs H) as E.
  destruct (poll_sections prev CMD_SCHEDULE (c_cycle s1) key [] s1 rs) as [t1 o1],
           (poll_sections prev CMD_SCHEDULE (c_cycle s1) key [] s2 rs) as [t2 o2].
  simpl in E. subst o2. destruct o1, multi; reflexivity.
Qed.

(** ** A device poll: its frame and its value *)

(** What may be published for a section: what was there, nothing, or a good result. *)
Definition section_value (prev : dict devdata) (key cmd section : string) (d : pydict) : Prop :=
  d = prev_section prev key section \/ d = [] \/ good_result cmd d.

Lemma no_error_cases d : no_error d = d \/ no_error d = [].
Proof. unfold no_error. destruct (dmem "error" d); auto. Qed.

Lemma fetch_spec prev key cmd section st rs st' rs' o :
  fetch_with_retry prev key cmd section st rs = (st', rs', o) ->
  local_to key st st' /\ (forall d, o = Fetched d -> section_value prev key cmd section d).
Proof.
  unfold fetch_with_retry, section_value. set (p := prev_section prev key section).
  destruct (is_unsupported key cmd st).
  { intros [= <- <- <-]. split; [apply local_refl|]. intros d [= <-].
    destruct (no_error_cases p) as [->| ->]; auto. }
  destruct (attempts 2 key cmd p st rs) as [[s1 r1] o1] eqn:E. apply attempts_spec in E as [Hl Hd].
  destruct o1 as [o1|].
  - intros [= <- <- <-]. split; [exact Hl|]. intros d ->. destruct (Hd d eq_refl) as [->|Hg]; auto.
    destruct (no_error_cases p) as [->| ->]; auto.
  - unfold on_failure. intros [= <- <- <-]. split.
    + apply (local_trans _ _ s1 _ Hl). apply local_failures.
    + intros d [= <-]. unfold resolve. destruct (_ <? _); simpl; [|auto].
      destruct (no_error_cases p) as [->| ->]; [|auto]. destruct p; auto.
Qed.

Lemma sections_spec prev key cycle sched : forall acc st rs st' o,
  poll_sections prev sched cycle key acc st rs = (st', o) ->
  NoDup (snd <$> (fst <$> sched)) ->
  local_to key st st' /\ (forall acc', o = Polled acc' ->
    (forall s, s ∉ (snd <$> (fst <$> sched)) -> dget s acc' = dget s acc)
    /\ Forall (fun '(cmd, section, cadence) => exists d, dget section acc' = Some d
         /\ if cycle mod cadence =? 0 then section_value prev key cmd section d
            else d = prev_section prev key section) sched).
Proof.
  induction sched as [|[[cmd section] cadence] sched IH]; intros acc st rs st' o.
  { intros [= <- <-] _. split; [apply local_refl|]. intros acc' [= <-]. split; [auto|constructor]. }
  cbn [poll_sections fmap list_fmap fst snd]. intros H Hnd. apply NoDup_cons in Hnd as [Hni Hnd].
  assert (Hgo : forall st1 d rs1, local_to key st st1 ->
     (if cycle mod cadence =? 0 then section_value prev key cmd section d else d = prev_section prev key section) ->
     poll_sections prev sched cycle key (dset section d acc) st1 rs1 = (st', o) ->
     local_to key st st' /\ (forall acc', o = Polled acc' ->
    (forall s, s ∉ section :: (snd <$> (fst <$> sched)) -> dget s acc' = dget s acc)
    /\ Forall (fun '(cmd, section, cadence) => exists d, dget section acc' = Some d
         /\ if cycle mod cadence =? 0 then section_value prev key cmd section d
            else d = prev_section prev key section) ((cmd, section, cadence) :: sched))).
  { intros st1 d rs1 Hl1 Hd E. apply IH in E as [Hl Ha]; [|exact Hnd].
    split; [now apply (local_trans _ _ st1)|]. intros acc' Eo. destruct (Ha acc' Eo) as [H1 H2]. split.
    - intros s Hs. rewrite H1 by set_solver. apply dget_dset_ne. set_solver.
    - constructor; [|exact H2]. exists d. split; [|exact Hd]. rewrite H1 by exact Hni. apply dget_dset_eq. }
  destruct (cycle mod cadence =? 0).
  - destruct (fetch_with_retry prev key cmd section st rs) as [[s1 r1] o1] eqn:E.
    apply fetch_spec in E as [Hl Hd]. destruct o1 as [d| |e].
    + now apply (Hgo s1 d r1); [|apply Hd|].
    + injection H as <- <-. split; [exact Hl|discriminate].
    + injection H as <- <-. split; [exact Hl|discriminate].
  - now apply (Hgo st (prev_section prev key section) rs); [apply local_refl| |].
Qed.

(** ** A whole cycle *)

Lemma schedule_sections_nodup : NoDup (snd <$> (fst <$> CMD_SCHEDULE)).
Proof. apply (bool_decide_unpack _). vm_compute. exact I. Qed.

Lemma guarded_spec prev multi now key st rs st' o :
  fetch_device_guarded prev multi now key st rs = (st', o) ->
  local_to key st st' /\ (forall dev, o = Polled dev ->
    dev = default devdata_empty (dget key prev)
    \/ Forall (fun '(cmd, section, cadence) => exists d, dget section (d_sections dev) = Some d
         /\ if c_cycle st mod cadence =? 0 then section_value prev key cmd section d
            else d = prev_section prev key section) CMD_SCHEDULE
       /\ (forall s, s ∉ (snd <$> (fst <$> CMD_SCHEDULE)) -> dget s (d_sections dev) = None)).
Proof.
  unfold fetch_device_guarded, fetch_device_data.
  destruct (poll_sections prev CMD_SCHEDULE (c_cycle st) key [] st rs) as [s1 o1] eqn:E.
  apply sections_spec in E as [Hl Ha]; [|exact schedule_sections_nodup].
  destruct o1 as [acc| |e]; [|destruct multi|]; intros [= <- <-]; (split; [exact Hl|]);
    intros dev Hdev; try discriminate; injection Hdev as <-; [|now left].
  right. destruct (Ha acc eq_refl) as [H1 H2]. split; [exact H2|]. intros s Hs. now rewrite H1.
Qed.

Lemma devices_spec prev multi now bus devs : forall st st' o,
  poll_devices prev multi now bus devs st = (st', o) ->
  c_data st' = c_data st /\ c_devices st' = c_devices st /\ c_cycle st' = c_cycle st
  /\ c_unsupported st ⊆ c_unsupported st'
  /\ (forall k, k ∉ (t_id <$> devs) -> agree k st st').
Proof.
  induction devs as [|t devs IH]; intros st st' o; cbn [poll_devices].
  { intros [= <- <-]. do 4 (split; [reflexivity|]). now intros. }
  destruct (fetch_device_guarded prev multi now (t_id t) st (bus (t_id t))) as [s1 r1] eqn:E1.
  apply guarded_spec in E1 as [(F1 & F2 & F3 & F4 & F5) _].
  destruct (poll_devices prev multi now bus devs s1) as [s2 r2] eqn:E2.
  apply IH in E2 as (G1 & G2 & G3 & G4 & G5). intros [= <- <-].
  split; [congruence|split; [congruence|split; [congruence|split; [set_solver|]]]].
  intros k Hk. cbn [fmap list_fmap] in Hk. transitivity s1; [apply F5|apply G5]; set_solver.
Qed.

(** In a successful cycle each device is published with what polling it alone
    gives, whatever the others do. *)
Lemma devices_alone prev multi now bus devs : forall st st' l,
  NoDup (t_id <$> devs) -> poll_devices prev multi now bus devs st = (st', Ok l) ->
  map fst l = map t_id devs /\
  Forall2 (fun t kv => snd (fetch_device_guarded prev multi now (t_id t) st (bus (t_id t))) = Polled (snd kv)) devs l.
Proof.
  induction devs as [|t devs IH]; intros st st' l Hnd; cbn [poll_devices].
  { intros [= <- <-]. split; constructor. }
  cbn [fmap list_fmap] in Hnd. apply NoDup_cons in Hnd as [Hni Hnd].
  destruct (fetch_device_guarded prev multi now (t_id t) st (bus (t_id t))) as [s1 r1] eqn:E1.
  pose proof E1 as E1'. apply guarded_spec in E1' as [(_ & _ & _ & _ & F5) _].
  destruct (poll_devices prev multi now bus devs s1) as [s2 r2] eqn:E2.
  intros [= <- Hl]. destruct r1 as [dev| |e]; try discriminate.
  destruct r2 as [l'|e]; [|discriminate]. apply ok_inj in Hl. subst l.
  destruct (IH s1 s2 l' Hnd E2) as [Hk Hf]. cbn [map fst]. split; [now rewrite Hk|].
  constructor; [rewrite E1; reflexivity|].
  apply Forall2_same_length_lookup_2; [now apply Forall2_length in Hf|].
  intros i x y Hx Hy. rewrite <- (Forall2_lookup_lr _ _ _ _ _ _ Hf Hx Hy).
  apply agree_guarded, F5. intros Heq. apply Hni. rewrite <- Heq.
  apply (list_elem_of_fmap_2 t_id). now apply list_elem_of_lookup_2 in Hx.
Qed.

(** ** Reachable states

    A state is the coordinator with the data its poll in flight began from. *)

Definition finish_poll (prev : dict devdata) (now : Z) (bus : string -> list pyval) (st : coord) : coord :=
  match update_data prev now bus st with
  | (st, Ok data) => with_data data st
  | (st, Raise _) => st
  end.

Inductive cstep : coord * dict devdata -> coord * dict devdata -> Prop :=
| c_begin st prev : cstep (st, prev) (st, c_data st)
| c_finish now bus st prev : cstep (st, prev) (finish_poll prev now bus st, prev)
| c_command key cmd section cadence result st prev :
    (cmd, section, cadence) ∈ CMD_SCHEDULE ->
    cstep (st, prev) (fst (refresh_command key cmd section result st), prev)
| c_targets devices st prev : cstep (st, prev) (set_targets devices st, prev).

Definition creach (devices : list DeviceTarget) : coord * dict devdata -> Prop :=
  rtc cstep (coord_init devices, []).

Definition section_good (section : string) (d : pydict) : Prop :=
  dmem "error" d = false /\ status_nak d = false
  /\ (section = "qpigs"%string -> is_plausible_qpigs d = Ok true).

Definition data_good (data : dict devdata) : Prop :=
  forall key dev section d, dget key data = Some dev -> dget section (d_sections dev) = Some d ->
  section_good section d.

Lemma section_good_nil section : section_good section [].
Proof. split; [reflexivity|split; [reflexivity|]]. intros _. vm_compute. reflexivity. Qed.

Lemma good_result_section cmd section cadence d :
  (cmd, section, cadence) ∈ CMD_SCHEDULE -> good_result cmd d -> section_good section d.
Proof.
  intros Hin (_ & H1 & H2 & H3). split; [exact H1|split; [exact H2|]]. intros ->. apply H3.
  unfold CMD_SCHEDULE in Hin. rewrite !elem_of_cons in Hin.
  destruct Hin as [E|[E|[E|[E|[E|[E|E]]]]]]; try (injection E; congruence). now apply elem_of_nil in E.
Qed.

Lemma prev_section_good data key section : data_good data -> section_good section (prev_section data key section).
Proof.
  intros H. unfold prev_section. destruct (dget key data) as [dev|] eqn:E; [|apply section_good_nil].
  destruct (dget section (d_sections dev)) as [d|] eqn:E2; [|apply section_good_nil]. exact (H _ _ _ _ E E2).
Qed.

Definition dev_good (dev : devdata) : Prop :=
  forall section d, dget section (d_sections dev) = Some d -> section_good section d.

Lemma guarded_good prev multi now key st rs st' dev : data_good prev ->
  fetch_device_guarded prev multi now key st rs = (st', Polled dev) -> dev_good dev.
Proof.
  intros Hp E. apply guarded_spec in E as [_ Hd]. intros section d Hs.
  destruct (Hd dev eq_refl) as [->|[Hf Hn]].
  - destruct (dget key prev) as [dev|] eqn:E; [exact (Hp _ _ _ _ E Hs)|discriminate].
  - destruct (decide (section ∈ (snd <$> (fst <$> CMD_SCHEDULE)))) as [Hin|Hni];
      [|rewrite Hn in Hs by exact Hni; discriminate].
    rewrite <- list_fmap_compose in Hin. apply list_elem_of_fmap in Hin as ([[cmd s] cad] & -> & Hin).
    rewrite Forall_forall in Hf. pose proof (Hf _ Hin) as (d' & Hd' & Hv). cbn [compose fst snd] in Hs.
    rewrite Hs in Hd'. injection Hd' as <-.
    destruct (_ =? 0); [destruct Hv as [->|[->|Hg]]|subst d];
      [now apply prev_section_good|apply section_good_nil|now apply (good_result_section cmd _ cad)
      |now apply prev_section_good].
Qed.

Lemma devices_good prev multi now bus devs : data_good prev -> forall st st' l,
  poll_devices prev multi now bus devs st = (st', Ok l) -> Forall (fun kv => dev_good (snd kv)) l.
Proof.
  intros Hp. induction devs as [|t devs IH]; intros st st' l; cbn [poll_devices].
  { intros [= <- <-]. constructor. }
  destruct (fetch_device_guarded prev multi now (t_id t) st (bus (t_id t))) as [s1 r1] eqn:E1.
  destruct (poll_devices prev multi now bus devs s1) as [s2 r2] eqn:E2.
  intros [= <- Hl]. destruct r1 as [dev| |e]; try discriminate.
  destruct r2 as [l'|e]; [|discriminate]. apply ok_inj in Hl. subst l.
  constructor; [now apply guarded_good in E1|now apply IH in E2].
Qed.

Lemma finish_poll_good prev now bus st :
  data_good prev -> data_good (c_data st) -> data_good (c_data (finish_poll prev now bus st)).
Proof.
  intros Hp Hc. unfold finish_poll, update_data.
  set (multi := 1 <? _). destruct (poll_devices prev multi now bus (c_devices st) st) as [s1 o] eqn:E.
  pose proof (devices_spec _ _ _ _ _ _ _ _ E) as (F1 & _).
  destruct o as [l|e]; simpl; [|now rewrite F1].
  intros key dev section d Hk. apply dget_dict_of_in in Hk.
  apply devices_good in E; [|exact Hp]. rewrite List.Forall_forall in E. exact (E _ Hk section d).
Qed.

Lemma refresh_command_good key cmd section cadence result st :
  (cmd, section, cadence) ∈ CMD_SCHEDULE -> data_good (c_data st) ->
  data_good (c_data (fst (refresh_command key cmd section result st))).
Proof.
  intros Hin Hc. unfold refresh_command. destruct (negb (existsb _ _)); [exact Hc|].
  destruct (negb (truthy result)); [exact Hc|].
  destruct (accept_result key cmd result st) as [s1 o] eqn:E. apply accept_result_spec in E as [(F1 & _) Hd].
  destruct o as [[[|kv d]|]|e]; simpl; rewrite ?F1; try exact Hc.
  destruct (Hd _ eq_refl) as (_ & Hg & _). intros k dev s d'.
  destruct (decide (k = key)) as [->|Hne]; [|rewrite dget_dset_ne by exact Hne; apply Hc].
  rewrite dget_dset_eq. intros [= <-]. simpl. destruct (decide (s = section)) as [->|Hs].
  - rewrite dget_dset_eq. intros [= <-]. now apply (good_result_section cmd section cadence).
  - rewrite dget_dset_ne by exact Hs. destruct (dget key (c_data st)) as [dev0|] eqn:E0;
      [exact (Hc _ _ _ _ E0)|discriminate].
Qed.

Lemma cstep_good s s' : cstep s s' ->
  data_good (c_data (fst s)) /\ data_good (snd s) -> data_good (c_data (fst s')) /\ data_good (snd s').
Proof.
  intros Hs [H1 H2]. destruct Hs as [st prev|now bus st prev|key cmd section cadence result st prev Hin|ds st prev];
    cbn [fst snd] in *; (split; [|assumption]).
  - exact H1.
  - now apply finish_poll_good.
  - now apply (refresh_command_good _ _ _ cadence).
  - exact H1.
Qed.

Lemma rtc_good s s' : rtc cstep s s' ->
  data_good (c_data (fst s)) /\ data_good (snd s) -> data_good (c_data (fst s')) /\ data_good (snd s').
Proof.
  intros H. induction H as [s|s1 s2 s3 Hs _ IH]; [auto|]. intros H0. now apply IH, (cstep_good s1).
Qed.

Lemma creach_good devices s : creach devices s -> data_good (c_data (fst s)).
Proof. intros H. apply (rtc_good _ _ H). split; intros ????; discriminate. Qed.

Lemma cstep_unsupported s s' : cstep s s' -> c_unsupported (fst s) ⊆ c_unsupported (fst s').
Proof.
  intros [st prev|now bus st prev|key cmd section cadence result st prev _|ds st prev]; cbn [fst]; try reflexivity.
  - unfold finish_poll, update_data.
    destruct (poll_devices _ _ _ _ _ _) as [s1 o] eqn:E. apply devices_spec in E as (_ & _ & _ & F & _).
    destruct o; exact F.
  - unfold refresh_command. destruct (negb (existsb _ _)); [reflexivity|]. destruct (negb _); [reflexivity|].
    destruct (accept_result key cmd result st) as [s1 o] eqn:E.
    apply accept_result_spec in E as [(_ & _ & _ & F & _) _].
    destruct o as [[[|]|]|]; exact F.
Qed.

Lemma rtc_unsupported s s' key cmd : rtc cstep s s' ->
  is_unsupported key cmd (fst s) = true -> is_unsupported key cmd (fst s') = true.
Proof.
  intros H. induction H as [s|s1 s2 s3 Hs _ IH]; [auto|]. intros H0. apply IH.
  apply bool_decide_eq_true in H0. apply bool_decide_eq_true. now apply (cstep_unsupported _ _ Hs).
Qed.

(** ** Failing reads *)

(** A read that neither answers NAK nor can be used. *)
Definition failing (cmd : string) (r : pyval) : bool :=
  is_none r || (negb (is_nak_result r)
    && (is_error_result r
        || (String.eqb cmd "QPIGS" && match r with
                                      | VDict d => match is_plausible_qpigs d with Ok b => negb b | _ => false end
                                      | _ => false
                                      end))).

Lemma failing_accept key cmd r st : failing cmd r = true -> is_none r = false ->
  is_nak_result r = false /\ accept_result key cmd r st = (st, Ok None).
Proof.
  unfold failing, accept_result. intros H Hn. rewrite Hn in H. simpl in H. apply andb_prop in H as [H1 H2].
  apply negb_true_iff in H1. rewrite H1. split; [reflexivity|].
  destruct (is_error_result r); [reflexivity|]. simpl in H2. apply andb_prop in H2 as [H2 H3].
  destruct r; try discriminate. rewrite H2. destruct (is_plausible_qpigs _) as [[|]|]; try discriminate. reflexivity.
Qed.

Lemma attempts_failing n key cmd prev st r rs : failing cmd r = true ->
  attempts (S n) key cmd prev st (r :: rs) = attempts n key cmd prev st rs.
Proof.
  intros H. rewrite attempts_S. destruct (is_none r) eqn:En; [reflexivity|].
  destruct (failing_accept key cmd r st H En) as [-> ->]. reflexivity.
Qed.

Lemma fetch_failing prev key cmd section st r1 r2 rs :
  is_unsupported key cmd st = false -> failing cmd r1 = true -> failing cmd r2 = true ->
  let n := count (c_failures st) key cmd + 1 in
  fetch_with_retry prev key cmd section st (r1 :: r2 :: rs)
  = (with_failures (set_count (c_failures st) key cmd n) st, rs,
     Fetched (if n <? 6 then no_error (prev_section prev key section) else [])).
Proof.
  intros Hu H1 H2 n. unfold fetch_with_retry. rewrite Hu, !attempts_failing by assumption.
  cbn [attempts]. unfold on_failure. fold n. do 2 f_equal. unfold resolve, MAX_CONSECUTIVE_FAILURES.
  destruct (n <? 6); [|reflexivity]. now destruct (no_error _).
Qed.

Lemma attempts_accepted n key cmd prev st d rs : is_nak_result (VDict d) = false -> good_result cmd d ->
  attempts (S n) key cmd prev st (VDict d :: rs) = (accept_good key cmd st, rs, Some (Fetched d)).
Proof.
  intros Hn (H0 & H1 & H2 & H3). rewrite attempts_S. cbn [is_none].
  rewrite Hn. unfold accept_result. rewrite Hn.
  assert (is_error_result (VDict d) = false) as -> by (simpl; destruct d; [easy|now rewrite H1, H2]).
  destruct (String.eqb_spec cmd "QPIGS") as [->|]; [now rewrite H3|reflexivity].
Qed.

Lemma fetch_accepted prev key cmd section st d rs :
  is_unsupported key cmd st = false -> is_nak_result (VDict d) = false -> good_result cmd d ->
  fetch_with_retry prev key cmd section st (VDict d :: rs) = (accept_good key cmd st, rs, Fetched d).
Proof. intros Hu Hn Hg. unfold fetch_with_retry. now rewrite Hu, attempts_accepted. Qed.

Lemma poll_sections_cons prev cmd section cadence sched cycle key acc st rs :
  poll_sections prev ((cmd, section, cadence) :: sched) cycle key acc st rs
  = if cycle mod cadence =? 0 then
      match fetch_with_retry prev key cmd section st rs with
      | (st, rs, Fetched d) => poll_sections prev sched cycle key (dset section d acc) st rs
      | (st, _, Cancelled) => (st, PCancelled)
      | (st, _, Raised e) => (st, PRaised e)
      end
    else poll_sections prev sched cycle key (dset section (prev_section prev key section) acc) st rs.
Proof. reflexivity. Qed.

(** An accepted status reading is the published section. *)
Lemma poll_publishes prev now key st d rs st' dev :
  is_unsupported key "QPIGS"%string st = false -> is_nak_result (VDict d) = false -> good_result "QPIGS"%string d ->
  fetch_device_data prev now key st (VDict d :: rs) = (st', Polled dev) ->
  dget "qpigs"%string (d_sections dev) = Some d.
Proof.
  intros Hu Hn Hg H. unfold fetch_device_data, CMD_SCHEDULE in H. rewrite poll_sections_cons, Z.mod_1_r in H.
  rewrite (fetch_accepted prev key "QPIGS" "qpigs" st d rs Hu Hn Hg) in H.
  destruct (poll_sections _ _ _ _ _ (accept_good _ _ _) rs) as [st1 o] eqn:E.
  apply sections_spec in E as [_ Ha]; [|apply (bool_decide_unpack _); vm_compute; exact I].
  destruct o as [acc| |]; try discriminate. injection H as <- <-. simpl.
  destruct (Ha acc eq_refl) as [H1 _]. rewrite H1; [reflexivity|].
  apply (bool_decide_unpack _). vm_compute. exact I.
Qed.

Lemma note_nak_spec key cmd st : is_unsupported key cmd st = false ->
  let n := default 0 (c_nak_counts st !! (key, cmd)) + 1 in
  snd (note_nak key cmd st) = (2 <=? n)
  /\ c_nak_counts (fst (note_nak key cmd st)) !! (key, cmd) = Some n
  /\ is_unsupported key cmd (fst (note_nak key cmd st)) = (2 <=? n).
Proof.
  intros Hu n. unfold note_nak, NAK_SUPPRESS_THRESHOLD. rewrite Hu. fold n.
  destruct (2 <=? n); cbn [fst snd]; (split; [reflexivity|]);
    (split; [simpl; now rewrite lookup_insert_eq|]).
  - rewrite is_unsupported_add, bool_decide_true by reflexivity. reflexivity.
  - exact Hu.
Qed.

Lemma naks_mark prev key cmd section st r1 r2 rs :
  is_nak_result r1 = true -> is_nak_result r2 = true -> is_unsupported key cmd st = false ->
  (forall n, c_nak_counts st !! (key, cmd) = Some n -> 0 <= n) ->
  exists st' rs', fetch_with_retry prev key cmd section st (r1 :: r2 :: rs)
    = (st', rs', Fetched (no_error (prev_section prev key section)))
  /\ is_unsupported key cmd st' = true.
Proof.
  intros H1 H2 Hu Hn. unfold fetch_with_retry. rewrite Hu, !attempts_S.
  assert (forall r, is_nak_result r = true -> is_none r = false) as Hnone by (now intros []).
  rewrite (Hnone r1 H1), H1. pose proof (note_nak_spec key cmd st Hu) as (E1 & E2 & E3).
  destruct (note_nak key cmd st) as [s1 b1]. cbn [fst snd] in *. subst b1.
  destruct (2 <=? _) eqn:El; [exists s1, (r2 :: rs); now rewrite E3|].
  rewrite attempts_S, (Hnone r2 H2), H2. pose proof (note_nak_spec key cmd s1 E3) as (F1 & F2 & F3).
  destruct (note_nak key cmd s1) as [s2 b2]. cbn [fst snd] in *. subst b2. rewrite E2 in *. cbn [default from_option id] in *.
  assert ((2 <=? default 0 (c_nak_counts st !! (key, cmd)) + 1 + 1) = true) as E.
  { apply Z.leb_le. destruct (c_nak_counts st !! (key, cmd)) as [n|] eqn:En; simpl; [specialize (Hn n eq_refl)|]; lia. }
  unfold id in *. rewrite E in *. exists s2, rs. now rewrite F3.
Qed.

(** Consecutive polls of one section, each with what the reads of its attempts give
    and each showing what it returns. *)
Fixpoint timeline (key cmd section : string) (shown : pydict) (st : coord) (polls : list (list pyval)) : list pydict :=
  match polls with
  | [] => []
  | rs :: polls =>
      let prev := [(key, {| d_timestamp := None; d_sections := [(section, shown)] |})] in
      match fetch_with_retry prev key cmd section st rs with
      | (st, _, Fetched d) => d :: timeline key cmd section d st polls
      | _ => []
      end
  end.

(** Both attempts of a poll fail. *)
Definition failing_poll (cmd : string) (rs : list pyval) : Prop :=
  exists r1 r2, rs = [r1; r2] /\ failing cmd r1 = true /\ failing cmd r2 = true.

(** A poll reads the usable answer [d], at the first attempt or at the retry. *)
Definition answering_poll (cmd : string) (rs : list pyval) (d : pydict) : Prop :=
  is_nak_result (VDict d) = false /\ good_result cmd d
  /\ ((exists rest, rs = VDict d :: rest) \/ exists r rest, rs = r :: VDict d :: rest /\ failing cmd r = true).

Lemma prev_section_single key section shown :
  prev_section [(key, {| d_timestamp := None; d_sections := [(section, shown)] |})] key section = shown.
Proof. unfold prev_section. simpl. now rewrite String.eqb_refl; simpl; rewrite String.eqb_refl. Qed.

(** What is shown during failing polls, [c] of them having gone before. *)
Definition during (shown : pydict) (c len : nat) : list pydict :=
  repeat shown (Nat.min len (5 - c)) ++ repeat [] (len - (5 - c)).

Lemma timeline_failing key cmd section rest l : forall shown st (c : nat),
  is_unsupported key cmd st = false -> dmem "error" shown = false -> count (c_failures st) key cmd = Z.of_nat c ->
  Forall (failing_poll cmd) l ->
  exists shown' st', is_unsupported key cmd st' = false
    /\ timeline key cmd section shown st (l ++ rest) = during shown c (length l) ++ timeline key cmd section shown' st' rest.
Proof.
  induction l as [|rs l IH]; intros shown st c Hu Hs Hc Hf; [now exists shown, st|].
  apply Forall_cons in Hf as [(r1 & r2 & -> & H1 & H2) Hf]. cbn [timeline app].
  rewrite (fetch_failing _ key cmd section st r1 r2 [] Hu H1 H2), prev_section_single, Hc.
  set (st' := with_failures _ _).
  assert (Hc' : count (c_failures st') key cmd = Z.of_nat (S c)) by (simpl; rewrite count_set_eq; lia).
  unfold no_error, during. rewrite Hs. destruct (Z.ltb_spec (Z.of_nat c + 1) 6) as [Hlt|Hge].
  - destruct (IH shown st' (S c) Hu Hs Hc' Hf) as (s2 & st2 & Hu2 & ->). exists s2, st2. split; [exact Hu2|].
    unfold during. replace (5 - c)%nat with (S (5 - S c)) by lia. cbn [length]. now rewrite <- Nat.succ_min_distr.
  - destruct (IH [] st' (S c) Hu eq_refl Hc' Hf) as (s2 & st2 & Hu2 & ->). exists s2, st2. split; [exact Hu2|].
    unfold during. replace (5 - S c)%nat with 0%nat by lia. replace (5 - c)%nat with 0%nat by lia.
    rewrite !Nat.min_0_r. cbn [length]. now rewrite !Nat.sub_0_r.
Qed.

Lemma fetch_answering prev key cmd section st rs d : is_unsupported key cmd st = false -> answering_poll cmd rs d ->
  exists rest, fetch_with_retry prev key cmd section st rs = (accept_good key cmd st, rest, Fetched d).
Proof.
  intros Hu (Hn & Hg & [(rest & ->)|(r & rest & -> & Hr)]); exists rest; [now apply fetch_accepted|].
  unfold fetch_with_retry. now rewrite Hu, attempts_failing, attempts_accepted.
Qed.

(** One stretch of polls: a usable answer, then failures. *)
Record stretch := { st_answer : list pyval; st_data : pydict; st_failures : list (list pyval) }.
Definition stretch_ok (cmd : string) (p : stretch) : Prop :=
  answering_poll cmd (st_answer p) (st_data p) /\ Forall (failing_poll cmd) (st_failures p).
Definition stretch_polls (p : stretch) : list (list pyval) := st_answer p :: st_failures p.
Definition stretch_shown (p : stretch) : list pydict := st_data p :: during (st_data p) 0 (length (st_failures p)).

Lemma timeline_stretches key cmd section ps : forall shown st,
  is_unsupported key cmd st = false -> Forall (stretch_ok cmd) ps ->
  timeline key cmd section shown st (concat (map stretch_polls ps)) = concat (map stretch_shown ps).
Proof.
  induction ps as [|[rs d l] ps IH]; intros shown st Hu Hf; [reflexivity|].
  apply Forall_cons in Hf as [[Ha Hl] Hf]. cbn [map concat stretch_polls stretch_shown st_answer st_data st_failures app timeline] in *.
  destruct (fetch_answering [(key, {| d_timestamp := None; d_sections := [(section, shown)] |})] key cmd section st rs d Hu Ha)
    as (rest & ->). f_equal.
  destruct (timeline_failing key cmd section (concat (map stretch_polls ps)) l d (accept_good key cmd st) 0 Hu
    (proj1 (proj2 (proj1 (proj2 Ha)))) (count_set_eq _ _ _ _) Hl) as (shown' & st' & Hu' & ->).
  f_equal. now apply IH.
Qed.

(** A guarded poll of one of several devices. *)
Lemma guarded_multi prev now key st rs :
  snd (fetch_device_guarded prev true now key st rs)
  = match snd (fetch_device_data prev now key st rs) with
    | PCancelled => Polled (default devdata_empty (dget key prev))
    | r => r
    end.
Proof. unfold fetch_device_guarded. now destruct (fetch_device_data prev now key st rs) as [s1 []]. Qed.

Lemma agree_data prev now key s1 s2 rs : agree key s1 s2 ->
  snd (fetch_device_data prev now key s1 rs) = snd (fetch_device_data prev now key s2 rs).
Proof.
  intros H. pose proof H as [Hc _]. unfold fetch_device_data. rewrite <- Hc.
  pose proof (agree_sections prev key (c_cycle s1) CMD_SCHEDULE [] s1 s2 rs H) as E.
  destruct (poll_sections prev CMD_SCHEDULE (c_cycle s1) key [] s1 rs) as [t1 o1],
           (poll_sections prev CMD_SCHEDULE (c_cycle s1) key [] s2 rs) as [t2 o2].
  simpl in E. subst o2. now destruct o1.
Qed.

Lemma devices_succeed prev now bus devs : forall st,
  NoDup (t_id <$> devs) ->
  (forall t e, In t devs -> snd (fetch_device_data prev now (t_id t) st (bus (t_id t))) <> PRaised e) ->
  exists st' l, poll_devices prev true now bus devs st = (st', Ok l).
Proof.
  induction devs as [|t devs IH]; intros st Hnd Hr; [now repeat eexists|].
  cbn [fmap list_fmap] in Hnd. apply NoDup_cons in Hnd as [Hni Hnd]. cbn [poll_devices].
  pose proof (guarded_multi prev now (t_id t) st (bus (t_id t))) as Hg.
  destruct (fetch_device_guarded prev true now (t_id t) st (bus (t_id t))) as [s1 r1] eqn:E1.
  apply guarded_spec in E1 as [(_ & _ & _ & _ & F5) _].
  destruct (IH s1 Hnd) as (s2 & l & ->).
  { intros u e Hu. rewrite <- (agree_data prev now (t_id u) st s1); [apply Hr; now right|].
    apply F5. intros Heq. apply Hni. rewrite <- Heq. apply list_elem_of_In. now apply in_map. }
  pose proof (fun e => Hr t e (or_introl eq_refl)) as Ht. simpl in Hg.
  destruct (snd (fetch_device_data prev now (t_id t) st (bus (t_id t)))) as [d| |e];
    [subst r1; now repeat eexists..|now destruct (Ht e)].
Qed.

(** ** Properties *)

(** C1: whatever the reads return, in every reachable state, with
    forced refreshes and target changes in the middle of a poll, no published
    section carries an error or a NAK, and the status section is plausible. *)
Theorem published_sections_good (devices : list DeviceTarget) (st : coord) (prev : dict devdata)
    (Hr : creach devices (st, prev)) (key section : string) (dev : devdata) (d : pydict)
    (Hk : dget key (c_data st) = Some dev) (Hs : dget section (d_sections dev) = Some d) :
  dmem "error" d = false /\ status_nak d = false
  /\ (section = "qpigs"%string -> is_plausible_qpigs d = Ok true).
Proof. exact (creach_good _ _ Hr key dev section d Hk Hs). Qed.

(** C18: whatever the failures counted before, a usable answer, at the first attempt or
    at the retry, is shown at once and starts the count anew: of the failing polls that
    follow it the first five keep showing its section and every further one shows it
    empty, until the next usable answer, in every sequence of such stretches. *)
Theorem outage_timeline (key cmd section : string) (shown : pydict) (st : coord) (ps : list stretch)
    (Hu : is_unsupported key cmd st = false) (Hf : Forall (stretch_ok cmd) ps) :
  timeline key cmd section shown st (concat (map stretch_polls ps))
  = concat (map (fun p => st_data p :: repeat (st_data p) (Nat.min (length (st_failures p)) 5)
                          ++ repeat [] (length (st_failures p) - 5)) ps).
Proof. exact (timeline_stretches key cmd section ps shown st Hu Hf). Qed.

(** Two NAKs in one poll stop the command for good: it is marked as
    unsupported and, in every state the coordinator can get to, it is never
    read again and keeps the section it has. *)
Theorem naks_disable_for_good (prev : dict devdata) (key cmd section : string) (st : coord)
    (r1 r2 : pyval) (rs : list pyval)
    (H1 : is_nak_result r1 = true) (H2 : is_nak_result r2 = true)
    (Hn : forall n, c_nak_counts st !! (key, cmd) = Some n -> 0 <= n) :
  exists st' rs', fetch_with_retry prev key cmd section st (r1 :: r2 :: rs)
    = (st', rs', Fetched (no_error (prev_section prev key section)))
  /\ is_unsupported key cmd st' = true
  /\ forall data st'' data'' prev2 rs2, rtc cstep (st', data) (st'', data'') ->
       fetch_with_retry prev2 key cmd section st'' rs2
       = (st'', rs2, Fetched (no_error (prev_section prev2 key section))).
Proof.
  assert (Hlater : forall st', is_unsupported key cmd st' = true ->
    forall data st'' data'' prev2 rs2, rtc cstep (st', data) (st'', data'') ->
       fetch_with_retry prev2 key cmd section st'' rs2
       = (st'', rs2, Fetched (no_error (prev_section prev2 key section)))).
  { intros st' Hu data st'' data'' prev2 rs2 Hr. unfold fetch_with_retry.
    pose proof (rtc_unsupported _ _ key cmd Hr Hu) as E. simpl in E. now rewrite E. }
  destruct (is_unsupported key cmd st) eqn:Eu.
  { exists st, (r1 :: r2 :: rs). split; [unfold fetch_with_retry; now rewrite Eu|]. split; [exact Eu|].
    now apply Hlater. }
  destruct (naks_mark prev key cmd section st r1 r2 rs H1 H2 Eu Hn) as (st' & rs' & E & Hm).
  exists st', rs'. split; [exact E|]. split; [exact Hm|]. now apply Hlater.
Qed.

(** C20: with several devices, a cycle in which no read raises out of
    the poll succeeds; every device is published with what its own poll alone
    gives, and one whose poll is cut short keeps its last data: a stuck device
    spares the others. *)
Theorem hub_cycle_independent (prev : dict devdata) (now : Z) (bus : string -> list pyval) (st : coord)
    (Hm : (1 < length (c_devices st))%nat) (Hnd : NoDup (t_id <$> c_devices st))
    (Hr : forall t e, In t (c_devices st) ->
       snd (fetch_device_data prev now (t_id t) st (bus (t_id t))) <> PRaised e) :
  exists st' data, update_data prev now bus st = (st', Ok data)
  /\ c_cycle st' = c_cycle st + 1
  /\ forall t, In t (c_devices st) ->
       match snd (fetch_device_data prev now (t_id t) st (bus (t_id t))) with
       | Polled dev => dget (t_id t) data = Some dev
       | _ => dget (t_id t) data = Some (default devdata_empty (dget (t_id t) prev))
       end.
Proof.
  unfold update_data. assert ((1 <? Z.of_nat (length (c_devices st)))%Z = true) as -> by (apply Z.ltb_lt; lia).
  destruct (devices_succeed prev now bus (c_devices st) st Hnd Hr) as (s' & l & E). rewrite E.
  do 2 eexists. split; [reflexivity|].
  pose proof (devices_spec _ _ _ _ _ _ _ _ E) as (_ & _ & Hcy & _). split; [simpl; now rewrite Hcy|].
  destruct (devices_alone _ _ _ _ _ _ _ _ Hnd E) as [Hk Hf]. intros t Ht.
  apply list_elem_of_In, list_elem_of_lookup in Ht as [i Ht].
  destruct (Forall2_lookup_l _ _ _ _ _ Hf Ht) as ([k dev] & Hi & Hd).
  rewrite guarded_multi in Hd. cbn [snd] in Hd.
  assert (k = t_id t) as ->.
  { apply (f_equal (fun l => l !! i)) in Hk. change (map fst l) with (fst <$> l) in Hk.
    change (map t_id (c_devices st)) with (t_id <$> c_devices st) in Hk.
    rewrite !list_lookup_fmap, Hi, Ht in Hk. simpl in Hk. now injection Hk. }
  assert (dget (t_id t) (dict_of l) = Some dev) as ->.
  { rewrite dict_of_nodup by (rewrite Hk; apply NoDup_ListNoDup; exact Hnd).
    apply dget_in; [unfold dict_ok, dkeys; rewrite Hk; apply NoDup_ListNoDup; exact Hnd|].
    apply list_elem_of_In. now apply list_elem_of_lookup_2 in Hi. }
  destruct (snd (fetch_device_data prev now (t_id t) st (bus (t_id t)))); congruence.
Qed.

(** C33: a device poll that finishes publishes all six sections; those not
    due in the cycle are the previous ones, and every command is due at least
    once in any six consecutive cycles. *)
Theorem cadence_carries_forward (prev : dict devdata) (now : Z) (key : string) (st st' : coord)
    (rs : list pyval) (dev : devdata)
    (Hp : fetch_device_data prev now key st rs = (st', Polled dev))
    (cmd section : string) (cadence : Z) (Hin : In (cmd, section, cadence) CMD_SCHEDULE) :
  (exists d, dget section (d_sections dev) = Some d
     /\ (c_cycle st mod cadence <> 0 -> d = prev_section prev key section))
  /\ exists i, 0 <= i < 6 /\ (c_cycle st + i) mod cadence = 0.
Proof.
  split.
  - unfold fetch_device_data in Hp.
    destruct (poll_sections prev CMD_SCHEDULE (c_cycle st) key [] st rs) as [s1 o1] eqn:E.
    apply sections_spec in E as [_ Ha]; [|exact schedule_sections_nodup].
    destruct o1 as [acc| |e]; try discriminate. injection Hp as _ <-.
    destruct (Ha acc eq_refl) as [_ Hf]. rewrite List.Forall_forall in Hf.
    destruct (Hf _ Hin) as (d & Hd & Hv). exists d. split; [exact Hd|].
    intros Hne. now rewrite (proj2 (Z.eqb_neq _ _) Hne) in Hv.
  - set (n := c_cycle st). exists ((- n) mod cadence). 
    assert (0 < cadence <= 6) as Hc.
    { simpl in Hin. destruct Hin as [E|[E|[E|[E|[E|[E|[]]]]]]]; injection E as <- <- <-; lia. }
    split; [pose proof (Z.mod_pos_bound (- n) cadence); lia|].
    rewrite Z.add_mod_idemp_r, Z.add_opp_diag_r by lia. apply Z.mod_0_l. lia.
Qed.

(** A forced refresh that lands while a poll is in flight is
    lost when its command is not due in that cycle: the poll then publishes the
    section it saw when it began, whatever the refresh had published. *)
Theorem refresh_lost_to_poll (prev : dict devdata) (now : Z) (key cmd section : string) (cadence : Z)
    (result : pyval) (st st1 st' : coord) (rs : list pyval) (dev : devdata)
    (Hin : In (cmd, section, cadence) CMD_SCHEDULE) (Hdue : c_cycle st mod cadence <> 0)
    (Hsnap : prev = c_data st)
    (Hrefresh : refresh_command key cmd section result st = (st1, Ok tt))
    (Hpoll : fetch_device_data prev now key st1 rs = (st', Polled dev)) :
  dget section (d_sections dev) = Some (prev_section (c_data st) key section).
Proof.
  assert (c_cycle st1 = c_cycle st) as Hcy.
  { revert Hrefresh. unfold refresh_command. destruct (negb (existsb _ _)); [now intros [= <-]|].
    destruct (negb _); [now intros [= <-]|].
    destruct (accept_result key cmd result st) as [s o] eqn:E.
    apply accept_result_spec in E as [(_ & _ & F & _) _].
    destruct o as [[[|]|]|]; intros [= <-]; exact F. }
  unfold fetch_device_data in Hpoll.
  destruct (poll_sections prev CMD_SCHEDULE (c_cycle st1) key [] st1 rs) as [s1 o1] eqn:E.
  apply sections_spec in E as [_ Ha]; [|exact schedule_sections_nodup].
  destruct o1 as [acc| |e]; try discriminate. injection Hpoll as _ <-.
  destruct (Ha acc eq_refl) as [_ Hf]. rewrite List.Forall_forall in Hf.
  destruct (Hf _ Hin) as (d & Hd & Hv). rewrite Hcy in Hv. rewrite (proj2 (Z.eqb_neq _ _) Hdue) in Hv.
  cbn [d_sections]. now rewrite Hd, Hv, Hsnap.
Qed.

(** ** Witnesses *)

Definition demo_dev (id : string) : DeviceTarget :=
  {| t_id := id; t_uri := "tcp://h:1"; t_protocol := "voltronic"; t_name := "Inverter" |}.
Definition demo_coord : coord := coord_init [demo_dev "a"; demo_dev "b"].
Definition demo_status : pydict := [("battery_voltage", VStr "26.40")]%string.
Definition demo_ratings : pydict := [("charger_source_priority", VStr "SOLAR_FIRST")]%string.
Definition demo_bus (key : string) : list pyval :=
  if String.eqb key "a" then VDict demo_status :: repeat (VDict demo_ratings) 5 else [].
Definition demo_after : coord := finish_poll [] 7 demo_bus demo_coord.

Lemma published_sections_good_witness :
  exists dev d, dget "a" (c_data demo_after) = Some dev /\ dget "qpigs" (d_sections dev) = Some d
  /\ is_plausible_qpigs d = Ok true.
Proof.
  assert (creach [demo_dev "a"; demo_dev "b"] (demo_after, [])) as Hr
    by (eapply rtc_l; [apply (c_finish 7 demo_bus)|apply rtc_refl]).
  do 2 eexists. split; [vm_compute; reflexivity|]. split; [vm_compute; reflexivity|].
  refine (proj2 (proj2 (published_sections_good _ _ _ Hr "a" "qpigs" _ demo_status _ _)) eq_refl);
    vm_compute; reflexivity.
Defined.

Definition demo_stretch (d : pydict) (n : nat) : stretch :=
  {| st_answer := [VNone; VDict d]; st_data := d; st_failures := repeat [VNone; VDict []] n |}.

Lemma outage_timeline_witness :
  timeline "a" "QPIGS" "qpigs" [] (with_failures (set_count ∅ "a" "QPIGS" 9) demo_coord)
    (concat (map stretch_polls [demo_stretch demo_status 7; demo_stretch demo_status 1]))
  = repeat demo_status 6 ++ [[]; []] ++ [demo_status; demo_status].
Proof.
  refine (outage_timeline "a" "QPIGS" "qpigs" [] (with_failures (set_count ∅ "a" "QPIGS" 9) demo_coord)
    [demo_stretch demo_status 7; demo_stretch demo_status 1] eq_refl _).
  assert (forall n, stretch_ok "QPIGS" (demo_stretch demo_status n)) as H; [|do 2 (apply Forall_cons; split; [apply H|]); apply Forall_nil_2].
  intros n. split; [split; [reflexivity|split]|].
  - split; [discriminate|]. repeat split; vm_compute; reflexivity.
  - right. now exists VNone, [].
  - apply Forall_forall. intros rs Hrs. apply list_elem_of_In, repeat_spec in Hrs as ->. now exists VNone, (VDict []).
Defined.

Lemma naks_disable_for_good_witness :
  exists st' rs', fetch_with_retry [] "a" "QPIGS2" "qpigs2" demo_coord
     [VDict [("status", VStr "NAK")]; VDict [("error", VStr "NAK received")]]%string = (st', rs', Fetched [])
  /\ fetch_with_retry [] "a" "QPIGS2" "qpigs2" st' [VDict demo_status] = (st', [VDict demo_status], Fetched []).
Proof.
  destruct (naks_disable_for_good [] "a" "QPIGS2" "qpigs2" demo_coord
    (VDict [("status", VStr "NAK")]%string) (VDict [("error", VStr "NAK received")]%string) [] eq_refl eq_refl)
    as (st' & rs' & E & _ & Hl).
  { intros n Hn. discriminate Hn. }
  exists st', rs'. split; [exact E|]. apply (Hl [] st' [] []), rtc_refl.
Defined.

Lemma hub_cycle_independent_witness :
  exists st' data, update_data [] 7 demo_bus demo_coord = (st', Ok data)
  /\ dget "b" data = Some devdata_empty.
Proof.
  destruct (hub_cycle_independent [] 7 demo_bus demo_coord) as (st' & data & E & _ & H).
  - simpl. lia.
  - apply (bool_decide_unpack _). vm_compute. exact I.
  - intros t e [<-|[<-|[]]]; vm_compute; discriminate.
  - exists st', data. split; [exact E|].
    pose proof (H (demo_dev "b") (or_intror (or_introl eq_refl))) as Hb. vm_compute in Hb. exact Hb.
Defined.

Lemma cadence_carries_forward_witness :
  exists st' dev, fetch_device_data (c_data demo_after) 8 "a" (with_cycle 1 demo_after) [VDict demo_status]
    = (st', Polled dev) /\ exists d, dget "qpiri" (d_sections dev) = Some d.
Proof.
  do 2 eexists. split; [vm_compute; reflexivity|].
  destruct (cadence_carries_forward (c_data demo_after) 8 "a" (with_cycle 1 demo_after)
    (fst (fetch_device_data (c_data demo_after) 8 "a" (with_cycle 1 demo_after) [VDict demo_status]))
    [VDict demo_status]
    {| d_timestamp := Some 8; d_sections := [("qpigs", demo_status); ("qmod", demo_ratings); ("qpigs2", demo_ratings);
        ("qpiws", demo_ratings); ("qfws", demo_ratings); ("qpiri", demo_ratings)]%string |}
    ltac:(vm_compute; reflexivity) "QPIRI" "qpiri" 6) as [(d & Hd & _) _].
  - simpl. tauto.
  - exists d. exact Hd.
Defined.

Definition demo_new_ratings : pydict := [("charger_source_priority", VStr "UTILITY_FIRST")]%string.

Lemma refresh_lost_to_poll_witness :
  prev_section (c_data (fst (refresh_command "a" "QPIRI" "qpiri" (VDict demo_new_ratings) demo_after)))
    "a" "qpiri" = demo_new_ratings
  /\ exists st' dev, fetch_device_data (c_data demo_after) 8 "a"
      (fst (refresh_command "a" "QPIRI" "qpiri" (VDict demo_new_ratings) demo_after)) [VDict demo_status]
    = (st', Polled dev) /\ dget "qpiri" (d_sections dev) = Some demo_ratings.
Proof.
  split; [vm_compute; reflexivity|].
  destruct (fetch_device_data (c_data demo_after) 8 "a"
      (fst (refresh_command "a" "QPIRI" "qpiri" (VDict demo_new_ratings) demo_after)) [VDict demo_status])
    as [st' [dev| |e]] eqn:E; [|vm_compute in E; discriminate..].
  exists st', dev. split; [reflexivity|].
  apply (refresh_lost_to_poll (c_data demo_after) 8 "a" "QPIRI" "qpiri" 6 (VDict demo_new_ratings) demo_after
    (fst (refresh_command "a" "QPIRI" "qpiri" (VDict demo_new_ratings) demo_after)) st' [VDict demo_status] dev).
  - simpl. tauto.
  - vm_compute. discriminate.
  - reflexivity.
  - vm_compute. reflexivity.
  - exact E.
Defined.
