(* ===== verification/AgentHttp.v ===== *)
(** The solar-system-agent snapshot transport: [api/protocols/agent_http.py]
    and the read half of [api/adapters/agent.py].

    The HTTP client ([get], [post]) is an argument: a reply is a status with the
    outcome of parsing its body, or the exception the client raised. JSON values are
    Python values. *)

From Stdlib Require Import ZArith List Bool Lia String Ascii Floats.SpecFloat.
From S2P Require Import Prelude PyStr PyInt PyFloat FloatFacts PyDict Enums Uri.
Import ListNotations.
#[local] Open Scope string_scope.
#[local] Open Scope list_scope.
#[local] Open Scope Z_scope.

Definition AGENT_STALE_THRESHOLD_MS : Z := 5 * 60 * 1000.

Definition parse_agent_uri (device : string) : res (string * Z * string) :=
  let parsed := urlparse device in
  if negb (String.eqb (u_scheme parsed) "agent") then Raise (ValueError ("not an agent URI: " ++ device)%string)
  else
    match u_hostname parsed with
    | None => Raise (ValueError ("agent URI needs host:port: " ++ device)%string)
    | Some host =>
        (let! p := u_port parsed in
         match p with
         | None | Some 0 => Raise (ValueError ("agent URI needs host:port: " ++ device)%string)
         | Some port =>
             let provider_device_id := lstrip_p (Ascii.eqb "/") (u_path parsed) in
             if String.eqb provider_device_id ""
             then Raise (ValueError ("agent URI missing providerDeviceId: " ++ device)%string)
             else Ok (host, port, provider_device_id)
         end)%py
    end.

(** [TimeoutError] and [aiohttp.ClientError]. *)
Definition is_client_error (e : exn) : bool :=
  match e with TimeoutError | ConnectionError _ => true | _ => false end.

Definition client_error_text (e : exn) : string :=
  match e with ConnectionError m => m | _ => "" end.

Definition http_reply := res (Z * res pyval).

Definition agent_url (host : string) (port : Z) (provider_device_id tail : string) : string :=
  ("http://" ++ host ++ ":" ++ str_of_int port ++ "/devices/" ++ provider_device_id ++ "/" ++ tail)%string.

Definition fetch_agent_snapshot (get : string -> http_reply) (host : string) (port : Z)
    (provider_device_id : string) : res pyval :=
  let r := rbind (get (agent_url host port provider_device_id "latest")) (fun rb =>
             if fst rb =? 404 then Ok VNone
             else if negb (fst rb =? 200) then Ok VNone
             else snd rb) in
  match r with
  | Raise e => if is_client_error e then Ok VNone else Raise e
  | r => r
  end.

Definition QPIRI_FIELD_NAMES : list string := [
  "rated_grid_voltage"; "rated_input_current"; "rated_ac_output_voltage";
  "rated_output_frequency"; "rated_output_current"; "rated_output_apparent_power";
  "rated_output_active_power"; "rated_battery_voltage"; "low_battery_to_ac_bypass_voltage";
  "shut_down_battery_voltage"; "bulk_charging_voltage"; "float_charging_voltage";
  "battery_type"; "max_utility_charging_current"; "max_charging_current";
  "ac_input_voltage_range"; "output_source_priority"; "charger_source_priority";
  "parallel_max_number"; "parallel_mode"; "high_battery_voltage_to_battery_mode";
  "solar_work_condition_in_parallel"; "solar_max_charging_power_auto_adjust";
  "rated_battery_capacity"].

Definition is_qpiri_field (k : string) : bool := existsb (String.eqb k) QPIRI_FIELD_NAMES.
Definition is_fault_key (k : string) : bool :=
  existsb (String.eqb k) ["fault_code"; "fault_description"].

(** [{k[len(p):]: v for k, v in raw.items() if k.startswith(p)}] *)
Definition unprefixed (p : string) (raw : pydict) : pydict :=
  dict_of (map (fun kv => (sdrop (String.length p) (fst kv), snd kv))
    (filter (fun kv => startswith (fst kv) p) raw)).

(** [except (TypeError, ValueError): d] *)
Definition or_default {A} (d : A) (r : res A) : res A :=
  match r with
  | Raise e => if is_TypeError e || is_ValueError e then Ok d else Raise e
  | r => r
  end.

(** [d.get(key, 0) or 0] as a float, 0.0 when it is no number. *)
Definition safe_float (d : pydict) (key : string) : res float :=
  match dget key d with
  | None => Ok f0
  | Some v => if truthy v then or_default f0 (float_of_val v) else Ok f0
  end.

(** [(a or b or "").lower()] *)
Definition mode_text (raw : pydict) : res string :=
  let v := vget "operating_mode" raw in
  let v := if truthy v then v else vget "qmod.operating_mode" raw in
  match v with
  | VStr s => Ok (lower s)
  | v => if truthy v then Raise (GenericException "AttributeError") else Ok ""
  end.

Definition bit (b : bool) : string := if b then "1" else "0".

Definition synth_b7_b0 (raw : pydict) : res string :=
  (let! operating_mode := mode_text raw in
   let! grid_voltage := safe_float raw "grid_voltage" in
   let! load_percent := safe_float raw "load_percent" in
   let inverter_on := existsb (String.eqb operating_mode)
                        ["mains"; "offgrid"; "battery"; "line"; "bypass"] in
   let line_fail := flt grid_voltage (flit 50 1) in
   let overload := fgt load_percent (flit 100 1) in
   let fault := String.eqb operating_mode "fault" in
   Ok (join "" [bit fault; "0"; "0"; bit line_fail; "0"; "0"; bit overload; bit inverter_on]))%py.

Definition synth_b10_b8 (qpigs raw : pydict) : res string :=
  (let! i_signed := safe_float qpigs "battery_current" in
   let charging_to_battery := fgt i_signed (flit 1 10) in
   let! grid_voltage := safe_float raw "grid_voltage" in
   let ac_charging := charging_to_battery && fgt grid_voltage (flit 50 1) in
   let! pv := safe_float raw "pv_charging_power" in
   let! pv_power := (if is_zero pv then safe_float raw "pv_input_power" else Ok pv) in
   let scc_charging := fgt pv_power (flit 5 1) in
   Ok (join "" [bit charging_to_battery; bit ac_charging; bit scc_charging]))%py.

(** What QPIGS keeps of the flat snapshot. *)
Definition qpigs_key (k : string) : bool :=
  negb (existsb (startswith k) ["qpiri."; "qmod."; "qpigs2."; "warn_"])
  && negb (is_qpiri_field k) && negb (is_fault_key k).

Definition split_currents (qpigs : pydict) : res pydict :=
  if dmem "battery_current" qpigs
     && (negb (dmem "battery_charging_current" qpigs) || negb (dmem "battery_discharge_current" qpigs))
  then
    (let! i_signed := or_default f0 (float_of_val (vget "battery_current" qpigs)) in
     let qpigs := dsetdefault "battery_charging_current" (VStr (fmt_f 2 (fmax f0 i_signed))) qpigs in
     Ok (dsetdefault "battery_discharge_current" (VStr (fmt_f 2 (fmax f0 (fneg i_signed)))) qpigs))%py
  else Ok qpigs.

Definition agent_qpigs (raw : pydict) : res pydict :=
  (let! qpigs := split_currents (filter (fun kv => qpigs_key (fst kv)) raw) in
   let! qpigs :=
     (if dmem "device_status_bits_b7_b0" qpigs then Ok qpigs
      else let! s := synth_b7_b0 raw in Ok (dset "device_status_bits_b7_b0" (VStr s) qpigs)) in
   if dmem "device_status_bits_b10_b8" qpigs then Ok qpigs
   else let! s := synth_b10_b8 qpigs raw in Ok (dset "device_status_bits_b10_b8" (VStr s) qpigs))%py.

Definition agent_qpiri (raw : pydict) : pydict :=
  match unprefixed "qpiri." raw with
  | [] => filter (fun kv => is_qpiri_field (fst kv)) raw
  | prefixed => prefixed
  end.

(** One entry of the QFWS result. *)
Definition warn_entry (kv : string * pyval) : res (list (string * pyval)) :=
  let '(k, v) := kv in
  if startswith k "warn_" then
    rmap (fun b => [(k, VBool b)])
      (or_default (truthy v) (rmap (fun n => negb (n =? 0)) (int_of_val v)))
  else if is_fault_key k then Ok [kv] else Ok [].

Definition agent_qfws (raw : pydict) : res pydict :=
  rmap (fun l => dict_of (List.concat l)) (rmapM warn_entry raw).

Definition split_raw_by_command (raw : pydict) (command : string) : res pydict :=
  if String.eqb command "QPIRI" then Ok (agent_qpiri raw)
  else if String.eqb command "QFWS" then agent_qfws raw
  else if String.eqb command "QPIGS" then agent_qpigs raw
  else if String.eqb command "QMOD" then Ok (unprefixed "qmod." raw)
  else if String.eqb command "QPIGS2" then Ok (unprefixed "qpigs2." raw)
  else Ok [].

(** ** [AgentAdapter.get_data] *)

Definition AGENT_MODE_TO_PI30 : dict OperatingMode :=
  [("Mains", OperatingMode_Line); ("Line", OperatingMode_Line); ("Bypass", OperatingMode_Line);
   ("OffGrid", OperatingMode_Battery); ("Battery", OperatingMode_Battery);
   ("PowerOn", OperatingMode_PowerOn); ("Standby", OperatingMode_Standby);
   ("Fault", OperatingMode_Fault); ("Shutdown", OperatingMode_ShutdownApproaching)].

Definition mode_val (m : OperatingMode) : pyval := VEnum "OperatingMode" (enum_name m).

(** [OperatingMode[name]] *)
Definition mode_by_name (name : string) : option OperatingMode :=
  find (fun m => String.eqb (enum_name m) name) members.

Definition is_stale (age_ms : pyval) : bool :=
  match age_ms with
  | VInt n => AGENT_STALE_THRESHOLD_MS <? n
  | VFloat x => fgt x (float_of_Z AGENT_STALE_THRESHOLD_MS)
  | _ => false
  end.

Definition agent_mode (sub : pydict) : res pydict :=
  match vget "operating_mode" sub with
  | VNone => Ok []
  | VStr name =>
      match dget name AGENT_MODE_TO_PI30 with
      | Some m => Ok [("operating_mode", mode_val m)]
      | None => match mode_by_name name with
                | Some m => Ok [("operating_mode", mode_val m)]
                | None => Ok []
                end
      end
  | VList _ | VDict _ => Raise (TypeError "unhashable type")
  | _ => Ok []
  end.

Definition agent_get_data (get : string -> http_reply) (uri command : string) : res pydict :=
  match parse_agent_uri uri with
  | Raise e => if is_ValueError e then Ok [] else Raise e
  | Ok (host, port, provider_device_id) =>
      (let! payload := fetch_agent_snapshot get host port provider_device_id in
       if negb (truthy payload) then Ok []
       else match payload with
            | VDict payload =>
                if is_stale (vget "ageMs" payload) then Ok []
                else
                  match vget "raw" payload with
                  | VDict raw =>
                      if String.eqb command "QMOD"
                      then let! sub := split_raw_by_command raw "QMOD" in agent_mode sub
                      else split_raw_by_command raw command
                  | v => if truthy v then Ok []
                         else if String.eqb command "QMOD" then agent_mode []
                         else split_raw_by_command [] command
                  end
            | _ => Raise (GenericException "AttributeError")
            end)%py
  end.

(** ** Settings *)

Definition post_agent_setting (post : string -> pydict -> http_reply) (device setting_key : string)
    (value : pyval) : res pydict :=
  match parse_agent_uri device with
  | Raise (ValueError err) =>
      Ok [("ok", VBool false); ("error", VStr ("invalid agent URI: " ++ err)%string)]
  | Raise e => Raise e
  | Ok (host, port, provider_device_id) =>
      match post (agent_url host port provider_device_id "settings")
              [("key", VStr setting_key); ("value", value)] with
      | Ok (_, Ok (VDict data)) => Ok data
      | Ok (status, Ok _) =>
          Ok [("ok", VBool false);
              ("error", VStr ("agent returned non-dict body (HTTP " ++ str_of_int status ++ ")")%string)]
      | Ok (_, Raise e) | Raise e =>
          if is_client_error e
          then Ok [("ok", VBool false);
                   ("error", VStr ("agent unreachable: " ++ client_error_text e)%string)]
          else Raise e
      end
  end.

(** ** Lemmas *)

Lemma dget_filter_key {V} (p : string -> bool) k (d : dict V) :
  dget k (filter (fun kv => p (fst kv)) d) = if p k then dget k d else None.
Proof.
  induction d as [|[k' v] d IH]; simpl; [now destruct (p k)|].
  destruct (String.eqb_spec k k') as [->|Hne].
  - destruct (p k') eqn:E; simpl; [now rewrite String.eqb_refl|exact IH].
  - destruct (p k'); simpl; [now rewrite (proj2 (String.eqb_neq k k') Hne)|exact IH].
Qed.

Lemma dget_dsetdefault {V} k k' (v : V) d :
  dget k (dsetdefault k' v d)
  = match dget k d with Some x => Some x | None => if String.eqb k k' then Some v else None end.
Proof.
  unfold dsetdefault, dmem. destruct (String.eqb_spec k k') as [->|Hne].
  - destruct (dget k' d) eqn:E; [now rewrite E|]. now rewrite dget_dset_eq.
  - destruct (dget k' d); [|rewrite dget_dset_ne by exact Hne]; now destruct (dget k d).
Qed.

Lemma dsetdefault_keys {V} (P : string -> Prop) k (v : V) d :
  P k -> Forall P (dkeys d) -> Forall P (dkeys (dsetdefault k v d)).
Proof.
  intros Hk Hd. unfold dsetdefault, dmem. destruct (dget k d) eqn:E; [exact Hd|].
  rewrite dset_keys_new by exact E. unfold dkeys. rewrite map_app. apply Forall_app. now repeat constructor.
Qed.

(** A snapshot as the agent documents it: string readings. *)
Definition strings_only (raw : pydict) : Prop := Forall (fun kv => exists s, snd kv = VStr s) raw.

Lemma strings_only_get raw k v : strings_only raw -> dget k raw = Some v -> exists s, v = VStr s.
Proof.
  intros H E. apply dget_some_in in E. unfold strings_only in H. rewrite Forall_forall in H. exact (H _ E).
Qed.

Lemma py_float_error s e : py_float s = Raise e -> is_ValueError e = true.
Proof.
  unfold py_float. destruct (split_sign _) as [neg l]. destruct (_ || _); [discriminate|].
  destruct (String.eqb _ _); [discriminate|]. destruct (float_decimal neg l); [discriminate|].
  now intros [= <-].
Qed.

Definition num_or_zero (s : string) : float := match py_float s with Ok x => x | Raise _ => f0 end.

Lemma or_default_str s : or_default f0 (float_of_val (VStr s)) = Ok (num_or_zero s).
Proof.
  unfold num_or_zero. cbn [float_of_val]. destruct (py_float s) as [x|e] eqn:E; [reflexivity|].
  cbn [or_default]. rewrite (py_float_error s e E), orb_true_r. reflexivity.
Qed.

(** The number a string field holds, 0.0 when absent or no number. *)
Definition field_num (d : pydict) (k : string) : float :=
  match dget k d with Some (VStr s) => num_or_zero s | _ => f0 end.

Lemma safe_float_str d k : strings_only d -> safe_float d k = Ok (field_num d k).
Proof.
  intros H. unfold safe_float, field_num. destruct (dget k d) as [v|] eqn:E; [|reflexivity].
  destruct (strings_only_get d k v H E) as [s ->]. cbn [truthy].
  destruct (String.eqb_spec s "") as [->|]; [vm_compute; reflexivity|apply or_default_str].
Qed.

Definition mode_of (raw : pydict) : string :=
  match mode_text raw with Ok s => s | Raise _ => "" end.

Lemma mode_text_str raw : strings_only raw -> mode_text raw = Ok (mode_of raw).
Proof.
  intros H. unfold mode_of. enough (exists s, mode_text raw = Ok s) as [s ->] by reflexivity.
  assert (Hv : forall k, (exists s, vget k raw = VStr s) \/ vget k raw = VNone).
  { intros k. unfold vget. destruct (dget k raw) as [v|] eqn:E; [|auto].
    left. exact (strings_only_get raw k v H E). }
  unfold mode_text. destruct (Hv "operating_mode") as [[s ->]| ->]; cbn [truthy];
    [destruct (negb _); [eauto|]|]; destruct (Hv "qmod.operating_mode") as [[t ->]| ->]; cbn; eauto.
Qed.

Definition b7_b0_flags (raw : pydict) : bool * bool * bool * bool :=
  (String.eqb (mode_of raw) "fault", flt (field_num raw "grid_voltage") (flit 50 1),
   fgt (field_num raw "load_percent") (flit 100 1),
   existsb (String.eqb (mode_of raw)) ["mains"; "offgrid"; "battery"; "line"; "bypass"]).

Lemma synth_b7_b0_str raw : strings_only raw ->
  synth_b7_b0 raw = Ok (let '(fault, line_fail, overload, inverter_on) := b7_b0_flags raw in
    join "" [bit fault; "0"; "0"; bit line_fail; "0"; "0"; bit overload; bit inverter_on]).
Proof.
  intros H. unfold synth_b7_b0. rewrite (mode_text_str raw H), !(safe_float_str raw) by exact H. reflexivity.
Qed.

Definition pv_power_of (raw : pydict) : float :=
  if is_zero (field_num raw "pv_charging_power") then field_num raw "pv_input_power"
  else field_num raw "pv_charging_power".

Definition b10_b8_flags (qpigs raw : pydict) : bool * bool * bool :=
  let charging := fgt (field_num qpigs "battery_current") (flit 1 10) in
  (charging, charging && fgt (field_num raw "grid_voltage") (flit 50 1), fgt (pv_power_of raw) (flit 5 1)).

Lemma synth_b10_b8_str qpigs raw : strings_only raw -> strings_only qpigs ->
  synth_b10_b8 qpigs raw = Ok (let '(a, b, c) := b10_b8_flags qpigs raw in join "" [bit a; bit b; bit c]).
Proof.
  intros H Hq. unfold synth_b10_b8, b10_b8_flags, pv_power_of. rewrite (safe_float_str qpigs _ Hq).
  cbn [rbind]. rewrite !(safe_float_str raw) by exact H. cbn [rbind].
  destruct (is_zero (field_num raw "pv_charging_power")); reflexivity.
Qed.

(** [q'] is [q] with some of the [extra] string fields filled in. *)
Definition extends (extra : list string) (q q' : pydict) : Prop :=
  strings_only q' /\ Forall (fun k => qpigs_key k = true) (dkeys q')
  /\ forall k, match dget k q with
               | Some v => dget k q' = Some v
               | None => dget k q' = None \/ In k extra
               end.

Lemma strings_only_dset k s d : strings_only d -> strings_only (dset k (VStr s) d).
Proof.
  unfold strings_only. induction d as [|[k' v] d IH]; simpl; intros H.
  - repeat constructor. now exists s.
  - inversion H; subst. destruct (String.eqb k k'); constructor; eauto. now exists s.
Qed.

Lemma extends_refl extra q : strings_only q -> Forall (fun k => qpigs_key k = true) (dkeys q) -> extends extra q q.
Proof. intros H1 H2. split; [exact H1|split; [exact H2|]]. intros k. destruct (dget k q); auto. Qed.

Lemma extends_setdefault extra q q' k s :
  qpigs_key k = true -> In k extra -> extends extra q q' -> extends extra q (dsetdefault k (VStr s) q').
Proof.
  intros Hk Hin (H1 & H2 & H3). split; [|split; [now apply dsetdefault_keys|]].
  - unfold dsetdefault. destruct (dmem k q'); [exact H1|now apply strings_only_dset].
  - intros k'. specialize (H3 k'). rewrite dget_dsetdefault. destruct (dget k' q) as [v|].
    + now rewrite H3.
    + destruct (String.eqb_spec k' k) as [->|]; [now right|].
      destruct H3 as [->|H3]; [now left|now right].
Qed.

Definition current_keys : list string := ["battery_charging_current"; "battery_discharge_current"].
Definition bit_keys : list string := ["device_status_bits_b7_b0"; "device_status_bits_b10_b8"].

Definition charge_text (q : pydict) : string := fmt_f 2 (fmax f0 (field_num q "battery_current")).
Definition discharge_text (q : pydict) : string := fmt_f 2 (fmax f0 (fneg (field_num q "battery_current"))).

Lemma split_currents_str q : strings_only q ->
  split_currents q =
  Ok (if dmem "battery_current" q
      then dsetdefault "battery_discharge_current" (VStr (discharge_text q))
             (dsetdefault "battery_charging_current" (VStr (charge_text q)) q)
      else q).
Proof.
  intros H. unfold split_currents. destruct (dmem "battery_current" q) eqn:Em; cbn [andb]; [|reflexivity].
  destruct (dmem "battery_charging_current" q) eqn:E1; destruct (dmem "battery_discharge_current" q) eqn:E2;
    cbn [negb orb].
  1: { unfold dsetdefault. now rewrite E1, E2. }
  all: unfold dmem in Em; destruct (dget "battery_current" q) as [v|] eqn:Ev; [|discriminate];
    destruct (strings_only_get q _ v H Ev) as [s ->]; unfold vget; rewrite Ev, or_default_str; cbn [rbind];
    unfold charge_text, discharge_text, field_num; rewrite Ev; reflexivity.
Qed.

Definition qpigs_base (raw : pydict) : pydict := filter (fun kv => qpigs_key (fst kv)) raw.

Lemma qpigs_base_keys raw : Forall (fun k => qpigs_key k = true) (dkeys (qpigs_base raw)).
Proof.
  unfold qpigs_base, dkeys. rewrite Forall_map. apply Forall_forall. intros kv Hin.
  now apply filter_In in Hin.
Qed.

Lemma qpigs_base_strings raw : strings_only raw -> strings_only (qpigs_base raw).
Proof.
  unfold strings_only. rewrite !Forall_forall. intros H kv Hin. apply filter_In in Hin. now apply H.
Qed.

(** The whole QPIGS bucket of a string snapshot. *)
Definition qpigs_bucket (raw : pydict) : pydict :=
  let base := qpigs_base raw in
  let q := if dmem "battery_current" base
           then dsetdefault "battery_discharge_current" (VStr (discharge_text base))
                  (dsetdefault "battery_charging_current" (VStr (charge_text base)) base)
           else base in
  let '(fault, line_fail, overload, inverter_on) := b7_b0_flags raw in
  let q := dsetdefault "device_status_bits_b7_b0"
             (VStr (join "" [bit fault; "0"; "0"; bit line_fail; "0"; "0"; bit overload; bit inverter_on])) q in
  let '(a, b, c) := b10_b8_flags q raw in
  dsetdefault "device_status_bits_b10_b8" (VStr (join "" [bit a; bit b; bit c])) q.

Lemma qpigs_bucket_extends raw : strings_only raw ->
  extends (current_keys ++ bit_keys) (qpigs_base raw) (qpigs_bucket raw).
Proof.
  intros H. unfold qpigs_bucket.
  assert (extends (current_keys ++ bit_keys) (qpigs_base raw) (qpigs_base raw)) as H0
    by (apply extends_refl; [now apply qpigs_base_strings|apply qpigs_base_keys]).
  destruct (b7_b0_flags raw) as [[[? ?] ?] ?]. destruct (b10_b8_flags _ raw) as [[? ?] ?].
  do 2 (apply extends_setdefault; [reflexivity|simpl; tauto|]).
  destruct (dmem "battery_current" (qpigs_base raw)); [|exact H0].
  do 2 (apply extends_setdefault; [reflexivity|simpl; tauto|]). exact H0.
Qed.

Lemma agent_qpigs_str raw : strings_only raw -> agent_qpigs raw = Ok (qpigs_bucket raw).
Proof.
  intros H. unfold agent_qpigs, qpigs_bucket. fold (qpigs_base raw).
  rewrite (split_currents_str (qpigs_base raw)) by now apply qpigs_base_strings. cbn [rbind].
  set (q := if dmem "battery_current" (qpigs_base raw) then _ else _).
  assert (strings_only q) as Hq.
  { unfold q. pose proof (qpigs_base_strings raw H) as Hb. destruct (dmem _ _); [|exact Hb].
    unfold dsetdefault. repeat destruct (dmem _ _); repeat apply strings_only_dset; exact Hb. }
  clearbody q. rewrite (synth_b7_b0_str raw H). destruct (b7_b0_flags raw) as [[[fa lf] ov] on]. cbv beta iota.
  set (s := join "" [bit fa; _; _; _; _; _; _; _]).
  lazymatch goal with |- rbind ?X _ = _ =>
    replace X with (Ok (dsetdefault "device_status_bits_b7_b0" (VStr s) q))
      by (unfold dsetdefault; now destruct (dmem _ q)) end.
  cbn [rbind]. set (q2 := dsetdefault _ _ q).
  assert (strings_only q2) as Hq2
    by (unfold q2, dsetdefault; destruct (dmem _ _); [exact Hq|now apply strings_only_dset]).
  rewrite (synth_b10_b8_str q2 raw H Hq2). destruct (b10_b8_flags q2 raw) as [[a b] c].
  unfold dsetdefault. now destruct (dmem _ q2).
Qed.

(** A bucket that has its status bits and, with a signed current, both split
    currents is left as it is. *)
Lemma qpigs_bucket_fixed raw : strings_only raw -> qpigs_bucket (qpigs_bucket raw) = qpigs_bucket raw.
Proof.
  intros Hs. pose proof (qpigs_bucket_extends raw Hs) as (_ & Hk & _).
  assert (Hb : qpigs_base (qpigs_bucket raw) = qpigs_bucket raw).
  { unfold qpigs_base. induction (qpigs_bucket raw) as [|[k v] q IH]; [reflexivity|].
    inversion Hk; subst. simpl. simpl in H1. rewrite H1. f_equal. now apply IH. }
  assert (Hm : forall k (v : pyval) q, dmem k (dsetdefault k v q) = true).
  { intros k v q. unfold dmem. rewrite dget_dsetdefault, String.eqb_refl. now destruct (dget k q). }
  assert (Hm' : forall k k' (v : pyval) q, dmem k q = true -> dmem k (dsetdefault k' v q) = true).
  { intros k k' v q. unfold dmem. rewrite dget_dsetdefault. destruct (dget k q); [auto|discriminate]. }
  assert (Hno : forall k (v : pyval) q, dmem k q = true -> dsetdefault k v q = q)
    by (intros k v q E; unfold dsetdefault; now rewrite E).
  unfold qpigs_bucket at 1. rewrite Hb.
  assert (dmem "device_status_bits_b7_b0" (qpigs_bucket raw) = true) as E7.
  { unfold qpigs_bucket. destruct (b7_b0_flags raw) as [[[? ?] ?] ?], (b10_b8_flags _ raw) as [[? ?] ?].
    apply Hm', Hm. }
  assert (dmem "device_status_bits_b10_b8" (qpigs_bucket raw) = true) as E10.
  { unfold qpigs_bucket. destruct (b7_b0_flags raw) as [[[? ?] ?] ?], (b10_b8_flags _ raw) as [[? ?] ?]. apply Hm. }
  assert (dmem "battery_current" (qpigs_bucket raw) = true ->
     dmem "battery_charging_current" (qpigs_bucket raw) = true /\
     dmem "battery_discharge_current" (qpigs_bucket raw) = true) as Ec.
  { unfold qpigs_bucket. destruct (b7_b0_flags raw) as [[[? ?] ?] ?], (b10_b8_flags _ raw) as [[? ?] ?].
    destruct (dmem "battery_current" (qpigs_base raw)) eqn:Em; intros Hc.
    - split; apply Hm', Hm'; [apply Hm', Hm|apply Hm].
    - exfalso. revert Hc. unfold dmem in *. rewrite !dget_dsetdefault.
      destruct (dget "battery_current" (qpigs_base raw)); [discriminate|]. cbn. discriminate. }
  assert ((if dmem "battery_current" (qpigs_bucket raw)
           then dsetdefault "battery_discharge_current" (VStr (discharge_text (qpigs_bucket raw)))
                  (dsetdefault "battery_charging_current" (VStr (charge_text (qpigs_bucket raw))) (qpigs_bucket raw))
           else qpigs_bucket raw) = qpigs_bucket raw) as ->.
  { destruct (dmem "battery_current" (qpigs_bucket raw)); [|reflexivity].
    destruct (Ec eq_refl) as [Ea Eb]. now rewrite !Hno by (rewrite ?Hno; assumption). }
  destruct (b7_b0_flags _) as [[[? ?] ?] ?]. rewrite (Hno _ _ _ E7).
  destruct (b10_b8_flags _ _) as [[? ?] ?]. now apply Hno.
Qed.

(** No snapshot key is prefixed: an agent that sends one flat dict. *)
Definition flat (raw : pydict) : Prop :=
  Forall (fun kv => existsb (startswith (fst kv)) ["qpiri."; "qmod."; "qpigs2."; "warn_"] = false) raw.

Lemma unprefixed_flat p raw : In p ["qpiri."; "qmod."; "qpigs2."] -> flat raw -> unprefixed p raw = [].
Proof.
  intros Hp H. unfold unprefixed. replace (filter _ raw) with (@nil (string * pyval)); [reflexivity|].
  symmetry. induction H as [|kv raw Hk _ IH]; [reflexivity|]. simpl filter.
  assert (startswith (fst kv) p = false) as ->; [|exact IH].
  cbn [existsb] in Hk. rewrite !orb_false_iff in Hk. destruct Hk as (? & ? & ? & _).
  destruct Hp as [<-|[<-|[<-|[]]]]; assumption.
Qed.

(** ** Properties *)

(** A flat snapshot of string readings is split without loss:
    the QPIGS read never fails, every rated setting goes to QPIRI only, fault
    keys to neither, and every other reading to QPIGS only, unchanged; QPIGS
    adds nothing but the derived currents and status bits; and splitting the
    QPIGS bucket again changes nothing. *)
Theorem agent_snapshot_routing (raw : pydict) (Hs : strings_only raw) (Hf : flat raw) :
  exists q, split_raw_by_command raw "QPIGS" = Ok q
  /\ split_raw_by_command q "QPIGS" = Ok q
  /\ forall k v, dget k raw = Some v ->
       (if is_fault_key k || is_qpiri_field k then dget k q = None else dget k q = Some v)
       /\ rmap (dget k) (split_raw_by_command raw "QPIRI")
          = Ok (if is_qpiri_field k then Some v else None).
Proof.
  pose proof (qpigs_bucket_extends raw Hs) as (H1 & H2 & H3).
  exists (qpigs_bucket raw). change (split_raw_by_command ?r "QPIGS") with (agent_qpigs r).
  split; [now apply agent_qpigs_str|]. split.
  - rewrite (agent_qpigs_str _ H1). f_equal. apply qpigs_bucket_fixed; assumption.
  - intros k v Hk. specialize (H3 k). unfold qpigs_base in H3. rewrite (dget_filter_key qpigs_key) in H3.
    assert (qpigs_key k = negb (is_qpiri_field k) && negb (is_fault_key k)) as Ek.
    { unfold qpigs_key. unfold flat in Hf. rewrite Forall_forall in Hf. apply dget_some_in in Hk.
      pose proof (Hf _ Hk) as E. cbn [fst] in E. now rewrite E. }
    split.
    + rewrite Ek, Hk in H3. destruct (is_qpiri_field k) eqn:Eq, (is_fault_key k) eqn:Ef; cbn in *; try exact H3;
        (destruct H3 as [H3|H3]; [exact H3|]); exfalso; simpl in H3;
        destruct H3 as [<-|[<-|[<-|[<-|[]]]]]; discriminate.
    + change (split_raw_by_command raw "QPIRI") with (Ok (agent_qpiri raw)). unfold agent_qpiri.
      rewrite (unprefixed_flat "qpiri.") by (simpl; tauto || exact Hf). cbn [rmap rbind].
      rewrite (dget_filter_key is_qpiri_field), Hk. reflexivity.
Qed.

(** At most one direction of the battery current is positive. *)
Lemma one_direction x : fmax f0 x = f0 \/ fmax f0 (fneg x) = f0.
Proof. unfold fmax. destruct x as [[]|[]| |[] m e]; vm_compute; auto. Qed.

Lemma bucket_reading raw k : strings_only raw ->
  qpigs_key k = true -> ~ In k (current_keys ++ bit_keys) -> dget k (qpigs_bucket raw) = dget k raw.
Proof.
  intros H Hk Hn. pose proof (qpigs_bucket_extends raw H) as (_ & _ & H3). specialize (H3 k).
  unfold qpigs_base in H3. rewrite (dget_filter_key qpigs_key), Hk in H3.
  destruct (dget k raw); [exact H3|]. now destruct H3.
Qed.

Lemma synth_bits_parsed fault line_fail overload inverter_on a b c :
  parse_device_status_bits_b7_b0
    (join "" [bit fault; "0"; "0"; bit line_fail; "0"; "0"; bit overload; bit inverter_on])
  = Ok [("fault", VBool fault); ("line_fail", VBool line_fail); ("bus_over", VBool false);
        ("battery_low", VBool false); ("battery_high", VBool false); ("inverter_overload", VBool overload);
        ("inverter_on", VBool inverter_on);
        ("_raw_b7_b0", VStr (join "" [bit fault; "0"; "0"; bit line_fail; "0"; "0"; bit overload; bit inverter_on]))]
  /\ parse_device_status_bits_b10_b8 (join "" [bit a; bit b; bit c])
  = Ok [("charging_to_battery", VBool a); ("charging_scc_active", VBool c); ("charging_ac_active", VBool b);
        ("_raw_b10_b8", VStr (join "" [bit a; bit b; bit c]))].
Proof. split; [destruct fault, line_fail, overload, inverter_on|destruct a, b, c]; reflexivity. Qed.

(** What the QPIGS bucket of a snapshot without status bits and split currents
    derives. *)
Lemma bucket_derived raw : strings_only raw ->
  (forall k, In k (current_keys ++ bit_keys) -> dget k raw = None) ->
  let q := qpigs_bucket raw in
  (exists s7 s10, dget "device_status_bits_b7_b0" q = Some (VStr s7)
   /\ dget "device_status_bits_b10_b8" q = Some (VStr s10)
   /\ (let '(fault, line_fail, overload, inverter_on) := b7_b0_flags raw in
       s7 = join "" [bit fault; "0"; "0"; bit line_fail; "0"; "0"; bit overload; bit inverter_on])
   /\ (let '(a, b, c) := b10_b8_flags raw raw in s10 = join "" [bit a; bit b; bit c]))
  /\ (dmem "battery_current" raw = true ->
      dget "battery_charging_current" q = Some (VStr (charge_text raw))
      /\ dget "battery_discharge_current" q = Some (VStr (discharge_text raw))).
Proof.
  intros H Hno q.
  assert (Hbase : forall k, In k (current_keys ++ bit_keys) -> dget k (qpigs_base raw) = None).
  { intros k Hk. unfold qpigs_base. rewrite (dget_filter_key qpigs_key), (Hno k Hk). now destruct (qpigs_key k). }
  assert (Hcur : dget "battery_current" (qpigs_base raw) = dget "battery_current" raw)
    by (unfold qpigs_base; now rewrite (dget_filter_key qpigs_key)).
  assert (Hfn : field_num (qpigs_base raw) "battery_current" = field_num raw "battery_current")
    by (unfold field_num; now rewrite Hcur).
  unfold q, qpigs_bucket. set (q1 := if dmem "battery_current" (qpigs_base raw) then _ else _).
  assert (Hq1 : dget "device_status_bits_b7_b0" q1 = None /\ dget "device_status_bits_b10_b8" q1 = None
     /\ dget "battery_current" q1 = dget "battery_current" raw
     /\ (dmem "battery_current" raw = true ->
         dget "battery_charging_current" q1 = Some (VStr (charge_text raw))
         /\ dget "battery_discharge_current" q1 = Some (VStr (discharge_text raw)))).
  { unfold q1, dmem. rewrite Hcur. unfold charge_text, discharge_text. rewrite Hfn.
    destruct (dget "battery_current" raw) eqn:Er; rewrite ?dget_dsetdefault, !Hbase, ?Hcur by (simpl; tauto); cbn;
      rewrite ?(Hbase "battery_charging_current"), ?(Hbase "battery_discharge_current") by (simpl; tauto);
      repeat split; congruence. }
  clearbody q1. destruct Hq1 as (E7 & E10 & Ec & Hs).
  assert (Hf : b10_b8_flags (dsetdefault "device_status_bits_b7_b0"
      (VStr (let '(fault, line_fail, overload, inverter_on) := b7_b0_flags raw in
        join "" [bit fault; "0"; "0"; bit line_fail; "0"; "0"; bit overload; bit inverter_on])) q1) raw
      = b10_b8_flags raw raw).
  { unfold b10_b8_flags, field_num. rewrite dget_dsetdefault, Ec. cbn. now destruct (dget "battery_current" raw). }
  destruct (b7_b0_flags raw) as [[[fa lf] ov] on]. rewrite Hf. destruct (b10_b8_flags raw raw) as [[a b] c].
  split.
  - do 2 eexists. rewrite !dget_dsetdefault, E7, E10. cbn. auto.
  - intros Hm. rewrite !dget_dsetdefault. destruct (Hs Hm) as [-> ->]. auto.
Qed.

(** For a snapshot of string readings without status bits and
    split currents, the synthesised status bits decode, through the parsers the
    binary sensors use, to exactly the documented conditions on mode, grid
    voltage, load, battery current and PV power; the signed current is split
    into its two magnitudes, one of which is always 0.00. *)
Theorem agent_derived_fields (raw : pydict) (Hs : strings_only raw)
    (Hno : forall k, In k (current_keys ++ bit_keys) -> dget k raw = None) :
  exists q s7 s10, split_raw_by_command raw "QPIGS" = Ok q
  /\ dget "device_status_bits_b7_b0" q = Some (VStr s7)
  /\ dget "device_status_bits_b10_b8" q = Some (VStr s10)
  /\ rmap (fun d => map (fun k => vget k d) ["fault"; "line_fail"; "inverter_overload"; "inverter_on"; "battery_low"])
       (parse_device_status_bits_b7_b0 s7)
     = Ok [VBool (String.eqb (mode_of raw) "fault");
           VBool (flt (field_num raw "grid_voltage") (flit 50 1));
           VBool (fgt (field_num raw "load_percent") (flit 100 1));
           VBool (existsb (String.eqb (mode_of raw)) ["mains"; "offgrid"; "battery"; "line"; "bypass"]);
           VBool false]
  /\ rmap (fun d => map (fun k => vget k d) ["charging_to_battery"; "charging_ac_active"; "charging_scc_active"])
       (parse_device_status_bits_b10_b8 s10)
     = Ok [VBool (fgt (field_num raw "battery_current") (flit 1 10));
           VBool (fgt (field_num raw "battery_current") (flit 1 10)
                  && fgt (field_num raw "grid_voltage") (flit 50 1));
           VBool (fgt (pv_power_of raw) (flit 5 1))]
  /\ (forall x, dget "battery_current" raw = Some (VStr x) ->
        dget "battery_charging_current" q = Some (VStr (fmt_f 2 (fmax f0 (num_or_zero x))))
        /\ dget "battery_discharge_current" q = Some (VStr (fmt_f 2 (fmax f0 (fneg (num_or_zero x)))))
        /\ (dget "battery_charging_current" q = Some (VStr "0.00")
            \/ dget "battery_discharge_current" q = Some (VStr "0.00"))).
Proof.
  destruct (bucket_derived raw Hs Hno) as [(s7 & s10 & H7 & H10 & E7 & E10) Hc].
  exists (qpigs_bucket raw), s7, s10. split; [now apply agent_qpigs_str|].
  split; [exact H7|]. split; [exact H10|].
  unfold b7_b0_flags in E7. unfold b10_b8_flags in E10. subst s7 s10.
  split; [|split].
  - rewrite (proj1 (synth_bits_parsed _ _ _ _ false false false)). reflexivity.
  - rewrite (proj2 (synth_bits_parsed false false false false _ _ _)). reflexivity.
  - intros x Hx. destruct Hc as [-> ->]; [unfold dmem; now rewrite Hx|].
    unfold charge_text, discharge_text, field_num. rewrite Hx.
    split; [reflexivity|]. split; [reflexivity|].
    destruct (one_direction (num_or_zero x)) as [->| ->]; [left|right]; vm_compute; reflexivity.
Qed.

Definition demo_snapshot : pydict :=
  [("operating_mode", VStr "Mains"); ("battery_current", VStr "-12.5"); ("grid_voltage", VStr "231.0");
   ("battery_type", VStr "USER"); ("load_percent", VStr "17")].

Lemma demo_snapshot_ok : strings_only demo_snapshot /\ flat demo_snapshot.
Proof. split; repeat constructor; eexists; reflexivity. Qed.

Lemma agent_snapshot_routing_witness :
  exists q, split_raw_by_command demo_snapshot "QPIGS" = Ok q
  /\ dget "grid_voltage" q = Some (VStr "231.0") /\ dget "battery_type" q = None.
Proof.
  destruct (agent_snapshot_routing demo_snapshot (proj1 demo_snapshot_ok) (proj2 demo_snapshot_ok))
    as (q & E & _ & H).
  exists q. split; [exact E|]. split.
  - exact (proj1 (H "grid_voltage" _ eq_refl)).
  - exact (proj1 (H "battery_type" _ eq_refl)).
Defined.

Lemma agent_derived_fields_witness :
  exists q, split_raw_by_command demo_snapshot "QPIGS" = Ok q
  /\ dget "battery_discharge_current" q = Some (VStr "12.50").
Proof.
  destruct (agent_derived_fields demo_snapshot (proj1 demo_snapshot_ok)) as (q & _ & _ & E & _ & _ & _ & _ & H).
  - intros k Hk. simpl in Hk. destruct Hk as [<-|[<-|[<-|[<-|[]]]]]; reflexivity.
  - exists q. split; [exact E|]. destruct (H "-12.5" eq_refl) as (_ & -> & _). vm_compute. reflexivity.
Defined.

(** A snapshot with one [qpiri.] key hides the unprefixed rated fields. *)
Example qpiri_prefix_hides_flat :
  agent_qpiri [("qpiri.battery_type", VStr "USER"); ("bulk_charging_voltage", VStr "56.4")]
  = [("battery_type", VStr "USER")].
Proof. reflexivity. Qed.
