(* ===== verification/Discovery.v ===== *)
(** Dongle discovery: [api/protocols/eybond_discovery.py], and the poll targets
    built from it, [coordinators/eybond_children.py].

    The clock of the registry is an argument ([now]); timestamps are texts. *)

From Stdlib Require Import ZArith List Bool Lia String Ascii.
From S2P Require Import Prelude PyStr PyInt PyFloat PyDict Coordinator.
Import ListNotations.
#[local] Open Scope string_scope.
#[local] Open Scope list_scope.
#[local] Open Scope Z_scope.

(** ** Records *)

Inductive DongleStatus := CONNECTED | DISCONNECTED.

Definition status_value (s : DongleStatus) : string :=
  match s with CONNECTED => "connected" | DISCONNECTED => "disconnected" end.

Record DongleRecord := {
  pn : string;
  name : string;
  enabled : bool;
  protocol : option string;
  devaddr : Z;
  status : DongleStatus;
  peer : string;
  first_seen : string;
  last_seen : string;
  model_hint : string;
  legacy_id : string
}.

(** [DongleRecord(pn=pn)] *)
Definition new_record (p : string) : DongleRecord := {|
  pn := p; name := ""; enabled := false; protocol := None; devaddr := 1; status := DISCONNECTED;
  peer := ""; first_seen := ""; last_seen := ""; model_hint := ""; legacy_id := "" |}.

Definition with_live (r : DongleRecord) (s : DongleStatus) (peer' last : string) : DongleRecord := {|
  pn := pn r; name := name r; enabled := enabled r; protocol := protocol r; devaddr := devaddr r;
  status := s; peer := peer'; first_seen := first_seen r; last_seen := last;
  model_hint := model_hint r; legacy_id := legacy_id r |}.

Definition with_config (r : DongleRecord) (name' : string) (en : bool) (proto : option string) (addr : Z)
    : DongleRecord := {|
  pn := pn r; name := name'; enabled := en; protocol := proto; devaddr := addr; status := status r;
  peer := peer r; first_seen := first_seen r; last_seen := last_seen r;
  model_hint := model_hint r; legacy_id := legacy_id r |}.

Definition opt_str (o : option string) : pyval := match o with Some s => VStr s | None => VNone end.

(** [DongleRecord.to_dict] *)
Definition record_to_dict (r : DongleRecord) : pydict := [
  ("pn", VStr (pn r)); ("name", VStr (name r)); ("enabled", VBool (enabled r));
  ("protocol", opt_str (protocol r)); ("devaddr", VInt (devaddr r));
  ("status", VStr (status_value (status r))); ("peer", VStr (peer r));
  ("first_seen", VStr (first_seen r)); ("last_seen", VStr (last_seen r));
  ("model_hint", VStr (model_hint r)); ("legacy_id", VStr (legacy_id r))].

(** [d.get(k) or ""] of a text field; [None] for a value the flows never store. *)
Definition text_or_empty (k : string) (d : pydict) : option string :=
  match dget k d with
  | Some (VStr s) => Some s
  | None | Some VNone => Some ""
  | Some _ => None
  end.

(** [int(d.get(k, default))] *)
Definition int_option (k : string) (default : Z) (d : pydict) : option Z :=
  match dget k d with
  | None => Some default
  | Some v => match int_of_val v with Ok z => Some z | Raise _ => None end
  end.

(** A field of a stored record, with its default; [None] for a value of a type
    the registry never stores. *)
Definition str_field (k d : string) (data : pydict) : option string :=
  match dget k data with Some (VStr s) => Some s | None => Some d | _ => None end.
Definition bool_field (k : string) (d : bool) (data : pydict) : option bool :=
  match dget k data with Some (VBool b) => Some b | None => Some d | _ => None end.
Definition int_field (k : string) (d : Z) (data : pydict) : option Z :=
  match dget k data with Some (VInt z) => Some z | None => Some d | _ => None end.
Definition protocol_field (data : pydict) : option (option string) :=
  match dget "protocol" data with
  | Some (VStr s) => Some (Some s)
  | Some VNone | None => Some None
  | _ => None
  end.

(** [DongleStatus(data.get("status"))], else disconnected. *)
Definition status_field (data : pydict) : DongleStatus :=
  match dget "status" data with
  | Some (VStr s) => if String.eqb s "connected" then CONNECTED else DISCONNECTED
  | _ => DISCONNECTED
  end.

Definition obind {A B} (o : option A) (f : A -> option B) : option B :=
  match o with Some a => f a | None => None end.

(** [DongleRecord.from_dict]; [None] also for a record without its PN, where the
    constructor raises. *)
Definition record_from_dict (data : pydict) : option DongleRecord :=
  match dget "pn" data with
  | Some (VStr p) =>
      obind (str_field "name" "" data) (fun name =>
      obind (bool_field "enabled" false data) (fun enabled =>
      obind (protocol_field data) (fun protocol =>
      obind (int_field "devaddr" 1 data) (fun devaddr =>
      obind (str_field "peer" "" data) (fun peer =>
      obind (str_field "first_seen" "" data) (fun first_seen =>
      obind (str_field "last_seen" "" data) (fun last_seen =>
      obind (str_field "model_hint" "" data) (fun model_hint =>
      obind (str_field "legacy_id" "" data) (fun legacy_id =>
      Some {| pn := p; name := name; enabled := enabled; protocol := protocol; devaddr := devaddr;
              status := status_field data; peer := peer; first_seen := first_seen;
              last_seen := last_seen; model_hint := model_hint; legacy_id := legacy_id |})))))))))
  | _ => None
  end.

(** ** The registry *)

Definition dongles := dict DongleRecord.

Definition record_seen (now p peer' : string) (st : DongleStatus) (reg : dongles) : dongles :=
  match dget p reg with
  | None =>
      let r := new_record p in
      dset p {| pn := p; name := name r; enabled := enabled r; protocol := protocol r;
                devaddr := devaddr r; status := st; peer := peer'; first_seen := now;
                last_seen := now; model_hint := model_hint r; legacy_id := legacy_id r |} reg
  | Some r => dset p (with_live r st (if String.eqb peer' "" then peer r else peer') now) reg
  end.

Definition mark_disconnected (now p : string) (reg : dongles) : dongles :=
  match dget p reg with
  | None => reg
  | Some r => dset p (with_live r DISCONNECTED (peer r) now) reg
  end.

Definition reset_connection_state (reg : dongles) : dongles :=
  map (fun kv => (fst kv, with_live (snd kv) DISCONNECTED "" (last_seen (snd kv)))) reg.

Definition ensure_record (p : string) (reg : dongles) : DongleRecord :=
  match dget p reg with Some r => r | None => new_record p end.

Definition set_enabled (p : string) (b : bool) (reg : dongles) : dongles :=
  let r := ensure_record p reg in dset p (with_config r (name r) b (protocol r) (devaddr r)) reg.
Definition set_protocol (p : string) (proto : option string) (reg : dongles) : dongles :=
  let r := ensure_record p reg in dset p (with_config r (name r) (enabled r) proto (devaddr r)) reg.
Definition set_devaddr (p : string) (a : Z) (reg : dongles) : dongles :=
  let r := ensure_record p reg in dset p (with_config r (name r) (enabled r) (protocol r) a) reg.
Definition set_name (p n : string) (reg : dongles) : dongles :=
  let r := ensure_record p reg in dset p (with_config r n (enabled r) (protocol r) (devaddr r)) reg.
Definition remove_record (p : string) (reg : dongles) : dongles := dpop p reg.
Definition put_record (r : DongleRecord) (reg : dongles) : dongles := dset (pn r) r reg.

Definition all_records (reg : dongles) : list DongleRecord := dvalues reg.
Definition enabled_pns (reg : dongles) : list string := map pn (filter enabled (all_records reg)).
Definition is_connected (r : DongleRecord) : bool :=
  match status r with CONNECTED => true | DISCONNECTED => false end.
Definition connected_pns (reg : dongles) : list string := map pn (filter is_connected (all_records reg)).

Definition registry_to_dict (reg : dongles) : dict pydict :=
  map (fun kv => (fst kv, record_to_dict (snd kv))) reg.

(** [EybondRegistry.load] on a mapping ([None] reads as empty). *)
Definition load_registry (data : option (dict pydict)) : option dongles :=
  fold_right (fun kv acc =>
      obind acc (fun reg => obind (record_from_dict (snd kv)) (fun r => Some ((fst kv, r) :: reg))))
    (Some []) (match data with Some d => d | None => [] end).

(** ** Child targets *)

Definition DEFAULT_EYBOND_BROADCAST : string := "255.255.255.255".
Definition SUPPORTED_CHILD_PROTOCOLS : list string := ["voltronic"; "pi18"; "modbus"].
Definition CHILD_SCHEME : dict string :=
  [("pi18", "eybond-pi18"); ("modbus", "eybond-modbus"); ("voltronic", "eybond")].

Definition child_id (r : DongleRecord) : string :=
  ("eybond:" ++ pn r ++ ":" ++ str_of_int (devaddr r))%string.

Definition child_scheme (r : DongleRecord) : string :=
  match protocol r with
  | Some p => match dget p CHILD_SCHEME with Some s => s | None => "eybond" end
  | None => "eybond"
  end.

Definition build_child_uri (r : DongleRecord) (bind_host : string) (bind_port : Z)
    (broadcast : string) (announce_ip : option string) : string :=
  let uri := (child_scheme r ++ "://" ++ bind_host ++ ":" ++ str_of_int bind_port ++ "/"
              ++ str_of_int (devaddr r))%string in
  let params := ["pn=" ++ pn r]%string
    ++ (if negb (String.eqb broadcast "") && negb (String.eqb broadcast DEFAULT_EYBOND_BROADCAST)
        then ["broadcast=" ++ broadcast]%string else [])
    ++ (match announce_ip with
        | None | Some EmptyString => []
        | Some a => ["announce=" ++ a]%string
        end) in
  (uri ++ "?" ++ join "&" params)%string.

Definition child_target (r : DongleRecord) (bind_host : string) (bind_port : Z)
    (broadcast : string) (announce_ip : option string) : DeviceTarget := {|
  t_id := if String.eqb (legacy_id r) "" then child_id r else legacy_id r;
  t_uri := build_child_uri r bind_host bind_port broadcast announce_ip;
  t_protocol := match protocol r with Some p => p | None => "" end;
  t_name := if String.eqb (name r) "" then pn r else name r |}.

Definition is_pollable (r : DongleRecord) : bool :=
  enabled r && match protocol r with
               | Some p => existsb (String.eqb p) SUPPORTED_CHILD_PROTOCOLS
               | None => false
               end.

Definition build_child_targets (reg : dongles) (bind_host : string) (bind_port : Z)
    (broadcast : string) (announce_ip : option string) : list DeviceTarget :=
  map (fun r => child_target r bind_host bind_port broadcast announce_ip)
    (filter is_pollable (all_records reg)).

(** ** Lemmas *)

(** Every record is stored under its own PN, once. *)
Definition registry_ok (reg : dongles) : Prop :=
  dict_ok reg /\ forall p r, dget p reg = Some r -> pn r = p.

Lemma registry_ok_dset p r reg : registry_ok reg -> pn r = p -> registry_ok (dset p r reg).
Proof.
  intros [H1 H2] Hp. split; [now apply dset_ok|]. intros q r'.
  destruct (String.eqb_spec q p) as [->|Hne].
  - rewrite dget_dset_eq. intros H. injection H as <-. exact Hp.
  - rewrite dget_dset_ne by exact Hne. apply H2.
Qed.

Lemma record_from_to r : record_from_dict (record_to_dict r) = Some r.
Proof. destruct r as [? ? ? [?|] ? [] ? ? ? ? ?]; reflexivity. Qed.

(** The configuration of a record, what its owner chose. *)
Definition config_of (r : DongleRecord) : string * bool * option string * Z * string :=
  (name r, enabled r, protocol r, devaddr r, legacy_id r).

(** Events of a dongle, as the manager reports them. *)
Inductive life_event := Seen (now p peer' : string) | Lost (now p : string).

Definition live (reg : dongles) (e : life_event) : dongles :=
  match e with
  | Seen now p peer' => record_seen now p peer' CONNECTED reg
  | Lost now p => mark_disconnected now p reg
  end.

Definition event_pn (e : life_event) : string :=
  match e with Seen _ p _ => p | Lost _ p => p end.

Lemma live_ok reg e : registry_ok reg -> registry_ok (live reg e).
Proof.
  intros H. destruct e as [now p peer'|now p]; simpl; unfold record_seen, mark_disconnected;
    destruct (dget p reg) as [r|] eqn:E; try exact H; apply registry_ok_dset; try exact H; simpl;
    auto; now apply H.
Qed.

Lemma live_get reg e p :
  dget p (live reg e) =
  if String.eqb p (event_pn e) then
    match e, dget p reg with
    | Seen now _ peer', Some r => Some (with_live r CONNECTED (if String.eqb peer' "" then peer r else peer') now)
    | Seen now _ peer', None =>
        Some {| pn := p; name := ""; enabled := false; protocol := None; devaddr := 1; status := CONNECTED;
                peer := peer'; first_seen := now; last_seen := now; model_hint := ""; legacy_id := "" |}
    | Lost now _, Some r => Some (with_live r DISCONNECTED (peer r) now)
    | Lost _ _, None => None
    end
  else dget p reg.
Proof.
  destruct e as [now q peer'|now q]; simpl; unfold record_seen, mark_disconnected;
    destruct (String.eqb_spec p q) as [->|Hne];
    destruct (dget q reg) as [r|] eqn:E; rewrite ?dget_dset_eq, ?dget_dset_ne by exact Hne; auto.
Qed.

(** The last event about a dongle decides its status. *)
Fixpoint last_status (p : string) (es : list life_event) (d : option DongleStatus) : option DongleStatus :=
  match es with
  | [] => d
  | e :: es =>
      last_status p es (if String.eqb p (event_pn e)
        then match e, d with
             | Seen _ _ _, _ => Some CONNECTED
             | Lost _ _, Some _ => Some DISCONNECTED
             | Lost _ _, None => None
             end
        else d)
  end.

Lemma life_history es : forall reg p,
  option_map status (dget p (fold_left live es reg)) = last_status p es (option_map status (dget p reg))
  /\ (forall r, dget p reg = Some r ->
        exists r', dget p (fold_left live es reg) = Some r'
        /\ config_of r' = config_of r /\ first_seen r' = first_seen r /\ pn r' = pn r).
Proof.
  induction es as [|e es IH]; intros reg p; [simpl; split; [reflexivity|]; intros r ->; now exists r|].
  cbn [fold_left last_status]. destruct (IH (live reg e) p) as [H1 H2]. split.
  - rewrite H1. f_equal. rewrite live_get. destruct (String.eqb p (event_pn e)); [|reflexivity].
    destruct e, (dget p reg); reflexivity.
  - intros r Hr. rewrite live_get, Hr in H2.
    destruct (String.eqb p (event_pn e)), e; destruct (H2 _ eq_refl) as (r' & ? & ? & ? & ?); now exists r'.
Qed.

Lemma registry_load_to reg : load_registry (Some (registry_to_dict reg)) = Some reg.
Proof.
  unfold load_registry, registry_to_dict. induction reg as [|[p r] reg IH]; [reflexivity|].
  cbn [map fold_right]. rewrite IH. cbn [obind fst snd]. now rewrite record_from_to.
Qed.

(** ** Properties *)

(** C37: connections and losses never touch what the user
    configured nor the first-seen time; a dongle's status is decided by the
    last event about it; records stay under their own PN; and a registry
    written to the config entry loads back as it was. *)
Theorem registry_lifecycle (reg : dongles) (es : list life_event) (Hok : registry_ok reg) :
  registry_ok (fold_left live es reg)
  /\ (forall p, option_map status (dget p (fold_left live es reg))
                = last_status p es (option_map status (dget p reg)))
  /\ (forall p r, dget p reg = Some r ->
        exists r', dget p (fold_left live es reg) = Some r'
        /\ config_of r' = config_of r /\ first_seen r' = first_seen r)
  /\ load_registry (Some (registry_to_dict (fold_left live es reg))) = Some (fold_left live es reg).
Proof.
  split; [|split; [|split]].
  - revert reg Hok. induction es as [|e es IH]; intros reg Hok; [exact Hok|]. apply IH. now apply live_ok.
  - intros p. apply life_history.
  - intros p r Hr. destruct (proj2 (life_history es reg p) r Hr) as (r' & ? & ? & ? & _). now exists r'.
  - apply registry_load_to.
Qed.

Lemma registry_lifecycle_witness :
  option_map (fun r => (status r, enabled r))
    (dget "Q1" (fold_left live [Seen "t1" "Q1" "10.0.0.9:1"; Lost "t2" "Q1"] (set_enabled "Q1" true []))) 
  = Some (DISCONNECTED, true).
Proof.
  assert (registry_ok (set_enabled "Q1" true [])) as H
    by (apply registry_ok_dset; [split; [constructor|intros p r; discriminate]|reflexivity]).
  destruct (registry_lifecycle _ [Seen "t1" "Q1" "10.0.0.9:1"; Lost "t2" "Q1"] H) as (_ & Hs & Hc & _).
  specialize (Hs "Q1"). destruct (Hc "Q1" _ eq_refl) as (r' & E & Hcfg & _). rewrite E in *.
  cbn in Hs, Hcfg. injection Hs as Hs. injection Hcfg as _ He _ _ _. cbn [option_map]. now rewrite Hs, He.
Defined.

(** A fresh dongle is never polled before the user enables it and picks a protocol. *)
Example fresh_dongle_not_polled :
  build_child_targets (record_seen "t" "Q1" "1.2.3.4:5" CONNECTED []) "0.0.0.0" 8899 "" None = [].
Proof. reflexivity. Qed.
