(* ===== verification/EybondFrame.v ===== *)
(** The dongle wire format and the device URIs of
    [api/protocols/eybond_dongle.py]: header, heartbeat, forwarding frame,
    stream reading, and the URI of a hub child.

    Datagrams, sockets and the lookup of the local network are outside the
    model; the session logic is in [EybondManager.v]. *)

From Stdlib Require Import ZArith List Bool Lia String Ascii.
From S2P Require Import Prelude PyStr PyInt PyFloat PyDict Uri Discovery.
Import ListNotations.
#[local] Open Scope string_scope.
#[local] Open Scope list_scope.
#[local] Open Scope Z_scope.

Definition HEADER_SIZE : Z := 8.
Definition WIRE_LEN_OFFSET : Z := 6.
Definition FC_HEARTBEAT : Z := 1.
Definition FC_FORWARD2DEVICE : Z := 4.
Definition DEFAULT_DEVCODE : Z := 0x0994.

(** ** Header *)

Record EyHeader := { h_tid : Z; h_devcode : Z; h_wire_len : Z; h_devaddr : Z; h_fcode : Z }.

Definition total_len (h : EyHeader) : Z := h_wire_len h + WIRE_LEN_OFFSET.
Definition payload_len (h : EyHeader) : Z := total_len h - HEADER_SIZE.

(** [struct.pack]: [H] and [B], big endian. *)
Definition pack_H (v : Z) : res bytes :=
  if (0 <=? v) && (v <=? 0xFFFF) then Ok [Z.shiftr v 8; Z.land v 255]
  else Raise (StructError "'H' format requires 0 <= number <= 65535").
Definition pack_B (v : Z) : res bytes :=
  if (0 <=? v) && (v <=? 255) then Ok [v]
  else Raise (StructError "ubyte format requires 0 <= number <= 255").
Definition unpack_H (hi lo : Z) : Z := Z.lor (Z.shiftl hi 8) lo.

Definition encode_header (tid devcode total devaddr fcode : Z) : res bytes :=
  (let! a := pack_H tid in
   let! b := pack_H devcode in
   let! c := pack_H (total - WIRE_LEN_OFFSET) in
   let! d := pack_B devaddr in
   let! e := pack_B fcode in
   Ok (a ++ b ++ c ++ d ++ e))%py.

(** The first eight bytes; fewer are a [struct.error]. *)
Definition decode_header (data : bytes) : res EyHeader :=
  match data with
  | t1 :: t0 :: c1 :: c0 :: w1 :: w0 :: addr :: fc :: _ =>
      Ok {| h_tid := unpack_H t1 t0; h_devcode := unpack_H c1 c0; h_wire_len := unpack_H w1 w0;
            h_devaddr := addr; h_fcode := fc |}
  | _ => Raise (StructError "unpack requires a buffer of 8 bytes")
  end.

(** A UTC date: year, month, day, hour, minute, second. *)
Record utc := { year : Z; month : Z; day : Z; hour : Z; minute : Z; second : Z }.

Definition build_heartbeat (now : utc) (tid interval : Z) : res bytes :=
  (let! i := pack_H interval in
   let payload := [Z.land (year now - 2000) 255; month now; day now; hour now; minute now; second now] ++ i in
   let! h := encode_header tid 0 (HEADER_SIZE + Z.of_nat (List.length payload)) 1 FC_HEARTBEAT in
   Ok (h ++ payload))%py.

Definition build_forward2device (tid : Z) (payload : bytes) (devaddr devcode : Z) : res bytes :=
  (let! h := encode_header tid devcode (HEADER_SIZE + Z.of_nat (List.length payload)) devaddr FC_FORWARD2DEVICE in
   Ok (h ++ payload))%py.

(** ** Reading a session's stream: header, then the payload it announces *)

Definition read_frame (stream : bytes) : option (EyHeader * bytes * bytes) :=
  match decode_header stream with
  | Ok h =>
      let rest := skipn 8 stream in
      let n := Z.to_nat (payload_len h) in
      if (List.length rest <? n)%nat then None else Some (h, firstn n rest, skipn n rest)
  | Raise _ => None
  end.

(** All frames of a stream, up to the incomplete read that ends the session. *)
Fixpoint read_frames (fuel : nat) (stream : bytes) : list (EyHeader * bytes) :=
  match fuel with
  | O => []
  | S fuel =>
      match read_frame stream with
      | Some (h, payload, rest) => (h, payload) :: read_frames fuel rest
      | None => []
      end
  end.

(** The reader of [_handle_session]: the header it has and the bytes it has not read.
    It runs on while its [readexactly] of eight bytes, or of the payload the header
    announces, when that is longer than nothing, can be given. *)
Record reader := { rd_head : option EyHeader; rd_buf : bytes }.
Definition reader_init : reader := {| rd_head := None; rd_buf := [] |}.

Definition read_turn (r : reader) : option (list (EyHeader * bytes) * reader) :=
  match rd_head r with
  | None =>
      match decode_header (rd_buf r) with
      | Ok h => let rest := skipn 8 (rd_buf r) in
                if 0 <? payload_len h then Some ([], {| rd_head := Some h; rd_buf := rest |})
                else Some ([(h, [])], {| rd_head := None; rd_buf := rest |})
      | Raise _ => None
      end
  | Some h =>
      let n := Z.to_nat (payload_len h) in
      if (List.length (rd_buf r) <? n)%nat then None
      else Some ([(h, firstn n (rd_buf r))], {| rd_head := None; rd_buf := skipn n (rd_buf r) |})
  end.

Fixpoint read_on (fuel : nat) (r : reader) : list (EyHeader * bytes) * reader :=
  match fuel with
  | O => ([], r)
  | S fuel =>
      match read_turn r with
      | Some (fs, r) => let '(more, r) := read_on fuel r in (fs ++ more, r)
      | None => ([], r)
      end
  end.

(** At most two turns for each byte, and one for the header it has. *)
Definition reader_fuel (r : reader) : nat := 2 * List.length (rd_buf r) + 2.

(** A chunk arrives. *)
Definition feed (chunk : bytes) (r : reader) : list (EyHeader * bytes) * reader :=
  let r := {| rd_head := rd_head r; rd_buf := rd_buf r ++ chunk |} in read_on (reader_fuel r) r.

Fixpoint feed_all (chunks : list bytes) (r : reader) : list (EyHeader * bytes) * reader :=
  match chunks with
  | [] => ([], r)
  | chunk :: chunks =>
      let '(fs, r) := feed chunk r in
      let '(more, r) := feed_all chunks r in (fs ++ more, r)
  end.

(** The PN a heartbeat payload carries: at most 14 characters, NULs stripped,
    bytes above 127 shown as U+FFFD (here its UTF-8 bytes). *)
Definition replacement : bytes := [0xEF; 0xBF; 0xBD].
Definition decode_ascii_replace (b : bytes) : string :=
  str (map chr (flat_map (fun x => if x <? 128 then [x] else replacement) b)).
Definition heartbeat_pn (payload : bytes) : string :=
  strip_p (fun c => Ascii.eqb c (chr 0)) (decode_ascii_replace (firstn 14 payload)).

(** ** URIs *)

Definition DEFAULT_BIND_PORT : Z := 8899.

Record eybond_uri := {
  bind_host : string; bind_port : Z; uri_devaddr : Z; broadcast : string; announce_ip : option string }.

Definition nonempty (s : string) : option string := if String.eqb s "" then None else Some s.

Definition parse_eybond_uri (device : string) : res eybond_uri :=
  let parsed := urlparse device in
  let host := match u_hostname parsed with Some h => h | None => "0.0.0.0" end in
  (let! p := u_port parsed in
   let port := match p with Some 0 | None => DEFAULT_BIND_PORT | Some n => n end in
   let devaddr_str := lstrip_p (Ascii.eqb "/")
       (if String.eqb (u_path parsed) "" then "/1" else u_path parsed) in
   let! addr := (if String.eqb devaddr_str "" then Ok 1
                 else match py_int devaddr_str with
                      | Ok n => Ok n
                      | Raise e => if is_ValueError e then Ok 1 else Raise e
                      end) in
   Ok {| bind_host := host; bind_port := port; uri_devaddr := addr;
         broadcast := query_first "broadcast" DEFAULT_EYBOND_BROADCAST (u_query parsed);
         announce_ip := nonempty (strip (query_first "announce" "" (u_query parsed))) |})%py.

Definition parse_pn_from_uri (device : string) : option string :=
  nonempty (strip (query_first "pn" "" (u_query (urlparse device)))).

(** ** Lemmas: codecs *)

Definition word_ok (v : Z) : Prop := 0 <= v <= 0xFFFF.

Lemma pack_H_ok v : word_ok v -> pack_H v = Ok [Z.shiftr v 8; Z.land v 255].
Proof.
  intros H. unfold pack_H. destruct (Z.leb_spec 0 v), (Z.leb_spec v 0xFFFF); unfold word_ok in H; try lia.
  reflexivity.
Qed.

Lemma pack_B_ok v : byte_ok v -> pack_B v = Ok [v].
Proof.
  intros H. unfold pack_B. destruct (Z.leb_spec 0 v), (Z.leb_spec v 255); unfold byte_ok in H; try lia.
  reflexivity.
Qed.

Lemma pack_H_inv v b : pack_H v = Ok b -> word_ok v.
Proof.
  unfold pack_H, word_ok. destruct (Z.leb_spec 0 v), (Z.leb_spec v 0xFFFF); simpl; try discriminate. lia.
Qed.

Lemma unpack_pack v : unpack_H (Z.shiftr v 8) (Z.land v 255) = v.
Proof. apply hi_lo_split. Qed.

Lemma word_bytes_ok v : word_ok v -> bytes_ok [Z.shiftr v 8; Z.land v 255].
Proof.
  intros [H1 H2]. repeat constructor.
  - apply Z.shiftr_nonneg. exact H1.
  - rewrite Z.shiftr_div_pow2 by lia. apply Z.div_lt_upper_bound; lia.
  - apply Z.land_nonneg. now right.
  - change 255 with (Z.ones 8). rewrite Z.land_ones by lia. apply Z.mod_pos_bound. lia.
Qed.

Lemma encode_header_ok tid devcode total devaddr fcode :
  word_ok tid -> word_ok devcode -> word_ok (total - 6) -> byte_ok devaddr -> byte_ok fcode ->
  encode_header tid devcode total devaddr fcode
  = Ok [Z.shiftr tid 8; Z.land tid 255; Z.shiftr devcode 8; Z.land devcode 255;
        Z.shiftr (total - 6) 8; Z.land (total - 6) 255; devaddr; fcode].
Proof.
  intros H1 H2 H3 H4 H5. unfold encode_header, WIRE_LEN_OFFSET.
  rewrite (pack_H_ok _ H1), (pack_H_ok _ H2), (pack_H_ok _ H3), (pack_B_ok _ H4), (pack_B_ok _ H5). reflexivity.
Qed.

(** A forwarding request that the wire format can carry. *)
Record fwd := { f_tid : Z; f_devcode : Z; f_devaddr : Z; f_payload : bytes }.

Definition fwd_ok (m : fwd) : Prop :=
  word_ok (f_tid m) /\ word_ok (f_devcode m) /\ byte_ok (f_devaddr m)
  /\ Z.of_nat (List.length (f_payload m)) <= 65533.

Definition fwd_frame (m : fwd) : bytes :=
  let w := Z.of_nat (List.length (f_payload m)) + 2 in
  [Z.shiftr (f_tid m) 8; Z.land (f_tid m) 255; Z.shiftr (f_devcode m) 8; Z.land (f_devcode m) 255;
   Z.shiftr w 8; Z.land w 255; f_devaddr m; FC_FORWARD2DEVICE] ++ f_payload m.

Definition fwd_header (m : fwd) : EyHeader :=
  {| h_tid := f_tid m; h_devcode := f_devcode m; h_wire_len := Z.of_nat (List.length (f_payload m)) + 2;
     h_devaddr := f_devaddr m; h_fcode := FC_FORWARD2DEVICE |}.

Lemma build_forward_ok m : fwd_ok m ->
  build_forward2device (f_tid m) (f_payload m) (f_devaddr m) (f_devcode m) = Ok (fwd_frame m).
Proof.
  intros (H1 & H2 & H3 & H4). unfold build_forward2device, HEADER_SIZE.
  set (n := Z.of_nat (List.length (f_payload m))) in *.
  rewrite encode_header_ok; try assumption.
  - cbn [rbind]. unfold fwd_frame. fold n. replace (8 + n - 6) with (n + 2) by lia. reflexivity.
  - unfold word_ok. lia.
  - unfold byte_ok, FC_FORWARD2DEVICE. lia.
Qed.

Lemma build_forward_inv tid payload addr code frame :
  build_forward2device tid payload addr code = Ok frame ->
  fwd_ok {| f_tid := tid; f_devcode := code; f_devaddr := addr; f_payload := payload |}.
Proof.
  unfold build_forward2device, encode_header, HEADER_SIZE, WIRE_LEN_OFFSET. intros H.
  apply rbind_ok_inv in H as (hd & H & _).
  apply rbind_ok_inv in H as (a & Ha & H). apply rbind_ok_inv in H as (b & Hb & H).
  apply rbind_ok_inv in H as (c & Hc & H). apply rbind_ok_inv in H as (d & Hd & _).
  apply pack_H_inv in Ha, Hb, Hc. unfold word_ok in Hc.
  unfold fwd_ok. cbn [f_tid f_devcode f_devaddr f_payload]. do 2 (split; [assumption|]).
  split; [|lia]. unfold pack_B in Hd. unfold byte_ok.
  destruct (Z.leb_spec 0 addr), (Z.leb_spec addr 255); try discriminate. lia.
Qed.

Lemma read_fwd_frame m rest : fwd_ok m ->
  read_frame (fwd_frame m ++ rest) = Some (fwd_header m, f_payload m, rest).
Proof.
  intros (H1 & H2 & H3 & H4). unfold read_frame, fwd_frame. cbn [app].
  unfold decode_header. rewrite !unpack_pack. cbn [skipn].
  change (let h := fwd_header m in
    let n := Z.to_nat (payload_len h) in
    (if (List.length (f_payload m ++ rest) <? n)%nat then None
     else Some (h, firstn n (f_payload m ++ rest), skipn n (f_payload m ++ rest)))
    = Some (h, f_payload m, rest)). cbv zeta.
  assert (Z.to_nat (payload_len (fwd_header m)) = List.length (f_payload m)) as ->.
  { unfold payload_len, total_len, fwd_header, WIRE_LEN_OFFSET, HEADER_SIZE. cbn [h_wire_len]. lia. }
  rewrite length_app. destruct (Nat.ltb_spec (List.length (f_payload m) + List.length rest) (List.length (f_payload m)));
    [lia|].
  now rewrite firstn_app, firstn_all, Nat.sub_diag, firstn_O, app_nil_r, skipn_app, skipn_all, Nat.sub_diag.
Qed.

Lemma read_fwd_frames ms : forall fuel tail, Forall fwd_ok ms -> read_frame tail = None ->
  (List.length ms < fuel)%nat ->
  read_frames fuel (List.concat (map fwd_frame ms) ++ tail) = map (fun m => (fwd_header m, f_payload m)) ms.
Proof.
  induction ms as [|m ms IH]; intros [|fuel] tail Hok Ht Hf; cbn [List.length] in Hf; try lia.
  - cbn [map List.concat app read_frames]. now rewrite Ht.
  - inversion Hok; subst. cbn [map List.concat read_frames]. rewrite <- app_assoc, read_fwd_frame by assumption.
    f_equal. apply IH; [assumption|exact Ht|lia].
Qed.

(** A frame is at least a header, and its own bytes followed by the rest. *)
Lemma read_frame_split stream h payload rest : read_frame stream = Some (h, payload, rest) ->
  exists raw, stream = raw ++ rest /\ (8 <= List.length raw)%nat
  /\ forall more, read_frame (raw ++ more) = Some (h, payload, more).
Proof.
  unfold read_frame. destruct stream as [|b0 [|b1 [|b2 [|b3 [|b4 [|b5 [|b6 [|b7 l]]]]]]]]; try discriminate.
  cbn [decode_header skipn]. rewrite ?skipn_O. cbv zeta. set (h' := Build_EyHeader _ _ _ _ _). set (n := Z.to_nat (payload_len h')).
  destruct (Nat.ltb_spec (List.length l) n); [discriminate|]. intros [= <- <- <-].
  exists (b0 :: b1 :: b2 :: b3 :: b4 :: b5 :: b6 :: b7 :: firstn n l).
  split; [cbn [app]; now rewrite firstn_skipn|]. split; [cbn [List.length]; lia|].
  intros more. cbn [app decode_header skipn]. rewrite ?skipn_O. fold h'. cbv zeta. fold n. rewrite length_app, length_firstn.
  destruct (Nat.ltb_spec (Nat.min n (List.length l) + List.length more) n); [lia|].
  rewrite firstn_app, skipn_app, length_firstn, firstn_firstn, skipn_firstn_comm, Nat.min_id.
  replace (n - Nat.min n (List.length l))%nat with 0%nat by lia.
  now rewrite Nat.sub_diag, firstn_O, app_nil_r.
Qed.

(** ** Lemmas: the wire format, and the chunked reader *)

(** A frame of the wire, as arithmetic on its bytes: three 16-bit fields, high byte
    first, the third counting the payload and the two bytes before it, two bytes, and
    the payload. *)
Record wire_frame := { y_tid : Z; y_code : Z; y_wire : Z; y_addr : Z; y_fcode : Z; y_payload : bytes }.

Definition wire_frame_ok (f : wire_frame) : Prop :=
  0 <= y_tid f < 65536 /\ 0 <= y_code f < 65536 /\ 0 <= y_wire f < 65536 /\ 0 <= y_addr f < 256 /\ 0 <= y_fcode f < 256
  /\ bytes_ok (y_payload f) /\ Z.of_nat (List.length (y_payload f)) = Z.max 0 (y_wire f - 2).

Definition wire_bytes (f : wire_frame) : bytes :=
  [y_tid f / 256; y_tid f mod 256; y_code f / 256; y_code f mod 256; y_wire f / 256; y_wire f mod 256; y_addr f; y_fcode f]
  ++ y_payload f.

Definition wire_read (f : wire_frame) : EyHeader * bytes :=
  ({| h_tid := y_tid f; h_devcode := y_code f; h_wire_len := y_wire f; h_devaddr := y_addr f; h_fcode := y_fcode f |}, y_payload f).

(** Bytes that are not a frame yet. *)
Definition incomplete (tail : bytes) : Prop :=
  (List.length tail < 8)%nat
  \/ Z.of_nat (List.length tail) < 8 + (256 * nth 4 tail 0 + nth 5 tail 0 - 2).

Lemma unpack_arith hi lo : byte_ok lo -> unpack_H hi lo = 256 * hi + lo.
Proof. intros H. unfold unpack_H. rewrite lor_shiftl_add by (unfold byte_ok in H; lia). lia. Qed.

Lemma read_wire_frame f rest : wire_frame_ok f ->
  read_frame (wire_bytes f ++ rest) = Some (fst (wire_read f), y_payload f, rest).
Proof.
  intros (H1 & H2 & H3 & H4 & H5 & _ & H6). unfold read_frame, wire_bytes. cbn [app decode_header skipn]. rewrite ?skipn_O.
  assert (forall v, byte_ok (v mod 256)) as Hm by (intros v; unfold byte_ok; apply Z.mod_pos_bound; lia).
  rewrite !unpack_arith by apply Hm. rewrite <- !Z.div_mod by lia. cbv zeta. cbn [wire_read fst].
  set (h := Build_EyHeader _ _ _ _ _).
  assert (Z.to_nat (payload_len h) = List.length (y_payload f)) as ->
    by (unfold payload_len, total_len, WIRE_LEN_OFFSET, HEADER_SIZE, h; cbn [h_wire_len]; lia).
  rewrite length_app. destruct (Nat.ltb_spec (List.length (y_payload f) + List.length rest) (List.length (y_payload f))); [lia|].
  now rewrite firstn_app, firstn_all, Nat.sub_diag, firstn_O, app_nil_r, skipn_app, skipn_all, Nat.sub_diag.
Qed.

Lemma incomplete_read tail : bytes_ok tail -> incomplete tail <-> read_frame tail = None.
Proof.
  intros Hb. unfold incomplete, read_frame.
  destruct tail as [|b0 [|b1 [|b2 [|b3 [|b4 [|b5 [|b6 [|b7 l]]]]]]]]; try (cbn; split; [reflexivity|left; lia]).
  assert (byte_ok b5) as H5 by (apply (proj1 (Forall_forall byte_ok _) Hb); cbn; tauto).
  cbn [decode_header skipn]. rewrite ?skipn_O. cbv zeta. unfold payload_len, total_len, WIRE_LEN_OFFSET, HEADER_SIZE. cbn [h_wire_len].
  rewrite (unpack_arith b4 b5 H5). cbn [nth List.length]. set (w := 256 * b4 + b5).
  destruct (Nat.ltb_spec (List.length l) (Z.to_nat (w + 6 - 8))); split; try discriminate; try reflexivity; lia.
Qed.

Lemma pair_arith a b : byte_ok a -> byte_ok b ->
  0 <= 256 * a + b < 65536 /\ (256 * a + b) / 256 = a /\ (256 * a + b) mod 256 = b.
Proof.
  unfold byte_ok. intros Ha Hb. split; [lia|].
  split; [symmetry; apply (Z.div_unique_pos _ 256 a b)|symmetry; apply (Z.mod_unique_pos _ 256 a b)]; lia.
Qed.

(** Every byte stream is frames and an incomplete one. *)
Lemma stream_frames stream : bytes_ok stream ->
  exists frames tail, Forall wire_frame_ok frames /\ incomplete tail /\ stream = List.concat (map wire_bytes frames) ++ tail.
Proof.
  induction stream as [stream IH] using (induction_ltof1 _ (@List.length Z)). unfold ltof in IH. intros Hb.
  destruct (read_frame stream) as [x|] eqn:E; [|exists [], stream; split; [constructor|]; now split; [apply incomplete_read|]].
  assert (incomplete stream -> False) as Hn by (intros H; apply (incomplete_read stream Hb) in H; congruence). clear x E.
  destruct stream as [|b0 [|b1 [|b2 [|b3 [|b4 [|b5 [|b6 [|b7 l]]]]]]]]; try (exfalso; apply Hn; left; cbn; lia).
  assert (forall b, In b [b0; b1; b2; b3; b4; b5; b6; b7] -> byte_ok b) as Hby
    by (intros b Hin; apply (proj1 (Forall_forall byte_ok _) Hb); cbn in *; tauto).
  assert (bytes_ok l) as Hl by (do 8 apply Forall_inv_tail in Hb; exact Hb).
  assert (Z.of_nat (List.length l) >= 256 * b4 + b5 - 2) as Hlen
    by (destruct (Z_lt_ge_dec (Z.of_nat (List.length l)) (256 * b4 + b5 - 2)); [|assumption]; exfalso; apply Hn; right; cbn -[Z.mul]; lia).
  set (n := Z.to_nat (256 * b4 + b5 - 2)) in *.
  assert (bytes_ok (firstn n l) /\ bytes_ok (skipn n l)) as [Hf Hs]
    by (rewrite <- (firstn_skipn n l) in Hl; now apply Forall_app in Hl).
  destruct (IH (skipn n l)) as (frames & tail & Hfr & Ht & E); [cbn [List.length]; rewrite length_skipn; lia|exact Hs|].
  destruct (pair_arith b0 b1) as (R1 & D1 & M1); [apply Hby; cbn; tauto..|].
  destruct (pair_arith b2 b3) as (R2 & D2 & M2); [apply Hby; cbn; tauto..|].
  destruct (pair_arith b4 b5) as (R3 & D3 & M3); [apply Hby; cbn; tauto..|].
  exists ({| y_tid := 256 * b0 + b1; y_code := 256 * b2 + b3; y_wire := 256 * b4 + b5; y_addr := b6; y_fcode := b7;
             y_payload := firstn n l |} :: frames), tail.
  split; [constructor; [|exact Hfr]|split; [exact Ht|]].
  - unfold wire_frame_ok. cbn [y_tid y_code y_wire y_addr y_fcode y_payload].
    assert (byte_ok b6 /\ byte_ok b7) as [H6 H7] by (split; apply Hby; cbn; tauto). unfold byte_ok in H6, H7.
    repeat (split; [assumption|]). rewrite length_firstn. lia.
  - cbn [map List.concat]. unfold wire_bytes. cbn [y_tid y_code y_wire y_addr y_fcode y_payload].
    rewrite D1, M1, D2, M2, D3, M3. rewrite <- app_assoc. cbn [app]. do 8 f_equal.
    rewrite <- (firstn_skipn n l) at 1. now f_equal.
Qed.

Lemma read_frames_fuel f1 : forall f2 s, (List.length s < f1)%nat -> (List.length s < f2)%nat -> read_frames f1 s = read_frames f2 s.
Proof.
  induction f1 as [|f1 IH]; intros [|f2] s H1 H2; try lia. cbn [read_frames].
  destruct (read_frame s) as [[[h p] rest]|] eqn:E; [|reflexivity]. f_equal.
  apply read_frame_split in E as (raw & -> & Hl & _). rewrite length_app in *. apply IH; lia.
Qed.

Definition read_all (s : bytes) : list (EyHeader * bytes) := read_frames (S (List.length s)) s.

Lemma read_all_eq s : read_all s = match read_frame s with Some (h, p, rest) => (h, p) :: read_all rest | None => [] end.
Proof.
  unfold read_all at 1. cbn [read_frames]. destruct (read_frame s) as [[[h p] rest]|] eqn:E; [|reflexivity]. f_equal.
  apply read_frame_split in E as (raw & -> & Hl & _). rewrite length_app. apply read_frames_fuel; lia.
Qed.

Lemma read_all_wire frames tail : Forall wire_frame_ok frames -> read_frame tail = None ->
  read_all (List.concat (map wire_bytes frames) ++ tail) = map wire_read frames.
Proof.
  intros Hf Ht. induction Hf as [|f frames Hok _ IH]; cbn [map List.concat app]; rewrite read_all_eq; [now rewrite Ht|].
  rewrite <- app_assoc, (read_wire_frame f _ Hok). now rewrite IH.
Qed.

(** What a reader delivers when [more] arrives, and nothing else. *)
Definition coming (r : reader) (more : bytes) : list (EyHeader * bytes) :=
  let s := rd_buf r ++ more in
  match rd_head r with
  | None => read_all s
  | Some h => let n := Z.to_nat (payload_len h) in
              if (List.length s <? n)%nat then [] else (h, firstn n s) :: read_all (skipn n s)
  end.

Lemma turn_coming r fs r' more : read_turn r = Some (fs, r') -> coming r more = fs ++ coming r' more.
Proof.
  destruct r as [[h|] buf]; unfold read_turn, coming; cbn [rd_head rd_buf].
  - set (n := Z.to_nat (payload_len h)). destruct (Nat.ltb_spec (List.length buf) n); [discriminate|].
    intros [= <- <-]. cbn [rd_head rd_buf]. rewrite length_app. destruct (Nat.ltb_spec (List.length buf + List.length more) n); [lia|].
    rewrite firstn_app, skipn_app. replace (n - List.length buf)%nat with 0%nat by lia.
    now rewrite firstn_O, app_nil_r.
  - destruct buf as [|b0 [|b1 [|b2 [|b3 [|b4 [|b5 [|b6 [|b7 l]]]]]]]]; try discriminate.
    cbn [decode_header app]. rewrite read_all_eq. unfold read_frame. cbn [decode_header skipn]. rewrite ?skipn_O. cbv zeta.
    set (h := Build_EyHeader _ _ _ _ _). destruct (Z.ltb_spec 0 (payload_len h)); intros [= <- <-]; cbn [rd_head rd_buf app].
    + cbv zeta. now destruct (List.length (l ++ more) <? Z.to_nat (payload_len h))%nat.
    + replace (Z.to_nat (payload_len h)) with 0%nat by lia. cbn [Nat.ltb Nat.leb]. now rewrite firstn_O, skipn_O.
Qed.

Lemma turn_stuck r : read_turn r = None -> coming r [] = [].
Proof.
  destruct r as [[h|] buf]; unfold read_turn, coming; cbn [rd_head rd_buf]; rewrite app_nil_r.
  - now destruct (List.length buf <? Z.to_nat (payload_len h))%nat.
  - rewrite read_all_eq. unfold read_frame. destruct (decode_header buf) as [h|e]; [|reflexivity]. cbv zeta.
    now destruct (0 <? payload_len h).
Qed.

Definition turns_left (r : reader) : nat := 2 * List.length (rd_buf r) + match rd_head r with Some _ => 1 | None => 0 end.

Lemma turn_decreases r fs r' : read_turn r = Some (fs, r') -> (turns_left r' < turns_left r)%nat.
Proof.
  destruct r as [[h|] buf]; unfold read_turn, turns_left; cbn [rd_head rd_buf].
  - destruct (_ <? _)%nat; [discriminate|]. intros [= <- <-]. cbn [rd_head rd_buf]. rewrite length_skipn. lia.
  - destruct buf as [|b0 [|b1 [|b2 [|b3 [|b4 [|b5 [|b6 [|b7 l]]]]]]]]; try discriminate.
    cbn [decode_header skipn]. destruct (0 <? _); intros [= <- <-]; cbn [rd_head rd_buf List.length]; rewrite ?skipn_O; lia.
Qed.

Lemma read_on_coming more fuel : forall r, coming r more = fst (read_on fuel r) ++ coming (snd (read_on fuel r)) more.
Proof.
  induction fuel as [|fuel IH]; intros r; cbn [read_on]; [reflexivity|].
  destruct (read_turn r) as [[fs r1]|] eqn:E; [|reflexivity]. rewrite (turn_coming r fs r1 more E), (IH r1).
  destruct (read_on fuel r1) as [fs2 r2]. cbn [fst snd]. now rewrite app_assoc.
Qed.

Lemma read_on_stuck fuel : forall r, (turns_left r < fuel)%nat -> read_turn (snd (read_on fuel r)) = None.
Proof.
  induction fuel as [|fuel IH]; intros r Hf; [lia|]. cbn [read_on].
  destruct (read_turn r) as [[fs r1]|] eqn:E; [|exact E]. apply turn_decreases in E.
  specialize (IH r1 ltac:(lia)). now destruct (read_on fuel r1).
Qed.

Lemma feed_coming chunk r more : coming r (chunk ++ more) = fst (feed chunk r) ++ coming (snd (feed chunk r)) more.
Proof.
  unfold feed. set (r1 := {| rd_head := rd_head r; rd_buf := rd_buf r ++ chunk |}).
  rewrite <- read_on_coming. unfold coming, r1. cbn [rd_head rd_buf]. now rewrite app_assoc.
Qed.

Lemma feed_all_coming chunks : forall r, read_turn r = None -> coming r (List.concat chunks) = fst (feed_all chunks r).
Proof.
  induction chunks as [|chunk chunks IH]; intros r Hr; cbn [List.concat feed_all]; [now apply turn_stuck|].
  rewrite feed_coming. assert (read_turn (snd (feed chunk r)) = None) as Hn.
  { unfold feed. apply read_on_stuck. unfold turns_left, reader_fuel. cbn [rd_head rd_buf]. destruct (rd_head r); lia. }
  rewrite (IH _ Hn). destruct (feed chunk r) as [fs r1]. cbn [fst snd]. now destruct (feed_all chunks r1).
Qed.

(** ** Properties *)

(** C26: forwarding frames round-trip: a request is encoded exactly
    when its ids and length fit their fields, and a stream of encoded requests,
    cut anywhere inside a last frame, is read back as precisely those requests
    in order, each with its transaction id, address and payload. *)
Theorem forward_stream_roundtrip (ms : list fwd) (tail : bytes) (fuel : nat)
    (Hok : Forall fwd_ok ms) (Htail : read_frame tail = None) (Hfuel : (List.length ms < fuel)%nat) :
  (forall tid payload addr code,
     (exists frame, build_forward2device tid payload addr code = Ok frame) <->
     fwd_ok {| f_tid := tid; f_devcode := code; f_devaddr := addr; f_payload := payload |})
  /\ exists frames,
     rmapM (fun m => build_forward2device (f_tid m) (f_payload m) (f_devaddr m) (f_devcode m)) ms = Ok frames
     /\ read_frames fuel (List.concat frames ++ tail) = map (fun m => (fwd_header m, f_payload m)) ms.
Proof.
  split.
  - intros tid payload addr code. split.
    + intros [frame H]. now apply build_forward_inv in H.
    + intros H. exists (fwd_frame {| f_tid := tid; f_devcode := code; f_devaddr := addr; f_payload := payload |}).
      exact (build_forward_ok _ H).
  - exists (map fwd_frame ms). split; [|now apply read_fwd_frames].
    clear Hfuel. induction Hok as [|m ms Hm _ IH]; [reflexivity|].
    cbn [rmapM map]. rewrite (build_forward_ok m Hm). cbn [rbind]. now rewrite IH.
Qed.

(** C25: every byte stream is in one way only a sequence of wire frames, whose third
    16-bit field counts the payload and the two bytes before it, and an incomplete one;
    and in whatever chunks it arrives, the session's reader delivers exactly those
    frames, each with its ids, addresses and payload, and then waits: it neither loses
    nor misreads a byte, and it needs no more than two turns for each byte. *)
Theorem session_reads_frames (chunks : list bytes) (Hb : bytes_ok (List.concat chunks)) :
  exists frames tail,
    Forall wire_frame_ok frames /\ incomplete tail
    /\ List.concat chunks = List.concat (map wire_bytes frames) ++ tail
    /\ fst (feed_all chunks reader_init) = map wire_read frames
    /\ (forall frames' tail', Forall wire_frame_ok frames' -> incomplete tail' ->
          List.concat chunks = List.concat (map wire_bytes frames') ++ tail' -> frames' = frames /\ tail' = tail).
Proof.
  destruct (stream_frames _ Hb) as (frames & tail & Hf & Ht & E). exists frames, tail. do 3 (split; [assumption|]).
  assert (forall frames' tail', Forall wire_frame_ok frames' -> incomplete tail' ->
    List.concat chunks = List.concat (map wire_bytes frames') ++ tail' -> read_all (List.concat chunks) = map wire_read frames') as Hall.
  { intros frames' tail' Hf' Ht' E'. rewrite E' in Hb |- *. apply read_all_wire; [exact Hf'|].
    apply incomplete_read; [|exact Ht']. now apply Forall_app in Hb. }
  split.
  - rewrite <- (feed_all_coming chunks reader_init eq_refl). exact (Hall frames tail Hf Ht E).
  - intros frames' tail' Hf' Ht' E'. assert (frames' = frames) as ->.
    { pose proof (Hall frames' tail' Hf' Ht' E') as H. rewrite (Hall frames tail Hf Ht E) in H. symmetry in H. clear - H.
      revert frames H. induction frames' as [|[] frames' IH]; intros [|[] frames] H; try discriminate; [reflexivity|].
      cbn [map] in H. injection H as <- <- <- <- <- <- H. f_equal. now apply IH. }
    split; [reflexivity|]. rewrite E in E'. now apply app_inv_head in E'.
Qed.

Definition demo_fwd (t : Z) : fwd :=
  {| f_tid := t; f_devcode := DEFAULT_DEVCODE; f_devaddr := 1; f_payload := [0x51; 0x4D; 0x4F; 0x44] |}.

Lemma demo_fwd_ok t : word_ok t -> fwd_ok (demo_fwd t).
Proof. intros H. unfold fwd_ok, word_ok, byte_ok, demo_fwd, DEFAULT_DEVCODE in *. cbn. lia. Qed.

Lemma forward_stream_roundtrip_witness :
  exists frames, rmapM (fun m => build_forward2device (f_tid m) (f_payload m) (f_devaddr m) (f_devcode m))
      [demo_fwd 1; demo_fwd 0xFFFF] = Ok frames
  /\ map (fun hp => h_tid (fst hp)) (read_frames 3 (List.concat frames ++ [0; 1; 9])) = [1; 0xFFFF].
Proof.
  destruct (forward_stream_roundtrip [demo_fwd 1; demo_fwd 0xFFFF] [0; 1; 9] 3) as [_ (frames & E & H)].
  - do 2 (apply Forall_cons; [apply demo_fwd_ok; unfold word_ok; lia|]). apply Forall_nil.
  - reflexivity.
  - cbn. lia.
  - exists frames. split; [exact E|]. rewrite H. reflexivity.
Defined.

Example heartbeat_frame_1 :
  build_heartbeat {| year := 2025; month := 1; day := 2; hour := 3; minute := 4; second := 5 |} 7 60
  = Ok [0; 7; 0; 0; 0; 10; 1; 1; 25; 1; 2; 3; 4; 5; 0; 60].
Proof. reflexivity. Qed.

Example heartbeat_pn_1 : heartbeat_pn (b_ "Q0011223344" ++ [0; 0; 0; 9; 9])%list = "Q0011223344".
Proof. reflexivity. Qed.

(** A heartbeat and half a reply, in three chunks. *)
Definition demo_chunks : list bytes := [[0; 7; 0]; [0; 0; 4; 1; 1; 0x51]; [0x30; 0; 9; 9; 0x94; 0; 8; 1; 4; 0x28]].

Lemma session_reads_frames_witness :
  fst (feed_all demo_chunks reader_init)
  = [({| h_tid := 7; h_devcode := 0; h_wire_len := 4; h_devaddr := 1; h_fcode := FC_HEARTBEAT |}, [0x51; 0x30])].
Proof.
  destruct (session_reads_frames demo_chunks) as (frames & tail & _ & _ & _ & -> & Hu).
  { repeat constructor; unfold byte_ok; lia. }
  destruct (Hu [{| y_tid := 7; y_code := 0; y_wire := 4; y_addr := 1; y_fcode := 1; y_payload := [0x51; 0x30] |}]
    [0; 9; 9; 0x94; 0; 8; 1; 4; 0x28]) as [<- _].
  - constructor; [|constructor]. unfold wire_frame_ok. cbn. repeat split; try lia. repeat constructor; unfold byte_ok; lia.
  - right. cbn. lia.
  - reflexivity.
  - reflexivity.
Defined.
