(* ===== verification/ChildUri.v ===== *)
(** The URI of a hub child parses back to the parameters it was built from:
    [build_child_uri] of [coordinators/eybond_children.py] against
    [parse_eybond_uri] and [_parse_pn_from_uri] of
    [api/protocols/eybond_dongle.py]. *)

From Stdlib Require Import ZArith List Bool Lia String Ascii.
From S2P Require Import Prelude PyStr PyInt PyFloat PyDict Uri Discovery EybondFrame.
Import ListNotations.
#[local] Open Scope string_scope.
#[local] Open Scope list_scope.
#[local] Open Scope Z_scope.

(** Letters, digits, dots and hyphens: the characters of hosts, addresses and
    product numbers, none of which a URI gives a meaning to. *)
Definition safe_char (c : ascii) : bool :=
  is_alpha c || is_digit c || Ascii.eqb c "." || Ascii.eqb c "-".

Definition safe (s : string) : Prop := Forall (fun c => safe_char c = true) (chars s).

Lemma all_ascii (P : ascii -> bool) :
  forallb P (map chr (zrange 256)) = true -> forall c, P c = true.
Proof.
  intros H c. rewrite forallb_forall in H. apply H. apply in_map_iff. exists (ord c).
  split; [apply chr_ord|]. apply in_zrange, ord_bound.
Qed.

Definition reserved : list ascii := [":"; "/"; "?"; "#"; "@"; "%"; "&"; "="; "+"; " "]%char.

Lemma safe_not_reserved c x : safe_char c = true -> In x reserved -> Ascii.eqb x c = false.
Proof.
  intros Hc Hx. apply Ascii.eqb_neq. intros ->.
  assert (forallb (fun x => negb (safe_char x)) reserved = true) as H by reflexivity.
  rewrite forallb_forall in H. apply H in Hx. now rewrite Hc in Hx.
Qed.

Lemma safe_plain c : safe_char c = true ->
  is_space c = false /\ is_unsafe c = false /\ is_c0_or_space c = false /\ is_netloc_end c = false.
Proof.
  intros Hc. pose proof (all_ascii (fun c => negb (safe_char c) ||
    (negb (is_space c) && negb (is_unsafe c) && negb (is_c0_or_space c) && negb (is_netloc_end c)))
    eq_refl c) as H. cbv beta in H. rewrite Hc in H. cbn in H.
  rewrite !andb_true_iff, !negb_true_iff in H. tauto.
Qed.

Lemma safe_lower_scheme c : safe_char c = true -> is_scheme_char c = true.
Proof.
  intros Hc. pose proof (all_ascii (fun c => negb (safe_char c) || is_scheme_char c) eq_refl c) as H.
  cbv beta in H. now rewrite Hc in H.
Qed.

(** ** Partitioning *)

Lemma partition_at_app stop a b :
  Forall (fun c => stop c = false) a ->
  partition_at stop (a ++ b) = let '(x, y) := partition_at stop b in (a ++ x, y).
Proof.
  induction 1 as [|c a Hc _ IH]; cbn [app partition_at]; [now destruct (partition_at stop b)|].
  rewrite Hc, IH. now destruct (partition_at stop b).
Qed.

Lemma partition_at_stop stop a c b :
  Forall (fun c => stop c = false) a -> stop c = true -> partition_at stop (a ++ c :: b) = (a, c :: b).
Proof. intros Ha Hc. rewrite partition_at_app by exact Ha. cbn [partition_at]. rewrite Hc. now rewrite app_nil_r. Qed.

Lemma partition_at_none stop a : Forall (fun c => stop c = false) a -> partition_at stop a = (a, []).
Proof. intros Ha. rewrite <- (app_nil_r a) at 1. rewrite partition_at_app by exact Ha. cbn. now rewrite app_nil_r. Qed.

Lemma cut_at c s a b : chars s = a ++ c :: b -> Forall (fun d => Ascii.eqb c d = false) a ->
  cut c s = (str a, true, str b).
Proof. intros E Ha. unfold cut. rewrite E, partition_at_stop; [reflexivity|exact Ha|apply Ascii.eqb_refl]. Qed.

Lemma cut_none c s : Forall (fun d => Ascii.eqb c d = false) (chars s) -> cut c s = (s, false, "").
Proof. intros H. unfold cut. rewrite partition_at_none by exact H. now rewrite str_chars. Qed.

Lemma safe_without s x : safe s -> In x reserved -> Forall (fun d => Ascii.eqb x d = false) (chars s).
Proof. intros H Hx. eapply Forall_impl; [|exact H]. intros c Hc. now apply safe_not_reserved. Qed.

Lemma safe_app a b : safe a -> safe b -> safe (a ++ b)%string.
Proof. unfold safe. rewrite chars_app. intros. now apply Forall_app. Qed.

Lemma digits_are_digits n : Forall (fun c => is_digit c = true) (chars (digit_string (digits n))) ->
  safe (digit_string (digits n)).
Proof. intros H. eapply Forall_impl; [|exact H]. intros c Hc. unfold safe_char. now rewrite Hc, orb_true_r. Qed.

Lemma str_of_nat_digits n : 0 <= n ->
  Forall (fun c => is_digit c = true) (chars (str_of_int n)) /\ str_of_int n <> "" .
Proof.
  intros Hn. unfold str_of_int. destruct (Z.ltb_spec n 0); [lia|].
  destruct (digits_spec n Hn) as [Hd _]. split.
  - unfold digit_string. rewrite ?chars_app, ?chars_str. cbn. 
    apply Forall_map. eapply Forall_impl; [|exact Hd]. intros d. apply is_digit_digit_char.
  - intros E. apply (f_equal String.length) in E. 
    pose proof (digits_nonnil n) as Hne. destruct (digits n) eqn:Ed; [congruence|]. discriminate.
Qed.

Lemma py_int_str n : 0 <= n < 2 ^ 32 -> py_int (str_of_int n) = Ok n.
Proof.
  intros Hn. replace (str_of_int n) with (fmt_0d 0 n).
  - apply py_int_fmt_0d; [unfold max_str_digits; lia|].
    apply Z.lt_le_trans with (10 ^ 10); [rewrite Z.abs_eq; lia|].
    apply Z.pow_le_mono_r; [lia|]. unfold max_str_digits. lia.
  - rewrite fmt_0d_unfold. unfold str_of_int. destruct (Z.ltb_spec n 0); [lia|].
    rewrite Z.abs_eq by lia. reflexivity.
Qed.

(** ** [urlparse] on a URI with all its parts *)

Definition uri_text (sch net path q : string) : string := (sch ++ "://" ++ net ++ path ++ "?" ++ q)%string.

Definition no_char (x : list ascii) (s : string) : Prop :=
  Forall (fun c => existsb (Ascii.eqb c) x = false) (chars s).

Definition plain_part (s : string) : Prop := Forall (fun c => is_unsafe c = false) (chars s).

Lemma filter_all {A} (p : A -> bool) l : Forall (fun x => p x = true) l -> filter p l = l.
Proof. induction 1 as [|x l Hx _ IH]; [reflexivity|]. simpl. now rewrite Hx, IH. Qed.

(** What follows the network location. *)
Definition rest_ok (rest : string) : Prop :=
  plain_part rest /\ (rest = "" \/ exists c l, chars rest = c :: l /\ is_netloc_end c = true).

Lemma urlparse_rest sch c0 cs net rest :
  chars sch = c0 :: cs -> is_alpha c0 = true -> safe sch ->
  plain_part net -> Forall (fun c => is_netloc_end c = false) (chars net) -> rest_ok rest ->
  urlparse (sch ++ "://" ++ net ++ rest)
  = {| u_scheme := lower sch; u_netloc := net; u_path := before "?" (before "#" rest);
       u_query := after "?" (before "#" rest) |}.
Proof.
  intros Hc Ha Hs Hn Hne [Hp Hr]. unfold urlparse.
  set (text := (sch ++ "://" ++ net ++ rest)%string).
  assert (EU : chars text = chars sch ++ ":"%char :: "/"%char :: "/"%char :: chars net ++ chars rest)
    by (unfold text; rewrite !chars_app; reflexivity).
  assert (Hc0 : is_c0_or_space c0 = false).
  { unfold safe in Hs. rewrite Hc in Hs. inversion Hs; subst. now apply safe_plain. }
  assert (EL : lstrip_p is_c0_or_space text = text).
  { unfold lstrip_p, on_chars. rewrite <- (str_chars text) at 2. f_equal.
    rewrite EU, Hc. cbn [app]. now apply dropwhile_first. }
  rewrite EL, EU. rewrite filter_all.
  2:{ rewrite !Forall_app, !Forall_cons_iff, !Forall_app.
      assert (forall s, plain_part s -> Forall (fun c => negb (is_unsafe c) = true) (chars s)) as Hneg
        by (intros s H; eapply Forall_impl; [|exact H]; intros c ->; reflexivity).
      repeat split; try apply Hneg; try assumption.
      eapply Forall_impl; [|exact Hs]. intros c H. now apply safe_plain. }
  assert (ES : split_scheme (str (chars sch ++ ":"%char :: "/"%char :: "/"%char :: chars net ++ chars rest))
    = (lower sch, str ("/"%char :: "/"%char :: chars net ++ chars rest))).
  { unfold split_scheme.
    rewrite (cut_at ":" _ (chars sch) ("/"%char :: "/"%char :: chars net ++ chars rest)).
    - rewrite chars_str, Hc, Ha. cbn [andb].
      assert (forallb is_scheme_char (c0 :: cs) = true) as ->; [|now rewrite <- Hc, str_chars].
      apply forallb_forall. intros c Hin. unfold safe in Hs. rewrite Hc, Forall_forall in Hs.
      apply safe_lower_scheme. now apply Hs.
    - apply chars_str.
    - apply safe_without; [exact Hs|simpl; tauto]. }
  rewrite ES. cbv beta iota zeta.
  replace (startswith _ "//") with true by (symmetry; exact (prefix_app "//" (str (chars net ++ chars rest)))).
  assert (sdrop 2 (str ("/"%char :: "/"%char :: chars net ++ chars rest)) = str (chars net ++ chars rest)) as ->
    by (unfold sdrop, on_chars; now rewrite chars_str).
  rewrite chars_str. destruct Hr as [->|(c & l & Er & El)].
  - cbn [chars list_ascii_of_string]. rewrite app_nil_r, partition_at_none by exact Hne. cbv beta iota zeta.
    now rewrite str_chars.
  - rewrite Er, partition_at_stop; [|exact Hne|exact El]. cbv beta iota zeta. now rewrite str_chars, <- Er, str_chars.
Qed.

(** The path and the query of a tail. *)
Lemma tail_parts path q cp : chars path = "/"%char :: cp -> no_char ["?"; "#"]%char path -> no_char ["#"]%char q ->
  before "?" (before "#" (path ++ "?" ++ q)) = path /\ after "?" (before "#" (path ++ "?" ++ q)) = q.
Proof.
  intros Hp Hpq Hqh. set (rest := (path ++ "?" ++ q)%string).
  assert (ER : chars rest = chars path ++ "?"%char :: chars q) by (unfold rest; rewrite !chars_app; reflexivity).
  assert (EH : cut "#" rest = (rest, false, "")).
  { apply cut_none. rewrite ER. apply Forall_app. split; [|constructor; [reflexivity|]].
    - eapply Forall_impl; [|exact Hpq]. intros c H. cbn [existsb] in H. rewrite !orb_false_iff in H.
      rewrite Ascii.eqb_sym. tauto.
    - eapply Forall_impl; [|exact Hqh]. intros c H. cbn [existsb] in H. rewrite orb_false_r in H.
      now rewrite Ascii.eqb_sym. }
  unfold before, after. rewrite EH. rewrite (cut_at "?" rest (chars path) (chars q) ER).
  - now rewrite !str_chars.
  - eapply Forall_impl; [|exact Hpq]. intros c H. cbn [existsb] in H. apply orb_false_iff in H.
    rewrite Ascii.eqb_sym. tauto.
Qed.

Lemma urlparse_parts sch c0 cs net path cp q :
  chars sch = c0 :: cs -> is_alpha c0 = true -> safe sch ->
  plain_part net -> Forall (fun c => is_netloc_end c = false) (chars net) ->
  chars path = "/"%char :: cp -> plain_part path -> no_char ["?"; "#"]%char path ->
  plain_part q -> no_char ["#"]%char q ->
  urlparse (uri_text sch net path q)
  = {| u_scheme := lower sch; u_netloc := net; u_path := path; u_query := q |}.
Proof.
  intros Hc Ha Hs Hn Hne Hp Hpp Hpq Hq Hqh. unfold uri_text.
  destruct (tail_parts path q cp Hp Hpq Hqh) as [E1 E2].
  rewrite (urlparse_rest sch c0 cs net (path ++ "?" ++ q)); try assumption; [now rewrite E1, E2|]. split.
  - unfold plain_part. rewrite !chars_app. apply Forall_app. split; [exact Hpp|]. now constructor.
  - right. exists "/"%char. rewrite chars_app, Hp. eexists. split; [reflexivity|reflexivity].
Qed.

(** ** The query *)

Lemma split_char_aux_app sep a : forall cur b, Forall (fun c => Ascii.eqb c sep = false) a ->
  split_char_aux sep cur (a ++ b) = split_char_aux sep (rev a ++ cur) b.
Proof.
  induction a as [|c a IH]; intros cur b H; [reflexivity|]. inversion H; subst.
  cbn [app split_char_aux rev]. rewrite H2, IH by assumption. now rewrite <- app_assoc.
Qed.

Lemma split_join sep l : l <> [] ->
  Forall (fun s => Forall (fun c => Ascii.eqb c sep = false) (chars s)) l ->
  split_char sep (join (String sep "") l) = l.
Proof.
  intros Hne H. unfold split_char, join. induction H as [|s l Hs Hl IH]; [congruence|].
  destruct l as [|s' l].
  - cbn [String.concat]. rewrite <- (app_nil_r (chars s)), split_char_aux_app by exact Hs.
    cbn [split_char_aux]. now rewrite app_nil_r, rev_involutive, str_chars.
  - change (String.concat (String sep "") (s :: s' :: l))
      with (s ++ String sep "" ++ String.concat (String sep "") (s' :: l))%string.
    rewrite !chars_app. cbn [chars]. change (chars (String sep "")) with [sep]. cbn [app].
    rewrite split_char_aux_app by exact Hs. cbn [split_char_aux]. rewrite Ascii.eqb_refl, app_nil_r, rev_involutive, str_chars.
    f_equal. apply IH. discriminate.
Qed.

Lemma plus_to_space_safe s : safe s -> plus_to_space s = s.
Proof.
  intros H. unfold plus_to_space, on_chars. rewrite <- (str_chars s) at 2. f_equal.
  induction H as [|c l Hc _ IH]; [reflexivity|]. cbn [map].
  pose proof (safe_not_reserved c "+" Hc ltac:(simpl; tauto)) as E. rewrite Ascii.eqb_sym in E. now rewrite E, IH.
Qed.

Lemma unquote_safe s : safe s -> unquote s = s.
Proof.
  intros H. unfold unquote, on_chars. rewrite <- (str_chars s) at 2. f_equal.
  induction H as [|c l Hc Hl IH]; [reflexivity|]. cbn [unquote_chars].
  pose proof (safe_not_reserved c "%" Hc ltac:(simpl; tauto)) as E. rewrite Ascii.eqb_sym in E. rewrite E.
  destruct l as [|h [|o l]]; [reflexivity|now rewrite IH|now rewrite IH].
Qed.

Definition param_text (kv : string * string) : string := (fst kv ++ "=" ++ snd kv)%string.

Definition params_ok (kvs : list (string * string)) : Prop :=
  Forall (fun kv => safe (fst kv) /\ safe (snd kv) /\ snd kv <> "") kvs.

Lemma parse_qsl_params kvs : kvs <> [] -> params_ok kvs ->
  parse_qsl (join "&" (map param_text kvs)) = kvs.
Proof.
  intros Hne H. unfold parse_qsl. rewrite split_join.
  - clear Hne. induction H as [|[k v] kvs (Hk & Hv & Hne) _ IH]; [reflexivity|]. cbn [fst snd] in *.
    cbn [map flat_map]. rewrite IH. unfold param_text at 1. cbn [fst snd].
    rewrite (cut_at "=" _ (chars k) (chars v)).
    + rewrite !str_chars. rewrite (proj2 (String.eqb_neq v "") Hne). cbn [andb negb].
      now rewrite !plus_to_space_safe, !unquote_safe by assumption.
    + now rewrite !chars_app.
    + apply safe_without; [exact Hk|simpl; tauto].
  - destruct kvs; [congruence|discriminate].
  - apply Forall_map. eapply Forall_impl; [|exact H]. intros [k v] (Hk & Hv & _). cbn [fst snd] in *.
    unfold param_text. rewrite !chars_app. 
    assert (forall s, safe s -> Forall (fun c => Ascii.eqb c "&" = false) (chars s)) as Ha.
    { intros s Hs. eapply Forall_impl; [|apply (safe_without s "&" Hs); simpl; tauto].
      intros c E. now rewrite Ascii.eqb_sym. }
    repeat (apply Forall_app; split); try (now apply Ha). repeat constructor.
Qed.

Lemma safe_strip s : safe s -> strip s = s.
Proof. intros H. apply strip_none. eapply Forall_impl; [|exact H]. intros c Hc. now apply safe_plain. Qed.

Lemma query_part_plain kvs : params_ok kvs ->
  plain_part (join "&" (map param_text kvs)) /\ no_char ["#"%char] (join "&" (map param_text kvs)).
Proof.
  intros H. unfold plain_part, no_char.
  enough (Forall (fun c => is_unsafe c = false /\ existsb (Ascii.eqb c) ["#"%char] = false)
            (chars (join "&" (map param_text kvs)))) as Hf
    by (split; (eapply Forall_impl; [|exact Hf]); intros c Hc; apply Hc).
  assert (Hs : forall s, safe s -> Forall (fun c => is_unsafe c = false /\ existsb (Ascii.eqb c) ["#"%char] = false) (chars s)).
  { intros s Hs. eapply Forall_impl; [|exact Hs]. intros c Hc. split; [now apply safe_plain|].
    cbn [existsb]. pose proof (safe_not_reserved c "#" Hc ltac:(simpl; tauto)) as E. rewrite Ascii.eqb_sym in E. now rewrite E. }
  unfold join. induction H as [|[k v] kvs (Hk & Hv & _) H IH]; [constructor|]. cbn [fst snd] in *.
  assert (Forall (fun c => is_unsafe c = false /\ existsb (Ascii.eqb c) ["#"%char] = false) (chars (param_text (k, v)))) as Hp.
  { unfold param_text. cbn [fst snd]. rewrite !chars_app.
    repeat (apply Forall_app; split); try (now apply Hs). repeat constructor. }
  cbn [map]. destruct (map param_text kvs) as [|s l] eqn:E; [exact Hp|].
  change (String.concat "&" (param_text (k, v) :: s :: l))
    with (param_text (k, v) ++ "&" ++ String.concat "&" (s :: l))%string.
  rewrite !chars_app. apply Forall_app. split; [exact Hp|]. apply Forall_app. split; [repeat constructor|exact IH].
Qed.

(** ** Properties *)

Definition supported (r : DongleRecord) : Prop :=
  exists p, protocol r = Some p /\ In p SUPPORTED_CHILD_PROTOCOLS.

(** The query of a child URI as pairs. *)
Definition child_params (r : DongleRecord) (bc : string) (ann : option string) : list (string * string) :=
  [("pn", pn r)]
  ++ (if negb (String.eqb bc "") && negb (String.eqb bc DEFAULT_EYBOND_BROADCAST) then [("broadcast", bc)] else [])
  ++ (match ann with None | Some EmptyString => [] | Some a => [("announce", a)] end).

Lemma child_uri_text r host port bc ann :
  build_child_uri r host port bc ann
  = uri_text (child_scheme r) (host ++ ":" ++ str_of_int port)%string ("/" ++ str_of_int (devaddr r))%string
      (join "&" (map param_text (child_params r bc ann))).
Proof.
  unfold build_child_uri, uri_text, child_params.
  assert (map param_text ([("pn", pn r)]
      ++ (if negb (String.eqb bc "") && negb (String.eqb bc DEFAULT_EYBOND_BROADCAST) then [("broadcast", bc)] else [])
      ++ match ann with None | Some EmptyString => [] | Some a => [("announce", a)] end)
    = ["pn=" ++ pn r]%string
    ++ (if negb (String.eqb bc "") && negb (String.eqb bc DEFAULT_EYBOND_BROADCAST)
        then ["broadcast=" ++ bc]%string else [])
    ++ match ann with None | Some EmptyString => [] | Some a => ["announce=" ++ a]%string end) as ->.
  { rewrite !map_app. f_equal. f_equal; [now destruct (_ && _)|now destruct ann as [[|]|]]. }
  apply chars_inj. rewrite !chars_app, <- !app_assoc. reflexivity.
Qed.

Lemma child_scheme_cases r : child_scheme r = "eybond" \/ child_scheme r = "eybond-pi18"
  \/ child_scheme r = "eybond-modbus".
Proof.
  unfold child_scheme. destruct (protocol r) as [p|]; [|auto]. unfold CHILD_SCHEME. cbn [dget].
  repeat (destruct (String.eqb p _); [auto|]). auto.
Qed.

(** What a child URI is made of. *)
Record child_ok (r : DongleRecord) (host : string) (port : Z) (bc : string) (ann : option string) : Prop := {
  ok_pn : safe (pn r) /\ pn r <> "";
  ok_addr : 0 <= devaddr r < 2 ^ 32;
  ok_host : safe host /\ host <> "" /\ lower host = host;
  ok_port : 1 <= port <= 65535;
  ok_bc : safe bc /\ bc <> "";
  ok_ann : match ann with Some a => safe a /\ a <> "" | None => True end }.

Lemma child_params_ok r host port bc ann : child_ok r host port bc ann -> params_ok (child_params r bc ann).
Proof.
  intros [[Hp Hpn] _ _ _ [Hb Hbn] Ha]. unfold params_ok, child_params.
  assert (safe "pn" /\ safe "broadcast" /\ safe "announce") as (? & ? & ?)
    by (split; [|split]; repeat constructor).
  apply Forall_cons; [cbn [fst snd]; auto|]. apply Forall_app. split.
  - destruct (_ && _); [|constructor]. apply Forall_cons; [cbn [fst snd]; auto|constructor].
  - destruct ann as [[|c a]|]; [constructor| |constructor]. destruct Ha.
    apply Forall_cons; [cbn [fst snd]; auto|constructor].
Qed.

Lemma child_urlparse r host port bc ann : child_ok r host port bc ann ->
  urlparse (build_child_uri r host port bc ann)
  = {| u_scheme := child_scheme r; u_netloc := (host ++ ":" ++ str_of_int port)%string;
       u_path := ("/" ++ str_of_int (devaddr r))%string;
       u_query := join "&" (map param_text (child_params r bc ann)) |}.
Proof.
  intros Hok. pose proof (child_params_ok _ _ _ _ _ Hok) as Hparams.
  destruct Hok as [_ Ha (Hh & Hhn & _) Hp _ _]. rewrite child_uri_text.
  destruct (query_part_plain _ Hparams) as [Hq1 Hq2].
  assert (Hport : Forall (fun c => is_digit c = true) (chars (str_of_int port))) by (apply str_of_nat_digits; lia).
  assert (Haddr : Forall (fun c => is_digit c = true) (chars (str_of_int (devaddr r)))) by (apply str_of_nat_digits; lia).
  assert (Hsafe : forall s, Forall (fun c => is_digit c = true) (chars s) -> safe s)
    by (intros s H; eapply Forall_impl; [|exact H]; intros c Hc; unfold safe_char; now rewrite Hc, orb_true_r).
  assert (Hplain : forall s, safe s -> plain_part s)
    by (intros s H; eapply Forall_impl; [|exact H]; intros c Hc; now apply safe_plain).
  assert (Hsch : exists c0 cs, chars (child_scheme r) = c0 :: cs /\ is_alpha c0 = true
                 /\ safe (child_scheme r) /\ lower (child_scheme r) = child_scheme r).
  { destruct (child_scheme_cases r) as [->|[->| ->]];
      (do 2 eexists; split; [reflexivity|split; [reflexivity|split; [repeat constructor|reflexivity]]]). }
  destruct Hsch as (c0 & cs & Ec & Hal & Hss & Hlow). rewrite <- Hlow at 2.
  apply (urlparse_parts _ c0 cs _ _ (chars (str_of_int (devaddr r)))); try assumption.
  - unfold plain_part. rewrite !chars_app. apply Forall_app. split; [now apply Hplain|].
    constructor; [reflexivity|]. now apply Hplain, Hsafe.
  - rewrite !chars_app. apply Forall_app. split; [|constructor; [reflexivity|]].
    + eapply Forall_impl; [|exact Hh]. intros c Hc. now apply safe_plain.
    + eapply Forall_impl; [|exact (Hsafe _ Hport)]. intros c Hc. now apply safe_plain.
  - reflexivity.
  - unfold plain_part. rewrite chars_app. constructor; [reflexivity|]. now apply Hplain, Hsafe.
  - unfold no_char. rewrite chars_app. constructor; [reflexivity|].
    eapply Forall_impl; [|exact (Hsafe _ Haddr)]. intros c Hc. cbn [existsb].
    pose proof (safe_not_reserved c "?" Hc ltac:(simpl; tauto)) as E1. rewrite Ascii.eqb_sym in E1.
    pose proof (safe_not_reserved c "#" Hc ltac:(simpl; tauto)) as E2. rewrite Ascii.eqb_sym in E2.
    now rewrite E1, E2.
Qed.

Lemma after_last_none c s : Forall (fun d => Ascii.eqb c d = false) (chars s) -> after_last c s = s.
Proof.
  intros H. unfold after_last. rewrite partition_at_none by now apply Forall_rev.
  cbn [fst]. now rewrite rev_involutive, str_chars.
Qed.

Lemma digits_safe s : Forall (fun c => is_digit c = true) (chars s) -> safe s.
Proof. intros H. eapply Forall_impl; [|exact H]. intros c Hc. unfold safe_char. now rewrite Hc, orb_true_r. Qed.


Lemma netloc_parts host port u : safe host -> host <> "" -> 1 <= port <= 65535 ->
  u_netloc u = (host ++ ":" ++ str_of_int port)%string ->
  u_hostname u = Some (lower host) /\ u_port u = Ok (Some port).
Proof.
  intros Hh Hne Hp E.
  destruct (str_of_nat_digits port ltac:(lia)) as [Hd Hdn].
  assert (Hat : after_last "@" (u_netloc u) = u_netloc u).
  { apply after_last_none. rewrite E, !chars_app. apply Forall_app. split.
    - apply safe_without; [exact Hh|simpl; tauto].
    - constructor; [reflexivity|]. apply safe_without; [now apply digits_safe|simpl; tauto]. }
  assert (Hcut : cut ":" (u_netloc u) = (host, true, str_of_int port)).
  { rewrite (cut_at ":" _ (chars host) (chars (str_of_int port))).
    - now rewrite !str_chars.
    - now rewrite E, !chars_app.
    - apply safe_without; [exact Hh|simpl; tauto]. }
  unfold u_hostname, u_port. rewrite Hat. unfold before, after. rewrite Hcut. cbv beta iota zeta. split.
  - rewrite (proj2 (String.eqb_neq host "") Hne).
    rewrite (cut_none "%" host) by (apply safe_without; [exact Hh|simpl; tauto]).
    f_equal. apply chars_inj. rewrite !chars_app. cbn. now rewrite app_nil_r.
  - rewrite (proj2 (String.eqb_neq _ "") Hdn).
    assert (forallb is_digit (chars (str_of_int port)) = true) as ->
      by (apply forallb_forall; now rewrite Forall_forall in Hd).
    rewrite py_int_str by lia. cbn [rbind]. destruct (Z.leb_spec port 65535); [reflexivity|lia].
Qed.

Lemma path_devaddr n : 0 <= n < 2 ^ 32 ->
  lstrip_p (Ascii.eqb "/") ("/" ++ str_of_int n)%string = str_of_int n.
Proof.
  intros Hn. destruct (str_of_nat_digits n ltac:(lia)) as [Hd Hdn].
  unfold lstrip_p, on_chars. rewrite chars_app. cbn [chars app]. change (chars "/") with ["/"%char].
  cbn [app dropwhile]. rewrite Ascii.eqb_refl. rewrite <- (str_chars (str_of_int n)) at 2. f_equal.
  destruct (chars (str_of_int n)) as [|c l]; [reflexivity|]. apply dropwhile_first.
  inversion Hd; subst. apply safe_not_reserved; [|simpl; tauto]. unfold safe_char. now rewrite H1, orb_true_r.
Qed.

(** The URI of a child, parsed by the two parsers. *)
Lemma child_uri_parses (r : DongleRecord) (host : string) (port : Z) (bc : string) (ann : option string)
    (Hok : child_ok r host port bc ann) :
  let uri := build_child_uri r host port bc ann in
  parse_eybond_uri uri = Ok {| bind_host := host; bind_port := port; uri_devaddr := devaddr r;
                               broadcast := bc; announce_ip := ann |}
  /\ parse_pn_from_uri uri = Some (pn r).
Proof.
  intros uri. pose proof (child_urlparse r host port bc ann Hok) as EU.
  pose proof (child_params_ok r host port bc ann Hok) as HP.
  destruct Hok as [[Hp Hpn] Ha (Hh & Hhn & Hl) Hport [Hb Hbn] Hann].
  assert (EQ : parse_qsl (join "&" (map param_text (child_params r bc ann))) = child_params r bc ann)
    by (apply parse_qsl_params; [discriminate|exact HP]).
  destruct (netloc_parts host port (urlparse uri) Hh Hhn Hport) as [EH EP]; [unfold uri; now rewrite EU|]. rewrite Hl in EH.
  split.
  - unfold parse_eybond_uri. rewrite EH, EP. cbn [rbind]. unfold uri. rewrite EU. cbn [u_path u_query].
    assert (String.eqb ("/" ++ str_of_int (devaddr r))%string "" = false) as -> by reflexivity.
    rewrite path_devaddr by lia.
    destruct (str_of_nat_digits (devaddr r) ltac:(lia)) as [_ Hdn].
    rewrite (proj2 (String.eqb_neq _ "") Hdn), py_int_str by lia. cbn [rbind].
    f_equal. f_equal.
    + destruct port; lia || reflexivity.
    + unfold query_first. rewrite EQ. unfold child_params. cbn [app find].
      change (String.eqb (fst ("pn", pn r)) "broadcast") with false. cbn iota.
      rewrite (proj2 (String.eqb_neq bc "") Hbn). cbn [negb andb].
      destruct (String.eqb_spec bc DEFAULT_EYBOND_BROADCAST) as [->|Hne]; [|reflexivity].
      now destruct ann as [[|]|].
    + unfold query_first. rewrite EQ. unfold child_params. cbn [app find].
      change (String.eqb (fst ("pn", pn r)) "announce") with false. cbn iota.
      destruct ann as [[|c a]|].
      * now destruct Hann.
      * destruct Hann as [Hs _]. 
        destruct (_ && _); cbn [app find fst String.eqb Ascii.eqb Bool.eqb]; cbn iota beta;
          rewrite safe_strip by exact Hs; reflexivity.
      * destruct (_ && _); reflexivity.
  - unfold parse_pn_from_uri, uri. rewrite EU. cbn [u_query]. unfold query_first. rewrite EQ.
    unfold child_params. cbn [app find]. change (String.eqb (fst ("pn", pn r)) "pn") with true. cbn iota.
    rewrite safe_strip by exact Hp. unfold nonempty. now rewrite (proj2 (String.eqb_neq _ "") Hpn).
Qed.

(** The URI built for a hub child parses back to exactly its
    listener, address, broadcast target, announce address and product number,
    whichever protocol it speaks: a poll reaches the dongle it was built for. *)
Theorem child_uri_roundtrip (r : DongleRecord) (host : string) (port : Z) (bc : string) (ann : option string)
    (Hok : child_ok r host port bc ann) :
  let uri := build_child_uri r host port bc ann in
  parse_eybond_uri uri = Ok {| bind_host := host; bind_port := port; uri_devaddr := devaddr r;
                               broadcast := bc; announce_ip := ann |}
  /\ parse_pn_from_uri uri = Some (pn r).
Proof. exact (child_uri_parses r host port bc ann Hok). Qed.

Definition demo_child : DongleRecord :=
  {| pn := "Q0011223344"; name := "Roof"; enabled := true; protocol := Some "pi18"; devaddr := 3;
     status := CONNECTED; peer := ""; first_seen := ""; last_seen := ""; model_hint := ""; legacy_id := "" |}.

Lemma child_uri_roundtrip_witness :
  parse_pn_from_uri (build_child_uri demo_child "0.0.0.0" 8899 "192.168.1.255" (Some "192.168.1.7"))
  = Some "Q0011223344".
Proof.
  apply (child_uri_roundtrip demo_child "0.0.0.0" 8899 "192.168.1.255" (Some "192.168.1.7")).
  constructor; cbn [pn demo_child devaddr]; try lia; repeat split; try discriminate; repeat constructor.
Defined.
