(* ===== verification/EybondManager.v ===== *)
(** The dongle session manager: [_Session] and [EybondManager] of
    [api/protocols/eybond_dongle.py].

    A session object and a request are named by numbers, given in order. The
    coroutines are steps on one state: accepting a connection, handling one
    received frame, the end of a session's reader, a heartbeat tick, a request
    taking the session's send lock, and its completion, time-out, failed write or
    cancellation; a request already holding a session may outlive it, and the
    future of a cancelled request stays pending. *)

From Stdlib Require Import ZArith String Ascii.
From stdpp Require Import base gmap sets fin_sets fin_maps list strings relations.
From S2P Require Import Prelude PyStr PyInt PyDict Discovery EybondFrame.
#[local] Set Warnings "-clear-no-such-hyp".
#[local] Open Scope Z_scope.

(** ** State *)

Record session := {
  s_peer : string;
  s_pn : string;
  s_tid : Z;
  s_pending : gmap Z Z;          (* transaction id -> request awaiting it *)
  s_lock : option (Z * Z)        (* [send_lock]: the request holding it, its transaction id *)
}.

Inductive answer := Reply (payload : bytes) | Aborted (reason : string) | NoReply | Cancelled.

Record mgr := {
  m_next : Z;                    (* sessions created so far *)
  m_objs : gmap Z session;       (* every session object *)
  m_running : gset Z;            (* sessions whose [_handle_session] runs *)
  m_sessions : gset Z;           (* [_sessions] *)
  m_by_pn : gmap string Z;       (* [_sessions_by_pn] *)
  m_ready : gmap string bool;    (* [_ready_by_pn] *)
  m_any_ready : bool;            (* [_any_ready] *)
  m_requests : Z;                (* requests sent so far *)
  m_answers : list (Z * answer); (* what the requests got, in order *)
  m_registry : dongles;          (* [registry] *)
  m_force_until : Z              (* [_force_announce_until] *)
}.

Definition mgr_init (reg : dongles) : mgr :=
  {| m_next := 0; m_objs := ∅; m_running := ∅; m_sessions := ∅; m_by_pn := ∅; m_ready := ∅;
     m_any_ready := false; m_requests := 0; m_answers := []; m_registry := reg; m_force_until := 0 |}.

Definition with_sessions (objs : gmap Z session) (running sess : gset Z) (by_pn : gmap string Z)
    (ready : gmap string bool) (any : bool) (m : mgr) : mgr :=
  {| m_next := m_next m; m_objs := objs; m_running := running; m_sessions := sess; m_by_pn := by_pn;
     m_ready := ready; m_any_ready := any; m_requests := m_requests m; m_answers := m_answers m;
     m_registry := m_registry m; m_force_until := m_force_until m |}.

Definition with_answers (l : list (Z * answer)) (m : mgr) : mgr :=
  {| m_next := m_next m; m_objs := m_objs m; m_running := m_running m; m_sessions := m_sessions m;
     m_by_pn := m_by_pn m; m_ready := m_ready m; m_any_ready := m_any_ready m;
     m_requests := m_requests m; m_answers := m_answers m ++ l; m_registry := m_registry m;
     m_force_until := m_force_until m |}.

Definition with_registry (r : dongles) (m : mgr) : mgr :=
  {| m_next := m_next m; m_objs := m_objs m; m_running := m_running m; m_sessions := m_sessions m;
     m_by_pn := m_by_pn m; m_ready := m_ready m; m_any_ready := m_any_ready m;
     m_requests := m_requests m; m_answers := m_answers m; m_registry := r; m_force_until := m_force_until m |}.

Definition with_obj (sid : Z) (s : session) (m : mgr) : mgr :=
  with_sessions (<[sid := s]> (m_objs m)) (m_running m) (m_sessions m) (m_by_pn m) (m_ready m) (m_any_ready m) m.

(** [_Session.next_tid] *)
Definition next_tid (s : session) : session :=
  {| s_peer := s_peer s; s_pn := s_pn s; s_tid := Z.land (s_tid s + 1) 0xFFFF;
     s_pending := s_pending s; s_lock := s_lock s |}.

Definition with_pn (p : string) (s : session) : session :=
  {| s_peer := s_peer s; s_pn := p; s_tid := s_tid s; s_pending := s_pending s; s_lock := s_lock s |}.
Definition with_pending (p : gmap Z Z) (l : option (Z * Z)) (s : session) : session :=
  {| s_peer := s_peer s; s_pn := s_pn s; s_tid := s_tid s; s_pending := p; s_lock := l |}.

Definition nonempty_set (X : gset Z) : bool := negb (bool_decide (X = ∅)).

(** ** Dropping a session *)

(** Clearing the ready event of a PN, when it has one. *)
Definition clear_ready (p : string) (ready : gmap string bool) : gmap string bool :=
  match ready !! p with Some _ => <[p := false]> ready | None => ready end.

Definition is_mapped (p : string) (sid : Z) (m : mgr) : bool :=
  negb (String.eqb p "") && bool_decide (m_by_pn m !! p = Some sid).

(** The future of the request is done. *)
Definition answered (req : Z) (m : mgr) : bool := bool_decide (req ∈ map fst (m_answers m)).

(** The futures that are not done fail. *)
Definition pending_answers (s : session) (reason : string) (m : mgr) : list (Z * answer) :=
  map (fun tr => (snd tr, Aborted reason)) (List.filter (fun tr => negb (answered (snd tr) m)) (map_to_list (s_pending s))).

Definition drop_session (sid : Z) (reason : string) (m : mgr) : mgr :=
  match m_objs m !! sid with
  | None => m
  | Some s =>
      let sess := m_sessions m ∖ {[sid]} in
      let mapped := is_mapped (s_pn s) sid m in
      with_answers (pending_answers s reason m)
        (with_sessions (<[sid := with_pending ∅ (s_lock s) s]> (m_objs m)) (m_running m) sess
           (if mapped then delete (s_pn s) (m_by_pn m) else m_by_pn m)
           (if mapped then clear_ready (s_pn s) (m_ready m) else m_ready m)
           (m_any_ready m && nonempty_set sess) m)
  end.

(** ** [_handle_session] *)

(** A new connection joins as unidentified. *)
Definition accept (peer : string) (m : mgr) : mgr :=
  let sid := m_next m in
  {| m_next := sid + 1;
     m_objs := <[sid := {| s_peer := peer; s_pn := ""; s_tid := 0; s_pending := ∅; s_lock := None |}]> (m_objs m);
     m_running := {[sid]} ∪ m_running m; m_sessions := {[sid]} ∪ m_sessions m; m_by_pn := m_by_pn m;
     m_ready := m_ready m; m_any_ready := true; m_requests := m_requests m; m_answers := m_answers m;
     m_registry := m_registry m; m_force_until := m_force_until m |}.

(** A session claims the PN of its first heartbeat, evicting the one bound to it. *)
Definition identify (now p : string) (sid : Z) (s : session) (m : mgr) : mgr :=
  let m := with_obj sid (with_pn p s) m in
  let m := match m_by_pn m !! p with
           | Some old => if decide (old = sid) then m
                         else drop_session old "replaced by reconnect with same PN" m
           | None => m
           end in
  with_registry (record_seen now p (s_peer s) CONNECTED (m_registry m))
    (with_sessions (m_objs m) (m_running m) (m_sessions m) (<[p := sid]> (m_by_pn m))
       (<[p := true]> (m_ready m)) (m_any_ready m) m).

Definition on_heartbeat (now : string) (sid : Z) (s : session) (payload : bytes) (m : mgr) : mgr :=
  let p := heartbeat_pn payload in
  if negb (String.eqb p "") && String.eqb (s_pn s) "" then identify now p sid s m
  else if negb (String.eqb (s_pn s) "")
  then with_registry (record_seen now (s_pn s) (s_peer s) CONNECTED (m_registry m)) m
  else m.

Definition on_forward (sid : Z) (s : session) (tid : Z) (payload : bytes) (m : mgr) : mgr :=
  match s_pending s !! tid with
  | Some req =>
      with_answers (if answered req m then [] else [(req, Reply payload)])
        (with_obj sid (with_pending (delete tid (s_pending s)) (s_lock s) s) m)
  | None => m
  end.

(** One received frame. *)
Definition on_frame (now : string) (sid : Z) (h : EyHeader) (payload : bytes) (m : mgr) : mgr :=
  match m_objs m !! sid with
  | None => m
  | Some s =>
      if h_fcode h =? FC_HEARTBEAT then on_heartbeat now sid s payload m
      else if h_fcode h =? FC_FORWARD2DEVICE then on_forward sid s (h_tid h) payload m
      else m
  end.

(** The [finally] of the reader. *)
Definition close (now : string) (sid : Z) (m : mgr) : mgr :=
  let p := match m_objs m !! sid with Some s => s_pn s | None => ""%string end in
  let m := drop_session sid "dongle disconnected" m in
  let m := with_sessions (m_objs m) (m_running m ∖ {[sid]}) (m_sessions m) (m_by_pn m) (m_ready m)
             (m_any_ready m) m in
  if negb (String.eqb p "") && bool_decide (m_by_pn m !! p = None)
  then with_registry (mark_disconnected now p (m_registry m)) m
  else m.

(** ** Requests *)

Definition identified_pns (m : mgr) : gset string := dom (m_by_pn m).

(** [_pnless_target] *)
Definition pnless_target (m : mgr) : option Z :=
  match elements (m_sessions m) with
  | [sid] => Some sid
  | _ => None
  end.

(** [_wait_for_session]: [later] is the manager when the awaited event fires,
    [None] when the wait times out. *)
Definition wait_for_session (pn : option string) (m : mgr) (later : option mgr) : option Z :=
  match pn with
  | Some p =>
      match m_by_pn m !! p with
      | Some sid => Some sid
      | None => match later with Some m' => m_by_pn m' !! p | None => None end
      end
  | None =>
      if nonempty_set (m_sessions m) then pnless_target m
      else match later with Some m' => pnless_target m' | None => None end
  end.

(** [_ready_event_for]: the event of a PN that has no session yet is made unset. *)
Definition ready_event_for (p : string) (m : mgr) : mgr :=
  match m_ready m !! p with
  | Some _ => m
  | None => with_sessions (m_objs m) (m_running m) (m_sessions m) (m_by_pn m) (<[p := false]> (m_ready m)) (m_any_ready m) m
  end.

(** [send_frame] from the send lock to the written frame; a frame that cannot be
    encoded raises out of it. *)
Definition send_start (sid : Z) (devaddr : Z) (v_frame : bytes) (m : mgr) : mgr * res bytes :=
  match m_objs m !! sid with
  | None => (m, Raise (KeyError "session"))
  | Some s =>
      let s := next_tid s in
      match build_forward2device (s_tid s) v_frame devaddr DEFAULT_DEVCODE with
      | Raise e => (with_obj sid s m, Raise e)
      | Ok frame =>
          let req := m_requests m in
          let m := with_obj sid (with_pending (<[s_tid s := req]> (s_pending s)) (Some (req, s_tid s)) s) m in
          ({| m_next := m_next m; m_objs := m_objs m; m_running := m_running m; m_sessions := m_sessions m;
              m_by_pn := m_by_pn m; m_ready := m_ready m; m_any_ready := m_any_ready m;
              m_requests := req + 1; m_answers := m_answers m; m_registry := m_registry m;
              m_force_until := m_force_until m |}, Ok frame)
      end
  end.

(** The request holding the lock leaves: answered already, or by a failed write
    or a time-out, which give it no reply. *)
Definition send_end (sid : Z) (m : mgr) : mgr :=
  match m_objs m !! sid with
  | Some s =>
      match s_lock s with
      | Some (req, tid) =>
          if answered req m
          then with_obj sid (with_pending (s_pending s) None s) m
          else with_answers [(req, NoReply)]
                 (with_obj sid (with_pending (delete tid (s_pending s)) None s) m)
      | None => m
      end
  | None => m
  end.

(** The task of the request holding the lock is cancelled: the lock is released and
    its future is left pending, to be ignored from now on. *)
Definition send_cancel (sid : Z) (m : mgr) : mgr :=
  match m_objs m !! sid with
  | Some s =>
      match s_lock s with
      | Some (req, _) =>
          with_answers (if answered req m then [] else [(req, Cancelled)])
            (with_obj sid (with_pending (s_pending s) None s) m)
      | None => m
      end
  | None => m
  end.

(** A tick of [_heartbeat_loop] takes a transaction id. *)
Definition heartbeat_tick (sid : Z) (m : mgr) : mgr :=
  match m_objs m !! sid with Some s => with_obj sid (next_tid s) m | None => m end.

(** ** Shutdown and the announcer *)

(** The end of [shutdown]: the session tables are cleared. *)
Definition clear_sessions (m : mgr) : mgr := with_sessions (m_objs m) (m_running m) ∅ ∅ ∅ false m.

(** [shutdown] undisturbed; its awaits let other steps in between the sessions, which
    [mstep] below allows. *)
Definition shutdown (m : mgr) : mgr :=
  clear_sessions (foldl (fun m sid => drop_session sid "manager shutting down" m) m (elements (m_sessions m))).

Definition REDISCOVERY_WINDOW : Z := 60.

Definition force_rediscovery (time duration : Z) (m : mgr) : mgr :=
  {| m_next := m_next m; m_objs := m_objs m; m_running := m_running m; m_sessions := m_sessions m;
     m_by_pn := m_by_pn m; m_ready := m_ready m; m_any_ready := m_any_ready m;
     m_requests := m_requests m; m_answers := m_answers m; m_registry := m_registry m;
     m_force_until := time + duration |}.

(** [_should_announce], with the manager after it (an elapsed window is reset). *)
Definition should_announce (time : Z) (m : mgr) : mgr * bool :=
  if negb (m_force_until m =? 0) && (time <? m_force_until m) then (m, true)
  else
    let m := force_rediscovery 0 0 m in
    let connected := identified_pns m in
    let expected : gset string := list_to_set (enabled_pns (m_registry m)) in
    (m, if decide (expected = ∅) then bool_decide (connected = ∅)
        else negb (bool_decide (expected ∖ connected = ∅))).

(** ** Steps *)

(** What the coroutines of the manager do, one step between two awaits each; the two
    steps of [shutdown] are one session dropped and the final clearing. *)
Inductive mstep : mgr -> mgr -> Prop :=
| st_accept peer m : mstep m (accept peer m)
| st_frame now sid h payload m : sid ∈ m_running m -> mstep m (on_frame now sid h payload m)
| st_close now sid m : sid ∈ m_running m -> mstep m (close now sid m)
| st_tick sid m : mstep m (heartbeat_tick sid m)
| st_send sid devaddr v_frame s m : m_objs m !! sid = Some s -> s_lock s = None ->
    mstep m (fst (send_start sid devaddr v_frame m))
| st_end sid m : mstep m (send_end sid m)
| st_cancel sid m : mstep m (send_cancel sid m)
| st_drop sid m : mstep m (drop_session sid "manager shutting down" m)
| st_clear m : mstep m (clear_sessions m)
| st_ready p m : mstep m (ready_event_for p m)
| st_force time duration m : mstep m (force_rediscovery time duration m).

(** What the hub does to the registry it shares with the manager: the devices form
    writes the fields of one dongle or removes it, and a starting hub has its stored
    registry adopted by a manager whose own is empty ([get_eybond_manager]). *)
Inductive registry_edit :=
| Configure (p name : string) (addr : Z) (proto : option string) (en : bool)
| Remove (p : string)
| Adopt (stored : dongles).

Definition edit_registry (e : registry_edit) (reg : dongles) : dongles :=
  match e with
  | Configure p name addr proto en => set_enabled p en (set_protocol p proto (set_devaddr p addr (set_name p name reg)))
  | Remove p => remove_record p reg
  | Adopt stored => match reg with [] => reset_connection_state stored | _ => reg end
  end.

Definition run_edit (e : registry_edit) (m : mgr) : mgr := with_registry (edit_registry e (m_registry m)) m.

(** The manager among them, where the user only removes dongles that satisfy [P]. *)
Inductive wstep (P : string -> Prop) : mgr -> mgr -> Prop :=
| ws_own m m' : mstep m m' -> wstep P m m'
| ws_edit e m : (forall p, e = Remove p -> P p) -> wstep P m (run_edit e m).

Definition msteps (P : string -> Prop) : mgr -> mgr -> Prop := rtc (wstep P).

Definition anyone (p : string) : Prop := True.

(** A manager started on a registry whose live state was reset. *)
Definition mreach_by (P : string -> Prop) (reg : dongles) : mgr -> Prop :=
  msteps P (mgr_init (reset_connection_state reg)).
Definition mreach (reg : dongles) : mgr -> Prop := mreach_by anyone reg.

(** One no hub shares the registry of: only its own coroutines run. *)
Definition mserve (reg : dongles) : mgr -> Prop := rtc mstep (mgr_init (reset_connection_state reg)).

(** ** Routing invariant *)

Definition pn_of (m : mgr) (sid : Z) : option string := s_pn <$> m_objs m !! sid.

Definition status_of (p : string) (m : mgr) : option DongleStatus :=
  option_map status (dget p (m_registry m)).

Record routing_inv (m : mgr) : Prop := {
  ri_running : forall sid, sid ∈ m_running m -> is_Some (pn_of m sid);
  ri_sessions : m_sessions m ⊆ m_running m;
  ri_next : forall sid, is_Some (pn_of m sid) -> sid < m_next m;
  ri_map : forall p sid, m_by_pn m !! p = Some sid ->
             p <> ""%string /\ sid ∈ m_running m /\ pn_of m sid = Some p;
  ri_ready : forall p, m_ready m !! p = Some true <-> is_Some (m_by_pn m !! p);
  ri_any : m_any_ready m = nonempty_set (m_sessions m);
  ri_live : forall p, status_of p m = Some CONNECTED ->
              exists sid, sid ∈ m_running m /\ pn_of m sid = Some p;
  ri_nopn : status_of "" m <> Some CONNECTED
}.

(** A dongle that has a session is shown as connected. *)
Definition shown (p : string) (m : mgr) : Prop := is_Some (m_by_pn m !! p) -> status_of p m = Some CONNECTED.

(** The parts of the state the routing invariant looks at are as before. *)
Definition same_routing (m m' : mgr) : Prop :=
  (forall sid, pn_of m' sid = pn_of m sid) /\ m_running m' = m_running m /\ m_sessions m' = m_sessions m
  /\ m_next m' = m_next m /\ m_by_pn m' = m_by_pn m /\ m_ready m' = m_ready m
  /\ m_any_ready m' = m_any_ready m /\ m_registry m' = m_registry m.

Lemma routing_same m m' : same_routing m m' -> routing_inv m -> routing_inv m'.
Proof.
  intros (E1 & E2 & E3 & E4 & E5 & E6 & E7 & E8) [H1 H2 H3 H4 H5 H6 H8 H9].
  assert (forall p, status_of p m' = status_of p m) as E9 by (intros p; unfold status_of; now rewrite E8).
  split; intros *; rewrite ?E1, ?E2, ?E3, ?E4, ?E5, ?E6, ?E7, ?E9; auto.
  intros H. destruct (H8 _ H) as (sid & Hs & Hp). exists sid. now rewrite E1.
Qed.

Lemma pn_of_with_obj m sid s k : pn_of (with_obj sid s m) k = if decide (k = sid) then Some (s_pn s) else pn_of m k.
Proof.
  unfold pn_of. simpl. destruct (decide (k = sid)) as [->|Hne]; [now rewrite lookup_insert_eq|].
  now rewrite lookup_insert_ne by congruence.
Qed.

Lemma same_with_obj m sid s s' : m_objs m !! sid = Some s -> s_pn s' = s_pn s -> same_routing m (with_obj sid s' m).
Proof.
  intros Ho Hp. repeat split; try reflexivity. intros k. rewrite pn_of_with_obj.
  destruct (decide (k = sid)) as [->|]; [|reflexivity]. unfold pn_of. now rewrite Ho, Hp.
Qed.

Lemma same_with_answers m l : same_routing m (with_answers l m).
Proof. repeat split; reflexivity. Qed.

Lemma same_trans a b c : same_routing a b -> same_routing b c -> same_routing a c.
Proof.
  intros (E1 & E2 & E3 & E4 & E5 & E6 & E7 & E8) (F1 & F2 & F3 & F4 & F5 & F6 & F7 & F8).
  split; [intros sid; now rewrite F1|]. repeat split; congruence.
Qed.

(** What dropping a session does to the routing. *)
Lemma drop_pn_of sid reason m k : pn_of (drop_session sid reason m) k = pn_of m k.
Proof.
  unfold drop_session. destruct (m_objs m !! sid) as [s|] eqn:E; [|reflexivity].
  unfold pn_of. simpl. destruct (decide (k = sid)) as [->|Hne].
  - rewrite lookup_insert_eq, E. reflexivity.
  - now rewrite lookup_insert_ne by congruence.
Qed.

Lemma drop_running sid reason m : m_running (drop_session sid reason m) = m_running m
  /\ m_registry (drop_session sid reason m) = m_registry m /\ m_next (drop_session sid reason m) = m_next m
  /\ m_requests (drop_session sid reason m) = m_requests m.
Proof. unfold drop_session. now destruct (m_objs m !! sid). Qed.

Lemma drop_sessions sid reason m : is_Some (pn_of m sid) ->
  m_sessions (drop_session sid reason m) = m_sessions m ∖ {[sid]}.
Proof. unfold drop_session, pn_of. destruct (m_objs m !! sid); [reflexivity|]. intros [? [=]]. Qed.

(** A PN is unmapped exactly when it was mapped to the dropped session. *)
Lemma drop_by_pn sid reason m p : routing_inv m ->
  m_by_pn (drop_session sid reason m) !! p
  = match m_by_pn m !! p with
    | Some k => if decide (k = sid) then None else Some k
    | None => None
    end.
Proof.
  intros [H1 H2 H3 H4 H5 H6 H8 H9]. unfold drop_session.
  destruct (m_objs m !! sid) as [s|] eqn:E.
  - simpl. unfold is_mapped. destruct (m_by_pn m !! p) as [k|] eqn:Ep.
    + destruct (decide (k = sid)) as [->|Hne].
      * destruct (H4 _ _ Ep) as (Hp & _ & Hpn). unfold pn_of in Hpn. rewrite E in Hpn. injection Hpn as <-.
        rewrite (proj2 (String.eqb_neq _ _) Hp), bool_decide_true by exact Ep. simpl. apply lookup_delete_eq.
      * destruct (negb _ && bool_decide _) eqn:Eb; [|exact Ep].
        apply andb_prop in Eb as [_ Eb]. apply bool_decide_eq_true in Eb.
        rewrite lookup_delete_ne; [exact Ep|]. intros Heq. rewrite Heq, Ep in Eb. congruence.
    + destruct (negb _ && bool_decide _); [|exact Ep].
      destruct (decide (s_pn s = p)) as [->|]; [apply lookup_delete_eq|now rewrite lookup_delete_ne].
  - destruct (m_by_pn m !! p) as [k|] eqn:Ep; [|reflexivity].
    rewrite decide_False; [reflexivity|]. intros ->. destruct (H4 _ _ Ep) as (_ & _ & Hpn).
    unfold pn_of in Hpn. rewrite E in Hpn. discriminate.
Qed.

Lemma drop_ready sid reason m p : routing_inv m ->
  m_ready (drop_session sid reason m) !! p = Some true <-> is_Some (m_by_pn (drop_session sid reason m) !! p).
Proof.
  intros Hinv. rewrite (drop_by_pn sid reason m p Hinv). destruct Hinv as [H1 H2 H3 H4 H5 H6 H8 H9].
  unfold drop_session. destruct (m_objs m !! sid) as [s|] eqn:E; simpl.
  - unfold is_mapped. destruct (negb (String.eqb (s_pn s) "") && bool_decide (m_by_pn m !! s_pn s = Some sid)) eqn:Eb.
    + apply andb_prop in Eb as [_ Eb]. apply bool_decide_eq_true in Eb. unfold clear_ready.
      destruct (m_ready m !! s_pn s) eqn:Er.
      * destruct (decide (p = s_pn s)) as [->|Hne].
        -- rewrite lookup_insert_eq, Eb, decide_True by reflexivity. split; [discriminate|intros [? [=]]].
        -- rewrite lookup_insert_ne by congruence. rewrite H5.
           destruct (m_by_pn m !! p) as [k|] eqn:Ep; [|reflexivity].
           rewrite decide_False; [reflexivity|]. intros ->. destruct (H4 _ _ Ep) as (_ & _ & Hpn).
           unfold pn_of in Hpn. rewrite E in Hpn. simpl in Hpn. congruence.
      * exfalso. pose proof (proj2 (H5 (s_pn s)) ltac:(rewrite Eb; eauto)). congruence.
    + rewrite H5. destruct (m_by_pn m !! p) as [k|] eqn:Ep; [|reflexivity].
      rewrite decide_False; [reflexivity|]. intros ->. destruct (H4 _ _ Ep) as (Hp & _ & Hpn).
      unfold pn_of in Hpn. rewrite E in Hpn. injection Hpn as Hpn. rewrite Hpn in Eb.
      rewrite (proj2 (String.eqb_neq _ _) Hp), bool_decide_true in Eb by exact Ep. discriminate.
  - rewrite H5. destruct (m_by_pn m !! p) as [k|] eqn:Ep; [|reflexivity].
    rewrite decide_False; [reflexivity|]. intros ->. destruct (H4 _ _ Ep) as (_ & _ & Hpn).
    unfold pn_of in Hpn. rewrite E in Hpn. discriminate.
Qed.

Lemma nonempty_set_true X : nonempty_set X = true <-> X <> ∅.
Proof. unfold nonempty_set. rewrite negb_true_iff, bool_decide_eq_false. reflexivity. Qed.

Lemma drop_inv sid reason m : routing_inv m -> routing_inv (drop_session sid reason m).
Proof.
  intros Hinv. pose proof (drop_by_pn sid reason m) as Hb. pose proof (drop_ready sid reason m) as Hr.
  destruct (drop_running sid reason m) as (R1 & R2 & R3 & _).
  pose proof Hinv as [H1 H2 H3 H4 H5 H6 H8 H9]. split.
  - intros k. rewrite R1, drop_pn_of. apply H1.
  - rewrite R1. unfold drop_session. destruct (m_objs m !! sid); simpl; set_solver.
  - intros k. rewrite R3, drop_pn_of. apply H3.
  - intros p k. rewrite (Hb p Hinv), R1, drop_pn_of. destruct (m_by_pn m !! p) as [k'|] eqn:E; [|discriminate].
    destruct (decide (k' = sid)); [discriminate|]. intros [= <-]. now apply H4.
  - intros p. now apply Hr.
  - unfold drop_session. destruct (m_objs m !! sid); simpl; [|exact H6]. rewrite H6.
    apply Bool.eq_true_iff_eq. rewrite andb_true_iff, !nonempty_set_true. set_solver.
  - intros p. unfold status_of. rewrite R2. intros Hp. destruct (H8 p Hp) as (k & Hk & Hpn).
    exists k. now rewrite R1, drop_pn_of.
  - unfold status_of. rewrite R2. exact H9.
Qed.

Lemma status_seen now p peer p' reg :
  option_map status (dget p' (record_seen now p peer CONNECTED reg))
  = if String.eqb p' p then Some CONNECTED else option_map status (dget p' reg).
Proof.
  change (record_seen now p peer CONNECTED reg) with (live reg (Seen now p peer)). rewrite live_get. simpl.
  destruct (String.eqb p' p); [|reflexivity]. now destruct (dget p' reg).
Qed.

Lemma status_lost now p p' reg :
  option_map status (dget p' (mark_disconnected now p reg)) = Some CONNECTED ->
  p' <> p /\ option_map status (dget p' reg) = Some CONNECTED.
Proof.
  change (mark_disconnected now p reg) with (live reg (Lost now p)). rewrite live_get. simpl.
  destruct (String.eqb_spec p' p) as [->|Hne]; [|now split]. now destruct (dget p reg).
Qed.

Lemma accept_inv peer m : routing_inv m -> routing_inv (accept peer m).
Proof.
  intros [H1 H2 H3 H4 H5 H6 H8 H9].
  assert (Hpn : forall k, pn_of (accept peer m) k = if decide (k = m_next m) then Some ""%string else pn_of m k).
  { intros k. unfold pn_of, accept. simpl. destruct (decide (k = m_next m)) as [->|Hne];
      [now rewrite lookup_insert_eq|now rewrite lookup_insert_ne by congruence]. }
  assert (Hfresh : forall k, is_Some (pn_of m k) -> k <> m_next m) by (intros k Hk ->; apply H3 in Hk; lia).
  split.
  - intros k Hk. rewrite Hpn. destruct (decide (k = m_next m)); [eauto|]. apply H1. simpl in Hk. set_solver.
  - simpl. set_solver.
  - intros k. rewrite Hpn. simpl. destruct (decide (k = m_next m)) as [->|]; [lia|]. intros Hk. apply H3 in Hk. lia.
  - intros p k Hk. destruct (H4 p k Hk) as (Hp & Hr & Hpk). split; [exact Hp|]. split; [simpl; set_solver|].
    rewrite Hpn, decide_False; [exact Hpk|]. apply Hfresh. rewrite Hpk. eauto.
  - exact H5.
  - simpl. symmetry. apply nonempty_set_true. set_solver.
  - intros p Hp. destruct (H8 p Hp) as (k & Hk & Hpk). exists k. split; [simpl; set_solver|].
    rewrite Hpn, decide_False; [exact Hpk|]. apply Hfresh. rewrite Hpk. eauto.
  - exact H9.
Qed.

(** An unidentified running session takes a PN; nothing routes to it yet. *)
Lemma with_pn_inv sid s p m : routing_inv m -> m_objs m !! sid = Some s -> s_pn s = ""%string ->
  routing_inv (with_obj sid (with_pn p s) m).
Proof.
  intros [H1 H2 H3 H4 H5 H6 H8 H9] Ho Hs.
  assert (Hold : pn_of m sid = Some ""%string) by (unfold pn_of; rewrite Ho; simpl; now rewrite Hs).
  split; try assumption.
  - intros k Hk. rewrite pn_of_with_obj. destruct (decide (k = sid)); [eauto|now apply H1].
  - intros k. rewrite pn_of_with_obj. destruct (decide (k = sid)) as [->|]; [|apply H3].
    intros _. apply H3. rewrite Hold. eauto.
  - intros q k Hk. destruct (H4 q k Hk) as (Hq & Hr & Hpk). rewrite pn_of_with_obj.
    destruct (decide (k = sid)) as [->|]; [congruence|auto].
  - intros q Hq. destruct (H8 q Hq) as (k & Hk & Hpk). exists k. split; [exact Hk|].
    rewrite pn_of_with_obj. destruct (decide (k = sid)) as [->|]; [|exact Hpk].
    rewrite Hold in Hpk. injection Hpk as <-. now destruct H9.
Qed.

Lemma identify_inv now p sid s m : routing_inv m -> m_objs m !! sid = Some s -> s_pn s = ""%string ->
  sid ∈ m_running m -> p <> ""%string -> routing_inv (identify now p sid s m).
Proof.
  intros Hinv Ho Hs Hrun Hp. pose proof (with_pn_inv sid s p m Hinv Ho Hs) as Hinv1.
  unfold identify. set (m1 := with_obj sid (with_pn p s) m) in *.
  set (m2 := match m_by_pn m1 !! p with Some _ => _ | None => _ end).
  assert (routing_inv m2 /\ pn_of m2 sid = Some p /\ sid ∈ m_running m2) as ([H1 H2 H3 H4 H5 H6 H8 H9] & Hpn & Hr).
  { assert (pn_of m1 sid = Some p) as Hm1 by (unfold m1; rewrite pn_of_with_obj, decide_True by reflexivity; reflexivity).
    unfold m2. destruct (m_by_pn m1 !! p) as [old|]; [|auto]. destruct (decide (old = sid)); [auto|].
    rewrite drop_pn_of, (proj1 (drop_running _ _ _)). split; [now apply drop_inv|auto]. }
  clearbody m2.
  set (m3 := with_registry _ _).
  assert (Hst : forall q, status_of q m3 = if String.eqb q p then Some CONNECTED else status_of q m2)
    by (intros q; apply status_seen).
  assert (Hp3 : forall k, pn_of m3 k = pn_of m2 k) by reflexivity.
  split; try assumption.
  - intros q k. change (m_by_pn m3) with (<[p := sid]> (m_by_pn m2)). destruct (decide (q = p)) as [->|Hne].
    + rewrite lookup_insert_eq. intros [= <-]. auto.
    + rewrite lookup_insert_ne by congruence. apply H4.
  - intros q. change (m_by_pn m3) with (<[p := sid]> (m_by_pn m2)). change (m_ready m3) with (<[p := true]> (m_ready m2)).
    destruct (decide (q = p)) as [->|Hne].
    + rewrite !lookup_insert_eq. split; eauto.
    + rewrite !lookup_insert_ne by congruence. apply H5.
  - intros q. rewrite Hst. destruct (String.eqb_spec q p) as [->|Hne]; [|apply H8].
    intros _. exists sid. auto.
  - rewrite Hst. destruct (String.eqb_spec ""%string p) as [E|_]; [congruence|exact H9].
Qed.

Lemma identify_pn_of now p sid s m : pn_of (identify now p sid s m) sid = Some p.
Proof.
  unfold identify. cbv zeta. set (m1 := with_obj sid (with_pn p s) m).
  assert (pn_of m1 sid = Some p) as H1 by (unfold m1; rewrite pn_of_with_obj, decide_True by reflexivity; reflexivity).
  destruct (m_by_pn m1 !! p) as [old|]; [|exact H1]. destruct (decide (old = sid)); [exact H1|].
  transitivity (pn_of (drop_session old "replaced by reconnect with same PN" m1) sid); [reflexivity|]. now rewrite drop_pn_of.
Qed.

Lemma heartbeat_inv now sid s payload m : routing_inv m -> m_objs m !! sid = Some s -> sid ∈ m_running m ->
  routing_inv (on_heartbeat now sid s payload m).
Proof.
  intros Hinv Ho Hr. unfold on_heartbeat.
  destruct (String.eqb_spec (heartbeat_pn payload) "") as [E|E]; destruct (String.eqb_spec (s_pn s) "") as [E'|E'];
    cbn [negb andb]; try exact Hinv; try (now apply identify_inv);
    (set (m1 := with_registry _ _);
     assert (Hst : forall q, status_of q m1 = if String.eqb q (s_pn s) then Some CONNECTED else status_of q m)
       by (intros q; apply status_seen);
     destruct Hinv as [H1 H2 H3 H4 H5 H6 H8 H9]; split; try assumption;
     [intros q; rewrite Hst; destruct (String.eqb_spec q (s_pn s)) as [->|]; [|apply H8];
      intros _; exists sid; split; [exact Hr|]; change (pn_of m sid = Some (s_pn s)); unfold pn_of; now rewrite Ho
     |rewrite Hst; destruct (String.eqb_spec ""%string (s_pn s)) as [E2|]; [congruence|exact H9]]).
Qed.

Lemma frame_inv now sid h payload m : routing_inv m -> sid ∈ m_running m -> routing_inv (on_frame now sid h payload m).
Proof.
  intros Hinv Hr. unfold on_frame. destruct (m_objs m !! sid) as [s|] eqn:Ho; [|exact Hinv].
  destruct (h_fcode h =? FC_HEARTBEAT); [now apply heartbeat_inv|].
  destruct (h_fcode h =? FC_FORWARD2DEVICE); [|exact Hinv].
  unfold on_forward. destruct (s_pending s !! h_tid h); [|exact Hinv].
  apply (routing_same m); [|exact Hinv]. eapply same_trans; [|apply same_with_answers].
  now apply (same_with_obj m sid s).
Qed.

Lemma close_inv now sid m : routing_inv m -> sid ∈ m_running m -> routing_inv (close now sid m).
Proof.
  intros Hinv Hrun. pose proof (drop_inv sid "dongle disconnected" m Hinv) as Hinv1.
  pose proof (drop_by_pn sid "dongle disconnected" m) as Hb.
  assert (Hsome : is_Some (pn_of m sid)) by (now apply Hinv).
  pose proof (drop_sessions sid "dongle disconnected" m Hsome) as Hsess.
  unfold close. set (p := match m_objs m !! sid with Some s => s_pn s | None => ""%string end).
  assert (Hp : pn_of m sid = Some p).
  { unfold pn_of, p in *. destruct (m_objs m !! sid); [reflexivity|]. destruct Hsome; discriminate. }
  set (m1 := drop_session sid "dongle disconnected" m) in *.
  assert (Hpn1 : forall k, pn_of m1 k = pn_of m k) by (intros k; apply drop_pn_of).
  set (m2 := with_sessions _ _ _ _ _ _ m1).
  assert (Hmap2 : forall q k, m_by_pn m2 !! q = Some k -> q <> ""%string /\ k ∈ m_running m2 /\ pn_of m2 k = Some q).
  { intros q k Hk. change (m_by_pn m1 !! q = Some k) in Hk. destruct (ri_map m1 Hinv1 q k Hk) as (Hq & Hr & Hpk).
    split; [exact Hq|]. split; [|exact Hpk]. change (k ∈ m_running m1 ∖ {[sid]}). rewrite (Hb q Hinv) in Hk.
    destruct (m_by_pn m !! q); [|discriminate]. destruct (decide _); [discriminate|]. injection Hk as <-. set_solver. }
  destruct Hinv1 as [H1 H2 H3 H4 H5 H6 H8 H9].
  assert (Hlive : forall q, status_of q m1 = Some CONNECTED -> (q <> p \/ is_Some (m_by_pn m1 !! q)) ->
            exists k, k ∈ m_running m2 /\ pn_of m2 k = Some q).
  { intros q Hq Hor. destruct (H8 q Hq) as (k & Hk & Hpk). destruct (decide (k = sid)) as [->|Hne].
    - rewrite Hpn1, Hp in Hpk. injection Hpk as <-. destruct Hor as [Hor|[k' Hk']]; [congruence|].
      destruct (Hmap2 _ _ Hk') as (_ & ? & ?). exists k'. auto.
    - exists k. split; [change (k ∈ m_running m1 ∖ {[sid]}); set_solver|exact Hpk]. }
  assert (Hrun2 : forall k, k ∈ m_running m2 -> is_Some (pn_of m2 k))
    by (intros k Hk; apply H1; change (k ∈ m_running m1 ∖ {[sid]}) in Hk; set_solver).
  assert (Hsub : m_sessions m2 ⊆ m_running m2).
  { change (m_sessions m1 ⊆ m_running m1 ∖ {[sid]}). rewrite Hsess in H2 |- *. set_solver. }
  destruct (negb (String.eqb p "") && bool_decide (m_by_pn m2 !! p = None)) eqn:Em.
  - apply andb_prop in Em as [_ Em]. apply bool_decide_eq_true in Em.
    split; try assumption.
    + intros q Hq. apply status_lost in Hq as [Hne Hq]. apply Hlive; auto.
    + intros Hq. apply status_lost in Hq as [_ Hq]. now apply H9.
  - split; try assumption. intros q Hq. apply Hlive; [exact Hq|].
    destruct (String.eqb_spec q p) as [->|Hne]; [right|now left].
    destruct (String.eqb_spec p "") as [E|E]; [rewrite E in Hq; now destruct H9|]. cbn [negb andb] in Em.
    apply bool_decide_eq_false in Em. change (m_by_pn m2) with (m_by_pn m1) in Em.
    destruct (m_by_pn m1 !! p); [eauto|congruence].
Qed.

Lemma clear_inv m : routing_inv m -> routing_inv (clear_sessions m).
Proof.
  intros [H1 H2 H3 H4 H5 H6 H8 H9]. split; try assumption; simpl.
  - apply empty_subseteq.
  - intros p k. now rewrite lookup_empty.
  - intros p. rewrite !lookup_empty. split; [discriminate|intros [? [=]]].
  - unfold nonempty_set. now rewrite bool_decide_true by reflexivity.
Qed.

(** ** Request invariant *)

Definition obj_ok (m : mgr) (s : session) : Prop :=
  word_ok (s_tid s)
  /\ (forall t r, s_pending s !! t = Some r ->
        0 <= r < m_requests m /\ (answered r m = true \/ s_lock s = Some (r, t)))
  /\ (forall r t, s_lock s = Some (r, t) ->
        0 <= r < m_requests m /\ (answered r m = true \/ s_pending s !! t = Some r)).

Record request_inv (m : mgr) : Prop := {
  qi_next : forall sid s, m_objs m !! sid = Some s -> sid < m_next m;
  qi_obj : forall sid s, m_objs m !! sid = Some s -> obj_ok m s;
  qi_lock : forall sid sid' s s' req tid tid', m_objs m !! sid = Some s -> m_objs m !! sid' = Some s' ->
     s_lock s = Some (req, tid) -> s_lock s' = Some (req, tid') -> sid = sid';
  qi_once : NoDup (map fst (m_answers m));
  qi_range : forall req, req ∈ map fst (m_answers m) -> 0 <= req < m_requests m;
  qi_count : 0 <= m_requests m
}.

Lemma answered_app req l m :
  answered req (with_answers l m) = answered req m || bool_decide (req ∈ map fst l).
Proof.
  unfold answered. simpl. rewrite map_app, <- bool_decide_or. apply bool_decide_ext. apply elem_of_app.
Qed.

Lemma request_same m m' : m_objs m' = m_objs m -> m_next m' = m_next m -> m_requests m' = m_requests m ->
  m_answers m' = m_answers m -> request_inv m -> request_inv m'.
Proof.
  intros E1 E2 E3 E4 [H1 H2 H3 H4 H5 H6]. split; rewrite ?E1, ?E2, ?E3, ?E4; auto.
  intros sid s Ho. unfold obj_ok, answered. rewrite E3, E4. now apply (H2 sid).
Qed.

(** What is fine stays so when more futures are done. *)
Lemma obj_ok_mono m m' s : m_requests m <= m_requests m' -> (forall r, answered r m = true -> answered r m' = true) ->
  obj_ok m s -> obj_ok m' s.
Proof.
  intros Hr Ha (Hw & Hp & Hl). split; [exact Hw|]. split; intros x y H; [destruct (Hp x y H)|destruct (Hl x y H)];
    (split; [lia|naive_solver]).
Qed.

Lemma answered_mono l m r : answered r m = true -> answered r (with_answers l m) = true.
Proof. rewrite answered_app. now intros ->. Qed.

(** One session changes, a request of its own being answered or none. *)
Lemma request_update m sid s s' l : request_inv m -> m_objs m !! sid = Some s ->
  (s_lock s' = s_lock s \/ s_lock s' = None) ->
  (l = [] \/ exists req a, l = [(req, a)] /\ 0 <= req < m_requests m /\ answered req m = false) ->
  obj_ok (with_answers l m) s' ->
  request_inv (with_answers l (with_obj sid s' m)).
Proof.
  intros [H1 H2 H3 H4 H5 H6] Ho Hl Ha Hs'. split.
  - intros k t. simpl. destruct (decide (k = sid)) as [->|Hne].
    + intros _. exact (H1 _ _ Ho).
    + rewrite lookup_insert_ne by congruence. apply H1.
  - intros k t. simpl. destruct (decide (k = sid)) as [->|Hne].
    + rewrite lookup_insert_eq. intros [= <-]. exact Hs'.
    + rewrite lookup_insert_ne by congruence. intros Hk.
      apply (obj_ok_mono m); [simpl; lia| |now apply (H2 k)]. intros r. exact (answered_mono l m r).
  - intros k k' t t' req tid tid'. simpl.
    destruct (decide (k = sid)) as [->|Hk], (decide (k' = sid)) as [->|Hk']; auto;
      rewrite ?lookup_insert_eq, ?lookup_insert_ne by congruence; intros E E' L L'.
    + injection E as <-. destruct Hl as [Hl|Hl]; [|congruence]. rewrite Hl in L. exact (H3 _ _ _ _ _ _ _ Ho E' L L').
    + injection E' as <-. destruct Hl as [Hl|Hl]; [|congruence]. rewrite Hl in L'. exact (H3 _ _ _ _ _ _ _ E Ho L L').
    + exact (H3 _ _ _ _ _ _ _ E E' L L').
  - simpl. rewrite map_app. destruct Ha as [->|(req & a & -> & _ & Hna)]; [now rewrite app_nil_r|].
    simpl. apply NoDup_app. split; [exact H4|]. split; [|apply NoDup_singleton].
    intros x Hx Hx'. apply list_elem_of_singleton in Hx'. subst x. unfold answered in Hna.
    now apply bool_decide_eq_false in Hna.
  - intros r. simpl. rewrite map_app, elem_of_app. intros [Hr|Hr]; [now apply H5|].
    destruct Ha as [->|(req & a & -> & Hb & _)]; [set_solver|].
    simpl in Hr. apply list_elem_of_singleton in Hr. now subst r.
  - exact H6.
Qed.

Lemma filter_singleton {A} (f : A -> bool) (x : A) l : NoDup l -> (forall y, In y l -> f y = true -> y = x) ->
  List.filter f l = [] \/ List.filter f l = [x].
Proof.
  intros Hn. induction Hn as [|y l Hy Hn IH]; intros Hx; [now left|]. cbn. destruct (f y) eqn:Ef.
  - assert (y = x) as -> by (apply Hx; [now left|exact Ef]). right. f_equal.
    destruct IH as [E|E]; [intros; apply Hx; [now right|assumption]|exact E|]. exfalso. apply Hy.
    apply list_elem_of_In. apply (List.filter_In f x l). rewrite E. now left.
  - apply IH. intros z Hz. apply Hx. now right.
Qed.

(** A session fails at most the request holding its lock. *)
Lemma pending_answers_spec m s reason : obj_ok m s ->
  pending_answers s reason m = [] \/
  exists req tid, pending_answers s reason m = [(req, Aborted reason)] /\ s_lock s = Some (req, tid)
    /\ 0 <= req < m_requests m /\ answered req m = false.
Proof.
  intros (_ & Hp & Hl). unfold pending_answers.
  assert (forall tr, In tr (map_to_list (s_pending s)) -> negb (answered (snd tr) m) = true ->
    0 <= snd tr < m_requests m /\ s_lock s = Some (snd tr, fst tr)) as Hone.
  { intros [t r] Hin Hna. apply list_elem_of_In, elem_of_map_to_list in Hin. apply negb_true_iff in Hna. cbn in *.
    destruct (Hp t r Hin) as [Hb [Ha|El]]; [congruence|auto]. }
  destruct (s_lock s) as [[req tid]|] eqn:El.
  - destruct (filter_singleton (fun tr => negb (answered (snd tr) m)) (tid, req) (map_to_list (s_pending s))) as [E|E].
    + apply NoDup_map_to_list.
    + intros [t r] Hin Hna. destruct (Hone (t, r) Hin Hna) as [_ E]. cbn in E. congruence.
    + left. now rewrite E.
    + right. exists req, tid. rewrite E. split; [reflexivity|]. split; [reflexivity|].
      assert (In (tid, req) (map_to_list (s_pending s)) /\ negb (answered req m) = true) as [Hin Hna].
      { apply (List.filter_In (fun tr => negb (answered (snd tr) m)) (tid, req)). rewrite E. now left. }
      split; [exact (proj1 (Hone _ Hin Hna))|now apply negb_true_iff].
  - left. destruct (List.filter _ _) as [|tr l] eqn:E; [reflexivity|]. exfalso.
    assert (In tr (List.filter (fun tr => negb (answered (snd tr) m)) (map_to_list (s_pending s)))) as Hin by (rewrite E; now left).
    apply List.filter_In in Hin as [Hin Hna]. now destruct (Hone tr Hin Hna).
Qed.

(** Failing the pending futures answers each. *)
Lemma pending_answers_all m s reason t r : s_pending s !! t = Some r ->
  answered r (with_answers (pending_answers s reason m) m) = true.
Proof.
  intros H. rewrite answered_app. destruct (answered r m) eqn:Ea; [reflexivity|]. apply bool_decide_eq_true.
  unfold pending_answers. rewrite map_map. apply list_elem_of_In, in_map_iff. exists (t, r). split; [reflexivity|].
  apply List.filter_In. split; [|cbn; now rewrite Ea]. now apply list_elem_of_In, elem_of_map_to_list.
Qed.

Lemma drop_request_inv sid reason m : request_inv m -> request_inv (drop_session sid reason m).
Proof.
  intros Hinv. unfold drop_session. destruct (m_objs m !! sid) as [s|] eqn:Ho; [|exact Hinv].
  pose proof (qi_obj m Hinv sid s Ho) as Hs.
  apply (request_same (with_answers (pending_answers s reason m) (with_obj sid (with_pending ∅ (s_lock s) s) m)));
    [reflexivity..|].
  apply (request_update m sid s); [assumption..|now left| |].
  - destruct (pending_answers_spec m s reason Hs) as [->|(req & tid & -> & El & Hb & Ea)]; [now left|right; eauto].
  - destruct Hs as (Hw & Hp & Hl). split; [exact Hw|]. cbn [s_lock s_pending with_pending]. split.
    + intros t r H. now rewrite lookup_empty in H.
    + intros r t El. destruct (Hl r t El) as [Hb [Ha|Ht]]; (split; [exact Hb|left]).
      * now apply answered_mono.
      * now apply (pending_answers_all m s reason t).
Qed.

Lemma with_answers_nil m : request_inv (with_answers [] m) -> request_inv m.
Proof. apply request_same; try reflexivity. simpl. now rewrite app_nil_r. Qed.

Lemma obj_ok_same m m' s : m_requests m' = m_requests m -> m_answers m' = m_answers m -> obj_ok m s -> obj_ok m' s.
Proof. intros E1 E2. unfold obj_ok, answered. now rewrite E1, E2. Qed.

(** A session changes its PN or its transaction counter. *)
Lemma with_obj_request_inv m sid s s' : request_inv m -> m_objs m !! sid = Some s ->
  s_lock s' = s_lock s -> s_pending s' = s_pending s -> word_ok (s_tid s') -> request_inv (with_obj sid s' m).
Proof.
  intros Hinv Ho Hl Hp Hw. apply with_answers_nil, (request_update m sid s); auto.
  apply (obj_ok_same m); [reflexivity|simpl; now rewrite app_nil_r|].
  destruct (qi_obj m Hinv sid s Ho) as [_ H]. split; [exact Hw|]. now rewrite Hl, Hp.
Qed.

Lemma next_tid_word s : word_ok (s_tid (next_tid s)).
Proof.
  unfold word_ok. cbn [s_tid next_tid]. change 0xFFFF with (Z.ones 16). rewrite Z.land_ones by lia.
  pose proof (Z.mod_pos_bound (s_tid s + 1) (2 ^ 16)). change (Z.ones 16) with 65535. change (2 ^ 16) with 65536 in *. lia.
Qed.

Lemma accept_request_inv peer m : request_inv m -> request_inv (accept peer m).
Proof.
  intros [H1 H2 H3 H4 H5 H6].
  assert (Hold : forall k t, m_objs (accept peer m) !! k = Some t ->
    (k = m_next m /\ s_lock t = None /\ obj_ok (accept peer m) t) \/ m_objs m !! k = Some t).
  { intros k t. simpl. destruct (decide (k = m_next m)) as [->|Hne].
    - rewrite lookup_insert_eq. intros [= <-]. left. split; [reflexivity|]. split; [reflexivity|].
      split; [unfold word_ok; simpl; lia|]. cbn [s_pending s_lock]. split; [|easy]. intros t r H. now rewrite lookup_empty in H.
    - rewrite lookup_insert_ne by congruence. auto. }
  split; try assumption.
  - intros k t Hk. destruct (Hold k t Hk) as [[-> _]|Hk']; simpl; [lia|]. apply H1 in Hk'. lia.
  - intros k t Hk. destruct (Hold k t Hk) as [(_ & _ & Ht)|Hk']; [exact Ht|].
    apply (obj_ok_same m); try reflexivity. now apply (H2 k).
  - intros k k' t t' req tid tid' Hk Hk' L L'.
    destruct (Hold k t Hk) as [(_ & L0 & _)|E]; [congruence|].
    destruct (Hold k' t' Hk') as [(_ & L0 & _)|E']; [congruence|].
    exact (H3 _ _ _ _ _ _ _ E E' L L').
Qed.

Lemma frame_request_inv now sid h payload m : request_inv m -> request_inv (on_frame now sid h payload m).
Proof.
  intros Hinv. unfold on_frame. destruct (m_objs m !! sid) as [s|] eqn:Ho; [|exact Hinv].
  pose proof (qi_obj m Hinv sid s Ho) as (Hw & Hp & Hl).
  destruct (h_fcode h =? FC_HEARTBEAT); [|destruct (h_fcode h =? FC_FORWARD2DEVICE); [|exact Hinv]].
  - unfold on_heartbeat. destruct (negb _ && _); [|destruct (negb _); [|exact Hinv]].
    + unfold identify. set (m1 := with_obj sid _ m).
      assert (request_inv m1) as H1 by (now apply (with_obj_request_inv m sid s)).
      destruct (m_by_pn m1 !! _) as [old|]; [destruct (decide _)|].
      * now apply (request_same m1).
      * apply (request_same (drop_session old "replaced by reconnect with same PN" m1)); try reflexivity.
        now apply drop_request_inv.
      * now apply (request_same m1).
    + now apply (request_same m).
  - unfold on_forward. destruct (s_pending s !! h_tid h) as [req|] eqn:Et; [|exact Hinv].
    destruct (Hp _ _ Et) as [Hb _]. apply (request_update m sid s); [exact Hinv|exact Ho|now left| |].
    + destruct (answered req m) eqn:Ea; [now left|right; eauto].
    + assert (answered req (with_answers (if answered req m then [] else [(req, Reply payload)]) m) = true) as Hreq.
      { rewrite answered_app. destruct (answered req m); [reflexivity|]. apply bool_decide_eq_true. now apply list_elem_of_singleton. }
      split; [exact Hw|]. cbn [s_lock s_pending with_pending]. split.
      * intros t r H. apply lookup_delete_Some in H as [_ H]. destruct (Hp t r H) as [Hbr [Ha|El]]; (split; [exact Hbr|]);
          [left; now apply answered_mono|now right].
      * intros r t El. destruct (Hl r t El) as [Hbr [Ha|Ht]]; (split; [exact Hbr|]); [left; now apply answered_mono|].
        destruct (decide (t = h_tid h)) as [->|Hne]; [left; congruence|right]. now rewrite lookup_delete_ne.
Qed.

Lemma send_start_request_inv sid devaddr f s m : request_inv m -> m_objs m !! sid = Some s -> s_lock s = None ->
  request_inv (fst (send_start sid devaddr f m)).
Proof.
  intros Hinv Ho Hl. unfold send_start. rewrite Ho.
  destruct (build_forward2device _ _ _ _) as [frame|e]; cbn [fst];
    [|apply (with_obj_request_inv m sid s); auto using next_tid_word].
  pose proof (qi_obj m Hinv sid s Ho) as (Hw & Hp & _). destruct Hinv as [H1 H2 H3 H4 H5 H6].
  assert (Hlt : forall k t req tid, m_objs m !! k = Some t -> s_lock t = Some (req, tid) -> req < m_requests m).
  { intros k t req tid Hk L. destruct (H2 k t Hk) as (_ & _ & H). destruct (H req tid L). lia. }
  set (s' := with_pending _ _ (next_tid s)).
  assert (Hk : forall k t, <[sid := s']> (m_objs m) !! k = Some t -> (k = sid /\ t = s') \/ (k <> sid /\ m_objs m !! k = Some t)).
  { intros k t. destruct (decide (k = sid)) as [->|Hne]; [rewrite lookup_insert_eq; intros [= <-]; auto|].
    rewrite lookup_insert_ne by congruence. auto. }
  split; cbn [m_objs m_next m_requests m_answers with_obj with_sessions].
  - intros k t E. apply Hk in E as [[-> ->]|[_ E]]; eauto.
  - intros k t E. apply Hk in E as [[-> ->]|[_ E]]; [|apply (obj_ok_mono m); [simpl; lia|auto|now apply (H2 k)]].
    split; [apply next_tid_word|]. cbn [s_lock s_pending s' with_pending]. simpl m_requests. split.
    + intros t r H. apply lookup_insert_Some in H as [[<- <-]|[Hne H]]; [split; [lia|now right]|].
      destruct (Hp t r H) as [Hb [Ha|El]]; [split; [lia|now left]|congruence].
    + intros r t [= <- <-]. split; [lia|right]. apply lookup_insert_eq.
  - intros k k' t t' req tid tid' E E' L L'.
    apply Hk in E as [[-> ->]|[_ E]]; apply Hk in E' as [[-> ->]|[_ E']]; [reflexivity| | |].
    + cbn in L. injection L as <- _. pose proof (Hlt _ _ _ _ E' L'). lia.
    + cbn in L'. injection L' as <- _. pose proof (Hlt _ _ _ _ E L). lia.
    + exact (H3 _ _ _ _ _ _ _ E E' L L').
  - exact H4.
  - intros r Hr. apply H5 in Hr. lia.
  - lia.
Qed.

(** The request holding a lock leaves it, done. *)
Lemma lock_released_ok m s req tid p l : obj_ok m s -> s_lock s = Some (req, tid) ->
  (forall t r, p !! t = Some r -> s_pending s !! t = Some r) ->
  (answered req (with_answers l m) = true \/ p !! tid = None) ->
  obj_ok (with_answers l m) (with_pending p None s).
Proof.
  intros (Hw & Hp & _) El Hsub Hor. split; [exact Hw|]. cbn [s_lock s_pending with_pending]. split; [|easy].
  intros t r H. destruct (Hp t r (Hsub t r H)) as [Hb [Ha|El']]; (split; [exact Hb|left]); [now apply answered_mono|].
  rewrite El in El'. injection El' as -> ->. destruct Hor as [Ha|Hn]; [exact Ha|congruence].
Qed.

Lemma send_end_request_inv sid m : request_inv m -> request_inv (send_end sid m).
Proof.
  intros Hinv. unfold send_end. destruct (m_objs m !! sid) as [s|] eqn:Ho; [|exact Hinv].
  pose proof (qi_obj m Hinv sid s Ho) as Hs. destruct (s_lock s) as [[req tid]|] eqn:El; [|exact Hinv].
  pose proof Hs as (_ & _ & Hl). destruct (Hl req tid El) as [Hb _]. destruct (answered req m) eqn:Ea.
  - apply with_answers_nil, (request_update m sid s); auto. apply (lock_released_ok m s req tid); auto.
    left. now apply answered_mono.
  - apply (request_update m sid s); [exact Hinv|exact Ho|now right|right; eauto|]. apply (lock_released_ok m s req tid); auto.
    + intros t r H. now apply lookup_delete_Some in H as [_ H].
    + right. apply lookup_delete_eq.
Qed.

Lemma send_cancel_request_inv sid m : request_inv m -> request_inv (send_cancel sid m).
Proof.
  intros Hinv. unfold send_cancel. destruct (m_objs m !! sid) as [s|] eqn:Ho; [|exact Hinv].
  pose proof (qi_obj m Hinv sid s Ho) as Hs. destruct (s_lock s) as [[req tid]|] eqn:El; [|exact Hinv].
  pose proof Hs as (_ & _ & Hl). destruct (Hl req tid El) as [Hb _].
  apply (request_update m sid s); [exact Hinv|exact Ho|now right|destruct (answered req m) eqn:Ea; [now left|right; eauto]|].
  apply (lock_released_ok m s req tid); auto. left. rewrite answered_app. destruct (answered req m); [reflexivity|].
  apply bool_decide_eq_true. now apply list_elem_of_singleton.
Qed.

(** ** Reachable managers *)

Definition mgr_inv (m : mgr) : Prop := routing_inv m /\ request_inv m.

Lemma same_send_start sid devaddr f s m : m_objs m !! sid = Some s ->
  same_routing m (fst (send_start sid devaddr f m)).
Proof.
  intros Ho. unfold send_start. rewrite Ho. destruct (build_forward2device _ _ _ _); cbn [fst];
    [|now apply (same_with_obj m sid s)].
  split; [|repeat split; reflexivity]. intros k. unfold pn_of. simpl.
  destruct (decide (k = sid)) as [->|Hne]; [now rewrite lookup_insert_eq, Ho|].
  now rewrite lookup_insert_ne by congruence.
Qed.

Lemma same_send_end sid m : same_routing m (send_end sid m).
Proof.
  unfold send_end. destruct (m_objs m !! sid) as [s|] eqn:Ho; [|repeat split; reflexivity].
  destruct (s_lock s) as [[req tid]|]; [|repeat split; reflexivity].
  destruct (answered req m); [now apply (same_with_obj m sid s)|].
  apply (same_trans _ (with_obj sid (with_pending (delete tid (s_pending s)) None s) m)); [now apply (same_with_obj m sid s)|apply same_with_answers].
Qed.

Lemma same_send_cancel sid m : same_routing m (send_cancel sid m).
Proof.
  unfold send_cancel. destruct (m_objs m !! sid) as [s|] eqn:Ho; [|repeat split; reflexivity].
  destruct (s_lock s) as [[req tid]|]; [|repeat split; reflexivity].
  apply (same_trans _ (with_obj sid (with_pending (s_pending s) None s) m)); [now apply (same_with_obj m sid s)|apply same_with_answers].
Qed.

Lemma ready_event_inv p m : routing_inv m -> routing_inv (ready_event_for p m).
Proof.
  intros Hri. unfold ready_event_for. destruct (m_ready m !! p) as [b|] eqn:E; [exact Hri|].
  destruct Hri as [H1 H2 H3 H4 H5 H6 H8 H9]. split; simpl; try assumption.
  intros q. destruct (decide (q = p)) as [->|Hne]; [|rewrite lookup_insert_ne by congruence; apply H5].
  rewrite lookup_insert_eq. split; [discriminate|]. intros H. apply H5 in H. congruence.
Qed.

Lemma mstep_inv m m' : mstep m m' -> mgr_inv m -> mgr_inv m'.
Proof.
  intros Hs [Hr Hq]. destruct Hs as [peer m|now sid h payload m Hin|now sid m Hin|sid m|sid addr f s m Ho Hl|sid m|sid m|sid m|m|p m|t d m].
  - split; [now apply accept_inv|now apply accept_request_inv].
  - split; [now apply frame_inv|now apply frame_request_inv].
  - split; [now apply close_inv|]. unfold close.
    set (p := match m_objs m !! sid with Some s => s_pn s | None => _ end).
    pose proof (drop_request_inv sid "dongle disconnected" m Hq) as H.
    destruct (negb _ && _); now apply (request_same (drop_session sid "dongle disconnected" m)).
  - unfold heartbeat_tick. destruct (m_objs m !! sid) as [s|] eqn:Ho; [|now split]. split.
    + apply (routing_same m); [|exact Hr]. now apply (same_with_obj m sid s).
    + apply (with_obj_request_inv m sid s); auto using next_tid_word.
  - split; [|now apply (send_start_request_inv sid addr f s)].
    apply (routing_same m); [|exact Hr]. now apply (same_send_start sid addr f s).
  - split; [|now apply send_end_request_inv]. apply (routing_same m); [|exact Hr]. apply same_send_end.
  - split; [|now apply send_cancel_request_inv]. apply (routing_same m); [|exact Hr]. apply same_send_cancel.
  - split; [now apply drop_inv|now apply drop_request_inv].
  - split; [now apply clear_inv|now apply (request_same m)].
  - split; [now apply ready_event_inv|]. unfold ready_event_for. destruct (m_ready m !! p); [exact Hq|now apply (request_same m)].
  - split; [now apply (routing_same m)|now apply (request_same m)].
Qed.

Lemma reset_not_connected p reg : option_map status (dget p (reset_connection_state reg)) <> Some CONNECTED.
Proof.
  unfold reset_connection_state. induction reg as [|[q r] reg IH]; simpl; [discriminate|].
  destruct (String.eqb p q); [discriminate|exact IH].
Qed.

Lemma mgr_init_inv reg : mgr_inv (mgr_init (reset_connection_state reg)).
Proof.
  split.
  - split; simpl.
    + intros sid H. now apply not_elem_of_empty in H.
    + apply empty_subseteq.
    + intros sid. unfold pn_of. simpl. rewrite lookup_empty. intros [? [=]].
    + intros p sid. now rewrite lookup_empty.
    + intros p. rewrite !lookup_empty. split; [discriminate|intros [? [=]]].
    + unfold nonempty_set. now rewrite bool_decide_true by reflexivity.
    + intros p H. now apply reset_not_connected in H.
    + apply reset_not_connected.
  - split; simpl.
    + intros sid s. now rewrite lookup_empty.
    + intros sid s. now rewrite lookup_empty.
    + intros sid sid' s s' req tid tid'. now rewrite lookup_empty.
    + constructor.
    + intros req H. now apply elem_of_nil in H.
    + lia.
Qed.

(** The form keeps the status of a dongle, a new record being disconnected. *)
Lemma status_configured p q name addr proto en reg :
  option_map status (dget p (edit_registry (Configure q name addr proto en) reg))
  = if String.eqb p q then Some (status (ensure_record q reg)) else option_map status (dget p reg).
Proof.
  assert (forall (r r0 : DongleRecord) rg, ensure_record q (dset q r rg) = r) as He
    by (intros; unfold ensure_record; now rewrite dget_dset_eq).
  cbn [edit_registry]. unfold set_enabled, set_protocol, set_devaddr, set_name. cbv zeta.
  destruct (String.eqb_spec p q) as [->|Hne]; [|now rewrite !dget_dset_ne].
  rewrite dget_dset_eq, !He by exact (new_record q). reflexivity.
Qed.

Lemma ensure_status p reg : option_map status (dget p reg) = Some (status (ensure_record p reg)) \/ dget p reg = None.
Proof. unfold ensure_record. destruct (dget p reg); [now left|now right]. Qed.

(** An edit never shows as connected what was not. *)
Lemma edit_connected e p reg : option_map status (dget p (edit_registry e reg)) = Some CONNECTED ->
  option_map status (dget p reg) = Some CONNECTED.
Proof.
  destruct e as [q name addr proto en|q|stored].
  - rewrite status_configured. destruct (String.eqb_spec p q) as [->|Hne]; [|auto]. intros E.
    destruct (ensure_status q reg) as [->|Hn]; [exact E|]. unfold ensure_record in E. rewrite Hn in E. discriminate.
  - cbn [edit_registry]. unfold remove_record. destruct (decide (p = q)) as [->|Hne]; [now rewrite dget_dpop_eq|].
    now rewrite dget_dpop_ne.
  - cbn [edit_registry]. destruct reg; [|auto]. intros H. now apply reset_not_connected in H.
Qed.

(** An edit that does not remove a connected dongle leaves it connected. *)
Lemma edit_keeps e p reg : e <> Remove p -> option_map status (dget p reg) = Some CONNECTED ->
  option_map status (dget p (edit_registry e reg)) = Some CONNECTED.
Proof.
  intros He Hc. destruct e as [q name addr proto en|q|stored].
  - rewrite status_configured. destruct (String.eqb_spec p q) as [->|Hne]; [|exact Hc].
    destruct (ensure_status q reg) as [E|Hn]; [now rewrite <- E|]. rewrite Hn in Hc. discriminate.
  - cbn [edit_registry]. unfold remove_record. rewrite dget_dpop_ne; [exact Hc|congruence].
  - cbn [edit_registry]. destruct reg; [discriminate|exact Hc].
Qed.

Lemma edit_inv e m : mgr_inv m -> mgr_inv (run_edit e m).
Proof.
  intros [[H1 H2 H3 H4 H5 H6 H8 H9] Hq]. split; [|now apply (request_same m)]. split; try assumption.
  - intros p Hp. apply H8. exact (edit_connected e p (m_registry m) Hp).
  - intros Hp. apply H9. exact (edit_connected e "" (m_registry m) Hp).
Qed.

Lemma wstep_inv P m m' : wstep P m m' -> mgr_inv m -> mgr_inv m'.
Proof. intros [a b Hs|e a _]; [now apply mstep_inv|apply edit_inv]. Qed.

Lemma msteps_inv P m m' : msteps P m m' -> mgr_inv m -> mgr_inv m'.
Proof. induction 1 as [m|m1 m2 m3 Hs _ IH]; [auto|]. intros H. apply IH. now apply (wstep_inv P m1). Qed.

Lemma msteps_weaken (P Q : string -> Prop) m m' : (forall p, P p -> Q p) -> msteps P m m' -> msteps Q m m'.
Proof.
  intros HPQ. induction 1 as [m|m1 m2 m3 Hs _ IH]; [constructor|]. eapply rtc_l; [|exact IH].
  destruct Hs as [a b Hs|e a He]; [now apply ws_own|]. apply ws_edit. auto.
Qed.

Lemma mreach_inv reg m : mreach reg m -> mgr_inv m.
Proof. intros H. apply (msteps_inv _ _ _ H), mgr_init_inv. Qed.

Lemma mreach_steps reg m m' : mreach reg m -> msteps anyone m m' -> mreach reg m'.
Proof. exact (rtc_trans (mgr_init _) m m'). Qed.

(** [shutdown] without disturbance is steps of the manager. *)
Lemma shutdown_steps m : rtc mstep m (shutdown m).
Proof.
  unfold shutdown. generalize (elements (m_sessions m)) as l. intros l. revert m. induction l as [|k l IH]; intros m; simpl.
  - apply rtc_once, st_clear.
  - eapply rtc_l; [apply st_drop|apply IH].
Qed.

(** ** What the registry shows of a routed dongle *)

Lemma shown_same p m m' : m_by_pn m' = m_by_pn m -> m_registry m' = m_registry m -> shown p m -> shown p m'.
Proof. unfold shown, status_of. now intros -> ->. Qed.

Lemma drop_shown sid reason p m : routing_inv m -> shown p m -> shown p (drop_session sid reason m).
Proof.
  intros Hi H. unfold shown, status_of. rewrite (drop_by_pn sid reason m p Hi), (proj1 (proj2 (drop_running sid reason m))).
  intros Hp. apply H. destruct (m_by_pn m !! p); [eauto|exact Hp].
Qed.

Lemma seen_shown now p q peer m m' : m_by_pn m' !! p = m_by_pn m !! p \/ p = q ->
  m_registry m' = record_seen now q peer CONNECTED (m_registry m) -> shown p m -> shown p m'.
Proof.
  unfold shown, status_of. intros Hb -> H Hp. rewrite status_seen. destruct (String.eqb_spec p q) as [|Hne]; [reflexivity|].
  destruct Hb as [Hb|Hb]; [|congruence]. rewrite Hb in Hp. now apply H.
Qed.

Lemma identify_shown now q sid s p m : routing_inv m -> m_objs m !! sid = Some s -> s_pn s = ""%string ->
  shown p m -> shown p (identify now q sid s m).
Proof.
  intros Hi Ho Hs H. pose proof (with_pn_inv sid s q m Hi Ho Hs) as Hi1.
  unfold identify. set (m1 := with_obj sid (with_pn q s) m) in *.
  set (m2 := match m_by_pn m1 !! q with Some _ => _ | None => _ end).
  assert (shown p m2) as H2.
  { unfold m2. destruct (m_by_pn m1 !! q) as [old|]; [destruct (decide _)|]; [exact H| |exact H]. now apply drop_shown. }
  clearbody m2. apply (seen_shown now p q (s_peer s) m2); [|reflexivity|exact H2]. cbn.
  destruct (decide (p = q)) as [->|Hne]; [now right|left]. now rewrite lookup_insert_ne by congruence.
Qed.

Lemma close_shown now sid p m : routing_inv m -> shown p m -> shown p (close now sid m).
Proof.
  intros Hi H. apply (drop_shown sid "dongle disconnected") in H; [|exact Hi]. unfold close.
  set (q := match m_objs m !! sid with Some s => s_pn s | None => ""%string end).
  set (m1 := drop_session sid "dongle disconnected" m) in *. set (m2 := with_sessions _ _ _ _ _ _ m1).
  destruct (negb (String.eqb q "") && bool_decide (m_by_pn m2 !! q = None)) eqn:Eb; [|exact H].
  apply andb_prop in Eb as [_ Eb]. apply bool_decide_eq_true in Eb. intros Hp. change (is_Some (m_by_pn m2 !! p)) in Hp.
  assert (p <> q) as Hne by (intros ->; rewrite Eb in Hp; destruct Hp; discriminate).
  unfold status_of. cbn. change (mark_disconnected now q (m_registry m1)) with (live (m_registry m1) (Lost now q)).
  rewrite live_get. cbn [event_pn]. rewrite (proj2 (String.eqb_neq p q) Hne). exact (H Hp).
Qed.

Lemma frame_shown now sid h payload p m : routing_inv m -> shown p m -> shown p (on_frame now sid h payload m).
Proof.
  intros Hi H. unfold on_frame. destruct (m_objs m !! sid) as [s|] eqn:Ho; [|exact H]. destruct (_ =? FC_HEARTBEAT).
  - unfold on_heartbeat. destruct (String.eqb_spec (s_pn s) "") as [Es|Es].
    + rewrite andb_true_r. cbn [negb]. destruct (negb _); [now apply identify_shown|exact H].
    + rewrite andb_false_r. cbn [negb]. apply (seen_shown now p (s_pn s) (s_peer s) m); [now left|reflexivity|exact H].
  - destruct (_ =? FC_FORWARD2DEVICE); [|exact H]. unfold on_forward. destruct (s_pending s !! _); exact H.
Qed.

(** The coroutines of the manager keep the registry true to the routing. *)
Lemma mstep_shown p m m' : mstep m m' -> routing_inv m -> shown p m -> shown p m'.
Proof.
  intros Hs Hi H.
  destruct Hs as [peer m|now sid h payload m Hin|now sid m Hin|sid m|sid addr f s m Ho Hl|sid m|sid m|sid m|m|q m|t d m];
    try exact H; auto using frame_shown, close_shown, drop_shown.
  - unfold heartbeat_tick. destruct (m_objs m !! sid); exact H.
  - destruct (same_send_start sid addr f s m Ho) as (_ & _ & _ & _ & Eb & _ & _ & Er). now apply (shown_same p m).
  - destruct (same_send_end sid m) as (_ & _ & _ & _ & Eb & _ & _ & Er). now apply (shown_same p m).
  - destruct (same_send_cancel sid m) as (_ & _ & _ & _ & Eb & _ & _ & Er). now apply (shown_same p m).
  - intros Hp. cbn in Hp. rewrite lookup_empty in Hp. destruct Hp; discriminate.
  - unfold ready_event_for. destruct (m_ready m !! q); exact H.
Qed.

(** And so does the hub, unless the user removes the dongle. *)
Lemma steps_shown P p m m' : msteps P m m' -> ~ P p -> mgr_inv m -> shown p m -> shown p m'.
Proof.
  intros Hs Hp. induction Hs as [m|m1 m2 m3 Hs _ IH]; [auto|]. intros Hi H.
  apply IH; [now apply (wstep_inv P m1)|]. destruct Hs as [a b Hs|e a He]; [exact (mstep_shown p a b Hs (proj1 Hi) H)|].
  intros Hr. apply edit_keeps; [intros ->; now apply Hp, He|exact (H Hr)].
Qed.

Lemma own_steps P m m' : rtc mstep m m' -> msteps P m m'.
Proof. induction 1 as [m|m1 m2 m3 Hs _ IH]; [apply rtc_refl|]. exact (rtc_l _ m1 m2 m3 (ws_own P m1 m2 Hs) IH). Qed.

Lemma mserve_reach P reg m : mserve reg m -> mreach_by P reg m.
Proof. apply own_steps. Qed.

(** With no hub, every routed dongle is shown as connected. *)
Lemma mserve_shown reg m p : mserve reg m -> shown p m.
Proof.
  intros H. apply (steps_shown (fun _ => False) p _ m (mserve_reach _ reg m H)); [auto|apply mgr_init_inv|].
  intros Hp. cbn in Hp. rewrite lookup_empty in Hp. destruct Hp; discriminate.
Qed.

(** A heartbeat shows the dongle of its session. *)
Lemma heartbeat_shows now sid h payload p m : mgr_inv m -> sid ∈ m_running m -> h_fcode h = FC_HEARTBEAT ->
  m_by_pn (on_frame now sid h payload m) !! p = Some sid -> status_of p (on_frame now sid h payload m) = Some CONNECTED.
Proof.
  intros [Hi _] Hrun Eh Hp. pose proof (frame_inv now sid h payload m Hi Hrun) as Hi1.
  destruct (ri_map _ Hi1 p sid Hp) as (Hne & _ & Hpn). clear Hp Hi1. revert Hpn. unfold on_frame.
  destruct (m_objs m !! sid) as [s|] eqn:Ho.
  2:{ unfold pn_of. rewrite Ho. discriminate. }
  rewrite Eh, Z.eqb_refl. unfold on_heartbeat.
  assert (pn_of m sid = Some (s_pn s)) as E by (unfold pn_of; now rewrite Ho).
  destruct (String.eqb_spec (s_pn s) "") as [Es|Es]; [rewrite andb_true_r|rewrite andb_false_r]; cbn [negb].
  - destruct (negb _); [|rewrite E; congruence]. intros Hpn.
    assert (p = heartbeat_pn payload) as ->.
    { pose proof (identify_pn_of now (heartbeat_pn payload) sid s m) as Hid. rewrite Hpn in Hid. now injection Hid. }
    unfold identify, status_of. cbv zeta. cbn [m_registry with_registry]. rewrite status_seen, String.eqb_refl. reflexivity.
  - change (pn_of m sid = Some p -> option_map status (dget p (record_seen now (s_pn s) (s_peer s) CONNECTED (m_registry m))) = Some CONNECTED).
    rewrite E. intros [= ->]. now rewrite status_seen, String.eqb_refl.
Qed.

(** And leaves it routed to that session. *)
Lemma heartbeat_routes now sid h payload p m : routing_inv m -> h_fcode h = FC_HEARTBEAT ->
  m_by_pn m !! p = Some sid -> m_by_pn (on_frame now sid h payload m) !! p = Some sid.
Proof.
  intros Hi Eh Hp. destruct (ri_map m Hi p sid Hp) as (Hne & _ & Hpn). unfold pn_of in Hpn. unfold on_frame.
  destruct (m_objs m !! sid) as [s|]; [|discriminate]. injection Hpn as Es. rewrite Eh, Z.eqb_refl. unfold on_heartbeat.
  rewrite Es, (proj2 (String.eqb_neq p "") Hne), andb_false_r. exact Hp.
Qed.

Lemma drop_answers sid reason m : exists l, m_answers (drop_session sid reason m) = m_answers m ++ l
  /\ forall req pl, (req, Reply pl) ∉ l.
Proof.
  unfold drop_session. destruct (m_objs m !! sid) as [s|]; simpl;
    [exists (pending_answers s reason m)|exists []; rewrite app_nil_r]; (split; [reflexivity|]); intros req pl Hin;
    [|now apply elem_of_nil in Hin].
  unfold pending_answers in Hin. apply list_elem_of_In, in_map_iff in Hin as (tr & E & _). discriminate.
Qed.

(** A dropped session has no request left waiting. *)
Lemma drop_settles sid reason m s req tid : request_inv m -> m_objs m !! sid = Some s ->
  s_lock s = Some (req, tid) -> answered req (drop_session sid reason m) = true.
Proof.
  intros Hinv Ho El. unfold drop_session. rewrite Ho.
  destruct (qi_obj m Hinv sid s Ho) as (_ & _ & Hl). destruct (Hl req tid El) as [_ [Ha|Ht]].
  - rewrite answered_app. change (answered req (with_sessions _ _ _ _ _ _ m)) with (answered req m). now rewrite Ha.
  - exact (pending_answers_all m s reason tid req Ht).
Qed.

Lemma answered_grow l req m m' : m_answers m' = m_answers m ++ l -> answered req m = true -> answered req m' = true.
Proof.
  unfold answered. intros -> H. apply bool_decide_eq_true in H. apply bool_decide_eq_true.
  rewrite map_app. apply elem_of_app. now left.
Qed.

Lemma drop_lock sid reason m k : s_lock <$> m_objs (drop_session sid reason m) !! k = s_lock <$> m_objs m !! k.
Proof.
  unfold drop_session. destruct (m_objs m !! sid) as [s|] eqn:E; [|reflexivity]. simpl.
  destruct (decide (k = sid)) as [->|Hne]; [now rewrite lookup_insert_eq, E|].
  now rewrite lookup_insert_ne by congruence.
Qed.

Lemma drop_all_settles reason l : forall m sid req tid, request_inv m ->
  s_lock <$> m_objs m !! sid = Some (Some (req, tid)) -> sid ∈ l \/ answered req m = true ->
  answered req (foldl (fun m sid => drop_session sid reason m) m l) = true.
Proof.
  induction l as [|k l IH]; intros m sid req tid Hinv El Hor; simpl.
  - destruct Hor as [H|H]; [now apply elem_of_nil in H|exact H].
  - apply (IH _ sid req tid); [now apply drop_request_inv|now rewrite drop_lock|].
    destruct Hor as [H|H].
    + apply elem_of_cons in H as [->|H]; [|now left]. right.
      destruct (m_objs m !! k) as [s|] eqn:Ho; [|discriminate]. simpl in El. injection El as El.
      now apply (drop_settles k reason m s req tid).
    + right. destruct (drop_answers k reason m) as (l' & E & _). now apply (answered_grow l' req m).
Qed.

(** Answers are only added. *)
Lemma drop_all_answers reason l : forall m,
  m_answers m `prefix_of` m_answers (foldl (fun m sid => drop_session sid reason m) m l).
Proof.
  induction l as [|k l IH]; intros m; simpl; [reflexivity|]. etransitivity; [|apply IH].
  destruct (drop_answers k reason m) as (l' & -> & _). apply prefix_app_r. reflexivity.
Qed.

Lemma mstep_answers m m' : mstep m m' -> m_answers m `prefix_of` m_answers m'.
Proof.
  assert (forall l m, m_answers m `prefix_of` m_answers (with_answers l m)) as Hw by (intros; now apply prefix_app_r).
  assert (forall sid reason m, m_answers m `prefix_of` m_answers (drop_session sid reason m)) as Hd
    by (intros; apply (drop_all_answers _ [_])).
  intros [peer a|now sid h payload a Hin|now sid a Hin|sid a|sid addr f s a Ho Hl|sid a|sid a|sid a|a|p a|t d a]; try reflexivity.
  - unfold on_frame. destruct (m_objs a !! sid) as [s|]; [|reflexivity]. destruct (_ =? FC_HEARTBEAT).
    + unfold on_heartbeat. destruct (negb _ && _); [|destruct (negb _); reflexivity].
      unfold identify. cbv zeta. set (m1 := with_obj sid _ a). destruct (m_by_pn m1 !! heartbeat_pn payload) as [old|]; [|reflexivity].
      destruct (decide _); [reflexivity|]. exact (Hd old "replaced by reconnect with same PN"%string m1).
    + destruct (_ =? FC_FORWARD2DEVICE); [|reflexivity]. unfold on_forward. destruct (s_pending s !! _); [|reflexivity].
      exact (Hw _ (with_obj sid _ a)).
  - unfold close. destruct (negb _ && _); exact (Hd sid "dongle disconnected"%string a).
  - unfold heartbeat_tick. destruct (m_objs a !! sid); reflexivity.
  - unfold send_start. rewrite Ho. destruct (build_forward2device _ _ _ _); reflexivity.
  - unfold send_end. destruct (m_objs a !! sid) as [s|]; [|reflexivity]. destruct (s_lock s) as [[req tid]|]; [|reflexivity].
    destruct (answered req a); [reflexivity|]. exact (Hw _ (with_obj sid _ a)).
  - unfold send_cancel. destruct (m_objs a !! sid) as [s|]; [|reflexivity]. destruct (s_lock s) as [[req tid]|]; [|reflexivity].
    exact (Hw _ (with_obj sid _ a)).
  - apply Hd.
  - unfold ready_event_for. destruct (m_ready a !! p); reflexivity.
Qed.

Lemma steps_answers P m m' : msteps P m m' -> m_answers m `prefix_of` m_answers m'.
Proof.
  induction 1 as [m|m1 m2 m3 Hs _ IH]; [reflexivity|]. transitivity (m_answers m2); [|exact IH].
  destruct Hs as [a b Hs|e a _]; [now apply mstep_answers|reflexivity].
Qed.

(** A future is done in one way only. *)
Lemma answer_unique m req a b : request_inv m -> (req, a) ∈ m_answers m -> (req, b) ∈ m_answers m -> a = b.
Proof.
  intros Hq Ha Hb. pose proof (qi_once m Hq) as Hn. induction (m_answers m) as [|[r x] l IH]; [now apply elem_of_nil in Ha|].
  simpl in Hn. apply NoDup_cons in Hn as [Hr Hn].
  assert (forall c, (req, c) ∈ l -> req ∈ map fst l) as Hfst.
  { intros c Hc. apply list_elem_of_In, (in_map fst l (req, c)), list_elem_of_In, Hc. }
  apply elem_of_cons in Ha as [Ea|Ha], Hb as [Eb|Hb]; [congruence| | |now apply IH];
    exfalso; apply Hr; [injection Ea as <- _|injection Eb as <- _]; eauto.
Qed.

(** A frame answers only the request it carries the transaction id of. *)
Lemma frame_reply now sid h payload m req pl : request_inv m ->
  (req, Reply pl) ∈ m_answers (on_frame now sid h payload m) -> (req, Reply pl) ∉ m_answers m ->
  pl = payload /\ h_fcode h = FC_FORWARD2DEVICE
  /\ exists s, m_objs m !! sid = Some s /\ s_lock s = Some (req, h_tid h).
Proof.
  intros Hq. unfold on_frame.
  destruct (m_objs m !! sid) as [s|] eqn:Ho; [|intros; contradiction].
  destruct (h_fcode h =? FC_HEARTBEAT).
  { unfold on_heartbeat. destruct (negb _ && _); [|destruct (negb _); intros; contradiction].
    unfold identify. set (m1 := with_obj sid _ m). destruct (m_by_pn m1 !! _) as [old|]; [destruct (decide _)|];
      simpl; intros Hin Hni; try contradiction.
    exfalso. apply Hni. destruct (drop_answers old "replaced by reconnect with same PN" m1) as (l & E & Hl).
    rewrite E in Hin. apply elem_of_app in Hin as [Hin|Hin]; [exact Hin|now apply Hl in Hin]. }
  destruct (Z.eqb_spec (h_fcode h) FC_FORWARD2DEVICE) as [Ef|]; [|intros; contradiction].
  unfold on_forward. destruct (s_pending s !! h_tid h) as [req'|] eqn:Et; [|intros; contradiction].
  simpl. rewrite elem_of_app. intros [Hin|Hin] Hni; [contradiction|].
  destruct (answered req' m) eqn:Ea; [now apply elem_of_nil in Hin|].
  apply list_elem_of_singleton in Hin. injection Hin as -> ->. split; [reflexivity|]. split; [exact Ef|].
  exists s. split; [reflexivity|]. destruct (qi_obj m Hq sid s Ho) as (_ & Hs & _).
  destruct (Hs _ _ Et) as [_ [Ha'|El]]; [congruence|exact El].
Qed.

(** ** Properties *)

(** C8: whatever the connections, the requests and the hub's devices form do, a PN
    routes to a session that is being served and announced exactly that PN, so two
    PNs never share a session; a request for a PN only ever resolves to such a
    session and a PN-less one only to the single connected session; the ready flags
    are exact; the discovery registry shows as connected no dongle without a served
    session, and every routed dongle but those the user removed with the form; a
    removed one stays routed, and from its next heartbeat on is shown as connected
    until it is unrouted or removed again. *)
Theorem dongle_routing (removed : string -> Prop) (reg : dongles) (m : mgr) (Hr : mreach_by removed reg m) :
  (forall p sid, m_by_pn m !! p = Some sid ->
     p <> ""%string /\ sid ∈ m_running m /\ pn_of m sid = Some p /\ (~ removed p -> status_of p m = Some CONNECTED))
  /\ (forall now sid h payload p, sid ∈ m_running m -> h_fcode h = FC_HEARTBEAT ->
        let m1 := on_frame now sid h payload m in
        (m_by_pn m !! p = Some sid -> m_by_pn m1 !! p = Some sid)
        /\ (m_by_pn m1 !! p = Some sid -> forall later, msteps (fun q => q <> p) m1 later ->
              is_Some (m_by_pn later !! p) -> status_of p later = Some CONNECTED))
  /\ (forall p sid, m_by_pn m !! p = Some sid -> m_by_pn (run_edit (Remove p) m) !! p = Some sid
        /\ status_of p (run_edit (Remove p) m) = None)
  /\ (forall p later sid, mreach_by removed reg later -> wait_for_session (Some p) m (Some later) = Some sid ->
        pn_of m sid = Some p \/ pn_of later sid = Some p)
  /\ (forall sid, wait_for_session None m None = Some sid -> m_sessions m = {[sid]})
  /\ (forall p, m_ready m !! p = Some true <-> is_Some (m_by_pn m !! p))
  /\ (m_any_ready m = true <-> m_sessions m <> ∅)
  /\ (forall p, status_of p m = Some CONNECTED -> exists sid, sid ∈ m_running m /\ pn_of m sid = Some p).
Proof.
  assert (forall m, mreach_by removed reg m -> mgr_inv m) as Hinv by (intros a Ha; apply (msteps_inv _ _ _ Ha), mgr_init_inv).
  pose proof (Hinv m Hr) as Hi. pose proof (proj1 Hi) as [H1 H2 H3 H4 H5 H6 H8 H9].
  assert (m_any_ready m = true <-> m_sessions m <> ∅) as Hany by (rewrite H6; apply nonempty_set_true).
  refine (conj _ (conj _ (conj _ (conj _ (conj _ (conj H5 (conj Hany H8))))))).
  - intros p sid Hp. destruct (H4 p sid Hp) as (? & ? & ?). do 3 (split; [assumption|]). intros Hn.
    apply (steps_shown removed p _ m Hr Hn (mgr_init_inv reg)); [|eauto]. intros Hp0. cbn in Hp0. rewrite lookup_empty in Hp0.
    destruct Hp0; discriminate.
  - intros now sid h payload p Hrun Eh m1. split; [now apply heartbeat_routes|]. intros Hp later Hs.
    assert (mgr_inv m1) as Hi1 by (exact (mstep_inv m m1 (st_frame now sid h payload m Hrun) Hi)).
    apply (steps_shown _ p m1 later Hs); [auto|exact Hi1|]. intros _. now apply heartbeat_shows.
  - intros p sid Hp. split; [exact Hp|]. unfold status_of. cbn. unfold remove_record. now rewrite dget_dpop_eq.
  - intros p later sid Hl Hw. unfold wait_for_session in Hw. destruct (m_by_pn m !! p) as [k|] eqn:E.
    + injection Hw as <-. left. now apply H4.
    + right. destruct (Hinv later Hl) as [Hri _]. now apply (ri_map later Hri).
  - intros sid Hw. unfold wait_for_session, pnless_target in Hw. destruct (nonempty_set (m_sessions m)); [|discriminate].
    destruct (elements (m_sessions m)) as [|k [|k' l]] eqn:E; try discriminate. injection Hw as <-.
    apply set_eq. intros x. rewrite <- elem_of_elements, E, elem_of_singleton. apply list_elem_of_singleton.
Qed.

(** C10: each request is answered at most once; a future that is
    pending and not done belongs to the request that holds its session; a received
    frame gives a reply only to the request whose transaction id it carries, on the
    session that request was sent on, with that frame's payload; and a request that
    was cancelled is never given a reply, though its future stays pending: a late or
    stray reply is never taken for another request's. *)
Theorem replies_match_requests (reg : dongles) (m : mgr) (Hr : mreach reg m) :
  NoDup (map fst (m_answers m))
  /\ (forall sid s tid req, m_objs m !! sid = Some s -> s_pending s !! tid = Some req -> answered req m = false ->
        s_lock s = Some (req, tid))
  /\ (forall now sid h payload req pl,
        (req, Reply pl) ∈ m_answers (on_frame now sid h payload m) -> (req, Reply pl) ∉ m_answers m ->
        pl = payload /\ h_fcode h = FC_FORWARD2DEVICE
        /\ exists s, m_objs m !! sid = Some s /\ s_lock s = Some (req, h_tid h))
  /\ (forall sid s req tid later pl, m_objs m !! sid = Some s -> s_lock s = Some (req, tid) -> answered req m = false ->
        msteps anyone (send_cancel sid m) later -> (req, Reply pl) ∉ m_answers later).
Proof.
  destruct (mreach_inv reg m Hr) as [_ Hq]. split; [apply Hq|]. split; [|split].
  - intros sid s tid req Ho Hp Ha. destruct (qi_obj m Hq sid s Ho) as (_ & Hs & _).
    destruct (Hs tid req Hp) as [_ [Ha'|El]]; [congruence|exact El].
  - intros now sid h payload req pl. now apply frame_reply.
  - intros sid s req tid later pl Ho El Ha Hsteps Hin.
    assert (mgr_inv later) as [_ Hql].
    { apply (msteps_inv _ (send_cancel sid m) later Hsteps). apply (mstep_inv m); [constructor|exact (mreach_inv reg m Hr)]. }
    assert ((req, Cancelled) ∈ m_answers later) as Hc.
    { eapply elem_of_prefix; [|apply (steps_answers _ _ _ Hsteps)]. unfold send_cancel. rewrite Ho, El, Ha. simpl.
      apply elem_of_app. right. now apply list_elem_of_singleton. }
    pose proof (answer_unique later req _ _ Hql Hin Hc). discriminate.
Qed.

(** C35: when a session's connection ends, or the manager shuts down,
    every request still waiting on it is answered at once, and its PN no longer
    routes to it. *)
Theorem disconnect_fails_pending (reg : dongles) (m : mgr) (Hr : mreach reg m)
    (sid : Z) (s : session) (req tid : Z)
    (Ho : m_objs m !! sid = Some s) (El : s_lock s = Some (req, tid)) :
  (forall now, answered req (close now sid m) = true
     /\ forall p, m_by_pn (close now sid m) !! p <> Some sid)
  /\ (sid ∈ m_sessions m -> answered req (shutdown m) = true).
Proof.
  destruct (mreach_inv reg m Hr) as [Hri Hq]. split.
  - intros now. split.
    + pose proof (drop_settles sid "dongle disconnected" m s req tid Hq Ho El) as H.
      unfold close. destruct (negb _ && _); exact H.
    + intros p. pose proof (drop_by_pn sid "dongle disconnected" m p Hri) as H.
      assert (m_by_pn (close now sid m) = m_by_pn (drop_session sid "dongle disconnected" m)) as ->
        by (unfold close; destruct (negb _ && _); reflexivity).
      rewrite H. destruct (m_by_pn m !! p); [|discriminate]. destruct (decide _); [discriminate|congruence].
  - intros Hin. unfold shutdown.
    apply (drop_all_settles "manager shutting down" (elements (m_sessions m)) m sid req tid Hq).
    + now rewrite Ho, <- El.
    + left. now apply elem_of_elements.
Qed.

(** ** Witnesses *)

Definition hb_header : EyHeader :=
  {| h_tid := 1; h_devcode := 0; h_wire_len := 16; h_devaddr := 1; h_fcode := FC_HEARTBEAT |}.
Definition reply_header : EyHeader :=
  {| h_tid := 1; h_devcode := DEFAULT_DEVCODE; h_wire_len := 6; h_devaddr := 1; h_fcode := FC_FORWARD2DEVICE |}.

Definition demo_identified : mgr :=
  on_frame "t" 0 hb_header (b_ "Q0011223344556") (accept "10.0.0.9:1" (mgr_init [])).
Definition demo_sent : mgr := fst (send_start 0 1 (b_ "QMOD") demo_identified).

Lemma demo_identified_serve : mserve [] demo_identified.
Proof.
  eapply rtc_l; [apply st_accept|]. eapply rtc_l; [|apply rtc_refl]. apply st_frame. simpl.
  now apply elem_of_union_l, elem_of_singleton.
Qed.

Lemma demo_identified_steps P : mreach_by P [] demo_identified.
Proof. exact (mserve_reach P [] _ demo_identified_serve). Qed.

Lemma demo_identified_reach : mreach [] demo_identified.
Proof. apply demo_identified_steps. Qed.

Lemma demo_sent_reach : mreach [] demo_sent.
Proof.
  eapply rtc_r; [exact demo_identified_reach|].
  eapply ws_own, (st_send 0 1 (b_ "QMOD")); [vm_compute; reflexivity|reflexivity].
Qed.

(** The user removes the connected dongle; its next heartbeat brings it back. *)
Definition demo_removed : mgr := run_edit (Remove "Q0011223344556") demo_identified.

Lemma dongle_routing_witness :
  m_by_pn demo_identified !! "Q0011223344556"%string = Some 0
  /\ status_of "Q0011223344556" demo_identified = Some CONNECTED
  /\ status_of "Q0011223344556" demo_removed = None
  /\ status_of "Q0011223344556" (on_frame "u" 0 hb_header [] demo_removed) = Some CONNECTED.
Proof.
  assert (m_by_pn demo_identified !! "Q0011223344556"%string = Some 0) as E by (vm_compute; reflexivity).
  destruct (dongle_routing (fun _ => False) [] demo_identified (demo_identified_steps _)) as (Hmap & _ & Hrem & _).
  split; [exact E|]. split; [now apply (proj2 (proj2 (proj2 (Hmap _ _ E))))|]. split; [apply (Hrem _ _ E)|].
  assert (mreach_by anyone [] demo_removed) as Hr
    by (eapply rtc_r; [apply demo_identified_steps|]; now apply ws_edit).
  destruct (dongle_routing anyone [] demo_removed Hr) as (_ & Hb & _).
  destruct (Hb "u"%string 0 hb_header [] "Q0011223344556"%string) as [Hk Hc]; [apply (Hmap _ _ E)|reflexivity|].
  apply (Hc (Hk E) _ (rtc_refl _ _)). rewrite (Hk E). eauto.
Defined.

Lemma replies_match_requests_witness :
  NoDup (map fst (m_answers demo_sent))
  /\ m_answers (on_frame "u" 0 reply_header [66] demo_sent) = [(0, Reply [66])].
Proof.
  split; [exact (proj1 (replies_match_requests [] demo_sent demo_sent_reach))|vm_compute; reflexivity].
Defined.

Lemma disconnect_fails_pending_witness : answered 0 (close "u" 0 demo_sent) = true.
Proof.
  destruct (m_objs demo_sent !! 0) as [s|] eqn:E; [|vm_compute in E; discriminate].
  assert (s_lock s = Some (0, 1)) as El by (vm_compute in E; injection E as <-; reflexivity).
  exact (proj1 (proj1 (disconnect_fails_pending [] demo_sent demo_sent_reach 0 s 0 1 E El) "u"%string)).
Defined.
