(* ===== verification/Adapters.v ===== *)
(** The adapters and the dispatcher: [api/adapters/base.py], [factory.py],
    [pi18.py], [eybond.py], the write halves of [voltronic.py] and [agent.py],
    [api/dispatcher.py], and the send wrappers of
    [api/protocols/eybond_dongle.py].

    An adapter is its record of operations over a world [W] (the register
    transport and snapshot cache of the Modbus adapter); the other connections
    are functions given with the adapter. *)

From Stdlib Require Import ZArith List Bool Lia String Ascii.
From S2P Require Import Prelude PyStr PyInt PyFloat FloatFacts PyDict Crc Enums Voltronic Pi18 ModbusRtu ModbusAdapter Transports AgentHttp Discovery EybondFrame.
Import ListNotations.
#[local] Open Scope string_scope.
#[local] Open Scope list_scope.
#[local] Open Scope Z_scope.

(** ** [BaseAdapter] *)

Record adapter (W : Type) := {
  a_get_data : string -> W -> res pydict * W;
  a_set_data : string -> W -> res pydict * W;
  a_set_setting : option (string -> pyval -> W -> res pydict * W);
  a_battery_type : BatteryTypeSetting -> W -> res pydict * W;
  a_output_priority : OutputSourcePrioritySetting -> W -> res pydict * W;
  a_charge_priority : ChargeSourcePrioritySetting -> W -> res pydict * W;
  a_bulk_voltage : float -> W -> res pydict * W;
  a_float_voltage : float -> W -> res pydict * W;
  a_rated_voltage : Z -> W -> res pydict * W;
  a_combined_current : Z -> W -> res pydict * W;
  a_charge_current : Z -> W -> res pydict * W;
  a_utility_current : Z -> bool -> W -> res pydict * W
}.
Arguments a_get_data {W}. Arguments a_set_data {W}. Arguments a_set_setting {W}.
Arguments a_battery_type {W}. Arguments a_output_priority {W}. Arguments a_charge_priority {W}.
Arguments a_bulk_voltage {W}. Arguments a_float_voltage {W}. Arguments a_rated_voltage {W}.
Arguments a_combined_current {W}. Arguments a_charge_current {W}. Arguments a_utility_current {W}.

(** The format [0w.1f] of an integer. *)
Definition fmt_0f1 (w : nat) (n : Z) : string :=
  let s := fmt_f 1 (fabs (float_of_Z n)) in
  let sign := if n <? 0 then "-" else "" in
  (sign ++ zeros (w - String.length sign - String.length s) ++ s)%string.

Definition bulk_command (voltage : float) : string := ("PBAV" ++ fmt_f 2 voltage)%string.
Definition float_command (voltage : float) : string := ("PBFV" ++ fmt_f 2 voltage)%string.
Definition rated_command (voltage : Z) : string := ("PBRV" ++ str_of_int voltage)%string.
Definition combined_command (amps : Z) : string := ("MNCHGC" ++ fmt_0d 3 amps)%string.
Definition charge_command (amps : Z) : string := ("PBATC" ++ fmt_0d 3 amps)%string.
Definition utility_command (amps : Z) (float_format : bool) : string :=
  ("MUCHGC" ++ (if float_format then fmt_0f1 4 amps else fmt_0d 3 amps))%string.

(** The defaults every adapter inherits: a Voltronic command through [set_data]. *)
Definition base_adapter {W} (get_data set_data : string -> W -> res pydict * W) : adapter W := {|
  a_get_data := get_data;
  a_set_data := set_data;
  a_set_setting := None;
  a_battery_type t := set_data (enum_value t);
  a_output_priority p := set_data (enum_value p);
  a_charge_priority p := set_data (enum_value p);
  a_bulk_voltage v := set_data (bulk_command v);
  a_float_voltage v := set_data (float_command v);
  a_rated_voltage v := set_data (rated_command v);
  a_combined_current a := set_data (combined_command a);
  a_charge_current a := set_data (charge_command a);
  a_utility_current a ff := set_data (utility_command a ff)
|}.

(** An operation that leaves the world alone. *)
Definition ret {W A} (r : res A) (w : W) : res A * W := (r, w).

(** ** Voltronic and PI18 *)

(** [conn] is the stream a query reads, [set_conn] what a TCP set command reads. *)
Definition voltronic_set_data (uri command : string) (strict_crc : bool) (conn : connection)
    (set_conn : res (option bytes)) (exn_str : exn -> string) : res pydict :=
  if startswith uri "tcp://" then
    rbind (parse_tcp_uri uri) (fun _ => Ok (send_voltronic_set_command command set_conn exn_str))
  else Ok (voltronic_get_data uri command strict_crc conn).

Definition voltronic_adapter {W} (uri : string) (strict_crc : bool) (conn : string -> connection)
    (set_conn : string -> res (option bytes)) (exn_str : exn -> string) : adapter W :=
  base_adapter (fun c => ret (Ok (voltronic_get_data uri c strict_crc (conn c))))
               (fun c => ret (voltronic_set_data uri c strict_crc (conn c) (set_conn c) exn_str)).

Definition pi18_adapter {W} (uri : string) (strict_crc : bool) (conn : string -> connection) : adapter W :=
  let get_data c := ret (query_pi18 uri c strict_crc (conn c)) in
  base_adapter get_data get_data.

(** ** EyBond

    [send] is [send_eybond_bytes] for the adapter's URI: [None] without a reply. *)

Definition send_eybond_voltronic (device command : string) (protocol : option string)
    (send : bytes -> res (option bytes)) : res (option bytes) :=
  let is_pi18 := match protocol with Some p => String.eqb p "pi18" | None => false end in
  rbind (if is_pi18 || startswith device "eybond-pi18://" then build_request_frame command
         else build_pi30_frame command) send.

Definition classify_set_response (response : option bytes) : pydict :=
  match response with
  | None => [("error", VStr "no response")]
  | Some r =>
      if bcontains (b_ "ACK") r || bstartswith r (b_ "^1") then [("status", VStr "ACK")]
      else if bcontains (b_ "NAK") r || bstartswith r (b_ "^0") then [("status", VStr "NAK")]
      else match r with
           | [] => [("error", VStr "empty response")]
           | _ => [("raw", VStr (decode_ascii_ignore r))]
           end
  end.

Definition send_eybond_set_command (device command : string) (protocol : option string)
    (send : bytes -> res (option bytes)) : res pydict :=
  rmap classify_set_response (send_eybond_voltronic device command protocol send).

Definition eybond_is_pi18 (uri : string) : bool := startswith uri "eybond-pi18://".
Definition eybond_protocol (uri : string) : option string :=
  if eybond_is_pi18 uri then Some "pi18" else None.

Definition eybond_decode (is_pi18 : bool) (command : string) (response : bytes) : pydict :=
  rcatch (if is_pi18 then decode_pi18_response command response
          else decode_direct_response command (decode_ascii_ignore (bbefore CR response))) [].

Definition eybond_get_data (uri command : string) (send : bytes -> res (option bytes)) : res pydict :=
  rmap (fun response =>
      match response with
      | None | Some [] => []
      | Some r => eybond_decode (eybond_is_pi18 uri) command r
      end)
    (send_eybond_voltronic uri command (eybond_protocol uri) send).

(** [strict_crc] is kept by the adapter and not used. *)
Definition eybond_adapter {W} (uri : string) (strict_crc : bool) (send : bytes -> res (option bytes)) : adapter W :=
  base_adapter (fun c => ret (eybond_get_data uri c send))
               (fun c => ret (send_eybond_set_command uri c (eybond_protocol uri) send)).

(** ** Agent *)

Definition OUTPUT_PRIORITY_TO_AGENT (m : OutputSourcePrioritySetting) : string :=
  match m with
  | OutputSourcePrioritySetting_UTILITY_FIRST => "UtilityFirst"
  | OutputSourcePrioritySetting_SBU_PRIORITY => "SBU"
  | OutputSourcePrioritySetting_SOLAR_FIRST => "SolarFirst"
  end.
Definition CHARGER_PRIORITY_TO_AGENT (m : ChargeSourcePrioritySetting) : string :=
  match m with
  | ChargeSourcePrioritySetting_UTILITY_FIRST => "UtilityFirst"
  | ChargeSourcePrioritySetting_SOLAR_FIRST => "SolarFirst"
  | ChargeSourcePrioritySetting_SOLAR_AND_UTILITY => "SolarAndUtility"
  end.

Definition agent_set_data_refused : pydict :=
  [("error", VStr "raw set_data is not supported for Agent; use semantic setters or set_setting")].

Definition agent_adapter {W} (uri : string) (get : string -> http_reply) (post : string -> pydict -> http_reply)
    : adapter W :=
  let set_setting k v := ret (post_agent_setting post uri k v) in
  let base := base_adapter (W := W) (fun c => ret (agent_get_data get uri c))
                (fun _ => ret (Ok agent_set_data_refused)) in
  {| a_get_data := a_get_data base;
     a_set_data := a_set_data base;
     a_set_setting := Some set_setting;
     a_battery_type := a_battery_type base;
     a_output_priority m := set_setting "output_source_priority" (VStr (OUTPUT_PRIORITY_TO_AGENT m));
     a_charge_priority m := set_setting "charger_source_priority" (VStr (CHARGER_PRIORITY_TO_AGENT m));
     a_bulk_voltage v := set_setting "bulk_charging_voltage" (VFloat v);
     a_float_voltage v := set_setting "float_charging_voltage" (VFloat v);
     a_rated_voltage := a_rated_voltage base;
     a_combined_current a := set_setting "max_charging_current" (VInt a);
     a_charge_current a := set_setting "max_charging_current" (VInt a);
     a_utility_current a _ := set_setting "max_utility_charging_current" (VInt a) |}.

(** ** Modbus

    The world is the snapshot cache and the register transport. *)

Section ModbusAdapterOps.
Context {S : Type} `{RegisterTransport S}.

(** A register write, which leaves the snapshot cache as it is. *)
Definition on_transport (f : S -> res pydict * S) (w : snapshot_cache * S) : res pydict * (snapshot_cache * S) :=
  let '(r, s) := f (snd w) in (r, (fst w, s)).

Definition modbus_adapter (uri : string) (now : float) : adapter (snapshot_cache * S) :=
  let base := base_adapter (W := snapshot_cache * S) (modbus_get_data uri now) (fun c => ret (Ok (modbus_set_data c))) in
  {| a_get_data := a_get_data base;
     a_set_data := a_set_data base;
     a_set_setting := None;
     a_battery_type := a_battery_type base;
     a_output_priority m := on_transport (modbus_set_output_source_priority m);
     a_charge_priority m := on_transport (modbus_set_charge_source_priority m);
     a_bulk_voltage v := on_transport (modbus_set_battery_bulk_voltage v);
     a_float_voltage v := on_transport (modbus_set_battery_float_voltage v);
     a_rated_voltage := a_rated_voltage base;
     a_combined_current a := on_transport (modbus_set_max_combined_charge_current a);
     a_charge_current a := on_transport (modbus_set_battery_charge_current a);
     a_utility_current a _ := on_transport (modbus_set_max_utility_charge_current a) |}.
End ModbusAdapterOps.

(** ** [get_adapter] *)

Inductive adapter_kind := KAgent | KModbus | KPI18 | KEyBond | KVoltronic.

Definition get_adapter (device_uri : string) : adapter_kind :=
  if startswith device_uri "agent://" then KAgent
  else if existsb (startswith device_uri) ["modbus://"; "eybond-modbus://"] then KModbus
  else if existsb (startswith device_uri) ["pi18://"; "pi18-serial://"] then KPI18
  else if existsb (startswith device_uri) ["eybond://"; "eybond-pi18://"] then KEyBond
  else KVoltronic.

(** The outside of the process, per device URI. *)
Record network := {
  n_conn : string -> string -> connection;
  n_set_conn : string -> string -> res (option bytes);
  n_exn_str : exn -> string;
  n_http_get : string -> http_reply;
  n_http_post : string -> pydict -> http_reply;
  n_dongle : string -> bytes -> res (option bytes)
}.

Section Dispatch.
Context {S : Type} `{RegisterTransport S} (net : network) (now : float).

Definition adapter_for (uri : string) (strict_crc : bool) : adapter (snapshot_cache * S) :=
  match get_adapter uri with
  | KAgent => agent_adapter uri (n_http_get net) (n_http_post net)
  | KModbus => modbus_adapter uri now
  | KPI18 => pi18_adapter uri strict_crc (n_conn net uri)
  | KEyBond => eybond_adapter uri strict_crc (n_dongle net uri)
  | KVoltronic => voltronic_adapter uri strict_crc (n_conn net uri) (n_set_conn net uri) (n_exn_str net)
  end.

(** ** The dispatcher *)

Definition get_direct_data (device command_str : string) (strict_crc : bool) :=
  a_get_data (adapter_for device strict_crc) (upper command_str).

Definition set_direct_data (device command_str : string) :=
  a_set_data (adapter_for device false) (upper command_str).

Definition set_direct_data_agent (device setting_key : string) (value : pyval) (w : snapshot_cache * S) :=
  match a_set_setting (adapter_for device false) with
  | Some set => set setting_key value w
  | None => (Ok [("error", VStr "Adapter does not support generic set_setting")], w)
  end.

Definition set_battery_type (device : string) (t : BatteryTypeSetting) :=
  a_battery_type (adapter_for device false) t.
Definition set_output_source_priority (device : string) (m : OutputSourcePrioritySetting) :=
  a_output_priority (adapter_for device false) m.
Definition set_charge_source_priority (device : string) (m : ChargeSourcePrioritySetting) :=
  a_charge_priority (adapter_for device false) m.
Definition set_battery_bulk_voltage (device : string) (v : float) := a_bulk_voltage (adapter_for device false) v.
Definition set_battery_float_voltage (device : string) (v : float) := a_float_voltage (adapter_for device false) v.
Definition set_rated_battery_voltage (device : string) (v : Z) := a_rated_voltage (adapter_for device false) v.
Definition set_max_combined_charge_current (device : string) (a : Z) := a_combined_current (adapter_for device false) a.
Definition set_battery_charge_current (device : string) (a : Z) := a_charge_current (adapter_for device false) a.
Definition set_max_utility_charge_current (device : string) (a : Z) (ff : bool) :=
  a_utility_current (adapter_for device false) a ff.
End Dispatch.

(** ** The settings a client can ask of an adapter *)

Inductive setting :=
| SetRaw (command : string)
| SetBatteryType (t : BatteryTypeSetting)
| SetOutputPriority (m : OutputSourcePrioritySetting)
| SetChargePriority (m : ChargeSourcePrioritySetting)
| SetBulkVoltage (v : float)
| SetFloatVoltage (v : float)
| SetRatedVoltage (v : Z)
| SetCombinedCurrent (a : Z)
| SetChargeCurrent (a : Z)
| SetUtilityCurrent (a : Z) (float_format : bool).

Definition apply_setting {W} (a : adapter W) (x : setting) : W -> res pydict * W :=
  match x with
  | SetRaw c => a_set_data a c
  | SetBatteryType t => a_battery_type a t
  | SetOutputPriority m => a_output_priority a m
  | SetChargePriority m => a_charge_priority a m
  | SetBulkVoltage v => a_bulk_voltage a v
  | SetFloatVoltage v => a_float_voltage a v
  | SetRatedVoltage v => a_rated_voltage a v
  | SetCombinedCurrent n => a_combined_current a n
  | SetChargeCurrent n => a_charge_current a n
  | SetUtilityCurrent n ff => a_utility_current a n ff
  end.

Fixpoint apply_settings {W} (a : adapter W) (xs : list setting) (w : W) : W :=
  match xs with
  | [] => w
  | x :: xs => apply_settings a xs (snd (apply_setting a x w))
  end.

(** The settings only a serial protocol knows. *)
Definition serial_only (x : setting) : Prop :=
  match x with SetRaw _ | SetBatteryType _ | SetRatedVoltage _ => True | _ => False end.

(** ** Lemmas *)

(** The adapter of a scheme. *)
Definition scheme_kind (sch : string) : adapter_kind :=
  if String.eqb sch "agent" then KAgent
  else if String.eqb sch "modbus" || String.eqb sch "eybond-modbus" then KModbus
  else if String.eqb sch "pi18" || String.eqb sch "pi18-serial" then KPI18
  else if String.eqb sch "eybond" || String.eqb sch "eybond-pi18" then KEyBond
  else KVoltronic.

(** A scheme text holds no [:]. *)
Definition scheme_text (sch : string) : Prop := Forall (fun c => Ascii.eqb c ":" = false) (chars sch).

Lemma scheme_text_dec sch : forallb (fun c => negb (Ascii.eqb c ":")) (chars sch) = true -> scheme_text sch.
Proof.
  intros H. apply Forall_forall. intros c Hc. rewrite forallb_forall in H. apply H in Hc.
  now apply negb_true_iff in Hc.
Qed.

Lemma app_sep_inj (a b : list ascii) x y :
  Forall (fun c => Ascii.eqb c ":" = false) a -> Forall (fun c => Ascii.eqb c ":" = false) b ->
  a ++ ":"%char :: x = b ++ ":"%char :: y -> a = b.
Proof.
  revert b. induction a as [|c a IH]; intros [|d b] Ha Hb E; cbn [app] in E; auto; injection E as Ec E.
  - inversion Hb; subst. discriminate.
  - inversion Ha; subst. discriminate.
  - inversion Ha; inversion Hb; subst. f_equal. now apply IH.
Qed.

Lemma startswith_scheme sch p rest : scheme_text sch -> scheme_text p ->
  startswith (sch ++ "://" ++ rest)%string (p ++ "://")%string = String.eqb sch p.
Proof.
  intros Hs Hp. unfold startswith. destruct (String.eqb_spec sch p) as [->|Hne].
  - replace (p ++ "://" ++ rest)%string with ((p ++ "://") ++ rest)%string; [apply prefix_app|].
    apply chars_inj. rewrite !chars_app. now rewrite <- app_assoc.
  - apply not_true_iff_false. intros H. apply prefix_inv in H as [r E]. apply Hne.
    apply chars_inj. apply (f_equal chars) in E. rewrite !chars_app, <- app_assoc in E.
    exact (app_sep_inj _ _ _ _ Hs Hp E).
Qed.

Lemma child_uri_scheme r host port bc ann : exists rest,
  build_child_uri r host port bc ann = (child_scheme r ++ "://" ++ rest)%string.
Proof.
  unfold build_child_uri. cbv zeta. generalize (child_scheme r) (str_of_int port) (str_of_int (devaddr r)).
  intros a p d. match goal with |- exists rest, (_ ++ "?" ++ ?q)%string = _ => generalize q end. intros q.
  exists (host ++ ":" ++ p ++ "/" ++ d ++ "?" ++ q)%string.
  apply chars_inj. repeat rewrite chars_app. now repeat rewrite <- app_assoc.
Qed.

(** The text a fixed-decimals command carries for a decimal [n / 100]. *)
Lemma fmt_hundredths n : 0 <= n < 2 ^ 40 -> fmt_f 2 (fdiv_nz (float_of_Z n) (float_of_Z 100)) = fixed_text 2 n.
Proof.
  intros Hn. change (float_of_Z 100) with (float_of_Z (Zpos 100)). rewrite (fmt_scaled n 100 1 2) by (reflexivity || lia).
  destruct (Z.ltb_spec n 0); [lia|]. now rewrite Z.abs_eq, Z.mul_1_r by lia.
Qed.

Section ModbusSettings.
Context {S : Type} `{RegisterTransport S} (uri : string) (now : float).

(** A setter touches the transport only. *)
Lemma modbus_setting_cache x (w : snapshot_cache * S) :
  fst (snd (apply_setting (modbus_adapter uri now) x w)) = fst w.
Proof.
  destruct x; cbn [apply_setting modbus_adapter base_adapter a_set_data a_battery_type a_output_priority
    a_charge_priority a_bulk_voltage a_float_voltage a_rated_voltage a_combined_current a_charge_current
    a_utility_current]; unfold on_transport, ret; try reflexivity;
    match goal with |- context [let '(_, _) := ?e in _] => destruct e end; reflexivity.
Qed.

Lemma modbus_settings_cache xs (w : snapshot_cache * S) :
  fst (apply_settings (modbus_adapter uri now) xs w) = fst w.
Proof.
  revert w. induction xs as [|x xs IH]; intros w; [reflexivity|]. cbn [apply_settings].
  now rewrite IH, modbus_setting_cache.
Qed.
End ModbusSettings.

(** ** Properties *)

(** The adapter depends only on the URI's scheme, whatever follows
    it: one adapter per documented scheme and the Voltronic one for everything
    else; and the URI of every pollable hub child selects the adapter of the
    protocol the child is configured with. *)
Theorem factory_by_scheme (sch rest : string) (Hs : scheme_text sch) :
  get_adapter (sch ++ "://" ++ rest) = scheme_kind sch
  /\ forall r host port bc ann, is_pollable r = true ->
       get_adapter (build_child_uri r host port bc ann)
       = (if String.eqb (child_scheme r) "eybond-modbus" then KModbus else KEyBond)
       /\ (child_scheme r = "eybond-modbus" <-> protocol r = Some "modbus")
       /\ (eybond_is_pi18 (build_child_uri r host port bc ann) = true <-> protocol r = Some "pi18").
Proof.
  assert (Hgen : forall sch rest, scheme_text sch -> get_adapter (sch ++ "://" ++ rest) = scheme_kind sch).
  { intros s r H. unfold get_adapter, scheme_kind. cbn [existsb].
    assert (forall p, scheme_text p -> startswith (s ++ "://" ++ r)%string (p ++ "://")%string = String.eqb s p) as E
      by (intros p Hp; now apply startswith_scheme).
    change "agent://" with ("agent" ++ "://")%string. change "eybond-modbus://" with ("eybond-modbus" ++ "://")%string.
    change "modbus://" with ("modbus" ++ "://")%string. change "eybond-pi18://" with ("eybond-pi18" ++ "://")%string.
    change "pi18://" with ("pi18" ++ "://")%string. change "pi18-serial://" with ("pi18-serial" ++ "://")%string.
    change "eybond://" with ("eybond" ++ "://")%string.
    rewrite (E "agent"), (E "modbus"), (E "eybond-modbus"), (E "pi18"), (E "pi18-serial"), (E "eybond"), (E "eybond-pi18")
      by (now apply scheme_text_dec). now rewrite !orb_false_r. }
  split; [now apply Hgen|]. intros r host port bc ann Hp.
  unfold is_pollable in Hp. apply andb_prop in Hp as [_ Hp].
  destruct (protocol r) as [p|] eqn:Epr; [|discriminate].
  assert (Hsch : child_scheme r = "eybond" /\ p = "voltronic" \/ child_scheme r = "eybond-pi18" /\ p = "pi18"
                 \/ child_scheme r = "eybond-modbus" /\ p = "modbus").
  { unfold child_scheme. rewrite Epr. cbn [existsb SUPPORTED_CHILD_PROTOCOLS] in Hp. rewrite !orb_true_iff in Hp.
    destruct Hp as [Hp|[Hp|[Hp|Hp]]]; try discriminate; apply String.eqb_eq in Hp; subst p; auto. }
  pose proof (child_uri_scheme r host port bc ann) as [rest' E].
  rewrite E. unfold eybond_is_pi18.
  assert (scheme_text (child_scheme r)) as Ht by (destruct Hsch as [[-> _]|[[-> _]|[-> _]]]; now apply scheme_text_dec).
  rewrite Hgen by exact Ht.
  change "eybond-pi18://" with ("eybond-pi18" ++ "://")%string.
  rewrite startswith_scheme by (exact Ht || now apply scheme_text_dec).
  destruct Hsch as [[-> ->]|[[-> ->]|[-> ->]]]; (split; [reflexivity|]); split; split; intros Hx;
    try discriminate; try reflexivity; congruence.
Qed.

(** A charge-current limit of 0 to 999 A and a voltage of
    [n / 100] V reach a serial-protocol adapter as a command of fixed shape
    whose digits read back as exactly the value chosen. *)
Theorem set_commands_exact {W} (get_data set_data : string -> W -> res pydict * W)
    (amps n : Z) (w : W) (Ha : 0 <= amps < 1000) (Hn : 0 <= n < 2 ^ 40) :
  let a := base_adapter get_data set_data in
  let v := fdiv_nz (float_of_Z n) (float_of_Z 100) in
  (exists d, a_combined_current a amps w = set_data ("MNCHGC" ++ d)%string w
     /\ a_charge_current a amps w = set_data ("PBATC" ++ d)%string w
     /\ a_utility_current a amps false w = set_data ("MUCHGC" ++ d)%string w
     /\ String.length d = 3%nat /\ py_int d = Ok amps)
  /\ a_bulk_voltage a v w = set_data ("PBAV" ++ fixed_text 2 n)%string w
  /\ a_float_voltage a v w = set_data ("PBFV" ++ fixed_text 2 n)%string w.
Proof.
  intros a v. split.
  - exists (fmt_0d 3 amps). split; [reflexivity|]. split; [reflexivity|]. split; [reflexivity|].
    split; [apply fmt_0d_length; [exact Ha|lia]|]. apply py_int_fmt_0d; [unfold max_str_digits; lia|].
    apply Z.lt_le_trans with (10 ^ 3); [lia|]. apply Z.pow_le_mono_r; [lia|]. unfold max_str_digits. lia.
  - unfold a, v. cbn [a_bulk_voltage a_float_voltage base_adapter]. unfold bulk_command, float_command.
    now rewrite fmt_hundredths.
Qed.

(** Reading through a dongle never checks the frame: whatever the
    strict setting, the result depends on the reply only up to its carriage
    return and on no checksum, so frames the strict setting promises to drop
    are decoded. *)
Theorem eybond_ignores_crc {W} (uri command : string) (strict : bool) (send : bytes -> res (option bytes))
    (frame reply : bytes) (w : W) (Hp : eybond_is_pi18 uri = false)
    (Hf : build_pi30_frame command = Ok frame) (Hs : send frame = Ok (Some reply)) (Hr : reply <> []) :
  a_get_data (eybond_adapter uri strict send) command w
  = (Ok (rcatch (decode_direct_response command (decode_ascii_ignore (bbefore CR reply))) []), w).
Proof.
  cbn [a_get_data eybond_adapter base_adapter ret]. unfold ret, eybond_get_data, send_eybond_voltronic, eybond_protocol.
  rewrite Hp. unfold eybond_is_pi18 in Hp. rewrite Hp. cbn [orb]. rewrite Hf. cbn [rbind]. rewrite Hs.
  cbn [rmap rbind]. destruct reply; [congruence|]. reflexivity.
Qed.

(** A setting written through the Modbus adapter does not
    invalidate the snapshot cache: whatever is written, every read within the
    cache lifetime answers from the registers read before the write, without
    using the transport. *)
Theorem modbus_read_after_write_stale {S} `{RegisterTransport S} (uri command : string) (t now ts : float)
    (xs : list setting) (cache : snapshot_cache) (s : S) (snap : option snapshot)
    (Hc : dget uri cache = Some (ts, snap)) (Hfresh : flt (fsub now ts) SNAPSHOT_TTL = true) :
  let w := apply_settings (modbus_adapter uri t) xs (cache, s) in
  a_get_data (modbus_adapter uri now) command w = (project command snap, w).
Proof.
  intros w. pose proof (modbus_settings_cache uri t xs (cache, s)) as Hw. fold w in Hw.
  destruct w as [c' s'] eqn:Ew. cbn [fst] in Hw. subst c'.
  cbn [a_get_data modbus_adapter base_adapter]. unfold modbus_get_data.
  now rewrite (cached_snapshot_hit uri now ts snap cache s' Hc Hfresh).
Qed.

(** The Modbus and Agent adapters refuse raw commands, battery
    types and rated voltages with an [error] entry before any register write or
    HTTP request: the world is unchanged. *)
Theorem serial_only_settings_refused {S} `{RegisterTransport S} (net : network) (now : float)
    (device : string) (strict : bool) (x : setting) (w : snapshot_cache * S) (Hx : serial_only x)
    (Hk : get_adapter device = KModbus \/ get_adapter device = KAgent) :
  exists message, apply_setting (adapter_for net now device strict) x w = (Ok [("error", VStr message)], w).
Proof.
  unfold adapter_for.
  destruct Hk as [-> | ->]; destruct x; destruct Hx; eexists; reflexivity.
Qed.

(** ** Witnesses *)

Definition polled_dongle : DongleRecord := with_config (ensure_record "W0012" []) "" true (Some "pi18") 1.

Lemma factory_by_scheme_witness :
  get_adapter "eybond://0.0.0.0:8899/1" = KEyBond
  /\ get_adapter (build_child_uri polled_dongle "0.0.0.0" 8899 "" None) = KEyBond.
Proof.
  destruct (factory_by_scheme "eybond" "0.0.0.0:8899/1" (scheme_text_dec "eybond" eq_refl)) as [H1 H2].
  split; [exact H1|]. exact (proj1 (H2 polled_dongle "0.0.0.0" 8899 "" None eq_refl)).
Defined.

Lemma set_commands_exact_witness :
  a_combined_current (base_adapter (W := unit) (fun c => ret (Ok [])) (fun c => ret (Ok [("sent", VStr c)]))) 60 tt
  = (Ok [("sent", VStr "MNCHGC060")], tt)
  /\ a_bulk_voltage (base_adapter (W := unit) (fun c => ret (Ok [])) (fun c => ret (Ok [("sent", VStr c)])))
       (fdiv_nz (float_of_Z 5640) (float_of_Z 100)) tt = (Ok [("sent", VStr "PBAV56.40")], tt).
Proof.
  pose proof (set_commands_exact (W := unit) (fun c => ret (Ok [])) (fun c => ret (Ok [("sent", VStr c)])) 60 5640 tt
    ltac:(lia) ltac:(lia)) as [_ [H _]].
  split; [reflexivity|exact H].
Defined.

Lemma eybond_ignores_crc_witness :
  a_get_data (eybond_adapter (W := unit) "eybond://0.0.0.0:8899/1" true
     (fun _ => Ok (Some (b_ "(B" ++ [0; 0; 13])))) "QMOD" tt
  = (Ok [("operating_mode", VEnum "OperatingMode" "Battery")], tt).
Proof.
  rewrite (eybond_ignores_crc "eybond://0.0.0.0:8899/1" "QMOD" true (fun _ => Ok (Some (b_ "(B" ++ [0; 0; 13])))
    (match build_pi30_frame "QMOD" with Ok f => f | Raise _ => [] end) (b_ "(B" ++ [0; 0; 13]) tt eq_refl);
    [vm_compute; reflexivity|vm_compute; reflexivity|reflexivity|discriminate].
Defined.

Lemma modbus_read_after_write_stale_witness :
  exists snap cache,
    cached_snapshot (H := demo_transport) "modbus://h:502" (float_of_Z 100) ([], tt) = (snap, (cache, tt))
    /\ a_get_data (modbus_adapter (H := demo_transport) "modbus://h:502" (float_of_Z 102)) "QPIRI"
         (apply_settings (modbus_adapter (H := demo_transport) "modbus://h:502" (float_of_Z 101))
            [SetOutputPriority OutputSourcePrioritySetting_SBU_PRIORITY; SetCombinedCurrent 60] (cache, tt))
       = (project "QPIRI" snap,
          apply_settings (modbus_adapter (H := demo_transport) "modbus://h:502" (float_of_Z 101))
            [SetOutputPriority OutputSourcePrioritySetting_SBU_PRIORITY; SetCombinedCurrent 60] (cache, tt)).
Proof.
  destruct (cached_snapshot (H := demo_transport) "modbus://h:502" (float_of_Z 100) ([], tt)) as [snap [cache []]] eqn:E.
  exists snap, cache. split; [reflexivity|].
  assert (dget "modbus://h:502" cache = Some (float_of_Z 100, snap)) as Hts
    by (unfold cached_snapshot in E; cbn [dget] in E; destruct (read_smg2_snapshot_via tt) as [r u];
        injection E as <- <-; reflexivity).
  exact (modbus_read_after_write_stale (H := demo_transport) "modbus://h:502" "QPIRI" (float_of_Z 101) (float_of_Z 102)
    (float_of_Z 100) _ cache tt snap Hts eq_refl).
Defined.

Definition offline : network := {|
  n_conn _ _ := Raise (OSError "unreachable");
  n_set_conn _ _ := Raise (OSError "unreachable");
  n_exn_str _ := "offline";
  n_http_get _ := Raise TimeoutError;
  n_http_post _ _ := Raise TimeoutError;
  n_dongle _ _ := Ok None |}.

Lemma serial_only_settings_refused_witness :
  exists message,
    apply_setting (adapter_for (H := demo_transport) offline (float_of_Z 0) "agent://h:1/x" false) (SetRatedVoltage 48)
      ([], tt) = (Ok [("error", VStr message)], ([], tt)).
Proof.
  exact (serial_only_settings_refused (H := demo_transport) offline (float_of_Z 0) "agent://h:1/x" false
    (SetRatedVoltage 48) ([], tt) I (or_intror eq_refl)).
Defined.
