(* ===== verification/Entities.v ===== *)
(** What the entity classes share: the inverter they belong to ([hub.py]), the
    coordinator's data they read, and the attributes a class declares to Home
    Assistant ([sensors/direct_sensor.py], [binary_sensor.py]). *)

From Stdlib Require Import ZArith List Bool Lia String Ascii Floats.SpecFloat.
From S2P Require Import Prelude PyStr PyInt PyFloat PyDict.
Import ListNotations.
#[local] Open Scope string_scope.
#[local] Open Scope list_scope.
#[local] Open Scope Z_scope.

(** ** The inverter *)

Record InverterDevice := { i_id : string; i_name : string; i_uri : string; i_protocol : option string }.

Definition FIRMWARE_VERSION : string := "0.0.1".

(** The device registry entry every entity of an inverter gives. *)
Record DeviceInfo := {
  identifiers : list (string * string);
  di_name : string;
  sw_version : string;
  di_model : string;
  manufacturer : string
}.

Definition DOMAIN : string := "dess_monitor_local".

(** [DirectSensorBase.device_info] *)
Definition device_info (d : InverterDevice) : DeviceInfo := {|
  identifiers := [(DOMAIN, i_id d)]; di_name := i_name d; sw_version := FIRMWARE_VERSION; di_model := i_id d;
  manufacturer := "ESS" |}.

(** ** The coordinator's data *)

(** The data of one inverter: sections by name. *)
Definition sections := dict pydict.

Definition section (name : string) (data : sections) : pydict :=
  match dget name data with Some s => s | None => [] end.

(** [d[k]] *)
Definition index {V} (k : string) (d : dict V) : res V :=
  match dget k d with Some v => Ok v | None => Raise (KeyError k) end.

(** [coordinator.data]: [None] before the first poll, else the data per inverter. *)
Definition coordinator_data := option (dict sections).

(** [DirectSensorBase.available] *)
Definition available (d : InverterDevice) (data : coordinator_data) : bool :=
  match data with Some by_id => dmem (i_id d) by_id | None => false end.

(** [DirectSensorBase.data] *)
Definition device_data (d : InverterDevice) (data : coordinator_data) : res sections :=
  match data with
  | Some by_id => index (i_id d) by_id
  | None => Raise (TypeError "'NoneType' object is not subscriptable")
  end.

(** An entity that is available has data: reading it does not raise. *)
Lemma available_data d data : available d data = true -> exists s, device_data d data = Ok s.
Proof.
  unfold available, device_data, index, dmem. destruct data as [by_id|]; [|discriminate].
  destruct (dget (i_id d) by_id) as [s|]; [now exists s|discriminate].
Qed.

(** ** Declared attributes *)

Module SensorDeviceClass.
Inductive t := POWER | TEMPERATURE | VOLTAGE | CURRENT | APPARENT_POWER | FREQUENCY | ENUM | POWER_FACTOR | BATTERY | ENERGY
             | DURATION | TIMESTAMP.
End SensorDeviceClass.

Module SensorStateClass.
Inductive t := MEASUREMENT | TOTAL_INCREASING.
End SensorStateClass.

Module EntityCategory.
Inductive t := DIAGNOSTIC | CONFIG.
End EntityCategory.

(** A unit: a constant of Home Assistant, or a text. *)
Inductive unit_of_measurement :=
| WATT | CELSIUS | VOLT | AMPERE | VOLT_AMPERE | HERTZ | WATT_HOUR | HOURS | PERCENTAGE
| UnitText (s : string).

(** What a sensor class declares; [None] where it declares nothing. *)
Record entity_attrs := {
  a_device_class : option SensorDeviceClass.t;
  a_state_class : option SensorStateClass.t;
  a_unit : option unit_of_measurement;
  a_precision : option Z;
  a_category : option EntityCategory.t;
  a_icon : option string
}.

(** A class that declares nothing. *)
Definition no_attrs : entity_attrs :=
  {| a_device_class := None; a_state_class := None; a_unit := None; a_precision := None; a_category := None; a_icon := None |}.

(** A measured quantity, as most of the numeric base classes. *)
Definition measured (c : option SensorDeviceClass.t) (u : unit_of_measurement) (precision : Z) : entity_attrs :=
  {| a_device_class := c; a_state_class := Some SensorStateClass.MEASUREMENT; a_unit := Some u; a_precision := Some precision;
     a_category := None; a_icon := None |}.

Definition with_category (c : EntityCategory.t) (a : entity_attrs) : entity_attrs :=
  {| a_device_class := a_device_class a; a_state_class := a_state_class a; a_unit := a_unit a; a_precision := a_precision a;
     a_category := Some c; a_icon := a_icon a |}.
Definition with_icon (i : string) (a : entity_attrs) : entity_attrs :=
  {| a_device_class := a_device_class a; a_state_class := a_state_class a; a_unit := a_unit a; a_precision := a_precision a;
     a_category := a_category a; a_icon := Some i |}.

(** ** Sensors that read one key

    The constructor arguments of [DirectTypedSensorBase], with the attributes of
    its class. *)
Record typed_sensor := {
  ts_attrs : entity_attrs;
  ts_section : string;
  ts_key : string;
  ts_suffix : string;
  ts_name : string
}.

Definition typed_sensor_of (a : entity_attrs) (sec key suffix name : string) : typed_sensor :=
  {| ts_attrs := a; ts_section := sec; ts_key := key; ts_suffix := suffix; ts_name := name |}.

(** [_attr_unique_id]; its part after the id of the inverter. *)
Definition unique_suffix (s : typed_sensor) : string :=
  ("direct_" ++ (if String.eqb (ts_suffix s) "" then ts_key s else ts_suffix s))%string.
Definition unique_id (d : InverterDevice) (s : typed_sensor) : string := (i_id d ++ "_" ++ unique_suffix s)%string.

(** [_attr_name], for a class that gives its name. *)
Definition typed_sensor_name (d : InverterDevice) (s : typed_sensor) : string := (i_name d ++ " Direct " ++ ts_name s)%string.

(** ** What Home Assistant accepts

    A sensor that declares a state class, a unit or a precision, or a device class
    other than the enumeration and the timestamp, must have a number for its state;
    a sensor of the enumeration class must have one of its options, and may not
    declare a state class or a unit. A state of any other kind raises when it is
    written; [None] (unknown) is always accepted. *)
Definition numeric_expected (a : entity_attrs) : bool :=
  match a_device_class a with
  | Some SensorDeviceClass.ENUM | Some SensorDeviceClass.TIMESTAMP => false
  | c => match a_state_class a, a_unit a, a_precision a, c with None, None, None, None => false | _, _, _, _ => true end
  end.

Definition is_enum_class (a : entity_attrs) : bool :=
  match a_device_class a with Some SensorDeviceClass.ENUM => true | _ => false end.

Definition is_timestamp_class (a : entity_attrs) : bool :=
  match a_device_class a with Some SensorDeviceClass.TIMESTAMP => true | _ => false end.

(** The declaration is consistent: options exactly for the enumeration class. *)
Definition declaration_ok (a : entity_attrs) (options : option (list string)) : bool :=
  match options with
  | Some _ => is_enum_class a && match a_state_class a, a_unit a with None, None => true | _, _ => false end
  | None => negb (is_enum_class a)
  end.

Definition accepted (a : entity_attrs) (options : option (list string)) (v : pyval) : bool :=
  match v with
  | VNone => true
  | _ => match options with
         | Some opts => match v with VStr s => existsb (String.eqb s) opts | _ => false end
         | None => if is_timestamp_class a then match v with VTime _ => true | _ => false end
                   else if numeric_expected a then match v with VFloat _ | VInt _ => true | _ => false end
                   else true
         end
  end.
