(* ===== verification/EnergySensors.v ===== *)
(** Energy accumulators: the [DirectEnergySensorBase] family of
    [sensors/direct_energy_sensors.py].

    Each sensor integrates a power reading over the monotonic clock. An update
    is a function of the clock, the coordinator's section dict for the inverter
    ([Raise] when there is none) and the sensor; it gives the new sensor and
    what [async_write_ha_state] published, in order. *)

From Stdlib Require Import ZArith List Bool Lia String Ascii Sorted Floats.SpecFloat.
From S2P Require Import Prelude PyStr PyInt PyFloat FloatFacts FloatMono PyDict Sanity Entities.
Import ListNotations.
#[local] Open Scope string_scope.
#[local] Open Scope list_scope.
#[local] Open Scope Z_scope.

(** ** Readings *)

(** What an update finds: nothing new, a reading to discard, or a power. *)
Inductive reading := NoSample | BadSample | Sample (power : float).

(** [except (KeyError, ValueError, TypeError)] *)
Definition is_data_error (e : exn) : bool := is_KeyError e || is_ValueError e || is_TypeError e.

Definition or_reading (r : reading) (x : res reading) : res reading :=
  match x with
  | Raise e => if is_data_error e then Ok r else Raise e
  | x => x
  end.

Definition plausible_sample (power : float) : reading :=
  if is_plausible_power power then Sample power else BadSample.

(** The base class: [float(raw)] of one key. *)
Definition base_reading (sec key : string) (data : res sections) : res reading :=
  rbind data (fun data =>
    match float_of_val (vget key (section sec data)) with
    | Ok p => Ok (plausible_sample p)
    | Raise e => if is_TypeError e || is_ValueError e then Ok NoSample else Raise e
    end).

Definition pv2_reading (data : res sections) : res reading :=
  or_reading BadSample
    (let! data := data in
     let! sec := index "qpigs2" data in
     let! vi := index "pv_current" sec in
     let! current := float_of_val vi in
     let! vv := index "pv_voltage" sec in
     let! voltage := float_of_val vv in
     Ok (plausible_sample (fmul current voltage)))%py.

(** Current and voltage of the battery, [None] when the reading is discarded. *)
Definition battery_pair (key : string) (qpigs : pydict) : res (option (float * float)) :=
  match vget key qpigs, vget "battery_voltage" qpigs with
  | VNone, _ | _, VNone => Ok None
  | current_raw, voltage_raw =>
      (let! current := float_of_val current_raw in
       let! voltage := float_of_val voltage_raw in
       Ok (if is_nan current || is_nan voltage then None
           else if feq current f0 && feq voltage f0 then None
           else if negb (is_plausible_battery_current current) || negb (is_plausible_battery_voltage voltage) then None
           else Some (current, voltage)))%py
  end.

Definition battery_reading (key : string) (power : float -> float -> float) (data : res sections) : res reading :=
  rbind data (fun data =>
    or_reading BadSample
      (rmap (fun iv => match iv with
                       | Some (current, voltage) => Sample (power current voltage)
                       | None => BadSample
                       end)
         (battery_pair key (section "qpigs" data)))).

Definition charge_power (current voltage : float) : float :=
  if fgt current f0 then fmul current voltage else f0.
Definition discharge_power (current voltage : float) : float :=
  let power := fmul current voltage in if fle power f0 then f0 else power.

(** ** The classes *)

Definition DirectEnergySensorBase : entity_attrs := {|
  a_device_class := Some SensorDeviceClass.ENERGY; a_state_class := Some SensorStateClass.TOTAL_INCREASING;
  a_unit := Some WATT_HOUR; a_precision := Some 0; a_category := Some EntityCategory.DIAGNOSTIC; a_icon := None |}.

Definition DirectPVEnergySensor : typed_sensor :=
  typed_sensor_of DirectEnergySensorBase "qpigs" "pv_charging_power" "direct_pv_power_energy" "PV Power Energy".
Definition DirectPV2EnergySensor : typed_sensor :=
  typed_sensor_of DirectEnergySensorBase "qpigs2" "pv2_power" "direct_pv2_power_energy" "PV2 Power Energy".
Definition DirectInverterOutputEnergySensor : typed_sensor :=
  typed_sensor_of DirectEnergySensorBase "qpigs" "output_active_power" "direct_inverter_out_power_energy" "Inverter Out Power Energy".
Definition DirectOutputApparentEnergySensor : typed_sensor :=
  typed_sensor_of DirectEnergySensorBase "qpigs" "output_apparent_power" "direct_output_apparent_power_energy" "Apparent Power Energy".
Definition DirectBatteryInEnergySensor : typed_sensor :=
  typed_sensor_of DirectEnergySensorBase "qpigs" "battery_charging_current" "battery_in_power_energy" "Battery In Energy".
Definition DirectBatteryOutEnergySensor : typed_sensor :=
  typed_sensor_of DirectEnergySensorBase "qpigs" "battery_discharge_current" "battery_out_power_energy" "Battery Out Energy".

(** The six sensors. *)
Inductive energy_kind := PV | PV2 | InverterOutput | OutputApparent | BatteryIn | BatteryOut.

Definition reading_of (k : energy_kind) : res sections -> res reading :=
  match k with
  | PV => base_reading "qpigs" "pv_charging_power"
  | PV2 => pv2_reading
  | InverterOutput => base_reading "qpigs" "output_active_power"
  | OutputApparent => base_reading "qpigs" "output_apparent_power"
  | BatteryIn => battery_reading "battery_charging_current" charge_power
  | BatteryOut => battery_reading "battery_discharge_current" discharge_power
  end.

Definition energy_class (k : energy_kind) : typed_sensor :=
  match k with
  | PV => DirectPVEnergySensor
  | PV2 => DirectPV2EnergySensor
  | InverterOutput => DirectInverterOutputEnergySensor
  | OutputApparent => DirectOutputApparentEnergySensor
  | BatteryIn => DirectBatteryInEnergySensor
  | BatteryOut => DirectBatteryOutEnergySensor
  end.

(** ** The accumulator *)

Record energy := {
  native_value : option float;
  prev_power : option float;
  prev_ts : float;
  restored : bool
}.

(** [__init__] *)
Definition energy_init (now : float) : energy :=
  {| native_value := Some f0; prev_power := None; prev_ts := now; restored := false |}.

(** [async_added_to_hass]; [last] is the stored extra data. *)
Definition energy_restore (last : option pydict) (st : energy) : res energy :=
  (let! v := match last with
             | None => Ok f0
             | Some d => match vget "native_value" d with VNone => Ok f0 | v => float_of_val v end
             end in
   Ok {| native_value := Some v; prev_power := prev_power st; prev_ts := prev_ts st; restored := true |})%py.

(** [available], given the base class's. *)
Definition energy_available (base : bool) (st : energy) : bool := base && restored st.

Definition with_native (v : float) (st : energy) : energy :=
  {| native_value := Some v; prev_power := prev_power st; prev_ts := prev_ts st; restored := restored st |}.
Definition with_baseline (p : option float) (now : float) (st : energy) : energy :=
  {| native_value := native_value st; prev_power := p; prev_ts := now; restored := restored st |}.

Definition f3600 : float := float_of_Z 3600.
Definition f2 : float := float_of_Z 2.

(** The trapezoid of two powers over [elapsed] seconds, in Wh. *)
Definition trapezoid (elapsed prev current : float) : float :=
  fdiv_nz (fmul (fdiv_nz elapsed f3600) (fadd prev current)) f2.

Definition step_ok (elapsed step : float) : bool := fle f0 step && fle step (max_step_wh elapsed).

Definition current_value (st : energy) : float := match native_value st with Some v => v | None => f0 end.

Definition update_energy_value (now current : float) (st : energy) : energy * list (option float) :=
  let elapsed := fsub now (prev_ts st) in
  let st := with_native (current_value st) st in
  let st' :=
    match prev_power st with
    | Some prev =>
        let step := trapezoid elapsed prev current in
        if step_ok elapsed step
        then with_baseline (Some current) now (with_native (fadd (current_value st) step) st)
        else with_baseline None now st
    | None => with_baseline (Some current) now st
    end in
  (st', [native_value st']).

(** [_handle_coordinator_update] *)
Definition apply_reading (now : float) (r : reading) (st : energy) : energy * list (option float) :=
  match r with
  | NoSample => (st, [native_value st])
  | BadSample => let st := with_baseline None now st in (st, [native_value st])
  | Sample power => update_energy_value now power st
  end.

Definition energy_update (k : energy_kind) (now : float) (data : res sections) (st : energy)
    : res (energy * list (option float)) :=
  rmap (fun r => apply_reading now r st) (reading_of k data).

(** A run of coordinator updates; one that raises leaves the sensor as it was. *)
Fixpoint energy_run (k : energy_kind) (us : list (float * res sections)) (st : energy)
    : energy * list (option float) :=
  match us with
  | [] => (st, [])
  | (now, data) :: us =>
      match energy_update k now data st with
      | Ok (st', out) => let '(st'', outs) := energy_run k us st' in (st'', out ++ outs)
      | Raise _ => energy_run k us st
      end
  end.

(** ** Lemmas *)

Definition fle_rel (a b : float) : Prop := fle a b = true.

Lemma nonneg_not_nan v : nonneg v -> is_nan v = false.
Proof. now destruct v. Qed.

Lemma trapezoid_nonneg elapsed prev current : fle f0 (trapezoid elapsed prev current) = true ->
  nonneg (trapezoid elapsed prev current).
Proof. apply fdiv_nonneg. Qed.

Lemma last_cons {A} (x d : A) l : last (x :: l) d = last l x.
Proof. revert x d. induction l as [|y l IH]; intros x d; [reflexivity|].
  change (last (y :: l) d = last (y :: l) x). now rewrite !IH. Qed.

(** One reading: what it publishes is the accumulated value, never smaller. *)
Lemma apply_reading_grows now r st v : native_value st = Some v -> nonneg v ->
  exists v', apply_reading now r st = (fst (apply_reading now r st), [Some v'])
  /\ native_value (fst (apply_reading now r st)) = Some v' /\ nonneg v' /\ fle v v' = true.
Proof.
  intros Hv Hn. assert (fle v v = true) as Hr by (apply fle_refl; now apply nonneg_not_nan).
  destruct r as [| |p]; cbn [apply_reading fst].
  - exists v. rewrite Hv. auto.
  - exists v. cbn [with_baseline native_value]. rewrite Hv. auto.
  - unfold update_energy_value, current_value. rewrite Hv. cbn [with_native prev_power native_value].
    destruct (prev_power st) as [q|]; [|exists v; cbn; auto].
    set (s := trapezoid _ _ _). destruct (step_ok _ s) eqn:Es; [|exists v; cbn; auto].
    unfold step_ok in Es. apply andb_prop in Es as [Es _].
    destruct (fadd_nonneg_ge v s Hn (trapezoid_nonneg _ _ _ Es)) as [H1 H2].
    exists (fadd v s). cbn. auto.
Qed.

Lemma energy_run_cons k now data us st :
  energy_run k ((now, data) :: us) st
  = match energy_update k now data st with
    | Ok (st', out) => (fst (energy_run k us st'), out ++ snd (energy_run k us st'))
    | Raise _ => energy_run k us st
    end.
Proof.
  cbn [energy_run]. destruct (energy_update k now data st) as [[st' out]|]; [|reflexivity].
  now destruct (energy_run k us st').
Qed.

(** A reading that only one sensor class can make. *)
Lemma or_reading_not_missing x : (forall r, x = Ok r -> r <> NoSample) -> or_reading BadSample x <> Ok NoSample.
Proof.
  intros H. destruct x as [r|e]; cbn [or_reading]; [intros E; apply ok_inj in E; subst; now apply (H NoSample)|].
  destruct (is_data_error e); discriminate.
Qed.

Lemma plausible_sample_not_missing p : plausible_sample p <> NoSample.
Proof. unfold plausible_sample. now destruct (is_plausible_power p). Qed.

Lemma battery_reading_not_missing key power data : battery_reading key power data <> Ok NoSample.
Proof.
  unfold battery_reading. destruct data as [d|e]; cbn [rbind]; [|discriminate].
  apply or_reading_not_missing. intros r H. unfold rmap in H.
  apply rbind_ok_inv in H as (iv & _ & H). apply ok_inj in H as <-. now destruct iv as [[i v]|].
Qed.

Lemma pv2_reading_not_missing data : pv2_reading data <> Ok NoSample.
Proof.
  unfold pv2_reading. apply or_reading_not_missing. intros r H.
  do 6 (apply rbind_ok_inv in H as (? & _ & H)). apply ok_inj in H as <-. apply plausible_sample_not_missing.
Qed.

(** Missing readings leave the sensor alone. *)
Lemma energy_run_missing k us st rest :
  Forall (fun u => reading_of k (snd u) = Ok NoSample) us ->
  fst (energy_run k (us ++ rest) st) = fst (energy_run k rest st).
Proof.
  intros H. induction H as [|[now data] us Hu _ IH]; [reflexivity|]. cbn [app].
  rewrite energy_run_cons. unfold energy_update. cbn [snd] in Hu. rewrite Hu. exact IH.
Qed.

(** ** Properties *)

(** C14: an energy accumulator never decreases: over any run of
    coordinator updates, with any clock, whatever the sections hold, missing or
    not, every published value is a number at least the one before, starting
    from any non-negative restored value, and the last one is what is kept. *)
Theorem energy_never_decreases (k : energy_kind) (us : list (float * res sections)) (st : energy) (v : float)
    (Hv : native_value st = Some v) (Hn : nonneg v) :
  exists vs, snd (energy_run k us st) = map Some vs
  /\ StronglySorted fle_rel (v :: vs) /\ Forall nonneg vs
  /\ native_value (fst (energy_run k us st)) = Some (last vs v).
Proof.
  revert st v Hv Hn. induction us as [|[now data] us IH]; intros st v Hv Hn.
  - exists []. repeat split; [repeat constructor|constructor|exact Hv].
  - rewrite energy_run_cons. unfold energy_update, rmap.
    destruct (reading_of k data) as [r|e]; cbn [rbind]; [|now apply IH].
    destruct (apply_reading_grows now r st v Hv Hn) as (v' & E & Hv' & Hn' & Hle). rewrite E. cbn [fst snd].
    destruct (IH _ v' Hv' Hn') as (vs & Eo & Hs & Hf & Hlast). exists (v' :: vs). rewrite Eo, Hlast.
    repeat split; [| |now rewrite last_cons].
    + constructor; [exact Hs|]. constructor; [exact Hle|]. inversion Hs as [|? ? _ Hall]; subst.
      rewrite Forall_forall in Hall, Hf |- *. intros x Hx.
      apply (fle_trans_nonneg v v' x); auto. now apply Hall.
    + now constructor.
Qed.

(** A discarded reading opens the trapezoid, so whatever comes
    next adds nothing; and no reading of the battery and second-string sensors
    is ever merely missing. The other sensors only skip a missing reading: after
    an outage of any length the next sample integrates the whole gap from the
    power before it, up to the ceiling for the gap. *)
Theorem energy_gap_handling (k : energy_kind) (st : energy) (v : float) (t1 t2 : float) (d1 d2 : res sections)
    (Hv : native_value st = Some v) :
  (reading_of k d1 = Ok BadSample ->
     native_value (fst (energy_run k [(t1, d1); (t2, d2)] st)) = Some v)
  /\ (In k [PV2; BatteryIn; BatteryOut] -> reading_of k d1 <> Ok NoSample)
  /\ (forall gap q p, prev_power st = Some q ->
        Forall (fun u => reading_of k (snd u) = Ok NoSample) gap -> reading_of k d2 = Ok (Sample p) ->
        let step := trapezoid (fsub t2 (prev_ts st)) q p in
        step_ok (fsub t2 (prev_ts st)) step = true ->
        native_value (fst (energy_run k (gap ++ [(t2, d2)]) st)) = Some (fadd v step)).
Proof.
  split; [|split].
  - intros Hb. rewrite energy_run_cons. unfold energy_update at 1. rewrite Hb. cbn [rmap rbind apply_reading fst].
    rewrite energy_run_cons. unfold energy_update. destruct (reading_of k d2) as [[| |p]|e]; cbn; try exact Hv.
    unfold current_value. cbn. now rewrite Hv.
  - intros [<-|[<-|[<-|[]]]]; [apply pv2_reading_not_missing|apply battery_reading_not_missing..].
  - intros gap q p Hq Hgap Hs step Hok. rewrite energy_run_missing by exact Hgap.
    rewrite energy_run_cons. unfold energy_update. rewrite Hs. cbn [rmap rbind apply_reading energy_run fst].
    unfold update_energy_value, current_value. cbn [with_native prev_power native_value]. rewrite Hq, Hv.
    fold step. now rewrite Hok.
Qed.

(** ** Witnesses *)

Definition pv_section (watts : string) : res sections := Ok [("qpigs", [("pv_charging_power", VStr watts)])].

Definition evening : energy :=
  {| native_value := Some (float_of_Z 1000); prev_power := Some (float_of_Z 500); prev_ts := f0; restored := true |}.

(** Ten hours without data between two 500 W samples count as 5 kWh produced. *)
Example pv_outage_counted :
  native_value (fst (energy_run PV [(float_of_Z 18000, Ok []); (float_of_Z 36000, pv_section "500")] evening))
  = Some (float_of_Z 6000).
Proof. vm_compute. reflexivity. Qed.

Lemma energy_never_decreases_witness :
  exists vs, snd (energy_run PV [(float_of_Z 10, pv_section "500"); (float_of_Z 20, pv_section "99999");
                                 (float_of_Z 30, Ok []); (float_of_Z 40, Raise (KeyError "inverter"))] evening)
    = map Some vs /\ StronglySorted fle_rel (float_of_Z 1000 :: vs) /\ List.length vs = 3%nat.
Proof.
  destruct (energy_never_decreases PV
    [(float_of_Z 10, pv_section "500"); (float_of_Z 20, pv_section "99999"); (float_of_Z 30, Ok []);
     (float_of_Z 40, Raise (KeyError "inverter"))] evening (float_of_Z 1000) eq_refl) as (vs & E & Hs & _).
  - vm_compute. repeat split; (discriminate || now right).
  - exists vs. split; [exact E|]. split; [exact Hs|]. apply (f_equal (@List.length _)) in E.
    rewrite length_map in E. rewrite <- E. vm_compute. reflexivity.
Defined.

Lemma energy_gap_handling_witness :
  native_value (fst (energy_run PV [(float_of_Z 10, pv_section "99999"); (float_of_Z 20, pv_section "500")] evening))
  = Some (float_of_Z 1000)
  /\ native_value (fst (energy_run PV ([(float_of_Z 18000, Ok [])] ++ [(float_of_Z 36000, pv_section "500")]) evening))
     = Some (fadd (float_of_Z 1000) (trapezoid (fsub (float_of_Z 36000) f0) (float_of_Z 500) (float_of_Z 500))).
Proof.
  destruct (energy_gap_handling PV evening (float_of_Z 1000) (float_of_Z 10) (float_of_Z 20)
    (pv_section "99999") (pv_section "500") eq_refl) as [H _].
  destruct (energy_gap_handling PV evening (float_of_Z 1000) (float_of_Z 10) (float_of_Z 36000)
    (pv_section "99999") (pv_section "500") eq_refl) as (_ & _ & H').
  split; [apply H; vm_compute; reflexivity|].
  apply H'; [reflexivity|repeat constructor|vm_compute; reflexivity|vm_compute; reflexivity].
Defined.
