(* ===== verification/SocSensor.v ===== *)
(** The state-of-charge entity and the time estimates built on it:
    [DirectBatteryStateOfChargeSensor] and the [DirectBatteryTime*] sensors of
    [sensors/direct_energy_sensors.py].

    The entity resolves its inputs from Home Assistant states ([None] when the
    entity does not exist, else its text) and the coordinator's sections, and
    drives one [SocCore.estimator]. Handlers give the entity after them and what
    they published. *)

From Stdlib Require Import ZArith List Bool Lia String Ascii Relations Floats.SpecFloat.
From S2P Require Import Prelude PyStr PyInt PyFloat FloatFacts PyDict Sanity SocCore Entities EnergySensors.
Import ListNotations.
#[local] Open Scope string_scope.
#[local] Open Scope list_scope.
#[local] Open Scope Z_scope.

(** ** Inputs from Home Assistant *)

Definition ha_state := option string.

(** The text of a state that has a value. *)
Definition state_text (s : ha_state) : option string :=
  match s with
  | Some t => if existsb (String.eqb t) ["unknown"; "unavailable"] then None else Some t
  | None => None
  end.

(** Its number, [None] without one: [float] of a text raises only [ValueError]. *)
Definition state_float (s : ha_state) : option float :=
  match state_text s with
  | Some t => match py_float t with Ok v => Some v | Raise _ => None end
  | None => None
  end.

(** A number state clamped at zero from below, or its default. *)
Definition state_nonneg (s : ha_state) (default : float) : float :=
  match state_float s with Some v => fmax f0 v | None => default end.

(** [max(0.0, ...)] of a positive setting of QPIRI; [None] when it is missing, no
    number or not positive. *)
Definition positive_voltage (key : string) (data : res sections) : res (option float) :=
  match rbind data (fun d => float_of_val (vget key (section "qpiri" d))) with
  | Ok v => Ok (if fgt v f0 then Some v else None)
  | Raise e => if is_data_error e then Ok None else Raise e
  end.

(** The number of a field, [None] when it is missing or empty. *)
Definition optional_float (raw : pyval) : res (option float) :=
  match raw with
  | VNone | VStr "" => Ok None
  | raw => rmap Some (float_of_val raw)
  end.

(** [_read_bms_soc] *)
Definition read_bms_soc (data : res sections) : res (option float) :=
  match rbind data (fun d => optional_float (vget "battery_capacity" (section "qpigs" d))) with
  | Ok None => Ok None
  | Ok (Some v) => Ok (if is_nan v then None else Some (fmax f0 (fmin f100 v)))
  | Raise e => if is_data_error e then Ok None else Raise e
  end.

(** [float(section.get(key, 0))] *)
Definition float_or_zero (key : string) (d : pydict) : res float :=
  match dget key d with Some v => float_of_val v | None => Ok f0 end.

(** ** The classes *)

Definition DirectBatteryStateOfChargeSensor : typed_sensor :=
  typed_sensor_of (measured (Some SensorDeviceClass.BATTERY) PERCENTAGE 1)
    "qpigs" "battery_voltage" "battery_state_of_charge" "Battery State of Charge".

(** A sensor derived from the state of charge: its id and name have no "direct". *)
Record soc_entity := { se_attrs : entity_attrs; se_suffix : string; se_name : string }.

Definition TimeEstimateBase : entity_attrs := measured (Some SensorDeviceClass.DURATION) HOURS 2.

Definition DirectBatteryTimeToFloorSensor : soc_entity := {|
  se_attrs := with_icon "mdi:battery-clock" TimeEstimateBase; se_suffix := "time_to_floor";
  se_name := "vSoC Time to Discharge Floor" |}.
Definition DirectBatteryTimeToFullSensor : soc_entity := {|
  se_attrs := with_icon "mdi:battery-charging-100" TimeEstimateBase; se_suffix := "time_to_full"; se_name := "vSoC Time to Full" |}.
Definition DirectBatteryBackupTimeSensor : soc_entity := {|
  se_attrs := with_icon "mdi:home-battery" TimeEstimateBase; se_suffix := "backup_time";
  se_name := "vSoC Backup Time at Current Load" |}.
Definition DirectBatteryVSocLastSyncSensor : soc_entity := {|
  se_attrs := {| a_device_class := Some SensorDeviceClass.TIMESTAMP; a_state_class := None; a_unit := None; a_precision := None;
                 a_category := Some EntityCategory.DIAGNOSTIC; a_icon := Some "mdi:battery-sync-outline" |};
  se_suffix := "vsoc_last_sync"; se_name := "vSoC Last Full Charge Sync" |}.

(** The control entities the state of charge follows, by their entity ids; [slugify]
    is Home Assistant's. *)
Definition capacity_entity_id (slug : string) : string := ("number." ++ slug ++ "_vsoc_battery_capacity_ah")%string.
Definition sync_voltage_entity_id (slug : string) : string := ("number." ++ slug ++ "_vsoc_full_charge_sync_voltage")%string.
Definition battery_mode_entity_id (slug : string) : string := ("select." ++ slug ++ "_vsoc_battery_mode")%string.
Definition float_deadband_switch_id (slug : string) : string := ("switch." ++ slug ++ "_vsoc_float_deadband")%string.
Definition float_voltage_window_id (slug : string) : string := ("number." ++ slug ++ "_vsoc_float_voltage_window")%string.
Definition float_noise_floor_id (slug : string) : string := ("number." ++ slug ++ "_vsoc_float_noise_floor")%string.
Definition floor_entity_id (slug : string) : string := ("number." ++ slug ++ "_vsoc_discharge_floor")%string.

Definition followed_entities (slugify : string -> string) (d : InverterDevice) : list string :=
  let slug := slugify (i_name d) in
  [capacity_entity_id slug; sync_voltage_entity_id slug; battery_mode_entity_id slug; float_deadband_switch_id slug;
   float_voltage_window_id slug; float_noise_floor_id slug; floor_entity_id slug].

(** ** The entity *)

Section Entity.
(** [datetime] and its ISO text *)
Context {T : Type} (isoformat : T -> string) (fromisoformat : string -> option T).

Record soc_sensor := {
  est : @estimator T;
  native : option float;
  is_restored : bool;
  full_charge_sync_voltage : float
}.

Definition soc_sensor_init : soc_sensor :=
  {| est := initial; native := None; is_restored := false; full_charge_sync_voltage := f0 |}.

Definition with_est (e : @estimator T) (n : option float) (s : soc_sensor) : soc_sensor :=
  {| est := e; native := n; is_restored := is_restored s;
     full_charge_sync_voltage := full_charge_sync_voltage s |}.

(** [_update_battery_capacity_from_state] *)
Definition update_battery_capacity (state : ha_state) (s : soc_sensor) : soc_sensor * list (option float) :=
  let e := set_capacity (state_float state) (est s) in
  let n := match state_float state, SocCore.capacity_ah e, soc_percent e with
           | Some _, Some _, Some soc => Some soc
           | _, _, _ => native s
           end in
  (with_est e n s, [n]).

(** [_update_sync_voltage_from_state] *)
Definition update_sync_voltage (state : ha_state) (s : soc_sensor) : soc_sensor :=
  {| est := est s; native := native s; is_restored := is_restored s;
     full_charge_sync_voltage := state_nonneg state f0 |}.

(** [_update_battery_mode_from_state] *)
Definition update_battery_mode (state : ha_state) (s : soc_sensor) : soc_sensor :=
  match state with
  | Some t => with_est (set_mode t (est s)) (native s) s
  | None => s
  end.

(** [_refresh_float_deadband_config] *)
Definition refresh_float_deadband (switch window floor : ha_state) (s : soc_sensor) : soc_sensor :=
  let enabled := match switch with
                 | Some t => if existsb (String.eqb t) ["on"; "off"] then String.eqb t "on" else true
                 | None => true
                 end in
  with_est (set_deadband enabled (state_nonneg window DEFAULT_FLOAT_VOLTAGE_WINDOW_V)
              (state_nonneg floor DEFAULT_FLOAT_NOISE_FLOOR_A) (est s)) (native s) s.

(** What [async_added_to_hass] reads of the stored data. *)
Definition stored_soc (last : option pydict) : res float :=
  match last with
  | Some d => match vget "native_value" d with VNone => Ok f100 | v => float_of_val v end
  | None => Ok f100
  end.
Definition stored_charge (last : option pydict) : res float :=
  match last with Some d => float_or_zero "accumulated_charge_ah" d | None => Ok f0 end.
Definition stored_sync (last : option pydict) : option T :=
  match last with
  | Some d => match vget "last_sync_at" d with
              | VStr iso => if String.eqb iso "" then None else fromisoformat iso
              | _ => None
              end
  | None => None
  end.

(** The states the entity reads when it is added. *)
Record controls := {
  c_capacity : ha_state; c_sync : ha_state; c_mode : ha_state;
  c_switch : ha_state; c_window : ha_state; c_floor : ha_state
}.

Definition added_to_hass (last : option pydict) (c : controls) (s : soc_sensor)
    : res (soc_sensor * list (option float)) :=
  (let! soc := stored_soc last in
   let! charge := stored_charge last in
   let s := with_est (SocCore.restore (Some soc) charge (stored_sync last) (est s)) (Some soc) s in
   let '(s, out) := update_battery_capacity (c_capacity c) s in
   let s := update_sync_voltage (c_sync c) s in
   let s := update_battery_mode (c_mode c) s in
   let s := refresh_float_deadband (c_switch c) (c_window c) (c_floor c) s in
   Ok ({| est := est s; native := native s; is_restored := true;
          full_charge_sync_voltage := full_charge_sync_voltage s |}, out))%py.

(** [BatteryStoredData.as_dict] of [async_get_extra_data] *)
Definition extra_data (s : soc_sensor) : pydict := [
  ("native_value", match native s with Some v => VFloat v | None => VNone end);
  ("accumulated_charge_ah", VFloat (accumulated_charge_ah (est s)));
  ("last_sync_at", match last_sync_at (est s) with Some t => VStr (isoformat t) | None => VNone end)].

(** [get_full_charge_sync_voltage] *)
Definition get_full_charge_sync_voltage (data : res sections) (s : soc_sensor) : res (option float) :=
  if fgt (full_charge_sync_voltage s) f0 then Ok (Some (full_charge_sync_voltage s))
  else positive_voltage "bulk_charging_voltage" data.

(** [available], given the base class's. *)
Definition soc_available (base : bool) (data : res sections) (s : soc_sensor) : res bool :=
  rmap (fun sync =>
      base && is_restored s
      && match SocCore.capacity_ah (est s) with Some c => fgt c f0 | None => false end
      && match sync with Some _ => true | None => false end)
    (get_full_charge_sync_voltage data s).

(** [update_soc] *)
Definition update_soc (now : float) (wall : T) (signed_current current_voltage : float) (data : res sections)
    (s : soc_sensor) : res (soc_sensor * list (option float)) :=
  (let! sync := get_full_charge_sync_voltage data s in
   let! floating := positive_voltage "float_charging_voltage" data in
   let! bms := (if mode_eqb (mode (est s)) LI_BMS then read_bms_soc data else Ok None) in
   let '(e, result) := update {| signed_current_a := signed_current; voltage := current_voltage;
                                 SocCore.now := now; sync_voltage := sync; floating_voltage := floating;
                                 bms_soc := bms; wall_now := Some wall |} (est s) in
   Ok (with_est e result s, [result]))%py.

(** The readings of [_handle_coordinator_update]. *)
Definition battery_readings (data : sections) : res (float * float * float) :=
  let qpigs := section "qpigs" data in
  (let! v := float_or_zero "battery_voltage" qpigs in
   let! chg := float_or_zero "battery_charging_current" qpigs in
   let! dis := float_or_zero "battery_discharge_current" qpigs in
   Ok (v, chg, dis))%py.

Definition soc_coordinator_update (now : float) (wall : T) (data : res sections) (s : soc_sensor)
    : res (soc_sensor * list (option float)) :=
  rbind data (fun d =>
    match battery_readings d with
    | Ok (v, chg, dis) =>
        if negb (is_plausible_battery_voltage v) || negb (is_plausible_battery_current chg)
           || negb (is_plausible_battery_current dis)
        then Ok (s, [])
        else update_soc now wall (fsub chg dis) v data s
    | Raise e => if is_data_error e then Ok (with_est (est s) None s, [None]) else Raise e
    end).

(** ** What the entity may do *)

(** A float found in a dict is a Python float. *)
Definition val_ok (v : pyval) : Prop := match v with VFloat x => small_mant x | _ => True end.

Definition data_ok (data : res sections) : Prop :=
  forall d sec s k v, data = Ok d -> dget sec d = Some s -> dget k s = Some v -> val_ok v.

(** Stored values are percentages: what the entity published before. *)
Definition stored_ok (last : option pydict) : Prop :=
  forall soc, stored_soc last = Ok soc -> pct_value (Some soc).

Inductive entity_step : soc_sensor -> soc_sensor -> Prop :=
| es_added last c s s' out : stored_ok last -> added_to_hass last c s = Ok (s', out) -> entity_step s s'
| es_capacity state s : entity_step s (fst (update_battery_capacity state s))
| es_sync state s : entity_step s (update_sync_voltage state s)
| es_mode state s : entity_step s (update_battery_mode state s)
| es_deadband sw w f s : entity_step s (refresh_float_deadband sw w f s)
| es_update now wall data s s' out : data_ok data ->
    soc_coordinator_update now wall data s = Ok (s', out) -> entity_step s s'.

Inductive entity_reachable : soc_sensor -> Prop :=
| er_init : entity_reachable soc_sensor_init
| er_step s s' : entity_reachable s -> entity_step s s' -> entity_reachable s'.

(** ** Lemmas *)

Lemma float_of_decimal_small neg m e : small_mant (float_of_decimal neg m e).
Proof. unfold float_of_decimal. destruct m; try exact I. destruct (0 <=? _); auto with pyfloat. Qed.

Lemma float_decimal_small neg l v : float_decimal neg l = Some v -> small_mant v.
Proof.
  unfold float_decimal. destruct (scan_digits 0 0 l) as [[ip ki] l1]. cbv zeta.
  assert (forall k (m kf : Z) l2, (if 0 <? k then match scan_exponent l2 with
            | Some ex => Some (float_of_decimal neg m (ex - kf)) | None => None end else None) = Some v -> small_mant v) as H.
  { intros k m kf l2. destruct (0 <? k); [|discriminate]. destruct (scan_exponent l2); [|discriminate].
    intros E. injection E as <-. apply float_of_decimal_small. }
  destruct l1 as [|c l1]; [apply (H (ki + 0))|]. destruct (Ascii.eqb c "."); [|apply (H (ki + 0))].
  destruct (scan_digits 0 0 l1) as [[fp kf] l2]. apply H.
Qed.

Lemma py_float_small t v : py_float t = Ok v -> small_mant v.
Proof.
  unfold py_float. destruct (split_sign _) as [neg l].
  destruct (_ || _); [intros H; apply ok_inj in H as <-; exact I|].
  destruct (String.eqb _ _); [intros H; apply ok_inj in H as <-; exact I|].
  destruct (float_decimal neg l) eqn:E; [|discriminate]. intros H. apply ok_inj in H as <-.
  exact (float_decimal_small _ _ _ E).
Qed.

Lemma float_of_val_small x v : val_ok x -> float_of_val x = Ok v -> small_mant v.
Proof.
  destruct x; cbn [val_ok float_of_val]; intros Hx H; try discriminate.
  - apply ok_inj in H as <-. apply binary_normalize_small.
  - unfold float_of_int in H. destruct (float_of_Z z) as [| | |sg m e] eqn:E; try discriminate; apply ok_inj in H as <-;
      try exact I. rewrite <- E. apply binary_normalize_small.
  - now apply ok_inj in H as <-.
  - now apply py_float_small in H.
Qed.

Lemma vget_ok data d sec k : data_ok data -> data = Ok d -> val_ok (vget k (section sec d)).
Proof.
  intros Hd ->. unfold vget, section. destruct (dget sec d) as [s|] eqn:Es; [|exact I].
  destruct (dget k s) as [v|] eqn:Ek; [|exact I]. exact (Hd d sec s k v eq_refl Es Ek).
Qed.

Lemma optional_float_some x v : optional_float x = Ok (Some v) -> float_of_val x = Ok v.
Proof.
  unfold optional_float. destruct x as [| | | |[|a t]| | | |]; intros E; try discriminate;
    unfold rmap in E; apply rbind_ok_inv in E as (y & Ey & E); apply ok_inj in E; congruence.
Qed.

Lemma read_bms_pct data b : data_ok data -> read_bms_soc data = Ok b -> pct_value b.
Proof.
  intros Hd. unfold read_bms_soc. destruct data as [d|e]; cbn [rbind];
    [|destruct (is_data_error e); [intros H; apply ok_inj in H as <-; exact I|discriminate]].
  pose proof (vget_ok _ d "qpigs" "battery_capacity" Hd eq_refl) as Hv.
  destruct (optional_float _) as [[v|]|e] eqn:E.
  - intros H. apply ok_inj in H as <-. destruct (is_nan v); [exact I|].
    apply optional_float_some in E as Ef.
    apply (float_of_val_small _ _ Hv) in Ef. change (pct_value (Some (clamp v f0 f100))).
    split; [now apply clamp_small|]. split; now apply clamp_range.
  - intros H. now apply ok_inj in H as <-.
  - destruct (is_data_error e); [intros H; now apply ok_inj in H as <-|discriminate].
Qed.

Abbreviation steps := (clos_refl_trans (@estimator T) (soc_step bounded)).

Lemma steps_inv e e' : steps e e' -> soc_inv e -> soc_inv e'.
Proof. induction 1 as [e e' H|e|e1 e2 e3 _ IH1 _ IH2]; [now apply soc_step_inv|auto|auto]. Qed.

Lemma steps_reachable e e' : steps e e' -> SocCore.reachable bounded e -> SocCore.reachable bounded e'.
Proof.
  induction 1 as [e e' H|e|e1 e2 e3 _ IH1 _ IH2]; [|auto|auto]. intros Hr. exact (reachable_step bounded e e' Hr H).
Qed.

(** What each handler does to the estimator and to the published value. *)
Definition handled (s s' : soc_sensor) : Prop :=
  steps (est s) (est s') /\ (soc_inv (est s) -> pct_value (native s) -> pct_value (native s')).

Lemma handled_trans s1 s2 s3 : handled s1 s2 -> handled s2 s3 -> handled s1 s3.
Proof.
  intros [A1 B1] [A2 B2]. split; [exact (rt_trans _ _ _ _ _ A1 A2)|]. intros Hi Hp.
  apply B2; [exact (steps_inv _ _ A1 Hi)|exact (B1 Hi Hp)].
Qed.

Lemma capacity_handled state s : handled s (fst (update_battery_capacity state s)).
Proof.
  split; [apply rt_step; now exists (SetCapacity (state_float state))|]. cbn [update_battery_capacity fst with_est native]. intros Hi Hp.
  destruct (state_float state) as [v|] eqn:Ev; [|exact Hp].
  destruct (SocCore.capacity_ah _); [|exact Hp]. destruct (soc_percent _) as [p|] eqn:Ep; [|exact Hp].
  pose proof (soc_step_inv _ _ (ex_intro _ (SetCapacity (Some v)) (conj I eq_refl)) Hi) as [_ H]. rewrite <- Ep. exact H.
Qed.

Lemma sync_handled state s : handled s (update_sync_voltage state s).
Proof. split; [apply rt_refl|auto]. Qed.

Lemma mode_handled state s : handled s (update_battery_mode state s).
Proof. destruct state; [|split; [apply rt_refl|auto]]. split; [apply rt_step; now eexists (SetMode _)|auto]. Qed.

Lemma deadband_handled sw w f s : handled s (refresh_float_deadband sw w f s).
Proof. split; [apply rt_step; now eexists (SetDeadband _ _ _)|auto]. Qed.

Lemma added_handled last c s s' out : stored_ok last -> added_to_hass last c s = Ok (s', out) -> handled s s'.
Proof.
  intros Hs H. unfold added_to_hass in H. apply rbind_ok_inv in H as (soc & Esoc & H).
  apply rbind_ok_inv in H as (charge & _ & H). specialize (Hs soc Esoc).
  set (s1 := with_est _ (Some soc) s) in H. destruct (update_battery_capacity (c_capacity c) s1) as [s2 o] eqn:E2.
  apply ok_inj in H. injection H as <- _.
  assert (handled s s1) as H1 by (split; [apply rt_step; now exists (RestoreState (Some soc) charge (stored_sync last))|auto]).
  pose proof (capacity_handled (c_capacity c) s1) as H2. rewrite E2 in H2. cbn [fst] in H2.
  pose proof (handled_trans _ _ _ (handled_trans _ _ _ H1 H2) (sync_handled (c_sync c) s2)) as H3.
  exact (handled_trans _ _ _ (handled_trans _ _ _ H3 (mode_handled (c_mode c) _))
    (deadband_handled (c_switch c) (c_window c) (c_floor c) _)).
Qed.

(** What [update] publishes is the estimator's own percentage. *)
Lemma update_result (i : tick T) (e : estimator T) : snd (update i e) = soc_percent (fst (update i e)).
Proof.
  unfold update. destruct (SocCore.capacity_ah e) as [cap|]; [|reflexivity]. destruct (fle cap f0); [reflexivity|].
  destruct (if mode_eqb _ _ then _ else _); [reflexivity|]. destruct (sync_voltage i); reflexivity.
Qed.

Lemma update_soc_handled now wall i v data s s' out : data_ok data ->
  update_soc now wall i v data s = Ok (s', out) -> handled s s'.
Proof.
  intros Hd H. unfold update_soc in H. apply rbind_ok_inv in H as (sync & _ & H).
  apply rbind_ok_inv in H as (floating & _ & H). apply rbind_ok_inv in H as (bms & Eb & H).
  assert (pct_value bms) as Hb.
  { destruct (mode_eqb _ _); [now apply (read_bms_pct data)|]. now apply ok_inj in Eb as <-. }
  destruct (update _ (est s)) as [e r] eqn:Eu. apply ok_inj in H. injection H as <- _.
  match type of Eu with update ?i _ = _ => set (k := i) in Eu end.
  pose proof (update_result k (est s)) as Er. rewrite Eu in Er. cbn [fst snd] in Er.
  assert (soc_step bounded (est s) e) as Hstep by (exists (Update k); split; [exact Hb|cbn [apply_op]; now rewrite Eu]).
  split; [now apply rt_step|]. intros Hi _. cbn [native with_est]. rewrite Er.
  now apply (soc_step_inv _ _ Hstep Hi).
Qed.

Lemma entity_step_handled s s' : entity_step s s' -> handled s s'.
Proof.
  intros [last c a a' out Hs H|st a|st a|st a|sw w f a|now wall data a a' out Hd H].
  - exact (added_handled _ _ _ _ _ Hs H).
  - apply capacity_handled.
  - apply sync_handled.
  - apply mode_handled.
  - apply deadband_handled.
  - unfold soc_coordinator_update in H. apply rbind_ok_inv in H as (d & -> & H).
    destruct (battery_readings d) as [[[v chg] dis]|e].
    + destruct (_ || _); [apply ok_inj in H; injection H as <- _; split; [apply rt_refl|auto]|].
      exact (update_soc_handled _ _ _ _ _ _ _ _ Hd H).
    + destruct (is_data_error e); [|discriminate]. apply ok_inj in H. injection H as <- _.
      split; [apply rt_refl|]. intros _ _. exact I.
Qed.

Lemma entity_reachable_est s : entity_reachable s ->
  SocCore.reachable bounded (est s) /\ soc_inv (est s) /\ pct_value (native s).
Proof.
  induction 1 as [|s s' _ (Hr & Hi & Hp) Hstep].
  - split; [constructor|]. repeat split; easy.
  - apply entity_step_handled in Hstep as [Hs Hn].
    split; [exact (steps_reachable _ _ Hs Hr)|]. split; [exact (steps_inv _ _ Hs Hi)|auto].
Qed.

(** ** Properties *)

(** C9: the entity refines the estimator: whatever Home Assistant
    states, stored data and coordinator data it handles, in any order, each
    handler takes its estimator through steps of the estimator's own transition
    system, handing it restored and BMS percentages in [0, 100] only, so the estimator
    stays one the core can so reach, and what the entity holds to publish is a
    percentage in [0, 100] or unknown. *)
Theorem entity_refines_estimator (s : soc_sensor) (Hr : entity_reachable s) :
  SocCore.reachable bounded (est s) /\ pct_value (native s)
  /\ (forall s', entity_step s s' -> clos_refl_trans _ (soc_step bounded) (est s) (est s') /\ pct_value (native s')).
Proof.
  destruct (entity_reachable_est s Hr) as (H1 & H2 & H3). split; [exact H1|]. split; [exact H3|].
  intros s' Hs. apply entity_step_handled in Hs as [Ha Hb]. split; [exact Ha|now apply Hb].
Qed.

(** Over a restart the entity keeps its percentage and the time of its
    last full charge, while the charge it had accumulated is not kept: it is
    recomputed from the percentage and the capacity. A percentage that was
    unknown when the data were stored comes back as 100. *)
Theorem restart_keeps_percentage (s : soc_sensor) (c : controls) (t : string) (cap : float)
    (Hiso : forall x, isoformat x <> "" /\ fromisoformat (isoformat x) = Some x)
    (Hcap : state_text (c_capacity c) = Some t) (Hf : py_float t = Ok cap) (Hpos : fle cap f0 = false) :
  exists s', added_to_hass (Some (extra_data s)) c soc_sensor_init = Ok (s', [native s'])
  /\ native s' = Some (match native s with Some p => p | None => f100 end)
  /\ last_sync_at (est s') = last_sync_at (est s)
  /\ accumulated_charge_ah (est s')
     = fmul (clamp (fdiv_nz (match native s with Some p => p | None => f100 end) f100) f0 f1) cap
  /\ SocCore.capacity_ah (est s') = Some cap.
Proof.
  set (p := match native s with Some p => p | None => f100 end).
  assert (stored_soc (Some (extra_data s)) = Ok p) as E1 by (unfold p; cbn; now destruct (native s)).
  assert (stored_sync (Some (extra_data s)) = last_sync_at (est s)) as E2.
  { cbn. destruct (last_sync_at (est s)) as [x|]; [|reflexivity]. destruct (Hiso x) as [Hne Hx].
    now rewrite (proj2 (String.eqb_neq _ _) Hne). }
  unfold added_to_hass. rewrite E1, E2. cbn [rbind stored_charge extra_data float_or_zero dget String.eqb Ascii.eqb Bool.eqb].
  assert (state_float (c_capacity c) = Some cap) as Ec by (unfold state_float; now rewrite Hcap, Hf).
  unfold update_battery_capacity. rewrite Ec.
  assert (set_capacity (Some cap) (est (with_est (SocCore.restore (Some p) (accumulated_charge_ah (est s))
            (last_sync_at (est s)) (est soc_sensor_init)) (Some p) soc_sensor_init))
    = with_charge (SocCore.restore (Some p) (accumulated_charge_ah (est s)) (last_sync_at (est s)) initial)
        (Some cap) (fmul (clamp (fdiv_nz p f100) f0 f1) cap) (Some p)) as Ek
    by (unfold set_capacity; rewrite Hpos; reflexivity).
  cbn [float_of_val rbind]. rewrite Ek. cbn [SocCore.capacity_ah with_charge soc_percent].
  unfold update_battery_mode. destruct (c_mode c) as [m|]; (eexists; split;
    [apply f_equal, f_equal2; reflexivity|]); [|repeat split].
  unfold set_mode. cbn [with_est est update_sync_voltage refresh_float_deadband native].
  destruct (mode_of_string m) as [m'|]; [|repeat split]. destruct (mode_eqb m' _); repeat split.
Qed.
End Entity.

Arguments soc_sensor : clear implicits.

(** ** Time estimates *)

Definition IDLE_CURRENT_THRESHOLD_A : float := flit 1 10.

(** [float(section.get(key, 0) or 0)] *)
Definition number_or_zero (key : string) (d : pydict) : res float :=
  match dget key d with
  | Some v => if truthy v then float_of_val v else Ok f0
  | None => Ok f0
  end.

(** [except (TypeError, ValueError)] *)
Definition or_number {A} (x : A) (r : res A) : res A :=
  match r with
  | Raise e => if is_TypeError e || is_ValueError e then Ok x else Raise e
  | r => r
  end.

(** [_read_current_a] *)
Definition read_current_a (key : string) (data : res sections) : res float :=
  or_number f0 (rbind data (fun d => number_or_zero key (section "qpigs" d))).

(** [_read_target_floor] *)
Definition read_target_floor (state : ha_state) : float :=
  match state_float state with Some v => v | None => flit 15 1 end.

(** The hours a [rate] in A takes for [percent soc] of the capacity; [met] when
    the target is reached already. *)
Definition time_estimate (soc capacity : option float) (rate : float) (met : float -> bool)
    (percent : float -> float) : option float :=
  match soc, capacity with
  | Some s, Some c =>
      if fle c f0 then None
      else if flt rate IDLE_CURRENT_THRESHOLD_A then None
      else if met s then Some f0
      else Some (round_to 3 (fdiv_nz (fmul (fdiv_nz (percent s) f100) c) rate))
  | _, _ => None
  end.

(** [DirectBatteryTimeToFloorSensor] *)
Definition time_to_floor (soc capacity : option float) (floor : ha_state) (data : res sections)
    : res (option float) :=
  let target := read_target_floor floor in
  rmap (fun discharge => time_estimate soc capacity discharge (fun s => fle s target) (fun s => fsub s target))
    (read_current_a "battery_discharge_current" data).

(** [DirectBatteryTimeToFullSensor] *)
Definition time_to_full (soc capacity : option float) (data : res sections) : res (option float) :=
  rmap (fun charge => time_estimate soc capacity charge (fun s => fge s f100) (fun s => fsub f100 s))
    (read_current_a "battery_charging_current" data).

(** The discharge current the present load, less the PV power, would draw. *)
Definition equivalent_discharge (load pv v_bat : float) : float :=
  if fgt v_bat f0 then fdiv_nz (fmax f0 (fsub load pv)) v_bat else f0.

(** [DirectBatteryBackupTimeSensor] *)
Definition backup_time (soc capacity : option float) (floor : ha_state) (data : res sections)
    : res (option float) :=
  let target := read_target_floor floor in
  or_number None
    (let! d := data in
     let qpigs := section "qpigs" d in
     let! load := number_or_zero "output_active_power" qpigs in
     let! pv := number_or_zero "pv_charging_power" qpigs in
     let! v_bat := number_or_zero "battery_voltage" qpigs in
     Ok (time_estimate soc capacity (equivalent_discharge load pv v_bat)
           (fun s => fle s target) (fun s => fsub s target)))%py.

(** [DirectBatteryVSocLastSyncSensor] *)
Definition last_sync_value {T} (s : soc_sensor T) : option T := last_sync_at (est s).

(** An estimate is given exactly for a known percentage, a capacity and a rate
    of at least 0.1 A; at the target it is zero. *)
Lemma time_estimate_given soc capacity rate met percent :
  (time_estimate soc capacity rate met percent = None <->
     soc = None \/ capacity = None \/ (exists c, capacity = Some c /\ fle c f0 = true)
     \/ flt rate IDLE_CURRENT_THRESHOLD_A = true)
  /\ (forall s c, soc = Some s -> capacity = Some c -> met s = true -> fle c f0 = false ->
        flt rate IDLE_CURRENT_THRESHOLD_A = false -> time_estimate soc capacity rate met percent = Some f0).
Proof.
  unfold time_estimate. split.
  - destruct soc as [s|]; [|intuition]. destruct capacity as [c|]; [|intuition].
    destruct (fle c f0) eqn:Ec; [split; [intros _; right; right; left; eauto|reflexivity]|].
    destruct (flt rate _) eqn:Er; [intuition|].
    split; [destruct (met s); discriminate|]. intros [H|[H|[(c' & H & Hc)|H]]]; congruence.
  - intros s c -> -> Hm Hc Hr. now rewrite Hc, Hr, Hm.
Qed.

(** Half of 200 Ah above a 15 % floor, discharged at 50 A. *)
Example time_to_floor_1 : time_to_floor (Some (float_of_Z 65)) (Some (float_of_Z 200)) None
  (Ok [("qpigs", [("battery_discharge_current", VStr "50")])]) = Ok (Some (float_of_Z 2)).
Proof. vm_compute. reflexivity. Qed.

(** 1200 W of load on a 48 V bank, with no sun. *)
Example backup_time_1 : backup_time (Some (float_of_Z 65)) (Some (float_of_Z 200)) (Some "unknown")
  (Ok [("qpigs", [("output_active_power", VStr "1200"); ("battery_voltage", VStr "48")])]) = Ok (Some (float_of_Z 4)).
Proof. vm_compute. reflexivity. Qed.

(** ** Witnesses *)

Definition demo_data : res sections :=
  Ok [("qpigs", [("battery_voltage", VStr "52.0"); ("battery_charging_current", VStr "20")]);
      ("qpiri", [("bulk_charging_voltage", VStr "56.4"); ("float_charging_voltage", VStr "54.0")])].

Definition demo_configured : soc_sensor Z := fst (update_battery_capacity (Some "100") soc_sensor_init).
Definition demo_updated : soc_sensor Z :=
  match soc_coordinator_update (float_of_Z 10) 7 demo_data demo_configured with
  | Ok (s, _) => s
  | Raise _ => demo_configured
  end.

Lemma demo_data_ok : data_ok demo_data.
Proof.
  intros d sec s k v E Es Ek. injection E as <-. cbn [dget] in Es.
  destruct (String.eqb sec "qpigs"); [injection Es as <-; cbn [dget] in Ek|].
  - destruct (String.eqb k "battery_voltage"); [injection Ek as <-; exact I|].
    destruct (String.eqb k "battery_charging_current"); [injection Ek as <-; exact I|discriminate].
  - destruct (String.eqb sec "qpiri"); [injection Es as <-; cbn [dget] in Ek|discriminate].
    destruct (String.eqb k "bulk_charging_voltage"); [injection Ek as <-; exact I|].
    destruct (String.eqb k "float_charging_voltage"); [injection Ek as <-; exact I|discriminate].
Qed.

Lemma entity_refines_estimator_witness :
  SocCore.reachable bounded (est demo_updated) /\ native demo_updated = Some f100.
Proof.
  split; [|vm_compute; reflexivity].
  apply (fun H => proj1 (entity_refines_estimator (fun x => Some (Z.of_nat (String.length x))) demo_updated H)).
  apply (er_step _ demo_configured).
  - apply (er_step _ soc_sensor_init); [constructor|]. unfold demo_configured. constructor.
  - apply (es_update _ (float_of_Z 10) 7 demo_data _ _ [Some f100] demo_data_ok). vm_compute. reflexivity.
Defined.

Definition demo_controls : controls :=
  {| c_capacity := Some "200"; c_sync := None; c_mode := Some "Lead-acid"; c_switch := Some "off"; c_window := None;
     c_floor := Some "unavailable" |}.

Lemma restart_keeps_percentage_witness :
  exists s', added_to_hass (fun _ => Some tt)
      (Some (extra_data (fun _ => "2026-01-01T00:00:00+00:00")
         {| est := est (T := unit) soc_sensor_init; native := Some (float_of_Z 40); is_restored := true;
            full_charge_sync_voltage := f0 |})) demo_controls soc_sensor_init = Ok (s', [native s'])
  /\ native s' = Some (float_of_Z 40).
Proof.
  destruct (restart_keeps_percentage (fun _ => "2026-01-01T00:00:00+00:00") (fun _ => Some tt)
    {| est := est (T := unit) soc_sensor_init; native := Some (float_of_Z 40); is_restored := true;
       full_charge_sync_voltage := f0 |} demo_controls "200" (float_of_Z 200)) as (s' & E & H & _).
  - intros []. split; [discriminate|reflexivity].
  - reflexivity.
  - vm_compute. reflexivity.
  - vm_compute. reflexivity.
  - exists s'. split; [exact E|exact H].
Defined.
