(* ===== verification/DirectSensors.v ===== *)
(** The sensor entities: [sensors/direct_sensor.py] and the entity list of
    [sensor.py].

    A sensor class is its [sensor_spec]: where it reads, how, and the suffix of
    its unique id. The value of a sensor is a function of the coordinator's
    sections for the inverter ([Raise] when there are none). *)

From Stdlib Require Import ZArith List Bool Lia String Ascii Floats.SpecFloat.
From S2P Require Import Prelude PyStr PyInt PyFloat FloatFacts PyDict Enums Voltronic Pi18 ModbusRtu Sanity Entities EnergySensors SocSensor.
Import ListNotations.
#[local] Open Scope string_scope.
#[local] Open Scope list_scope.
#[local] Open Scope Z_scope.

(** ** Sensor classes *)

(** How the value is made. *)
Inductive sensor_kind :=
| Numeric
| EnumSensor (options : list string)
| PV2Power
| BatteryPower
| DeviceStatus
| OperatingModeSensor
| FaultSummary.

Record sensor_class := { cl_kind : sensor_kind; cl_attrs : entity_attrs }.

Definition numeric (a : entity_attrs) : sensor_class := {| cl_kind := Numeric; cl_attrs := a |}.

(** A subclass with its own update. *)
Definition overriding (k : sensor_kind) (base : sensor_class) : sensor_class := {| cl_kind := k; cl_attrs := cl_attrs base |}.

(** A sensor: its kind, its constructor arguments and its attributes. *)
Record sensor_spec := { sp_kind : sensor_kind; sp_typed : typed_sensor }.

Definition spec (c : sensor_class) (sec key suffix name : string) : sensor_spec :=
  {| sp_kind := cl_kind c; sp_typed := typed_sensor_of (cl_attrs c) sec key suffix name |}.

Definition spec_suffix (s : sensor_spec) : string := unique_suffix (sp_typed s).
Definition sp_attrs (s : sensor_spec) : entity_attrs := ts_attrs (sp_typed s).
Definition sp_section (s : sensor_spec) : string := ts_section (sp_typed s).
Definition sp_key (s : sensor_spec) : string := ts_key (sp_typed s).

(** [DirectEnumSensorBase.options] *)
Definition options (E : Type) `{PyEnum E} : list string := map enum_name (members (E := E)).

(** *** The base classes *)

Definition DirectWattSensorBase : sensor_class :=
  numeric (measured (Some SensorDeviceClass.POWER) WATT 0).

Definition DirectTemperatureSensorBase : sensor_class :=
  numeric (with_category EntityCategory.DIAGNOSTIC (measured (Some SensorDeviceClass.TEMPERATURE) CELSIUS 0)).

Definition DirectVoltageSensorBase : sensor_class :=
  numeric (measured (Some SensorDeviceClass.VOLTAGE) VOLT 1).

Definition DirectCurrentSensorBase : sensor_class :=
  numeric (measured (Some SensorDeviceClass.CURRENT) AMPERE 0).

Definition DirectApparentPowerSensorBase : sensor_class :=
  numeric (measured (Some SensorDeviceClass.APPARENT_POWER) VOLT_AMPERE 0).

Definition DirectBatteryCapacitySensorBase : sensor_class :=
  numeric (measured None (UnitText "Ah") 0).

Definition DirectFrequencySensorBase : sensor_class :=
  numeric (measured (Some SensorDeviceClass.FREQUENCY) HERTZ 1).

Definition DirectEnumSensorBase (enum_options : list string) : sensor_class :=
  {| cl_kind := EnumSensor enum_options;
     cl_attrs := {| a_device_class := Some SensorDeviceClass.ENUM; a_state_class := None; a_unit := None; a_precision := None;
                    a_category := None; a_icon := None |} |}.

Definition BatteryTypeSensor : sensor_class := DirectEnumSensorBase (options BatteryType).

Definition ACInputVoltageRangeSensor : sensor_class := DirectEnumSensorBase (options ACInputVoltageRange).

Definition OutputSourcePrioritySensor : sensor_class := DirectEnumSensorBase (options OutputSourcePriority).

Definition ChargerSourcePrioritySensor : sensor_class := DirectEnumSensorBase (options ChargerSourcePriority).

Definition ParallelModeSensor : sensor_class := DirectEnumSensorBase (options ParallelMode).

Definition DirectDiagnosticSensorBase : sensor_class := numeric (with_category EntityCategory.DIAGNOSTIC no_attrs).

(** *** The sensors of every inverter *)

Definition DirectPVPowerSensor : sensor_spec := spec DirectWattSensorBase "qpigs" "pv_charging_power" "pv_power" "PV Power".

Definition DirectACGridInPowerSensor : sensor_spec := spec DirectWattSensorBase "qpigs" "grid_ac_in_power" "grid_ac_in_power" "Grid AC In Power".

Definition DirectPV2PowerSensor : sensor_spec :=
  spec (overriding PV2Power DirectWattSensorBase) "unused" "unused" "pv2_power" "PV2 Power".

Definition DirectPVVoltageSensor : sensor_spec := spec DirectVoltageSensorBase "qpigs" "pv_input_voltage" "pv_voltage" "PV Voltage".

Definition DirectPV2VoltageSensor : sensor_spec := spec DirectVoltageSensorBase "qpigs2" "pv_voltage" "pv2_voltage" "PV2 Voltage".

Definition DirectPV2CurrentSensor : sensor_spec := spec DirectCurrentSensorBase "qpigs2" "pv_current" "pv2_current" "PV2 Current".

Definition DirectBatteryVoltageSensor : sensor_spec := spec DirectVoltageSensorBase "qpigs" "battery_voltage" "battery" "Battery Voltage".

Definition DirectInverterOutputPowerSensor : sensor_spec := spec DirectWattSensorBase "qpigs" "output_active_power" "inverter_out_power" "Inverter Out Power".

Definition DirectInverterTemperatureSensor : sensor_spec := spec DirectTemperatureSensorBase "qpigs" "inverter_heat_sink_temperature" "inverter_temperature" "Inverter Temperature".

Definition DirectInverterDCModuleTemperatureSensor : sensor_spec := spec DirectTemperatureSensorBase "qpigs" "inverter_dcdc_module_temperature" "inverter_dc_dc_temperature" "Inverter DC-DC Module Temperature".

Definition DirectGridVoltageSensor : sensor_spec := spec DirectVoltageSensorBase "qpigs" "grid_voltage" "grid_voltage" "Grid Voltage".

Definition DirectGridFrequencySensor : sensor_spec :=
  spec (numeric (measured (Some SensorDeviceClass.FREQUENCY) (UnitText "Hz") 1))
    "qpigs" "grid_frequency" "grid_freq" "Grid Frequency".

Definition DirectACOutputVoltageSensor : sensor_spec := spec DirectVoltageSensorBase "qpigs" "ac_output_voltage" "ac_output_voltage" "AC Output Voltage".

Definition DirectACOutputFrequencySensor : sensor_spec :=
  spec (numeric (measured (Some SensorDeviceClass.FREQUENCY) (UnitText "Hz") 1))
    "qpigs" "ac_output_frequency" "ac_output_freq" "AC Output Frequency".

Definition DirectOutputApparentPowerSensor : sensor_spec := spec DirectWattSensorBase "qpigs" "output_apparent_power" "output_apparent_power" "Apparent Power".

Definition DirectLoadPercentSensor : sensor_spec :=
  spec (numeric (measured (Some SensorDeviceClass.POWER_FACTOR) (UnitText "%") 0))
    "qpigs" "load_percent" "load_percent" "Load Percent".

Definition DirectBusVoltageSensor : sensor_spec := spec DirectVoltageSensorBase "qpigs" "bus_voltage" "bus_voltage" "Bus Voltage".

Definition DirectBatteryChargingCurrentSensor : sensor_spec := spec DirectCurrentSensorBase "qpigs" "battery_charging_current" "battery_charging_current" "Battery Charging Current".

Definition DirectBatteryDischargeCurrentSensor : sensor_spec := spec DirectCurrentSensorBase "qpigs" "battery_discharge_current" "battery_discharge_current" "Battery Discharge Current".

Definition DirectBatteryPowerSensor : sensor_spec :=
  spec (overriding BatteryPower DirectWattSensorBase) "qpigs" "_battery_power" "battery_power" "Battery Power".

Definition DirectBatteryCapacitySensor : sensor_spec :=
  spec (numeric (measured (Some SensorDeviceClass.BATTERY) (UnitText "%") 0))
    "qpigs" "battery_capacity" "battery_capacity" "Battery Capacity".

Definition DirectPVInputCurrentSensor : sensor_spec := spec DirectCurrentSensorBase "qpigs" "pv_input_current" "pv_input_current" "PV Input Current".

Definition DirectSCCBatteryVoltageSensor : sensor_spec := spec DirectVoltageSensorBase "qpigs" "scc_battery_voltage" "scc_batt_voltage" "SCC Battery Voltage".

Definition DirectOperatingModeSensor : sensor_spec :=
  spec {| cl_kind := OperatingModeSensor; cl_attrs := cl_attrs (DirectEnumSensorBase (options OperatingMode)) |}
    "qmod" "operating_mode" "operating_mode" "Operating Mode".

(** The two summary entities read no single key. *)
Definition DirectDeviceStatusSensor : sensor_spec :=
  spec {| cl_kind := DeviceStatus; cl_attrs := with_icon "mdi:information-outline" no_attrs |}
    "qpigs" "device_status_bits_b7_b0" "device_status" "Device Status".

Definition DirectInverterFaultSummarySensor : sensor_spec :=
  spec {| cl_kind := FaultSummary;
          cl_attrs := with_icon "mdi:alert-circle-outline" (with_category EntityCategory.DIAGNOSTIC no_attrs) |}
    "qfws" "fault_code" "fault_summary" "Inverter Fault Summary".

Definition DIRECT_SENSORS : list sensor_spec := [
  DirectPVPowerSensor; DirectPV2PowerSensor; DirectPVVoltageSensor; DirectPV2VoltageSensor;
  DirectPVInputCurrentSensor; DirectPV2CurrentSensor; DirectBatteryVoltageSensor; DirectBatteryChargingCurrentSensor;
  DirectBatteryDischargeCurrentSensor; DirectBatteryCapacitySensor; DirectInverterOutputPowerSensor;
  DirectInverterTemperatureSensor; DirectInverterDCModuleTemperatureSensor; DirectGridVoltageSensor;
  DirectGridFrequencySensor; DirectACGridInPowerSensor; DirectACOutputVoltageSensor; DirectACOutputFrequencySensor;
  DirectOutputApparentPowerSensor; DirectLoadPercentSensor; DirectBusVoltageSensor; DirectSCCBatteryVoltageSensor;
  DirectDeviceStatusSensor; DirectBatteryPowerSensor; DirectOperatingModeSensor; DirectInverterFaultSummarySensor].

(** *** The sensors of PI18 *)

Definition DirectPV2InputPowerSensor : sensor_spec := spec DirectWattSensorBase "qpigs" "pv2_input_power" "pv2_input_power" "PV2 Input Power".

Definition DirectPV2InputVoltageSensor : sensor_spec := spec DirectVoltageSensorBase "qpigs" "pv2_input_voltage" "pv2_input_voltage" "PV2 Input Voltage".

Definition DirectPV2InputCurrentSensor : sensor_spec := spec DirectCurrentSensorBase "qpigs" "pv2_input_current" "pv2_input_current" "PV2 Input Current".

Definition DirectMPPT1TemperatureSensor : sensor_spec := spec DirectTemperatureSensorBase "qpigs" "mppt1_temperature" "mppt1_temperature" "MPPT1 Temperature".

Definition DirectMPPT2TemperatureSensor : sensor_spec := spec DirectTemperatureSensorBase "qpigs" "mppt2_temperature" "mppt2_temperature" "MPPT2 Temperature".

Definition DirectSCC2BatteryVoltageSensor : sensor_spec := spec DirectVoltageSensorBase "qpigs" "scc2_battery_voltage" "scc2_battery_voltage" "SCC2 Battery Voltage".

Definition DirectMPPT1StatusSensor : sensor_spec :=
  spec (DirectEnumSensorBase (options PI18MPPTStatus)) "qpigs" "mppt1_status" "mppt1_status" "MPPT1 Status".

Definition DirectMPPT2StatusSensor : sensor_spec :=
  spec (DirectEnumSensorBase (options PI18MPPTStatus)) "qpigs" "mppt2_status" "mppt2_status" "MPPT2 Status".

Definition DirectBatteryPowerDirectionSensor : sensor_spec :=
  spec (DirectEnumSensorBase (options PI18BatteryPowerDirection)) "qpigs" "battery_power_direction" "battery_power_direction" "Battery Power Direction".

Definition DirectDCACPowerDirectionSensor : sensor_spec :=
  spec (DirectEnumSensorBase (options PI18DCACPowerDirection)) "qpigs" "dcac_power_direction" "dcac_power_direction" "DC-AC Power Direction".

Definition DirectLinePowerDirectionSensor : sensor_spec :=
  spec (DirectEnumSensorBase (options PI18LinePowerDirection)) "qpigs" "line_power_direction" "line_power_direction" "Line Power Direction".

Definition PI18_SENSORS : list sensor_spec := [
  DirectPV2InputPowerSensor; DirectPV2InputVoltageSensor; DirectPV2InputCurrentSensor; DirectMPPT1TemperatureSensor;
  DirectMPPT2TemperatureSensor; DirectSCC2BatteryVoltageSensor; DirectMPPT1StatusSensor; DirectMPPT2StatusSensor;
  DirectBatteryPowerDirectionSensor; DirectDCACPowerDirectionSensor; DirectLinePowerDirectionSensor].

(** *** The settings of QPIRI *)

Definition QPIRI_SENSOR_MAPPING : dict (sensor_class * string) := [
  ("rated_grid_voltage", (DirectVoltageSensorBase, "Rated Grid Voltage"));
  ("rated_input_current", (DirectCurrentSensorBase, "Rated Input Current"));
  ("rated_ac_output_voltage", (DirectVoltageSensorBase, "Rated AC Output Voltage"));
  ("rated_output_frequency", (DirectFrequencySensorBase, "Rated Output Frequency"));
  ("rated_output_current", (DirectCurrentSensorBase, "Rated Output Current"));
  ("rated_output_apparent_power", (DirectApparentPowerSensorBase, "Rated Output Apparent Power"));
  ("rated_output_active_power", (DirectWattSensorBase, "Rated Output Active Power"));
  ("rated_battery_voltage", (DirectVoltageSensorBase, "Rated Battery Voltage"));
  ("low_battery_to_ac_bypass_voltage", (DirectVoltageSensorBase, "Low Battery to AC Bypass Voltage"));
  ("shut_down_battery_voltage", (DirectVoltageSensorBase, "Shut Down Battery Voltage"));
  ("bulk_charging_voltage", (DirectVoltageSensorBase, "Bulk Charging Voltage"));
  ("float_charging_voltage", (DirectVoltageSensorBase, "Float Charging Voltage"));
  ("battery_type", (BatteryTypeSensor, "Battery Type"));
  ("max_utility_charging_current", (DirectCurrentSensorBase, "Max Utility Charging Current"));
  ("max_charging_current", (DirectCurrentSensorBase, "Max Charging Current"));
  ("ac_input_voltage_range", (ACInputVoltageRangeSensor, "AC Input Voltage Range"));
  ("output_source_priority", (OutputSourcePrioritySensor, "Output Source Priority"));
  ("charger_source_priority", (ChargerSourcePrioritySensor, "Charger Source Priority"));
  ("parallel_max_number", (DirectDiagnosticSensorBase, "Parallel Max Number"));
  ("reserved_uu", (DirectDiagnosticSensorBase, "Reserved UU"));
  ("reserved_v", (DirectDiagnosticSensorBase, "Reserved V"));
  ("parallel_mode", (ParallelModeSensor, "Parallel Mode"));
  ("high_battery_voltage_to_battery_mode", (DirectVoltageSensorBase, "High Battery Voltage to Battery Mode"));
  ("solar_work_condition_in_parallel", (DirectDiagnosticSensorBase, "Solar Work Condition In Parallel"));
  ("solar_max_charging_power_auto_adjust", (DirectDiagnosticSensorBase, "Solar Max Charging Power Auto Adjust"));
  ("rated_battery_capacity", (DirectBatteryCapacitySensorBase, "Rated Battery Capacity"));
  ("reserved_b", (DirectDiagnosticSensorBase, "Reserved B"));
  ("reserved_ccc", (DirectDiagnosticSensorBase, "Reserved CCC"))].

Definition generate_qpiri_sensors : list sensor_spec :=
  map (fun e => spec (fst (snd e)) "qpiri" (fst e) "" (snd (snd e))) QPIRI_SENSOR_MAPPING.

(** The suffixes of the entities [sensor.py] adds besides these: five energy
    accumulators, the state of charge and its four derived sensors. *)
Definition ENERGY_SUFFIXES : list string :=
  map unique_suffix [DirectPVEnergySensor; DirectPV2EnergySensor; DirectInverterOutputEnergySensor; DirectBatteryInEnergySensor;
                     DirectBatteryOutEnergySensor; DirectBatteryStateOfChargeSensor]
  ++ map se_suffix [DirectBatteryTimeToFloorSensor; DirectBatteryTimeToFullSensor; DirectBatteryBackupTimeSensor;
                    DirectBatteryVSocLastSyncSensor].

(** The unique ids [async_setup_entry] gives the sensors of one inverter. *)
Definition setup_unique_ids (inverter_id : string) (is_pi18 : bool) : list string :=
  map (fun suffix => (inverter_id ++ "_" ++ suffix)%string)
    (map spec_suffix DIRECT_SENSORS ++ map spec_suffix generate_qpiri_sensors ++ ENERGY_SUFFIXES
     ++ (if is_pi18 then map spec_suffix PI18_SENSORS else [])).

(** ** Values *)

(** [DirectTypedSensorBase] *)
Definition numeric_value (sec key : string) (data : res sections) : res pyval :=
  rbind data (fun data =>
    match vget key (section sec data) with
    | VNone => Ok VNone
    | raw => or_number VNone (rmap VFloat (float_of_val raw))
    end).

(** [DirectEnumSensorBase]: a member of an enumeration is not one of the names. *)
Definition enum_sensor_value (opts : list string) (sec key : string) (data : res sections) : res pyval :=
  rmap (fun data =>
      match vget key (section sec data) with
      | VStr s => if existsb (String.eqb s) opts then VStr s else VNone
      | _ => VNone
      end) data.

(** [except (KeyError, ValueError, TypeError)] *)
Definition or_value (x : pyval) (r : res pyval) : res pyval :=
  match r with
  | Raise e => if is_data_error e then Ok x else Raise e
  | r => r
  end.

(** [DirectPV2PowerSensor] *)
Definition pv2_power_value (data : res sections) : res pyval :=
  or_value VNone
    (let! data := data in
     let! qpigs2 := index "qpigs2" data in
     let! ci := index "pv_current" qpigs2 in
     let! current := float_of_val ci in
     let! vi := index "pv_voltage" qpigs2 in
     let! voltage := float_of_val vi in
     Ok (VFloat (fmul current voltage)))%py.

(** [DirectBatteryPowerSensor] *)
Definition battery_power (chg dis v : float) : pyval :=
  if feq chg f0 && feq dis f0 && feq v f0 then VNone
  else if negb (is_plausible_battery_current chg) || negb (is_plausible_battery_current dis)
          || negb (is_plausible_battery_voltage v) then VNone
  else let raw_value := fmul (fsub chg dis) v in
       if is_plausible_power raw_value then VFloat raw_value else VNone.

Definition battery_power_value (data : res sections) : res pyval :=
  rbind data (fun data =>
    match section "qpigs" data with
    | [] => Ok VNone
    | qpigs =>
        or_number VNone
          (let! chg := float_or_zero "battery_charging_current" qpigs in
           let! dis := float_or_zero "battery_discharge_current" qpigs in
           let! v := float_or_zero "battery_voltage" qpigs in
           Ok (battery_power chg dis v))%py
    end).

(** The status text of the flags, by the source's chain of tests. *)
Definition status_text (flags : Z) (before : string) : string :=
  if negb (Z.land flags (b7b0_mask FAULT) =? 0) then "FAULT"
  else if negb (Z.land flags (b7b0_mask LINE_FAIL) =? 0) then "LINE_FAIL"
  else if negb (Z.land flags (b7b0_mask INVERTER_OVERLOAD) =? 0) then "INVERTER_OVERLOAD"
  else if negb (Z.land flags (b7b0_mask BATTERY_LOW) =? 0) then "BATTERY_LOW"
  else before.

(** [DirectDeviceStatusSensor]: the last assignment is outside the chain. *)
Definition device_status_value (data : res sections) : res pyval :=
  (let! data := data in
   let! flags := int_of_val (match dget "device_status_bits_b7_b0" (section "qpigs" data) with
                             | Some v => v | None => VInt 0 end) in
   let native_value := status_text flags "" in
   let native_value := "OK" in
   Ok (VStr native_value))%py.

(** Its attributes; the parser takes a missing, empty or zero field as a text
    without bits, and any other field that is no text cannot be read. *)
Definition device_status_attributes (data : res sections) : res pydict :=
  rbind data (fun data =>
    match dget "device_status_bits_b7_b0" (section "qpigs" data) with
    | Some (VStr s) => parse_device_status_bits_b7_b0 s
    | None => parse_device_status_bits_b7_b0 ""
    | Some v => if truthy v then Raise (TypeError "not iterable") else parse_device_status_bits_b7_b0 ""
    end).

(** [DirectOperatingModeSensor] *)
Definition operating_mode_value (data : res sections) : res pyval :=
  rmap (fun data =>
      match vget "operating_mode" (section "qmod" data) with
      | VEnum _ s | VStr s => if existsb (String.eqb s) (options OperatingMode) then VStr s else VNone
      | _ => VNone
      end) data.

(** ** The fault summary *)

Definition WARNING_SEVERITY_ORDER : list (string * string) := [
  ("fault_active", "Fault Active"); ("inverter_fault", "Inverter Fault");
  ("battery_under_shutdown", "Battery Shutdown"); ("battery_open", "Battery Disconnected");
  ("battery_short", "Battery Short Circuit"); ("battery_over_current", "Battery Overcurrent");
  ("self_test_fail", "Self-test Fail"); ("inverter_over_current", "Inverter Overcurrent");
  ("inverter_negative_power", "Inverter Negative Power"); ("bus_over", "Bus Overvoltage");
  ("bus_under", "Bus Undervoltage"); ("bus_soft_fail", "Bus Soft-start Fail");
  ("over_temperature", "Over Temperature"); ("inverter_over_temperature", "Inverter Over Temperature");
  ("dcdc_over_temperature", "DC-DC Over Temperature"); ("pv_over_temperature", "PV Over Temperature");
  ("eeprom_fault", "EEPROM Fault"); ("current_sensor_fail", "Current Sensor Fail");
  ("fan_locked", "Fan Locked"); ("overload", "Overload");
  ("battery_voltage_high", "Battery Overvoltage"); ("battery_low_alarm", "Battery Low");
  ("battery_too_low_to_charge", "Battery Too Low to Charge"); ("battery_type_incompatible", "Battery Type Mismatch");
  ("inverter_voltage_too_high", "Inverter Output Overvoltage"); ("inverter_voltage_too_low", "Inverter Output Undervoltage");
  ("op_dc_voltage_over", "Output DC Overvoltage"); ("pv_voltage_high", "PV Overvoltage");
  ("pv_low_voltage", "PV Voltage Too Low"); ("pv_over_current", "PV Overcurrent");
  ("mppt_overload_fault", "MPPT Overload"); ("opv_short", "Output Short");
  ("inverter_soft_fail", "Inverter Soft-start Fail"); ("mains_low_frequency", "Grid Low Frequency");
  ("mains_over_frequency", "Grid Over Frequency"); ("mains_waveform_abnormal", "Grid Waveform Abnormal");
  ("parallel_host_lost", "Parallel Host Lost"); ("parallel_sync_abnormal", "Parallel Sync Lost");
  ("parallel_battery_diff", "Parallel Battery Mismatch"); ("parallel_mode_inconsistent", "Parallel Mode Mismatch");
  ("parallel_version_incompatible", "Parallel Version Mismatch"); ("parallel_comm_interrupted", "Parallel Comm Lost");
  ("battery_eq_charging", "Battery Equalize Charging"); ("pv_energy_low", "PV Energy Low");
  ("power_limit", "Power Limiting"); ("mppt_overload_warning", "MPPT Overload Warning");
  ("line_fail", "Line Fail"); ("battery_current_bias", "Battery Current Bias");
  ("inverter_current_bias", "Inverter Current Bias"); ("output_current_bias", "Output Current Bias");
  ("pv_current_bias", "PV Current Bias")].

Definition catalog : list string := map fst WARNING_SEVERITY_ORDER.
Definition warn_key (base : string) : string := ("warn_" ++ base)%string.

(** [_flag_set] *)
Definition flag_set (flags : pydict) (base : string) : bool :=
  truthy (vget base flags) || truthy (vget (warn_key base) flags).

(** [isinstance(v, (int, float)) and v != 0] *)
Definition code_nonzero (v : pyval) : bool :=
  match v with
  | VBool b => b
  | VInt z => negb (z =? 0)
  | VFloat x => negb (is_zero x)
  | _ => false
  end.

(** [_merged_warnings] *)
Definition merge_flags (qpiws qfws : pydict) : pydict :=
  fold_left (fun d kv => dsetdefault (fst kv) (snd kv) d) qfws qpiws.
Definition merged_warnings (data : sections) : pydict :=
  merge_flags (section "qpiws" data) (section "qfws" data).

(** A set flag with a [warn_] name outside the table. *)
Definition uncatalogued (kv : string * pyval) : bool :=
  startswith (fst kv) "warn_" && truthy (snd kv) && negb (existsb (String.eqb (fst kv)) (map warn_key catalog)).

(** [active_keys] *)
Definition active_keys (flags : pydict) : list string :=
  nodup string_dec (filter (flag_set flags) catalog ++ map fst (filter uncatalogued flags)).

(** What the sensor shows; the text is the source's f-string of it. *)
Inductive summary :=
| SummaryOK
| SummaryFault (shown : pyval)
| SummaryCode (code : Z)
| SummaryCount (total : nat)
| SummaryWarning (first : string) (more : nat).

Definition warning_summary (flags : pydict) : summary :=
  let total := List.length (active_keys flags) in
  match total, find (fun e => flag_set flags (fst e)) WARNING_SEVERITY_ORDER with
  | O, _ => SummaryOK
  | _, None => SummaryCount total
  | _, Some e => SummaryWarning (snd e) (total - 1)
  end.

Definition fault_summary (flags : pydict) : res summary :=
  let fault_code := vget "fault_code" flags in
  let fault_description := vget "fault_description" flags in
  let warning_code := vget "warning_code" flags in
  if code_nonzero fault_code
  then Ok (SummaryFault (if truthy fault_description then fault_description else fault_code))
  else if code_nonzero warning_code then rmap SummaryCode (int_of_val warning_code)
  else Ok (warning_summary flags).

(** [_flag_attrs] *)
Definition flag_attrs (flags : pydict) : pydict :=
  let kept := filter (fun kv => negb (startswith (fst kv) "_reserved_")) flags in
  let active := List.length (filter (fun kv => match snd kv with VBool b => b | _ => false end) kept) in
  dset "active_count" (VInt (Z.of_nat active)) (dict_of kept).

(** [show] is Python's [str]. *)
Definition summary_text (show : pyval -> string) (s : summary) : string :=
  match s with
  | SummaryOK => "OK"
  | SummaryFault v => "Fault: " ++ show v
  | SummaryCode c => "Warning: SMG-II code 0x" ++ ModbusRtu.hex8 c
  | SummaryCount n => "Warning: " ++ str_of_int (Z.of_nat n) ++ " active"
  | SummaryWarning first O => "Warning: " ++ first
  | SummaryWarning first n => "Warning: " ++ first ++ " (+" ++ str_of_int (Z.of_nat n) ++ " more)"
  end%string.

Definition fault_summary_value (show : pyval -> string) (data : res sections) : res pyval :=
  rbind data (fun data => rmap (fun s => VStr (summary_text show s)) (fault_summary (merged_warnings data))).

(** The value of any of the sensors. *)
Definition sensor_value (show : pyval -> string) (s : sensor_spec) (data : res sections) : res pyval :=
  match sp_kind s with
  | Numeric => numeric_value (sp_section s) (sp_key s) data
  | EnumSensor opts => enum_sensor_value opts (sp_section s) (sp_key s) data
  | PV2Power => pv2_power_value data
  | BatteryPower => battery_power_value data
  | DeviceStatus => device_status_value data
  | OperatingModeSensor => operating_mode_value data
  | FaultSummary => fault_summary_value show data
  end.

(** ** Declarations and values *)

(** The options of a class of the enumeration family. *)
Definition sensor_options (s : sensor_spec) : option (list string) :=
  match sp_kind s with
  | EnumSensor opts => Some opts
  | OperatingModeSensor => Some (options OperatingMode)
  | _ => None
  end.

(** The sensors of one inverter, without the accumulators and estimates. *)
Definition direct_entities (is_pi18 : bool) : list sensor_spec :=
  DIRECT_SENSORS ++ generate_qpiri_sensors ++ (if is_pi18 then PI18_SENSORS else []).

(** ** Lemmas *)

(** What the numeric updates publish. *)
Lemma numeric_value_number sec key data v : numeric_value sec key data = Ok v -> v = VNone \/ exists x, v = VFloat x.
Proof.
  unfold numeric_value. destruct data as [d|e]; [|discriminate]. cbn [rbind]. destruct (vget key (section sec d)) eqn:E;
    try (unfold or_number, rmap; destruct (float_of_val _) as [x|x] eqn:Ex; cbn [rbind];
         [intros [= <-]; right; now exists x|destruct (_ || _); [intros [= <-]; now left|discriminate]]).
  intros [= <-]. now left.
Qed.

Lemma or_value_none_inv r v : or_value VNone r = Ok v -> v = VNone \/ r = Ok v.
Proof. destruct r as [x|e]; cbn [or_value]; [now right|]. destruct (is_data_error e); [intros [= <-]; now left|discriminate]. Qed.

Lemma or_number_none_inv r v : or_number VNone r = Ok v -> v = VNone \/ r = Ok v.
Proof. destruct r as [x|e]; cbn [or_number]; [now right|]. destruct (_ || _); [intros [= <-]; now left|discriminate]. Qed.

(** A published number: a float, or unknown. *)
Definition float_or_none (v : pyval) : bool := match v with VNone | VFloat _ => true | _ => false end.

Lemma battery_power_number chg dis v : float_or_none (battery_power chg dis v) = true.
Proof. unfold battery_power. now repeat match goal with |- context [if ?b then _ else _] => destruct b end. Qed.

Lemma pv2_power_number data v : pv2_power_value data = Ok v -> float_or_none v = true.
Proof.
  unfold pv2_power_value. intros H. apply or_value_none_inv in H as [->|H]; [reflexivity|].
  repeat (apply rbind_ok_inv in H as (? & ? & H)). now injection H as <-.
Qed.

Lemma battery_power_value_number data v : battery_power_value data = Ok v -> float_or_none v = true.
Proof.
  unfold battery_power_value. intros H. apply rbind_ok_inv in H as (d & -> & H).
  destruct (section "qpigs" d); [now injection H as <-|]. apply or_number_none_inv in H as [->|H]; [reflexivity|].
  repeat (apply rbind_ok_inv in H as (? & ? & H)). injection H as <-. apply battery_power_number.
Qed.

(** An option of a list, or unknown. *)
Definition option_or_none (opts : list string) (v : pyval) : bool :=
  match v with VNone => true | VStr s => existsb (String.eqb s) opts | _ => false end.

Lemma enum_value_option opts sec key data v : enum_sensor_value opts sec key data = Ok v -> option_or_none opts v = true.
Proof.
  unfold enum_sensor_value, rmap. destruct data as [d|e]; [|discriminate]. cbn [rbind].
  intros [= <-]. destruct (vget key (section sec d)) as [| | | |s| | | |]; try reflexivity.
  destruct (existsb (String.eqb s) opts) eqn:E; [exact E|reflexivity].
Qed.

Lemma operating_mode_option data v : operating_mode_value data = Ok v -> option_or_none (options OperatingMode) v = true.
Proof.
  assert (forall opts s, option_or_none opts (if existsb (String.eqb s) opts then VStr s else VNone) = true) as Hs.
  { intros opts s. destruct (existsb (String.eqb s) opts) eqn:E; [exact E|reflexivity]. }
  unfold operating_mode_value, rmap. destruct data as [d|e]; [|discriminate]. cbn [rbind].
  intros [= <-]. destruct (vget "operating_mode" (section "qmod" d)); try reflexivity; exact (Hs (options OperatingMode) _).
Qed.

(** What a class must declare for the values of its kind. *)
Definition declared_well (s : sensor_spec) : bool :=
  declaration_ok (sp_attrs s) (sensor_options s) && negb (is_timestamp_class (sp_attrs s))
  && match sp_kind s with DeviceStatus | FaultSummary => negb (numeric_expected (sp_attrs s)) | _ => true end.

Lemma float_accepted a v : is_timestamp_class a = false -> float_or_none v = true -> accepted a None v = true.
Proof. intros Ha Hv. destruct v; try discriminate Hv; cbn [accepted]; [reflexivity|]. rewrite Ha. now destruct (numeric_expected a). Qed.

Lemma option_accepted a opts v : option_or_none opts v = true -> accepted a (Some opts) v = true.
Proof. now destruct v. Qed.

Lemma text_accepted a s : is_timestamp_class a = false -> numeric_expected a = false -> accepted a None (VStr s) = true.
Proof. cbn [accepted]. now intros -> ->. Qed.

Lemma declared_well_accepted show s data v :
  declared_well s = true -> sensor_value show s data = Ok v -> accepted (sp_attrs s) (sensor_options s) v = true.
Proof.
  unfold declared_well, sensor_value, sensor_options. intros H Hv. apply andb_prop in H as [H Hk]. apply andb_prop in H as [_ Ht].
  apply negb_true_iff in Ht. destruct (sp_kind s).
  - apply float_accepted; [exact Ht|]. now destruct (numeric_value_number _ _ _ _ Hv) as [->|(x & ->)].
  - eapply option_accepted, enum_value_option, Hv.
  - eapply float_accepted, pv2_power_number; eassumption.
  - eapply float_accepted, battery_power_value_number; eassumption.
  - unfold device_status_value in Hv. repeat (apply rbind_ok_inv in Hv as (? & ? & Hv)). injection Hv as <-.
    apply text_accepted; [exact Ht|now apply negb_true_iff].
  - eapply option_accepted, operating_mode_option, Hv.
  - unfold fault_summary_value in Hv. apply rbind_ok_inv in Hv as (d & _ & Hv). unfold rmap in Hv.
    apply rbind_ok_inv in Hv as (x & _ & Hv). injection Hv as <-. apply text_accepted; [exact Ht|now apply negb_true_iff].
Qed.

(** ** Property *)

(** C31: every sensor of an inverter declares consistent attributes, and whatever the
    coordinator's data hold, a value it publishes has the type it declares: a number for a
    sensor with a unit, one of its options for an enumeration, and never a number where
    options are declared. *)
Theorem sensors_accepted (show : pyval -> string) (is_pi18 : bool) (s : sensor_spec) (data : res sections) (v : pyval)
    (Hs : In s (direct_entities is_pi18)) (Hv : sensor_value show s data = Ok v) :
  declaration_ok (sp_attrs s) (sensor_options s) = true /\ accepted (sp_attrs s) (sensor_options s) v = true.
Proof.
  assert (forallb declared_well (direct_entities is_pi18) = true) as H by (destruct is_pi18; vm_compute; reflexivity).
  rewrite forallb_forall in H. specialize (H s Hs). split; [|now apply declared_well_accepted with show data].
  apply andb_prop in H as [H _]. now apply andb_prop in H as [H _].
Qed.

Lemma sensors_accepted_witness :
  sensor_value (fun _ => ""%string) DirectLinePowerDirectionSensor (Ok [("qpigs", [("line_power_direction", VStr "Input")])])
    = Ok (VStr "Input")
  /\ accepted (sp_attrs DirectLinePowerDirectionSensor) (sensor_options DirectLinePowerDirectionSensor) (VStr "Input") = true.
Proof.
  split; [vm_compute; reflexivity|].
  refine (proj2 (sensors_accepted (fun _ => ""%string) true DirectLinePowerDirectionSensor
    (Ok [("qpigs", [("line_power_direction", VStr "Input")])]) (VStr "Input") _ _)); [|vm_compute; reflexivity].
  cbn -[DirectLinePowerDirectionSensor]. repeat first [now left|right].
Defined.
