(* ===== verification/BinarySensors.v ===== *)
(** Binary sensors: [binary_sensor.py].

    The data of the inverter are an argument as for the sensors; a binary sensor
    shows [Some] on or off, or [None] (unknown). *)

From Stdlib Require Import ZArith List Bool Lia String Ascii Lists.Finite.
From S2P Require Import Prelude PyStr PyInt PyFloat PyDict Enums Voltronic Pi18 Entities EnergySensors DirectSensors.
Import ListNotations.
#[local] Open Scope string_scope.
#[local] Open Scope list_scope.
#[local] Open Scope Z_scope.

Module BinarySensorDeviceClass.
Inductive t := PROBLEM | BATTERY | BATTERY_CHARGING | RUNNING.
End BinarySensorDeviceClass.

(** A row of the tables: (status key, suffix, human name, device class). *)
Record flag_row := { fr_key : string; fr_suffix : string; fr_name : string; fr_class : option BinarySensorDeviceClass.t }.

(** The suffix of every row is its key. *)
Definition row (key name : string) (c : BinarySensorDeviceClass.t) : flag_row :=
  {| fr_key := key; fr_suffix := key; fr_name := name; fr_class := Some c |}.

Definition B7_B0_FLAGS : list flag_row := [
  row "fault" "Fault" BinarySensorDeviceClass.PROBLEM;
  row "line_fail" "Line Fail" BinarySensorDeviceClass.PROBLEM;
  row "bus_over" "Bus Over" BinarySensorDeviceClass.PROBLEM;
  row "battery_low" "Battery Low" BinarySensorDeviceClass.BATTERY;
  row "battery_high" "Battery High" BinarySensorDeviceClass.PROBLEM;
  row "inverter_overload" "Inverter Overload" BinarySensorDeviceClass.PROBLEM;
  row "inverter_on" "Inverter On" BinarySensorDeviceClass.RUNNING].

Definition B10_B8_FLAGS : list flag_row := [
  row "charging_to_battery" "Charging to Battery" BinarySensorDeviceClass.BATTERY_CHARGING;
  row "charging_ac_active" "AC Charging Active" BinarySensorDeviceClass.RUNNING;
  row "charging_scc_active" "SCC Charging Active" BinarySensorDeviceClass.RUNNING].

Definition QPIWS_WARNINGS : list flag_row := [
  row "inverter_fault" "Inverter Fault" BinarySensorDeviceClass.PROBLEM;
  row "overload" "Overload" BinarySensorDeviceClass.PROBLEM;
  row "over_temperature" "Over Temperature" BinarySensorDeviceClass.PROBLEM;
  row "fan_locked" "Fan Locked" BinarySensorDeviceClass.PROBLEM;
  row "battery_under_shutdown" "Battery Shutdown" BinarySensorDeviceClass.PROBLEM;
  row "eeprom_fault" "EEPROM Fault" BinarySensorDeviceClass.PROBLEM].

(** The sections of the inverter, empty when there are none. *)
Definition sections_or_empty (data : res sections) : sections :=
  match data with Ok d => d | Raise _ => [] end.

(** [_StatusBitBinarySensor]: the parsers iterate over [raw or ""]; a status field
    is a text, and a value that cannot be iterated raises inside the [try]. *)
Definition status_bit (raw_field : string) (parser : string -> res pydict) (flag_key : string)
    (data : res sections) : option bool :=
  let flag raw :=
    match parser raw with
    | Ok parsed => match vget flag_key parsed with VNone => None | v => Some (truthy v) end
    | Raise _ => None
    end in
  match vget raw_field (section "qpigs" (sections_or_empty data)) with
  | VNone | VStr "" => None
  | VStr raw => flag raw
  | v => if truthy v then None else flag ""
  end.

(** [_WarningFlagBinarySensor] *)
Definition warning_flag (flag_key : string) (data : res sections) : option bool :=
  let flags := merged_warnings (sections_or_empty data) in
  match vget flag_key flags, vget (warn_key flag_key) flags with
  | VNone, VNone => None
  | bare, prefixed => Some (truthy bare || truthy prefixed)
  end.

(** [_AnyWarningBinarySensor] *)
Definition is_true (v : pyval) : bool := match v with VBool b => b | _ => false end.

Definition any_warning_flags (qpiws qfws : pydict) : bool :=
  code_nonzero (vget "fault_code" qfws) || code_nonzero (vget "warning_code" qfws)
  || truthy (vget "has_fault" qfws) || truthy (vget "has_warning" qfws)
  || existsb (fun kv => is_true (snd kv) && negb (startswith (fst kv) "_reserved_")) qpiws
  || existsb (fun kv => is_true (snd kv) && startswith (fst kv) "warn_") qfws.

Definition any_warning (data : res sections) : option bool :=
  match data with
  | Ok d => Some (any_warning_flags (section "qpiws" d) (section "qfws" d))
  | Raise _ => None
  end.

(** ** Entities

    An entity: what it declares, and what it shows for the coordinator's data. *)
Record binary_entity := {
  be_unique_id : string;
  be_name : string;
  be_class : option BinarySensorDeviceClass.t;
  be_icon : option string;
  be_device : DeviceInfo;
  be_available : coordinator_data -> bool;
  be_update : coordinator_data -> option bool
}.

Definition status_bit_entity (raw_field : string) (parser : string -> res pydict) (d : InverterDevice) (r : flag_row)
    : binary_entity := {|
  be_unique_id := (i_id d ++ "_direct_" ++ fr_suffix r)%string;
  be_name := (i_name d ++ " Direct " ++ fr_name r)%string;
  be_class := fr_class r; be_icon := None; be_device := device_info d; be_available := available d;
  be_update := fun data => status_bit raw_field parser (fr_key r) (device_data d data) |}.

Definition warning_flag_entity (d : InverterDevice) (r : flag_row) : binary_entity := {|
  be_unique_id := (i_id d ++ "_direct_warning_" ++ fr_suffix r)%string;
  be_name := (i_name d ++ " Direct " ++ fr_name r)%string;
  be_class := fr_class r; be_icon := None; be_device := device_info d; be_available := available d;
  be_update := fun data => warning_flag (fr_key r) (device_data d data) |}.

Definition any_warning_entity (d : InverterDevice) : binary_entity := {|
  be_unique_id := (i_id d ++ "_direct_any_warning")%string;
  be_name := (i_name d ++ " Direct Any Warning")%string;
  be_class := Some BinarySensorDeviceClass.PROBLEM; be_icon := Some "mdi:alert"%string;
  be_device := device_info d; be_available := available d;
  be_update := fun data => any_warning (device_data d data) |}.

(** The binary sensors of one inverter, in the order [async_setup_entry] adds them. *)
Definition binary_entities (d : InverterDevice) : list binary_entity :=
  map (status_bit_entity "device_status_bits_b7_b0" parse_device_status_bits_b7_b0 d) B7_B0_FLAGS
  ++ map (status_bit_entity "device_status_bits_b10_b8" parse_device_status_bits_b10_b8 d) B10_B8_FLAGS
  ++ any_warning_entity d :: map (warning_flag_entity d) QPIWS_WARNINGS.

(** [async_setup_entry] *)
Definition setup_binary_sensors (items : list InverterDevice) : list binary_entity := flat_map binary_entities items.

(** ** Lemmas *)

Definition catalogued (k : string) : bool := existsb (String.eqb k) catalog.
Definition reserved_flag (k : string) : bool := startswith k "_reserved_".

Lemma existsb_eqb k l : existsb (String.eqb k) l = true <-> In k l.
Proof.
  rewrite existsb_exists. split.
  - intros (x & Hx & E). apply String.eqb_eq in E. now subst.
  - intros H. exists k. split; [exact H|apply String.eqb_refl].
Qed.

(** Flags of the two protocols, as their decoders give them. *)
Record qpiws_ok (d : pydict) : Prop := {
  qw_keys : dict_ok d;
  qw_bool : forall k v, In (k, v) d -> exists b, v = VBool b;
  qw_known : forall k, In k (dkeys d) -> (catalogued k || reserved_flag k) = true;
  qw_bare : forall k, In k (dkeys d) -> startswith k "warn_" = false
}.

Record qfws_ok (d : pydict) : Prop := {
  qf_keys : dict_ok d;
  qf_bool : forall k v, In (k, v) d -> startswith k "warn_" = true -> exists b, v = VBool b;
  qf_bare : forall k, In k (dkeys d) -> startswith k "warn_" = false -> (catalogued k || reserved_flag k) = false;
  qf_fault : truthy (vget "has_fault" d) = true -> code_nonzero (vget "fault_code" d) = true;
  qf_warning : truthy (vget "has_warning" d) = true -> code_nonzero (vget "warning_code" d) = true
}.

Lemma warn_key_startswith k : startswith (warn_key k) "warn_" = true.
Proof. now destruct k. Qed.

Lemma startswith_warn k : startswith k "warn_" = true -> exists b, k = warn_key b.
Proof. exact (prefix_inv "warn_" k). Qed.

(** Table facts, by evaluation. *)
Lemma catalog_facts : forall k, In k catalog -> reserved_flag k = false /\ startswith k "warn_" = false
  /\ ~ In k ["fault_code"; "fault_description"; "has_fault"; "warning_code"; "has_warning"].
Proof.
  assert (forallb (fun k => negb (reserved_flag k) && negb (startswith k "warn_")
    && negb (existsb (String.eqb k) ["fault_code"; "fault_description"; "has_fault"; "warning_code"; "has_warning"]))
    catalog = true) as H by (vm_compute; reflexivity).
  rewrite forallb_forall in H. intros k Hk. apply H in Hk. apply andb_prop in Hk as [Hk H3].
  apply andb_prop in Hk as [H1 H2]. split; [now apply negb_true_iff|]. split; [now apply negb_true_iff|].
  intros Hin. apply negb_true_iff in H3. apply existsb_eqb in Hin. congruence.
Qed.

Lemma catalog_nodup : NoDup catalog.
Proof. nodup_strings. Qed.

Lemma merge_disjoint a b : dict_ok b -> (forall k, In k (dkeys a) -> ~ In k (dkeys b)) -> merge_flags a b = a ++ b.
Proof.
  unfold merge_flags, dict_ok. revert a. induction b as [|[k v] b IH]; intros a Hb Hd; [now rewrite app_nil_r|].
  cbn [fold_left fst snd]. cbn in Hb. inversion Hb as [|? ? Hk Hb']; subst.
  assert (dget k a = None) as Ek.
  { apply dget_none_keys. intros H. apply (Hd k H). now left. }
  unfold dsetdefault, dmem. rewrite Ek, (dset_keys_new k v a Ek), IH; [now rewrite <- app_assoc|exact Hb'|].
  intros x Hx Hxb. unfold dkeys in Hx. rewrite map_app in Hx. apply in_app_or in Hx as [Hx|[<-|[]]]; [|auto].
  apply (Hd x Hx). now right.
Qed.

Lemma vget_true_in k d : truthy (vget k d) = true -> exists v, In (k, v) d /\ truthy v = true.
Proof.
  unfold vget. destruct (dget k d) as [v|] eqn:E; [|discriminate]. intros H. exists v.
  split; [now apply dget_some_in|exact H].
Qed.

Lemma in_vget k v d : dict_ok d -> In (k, v) d -> vget k d = v.
Proof. intros Hd Hin. unfold vget. now rewrite (dget_in k v d Hd Hin). Qed.

Lemma dget_app_none {V} k (a b : dict V) : dget k a = None -> dget k (a ++ b) = dget k b.
Proof.
  intros E. induction a as [|[k' v] a IH]; [reflexivity|]. cbn [app dget] in *.
  destruct (String.eqb k k'); [discriminate|]. now apply IH.
Qed.

(** The merged flags and what reads them. *)
Section Merged.
Context (qpiws qfws : pydict) (Hq : qpiws_ok qpiws) (Hf : qfws_ok qfws).

Lemma keys_disjoint k : In k (dkeys qpiws) -> ~ In k (dkeys qfws).
Proof.
  intros H1 H2. pose proof (qw_known _ Hq k H1) as E1. pose proof (qw_bare _ Hq k H1) as E2.
  rewrite (qf_bare _ Hf k H2 E2) in E1. discriminate.
Qed.

Lemma merged_app : merge_flags qpiws qfws = qpiws ++ qfws.
Proof. apply merge_disjoint; [apply (qf_keys _ Hf)|exact keys_disjoint]. Qed.

Lemma merged_ok : dict_ok (qpiws ++ qfws).
Proof.
  unfold dict_ok, dkeys. rewrite map_app. apply NoDup_app; [apply (qw_keys _ Hq)|apply (qf_keys _ Hf)|].
  intros x H1 H2. exact (keys_disjoint x H1 H2).
Qed.

(** A code is the one of QFWS. *)
Lemma merged_code k : In k ["fault_code"; "warning_code"] -> vget k (qpiws ++ qfws) = vget k qfws.
Proof.
  intros Hk. unfold vget. assert (dget k qpiws = None) as E.
  { apply dget_none_keys. intros H. pose proof (qw_known _ Hq k H) as E. destruct Hk as [<-|[<-|[]]]; vm_compute in E; discriminate E. }
  now rewrite (dget_app_none k qpiws qfws E).
Qed.

(** The flags some entity raises an alarm for. *)
Definition alarm (k : string) : Prop :=
  In (k, VBool true) qpiws /\ reserved_flag k = false \/ In (k, VBool true) qfws /\ startswith k "warn_" = true.

Lemma any_flag_alarm :
  existsb (fun kv => is_true (snd kv) && negb (startswith (fst kv) "_reserved_")) qpiws
  || existsb (fun kv => is_true (snd kv) && startswith (fst kv) "warn_") qfws = true <-> exists k, alarm k.
Proof.
  assert (forall v, is_true v = true -> v = VBool true) as Ht by (intros [|[]| | | | | | |]; easy).
  rewrite orb_true_iff, !existsb_exists. split.
  - intros [([k v] & Hin & E)|([k v] & Hin & E)]; apply andb_prop in E as [E1 E2]; apply Ht in E1; cbn in *; subst v;
      exists k; [left; apply negb_true_iff in E2|right]; now split.
  - intros (k & [[Hin E]|[Hin E]]); [left|right]; exists (k, VBool true); (split; [exact Hin|]); cbn; [|exact E].
    apply negb_true_iff. exact E.
Qed.

Lemma catalog_flag_alarm k : In k catalog -> flag_set (qpiws ++ qfws) k = true ->
  exists k', alarm k'.
Proof.
  intros Hk Hs. destruct (catalog_facts k Hk) as (Hr & Hw & _). unfold flag_set in Hs. apply orb_prop in Hs as [Hs|Hs];
    apply vget_true_in in Hs as (v & Hin & Hv); apply in_app_or in Hin as [Hin|Hin].
  - exists k. left. destruct (qw_bool _ Hq k v Hin) as [b ->]. destruct b; [now split|discriminate Hv].
  - exfalso. apply (in_map fst) in Hin. pose proof (qf_bare _ Hf k Hin Hw) as E.
    apply orb_false_elim in E as [E _]. apply existsb_eqb in Hk. unfold catalogued in E. congruence.
  - exfalso. apply (in_map fst) in Hin. pose proof (qw_bare _ Hq _ Hin) as E.
    cbn [fst] in E. now rewrite warn_key_startswith in E.
  - exists (warn_key k). right. destruct (qf_bool _ Hf _ v Hin (warn_key_startswith k)) as [b ->].
    destruct b; [split; [exact Hin|apply warn_key_startswith]|discriminate Hv].
Qed.

Lemma active_alarm : active_keys (qpiws ++ qfws) <> [] <-> exists k, alarm k.
Proof.
  assert (active_keys (qpiws ++ qfws) <> [] <-> exists k, In k (active_keys (qpiws ++ qfws))) as ->.
  { destruct (active_keys _) as [|x l]; [split; [easy|intros (k & [])]|]. split; [intros _; exists x; now left|easy]. }
  unfold active_keys. split.
  - intros (k & Hk). apply nodup_In, in_app_or in Hk as [Hk|Hk].
    + apply filter_In in Hk as [Hk Hs]. exact (catalog_flag_alarm k Hk Hs).
    + apply in_map_iff in Hk as ([k' v] & <- & Hk). apply filter_In in Hk as [Hin Hu]. unfold uncatalogued in Hu.
      cbn [fst snd] in Hu. apply andb_prop in Hu as [Hu _]. apply andb_prop in Hu as [Hw Hv]. exists k'. right.
      apply in_app_or in Hin as [Hin|Hin].
      * exfalso. apply (in_map fst) in Hin. pose proof (qw_bare _ Hq _ Hin) as E. cbn [fst] in E. congruence.
      * destruct (qf_bool _ Hf k' v Hin Hw) as [b ->]. destruct b; [now split|discriminate Hv].
  - intros (k & [[Hin Hr]|[Hin Hw]]).
    + exists k. apply nodup_In, in_or_app. left. apply filter_In. split.
      * pose proof (qw_known _ Hq k (in_map fst _ _ Hin)) as E. rewrite Hr, orb_false_r in E. now apply existsb_eqb.
      * unfold flag_set. now rewrite (in_vget k (VBool true) _ merged_ok (in_or_app _ _ _ (or_introl Hin))).
    + destruct (startswith_warn k Hw) as [b ->].
      destruct (existsb (String.eqb (warn_key b)) (map warn_key catalog)) eqn:Ec.
      * apply existsb_eqb in Ec. apply in_map_iff in Ec as (b' & Eb & Hb). injection Eb as ->.
        exists b. apply nodup_In, in_or_app. left. apply filter_In. split; [exact Hb|]. unfold flag_set.
        rewrite (in_vget (warn_key b) (VBool true) _ merged_ok (in_or_app _ _ _ (or_intror Hin))). apply orb_true_r.
      * exists (warn_key b). apply nodup_In, in_or_app. right. apply in_map_iff.
        exists (warn_key b, VBool true). split; [reflexivity|]. apply filter_In.
        split; [apply in_or_app; now right|]. unfold uncatalogued. cbn [fst snd truthy].
        now rewrite warn_key_startswith, Ec.
Qed.

Lemma warnings_agree_gen :
  any_warning_flags qpiws qfws = true <-> fault_summary (merge_flags qpiws qfws) <> Ok SummaryOK.
Proof.
  rewrite merged_app. unfold any_warning_flags, fault_summary.
  rewrite (merged_code "fault_code"), (merged_code "warning_code") by (cbn; auto).
  destruct (code_nonzero (vget "fault_code" qfws)) eqn:E1; [split; [intros _; discriminate|reflexivity]|].
  destruct (code_nonzero (vget "warning_code" qfws)) eqn:E2.
  { split; [|reflexivity]. intros _ H. unfold rmap in H. destruct (int_of_val _); discriminate H. }
  destruct (truthy (vget "has_fault" qfws)) eqn:E3; [apply (qf_fault _ Hf) in E3; congruence|].
  destruct (truthy (vget "has_warning" qfws)) eqn:E4; [apply (qf_warning _ Hf) in E4; congruence|].
  cbn [orb]. rewrite any_flag_alarm, <- active_alarm. unfold warning_summary.
  destruct (active_keys _) as [|x l]; cbn [List.length].
  - split; [easy|]. intros H. now exfalso; apply H.
  - split; [|easy]. intros _. destruct (find _ _); discriminate.
Qed.
End Merged.

(** ** The decoders' flags *)

Lemma booldict_ok s : qpiws_ok (booldict (decode_qpiws s)).
Proof.
  assert (dkeys (booldict (decode_qpiws s)) = QPIWS_FIELDS) as Ek by (unfold booldict, dkeys; rewrite map_map; reflexivity).
  assert (forallb (fun k => (catalogued k || reserved_flag k) && negb (startswith k "warn_")) QPIWS_FIELDS = true) as Ht
    by (vm_compute; reflexivity).
  rewrite forallb_forall in Ht. split.
  - unfold dict_ok. rewrite Ek. exact qpiws_fields_nodup.
  - intros k v Hin. unfold booldict in Hin. apply in_map_iff in Hin as ([k' b] & E & _). injection E as _ <-. now exists b.
  - intros k Hk. rewrite Ek in Hk. apply Ht in Hk. now apply andb_prop in Hk.
  - intros k Hk. rewrite Ek in Hk. apply Ht in Hk. apply andb_prop in Hk as [_ Hk]. now apply negb_true_iff.
Qed.

Lemma empty_qpiws_ok : qpiws_ok [].
Proof. split; [constructor|intros ? ? []|intros ? []|intros ? []]. Qed.

Lemma decode_fws_ok tokens : qfws_ok (decode_fws tokens).
Proof.
  destruct tokens as [|t0 rest].
  { split; [constructor|intros ? ? []|intros ? []|discriminate|discriminate]. }
  assert (forallb (fun k => startswith k "warn_") FWS_WARNING_FIELDS = true) as Hw by (vm_compute; reflexivity).
  rewrite forallb_forall in Hw. rewrite decode_fws_app. set (flags := zip FWS_WARNING_FIELDS _).
  assert (dkeys flags = FWS_WARNING_FIELDS) as Ek
    by (unfold flags, dkeys; apply zip_keys; rewrite length_map; apply padded_length).
  split.
  - unfold dict_ok, dkeys. rewrite map_app. fold (dkeys flags). rewrite Ek. cbn [map fst app]. nodup_strings.
  - intros k v Hin Hk. apply in_app_or in Hin as [[E|[E|[E|[]]]]|Hin]; try (injection E as <- <-; discriminate Hk).
    unfold flags, zip in Hin. apply in_combine_r in Hin. apply in_map_iff in Hin as (t & <- & _).
    unfold flag_of. eauto.
  - intros k Hin Hk. unfold dkeys in Hin. rewrite map_app in Hin. apply in_app_or in Hin as [Hin|Hin].
    + destruct Hin as [<-|[<-|[<-|[]]]]; vm_compute; reflexivity.
    + fold (dkeys flags) in Hin. rewrite Ek in Hin. apply Hw in Hin. congruence.
  - cbn. destruct (safe_int t0 0 =? 0); [discriminate|reflexivity].
  - unfold vget. rewrite (dget_app_none "has_warning") by reflexivity.
    assert (dget "has_warning" flags = None) as ->; [|discriminate].
    apply dget_none_keys. rewrite Ek. intros H. apply Hw in H. discriminate H.
Qed.

(** ** Properties *)

(** C28: whatever the inverter answers, the any-warning entity is on
    exactly when the fault summary shows something other than OK, with the flags
    of a QPIWS reply (or none) and of a PI18 fault/warning reply (or none): no
    flag either protocol reports is known to one entity and not to the other. *)
Theorem warnings_agree (data : sections) (reply : string) (tokens : list string)
    (Hq : section "qpiws" data = booldict (decode_qpiws reply) \/ section "qpiws" data = [])
    (Hf : section "qfws" data = decode_fws tokens) :
  any_warning (Ok data) = Some true <-> fault_summary (merged_warnings data) <> Ok SummaryOK.
Proof.
  unfold any_warning, merged_warnings. rewrite Hf.
  assert (qpiws_ok (section "qpiws" data)) as H by (destruct Hq as [-> | ->]; [apply booldict_ok|apply empty_qpiws_ok]).
  rewrite <- (warnings_agree_gen _ _ H (decode_fws_ok tokens)).
  split; [intros E; now injection E|now intros ->].
Qed.

(** The sensor entities of one inverter, and its binary sensors,
    have distinct unique ids, with or without the PI18 extras. *)
Theorem unique_ids_distinct (d : InverterDevice) (is_pi18 : bool) :
  NoDup (setup_unique_ids (i_id d) is_pi18) /\ NoDup (map be_unique_id (binary_entities d)).
Proof.
  assert (forall p l, NoDup l -> NoDup (map (fun s => (i_id d ++ p ++ s)%string) l)) as Hinj.
  { intros p l Hl. apply Finite.Injective_map_NoDup; [|exact Hl]. intros a b E. apply (f_equal chars) in E.
    rewrite !chars_app, !app_assoc in E. apply app_inv_head in E. now apply chars_inj. }
  split.
  - apply (Hinj "_"). destruct is_pi18; nodup_strings.
  - apply (Hinj "_direct_" (map fr_suffix (B7_B0_FLAGS ++ B10_B8_FLAGS) ++ "any_warning"
      :: map (fun r => "warning_" ++ fr_suffix r)%string QPIWS_WARNINGS)). nodup_strings.
Qed.

(** The device status entity shows OK whatever the status bits are. *)
Example device_status_always_ok :
  map (fun bits => device_status_value (Ok [("qpigs", [("device_status_bits_b7_b0", VStr bits)])]))
    ["10000000"; "00010000"; "00000010"; "00000001"] = repeat (Ok (VStr "OK")) 4.
Proof. vm_compute. reflexivity. Qed.

(** A fault code reported by the agent is a text: neither entity shows it. *)
Example agent_fault_code_ignored :
  let data := [("qfws", [("fault_code", VStr "7"); ("fault_description", VStr "Overload time out")])] in
  any_warning (Ok data) = Some false /\ fault_summary (merged_warnings data) = Ok SummaryOK.
Proof. vm_compute. split; reflexivity. Qed.

(** ** Witnesses *)

Lemma warnings_agree_witness :
  any_warning (Ok [("qpiws", booldict (decode_qpiws "00000100000000000000000000000000"))]) = Some true
  <-> fault_summary (merged_warnings [("qpiws", booldict (decode_qpiws "00000100000000000000000000000000"))])
      <> Ok SummaryOK.
Proof.
  exact (warnings_agree [("qpiws", booldict (decode_qpiws "00000100000000000000000000000000"))]
    "00000100000000000000000000000000" [] (or_introl eq_refl) eq_refl).
Defined.
