(* ===== verification/ConfigFlow.v ===== *)
(** The configuration flows: [config_flow.py] without its form schemas, and the
    entry migration of [__init__.py].

    A form submission and an entry's options are dicts; a flow step that creates
    an entry gives its options. [None] stands for input of a type no form gives. *)

From Stdlib Require Import ZArith List Bool Lia String Ascii.
From S2P Require Import Prelude PyStr PyInt PyDict Uri Discovery EybondFrame ChildUri Adapters.
Import ListNotations.
#[local] Open Scope string_scope.
#[local] Open Scope list_scope.
#[local] Open Scope Z_scope.

(** ** Constants of [const.py] *)

Definition PROTOCOLS : list string := ["voltronic"; "pi18"; "modbus"; "agent"].
Definition TRANSPORTS_BY_PROTOCOL : dict (list string) := [
  ("voltronic", ["tcp_elfin"; "serial"; "eybond"]); ("pi18", ["tcp"; "serial"; "eybond"]);
  ("modbus", ["tcp"; "serial"; "eybond"]); ("agent", ["agent_http"])].
Definition DEFAULT_TRANSPORT_BY_PROTOCOL : dict string :=
  flat_map (fun e => match snd e with t :: _ => [(fst e, t)] | [] => [] end) TRANSPORTS_BY_PROTOCOL.
Definition LEGACY_PROTOCOL_TRANSPORT : dict (string * string) := [
  ("tcp_elfin", ("voltronic", "tcp_elfin")); ("serial", ("voltronic", "serial")); ("eybond", ("voltronic", "eybond"))].
Definition BUS_MODES : list string := ["serialized"; "concurrent_writes"].
Definition DEFAULT_BUS_MODE : string := "serialized".
Definition DEFAULT_TCP_PORT : Z := 8899.
Definition DEFAULT_AGENT_PORT : Z := 8787.

Definition isin (s : string) (l : list string) : bool := existsb (String.eqb s) l.

(** ** Protocol and transport *)

Definition default_transport (protocol : string) : string :=
  match dget protocol DEFAULT_TRANSPORT_BY_PROTOCOL with Some t => t | None => "tcp_elfin" end.

(** The transports of a protocol. *)
Definition supported_transports (protocol : string) : list string :=
  match dget protocol TRANSPORTS_BY_PROTOCOL with Some l => l | None => [] end.

(** A combined identifier of older entries, split. *)
Definition split_legacy (protocol transport : option string) : option string * option string :=
  match protocol with
  | Some p =>
      match dget p LEGACY_PROTOCOL_TRANSPORT with
      | Some (p', legacy) => (Some p', match transport with Some t => Some t | None => Some legacy end)
      | None => (protocol, transport)
      end
  | None => (protocol, transport)
  end.

(** [_normalize_protocol_transport] *)
Definition normalize (protocol transport : option string) : string * string :=
  let '(protocol, transport) := split_legacy protocol transport in
  let p := match protocol with Some p => if isin p PROTOCOLS then p else "voltronic" | None => "voltronic" end in
  (p, match transport with
      | Some t => if isin t (supported_transports p) then t else default_transport p
      | None => default_transport p
      end).

(** ** The device URI *)

Definition host_port (host : string) (port : Z) : string := (host ++ ":" ++ str_of_int port)%string.

Definition eybond_params (bc ann : string) : list (string * string) :=
  (if negb (String.eqb bc "") && negb (String.eqb bc DEFAULT_EYBOND_BROADCAST) then [("broadcast", bc)] else [])
  ++ (if String.eqb ann "" then [] else [("announce", ann)]).

Definition eybond_device_uri (scheme host : string) (port addr : Z) (bc ann : string) : string :=
  let uri := (scheme ++ "://" ++ host_port host port ++ "/" ++ str_of_int addr)%string in
  match map param_text (eybond_params bc ann) with
  | [] => uri
  | params => (uri ++ "?" ++ join "&" params)%string
  end.

(** [_build_device_uri] *)
Definition build_device_uri (protocol transport host : string) (port : Z) (serial_device agent_device_id : string)
    (devaddr : Z) (bc ann : string) : string :=
  let '(protocol, transport) := normalize (Some protocol) (Some transport) in
  if String.eqb protocol "agent" then ("agent://" ++ host_port host port ++ "/" ++ agent_device_id)%string
  else if String.eqb protocol "modbus" then ("modbus://" ++ host_port host port)%string
  else if String.eqb protocol "pi18" then
    if String.eqb transport "serial" then ("pi18-serial://" ++ serial_device)%string
    else if String.eqb transport "eybond" then eybond_device_uri "eybond-pi18" host port devaddr bc ann
    else ("pi18://" ++ host_port host port)%string
  else if negb (String.eqb protocol "voltronic") then ""
  else if String.eqb transport "serial" then serial_device
  else if String.eqb transport "tcp_elfin" then ("tcp://" ++ host_port host port)%string
  else if String.eqb transport "eybond" then eybond_device_uri "eybond" host port devaddr bc ann
  else "".

(** The fields recovered from a device string. *)
Definition fields (protocol transport host : string) (port : Z) (serial_device agent : string) : pydict := [
  ("protocol", VStr protocol); ("transport", VStr transport); ("host", VStr host); ("port", VInt port);
  ("serial_device", VStr serial_device); ("agent_device_id", VStr agent)].
Definition eybond_fields (addr : Z) (bc ann : string) : pydict := [
  ("eybond_devaddr", VInt addr); ("eybond_broadcast", VStr bc); ("eybond_announce_ip", VStr ann)].

Definition blank : pydict :=
  fields "voltronic" "tcp_elfin" "" DEFAULT_TCP_PORT "" "" ++ eybond_fields 1 DEFAULT_EYBOND_BROADCAST "".

Definition hostname_or (d : string) (u : url) : string := match u_hostname u with Some h => h | None => d end.
Definition port_or (d : Z) (u : url) : res Z :=
  rmap (fun p => match p with Some 0 | None => d | Some n => n end) (u_port u).

(** [s.rpartition(":")], when it is there: before and after. *)
Definition before_last (c : ascii) (s : string) : string :=
  str (rev (skipn 1 (snd (partition_at (Ascii.eqb c) (rev (chars s)))))).

(** [_parse_device_uri] *)
Definition parse_gateway_uri (protocol transport device : string) : res pydict :=
  let u := urlparse device in
  rmap (fun port => fields protocol transport (hostname_or "" u) port "" "") (port_or DEFAULT_TCP_PORT u).

Definition parse_agent_fields (device : string) : res pydict :=
  let u := urlparse device in
  rmap (fun port => fields "agent" "agent_http" (hostname_or "" u) port "" (lstrip_p (Ascii.eqb "/") (u_path u)))
    (port_or DEFAULT_AGENT_PORT u).

Definition parse_eybond_fields (device : string) : res pydict :=
  let u := urlparse device in
  let devaddr_str := lstrip_p (Ascii.eqb "/") (if String.eqb (u_path u) "" then "/" else u_path u) in
  (let! addr := (if String.eqb devaddr_str "" then Ok 1
                 else match py_int devaddr_str with
                      | Ok n => Ok n
                      | Raise e => if is_ValueError e then Ok 1 else Raise e
                      end) in
   let! port := port_or DEFAULT_BIND_PORT u in
   Ok (fields (if startswith device "eybond-pi18://" then "pi18" else "voltronic") "eybond"
         (hostname_or "0.0.0.0" u) port "" ""
       ++ eybond_fields addr (query_first "broadcast" DEFAULT_EYBOND_BROADCAST (u_query u))
            (query_first "announce" "" (u_query u))))%py.

(** A string without a known scheme: [host:port], or a serial device. *)
Definition parse_plain (device : string) : res pydict :=
  if str_contains ":" device && negb (startswith device "/") && negb (startswith device "\")
  then match py_int (after_last ":" device) with
       | Ok port => Ok (fields "voltronic" "tcp_elfin" (before_last ":" device) port "" "")
       | Raise e => if is_ValueError e then Ok blank else Raise e
       end
  else Ok (fields "voltronic" "serial" "" DEFAULT_TCP_PORT device "").

Definition parse_device_uri (device : string) : res pydict :=
  if String.eqb device "" then Ok blank
  else if startswith device "agent://" then parse_agent_fields device
  else if startswith device "modbus://" then parse_gateway_uri "modbus" "tcp" device
  else if startswith device "pi18://" then parse_gateway_uri "pi18" "tcp" device
  else if startswith device "pi18-serial://"
  then Ok (fields "pi18" "serial" "" DEFAULT_TCP_PORT (sdrop 14 device) "")
  else if startswith device "tcp://" then parse_gateway_uri "voltronic" "tcp_elfin" device
  else if startswith device "eybond-pi18://" || startswith device "eybond://" then parse_eybond_fields device
  else parse_plain device.

(** ** The connection step *)

Definition text_field (k : string) (input : pydict) : option string := option_map strip (text_or_empty k input).

(** [_validate_connection] *)
Definition validate_connection (protocol transport host serial_device agent_device_id : string) : dict string :=
  let '(protocol, transport) := normalize (Some protocol) (Some transport) in
  (if String.eqb transport "serial" && String.eqb serial_device "" then [("serial_device", "serial_required")] else [])
  ++ (if negb (String.eqb transport "serial") && String.eqb host "" then [("host", "host_required")] else [])
  ++ (if String.eqb protocol "agent" && String.eqb agent_device_id ""
      then [("agent_device_id", "agent_device_id_required")] else []).

(** [(input.get(k) or default).strip()] and [int(input.get(k) or default)] *)
Definition text_or (k d : string) (input : pydict) : option string :=
  option_map (fun s => strip (if String.eqb s "" then d else s)) (text_or_empty k input).
Definition int_or (k : string) (d : Z) (input : pydict) : option Z :=
  if truthy (vget k input) then int_option k d input else Some d.

Definition bus_mode_of (input : pydict) : string :=
  match dget "bus_mode" input with
  | Some (VStr m) => if isin m BUS_MODES then m else DEFAULT_BUS_MODE
  | _ => DEFAULT_BUS_MODE
  end.

Definition DEFAULT_UPDATE_INTERVAL : Z := 10.

(** [async_step_connection] on a submitted form: the errors it shows, or the
    options of the entry. *)
Definition step_connection (protocol transport : string) (input : pydict) : option (dict string + pydict) :=
  let '(protocol, transport) := normalize (Some protocol) (Some transport) in
  obind (text_field "host" input) (fun host =>
  obind (text_field "serial_device" input) (fun serial_device =>
  obind (text_field "agent_device_id" input) (fun agent_device_id =>
  match validate_connection protocol transport host serial_device agent_device_id with
  | (_ :: _) as errors => Some (inl errors)
  | [] =>
      obind (int_or "port" DEFAULT_TCP_PORT input) (fun port =>
      obind (int_option "eybond_devaddr" 1 input) (fun addr =>
      obind (text_or "eybond_broadcast" DEFAULT_EYBOND_BROADCAST input) (fun bc =>
      obind (text_or "eybond_announce_ip" "" input) (fun ann =>
      obind (int_option "update_interval" DEFAULT_UPDATE_INTERVAL input) (fun interval =>
      Some (inr [
        ("protocol", VStr protocol); ("transport", VStr transport);
        ("device", VStr (build_device_uri protocol transport host port serial_device agent_device_id addr bc ann));
        ("host", VStr host); ("port", VInt port); ("serial_device", VStr serial_device);
        ("agent_device_id", VStr agent_device_id); ("eybond_devaddr", VInt addr);
        ("eybond_broadcast", VStr bc); ("eybond_announce_ip", VStr ann); ("update_interval", VInt interval);
        ("strict_crc", VBool (truthy (vget "strict_crc" input))); ("bus_mode", VStr (bus_mode_of input))]))))))
  end))).

(** ** Options of an existing entry *)

(** [dict.update] *)
Definition dupdate (extra d : pydict) : pydict := fold_left (fun d kv => dset (fst kv) (snd kv) d) extra d.

(** [OptionsFlow._load_defaults]: the form's defaults, and the protocol and
    transport it opens with. *)
Definition opt_of (k : string) (d : pydict) : option string :=
  match dget k d with Some (VStr s) => Some s | _ => None end.

Definition default_of (opts parsed : pydict) (k : string) (d : pyval) : pyval :=
  match dget k opts with
  | Some v => v
  | None => match dget k parsed with Some v => v | None => d end
  end.

Definition load_defaults (opts : pydict) : option (res (pydict * (string * string))) :=
  obind (text_or_empty "device" opts) (fun device => Some
    (rmap (fun parsed =>
       let def := default_of opts parsed in
       ([("transport", def "transport" (VStr "tcp_elfin")); ("host", def "host" VNone); ("port", def "port" VNone);
         ("serial_device", def "serial_device" VNone); ("agent_device_id", def "agent_device_id" VNone);
         ("eybond_devaddr", def "eybond_devaddr" (VInt 1));
         ("eybond_broadcast", def "eybond_broadcast" (VStr DEFAULT_EYBOND_BROADCAST));
         ("eybond_announce_ip", def "eybond_announce_ip" (VStr ""));
         ("update_interval", default_of opts [] "update_interval" (VInt DEFAULT_UPDATE_INTERVAL));
         ("strict_crc", default_of opts [] "strict_crc" (VBool false));
         ("bus_mode", default_of opts [] "bus_mode" (VStr DEFAULT_BUS_MODE))],
        normalize (match dget "protocol" opts with Some _ => opt_of "protocol" opts | None => opt_of "protocol" parsed end)
          (match dget "transport" opts with Some _ => opt_of "transport" opts | None => opt_of "transport" parsed end)))
     (parse_device_uri device))).

(** [_migrate_data_to_options] *)
Definition migrate_data_to_options (data options : pydict) : pydict * pydict :=
  match dget "device" data with
  | Some v => (dpop "device" data, dset "device" v options)
  | None => (data, options)
  end.

(** [EybondHubOptionsFlow._bumped_options] *)
Definition bumped_options (extra options : pydict) : option pydict :=
  let o := dupdate extra options in
  obind (int_option "hub_revision" 0 o) (fun n => Some (dset "hub_revision" (VInt (n + 1)) o)).

(** [async_step_hub] and [async_step_listener] on a submitted form. *)
Definition listener_fields (input : pydict) : option pydict :=
  obind (text_or "host" "0.0.0.0" input) (fun host =>
  obind (int_or "port" DEFAULT_BIND_PORT input) (fun port =>
  obind (text_or "eybond_broadcast" DEFAULT_EYBOND_BROADCAST input) (fun bc =>
  obind (text_or "eybond_announce_ip" "" input) (fun ann =>
  obind (int_option "update_interval" DEFAULT_UPDATE_INTERVAL input) (fun interval =>
  Some [("eybond_bind_host", VStr host); ("eybond_bind_port", VInt port); ("eybond_broadcast", VStr bc);
        ("eybond_announce_ip", VStr ann); ("update_interval", VInt interval)]))))).

Definition step_hub (input : pydict) : option (dict string + pydict) :=
  obind (text_field "name" input) (fun name =>
    if String.eqb name "" then Some (inl [("name", "name_required")])
    else obind (listener_fields input) (fun fs =>
      Some (inr ([("entry_kind", VStr "eybond_hub")] ++ fs ++ [("hub_revision", VInt 0)])))).

Definition step_listener (input options : pydict) : option pydict :=
  obind (listener_fields input) (fun fs => bumped_options fs options).

(** ** Lemmas: normalisation *)

Lemma isin_In s l : isin s l = true <-> In s l.
Proof.
  unfold isin. rewrite existsb_exists. split; [|intros H; exists s; split; [exact H|apply String.eqb_refl]].
  intros (x & Hx & E). apply String.eqb_eq in E. now subst.
Qed.

(** Facts about the tables, by evaluation over the protocols. *)
Lemma protocol_table : forall p, In p PROTOCOLS ->
  isin (default_transport p) (supported_transports p) = true /\ dget p LEGACY_PROTOCOL_TRANSPORT = None.
Proof. intros p [<-|[<-|[<-|[<-|[]]]]]; split; reflexivity. Qed.

(** A pair the flows can store. *)
Definition compatible (p t : string) : Prop := In p PROTOCOLS /\ In t (supported_transports p).

Lemma normalize_compatible protocol transport :
  compatible (fst (normalize protocol transport)) (snd (normalize protocol transport)).
Proof.
  unfold normalize, compatible. destruct (split_legacy protocol transport) as [p t]. cbn [fst snd].
  set (q := match p with Some p => if isin p PROTOCOLS then p else "voltronic" | None => "voltronic" end).
  assert (In q PROTOCOLS) as Hq.
  { unfold q. destruct p as [p|]; [destruct (isin p PROTOCOLS) eqn:E; [now apply isin_In|]|]; now left. }
  split; [exact Hq|]. destruct (protocol_table q Hq) as [Hd _]. apply isin_In.
  destruct t as [t|]; [|exact Hd]. destruct (isin t (supported_transports q)) eqn:E; [exact E|exact Hd].
Qed.

Lemma normalize_fixed p t : compatible p t -> normalize (Some p) (Some t) = (p, t).
Proof.
  intros [Hp Ht]. destruct (protocol_table p Hp) as [_ Hl]. unfold normalize, split_legacy. rewrite Hl.
  apply isin_In in Hp, Ht. now rewrite Hp, Ht.
Qed.

Lemma compatible_cases p t : compatible p t -> In (p, t) [
  ("voltronic", "tcp_elfin"); ("voltronic", "serial"); ("voltronic", "eybond"); ("pi18", "tcp"); ("pi18", "serial");
  ("pi18", "eybond"); ("modbus", "tcp"); ("modbus", "serial"); ("modbus", "eybond"); ("agent", "agent_http")].
Proof.
  intros [[<-|[<-|[<-|[<-|[]]]]] H]; cbn in H; repeat (destruct H as [<-|H]; [cbn; tauto|]); destruct H.
Qed.

(** ** Lemmas: device URIs *)

Record host_ok (host : string) (port : Z) : Prop := {
  ho_safe : safe host;
  ho_named : host <> "";
  ho_port : 1 <= port <= 65535
}.

Lemma host_port_plain host port : host_ok host port ->
  plain_part (host_port host port) /\ Forall (fun c => is_netloc_end c = false) (chars (host_port host port)).
Proof.
  intros [Hs _ Hp]. destruct (str_of_nat_digits port ltac:(lia)) as [Hd _]. apply digits_safe in Hd.
  enough (Forall (fun c => is_unsafe c = false /\ is_netloc_end c = false) (chars (host_port host port))) as H
    by (split; (eapply Forall_impl; [|exact H]); intros c Hc; apply Hc).
  assert (forall s, safe s -> Forall (fun c => is_unsafe c = false /\ is_netloc_end c = false) (chars s)) as Hsafe
    by (intros s H; eapply Forall_impl; [|exact H]; intros c Hc; apply safe_plain in Hc; tauto).
  unfold host_port. rewrite !chars_app. apply Forall_app. split; [now apply Hsafe|].
  constructor; [split; reflexivity|now apply Hsafe].
Qed.

(** A URI of one of the integration's schemes, parsed. *)
Lemma device_url sch c0 cs host port rest : chars sch = c0 :: cs -> is_alpha c0 = true -> safe sch ->
  host_ok host port -> rest_ok rest ->
  let u := urlparse (sch ++ "://" ++ host_port host port ++ rest) in
  hostname_or "" u = lower host /\ hostname_or "0.0.0.0" u = lower host /\ (forall d, port_or d u = Ok port)
  /\ u_path u = before "?" (before "#" rest) /\ u_query u = after "?" (before "#" rest).
Proof.
  intros Hc Ha Hs Hh Hr u. destruct (host_port_plain host port Hh) as [Hp Hn]. destruct Hh as [H1 H2 H4].
  pose proof (urlparse_rest sch c0 cs (host_port host port) rest Hc Ha Hs Hp Hn Hr) as E. fold u in E.
  destruct (netloc_parts host port u H1 H2 H4) as [Eh Ep]; [now rewrite E|].
  unfold hostname_or, port_or. rewrite Eh, Ep. do 2 (split; [reflexivity|]). split; [|now rewrite E].
  intros d. cbn. destruct port; lia || reflexivity.
Qed.

Lemma rest_empty : rest_ok "".
Proof. split; [constructor|now left]. Qed.

Lemma rest_path s : safe s -> rest_ok ("/" ++ s) /\ before "?" (before "#" ("/" ++ s)) = ("/" ++ s)%string
  /\ after "?" (before "#" ("/" ++ s)) = "".
Proof.
  intros Hs. assert (forall x, In x reserved -> Ascii.eqb x "/" = false -> cut x ("/" ++ s) = (("/" ++ s)%string, false, "")) as Hcut.
  { intros x Hx E. apply cut_none. rewrite chars_app. constructor; [exact E|]. now apply safe_without. }
  split; [split|].
  - unfold plain_part. rewrite chars_app. constructor; [reflexivity|]. eapply Forall_impl; [|exact Hs]. intros c Hc. now apply safe_plain.
  - right. exists "/"%char, (chars s). split; [now rewrite chars_app|reflexivity].
  - unfold before, after. rewrite (Hcut "#"%char) by (cbn; tauto || reflexivity).
    rewrite (Hcut "?"%char) by (cbn; tauto || reflexivity). now split.
Qed.

Lemma lstrip_slash s : safe s -> lstrip_p (Ascii.eqb "/") ("/" ++ s) = s.
Proof.
  intros Hs. unfold lstrip_p, on_chars. rewrite chars_app. cbn [chars list_ascii_of_string app dropwhile].
  rewrite Ascii.eqb_refl. rewrite <- (str_chars s) at 2. f_equal.
  destruct (chars s) as [|c l] eqn:E; [reflexivity|]. apply dropwhile_first. unfold safe in Hs. rewrite E in Hs.
  inversion Hs; subst. apply safe_not_reserved; [assumption|cbn; tauto].
Qed.

(** Simple URIs: no path, no query. *)
Lemma parse_tcp_built protocol transport sch c0 cs host port : chars sch = c0 :: cs -> is_alpha c0 = true -> safe sch ->
  host_ok host port ->
  parse_gateway_uri protocol transport (sch ++ "://" ++ host_port host port) = Ok (fields protocol transport (lower host) port "" "").
Proof.
  intros Hc Ha Hs Hh. destruct (device_url sch c0 cs host port "" Hc Ha Hs Hh rest_empty) as (E1 & _ & E3 & _).
  assert ((sch ++ "://" ++ host_port host port ++ "")%string = (sch ++ "://" ++ host_port host port)%string) as E
    by (apply chars_inj; now rewrite !chars_app, app_nil_r).
  rewrite E in *. unfold parse_gateway_uri. now rewrite E1, E3.
Qed.

Lemma parse_agent_built host port dev : host_ok host port -> safe dev ->
  parse_agent_fields ("agent://" ++ host_port host port ++ "/" ++ dev) = Ok (fields "agent" "agent_http" (lower host) port "" dev).
Proof.
  intros Hh Hd. destruct (rest_path dev Hd) as (Hr & Hb & _).
  destruct (device_url "agent" "a" (chars "gent") host port ("/" ++ dev) eq_refl eq_refl ltac:(repeat constructor) Hh Hr)
    as (E1 & _ & E3 & E4 & _).
  change ("agent://" ++ host_port host port ++ "/" ++ dev)%string with ("agent" ++ "://" ++ host_port host port ++ "/" ++ dev)%string.
  unfold parse_agent_fields. rewrite E1, E3, E4, Hb. unfold rmap. cbn [rbind]. now rewrite lstrip_slash.
Qed.

Lemma eybond_params_ok bc ann : safe bc -> safe ann -> params_ok (eybond_params bc ann).
Proof.
  intros Hb Ha. unfold params_ok, eybond_params.
  assert (safe "broadcast" /\ safe "announce") as [? ?] by (split; repeat constructor).
  apply Forall_app. split.
  - destruct (String.eqb_spec bc ""); [constructor|]. cbn [negb andb].
    destruct (negb (String.eqb bc DEFAULT_EYBOND_BROADCAST)); repeat constructor; auto.
  - destruct (String.eqb_spec ann ""); [constructor|]. repeat constructor; auto.
Qed.

(** The query text of the parameters, and what is found in it. *)
Lemma eybond_query bc ann : safe bc -> safe ann ->
  let q := match map param_text (eybond_params bc ann) with [] => "" | ps => join "&" ps end in
  query_first "broadcast" DEFAULT_EYBOND_BROADCAST q = (if String.eqb bc "" then DEFAULT_EYBOND_BROADCAST else bc)
  /\ query_first "announce" "" q = ann.
Proof.
  intros Hb Ha q. pose proof (eybond_params_ok bc ann Hb Ha) as Hok.
  assert (parse_qsl q = eybond_params bc ann) as E.
  { unfold q. destruct (eybond_params bc ann) as [|kv kvs] eqn:Ep; [reflexivity|]. cbn [map].
    change (param_text kv :: map param_text kvs) with (map param_text (kv :: kvs)).
    now rewrite parse_qsl_params. }
  unfold query_first. rewrite E. unfold eybond_params.
  destruct (String.eqb_spec bc "") as [->|Hbc]; cbn [negb andb app].
  - destruct (String.eqb_spec ann "") as [->|Han]; split; reflexivity.
  - destruct (String.eqb_spec bc DEFAULT_EYBOND_BROADCAST) as [->|Hd]; cbn [negb app];
      destruct (String.eqb_spec ann "") as [->|Han]; split; reflexivity.
Qed.

Lemma eybond_rest addr bc ann : 0 <= addr < 2 ^ 32 -> safe bc -> safe ann ->
  exists rest, (forall scheme host port, eybond_device_uri scheme host port addr bc ann
                = (scheme ++ "://" ++ host_port host port ++ rest)%string)
  /\ rest_ok rest /\ before "?" (before "#" rest) = ("/" ++ str_of_int addr)%string
  /\ after "?" (before "#" rest)
     = match map param_text (eybond_params bc ann) with [] => "" | ps => join "&" ps end.
Proof.
  intros Ha Hb Hn. destruct (str_of_nat_digits addr ltac:(lia)) as [Hd _]. apply digits_safe in Hd.
  destruct (rest_path _ Hd) as (Hr & Hp & Hq). unfold eybond_device_uri.
  destruct (map param_text (eybond_params bc ann)) as [|p ps] eqn:E.
  - exists ("/" ++ str_of_int addr)%string. split; [|now split]. intros. apply chars_inj. now rewrite !chars_app, <- ?app_assoc.
  - set (q := join "&" (p :: ps)). exists ("/" ++ str_of_int addr ++ "?" ++ q)%string.
    destruct (query_part_plain _ (eybond_params_ok bc ann Hb Hn)) as [Q1 Q2]. rewrite E in Q1, Q2. fold q in Q1, Q2.
    destruct (tail_parts ("/" ++ str_of_int addr) q (chars (str_of_int addr))) as [T1 T2].
    + reflexivity.
    + unfold no_char. rewrite chars_app. constructor; [reflexivity|]. eapply Forall_impl; [|exact Hd]. intros c Hc. cbn [existsb].
      pose proof (safe_not_reserved c "?" Hc ltac:(cbn; tauto)) as E1. rewrite Ascii.eqb_sym in E1.
      pose proof (safe_not_reserved c "#" Hc ltac:(cbn; tauto)) as E2. rewrite Ascii.eqb_sym in E2. now rewrite E1, E2.
    + exact Q2.
    + change ("/" ++ str_of_int addr ++ "?" ++ q)%string with (("/" ++ str_of_int addr) ++ "?" ++ q)%string. split.
      * intros. apply chars_inj. now rewrite !chars_app, <- ?app_assoc.
      * split; [|now split]. split.
        -- unfold plain_part. rewrite !chars_app. apply Forall_app. split; [apply Forall_app; split; [now constructor|]|now constructor].
           eapply Forall_impl; [|exact Hd]. intros c Hc. now apply safe_plain.
        -- right. exists "/"%char. rewrite !chars_app. eexists. split; [reflexivity|reflexivity].
Qed.

Lemma parse_eybond_built protocol scheme c0 cs host port addr bc ann :
  chars scheme = c0 :: cs -> is_alpha c0 = true -> safe scheme ->
  (forall rest, startswith (scheme ++ "://" ++ rest) "eybond-pi18://" = String.eqb protocol "pi18") ->
  In protocol ["voltronic"; "pi18"] -> host_ok host port -> 0 <= addr < 2 ^ 32 -> safe bc -> safe ann ->
  parse_eybond_fields (eybond_device_uri scheme host port addr bc ann)
  = Ok (fields protocol "eybond" (lower host) port "" ""
        ++ eybond_fields addr (if String.eqb bc "" then DEFAULT_EYBOND_BROADCAST else bc) ann).
Proof.
  intros Hc Hal Hs Hpre Hin Hh Ha Hb Hn. destruct (eybond_rest addr bc ann Ha Hb Hn) as (rest & Et & Hr & Hp & Hq).
  destruct (device_url scheme c0 cs host port rest Hc Hal Hs Hh Hr) as (_ & E2 & E3 & E4 & E5).
  destruct (eybond_query bc ann Hb Hn) as [Q1 Q2]. rewrite Et. unfold parse_eybond_fields. rewrite E2, E3, E4, E5, Hp, Hq, Q1, Q2.
  destruct (str_of_nat_digits addr ltac:(lia)) as [_ Hne].
  change (String.eqb ("/" ++ str_of_int addr)%string "") with false. cbv iota. rewrite path_devaddr by exact Ha.
  rewrite (proj2 (String.eqb_neq _ "") Hne), py_int_str by exact Ha. cbn [rbind]. rewrite Hpre.
  destruct Hin as [<-|[<-|[]]]; reflexivity.
Qed.

(** A serial device as the operating systems name them: a path, or a name without
    a colon. *)
Definition serial_ok (s : string) : Prop :=
  s <> "" /\ (startswith s "/" = true \/ str_contains ":" s = false).

Definition known_schemes : list string :=
  ["agent://"; "modbus://"; "eybond-modbus://"; "pi18://"; "pi18-serial://"; "tcp://"; "eybond-pi18://"; "eybond://"].

Lemma serial_no_scheme s p : serial_ok s -> In p known_schemes -> startswith s p = false.
Proof.
  intros [_ H] Hp. destruct (startswith s p) eqn:E; [|reflexivity]. exfalso.
  assert (exists r, s = (p ++ r)%string) as (r & ->) by (now apply prefix_inv).
  destruct H as [H|H]; cbn in Hp; repeat (destruct Hp as [<-|Hp]; [discriminate H|]); destruct Hp.
Qed.

Lemma parse_serial s : serial_ok s -> parse_device_uri s = Ok (fields "voltronic" "serial" "" DEFAULT_TCP_PORT s "").
Proof.
  intros Hs. unfold parse_device_uri. rewrite (proj2 (String.eqb_neq _ "") (proj1 Hs)).
  repeat (rewrite (serial_no_scheme s _ Hs) by (cbn; tauto)). cbn [orb]. unfold parse_plain.
  destruct Hs as [_ [H|H]]; rewrite H; [rewrite andb_false_r|]; reflexivity.
Qed.

(** The fields a transport uses. *)
Record uri_fields_ok (p t host : string) (port : Z) (serial_device agent : string) (addr : Z) (bc ann : string) : Prop := {
  uf_serial : t = "serial" -> serial_ok serial_device;
  uf_host : t <> "serial" -> host_ok host port;
  uf_agent : p = "agent" -> safe agent;
  uf_eybond : t = "eybond" -> 0 <= addr < 2 ^ 32 /\ safe bc /\ safe ann
}.

(** What comes back: the fields the transport uses, the host in lower case, the others
    as they default. *)
Definition recovered (p t host : string) (port : Z) (serial_device agent : string) (addr : Z) (bc ann : string) : pydict :=
  if String.eqb t "serial" then fields p t "" DEFAULT_TCP_PORT serial_device ""
  else if String.eqb t "eybond"
  then fields p t (lower host) port "" "" ++ eybond_fields addr (if String.eqb bc "" then DEFAULT_EYBOND_BROADCAST else bc) ann
  else fields p t (lower host) port "" (if String.eqb p "agent" then agent else "").

(** Which adapter a protocol and a transport ask for. *)
Definition adapter_wanted (p t : string) : adapter_kind :=
  if String.eqb p "agent" then KAgent
  else if String.eqb p "modbus" then KModbus
  else if String.eqb t "eybond" then KEyBond
  else if String.eqb p "pi18" then KPI18 else KVoltronic.

Lemma get_adapter_serial s : serial_ok s -> get_adapter s = KVoltronic.
Proof.
  intros Hs. unfold get_adapter. cbn [existsb].
  repeat (rewrite (serial_no_scheme s _ Hs) by (cbn; tauto)). reflexivity.
Qed.

Lemma bus_mode_known input : In (bus_mode_of input) BUS_MODES.
Proof.
  unfold bus_mode_of. destruct (dget "bus_mode" input) as [[]|]; try now left.
  destruct (isin s BUS_MODES) eqn:E; [now apply isin_In|now left].
Qed.

(** The two EyBond schemes. *)
Definition eybond_scheme (protocol : string) : string := if String.eqb protocol "pi18" then "eybond-pi18" else "eybond".

Lemma eybond_adapter protocol host port addr bc ann : In protocol ["voltronic"; "pi18"] ->
  0 <= addr < 2 ^ 32 /\ safe bc /\ safe ann ->
  get_adapter (eybond_device_uri (eybond_scheme protocol) host port addr bc ann) = KEyBond.
Proof.
  intros Hin (Ha & Hb & Hn). destruct (eybond_rest addr bc ann Ha Hb Hn) as (rest & -> & _).
  destruct Hin as [<-|[<-|[]]], host; reflexivity.
Qed.

Lemma eybond_parses protocol host port addr bc ann : In protocol ["voltronic"; "pi18"] -> host_ok host port ->
  0 <= addr < 2 ^ 32 /\ safe bc /\ safe ann ->
  parse_device_uri (eybond_device_uri (eybond_scheme protocol) host port addr bc ann)
  = Ok (fields protocol "eybond" (lower host) port "" ""
        ++ eybond_fields addr (if String.eqb bc "" then DEFAULT_EYBOND_BROADCAST else bc) ann).
Proof.
  intros Hin Hh (Ha & Hb & Hn). transitivity (parse_eybond_fields (eybond_device_uri (eybond_scheme protocol) host port addr bc ann)).
  - destruct (eybond_rest addr bc ann Ha Hb Hn) as (rest & -> & _). destruct Hin as [<-|[<-|[]]], host; reflexivity.
  - destruct Hin as [<-|[<-|[]]].
    + apply (parse_eybond_built "voltronic" "eybond" "e" (chars "ybond"));
        [reflexivity|reflexivity|repeat constructor|reflexivity|now left|assumption..].
    + apply (parse_eybond_built "pi18" "eybond-pi18" "e" (chars "ybond-pi18"));
        [reflexivity|reflexivity|repeat constructor|intros r; apply (prefix_app "eybond-pi18://")|right; now left|assumption..].
Qed.

Lemma modbus_parses host port : ("modbus://" ++ host_port host port)%string = ("modbus://" ++ host_port host port)%string
  /\ (host_ok host port ->
      parse_device_uri ("modbus://" ++ host_port host port) = Ok (fields "modbus" "tcp" (lower host) port "" "")).
Proof.
  split; [reflexivity|]. intros Hh.
  transitivity (parse_gateway_uri "modbus" "tcp" ("modbus" ++ "://" ++ host_port host port)); [now destruct host|].
  apply (parse_tcp_built _ _ _ "m" (chars "odbus")); [reflexivity|reflexivity|repeat constructor|exact Hh].
Qed.

(** The string of an entry selects the adapter of its protocol and transport. *)
Lemma uri_adapter p t host port serial_device agent addr bc ann : compatible p t ->
  uri_fields_ok p t host port serial_device agent addr bc ann ->
  get_adapter (build_device_uri p t host port serial_device agent addr bc ann) = adapter_wanted p t.
Proof.
  intros Hc [H1 H2 H3 H4]. unfold build_device_uri. rewrite (normalize_fixed p t Hc).
  pose proof (compatible_cases p t Hc) as Hcase. cbn [In] in Hcase.
  repeat (destruct Hcase as [[= <- <-]|Hcase]); [..|destruct Hcase]; cbn [String.eqb Ascii.eqb Bool.eqb negb];
    first [now destruct host|now destruct serial_device|apply get_adapter_serial; now apply H1
          |apply (eybond_adapter "voltronic"); [now left|now apply H4]|apply (eybond_adapter "pi18"); [right; now left|now apply H4]].
Qed.

(** ** Properties *)

(** Whatever protocol and transport are stored or chosen, missing,
    unknown or of an older version, the flows work with a pair they support; a
    supported pair is kept, so normalising again changes nothing. *)
Theorem normalize_supported (protocol transport : option string) :
  let '(p, t) := normalize protocol transport in
  compatible p t /\ normalize (Some p) (Some t) = (p, t)
  /\ (forall p0 t0, protocol = Some p0 -> transport = Some t0 -> compatible p0 t0 -> (p, t) = (p0, t0)).
Proof.
  pose proof (normalize_compatible protocol transport) as H. destruct (normalize protocol transport) as [p t] eqn:E.
  split; [exact H|]. split; [now apply normalize_fixed|]. intros p0 t0 -> -> Hc.
  rewrite (normalize_fixed p0 t0 Hc) in E. congruence.
Qed.

(** C24: for hosts, agent ids and dongle addresses of letters, digits, dots and hyphens,
    a port from 1 to 65535, an address below 2^32, and a serial device that is a path or
    has no colon, the device string an entry is saved with gives back the fields its
    transport uses, the host in lower case, and selects the adapter of its protocol and
    transport. Modbus is the exception: whatever transport was chosen for it, the string
    is that of a Modbus TCP gateway at the host field. A host with a colon (an address
    pasted with its port, IPv6) is outside this: its string may not parse. *)
Theorem device_uri_roundtrip (p t host : string) (port : Z) (serial_device agent : string) (addr : Z) (bc ann : string)
    (Hc : compatible p t) (Hok : uri_fields_ok p t host port serial_device agent addr bc ann) :
  let uri := build_device_uri p t host port serial_device agent addr bc ann in
  get_adapter uri = adapter_wanted p t
  /\ (p <> "modbus" -> parse_device_uri uri = Ok (recovered p t host port serial_device agent addr bc ann))
  /\ (p = "modbus" -> uri = ("modbus://" ++ host_port host port)%string
        /\ (host_ok host port -> parse_device_uri uri = Ok (fields "modbus" "tcp" (lower host) port "" ""))).
Proof.
  intros uri. split; [now apply uri_adapter|]. unfold uri, build_device_uri. rewrite (normalize_fixed p t Hc). destruct Hok as [H1 H2 H3 H4].
  pose proof (compatible_cases p t Hc) as Hcase. cbn [In] in Hcase.
  repeat (destruct Hcase as [[= <- <-]|Hcase]); [..|destruct Hcase]; cbn [String.eqb Ascii.eqb Bool.eqb negb];
    (split; intros Hm; [try now destruct Hm|try discriminate Hm]).
  - transitivity (parse_gateway_uri "voltronic" "tcp_elfin" ("tcp" ++ "://" ++ host_port host port)); [now destruct host|].
    apply (parse_tcp_built _ _ _ "t" (chars "cp")); [reflexivity|reflexivity|repeat constructor|now apply H2].
  - apply parse_serial. now apply H1.
  - apply (eybond_parses "voltronic"); [now left|now apply H2|now apply H4].
  - transitivity (parse_gateway_uri "pi18" "tcp" ("pi18" ++ "://" ++ host_port host port)); [now destruct host|].
    apply (parse_tcp_built _ _ _ "p" (chars "i18")); [reflexivity|reflexivity|repeat constructor|now apply H2].
  - transitivity (Ok (fields "pi18" "serial" "" DEFAULT_TCP_PORT (sdrop 14 ("pi18-serial://" ++ serial_device)) ""));
      [now destruct serial_device|]. now rewrite (sdrop_app "pi18-serial://").
  - apply (eybond_parses "pi18"); [right; now left|now apply H2|now apply H4].
  - now apply modbus_parses.
  - now apply modbus_parses.
  - now apply modbus_parses.
  - transitivity (parse_agent_fields ("agent://" ++ host_port host port ++ "/" ++ agent)); [now destruct host|].
    apply parse_agent_built; [now apply H2|now apply H3].
Qed.

(** The connection form either names what is missing or saves an
    entry: the errors are empty exactly when the transport's address is given
    (a serial device or a host, and a device id for the agent); a saved entry has
    a supported pair, a known bus mode, and the device string of its own fields. *)
Theorem connection_saved (protocol transport host serial_device agent : string) (input : pydict) (result : dict string + pydict)
    (Hh : text_field "host" input = Some host) (Hs : text_field "serial_device" input = Some serial_device)
    (Ha : text_field "agent_device_id" input = Some agent) (Hr : step_connection protocol transport input = Some result) :
  let '(p, t) := normalize (Some protocol) (Some transport) in
  let given := (if String.eqb t "serial" then negb (String.eqb serial_device "") else negb (String.eqb host ""))
               && (negb (String.eqb p "agent") || negb (String.eqb agent "")) in
  match result with
  | inl errors => errors <> [] /\ given = false
  | inr opts =>
      given = true /\ compatible p t /\ dget "protocol" opts = Some (VStr p) /\ dget "transport" opts = Some (VStr t)
      /\ (exists m, dget "bus_mode" opts = Some (VStr m) /\ In m BUS_MODES)
      /\ exists port addr bc ann, dget "port" opts = Some (VInt port) /\ dget "eybond_devaddr" opts = Some (VInt addr)
         /\ dget "eybond_broadcast" opts = Some (VStr bc) /\ dget "eybond_announce_ip" opts = Some (VStr ann)
         /\ dget "device" opts = Some (VStr (build_device_uri p t host port serial_device agent addr bc ann))
  end.
Proof.
  pose proof (normalize_compatible (Some protocol) (Some transport)) as Hc. unfold step_connection in Hr.
  destruct (normalize (Some protocol) (Some transport)) as [p t]. cbn [fst snd] in Hc. rewrite Hh, Hs, Ha in Hr.
  cbn [obind] in Hr. unfold validate_connection in Hr. rewrite (normalize_fixed p t Hc) in Hr. cbv zeta.
  destruct (String.eqb t "serial"), (String.eqb serial_device ""), (String.eqb host ""), (String.eqb p "agent"),
    (String.eqb agent ""); cbn [andb orb negb app] in Hr |- *;
    try (injection Hr as <-; split; [discriminate|reflexivity]).
  all: destruct (int_or "port" _ input) as [port|]; [|discriminate Hr]; cbn [obind] in Hr;
    destruct (int_option "eybond_devaddr" _ input) as [addr|]; [|discriminate Hr]; cbn [obind] in Hr;
    destruct (text_or "eybond_broadcast" _ input) as [bc|]; [|discriminate Hr]; cbn [obind] in Hr;
    destruct (text_or "eybond_announce_ip" _ input) as [ann|]; [|discriminate Hr]; cbn [obind] in Hr;
    destruct (int_option "update_interval" _ input) as [interval|]; [|discriminate Hr]; cbn [obind] in Hr;
    injection Hr as <-; (split; [reflexivity|]); (split; [exact Hc|]); (split; [reflexivity|]); (split; [reflexivity|]);
    (split; [exists (bus_mode_of input); split; [reflexivity|apply bus_mode_known]|]);
    now exists port, addr, bc, ann.
Qed.

(** A Modbus inverter on a serial line is saved as a TCP gateway without a host. *)
Example modbus_serial_saved_as_tcp :
  match step_connection "modbus" "serial" [("serial_device", VStr "/dev/ttyUSB0")] with
  | Some (inr opts) => (dget "transport" opts, dget "device" opts)
  | _ => (None, None)
  end = (Some (VStr "serial"), Some (VStr "modbus://:8899")).
Proof. vm_compute. reflexivity. Qed.

(** ** Witnesses *)

Definition home_fields : uri_fields_ok "pi18" "eybond" "HomeServer.lan" 8899 "" "" 2 "192.168.1.255" "192.168.1.7".
Proof.
  split; [discriminate|intros _; split; [repeat constructor|discriminate|lia]|discriminate|].
  intros _. split; [lia|]. split; repeat constructor.
Qed.

Lemma device_uri_roundtrip_witness :
  parse_device_uri (build_device_uri "pi18" "eybond" "HomeServer.lan" 8899 "" "" 2 "192.168.1.255" "192.168.1.7")
  = Ok (fields "pi18" "eybond" "homeserver.lan" 8899 "" "" ++ eybond_fields 2 "192.168.1.255" "192.168.1.7").
Proof.
  destruct (device_uri_roundtrip "pi18" "eybond" "HomeServer.lan" 8899 "" "" 2 "192.168.1.255" "192.168.1.7") as (_ & H & _).
  - split; cbn; tauto.
  - exact home_fields.
  - apply H. discriminate.
Defined.

Lemma connection_saved_witness :
  match step_connection "eybond" "tcp" [("host", VStr " inverter.lan "); ("port", VInt 502)] with
  | Some (inr opts) => dget "device" opts = Some (VStr "tcp://inverter.lan:502")
  | _ => False
  end.
Proof.
  destruct (step_connection "eybond" "tcp" [("host", VStr " inverter.lan "); ("port", VInt 502)]) as [result|] eqn:E;
    [|vm_compute in E; discriminate E].
  pose proof (connection_saved "eybond" "tcp" "inverter.lan" "" "" [("host", VStr " inverter.lan "); ("port", VInt 502)]
    result eq_refl eq_refl eq_refl E) as H.
  change (normalize (Some "eybond") (Some "tcp")) with ("voltronic", "tcp_elfin") in H. cbv iota beta zeta in H. destruct result as [errors|opts]; [destruct H as [_ H]; discriminate H|].
  destruct H as (_ & _ & _ & _ & _ & port & addr & bc & ann & Hp & _ & _ & _ & Hd). rewrite Hd.
  vm_compute in E. injection E as <-. vm_compute in Hp. injection Hp as <-. vm_compute. reflexivity.
Defined.
