(* ===== verification/Forms.v ===== *)
(** The forms of the configuration flows: the schema builders of [config_flow.py],
    and what a form hands to its step.

    A schema is the list of its fields, in order, with the default each shows.
    The form engine (Home Assistant with voluptuous) is not part of the source:
    [conforms] is what its validators promise of the input a step receives, and
    [unchanged] the input when every field is left as it is shown. *)

From Stdlib Require Import ZArith List Bool Lia String Ascii Floats.SpecFloat.
From S2P Require Import Prelude PyStr PyInt PyFloat FloatFacts FloatMono PyDict Uri Discovery EybondFrame ChildUri Adapters ConfigFlow.
Import ListNotations.
#[local] Open Scope string_scope.
#[local] Open Scope list_scope.
#[local] Open Scope Z_scope.

(** ** Fields *)

Inductive field_kind :=
| KString                                             (* [cv.string], [str] *)
| KPort                                               (* [cv.port] *)
| KBool                                               (* [BooleanSelector] *)
| KNumber (lo hi : Z)                                 (* [NumberSelector] *)
| KSelect (options : list pyval) (custom : bool).     (* [SelectSelector] *)

(** A field; [None] stands for [vol.UNDEFINED], no default. *)
Record field := { f_key : string; f_required : bool; f_default : option pyval; f_kind : field_kind }.
Definition schema := list field.

Definition required (k : string) (d : option pyval) (kind : field_kind) : field :=
  {| f_key := k; f_required := true; f_default := d; f_kind := kind |}.
Definition optional (k : string) (d : pyval) (kind : field_kind) : field :=
  {| f_key := k; f_required := false; f_default := Some d; f_kind := kind |}.

Definition keys (sch : schema) : list string := map f_key sch.

(** [d.get(k, default)], [d.get(k) or default] and [d.get(k) or vol.UNDEFINED] *)
Definition default_get (k : string) (default : pyval) (d : pydict) : pyval :=
  match dget k d with Some v => v | None => default end.
Definition truthy_or (k : string) (default : pyval) (d : pydict) : pyval :=
  if truthy (vget k d) then vget k d else default.
Definition truthy_get (k : string) (d : pydict) : option pyval :=
  if truthy (vget k d) then Some (vget k d) else None.

(** ** The schema builders *)

Definition MIN_UPDATE_INTERVAL : Z := 1.
Definition MAX_UPDATE_INTERVAL : Z := 300.

Definition update_interval_field : field_kind := KNumber MIN_UPDATE_INTERVAL MAX_UPDATE_INTERVAL.

(** The update interval of every form. *)
Definition interval_field (defaults : pydict) : field :=
  required "update_interval" (Some (default_get "update_interval" (VInt DEFAULT_UPDATE_INTERVAL) defaults)) update_interval_field.

(** The serial port: those of the machine, and the stored one. *)
Definition serial_field (ports : list string) (defaults : pydict) : field :=
  let default_serial := truthy_or "serial_device" (VStr "") defaults in
  let known := match default_serial with VStr s => isin s ports | _ => false end in
  let options := map VStr ports in
  required "serial_device" (truthy_get "serial_device" defaults)
    (KSelect (if truthy default_serial && negb known then default_serial :: options else options) true).

Definition default_port (transport : string) : Z :=
  if String.eqb transport "agent_http" then DEFAULT_AGENT_PORT
  else if String.eqb transport "eybond" then DEFAULT_BIND_PORT else DEFAULT_TCP_PORT.

Definition host_default (transport : string) (defaults : pydict) : option pyval :=
  if String.eqb transport "eybond" then Some (truthy_or "host" (VStr "0.0.0.0") defaults)
  else truthy_get "host" defaults.

(** The dongle's bus address, broadcast address and announced address. *)
Definition dongle_fields (defaults : pydict) : schema := [
  required "eybond_devaddr" (Some (default_get "eybond_devaddr" (VInt 1) defaults)) (KNumber 1 16);
  required "eybond_broadcast" (Some (default_get "eybond_broadcast" (VStr DEFAULT_EYBOND_BROADCAST) defaults)) KString;
  optional "eybond_announce_ip" (default_get "eybond_announce_ip" (VStr "") defaults) KString].

Definition address_fields (protocol transport : string) (defaults : pydict) : schema :=
  [required "host" (host_default transport defaults) KString;
   required "port" (Some (truthy_or "port" (VInt (default_port transport)) defaults)) KPort]
  ++ (if String.eqb protocol "agent" then [required "agent_device_id" (truthy_get "agent_device_id" defaults) KString] else [])
  ++ (if String.eqb transport "eybond" then dongle_fields defaults else []).

Definition CRC_CAPABLE_PROTOCOLS : list string := ["voltronic"; "pi18"].

(** [_build_connection_schema] *)
Definition build_connection_schema (ports : list string) (protocol transport : string) (defaults : pydict) : schema :=
  let '(protocol, transport) := normalize (Some protocol) (Some transport) in
  (if String.eqb transport "serial" then [serial_field ports defaults] else address_fields protocol transport defaults)
  ++ [interval_field defaults]
  ++ (if isin protocol CRC_CAPABLE_PROTOCOLS
      then [optional "strict_crc" (default_get "strict_crc" (VBool false) defaults) KBool] else [])
  ++ (if isin transport ["tcp_elfin"; "tcp"]
      then [optional "bus_mode" (default_get "bus_mode" (VStr DEFAULT_BUS_MODE) defaults) (KSelect (map VStr BUS_MODES) false)]
      else []).

(** [_hub_listener_options_schema], and [_hub_listener_schema] with the name before it *)
Definition hub_listener_options_schema (defaults : pydict) : schema := [
  required "host" (Some (default_get "host" (VStr "0.0.0.0") defaults)) KString;
  required "port" (Some (default_get "port" (VInt DEFAULT_BIND_PORT) defaults)) KPort;
  required "eybond_broadcast" (Some (default_get "eybond_broadcast" (VStr DEFAULT_EYBOND_BROADCAST) defaults)) KString;
  optional "eybond_announce_ip" (default_get "eybond_announce_ip" (VStr "") defaults) KString;
  interval_field defaults].

Definition hub_listener_schema (defaults : pydict) : schema :=
  required "name" (dget "name" defaults) KString :: hub_listener_options_schema defaults.

(** [_protocol_schema] and [_transport_schema] *)
Definition protocol_schema (default_protocol : string) : schema :=
  [required "protocol" (Some (VStr (fst (normalize (Some default_protocol) None)))) (KSelect (map VStr PROTOCOLS) false)].

Definition transport_schema (protocol default_transport : string) : schema :=
  let '(protocol, default_transport) := normalize (Some protocol) (Some default_transport) in
  [required "transport" (Some (VStr default_transport)) (KSelect (map VStr (supported_transports protocol)) false)].

(** The name of a single inverter. *)
Definition device_schema : schema := [required "name" None KString].

Definition debug_panel_field (options : pydict) : field :=
  optional "debug_panel" (default_get "debug_panel" (VBool false) options) KBool.

(** ** What a step receives *)

Definition in_range (lo hi : Z) (x : float) : Prop :=
  nonneg x /\ fle (float_of_Z lo) x = true /\ fle x (float_of_Z hi) = true.

(** The values a validator returns. *)
Definition accepts (kind : field_kind) (v : pyval) : Prop :=
  match kind with
  | KString => exists s, v = VStr s
  | KPort => exists n, v = VInt n /\ 1 <= n <= 65535
  | KBool => exists b, v = VBool b
  | KNumber lo hi => exists x, v = VFloat x /\ in_range lo hi x
  | KSelect options custom => if custom then exists s, v = VStr s else In v options
  end.

(** Validated input: a value for every field (a field without a default is
    required, a missing optional one is filled with its default), and no other key. *)
Record conforms (sch : schema) (input : pydict) : Prop := {
  cf_values : forall f, In f sch -> exists v, dget (f_key f) input = Some v /\ accepts (f_kind f) v;
  cf_keys : forall k v, dget k input = Some v -> In k (keys sch)
}.

(** A value as its validator returns it: numbers as floats. *)
Definition validated (kind : field_kind) (v : pyval) : pyval :=
  match kind, v with KNumber _ _, VInt n => VFloat (float_of_Z n) | _, _ => v end.

(** The input of a form submitted as it is shown. *)
Definition unchanged (sch : schema) : pydict :=
  flat_map (fun f => match f_default f with Some d => [(f_key f, validated (f_kind f) d)] | None => [] end) sch.

(** A form that can be submitted as it is shown: every default passes its validator. *)
Definition submittable (sch : schema) : Prop :=
  Forall (fun f => exists d, f_default f = Some d /\ accepts (f_kind f) (validated (f_kind f) d)) sch.

(** ** Lemmas *)

Lemma unchanged_keys sch : submittable sch -> dkeys (unchanged sch) = keys sch.
Proof.
  induction 1 as [|f sch (d & Hd & _) _ IH]; [reflexivity|]. unfold unchanged, dkeys in *. cbn [flat_map]. rewrite Hd.
  cbn [app map fst keys]. now rewrite IH.
Qed.

(** Submitted as shown, a form gives input its schema accepts. *)
Lemma unchanged_conforms sch : NoDup (keys sch) -> submittable sch -> conforms sch (unchanged sch).
Proof.
  intros Hn Hs. split.
  - intros f Hf. pose proof (proj1 (Forall_forall _ _) Hs f Hf) as (d & Hd & Ha). exists (validated (f_kind f) d). split; [|exact Ha].
    apply dget_in; [unfold dict_ok; now rewrite unchanged_keys|]. apply in_flat_map. exists f. split; [exact Hf|]. rewrite Hd. now left.
  - intros k v H. rewrite <- unchanged_keys by exact Hs. apply dget_some_in in H. now apply (in_map fst) in H.
Qed.

Lemma conforms_value sch input f : conforms sch input -> In f sch ->
  exists v, dget (f_key f) input = Some v /\ accepts (f_kind f) v.
Proof. intros [H _]. apply H. Qed.

Lemma conforms_absent sch input k : conforms sch input -> ~ In k (keys sch) -> dget k input = None.
Proof. intros [_ H] Hn. destruct (dget k input) eqn:E; [|reflexivity]. destruct Hn. now apply (H k p). Qed.
