(* ===== verification/EybondHub.v ===== *)
(** The EyBond hub entry: [eybond_hub.py], the listener registry of
    [api/protocols/eybond_dongle.py], the set-up and unload of [__init__.py] and
    the device form of [config_flow.py].

    A discovery registry is an object shared by the listener that fills it and by
    the hub that shows, saves and polls it: registries live in a store and are
    referred to by number. An operation of the source is one function of the
    world; what the network answers ([bind_ok]) and the loop's time are
    arguments. *)

From Stdlib Require Import ZArith String Ascii Sorted.
From stdpp Require Import base gmap sets fin_sets fin_maps list strings relations.
From S2P Require Import Prelude PyStr PyInt PyDict Coordinator Discovery EybondFrame ChildUri EybondManager ConfigFlow.
#[local] Set Warnings "-clear-no-such-hyp".
#[local] Open Scope Z_scope.

(** ** The world *)

(** An [EybondManager]: its sessions, the registry object it fills, and its
    server and announcer. *)
Record listener := {
  l_mgr : mgr;
  l_ref : Z;
  l_broadcast : string;
  l_announce : option string;
  l_server : bool;
  l_announcing : bool;
  l_bind_failed_until : Z
}.

(** [EybondHubRuntime]; [_last_saved] is kept as the records it was made from. *)
Record runtime := {
  r_ref : Z;
  r_host : string;
  r_port : Z;
  r_last_saved : dongles
}.

Record config_entry := { e_id : string; e_data : pydict; e_options : pydict }.

Record world := {
  w_next : Z;                                (* registry objects created *)
  w_regs : gmap Z dongles;                   (* their contents *)
  w_managers : gmap (string * Z) listener;   (* [_managers] *)
  w_old : list listener;                     (* shut down, their readers may still be ending *)
  w_stores : gmap string (dict pydict);      (* one [Store] per entry *)
  w_runtimes : gmap string runtime;          (* [hass.data[DOMAIN]] *)
  w_children : gmap string (list DeviceTarget)  (* the poll targets of each hub *)
}.

Definition world_init (stores : gmap string (dict pydict)) : world :=
  {| w_next := 0; w_regs := ∅; w_managers := ∅; w_old := []; w_stores := stores; w_runtimes := ∅; w_children := ∅ |}.

Definition with_managers (ms : gmap (string * Z) listener) (w : world) : world :=
  {| w_next := w_next w; w_regs := w_regs w; w_managers := ms; w_old := w_old w; w_stores := w_stores w;
     w_runtimes := w_runtimes w; w_children := w_children w |}.
Definition with_old (old : list listener) (w : world) : world :=
  {| w_next := w_next w; w_regs := w_regs w; w_managers := w_managers w; w_old := old; w_stores := w_stores w;
     w_runtimes := w_runtimes w; w_children := w_children w |}.
Definition with_reg (ref : Z) (reg : dongles) (w : world) : world :=
  {| w_next := w_next w; w_regs := <[ref := reg]> (w_regs w); w_managers := w_managers w; w_old := w_old w;
     w_stores := w_stores w; w_runtimes := w_runtimes w; w_children := w_children w |}.
Definition with_store (id : string) (snap : dict pydict) (w : world) : world :=
  {| w_next := w_next w; w_regs := w_regs w; w_managers := w_managers w; w_old := w_old w;
     w_stores := <[id := snap]> (w_stores w); w_runtimes := w_runtimes w; w_children := w_children w |}.
Definition with_runtimes (rs : gmap string runtime) (w : world) : world :=
  {| w_next := w_next w; w_regs := w_regs w; w_managers := w_managers w; w_old := w_old w;
     w_stores := w_stores w; w_runtimes := rs; w_children := w_children w |}.
Definition with_children (id : string) (ts : list DeviceTarget) (w : world) : world :=
  {| w_next := w_next w; w_regs := w_regs w; w_managers := w_managers w; w_old := w_old w;
     w_stores := w_stores w; w_runtimes := w_runtimes w; w_children := <[id := ts]> (w_children w) |}.

(** [EybondRegistry()], filled. *)
Definition new_registry (reg : dongles) (w : world) : world * Z :=
  let ref := w_next w in
  ({| w_next := ref + 1; w_regs := <[ref := reg]> (w_regs w); w_managers := w_managers w; w_old := w_old w;
      w_stores := w_stores w; w_runtimes := w_runtimes w; w_children := w_children w |}, ref).

Definition registry_at (w : world) (ref : Z) : dongles :=
  match w_regs w !! ref with Some reg => reg | None => [] end.

(** The manager of a listener, with the contents of the registry it refers to. *)
Definition view (w : world) (l : listener) : mgr := with_registry (registry_at w (l_ref l)) (l_mgr l).

Definition with_mgr (m : mgr) (l : listener) : listener :=
  {| l_mgr := m; l_ref := l_ref l; l_broadcast := l_broadcast l; l_announce := l_announce l;
     l_server := l_server l; l_announcing := l_announcing l; l_bind_failed_until := l_bind_failed_until l |}.

(** A manager after some of its coroutines ran. *)
Definition put_mgr (k : string * Z) (l : listener) (m : mgr) (w : world) : world :=
  with_reg (l_ref l) (m_registry m) (with_managers (<[k := with_mgr m l]> (w_managers w)) w).

(** ** Listeners *)

Definition BIND_FAILURE_BACKOFF : Z := 30.

Definition new_listener (broadcast : string) (announce : option string) (ref : Z) : listener :=
  {| l_mgr := mgr_init []; l_ref := ref; l_broadcast := broadcast; l_announce := announce;
     l_server := false; l_announcing := false; l_bind_failed_until := 0 |}.

(** [_get_manager] on an existing manager: the parameters that changed, and the
    announcer restarted for a new announce address. *)
Definition update_listener (broadcast : string) (announce : option string) (l : listener) : listener :=
  let bc := if negb (String.eqb broadcast DEFAULT_EYBOND_BROADCAST) && negb (String.eqb (l_broadcast l) broadcast)
            then broadcast else l_broadcast l in
  if bool_decide (l_announce l = announce)
  then {| l_mgr := l_mgr l; l_ref := l_ref l; l_broadcast := bc; l_announce := l_announce l;
          l_server := l_server l; l_announcing := l_announcing l; l_bind_failed_until := l_bind_failed_until l |}
  else {| l_mgr := l_mgr l; l_ref := l_ref l;
          l_broadcast := if String.eqb broadcast DEFAULT_EYBOND_BROADCAST then DEFAULT_EYBOND_BROADCAST else bc;
          l_announce := announce; l_server := l_server l; l_announcing := l_server l;
          l_bind_failed_until := l_bind_failed_until l |}.

(** [EybondManager.ensure_started] *)
Definition ensure_started (time : Z) (bind_ok : bool) (l : listener) : listener * res unit :=
  let started b := {| l_mgr := l_mgr l; l_ref := l_ref l; l_broadcast := l_broadcast l; l_announce := l_announce l;
                      l_server := true; l_announcing := true; l_bind_failed_until := b |} in
  if l_server l then (started (l_bind_failed_until l), Ok tt)
  else if time <? l_bind_failed_until l then (l, Raise (OSError "EyBond bind backoff active"))
  else if bind_ok then (started (l_bind_failed_until l), Ok tt)
  else ({| l_mgr := l_mgr l; l_ref := l_ref l; l_broadcast := l_broadcast l; l_announce := l_announce l;
           l_server := l_server l; l_announcing := l_announcing l;
           l_bind_failed_until := time + BIND_FAILURE_BACKOFF |}, Raise (OSError "bind")).

(** [_get_manager] *)
Definition get_manager (time : Z) (bind_ok : bool) (host : string) (port : Z) (broadcast : string)
    (announce : option string) (w : world) : world * res unit :=
  let '(w, l) := match w_managers w !! (host, port) with
                 | Some l => (w, update_listener broadcast announce l)
                 | None => let '(w, ref) := new_registry [] w in (w, new_listener broadcast announce ref)
                 end in
  let '(l, r) := ensure_started time bind_ok l in
  (with_managers (<[(host, port) := l]> (w_managers w)) w, r).

Definition with_ref (ref : Z) (l : listener) : listener :=
  {| l_mgr := l_mgr l; l_ref := ref; l_broadcast := l_broadcast l; l_announce := l_announce l;
     l_server := l_server l; l_announcing := l_announcing l; l_bind_failed_until := l_bind_failed_until l |}.

(** [get_eybond_manager]: the given registry replaces an empty one. *)
Definition get_eybond_manager (time : Z) (bind_ok : bool) (host : string) (port : Z) (broadcast : string)
    (announce : option string) (registry : option Z) (w : world) : world * res unit :=
  let '(w, r) := get_manager time bind_ok host port broadcast announce w in
  match r, registry, w_managers w !! (host, port) with
  | Ok _, Some ref, Some l =>
      match registry_at w (l_ref l) with
      | [] => (with_managers (<[(host, port) := with_ref ref l]> (w_managers w)) w, r)
      | _ => (w, r)
      end
  | _, _, _ => (w, r)
  end.

(** [EybondManager.shutdown]; the sessions' readers end later. *)
Definition stop_listener (w : world) (l : listener) : listener :=
  {| l_mgr := shutdown (view w l); l_ref := l_ref l; l_broadcast := l_broadcast l; l_announce := l_announce l;
     l_server := false; l_announcing := false; l_bind_failed_until := l_bind_failed_until l |}.

(** [shutdown_eybond_manager] *)
Definition shutdown_eybond_manager (host : string) (port : Z) (w : world) : world :=
  match w_managers w !! (host, port) with
  | Some l => with_old (stop_listener w l :: w_old w) (with_managers (delete (host, port) (w_managers w)) w)
  | None => w
  end.

(** [shutdown_all_eybond_managers] *)
Definition shutdown_all_eybond_managers (w : world) : world :=
  with_old (map (fun kl => stop_listener w (snd kl)) (map_to_list (w_managers w)) ++ w_old w) (with_managers ∅ w).

(** [send_eybond_bytes] up to the frame: the manager its URI names is there. *)
Definition dispatch (time : Z) (bind_ok : bool) (device : string) (w : world) : world * res unit :=
  match parse_eybond_uri device with
  | Ok u => get_manager time bind_ok (bind_host u) (bind_port u) (broadcast u) (announce_ip u) w
  | Raise e => (w, Raise e)
  end.

(** ** Hub entries *)

Definition DEFAULT_EYBOND_BIND_HOST : string := "0.0.0.0".
Definition DEFAULT_EYBOND_BIND_PORT : Z := 8899.
Definition ENTRY_KIND_DEVICE : string := "device".
Definition ENTRY_KIND_EYBOND_HUB : string := "eybond_hub".

Record listener_config := { c_host : string; c_port : Z; c_broadcast : string; c_announce : option string }.

(** [hub_listener_config]; [None] for options no flow stores. *)
Definition hub_listener_config (opts : pydict) : option listener_config :=
  obind (str_field "eybond_bind_host" DEFAULT_EYBOND_BIND_HOST opts) (fun host =>
  obind (int_option "eybond_bind_port" DEFAULT_EYBOND_BIND_PORT opts) (fun port =>
  obind (str_field "eybond_broadcast" DEFAULT_EYBOND_BROADCAST opts) (fun broadcast =>
  obind (text_or_empty "eybond_announce_ip" opts) (fun announce =>
  Some {| c_host := host; c_port := port; c_broadcast := broadcast; c_announce := nonempty (strip announce) |})))).

(** [_entry_kind] *)
Definition entry_kind (e : config_entry) : pyval :=
  let kind d := vget "entry_kind" d in
  if truthy (kind (e_options e)) then kind (e_options e)
  else if truthy (kind (e_data e)) then kind (e_data e)
  else VStr ENTRY_KIND_DEVICE.

Definition is_hub (e : config_entry) : bool :=
  match entry_kind e with VStr s => String.eqb s ENTRY_KIND_EYBOND_HUB | _ => false end.

#[local] Instance DongleStatus_eq_dec : EqDecision DongleStatus.
Proof. solve_decision. Defined.
#[local] Instance DongleRecord_eq_dec : EqDecision DongleRecord.
Proof. solve_decision. Defined.

(** Equality of two snapshots, as Python compares dicts: the order is irrelevant. *)
Definition snap_eqb (a b : dongles) : bool :=
  Nat.eqb (List.length a) (List.length b)
  && forallb (fun kr => bool_decide (dget (fst kr) b = Some (snd kr))) a.

(** [EybondHubRuntime.async_save] *)

Definition async_save (force : bool) (id : string) (w : world) : world :=
  match w_runtimes w !! id with
  | Some rt =>
      let snap := registry_at w (r_ref rt) in
      if force || negb (snap_eqb snap (r_last_saved rt))
      then with_runtimes (<[id := {| r_ref := r_ref rt; r_host := r_host rt; r_port := r_port rt; r_last_saved := snap |}]>
                            (w_runtimes w)) (with_store id (registry_to_dict snap) w)
      else w
  | None => w
  end.

(** [EybondHubRuntime.stop] after the runtime was taken out of [hass.data]. *)
Definition stop_runtime (id : string) (rt : runtime) (w : world) : world :=
  shutdown_eybond_manager (r_host rt) (r_port rt) (with_store id (registry_to_dict (registry_at w (r_ref rt))) w).

(** [async_unload_eybond_hub] *)
Definition unload_hub (id : string) (w : world) : world :=
  match w_runtimes w !! id with
  | Some rt => stop_runtime id rt (with_runtimes (delete id (w_runtimes w)) w)
  | None => w
  end.

Definition hub_children (c : listener_config) (reg : dongles) : list DeviceTarget :=
  build_child_targets reg (c_host c) (c_port c) (c_broadcast c) (c_announce c).

(** [async_setup_eybond_hub]; [refresh] is the coordinator's first refresh. *)
Definition setup_hub (time : Z) (bind_ok : bool) (refresh : res unit) (e : config_entry) (w : world) : world * res unit :=
  match hub_listener_config (e_options e), load_registry (w_stores w !! e_id e) with
  | Some c, Some stored =>
      let '(w, ref) := new_registry (reset_connection_state stored) w in
      let '(w, r) := get_eybond_manager time bind_ok (c_host c) (c_port c) (c_broadcast c) (c_announce c) (Some ref) w in
      match r, w_managers w !! (c_host c, c_port c) with
      | Ok _, Some l =>
          let reg := registry_at w (l_ref l) in
          match refresh with
          | Ok _ =>
              let rt := {| r_ref := l_ref l; r_host := c_host c; r_port := c_port c;
                           r_last_saved := reg |} in
              (with_children (e_id e) (hub_children c reg) (with_runtimes (<[e_id e := rt]> (w_runtimes w)) w), Ok tt)
          | Raise x => (w, Raise x)
          end
      | Raise x, _ => (w, Raise x)
      | _, None => (w, Raise (KeyError "manager"))
      end
  | _, _ => (w, Raise (TypeError "stored options"))
  end.

(** [async_setup_entry] and [async_unload_entry], as far as the dongles go. *)
Definition setup_entry (time : Z) (bind_ok : bool) (refresh : res unit) (e : config_entry) (w : world) : world * res unit :=
  if is_hub e then setup_hub time bind_ok refresh e w else (w, refresh).

Definition unload_entry (e : config_entry) (w : world) : world :=
  if is_hub e then unload_hub (e_id e) w else shutdown_all_eybond_managers w.

(** [async_reload] *)
Definition reload_entry (time : Z) (bind_ok : bool) (refresh : res unit) (e : config_entry) (w : world) : world * res unit :=
  setup_entry time bind_ok refresh e (unload_entry e w).

(** [async_reconcile_children] when the platforms unload and load again: the new
    targets, and the ids of the children that are gone. *)
Definition reconcile_children (time : Z) (bind_ok : bool) (refresh platforms : res unit) (e : config_entry) (w : world)
    : world * list string :=
  match w_runtimes w !! e_id e, w_children w !! e_id e, hub_listener_config (e_options e), platforms with
  | Some rt, Some old, Some c, Ok _ =>
      let ts := hub_children c (registry_at w (r_ref rt)) in
      (with_children (e_id e) ts w,
       filter (fun id => id ∉ map t_id ts) (remove_dups (map t_id old)))
  | _, _, _, _ => (fst (reload_entry time bind_ok refresh e w), [])
  end.

(** ** The device form *)

(** One record of [EybondHubOptionsFlow._apply_device_bulk]; [None] for input the
    form cannot give. *)
Definition field_of (p suffix : string) : string := (p ++ "__" ++ suffix)%string.

Definition apply_device (rec : DongleRecord) (input : pydict) (reg : dongles) : option dongles :=
  let p := pn rec in
  if truthy (vget (field_of p "remove") input) then Some (remove_record p reg)
  else
    obind (text_or_empty (field_of p "name") input) (fun nm =>
    obind (int_option (field_of p "devaddr") (devaddr rec) input) (fun addr =>
    obind (str_field (field_of p "protocol") "none" input) (fun proto =>
    Some (set_enabled p (truthy (vget (field_of p "enabled") input))
            (set_protocol p (if String.eqb proto "none" then None else Some proto)
               (set_devaddr p addr (set_name p (strip nm) reg))))))).

Definition apply_device_bulk (records : list DongleRecord) (input : pydict) (reg : dongles) : option dongles :=
  fold_left (fun acc rec => obind acc (apply_device rec input)) records (Some reg).

(** [async_step_devices] on a submitted form, up to the reconcile it schedules. *)
Definition step_devices (id : string) (input : pydict) (w : world) : option world :=
  match w_runtimes w !! id with
  | Some rt =>
      match registry_at w (r_ref rt) with
      | [] => None
      | reg => obind (apply_device_bulk (all_records reg) input reg) (fun reg =>
                 Some (async_save true id (with_reg (r_ref rt) reg w)))
      end
  | None => None
  end.

(** ** Migration of a single-dongle entry *)

(** [sorted(_sessions_by_pn)[0]] *)
Definition first_pn (m : mgr) : option string :=
  match elements (identified_pns m) with
  | [] => None
  | p :: ps => Some (fold_left (fun a b => if String.ltb b a then b else a) ps p)
  end.

Definition migrated_record (p nm device : string) (is_pi18 : bool) (addr : Z) : DongleRecord := {|
  pn := p; name := nm; enabled := true; protocol := Some (if is_pi18 then "pi18" else "voltronic");
  devaddr := addr; status := CONNECTED; peer := ""; first_seen := ""; last_seen := ""; model_hint := "";
  legacy_id := device |}.

Definition migrated_options (u : eybond_uri) (interval revision : Z) : pydict := [
  ("entry_kind", VStr ENTRY_KIND_EYBOND_HUB); ("eybond_bind_host", VStr (bind_host u));
  ("eybond_bind_port", VInt (bind_port u)); ("eybond_broadcast", VStr (broadcast u));
  ("eybond_announce_ip", VStr (match announce_ip u with Some a => a | None => "" end));
  ("update_interval", VInt interval); ("hub_revision", VInt (revision + 1))].

(** [async_migrate_legacy_to_hub]: the new options, or the reason it refuses. *)
Definition migrate_legacy_to_hub (time : Z) (bind_ok : bool) (title : string) (e : config_entry) (w : world)
    : world * res (string + pydict) :=
  match text_or_empty "device" (e_options e) with
  | None => (w, Raise (TypeError "device"))
  | Some device =>
      let is_pi18 := startswith device "eybond-pi18://" in
      if negb (startswith device "eybond://" || is_pi18) then (w, Ok (inl "not_eybond"%string))
      else match parse_eybond_uri device with
           | Raise x => (w, Raise x)
           | Ok u =>
               let '(w, r) := get_eybond_manager time bind_ok (bind_host u) (bind_port u) (broadcast u) (announce_ip u) None w in
               match r, w_managers w !! (bind_host u, bind_port u) with
               | Ok _, Some l =>
                   match first_pn (l_mgr l) with
                   | None => (w, Ok (inl "dongle_offline"%string))
                   | Some p =>
                       let nm := match vget "name" (e_data e) with VStr "" => title | VStr s => s | _ => title end in
                       let nm := if String.eqb nm "" then "EyBond"%string else nm in
                       let reg := put_record (migrated_record p nm device is_pi18 (uri_devaddr u)) [] in
                       let w := with_store (e_id e) (registry_to_dict reg) w in
                       match int_option "update_interval" DEFAULT_UPDATE_INTERVAL (e_options e),
                             int_option "hub_revision" 0 (e_options e) with
                       | Some i, Some v => (w, Ok (inr (migrated_options u i v)))
                       | _, _ => (w, Raise (ValueError "int"))
                       end
                   end
               | Raise x, _ => (w, Raise x)
               | _, None => (w, Raise (KeyError "manager"))
               end
           end
  end.

(** ** The announcer *)

Definition ANNOUNCE_INTERVAL : Z := 5.

(** [_detect_local_ip], on what connecting the datagram socket gives. *)
Definition detect_local_ip (sockname : res string) : string :=
  match sockname with Ok address => address | Raise _ => "127.0.0.1" end.

(** The address [_announce_loop] puts in its payload; [detected] is [_detect_local_ip]. *)
Definition announce_address (detected host : string) (l : listener) : string :=
  match l_announce l with
  | Some a => if String.eqb a "" then (if existsb (String.eqb host) ["0.0.0.0"; ""]%string then detected else host) else a
  | None => if existsb (String.eqb host) ["0.0.0.0"; ""]%string then detected else host
  end.

(** Its broadcast target; [resolve] is [_resolve_broadcast_for_announce_ip]. *)
Definition announce_target (resolve : string -> string) (address : string) (l : listener) : string :=
  if String.eqb (l_broadcast l) DEFAULT_EYBOND_BROADCAST
  then let r := resolve address in
       if negb (String.eqb r "") && negb (String.eqb r DEFAULT_EYBOND_BROADCAST) then r else l_broadcast l
  else l_broadcast l.

Definition announce_payload (address : string) (port : Z) : string :=
  ("set>server=" ++ address ++ ":" ++ str_of_int port ++ ";")%string.

(** One turn of the loop: whether a datagram is sent, and the time of the last. *)
Definition announce_tick (time last : Z) (m : mgr) : mgr * Z * bool :=
  let '(m, on) := should_announce time m in
  if on && (ANNOUNCE_INTERVAL <=? time - last) then (m, time, true) else (m, last, false).

(** ** The discovery sensor: [sensors/eybond_hub_sensor.py] *)

(** The registry of the hub's runtime, when it is up. *)
Definition hub_registry (id : string) (w : world) : option dongles :=
  match w_runtimes w !! id with Some rt => Some (registry_at w (r_ref rt)) | None => None end.

Definition discovered_value (reg : option dongles) : nat :=
  match reg with Some reg => List.length reg | None => 0%nat end.

Definition connected_count (reg : option dongles) : nat :=
  match reg with Some reg => List.length (filter (fun r => is_connected r = true) (all_records reg)) | None => 0%nat end.

(** [_maybe_notify_new] once seeded: the PNs known after it, and the new dongles
    it tells the user about. *)
Definition notify_one (acc : gset string * list string) (r : DongleRecord) : gset string * list string :=
  let '(known, told) := acc in
  if decide (pn r ∈ known) then acc
  else ({[pn r]} ∪ known, if enabled r then told else told ++ [pn r]).

Definition maybe_notify_new (reg : option dongles) (known : gset string) : gset string * list string :=
  match reg with
  | Some reg => fold_left notify_one (all_records reg) (known, [])
  | None => (known, [])
  end.

(** [async_added_to_hass] *)
Definition seed_known (reg : option dongles) : gset string :=
  match reg with Some reg => list_to_set (map pn (all_records reg)) | None => ∅ end.

Fixpoint notify_run (regs : list (option dongles)) (known : gset string) : list string :=
  match regs with
  | [] => []
  | reg :: regs => let '(known, told) := maybe_notify_new reg known in told ++ notify_run regs known
  end.

(** ** Steps *)

(** What happens while every entry is a hub with a listener of its own. *)
Inductive hub_step : world -> world -> Prop :=
| hs_setup time bind_ok refresh e w : is_hub e = true -> w_runtimes w !! e_id e = None ->
    (forall c id rt, hub_listener_config (e_options e) = Some c -> w_runtimes w !! id = Some rt ->
       (r_host rt, r_port rt) <> (c_host c, c_port c)) ->
    hub_step w (fst (setup_entry time bind_ok refresh e w))
| hs_unload e w : is_hub e = true -> hub_step w (unload_entry e w)
| hs_dispatch time bind_ok device w : hub_step w (fst (dispatch time bind_ok device w))
| hs_save force id w : hub_step w (async_save force id w)
| hs_devices id input w w' : step_devices id input w = Some w' -> hub_step w w'
| hs_reconcile id rt c ts w : w_runtimes w !! id = Some rt -> ts = hub_children c (registry_at w (r_ref rt)) ->
    hub_step w (with_children id ts w)
| hs_listener k l m w : w_managers w !! k = Some l -> mstep (view w l) m -> hub_step w (put_mgr k l m w)
| hs_reader pre l post now sid w : w_old w = pre ++ l :: post -> sid ∈ m_running (l_mgr l) ->
    hub_step w (with_reg (l_ref l) (m_registry (close now sid (view w l)))
                  (with_old (pre ++ with_mgr (close now sid (view w l)) l :: post) w)).

Definition hub_reach (stores : gmap string (dict pydict)) : world -> Prop := rtc hub_step (world_init stores).

(** ** The registry is shared: invariant *)

(** A registry object no listener refers to. *)
Definition unused (ref : Z) (w : world) : Prop :=
  ref < w_next w /\ (forall k l, w_managers w !! k = Some l -> l_ref l <> ref)
  /\ (forall l, l ∈ w_old w -> l_ref l <> ref).

Definition runtime_key (rt : runtime) : string * Z := (r_host rt, r_port rt).

Record hub_inv (w : world) : Prop := {
  hi_live : forall id rt, w_runtimes w !! id = Some rt ->
              exists l, w_managers w !! runtime_key rt = Some l /\ l_ref l = r_ref rt;
  hi_keys : forall id id' rt rt', w_runtimes w !! id = Some rt -> w_runtimes w !! id' = Some rt' ->
              runtime_key rt = runtime_key rt' -> id = id';
  hi_inj : forall k k' l l', w_managers w !! k = Some l -> w_managers w !! k' = Some l' -> l_ref l = l_ref l' -> k = k';
  hi_old : forall k l lo, w_managers w !! k = Some l -> lo ∈ w_old w -> l_ref lo <> l_ref l;
  hi_next : forall k l, w_managers w !! k = Some l -> l_ref l < w_next w;
  hi_oldnext : forall l, l ∈ w_old w -> l_ref l < w_next w
}.

(** The invariant looks at neither contents nor stores. *)
Definition same_shape (w w' : world) : Prop :=
  w_next w <= w_next w' /\ w_managers w' = w_managers w /\ w_old w' = w_old w /\ w_runtimes w' = w_runtimes w.

Lemma shape_inv w w' : same_shape w w' -> hub_inv w -> hub_inv w'.
Proof.
  intros (En & Em & Eo & Er) [H1 H2 H3 H4 H5 H6]. split; rewrite ?Em, ?Eo, ?Er; auto.
  - intros k l Hl. specialize (H5 k l Hl). lia.
  - intros l Hl. specialize (H6 l Hl). lia.
Qed.

Lemma new_registry_inv reg w : hub_inv w ->
  hub_inv (fst (new_registry reg w)) /\ unused (snd (new_registry reg w)) (fst (new_registry reg w)).
Proof.
  intros H. split; [apply (shape_inv w); [repeat split; cbn; lia|exact H]|]. destruct H as [_ _ _ _ H5 H6].
  split; [cbn; lia|]. split.
  - intros k l Hl. specialize (H5 k l Hl). cbn. lia.
  - intros l Hl. specialize (H6 l Hl). cbn. lia.
Qed.

(** Replacing a listener: by one on the same registry, or by one on a registry no
    other refers to where no hub is running. *)
Lemma put_inv k l w : hub_inv w ->
  (exists l0, w_managers w !! k = Some l0 /\ l_ref l = l_ref l0)
  \/ unused (l_ref l) w /\ (forall id rt, w_runtimes w !! id = Some rt -> runtime_key rt <> k) ->
  hub_inv (with_managers (<[k := l]> (w_managers w)) w).
Proof.
  intros [H1 H2 H3 H4 H5 H6] Hl. split; cbn; auto.
  - intros id rt Hrt. destruct (decide (runtime_key rt = k)) as [E|Hne].
    + rewrite E, lookup_insert_eq. exists l. split; [reflexivity|].
      destruct Hl as [(l0 & E0 & Er)|[_ Hk]]; [|now destruct (Hk id rt Hrt)].
      destruct (H1 id rt Hrt) as (l1 & E1 & Er1). rewrite E, E0 in E1. congruence.
    + rewrite lookup_insert_ne by congruence. now apply (H1 id).
  - intros a b la lb Ha Hb Er. apply lookup_insert_Some in Ha as [[-> <-]|[Ha' Ha]], Hb as [[-> <-]|[Hb' Hb]];
      [reflexivity|..|now apply (H3 a b la lb)].
    + destruct Hl as [(l0 & E0 & E)|[(_ & Hu & _) _]]; [apply (H3 a b l0 lb); congruence|]. now destruct (Hu b lb Hb).
    + destruct Hl as [(l0 & E0 & E)|[(_ & Hu & _) _]]; [apply (H3 a b la l0); congruence|]. now destruct (Hu a la Ha).
  - intros a la lo Ha Hlo. apply lookup_insert_Some in Ha as [[-> <-]|[_ Ha]]; [|now apply (H4 a)].
    destruct Hl as [(l0 & E0 & E)|[(_ & _ & Hu) _]]; [rewrite E; now apply (H4 a)|now apply Hu].
  - intros a la Ha. apply lookup_insert_Some in Ha as [[-> <-]|[_ Ha]]; [|now apply (H5 a)].
    destruct Hl as [(l0 & E0 & E)|[(Hu & _) _]]; [rewrite E; now apply (H5 a)|exact Hu].
Qed.

Lemma put_unused ref k l w : unused ref w -> l_ref l <> ref ->
  unused ref (with_managers (<[k := l]> (w_managers w)) w).
Proof.
  intros (H1 & H2 & H3) Hl. split; [exact H1|]. split; [|exact H3]. cbn. intros a la Ha.
  apply lookup_insert_Some in Ha as [[-> <-]|[_ Ha]]; [exact Hl|]. now apply (H2 a).
Qed.

Lemma update_listener_ref bc ann l : l_ref (update_listener bc ann l) = l_ref l.
Proof. unfold update_listener. now destruct (bool_decide _). Qed.

Lemma ensure_started_ref t b l : l_ref (fst (ensure_started t b l)) = l_ref l.
Proof. unfold ensure_started. now destruct (l_server l), (t <? l_bind_failed_until l), b. Qed.

(** What [_get_manager] leaves: the listener of that address, on the registry it
    had or on a new one. *)
Definition manager_base (k : string * Z) (w : world) : world :=
  match w_managers w !! k with Some _ => w | None => fst (new_registry [] w) end.

Lemma get_manager_eq t b host port bc ann w : exists l,
  fst (get_manager t b host port bc ann w)
  = (let w0 := manager_base (host, port) w in with_managers (<[(host, port) := l]> (w_managers w0)) w0)
  /\ match w_managers w !! (host, port) with
     | Some l0 => l_ref l = l_ref l0
     | None => l_ref l = w_next w
     end.
Proof.
  unfold get_manager, manager_base. destruct (w_managers w !! (host, port)) as [l0|].
  - destruct (ensure_started t b _) as [l r] eqn:E. exists l. split; [reflexivity|].
    rewrite <- (update_listener_ref bc ann l0), <- (ensure_started_ref t b (update_listener bc ann l0)), E. reflexivity.
  - unfold new_registry. destruct (ensure_started t b _) as [l r] eqn:E. exists l. split; [reflexivity|].
    change (w_next w) with (l_ref (new_listener bc ann (w_next w))).
    rewrite <- (ensure_started_ref t b (new_listener bc ann (w_next w))), E. reflexivity.
Qed.

Lemma manager_base_shape k w : same_shape w (manager_base k w).
Proof. unfold manager_base. destruct (w_managers w !! k); repeat split; cbn; lia. Qed.

Lemma get_manager_inv t b host port bc ann w : hub_inv w ->
  hub_inv (fst (get_manager t b host port bc ann w))
  /\ (forall ref, unused ref w -> unused ref (fst (get_manager t b host port bc ann w))).
Proof.
  intros H. destruct (get_manager_eq t b host port bc ann w) as (l & -> & Hl). cbv zeta.
  pose proof (shape_inv _ _ (manager_base_shape (host, port) w) H) as H0.
  destruct (manager_base_shape (host, port) w) as (En & Em & Eo & Er). unfold manager_base in *.
  destruct (w_managers w !! (host, port)) as [l0|] eqn:E.
  - split; [apply put_inv; [exact H0|]; left; now exists l0|]. intros ref Hu. apply put_unused; [exact Hu|].
    rewrite Hl. now apply (proj1 (proj2 Hu) (host, port)).
  - destruct (new_registry_inv [] w H) as [_ Hu]. split.
    + apply put_inv; [exact H0|]. right. rewrite Hl. split; [exact Hu|]. intros id rt Hrt Hk.
      destruct (hi_live w H id rt Hrt) as (l1 & E1 & _). congruence.
    + intros ref (U1 & U2 & U3). apply put_unused; [|lia]. split; [cbn; lia|now split].
Qed.

Lemma get_eybond_inv t b host port bc ann ref w : hub_inv w ->
  (forall r, ref = Some r -> unused r w /\ forall id rt, w_runtimes w !! id = Some rt -> runtime_key rt <> (host, port)) ->
  hub_inv (fst (get_eybond_manager t b host port bc ann ref w)).
Proof.
  intros H Hr. unfold get_eybond_manager. destruct (get_manager_inv t b host port bc ann w H) as [H1 H2].
  destruct (get_manager_eq t b host port bc ann w) as (l0 & E0 & _).
  destruct (get_manager t b host port bc ann w) as [w1 r] eqn:E. cbn [fst] in *.
  destruct r as [[]|x]; [|exact H1]. destruct ref as [ref|]; [|exact H1].
  destruct (w_managers w1 !! (host, port)) as [l|]; [|exact H1].
  destruct (registry_at w1 (l_ref l)); [|exact H1]. cbn [fst]. destruct (Hr ref eq_refl) as [Hu Hk].
  apply put_inv; [exact H1|]. right. split; [now apply H2|]. subst w1. cbn.
  destruct (manager_base_shape (host, port) w) as (_ & _ & _ & ->). exact Hk.
Qed.

Lemma get_eybond_runtimes t b host port bc ann ref w :
  w_runtimes (fst (get_eybond_manager t b host port bc ann ref w)) = w_runtimes w
  /\ w_stores (fst (get_eybond_manager t b host port bc ann ref w)) = w_stores w.
Proof.
  unfold get_eybond_manager. destruct (get_manager_eq t b host port bc ann w) as (l0 & E0 & _).
  assert (w_runtimes (fst (get_manager t b host port bc ann w)) = w_runtimes w
    /\ w_stores (fst (get_manager t b host port bc ann w)) = w_stores w) as H.
  { rewrite E0. unfold manager_base. now destruct (w_managers w !! (host, port)). }
  destruct (get_manager t b host port bc ann w) as [w1 [[]|x]]; [|exact H]. destruct ref; [|exact H].
  destruct (w_managers w1 !! (host, port)) as [l|]; [|exact H]. now destruct (registry_at w1 (l_ref l)).
Qed.

Lemma add_runtime_inv id rt w : hub_inv w ->
  (exists l, w_managers w !! runtime_key rt = Some l /\ l_ref l = r_ref rt) ->
  (forall id' rt', id' <> id -> w_runtimes w !! id' = Some rt' -> runtime_key rt' <> runtime_key rt) ->
  hub_inv (with_runtimes (<[id := rt]> (w_runtimes w)) w).
Proof.
  intros [H1 H2 H3 H4 H5 H6] Hl Hk. split; cbn; auto.
  - intros i r Hi. apply lookup_insert_Some in Hi as [[-> <-]|[_ Hi]]; [exact Hl|now apply (H1 i)].
  - intros i i' r r' Hi Hi' E. apply lookup_insert_Some in Hi as [[-> <-]|[Hn Hi]], Hi' as [[-> <-]|[Hn' Hi']];
      [reflexivity|..|now apply (H2 i i' r r')].
    + exfalso. apply (Hk i' r'); [congruence|exact Hi'|congruence].
    + exfalso. apply (Hk i r); [congruence|exact Hi|congruence].
Qed.

Lemma del_runtime_inv id w : hub_inv w -> hub_inv (with_runtimes (delete id (w_runtimes w)) w).
Proof.
  intros [H1 H2 H3 H4 H5 H6]. split; cbn; auto.
  - intros i r Hi. apply lookup_delete_Some in Hi as [_ Hi]. now apply (H1 i).
  - intros i i' r r' Hi Hi'. apply lookup_delete_Some in Hi as [_ Hi], Hi' as [_ Hi']. now apply H2.
Qed.

Lemma shutdown_manager_inv host port w : hub_inv w ->
  (forall id rt, w_runtimes w !! id = Some rt -> runtime_key rt <> (host, port)) ->
  hub_inv (shutdown_eybond_manager host port w).
Proof.
  intros [H1 H2 H3 H4 H5 H6] Hk. unfold shutdown_eybond_manager.
  destruct (w_managers w !! (host, port)) as [l|] eqn:E; [|now split]. split; cbn; auto.
  - intros id rt Hrt. rewrite lookup_delete_ne by (symmetry; now apply (Hk id)). now apply (H1 id).
  - intros k k' a a' Ha Ha'. apply lookup_delete_Some in Ha as [_ Ha], Ha' as [_ Ha']. now apply H3.
  - intros k a lo Ha Hlo. apply lookup_delete_Some in Ha as [Hn Ha].
    apply elem_of_cons in Hlo as [->|Hlo]; [|now apply (H4 k)]. cbn. intros Er. apply Hn. now apply (H3 (host, port) k l a).
  - intros k a Ha. apply lookup_delete_Some in Ha as [_ Ha]. now apply (H5 k).
  - intros lo Hlo. apply elem_of_cons in Hlo as [->|Hlo]; [|now apply H6]. cbn. now apply (H5 (host, port)).
Qed.

Lemma stop_runtime_inv id rt w : hub_inv w -> w_runtimes w !! id = Some rt ->
  hub_inv (stop_runtime id rt (with_runtimes (delete id (w_runtimes w)) w)).
Proof.
  intros H Hrt. unfold stop_runtime. apply shutdown_manager_inv.
  - apply (shape_inv (with_runtimes (delete id (w_runtimes w)) w)); [repeat split; cbn; lia|now apply del_runtime_inv].
  - cbn. intros i r Hi E. apply lookup_delete_Some in Hi as [Hn Hi]. apply Hn.
    exact (hi_keys w H id i rt r Hrt Hi (eq_sym E)).
Qed.

Lemma unload_hub_inv id w : hub_inv w -> hub_inv (unload_hub id w).
Proof. intros H. unfold unload_hub. destruct (w_runtimes w !! id) eqn:E; [now apply stop_runtime_inv|exact H]. Qed.

Lemma setup_hub_inv t b rf e w : hub_inv w -> w_runtimes w !! e_id e = None ->
  (forall c id rt, hub_listener_config (e_options e) = Some c -> w_runtimes w !! id = Some rt ->
       (r_host rt, r_port rt) <> (c_host c, c_port c)) ->
  hub_inv (fst (setup_hub t b rf e w)).
Proof.
  intros H Hn Hk. unfold setup_hub. destruct (hub_listener_config _) as [c|]; [|exact H].
  destruct (load_registry _) as [stored|]; [|exact H].
  destruct (new_registry_inv (reset_connection_state stored) w H) as [H0 Hu].
  destruct (new_registry _ w) as [w0 ref] eqn:E0. cbn [fst snd] in H0, Hu.
  assert (w_runtimes w0 = w_runtimes w) as Er by (unfold new_registry in E0; injection E0 as <- _; reflexivity).
  assert (forall id rt, w_runtimes w0 !! id = Some rt -> runtime_key rt <> (c_host c, c_port c)) as Hk0
    by (intros id rt Hrt; rewrite Er in Hrt; now apply (Hk c id)).
  pose proof (get_eybond_inv t b (c_host c) (c_port c) (c_broadcast c) (EybondHub.c_announce c) (Some ref) w0 H0) as H1.
  pose proof (get_eybond_runtimes t b (c_host c) (c_port c) (c_broadcast c) (EybondHub.c_announce c) (Some ref) w0) as [R1 _].
  destruct (get_eybond_manager _ _ _ _ _ _ _ w0) as [w1 r]. cbn [fst] in H1, R1.
  assert (hub_inv w1) as H2 by (apply H1; intros r' [= <-]; now split).
  destruct r as [[]|x]; [|exact H2]. destruct (w_managers w1 !! _) as [l|] eqn:El; [|exact H2].
  destruct rf as [[]|x]; [|exact H2]. cbn [fst].
  set (rt := {| r_ref := _ |}). apply (shape_inv (with_runtimes (<[e_id e := rt]> (w_runtimes w1)) w1)); [repeat split; cbn; lia|].
  apply add_runtime_inv; [exact H2|now exists l|]. intros id' rt' _ Hrt'. apply (Hk0 id'). now rewrite <- R1.
Qed.

Lemma save_inv force id w : hub_inv w -> hub_inv (async_save force id w).
Proof.
  intros H. unfold async_save. destruct (w_runtimes w !! id) as [rt|] eqn:E; [|exact H].
  destruct (force || _); [|exact H]. set (snap := registry_at w (r_ref rt)). set (rt' := {| r_ref := _ |}).
  assert (hub_inv (with_store id (registry_to_dict snap) w)) as H' by (apply (shape_inv w); [repeat split; cbn; lia|exact H]).
  apply (shape_inv (with_runtimes (<[id := rt']> (w_runtimes w)) (with_store id (registry_to_dict snap) w))); [repeat split; cbn; lia|].
  apply (add_runtime_inv id rt' (with_store id (registry_to_dict snap) w)); [exact H'| |].
  - exact (hi_live w H id rt E).
  - cbn. intros i r Hn Hi Ek. apply Hn. exact (hi_keys w H i id r rt Hi E Ek).
Qed.

Lemma hub_step_inv w w' : hub_step w w' -> hub_inv w -> hub_inv w'.
Proof.
  intros Hs H. destruct Hs as [t b rf e w Hh Hn Hk|e w Hh|t b d w|force id w|id input w w' Hd|id rt c ts w Hrt Hts|k l m w Hl Hm|pre l post now sid w Ho Hin].
  - unfold setup_entry. rewrite Hh. now apply setup_hub_inv.
  - unfold unload_entry. rewrite Hh. now apply unload_hub_inv.
  - unfold dispatch. destruct (parse_eybond_uri d); [|exact H]. now apply get_manager_inv.
  - now apply save_inv.
  - unfold step_devices in Hd. destruct (w_runtimes w !! id); [|discriminate]. destruct (registry_at w _); [discriminate|].
    unfold obind in Hd. destruct (apply_device_bulk _ _ _); [|discriminate]. injection Hd as <-. apply save_inv.
    apply (shape_inv w); [repeat split; cbn; lia|exact H].
  - apply (shape_inv w); [repeat split; cbn; lia|exact H].
  - unfold put_mgr. set (w1 := with_managers _ w). apply (shape_inv w1); [repeat split; cbn; lia|].
    apply put_inv; [exact H|]. left. now exists l.
  - set (l' := with_mgr _ l). apply (shape_inv (with_old (pre ++ l' :: post) w)); [repeat split; cbn; lia|].
    assert (forall lo, lo ∈ pre ++ l' :: post -> exists lo', lo' ∈ w_old w /\ l_ref lo' = l_ref lo) as Hm.
    { intros lo Hlo. rewrite Ho. apply elem_of_app in Hlo as [Hlo|Hlo]; [exists lo; split; [apply elem_of_app; now left|reflexivity]|].
      apply elem_of_cons in Hlo as [->|Hlo]; [exists l|exists lo]; (split; [apply elem_of_app; right; apply elem_of_cons; auto|reflexivity]). }
    destruct H as [H1 H2 H3 H4 H5 H6]. split; cbn; auto.
    + intros k a lo Ha Hlo. destruct (Hm lo Hlo) as (lo' & Hlo' & <-). now apply (H4 k).
    + intros lo Hlo. destruct (Hm lo Hlo) as (lo' & Hlo' & <-). now apply H6.
Qed.

Lemma world_init_inv stores : hub_inv (world_init stores).
Proof.
  split; cbn.
  - intros id rt. now rewrite lookup_empty.
  - intros id id' rt rt'. now rewrite lookup_empty.
  - intros k k' l l'. now rewrite lookup_empty.
  - intros k l lo. now rewrite lookup_empty.
  - intros k l. now rewrite lookup_empty.
  - intros l Hl. now apply elem_of_nil in Hl.
Qed.

Lemma hub_reach_inv stores w : hub_reach stores w -> hub_inv w.
Proof.
  unfold hub_reach. intros H. assert (hub_inv (world_init stores) -> hub_inv w) as Hi.
  { induction H as [w|w1 w2 w3 Hs _ IH]; [auto|]. intros Hw. apply IH. now apply (hub_step_inv w1). }
  apply Hi, world_init_inv.
Qed.

(** ** Registry contents *)

(** The targets depend on the configuration alone. *)
Lemma hub_children_reset c reg : hub_children c (reset_connection_state reg) = hub_children c reg.
Proof.
  unfold hub_children, build_child_targets, all_records, dvalues, reset_connection_state.
  induction reg as [|[p r] reg IH]; [reflexivity|]. cbn [map fst snd List.filter].
  change (is_pollable (with_live r DISCONNECTED "" (last_seen r))) with (is_pollable r).
  destruct (is_pollable r); cbn [map]; now rewrite IH.
Qed.

Lemma reg_of_put ref reg w ref' : registry_at (with_reg ref reg w) ref' = if decide (ref' = ref) then reg else registry_at w ref'.
Proof.
  unfold registry_at. cbn. destruct (decide (ref' = ref)) as [->|Hne]; [now rewrite lookup_insert_eq|].
  now rewrite lookup_insert_ne by congruence.
Qed.

Lemma reg_of_new reg w ref : ref < w_next w -> registry_at (fst (new_registry reg w)) ref = registry_at w ref.
Proof. intros H. unfold registry_at. cbn. now rewrite lookup_insert_ne by lia. Qed.

(** ** Restart *)

(** The address is free, or taken by a listener that never got its socket. *)
Definition vacant (time : Z) (k : string * Z) (w : world) : Prop :=
  match w_managers w !! k with
  | None => True
  | Some l => registry_at w (l_ref l) = [] /\ l_server l = false /\ l_mgr l = mgr_init [] /\ l_bind_failed_until l <= time
  end.

(** What [ensure_started] makes of such a listener. *)
Lemma update_listener_idle bc ann l : let l' := update_listener bc ann l in
  l_mgr l' = l_mgr l /\ l_server l' = l_server l /\ l_bind_failed_until l' = l_bind_failed_until l.
Proof. unfold update_listener. now destruct (bool_decide _). Qed.

Lemma get_eybond_fresh t host port bc ann ref reg w : hub_inv w -> unused ref w -> w_regs w !! ref = Some reg ->
  vacant t (host, port) w -> 0 <= t ->
  exists w' l, get_eybond_manager t true host port bc ann (Some ref) w = (w', Ok tt)
  /\ w_managers w' !! (host, port) = Some l /\ l_ref l = ref /\ registry_at w' ref = reg
  /\ l_server l = true /\ l_announcing l = true /\ l_mgr l = mgr_init [].
Proof.
  intros Hi (U1 & U2 & U3) Hreg Hv Ht. unfold get_eybond_manager, get_manager, vacant in *.
  destruct (w_managers w !! (host, port)) as [l0|] eqn:E.
  - destruct Hv as (Hr & Hs & Hm & Hb). destruct (update_listener_idle bc ann l0) as (Em & Es & Eb).
    pose proof (update_listener_ref bc ann l0) as Er. set (l1 := update_listener bc ann l0) in *.
    unfold ensure_started. rewrite Es, Hs, Eb. replace (t <? l_bind_failed_until l0) with false by lia.
    cbn [w_managers with_managers]. rewrite lookup_insert_eq. cbn [l_ref]. rewrite Er.
    change (registry_at (with_managers _ w) (l_ref l0)) with (registry_at w (l_ref l0)). rewrite Hr.
    do 2 eexists. split; [reflexivity|]. cbn. rewrite lookup_insert_eq. split; [reflexivity|].
    unfold registry_at. cbn. rewrite Hreg. now rewrite Em, Hm.
  - unfold new_registry, ensure_started. cbn [new_listener l_server l_bind_failed_until].
    replace (t <? 0) with false by lia. cbn [w_managers with_managers]. rewrite lookup_insert_eq. cbn [l_ref l_mgr].
    unfold registry_at at 1. cbn [w_regs with_managers]. rewrite lookup_insert_eq.
    do 2 eexists. split; [reflexivity|]. cbn. rewrite lookup_insert_eq. split; [reflexivity|].
    unfold registry_at. cbn. rewrite lookup_insert_ne by lia. now rewrite Hreg.
Qed.

Lemma get_eybond_blocked t t' host port bc ann ref w : hub_inv w -> vacant t (host, port) w ->
  0 <= t -> t' + BIND_FAILURE_BACKOFF <= t ->
  exists w' x, get_eybond_manager t' false host port bc ann ref w = (w', Raise x) /\ vacant t (host, port) w'.
Proof.
  intros Hi Hv H0 Ht. unfold get_eybond_manager, get_manager, vacant, BIND_FAILURE_BACKOFF in *.
  destruct (w_managers w !! (host, port)) as [l0|] eqn:E.
  - destruct Hv as (Hr & Hs & Hm & Hb). destruct (update_listener_idle bc ann l0) as (Em & Es & Eb).
    pose proof (update_listener_ref bc ann l0) as Er. set (l1 := update_listener bc ann l0) in *.
    unfold ensure_started. rewrite Es, Hs. destruct (t' <? l_bind_failed_until l1);
      (do 2 eexists; split; [reflexivity|]); cbn; rewrite lookup_insert_eq; cbn; rewrite ?Er, ?Em, ?Hm, ?Es, ?Eb, ?Hs;
      unfold registry_at, BIND_FAILURE_BACKOFF in *; cbn; rewrite Hr; repeat split; lia.
  - unfold new_registry, ensure_started. cbn [new_listener l_server l_bind_failed_until].
    destruct (t' <? 0); (do 2 eexists; split; [reflexivity|]); cbn; rewrite lookup_insert_eq; cbn;
      unfold registry_at; cbn; rewrite lookup_insert_eq; unfold BIND_FAILURE_BACKOFF; repeat split; lia.
Qed.

(** Set-ups of [e] at given times, each failing to bind. *)
Definition failed_setups (times : list Z) (e : config_entry) (w : world) : world :=
  fold_left (fun w t => fst (setup_entry t false (Ok tt) e w)) times w.

(** [e] is down with its records stored. *)
Record stopped (time : Z) (e : config_entry) (c : listener_config) (reg : dongles) (w : world) : Prop := {
  sp_inv : hub_inv w;
  sp_down : w_runtimes w !! e_id e = None;
  sp_free : forall id rt, w_runtimes w !! id = Some rt -> runtime_key rt <> (c_host c, c_port c);
  sp_store : load_registry (w_stores w !! e_id e) = Some reg;
  sp_vacant : vacant time (c_host c, c_port c) w
}.

Lemma unload_stopped t e c rt w : hub_inv w -> is_hub e = true -> w_runtimes w !! e_id e = Some rt ->
  runtime_key rt = (c_host c, c_port c) -> stopped t e c (registry_at w (r_ref rt)) (unload_entry e w).
Proof.
  intros Hi He Hrt Hk. pose proof (unload_hub_inv (e_id e) w Hi) as Hi'. unfold unload_entry in *. rewrite He.
  unfold unload_hub in *. rewrite Hrt in *. injection Hk as Hh Hp. unfold stop_runtime, shutdown_eybond_manager in *.
  cbn [w_managers with_store with_runtimes] in *. destruct (hi_live w Hi _ _ Hrt) as (l & El & _).
  unfold runtime_key in El. rewrite El in *. split; [exact Hi'| | | |].
  - cbn. apply lookup_delete_eq.
  - cbn. intros id r Hr E. apply lookup_delete_Some in Hr as [Hn Hr]. apply Hn.
    apply (hi_keys w Hi _ _ rt r Hrt Hr). unfold runtime_key in *. congruence.
  - cbn. rewrite lookup_insert_eq. apply registry_load_to.
  - unfold vacant. cbn. rewrite Hh, Hp, lookup_delete_eq. exact I.
Qed.

(** How a set-up of a stopped entry begins. *)
Lemma setup_stopped t t0 b e c reg w : stopped t e c reg w -> hub_listener_config (e_options e) = Some c -> is_hub e = true ->
  exists w0 ref, new_registry (reset_connection_state reg) w = (w0, ref)
  /\ hub_inv w0 /\ unused ref w0 /\ w_regs w0 !! ref = Some (reset_connection_state reg)
  /\ w_runtimes w0 = w_runtimes w /\ w_stores w0 = w_stores w /\ (forall t', vacant t' (c_host c, c_port c) w -> vacant t' (c_host c, c_port c) w0)
  /\ forall rf, setup_entry t0 b rf e w
     = (let '(w, r) := get_eybond_manager t0 b (c_host c) (c_port c) (c_broadcast c) (EybondHub.c_announce c) (Some ref) w0 in
        match r, w_managers w !! (c_host c, c_port c) with
        | Ok _, Some l =>
            match rf with
            | Ok _ => let rt := {| r_ref := l_ref l; r_host := c_host c; r_port := c_port c; r_last_saved := registry_at w (l_ref l) |} in
                (with_children (e_id e) (hub_children c (registry_at w (l_ref l))) (with_runtimes (<[e_id e := rt]> (w_runtimes w)) w), Ok tt)
            | Raise x => (w, Raise x)
            end
        | Raise x, _ => (w, Raise x)
        | _, None => (w, Raise (KeyError "manager"))
        end).
Proof.
  intros [S1 S2 S3 S4 S5] Hc He. unfold setup_entry. rewrite He. unfold setup_hub.
  rewrite Hc, S4. destruct (new_registry_inv (reset_connection_state reg) w S1) as [H0 Hu].
  exists (fst (new_registry (reset_connection_state reg) w)), (w_next w).
  split; [reflexivity|]. split; [exact H0|]. split; [exact Hu|].
  split; [cbn; apply lookup_insert_eq|]. split; [reflexivity|]. split; [reflexivity|]. split; [|reflexivity].
  intros t'. unfold vacant. cbn [w_managers new_registry fst]. destruct (w_managers w !! _) as [l|] eqn:E; [|auto].
  intros (H & H'). split; [|exact H']. rewrite <- H. exact (reg_of_new _ w (l_ref l) (hi_next w S1 _ _ E)).
Qed.

Lemma failed_stopped t t' e c reg w : stopped t e c reg w -> hub_listener_config (e_options e) = Some c -> is_hub e = true ->
  0 <= t -> t' + BIND_FAILURE_BACKOFF <= t -> stopped t e c reg (fst (setup_entry t' false (Ok tt) e w)).
Proof.
  intros Hs Hc He H0 Ht. pose proof Hs as [S1 S2 S3 S4 S5].
  assert (hub_inv (fst (setup_entry t' false (Ok tt) e w))) as Hi.
  { unfold setup_entry. rewrite He. apply setup_hub_inv; auto. intros c' id rt Hc' Hrt. rewrite Hc in Hc'.
    injection Hc' as <-. now apply (S3 id). }
  destruct (setup_stopped t t' false e c reg w Hs Hc He) as (w0 & ref & _ & I0 & U0 & _ & R0 & T0 & V0 & Es).
  rewrite Es in *. destruct (get_eybond_blocked t t' (c_host c) (c_port c) (c_broadcast c) (EybondHub.c_announce c) (Some ref) w0
    I0 (V0 t S5) H0 Ht) as (w1 & x & E1 & V1).
  destruct (get_eybond_runtimes t' false (c_host c) (c_port c) (c_broadcast c) (EybondHub.c_announce c) (Some ref) w0) as [R1 T1].
  rewrite E1 in *. cbn [fst] in *. split; [exact Hi| | | |exact V1]; rewrite ?R1, ?T1, ?R0, ?T0; auto.
Qed.

Lemma failed_setups_stopped t e c reg times : forall w, stopped t e c reg w -> hub_listener_config (e_options e) = Some c ->
  is_hub e = true -> 0 <= t -> Forall (fun t' => t' + BIND_FAILURE_BACKOFF <= t) times ->
  stopped t e c reg (failed_setups times e w).
Proof.
  induction times as [|t' times IH]; intros w Hs Hc He H0 Ht; [exact Hs|]. inversion Ht; subst.
  apply IH; auto. now apply (failed_stopped t t' e c).
Qed.

Lemma started_setup t e c reg w : stopped t e c reg w -> hub_listener_config (e_options e) = Some c -> is_hub e = true -> 0 <= t ->
  exists w' l, setup_entry t true (Ok tt) e w = (w', Ok tt)
  /\ hub_registry (e_id e) w' = Some (reset_connection_state reg)
  /\ w_children w' !! e_id e = Some (hub_children c reg)
  /\ w_managers w' !! (c_host c, c_port c) = Some l /\ l_server l = true /\ l_announcing l = true
  /\ l_mgr l = mgr_init []
  /\ w_stores w' = w_stores w
  /\ exists rt, w_runtimes w' !! e_id e = Some rt /\ r_last_saved rt = reset_connection_state reg
       /\ runtime_key rt = (c_host c, c_port c).
Proof.
  intros Hs Hc He H0. destruct (setup_stopped t t true e c reg w Hs Hc He) as (w0 & ref & _ & I0 & U0 & G0 & R0 & T0 & V0 & Es).
  destruct (get_eybond_fresh t (c_host c) (c_port c) (c_broadcast c) (EybondHub.c_announce c) ref _ w0 I0 U0 G0
    (V0 t (sp_vacant _ _ _ _ _ Hs)) H0) as (w1 & l & E1 & El & Er & Eg & A1 & A2 & A3).
  rewrite Es, E1. cbv beta iota zeta. rewrite El, Er, Eg. do 2 eexists. split; [reflexivity|].
  destruct (get_eybond_runtimes t true (c_host c) (c_port c) (c_broadcast c) (EybondHub.c_announce c) (Some ref) w0) as [_ T1].
  rewrite E1 in T1. cbn [fst] in T1.
  split; [|split; [|split; [exact El|split; [exact A1|split; [exact A2|split; [exact A3|split]]]]]].
  - unfold hub_registry. cbn. rewrite lookup_insert_eq. cbn. f_equal. exact Eg.
  - cbn. rewrite lookup_insert_eq. now rewrite hub_children_reset.
  - cbn. congruence.
  - eexists. cbn. rewrite lookup_insert_eq. split; [reflexivity|split; reflexivity].
Qed.

(** A hub entry as its flow saves it listens where the form says. *)
Lemma hub_flow_listens input opts id data : step_hub input = Some (inr opts) ->
  let e := {| e_id := id; e_data := data; e_options := opts |} in
  is_hub e = true
  /\ exists host port bc ann, text_or "host" "0.0.0.0" input = Some host
     /\ int_or "port" DEFAULT_EYBOND_BIND_PORT input = Some port
     /\ text_or "eybond_broadcast" DEFAULT_EYBOND_BROADCAST input = Some bc
     /\ text_or "eybond_announce_ip" "" input = Some ann
     /\ hub_listener_config opts = Some {| c_host := host; c_port := port; c_broadcast := bc;
          c_announce := nonempty (strip ann) |}.
Proof.
  unfold step_hub, listener_fields. destruct (text_field "name" input) as [nm|]; [|discriminate]. cbn [obind].
  destruct (String.eqb nm ""); [discriminate|].
  destruct (text_or "host" _ input) as [host|]; [|discriminate]. cbn [obind].
  destruct (int_or "port" _ input) as [port|] eqn:Ep; [|discriminate]. cbn [obind].
  destruct (text_or "eybond_broadcast" _ input) as [bc|]; [|discriminate]. cbn [obind].
  destruct (text_or "eybond_announce_ip" _ input) as [ann|]; [|discriminate]. cbn [obind].
  destruct (int_option _ _ input) as [i|]; [|discriminate]. cbn [obind]. intros [= <-]. split; [reflexivity|].
  exists host, port, bc, ann. repeat (split; [reflexivity || exact Ep|]). reflexivity.
Qed.

(** ** Properties *)

(** C13: while hub entries have listeners of their own, and whatever
    else happens (set-ups that fail, polls, saves, edits, dongles, readers of old
    listeners still ending), the registry a running hub shows, saves and polls is
    the very one its listener fills: what a session of that listener records is
    there at once, and no other listener, current or shut down, can touch it. *)
Theorem hub_registry_shared (stores : gmap string (dict pydict)) (w : world) (id : string) (rt : runtime)
    (Hr : hub_reach stores w) (Hrt : w_runtimes w !! id = Some rt) :
  exists l, w_managers w !! runtime_key rt = Some l
  /\ hub_registry id w = Some (m_registry (view w l))
  /\ (forall m, hub_registry id (put_mgr (runtime_key rt) l m w) = Some (m_registry m))
  /\ (forall k l' m, k <> runtime_key rt -> w_managers w !! k = Some l' ->
        hub_registry id (put_mgr k l' m w) = hub_registry id w)
  /\ (forall lo reg, lo ∈ w_old w -> hub_registry id (with_reg (l_ref lo) reg w) = hub_registry id w).
Proof.
  pose proof (hub_reach_inv stores w Hr) as [H1 H2 H3 H4 H5 H6]. destruct (H1 id rt Hrt) as (l & El & Er).
  exists l. split; [exact El|]. unfold hub_registry, put_mgr. cbn [w_runtimes with_reg with_managers]. rewrite Hrt, <- Er.
  split; [reflexivity|]. split; [|split].
  - intros m. now rewrite reg_of_put, decide_True by reflexivity.
  - intros k l' m Hk El'. rewrite reg_of_put, decide_False; [reflexivity|]. intros E. apply Hk. symmetry. now apply (H3 _ _ l l').
  - intros lo reg Hlo. rewrite reg_of_put, decide_False; [reflexivity|]. intros E. now apply (H4 _ l lo El Hlo).
Qed.

(** C15: a hub that is unloaded and set up again, after any number of
    set-ups whose port was still taken, comes back with every dongle record it
    had, configuration and times included, all shown as disconnected, polls
    exactly the children it polled, and its listener runs with no session. *)
Theorem hub_restart (stores : gmap string (dict pydict)) (w : world) (e : config_entry) (rt : runtime) (c : listener_config)
    (times : list Z) (t : Z)
    (Hr : hub_reach stores w) (He : is_hub e = true) (Hrt : w_runtimes w !! e_id e = Some rt)
    (Hc : hub_listener_config (e_options e) = Some c) (Hk : runtime_key rt = (c_host c, c_port c))
    (Ht : 0 <= t) (Htimes : Forall (fun t' => t' + BIND_FAILURE_BACKOFF <= t) times) :
  let reg := registry_at w (r_ref rt) in
  exists w' l, setup_entry t true (Ok tt) e (failed_setups times e (unload_entry e w)) = (w', Ok tt)
  /\ hub_registry (e_id e) w' = Some (reset_connection_state reg)
  /\ w_children w' !! e_id e = Some (hub_children c reg)
  /\ w_managers w' !! (c_host c, c_port c) = Some l /\ l_server l = true /\ l_announcing l = true
  /\ l_mgr l = mgr_init [].
Proof.
  intros reg. destruct (started_setup t e c reg (failed_setups times e (unload_entry e w)))
    as (w' & l & E1 & E2 & E3 & E4 & E5 & E6 & E7 & _); auto; [|now exists w', l].
  apply failed_setups_stopped; auto. apply unload_stopped; auto. now apply (hub_reach_inv stores).
Qed.

(** ** A registry only its sessions fill *)

Definition unconfigured (reg : dongles) : Prop := Forall (fun kv => enabled (snd kv) = false) reg.

Lemma unconfigured_dset p r reg : unconfigured reg -> enabled r = false -> unconfigured (dset p r reg).
Proof.
  intros H Hr. induction H as [|[q s] reg Hs H IH]; cbn; [now repeat constructor|].
  destruct (String.eqb p q); constructor; auto.
Qed.

Lemma unconfigured_get p r reg : unconfigured reg -> dget p reg = Some r -> enabled r = false.
Proof.
  intros H Hp. apply dget_some_in in Hp. unfold unconfigured in H. rewrite Forall_forall in H.
  apply (H (p, r)). now apply list_elem_of_In.
Qed.

Lemma unconfigured_live e reg : unconfigured reg -> unconfigured (live reg e).
Proof.
  intros H. destruct e as [now p peer'|now p]; cbn; unfold record_seen, mark_disconnected;
    destruct (dget p reg) as [r|] eqn:E; try exact H; apply unconfigured_dset; try exact H; try reflexivity;
    exact (unconfigured_get p r reg H E).
Qed.

(** A session step changes the registry by the events of one dongle, or not at all. *)
Lemma mstep_registry m m' : mstep m m' ->
  m_registry m' = m_registry m \/ exists e, m_registry m' = live (m_registry m) e.
Proof.
  intros [peer a|now sid h payload a Hin|now sid a Hin|sid a|sid addr f s a Ho Hl|sid a|sid a|sid a|a|p a|t d a]; auto.
  - unfold on_frame. destruct (m_objs a !! sid) as [s|]; [|auto]. destruct (_ =? FC_HEARTBEAT).
    + unfold on_heartbeat. destruct (negb _ && _).
      * right. exists (Seen now (heartbeat_pn payload) (s_peer s)). unfold identify. cbn.
        destruct (m_by_pn _ !! _) as [old|]; [destruct (decide _)|]; try reflexivity. now rewrite (proj1 (proj2 (drop_running old _ _))).
      * destruct (negb _); [|auto]. right. now exists (Seen now (s_pn s) (s_peer s)).
    + destruct (_ =? FC_FORWARD2DEVICE); [|auto]. unfold on_forward. destruct (s_pending s !! _); auto.
  - unfold close. destruct (negb _ && _); cbn; [right|left].
    + exists (Lost now (match m_objs a !! sid with Some s => s_pn s | None => "" end)). cbn.
      now rewrite (proj1 (proj2 (drop_running sid _ _))).
    + apply drop_running.
  - unfold heartbeat_tick. destruct (m_objs a !! sid); auto.
  - unfold send_start. rewrite Ho. destruct (build_forward2device _ _ _ _); auto.
  - unfold send_end. destruct (m_objs a !! sid) as [s|]; [|auto]. destruct (s_lock s) as [[req tid]|]; [|auto].
    destruct (answered req a); auto.
  - unfold send_cancel. destruct (m_objs a !! sid) as [s|]; [|auto]. destruct (s_lock s) as [[req tid]|]; auto.
  - left. apply drop_running.
  - unfold ready_event_for. destruct (m_ready a !! p); auto.
Qed.

Lemma steps_unconfigured m m' : rtc mstep m m' -> unconfigured (m_registry m) -> unconfigured (m_registry m').
Proof.
  induction 1 as [m|m1 m2 m3 Hs _ IH]; [auto|]. intros H. apply IH.
  destruct (mstep_registry m1 m2 Hs) as [->|(e & ->)]; [exact H|now apply unconfigured_live].
Qed.

Lemma unconfigured_targets c reg : unconfigured reg -> hub_children c reg = [] /\ enabled_pns reg = [].
Proof.
  unfold hub_children, build_child_targets, enabled_pns, all_records, dvalues.
  induction 1 as [|[p r] reg Hr _ [IH1 IH2]]; [now split|]. cbn in *. unfold is_pollable at 1. now rewrite Hr.
Qed.

(** The announcer of such a listener is satisfied by any one dongle. *)
Lemma unconfigured_announce time m : unconfigured (m_registry m) -> m_by_pn m <> ∅ -> m_force_until m <= time ->
  snd (should_announce time m) = false.
Proof.
  intros Hu Hm Ht. unfold should_announce. replace (time <? m_force_until m) with false by lia. rewrite andb_false_r.
  cbn [m_registry force_rediscovery snd]. rewrite (proj2 (unconfigured_targets {| c_host := ""; c_port := 0; c_broadcast := ""; c_announce := None |} _ Hu)).
  rewrite decide_True by reflexivity. apply bool_decide_eq_false. unfold identified_pns. cbn.
  intros E. apply Hm. apply dom_empty_inv_L in E. exact E.
Qed.

(** C22: unloading any entry that is not a hub, whatever it talks to,
    stops the listener of every running hub while the hub keeps running; the next
    poll of a child starts a listener on a fresh empty registry: nothing its
    dongles do reaches the registry the hub shows and saves any more, and its
    announcer falls silent as soon as one dongle is connected, however many
    enabled children are missing. *)
Theorem device_unload_detaches_hub (stores : gmap string (dict pydict)) (w : world) (d : config_entry) (id : string)
    (rt : runtime) (c : listener_config) (r : DongleRecord) (t : Z)
    (Hr : hub_reach stores w) (Hd : is_hub d = false) (Hrt : w_runtimes w !! id = Some rt)
    (Hk : runtime_key rt = (c_host c, c_port c))
    (Hok : child_ok r (c_host c) (c_port c) (c_broadcast c) (c_announce c)) (Ht : 0 <= t) :
  let w1 := unload_entry d w in
  let w2 := fst (dispatch t true (build_child_uri r (c_host c) (c_port c) (c_broadcast c) (c_announce c)) w1) in
  w_managers w1 = ∅ /\ w_runtimes w1 !! id = Some rt /\ hub_registry id w2 = hub_registry id w
  /\ exists l, w_managers w2 !! runtime_key rt = Some l /\ l_server l = true
     /\ (forall m, hub_registry id (put_mgr (runtime_key rt) l m w2) = hub_registry id w)
     /\ (forall m time, rtc mstep (view w2 l) m -> m_by_pn m <> ∅ -> m_force_until m <= time ->
           snd (should_announce time m) = false).
Proof.
  intros w1 w2. destruct (hub_reach_inv stores w Hr) as [H1 H2 H3 H4 H5 H6].
  destruct (H1 id rt Hrt) as (l0 & El0 & Er0). pose proof (H5 _ _ El0) as Hlt. rewrite Er0 in Hlt.
  destruct (child_uri_parses r _ _ _ _ Hok) as [Hp _].
  unfold w2, w1, unload_entry, dispatch, get_manager. rewrite Hd, Hp. cbn [bind_host bind_port broadcast announce_ip].
  rewrite Hk. unfold shutdown_all_eybond_managers. cbn [w_managers with_old with_managers]. rewrite lookup_empty.
  unfold ensure_started, new_registry. cbn [new_listener l_server l_bind_failed_until].
  replace (t <? 0) with false by lia. unfold hub_registry, put_mgr. cbn. rewrite Hrt.
  assert (forall (reg : dongles) ws, <[w_next w := reg]> ws !! r_ref rt = (ws : gmap Z dongles) !! r_ref rt) as Hne
    by (intros; now rewrite lookup_insert_ne by lia).
  unfold registry_at. cbn. rewrite !Hne. repeat (split; [reflexivity|]).
  rewrite lookup_insert_eq. eexists. split; [reflexivity|]. split; [reflexivity|]. cbn. split.
  - intros m. now rewrite !Hne.
  - intros m time Hm. apply unconfigured_announce. apply (steps_unconfigured _ _ Hm).
    unfold view, registry_at. cbn. rewrite lookup_insert_eq. constructor.
Qed.

(** A running listener is only updated. *)
Lemma get_manager_running t b host port bc ann w l : w_managers w !! (host, port) = Some l -> l_server l = true ->
  exists l', get_manager t b host port bc ann w = (with_managers (<[(host, port) := l']> (w_managers w)) w, Ok tt)
  /\ l_server l' = true /\ l_ref l' = l_ref l /\ l_mgr l' = l_mgr l.
Proof.
  intros El Hs. unfold get_manager. rewrite El. destruct (update_listener_idle bc ann l) as (Em & Es & _).
  pose proof (update_listener_ref bc ann l) as Er. unfold ensure_started. rewrite Es, Hs.
  eexists. split; [reflexivity|]. cbn. auto.
Qed.

(** Its registry, when it has records, is kept. *)
Lemma setup_running t b e c stored w l : is_hub e = true -> hub_listener_config (e_options e) = Some c ->
  load_registry (w_stores w !! e_id e) = Some stored -> w_managers w !! (c_host c, c_port c) = Some l ->
  l_server l = true -> l_ref l < w_next w -> registry_at w (l_ref l) <> [] ->
  let w' := fst (setup_entry t b (Ok tt) e w) in
  hub_registry (e_id e) w' = Some (registry_at w (l_ref l))
  /\ w_children w' !! e_id e = Some (hub_children c (registry_at w (l_ref l))).
Proof.
  intros He Hc Hst El Hs Hlt Hne. unfold setup_entry. rewrite He. unfold setup_hub. rewrite Hc, Hst.
  pose proof (reg_of_new (reset_connection_state stored) w (l_ref l) Hlt) as Eg.
  destruct (new_registry (reset_connection_state stored) w) as [w0 ref] eqn:E0. cbn [fst] in Eg.
  assert (w_managers w0 !! (c_host c, c_port c) = Some l) as El0
    by (unfold new_registry in E0; injection E0 as <- _; exact El).
  destruct (get_manager_running t b (c_host c) (c_port c) (c_broadcast c) (EybondHub.c_announce c) w0 l El0 Hs)
    as (l' & Em & _ & Er & _).
  set (w1 := with_managers (<[(c_host c, c_port c) := l']> (w_managers w0)) w0) in Em.
  assert (w_managers w1 !! (c_host c, c_port c) = Some l') as El1 by apply lookup_insert_eq.
  assert (registry_at w1 (l_ref l') = registry_at w (l_ref l)) as Eg1 by (rewrite Er; exact Eg).
  assert (get_eybond_manager t b (c_host c) (c_port c) (c_broadcast c) (EybondHub.c_announce c) (Some ref) w0 = (w1, Ok tt)) as Ew
    by (unfold get_eybond_manager; rewrite Em, El1, Eg1; now destruct (registry_at w (l_ref l))).
  rewrite Ew, El1. unfold hub_registry. cbn. rewrite !lookup_insert_eq. cbn [r_ref]. rewrite <- Eg1. now split.
Qed.

Lemma min_in ps : forall p, fold_left (fun a b => if String.ltb b a then b else a) ps p ∈ p :: ps.
Proof.
  induction ps as [|q ps IH]; intros p; cbn; [now apply list_elem_of_singleton|].
  specialize (IH (if String.ltb q p then q else p)). rewrite !elem_of_cons in *. destruct (String.ltb q p); tauto.
Qed.

Lemma first_pn_some m : m_by_pn m <> ∅ -> exists p, first_pn m = Some p /\ is_Some (m_by_pn m !! p).
Proof.
  intros Hm. unfold first_pn, identified_pns. destruct (elements (dom (m_by_pn m))) as [|p ps] eqn:E.
  - destruct Hm. apply dom_empty_inv_L. apply elements_empty_inv in E. now apply leibniz_equiv.
  - eexists. split; [reflexivity|]. apply elem_of_dom. apply elem_of_elements. rewrite E. apply min_in.
Qed.

(** C23: migrating a single-dongle entry stores the connected dongle as an
    enabled, configured child, and loses it at once: the reload it triggers finds
    the options already those of a hub, so the old listener is not stopped, its
    registry of unconfigured records is kept instead of the stored one, the
    migrated hub polls nothing, and its next save overwrites the stored child. *)
Theorem migration_loses_child (stores : gmap string (dict pydict)) (w : world) (e : config_entry) (device title : string)
    (u : eybond_uri) (l : listener) (i v t t' : Z) (b b' : bool)
    (Hr : hub_reach stores w) (Hdown : w_runtimes w !! e_id e = None)
    (Hdev : text_or_empty "device" (e_options e) = Some device)
    (Hscheme : startswith device "eybond://" || startswith device "eybond-pi18://" = true)
    (Hu : parse_eybond_uri device = Ok u) (Hi : int_option "update_interval" DEFAULT_UPDATE_INTERVAL (e_options e) = Some i)
    (Hv : int_option "hub_revision" 0 (e_options e) = Some v)
    (Hl : w_managers w !! (bind_host u, bind_port u) = Some l) (Hs : l_server l = true)
    (Hm : mserve [] (view w l)) (Hpn : m_by_pn (l_mgr l) <> ∅) :
  exists p w1 r, migrate_legacy_to_hub t b title e w = (w1, Ok (inr (migrated_options u i v)))
  /\ is_Some (m_by_pn (l_mgr l) !! p)
  /\ load_registry (w_stores w1 !! e_id e) = Some [(p, r)] /\ enabled r = true /\ is_pollable r = true
  /\ legacy_id r = device
  /\ let w2 := fst (reload_entry t' b' (Ok tt) {| e_id := e_id e; e_data := e_data e; e_options := migrated_options u i v |} w1) in
     hub_registry (e_id e) w2 = Some (registry_at w (l_ref l))
     /\ w_children w2 !! e_id e = Some []
     /\ w_stores (async_save true (e_id e) w2) !! e_id e = Some (registry_to_dict (registry_at w (l_ref l))).
Proof.
  destruct (first_pn_some (l_mgr l) Hpn) as (p & Ep & Hp).
  pose proof (hub_reach_inv stores w Hr) as [_ _ _ _ H5 _]. specialize (H5 _ _ Hl).
  assert (registry_at w (l_ref l) <> []) as Hne.
  { intros E. pose proof (mserve_shown [] _ p Hm Hp) as H. unfold status_of, view in H. cbn in H.
    rewrite E in H. discriminate H. }
  assert (unconfigured (registry_at w (l_ref l))) as Hun by (apply (steps_unconfigured _ _ Hm); constructor).
  destruct (get_manager_running t b (bind_host u) (bind_port u) (broadcast u) (announce_ip u) w l Hl Hs) as (l' & Em & Hs' & Er & Emm).
  unfold migrate_legacy_to_hub. rewrite Hdev, Hscheme, Hu. cbn [negb]. unfold get_eybond_manager. rewrite Em. cbn iota.
  cbn [w_managers with_managers]. rewrite lookup_insert_eq, Emm, Ep, Hi, Hv.
  set (nm := if String.eqb _ "" then _ else _). set (r := migrated_record p nm device _ _).
  set (w1 := with_store _ _ _). exists p, w1, r. split; [reflexivity|]. split; [exact Hp|].
  assert (load_registry (w_stores w1 !! e_id e) = Some [(p, r)]) as Hst
    by (unfold w1; cbn [w_stores with_store]; rewrite lookup_insert_eq; apply registry_load_to).
  split; [exact Hst|]. split; [reflexivity|]. split; [unfold r, migrated_record, is_pollable; cbn; now destruct (startswith device "eybond-pi18://")|]. split; [reflexivity|].
  set (e' := {| e_id := _ |}).
  assert (is_hub e' = true) as He' by reflexivity.
  assert (unload_entry e' w1 = w1) as Eun.
  { unfold unload_entry, unload_hub. rewrite He'. unfold w1. cbn. now rewrite Hdown. }
  unfold reload_entry. rewrite Eun. set (a := match announce_ip u with Some a => a | None => "" end).
  pose proof (setup_running t' b' e' {| c_host := bind_host u; c_port := bind_port u; c_broadcast := broadcast u;
    c_announce := nonempty (strip a) |} [(p, r)] w1 l' He' eq_refl Hst) as Hset.
  unfold w1 in Hset at 1. cbn [w_managers with_store with_managers c_host c_port] in Hset. rewrite lookup_insert_eq, Er in Hset.
  change (registry_at w1 (l_ref l)) with (registry_at w (l_ref l)) in Hset. destruct (Hset eq_refl Hs' H5 Hne) as [E1 E2].
  change (e_id e) with (e_id e'). cbv zeta. rewrite E1, E2, (proj1 (unconfigured_targets _ _ Hun)). split; [reflexivity|]. split; [reflexivity|].
  unfold hub_registry in E1. unfold async_save. destruct (w_runtimes _ !! e_id e') as [rt|] eqn:Ert; [|discriminate].
  injection E1 as E1. cbn [orb w_stores with_runtimes with_store]. rewrite lookup_insert_eq. now rewrite E1.
Qed.

(** ** The device form *)

(** What the form makes of the record of one dongle, when it is not removed. *)
Definition formed (rec : DongleRecord) (input : pydict) (r r' : DongleRecord) : Prop :=
  exists nm addr proto, text_or_empty (field_of (pn rec) "name") input = Some nm
  /\ int_option (field_of (pn rec) "devaddr") (devaddr rec) input = Some addr
  /\ str_field (field_of (pn rec) "protocol") "none" input = Some proto
  /\ r' = with_config r (strip nm) (truthy (vget (field_of (pn rec) "enabled") input))
            (if String.eqb proto "none" then None else Some proto) addr.

Definition device_effect (rec : DongleRecord) (input : pydict) (reg reg' : dongles) : Prop :=
  if truthy (vget (field_of (pn rec) "remove") input) then dget (pn rec) reg' = None
  else exists r', dget (pn rec) reg' = Some r' /\ formed rec input (ensure_record (pn rec) reg) r'.

Lemma ensure_dset p r reg : ensure_record p (dset p r reg) = r.
Proof. unfold ensure_record. now rewrite dget_dset_eq. Qed.

Lemma apply_device_effect rec input reg reg' : dict_ok reg -> apply_device rec input reg = Some reg' ->
  dict_ok reg' /\ (forall q, q <> pn rec -> dget q reg' = dget q reg) /\ device_effect rec input reg reg'.
Proof.
  intros Hok. unfold apply_device, device_effect. destruct (truthy (vget (field_of (pn rec) "remove") input)).
  { intros [= <-]. unfold remove_record. split; [now apply dpop_ok|]. split; [|apply dget_dpop_eq].
    intros q Hq. now apply dget_dpop_ne. }
  unfold obind, formed. destruct (text_or_empty _ _) as [nm|] eqn:E1; [|discriminate].
  destruct (int_option _ _ _) as [addr|] eqn:E2; [|discriminate].
  destruct (str_field _ _ _) as [proto|] eqn:E3; [|discriminate]. intros [= <-].
  unfold set_enabled, set_protocol, set_devaddr, set_name. rewrite !ensure_dset. split; [|split].
  - now repeat apply dset_ok.
  - intros q Hq. now rewrite !dget_dset_ne by exact Hq.
  - eexists. split; [apply dget_dset_eq|]. exists nm, addr, proto. auto.
Qed.

Lemma bulk_none recs input : fold_left (fun acc rec => obind acc (apply_device rec input)) recs None = None.
Proof. now induction recs. Qed.

(** What the form does to the registry are the edits the manager allows. *)
Lemma apply_device_edit rec input reg reg' : apply_device rec input reg = Some reg' ->
  exists e, reg' = edit_registry e reg /\ (forall p, e = Remove p -> truthy (vget (field_of p "remove") input) = true).
Proof.
  unfold apply_device. destruct (truthy (vget (field_of (pn rec) "remove") input)) eqn:Er.
  - intros [= <-]. exists (Remove (pn rec)). split; [reflexivity|]. now intros p [= <-].
  - unfold obind. destruct (text_or_empty _ _) as [nm|]; [|discriminate]. destruct (int_option _ _ _) as [addr|]; [|discriminate].
    destruct (str_field _ _ _) as [proto|]; [|discriminate]. intros [= <-].
    exists (Configure (pn rec) (strip nm) addr (if String.eqb proto "none" then None else Some proto)
              (truthy (vget (field_of (pn rec) "enabled") input))). now split.
Qed.

(** A submitted form is a sequence of them. *)
Lemma apply_bulk_steps recs input : forall m reg', apply_device_bulk recs input (m_registry m) = Some reg' ->
  msteps (fun p => truthy (vget (field_of p "remove") input) = true) m (with_registry reg' m).
Proof.
  induction recs as [|rec recs IH]; intros m reg' H; unfold apply_device_bulk in H; cbn [fold_left obind] in H.
  - injection H as <-. destruct m. apply rtc_refl.
  - destruct (apply_device rec input (m_registry m)) as [reg1|] eqn:E; [|now rewrite bulk_none in H].
    destruct (apply_device_edit rec input _ _ E) as (e & -> & He).
    eapply rtc_l; [exact (ws_edit _ e m He)|]. exact (IH (run_edit e m) reg' H).
Qed.

Lemma bulk_effect recs input : forall reg reg', NoDup (map pn recs) -> dict_ok reg ->
  apply_device_bulk recs input reg = Some reg' ->
  dict_ok reg' /\ (forall q, q ∉ map pn recs -> dget q reg' = dget q reg)
  /\ (forall rec, rec ∈ recs -> device_effect rec input reg reg').
Proof.
  induction recs as [|rec recs IH]; intros reg reg' Hn Hok; unfold apply_device_bulk; cbn [fold_left obind].
  - intros [= <-]. split; [exact Hok|]. split; [auto|]. intros rec H. now apply elem_of_nil in H.
  - destruct (apply_device rec input reg) as [reg1|] eqn:E1; [|now rewrite bulk_none].
    intros E. inversion Hn as [|? ? Hr Hn']; subst.
    destruct (apply_device_effect rec input reg reg1 Hok E1) as (Hok1 & Ho1 & He1).
    destruct (IH reg1 reg' Hn' Hok1 E) as (Hok' & Ho & He). split; [exact Hok'|]. split.
    + intros q Hq. cbn [map] in Hq. rewrite not_elem_of_cons in Hq. destruct Hq. now rewrite Ho, Ho1.
    + intros rec' Hin. apply elem_of_cons in Hin as [->|Hin].
      * unfold device_effect in *. rewrite (Ho (pn rec) Hr). exact He1.
      * specialize (He rec' Hin). unfold device_effect, ensure_record in *. rewrite Ho1 in He; [exact He|].
        intros Ep. apply Hr. rewrite <- Ep. apply list_elem_of_In, in_map, list_elem_of_In. exact Hin.
Qed.

Lemma registry_pns reg : registry_ok reg -> map pn (all_records reg) = dkeys reg.
Proof.
  intros [Hd Hp]. unfold all_records, dvalues, dkeys. rewrite map_map. apply map_ext_in. intros [p r] Hin. cbn.
  apply Hp. now apply dget_in.
Qed.

(** The device form of a hub does to every discovered dongle what
    the user chose and nothing else: a removed one is forgotten, any other has
    exactly the name, address, protocol and enabled flag of the form, keeps its
    connection state and its times, and is polled after the reconcile when it is
    enabled with a protocol the hub can poll; the result is what is stored. *)
Theorem devices_form_applied (id : string) (input : pydict) (w w' : world) (rt : runtime) (p : string) (r : DongleRecord)
    (Hrt : w_runtimes w !! id = Some rt) (Hok : registry_ok (registry_at w (r_ref rt)))
    (Hs : step_devices id input w = Some w') (Hp : dget p (registry_at w (r_ref rt)) = Some r) :
  exists reg', hub_registry id w' = Some reg' /\ w_stores w' !! id = Some (registry_to_dict reg')
  /\ (forall q, dget q (registry_at w (r_ref rt)) = None -> dget q reg' = None)
  /\ (truthy (vget (field_of p "remove") input) = true -> dget p reg' = None)
  /\ (truthy (vget (field_of p "remove") input) = false ->
        exists r', dget p reg' = Some r' /\ formed r input r r'
        /\ forall c, is_pollable r' = true ->
             In (child_target r' (c_host c) (c_port c) (c_broadcast c) (c_announce c)) (hub_children c reg')).
Proof.
  unfold step_devices in Hs. rewrite Hrt in Hs. destruct (registry_at w (r_ref rt)) as [|kr reg0] eqn:E; [discriminate|].
  rewrite <- E in Hs. set (reg := registry_at w (r_ref rt)) in *. rewrite <- E in Hok, Hp |- *. unfold obind in Hs.
  destruct (apply_device_bulk _ _ _) as [reg'|] eqn:Eb; [|discriminate]. injection Hs as <-.
  pose proof (registry_pns reg Hok) as Ek. destruct Hok as [Hd Hpn].
  assert (NoDup (map pn (all_records reg))) as Hn by (rewrite Ek; now apply NoDup_ListNoDup).
  destruct (bulk_effect _ input reg reg' Hn Hd Eb) as (Hd' & Ho & He). rewrite Ek in Ho.
  assert (pn r = p) as Er by (now apply Hpn).
  assert (r ∈ all_records reg) as Hr.
  { apply list_elem_of_In. unfold all_records, dvalues. apply dget_some_in in Hp. exact (in_map snd _ _ Hp). }
  specialize (He r Hr). unfold device_effect in He. rewrite Er in He.
  exists reg'. unfold async_save. cbn [w_runtimes with_reg]. rewrite Hrt. cbn [orb].
  rewrite reg_of_put, decide_True by reflexivity. split; [|split; [|split; [|split]]].
  - unfold hub_registry. cbn [w_runtimes with_runtimes]. rewrite lookup_insert_eq. cbn [r_ref]. f_equal.
    change (registry_at (with_runtimes _ _) (r_ref rt)) with (registry_at (with_reg (r_ref rt) reg' w) (r_ref rt)).
    now rewrite reg_of_put, decide_True by reflexivity.
  - cbn. apply lookup_insert_eq.
  - intros q Hq. rewrite Ho; [exact Hq|]. intros H. apply dget_none_keys in Hq. apply Hq. now apply list_elem_of_In.
  - intros Hrm. now rewrite Hrm in He.
  - intros Hrm. rewrite Hrm in He. destruct He as (r' & Hr' & Hf). unfold ensure_record in Hf. rewrite Hp in Hf.
    exists r'. split; [exact Hr'|]. split; [exact Hf|]. intros c Hpoll. unfold hub_children, build_child_targets.
    apply in_map_iff. exists r'. split; [reflexivity|]. apply filter_In. split; [|exact Hpoll].
    unfold all_records, dvalues. apply dget_some_in in Hr'. exact (in_map snd _ _ Hr').
Qed.

(** ** The announcer *)

(** A dongle the hub wants is missing; without enabled children, any will do. *)
Definition dongle_missing (m : mgr) : Prop :=
  (exists p, p ∈ enabled_pns (m_registry m) /\ m_by_pn m !! p = None)
  \/ enabled_pns (m_registry m) = [] /\ m_by_pn m = ∅.

Lemma should_announce_spec time m :
  snd (should_announce time m) = true <->
  (m_force_until m <> 0 /\ time < m_force_until m) \/ dongle_missing m.
Proof.
  unfold should_announce. destruct (negb (m_force_until m =? 0) && (time <? m_force_until m)) eqn:Ef.
  { cbn. split; [|easy]. intros _. left. lia. }
  assert (~ (m_force_until m <> 0 /\ time < m_force_until m)) as Hn by lia.
  cbn [snd m_registry force_rediscovery]. change (identified_pns (force_rediscovery 0 0 m)) with (identified_pns m).
  unfold dongle_missing. set (en := enabled_pns (m_registry m)).
  assert (m_by_pn m = ∅ <-> identified_pns m = ∅) as Hid
    by (unfold identified_pns; split; [intros ->; apply dom_empty_L|apply dom_empty_inv_L]).
  destruct (decide _) as [He|He].
  - assert (en = []) as En.
    { destruct en as [|p ps]; [reflexivity|]. cbn in He. set_solver. }
    rewrite bool_decide_eq_true, <- Hid. split; [auto|]. intros [H|[(p & Hp & _)|[_ H]]]; [tauto| |exact H].
    rewrite En in Hp. now apply elem_of_nil in Hp.
  - rewrite negb_true_iff, bool_decide_eq_false. split.
    + intros H. right. left. apply set_choose_L in H as (p & Hp). apply elem_of_difference in Hp as [Hp Hc].
      exists p. split; [now apply elem_of_list_to_set in Hp|]. now apply not_elem_of_dom.
    + intros [H|[(p & Hp & Hc)|[H _]]]; [tauto| |rewrite H in He; now destruct He].
      intros E. apply not_elem_of_dom in Hc. apply (not_elem_of_empty (C := gset string) p). rewrite <- E.
      apply elem_of_difference. split; [now apply elem_of_list_to_set|exact Hc].
Qed.

(** The turns of one announcer, each with the manager it finds; the times it sends. *)
Fixpoint announce_run (turns : list (Z * mgr)) (last : Z) : list Z :=
  match turns with
  | [] => []
  | (time, m) :: turns =>
      let '(_, last', sent) := announce_tick time last m in
      (if sent then [time] else []) ++ announce_run turns last'
  end.

(** The announcer sends exactly when a dongle the hub wants is missing
    or a forced rediscovery runs, and it did not send in the last five seconds;
    so over any run its datagrams are at least five seconds apart. *)
Theorem announce_policy (turns : list (Z * mgr)) (time last : Z) (m : mgr) :
  (snd (announce_tick time last m) = true <->
     ANNOUNCE_INTERVAL <= time - last
     /\ ((m_force_until m <> 0 /\ time < m_force_until m) \/ dongle_missing m))
  /\ StronglySorted (fun a b => a + ANNOUNCE_INTERVAL <= b) (announce_run turns last)
  /\ Forall (fun a => last + ANNOUNCE_INTERVAL <= a) (announce_run turns last).
Proof.
  split.
  - rewrite <- should_announce_spec. unfold announce_tick. destruct (should_announce time m) as [m' on]. cbn [snd].
    destruct on, (ANNOUNCE_INTERVAL <=? time - last) eqn:E; cbn; split; intros; (lia || easy || tauto).
  - revert last. induction turns as [|[t a] turns IH]; intros last; cbn; [split; constructor|].
    unfold announce_tick. destruct (should_announce t a) as [a' on].
    destruct (on && (ANNOUNCE_INTERVAL <=? t - last)) eqn:E; [|exact (IH last)]. cbn.
    destruct (IH t) as [H1 H2]. apply andb_prop in E as [_ E]. split; [now constructor|].
    constructor; [lia|]. eapply List.Forall_impl; [|exact H2]. unfold ANNOUNCE_INTERVAL in *. cbn. intros; lia.
Qed.

(** ** New-dongle notifications *)

Lemma notify_fold recs : forall known told, exists new,
  fold_left notify_one recs (known, told) = (list_to_set (map pn recs) ∪ known, told ++ new)
  /\ NoDup new /\ (forall p, p ∈ new -> (p ∉ known) /\ exists r, r ∈ recs /\ pn r = p /\ enabled r = false)
  /\ (NoDup (map pn recs) -> forall r, r ∈ recs -> pn r ∉ known -> enabled r = false -> pn r ∈ new)
  /\ (NoDup (map pn recs) -> forall r, r ∈ recs -> enabled r = true -> pn r ∉ new).
Proof.
  induction recs as [|r recs IH]; intros known told; cbn [fold_left map list_to_set].
  - exists []. rewrite app_nil_r. refine (conj _ (conj _ (conj _ (conj _ _)))).
    + f_equal. set_solver.
    + constructor.
    + intros p H. now apply elem_of_nil in H.
    + intros _ r H. now apply elem_of_nil in H.
    + intros _ r H. now apply elem_of_nil in H.
  - unfold notify_one at 2. destruct (decide (pn r ∈ known)) as [Hk|Hk].
    + destruct (IH known told) as (new & E & N1 & N2 & N3 & N4). exists new. rewrite E.
      refine (conj _ (conj N1 (conj _ (conj _ _)))).
      * f_equal. set_solver.
      * intros p Hp. destruct (N2 p Hp) as (Hnk & r' & Hr' & ?). split; [exact Hnk|]. exists r'. split; [|auto].
        apply elem_of_cons. now right.
      * intros Hn r' Hr' Hnk He. inversion Hn; subst. apply elem_of_cons in Hr' as [->|Hr']; [contradiction|]. now apply N3.
      * intros Hn r' Hr' He. inversion Hn; subst. apply elem_of_cons in Hr' as [->|Hr']; [|now apply N4].
        intros Hin. now destruct (N2 _ Hin).
    + destruct (IH ({[pn r]} ∪ known) (if enabled r then told else told ++ [pn r])) as (new & E & N1 & N2 & N3 & N4).
      exists (if enabled r then new else pn r :: new). rewrite E. refine (conj _ (conj _ (conj _ (conj _ _)))).
      * f_equal; [set_solver|]. destruct (enabled r); [reflexivity|]. now rewrite <- app_assoc.
      * destruct (enabled r); [exact N1|]. constructor; [|exact N1]. intros H. destruct (N2 _ H) as [H' _]. set_solver.
      * intros p Hp. assert (p ∈ new \/ p = pn r /\ enabled r = false) as [Hp'|[-> He]]
          by (destruct (enabled r); [auto|apply elem_of_cons in Hp as [->|Hp]; auto]).
        -- destruct (N2 p Hp') as (Hnk & r' & Hr' & ?). split; [set_solver|]. exists r'. split; [|auto].
           apply elem_of_cons. now right.
        -- split; [exact Hk|]. exists r. split; [apply elem_of_cons; now left|auto].
      * intros Hn r' Hr' Hnk He. inversion Hn as [|? ? Hnr Hn']; subst.
        apply elem_of_cons in Hr' as [->|Hr']; [rewrite He; apply elem_of_cons; now left|].
        assert (pn r' ∈ new) as H.
        { apply N3; auto. intros H. apply elem_of_union in H as [H|H]; [|contradiction]. apply elem_of_singleton in H.
          apply Hnr. rewrite <- H. apply list_elem_of_In, in_map, list_elem_of_In. exact Hr'. }
        destruct (enabled r); [exact H|]. apply elem_of_cons. now right.
      * intros Hn r' Hr' He. inversion Hn as [|? ? Hnr Hn']; subst. apply elem_of_cons in Hr' as [->|Hr'].
        -- rewrite He. intros H. destruct (N2 _ H) as [H' _]. set_solver.
        -- intros H. apply (N4 Hn' r' Hr' He). destruct (enabled r); [exact H|]. apply elem_of_cons in H as [E'|H]; [|exact H].
           exfalso. apply Hnr. rewrite <- E'. apply list_elem_of_In, in_map, list_elem_of_In. exact Hr'.
Qed.

(** The records of a registry are known after a tick. *)
Lemma maybe_notify_known reg known : fst (maybe_notify_new (Some reg) known) = list_to_set (map pn (all_records reg)) ∪ known.
Proof. cbn. destruct (notify_fold (all_records reg) known []) as (new & -> & _). reflexivity. Qed.

Lemma notify_run_fresh regs : forall known, NoDup (notify_run regs known) /\ forall p, p ∈ notify_run regs known -> p ∉ known.
Proof.
  induction regs as [|[reg|] regs IH]; intros known; cbn [notify_run maybe_notify_new].
  - split; [constructor|]. intros p H. now apply elem_of_nil in H.
  - destruct (notify_fold (all_records reg) known []) as (new & -> & N1 & N2 & _). cbn [app].
    destruct (IH (list_to_set (map pn (all_records reg)) ∪ known)) as [I1 I2]. split.
    + apply NoDup_app. split; [exact N1|]. split; [|exact I1]. intros p Hp Hq.
      destruct (N2 p Hp) as (_ & r & Hr & E & _). apply (I2 p Hq). apply elem_of_union_l, elem_of_list_to_set.
      rewrite <- E. apply list_elem_of_In, in_map, list_elem_of_In. exact Hr.
    + intros p Hp. apply elem_of_app in Hp as [Hp|Hp]; [now apply N2|]. specialize (I2 p Hp). set_solver.
  - exact (IH known).
Qed.

(** The discovery sensor tells the user about a dongle at most once and
    never about one known when it started; a dongle that shows up later is told
    exactly when it is not enabled yet the first time it is seen. *)
Theorem new_dongles_told_once (regs : list (option dongles)) (known : gset string) :
  NoDup (notify_run regs known)
  /\ (forall p, p ∈ notify_run regs known -> p ∉ known)
  /\ (forall pre reg post r, regs = pre ++ Some reg :: post -> NoDup (map pn (all_records reg)) -> r ∈ all_records reg ->
        pn r ∉ known -> (forall reg0, Some reg0 ∈ pre -> pn r ∉ map pn (all_records reg0)) ->
        (pn r ∈ notify_run regs known <-> enabled r = false)).
Proof.
  destruct (notify_run_fresh regs known) as [H1 H2]. split; [exact H1|]. split; [exact H2|]. clear H1 H2.
  intros pre reg post r -> Hn Hr. revert known. induction pre as [|[reg0|] pre IH]; intros known Hk Hpre; cbn [app notify_run].
  - cbn [maybe_notify_new]. destruct (notify_fold (all_records reg) known []) as (new & -> & _ & _ & N3 & N4). cbn [app].
    set (known' := list_to_set _ ∪ known). assert (pn r ∈ known') as Hin.
    { apply elem_of_union_l, elem_of_list_to_set. apply list_elem_of_In, in_map, list_elem_of_In. exact Hr. }
    rewrite elem_of_app. split.
    + intros [H|H]; [|now destruct (proj2 (notify_run_fresh post known') _ H)].
      destruct (enabled r) eqn:E; [|reflexivity]. now destruct (N4 Hn r Hr E).
    + intros E. left. now apply N3.
  - assert (pn r ∉ map pn (all_records reg0)) as H0 by (apply Hpre, elem_of_cons; now left).
    cbn [maybe_notify_new]. destruct (notify_fold (all_records reg0) known []) as (new & -> & _ & N2 & _). cbn [app].
    rewrite elem_of_app, IH.
    + split; [intros [H|H]; [|exact H]|auto]. exfalso. destruct (N2 _ H) as (_ & r' & Hr' & E & _). apply H0.
      rewrite <- E. apply list_elem_of_In, in_map, list_elem_of_In. exact Hr'.
    + rewrite elem_of_union, elem_of_list_to_set. tauto.
    + intros reg1 H. apply Hpre, elem_of_cons. now right.
  - cbn [maybe_notify_new]. apply IH; [exact Hk|]. intros reg1 H. apply Hpre, elem_of_cons. now right.
Qed.

(** ** Witnesses *)

Definition demo_hub : config_entry :=
  {| e_id := "hub"; e_data := [("name", VStr "Hub")];
     e_options := [("entry_kind", VStr ENTRY_KIND_EYBOND_HUB); ("eybond_bind_port", VInt 8899)] |}.
Definition demo_reg : dongles := [(pn demo_child, demo_child)].
Definition demo_stores : gmap string (dict pydict) := {["hub"%string := registry_to_dict demo_reg]}.
Definition demo_up : world := fst (setup_entry 100 true (Ok tt) demo_hub (world_init demo_stores)).
Definition demo_config : listener_config :=
  {| c_host := DEFAULT_EYBOND_BIND_HOST; c_port := 8899; c_broadcast := DEFAULT_EYBOND_BROADCAST; c_announce := None |}.
Definition demo_runtime : runtime :=
  {| r_ref := 0; r_host := DEFAULT_EYBOND_BIND_HOST; r_port := 8899;
     r_last_saved := reset_connection_state demo_reg |}.

Lemma demo_up_runtime : w_runtimes demo_up !! "hub"%string = Some demo_runtime.
Proof. vm_compute. reflexivity. Qed.

Lemma demo_up_reach : hub_reach demo_stores demo_up.
Proof.
  eapply rtc_l; [|apply rtc_refl]. apply hs_setup; [reflexivity|reflexivity|]. intros c id rt _ H.
  cbn in H. now rewrite lookup_empty in H.
Qed.

Lemma hub_registry_shared_witness :
  exists l, w_managers demo_up !! (DEFAULT_EYBOND_BIND_HOST, 8899) = Some l
  /\ hub_registry "hub" (put_mgr (DEFAULT_EYBOND_BIND_HOST, 8899) l (accept "10.0.0.9:1" (view demo_up l)) demo_up)
     = Some (reset_connection_state demo_reg).
Proof.
  destruct (hub_registry_shared demo_stores demo_up "hub" demo_runtime demo_up_reach demo_up_runtime)
    as (l & El & Eh & Hp & _).
  exists l. split; [exact El|]. etransitivity; [exact (Hp (accept "10.0.0.9:1" (view demo_up l)))|].
  change (Some (m_registry (view demo_up l)) = Some (reset_connection_state demo_reg)). rewrite <- Eh. vm_compute. reflexivity.
Defined.

(** Down for two failed set-ups, then up again with the same child. *)
Lemma hub_restart_witness :
  exists w' l, setup_entry 200 true (Ok tt) demo_hub (failed_setups [101; 150] demo_hub (unload_entry demo_hub demo_up)) = (w', Ok tt)
  /\ hub_registry "hub" w' = Some (reset_connection_state demo_reg) /\ l_server l = true.
Proof.
  destruct (hub_restart demo_stores demo_up demo_hub demo_runtime demo_config [101; 150] 200 demo_up_reach eq_refl
    demo_up_runtime eq_refl eq_refl ltac:(lia) ltac:(unfold BIND_FAILURE_BACKOFF; repeat constructor; lia))
    as (w' & l & E1 & E2 & _ & _ & E3 & _).
  exists w', l. split; [exact E1|]. split; [|exact E3].
  transitivity (Some (reset_connection_state (registry_at demo_up (r_ref demo_runtime)))); [exact E2|vm_compute; reflexivity].
Defined.

Definition demo_device : config_entry :=
  {| e_id := "dev"; e_data := [("name", VStr "Inverter")]; e_options := [("device", VStr "tcp://10.0.0.5:8899")] |}.

Lemma demo_child_ok : child_ok demo_child (c_host demo_config) (c_port demo_config) (c_broadcast demo_config) (c_announce demo_config).
Proof. split; vm_compute; (repeat split); repeat constructor; discriminate. Qed.

(** Unloading a serial-bridge entry cuts the hub off: its child connects again, to
    a listener whose registry the hub does not see. *)
Lemma device_unload_detaches_hub_witness :
  w_managers (unload_entry demo_device demo_up) = ∅
  /\ hub_registry "hub" (fst (dispatch 300 true (build_child_uri demo_child DEFAULT_EYBOND_BIND_HOST 8899
       DEFAULT_EYBOND_BROADCAST None) (unload_entry demo_device demo_up))) = hub_registry "hub" demo_up.
Proof.
  destruct (device_unload_detaches_hub demo_stores demo_up demo_device "hub" demo_runtime demo_config demo_child 300
    demo_up_reach eq_refl demo_up_runtime eq_refl demo_child_ok ltac:(lia)) as (H1 & _ & H2 & _).
  split; [exact H1|exact H2].
Defined.

(** A single-dongle entry, polled once, whose dongle then connected. *)
Definition legacy_device : string := "eybond://0.0.0.0:8899/1".
Definition demo_legacy : config_entry :=
  {| e_id := "old"; e_data := [("name", VStr "Garage")]; e_options := [("device", VStr legacy_device)] |}.
Definition legacy_polled : world := fst (dispatch 100 true legacy_device (world_init ∅)).
Definition legacy_listener : listener :=
  match w_managers legacy_polled !! (DEFAULT_EYBOND_BIND_HOST, 8899) with
  | Some l => l
  | None => new_listener "" None 0
  end.
Definition legacy_world : world :=
  put_mgr (DEFAULT_EYBOND_BIND_HOST, 8899)
    (with_mgr (accept "10.0.0.9:1" (view legacy_polled legacy_listener)) legacy_listener) demo_identified
    (put_mgr (DEFAULT_EYBOND_BIND_HOST, 8899) legacy_listener (accept "10.0.0.9:1" (view legacy_polled legacy_listener))
       legacy_polled).

Lemma legacy_reach : hub_reach ∅ legacy_world.
Proof.
  eapply rtc_l; [apply (hs_dispatch 100 true legacy_device)|]. eapply rtc_l; [apply hs_listener|eapply rtc_l; [apply hs_listener|apply rtc_refl]].
  - vm_compute. reflexivity.
  - apply (st_accept "10.0.0.9:1").
  - vm_compute. reflexivity.
  - match goal with |- mstep ?a _ => replace a with (accept "10.0.0.9:1" (mgr_init [])) by (vm_compute; reflexivity) end.
    apply st_frame. cbn. apply elem_of_union_l, elem_of_singleton. reflexivity.
Qed.

Lemma migration_loses_child_witness :
  exists p w1, migrate_legacy_to_hub 200 true "Garage" demo_legacy legacy_world
    = (w1, Ok (inr (migrated_options {| bind_host := "0.0.0.0"; bind_port := 8899; uri_devaddr := 1;
                                        broadcast := DEFAULT_EYBOND_BROADCAST; announce_ip := None |} 10 0)))
  /\ is_Some (m_by_pn demo_identified !! p)
  /\ w_children (fst (reload_entry 201 true (Ok tt)
       {| e_id := "old"; e_data := e_data demo_legacy;
          e_options := migrated_options {| bind_host := "0.0.0.0"; bind_port := 8899; uri_devaddr := 1;
                                           broadcast := DEFAULT_EYBOND_BROADCAST; announce_ip := None |} 10 0 |} w1))
     !! "old"%string = Some [].
Proof.
  destruct (migration_loses_child ∅ legacy_world demo_legacy legacy_device "Garage"
    {| bind_host := "0.0.0.0"; bind_port := 8899; uri_devaddr := 1; broadcast := DEFAULT_EYBOND_BROADCAST; announce_ip := None |}
    (with_mgr demo_identified legacy_listener) 10 0 200 201 true true legacy_reach)
    as (p & w1 & r & E1 & E2 & _ & _ & _ & _ & _ & E3 & _).
  1-8: vm_compute; reflexivity.
  - replace (view _ _) with demo_identified by (vm_compute; reflexivity). exact demo_identified_serve.
  - vm_compute. discriminate.
  - exists p, w1. auto.
Defined.

Lemma devices_form_applied_witness :
  exists reg' r', (obind (step_devices "hub" [("Q0011223344__enabled", VBool false); ("Q0011223344__name", VStr " Shed ")] demo_up)
      (hub_registry "hub")) = Some reg'
  /\ dget "Q0011223344" reg' = Some r' /\ name r' = "Shed"%string /\ enabled r' = false
  /\ protocol r' = None /\ devaddr r' = 3.
Proof.
  destruct (step_devices "hub" [("Q0011223344__enabled", VBool false); ("Q0011223344__name", VStr " Shed ")] demo_up)
    as [w'|] eqn:E; [|vm_compute in E; discriminate E].
  set (r0 := with_live demo_child DISCONNECTED "" "").
  destruct (devices_form_applied "hub" [("Q0011223344__enabled", VBool false); ("Q0011223344__name", VStr " Shed ")]
    demo_up w' demo_runtime "Q0011223344" r0 demo_up_runtime) as (reg' & E1 & _ & _ & _ & H).
  - replace (registry_at demo_up (r_ref demo_runtime)) with (put_record r0 []) by (vm_compute; reflexivity).
    apply registry_ok_dset; [split; [constructor|intros p r; discriminate]|reflexivity].
  - exact E.
  - vm_compute. reflexivity.
  - destruct (H eq_refl) as (r' & Er & (nm & addr & proto & F1 & F2 & F3 & F4) & _).
    exists reg', r'. split; [exact E1|]. split; [exact Er|].
    vm_compute in F1, F2, F3. injection F1 as <-. injection F2 as <-. injection F3 as <-. rewrite F4. vm_compute. auto.
Defined.
