(* ===== verification/HubRuntime.v ===== *)
(** A running hub: the persistence loop of [eybond_hub.py] and the discovery
    sensor of [sensors/eybond_hub_sensor.py].

    The registry of a hub is saved when it changed since the last save, every
    thirty seconds; what is stored is all that outlives the process. *)

From Stdlib Require Import ZArith String Ascii Permutation.
From stdpp Require Import base gmap sets fin_sets fin_maps list strings relations.
From S2P Require Import Prelude PyStr PyInt PyDict Entities Coordinator Discovery EybondFrame ChildUri EybondManager ConfigFlow EybondHub.
#[local] Set Warnings "-clear-no-such-hyp".
#[local] Open Scope Z_scope.

(** ** Persistence *)

Definition STORAGE_VERSION : Z := 1.
Definition SAVE_INTERVAL : Z := 30.

(** [_store]: the key of the file of an entry. *)
Definition store_key (id : string) : string := (DOMAIN ++ ".eybond_hub." ++ id)%string.

(** One turn of [_persist_loop], after its sleep. *)
Definition persist_turn (id : string) (w : world) : world := async_save false id w.

(** The process ends without unloading anything: the stores are left. *)
Definition crash (w : world) : world := world_init (w_stores w).

(** The steps of the world while the hub [id] is up. *)
Definition up_step (id : string) (w w' : world) : Prop := hub_step w w' /\ is_Some (w_runtimes w' !! id).

(** What is stored reads back as what was last saved, connections apart. *)
Definition same_dongles (a b : dongles) : Prop :=
  forall p, dget p (reset_connection_state a) = dget p (reset_connection_state b).

Definition persisted (id : string) (w : world) : Prop :=
  forall rt, w_runtimes w !! id = Some rt ->
  exists s, load_registry (w_stores w !! id) = Some s /\ same_dongles s (r_last_saved rt).

(** *** Lemmas *)

#[local] Instance same_dongles_equiv : Equivalence same_dongles.
Proof.
  split; unfold same_dongles; [now intros a p|intros a b H p; now rewrite H|intros a b c H1 H2 p; now rewrite H1].
Qed.

Lemma dget_reset p reg : dget p (reset_connection_state reg)
  = option_map (fun r => with_live r DISCONNECTED "" (last_seen r)) (dget p reg).
Proof.
  induction reg as [|[q r] reg IH]; [reflexivity|]. cbn. now destruct (String.eqb p q).
Qed.

Lemma same_of_dget a b : (forall p, dget p a = dget p b) -> same_dongles a b.
Proof. intros H p. now rewrite !dget_reset, H. Qed.

Lemma same_reset reg : same_dongles reg (reset_connection_state reg).
Proof. intros p. rewrite !dget_reset. now destruct (dget p reg). Qed.

(** Python's comparison of two dicts is equality of lookups. *)
Lemma snap_eqb_same a b : dict_ok a -> snap_eqb a b = true -> forall p, dget p a = dget p b.
Proof.
  unfold snap_eqb, dict_ok. intros Hd H p. apply andb_prop in H as [Hl H]. apply Nat.eqb_eq in Hl.
  rewrite forallb_forall in H.
  assert (forall q r, In (q, r) a -> dget q b = Some r) as Hin.
  { intros q r Hq. specialize (H _ Hq). cbn in H. now apply bool_decide_eq_true in H. }
  assert (incl (dkeys b) (dkeys a)) as Hk.
  { apply NoDup_length_incl; [exact Hd|unfold dkeys; rewrite !length_map; lia|].
    intros q Hq. apply in_map_iff in Hq as ([q' r] & <- & Hq). apply Hin in Hq. apply dget_some_in in Hq.
    now apply (in_map fst) in Hq. }
  destruct (dget p a) as [r|] eqn:E.
  - symmetry. apply Hin. now apply dget_some_in.
  - symmetry. apply dget_none_keys. intros Hp. apply dget_none_keys in E. now apply E, Hk.
Qed.

(** A step that leaves the runtime and the store of [id] alone. *)
Lemma persisted_frame id w w' : w_runtimes w' !! id = w_runtimes w !! id -> w_stores w' !! id = w_stores w !! id ->
  persisted id w -> persisted id w'.
Proof. unfold persisted. intros -> ->. auto. Qed.

(** A save of [id] stores what it remembers as saved. *)
Lemma persisted_save force id w : persisted id w -> persisted id (async_save force id w).
Proof.
  intros H. unfold async_save. destruct (w_runtimes w !! id) as [rt|] eqn:E; [|exact H].
  destruct (force || _); [|exact H]. intros rt'. cbn. rewrite !lookup_insert_eq. intros [= <-].
  exists (registry_at w (r_ref rt)). split; [apply registry_load_to|reflexivity].
Qed.

Lemma save_other force id id' w : id' <> id ->
  w_runtimes (async_save force id' w) !! id = w_runtimes w !! id /\ w_stores (async_save force id' w) !! id = w_stores w !! id.
Proof.
  intros Hn. unfold async_save. destruct (w_runtimes w !! id'); [|easy]. destruct (force || _); [|easy].
  cbn. now rewrite !lookup_insert_ne by congruence.
Qed.

Lemma setup_hub_frame t b rf e id w : id <> e_id e ->
  w_runtimes (fst (setup_hub t b rf e w)) !! id = w_runtimes w !! id
  /\ w_stores (fst (setup_hub t b rf e w)) !! id = w_stores w !! id.
Proof.
  intros Hn. unfold setup_hub. destruct (hub_listener_config _) as [c|]; [|easy]. destruct (load_registry _) as [s|]; [|easy].
  destruct (new_registry (reset_connection_state s) w) as [w0 ref] eqn:E0.
  pose proof (get_eybond_runtimes t b (c_host c) (c_port c) (c_broadcast c) (EybondHub.c_announce c) (Some ref) w0) as [R T].
  assert (w_runtimes w0 = w_runtimes w /\ w_stores w0 = w_stores w) as [R0 T0] by (injection E0 as <- _; easy).
  rewrite R0 in R. rewrite T0 in T.
  destruct (get_eybond_manager _ _ _ _ _ _ _ w0) as [w1 [[]|x]]; cbn [fst] in *; [|now rewrite R, T].
  destruct (w_managers w1 !! _); cbn [fst]; [|now rewrite R, T]. destruct rf; cbn [fst]; [|now rewrite R, T].
  cbn. rewrite lookup_insert_ne by congruence. now rewrite R, T.
Qed.

(** While the hub is up what it last saved stays stored. *)
Lemma up_step_persisted id w w' : up_step id w w' -> is_Some (w_runtimes w !! id) -> persisted id w -> persisted id w'.
Proof.
  intros [Hs Hup'] Hup H. destruct Hs as [t b rf e w Hh Hn Hk|e w Hh|t b d w|force id' w|id' input w w' Hd|id' rt c ts w Hrt Hts|k l m w Hl Hm|pre l post now sid w Ho Hin].
  - unfold setup_entry. rewrite Hh. assert (id <> e_id e) as Hne by (intros ->; rewrite Hn in Hup; now destruct Hup).
    destruct (setup_hub_frame t b rf e id w Hne). now apply (persisted_frame id w).
  - unfold unload_entry in *. rewrite Hh in *. unfold unload_hub in *. destruct (w_runtimes w !! e_id e) as [rt|] eqn:E; [|exact H].
    unfold stop_runtime, shutdown_eybond_manager in *. destruct (decide (e_id e = id)) as [<-|Hne].
    + exfalso. destruct Hup' as [x Hx]. destruct (w_managers _ !! _); cbn in Hx; now rewrite lookup_delete_eq in Hx.
    + apply (persisted_frame id w); [| |exact H]; destruct (w_managers _ !! _); cbn;
        rewrite ?lookup_delete_ne, ?lookup_insert_ne by congruence; reflexivity.
  - apply (persisted_frame id w); [| |exact H]; unfold dispatch; destruct (parse_eybond_uri d) as [u|]; try reflexivity;
      destruct (get_manager_eq t b (bind_host u) (bind_port u) (broadcast u) (EybondFrame.announce_ip u) w) as (l & -> & _);
      unfold manager_base; now destruct (w_managers w !! _).
  - destruct (decide (id' = id)) as [->|Hne]; [now apply persisted_save|].
    destruct (save_other force id id' w Hne). now apply (persisted_frame id w).
  - unfold step_devices in Hd. destruct (w_runtimes w !! id'); [|discriminate]. destruct (registry_at w _); [discriminate|].
    unfold obind in Hd. destruct (apply_device_bulk _ _ _); [|discriminate]. injection Hd as <-.
    destruct (decide (id' = id)) as [->|Hne].
    + apply persisted_save. now apply (persisted_frame id w).
    + match goal with |- persisted id (async_save true id' ?w1) => destruct (save_other true id id' w1 Hne) end.
      now apply (persisted_frame id w).
  - now apply (persisted_frame id w).
  - now apply (persisted_frame id w).
  - now apply (persisted_frame id w).
Qed.

Lemma up_steps_persisted id w w' : rtc (up_step id) w w' -> is_Some (w_runtimes w !! id) -> persisted id w ->
  is_Some (w_runtimes w' !! id) /\ persisted id w'.
Proof.
  induction 1 as [w|w1 w2 w3 Hs _ IH]; intros Hup H; [easy|].
  apply IH; [apply Hs|now apply (up_step_persisted id w1)].
Qed.

(** A turn of the loop leaves the registry itself stored. *)
Lemma turn_stores id w rt : w_runtimes w !! id = Some rt -> dict_ok (registry_at w (r_ref rt)) -> persisted id w ->
  exists s, load_registry (w_stores (persist_turn id w) !! id) = Some s /\ same_dongles s (registry_at w (r_ref rt)).
Proof.
  intros Hrt Hd H. unfold persist_turn, async_save. rewrite Hrt. cbn [orb].
  destruct (snap_eqb _ _) eqn:E; cbn [negb].
  - destruct (H rt Hrt) as (s & Hs & Hsame). exists s. split; [exact Hs|]. rewrite Hsame. symmetry.
    now apply same_of_dget, snap_eqb_same.
  - cbn. rewrite lookup_insert_eq. eexists. split; [apply registry_load_to|reflexivity].
Qed.

(** A pollable dongle is among the children, whatever its connection. *)
Lemma child_of_dget c reg p r : dget p reg = Some r -> is_pollable r = true ->
  In (child_target r (c_host c) (c_port c) (c_broadcast c) (c_announce c)) (hub_children c (reset_connection_state reg)).
Proof.
  intros Hr Hp. rewrite hub_children_reset. unfold hub_children, build_child_targets.
  apply (in_map (fun r => child_target r (c_host c) (c_port c) (c_broadcast c) (c_announce c))). apply filter_In. split; [|exact Hp].
  unfold all_records, dvalues. apply dget_some_in in Hr. now apply (in_map snd) in Hr.
Qed.

(** A down hub whose store reads as [s] comes up with [s], disconnected. *)
Lemma crash_stopped t e c s w : load_registry (w_stores w !! e_id e) = Some s -> stopped t e c s (crash w).
Proof.
  intros H. split; [apply world_init_inv|reflexivity| |exact H|].
  - intros id rt Hr. cbn in Hr. now rewrite lookup_empty in Hr.
  - unfold vacant, crash. cbn. now rewrite lookup_empty.
Qed.

(** ** Property: durability *)

(** C16: a hub that started its own listener (none was running at its address, whose
    registry it would have taken over instead of the stored one, and none had just
    failed to bind there) loses at most what changed since the last turn of its
    persistence loop: if the process dies at any later point before another save, the
    next start of the entry brings back exactly the dongles of that turn with their
    configuration and times, all disconnected, and polls every one of them that was
    polled. *)
Theorem crash_restart (stores : gmap string (dict pydict)) (w0 w1 w2 w3 : world) (e : config_entry) (c : listener_config)
    (stored : dongles) (rt : runtime) (t0 t : Z)
    (Hr : hub_reach stores w0) (He : is_hub e = true) (Hc : hub_listener_config (e_options e) = Some c)
    (Hdown : w_runtimes w0 !! e_id e = None)
    (Hfree : forall id rt, w_runtimes w0 !! id = Some rt -> runtime_key rt <> (c_host c, c_port c))
    (Hload : load_registry (w_stores w0 !! e_id e) = Some stored)
    (Hv : vacant t0 (c_host c, c_port c) w0) (Ht0 : 0 <= t0) (Ht : 0 <= t)
    (Hup : setup_entry t0 true (Ok tt) e w0 = (w1, Ok tt)) (Hrun : rtc (up_step (e_id e)) w1 w2)
    (Hrt : w_runtimes w2 !! e_id e = Some rt) (Hd : dict_ok (registry_at w2 (r_ref rt)))
    (Hlast : w_stores w3 !! e_id e = w_stores (persist_turn (e_id e) w2) !! e_id e) :
  let reg := registry_at w2 (r_ref rt) in
  exists w' reg' l, setup_entry t true (Ok tt) e (crash w3) = (w', Ok tt)
  /\ hub_registry (e_id e) w' = Some reg'
  /\ (forall p, dget p reg' = dget p (reset_connection_state reg))
  /\ (exists ts, w_children w' !! e_id e = Some ts
      /\ forall p r, dget p reg = Some r -> is_pollable r = true ->
         In (child_target r (c_host c) (c_port c) (c_broadcast c) (c_announce c)) ts)
  /\ w_managers w' !! (c_host c, c_port c) = Some l /\ l_server l = true.
Proof.
  intros reg.
  destruct (started_setup t0 e c stored w0) as (w1' & l1 & E1 & _ & _ & _ & _ & _ & _ & T1 & rt1 & R1 & S1 & _); auto.
  { split; auto. now apply (hub_reach_inv stores). }
  rewrite Hup in E1. injection E1 as <-.
  assert (persisted (e_id e) w1) as H1.
  { intros rt' Hrt'. rewrite R1 in Hrt'. injection Hrt' as <-. rewrite T1, S1. exists stored. split; [exact Hload|apply same_reset]. }
  destruct (up_steps_persisted _ _ _ Hrun) as [_ H2]; [now rewrite R1|exact H1|].
  destruct (turn_stores _ _ _ Hrt Hd H2) as (s & Hs & Hsame). rewrite <- Hlast in Hs.
  destruct (started_setup t e c s (crash w3)) as (w' & l & E & Er & Ec & El & Es & _); auto; [now apply crash_stopped|].
  exists w', (reset_connection_state s), l. split; [exact E|]. split; [exact Er|].
  split; [exact Hsame|split; [|now split]].
  exists (hub_children c s). split; [exact Ec|]. intros p r Hp Hpoll.
  pose proof (Hsame p) as Hq. rewrite !dget_reset in Hq. fold reg in Hq. rewrite Hp in Hq.
  destruct (dget p s) as [r'|] eqn:E'; [|discriminate]. cbn [option_map] in Hq.
  apply (inj Some) in Hq. set (live r := with_live r DISCONNECTED "" (last_seen r)) in Hq.
  rewrite <- (hub_children_reset c s).
  change (In (child_target (live r) (c_host c) (c_port c) (c_broadcast c) (c_announce c)) (hub_children c (reset_connection_state s))).
  change (live r' = live r) in Hq. rewrite <- Hq.
  apply (child_of_dget c s p r' E'). change (is_pollable (live r') = true). now rewrite Hq.
Qed.

(** Two turns of the loop of the hub of [EybondHub], the power cut after them. *)
Lemma crash_restart_witness :
  exists w' reg' l, setup_entry 300 true (Ok tt) demo_hub (crash demo_up) = (w', Ok tt)
  /\ hub_registry "hub" w' = Some reg' /\ (forall p, dget p reg' = dget p (reset_connection_state (reset_connection_state demo_reg)))
  /\ w_managers w' !! (DEFAULT_EYBOND_BIND_HOST, 8899) = Some l /\ l_server l = true.
Proof.
  destruct (crash_restart demo_stores (world_init demo_stores) demo_up demo_up demo_up demo_hub demo_config demo_reg demo_runtime 100 300)
    as (w' & reg' & l & H1 & H2 & H3 & _ & H4 & H5).
  - apply rtc_refl.
  - reflexivity.
  - reflexivity.
  - reflexivity.
  - intros id rt H. cbn in H. now rewrite lookup_empty in H.
  - vm_compute. reflexivity.
  - exact I.
  - lia.
  - lia.
  - vm_compute. reflexivity.
  - apply rtc_refl.
  - exact demo_up_runtime.
  - vm_compute. repeat constructor. intros [].
  - vm_compute. reflexivity.
  - exists w', reg', l. split; [exact H1|]. split; [exact H2|]. split; [|now split].
    intros p. etransitivity; [apply H3|]. vm_compute. reflexivity.
Defined.

(** A registry the set-up takes over from a listener that was there counts as
    saved: the loop stores it only once it changes. *)
Example adopted_not_saved :
  let w := fst (setup_entry 110 true (Ok tt) demo_hub legacy_world) in
  (option_map dkeys (hub_registry "hub" w), w_stores (persist_turn "hub" w) !! "hub"%string) = (Some ["Q0011223344556"%string], None).
Proof. vm_compute. reflexivity. Qed.

(** ** The discovery sensor *)

(** What the class declares. *)
Definition hub_sensor_attrs : entity_attrs := {|
  a_device_class := None; a_state_class := None; a_unit := Some (UnitText "dongles"); a_precision := None;
  a_category := Some EntityCategory.DIAGNOSTIC; a_icon := Some "mdi:lan-connect"%string |}.

Definition MIN_INTERVAL_S : Z := 5.

(** [EybondHubDiscoverySensor]: what [__init__] sets, then what changes. *)
Record hub_sensor := {
  hs_entry_id : string;
  hs_hub_name : pyval;
  hs_interval : Z;                 (* seconds between two ticks *)
  hs_known : gset string;
  hs_seeded : bool;
  hs_tracking : bool               (* [_unsub] is set *)
}.

Definition hub_sensor_unique_id (id : string) : string := ("eybond_hub:" ++ id ++ ":discovered")%string.

Definition hub_sensor_device (id : string) : string * string := (DOMAIN, ("eybond_hub:" ++ id)%string).

(** [__init__] *)
Definition new_hub_sensor (e : config_entry) : res hub_sensor :=
  let interval := match dget "update_interval" (e_options e) with Some v => v | None => VInt DEFAULT_UPDATE_INTERVAL end in
  let name := vget "name" (e_data e) in
  rmap (fun i => {|
    hs_entry_id := e_id e; hs_hub_name := if truthy name then name else VStr "EyBond Hub";
    hs_interval := Z.max MIN_INTERVAL_S i; hs_known := ∅; hs_seeded := false; hs_tracking := false |})
    (int_of_val interval).

Definition with_known (known : gset string) (seeded tracking : bool) (s : hub_sensor) : hub_sensor := {|
  hs_entry_id := hs_entry_id s; hs_hub_name := hs_hub_name s; hs_interval := hs_interval s;
  hs_known := known; hs_seeded := seeded; hs_tracking := tracking |}.

(** [extra_state_attributes] *)
Definition dongle_item (r : DongleRecord) : pydict := [
  ("pn", VStr (pn r)); ("status", VStr (status_value (status r))); ("enabled", VBool (enabled r));
  ("protocol", VStr match protocol r with Some p => if String.eqb p "" then "none" else p | None => "none" end);
  ("devaddr", VInt (devaddr r)); ("name", VStr (if String.eqb (name r) "" then pn r else name r));
  ("last_seen", VStr (last_seen r))].

Definition hub_sensor_attributes (reg : option dongles) : pydict := [
  ("connected", VInt (Z.of_nat (connected_count reg)));
  ("dongles", VList (map (fun r => VDict (dongle_item r)) (match reg with Some reg => all_records reg | None => [] end)))].

(** [async_added_to_hass] and [async_will_remove_from_hass] *)
Definition sensor_added (reg : option dongles) (s : hub_sensor) : hub_sensor :=
  with_known (match reg with Some _ => seed_known reg | None => hs_known s end) true true s.

Definition will_remove (s : hub_sensor) : hub_sensor := with_known (hs_known s) (hs_seeded s) false s.

(** [_notify_new]: a notification; [show] is [str()]. *)
Record notification := { n_title : string; n_id : string; n_text : string }.

Definition notification_id (p : string) : string := (DOMAIN ++ "_eybond_new_" ++ p)%string.

Definition NL2 : string := String "010" (String "010" "").

Definition notify_new (show : pyval -> string) (s : hub_sensor) (p : string) : notification := {|
  n_title := "EyBond: new dongle discovered"; n_id := notification_id p;
  n_text := ("New EyBond dongle **" ++ p ++ "** connected to hub **" ++ show (hs_hub_name s) ++ "**." ++ NL2
             ++ "Open the hub options (Settings → Devices & Services → DESS Monitor Local → Configure → Manage discovered devices) "
             ++ "to assign a protocol and enable polling.")%string |}.

(** [_tick]: the notifications made and the state written. *)
Definition sensor_tick (show : pyval -> string) (reg : option dongles) (s : hub_sensor)
    : hub_sensor * list notification * (Z * pydict) :=
  let state := (Z.of_nat (discovered_value reg), hub_sensor_attributes reg) in
  if hs_seeded s then
    let '(known, told) := maybe_notify_new reg (hs_known s) in
    (with_known known true (hs_tracking s) s, map (notify_new show s) told, state)
  else (s, [], state).

(** The ticks of a sensor over the registries it sees. *)
Fixpoint sensor_run (show : pyval -> string) (regs : list (option dongles)) (s : hub_sensor) : list notification :=
  match regs with
  | [] => []
  | reg :: regs => let '(s, told, _) := sensor_tick show reg s in told ++ sensor_run show regs s
  end.

(** [sensor.py]: the sensor of a hub entry. *)
Definition has_hub_sensor (e : config_entry) : bool :=
  match vget "entry_kind" (e_options e) with VStr s => String.eqb s ENTRY_KIND_EYBOND_HUB | _ => false end.

(** *** Lemmas *)

Lemma notification_id_inj p q : notification_id p = notification_id q -> p = q.
Proof. intros H. exact (inj (String.append (DOMAIN ++ "_eybond_new_")%string) p q H). Qed.

Lemma sensor_run_notify show regs : forall s, hs_seeded s = true ->
  sensor_run show regs s = map (notify_new show s) (notify_run regs (hs_known s)).
Proof.
  induction regs as [|reg regs IH]; intros s Hs; [reflexivity|]. cbn [sensor_run notify_run]. unfold sensor_tick. rewrite Hs.
  destruct (maybe_notify_new reg (hs_known s)) as [known told]. rewrite IH by reflexivity. cbn [hs_known with_known].
  rewrite map_app. reflexivity.
Qed.

Lemma run_ids show regs s : hs_seeded s = true ->
  map n_id (sensor_run show regs s) = map notification_id (notify_run regs (hs_known s)).
Proof. intros H. rewrite sensor_run_notify by exact H. now rewrite map_map. Qed.

(** ** Property: notifications *)

(** The sensor of a hub, from the registry it finds when it is added and over
    any later ones, makes at most one notification per dongle (no two have the
    same id, which would replace the first), none for a dongle it found, and one
    for a dongle that shows up later exactly when it is not enabled yet the first
    time it is seen; before it was added it makes none. *)
Theorem hub_sensor_tells_once (show : pyval -> string) (s : hub_sensor) (reg0 : option dongles) (regs : list (option dongles)) :
  let ids := map n_id (sensor_run show regs (sensor_added reg0 s)) in
  NoDup ids
  /\ (forall reg p, reg0 = Some reg -> p ∈ map pn (all_records reg) -> notification_id p ∉ ids)
  /\ (forall reg pre reg1 post r, reg0 = Some reg -> regs = pre ++ Some reg1 :: post -> NoDup (map pn (all_records reg1)) ->
        r ∈ all_records reg1 -> pn r ∉ map pn (all_records reg) ->
        (forall reg2, Some reg2 ∈ pre -> pn r ∉ map pn (all_records reg2)) ->
        (notification_id (pn r) ∈ ids <-> enabled r = false))
  /\ (hs_seeded s = false -> sensor_run show regs s = []).
Proof.
  intros ids. subst ids. rewrite run_ids by reflexivity.
  set (known := hs_known (sensor_added reg0 s)). destruct (new_dongles_told_once regs known) as (H1 & H2 & H3).
  assert (forall p l, notification_id p ∈ map notification_id l <-> p ∈ l) as Hid.
  { intros p l. rewrite !list_elem_of_In, in_map_iff. split; [intros (q & E & Hq)|intros H; now exists p].
    apply notification_id_inj in E. now subst. }
  split; [|split; [|split]].
  - apply NoDup_fmap_2; [|exact H1]. intros p q. apply notification_id_inj.
  - intros reg p -> Hp. rewrite Hid. intros H. apply (H2 p H). subst known. cbn. now apply elem_of_list_to_set.
  - intros reg pre reg1 post r -> -> Hn Hr Hk Hpre. rewrite Hid. apply (H3 pre reg1 post r); auto.
    subst known. cbn. now rewrite elem_of_list_to_set.
  - intros Hs. clear -Hs. induction regs as [|reg regs IH]; [reflexivity|]. cbn [sensor_run]. unfold sensor_tick. now rewrite Hs.
Qed.

Lemma hub_sensor_tells_once_witness :
  notification_id "Q0011223344" ∉ map n_id (sensor_run (fun _ => "Hub"%string) [Some demo_reg; None; Some demo_reg]
    (sensor_added (Some demo_reg) {| hs_entry_id := "hub"; hs_hub_name := VStr "Hub"; hs_interval := 10; hs_known := ∅;
                                      hs_seeded := false; hs_tracking := false |})).
Proof.
  refine (proj1 (proj2 (hub_sensor_tells_once (fun _ => "Hub"%string) _ (Some demo_reg) [Some demo_reg; None; Some demo_reg]))
    demo_reg "Q0011223344"%string eq_refl _).
  vm_compute. left.
Defined.
