(* ===== verification/EybondSend.v ===== *)
(** One request through a dongle: [EybondManager.send_frame] and the heartbeat
    writer of [api/protocols/eybond_dongle.py].

    The coroutine is a function of what other tasks do to the manager while it
    waits: a list of steps for each of its awaits. *)

From Stdlib Require Import ZArith String Ascii.
From stdpp Require Import base gmap sets fin_sets fin_maps list strings relations.
From S2P Require Import Prelude PyStr PyInt PyDict Discovery EybondFrame EybondManager.
#[local] Set Warnings "-clear-no-such-hyp".
#[local] Open Scope Z_scope.

(** ** Steps of other tasks *)

Inductive mevent :=
| EvAccept (peer : string)
| EvFrame (now : string) (sid : Z) (h : EyHeader) (payload : bytes)
| EvClose (now : string) (sid : Z)
| EvTick (sid : Z)
| EvSend (sid devaddr : Z) (v_frame : bytes)
| EvEnd (sid : Z)
| EvCancel (sid : Z)
| EvReady (p : string)
| EvDrop (sid : Z)
| EvClear
| EvForce (time duration : Z)
| EvEdit (e : registry_edit).

Definition lock_free (sid : Z) (m : mgr) : bool :=
  match m_objs m !! sid with Some s => match s_lock s with None => true | Some _ => false end | None => false end.

(** A step, when it is possible. *)
Definition run_event (m : mgr) (e : mevent) : mgr :=
  match e with
  | EvAccept peer => accept peer m
  | EvFrame now sid h payload => if decide (sid ∈ m_running m) then on_frame now sid h payload m else m
  | EvClose now sid => if decide (sid ∈ m_running m) then close now sid m else m
  | EvTick sid => heartbeat_tick sid m
  | EvSend sid devaddr v_frame => if lock_free sid m then fst (send_start sid devaddr v_frame m) else m
  | EvEnd sid => send_end sid m
  | EvCancel sid => send_cancel sid m
  | EvReady p => ready_event_for p m
  | EvDrop sid => drop_session sid "manager shutting down" m
  | EvClear => clear_sessions m
  | EvForce time duration => force_rediscovery time duration m
  | EvEdit e => run_edit e m
  end.

Definition run_events (es : list mevent) (m : mgr) : mgr := foldl run_event m es.

(** Steps other tasks may take while a request holds session [sid]: the request
    itself ends or is cancelled by its own coroutine only. *)
Definition by_others (sid : Z) (e : mevent) : bool :=
  match e with EvEnd k | EvCancel k => negb (k =? sid) | _ => true end.

(** ** [send_frame] *)

(** What happens at its awaits: the outcome of [ensure_started]; the steps until
    the ready event fires or the wait times out; the steps until the lock is
    granted; whether the write succeeds; the steps while the write drains and the
    reply is awaited. *)
Record send_waits := {
  sw_start : res unit;
  sw_wait : list mevent;
  sw_woken : bool;
  sw_lock : list mevent;
  sw_written : bool;
  sw_reply : list mevent
}.

(** Whether the target session has to be waited for. *)
Definition must_wait (pn : option string) (m : mgr) : bool :=
  match pn with
  | Some p => bool_decide (m_by_pn m !! p = None)
  | None => negb (nonempty_set (m_sessions m))
  end.

(** [_wait_for_session] with its wait: the manager after it, and the session. *)
Definition find_session (pn : option string) (w : send_waits) (m : mgr) : mgr * option Z :=
  if must_wait pn m then
    let m1 := run_events (sw_wait w) (match pn with Some p => ready_event_for p m | None => m end) in
    (m1, wait_for_session pn m (if sw_woken w then Some m1 else None))
  else (m, wait_for_session pn m None).

(** What the future of the request holds. *)
Definition reply_of (req : Z) (m : mgr) : option answer :=
  match List.find (fun a => fst a =? req) (m_answers m) with Some a => Some (snd a) | None => None end.

(** From the send lock on. *)
Definition send_on (sid devaddr : Z) (v_frame : bytes) (w : send_waits) (m : mgr) : mgr * option (res (option bytes)) :=
  let m := run_events (sw_lock w) m in
  if lock_free sid m then
    let req := m_requests m in
    match send_start sid devaddr v_frame m with
    | (m, Raise e) => (m, Some (Raise e))
    | (m, Ok _) =>
        let m := run_events (List.filter (by_others sid) (sw_reply w)) m in
        let result := if sw_written w then match reply_of req m with Some (Reply raw) => Some raw | _ => None end else None in
        (send_end sid m, Some (Ok result))
    end
  else (m, None).

(** [send_frame]: the manager, and what it returned; nothing while it waits for the
    lock. *)
Definition send_frame (pn : option string) (devaddr : Z) (v_frame : bytes) (w : send_waits) (m : mgr)
  : mgr * option (res (option bytes)) :=
  match sw_start w with
  | Raise e => (m, Some (Raise e))
  | Ok _ =>
      match find_session pn w m with
      | (m, None) => (m, Some (Ok None))
      | (m, Some sid) => send_on sid devaddr v_frame w m
      end
  end.

(** ** [_heartbeat_loop] *)

Definition HEARTBEAT_INTERVAL : Z := 60.

(** One turn: the frame written, and whether the loop goes on; a failed write closes
    the connection, whose reader then ends. *)
Definition heartbeat_turn (now : utc) (written : bool) (sid : Z) (m : mgr) : mgr * res bytes * bool :=
  let m := heartbeat_tick sid m in
  match m_objs m !! sid with
  | Some s => (m, build_heartbeat now (s_tid s) HEARTBEAT_INTERVAL, written)
  | None => (m, Raise (KeyError "session"), false)
  end.

(** ** Lemmas *)

#[local] Instance answer_eq_dec : EqDecision answer.
Proof. solve_decision. Defined.

Lemma run_event_step m e : run_event m e = m \/ wstep anyone m (run_event m e).
Proof.
  destruct e as [peer|now sid h payload|now sid|sid|sid addr f|sid|sid|p|sid| |t d|e]; simpl;
    try (right; apply ws_own; now constructor); try (right; now apply ws_edit).
  - destruct (decide _); [right; apply ws_own; now constructor|now left].
  - destruct (decide _); [right; apply ws_own; now constructor|now left].
  - unfold lock_free. destruct (m_objs m !! sid) as [s|] eqn:Ho; [|now left]. destruct (s_lock s) eqn:El; [now left|].
    right. now apply ws_own, (st_send sid addr f s).
Qed.

Lemma run_events_steps es : forall m, msteps anyone m (run_events es m).
Proof.
  induction es as [|e es IH]; intros m; [constructor|]. simpl.
  destruct (run_event_step m e) as [E|Hs]; [rewrite E; apply IH|]. eapply rtc_l; [exact Hs|apply IH].
Qed.

(** A session keeps the PN it has. *)
Lemma identify_pn now p k s m sid q : m_objs m !! k = Some s -> s_pn s = ""%string -> q <> ""%string ->
  pn_of m sid = Some q -> pn_of (identify now p k s m) sid = Some q.
Proof.
  intros Ho Hp Hq H. unfold identify. cbv zeta. set (m1 := with_obj k _ m).
  assert (pn_of m1 sid = Some q) as H1.
  { unfold m1. rewrite pn_of_with_obj. destruct (decide (sid = k)) as [->|]; [|exact H].
    exfalso. unfold pn_of in H. rewrite Ho in H. simpl in H. congruence. }
  destruct (m_by_pn m1 !! p) as [old|]; [|exact H1]. destruct (decide _); [exact H1|].
  transitivity (pn_of (drop_session old "replaced by reconnect with same PN" m1) sid); [reflexivity|].
  now rewrite drop_pn_of.
Qed.

Lemma mstep_pn m m' sid q : mstep m m' -> routing_inv m -> q <> ""%string -> pn_of m sid = Some q -> pn_of m' sid = Some q.
Proof.
  intros Hs Hri Hq H.
  destruct Hs as [peer m|now k h payload m Hin|now k m Hin|k m|k addr f s m Ho Hl|k m|k m|k m|m|p m|t d m]; try exact H.
  - unfold pn_of. simpl. destruct (decide (sid = m_next m)) as [->|Hne]; [|now rewrite lookup_insert_ne by congruence].
    pose proof (ri_next m Hri (m_next m) (mk_is_Some _ _ H)). lia.
  - unfold on_frame. destruct (m_objs m !! k) as [s|] eqn:Ho; [|exact H]. destruct (_ =? FC_HEARTBEAT).
    + unfold on_heartbeat. destruct (negb (String.eqb (heartbeat_pn payload) "") && String.eqb (s_pn s) "") eqn:E;
        [|destruct (negb (String.eqb (s_pn s) "")); exact H]. apply andb_prop in E as [_ E]. apply String.eqb_eq in E. now apply identify_pn.
    + destruct (_ =? FC_FORWARD2DEVICE); [|exact H]. unfold on_forward. destruct (s_pending s !! _); [|exact H].
      change (pn_of (with_answers _ ?x) sid) with (pn_of x sid). rewrite pn_of_with_obj.
      destruct (decide (sid = k)) as [->|]; [|exact H]. unfold pn_of in H. now rewrite Ho in H.
  - unfold close. destruct (negb _ && _); simpl; change (pn_of (drop_session k "dongle disconnected" m) sid = Some q); now rewrite drop_pn_of.
  - unfold heartbeat_tick. destruct (m_objs m !! k) as [s|] eqn:Ho; [|exact H]. rewrite pn_of_with_obj.
    destruct (decide (sid = k)) as [->|]; [|exact H]. unfold pn_of in H. now rewrite Ho in H.
  - rewrite (proj1 (same_send_start k addr f s m Ho) sid). exact H.
  - rewrite (proj1 (same_send_end k m) sid). exact H.
  - rewrite (proj1 (same_send_cancel k m) sid). exact H.
  - now rewrite drop_pn_of.
  - unfold ready_event_for. destruct (m_ready m !! p); exact H.
Qed.

Lemma steps_pn P m m' sid q : msteps P m m' -> mgr_inv m -> q <> ""%string -> pn_of m sid = Some q -> pn_of m' sid = Some q.
Proof.
  intros H. revert sid q. induction H as [m|m1 m2 m3 Hs _ IH]; intros sid q Hi Hq Hp; [exact Hp|].
  apply IH; [now apply (wstep_inv P m1)|exact Hq|]. destruct Hs as [a b Hs|e a _]; [|exact Hp].
  exact (mstep_pn a b sid q Hs (proj1 Hi) Hq Hp).
Qed.

(** A session object is never forgotten. *)
Lemma drop_obj sid reason m k : is_Some (m_objs m !! k) -> is_Some (m_objs (drop_session sid reason m) !! k).
Proof. intros H. pose proof (drop_lock sid reason m k) as E. destruct H as [s H]. rewrite H in E. now destruct (m_objs (drop_session _ _ _) !! k). Qed.

Lemma with_obj_obj k s m sid : is_Some (m_objs m !! sid) -> is_Some (m_objs (with_obj k s m) !! sid).
Proof.
  intros H. cbn. destruct (decide (sid = k)) as [->|]; [rewrite lookup_insert_eq; eauto|now rewrite lookup_insert_ne by congruence].
Qed.

Lemma frame_obj now k h payload m sid : is_Some (m_objs m !! sid) -> is_Some (m_objs (on_frame now k h payload m) !! sid).
Proof.
  intros H. unfold on_frame. destruct (m_objs m !! k) as [s|] eqn:Ho; [|exact H]. destruct (_ =? FC_HEARTBEAT).
  - unfold on_heartbeat. destruct (_ && _); [|destruct (negb _); exact H].
    unfold identify. cbv zeta. pose proof (with_obj_obj k (with_pn (heartbeat_pn payload) s) m sid H) as H1.
    set (m1 := with_obj k _ m) in *. destruct (m_by_pn m1 !! _) as [old|]; [destruct (decide _)|]; try exact H1.
    exact (drop_obj old "replaced by reconnect with same PN" m1 sid H1).
  - destruct (_ =? FC_FORWARD2DEVICE); [|exact H]. unfold on_forward. destruct (s_pending s !! _); [|exact H].
    exact (with_obj_obj k _ m sid H).
Qed.

Lemma mstep_obj m m' sid : mstep m m' -> is_Some (m_objs m !! sid) -> is_Some (m_objs m' !! sid).
Proof.
  intros Hs H.
  destruct Hs as [peer m|now k h payload m Hin|now k m Hin|k m|k addr f s m Ho Hl|k m|k m|k m|m|p m|t d m];
    try exact H; auto using frame_obj, drop_obj.
  - exact (with_obj_obj (m_next m) _ m sid H).
  - unfold close. destruct (negb _ && _); exact (drop_obj k "dongle disconnected" m sid H).
  - unfold heartbeat_tick. destruct (m_objs m !! k); [now apply with_obj_obj|exact H].
  - unfold send_start. rewrite Ho. destruct (build_forward2device _ _ _ _); exact (with_obj_obj k _ m sid H).
  - unfold send_end. destruct (m_objs m !! k) as [s|]; [|exact H]. destruct (s_lock s) as [[r t]|]; [|exact H].
    destruct (answered r m); exact (with_obj_obj k _ m sid H).
  - unfold send_cancel. destruct (m_objs m !! k) as [s|]; [|exact H]. destruct (s_lock s) as [[r t]|]; [|exact H].
    exact (with_obj_obj k _ m sid H).
  - unfold ready_event_for. destruct (m_ready m !! p); exact H.
Qed.

Lemma steps_obj P m m' sid : msteps P m m' -> is_Some (m_objs m !! sid) -> is_Some (m_objs m' !! sid).
Proof.
  induction 1 as [m|m1 m2 m3 Hs _ IH]; [auto|]. intros H. apply IH.
  destruct Hs as [a b Hs|e a _]; [exact (mstep_obj a b sid Hs H)|exact H].
Qed.

Definition lock_of (sid : Z) (m : mgr) : option (option (Z * Z)) := s_lock <$> m_objs m !! sid.

Lemma lock_with_obj k s s' m sid : m_objs m !! k = Some s -> s_lock s' = s_lock s -> lock_of sid (with_obj k s' m) = lock_of sid m.
Proof.
  intros Ho El. unfold lock_of. simpl. destruct (decide (sid = k)) as [->|Hne]; [|now rewrite lookup_insert_ne by congruence].
  rewrite lookup_insert_eq, Ho. simpl. now rewrite El.
Qed.

Lemma lock_frame now k h payload m sid : lock_of sid (on_frame now k h payload m) = lock_of sid m.
Proof.
  unfold on_frame. destruct (m_objs m !! k) as [s|] eqn:Ho; [|reflexivity]. destruct (_ =? FC_HEARTBEAT).
  - unfold on_heartbeat. destruct (negb (String.eqb (heartbeat_pn payload) "") && String.eqb (s_pn s) "");
      [|destruct (negb (String.eqb (s_pn s) "")); reflexivity].
    unfold identify. cbv zeta. set (m1 := with_obj k _ m).
    assert (lock_of sid m1 = lock_of sid m) as E by (now apply (lock_with_obj k s)).
    destruct (m_by_pn m1 !! heartbeat_pn payload) as [old|]; [|exact E]. destruct (decide _); [exact E|].
    rewrite <- E. exact (drop_lock old "replaced by reconnect with same PN"%string m1 sid).
  - destruct (_ =? FC_FORWARD2DEVICE); [|reflexivity]. unfold on_forward. destruct (s_pending s !! _); [|reflexivity].
    exact (lock_with_obj k s (with_pending (delete (h_tid h) (s_pending s)) (s_lock s) s) m sid Ho eq_refl).
Qed.

(** Other tasks leave the lock with the request that holds it. *)
Lemma event_lock m e sid req tid : mgr_inv m -> by_others sid e = true ->
  lock_of sid m = Some (Some (req, tid)) -> lock_of sid (run_event m e) = Some (Some (req, tid)).
Proof.
  intros [Hri Hq] He Hl. pose proof Hl as Hl'. unfold lock_of in Hl'. destruct (m_objs m !! sid) as [s0|] eqn:H0; [|discriminate].
  simpl in Hl'. injection Hl' as Hl0.
  destruct e as [peer|now k h payload|now k|k|k addr f|k|k|p|k| |t d|e]; simpl in *; try exact Hl.
  - unfold lock_of. simpl. destruct (decide (sid = m_next m)) as [->|Hne]; [|now rewrite lookup_insert_ne, H0, <- Hl0 by congruence].
    pose proof (qi_next m Hq _ _ H0). lia.
  - destruct (decide _); [|exact Hl]. now rewrite lock_frame.
  - destruct (decide _); [|exact Hl]. unfold close. destruct (negb _ && _); simpl;
      change (lock_of sid (drop_session k "dongle disconnected" m) = Some (Some (req, tid)));
      unfold lock_of; rewrite drop_lock; exact Hl.
  - unfold heartbeat_tick. destruct (m_objs m !! k) as [s|] eqn:Ho; [|exact Hl]. now rewrite (lock_with_obj k s).
  - unfold lock_free. destruct (m_objs m !! k) as [s|] eqn:Ho; [|exact Hl]. destruct (s_lock s) eqn:El; [exact Hl|].
    assert (sid <> k) as Hne by (intros ->; congruence).
    unfold send_start. rewrite Ho. destruct (build_forward2device _ _ _ _); cbn [fst]; unfold lock_of; simpl;
      rewrite lookup_insert_ne by congruence; rewrite H0; simpl; now rewrite Hl0.
  - apply negb_true_iff, Z.eqb_neq in He. unfold send_end. destruct (m_objs m !! k) as [s|] eqn:Ho; [|exact Hl].
    destruct (s_lock s) as [[r t]|] eqn:El; [|exact Hl].
    destruct (answered r m); unfold lock_of; simpl; rewrite lookup_insert_ne by congruence; rewrite H0; simpl; now rewrite Hl0.
  - apply negb_true_iff, Z.eqb_neq in He. unfold send_cancel. destruct (m_objs m !! k) as [s|] eqn:Ho; [|exact Hl].
    destruct (s_lock s) as [[r t]|] eqn:El; [|exact Hl].
    unfold lock_of; simpl; rewrite lookup_insert_ne by congruence; rewrite H0; simpl; now rewrite Hl0.
  - unfold ready_event_for. destruct (m_ready m !! p); exact Hl.
  - unfold lock_of. now rewrite drop_lock.
Qed.

(** Only a frame gives a reply. *)
Lemma drop_all_replies reason l req pl : forall m,
  (req, Reply pl) ∈ m_answers (foldl (fun m k => drop_session k reason m) m l) -> (req, Reply pl) ∈ m_answers m.
Proof.
  induction l as [|k l IH]; intros m H; [exact H|]. simpl in H. apply IH in H.
  destruct (drop_answers k reason m) as (l' & E & Hn). rewrite E in H. apply elem_of_app in H as [H|H]; [exact H|].
  now apply Hn in H.
Qed.

Lemma event_reply m e req pl : request_inv m -> (req, Reply pl) ∈ m_answers (run_event m e) ->
  (req, Reply pl) ∈ m_answers m
  \/ exists now sid h s, e = EvFrame now sid h pl /\ h_fcode h = FC_FORWARD2DEVICE
      /\ m_objs m !! sid = Some s /\ s_lock s = Some (req, h_tid h).
Proof.
  intros Hq H. destruct (decide ((req, Reply pl) ∈ m_answers m)) as [Hin|Hni]; [now left|right].
  destruct e as [peer|now k h payload|now k|k|k addr f|k|k|p|k| |t d|e]; simpl in H; try contradiction.
  - destruct (decide _); [|contradiction]. destruct (frame_reply now k h payload m req pl Hq H Hni) as (-> & Hf & s & Ho & El).
    now exists now, k, h, s.
  - destruct (decide _); [|contradiction]. exfalso. apply Hni.
    assert (m_answers (close now k m) = m_answers (drop_session k "dongle disconnected" m)) as E
      by (unfold close; destruct (negb _ && _); reflexivity).
    rewrite E in H. exact (drop_all_replies "dongle disconnected" [k] req pl m H).
  - exfalso. unfold heartbeat_tick in H. destruct (m_objs m !! k); contradiction.
  - exfalso. destruct (lock_free k m); [|contradiction]. unfold send_start in H. destruct (m_objs m !! k); [|contradiction].
    destruct (build_forward2device _ _ _ _); contradiction.
  - exfalso. unfold send_end in H. destruct (m_objs m !! k) as [s|]; [|contradiction]. destruct (s_lock s) as [[r t]|]; [|contradiction].
    destruct (answered r m); [contradiction|]. simpl in H. apply elem_of_app in H as [H|H]; [contradiction|].
    apply list_elem_of_singleton in H. discriminate.
  - exfalso. unfold send_cancel in H. destruct (m_objs m !! k) as [s|]; [|contradiction]. destruct (s_lock s) as [[r t]|]; [|contradiction].
    simpl in H. apply elem_of_app in H as [H|H]; [contradiction|]. destruct (answered r m); [now apply elem_of_nil in H|].
    apply list_elem_of_singleton in H. discriminate.
  - exfalso. unfold ready_event_for in H. destruct (m_ready m !! p); contradiction.
  - exfalso. apply Hni. exact (drop_all_replies "manager shutting down" [k] req pl m H).
Qed.

(** A reply that came while request [req] held [sid] is the payload of a frame
    received on [sid] with its transaction id. *)
Lemma events_reply es sid req tid pl : forall m, mgr_inv m -> lock_of sid m = Some (Some (req, tid)) ->
  (req, Reply pl) ∉ m_answers m -> (req, Reply pl) ∈ m_answers (run_events (List.filter (by_others sid) es) m) ->
  exists now h, In (EvFrame now sid h pl) es /\ h_fcode h = FC_FORWARD2DEVICE /\ h_tid h = tid.
Proof.
  induction es as [|e es IH]; intros m Hi Hl Hni Hin; [contradiction|]. cbn in Hin. destruct (by_others sid e) eqn:Hb;
    [|destruct (IH m Hi Hl Hni Hin) as (now & h & Hs & Hrest); exists now, h; split; [now right|exact Hrest]].
  change (run_events (e :: List.filter (by_others sid) es) m) with (run_events (List.filter (by_others sid) es) (run_event m e)) in Hin.
  destruct (decide ((req, Reply pl) ∈ m_answers (run_event m e))) as [Hnew|Hno].
  - destruct (event_reply m e req pl (proj2 Hi) Hnew) as [Hold|(now & k & h & s & -> & Hf & Ho & El)]; [contradiction|].
    unfold lock_of in Hl. destruct (m_objs m !! sid) as [s0|] eqn:H0; [|discriminate]. simpl in Hl. injection Hl as Hl.
    pose proof (qi_lock m (proj2 Hi) _ _ _ _ _ _ _ Ho H0 El Hl) as ->. exists now, h.
    split; [now left|]. split; [exact Hf|]. rewrite H0 in Ho. injection Ho as ->. congruence.
  - destruct (IH (run_event m e)) as (now & h & Hs & Hrest); auto.
    + destruct (run_event_step m e) as [->|Hstep]; [exact Hi|now apply (wstep_inv anyone m)].
    + now apply event_lock.
    + exists now, h. split; [now right|exact Hrest].
Qed.

Lemma reply_of_spec req m a : request_inv m -> reply_of req m = Some a <-> (req, a) ∈ m_answers m.
Proof.
  intros Hq. unfold reply_of. split.
  - destruct (List.find _ _) as [[r b]|] eqn:E; [|discriminate]. intros [= <-]. apply List.find_some in E as [Hin E].
    apply Z.eqb_eq in E. cbn in *. subst r. now apply list_elem_of_In.
  - intros Hin. destruct (List.find _ _) as [[r b]|] eqn:E.
    + apply List.find_some in E as [Hb E]. apply Z.eqb_eq in E. cbn in *. subst r. f_equal.
      apply (answer_unique m req); [exact Hq|now apply list_elem_of_In|exact Hin].
    + exfalso. pose proof (List.find_none _ _ E (req, a)) as H. cbn in H. rewrite Z.eqb_refl in H.
      discriminate H. now apply list_elem_of_In.
Qed.

(** The transaction id the next request of a session takes. *)
Definition request_tid (s : session) : Z := Z.land (s_tid s + 1) 0xFFFF.

(** What taking the lock and writing the frame leaves. *)
Lemma send_start_holds sid devaddr v_frame m m1 frame : mgr_inv m -> lock_free sid m = true ->
  send_start sid devaddr v_frame m = (m1, Ok frame) ->
  mgr_inv m1 /\ wstep anyone m m1 /\ (forall a, (m_requests m, a) ∉ m_answers m1)
  /\ exists s, m_objs m !! sid = Some s /\ lock_of sid m1 = Some (Some (m_requests m, request_tid s))
     /\ build_forward2device (request_tid s) v_frame devaddr DEFAULT_DEVCODE = Ok frame.
Proof.
  intros Hi Hf E. unfold lock_free in Hf. destruct (m_objs m !! sid) as [s|] eqn:Ho; [|discriminate].
  destruct (s_lock s) eqn:El; [discriminate|]. assert (mstep m m1) as Hs.
  { pose proof (st_send sid devaddr v_frame s m Ho El) as H. now rewrite E in H. }
  split; [exact (mstep_inv m m1 Hs Hi)|]. split; [now apply ws_own|]. unfold send_start in E. rewrite Ho in E.
  destruct (build_forward2device _ _ _ _) as [f|e] eqn:Eb; [|discriminate]. injection E as <- <-. split.
  - intros a H. simpl in H. apply list_elem_of_In, (in_map fst), list_elem_of_In in H.
    pose proof (qi_range m (proj2 Hi) _ H). simpl in *. lia.
  - exists s. split; [reflexivity|]. split; [|exact Eb]. unfold lock_of. simpl. now rewrite lookup_insert_eq.
Qed.

Lemma send_end_frees sid m : lock_of sid m <> None -> lock_free sid (send_end sid m) = true.
Proof.
  unfold lock_of, send_end, lock_free. destruct (m_objs m !! sid) as [s|] eqn:Ho; [|intros []; reflexivity]. intros _.
  destruct (s_lock s) as [[r t]|] eqn:El; [|now rewrite Ho, El].
  destruct (answered r m); simpl; now rewrite lookup_insert_eq.
Qed.

Lemma events_lock es sid req tid : forall m, mgr_inv m -> lock_of sid m = Some (Some (req, tid)) ->
  lock_of sid (run_events (List.filter (by_others sid) es) m) = Some (Some (req, tid)).
Proof.
  induction es as [|e es IH]; intros m Hi Hl; [exact Hl|]. cbn. destruct (by_others sid e) eqn:Hb; [|now apply IH].
  change (run_events (e :: List.filter (by_others sid) es) m) with (run_events (List.filter (by_others sid) es) (run_event m e)).
  apply IH; [|now apply event_lock]. destruct (run_event_step m e) as [->|Hs]; [exact Hi|now apply (wstep_inv anyone m)].
Qed.

(** The session a request goes to. *)
Lemma find_session_target reg pn w m m1 o : mreach reg m -> find_session pn w m = (m1, o) ->
  mreach reg m1 /\ forall sid, o = Some sid ->
    match pn with Some p => p <> ""%string /\ pn_of m1 sid = Some p | None => pnless_target m1 = Some sid end.
Proof.
  assert (forall m p sid, mreach reg m -> m_by_pn m !! p = Some sid -> p <> ""%string /\ pn_of m sid = Some p) as Hmap.
  { intros a p sid Ha Hp. destruct (ri_map _ (proj1 (mreach_inv _ _ Ha)) p sid Hp) as (Hne & _ & H). now split. }
  intros Hr. unfold find_session. destruct (must_wait pn m) eqn:Hw; intros [= <- Hs].
  - assert (mreach reg (run_events (sw_wait w) (match pn with Some p => ready_event_for p m | None => m end))) as Hr1.
    { apply (mreach_steps reg m); [exact Hr|]. destruct pn as [p|]; [|apply run_events_steps].
      eapply rtc_l; [apply ws_own, st_ready|apply run_events_steps]. }
    split; [exact Hr1|]. intros sid ->. unfold must_wait in Hw. destruct pn as [p|]; unfold wait_for_session in Hs.
    + apply bool_decide_eq_true in Hw. rewrite Hw in Hs. destruct (sw_woken w); [|discriminate]. now apply Hmap.
    + apply negb_true_iff in Hw. rewrite Hw in Hs. now destruct (sw_woken w).
  - split; [exact Hr|]. intros sid ->. unfold must_wait in Hw. destruct pn as [p|]; unfold wait_for_session in Hs.
    + destruct (m_by_pn m !! p) as [k|] eqn:E; [|discriminate]. injection Hs as ->. now apply Hmap.
    + apply negb_false_iff in Hw. now rewrite Hw in Hs.
Qed.

Lemma find_session_spec reg pn w m m1 sid : mreach reg m -> find_session pn w m = (m1, Some sid) ->
  mreach reg m1 /\ is_Some (m_objs m1 !! sid) /\ forall p, pn = Some p -> p <> ""%string /\ pn_of m1 sid = Some p.
Proof.
  intros Hr E. destruct (find_session_target reg pn w m m1 _ Hr E) as [Hr1 Ht]. specialize (Ht sid eq_refl).
  split; [exact Hr1|]. split; [|now intros p ->]. destruct (mreach_inv _ _ Hr1) as [Hi _].
  assert (is_Some (pn_of m1 sid)) as Hs.
  { destruct pn as [p|]; [rewrite (proj2 Ht); eauto|]. apply (ri_running _ Hi), (ri_sessions _ Hi), elem_of_elements.
    unfold pnless_target in Ht. destruct (elements (m_sessions m1)) as [|k [|k' l]]; try discriminate.
    injection Ht as ->. now apply list_elem_of_singleton. }
  unfold pn_of in Hs. destruct (m_objs m1 !! sid); [eauto|now destruct Hs].
Qed.

(** ** Properties *)

(** C36: whatever other tasks do while it waits, what [send_frame] returns for a dongle is
    the payload of a frame received, while the reply was awaited, on the very session
    the request resolved to, which announced that dongle's PN, and carrying the
    transaction id of the frame written: the one after the session's last when its
    free lock was taken; and the lock is free again. A request that has not returned
    is waiting for the lock of the session it resolved to, held by another request. *)
Theorem send_frame_addressed (reg : dongles) (m : mgr) (Hr : mreach reg m) (pn : option string) (devaddr : Z) (v_frame : bytes)
    (w : send_waits) (m' : mgr) (r : option (res (option bytes))) (Hs : send_frame pn devaddr v_frame w m = (m', r)) :
  mreach reg m'
  /\ (r = None -> exists m1 sid holder, find_session pn w m = (m1, Some sid) /\ m' = run_events (sw_lock w) m1
        /\ lock_of sid m' = Some (Some holder))
  /\ (forall raw, r = Some (Ok (Some raw)) ->
        exists m1 sid s frame now h, find_session pn w m = (m1, Some sid)
        /\ let m2 := run_events (sw_lock w) m1 in
           m_objs m2 !! sid = Some s /\ s_lock s = None /\ snd (send_start sid devaddr v_frame m2) = Ok frame
        /\ build_forward2device (request_tid s) v_frame devaddr DEFAULT_DEVCODE = Ok frame
        /\ In (EvFrame now sid h raw) (sw_reply w) /\ h_fcode h = FC_FORWARD2DEVICE /\ h_tid h = request_tid s
        /\ (forall p, pn = Some p -> pn_of m' sid = Some p)
        /\ lock_free sid m' = true).
Proof.
  unfold send_frame in Hs. destruct (sw_start w) as [u|e]; [|injection Hs as <- <-; easy].
  destruct (find_session pn w m) as [m1 o] eqn:Ef. destruct o as [sid|].
  2:{ injection Hs as <- <-. split; [exact (proj1 (find_session_target reg pn w m m1 _ Hr Ef))|easy]. }
  destruct (find_session_spec reg pn w m m1 sid Hr Ef) as (Hr1 & Hobj & Hp). unfold send_on in Hs.
  pose proof (run_events_steps (sw_lock w) m1) as H12. set (m2 := run_events (sw_lock w) m1) in *.
  assert (mreach reg m2) as Hr2 by (exact (mreach_steps reg m1 m2 Hr1 H12)).
  destruct (lock_free sid m2) eqn:Hf.
  2:{ injection Hs as <- <-. split; [exact Hr2|]. split; [|easy]. intros _. exists m1, sid.
      destruct (steps_obj anyone m1 m2 sid H12 Hobj) as [s Hs]. unfold lock_free in Hf. unfold lock_of. rewrite Hs in Hf |- *.
      destruct (s_lock s) as [holder|] eqn:El; [|discriminate]. exists holder. cbn. now rewrite El. }
  destruct (send_start sid devaddr v_frame m2) as [m3 [frame|e]] eqn:E.
  - destruct (send_start_holds sid devaddr v_frame m2 m3 frame (mreach_inv _ _ Hr2) Hf E) as (Hi3 & Hstep & Hni & s & Ho & Hl & Hb).
    set (m4 := run_events (List.filter (by_others sid) (sw_reply w)) m3) in *. injection Hs as <- <-.
    assert (msteps anyone m2 m4) as H24 by (eapply rtc_l; [exact Hstep|apply run_events_steps]).
    assert (msteps anyone m2 (send_end sid m4)) as H25 by (eapply rtc_r; [exact H24|apply ws_own, st_end]).
    assert (mreach reg m4) as Hr4 by (exact (mreach_steps reg m2 m4 Hr2 H24)).
    split; [exact (mreach_steps reg m2 _ Hr2 H25)|]. split; [easy|]. intros raw [= Hraw]. destruct (sw_written w); [|discriminate].
    destruct (reply_of (m_requests m2) m4) as [[pl| | |]|] eqn:Er; try discriminate. injection Hraw as ->.
    apply reply_of_spec in Er; [|exact (proj2 (mreach_inv _ _ Hr4))].
    destruct (events_reply (sw_reply w) sid _ _ raw m3 Hi3 Hl (Hni _) Er) as (now & h & Hin & Hfc & Ht).
    exists m1, sid, s, frame, now, h. split; [reflexivity|]. cbv zeta. fold m2. split; [exact Ho|].
    split; [unfold lock_free in Hf; rewrite Ho in Hf; now destruct (s_lock s)|]. split; [now rewrite E|].
    do 4 (split; [assumption|]). split.
    + intros p Epn. destruct (Hp p Epn) as [Hne Hpn].
      apply (steps_pn anyone m1 (send_end sid m4)); [exact (rtc_trans m1 m2 _ H12 H25)|exact (mreach_inv _ _ Hr1)|assumption..].
    + apply send_end_frees. unfold m4. rewrite (events_lock (sw_reply w) sid _ _ m3 Hi3 Hl). discriminate.
  - injection Hs as <- <-. split; [|easy]. apply (mreach_steps reg m2); [exact Hr2|]. eapply rtc_l; [|constructor].
    unfold lock_free in Hf. destruct (m_objs m2 !! sid) as [s|] eqn:Ho; [|discriminate]. destruct (s_lock s) eqn:El; [discriminate|].
    pose proof (st_send sid devaddr v_frame s m2 Ho El) as H. rewrite E in H. now apply ws_own.
Qed.

Lemma run_events_app es1 es2 m : run_events (es1 ++ es2) m = run_events es2 (run_events es1 m).
Proof. apply foldl_app. Qed.

(** C32: the first frame that carries the transaction id of the waiting request, on its
    session, is what the caller gets, whatever came before it and comes after it, as
    long as the connection did not end first. *)
Theorem reply_reaches_caller (reg : dongles) (m : mgr) (Hr : mreach reg m) (sid devaddr : Z) (v_frame : bytes) (w : send_waits)
    (s : session) (Hs : m_objs m !! sid = Some s) (Hl : s_lock s = None) (Hlock : sw_lock w = []) (Hw : sw_written w = true)
    (frame : bytes) (Hframe : build_forward2device (Z.land (s_tid s + 1) 0xFFFF) v_frame devaddr DEFAULT_DEVCODE = Ok frame)
    (es1 es2 : list mevent) (now : string) (h : EyHeader) (raw : bytes)
    (Hes : sw_reply w = es1 ++ EvFrame now sid h raw :: es2)
    (Hh : h_fcode h = FC_FORWARD2DEVICE /\ h_tid h = Z.land (s_tid s + 1) 0xFFFF) :
  let before := run_events (List.filter (by_others sid) es1) (fst (send_start sid devaddr v_frame m)) in
  answered (m_requests m) before = false -> sid ∈ m_running before ->
  snd (send_on sid devaddr v_frame w m) = Some (Ok (Some raw)).
Proof.
  intros before Ha Hrun. unfold send_on. rewrite Hlock. change (run_events [] m) with m.
  assert (lock_free sid m = true) as Hf by (unfold lock_free; now rewrite Hs, Hl). rewrite Hf.
  destruct (send_start sid devaddr v_frame m) as [m1 [f|e]] eqn:E.
  2:{ unfold send_start in E. rewrite Hs in E. simpl in E. now rewrite Hframe in E. }
  destruct (send_start_holds sid devaddr v_frame m m1 f (mreach_inv _ _ Hr) Hf E) as (Hi1 & Hstep & Hni & s' & Hs' & Hl1 & _).
  rewrite Hs in Hs'. injection Hs' as <-. unfold request_tid in Hl1.
  cbn [fst snd] in *. rewrite Hw, Hes. repeat f_equal.
  assert (List.filter (by_others sid) (es1 ++ EvFrame now sid h raw :: es2)
    = List.filter (by_others sid) es1 ++ EvFrame now sid h raw :: List.filter (by_others sid) es2) as -> by apply List.filter_app.
  rewrite run_events_app. fold before. set (after := run_event before (EvFrame now sid h raw)).
  change (run_events (EvFrame now sid h raw :: ?l) before) with (run_events l after).
  assert (mgr_inv before) as Hib by (apply (msteps_inv anyone m1); [apply run_events_steps|exact Hi1]).
  pose proof (events_lock es1 sid _ _ m1 Hi1 Hl1) as Hlb. fold before in Hlb. unfold lock_of in Hlb.
  destruct (m_objs before !! sid) as [sb|] eqn:Hob; [|discriminate]. simpl in Hlb. injection Hlb as Hlb.
  assert ((m_requests m, Reply raw) ∈ m_answers after) as Hin.
  { destruct (qi_obj before (proj2 Hib) sid sb Hob) as (_ & _ & Hlk). destruct (Hlk _ _ Hlb) as [_ [Ha'|Hp]]; [congruence|].
    unfold after. simpl. rewrite decide_True by exact Hrun. unfold on_frame. rewrite Hob. destruct Hh as [-> ->]. simpl.
    unfold on_forward. rewrite Hp, Ha. simpl. apply elem_of_app. right. now apply list_elem_of_singleton. }
  set (m4 := run_events _ after).
  assert (mgr_inv m4) as Hi4.
  { apply (msteps_inv anyone after); [apply run_events_steps|]. unfold after.
    destruct (run_event_step before (EvFrame now sid h raw)) as [->|Hst]; [exact Hib|now apply (wstep_inv anyone before)]. }
  assert (reply_of (m_requests m) m4 = Some (Reply raw)) as ->; [|reflexivity].
  apply reply_of_spec; [exact (proj2 Hi4)|]. eapply elem_of_prefix; [exact Hin|]. apply (steps_answers anyone), run_events_steps.
Qed.

(** ** Witnesses *)

Definition demo_waits : send_waits := {|
  sw_start := Ok tt; sw_wait := []; sw_woken := false; sw_lock := []; sw_written := true;
  sw_reply := [EvAccept "10.0.0.10:2"; EvTick 0; EvFrame "u" 0 reply_header [66]] |}.

Lemma send_frame_addressed_witness :
  snd (send_frame (Some "Q0011223344556"%string) 1 (b_ "QMOD") demo_waits demo_identified) = Some (Ok (Some [66]))
  /\ exists sid, pn_of (fst (send_frame (Some "Q0011223344556"%string) 1 (b_ "QMOD") demo_waits demo_identified)) sid
                 = Some "Q0011223344556"%string.
Proof.
  assert (snd (send_frame (Some "Q0011223344556"%string) 1 (b_ "QMOD") demo_waits demo_identified) = Some (Ok (Some [66]))) as E
    by (vm_compute; reflexivity).
  split; [exact E|].
  destruct (proj2 (proj2 (send_frame_addressed [] demo_identified demo_identified_reach (Some "Q0011223344556"%string) 1 (b_ "QMOD")
    demo_waits _ _ (surjective_pairing _))) [66] E) as (_ & sid & _ & _ & _ & _ & _ & _ & _ & _ & _ & _ & _ & _ & Hp & _).
  exists sid. now apply Hp.
Defined.

Lemma reply_reaches_caller_witness :
  snd (send_on 0 1 (b_ "QMOD") demo_waits demo_identified) = Some (Ok (Some [66])).
Proof.
  destruct (m_objs demo_identified !! 0) as [s|] eqn:E; [|vm_compute in E; discriminate].
  assert (s_lock s = None /\ s_tid s = 0) as [El Et] by (vm_compute in E; injection E as <-; now split).
  apply (reply_reaches_caller [] demo_identified demo_identified_reach 0 1 (b_ "QMOD") demo_waits s E El eq_refl eq_refl
    (match build_forward2device 1 (b_ "QMOD") 1 DEFAULT_DEVCODE with Ok f => f | Raise _ => [] end)
    ltac:(rewrite Et; vm_compute; reflexivity) [EvAccept "10.0.0.10:2"; EvTick 0] [] "u"%string reply_header [66] eq_refl
    ltac:(rewrite Et; split; reflexivity)).
  - vm_compute. reflexivity.
  - refine (proj1 (bool_decide_eq_true _) _). vm_compute. reflexivity.
Defined.
