(* ===== verification/Flows.v ===== *)
(** The configuration flows as state machines: [ConfigFlow], [OptionsFlow] and
    [EybondHubOptionsFlow] of [config_flow.py].

    A flow object is a record; a step takes the submitted input, or [None] when the
    flow enters it, and gives the flow's new state and what Home Assistant shows or
    stores. The engine calls the step of a form with its validated input, and the
    step of a chosen menu entry without input. *)

From Stdlib Require Import ZArith String Ascii Floats.SpecFloat.
From stdpp Require Import base gmap sets list strings.
From S2P Require Import Prelude PyStr PyInt PyFloat FloatMono PyDict Uri Discovery EybondFrame ChildUri EybondManager ConfigFlow Forms EybondHub.
#[local] Set Warnings "-clear-no-such-hyp".
#[local] Open Scope string_scope.
#[local] Open Scope list_scope.
#[local] Open Scope Z_scope.

(** ** Results *)

(** [async_show_form], [async_show_menu], [async_create_entry] and [async_abort]. *)
Inductive flow_result :=
| ShowForm (step_id : string) (sch : schema) (errors placeholders : dict string)
| ShowMenu (step_id : string) (options : list string)
| CreateEntry (title : string) (data options : pydict)
| Aborted (reason : string).

(** A step given input it cannot read raises. *)
Definition typed {A} (o : option A) : res A :=
  match o with Some a => Ok a | None => Raise (TypeError "form input") end.

(** The defaults a form is shown again with. *)
Definition given (input : option pydict) : pydict := match input with Some i => i | None => [] end.

(** ** Adding an entry: [ConfigFlow] *)

Record config_flow := { cf_name : option string; cf_protocol : string; cf_transport : string }.

Definition config_flow_init : config_flow := {| cf_name := None; cf_protocol := "voltronic"; cf_transport := "tcp_elfin" |}.

Definition with_pair (pt : string * string) (fs : config_flow) : config_flow :=
  {| cf_name := cf_name fs; cf_protocol := fst pt; cf_transport := snd pt |}.

Definition flow_pair (fs : config_flow) : string * string := normalize (Some (cf_protocol fs)) (Some (cf_transport fs)).

(** [async_step_user] *)
Definition step_user (fs : config_flow) : config_flow * flow_result := (fs, ShowMenu "user" ["device"; "hub"]).

(** [async_step_connection] *)
Definition entry_title (fs : config_flow) : string :=
  match cf_name fs with Some n => if String.eqb n "" then "Inverter" else n | None => "Inverter" end.

Definition connection_form (ports : list string) (p t : string) (defaults : pydict) (extra : schema) (errors : dict string)
    : flow_result :=
  ShowForm "connection" (build_connection_schema ports p t defaults ++ extra) errors [("protocol", p); ("transport", t)].

Definition config_connection (ports : list string) (input : option pydict) (fs : config_flow) : res (config_flow * flow_result) :=
  let '(p, t) := flow_pair fs in
  let form errors := (fs, connection_form ports p t (given input) [] errors) in
  match input with
  | None => Ok (form [])
  | Some i =>
      rmap (fun r => match r with
                     | inl errors => form errors
                     | inr opts => (fs, CreateEntry (entry_title fs) [("name", opt_str (cf_name fs))] opts)
                     end) (typed (step_connection p t i))
  end.

(** [async_step_transport] *)
Definition config_transport (ports : list string) (input : option pydict) (fs : config_flow) : res (config_flow * flow_result) :=
  match input with
  | Some i =>
      (let! t := typed (opt_of "transport" i) in
       config_connection ports None (with_pair (normalize (Some (cf_protocol fs)) (Some t)) fs))%py
  | None =>
      let '(p, t) := flow_pair fs in
      Ok (with_pair (p, t) fs, ShowForm "transport" (transport_schema p t) [] [("protocol", p)])
  end.

(** [async_step_protocol] *)
Definition config_protocol (ports : list string) (input : option pydict) (fs : config_flow) : res (config_flow * flow_result) :=
  match input with
  | Some i =>
      (let! p := typed (opt_of "protocol" i) in
       config_transport ports None (with_pair (normalize (Some p) (Some (cf_transport fs))) fs))%py
  | None => Ok (fs, ShowForm "protocol" (protocol_schema (cf_protocol fs)) [] [])
  end.

(** [async_step_device] *)
Definition config_device (ports : list string) (input : option pydict) (fs : config_flow) : res (config_flow * flow_result) :=
  let form fs errors := Ok (fs, ShowForm "device" device_schema errors []) in
  match input with
  | Some i =>
      (let! n := typed (opt_of "name" i) in
       let fs := {| cf_name := Some (strip n); cf_protocol := cf_protocol fs; cf_transport := cf_transport fs |} in
       if String.eqb (strip n) "" then form fs [("name", "name_required")]
       else config_protocol ports None fs)%py
  | None => form fs []
  end.

(** [async_step_hub] *)
Definition config_hub (input : option pydict) (fs : config_flow) : res (config_flow * flow_result) :=
  let form errors := (fs, ShowForm "hub" (hub_listener_schema (given input)) errors []) in
  match input with
  | None => Ok (form [])
  | Some i =>
      rmap (fun r => match r with
                     | inl errors => form errors
                     | inr opts => (fs, CreateEntry (match text_field "name" i with Some n => n | None => "" end)
                                          [("name", opt_str (text_field "name" i)); ("entry_kind", VStr ENTRY_KIND_EYBOND_HUB)] opts)
                     end) (typed (step_hub i))
  end.

(** The engine's call of a step by its name. *)
Definition config_step (ports : list string) (step : string) (input : option pydict) (fs : config_flow)
    : res (config_flow * flow_result) :=
  if String.eqb step "user" then Ok (step_user fs)
  else if String.eqb step "device" then config_device ports input fs
  else if String.eqb step "hub" then config_hub input fs
  else if String.eqb step "protocol" then config_protocol ports input fs
  else if String.eqb step "transport" then config_transport ports input fs
  else if String.eqb step "connection" then config_connection ports input fs
  else Raise (KeyError step).

(** What the user does with a result: a choice from a menu, or a form submitted. *)
Inductive engine_call : flow_result -> string -> option pydict -> Prop :=
| an_choice step options o : In o options -> engine_call (ShowMenu step options) o None
| an_submit step sch errors ph input : conforms sch input -> engine_call (ShowForm step sch errors ph) step (Some input).

(** The states and results a new flow can be in; the serial ports may change between steps. *)
Inductive config_reach : config_flow -> flow_result -> Prop :=
| cr_start : config_reach (fst (step_user config_flow_init)) (snd (step_user config_flow_init))
| cr_answer fs r step input ports fs' r' : config_reach fs r -> engine_call r step input ->
    config_step ports step input fs = Ok (fs', r') -> config_reach fs' r'.

(** ** Editing an entry: [OptionsFlow] *)

Record options_flow := { of_entry : config_entry; of_defaults : pydict; of_protocol : string; of_transport : string }.

Definition options_flow_init (e : config_entry) : options_flow :=
  {| of_entry := e; of_defaults := []; of_protocol := "voltronic"; of_transport := "tcp_elfin" |}.

Definition with_of_pair (pt : string * string) (fs : options_flow) : options_flow :=
  {| of_entry := of_entry fs; of_defaults := of_defaults fs; of_protocol := fst pt; of_transport := snd pt |}.

Definition options_pair (fs : options_flow) : string * string := normalize (Some (of_protocol fs)) (Some (of_transport fs)).

(** [OptionsFlow._load_defaults] *)
Definition open_defaults (fs : options_flow) : res options_flow :=
  (let! dpt := match load_defaults (e_options (of_entry fs)) with Some r => r | None => Raise (TypeError "options") end in
   Ok {| of_entry := of_entry fs; of_defaults := fst dpt; of_protocol := fst (snd dpt); of_transport := snd (snd dpt) |})%py.

(** [async_step_connection]; the debug switch is added to the form and to what is saved. *)
Definition options_connection (ports : list string) (input : option pydict) (fs : options_flow) : res (options_flow * flow_result) :=
  let '(p, t) := options_pair fs in
  let form errors :=
    (fs, connection_form ports p t (dupdate (given input) (of_defaults fs)) [debug_panel_field (e_options (of_entry fs))] errors) in
  match input with
  | None => Ok (form [])
  | Some i =>
      rmap (fun r => match r with
                     | inl errors => form errors
                     | inr opts => (fs, CreateEntry "" (opts ++ [("debug_panel", VBool (truthy (vget "debug_panel" i)))]) [])
                     end) (typed (step_connection p t i))
  end.

(** [async_step_transport] and [async_step_protocol] *)
Definition options_transport (ports : list string) (input : option pydict) (fs : options_flow) : res (options_flow * flow_result) :=
  match input with
  | Some i =>
      (let! t := typed (opt_of "transport" i) in
       options_connection ports None (with_of_pair (normalize (Some (of_protocol fs)) (Some t)) fs))%py
  | None =>
      let '(p, t) := options_pair fs in
      Ok (with_of_pair (p, t) fs, ShowForm "transport" (transport_schema p t) [] [("protocol", p)])
  end.

Definition options_protocol (ports : list string) (input : option pydict) (fs : options_flow) : res (options_flow * flow_result) :=
  match input with
  | Some i =>
      (let! p := typed (opt_of "protocol" i) in
       options_transport ports None (with_of_pair (normalize (Some p) (Some (of_transport fs))) fs))%py
  | None => Ok (fs, ShowForm "protocol" (protocol_schema (of_protocol fs)) [] [])
  end.

(** [async_step_init] *)
Definition options_init (ports : list string) (fs : options_flow) : res (options_flow * flow_result) :=
  (let! fs := open_defaults fs in
   if String.eqb (of_transport fs) "eybond" then Ok (fs, ShowMenu "init" ["edit"; "migrate_hub"])
   else options_protocol ports None fs)%py.

(** [async_step_migrate_hub] with what [async_migrate_legacy_to_hub] gave *)
Definition options_migrate (migrated : res (string + pydict)) (input : option pydict) (fs : options_flow)
    : res (options_flow * flow_result) :=
  match input with
  | Some _ =>
      rmap (fun r => match r with
                     | inl reason => (fs, Aborted reason)
                     | inr opts => (fs, CreateEntry "" opts [])
                     end) migrated
  | None => Ok (fs, ShowForm "migrate_hub" [] [] [])
  end.

(** The engine's call of a step; only the migration touches the hubs. *)
Definition options_step (ports : list string) (time : Z) (bind_ok : bool) (title step : string) (input : option pydict)
    (fs : options_flow) (w : world) : world * res (options_flow * flow_result) :=
  if String.eqb step "init" then (w, options_init ports fs)
  else if String.eqb step "edit" then (w, options_protocol ports None fs)
  else if String.eqb step "migrate_hub" then
    match input with
    | Some _ => let '(w, r) := migrate_legacy_to_hub time bind_ok title (of_entry fs) w in (w, options_migrate r input fs)
    | None => (w, options_migrate (Ok (inl "")) None fs)
    end
  else if String.eqb step "protocol" then (w, options_protocol ports input fs)
  else if String.eqb step "transport" then (w, options_transport ports input fs)
  else if String.eqb step "connection" then (w, options_connection ports input fs)
  else (w, Raise (KeyError step)).

(** ** Managing a hub: [EybondHubOptionsFlow] *)

(** [async_step_debug_panel] *)
Definition hub_debug_panel (e : config_entry) (input : option pydict) : res flow_result :=
  match input with
  | Some i => rmap (fun opts => CreateEntry "" opts [])
                (typed (bumped_options [("debug_panel", VBool (truthy (vget "debug_panel" i)))] (e_options e)))
  | None => Ok (ShowForm "debug_panel" [debug_panel_field (e_options e)] [] [])
  end.

(** [async_step_rescan]: a discovery window on the hub's listener. *)
Definition hub_rescan (time : Z) (bind_ok : bool) (e : config_entry) (input : option pydict) (w : world) : world * res flow_result :=
  match input, hub_listener_config (e_options e) with
  | None, _ => (w, Ok (ShowForm "rescan" [] [] []))
  | _, None => (w, Raise (TypeError "options"))
  | Some _, Some c =>
      let '(w, r) := get_eybond_manager time bind_ok (c_host c) (c_port c) (c_broadcast c) (c_announce c) None w in
      match r, w_managers w !! (c_host c, c_port c) with
      | Ok _, Some l =>
          (put_mgr (c_host c, c_port c) l (force_rediscovery time REDISCOVERY_WINDOW (view w l)) w, Ok (Aborted "rescan_started"))
      | Raise x, _ => (w, Raise x)
      | _, None => (w, Raise (KeyError "manager"))
      end
  end.

(** The fields of one dongle, and its line in the form's text. *)
Definition HUB_CHILD_PROTOCOLS : list string := ["none"; "voltronic"; "pi18"; "modbus"].

Definition device_fields (rec : DongleRecord) : schema :=
  let p := pn rec in [
  optional (field_of p "enabled") (VBool true) KBool;
  optional (field_of p "name") (VStr (if String.eqb (name rec) "" then pn rec else name rec)) KString;
  optional (field_of p "protocol") (VStr (match protocol rec with Some s => if String.eqb s "" then "none" else s | None => "none" end))
    (KSelect (map VStr HUB_CHILD_PROTOCOLS) false);
  optional (field_of p "devaddr") (VInt (devaddr rec)) (KNumber 1 16);
  optional (field_of p "remove") (VBool false) KBool].

Definition device_summary (rec : DongleRecord) : string :=
  (pn rec ++ " · " ++ status_value (status rec) ++ " · last seen "
   ++ (if String.eqb (last_seen rec) "" then "never" else last_seen rec))%string.

Definition devices_schema (records : list DongleRecord) : schema := flat_map device_fields records.

(** [async_step_devices] *)
Definition hub_devices (e : config_entry) (input : option pydict) (w : world) : world * res flow_result :=
  let records := match w_runtimes w !! e_id e with Some rt => all_records (registry_at w (r_ref rt)) | None => [] end in
  match records, input with
  | [], _ => (w, Ok (Aborted "no_devices"))
  | _, Some i =>
      match step_devices (e_id e) i w with
      | Some w' => (w', Ok (CreateEntry "" (e_options e) []))
      | None => (w, Raise (TypeError "form input"))
      end
  | _, None =>
      (w, Ok (ShowForm "devices" (devices_schema records) []
                [("devices", join (str [chr 10]) (map device_summary records))]))
  end.

(** [async_step_listener] *)
Definition listener_defaults (opts : pydict) : pydict := [
  ("host", default_get "eybond_bind_host" (VStr "0.0.0.0") opts);
  ("port", default_get "eybond_bind_port" (VInt DEFAULT_BIND_PORT) opts);
  ("eybond_broadcast", default_get "eybond_broadcast" (VStr DEFAULT_EYBOND_BROADCAST) opts);
  ("eybond_announce_ip", default_get "eybond_announce_ip" (VStr "") opts);
  ("update_interval", default_get "update_interval" (VInt DEFAULT_UPDATE_INTERVAL) opts)].

Definition hub_listener (e : config_entry) (input : option pydict) : res flow_result :=
  match input with
  | Some i => rmap (fun opts => CreateEntry "" opts [])
                (typed (step_listener i (e_options e)))
  | None => Ok (ShowForm "listener" (hub_listener_options_schema (listener_defaults (e_options e))) [] [])
  end.

Definition hub_flow_step (time : Z) (bind_ok : bool) (step : string) (input : option pydict) (e : config_entry) (w : world)
    : world * res flow_result :=
  if String.eqb step "init" then (w, Ok (ShowMenu "init" ["devices"; "rescan"; "listener"; "debug_panel"]))
  else if String.eqb step "debug_panel" then (w, hub_debug_panel e input)
  else if String.eqb step "rescan" then hub_rescan time bind_ok e input w
  else if String.eqb step "devices" then hub_devices e input w
  else if String.eqb step "listener" then (w, hub_listener e input)
  else (w, Raise (KeyError step)).

(** [async_get_options_flow] *)
Definition hub_options_flow (e : config_entry) : bool :=
  let kind d := vget "entry_kind" d in
  match (if truthy (kind (e_options e)) then kind (e_options e) else kind (e_data e)) with
  | VStr s => String.eqb s ENTRY_KIND_EYBOND_HUB
  | _ => false
  end.
