(* ===== verification/FlowEntries.v ===== *)
(** What the configuration flows promise: the entries a flow creates are
    well-formed and no reachable step raises; an entry edited without a change is
    saved as it was; a host with a colon locks the options of its entry; the device
    form of a hub as it is shown. *)

From Stdlib Require Import ZArith String Ascii Floats.SpecFloat.
From stdpp Require Import base gmap sets list strings.
From S2P Require Import Prelude PyStr PyInt PyFloat FloatMono PyDict Uri Discovery EybondFrame ChildUri EybondManager ConfigFlow Forms EybondHub Flows.
#[local] Set Warnings "-clear-no-such-hyp".
#[local] Open Scope string_scope.
#[local] Open Scope list_scope.
#[local] Open Scope Z_scope.

(** ** Lemmas: what a validated connection form says *)

(** The value of a key, by the field of that key. *)
Lemma field_read sch input k : conforms sch input ->
  match List.find (fun f => String.eqb (f_key f) k) sch with
  | Some f => exists v, dget k input = Some v /\ accepts (f_kind f) v
  | None => dget k input = None
  end.
Proof.
  intros Hc. destruct (List.find _ sch) as [f|] eqn:E.
  - apply find_some in E as [Hin <-%String.eqb_eq]. now apply (conforms_value sch).
  - apply (conforms_absent sch); [exact Hc|]. unfold keys. rewrite in_map_iff. intros (f & <- & Hin).
    pose proof (find_none _ _ E f Hin) as H. cbn beta in H. now rewrite String.eqb_refl in H.
Qed.

(** The fields of the connection form of a pair, by its transport and protocol. *)
Definition reads_text (shown : bool) (k : string) (input : pydict) : Prop :=
  if shown then exists s, dget k input = Some (VStr s) else dget k input = None.
Definition reads_number (shown : bool) (lo hi : Z) (k : string) (input : pydict) : Prop :=
  if shown then exists x, dget k input = Some (VFloat x) /\ in_range lo hi x else dget k input = None.

Record readings (p t : string) (input : pydict) : Prop := {
  rd_host : reads_text (negb (String.eqb t "serial")) "host" input;
  rd_port : if String.eqb t "serial" then dget "port" input = None
            else exists n, dget "port" input = Some (VInt n) /\ 1 <= n <= 65535;
  rd_serial : reads_text (String.eqb t "serial") "serial_device" input;
  rd_agent : reads_text (String.eqb p "agent") "agent_device_id" input;
  rd_addr : reads_number (String.eqb t "eybond") 1 16 "eybond_devaddr" input;
  rd_bc : reads_text (String.eqb t "eybond") "eybond_broadcast" input;
  rd_ann : reads_text (String.eqb t "eybond") "eybond_announce_ip" input;
  rd_interval : reads_number true 1 300 "update_interval" input;
  rd_crc : if isin p CRC_CAPABLE_PROTOCOLS then exists b, dget "strict_crc" input = Some (VBool b)
           else dget "strict_crc" input = None;
  rd_mode : if isin t ["tcp_elfin"; "tcp"] then exists m, dget "bus_mode" input = Some (VStr m) /\ In m BUS_MODES
            else dget "bus_mode" input = None
}.

Definition connection_keys : list string :=
  ["host"; "port"; "serial_device"; "agent_device_id"; "eybond_devaddr"; "eybond_broadcast"; "eybond_announce_ip";
   "update_interval"; "strict_crc"; "bus_mode"].

Lemma read_kinds (v : pyval) kind : accepts kind v ->
  match kind with
  | KString | KSelect _ true => exists s, v = VStr s
  | KPort => exists n, v = VInt n /\ 1 <= n <= 65535
  | KBool => exists b, v = VBool b
  | KNumber lo hi => exists x, v = VFloat x /\ in_range lo hi x
  | KSelect options false => In v options
  end.
Proof. destruct kind as [| | | |options []]; intros H; exact H. Qed.

Lemma connection_reads ports p t defaults extra input : compatible p t ->
  (forall f, In f extra -> ~ In (f_key f) connection_keys) ->
  conforms (build_connection_schema ports p t defaults ++ extra) input -> readings p t input.
Proof.
  intros Hc Hx H.
  assert (forall k, In k connection_keys ->
            match List.find (fun f => String.eqb (f_key f) k) (build_connection_schema ports p t defaults) with
            | Some f => exists v, dget k input = Some v /\ accepts (f_kind f) v
            | None => dget k input = None
            end) as R.
  { intros k Hk. pose proof (field_read _ _ k H) as Hr.
    destruct (List.find _ (build_connection_schema ports p t defaults)) as [f|] eqn:E.
    - apply find_some in E as [Hin <-%String.eqb_eq]. apply (conforms_value _ _ _ H). apply in_or_app. now left.
    - apply (conforms_absent _ _ _ H). unfold keys. rewrite map_app, in_app_iff, !in_map_iff. intros [(f & <- & Hin)|(f & <- & Hin)].
      + pose proof (find_none _ _ E f Hin) as H'. cbn beta in H'. now rewrite String.eqb_refl in H'.
      + now apply (Hx f). }
  unfold build_connection_schema in R. rewrite (normalize_fixed p t Hc) in R.
  pose proof (compatible_cases p t Hc) as Hcase. cbn [In] in Hcase.
  repeat (destruct Hcase as [[= <- <-]|Hcase]); [..|destruct Hcase].
  all: split; [pose proof (R "host" ltac:(cbn; tauto)) as Hr|pose proof (R "port" ltac:(cbn; tauto)) as Hr
              |pose proof (R "serial_device" ltac:(cbn; tauto)) as Hr|pose proof (R "agent_device_id" ltac:(cbn; tauto)) as Hr
              |pose proof (R "eybond_devaddr" ltac:(cbn; tauto)) as Hr|pose proof (R "eybond_broadcast" ltac:(cbn; tauto)) as Hr
              |pose proof (R "eybond_announce_ip" ltac:(cbn; tauto)) as Hr|pose proof (R "update_interval" ltac:(cbn; tauto)) as Hr
              |pose proof (R "strict_crc" ltac:(cbn; tauto)) as Hr|pose proof (R "bus_mode" ltac:(cbn; tauto)) as Hr]; clear R.
  all: cbn -[in_range] in Hr |- *; first [exact Hr | destruct Hr as (v & -> & Hv); cbn -[in_range] in Hv].
  all: first [destruct Hv as (x & -> & Hx'); exists x; split; [reflexivity|exact Hx'] | destruct Hv as (x & ->); now exists x
             | destruct Hv as [<-|[<-|[]]]; eexists; (split; [reflexivity|]); tauto].
Qed.

(** ** Lemmas: the entry a connection form saves *)

Record connection := {
  k_protocol : string; k_transport : string; k_host : string; k_port : Z; k_serial : string; k_agent : string;
  k_addr : Z; k_broadcast : string; k_announce : string; k_interval : Z; k_crc : bool; k_mode : string
}.

Definition k_uri (c : connection) : string :=
  build_device_uri (k_protocol c) (k_transport c) (k_host c) (k_port c) (k_serial c) (k_agent c) (k_addr c) (k_broadcast c)
    (k_announce c).

Definition connection_options (c : connection) : pydict := [
  ("protocol", VStr (k_protocol c)); ("transport", VStr (k_transport c)); ("device", VStr (k_uri c));
  ("host", VStr (k_host c)); ("port", VInt (k_port c)); ("serial_device", VStr (k_serial c));
  ("agent_device_id", VStr (k_agent c)); ("eybond_devaddr", VInt (k_addr c)); ("eybond_broadcast", VStr (k_broadcast c));
  ("eybond_announce_ip", VStr (k_announce c)); ("update_interval", VInt (k_interval c)); ("strict_crc", VBool (k_crc c));
  ("bus_mode", VStr (k_mode c))].

(** A text as a step stores it. *)
Definition stripped (s : string) : Prop := strip s = s.

(** A well-formed entry: a supported pair, the address its transport needs, every
    number in its range, and the fields the form did not show at their defaults. *)
Record connection_ok (c : connection) : Prop := {
  co_pair : compatible (k_protocol c) (k_transport c);
  co_address : if String.eqb (k_transport c) "serial"
               then k_serial c <> "" /\ k_host c = "" /\ k_port c = DEFAULT_TCP_PORT
               else k_host c <> "" /\ k_serial c = "" /\ 1 <= k_port c <= 65535;
  co_agent : if String.eqb (k_protocol c) "agent" then k_agent c <> "" else k_agent c = "";
  co_dongle : if String.eqb (k_transport c) "eybond" then 1 <= k_addr c <= 16
              else k_addr c = 1 /\ k_broadcast c = DEFAULT_EYBOND_BROADCAST /\ k_announce c = "";
  co_interval : MIN_UPDATE_INTERVAL <= k_interval c <= MAX_UPDATE_INTERVAL;
  co_crc : isin (k_protocol c) CRC_CAPABLE_PROTOCOLS = false -> k_crc c = false;
  co_mode : In (k_mode c) BUS_MODES;
  co_mode_default : isin (k_transport c) ["tcp_elfin"; "tcp"] = false -> k_mode c = DEFAULT_BUS_MODE;
  co_stripped : Forall stripped [k_host c; k_serial c; k_agent c; k_broadcast c; k_announce c]
}.

(** Numbers of a [NumberSelector], as [int] reads them. *)
Lemma small_floats n : 0 <= n < 301 ->
  (match float_of_Z n with
   | S754_zero false => n =? 0
   | S754_finite false m e => (Zpos m <? 2 ^ 53) && (-1074 <=? e) && (2 ^ 52 <=? Zpos m)
   | _ => false
   end && match int_of_float (float_of_Z n) with Ok k => k =? n | Raise _ => false end)%bool = true.
Proof. revert n. by_range 301. Qed.

Lemma small_float n : 1 <= n <= 300 -> nonneg (float_of_Z n) /\ int_of_float (float_of_Z n) = Ok n.
Proof.
  intros Hn. pose proof (small_floats n ltac:(lia)) as H. apply andb_true_iff in H as [H1 H2]. split.
  - destruct (float_of_Z n) as [[]|[]| |[] m e]; try easy. apply andb_true_iff in H1 as [H1 H3].
    apply andb_true_iff in H1 as [H1 H4]. apply Z.ltb_lt in H1. apply Z.leb_le in H3, H4. repeat split; [exact H1|exact H4|now right].
  - destruct (int_of_float (float_of_Z n)) as [k|]; [|easy]. apply Z.eqb_eq in H2. now subst.
Qed.

Lemma in_range_int hi x : 1 <= hi <= 300 -> in_range 1 hi x -> exists n, int_of_float x = Ok n /\ 1 <= n <= hi.
Proof.
  intros Hh (Hx & H1 & H2). destruct (small_float 1 ltac:(lia)) as [N1 I1]. destruct (small_float hi Hh) as [Nh Ih].
  destruct (int_of_float x) as [n|] eqn:E.
  - exists n. split; [reflexivity|]. split; [exact (int_of_float_mono _ _ _ _ N1 Hx H1 I1 E)|exact (int_of_float_mono _ _ _ _ Hx Nh H2 E Ih)].
  - destruct x as [|[]| |]; try easy. destruct (float_of_Z hi) as [|[]| |[]]; easy.
Qed.

Lemma reads_stripped shown k input : reads_text shown k input ->
  exists s, text_field k input = Some s /\ stripped s /\ (shown = false -> s = "").
Proof.
  unfold reads_text, text_field, text_or_empty. destruct shown.
  - intros (s & ->). exists (strip s). split; [reflexivity|]. split; [apply strip_idem|discriminate].
  - intros ->. now exists "".
Qed.

Lemma reads_or shown k d input : stripped d -> reads_text shown k input ->
  exists s, text_or k d input = Some s /\ stripped s /\ (shown = false -> s = d).
Proof.
  intros Hd. unfold reads_text, text_or, text_or_empty. destruct shown.
  - intros (s & ->). cbn [option_map]. eexists. split; [reflexivity|]. split; [apply strip_idem|discriminate].
  - intros ->. exists d. cbn [option_map String.eqb]. now rewrite Hd.
Qed.

Lemma reads_int shown hi d k input : 1 <= hi <= 300 -> reads_number shown 1 hi k input ->
  exists n, int_option k d input = Some n /\ (if shown then 1 <= n <= hi else n = d).
Proof.
  intros Hh. unfold reads_number, int_option. destruct shown; [|intros ->; now exists d].
  intros (x & -> & Hx). destruct (in_range_int hi x Hh Hx) as (n & E & Hn). exists n. cbn [int_of_val]. now rewrite E.
Qed.

Lemma reads_port input (shown : bool) :
  (if shown then exists n, dget "port" input = Some (VInt n) /\ 1 <= n <= 65535 else dget "port" input = None) ->
  forall d, exists n, int_or "port" d input = Some n /\ (if shown then 1 <= n <= 65535 else n = d).
Proof.
  intros H d. unfold int_or, vget, int_option. destruct shown.
  - destruct H as (n & -> & Hn). exists n. cbn [truthy int_of_val]. rewrite (proj2 (Z.eqb_neq n 0)) by lia. now split.
  - rewrite H. now exists d.
Qed.

(** The connection step on a validated form: it answers, with the errors or with a
    well-formed entry of the pair it was asked for. *)
Lemma step_connection_entry p t input : compatible p t -> readings p t input ->
  exists r, step_connection p t input = Some r /\
    match r with
    | inl errors => errors <> []
    | inr opts => exists c, opts = connection_options c /\ connection_ok c /\ k_protocol c = p /\ k_transport c = t
    end.
Proof.
  intros Hc [R1 R2 R3 R4 R5 R6 R7 R8 R9 R10]. unfold step_connection. rewrite (normalize_fixed p t Hc).
  destruct (reads_stripped _ _ _ R1) as (host & -> & S1 & D1). destruct (reads_stripped _ _ _ R3) as (ser & -> & S3 & D3).
  destruct (reads_stripped _ _ _ R4) as (agent & -> & S4 & D4). cbn [obind].
  unfold validate_connection. rewrite (normalize_fixed p t Hc).
  assert (exists port, int_or "port" DEFAULT_TCP_PORT input = Some port
          /\ (if String.eqb t "serial" then port = DEFAULT_TCP_PORT else 1 <= port <= 65535)) as (port & -> & Hport).
  { destruct (reads_port input (negb (String.eqb t "serial"))) with (d := DEFAULT_TCP_PORT) as (n & E & Hn); [now destruct (String.eqb t "serial")|].
    exists n. split; [exact E|]. now destruct (String.eqb t "serial"). }
  destruct (reads_int _ 16 1 _ _ ltac:(lia) R5) as (addr & -> & Haddr).
  destruct (reads_or _ _ DEFAULT_EYBOND_BROADCAST _ eq_refl R6) as (bc & -> & S6 & D6).
  destruct (reads_or _ _ "" _ eq_refl R7) as (ann & -> & S7 & D7).
  destruct (reads_int _ 300 DEFAULT_UPDATE_INTERVAL _ _ ltac:(lia) R8) as (interval & -> & Hint). cbn [obind].
  assert (forall (b : bool) (k v : string), (if b then [(k, v)] else []) = [] -> b = false) as Hnil by (now intros []).
  match goal with |- context[match ?l with [] => _ | _ :: _ => _ end] => destruct l eqn:E end; [|eexists; split; [reflexivity|discriminate]].
  apply app_eq_nil in E as [E1 [E2 E3]%app_eq_nil]. apply Hnil in E1, E2, E3.
  eexists. split; [reflexivity|].
  exists {| k_protocol := p; k_transport := t; k_host := host; k_port := port; k_serial := ser; k_agent := agent; k_addr := addr;
            k_broadcast := bc; k_announce := ann; k_interval := interval; k_crc := truthy (vget "strict_crc" input);
            k_mode := bus_mode_of input |}.
  split; [reflexivity|]. split; [|now split].
  split; cbn [k_protocol k_transport k_host k_port k_serial k_agent k_addr k_broadcast k_announce k_interval k_crc k_mode].
  - exact Hc.
  - destruct (String.eqb t "serial"); cbn [negb andb] in *; [apply String.eqb_neq in E1|apply String.eqb_neq in E2]; auto.
  - destruct (String.eqb p "agent"); cbn [negb andb] in *; [now apply String.eqb_neq in E3|auto].
  - destruct (String.eqb t "eybond"); [exact Haddr|auto].
  - exact Hint.
  - intros Hp. rewrite Hp in R9. unfold vget. now rewrite R9.
  - apply bus_mode_known.
  - intros Ht. rewrite Ht in R10. unfold bus_mode_of. now rewrite R10.
  - repeat (constructor; [assumption|]). constructor.
Qed.

(** ** Lemmas: the entry the hub form saves *)

Definition listener_options (host : string) (port : Z) (bc ann : string) (interval : Z) : pydict := [
  ("eybond_bind_host", VStr host); ("eybond_bind_port", VInt port); ("eybond_broadcast", VStr bc);
  ("eybond_announce_ip", VStr ann); ("update_interval", VInt interval)].

Record listener_ok (host : string) (port : Z) (bc ann : string) (interval : Z) : Prop := {
  lo_port : 1 <= port <= 65535;
  lo_interval : MIN_UPDATE_INTERVAL <= interval <= MAX_UPDATE_INTERVAL;
  lo_stripped : Forall stripped [host; bc; ann]
}.

Lemma listener_form_fields defaults sch input : sch = hub_listener_options_schema defaults \/ sch = hub_listener_schema defaults ->
  conforms sch input ->
  exists host port bc ann interval, listener_fields input = Some (listener_options host port bc ann interval)
    /\ listener_ok host port bc ann interval.
Proof.
  intros Hs Hc.
  assert (reads_text true "host" input /\ (exists n, dget "port" input = Some (VInt n) /\ 1 <= n <= 65535)
          /\ reads_text true "eybond_broadcast" input /\ reads_text true "eybond_announce_ip" input
          /\ reads_number true 1 300 "update_interval" input) as (R1 & R2 & R3 & R4 & R5).
  { pose proof (field_read _ _ "host" Hc) as H1. pose proof (field_read _ _ "port" Hc) as H2.
    pose proof (field_read _ _ "eybond_broadcast" Hc) as H3. pose proof (field_read _ _ "eybond_announce_ip" Hc) as H4.
    pose proof (field_read _ _ "update_interval" Hc) as H5. clear Hc.
    destruct Hs as [-> | ->]; cbn -[in_range] in H1, H2, H3, H4, H5;
      destruct H1 as (? & E1 & ? & ->), H2 as (? & E2 & ? & -> & ?), H3 as (? & E3 & ? & ->), H4 as (? & E4 & ? & ->),
        H5 as (? & E5 & ? & -> & ?); cbn [reads_text reads_number]; repeat (split; [now eauto|]); now eauto. }
  unfold listener_fields. destruct (reads_or true _ "0.0.0.0" _ eq_refl R1) as (host & -> & S1 & _).
  destruct (reads_port input true R2 DEFAULT_BIND_PORT) as (port & -> & Hp).
  destruct (reads_or true _ DEFAULT_EYBOND_BROADCAST _ eq_refl R3) as (bc & -> & S3 & _).
  destruct (reads_or true _ "" _ eq_refl R4) as (ann & -> & S4 & _).
  destruct (reads_int true 300 DEFAULT_UPDATE_INTERVAL _ _ ltac:(lia) R5) as (interval & -> & Hi).
  exists host, port, bc, ann, interval. split; [reflexivity|]. split; [exact Hp|exact Hi|].
  repeat (constructor; [assumption|]). constructor.
Qed.

(** ** Lemmas: the states of a new flow *)

(** What an entry is created with. *)
Definition entry_of (data options : pydict) : config_entry := {| e_id := "new"; e_data := data; e_options := options |}.

Definition hub_entry_ok (options : pydict) : Prop :=
  exists host port bc ann interval, listener_ok host port bc ann interval
  /\ options = [("entry_kind", VStr "eybond_hub")] ++ listener_options host port bc ann interval ++ [("hub_revision", VInt 0)].

Definition device_entry_ok (options : pydict) : Prop := exists c, options = connection_options c /\ connection_ok c.

Definition entry_ok (title : string) (data options : pydict) : Prop :=
  title <> "" /\ stripped title /\ dget "name" data = Some (VStr title) /\ dget "device" data = None
  /\ if hub_options_flow (entry_of data options) then is_hub (entry_of data options) = true /\ hub_entry_ok options
     else is_hub (entry_of data options) = false /\ device_entry_ok options.

Definition named (fs : config_flow) : Prop := exists n, cf_name fs = Some n /\ n <> "" /\ stripped n.

Inductive flow_ok : config_flow -> flow_result -> Prop :=
| fo_menu fs : flow_ok fs (ShowMenu "user" ["device"; "hub"])
| fo_device fs errors : flow_ok fs (ShowForm "device" device_schema errors [])
| fo_hub fs defaults errors : flow_ok fs (ShowForm "hub" (hub_listener_schema defaults) errors [])
| fo_protocol fs : named fs -> flow_ok fs (ShowForm "protocol" (protocol_schema (cf_protocol fs)) [] [])
| fo_transport fs p t : named fs -> compatible p t -> flow_ok (with_pair (p, t) fs) (ShowForm "transport" (transport_schema p t) [] [("protocol", p)])
| fo_connection fs p t ports defaults errors : named fs -> flow_pair fs = (p, t) ->
    flow_ok fs (connection_form ports p t defaults [] errors)
| fo_entry fs title data options : entry_ok title data options -> flow_ok fs (CreateEntry title data options).

Lemma flow_pair_compatible fs p t : flow_pair fs = (p, t) -> compatible p t.
Proof. intros H. pose proof (normalize_compatible (Some (cf_protocol fs)) (Some (cf_transport fs))) as Hc. unfold flow_pair in H. now rewrite H in Hc. Qed.

Lemma with_pair_flow p t fs : compatible p t -> flow_pair (with_pair (p, t) fs) = (p, t).
Proof. apply normalize_fixed. Qed.

Lemma choice_read k options input (o : option pyval) : conforms [required k o (KSelect (map VStr options) false)] input ->
  exists s, opt_of k input = Some s /\ In s options.
Proof.
  intros H. destruct (conforms_value _ _ _ H (or_introl eq_refl)) as (v & Hv & Ha). cbn [required f_key f_kind accepts] in Hv, Ha.
  apply in_map_iff in Ha as (s & <- & Hin). exists s. unfold opt_of. now rewrite Hv.
Qed.

Lemma transport_entered ports fs : named fs ->
  exists fs' r, config_transport ports None fs = Ok (fs', r) /\ flow_ok fs' r.
Proof.
  intros Hn. unfold config_transport. destruct (flow_pair fs) as [p t] eqn:E. eexists _, _. split; [reflexivity|].
  apply fo_transport; [exact Hn|]. now apply (flow_pair_compatible fs).
Qed.

Lemma connection_entered ports fs : named fs ->
  exists fs' r, config_connection ports None fs = Ok (fs', r) /\ flow_ok fs' r.
Proof.
  intros Hn. unfold config_connection. destruct (flow_pair fs) as [p t] eqn:E. eexists _, _. split; [reflexivity|]. now apply fo_connection.
Qed.

Lemma connection_answered ports defaults p t fs input : named fs -> flow_pair fs = (p, t) ->
  conforms (build_connection_schema ports p t defaults ++ []) input -> forall ports',
  exists fs' r, config_connection ports' (Some input) fs = Ok (fs', r) /\ flow_ok fs' r.
Proof.
  intros Hn Hp Hc ports'. pose proof (flow_pair_compatible _ _ _ Hp) as Hcomp.
  apply connection_reads in Hc; [|exact Hcomp|intros f []].
  destruct (step_connection_entry p t input Hcomp Hc) as (r & Hr & Hok). unfold config_connection. rewrite Hp, Hr. cbn [typed rmap].
  destruct r as [errors|opts]; eexists _, _; (split; [reflexivity|]); [now apply fo_connection|].
  destruct Hok as (c & -> & Hok & _). destruct Hn as (n & Hn & Hne & Hs). apply fo_entry. unfold entry_title. rewrite Hn.
  rewrite (proj2 (String.eqb_neq n "") Hne). split; [exact Hne|]. split; [exact Hs|]. do 2 (split; [reflexivity|]).
  cbn. split; [reflexivity|]. now exists c.
Qed.

Lemma hub_answered defaults fs input : conforms (hub_listener_schema defaults) input ->
  exists fs' r, config_hub (Some input) fs = Ok (fs', r) /\ flow_ok fs' r.
Proof.
  intros Hc. destruct (listener_form_fields defaults _ input (or_intror eq_refl) Hc) as (host & port & bc & ann & interval & Hf & Hok).
  pose proof (field_read _ _ "name" Hc) as Hn. cbn in Hn. destruct Hn as (v & Hn & s & ->).
  unfold config_hub, step_hub, text_field, text_or_empty. rewrite Hn. cbn [option_map obind].
  destruct (String.eqb (strip s) "") eqn:E; cbn [typed rmap].
  - eexists _, _. split; [reflexivity|]. apply fo_hub.
  - rewrite Hf. cbn [obind typed rmap]. eexists _, _. split; [reflexivity|]. apply fo_entry.
    split; [now apply String.eqb_neq|]. split; [apply strip_idem|]. do 2 (split; [reflexivity|]). cbn. split; [reflexivity|].
    now exists host, port, bc, ann, interval.
Qed.

(** Every answer the engine can give a flow leads to a state of these. *)
Lemma answer_ok ports fs r step input : flow_ok fs r -> engine_call r step input ->
  exists fs' r', config_step ports step input fs = Ok (fs', r') /\ flow_ok fs' r'.
Proof.
  destruct 1 as [fs|fs errors|fs defaults errors|fs Hn|fs p t Hn Hc|fs p t ports0 defaults errors Hn Hp|fs title data options He];
    intros Ha; inversion Ha as [? ? o Ho|? ? ? ? i Hi]; subst; unfold config_step; cbn [String.eqb Ascii.eqb Bool.eqb].
  - destruct Ho as [<-|[<-|[]]]; cbn [String.eqb Ascii.eqb Bool.eqb]; eexists _, _; (split; [reflexivity|]); constructor.
  - destruct (conforms_value _ _ _ Hi (or_introl eq_refl)) as (v & Hv & s & ->). unfold config_device, opt_of.
    cbn [required f_key] in Hv. rewrite Hv. cbn [typed rbind].
    destruct (String.eqb (strip s) "") eqn:E; eexists _, _; (split; [reflexivity|]); [apply fo_device|]. apply fo_protocol.
    exists (strip s). split; [reflexivity|]. split; [now apply String.eqb_neq|apply strip_idem].
  - now apply (hub_answered defaults).
  - destruct (choice_read _ _ _ _ Hi) as (s & E & _). unfold config_protocol. rewrite E. cbn [typed rbind]. now apply transport_entered.
  - unfold transport_schema in Hi. rewrite (normalize_fixed p t Hc) in Hi. destruct (choice_read _ _ _ _ Hi) as (s & E & _).
    unfold config_transport. rewrite E. cbn [typed rbind]. now apply connection_entered.
  - now apply (connection_answered ports0 defaults p t).
Qed.

Lemma config_reach_ok fs r : config_reach fs r -> flow_ok fs r.
Proof.
  induction 1 as [|fs r step input ports fs' r' _ IH Ha Hs]; [constructor|].
  destruct (answer_ok ports fs r step input IH Ha) as (fs1 & r1 & E & Hok). rewrite E in Hs. apply ok_inj in Hs. now injection Hs as <- <-.
Qed.

(** ** Lemmas: an entry edited without a change *)

Section Unchanged.
Context (ports : list string) (time : Z) (bind_ok : bool) (title : string) (w : world).

(** The options flow when the user picks "edit" and submits every form as it is
    shown; each form must be one the engine accepts like that. *)
Inductive saved_unchanged : options_flow -> flow_result -> pydict -> Prop :=
| su_saved fs options : saved_unchanged fs (CreateEntry "" options []) options
| su_edit fs step choices fs' r' options : In "edit" choices ->
    options_step ports time bind_ok title "edit" None fs w = (w, Ok (fs', r')) -> saved_unchanged fs' r' options ->
    saved_unchanged fs (ShowMenu step choices) options
| su_form fs step sch errors ph fs' r' options : List.NoDup (keys sch) -> submittable sch ->
    options_step ports time bind_ok title step (Some (unchanged sch)) fs w = (w, Ok (fs', r')) -> saved_unchanged fs' r' options ->
    saved_unchanged fs (ShowForm step sch errors ph) options.

(** An entry's options, with the debug switch if it was ever saved. *)
Definition with_debug (b : option bool) (options : pydict) : pydict :=
  options ++ match b with Some b => [("debug_panel", VBool b)] | None => [] end.

Definition debug_on (b : option bool) : bool := match b with Some b => b | None => false end.

Lemma small_range n : 1 <= n <= 300 -> in_range 1 300 (float_of_Z n) /\ (n <= 16 -> in_range 1 16 (float_of_Z n)).
Proof.
  intros Hn. destruct (small_float n Hn) as [Hx _].
  assert (forall n, 0 <= n < 301 -> (((n =? 0) || fle (float_of_Z 1) (float_of_Z n)) && fle (float_of_Z n) (float_of_Z 300)
            && ((16 <? n) || fle (float_of_Z n) (float_of_Z 16)))%bool = true) as H by by_range 301.
  specialize (H n ltac:(lia)). rewrite (proj2 (Z.eqb_neq n 0)) in H by lia. cbn [orb] in H.
  apply andb_true_iff in H as [[H1 H2]%andb_true_iff H3]. split; [now split|]. intros Hm. rewrite (proj2 (Z.ltb_ge 16 n)) in H3 by lia.
  now split.
Qed.

(** The defaults the flow loads from a well-formed entry are its own fields. *)
Definition own_defaults (c : connection) : pydict := [
  ("transport", VStr (k_transport c)); ("host", VStr (k_host c)); ("port", VInt (k_port c)); ("serial_device", VStr (k_serial c));
  ("agent_device_id", VStr (k_agent c)); ("eybond_devaddr", VInt (k_addr c)); ("eybond_broadcast", VStr (k_broadcast c));
  ("eybond_announce_ip", VStr (k_announce c)); ("update_interval", VInt (k_interval c)); ("strict_crc", VBool (k_crc c));
  ("bus_mode", VStr (k_mode c))].

Definition opened (e : config_entry) (c : connection) : options_flow :=
  {| of_entry := e; of_defaults := own_defaults c; of_protocol := k_protocol c; of_transport := k_transport c |}.

Lemma opens c e b parsed : compatible (k_protocol c) (k_transport c) -> e_options e = with_debug b (connection_options c) ->
  parse_device_uri (k_uri c) = Ok parsed -> open_defaults (options_flow_init e) = Ok (opened e c).
Proof.
  intros Hc He Hp. unfold open_defaults, load_defaults. cbn [options_flow_init of_entry]. rewrite He.
  unfold text_or_empty at 1. cbn [with_debug connection_options app dget String.eqb Ascii.eqb Bool.eqb obind]. rewrite Hp. cbn [rmap rbind].
  unfold opt_of. cbn -[normalize]. now rewrite (normalize_fixed _ _ Hc).
Qed.

(** The connection form of a well-formed entry, submitted as it is shown. *)
Definition connection_shown (c : connection) (b : option bool) : schema :=
  build_connection_schema ports (k_protocol c) (k_transport c) (own_defaults c)
  ++ [optional "debug_panel" (VBool (debug_on b)) KBool].

(** The defaults of the shown fields, where the entry gives them. *)
Lemma own_texts c : (k_host c <> "" -> truthy_get "host" (own_defaults c) = Some (VStr (k_host c))
                                       /\ truthy_or "host" (VStr "0.0.0.0") (own_defaults c) = VStr (k_host c))
  /\ (k_serial c <> "" -> truthy_get "serial_device" (own_defaults c) = Some (VStr (k_serial c)))
  /\ (k_agent c <> "" -> truthy_get "agent_device_id" (own_defaults c) = Some (VStr (k_agent c)))
  /\ (1 <= k_port c -> forall d, truthy_or "port" d (own_defaults c) = VInt (k_port c)).
Proof.
  unfold truthy_get, truthy_or, own_defaults. cbn -[Z.eqb]. repeat apply conj; intros Hx; [split| | |intros d];
    [apply String.eqb_neq in Hx; now rewrite Hx..|]. now rewrite (proj2 (Z.eqb_neq _ 0)) by lia.
Qed.

Lemma self_or s : (if String.eqb s "" then "" else s) = s.
Proof. now destruct (String.eqb_spec s "") as [->|]. Qed.

Lemma port_shown n d input : dget "port" input = Some (VInt n) -> 1 <= n -> int_or "port" d input = Some n.
Proof.
  intros H Hn. unfold int_or, vget, int_option. rewrite H. cbn [truthy int_of_val]. now rewrite (proj2 (Z.eqb_neq n 0)) by lia.
Qed.

(** The form's numbers read back, and the fields it does not show. *)
Ltac own_numbers :=
  match goal with
  | c : connection |- _ =>
      rewrite ?(port_shown (k_port c)) by (reflexivity || assumption); rewrite ?(proj2 (small_float (k_addr c) ltac:(lia)))
  end.
Ltac own_constants :=
  match goal with
  | c : connection |- _ =>
      repeat match goal with
             | H : k_host c = _ |- _ => rewrite ?H; clear H | H : k_port c = _ |- _ => rewrite ?H; clear H
             | H : k_serial c = _ |- _ => rewrite ?H; clear H | H : k_agent c = _ |- _ => rewrite ?H; clear H
             | H : k_addr c = _ |- _ => rewrite ?H; clear H | H : k_broadcast c = _ |- _ => rewrite ?H; clear H
             | H : k_announce c = _ |- _ => rewrite ?H; clear H | H : k_crc c = _ |- _ => rewrite ?H; clear H
             | H : k_mode c = _ |- _ => rewrite ?H; clear H
             end
  end.

Lemma connection_resubmitted c b : connection_ok c -> k_broadcast c <> "" ->
  List.NoDup (keys (connection_shown c b)) /\ submittable (connection_shown c b)
  /\ step_connection (k_protocol c) (k_transport c) (unchanged (connection_shown c b)) = Some (inr (connection_options c))
  /\ vget "debug_panel" (unchanged (connection_shown c b)) = VBool (debug_on b).
Proof.
  intros [Hc Ha Hg Hd Hi Hr Hm Hmd Hs] Hbc. pose proof (compatible_cases _ _ Hc) as Hcase.
  repeat (apply Forall_cons in Hs as [? Hs]). clear Hs. unfold stripped in *.
  destruct (small_range _ Hi) as [Ri _]. destruct (small_float _ Hi) as [_ Ii]. destruct (own_texts c) as (T1 & T2 & T3 & T4).
  unfold connection_shown, build_connection_schema. rewrite (normalize_fixed _ _ Hc).
  unfold connection_options, k_uri. cbn [In] in Hcase.
  repeat (destruct Hcase as [[= Ep Et]|Hcase]); [..|destruct Hcase]; rewrite <- ?Ep, <- ?Et in *.
  all: cbn -[in_range] in Ha, Hg, Hd, Hr, Hmd; try specialize (Hr eq_refl); try specialize (Hmd eq_refl).
  all: repeat match goal with H : _ /\ _ |- _ => destruct H end.
  all: try (destruct (T1 ltac:(assumption)) as [T1a T1b]); try specialize (T2 ltac:(assumption)); try specialize (T3 ltac:(assumption));
    try specialize (T4 ltac:(assumption)).
  all: unfold serial_field, address_fields, host_default, dongle_fields, interval_field; cbn -[own_defaults unchanged in_range step_connection build_device_uri];
    rewrite ?T1a, ?T1b, ?T2, ?T3, ?T4 by assumption.
  all: split; [apply string_nodupb_sound; reflexivity|]; (split; [|split; [|reflexivity]]).
  all: match goal with
       | |- submittable _ =>
           repeat (apply List.Forall_cons; [eexists; split; [reflexivity|]; cbn -[in_range]|]); [..|apply List.Forall_nil];
           first [now eexists | eexists; (split; [reflexivity|]); first [exact Ri | now apply small_range; lia | lia]
                 | apply (in_map VStr BUS_MODES _ Hm)]
       | _ => idtac
       end.
  all: unfold step_connection, validate_connection; rewrite !(normalize_fixed _ _ Hc);
    cbn -[strip float_of_Z int_of_float Z.eqb isin BUS_MODES DEFAULT_EYBOND_BROADCAST DEFAULT_BUS_MODE int_or build_device_uri];
    change (strip "") with ""; change (strip DEFAULT_EYBOND_BROADCAST) with DEFAULT_EYBOND_BROADCAST;
    rewrite ?Ii;
    repeat match goal with H : strip (?f _) = _ |- _ => rewrite !H end;
    repeat match goal with H : _ <> ""%string |- _ => rewrite ?(proj2 (String.eqb_neq _ "") H); clear H end; rewrite ?self_or;
    repeat match goal with H : strip (?f _) = _ |- _ => rewrite !H end.
  all: rewrite ?(proj2 (isin_In _ _) Hm); own_numbers; own_constants; reflexivity.
Qed.

Lemma protocol_resubmitted p t : compatible p t ->
  List.NoDup (keys (protocol_schema p)) /\ submittable (protocol_schema p) /\ unchanged (protocol_schema p) = [("protocol", VStr p)].
Proof.
  intros [Hp _]. assert (fst (normalize (Some p) None) = p) as E by (destruct Hp as [<-|[<-|[<-|[<-|[]]]]]; reflexivity).
  unfold protocol_schema. rewrite E. split; [apply string_nodupb_sound; reflexivity|]. split; [|reflexivity].
  constructor; [|constructor]. eexists. split; [reflexivity|]. now apply (in_map VStr PROTOCOLS).
Qed.

Lemma transport_resubmitted p t : compatible p t ->
  List.NoDup (keys (transport_schema p t)) /\ submittable (transport_schema p t)
  /\ unchanged (transport_schema p t) = [("transport", VStr t)].
Proof.
  intros Hc. unfold transport_schema. rewrite (normalize_fixed p t Hc).
  split; [apply string_nodupb_sound; reflexivity|]. split; [|reflexivity].
  constructor; [|constructor]. eexists. split; [reflexivity|]. apply (in_map VStr (supported_transports p)), Hc.
Qed.

(** From the protocol form on. *)
Lemma protocol_saved e c b : connection_ok c -> k_broadcast c <> "" -> e_options e = with_debug b (connection_options c) ->
  exists fs r, options_protocol ports None (opened e c) = Ok (fs, r)
  /\ saved_unchanged fs r (connection_options c ++ [("debug_panel", VBool (debug_on b))]).
Proof.
  intros Hok Hb He. pose proof (co_pair c Hok) as Hc. eexists _, _. split; [reflexivity|].
  destruct (protocol_resubmitted _ _ Hc) as (N1 & S1 & U1). destruct (transport_resubmitted _ _ Hc) as (N2 & S2 & U2).
  destruct (connection_resubmitted c b Hok Hb) as (N3 & S3 & U3 & U4).
  assert (debug_panel_field (e_options e) = optional "debug_panel" (VBool (debug_on b)) KBool) as Ed by (rewrite He; now destruct b).
  eapply su_form; [exact N1|exact S1| |].
  { unfold options_step. cbn [opened of_protocol String.eqb Ascii.eqb Bool.eqb]. rewrite U1. unfold options_protocol, opt_of.
    cbn [dget String.eqb Ascii.eqb Bool.eqb typed rbind opened of_transport]. rewrite (normalize_fixed _ _ Hc).
    unfold options_transport, options_pair. cbn [with_of_pair of_protocol of_transport fst snd]. rewrite (normalize_fixed _ _ Hc). reflexivity. }
  eapply su_form; [exact N2|exact S2| |].
  { unfold options_step. cbn [String.eqb Ascii.eqb Bool.eqb]. rewrite U2. unfold options_transport, opt_of.
    cbn [dget String.eqb Ascii.eqb Bool.eqb typed rbind with_of_pair of_protocol fst snd]. rewrite (normalize_fixed _ _ Hc).
    unfold options_connection, options_pair. cbn [with_of_pair of_protocol of_transport of_defaults of_entry opened fst snd given].
    rewrite (normalize_fixed _ _ Hc), Ed. reflexivity. }
  eapply su_form; [exact N3|exact S3| |].
  { unfold options_step. cbn [String.eqb Ascii.eqb Bool.eqb]. unfold options_connection, options_pair.
    cbn [with_of_pair of_protocol of_transport of_defaults of_entry opened fst snd]. rewrite (normalize_fixed _ _ Hc).
    change (dupdate [] (own_defaults c)) with (own_defaults c). fold (connection_shown c b). rewrite U3, U4.
    cbn [typed rmap truthy]. reflexivity. }
  apply su_saved.
Qed.

End Unchanged.

(** ** Lemmas: a host field with a colon in it *)

Definition bad_port : exn := ValueError "Port could not be cast to integer value".

(** Plain characters and colons. *)
Definition colons (s : string) : Prop := List.Forall (fun c => safe_char c = true \/ c = ":"%char) (chars s).

Lemma pasted_port sch c0 cs a b port rest : chars sch = c0 :: cs -> is_alpha c0 = true -> safe sch -> safe a -> colons b ->
  1 <= port <= 65535 -> rest_ok rest ->
  let u := urlparse (sch ++ "://" ++ host_port (a ++ ":" ++ b) port ++ rest) in
  u_port u = Raise bad_port /\ u_path u = before "?" (before "#" rest).
Proof.
  intros Hc Hal Hs Ha Hb Hp Hr u. destruct (str_of_nat_digits port ltac:(lia)) as [Hd _]. apply digits_safe in Hd.
  set (net := host_port (a ++ ":" ++ b) port) in u.
  assert (chars net = chars a ++ ":"%char :: chars b ++ ":"%char :: chars (str_of_int port)) as En
    by (unfold net, host_port; now rewrite !chars_app, <- app_assoc).
  assert (forall P : ascii -> Prop, P ":"%char -> (forall c, safe_char c = true -> P c) -> List.Forall P (chars net)) as Hall.
  { intros P Hcol Hsafe. rewrite En. assert (forall s, safe s -> List.Forall P (chars s)) as H
      by (intros s H; eapply List.Forall_impl; [|exact H]; exact Hsafe).
    apply List.Forall_app; split; [now apply H|]. constructor; [exact Hcol|]. apply List.Forall_app; split; [|constructor; [exact Hcol|now apply H]].
    eapply List.Forall_impl; [|exact Hb]. intros c [Hc'|Hc']; [now apply Hsafe|now rewrite Hc']. }
  assert (u = {| u_scheme := lower sch; u_netloc := net; u_path := before "?" (before "#" rest); u_query := after "?" (before "#" rest) |}) as Eu
    by (apply (urlparse_rest sch c0 cs net rest Hc Hal Hs); [apply Hall; [reflexivity|]|apply Hall; [reflexivity|]|exact Hr];
        intros c H; now apply safe_plain).
  rewrite Eu. split; [|reflexivity]. unfold u_port. cbn [u_netloc].
  assert (after_last "@" net = net) as ->.
  { apply after_last_none, Hall; [reflexivity|]. intros c H. apply safe_not_reserved; [exact H|cbn; tauto]. }
  unfold after. rewrite (cut_at ":" net (chars a) (chars b ++ ":"%char :: chars (str_of_int port)) En)
    by (apply safe_without; [exact Ha|cbn; tauto]). cbv beta iota zeta.
  set (tail := chars b ++ ":"%char :: chars (str_of_int port)).
  assert (String.eqb (str tail) "" = false) as ->.
  { apply String.eqb_neq. intros E. apply (f_equal chars) in E. rewrite chars_str in E. unfold tail in E. now destruct (chars b). }
  rewrite chars_str. assert (forallb is_digit tail = false) as ->; [|reflexivity].
  apply not_true_is_false. rewrite forallb_forall. intros H. specialize (H ":"%char). unfold tail in H.
  rewrite in_app_iff in H. discriminate H. right. now left.
Qed.

Lemma pasted_gateway protocol transport sch c0 cs a b port : chars sch = c0 :: cs -> is_alpha c0 = true -> safe sch -> safe a -> colons b ->
  1 <= port <= 65535 ->
  parse_gateway_uri protocol transport (sch ++ "://" ++ host_port (a ++ ":" ++ b) port) = Raise bad_port.
Proof.
  intros Hc Hal Hs Ha Hb Hp. destruct (pasted_port sch c0 cs a b port "" Hc Hal Hs Ha Hb Hp rest_empty) as [E _].
  assert ((sch ++ "://" ++ host_port (a ++ ":" ++ b) port ++ "")%string = (sch ++ "://" ++ host_port (a ++ ":" ++ b) port)%string) as Et
    by (apply chars_inj; now rewrite !chars_app, app_nil_r).
  rewrite Et in E. unfold parse_gateway_uri, port_or. now rewrite E.
Qed.

Lemma pasted_eybond scheme c0 cs a b port addr bc ann : chars scheme = c0 :: cs -> is_alpha c0 = true -> safe scheme ->
  safe a -> colons b -> 1 <= port <= 65535 -> 0 <= addr < 2 ^ 32 -> safe bc -> safe ann ->
  parse_eybond_fields (eybond_device_uri scheme (a ++ ":" ++ b) port addr bc ann) = Raise bad_port.
Proof.
  intros Hc Hal Hs Ha Hb Hp Hx Hbc Hann.
  destruct (eybond_rest addr bc ann Hx Hbc Hann) as (rest & Et & Hr & Hpath & _).
  destruct (pasted_port scheme c0 cs a b port rest Hc Hal Hs Ha Hb Hp Hr) as [E1 E2]. rewrite Et. unfold parse_eybond_fields, port_or.
  rewrite E1, E2, Hpath. destruct (str_of_nat_digits addr ltac:(lia)) as [_ Hne].
  change (String.eqb ("/" ++ str_of_int addr)%string "") with false. cbv iota. rewrite path_devaddr by exact Hx.
  rewrite (proj2 (String.eqb_neq _ "") Hne), py_int_str by exact Hx. reflexivity.
Qed.

(** The fields of an entry whose host field holds [a:b], where [b] may have more colons:
    an address with its port, or an IPv6 address without brackets. *)
Record pasted (c : connection) (a b : string) : Prop := {
  ps_host : k_host c = (a ++ ":" ++ b)%string;
  ps_safe : safe a /\ colons b;
  ps_agent : safe (k_agent c);
  ps_dongle : safe (k_broadcast c) /\ safe (k_announce c)
}.

Lemma pasted_uri c a b : connection_ok c -> k_transport c <> "serial" -> pasted c a b ->
  parse_device_uri (k_uri c) = Raise bad_port.
Proof.
  intros Hok Ht [Hh [Ha Hb] Hg [Hbc Hann]]. pose proof (co_pair c Hok) as Hc. pose proof (co_address c Hok) as Had.
  pose proof (co_dongle c Hok) as Hd. unfold k_uri, build_device_uri. rewrite (normalize_fixed _ _ Hc).
  apply String.eqb_neq in Ht. rewrite Ht in Had. destruct Had as (_ & _ & Hp). rewrite Hh.
  pose proof (compatible_cases _ _ Hc) as Hcase. cbn [In] in Hcase.
  repeat (destruct Hcase as [[= Ep Et]|Hcase]); [..|destruct Hcase]; rewrite <- Ep, <- Et in *; try discriminate Ht;
    cbn [String.eqb Ascii.eqb Bool.eqb negb] in *.
  - transitivity (parse_gateway_uri "voltronic" "tcp_elfin" ("tcp" ++ "://" ++ host_port (a ++ ":" ++ b) (k_port c))); [now destruct a|].
    apply (pasted_gateway _ _ _ "t" (chars "cp")); try assumption; first [reflexivity|repeat constructor].
  - transitivity (parse_eybond_fields (eybond_device_uri "eybond" (a ++ ":" ++ b) (k_port c) (k_addr c) (k_broadcast c) (k_announce c))).
    { destruct (eybond_rest (k_addr c) (k_broadcast c) (k_announce c) ltac:(lia) Hbc Hann) as (rest & -> & _). now destruct a. }
    apply (pasted_eybond _ "e" (chars "ybond")); try assumption; first [reflexivity|lia|repeat constructor].
  - transitivity (parse_gateway_uri "pi18" "tcp" ("pi18" ++ "://" ++ host_port (a ++ ":" ++ b) (k_port c))); [now destruct a|].
    apply (pasted_gateway _ _ _ "p" (chars "i18")); try assumption; first [reflexivity|repeat constructor].
  - transitivity (parse_eybond_fields (eybond_device_uri "eybond-pi18" (a ++ ":" ++ b) (k_port c) (k_addr c) (k_broadcast c) (k_announce c))).
    { destruct (eybond_rest (k_addr c) (k_broadcast c) (k_announce c) ltac:(lia) Hbc Hann) as (rest & -> & _). now destruct a. }
    apply (pasted_eybond _ "e" (chars "ybond-pi18")); try assumption; first [reflexivity|lia|repeat constructor].
  - transitivity (parse_gateway_uri "modbus" "tcp" ("modbus" ++ "://" ++ host_port (a ++ ":" ++ b) (k_port c))); [now destruct a|].
    apply (pasted_gateway _ _ _ "m" (chars "odbus")); try assumption; first [reflexivity|repeat constructor].
  - transitivity (parse_gateway_uri "modbus" "tcp" ("modbus" ++ "://" ++ host_port (a ++ ":" ++ b) (k_port c))); [now destruct a|].
    apply (pasted_gateway _ _ _ "m" (chars "odbus")); try assumption; first [reflexivity|repeat constructor].
  - destruct (pasted_port "agent" "a" (chars "gent") a b (k_port c) ("/" ++ k_agent c) eq_refl eq_refl ltac:(repeat constructor) Ha Hb Hp
      (proj1 (rest_path _ Hg))) as [E _].
    transitivity (parse_agent_fields ("agent" ++ "://" ++ host_port (a ++ ":" ++ b) (k_port c) ++ "/" ++ k_agent c)); [now destruct a|].
    unfold parse_agent_fields, port_or. now rewrite E.
Qed.

(** ** Lemmas: the device form as it is shown *)

Definition device_suffixes : list string := ["enabled"; "name"; "protocol"; "devaddr"; "remove"].

Lemma field_of_inj p q s s' : In s device_suffixes -> In s' device_suffixes -> field_of p s = field_of q s' -> p = q /\ s = s'.
Proof.
  unfold field_of. intros Hs Hs' H. apply (f_equal chars) in H. rewrite !chars_app in H. apply (f_equal (@rev ascii)) in H.
  rewrite !rev_app_distr in H. cbn in Hs, Hs'.
  repeat (destruct Hs as [<-|Hs]); [..|destruct Hs]; repeat (destruct Hs' as [<-|Hs']); try destruct Hs'; cbn in H; try discriminate H;
    repeat injection H as H; apply (f_equal (@rev ascii)) in H; rewrite !rev_involutive in H; split; auto; now apply chars_inj.
Qed.

Lemma devices_keys records k : In k (keys (devices_schema records)) ->
  exists rec s, In rec records /\ In s device_suffixes /\ k = field_of (pn rec) s.
Proof.
  unfold keys, devices_schema. rewrite in_map_iff. intros (f & <- & Hf). apply in_flat_map in Hf as (rec & Hr & Hf).
  cbn in Hf. repeat (destruct Hf as [<-|Hf]; [cbn; eexists _, _; split; [exact Hr|]; split; [|reflexivity]; cbn; tauto|]). destruct Hf.
Qed.

Lemma devices_distinct records : List.NoDup (map pn records) -> List.NoDup (keys (devices_schema records)).
Proof.
  induction records as [|rec records IH]; cbn [map]; intros Hn; [constructor|]. inversion Hn as [|? ? Hr Hn']; subst.
  unfold keys, devices_schema. cbn [flat_map]. rewrite map_app. apply List.NoDup_app.
  - assert (map f_key (device_fields rec) = map (field_of (pn rec)) device_suffixes) as -> by reflexivity.
    apply List.NoDup_map_NoDup_ForallPairs; [|apply string_nodupb_sound; reflexivity].
    intros s s' Hs Hs' E. now apply (field_of_inj (pn rec) (pn rec)).
  - now apply IH.
  - intros k Hk Hk'. apply devices_keys in Hk' as (rec' & s' & Hin & Hs' & ->).
    assert (map f_key (device_fields rec) = map (field_of (pn rec)) device_suffixes) as E by reflexivity. rewrite E in Hk.
    apply in_map_iff in Hk as (s & Es & Hs). apply field_of_inj in Es as [Ep _]; [|exact Hs|exact Hs'].
    apply Hr. rewrite Ep. now apply in_map.
Qed.

(** A record as the form can show it: a protocol of its list, an address in its range. *)
Definition shown_record (rec : DongleRecord) : Prop :=
  (match protocol rec with Some s => In s ["voltronic"; "pi18"; "modbus"] | None => True end) /\ 1 <= devaddr rec <= 16.

Definition shown_name (rec : DongleRecord) : string := if String.eqb (name rec) "" then pn rec else name rec.

Lemma devices_submittable records : List.Forall shown_record records -> submittable (devices_schema records).
Proof.
  unfold submittable, devices_schema. induction 1 as [|rec records [Hp Ha] _ IH]; [constructor|]. cbn [flat_map].
  apply List.Forall_app. split; [|exact IH].
  repeat (apply List.Forall_cons; [eexists; split; [reflexivity|]; cbn -[in_range]|]); [..|apply List.Forall_nil]; try now eexists.
  - destruct (protocol rec) as [s|]; [|now left]. destruct Hp as [<-|[<-|[<-|[]]]]; cbn; tauto.
  - eexists. split; [reflexivity|]. now apply small_range; lia.
Qed.

(** What the unchanged form says of a record. *)
Lemma devices_shown records rec : List.NoDup (map pn records) -> List.Forall shown_record records -> In rec records ->
  let input := unchanged (devices_schema records) in
  vget (field_of (pn rec) "enabled") input = VBool true /\ vget (field_of (pn rec) "remove") input = VBool false
  /\ text_or_empty (field_of (pn rec) "name") input = Some (shown_name rec)
  /\ str_field (field_of (pn rec) "protocol") "none" input = Some (match protocol rec with Some s => s | None => "none" end)
  /\ int_option (field_of (pn rec) "devaddr") (devaddr rec) input = Some (devaddr rec).
Proof.
  intros Hn Hs Hin input. pose proof (devices_submittable records Hs) as Hsub. pose proof (devices_distinct records Hn) as Hd.
  assert (forall k d kind, In (optional k d kind) (device_fields rec) -> dget k input = Some (validated kind d)) as Hget.
  { intros k d kind Hf. apply dget_in; [unfold dict_ok, input; now rewrite unchanged_keys|]. unfold input, unchanged. apply in_flat_map.
    exists (optional k d kind). split; [apply in_flat_map; now exists rec|now left]. }
  destruct (proj1 (List.Forall_forall _ _) Hs rec Hin) as [Hp Ha].
  unfold vget, text_or_empty, str_field, int_option.
  rewrite (Hget (field_of (pn rec) "enabled") (VBool true) KBool) by (cbn; tauto).
  rewrite (Hget (field_of (pn rec) "remove") (VBool false) KBool) by (cbn; tauto).
  rewrite (Hget (field_of (pn rec) "name") (VStr (shown_name rec)) KString) by (cbn; tauto).
  rewrite (Hget (field_of (pn rec) "protocol")
    (VStr (match protocol rec with Some s => if String.eqb s "" then "none" else s | None => "none" end))
    (KSelect (map VStr HUB_CHILD_PROTOCOLS) false)) by (cbn; tauto).
  rewrite (Hget (field_of (pn rec) "devaddr") (VInt (devaddr rec)) (KNumber 1 16)) by (cbn; tauto).
  cbn [validated int_of_val]. rewrite (proj2 (small_float (devaddr rec) ltac:(lia))).
  do 3 (split; [reflexivity|]). split; [|reflexivity]. destruct (protocol rec) as [s|]; [|reflexivity].
  destruct Hp as [<-|[<-|[<-|[]]]]; reflexivity.
Qed.

Lemma bulk_unchanged records all : List.NoDup (map pn all) -> List.Forall shown_record all -> incl records all -> forall reg,
  exists reg', apply_device_bulk records (unchanged (devices_schema all)) reg = Some reg'.
Proof.
  intros Hn Hs. induction records as [|rec records IH]; intros Hi reg; [now exists reg|].
  unfold apply_device_bulk. cbn [fold_left obind]. 
  destruct (devices_shown all rec Hn Hs (Hi rec (or_introl eq_refl))) as (_ & E2 & E3 & E4 & E5). unfold apply_device at 2.
  rewrite E2, E3, E4, E5. cbn [truthy obind]. apply IH. intros x Hx. apply Hi. now right.
Qed.

(** Input of a form, given field by field. *)
Lemma conforms_intro sch input : dkeys input = keys sch -> List.NoDup (keys sch) ->
  Forall2 (fun f kv => accepts (f_kind f) (snd kv)) sch input -> conforms sch input.
Proof.
  intros Hk Hn Ha. split.
  - intros f Hf. assert (exists v, In (f_key f, v) input /\ accepts (f_kind f) v) as (v & Hv & Hacc).
    { clear Hn. revert Hk Hf. induction Ha as [|f' [k v] sch input Hacc _ IH]; intros Hk Hf; [destruct Hf|].
      unfold dkeys, keys in Hk. cbn [map fst] in Hk. injection Hk as Hk1 Hk2. destruct Hf as [->|Hf].
      - exists v. subst. split; [now left|exact Hacc].
      - destruct (IH Hk2 Hf) as (v' & Hin & Hv'). exists v'. split; [now right|exact Hv']. }
    exists v. split; [|exact Hacc]. apply dget_in; [unfold dict_ok; now rewrite Hk|exact Hv].
  - intros k v H. rewrite <- Hk. apply dget_some_in in H. now apply (in_map fst) in H.
Qed.

(** ** Properties *)

(** C39: adding an entry works whatever the user does: from every
    state a new flow can reach, each offered menu entry and each form submission the
    engine accepts is answered without an exception; and an entry is only created
    with a non-blank name and well-formed options, those of a hub exactly when its
    options flow is the hub's, else those of a device with a supported protocol and
    transport, the address that transport needs, and numbers in their ranges. *)
Theorem config_flow_sound (fs : config_flow) (r : flow_result) (Hr : config_reach fs r) :
  (forall step input ports, engine_call r step input -> exists fs' r', config_step ports step input fs = Ok (fs', r'))
  /\ (forall title data options, r = CreateEntry title data options -> entry_ok title data options).
Proof.
  pose proof (config_reach_ok fs r Hr) as Hok. split.
  - intros step input ports Ha. destruct (answer_ok ports fs r step input Hok Ha) as (fs' & r' & E & _). now exists fs', r'.
  - intros title data options ->. inversion Hok; subst; assumption.
Qed.


(** C38: a host field of plain characters (letters, digits, '.', '-' and the like) with a
    colon among them, an address pasted with its port or a bare IPv6 address, passes the
    connection form, which saves the entry; but its device string has no readable port,
    and opening the options of the entry raises, before any form is shown: it can only
    be deleted. A bracketed IPv6 address is not such a field. *)
Theorem pasted_host_locks_options (ports : list string) (time : Z) (bind_ok : bool) (title : string) (w : world) (e : config_entry)
    (c : connection) (b : option bool) (h1 h2 : string)
    (Hok : connection_ok c) (Ht : k_transport c <> "serial") (Hh : pasted c h1 h2)
    (He : e_options e = with_debug b (connection_options c)) :
  validate_connection (k_protocol c) (k_transport c) (k_host c) (k_serial c) (k_agent c) = []
  /\ options_step ports time bind_ok title "init" None (options_flow_init e) w = (w, Raise bad_port).
Proof.
  split.
  - unfold validate_connection. rewrite (normalize_fixed _ _ (co_pair c Hok)).
    pose proof (co_address c Hok) as Ha. pose proof (co_agent c Hok) as Hg. rewrite (proj2 (String.eqb_neq _ "serial") Ht) in *.
    cbn [andb negb]. rewrite (proj2 (String.eqb_neq _ "") (proj1 Ha)).
    destruct (String.eqb (k_protocol c) "agent"); [|reflexivity]. now rewrite (proj2 (String.eqb_neq _ "") Hg).
  - unfold options_step. cbn [String.eqb Ascii.eqb Bool.eqb]. unfold options_init, open_defaults, load_defaults.
    cbn [options_flow_init of_entry]. rewrite He. unfold text_or_empty at 1.
    cbn [with_debug connection_options app dget String.eqb Ascii.eqb Bool.eqb obind]. now rewrite (pasted_uri c h1 h2 Hok Ht Hh).
Qed.

(** The device form of a hub, submitted as it is shown,
    is accepted and keeps every dongle's protocol and bus address; a nameless dongle
    is named after its PN, and every dongle is enabled, also one that was disabled. *)
Theorem devices_form_unchanged (time : Z) (bind_ok : bool) (e : config_entry) (w : world) (rt : runtime) (reg : dongles)
    (Hrt : w_runtimes w !! e_id e = Some rt) (Hreg : registry_at w (r_ref rt) = reg) (Hne : reg <> [])
    (Hok : registry_ok reg) (Hs : List.Forall shown_record (all_records reg)) :
  exists sch ph, hub_flow_step time bind_ok "devices" None e w = (w, Ok (ShowForm "devices" sch [] ph))
  /\ conforms sch (unchanged sch)
  /\ exists w' reg', hub_flow_step time bind_ok "devices" (Some (unchanged sch)) e w = (w', Ok (CreateEntry "" (e_options e) []))
     /\ registry_at w' (r_ref rt) = reg'
     /\ forall p r, dget p reg = Some r ->
          dget p reg' = Some (with_config r (strip (shown_name r)) true (protocol r) (devaddr r)).
Proof.
  pose proof (registry_pns reg Hok) as Ek. destruct Hok as [Hd Hpn].
  assert (List.NoDup (map pn (all_records reg))) as Hn by (rewrite Ek; exact Hd).
  assert (all_records reg <> []) as Hall by (unfold all_records, dvalues; now destruct reg).
  unfold hub_flow_step. cbn [String.eqb Ascii.eqb Bool.eqb].
  exists (devices_schema (all_records reg)), [("devices", join (str [chr 10]) (map device_summary (all_records reg)))].
  split; [unfold hub_devices; rewrite Hrt, Hreg; destruct (all_records reg); [easy|reflexivity]|].
  split; [apply unchanged_conforms; [now apply devices_distinct|now apply devices_submittable]|].
  set (input := unchanged (devices_schema (all_records reg))).
  destruct (bulk_unchanged (all_records reg) (all_records reg) Hn Hs ltac:(easy) reg) as (reg' & Eb). fold input in Eb.
  assert (step_devices (e_id e) input w = Some (async_save true (e_id e) (with_reg (r_ref rt) reg' w))) as Es.
  { unfold step_devices. rewrite Hrt, Hreg. destruct reg as [|kr reg0]; [easy|]. now rewrite Eb. }
  eexists _, reg'. split; [unfold hub_devices; rewrite Hrt, Hreg, Es; destruct (all_records reg); [easy|reflexivity]|]. split.
  { unfold async_save. cbn [w_runtimes with_reg]. rewrite Hrt. cbn [orb].
    change (registry_at (with_reg (r_ref rt) reg' w) (r_ref rt) = reg'). now rewrite reg_of_put, decide_True. }
  intros p r Hp. pose proof (Hpn p r Hp) as Ep.
  assert (In r (all_records reg)) as Hin by (unfold all_records, dvalues; apply dget_some_in in Hp; exact (in_map snd _ _ Hp)).
  destruct (bulk_effect (all_records reg) input reg reg' ltac:(now apply NoDup_ListNoDup) Hd Eb) as (_ & _ & He).
  specialize (He r ltac:(now apply list_elem_of_In)). unfold device_effect in He.
  destruct (devices_shown (all_records reg) r Hn Hs Hin) as (E1 & E2 & E3 & E4 & E5). fold input in E1, E2, E3, E4, E5.
  rewrite E2 in He. cbn [truthy] in He. destruct He as (r' & Hr' & nm & addr & proto & F1 & F2 & F3 & ->).
  rewrite F1 in E3. rewrite F2 in E5. rewrite F3 in E4. injection E3 as ->. injection E4 as ->. injection E5 as ->.
  unfold ensure_record in Hr'. rewrite E1, Ep, Hp in Hr'. rewrite Hr'. do 2 f_equal.
  destruct (proj1 (List.Forall_forall _ _) Hs r Hin) as [Hproto _]. destruct (protocol r) as [s|]; [|reflexivity].
  destruct Hproto as [<-|[<-|[<-|[]]]]; reflexivity.
Qed.

(** ** Witnesses *)

Definition garage_input : pydict := [
  ("name", VStr " Garage "); ("host", VStr "0.0.0.0"); ("port", VInt 8899); ("eybond_broadcast", VStr "192.168.1.255");
  ("eybond_announce_ip", VStr ""); ("update_interval", VFloat (float_of_Z 10))].

Definition garage_options : pydict :=
  [("entry_kind", VStr "eybond_hub")] ++ listener_options "0.0.0.0" 8899 "192.168.1.255" "" 10 ++ [("hub_revision", VInt 0)].

Lemma garage_conforms : conforms (hub_listener_schema []) garage_input.
Proof.
  apply conforms_intro; [reflexivity|apply string_nodupb_sound; reflexivity|].
  repeat (apply List.Forall2_cons; [try now eexists|]); [|apply List.Forall2_nil].
  eexists. split; [reflexivity|]. now apply small_range.
Qed.

(** A hub added in two steps; the engine may also start over with the device form. *)
Lemma config_flow_sound_witness :
  entry_ok "Garage" [("name", VStr "Garage"); ("entry_kind", VStr "eybond_hub")] garage_options
  /\ exists fs' r', config_step [] "device" None config_flow_init = Ok (fs', r').
Proof.
  assert (config_reach config_flow_init (ShowMenu "user" ["device"; "hub"])) as Hmenu by apply cr_start.
  split.
  - assert (config_reach config_flow_init (ShowForm "hub" (hub_listener_schema []) [] [])) as Hform.
    { eapply (cr_answer _ _ "hub" None []); [exact Hmenu|apply an_choice; right; now left|reflexivity]. }
    assert (config_reach config_flow_init
              (CreateEntry "Garage" [("name", VStr "Garage"); ("entry_kind", VStr "eybond_hub")] garage_options)) as Hentry.
    { eapply (cr_answer _ _ "hub" (Some garage_input) []); [exact Hform|apply an_submit, garage_conforms|vm_compute; reflexivity]. }
    exact (proj2 (config_flow_sound _ _ Hentry) _ _ _ eq_refl).
  - exact (proj1 (config_flow_sound _ _ Hmenu) "device" None [] (an_choice "user" ["device"; "hub"] "device" (or_introl eq_refl))).
Defined.

(** An inverter behind a Wi-Fi bridge, and the same with its port in the host field. *)
Definition bridge (host : string) : connection := {|
  k_protocol := "voltronic"; k_transport := "tcp_elfin"; k_host := host; k_port := 8899; k_serial := ""; k_agent := "";
  k_addr := 1; k_broadcast := DEFAULT_EYBOND_BROADCAST; k_announce := ""; k_interval := 10; k_crc := true;
  k_mode := "concurrent_writes" |}.

Definition bridge_entry (host : string) : config_entry :=
  {| e_id := "dev"; e_data := [("name", VStr "Inverter")]; e_options := with_debug (Some true) (connection_options (bridge host)) |}.

Lemma bridge_ok host : host <> "" -> strip host = host -> connection_ok (bridge host).
Proof.
  intros Hne Hs. split; cbn -[strip].
  - split; cbn; tauto.
  - split; [exact Hne|]. split; [reflexivity|lia].
  - reflexivity.
  - now repeat split.
  - unfold MIN_UPDATE_INTERVAL, MAX_UPDATE_INTERVAL. lia.
  - discriminate.
  - tauto.
  - discriminate.
  - repeat (constructor; [first [exact Hs|reflexivity]|]). constructor.
Qed.


(** The form saves that entry: the options are those of the step. *)
Lemma pasted_host_locks_options_witness :
  step_connection "voltronic" "tcp_elfin" [("host", VStr "192.168.1.5:8899"); ("port", VInt 8899);
     ("update_interval", VFloat (float_of_Z 10)); ("strict_crc", VBool true); ("bus_mode", VStr "concurrent_writes")]
    = Some (inr (connection_options (bridge "192.168.1.5:8899")))
  /\ options_step [] 0 true "" "init" None (options_flow_init (bridge_entry "192.168.1.5:8899")) (world_init ∅)
     = (world_init ∅, Raise bad_port)
  /\ options_step [] 0 true "" "init" None (options_flow_init (bridge_entry "fe80::1")) (world_init ∅)
     = (world_init ∅, Raise bad_port).
Proof.
  split; [vm_compute; reflexivity|]. split.
  { refine (proj2 (pasted_host_locks_options [] 0 true "" (world_init ∅) (bridge_entry "fe80::1") (bridge "fe80::1")
      (Some true) "fe80" ":1" _ _ _ _)).
    - apply bridge_ok; [discriminate|reflexivity].
    - discriminate.
    - split; [reflexivity| |constructor|split; repeat constructor]. split; [repeat constructor|].
      constructor; [now right|]. constructor; [now left|constructor].
    - reflexivity. }
  refine (proj2 (pasted_host_locks_options [] 0 true "" (world_init ∅) (bridge_entry "192.168.1.5:8899") (bridge "192.168.1.5:8899")
    (Some true) "192.168.1.5" "8899" _ _ _ _)).
  - apply bridge_ok; [discriminate|reflexivity].
  - discriminate.
  - split; [reflexivity| |constructor|split; repeat constructor]. split; [repeat constructor|].
    apply (proj2 (List.Forall_forall _ _)). intros x Hx. left. cbn in Hx. repeat (destruct Hx as [<-|Hx]; [reflexivity|]). destruct Hx.
  - reflexivity.
Defined.

(** A disabled dongle comes back enabled. *)
Definition idle_dongle : DongleRecord := with_config demo_child "" false (Some "pi18") 3.
Definition idle_world : world := with_reg 0 [(pn demo_child, idle_dongle)] demo_up.

Lemma devices_form_unchanged_witness :
  enabled idle_dongle = false
  /\ exists w' reg', fst (hub_flow_step 0 true "devices" (Some (unchanged (devices_schema [idle_dongle]))) demo_hub idle_world) = w'
     /\ registry_at w' 0 = reg'
     /\ dget (pn demo_child) reg' = Some (with_config idle_dongle (pn demo_child) true (Some "pi18") 3).
Proof.
  split; [reflexivity|].
  destruct (devices_form_unchanged 0 true demo_hub idle_world demo_runtime [(pn demo_child, idle_dongle)])
    as (sch & ph & E1 & _ & w' & reg' & E2 & E3 & H).
  - vm_compute. reflexivity.
  - vm_compute. reflexivity.
  - discriminate.
  - apply (registry_ok_dset _ idle_dongle []); [split; [constructor|intros p r; discriminate]|reflexivity].
  - repeat constructor; cbn; (tauto || lia).
  - exists w', reg'. vm_compute in E1. injection E1 as E1 _. split; [|split; [exact E3|]].
    + transitivity (fst (hub_flow_step 0 true "devices" (Some (unchanged sch)) demo_hub idle_world)); [|now rewrite E2].
      do 4 f_equal. rewrite <- E1. vm_compute. reflexivity.
    + rewrite (H (pn demo_child) idle_dongle); vm_compute; reflexivity.
Defined.
