(* ===== verification/EndToEnd.v ===== *)
(** From the wire to the entity: the layers of one telemetry reading composed.

    A status reply of a serial-protocol inverter goes through the transport
    ([Transports]), the frame check ([Crc]), the decoder ([Voltronic]), the
    coordinator's poll ([Coordinator]) and the sensors ([DirectSensors]). *)

From Stdlib Require Import ZArith List Bool Lia String Ascii Floats.SpecFloat.
From S2P Require Import Prelude PyStr PyInt PyFloat PyDict Crc Voltronic Transports Sanity Coordinator Entities EnergySensors SocSensor DirectSensors.
Import ListNotations.
#[local] Open Scope string_scope.
#[local] Open Scope list_scope.
#[local] Open Scope Z_scope.

(** ** The reply on the wire *)

(** The characters of a reading: digits, the decimal point and the sign. *)
Definition reading_char (c : ascii) : bool := is_digit c || Ascii.eqb c "." || Ascii.eqb c "-".

(** A token of the reply. *)
Definition telemetry_token (t : string) : Prop := t <> "" /\ Forall (fun c => reading_char c = true) (chars t).

(** The frame of a reply: the start, the tokens, the checksum and the terminator. *)
Definition reply_text (tokens : list string) : string := ("(" ++ join " " tokens)%string.
Definition reply_stream (tokens : list string) : bytes :=
  b_ (reply_text tokens) ++ crc16_voltronic (b_ (reply_text tokens)) ++ [CR].

(** ** Texts of readings *)

Definition payload_char (c : ascii) : bool := reading_char c || Ascii.eqb c " ".

Lemma reading_char_ord c : reading_char c = true -> (45 <= ord c <= 57)%Z.
Proof.
  unfold reading_char, is_digit. intros H. apply orb_prop in H as [H|H]; [apply orb_prop in H as [H|H]|].
  - lia.
  - apply Ascii.eqb_eq in H. subst. vm_compute. split; discriminate.
  - apply Ascii.eqb_eq in H. subst. vm_compute. split; discriminate.
Qed.

Lemma reading_char_not_space c : reading_char c = true -> is_space c = false.
Proof. intros H. apply reading_char_ord in H. unfold is_space. lia. Qed.

Lemma payload_char_ord c : payload_char c = true -> (ord c = 32 \/ 45 <= ord c <= 57)%Z.
Proof.
  unfold payload_char. intros H. apply orb_prop in H as [H|H]; [right; now apply reading_char_ord|].
  apply Ascii.eqb_eq in H. subst. now left.
Qed.

Lemma chars_join_cons t u l : chars (join " " (t :: u :: l)) = chars t ++ " "%char :: chars (join " " (u :: l)).
Proof. unfold join. cbn [String.concat]. now rewrite !chars_app. Qed.

Lemma join_payload tokens : Forall telemetry_token tokens -> Forall (fun c => payload_char c = true) (chars (join " " tokens)).
Proof.
  assert (forall t, telemetry_token t -> Forall (fun c => payload_char c = true) (chars t)) as Ht.
  { intros t [_ H]. eapply Forall_impl; [|exact H]. intros c Hc. unfold payload_char. now rewrite Hc. }
  induction tokens as [|t [|u l] IH]; intros H; [constructor|inversion H; subst; now apply Ht|].
  inversion H as [|? ? H1 H2]; subst. rewrite chars_join_cons. apply Forall_app. split; [now apply Ht|].
  constructor; [reflexivity|now apply IH].
Qed.

(** The payload begins and ends with characters of readings. *)
Lemma join_ends tokens : Forall telemetry_token tokens -> tokens <> [] ->
  (exists c l, chars (join " " tokens) = c :: l /\ reading_char c = true)
  /\ (exists l c, chars (join " " tokens) = l ++ [c] /\ reading_char c = true).
Proof.
  assert (forall t, telemetry_token t -> (exists c l, chars t = c :: l /\ reading_char c = true)
    /\ (exists l c, chars t = l ++ [c] /\ reading_char c = true)) as Ht.
  { intros t [Hne H]. destruct (chars t) as [|c l] eqn:E; [exfalso; apply Hne; now apply chars_inj|].
    split; [exists c, l; split; [reflexivity|now inversion H]|].
    destruct (exists_last (l := c :: l) ltac:(discriminate)) as (l' & c' & El). exists l', c'. split; [exact El|].
    rewrite El in H. apply Forall_app in H as [_ H]. now inversion H. }
  induction tokens as [|t [|u l] IH]; intros H Hne; [congruence|inversion H; subst; now apply Ht|].
  inversion H as [|? ? H1 H2]; subst. destruct (IH H2 ltac:(discriminate)) as [_ (l' & c' & El & Hc')].
  destruct (Ht t H1) as [(c & lt & Ec & Hc) _]. rewrite chars_join_cons, El, Ec. split.
  - now exists c, (lt ++ " "%char :: l' ++ [c']).
  - exists ((c :: lt) ++ " "%char :: l'), c'. split; [now rewrite <- app_assoc|exact Hc'].
Qed.

(** Splitting at blanks gives the tokens back, the last one with what follows it. *)
Lemma split_ws_token t l : Forall (fun c => is_space c = false) (chars t) -> t <> "" -> forall cur,
  split_ws_aux cur (chars t ++ " "%char :: l) = str (rev cur ++ chars t) :: split_ws_aux [] l.
Proof.
  intros H Hne cur. assert (chars t <> []) as Hc by (intros E; apply Hne; now apply chars_inj).
  revert cur Hc. induction H as [|c cs Hc _ IH]; intros cur Hcs; [congruence|]. cbn [app split_ws_aux]. rewrite Hc.
  destruct cs as [|c' cs].
  - cbn [app split_ws_aux]. change (is_space " ") with true. cbv iota. now cbn [rev].
  - rewrite IH by discriminate. cbn [rev]. now rewrite <- app_assoc.
Qed.

Lemma split_ws_join tokens junk i tok : Forall telemetry_token tokens -> (S i < List.length tokens)%nat ->
  nth_error tokens i = Some tok -> nth_error (split_ws (str (chars (join " " tokens) ++ junk))) i = Some tok.
Proof.
  unfold split_ws. rewrite chars_str. revert i. induction tokens as [|t [|u l] IH]; intros i H Hi Ht; [now destruct i|cbn in Hi; lia|].
  inversion H as [|? ? H1 H2]; subst. rewrite chars_join_cons, <- app_assoc. cbn [app].
  rewrite split_ws_token; [|eapply Forall_impl; [exact reading_char_not_space|apply H1]|apply H1]. cbn [rev app].
  destruct i as [|i]; cbn [nth_error] in *; [now rewrite str_chars|]. apply IH; [exact H2|cbn in *; lia|exact Ht].
Qed.

(** ** The text a reply decodes to *)

(** The frame is found, whatever two bytes the checksum is. *)
Lemma stream_frame tokens : Forall telemetry_token tokens ->
  let raw := b_ (reply_text tokens) ++ crc16_voltronic (b_ (reply_text tokens)) in
  has_byte LF (reply_stream tokens) = false /\ has_byte CR (reply_stream tokens) = true
  /\ bbefore CR (reply_stream tokens) = raw.
Proof.
  intros Ht raw. unfold reply_stream. rewrite app_assoc. fold raw.
  destruct (voltronic_crc_is_bumped_xmodem (b_ (reply_text tokens)) (b_bytes_ok _)) as (_ & _ & Hc).
  assert (Forall (fun z => z <> CR /\ z <> LF) raw) as Hr.
  { apply Forall_app. split.
    - unfold b_, reply_text. cbn [append chars list_ascii_of_string map]. constructor; [split; discriminate|].
      apply Forall_map. eapply Forall_impl; [|exact (join_payload tokens Ht)]. intros c Hp.
      apply payload_char_ord in Hp. unfold CR, LF. lia.
    - eapply Forall_impl; [|exact Hc]. intros z Hz. split; intros ->; apply Hz; unfold CR, LF; cbn; tauto. }
  split; [|split].
  - rewrite has_byte_app. apply orb_false_iff. split; [|reflexivity].
    apply not_true_iff_false. intros E. apply existsb_exists in E as (z & Hz & E). apply Z.eqb_eq in E. subst.
    rewrite Forall_forall in Hr. now apply (Hr LF).
  - rewrite has_byte_app. apply orb_true_r.
  - apply bbefore_app. eapply Forall_impl; [|exact Hr]. intros z Hz. apply Hz.
Qed.

Lemma payload_bytes_ascii l : Forall (fun c => payload_char c = true) l -> Forall (fun z => z < 128) (map ord l).
Proof. intros H. apply Forall_map. eapply Forall_impl; [|exact H]. intros c Hc. apply payload_char_ord in Hc. lia. Qed.

(** Stripping white space takes none of the text. *)
Lemma bstrip_reply tokens tail : Forall telemetry_token tokens -> tokens <> [] ->
  bstrip (b_ (reply_text tokens) ++ tail)
  = b_ (reply_text tokens) ++ rdropwhile (fun x => existsb (Z.eqb x) b_space) tail.
Proof.
  intros Ht Hne. destruct (join_ends tokens Ht Hne) as [_ (l & c & El & Hc)].
  set (p := fun x => existsb (Z.eqb x) b_space).
  assert (p (ord c) = false) as Hpc.
  { apply reading_char_ord in Hc. unfold p, b_space. cbn [existsb].
    repeat (apply orb_false_iff; split; [apply Z.eqb_neq; lia|]). reflexivity. }
  assert (b_ (reply_text tokens) = 0x28 :: map ord l ++ [ord c]) as ->.
  { unfold b_, reply_text. rewrite chars_app, El. cbn [chars list_ascii_of_string app map]. now rewrite map_app. }
  unfold bstrip, blstrip. cbn [app]. rewrite dropwhile_first by reflexivity. fold p. rewrite <- app_assoc. cbn [app].
  rewrite app_comm_cons, rdropwhile_app_stop by exact Hpc. rewrite <- app_comm_cons. now rewrite <- app_assoc.
Qed.

(** What the transports hand on: the text, then at most two characters the
    checksum bytes were decoded to. *)
Lemma stream_reply tokens strict : Forall telemetry_token tokens -> tokens <> [] ->
  exists junk, (List.length junk <= 2)%nat
  /\ voltronic_reply strict (reply_stream tokens) = Some (str ("("%char :: chars (join " " tokens) ++ junk)).
Proof.
  intros Ht Hne. destruct (stream_frame tokens Ht) as (_ & Hcr & Hb).
  set (crc := crc16_voltronic (b_ (reply_text tokens))) in *.
  destruct (join_ends tokens Ht Hne) as [_ (l & c & El & Hc)].
  pose proof (join_payload tokens Ht) as Hp.
  set (p := fun x => existsb (Z.eqb x) b_space).
  assert (b_ (reply_text tokens) = 0x28 :: map ord l ++ [ord c]) as Eb.
  { unfold b_, reply_text. rewrite chars_app, El. cbn [chars list_ascii_of_string app map]. now rewrite map_app. }
  exists (map chr (utf8_scan [] O is_cont (rdropwhile p crc))). split.
  { rewrite length_map. pose proof (length_utf8_scan (rdropwhile p crc) [] O is_cont).
    pose proof (length_rdropwhile p crc) as H2. change (List.length crc) with 2%nat in H2. cbn [List.length] in *. lia. }
  unfold voltronic_reply. rewrite Hcr, Hb.
  assert (fst (validate_voltronic_response (b_ (reply_text tokens) ++ crc)) = true) as Hv.
  { unfold crc. rewrite Eb.
    pose proof (validate_voltronic_accepts [] (map ord l ++ [ord c]) (0x28 :: map ord l ++ [ord c]) _ (Forall_nil _)
      ltac:(rewrite length_app; cbn; lia) ltac:(right; left; reflexivity) (or_intror eq_refl)) as V.
    cbn [app] in *. now rewrite V. }
  cbv zeta. rewrite Hv. cbn [negb andb]. f_equal. rewrite bstrip_reply by assumption. fold p.
  unfold decode_utf8_ignore. f_equal. rewrite utf8_scan_ascii.
  2:{ unfold b_, reply_text. cbn [append chars list_ascii_of_string map]. constructor; [reflexivity|]. now apply payload_bytes_ascii. }
  rewrite map_app. unfold b_, reply_text. rewrite map_map, (map_ext _ (fun c => c) chr_ord), map_id. reflexivity.
Qed.

(** *** The decoder on it *)

Lemma no_nak l junk : Forall (fun c => payload_char c = true) l -> (List.length junk <= 2)%nat ->
  str_contains "NAK" (str (l ++ junk)) = false.
Proof.
  intros Hl Hj. induction Hl as [|c l Hc _ IH].
  - destruct junk as [|a [|b [|]]]; [reflexivity| | |cbn in Hj; lia]; cbn -[ascii_dec];
      repeat match goal with |- context [ascii_dec ?x ?y] => destruct (ascii_dec x y) end; reflexivity.
  - cbn -[ascii_dec str_contains]. cbn [str_contains]. fold (str (l ++ junk)). rewrite IH, orb_false_r. cbn [String.prefix].
    destruct (ascii_dec "N" c) as [<-|]; [discriminate Hc|reflexivity].
Qed.

Lemma filter_payload x l : payload_char x = false -> Forall (fun c => payload_char c = true) l ->
  filter (fun c => negb (Ascii.eqb c x)) l = l.
Proof.
  intros Hx. induction 1 as [|c l Hc _ IH]; [reflexivity|]. cbn [filter].
  destruct (Ascii.eqb_spec c x) as [->|]; [congruence|]. cbn [negb]. now rewrite IH.
Qed.

Lemma remove_char_payload x l junk : payload_char x = false -> Forall (fun c => payload_char c = true) l ->
  remove_char x (str (l ++ junk)) = str (l ++ filter (fun c => negb (Ascii.eqb c x)) junk).
Proof. intros Hx Hl. unfold remove_char, on_chars. now rewrite chars_str, filter_app, filter_payload. Qed.

Lemma remove_char_first x l : remove_char x (str (x :: l)) = remove_char x (str l).
Proof. unfold remove_char, on_chars. rewrite !chars_str. cbn [filter]. now rewrite Ascii.eqb_refl. Qed.

Lemma reply_text_decoded tokens junk : Forall telemetry_token tokens -> tokens <> [] -> (List.length junk <= 2)%nat ->
  exists junk', (List.length junk' <= 2)%nat
  /\ strip_framing (strip (str ("("%char :: chars (join " " tokens) ++ junk)))
     = str (chars (join " " tokens) ++ junk').
Proof.
  intros Ht Hne Hj. destruct (join_ends tokens Ht Hne) as [_ (l & c & El & Hc)].
  pose proof (join_payload tokens Ht) as Hp. apply reading_char_not_space in Hc.
  unfold strip_framing. rewrite strip_idem.
  assert (strip (str ("("%char :: chars (join " " tokens) ++ junk))
          = str ("("%char :: chars (join " " tokens) ++ rdropwhile is_space junk)) as ->.
  { apply chars_inj. rewrite strip_cons by reflexivity. rewrite chars_str, El, <- !app_assoc. cbn [app].
    now rewrite rdropwhile_app_stop by exact Hc. }
  rewrite remove_char_first, !remove_char_payload by (reflexivity || exact Hp).
  eexists. split; [|reflexivity].
  etransitivity; [repeat (etransitivity; [apply length_filter_le|]); apply length_rdropwhile|exact Hj].
Qed.

(** The keys the decoder reduces to their bits. *)
Definition is_status_bits (k : string) : bool :=
  String.eqb k "device_status_bits_b7_b0" || String.eqb k "device_status_bits_b10_b8".

(** The decoder on the text a reply becomes. *)
Lemma decode_reply command tokens junk : Forall telemetry_token tokens -> tokens <> [] -> (List.length junk <= 2)%nat ->
  exists junk', decode_direct_response command (str ("("%char :: chars (join " " tokens) ++ junk))
                = Ok (decode_command command (str (chars (join " " tokens) ++ junk'))).
Proof.
  intros Ht Hne Hj. destruct (reply_text_decoded tokens junk Ht Hne Hj) as (junk' & Hj' & Hd). exists junk'.
  rewrite decode_live, Hd. cbv zeta. rewrite no_nak by (apply join_payload, Ht || exact Hj').
  assert (startswith (str (chars (join " " tokens) ++ junk')) "NAK" = false) as ->; [|reflexivity].
  destruct (join_ends tokens Ht Hne) as [(c & l & -> & Hc) _]. cbn -[ascii_dec].
  destruct (ascii_dec "N" c) as [<-|]; [discriminate Hc|reflexivity].
Qed.

(** The answer of a transport to a stream with one terminator. *)
Lemma voltronic_answer uri command strict (chunks : list bytes) result :
  (startswith uri "tcp://" = true -> is_ok (parse_tcp_uri uri) = true) -> is_ok (encode_ascii command) = true ->
  has_byte LF (List.concat chunks) = false -> voltronic_reply strict (List.concat chunks) = Some result -> result <> "" ->
  voltronic_get_data uri command strict (Ok chunks) = rcatch (decode_direct_response command result) [].
Proof.
  intros Huri Hc Hlf Hr Hne. unfold voltronic_get_data.
  assert (forall A (f : unit -> res A), rbind (if startswith uri "tcp://" then rmap (fun _ => tt) (parse_tcp_uri uri) else Ok tt) f = f tt) as ->.
  { intros A f. destruct (startswith uri "tcp://"); [|reflexivity]. specialize (Huri eq_refl). now destruct (parse_tcp_uri uri). }
  destruct (encode_ascii command); [|discriminate]. cbn [rbind].
  assert (query (if startswith uri "tcp://" then elfin_data_received command strict else serial_data_received command strict) chunks
          = Some result) as ->.
  { rewrite <- Hr. destruct (startswith uri "tcp://"); [now apply elfin_query_stream|apply serial_query_stream]. }
  now rewrite (proj2 (String.eqb_neq result "") Hne).
Qed.

(** The decoded reply of a transport on a well-formed stream. *)
Lemma decoded_stream command tokens uri strict (chunks : list bytes) :
  is_ok (encode_ascii command) = true -> Forall telemetry_token tokens -> tokens <> [] ->
  (startswith uri "tcp://" = true -> is_ok (parse_tcp_uri uri) = true) ->
  List.concat chunks = reply_stream tokens ->
  exists junk, voltronic_get_data uri command strict (Ok chunks)
               = decode_command command (str (chars (join " " tokens) ++ junk)).
Proof.
  intros Hc Ht Hne Huri Hs. destruct (stream_frame tokens Ht) as (Hlf & _).
  destruct (stream_reply tokens strict Ht Hne) as (junk & Hj & Hr).
  destruct (decode_reply command tokens junk Ht Hne Hj) as (junk' & Hd). exists junk'.
  rewrite (voltronic_answer uri command strict chunks (str ("("%char :: chars (join " " tokens) ++ junk)) Huri Hc);
    [now rewrite Hd|now rewrite Hs|now rewrite Hs|discriminate].
Qed.

(** ** Fields and sensors *)

Lemma dmem_strdict k d : dmem k (strdict d) = dmem k d.
Proof. unfold dmem. rewrite dget_strdict. now destruct (dget k d). Qed.

Lemma qpigs_keys s : incl (dkeys (decode_qpigs s)) QPIGS_FIELDS.
Proof.
  assert (forall k w d, incl (dkeys (clean_field k w d)) (dkeys d)) as Hc.
  { intros k w d. unfold clean_field. destruct (dget k d) eqn:E; [|now intros x].
    rewrite dset_keys_old by congruence. now intros x. }
  unfold decode_qpigs. do 2 (eapply incl_tran; [apply Hc|]).
  intros x Hx. apply in_map_iff in Hx as ([k v] & <- & Hin). exact (in_combine_l _ _ _ _ Hin).
Qed.

Lemma qpigs_no_key s k : ~ In k QPIGS_FIELDS -> dmem k (strdict (decode_qpigs s)) = false.
Proof.
  intros Hk. rewrite dmem_strdict. unfold dmem. destruct (dget k (decode_qpigs s)) eqn:E; [|reflexivity].
  exfalso. apply Hk, (qpigs_keys s). apply dget_some_in in E. now apply (in_map fst) in E.
Qed.

(** A section without an error and a status is never taken for a refusal. *)
Lemma not_refused d : dmem "error" d = false -> dmem "status" d = false -> d <> [] -> is_plausible_qpigs d = Ok true ->
  is_nak_result (VDict d) = false /\ good_result "QPIGS" d.
Proof.
  intros He Hs Hne Hp. unfold good_result, is_nak_result, status_nak. unfold dmem in *.
  destruct (dget "status" d); [discriminate|]. destruct (dget "error" d); [discriminate|]. auto.
Qed.

(** The sensors of the reading that show one number. *)
Definition shows_field (s : sensor_spec) : bool :=
  match sp_kind s with Numeric => String.eqb (sp_section s) "qpigs" | _ => false end.

Lemma shows_field_not_bits : forallb (fun s => negb (shows_field s && is_status_bits (sp_key s))) DIRECT_SENSORS = true.
Proof. vm_compute. reflexivity. Qed.

Lemma numeric_field sec key (data : sections) d tok x :
  dget sec data = Some d -> dget key d = Some (VStr tok) -> py_float tok = Ok x ->
  numeric_value sec key (Ok data) = Ok (VFloat x).
Proof.
  intros Hs Hk Hx. unfold numeric_value, section, vget. cbn [rbind]. rewrite Hs, Hk.
  cbn [float_of_val]. now rewrite Hx.
Qed.

(** The field of a decoded stream. *)
Lemma stream_field tokens junk i k tok : Forall telemetry_token tokens ->
  nth_error QPIGS_FIELDS i = Some k -> is_status_bits k = false ->
  nth_error tokens i = Some tok -> (S i < List.length tokens)%nat ->
  dget k (strdict (decode_qpigs (str (chars (join " " tokens) ++ junk)))) = Some (VStr tok).
Proof.
  intros Ht Hk Hb Hi Hn. rewrite dget_strdict, (proj1 (decode_qpigs_fields _ i k Hk)).
  rewrite (split_ws_join tokens junk i tok Ht Hn Hi).
  unfold is_status_bits in Hb. apply orb_false_iff in Hb as [-> ->]. reflexivity.
Qed.

(** ** Property *)

(** C2: from the wire to the entity: a status reply of at least two numeric
    tokens, however the network cuts it and with or without strict checking, is
    decoded by both serial-protocol transports to a dict whose fields are the
    tokens verbatim (the last token, which the checksum follows, apart); if the
    reading is plausible, a poll that gets it publishes it, and every entity
    that shows a field of it shows the number of its own token. *)
Theorem telemetry_end_to_end (uri : string) (strict : bool) (tokens : list string) (chunks : list bytes)
    (Huri : startswith uri "tcp://" = true -> is_ok (parse_tcp_uri uri) = true)
    (Ht : Forall telemetry_token tokens) (Hlen : (2 <= List.length tokens)%nat)
    (Hs : List.concat chunks = reply_stream tokens) :
  let d := voltronic_get_data uri "QPIGS" strict (Ok chunks) in
  (forall i k tok, nth_error QPIGS_FIELDS i = Some k -> is_status_bits k = false ->
     nth_error tokens i = Some tok -> (S i < List.length tokens)%nat -> dget k d = Some (VStr tok))
  /\ (is_plausible_qpigs d = Ok true -> forall prev now key st rs st' dev,
      is_unsupported key "QPIGS" st = false ->
      fetch_device_data prev now key st (VDict d :: rs) = (st', Polled dev) ->
      dget "qpigs" (d_sections dev) = Some d
      /\ forall show s i tok x, In s DIRECT_SENSORS -> shows_field s = true ->
         nth_error QPIGS_FIELDS i = Some (sp_key s) -> nth_error tokens i = Some tok -> (S i < List.length tokens)%nat ->
         py_float tok = Ok x -> sensor_value show s (Ok (d_sections dev)) = Ok (VFloat x)).
Proof.
  assert (tokens <> []) as Hne by (intros ->; cbn in Hlen; lia).
  destruct (decoded_stream "QPIGS" tokens uri strict chunks eq_refl Ht Hne Huri Hs) as (junk & Hd).
  change (decode_command "QPIGS" ?s) with (strdict (decode_qpigs s)) in Hd. cbv zeta. rewrite Hd.
  assert (forall i k tok, nth_error QPIGS_FIELDS i = Some k -> is_status_bits k = false ->
    nth_error tokens i = Some tok -> (S i < List.length tokens)%nat ->
    dget k (strdict (decode_qpigs (str (chars (join " " tokens) ++ junk)))) = Some (VStr tok)) as Hf
    by (intros; eapply stream_field; eassumption).
  split; [exact Hf|]. intros Hp prev now key st rs st' dev Hu Hpoll.
  assert (strdict (decode_qpigs (str (chars (join " " tokens) ++ junk))) <> []) as Hd0.
  { destruct tokens as [|t [|]]; [congruence|cbn in Hlen; lia|]. intros E.
    specialize (Hf 0%nat "grid_voltage" t eq_refl eq_refl eq_refl ltac:(cbn; lia)). rewrite E in Hf. discriminate. }
  destruct (not_refused _ (qpigs_no_key _ "error" ltac:(vm_compute; intuition discriminate))
    (qpigs_no_key _ "status" ltac:(vm_compute; intuition discriminate)) Hd0 Hp) as [Hn Hg].
  pose proof (poll_publishes _ _ _ _ _ _ _ _ Hu Hn Hg Hpoll) as Hq. split; [exact Hq|].
  intros show s i tok x Hin Hsh Hk Hi Hl Hx.
  pose proof shows_field_not_bits as Hb. rewrite forallb_forall in Hb. specialize (Hb s Hin). rewrite Hsh in Hb.
  apply negb_true_iff in Hb. cbn [andb] in Hb.
  specialize (Hf i (sp_key s) tok Hk Hb Hi Hl). unfold shows_field in Hsh. unfold sensor_value.
  destruct (sp_kind s); try discriminate. apply String.eqb_eq in Hsh. rewrite Hsh.
  now apply (numeric_field "qpigs" (sp_key s) _ _ tok x Hq).
Qed.

(** A reply of a PI30 inverter, cut in two by the network. *)
Definition sample_tokens : list string :=
  ["230.0"; "49.9"; "230.0"; "49.9"; "0161"; "0119"; "003"; "460"; "57.50"; "012"; "100"; "0069"; "0014"; "103.8"; "57.45";
   "00000"; "00110110"; "00"; "00"; "00856"; "010"].
Definition sample_chunks : list bytes := [firstn 40 (reply_stream sample_tokens); skipn 40 (reply_stream sample_tokens)].
Definition sample_reading : pydict := voltronic_get_data "tcp://10.0.0.5:8899" "QPIGS" true (Ok sample_chunks).
Definition sample_poll : coord * polled devdata :=
  fetch_device_data [] 0 "inv" (coord_init []) (VDict sample_reading :: repeat VNone 10).

Lemma sample_tokens_ok : Forall telemetry_token sample_tokens.
Proof. repeat (apply Forall_cons; [split; [discriminate|repeat constructor]|]). constructor. Qed.

Lemma telemetry_end_to_end_witness :
  match sample_poll with
  | (_, Polled dev) => sensor_value (fun _ => ""%string) DirectBatteryVoltageSensor (Ok (d_sections dev)) = Ok (VFloat (flit 5750 100))
  | _ => False
  end.
Proof.
  assert (is_plausible_qpigs sample_reading = Ok true) as Hp by (vm_compute; reflexivity).
  destruct sample_poll as [st' [dev| |e]] eqn:E; [|vm_compute in E; discriminate E|vm_compute in E; discriminate E].
  refine (proj2 (proj2 (telemetry_end_to_end "tcp://10.0.0.5:8899" true sample_tokens sample_chunks _ sample_tokens_ok _ _)
    Hp [] 0 "inv" (coord_init []) (repeat VNone 10) st' dev _ E) (fun _ => ""%string) DirectBatteryVoltageSensor 8%nat "57.50" _ _ _ _ _ _ _).
  - intros _. reflexivity.
  - cbn. lia.
  - unfold sample_chunks. cbn [List.concat]. now rewrite app_nil_r, firstn_skipn.
  - reflexivity.
  - cbn [DIRECT_SENSORS In]. tauto.
  - reflexivity.
  - reflexivity.
  - reflexivity.
  - cbn. lia.
  - vm_compute. reflexivity.
Defined.
