(* ===== verification/ModbusEndToEnd.v ===== *)
(** From the registers of an SMG-II inverter to the entities: the transport's
    blocks ([ModbusRtu]), the adapter's projection ([ModbusAdapter]), the poll
    ([Coordinator]) and the sensors ([DirectSensors]) composed. *)

From Stdlib Require Import ZArith List Bool Lia String Ascii Floats.SpecFloat.
From S2P Require Import Prelude PyStr PyInt PyFloat FloatFacts FloatText PyDict Pi18 ModbusRtu ModbusAdapter Sanity Coordinator Entities EnergySensors SocSensor DirectSensors EndToEnd.
Import ListNotations.
#[local] Open Scope string_scope.
#[local] Open Scope list_scope.
#[local] Open Scope Z_scope.

(** ** What the entities are to show *)

(** The float nearest to [n / 10] and to [n / 100], and an integer. *)
Definition deci (n : Z) : float := flit n 10.
Definition centi (n : Z) : float := flit n 100.
Definition units_of (n : Z) : float := flit n 1.

(** Two's complement. *)
Definition signed16 (n : Z) : Z := if n <? 2 ^ 15 then n else n - 2 ^ 16.

(** What an entity may show for the registers [R]. *)
Definition shows_exactly (f : (Z -> Z) -> float) (R : Z -> Z) (x : float) : Prop := x = f R.

(** The entities that show their own register, at its scale: the float nearest
    to the physical value. The battery voltage passes through a text with two
    places. *)
Definition measured_sensors : list (sensor_spec * ((Z -> Z) -> float -> Prop)) := [
  (DirectGridVoltageSensor, shows_exactly (fun R => deci (R 202)));
  (DirectACOutputVoltageSensor, shows_exactly (fun R => deci (R 210)));
  (DirectACOutputFrequencySensor, shows_exactly (fun R => centi (R 212)));
  (DirectLoadPercentSensor, shows_exactly (fun R => units_of (R 225)));
  (DirectBatteryVoltageSensor, shows_exactly (fun R => centi (10 * R 215)));
  (DirectSCCBatteryVoltageSensor, shows_exactly (fun R => centi (10 * R 215)));
  (DirectPVInputCurrentSensor, shows_exactly (fun R => deci (R 220)));
  (DirectPVVoltageSensor, shows_exactly (fun R => deci (R 219)));
  (DirectPVPowerSensor, shows_exactly (fun R => units_of (signed16 (R 223))));
  (DirectInverterTemperatureSensor, shows_exactly (fun R => deci (10 * R 227)));
  (DirectInverterDCModuleTemperatureSensor, shows_exactly (fun R => deci (10 * R 226)))].

(** The entities that show less than the register holds: powers without their
    sign (the apparent one is the active one), currents as whole amperes towards
    zero, and the mains frequency to a nearest tenth. *)
Definition reduced_sensors : list (sensor_spec * ((Z -> Z) -> float -> Prop)) := [
  (DirectInverterOutputPowerSensor, shows_exactly (fun R => units_of (Z.abs (signed16 (R 213)))));
  (DirectOutputApparentPowerSensor, shows_exactly (fun R => units_of (Z.abs (signed16 (R 213)))));
  (DirectACGridInPowerSensor, shows_exactly (fun R => units_of (Z.abs (signed16 (R 204)))));
  (DirectBatteryChargingCurrentSensor, shows_exactly (fun R => units_of (Z.max 0 (Z.quot (signed16 (R 216)) 10))));
  (DirectBatteryDischargeCurrentSensor, shows_exactly (fun R => units_of (Z.max 0 (- Z.quot (signed16 (R 216)) 10))));
  (DirectGridFrequencySensor, fun R x => exists f, Z.abs (10 * f - R 203) <= 5 /\ x = deci f)].

(** The entities no register backs. *)
Definition constant_sensors : list (sensor_spec * ((Z -> Z) -> float -> Prop)) := [
  (DirectBusVoltageSensor, shows_exactly (fun _ => units_of 400));
  (DirectBatteryCapacitySensor, shows_exactly (fun _ => units_of 100))].

Definition register_sensors : list (sensor_spec * ((Z -> Z) -> float -> Prop)) :=
  measured_sensors ++ reduced_sensors ++ constant_sensors.

(** The numbers of the status section among the entities of an inverter. *)
Definition status_number (s : sensor_spec) : bool :=
  match sp_kind s with Numeric => String.eqb (sp_section s) "qpigs" | _ => false end.

Lemma i16_signed n : i16 n = signed16 n.
Proof. unfold i16, signed16. destruct (Z.leb_spec 32768 n), (Z.ltb_spec n (2 ^ 15)); lia. Qed.

(** ** Lemmas: numbers *)

Lemma unsigned_text n s : 0 <= n -> ((if (n <? 0)%Z then "-" else "") ++ s)%string = s.
Proof. intros H. now replace (n <? 0) with false by lia. Qed.

Lemma tenths_float_1 n : 0 <= n -> py_float (tenths_text 1 n) = Ok (deci n).
Proof.
  intros H. unfold tenths_text. rewrite unsigned_text by exact H.
  rewrite py_float_fixed by lia. rewrite Z.abs_eq by exact H. cbn [Z.of_nat Z.sub Z.pow]. now rewrite Z.mul_1_r.
Qed.

Lemma tenths_float_2 n : 0 <= n -> py_float (tenths_text 2 n) = Ok (centi (10 * n)).
Proof.
  intros H. unfold tenths_text. rewrite unsigned_text by exact H.
  rewrite py_float_fixed by lia. rewrite Z.abs_eq, Z.mul_comm by exact H. reflexivity.
Qed.

Lemma hundredths_float n : is_word n -> py_float (hundredths_text n) = Ok (centi n).
Proof.
  unfold is_word. intros H. unfold hundredths_text. rewrite unsigned_text by lia.
  rewrite py_float_fixed by lia. now rewrite Z.abs_eq by lia.
Qed.

(** The battery current in amperes, within the range a reading may have. *)
Definition trunc_ok (n : Z) : bool :=
  match int_of_val (over 10 n), int_of_val (over 10 (- n)) with
  | Ok a, Ok b => (a =? Z.quot n 10) && (b =? - Z.quot n 10)
  | _, _ => false
  end.

Lemma trunc_ok_all : forall n, 0 <= n < 3010 -> trunc_ok n = true.
Proof. by_range 3010. Qed.

Lemma trunc_tenths n k : Z.abs n <= 3009 -> int_of_val (over 10 n) = Ok k -> k = Z.quot n 10.
Proof.
  intros Hn Hk. pose proof (trunc_ok_all (Z.abs n) ltac:(lia)) as H. unfold trunc_ok in H.
  destruct (Z.abs_eq_or_opp n) as [E|E]; rewrite E in H.
  - rewrite Hk in H. destruct (int_of_val (over 10 (- n))); [|discriminate]. lia.
  - rewrite Z.opp_involutive, Hk in H. destruct (int_of_val (over 10 (- n))); [|discriminate].
    rewrite Z.quot_opp_l in H by lia. lia.
Qed.

Definition volts_ok (n : Z) : bool := implb (100 <=? n) (is_plausible_battery_voltage (centi (10 * n))).
Lemma volts_ok_all : forall n, 0 <= n < 1201 -> volts_ok n = true.
Proof. by_range 1201. Qed.

Lemma amps_ok_all : forall n, 0 <= n < 301 -> is_plausible_battery_current (units_of n) = true.
Proof. by_range 301. Qed.

(** ** Lemmas: the reading *)

Lemma float_field_text d k text x : dget k d = Some (VStr text) -> py_float text = Ok x -> float_field d k = Ok (Some x).
Proof.
  intros Hk Hx. unfold float_field, vget. rewrite Hk. destruct text as [|c text].
  - unfold py_float in Hx. cbn in Hx. discriminate.
  - cbn [float_of_val]. now rewrite Hx.
Qed.

Lemma field_plausible_text ok d k text x : dget k d = Some (VStr text) -> py_float text = Ok x ->
  ok x = true -> field_plausible ok d k = Ok true.
Proof. intros Hk Hx Ho. unfold field_plausible. rewrite (float_field_text d k text x Hk Hx). cbn. now rewrite Ho. Qed.

(** A reading whose battery registers are in range is plausible. *)
Lemma registers_plausible b d k f : Forall is_word b -> dmem "error" d = false ->
  (forall key text, In (key, text) (qpigs_texts b k f) -> dget key d = Some (VStr text)) ->
  100 <= reg_of 201 b 215 <= 1200 -> Z.abs k <= 300 -> is_plausible_qpigs d = Ok true.
Proof.
  intros Hw He Ht Hv Hk. unfold is_plausible_qpigs. rewrite He. apply all_plausible_true. cbn [map].
  cbn [In qpigs_texts] in Ht. repeat apply Forall_cons; [| | |constructor].
  - eapply field_plausible_text; [apply Ht; tauto|apply tenths_float_2, (reg_word 201 b 215 Hw)|].
    pose proof (volts_ok_all (reg_of 201 b 215) ltac:(lia)) as H. unfold volts_ok in H.
    now replace (100 <=? reg_of 201 b 215) with true in H by lia.
  - eapply field_plausible_text; [apply Ht; tauto|apply py_float_fmt_0d; lia|]. apply amps_ok_all. lia.
  - eapply field_plausible_text; [apply Ht; tauto|apply py_float_fmt_0d; lia|]. apply amps_ok_all. lia.
Qed.

(** Every entity of the table reads a text of the section as a number it may show. *)
Lemma register_sensor_text b k f s reads : Forall is_word b -> k = Z.quot (i16 (reg_of 201 b 216)) 10 ->
  0 <= f /\ Z.abs (10 * f - reg_of 201 b 203) <= 5 -> In (s, reads) register_sensors ->
  sp_kind s = Numeric /\ sp_section s = "qpigs"
  /\ exists text x, In (sp_key s, text) (qpigs_texts b k f) /\ py_float text = Ok x /\ reads (reg_of 201 b) x.
Proof.
  intros Hw -> [Hf0 Hf] H. pose proof (fun a => proj1 (reg_word 201 b a Hw)) as Hr.
  unfold register_sensors, measured_sensors, reduced_sensors, constant_sensors in H. cbn [In app] in H.
  repeat (destruct H as [H|H]; [injection H as <- <-; split; [reflexivity|]; split; [reflexivity|];
    match goal with |- exists text x, In (sp_key ?s, text) _ /\ _ =>
      let key := eval vm_compute in (sp_key s) in change (sp_key s) with key end;
    eexists _, _; split; [cbn [In qpigs_texts]; repeat first [left; reflexivity|right]|]; unfold shows_exactly; rewrite <- ?i16_signed;
    (split; [|first [reflexivity|exists f; split; [exact Hf|reflexivity]]]);
    lazymatch goal with
    | |- py_float (tenths_text 1 _) = _ => exact (tenths_float_1 _ (Hr _))
    | |- py_float (tenths_text 2 _) = _ => exact (tenths_float_2 _ (Hr _))
    | |- py_float (hundredths_text _) = _ => exact (hundredths_float _ (reg_word 201 b _ Hw))
    | |- py_float (fmt_0d _ _) = _ => apply py_float_signed
    | |- py_float (fixed_text 1 (10 * ?r)) = _ => exact (py_float_fixed 1 _ ltac:(lia) (Z.mul_nonneg_nonneg 10 _ ltac:(lia) (Hr _)))
    | |- py_float (fixed_text 1 _) = _ => exact (py_float_fixed 1 _ ltac:(lia) Hf0)
    | |- _ => vm_compute; reflexivity
    end|]).
  destruct H.
Qed.

(** The table leaves out no number of the status section. *)
Lemma status_numbers s : In s (direct_entities false) -> status_number s = true ->
  exists reads, In (s, reads) register_sensors.
Proof.
  intros Hin Hs. assert (In s (filter status_number (direct_entities false))) as H by (now apply filter_In).
  assert (filter status_number (direct_entities false) = [DirectPVPowerSensor; DirectPVVoltageSensor; DirectPVInputCurrentSensor;
    DirectBatteryVoltageSensor; DirectBatteryChargingCurrentSensor; DirectBatteryDischargeCurrentSensor; DirectBatteryCapacitySensor;
    DirectInverterOutputPowerSensor; DirectInverterTemperatureSensor; DirectInverterDCModuleTemperatureSensor; DirectGridVoltageSensor;
    DirectGridFrequencySensor; DirectACGridInPowerSensor; DirectACOutputVoltageSensor; DirectACOutputFrequencySensor;
    DirectOutputApparentPowerSensor; DirectLoadPercentSensor; DirectBusVoltageSensor; DirectSCCBatteryVoltageSensor]) as E
    by (vm_compute; reflexivity).
  rewrite E in H. cbn [In] in H. unfold register_sensors, measured_sensors, reduced_sensors, constant_sensors. cbn [In app].
  repeat (destruct H as [<-|H]; [eexists; repeat first [left; reflexivity|right]|]). destruct H.
Qed.

(** ** Property *)

(** C4: from the registers to the entities: over any transport, when the
    status and configuration blocks are complete and no recent snapshot is
    cached, whatever became of the fault block, the adapter answers QPIGS with a
    section; if its battery voltage register is between 10.0 and 120.0 V and the
    current within 300.9 A, a poll that gets the section publishes it, and every
    numeric entity of the status section, of which the table leaves out none,
    shows what the table says: for the measured ones exactly the float nearest to
    the physical value of its own register; for the reduced ones the magnitude of
    the power (the apparent power being the active one), the whole amperes of
    charge or discharge towards zero, or a nearest tenth of the mains frequency;
    and 400 V and 100 % for the two no register backs. *)
Theorem registers_end_to_end {S} `{RegisterTransport S} (uri : string) (now : float) (cache : snapshot_cache)
    (s s1 s2 s3 : S) (b100 : res (list Z)) (b200 b300 : list Z)
    (Hmiss : forall ts snap, dget uri cache = Some (ts, snap) -> flt (fsub now ts) SNAPSHOT_TTL = false)
    (H100 : read_block 100 16 s = (b100, s1)) (H200 : read_block 201 31 s1 = (Ok b200, s2))
    (H300 : read_block 300 38 s2 = (Ok b300, s3))
    (L200 : List.length b200 = 31%nat) (L300 : List.length b300 = 38%nat) :
  let R := reg_of 201 b200 in
  exists d st', modbus_get_data uri now "QPIGS" (cache, s) = (Ok d, st')
  /\ (100 <= R 215 <= 1200 -> Z.abs (signed16 (R 216)) <= 3009 -> forall prev now key st rs st' dev,
      is_unsupported key "QPIGS" st = false ->
      fetch_device_data prev now key st (VDict d :: rs) = (st', Polled dev) ->
      dget "qpigs" (d_sections dev) = Some d
      /\ forall show sensor reads, In (sensor, reads) register_sensors ->
         exists x, sensor_value show sensor (Ok (d_sections dev)) = Ok (VFloat x) /\ reads R x)
  /\ (forall sensor, In sensor (direct_entities false) -> status_number sensor = true ->
      exists reads, In (sensor, reads) register_sensors).
Proof.
  intros R. destruct (snapshot_ok s s1 s2 s3 b100 b200 b300 H100 H200 H300 L200 L300) as (sensors & config & Er & Es & Ec).
  assert (Forall is_word b200) as Hw by (apply (read_block_words 201 31 s1 b200 s2 ltac:(lia) H200)).
  destruct (smg2_qpigs_fields b200 L200 Hw) as (sensors' & d & k & f & Es' & Ed & Ek & Hf & He & Hs & Ht).
  rewrite Es in Es'. apply ok_inj in Es' as <-.
  exists d. unfold modbus_get_data, cached_snapshot. rewrite Er. unfold project.
  eexists. split.
  { destruct (dget uri cache) as [[ts snap]|] eqn:E; [rewrite (Hmiss ts snap eq_refl)|]; cbn -[smg2_to_qpigs]; now rewrite Ed. }
  split; [|exact status_numbers].
  intros Hv Hc prev now' key st rs st' dev Hu Hpoll. rewrite <- i16_signed in Hc.
  assert (k = Z.quot (i16 (R 216)) 10) as Hk by (now apply trunc_tenths).
  assert (Z.abs k <= 300) as Hk300 by (rewrite Hk; clear - Hc; Z.to_euclidean_division_equations; lia).
  pose proof (registers_plausible b200 d k f Hw He Ht Hv Hk300) as Hp.
  assert (d <> []) as Hd.
  { intros ->. specialize (Ht "battery_capacity" "100" ltac:(cbn [In qpigs_texts]; tauto)). discriminate. }
  destruct (not_refused d He Hs Hd Hp) as [Hn Hg].
  pose proof (poll_publishes _ _ _ _ _ _ _ _ Hu Hn Hg Hpoll) as Hq. split; [exact Hq|].
  intros show sensor reads Ht'.
  destruct (register_sensor_text b200 k f sensor reads Hw Hk Hf Ht') as (Ekind & Esec & text & x & Htext & Hx & Hreads).
  exists x. split; [|exact Hreads].
  unfold sensor_value. rewrite Ekind, Esec. exact (numeric_field "qpigs" _ _ _ text _ Hq (Ht _ _ Htext) Hx).
Qed.

(** A poll of the slave of [ModbusRtu] whose register [a] holds [a]. *)
Definition demo_reading : pydict :=
  match modbus_get_data (H := demo_transport) "modbus://10.0.0.2:502" (flit 100 1) "QPIGS" (@pair snapshot_cache unit [] tt) with
  | (Ok d, _) => d
  | _ => []
  end.
Definition demo_poll : coord * polled devdata :=
  fetch_device_data [] 0 "inv" (coord_init []) (VDict demo_reading :: repeat VNone 10).
Definition demo_block (start : Z) (count : nat) : list Z := map (fun i => start + Z.of_nat i) (seq 0 count).

Lemma registers_end_to_end_witness :
  match demo_poll with
  | (_, Polled dev) =>
      sensor_value (fun _ => ""%string) DirectGridVoltageSensor (Ok (d_sections dev)) = Ok (VFloat (flit 202 10))
  | _ => False
  end.
Proof.
  destruct demo_poll as [st' [dev| |e]] eqn:E; [|vm_compute in E; discriminate E|vm_compute in E; discriminate E].
  destruct (registers_end_to_end (H := demo_transport) "modbus://10.0.0.2:502" (flit 100 1) [] tt tt tt tt (Ok (demo_block 100 16))
    (demo_block 201 31) (demo_block 300 38)) as (d & st0 & Ed & Hd).
  - discriminate.
  - vm_compute. reflexivity.
  - vm_compute. reflexivity.
  - vm_compute. reflexivity.
  - reflexivity.
  - reflexivity.
  - assert (d = demo_reading) as -> by (unfold demo_reading; now rewrite Ed).
    destruct (proj1 Hd ltac:(vm_compute; split; discriminate) ltac:(vm_compute; discriminate) [] 0 "inv" (coord_init [])
      (repeat VNone 10) st' dev eq_refl E) as (_ & Hs).
    destruct (Hs (fun _ => ""%string) DirectGridVoltageSensor _ (or_introl eq_refl)) as (x & Hx & ->). exact Hx.
Defined.
