(* ===== verification/Pi18EndToEnd.v ===== *)
(** From a PI18 status frame to the entities: the transport ([Transports]), the
    frame and its decoder ([Pi18]), the poll ([Coordinator]) and the sensors
    ([DirectSensors]) composed. *)

From Stdlib Require Import ZArith List Bool Lia String Ascii Floats.SpecFloat.
From S2P Require Import Prelude PyStr PyInt PyFloat FloatFacts FloatText PyDict Crc Voltronic Pi18 ModbusRtu Transports Sanity Coordinator ChildUri Entities EnergySensors SocSensor DirectSensors EndToEnd ModbusEndToEnd.
Import ListNotations.
#[local] Open Scope string_scope.
#[local] Open Scope list_scope.
#[local] Open Scope Z_scope.
#[local] Open Scope py_scope.

(** ** The reply on the wire *)

(** A token: decimal digits, a number the fixed-point formats are exact on. *)
Definition pi18_token (t : string) : Prop :=
  t <> "" /\ Forall (fun c => is_digit c = true) (chars t) /\ 0 <= safe_int t 0 < 2 ^ 40.

Definition pi18_payload (tokens : list string) : bytes := b_ (join "," tokens).

(** The column of a token, by the decoder's name for it. *)
Definition column (tokens : list string) (c : string) : Z := safe_int (token_of GS_FIELDS tokens c) 0.

(** The entities of a status reply: the column each shows, and how. *)
Definition column_sensors : list (sensor_spec * (string * (Z -> float))) := [
  (DirectGridVoltageSensor, ("grid_voltage", deci));
  (DirectGridFrequencySensor, ("grid_frequency", deci));
  (DirectACOutputVoltageSensor, ("ac_output_voltage", deci));
  (DirectACOutputFrequencySensor, ("ac_output_frequency", deci));
  (DirectOutputApparentPowerSensor, ("output_apparent_power", units_of));
  (DirectInverterOutputPowerSensor, ("output_active_power", units_of));
  (DirectLoadPercentSensor, ("load_percent", units_of));
  (DirectBatteryVoltageSensor, ("battery_voltage", fun n => centi (10 * n)));
  (DirectSCCBatteryVoltageSensor, ("scc_battery_voltage", fun n => centi (10 * n)));
  (DirectSCC2BatteryVoltageSensor, ("_battery_voltage_scc2", fun n => centi (10 * n)));
  (DirectBatteryDischargeCurrentSensor, ("battery_discharge_current", units_of));
  (DirectBatteryChargingCurrentSensor, ("battery_charging_current", units_of));
  (DirectBatteryCapacitySensor, ("battery_capacity", units_of));
  (DirectPVPowerSensor, ("pv_charging_power", units_of));
  (DirectPV2InputPowerSensor, ("_pv2_input_power", units_of));
  (DirectPVVoltageSensor, ("pv_input_voltage", deci));
  (DirectPV2InputVoltageSensor, ("_pv2_input_voltage", deci))].

(** ** The reply as the collector and the decoder see it *)

Lemma digit_safe c : is_digit c = true -> 48 <= ord c <= 57.
Proof. unfold is_digit. rewrite andb_true_iff, !Z.leb_le. lia. Qed.

(** A character of the payload: a digit or the comma. *)
Definition wire_char (c : ascii) : Prop := 48 <= ord c <= 57 \/ ord c = 44.

Lemma payload_wire tokens : Forall pi18_token tokens -> Forall wire_char (chars (join "," tokens)).
Proof.
  assert (forall t, pi18_token t -> Forall wire_char (chars t)) as Ht.
  { intros t (_ & H & _). eapply Forall_impl; [|exact H]. intros c Hc. left. now apply digit_safe. }
  induction tokens as [|t [|u l] IH]; intros H; [constructor|inversion H; subst; now apply Ht|].
  inversion H as [|? ? H1 H2]; subst. change (join "," (t :: u :: l)) with (t ++ "," ++ join "," (u :: l))%string.
  rewrite !chars_app. apply Forall_app. split; [now apply Ht|]. constructor; [now right|now apply IH].
Qed.

(** The payload starts and ends with a digit, so stripping leaves it. *)
Lemma payload_stripped tokens : Forall pi18_token tokens -> tokens <> [] -> strip (join "," tokens) = join "," tokens.
Proof.
  intros H _. apply strip_none. eapply Forall_impl; [|exact (payload_wire tokens H)].
  intros c Hc. unfold wire_char in Hc. unfold is_space. lia.
Qed.

Lemma payload_tokens tokens : Forall pi18_token tokens -> tokens <> [] ->
  map strip (split_char "," (join "," tokens)) = tokens.
Proof.
  intros H Hne. rewrite (split_join "," tokens); [|exact Hne|].
  - rewrite <- (map_id tokens) at 2. apply map_ext_in. intros t Hin. rewrite Forall_forall in H.
    destruct (H t Hin) as (_ & Hd & _). apply strip_none. eapply Forall_impl; [|exact Hd].
    intros c Hc. now apply is_digit_not_space.
  - eapply Forall_impl; [|exact H]. intros t (_ & Hd & _). eapply Forall_impl; [|exact Hd]. intros c Hc.
    apply digit_safe in Hc. destruct (Ascii.eqb_spec c ",") as [->|]; [|reflexivity].
    change (ord ",") with 44 in Hc. lia.
Qed.

Lemma payload_no_cr tokens : Forall pi18_token tokens -> no_cr (pi18_payload tokens).
Proof.
  intros H. unfold no_cr, pi18_payload, b_. apply Forall_map. eapply Forall_impl; [|exact (payload_wire tokens H)].
  intros c Hc. unfold wire_char in Hc. unfold CR. lia.
Qed.

Lemma own_checksum p : (1 <= List.length p)%nat ->
  validate_pi18_response (p ++ crc16_xmodem_bytes p) = (true, p).
Proof.
  intros Hp. destruct (xmodem_bytes_two p) as (hi & lo & E). unfold validate_pi18_response. rewrite E.
  rewrite length_app. cbn [List.length]. destruct (Nat.ltb_spec (List.length p + 2) 3); [lia|].
  change 2%nat with (List.length [hi; lo]). rewrite bdroplast_app, blast_app, E. now rewrite (proj2 (zlist_eqb_spec _ _)).
Qed.

(** What the collector hands on, with or without strict checking. *)
Lemma pi18_stream nnn tokens strict : List.length nnn = 3%nat -> no_cr nnn -> Forall pi18_token tokens ->
  no_cr (crc16_xmodem_bytes (data_head nnn (pi18_payload tokens))) ->
  pi18_reply strict (data_frame nnn (pi18_payload tokens)) = Some (data_frame nnn (pi18_payload tokens)).
Proof.
  intros Hn Hnc Ht Hc. unfold pi18_reply, data_frame. set (head := data_head nnn (pi18_payload tokens)) in *.
  assert (no_cr (head ++ crc16_xmodem_bytes head)) as Hno.
  { apply Forall_app. split; [|exact Hc]. apply data_head_no_cr; [exact Hnc|now apply payload_no_cr]. }
  rewrite app_assoc, has_byte_app. change (has_byte CR [CR]) with true. rewrite orb_true_r.
  rewrite bbefore_app by exact Hno. rewrite own_checksum; [reflexivity|].
  unfold head, data_head. rewrite length_app. cbn. lia.
Qed.

(** The decoder on it. *)
Lemma pi18_decoded nnn tokens : List.length nnn = 3%nat -> no_cr nnn -> Forall pi18_token tokens -> tokens <> [] ->
  no_cr (crc16_xmodem_bytes (data_head nnn (pi18_payload tokens))) ->
  decode_pi18_response "QPIGS" (data_frame nnn (pi18_payload tokens)) = decode_gs tokens.
Proof.
  intros Hn Hnc Ht Hne Hc.
  destruct (strip_pi18_frame_payload nnn (pi18_payload tokens) Hn Hnc (payload_no_cr tokens Ht)) as (hi & lo & E & Hs & _).
  assert (strip_pi18_frame (data_frame nnn (pi18_payload tokens)) = pi18_payload tokens) as Hstrip.
  { rewrite E in Hc. inversion Hc as [|? ? H1 Hc']; subst. inversion Hc'; subst. now apply Hs. }
  unfold decode_pi18_response. rewrite Hstrip. unfold pi18_payload in *.
  rewrite decode_ascii_b.
  2:{ eapply Forall_impl; [|exact (payload_wire tokens Ht)]. intros c Hc'. unfold wire_char in Hc'. lia. }
  rewrite (payload_stripped tokens Ht Hne).
  assert (String.eqb (join "," tokens) "" = false) as ->.
  { apply String.eqb_neq. intros E'. pose proof (payload_tokens tokens Ht Hne) as Hp. rewrite E' in Hp.
    cbn in Hp. destruct tokens as [|t [|]]; try discriminate. inversion Ht as [|? ? (H & _) _]; subst.
    injection Hp as Hp. now rewrite <- Hp in H. }
  unfold data_frame, data_head. change (b_ "^D") with [94; 68]. cbn [app firstn].
  change (zlist_eqb (94 :: ?l) (b_ "null")) with false. cbn -[decode_payload native_of join].
  unfold decode_payload. change (native_of "QPIGS") with "GS". cbn -[decode_gs split_char join].
  now rewrite (payload_tokens tokens Ht Hne).
Qed.

(** ** Numbers and fields *)

Lemma small_pi18 tokens : Forall pi18_token tokens -> small_tokens tokens.
Proof. apply Forall_impl. intros t (_ & _ & H). lia. Qed.

Lemma column_range tokens c : Forall pi18_token tokens -> 0 <= column tokens c < 2 ^ 40.
Proof.
  intros H. unfold column, token_of. destruct (nth_in_or_default (index_of c GS_FIELDS) tokens "") as [Hin| ->].
  - rewrite Forall_forall in H. now apply H.
  - vm_compute. split; [discriminate|reflexivity].
Qed.

(** The fields of a decoded section. *)
Definition gs_fields (tokens : list string) (d : pydict) : Prop :=
  (forall k c p, In (k, c, p) GS_TENTHS -> dget k d = Some (VStr (tenths_text p (column tokens c))))
  /\ (forall k c w, In (k, c, w) GS_PADDED -> dget k d = Some (VStr (fmt_0d w (column tokens c)))).

(** A reply whose battery columns are in range is plausible. *)
Lemma columns_plausible tokens d : Forall pi18_token tokens -> dmem "error" d = false -> gs_fields tokens d ->
  100 <= column tokens "battery_voltage" <= 1200 ->
  column tokens "battery_charging_current" <= 300 -> column tokens "battery_discharge_current" <= 300 ->
  is_plausible_qpigs d = Ok true.
Proof.
  intros Ht He [Hten Hpad] Hv Hc Hd. unfold is_plausible_qpigs. rewrite He. apply all_plausible_true. cbn [map].
  pose proof (column_range tokens "battery_charging_current" Ht). pose proof (column_range tokens "battery_discharge_current" Ht).
  repeat apply Forall_cons; [| | |constructor].
  - eapply field_plausible_text; [apply (Hten _ "battery_voltage" 2%nat); cbn; tauto|apply tenths_float_2; lia|].
    pose proof (volts_ok_all (column tokens "battery_voltage") ltac:(lia)) as H'. unfold volts_ok in H'.
    now replace (100 <=? column tokens "battery_voltage") with true in H' by lia.
  - eapply field_plausible_text; [apply (Hpad _ "battery_charging_current" 3%nat); cbn; tauto|apply py_float_fmt_0d; lia|].
    apply amps_ok_all. lia.
  - eapply field_plausible_text; [apply (Hpad _ "battery_discharge_current" 5%nat); cbn; tauto|apply py_float_fmt_0d; lia|].
    apply amps_ok_all. lia.
Qed.

(** Every entity of the table reads the text of its column as its number. *)
Lemma column_sensor_text tokens d s c f : Forall pi18_token tokens -> gs_fields tokens d -> In (s, (c, f)) column_sensors ->
  sp_kind s = Numeric /\ sp_section s = "qpigs"
  /\ exists text, dget (sp_key s) d = Some (VStr text) /\ py_float text = Ok (f (column tokens c)).
Proof.
  intros Ht [Hten Hpad] H. pose proof (fun k => column_range tokens k Ht) as Hr. unfold column_sensors in H. cbn [In] in H.
  repeat (destruct H as [H|H]; [injection H as <- <- <-; split; [reflexivity|]; split; [reflexivity|];
    lazymatch goal with |- context [sp_key ?s] => lazymatch goal with |- context [column _ ?c] =>
      let key := eval vm_compute in (sp_key s) in change (sp_key s) with key;
      first [exists (tenths_text 1 (column tokens c)); split;
               [apply (Hten key c 1%nat); cbn [In GS_TENTHS]; tauto|apply tenths_float_1, Hr]
            |exists (tenths_text 2 (column tokens c)); split;
               [apply (Hten key c 2%nat); cbn [In GS_TENTHS]; tauto|apply tenths_float_2, Hr]
            |eexists; split;
               [eapply (Hpad key c); cbn [In GS_PADDED]; repeat first [left; reflexivity|right]|apply py_float_fmt_0d, Hr]]
    end end|]).
  destruct H.
Qed.

(** The answer of the transport, over either of its schemes. *)
Lemma pi18_answer uri strict nnn tokens (chunks : list bytes) :
  (startswith uri "pi18://" = true /\ is_ok (parse_pi18_tcp_uri uri) = true)
  \/ (startswith uri "pi18-serial://" = true /\ is_ok (parse_pi18_serial_uri uri) = true) ->
  List.length nnn = 3%nat -> no_cr nnn -> Forall pi18_token tokens -> tokens <> [] ->
  no_cr (crc16_xmodem_bytes (data_head nnn (pi18_payload tokens))) ->
  List.concat chunks = data_frame nnn (pi18_payload tokens) ->
  query_pi18 uri "QPIGS" strict (Ok chunks) = Ok (rcatch (decode_gs tokens) []).
Proof.
  intros Huri Hn Hnc Ht Hne Hc Hs. unfold query_pi18.
  assert (is_ok (build_request_frame "QPIGS") = true) as Hf by (vm_compute; reflexivity).
  destruct (build_request_frame "QPIGS") as [frame|]; [|discriminate]. cbn [rbind].
  assert ((if startswith uri "pi18://" then (let! _ := parse_pi18_tcp_uri uri in Ok chunks)
           else if startswith uri "pi18-serial://" then (let! _ := parse_pi18_serial_uri uri in Ok chunks)
           else Raise (GenericException "unknown scheme")) = @Ok (list bytes) chunks) as Hconn.
  { destruct Huri as [[E Hp]|[E Hp]].
    - rewrite E. now destruct (parse_pi18_tcp_uri uri).
    - destruct (startswith uri "pi18://") eqn:E'.
      + apply prefix_inv in E as (r & ->). now vm_compute in E'.
      + rewrite E. now destruct (parse_pi18_serial_uri uri). }
  rewrite Hconn, pi18_query_stream, Hs, (pi18_stream nnn tokens strict Hn Hnc Ht Hc).
  now rewrite pi18_decoded.
Qed.

(** ** Property *)

(** C5: from a PI18 status frame to the entities: a status frame of decimal tokens below
    2^40, of any number of them, whose length field and checksum hold no carriage return
    (the reader takes the first one for the end of the frame, and cuts a frame that has
    one there), however the network cuts it, over a socket or a serial port and with or without strict checking, is answered with a section; if
    its battery columns are in range, a poll that gets the section publishes it, and
    every entity of the table shows exactly the float nearest to the physical value of
    its own column. *)
Theorem pi18_end_to_end (uri : string) (strict : bool) (nnn : bytes) (tokens : list string) (chunks : list bytes)
    (Huri : (startswith uri "pi18://" = true /\ is_ok (parse_pi18_tcp_uri uri) = true)
            \/ (startswith uri "pi18-serial://" = true /\ is_ok (parse_pi18_serial_uri uri) = true))
    (Hn : List.length nnn = 3%nat) (Hnc : no_cr nnn) (Ht : Forall pi18_token tokens) (Hne : tokens <> [])
    (Hc : no_cr (crc16_xmodem_bytes (data_head nnn (pi18_payload tokens))))
    (Hs : List.concat chunks = data_frame nnn (pi18_payload tokens)) :
  exists d, query_pi18 uri "QPIGS" strict (Ok chunks) = Ok d
  /\ (100 <= column tokens "battery_voltage" <= 1200 ->
      column tokens "battery_charging_current" <= 300 -> column tokens "battery_discharge_current" <= 300 ->
      forall prev now key st rs st' dev,
      is_unsupported key "QPIGS" st = false ->
      fetch_device_data prev now key st (VDict d :: rs) = (st', Polled dev) ->
      dget "qpigs" (d_sections dev) = Some d
      /\ forall show sensor c f, In (sensor, (c, f)) column_sensors ->
         sensor_value show sensor (Ok (d_sections dev)) = Ok (VFloat (f (column tokens c)))).
Proof.
  destruct (gs_section tokens (small_pi18 tokens Ht)) as (d & Ed & He & Est & Hten & Hpad).
  assert (gs_fields tokens d) as Hg by (now split).
  exists d. split; [now rewrite (pi18_answer uri strict nnn tokens), Ed|].
  intros Hv Hch Hdis prev now key st rs st' dev Hu Hpoll.
  assert (d <> []) as Hd.
  { intros ->. specialize (Hten "grid_voltage" "grid_voltage" 1%nat ltac:(cbn; tauto)). discriminate. }
  destruct (not_refused d He Est Hd (columns_plausible tokens d Ht He Hg Hv Hch Hdis)) as [Hnr Hgood].
  pose proof (poll_publishes _ _ _ _ _ _ _ _ Hu Hnr Hgood Hpoll) as Hq. split; [exact Hq|].
  intros show sensor c f Hin. destruct (column_sensor_text tokens d sensor c f Ht Hg Hin) as (Ekind & Esec & text & Htext & Hf).
  unfold sensor_value. rewrite Ekind, Esec. exact (numeric_field "qpigs" _ _ _ text _ Hq Htext Hf).
Qed.

(** A status frame of a PI18 inverter, cut in two. *)
Definition pi18_sample : list string :=
  ["2300"; "499"; "2301"; "500"; "0512"; "0478"; "009"; "267"; "268"; "000"; "012"; "000"; "085"; "045"; "000"; "000"; "0350";
   "0000"; "1035"; "0000"; "0"; "2"; "0"; "1"; "1"; "1"; "0"; "0"].
Definition pi18_sample_frame : bytes := data_frame (b_ "106") (pi18_payload pi18_sample).
Definition pi18_sample_chunks : list bytes := [firstn 30 pi18_sample_frame; skipn 30 pi18_sample_frame].
Definition pi18_sample_reading : pydict := rcatch (query_pi18 "pi18://10.0.0.7:8899" "QPIGS" true (Ok pi18_sample_chunks)) [].
Definition pi18_sample_poll : coord * polled devdata :=
  fetch_device_data [] 0 "inv" (coord_init []) (VDict pi18_sample_reading :: repeat VNone 10).

Lemma pi18_sample_ok : Forall pi18_token pi18_sample.
Proof.
  repeat (apply Forall_cons; [split; [discriminate|split; [repeat constructor|vm_compute; split; [discriminate|reflexivity]]]|]).
  constructor.
Qed.

Lemma pi18_end_to_end_witness :
  match pi18_sample_poll with
  | (_, Polled dev) => sensor_value (fun _ => ""%string) DirectBatteryVoltageSensor (Ok (d_sections dev)) = Ok (VFloat (flit 2670 100))
  | _ => False
  end.
Proof.
  destruct pi18_sample_poll as [st' [dev| |e]] eqn:E; [|vm_compute in E; discriminate E|vm_compute in E; discriminate E].
  destruct (pi18_end_to_end "pi18://10.0.0.7:8899" true (b_ "106") pi18_sample pi18_sample_chunks) as (d & Ed & Hd).
  - left. split; reflexivity.
  - reflexivity.
  - vm_compute. repeat (constructor; [discriminate|]); constructor.
  - exact pi18_sample_ok.
  - discriminate.
  - vm_compute. repeat (constructor; [discriminate|]); constructor.
  - unfold pi18_sample_chunks. cbn [List.concat]. now rewrite app_nil_r, firstn_skipn.
  - assert (d = pi18_sample_reading) as -> by (unfold pi18_sample_reading; now rewrite Ed).
    refine (proj2 (Hd _ _ _ [] 0 "inv" (coord_init []) (repeat VNone 10) st' dev eq_refl E) (fun _ => ""%string)
      DirectBatteryVoltageSensor "battery_voltage" (fun n => centi (10 * n)) _).
    + vm_compute. split; discriminate.
    + vm_compute. discriminate.
    + vm_compute. discriminate.
    + apply (nth_error_In _ 7%nat). reflexivity.
Defined.
