(* ===== verification/BenchScript.v ===== *)
(** The bench script [test_tty.py], which asks a serial port for QPIGS and
    prints what it parsed, and the number helper of [util.py].

    What the port answered is an argument, what is printed is a list of lines. *)

From Stdlib Require Import ZArith List Bool Lia String Ascii Floats.SpecFloat.
From S2P Require Import Prelude PyStr PyInt PyFloat FloatText PyDict Crc Voltronic Transports EndToEnd.
Import ListNotations.
#[local] Open Scope string_scope.
#[local] Open Scope list_scope.
#[local] Open Scope Z_scope.
#[local] Open Scope py_scope.

(** ** [util.py] *)

Definition number_char (c : ascii) : bool := is_digit c || Ascii.eqb c "." || Ascii.eqb c "-".

(** [resolve_number_with_unit] *)
Definition resolve_number_with_unit (val : string) : pyval :=
  match py_float (on_chars (filter number_char) val) with
  | Ok x => VFloat x
  | Raise _ => VStr val
  end.

(** ** [test_tty.py] *)

Definition BENCH_FIELDS : list string :=
  [ "grid_voltage"; "grid_frequency"; "ac_output_voltage"; "ac_output_frequency"; "output_apparent_power";
    "output_active_power"; "load_percent"; "bus_voltage"; "battery_voltage"; "battery_charging_current";
    "battery_capacity"; "inverter_heat_sink_temperature"; "pv_input_current"; "pv_input_voltage";
    "scc_battery_voltage"; "battery_discharge_current"; "device_status_bits_b7_b0"; "battery_voltage_offset";
    "eeprom_version"; "pv_charging_power"; "device_status_bits_b10_b8"; "reserved_a"; "reserved_b"; "reserved_c" ].

(** [f.is_integer()] *)
Definition float_is_integer (f : float) : bool :=
  match f with
  | S754_zero _ => true
  | S754_finite _ m e => frac_num m e 1 mod frac_den e =? 0
  | _ => false
  end.

(** [parse_value]: only a [ValueError] is caught. *)
Definition parse_value (v : string) : res pyval :=
  match (let! f := py_float v in
         if float_is_integer f then rmap VInt (int_of_float f) else Ok (VFloat f)) with
  | Raise (ValueError _) => Ok (VStr v)
  | r => r
  end.

(** [decode_qpigs] of the script. *)
Definition bench_decode_qpigs (ascii_str : string) : res pydict :=
  let values := split_ws (strip ascii_str) in
  let! parsed_values := rmapM parse_value values in
  Ok (dict_of (zip BENCH_FIELDS parsed_values)).

(** [b.decode('ascii')] *)
Definition decode_ascii_strict (b : bytes) : res string :=
  if forallb (fun z => z <? 128) b then Ok (str (map chr b))
  else Raise (ValueError "'ascii' codec can't decode byte").

(** A line the script prints. *)
Inductive line : Type :=
| LNoResponse
| LRaw (response : bytes)
| LAsciiError (e : exn)
| LPayload (decoded_str : string)
| LParsingError (e : exn)
| LValue (key : string) (val : pyval).

Definition BENCH_PACKET : bytes := b_ "QPIGS" ++ [CR; LF].

(** [main], from the answer of [ser.read(200)] on. *)
Definition bench_main (response : bytes) : list line :=
  match response with
  | [] => [LNoResponse]
  | _ =>
      LRaw response ::
      match decode_ascii_strict (bstrip response) with
      | Raise e => [LAsciiError e]
      | Ok decoded_str =>
          LPayload decoded_str ::
          match bench_decode_qpigs decoded_str with
          | Raise e => [LParsingError e]
          | Ok decoded_data => map (fun kv => LValue (fst kv) (snd kv)) decoded_data
          end
      end
  end.

(** ** Values *)

Lemma float_text_error v e : py_float v = Raise e -> exists m, e = ValueError m.
Proof.
  unfold py_float. destruct (split_sign _) as [neg l]. destruct (_ || _); [discriminate|].
  destruct (String.eqb _ _); [discriminate|]. destruct (float_decimal neg l); [discriminate|].
  intros [= <-]. eauto.
Qed.

(** What a token is shown as. *)
Definition shown_value (v : string) : pyval :=
  match py_float v with
  | Ok f => match (if float_is_integer f then int_of_float f else Raise ZeroDivisionError) with
            | Ok n => VInt n
            | Raise _ => VFloat f
            end
  | Raise _ => VStr v
  end.

Lemma integer_converts f : float_is_integer f = true -> exists n, int_of_float f = Ok n.
Proof. destruct f as [s|s| |s m e]; try discriminate; cbn; eauto. Qed.

Lemma parse_value_shown v : parse_value v = Ok (shown_value v).
Proof.
  unfold parse_value, shown_value. destruct (py_float v) as [f|e] eqn:E; cbn [rbind].
  - destruct (float_is_integer f) eqn:Ei; [|reflexivity]. destruct (integer_converts f Ei) as [n ->]. reflexivity.
  - apply float_text_error in E as [m ->]. reflexivity.
Qed.

Lemma parse_values l : rmapM parse_value l = Ok (map shown_value l).
Proof. induction l as [|v l IH]; [reflexivity|]. cbn [rmapM map]. now rewrite parse_value_shown, IH. Qed.

Lemma bench_fields_nodup : NoDup BENCH_FIELDS. Proof. nodup_strings. Qed.

Lemma bench_decoded s : bench_decode_qpigs s = Ok (zip BENCH_FIELDS (map shown_value (split_ws (strip s)))).
Proof.
  unfold bench_decode_qpigs. cbv zeta. rewrite parse_values. cbn [rbind]. f_equal.
  apply dict_of_nodup, zip_keys_nodup, bench_fields_nodup.
Qed.

(** The number of a field of digits, at the widths of the protocol. *)
Definition digits_ok (n : Z) : bool :=
  let f := flit n 1 in
  float_is_integer f && match int_of_float f with Ok k => k =? n | Raise _ => false end.
Lemma digits_ok_all : forall n, 0 <= n < 10000 -> digits_ok n = true.
Proof. by_range 10000. Qed.

Lemma shown_digits w n : 0 <= n < 10000 -> shown_value (fmt_0d w n) = VInt n.
Proof.
  intros Hn. unfold shown_value. rewrite py_float_fmt_0d by lia. pose proof (digits_ok_all n Hn) as H.
  unfold digits_ok in H. cbv zeta in H. destruct (float_is_integer (flit n 1)); [|discriminate].
  destruct (int_of_float (flit n 1)) as [k|]; [|discriminate]. apply Z.eqb_eq in H. now subst.
Qed.

(** A parenthesis in front makes a number a text. *)
Lemma shown_parenthesis t : Forall (fun c => is_space c = false) (chars t) -> shown_value ("(" ++ t) = VStr ("(" ++ t).
Proof.
  intros H. unfold shown_value, py_float. rewrite strip_none by (constructor; [reflexivity|exact H]).
  reflexivity.
Qed.

(** ** The reply of an inverter *)

Lemma dropwhile_split {A} (p : A -> bool) l : exists t, l = t ++ dropwhile p l /\ Forall (fun x => p x = true) t.
Proof.
  induction l as [|x l (t & E & H)]; [now exists []|]. cbn [dropwhile]. destruct (p x) eqn:Ex.
  - exists (x :: t). cbn [app]. rewrite <- E. split; [reflexivity|now constructor].
  - now exists [].
Qed.

Lemma rdropwhile_split {A} (p : A -> bool) l : exists t, l = rdropwhile p l ++ t /\ Forall (fun x => p x = true) t.
Proof.
  unfold rdropwhile. destruct (dropwhile_split p (rev l)) as (h & E & H). exists (rev h). split; [|now apply Forall_rev].
  rewrite <- rev_app_distr, <- E. symmetry. apply rev_involutive.
Qed.

(** What is left of a reply between white space: the text and what is not
    white space of its checksum; 7-bit when the checksum is. *)
Lemma bench_stripped tokens : Forall telemetry_token tokens -> tokens <> [] ->
  exists junk, bstrip (reply_stream tokens) = b_ (reply_text tokens) ++ junk
  /\ forallb (fun z => z <? 128) junk = forallb (fun z => z <? 128) (crc16_voltronic (b_ (reply_text tokens))).
Proof.
  intros Ht Hne. set (crc := crc16_voltronic (b_ (reply_text tokens))).
  set (p := fun x => existsb (Z.eqb x) b_space). exists (rdropwhile p (crc ++ [CR])). split.
  - unfold reply_stream. fold crc. now apply bstrip_reply.
  - assert (forallb (fun z => z <? 128) (crc ++ [CR]) = forallb (fun z => z <? 128) crc) as <-
      by (rewrite forallb_app; apply andb_true_r).
    destruct (rdropwhile_split p (crc ++ [CR])) as (t & E & H). rewrite E at 2. rewrite forallb_app.
    assert (forallb (fun z => z <? 128) t = true) as ->; [|now rewrite andb_true_r].
    apply forallb_forall. intros z Hz. rewrite Forall_forall in H. specialize (H z Hz). unfold p, b_space in H.
    apply existsb_exists in H as (y & Hy & Ey). apply Z.eqb_eq in Ey. subst. cbn in Hy. lia.
Qed.

Lemma bench_answered response : response <> [] ->
  bench_main response = LRaw response ::
    match decode_ascii_strict (bstrip response) with
    | Raise e => [LAsciiError e]
    | Ok decoded_str =>
        LPayload decoded_str ::
        match bench_decode_qpigs decoded_str with
        | Raise e => [LParsingError e]
        | Ok decoded_data => map (fun kv => LValue (fst kv) (snd kv)) decoded_data
        end
    end.
Proof. now destruct response. Qed.

Lemma nth_error_zip {A B} (l : list A) (m : list B) i x y :
  nth_error l i = Some x -> nth_error m i = Some y -> nth_error (zip l m) i = Some (x, y).
Proof.
  unfold zip. revert m i. induction l as [|a l IH]; intros [|b m] [|i]; try discriminate; cbn.
  - now intros [= ->] [= ->].
  - apply IH.
Qed.

(** The tokens the script sees in the text, whatever follows them. *)
Lemma bench_tokens t u l junk : Forall telemetry_token (t :: u :: l) ->
  exists rest, split_ws (strip (str ("("%char :: chars (join " " (t :: u :: l)) ++ junk))) = ("(" ++ t)%string :: rest
  /\ forall i tok, nth_error (u :: l) i = Some tok -> (S i < List.length (u :: l))%nat -> nth_error rest i = Some tok.
Proof.
  intros Ht. destruct (join_ends _ Ht ltac:(discriminate)) as [_ (l' & c & El & Hc)]. apply reading_char_not_space in Hc.
  assert (strip (str ("("%char :: chars (join " " (t :: u :: l)) ++ junk))
          = str ("("%char :: chars (join " " (t :: u :: l)) ++ rdropwhile is_space junk)) as ->.
  { apply chars_inj. rewrite strip_cons by reflexivity. rewrite chars_str, El, <- !app_assoc. cbn [app].
    now rewrite rdropwhile_app_stop by exact Hc. }
  inversion Ht as [|? ? [Hne H1] H2]; subst. unfold split_ws. rewrite chars_str, chars_join_cons, <- app_assoc. cbn [app].
  change ("("%char :: chars t ++ " "%char :: chars (join " " (u :: l)) ++ rdropwhile is_space junk)
    with (chars ("(" ++ t)%string ++ " "%char :: (chars (join " " (u :: l)) ++ rdropwhile is_space junk)).
  rewrite split_ws_token; [|constructor; [reflexivity|eapply Forall_impl; [exact reading_char_not_space|exact H1]]|discriminate].
  cbn [rev app]. rewrite str_chars. eexists. split; [reflexivity|]. intros i tok Hi Hl.
  pose proof (split_ws_join (u :: l) (rdropwhile is_space junk) i tok H2 Hl Hi) as E. unfold split_ws in E.
  now rewrite chars_str in E.
Qed.

(** ** Properties *)

(** The script and the live decoder agree: over any text, every field whose
    name they share, the status bits apart, is the live decoder's text, as a
    number when it is one; parsing never fails. *)
Theorem bench_agrees_with_decoder (s : string) : exists d, bench_decode_qpigs s = Ok d
  /\ forall k, In k (firstn 22 BENCH_FIELDS) -> is_status_bits k = false ->
     dget k d = option_map shown_value (dget k (decode_qpigs (strip s))).
Proof.
  eexists. split; [apply bench_decoded|]. intros k Hin Hb. apply In_nth_error in Hin as (i & Hi).
  assert (nth_error BENCH_FIELDS i = Some k /\ nth_error QPIGS_FIELDS i = Some k) as [Hk Hk'].
  { assert (firstn 22 BENCH_FIELDS = firstn 22 QPIGS_FIELDS) as E by reflexivity.
    rewrite <- (firstn_skipn 22 BENCH_FIELDS), <- (firstn_skipn 22 QPIGS_FIELDS), <- E.
    rewrite !nth_error_app1 by (apply nth_error_Some; congruence). now split. }
  rewrite (dget_zip _ _ i k bench_fields_nodup Hk), nth_error_map, (proj1 (decode_qpigs_fields _ i k Hk')).
  unfold is_status_bits in Hb. apply orb_false_iff in Hb as [-> ->].
  now destruct (nth_error (split_ws (strip s)) i).
Qed.

(** On the reply of an inverter the script prints the readings as numbers,
    except the grid voltage, which keeps the parenthesis of the frame and stays
    a text; and it prints nothing of the reply when a byte of the checksum, which
    it does not remove, is not a 7-bit one. *)
Theorem bench_report (t u : string) (l : list string) (Ht : Forall telemetry_token (t :: u :: l)) :
  let tokens := t :: u :: l in
  let response := reply_stream tokens in
  if forallb (fun z => z <? 128) (crc16_voltronic (b_ (reply_text tokens)))
  then exists text values,
    bench_main response = LRaw response :: LPayload text :: LValue "grid_voltage" (VStr ("(" ++ t)) :: values
    /\ forall i k tok, nth_error BENCH_FIELDS (S i) = Some k -> nth_error (u :: l) i = Some tok ->
       (S i < List.length (u :: l))%nat -> nth_error values i = Some (LValue k (shown_value tok))
  else exists e, bench_main response = [LRaw response; LAsciiError e].
Proof.
  intros tokens response. destruct (bench_stripped tokens Ht ltac:(discriminate)) as (junk & Es & Ej).
  assert (response <> []) as Hr by (unfold response, reply_stream, reply_text; now destruct (join " " tokens)).
  assert (forallb (fun z => z <? 128) (b_ (reply_text tokens)) = true) as Hb.
  { apply forallb_forall. intros z Hz. unfold b_, reply_text in Hz. cbn [append chars list_ascii_of_string map In] in Hz.
    destruct Hz as [<-|Hz]; [reflexivity|]. pose proof (payload_bytes_ascii _ (join_payload tokens Ht)) as H.
    rewrite Forall_forall in H. apply Z.ltb_lt. now apply H. }
  rewrite (bench_answered response Hr). unfold decode_ascii_strict.
  change (bstrip response) with (bstrip (reply_stream tokens)). rewrite Es, forallb_app, Hb, Ej. cbn [andb].
  destruct (forallb _ (crc16_voltronic _)); [|eexists; reflexivity].
  assert (map chr (b_ (reply_text tokens) ++ junk) = "("%char :: chars (join " " (t :: u :: l)) ++ map chr junk) as ->.
  { rewrite map_app. unfold b_. now rewrite map_map, (map_ext _ (fun c => c) chr_ord), map_id. }
  rewrite bench_decoded.
  destruct (bench_tokens t u l (map chr junk) Ht) as (rest & Erest & Hrest). rewrite Erest.
  exists (str ("("%char :: chars (join " " tokens) ++ map chr junk)). eexists. split.
  - unfold BENCH_FIELDS, zip. cbn [map combine fst snd]. rewrite shown_parenthesis; [reflexivity|].
    inversion Ht as [|? ? [_ H] _]; subst. eapply Forall_impl; [exact reading_char_not_space|exact H].
  - intros i k tok Hk Hi Hl.
    change (nth_error (map (fun kv => LValue (fst kv) (snd kv)) (zip (List.tl BENCH_FIELDS) (map shown_value rest))) i = Some (LValue k (shown_value tok))).
    rewrite nth_error_map, (nth_error_zip _ _ i k (shown_value tok)); [reflexivity|exact Hk|].
    now rewrite nth_error_map, (Hrest i tok Hi Hl).
Qed.

Lemma bench_report_witness : exists text values,
  bench_main (reply_stream ["230.0"; "49.9"; "0161"; "008"])
  = LRaw (reply_stream ["230.0"; "49.9"; "0161"; "008"]) :: LPayload text :: LValue "grid_voltage" (VStr "(230.0") :: values
  /\ nth_error values 1 = Some (LValue "ac_output_voltage" (VInt 161)).
Proof.
  assert (Forall telemetry_token ["230.0"; "49.9"; "0161"; "008"]) as Ht
    by (repeat (apply Forall_cons; [split; [discriminate|repeat constructor]|]); constructor).
  pose proof (bench_report "230.0" "49.9" ["0161"; "008"] Ht) as H. cbv zeta in H.
  destruct (forallb _ _) eqn:E; [|vm_compute in E; discriminate E].
  destruct H as (text & values & Hm & Hv). exists text, values. split; [exact Hm|].
  exact (Hv 1%nat "ac_output_voltage" "0161" eq_refl eq_refl ltac:(cbn; lia)).
Defined.

Example bench_helper : (resolve_number_with_unit "12.5 V", resolve_number_with_unit "n/a") = (VFloat (flit 125 10), VStr "n/a").
Proof. vm_compute. reflexivity. Qed.
