(* ===== verification/Controls.v ===== *)
(** The control entities and the hub objects: [select.py], [number.py],
    [switch.py], [button.py] and [hub.py].

    A select is its attributes; its coroutine [_set_and_confirm] is a function of
    the answers the bus gives and of what other tasks do to the entity and the
    coordinator while it waits. Home Assistant's stored states are arguments. *)

From Stdlib Require Import ZArith List Bool Lia String Ascii Floats.SpecFloat.
From S2P Require Import Prelude PyStr PyInt PyFloat FloatFacts PyDict Crc Enums Voltronic Pi18 ModbusRtu ModbusAdapter Transports CommandQueue QueueRegistry Coordinator AgentHttp Discovery EybondFrame ChildUri Adapters Entities.
Import ListNotations.
#[local] Open Scope string_scope.
#[local] Open Scope list_scope.
#[local] Open Scope Z_scope.

(** ** The hub *)

(** A poll target: a descriptor, or a bare URI. *)
Inductive poll_target := Descriptor (t : DeviceTarget) | BareUri (s : string).

Record hub_objects := { hub_username : string; hub_items : list InverterDevice }.

Definition hub_id (h : hub_objects) : string := lower (hub_username h).

Definition device_of (username : string) (t : poll_target) : InverterDevice :=
  match t with
  | Descriptor t => {| i_id := t_id t; i_name := if String.eqb (t_name t) "" then username else t_name t;
                       i_uri := t_uri t; i_protocol := Some (t_protocol t) |}
  | BareUri s => {| i_id := s; i_name := username; i_uri := s; i_protocol := None |}
  end.

Definition hub_init (targets : list poll_target) (h : hub_objects) : hub_objects :=
  {| hub_username := hub_username h; hub_items := hub_items h ++ map (device_of (hub_username h)) targets |}.

Definition rebuild_items (targets : list poll_target) (h : hub_objects) : hub_objects :=
  hub_init targets {| hub_username := hub_username h; hub_items := [] |}.

(** ** Restored controls *)

Inductive number_kind := BatteryCapacity | FullChargeSyncVoltage | DischargeFloorSoC | FloatVoltageWindow | FloatNoiseFloor.

Definition id_suffix (k : number_kind) : string :=
  match k with
  | BatteryCapacity => "battery_capacity_ah"
  | FullChargeSyncVoltage => "full_charge_sync_voltage"
  | DischargeFloorSoC => "discharge_floor_soc"
  | FloatVoltageWindow => "float_voltage_window"
  | FloatNoiseFloor => "float_noise_floor"
  end.

Definition default_value (k : number_kind) : option float :=
  match k with
  | BatteryCapacity => None
  | FullChargeSyncVoltage => Some f0
  | DischargeFloorSoC => Some (flit 15 1)
  | FloatVoltageWindow => Some (flit 5 10)
  | FloatNoiseFloor => Some (flit 15 10)
  end.

(** Least value, greatest value and step. *)
Definition number_range (k : number_kind) : float * float * float :=
  match k with
  | BatteryCapacity => (f0, flit 2000 1, flit 1 1)
  | FullChargeSyncVoltage => (f0, flit 120 1, flit 1 10)
  | DischargeFloorSoC => (f0, flit 80 1, flit 1 1)
  | FloatVoltageWindow => (f0, flit 2 1, flit 1 10)
  | FloatNoiseFloor => (f0, flit 10 1, flit 1 10)
  end.

(** [async_added_to_hass] on the restored state, from the value of [__init__]. *)
Definition number_added (k : number_kind) (last : option string) : option float :=
  match last with
  | None => default_value k
  | Some text =>
      if existsb (String.eqb text) ["unknown"; "unavailable"] then default_value k
      else match py_float text with
           | Ok v => Some v
           | Raise _ => default_value k
           end
  end.

(** [async_set_native_value]: the new value, written as it is. *)
Definition number_set (value : float) : option float := Some value.

Definition switch_added (last : option string) : bool :=
  match last with
  | Some text => if existsb (String.eqb text) ["on"; "off"] then String.eqb text "on" else true
  | None => true
  end.

(** [async_turn_on] and [async_turn_off]. *)
Definition switch_turn (on : bool) : bool := on.

Definition BATTERY_MODES : list string := ["Lithium (Voltage)"; "Lithium (BMS)"; "Lead-acid"].

Definition battery_mode_added (last : option string) : string :=
  match last with
  | Some text => if existsb (String.eqb text) BATTERY_MODES then text else "Lithium (Voltage)"
  | None => "Lithium (Voltage)"
  end.

Definition battery_mode_select (option current : string) : string :=
  if existsb (String.eqb option) BATTERY_MODES then option else current.

(** ** Selects backed by the inverter's settings *)

Inductive select_kind := OutputPriority | ChargeSource | MaxUtilityCurrent | MaxCurrent.

Definition select_options (k : select_kind) : list string :=
  match k with
  | OutputPriority => ["UtilityFirst"; "SBU"; "Solar"]
  | ChargeSource => ["UtilityFirst"; "SolarFirst"; "SolarAndUtility"]
  | MaxUtilityCurrent => ["2"; "10"; "20"; "30"; "40"; "50"; "60"; "70"; "80"; "90"; "100"; "110"; "120"]
  | MaxCurrent => ["10"; "20"; "30"; "40"; "50"; "60"; "70"; "80"]
  end.

Definition PENDING_TTL : float := flit 150 1.
Definition CONFIRM_ATTEMPTS : nat := 4.
Definition WRITE_ATTEMPTS : nat := 3.

(** The sections of a device, none before its first poll. *)
Definition select_data (id : string) (data : dict devdata) : dict pydict :=
  match dget id data with Some dev => d_sections dev | None => [] end.

(** [(device_data.get('qpiri') or {}).get(key)] *)
Definition qpiri_value (key : string) (data : dict pydict) : pyval :=
  vget key (match dget "qpiri" data with Some d => d | None => [] end).

Definition resolve_output_priority : dict pydict -> pyval := qpiri_value "output_source_priority".
Definition resolve_chrage_source_priority : dict pydict -> pyval := qpiri_value "charger_source_priority".
Definition resolve_max_utility_charging_current : dict pydict -> pyval := qpiri_value "max_utility_charging_current".
Definition resolve_max_charging_current : dict pydict -> pyval := qpiri_value "max_charging_current".

(** The device's spelling of an option: ['02.0'], ['030'] and ['2.0'] are numbers;
    an infinite one raises. *)
Definition normalize_amps (raw : pyval) : res pyval :=
  match raw with
  | VNone => Ok VNone
  | _ => match (let! f := float_of_val raw in int_of_float f)%py with
         | Ok n => Ok (VStr (str_of_int n))
         | Raise e => if is_ValueError e || is_TypeError e then Ok VNone else Raise e
         end
  end.

Definition output_mapper (priority : pyval) : res pyval :=
  match priority with
  | VStr s => Ok (VStr (if String.eqb s "SolarFirst" then "Solar" else s))
  | VList _ | VDict _ => Raise (TypeError "unhashable type")
  | v => Ok v
  end.

Definition charge_source_reading (data : dict pydict) : res pyval := Ok (resolve_chrage_source_priority data).

Definition max_current_reading (data : dict pydict) : res pyval := normalize_amps (resolve_max_charging_current data).

(** The option [data] reflects. *)
Definition select_reading (k : select_kind) (data : dict pydict) : res pyval :=
  match k with
  | OutputPriority => output_mapper (resolve_output_priority data)
  | ChargeSource => charge_source_reading data
  | MaxUtilityCurrent => normalize_amps (resolve_max_utility_charging_current data)
  | MaxCurrent => max_current_reading data
  end.

Record select := {
  pending_option : option string;
  pending_since : float;
  current_option : pyval;
  raw_readback : option string
}.

Section Select.
(** [show] is [str(...)] of a value that is not a string. *)
Context (show : pyval -> string) (k : select_kind).

Definition raw_text (v : pyval) : option string :=
  match v with VNone => None | VStr s => Some s | v => Some (show v) end.

Definition read_current (data : dict pydict) (s : select) : select * res pyval :=
  ({| pending_option := pending_option s; pending_since := pending_since s; current_option := current_option s;
      raw_readback := match k with
                      | MaxUtilityCurrent => raw_text (resolve_max_utility_charging_current data)
                      | _ => raw_readback s
                      end |}, select_reading k data).

(** [__init__] on the coordinator's data: the output priority is shown as it is read. *)
Definition select_init (data : dict pydict) : res select :=
  let raw := match k with
             | MaxUtilityCurrent => raw_text (resolve_max_utility_charging_current data)
             | _ => None
             end in
  rmap (fun v => {| pending_option := None; pending_since := f0; current_option := v; raw_readback := raw |})
    (match k with OutputPriority => Ok (resolve_output_priority data) | _ => select_reading k data end).

Definition value_is (o : string) (v : pyval) : bool := match v with VStr t => String.eqb t o | _ => false end.

Definition expired (since now : float) : bool := fgt (fsub now since) PENDING_TTL.

(** [_handle_coordinator_update]: the entity, and what it wrote. *)
Definition handle_update (now : float) (data : dict pydict) (s : select) : select * res pyval :=
  match read_current data s with
  | (s, Raise e) => (s, Raise e)
  | (s, Ok current) =>
      let '(pending, shown) :=
        match pending_option s with
        | Some o => if value_is o current || expired (pending_since s) now then (None, current) else (Some o, VStr o)
        | None => (None, current)
        end in
      ({| pending_option := pending; pending_since := pending_since s; current_option := shown;
          raw_readback := raw_readback s |}, Ok shown)
  end.

(** The first writes of [_set_and_confirm]. *)
Definition choose (now : float) (o : string) (s : select) : select :=
  {| pending_option := Some o; pending_since := now; current_option := VStr o; raw_readback := raw_readback s |}.

(** ** Acknowledgements *)

Definition ack_text (v : pyval) : bool :=
  match v with VStr t => str_contains "ACK" t && negb (str_contains "NAK" t) | _ => false end.

Definition is_ack (result : pyval) : bool :=
  match result with
  | VDict d =>
      if value_is "ACK" (vget "status" d) then true
      else if value_is "NAK" (vget "status" d) || dmem "error" d then false
      else existsb ack_text (dvalues d)
  | _ => false
  end.

(** ** Setting an option *)

(** What each class asks of the adapter; the current limits are written in the
    spelling read last. *)
Definition output_setting (o : string) : option setting :=
  option_map SetOutputPriority (dget o [
    ("UtilityFirst", OutputSourcePrioritySetting_UTILITY_FIRST);
    ("SBU", OutputSourcePrioritySetting_SBU_PRIORITY);
    ("Solar", OutputSourcePrioritySetting_SOLAR_FIRST)]).

Definition charge_source_setting (o : string) : option setting :=
  option_map SetChargePriority (dget o [
    ("UtilityFirst", ChargeSourcePrioritySetting_UTILITY_FIRST);
    ("SolarFirst", ChargeSourcePrioritySetting_SOLAR_FIRST);
    ("SolarAndUtility", ChargeSourcePrioritySetting_SOLAR_AND_UTILITY)]).

Definition utility_current_setting (o : string) (raw : option string) : option setting :=
  match py_int o with
  | Ok amps => Some (SetUtilityCurrent amps (match raw with Some t => str_contains "." t | None => false end))
  | Raise _ => None
  end.

Definition max_current_setting (o : string) : option setting :=
  match py_int o with Ok amps => Some (SetCombinedCurrent amps) | Raise _ => None end.

Definition select_setting (o : string) (raw : option string) : option setting :=
  match k with
  | OutputPriority => output_setting o
  | ChargeSource => charge_source_setting o
  | MaxUtilityCurrent => utility_current_setting o raw
  | MaxCurrent => max_current_setting o
  end.

(** What other tasks do to the entity while the coroutine awaits: the
    coordinator publishes from a new state, or the user picks again. *)
Inductive task_event := Published (now : float) (st : coord) | Picked (now : float) (o : string).

Definition play_event (id : string) (w : select * coord) (e : task_event) : select * coord :=
  match e with
  | Published now st => (fst (handle_update now (select_data id (c_data st)) (fst w)), st)
  | Picked now o => (if existsb (String.eqb o) (select_options k) then choose now o (fst w) else fst w, snd w)
  end.

(** At most [n] writes, stopping at the first acknowledged one: the world, the
    writes made, and whether one was acknowledged. *)
Fixpoint write_until_ack (n : nat) (id : string) (rounds : list (list task_event * res pyval)) (w : select * coord)
  : (select * coord) * nat * polled bool :=
  match n with
  | O => (w, O, Polled false)
  | S n =>
      match rounds with
      | [] => (w, O, PCancelled)
      | (es, r) :: rounds =>
          let w := fold_left (play_event id) es w in
          match r with
          | Raise e => (w, 1%nat, PRaised e)
          | Ok result =>
              if is_ack result then (w, 1%nat, Polled true)
              else let '(w, writes, o) := write_until_ack n id rounds w in (w, S writes, o)
          end
      end
  end.

(** Whether [async_refresh_command] publishes. *)
Definition refresh_publishes (id : string) (result : pyval) (st : coord) : bool :=
  existsb (fun t => String.eqb (t_id t) id) (c_devices st) && truthy result
  && match snd (accept_result id "QPIRI" result st) with Ok (Some (_ :: _)) => true | _ => false end.

(** One forced read of QPIRI and, when it publishes, the entity's own update. *)
Definition reread (id : string) (now : float) (result : pyval) (w : select * coord) : (select * coord) * res unit :=
  let '(s, st) := w in
  match refresh_command id "QPIRI" "qpiri" result st with
  | (st', Raise e) => ((s, st'), Raise e)
  | (st', Ok _) =>
      if refresh_publishes id result st then
        let '(s, shown) := handle_update now (select_data id (c_data st')) s in ((s, st'), rmap (fun _ => tt) shown)
      else ((s, st'), Ok tt)
  end.

Fixpoint confirm (n : nat) (id : string) (rounds : list (list task_event * float * pyval)) (w : select * coord)
  : (select * coord) * nat * polled unit :=
  match n with
  | O => (w, O, Polled tt)
  | S n =>
      match rounds with
      | [] => (w, O, PCancelled)
      | (es, now, result) :: rounds =>
          match reread id now result (fold_left (play_event id) es w) with
          | (w, Raise e) => (w, 1%nat, PRaised e)
          | (w, Ok _) =>
              match pending_option (fst w) with
              | None => (w, 1%nat, Polled tt)
              | Some _ => let '(w, reads, o) := confirm n id rounds w in (w, S reads, o)
              end
          end
      end
  end.

(** [_set_and_confirm]: the world, the writes and the reads made. *)
Definition set_and_confirm (id : string) (t0 : float) (o : string) (writes : list (list task_event * res pyval))
    (reads : list (list task_event * float * pyval)) (w : select * coord)
  : (select * coord) * nat * nat * polled unit :=
  match write_until_ack WRITE_ATTEMPTS id writes (choose t0 o (fst w), snd w) with
  | (w, nw, Polled _) => let '(w, nr, out) := confirm CONFIRM_ATTEMPTS id reads w in (w, nw, nr, out)
  | (w, nw, PCancelled) => (w, nw, O, PCancelled)
  | (w, nw, PRaised e) => (w, nw, O, PRaised e)
  end.

(** [async_select_option] *)
Definition select_option (id : string) (t0 : float) (o : string) (writes : list (list task_event * res pyval))
    (reads : list (list task_event * float * pyval)) (w : select * coord)
  : (select * coord) * nat * nat * polled unit :=
  if existsb (String.eqb o) (select_options k) then set_and_confirm id t0 o writes reads w
  else (w, O, O, Polled tt).
End Select.

(** ** The exit-fault button *)

Definition EXIT_FAULT_REGISTER : Z := 426.
Definition PROTOCOL_MODBUS : string := "modbus".

(** The devices [async_setup_entry] gives a button, with the URI it writes to. *)
Definition exit_fault_buttons (entry_protocol entry_device : option string) (items : list InverterDevice)
  : list (string * string) :=
  flat_map (fun item =>
    let protocol := match i_protocol item with
                    | Some p => if String.eqb p "" then entry_protocol else Some p
                    | None => entry_protocol
                    end in
    match protocol with
    | Some p =>
        if String.eqb p PROTOCOL_MODBUS then
          let uri := if String.eqb (i_uri item) "" then entry_device else Some (i_uri item) in
          match uri with
          | Some u => if String.eqb u "" then [] else [(i_id item, u)]
          | None => []
          end
        else []
    | None => []
    end) items.

(** [async_press]: the route and the answer of the write, or nothing when the URI
    does not parse. [peers] is what listens at a host and port. *)
Definition exit_fault_press {S} (peers : string -> Z -> tcp_peer S) (device_uri bus_mode : string) (s : S)
  : option (route * pydict) * S :=
  match parse_modbus_uri device_uri with
  | Raise _ => (None, s)
  | Ok (host, port) =>
      let '(d, s) := write_modbus_single_register (peers host port) EXIT_FAULT_REGISTER 1 UNIT_ID s in
      (Some (run_on_bus device_uri PRIORITY_USER bus_mode, d), s)
  end.

(** The unique ids of the controls of one inverter: selects, numbers, the
    deadband switch, the button. *)
Definition control_ids (inverter_id : string) : list string :=
  map (fun suffix => (inverter_id ++ "_" ++ suffix)%string)
    (["output_priority"; "charge_source_priority"; "max_utility_charging_current"; "max_charging_current"; "battery_mode"]
     ++ map id_suffix [BatteryCapacity; FullChargeSyncVoltage; DischargeFloorSoC; FloatVoltageWindow; FloatNoiseFloor]
     ++ ["float_deadband"; "exit_fault_state"]).

(** ** Lemmas *)

Section SelectFacts.
Context (show : pyval -> string) (k : select_kind).

(** Whether an update at [now] ends the hold of [o], picked at [t0]. *)
Definition releases (o : string) (t0 : float) (u : float * dict pydict) : bool :=
  match select_reading k (snd u) with
  | Ok v => value_is o v || expired t0 (fst u)
  | Raise _ => false
  end.

(** The last option the updates reflect, [v] when none does. *)
Definition last_reading (us : list (float * dict pydict)) (v : pyval) : pyval :=
  fold_left (fun v u => match select_reading k (snd u) with Ok w => w | Raise _ => v end) us v.

Definition run_updates (us : list (float * dict pydict)) (s : select) : select :=
  fold_left (fun s u => fst (handle_update show k (fst u) (snd u) s)) us s.

Lemma handle_update_spec now data s :
  let s' := fst (handle_update show k now data s) in
  pending_since s' = pending_since s
  /\ match select_reading k data with
     | Raise e => pending_option s' = pending_option s /\ current_option s' = current_option s
                  /\ snd (handle_update show k now data s) = Raise e
     | Ok v =>
         let hold := match pending_option s with
                     | Some o => negb (value_is o v || expired (pending_since s) now)
                     | None => false
                     end in
         pending_option s' = (if hold then pending_option s else None)
         /\ current_option s' = (match pending_option s with Some o => if hold then VStr o else v | None => v end)
         /\ snd (handle_update show k now data s) = Ok (current_option s')
     end.
Proof.
  unfold handle_update, read_current. destruct (select_reading k data) as [v|e]; cbn; [|easy].
  destruct (pending_option s) as [o|]; cbn; [|easy].
  destruct (value_is o v || expired (pending_since s) now); now cbn.
Qed.

Lemma run_updates_free us : forall s, pending_option s = None ->
  pending_option (run_updates us s) = None
  /\ current_option (run_updates us s) = last_reading us (current_option s).
Proof.
  induction us as [|[now d] us IH]; intros s H; [easy|]. cbn [run_updates last_reading fold_left fst snd].
  pose proof (handle_update_spec now d s) as (_ & Hs). rewrite H in Hs.
  set (s' := fst (handle_update show k now d s)) in *.
  destruct (select_reading k d) as [v|e]; destruct Hs as (Hp & Hc & _);
    destruct (IH s' Hp) as [H1 H2]; (split; [exact H1|]); cbn in Hc; rewrite <- Hc; exact H2.
Qed.

Lemma last_reading_ok us v w :
  existsb (fun u => match select_reading k (snd u) with Ok _ => true | Raise _ => false end) us = true ->
  last_reading us v = last_reading us w.
Proof.
  revert v w. induction us as [|[now d] us IH]; intros v w H; [discriminate|].
  cbn in H |- *. destruct (select_reading k d); [reflexivity|now apply IH].
Qed.

Lemma run_updates_hold o t0 us : forall s, pending_option s = Some o -> pending_since s = t0 ->
  current_option s = VStr o ->
  pending_option (run_updates us s) = (if existsb (releases o t0) us then None else Some o)
  /\ current_option (run_updates us s) = (if existsb (releases o t0) us then last_reading us VNone else VStr o).
Proof.
  induction us as [|[now d] us IH]; intros s Hp Ht Hc; [easy|].
  cbn [run_updates last_reading fold_left fst snd existsb].
  pose proof (handle_update_spec now d s) as (Hs & Hr). rewrite Hp, Ht in Hr.
  unfold releases at 1 3. cbn [fst snd].
  set (s' := fst (handle_update show k now d s)) in *.
  destruct (select_reading k d) as [v|e].
  - destruct (value_is o v || expired t0 now); cbn in Hr; destruct Hr as (Hp' & Hc' & _); cbn [orb].
    + destruct (run_updates_free us s' Hp') as [H1 H2]. split; [exact H1|].
      rewrite <- Hc'. exact H2.
    + destruct (IH s' Hp' (eq_trans Hs Ht) Hc') as [H1 H2]. split; [exact H1|].
      destruct (existsb (releases o t0) us) eqn:E; [|exact H2]. etransitivity; [exact H2|]. apply last_reading_ok.
      rewrite existsb_exists in *. destruct E as (u & Hu & Hr'). exists u. split; [exact Hu|].
      unfold releases in Hr'. now destruct (select_reading k (snd u)).
  - destruct Hr as (Hp' & Hc' & _). rewrite Hc in Hc'. cbn [orb].
    exact (IH s' Hp' (eq_trans Hs Ht) Hc').
Qed.
End SelectFacts.

(** ** The forced read of QPIRI *)

Definition polls (id : string) (st : coord) : bool := existsb (fun t => String.eqb (t_id t) id) (c_devices st).

(** A read no section is made of. *)
Definition unusable (r : pyval) : bool := is_nak_result r || is_error_result r.

Lemma note_nak_keeps key cmd st :
  c_devices (fst (note_nak key cmd st)) = c_devices st /\ c_data (fst (note_nak key cmd st)) = c_data st.
Proof.
  unfold note_nak. destruct (is_unsupported key cmd st); [easy|]. cbv zeta. now destruct (_ <=? _).
Qed.

Lemma refresh_unusable id r st : unusable r = true ->
  exists st', refresh_command id "QPIRI" "qpiri" r st = (st', Ok tt)
  /\ refresh_publishes id r st = false /\ c_devices st' = c_devices st.
Proof.
  unfold unusable, refresh_command, refresh_publishes, accept_result. intros H.
  destruct (existsb _ (c_devices st)); cbn [negb andb]; [|now exists st].
  destruct (truthy r); cbn [negb andb]; [|now exists st].
  destruct (is_nak_result r).
  - exists (fst (note_nak id "QPIRI" st)). cbn [snd]. now rewrite (proj1 (note_nak_keeps _ _ _)).
  - cbn [orb] in H. rewrite H. now exists st.
Qed.

Lemma refresh_good id d st : good_result "QPIRI" d -> polls id st = true ->
  exists st', refresh_command id "QPIRI" "qpiri" (VDict d) st = (st', Ok tt)
  /\ refresh_publishes id (VDict d) st = true /\ c_devices st' = c_devices st
  /\ dget "qpiri" (select_data id (c_data st')) = Some d.
Proof.
  intros (Hne & He & Hs & _) Hp. unfold polls in Hp. unfold refresh_command, refresh_publishes. rewrite Hp.
  assert (accept_result id "QPIRI" (VDict d) st = (accept_good id "QPIRI" st, Ok (Some d))) as ->.
  { unfold accept_result, is_nak_result, is_error_result. rewrite Hs.
    unfold dmem in He |- *. destruct (dget "error" d); [discriminate|].
    destruct d; [congruence|]. reflexivity. }
  destruct d as [|kv d]; [congruence|]. cbn [truthy negb andb snd].
  eexists. split; [reflexivity|]. split; [reflexivity|]. split; [reflexivity|].
  unfold select_data. cbn [c_data with_data]. now rewrite dget_dset_eq; cbn [d_sections]; rewrite dget_dset_eq.
Qed.

Lemma reading_qpiri k data d : dget "qpiri" data = Some d -> select_reading k data = select_reading k [("qpiri", d)].
Proof.
  intros H. unfold select_reading, charge_source_reading, max_current_reading, resolve_output_priority, resolve_chrage_source_priority,
    resolve_max_utility_charging_current, resolve_max_charging_current, qpiri_value. now rewrite H.
Qed.

(** A read at [now] that leaves the choice of [o], made at [t0], unconfirmed:
    one that is not usable, or one that shows another value in time. *)
Definition unconfirming (k : select_kind) (o : string) (t0 : float) (nr : float * pyval) : Prop :=
  unusable (snd nr) = true
  \/ exists d v, snd nr = VDict d /\ good_result "QPIRI" d /\ select_reading k [("qpiri", d)] = Ok v
     /\ value_is o v = false /\ expired t0 (fst nr) = false.

(** The entity holds [o], picked at [t0]. *)
Definition holding (o : string) (t0 : float) (s : select) : Prop :=
  pending_option s = Some o /\ pending_since s = t0 /\ current_option s = VStr o.

Section SetFacts.
Context (show : pyval -> string) (k : select_kind) (id : string).

(** Rounds in which nothing else happens. *)
Definition quiet_writes (rs : list pydict) : list (list task_event * res pyval) := map (fun d => ([], Ok (VDict d))) rs.
Definition quiet_reads (rs : list (float * pyval)) : list (list task_event * float * pyval) :=
  map (fun nr => ([], fst nr, snd nr)) rs.

Lemma writes_until n w rest : forall rej r,
  Forall (fun d => is_ack (VDict d) = false) rej ->
  (is_ack (VDict r) = true /\ (List.length rej < n)%nat \/ is_ack (VDict r) = false /\ S (List.length rej) = n) ->
  write_until_ack show k n id (quiet_writes (rej ++ [r]) ++ rest) w
  = (w, S (List.length rej), Polled (is_ack (VDict r))).
Proof.
  induction n as [|n IH]; intros rej r Hrej Hr; [lia|].
  destruct rej as [|d rej]; cbn [quiet_writes app map write_until_ack fold_left List.length] in *.
  - destruct (is_ack (VDict r)) eqn:E; [reflexivity|]. destruct Hr as [[Hr _]|[_ Hn]]; [discriminate|].
    assert (n = 0%nat) as -> by lia. reflexivity.
  - inversion Hrej as [|? ? Hd Hrej']; subst. rewrite Hd. fold (quiet_writes (rej ++ [r])).
    rewrite (IH rej r Hrej'); [reflexivity|]. destruct Hr as [[H1 H2]|[H1 H2]]; [left|right]; split; auto; lia.
Qed.

Lemma reread_unconfirming o t0 nr s st : unconfirming k o t0 nr -> holding o t0 s -> polls id st = true ->
  exists s' st', reread show k id (fst nr) (snd nr) (s, st) = ((s', st'), Ok tt) /\ holding o t0 s' /\ polls id st' = true.
Proof.
  destruct nr as [now r]. intros Hu Hh Hp. unfold unconfirming, reread in *. cbn [fst snd] in *.
  destruct Hu as [Hu|(d & v & -> & Hg & Hv & Hno & Ht)].
  - destruct (refresh_unusable id r st Hu) as (st' & -> & -> & Hd). exists s, st'.
    split; [reflexivity|]. split; [exact Hh|]. unfold polls in *. now rewrite Hd.
  - destruct (refresh_good id d st Hg Hp) as (st' & -> & -> & Hd & Hq).
    pose proof (handle_update_spec show k now (select_data id (c_data st')) s) as (Hs & Hr).
    rewrite (eq_trans (reading_qpiri k _ d Hq) Hv) in Hr. destruct Hh as (H1 & H2 & H3).
    rewrite H1, H2, Hno, Ht in Hr. cbn -[handle_update] in Hr.
    destruct (handle_update show k now (select_data id (c_data st')) s) as [s' x]. cbn [fst snd] in *.
    destruct Hr as (Hp' & Hc' & ->). exists s', st'. cbn [rmap rbind]. split; [reflexivity|].
    split; [|unfold polls in *; now rewrite Hd]. unfold holding. rewrite Hs. auto.
Qed.

Lemma reread_confirming o t0 now d s st : good_result "QPIRI" d -> select_reading k [("qpiri", d)] = Ok (VStr o) ->
  holding o t0 s -> polls id st = true ->
  exists s' st', reread show k id now (VDict d) (s, st) = ((s', st'), Ok tt)
  /\ pending_option s' = None /\ current_option s' = VStr o
  /\ dget "qpiri" (select_data id (c_data st')) = Some d.
Proof.
  intros Hg Hv (H1 & H2 & H3) Hp. unfold reread.
  destruct (refresh_good id d st Hg Hp) as (st' & -> & -> & Hd & Hq).
  pose proof (handle_update_spec show k now (select_data id (c_data st')) s) as (Hs & Hr).
  rewrite (eq_trans (reading_qpiri k _ d Hq) Hv), H1 in Hr. cbn [value_is] in Hr. rewrite String.eqb_refl in Hr. cbn -[handle_update] in Hr.
  destruct (handle_update show k now (select_data id (c_data st')) s) as [s' x]. cbn [fst snd] in *.
  destruct Hr as (Hp' & Hc' & ->). exists s', st'. now repeat split.
Qed.

(** The confirm loop over reads that settle nothing, and what follows them. *)
Lemma confirm_unconfirming o t0 nrs : forall n rest s st,
  Forall (unconfirming k o t0) nrs -> holding o t0 s -> polls id st = true -> (List.length nrs <= n)%nat ->
  exists s' st', holding o t0 s' /\ polls id st' = true
  /\ confirm show k n id (quiet_reads nrs ++ rest) (s, st)
     = (let '(w, reads, out) := confirm show k (n - List.length nrs) id rest (s', st') in
        (w, (List.length nrs + reads)%nat, out)).
Proof.
  induction nrs as [|nr nrs IH]; intros n rest s st Hu Hh Hp Hn; cbn [List.length] in *.
  - exists s, st. split; [exact Hh|]. split; [exact Hp|]. unfold quiet_reads. cbn [map app]. rewrite Nat.sub_0_r.
    now destruct (confirm show k n id rest (s, st)) as [[? ?] ?].
  - inversion Hu as [|? ? Hu1 Hu2]; subst. destruct n as [|n]; [lia|].
    destruct (reread_unconfirming o t0 nr s st Hu1 Hh Hp) as (s1 & st1 & E & Hh1 & Hp1).
    destruct (IH n rest s1 st1 Hu2 Hh1 Hp1 ltac:(lia)) as (s' & st' & Hh' & Hp' & E').
    exists s', st'. split; [exact Hh'|]. split; [exact Hp'|].
    cbn [quiet_reads map app confirm fold_left]. rewrite E. cbn [fst]. rewrite (proj1 Hh1).
    fold (quiet_reads nrs). rewrite E'. cbn [Nat.sub].
    now destruct (confirm show k (n - List.length nrs) id rest (s', st')) as [[? ?] ?].
Qed.
End SetFacts.

(** ** Acknowledgement and URIs *)

Lemma error_not_ack msg : is_ack (VDict (error_dict msg)) = false.
Proof. reflexivity. Qed.

Lemma status_ok_not_ack n : is_ack (VDict [("status", VStr "OK"); ("func", VInt n)]) = false.
Proof. reflexivity. Qed.

Lemma parse_write_not_ack resp u : is_ack (VDict (parse_write_response resp u)) = false.
Proof.
  unfold parse_write_response. destruct resp as [|a [|b [|c [|d l]]]]; try reflexivity.
  destruct (negb (Z.land b 0x80 =? 0)); [reflexivity|]. destruct (negb (a =? u)); [reflexivity|].
  now destruct (_ && _).
Qed.

Lemma receive_write_not_ack stream u f d : receive_write stream u f = Ok d -> is_ack (VDict d) = false.
Proof.
  unfold receive_write. intros H. apply rbind_ok_inv in H as (x & _ & H). destruct x as [body rest].
  repeat (destruct (negb _) in H; [discriminate|]). now apply ok_inj in H as <-.
Qed.

Lemma tcp_write_not_ack {S} (peer : tcp_peer S) a v u s :
  is_ack (VDict (fst (write_modbus_single_register peer a v u s))) = false.
Proof.
  unfold write_modbus_single_register.
  assert (forall f s d s', send_write peer a v u f s = (Ok d, s') -> is_ack (VDict d) = false) as H.
  { intros f s0 d s'. unfold send_write. destruct (build_write_single_frame a v u f) as [frame|]; [|discriminate].
    destruct (peer frame s0) as [[stream|e] s1]; cbn; [|discriminate]. intros [= E _].
    now apply receive_write_not_ack in E. }
  destruct (send_write peer a v u 0x06 s) as [[d|e] s1] eqn:E1; [exact (H _ _ _ _ E1)|].
  destruct (send_write peer a v u 0x10 s1) as [[d|e2] s2] eqn:E2; [exact (H _ _ _ _ E2)|reflexivity].
Qed.

Lemma eybond_write_not_ack {S} (send : bytes -> S -> res bytes * S) u a v s d s' :
  eybond_write_register send u a v s = (Ok d, s') -> is_ack (VDict d) = false.
Proof.
  unfold eybond_write_register. assert (is_ack (VDict (error_dict "eybond-modbus write failed")) = false) as H by reflexivity.
  revert H. generalize (error_dict "eybond-modbus write failed") as last. generalize [0x06; 0x10] as codes.
  intros codes. revert s. induction codes as [|f codes IH]; intros s last Hl; cbn [eybond_write_loop].
  { intros [= <- _]. exact Hl. }
  unfold eybond_write_once. destruct (build_write_single_frame a v u f) as [frame|e]; [|discriminate].
  destruct (send frame s) as [[[|b l]|e] s1]; cbn [rbind]; [now apply IH| |discriminate].
  pose proof (parse_write_not_ack (b :: l) u) as Hp.
  destruct (dmem "error" _); [now apply IH|]. now intros [= <- _].
Qed.

(** A text with a slash is no integer. *)
Lemma int_digits_no_slash l : forall acc n, In "/"%char l -> int_digits acc n l = None.
Proof.
  induction l as [l IH] using (induction_ltof1 _ (@List.length ascii)). unfold ltof in IH. intros acc n H.
  destruct l as [|c l]; [easy|]. cbn [int_digits]. destruct (is_digit c) eqn:Ed.
  - apply IH; [cbn; lia|]. destruct H as [->|H]; [discriminate|exact H].
  - destruct (Ascii.eqb_spec c "_") as [->|]; [|reflexivity]. destruct H as [H|H]; [discriminate|].
    destruct l as [|d l]; [reflexivity|]. destruct (is_digit d) eqn:Ed'; [|reflexivity].
    apply IH; [cbn; lia|]. destruct H as [->|H]; [discriminate|exact H].
Qed.

Lemma In_dropwhile {A} (p : A -> bool) x l : p x = false -> In x l -> In x (dropwhile p l).
Proof.
  intros Hp. induction l as [|a l IH]; intros H; [exact H|]. cbn [dropwhile].
  destruct (p a) eqn:E; [|exact H]. destruct H as [->|H]; [congruence|now apply IH].
Qed.

Lemma py_int_slash s : In "/"%char (chars s) -> exists e, py_int s = Raise e.
Proof.
  intros H. unfold py_int.
  assert (In "/"%char (chars (strip s))) as Hs.
  { rewrite chars_strip. unfold rdropwhile. rewrite <- in_rev. apply In_dropwhile; [reflexivity|].
    rewrite <- in_rev. now apply In_dropwhile. }
  assert (forall l, In "/"%char l -> int_unsigned l = None) as Hu.
  { intros [|c l] Hl; [reflexivity|]. cbn [int_unsigned]. destruct (is_digit c) eqn:E; [|reflexivity].
    apply int_digits_no_slash. destruct Hl as [->|Hl]; [discriminate|exact Hl]. }
  unfold split_sign. destruct (chars (strip s)) as [|c l]; [easy|].
  destruct (Ascii.eqb_spec c "-") as [->|]; [|destruct (Ascii.eqb_spec c "+") as [->|]];
    rewrite Hu; eauto; destruct Hs as [Hs|Hs]; congruence || exact Hs.
Qed.

Lemma split_modbus_child x : split_once "modbus://" ("eybond-" ++ ("modbus://" ++ x))%string = Some ("eybond-", x).
Proof.
  pose (f c := option_map (fun ab : string * string => (String c (fst ab), snd ab))).
  change (f "e"%char (f "y"%char (f "b"%char (f "o"%char (f "n"%char (f "d"%char (f "-"%char (split_once "modbus://" ("modbus://" ++ x)%string)))))))
    = Some ("eybond-", x)).
  now rewrite split_once_prefix.
Qed.

Lemma split_char_some sep l : forall cur, split_char_aux sep cur l <> [].
Proof. induction l as [|c l IH]; intros cur; cbn [split_char_aux]; [discriminate|]. now destruct (Ascii.eqb c sep). Qed.

Lemma split_char_one sep x l : forall cur, split_char_aux sep cur l = [x] -> x = str (rev cur ++ l).
Proof.
  induction l as [|c l IH]; intros cur H; cbn [split_char_aux] in H.
  - now rewrite app_nil_r; injection H as <-.
  - destruct (Ascii.eqb c sep).
    + injection H as _ H. now apply split_char_some in H.
    + apply IH in H. cbn [rev] in H. now rewrite <- app_assoc in H.
Qed.

(** The URI of a Modbus child is not a gateway address. *)
Lemma child_not_gateway r host port bc ann : child_ok r host port bc ann -> protocol r = Some "modbus" ->
  exists e, parse_modbus_uri (build_child_uri r host port bc ann) = Raise e.
Proof.
  intros Hok Hp. unfold parse_modbus_uri, parse_host_port.
  assert (exists q, build_child_uri r host port bc ann
    = ("eybond-" ++ ("modbus://" ++ (host ++ ":" ++ (str_of_int port ++ "/" ++ q))))%string) as (q & ->).
  { rewrite child_uri_text. unfold uri_text, child_scheme. rewrite Hp.
    exists (str_of_int (devaddr r) ++ "?" ++ join "&" (map param_text (child_params r bc ann)))%string.
    apply chars_inj. repeat rewrite chars_app. rewrite <- !app_assoc. reflexivity. }
  rewrite split_modbus_child. unfold split_char. rewrite !chars_app.
  destruct (ok_host _ _ _ _ _ Hok) as (Hs & _).
  change (chars ":") with [":"%char]. cbn [app].
  rewrite split_char_aux_app.
  2: { eapply Forall_impl; [|exact (safe_without host ":" Hs ltac:(now left))]. intros a. now rewrite Ascii.eqb_sym. }
  set (l := chars (str_of_int port) ++ chars "/" ++ chars q).
  assert (In "/"%char l) as Hl by (apply in_or_app; right; now left).
  cbn [split_char_aux Ascii.eqb Bool.eqb]. destruct (split_char_aux ":" [] l) as [|x [|y t]] eqn:E; [eauto| |eauto].
  apply split_char_one in E. cbn [rev app] in E. subst x. destruct (py_int_slash (str l)) as [e ->]; [now rewrite chars_str|].
  now exists e.
Qed.

Lemma existsb_in o l : In o l -> existsb (String.eqb o) l = true.
Proof. intros H. apply existsb_exists. exists o. split; [exact H|apply String.eqb_refl]. Qed.

(** ** Acknowledgements of the other transports *)

Definition ascii_bytes (r : bytes) : Prop := Forall (fun b => 0 <= b < 128) r.

Lemma ascii_prefix p : forall r, ascii_bytes r -> String.prefix p (str (map chr r)) = bstartswith r (b_ p).
Proof.
  induction p as [|c p IH]; intros r Hr; [now destruct r|]. destruct Hr as [|b r Hb Hr]; [reflexivity|].
  cbn [map str string_of_list_ascii String.prefix b_ chars list_ascii_of_string bstartswith].
  destruct (ascii_dec c (chr b)) as [->|Hne].
  - rewrite ord_chr by (unfold byte_ok; lia). rewrite Z.eqb_refl. exact (IH r Hr).
  - destruct (Z.eqb_spec (ord c) b) as [<-|]; [|reflexivity]. now rewrite chr_ord in Hne.
Qed.

Lemma ascii_contains p r : ascii_bytes r -> p <> "" -> str_contains p (decode_ascii_ignore r) = bcontains (b_ p) r.
Proof.
  intros Hr Hp. unfold decode_ascii_ignore.
  assert (filter (fun b => b <? 128) r = r) as ->.
  { apply forallb_filter_id, forallb_forall. intros b Hb. unfold ascii_bytes in Hr. rewrite Forall_forall in Hr.
    apply Hr in Hb. lia. }
  induction Hr as [|b r Hb Hr IH]; [now destruct p|].
  pose proof (ascii_prefix p (b :: r) ltac:(now constructor)) as E.
  cbn [map str string_of_list_ascii] in E |- *. cbn [str_contains bcontains]. unfold startswith.
  rewrite E. destruct (bstartswith (b :: r) (b_ p)); [reflexivity|exact IH].
Qed.

Lemma raw_ack key t : String.eqb key "status" = false -> String.eqb key "error" = false ->
  is_ack (VDict [(key, VStr t)]) = str_contains "ACK" t && negb (str_contains "NAK" t).
Proof.
  intros H1 H2. unfold is_ack, vget, dmem. cbn [dget]. rewrite String.eqb_sym, H1. rewrite String.eqb_sym, H2.
  cbn. now rewrite orb_false_r.
Qed.

Lemma dongle_ack r : ascii_bytes r ->
  is_ack (VDict (classify_set_response (Some r))) = bcontains (b_ "ACK") r || bstartswith r (b_ "^1").
Proof.
  intros Hr. unfold classify_set_response.
  destruct (bcontains (b_ "ACK") r) eqn:Ea; [reflexivity|]. destruct (bstartswith r (b_ "^1")); [reflexivity|].
  cbn [orb]. destruct (_ || _); [reflexivity|]. destruct r as [|b r]; [reflexivity|].
  rewrite raw_ack by reflexivity. rewrite ascii_contains by (assumption || discriminate). now rewrite Ea.
Qed.

Lemma elfin_ack command bs data exn_str : encode_ascii (strip command) = Ok bs ->
  is_ack (VDict (send_voltronic_set_command command (Ok (Some data)) exn_str))
  = str_contains "ACK" (strip (decode_utf8_ignore data)).
Proof.
  intros H. unfold send_voltronic_set_command. rewrite H. cbn [rbind]. cbv zeta.
  destruct (str_contains "ACK" _) eqn:Ea; [reflexivity|]. destruct (str_contains "NAK" _); [reflexivity|].
  destruct (String.eqb _ ""); [reflexivity|]. rewrite raw_ack by reflexivity. now rewrite Ea.
Qed.

(** ** Properties *)

(** C17: setting an option while nothing else happens: it is written until the
    first acknowledgement, at most three times; reads that fail or still show
    the old value leave the choice displayed; the first read that shows the
    option ends the wait, publishes the section, and displays it as read. When
    none of four reads does, the choice stays displayed and held. *)
Theorem set_confirmed (show : pyval -> string) (k : select_kind) (id o : string) (t0 now : float)
    (s : select) (st : coord) (rejected : list pydict) (last d : pydict) (nrs : list (float * pyval))
    more_writes more_reads
    (Hopt : In o (select_options k)) (Hpoll : polls id st = true)
    (Hrej : Forall (fun d => is_ack (VDict d) = false) rejected)
    (Hlast : is_ack (VDict last) = true /\ (List.length rejected < 3)%nat
             \/ is_ack (VDict last) = false /\ List.length rejected = 2%nat)
    (Hnrs : Forall (unconfirming k o t0) nrs) :
  let run reads := select_option show k id t0 o (quiet_writes (rejected ++ [last]) ++ more_writes)
                     (quiet_reads nrs ++ reads) (s, st) in
  ((List.length nrs < 4)%nat -> good_result "QPIRI" d -> select_reading k [("qpiri", d)] = Ok (VStr o) ->
   exists s' st',
     run (([], now, VDict d) :: more_reads)
     = ((s', st'), S (List.length rejected), S (List.length nrs), Polled tt)
     /\ pending_option s' = None /\ current_option s' = VStr o
     /\ dget "qpiri" (select_data id (c_data st')) = Some d)
  /\ (List.length nrs = 4%nat ->
      exists s' st', run more_reads = ((s', st'), S (List.length rejected), 4%nat, Polled tt) /\ holding o t0 s').
Proof.
  cbv zeta. unfold select_option. rewrite (existsb_in o _ Hopt). unfold set_and_confirm.
  assert (is_ack (VDict last) = true /\ (List.length rejected < WRITE_ATTEMPTS)%nat
          \/ is_ack (VDict last) = false /\ S (List.length rejected) = WRITE_ATTEMPTS) as Hl
    by (unfold WRITE_ATTEMPTS; destruct Hlast as [[]|[]]; [left|right]; split; auto; lia).
  rewrite (writes_until show k id _ _ more_writes rejected last Hrej Hl).
  cbn [fst snd]. assert (holding o t0 (choose t0 o s)) as Hh by (repeat split).
  split.
  - intros Hn Hg Hv. unfold CONFIRM_ATTEMPTS.
    destruct (confirm_unconfirming show k id o t0 nrs 4 (([], now, VDict d) :: more_reads) _ st Hnrs Hh Hpoll)
      as (s1 & st1 & Hh1 & Hp1 & ->); [lia|].
    destruct (reread_confirming show k id o t0 now d s1 st1 Hg Hv Hh1 Hp1) as (s' & st' & E & H1 & H2 & H3).
    exists s', st'. destruct (4 - List.length nrs)%nat as [|m] eqn:Em; [lia|].
    cbn [confirm fold_left]. rewrite E. cbn [fst]. rewrite H1, Nat.add_1_r. auto.
  - intros Hn. unfold CONFIRM_ATTEMPTS.
    destruct (confirm_unconfirming show k id o t0 nrs 4 more_reads _ st Hnrs Hh Hpoll)
      as (s1 & st1 & Hh1 & Hp1 & ->); [lia|].
    exists s1, st1. rewrite Hn. cbn. auto.
Qed.

(** After the user picks [o], over any coordinator updates: the choice is
    displayed exactly until the first update that reads it back or comes more
    than 150 seconds later; from then on the entity follows the data. Data that
    cannot be read change nothing. *)
Theorem select_hold (show : pyval -> string) (k : select_kind) (o : string) (t0 : float) (s : select)
    (us : list (float * dict pydict)) :
  let s' := run_updates show k us (choose t0 o s) in
  pending_option s' = (if existsb (releases k o t0) us then None else Some o)
  /\ current_option s' = (if existsb (releases k o t0) us then last_reading k us VNone else VStr o).
Proof. exact (run_updates_hold show k o t0 us (choose t0 o s) eq_refl eq_refl eq_refl). Qed.

(** Which answers of a set command count as an acknowledgement. A dongle's
    counts exactly when it holds [ACK] or starts with [^1], an Elfin gateway's
    exactly when it holds [ACK]; the answer of a Modbus register write, over TCP
    or through a dongle, never counts, so every setting of a Modbus inverter is
    written three times although the first write succeeded. *)
Theorem modbus_write_repeated {S : Type} (peer : tcp_peer S) (send : bytes -> S -> res bytes * S)
    (show : pyval -> string) (k : select_kind) (id : string) (w : select * coord) (ds : list pydict) more
    (Hlen : List.length ds = 3%nat)
    (Hds : Forall (fun d => (exists a v u s, d = fst (write_modbus_single_register peer a v u s))
                            \/ (exists u a v s s', eybond_write_register send u a v s = (Ok d, s'))) ds) :
  (forall r, ascii_bytes r -> is_ack (VDict (classify_set_response (Some r)))
             = bcontains (b_ "ACK") r || bstartswith r (b_ "^1"))
  /\ (forall command bs data exn_str, encode_ascii (strip command) = Ok bs ->
      is_ack (VDict (send_voltronic_set_command command (Ok (Some data)) exn_str))
      = str_contains "ACK" (strip (decode_utf8_ignore data)))
  /\ write_until_ack show k WRITE_ATTEMPTS id (quiet_writes ds ++ more) w = (w, 3%nat, Polled false).
Proof.
  split; [exact dongle_ack|]. split; [exact elfin_ack|].
  assert (Forall (fun d => is_ack (VDict d) = false) ds) as H.
  { eapply Forall_impl; [|exact Hds]. intros d [(a & v & u & s & ->)|(u & a & v & s & s' & E)];
      [apply tcp_write_not_ack|now apply eybond_write_not_ack in E]. }
  destruct ds as [|d1 [|d2 [|d3 [|]]]]; try discriminate Hlen.
  inversion H as [|? ? H1 H']; subst. inversion H' as [|? ? H2 H'']; subst. inversion H'' as [|? ? H3 _]; subst.
  change [d1; d2; d3] with ([d1; d2] ++ [d3]). rewrite writes_until; [now rewrite H3|auto|right; auto].
Qed.

(** The exit-fault button of a Modbus child of a hub, which the platform
    creates, never writes anything, whatever the network: its address is the
    listener's, not a gateway's. *)
Theorem exit_fault_child_noop {S : Type} (peers : string -> Z -> tcp_peer S) (r : DongleRecord) (host : string)
    (port : Z) (bc : string) (ann : option string) (username bus_mode : string)
    (entry_protocol entry_device : option string) (s : S)
    (Hok : child_ok r host port bc ann) (Hp : protocol r = Some "modbus") :
  let uri := build_child_uri r host port bc ann in
  exit_fault_buttons entry_protocol entry_device [device_of username (Descriptor (child_target r host port bc ann))]
    = [(t_id (child_target r host port bc ann), uri)]
  /\ exit_fault_press peers uri bus_mode s = (None, s).
Proof.
  cbv zeta. split.
  - unfold exit_fault_buttons, device_of, child_target. cbn [flat_map i_protocol i_uri i_id t_id t_uri t_protocol].
    rewrite Hp. cbn [String.eqb Ascii.eqb Bool.eqb PROTOCOL_MODBUS].
    destruct (child_uri_scheme r host port bc ann) as [rest ->].
    unfold child_scheme. rewrite Hp. reflexivity.
  - unfold exit_fault_press. now destruct (child_not_gateway r host port bc ann Hok Hp) as [e ->].
Qed.

(** The code a setting writes is the code its option is read back from:
    for PI30, the digit of the [POP] or [PCP] command is decoded to the option;
    for SMG-II, so is the register value; a current is read back from the number
    in its command in either spelling. For PI18 they disagree: the code written
    for [Solar] is read back as [SBU]. *)
Theorem option_codes_read_back :
  (forall o raw, In o (select_options OutputPriority) -> exists m code,
     select_setting OutputPriority o raw = Some (SetOutputPriority m) /\ enum_value m = ("POP0" ++ code)%string
     /\ select_reading OutputPriority [("qpiri", [("output_source_priority", VStr (transform_qpiri_value 16 code))])] = Ok (VStr o)
     /\ exists t, OUTPUT_PRIORITY_MAP (VInt (priority_value m)) = Some t
        /\ select_reading OutputPriority [("qpiri", [("output_source_priority", VStr t)])] = Ok (VStr o))
  /\ (forall o raw, In o (select_options ChargeSource) -> exists m code,
     select_setting ChargeSource o raw = Some (SetChargePriority m) /\ enum_value m = ("PCP0" ++ code)%string
     /\ select_reading ChargeSource [("qpiri", [("charger_source_priority", VStr (transform_qpiri_value 17 code))])] = Ok (VStr o)
     /\ CHARGER_PRIORITY_MAP (VInt (charge_priority_value m)) = Some o)
  /\ (forall o raw, In o (select_options MaxUtilityCurrent) -> exists amps ff,
     select_setting MaxUtilityCurrent o raw = Some (SetUtilityCurrent amps ff)
     /\ select_reading MaxUtilityCurrent [("qpiri", [("max_utility_charging_current", VStr (sdrop 6 (utility_command amps ff)))])]
        = Ok (VStr o))
  /\ (forall o raw, In o (select_options MaxCurrent) -> exists amps,
     select_setting MaxCurrent o raw = Some (SetCombinedCurrent amps)
     /\ select_reading MaxCurrent [("qpiri", [("max_charging_current", VStr (sdrop 6 (combined_command amps)))])] = Ok (VStr o))
  /\ (exists m, select_setting OutputPriority "Solar" None = Some (SetOutputPriority m) /\ enum_value m = "POP01"
      /\ PI18_OUTPUT_PRIORITY 1 = Some "SBU").
Proof.
  repeat apply conj.
  - intros o raw H. cbn [select_options In] in H.
    repeat (destruct H as [<-|H]; [eexists _, _; repeat (split; [reflexivity|]); eexists; split; reflexivity|]). easy.
  - intros o raw H. cbn [select_options In] in H.
    repeat (destruct H as [<-|H]; [eexists _, _; repeat (split; [reflexivity|]); reflexivity|]). easy.
  - intros o raw H. unfold select_setting, utility_current_setting. generalize (match raw with Some t => str_contains "." t | None => false end).
    intros ff. cbn [select_options In] in H.
    repeat (destruct H as [<-|H]; [eexists _, ff; split; [reflexivity|destruct ff; vm_compute; reflexivity]|]). easy.
  - intros o raw H. cbn [select_options In] in H.
    repeat (destruct H as [<-|H]; [eexists; split; [reflexivity|vm_compute; reflexivity]|]). easy.
  - eexists. repeat split; reflexivity.
Qed.

(** ** Examples and witnesses *)

Definition demo_target : DeviceTarget :=
  {| t_id := "roof"; t_uri := "modbus://10.0.0.2:502"; t_protocol := "modbus"; t_name := "" |}.
Definition demo_select : select :=
  {| pending_option := None; pending_since := f0; current_option := VStr "UtilityFirst"; raw_readback := None |}.
Definition demo_sbu : pydict := [("output_source_priority", VStr "SBU")].
Definition no_text (v : pyval) : string := "".

Lemma set_confirmed_witness :
  exists s' st',
    select_option no_text OutputPriority "roof" f0 "SBU"
      (quiet_writes ([[("status", VStr "NAK")]] ++ [[("status", VStr "ACK")]]) ++ [])
      (quiet_reads [(flit 2 1, VNone)] ++ [([], flit 3 1, VDict demo_sbu)]) (demo_select, coord_init [demo_target])
    = ((s', st'), 2%nat, 2%nat, Polled tt)
    /\ pending_option s' = None /\ current_option s' = VStr "SBU"
    /\ dget "qpiri" (select_data "roof" (c_data st')) = Some demo_sbu.
Proof.
  refine (proj1 (set_confirmed no_text OutputPriority "roof" "SBU" f0 (flit 3 1) demo_select
    (coord_init [demo_target]) [[("status", VStr "NAK")]] [("status", VStr "ACK")] demo_sbu [(flit 2 1, VNone)]
    [] [] _ eq_refl _ _ _) _ _ eq_refl).
  - cbn. auto.
  - repeat constructor.
  - left. split; [reflexivity|cbn; lia].
  - repeat constructor.
  - cbn. lia.
  - split; [discriminate|]. split; [reflexivity|]. split; [reflexivity|discriminate].
Defined.

(** A gateway that echoes the request, as a Modbus slave confirms a write. *)
Definition echo_peer : tcp_peer unit := fun req s => (Ok req, s).
Definition silent : bytes -> unit -> res bytes * unit := fun _ s => (Ok [], s).

Example echo_confirms :
  fst (write_modbus_single_register echo_peer 301 2 UNIT_ID tt) = [("status", VStr "OK"); ("func", VInt 6)].
Proof. vm_compute. reflexivity. Qed.

Lemma modbus_write_repeated_witness :
  let d := fst (write_modbus_single_register echo_peer 301 2 UNIT_ID tt) in
  write_until_ack no_text OutputPriority WRITE_ATTEMPTS "roof" (quiet_writes [d; d; d] ++ [])
    (demo_select, coord_init [demo_target]) = ((demo_select, coord_init [demo_target]), 3%nat, Polled false).
Proof.
  refine (proj2 (proj2 (modbus_write_repeated echo_peer silent no_text OutputPriority "roof" _
    [fst (write_modbus_single_register echo_peer 301 2 UNIT_ID tt);
     fst (write_modbus_single_register echo_peer 301 2 UNIT_ID tt);
     fst (write_modbus_single_register echo_peer 301 2 UNIT_ID tt)] [] eq_refl _))).
  repeat (apply Forall_cons; [left; exists 301, 2, UNIT_ID, tt; reflexivity|]). apply Forall_nil.
Defined.

Definition demo_modbus_child : DongleRecord := Discovery.with_config (new_record "Q0011223344") "Roof" true (Some "modbus") 1.

Lemma exit_fault_child_noop_witness :
  exit_fault_press (fun _ _ => echo_peer)
    (build_child_uri demo_modbus_child "0.0.0.0" 8899 "192.168.1.255" None) "serialized" tt = (None, tt).
Proof.
  refine (proj2 (exit_fault_child_noop (fun _ _ => echo_peer) demo_modbus_child "0.0.0.0" 8899 "192.168.1.255" None
    "hub" "serialized" None None tt _ eq_refl)).
  constructor; cbn; try (split; [repeat constructor|discriminate]); try lia; auto.
  split; [repeat constructor|split; [discriminate|reflexivity]].
Defined.

Example control_ids_distinct : string_nodupb (control_ids "inv") = true.
Proof. reflexivity. Qed.

Example gateway_button : exit_fault_buttons None None [device_of "hub" (Descriptor demo_target)]
  = [("roof", "modbus://10.0.0.2:502")].
Proof. reflexivity. Qed.

Example numbers_restored :
  map (fun t => number_added DischargeFloorSoC t) [Some "20.0"; Some "unknown"; Some "abc"; None]
  = [Some (flit 20 1); Some (flit 15 1); Some (flit 15 1); Some (flit 15 1)].
Proof. vm_compute. reflexivity. Qed.

(** The entity starts from the raw spelling, which is not one of its options. *)
Example initial_option_unmapped :
  rmap current_option (select_init no_text OutputPriority [("qpiri", [("output_source_priority", VStr "SolarFirst")])])
  = Ok (VStr "SolarFirst")
  /\ select_reading OutputPriority [("qpiri", [("output_source_priority", VStr "SolarFirst")])] = Ok (VStr "Solar").
Proof. split; reflexivity. Qed.

(** An infinite current makes the update raise. *)
Example infinite_current_raises :
  select_reading MaxCurrent [("qpiri", [("max_charging_current", VStr "inf")])]
  = Raise (OverflowError "cannot convert float infinity to integer").
Proof. vm_compute. reflexivity. Qed.
