(* ===== verification/SettingEndToEnd.v ===== *)
(** From an option picked in the interface to the inverter and back: the select
    ([Controls]), the dispatcher and the adapters ([Adapters]), the transports
    ([Transports]) and the decoder of the configuration ([Voltronic]) composed,
    around an inverter of the serial protocol that carries the command out. *)

From Stdlib Require Import ZArith List Bool Lia String Ascii Floats.SpecFloat.
From S2P Require Import Prelude PyStr PyInt PyFloat FloatFacts FloatText PyDict Crc Enums Voltronic ModbusRtu ModbusAdapter Transports Coordinator Adapters EndToEnd Controls.
Import ListNotations.
#[local] Open Scope string_scope.
#[local] Open Scope list_scope.
#[local] Open Scope Z_scope.

(** ** The command and the inverter *)

(** The commands of the PI30 protocol the options stand for, letter for letter.
    A utility charging current is written with a point when the configuration
    shows it with one. *)
Definition output_commands : dict string := [("UtilityFirst", "POP00"); ("Solar", "POP01"); ("SBU", "POP02")].
Definition charge_commands : dict string := [("UtilityFirst", "PCP00"); ("SolarFirst", "PCP01"); ("SolarAndUtility", "PCP02")].
Definition utility_commands : dict string := [
  ("2", "MUCHGC002"); ("10", "MUCHGC010"); ("20", "MUCHGC020"); ("30", "MUCHGC030"); ("40", "MUCHGC040"); ("50", "MUCHGC050");
  ("60", "MUCHGC060"); ("70", "MUCHGC070"); ("80", "MUCHGC080"); ("90", "MUCHGC090"); ("100", "MUCHGC100"); ("110", "MUCHGC110");
  ("120", "MUCHGC120")].
Definition utility_point_commands : dict string := [
  ("2", "MUCHGC02.0"); ("10", "MUCHGC10.0"); ("20", "MUCHGC20.0"); ("30", "MUCHGC30.0"); ("40", "MUCHGC40.0"); ("50", "MUCHGC50.0");
  ("60", "MUCHGC60.0"); ("70", "MUCHGC70.0"); ("80", "MUCHGC80.0"); ("90", "MUCHGC90.0"); ("100", "MUCHGC100.0");
  ("110", "MUCHGC110.0"); ("120", "MUCHGC120.0")].
Definition combined_commands : dict string := [
  ("10", "MNCHGC010"); ("20", "MNCHGC020"); ("30", "MNCHGC030"); ("40", "MNCHGC040"); ("50", "MNCHGC050"); ("60", "MNCHGC060");
  ("70", "MNCHGC070"); ("80", "MNCHGC080")].

Definition pointed (raw : option string) : bool := match raw with Some t => str_contains "." t | None => false end.

Definition command_for (k : select_kind) (o : string) (raw : option string) : option string :=
  dget o match k with
         | OutputPriority => output_commands
         | ChargeSource => charge_commands
         | MaxUtilityCurrent => if pointed raw then utility_point_commands else utility_commands
         | MaxCurrent => combined_commands
         end.

(** The column of the configuration reply that shows the setting. *)
Definition setting_column (k : select_kind) : nat :=
  match k with OutputPriority => 16 | ChargeSource => 17 | MaxUtilityCurrent => 13 | MaxCurrent => 14 end.

(** How an inverter that carried the command out shows the option there: the
    protocol's code for it, or the current in decimal behind any zeros. *)
Definition shows_option (k : select_kind) (o token : string) : Prop :=
  match k with
  | OutputPriority => dget o [("UtilityFirst", "0"); ("Solar", "1"); ("SBU", "2")] = Some token
  | ChargeSource => dget o [("UtilityFirst", "0"); ("SolarFirst", "1"); ("SolarAndUtility", "2")] = Some token
  | _ => exists w, token = (zeros w ++ o)%string
  end.

(** The acknowledgement: the text, its checksum and the terminator. *)
Definition ack_stream : bytes := b_ "(ACK" ++ crc16_voltronic (b_ "(ACK") ++ [CR].

(** ** The transports

    What the network brings back for a command; a dongle is given the frame of
    the command itself. *)

Definition dongle_brings (net : network) (uri command : string) (reply : bytes) : Prop :=
  exists frame, build_pi30_frame command = Ok frame /\ n_dongle net uri frame = Ok (Some reply).

Definition stream_brings (net : network) (uri command : string) (reply : bytes) : Prop :=
  exists chunks : list bytes, n_conn net uri command = Ok chunks /\ List.concat chunks = reply.

Definition answers_query (net : network) (uri command : string) (reply : bytes) : Prop :=
  match get_adapter uri with KEyBond => dongle_brings net uri command reply | _ => stream_brings net uri command reply end.

Definition answers_set (net : network) (uri command : string) (reply : bytes) : Prop :=
  match get_adapter uri with
  | KEyBond => dongle_brings net uri command reply
  | _ => if startswith uri "tcp://" then n_set_conn net uri command = Ok (Some reply) else stream_brings net uri command reply
  end.

(** A device that speaks PI30: behind a gateway, on a serial port, or behind a
    dongle that is not told to speak PI18. *)
Definition speaks_pi30 (uri : string) : Prop :=
  (get_adapter uri = KVoltronic /\ (startswith uri "tcp://" = true -> is_ok (parse_tcp_uri uri) = true))
  \/ (get_adapter uri = KEyBond /\ eybond_is_pi18 uri = false).

(** ** Lemmas: the configuration reply *)

Lemma dongle_reply command tokens : Forall telemetry_token tokens -> tokens <> [] -> exists junk,
  eybond_decode false command (reply_stream tokens) = decode_command command (str (chars (join " " tokens) ++ junk)).
Proof.
  intros Ht Hne. destruct (stream_frame tokens Ht) as (_ & _ & Hb). unfold eybond_decode. rewrite Hb.
  set (crc := crc16_voltronic (b_ (reply_text tokens))).
  assert (decode_ascii_ignore (b_ (reply_text tokens) ++ crc)
          = str ("("%char :: chars (join " " tokens) ++ map chr (filter (fun z => z <? 128) crc))) as ->.
  { unfold decode_ascii_ignore. rewrite filter_app, map_app. f_equal.
    change ("("%char :: chars (join " " tokens) ++ map chr (filter (fun z => z <? 128) crc))
      with (chars (reply_text tokens) ++ map chr (filter (fun z => z <? 128) crc)). f_equal.
    rewrite (forallb_filter_id (fun z => z <? 128)).
    - unfold b_. now rewrite map_map, (map_ext _ (fun c => c) chr_ord), map_id.
    - apply forallb_forall. intros z Hz. unfold b_, reply_text in Hz. cbn [append chars list_ascii_of_string map In] in Hz.
      destruct Hz as [<-|Hz]; [reflexivity|]. pose proof (payload_bytes_ascii _ (join_payload tokens Ht)) as H.
      rewrite Forall_forall in H. apply Z.ltb_lt. now apply H. }
  destruct (decode_reply command tokens (map chr (filter (fun z => z <? 128) crc)) Ht Hne) as (junk & ->).
  - rewrite length_map. apply filter_length_le.
  - now exists junk.
Qed.

(** ** Lemmas: the commands of the selects *)

Definition command_ok (c : string) : bool :=
  is_ok (encode_ascii c) && is_ok (encode_ascii (strip c)) && is_ack (VDict (rcatch (decode_direct_response c "(ACK9") [])).

(** What each option asks for, with its command. *)
Inductive asked : select_kind -> string -> bool -> setting -> string -> Prop :=
| ask_output_utility b : asked OutputPriority "UtilityFirst" b (SetOutputPriority OutputSourcePrioritySetting_UTILITY_FIRST) "POP00"
| ask_output_sbu b : asked OutputPriority "SBU" b (SetOutputPriority OutputSourcePrioritySetting_SBU_PRIORITY) "POP02"
| ask_output_solar b : asked OutputPriority "Solar" b (SetOutputPriority OutputSourcePrioritySetting_SOLAR_FIRST) "POP01"
| ask_charge_utility b : asked ChargeSource "UtilityFirst" b (SetChargePriority ChargeSourcePrioritySetting_UTILITY_FIRST) "PCP00"
| ask_charge_solar b : asked ChargeSource "SolarFirst" b (SetChargePriority ChargeSourcePrioritySetting_SOLAR_FIRST) "PCP01"
| ask_charge_both b : asked ChargeSource "SolarAndUtility" b (SetChargePriority ChargeSourcePrioritySetting_SOLAR_AND_UTILITY) "PCP02"
| ask_utility b o n c : 0 <= n <= 120 -> o = str_of_int n -> utility_command n b = c -> command_ok c = true ->
    asked MaxUtilityCurrent o b (SetUtilityCurrent n b) c
| ask_combined b o n c : 0 <= n <= 120 -> o = str_of_int n -> combined_command n = c -> command_ok c = true ->
    asked MaxCurrent o b (SetCombinedCurrent n) c.

Lemma option_asks k o raw : In o (select_options k) ->
  exists x c, select_setting k o raw = Some x /\ command_for k o raw = Some c /\ asked k o (pointed raw) x c.
Proof.
  intros Ho. destruct k; cbn [select_options In] in Ho.
  1-2: repeat (destruct Ho as [<-|Ho]; [eexists _, _; split; [reflexivity|]; split; [reflexivity|constructor]|]); destruct Ho.
  - unfold select_setting, utility_current_setting, command_for. fold (pointed raw). destruct (pointed raw);
      repeat (destruct Ho as [<-|Ho];
        [eexists _, _; split; [vm_compute; reflexivity|]; split; [vm_compute; reflexivity|]; econstructor; [|vm_compute; reflexivity..]; lia|]); destruct Ho.
  - repeat (destruct Ho as [<-|Ho];
      [eexists _, _; split; [vm_compute; reflexivity|]; split; [vm_compute; reflexivity|]; econstructor; [|vm_compute; reflexivity..]; lia|]); destruct Ho.
Qed.

Lemma commands_ok k o b x c : asked k o b x c -> command_ok c = true.
Proof. destruct 1; first [assumption|vm_compute; reflexivity]. Qed.

(** The option as it is read back from what the inverter shows. *)
Definition reads_back (k : select_kind) (o : string) : Prop :=
  forall token d, shows_option k o token ->
  dget (nth (setting_column k) QPIRI_FIELDS "") d = Some (VStr (transform_qpiri_value (setting_column k) token)) ->
  select_reading k [("qpiri", d)] = Ok (VStr o).

Definition amps_ok (n : Z) : bool := match int_of_float (flit n 1) with Ok k => k =? n | Raise _ => false end.
Lemma amps_ok_small : forall n, 0 <= n < 121 -> amps_ok n = true.
Proof. by_range 121. Qed.

(** A current in decimal, behind any zeros, is its option. *)
Lemma amps_read_back w n : 0 <= n <= 120 -> normalize_amps (VStr (zeros w ++ str_of_int n)) = Ok (VStr (str_of_int n)).
Proof.
  intros Hn. assert ((zeros w ++ str_of_int n)%string = fmt_0d (w + String.length (str_of_int n)) n) as ->.
  { unfold fmt_0d, str_of_int. replace (n <? 0) with false by lia. rewrite Z.abs_eq by lia. cbn [append].
    set (L := String.length (digit_string (digits n))). now replace (w + L - String.length "" - L)%nat with w by (cbn [String.length]; lia). }
  unfold normalize_amps. cbn [float_of_val]. rewrite py_float_fmt_0d by lia. cbn [rbind].
  pose proof (amps_ok_small n ltac:(lia)) as H. unfold amps_ok in H.
  destruct (int_of_float (flit n 1)) as [k|]; [|discriminate]. apply Z.eqb_eq in H. now subst.
Qed.

Lemma asked_reads_back k o b x c : asked k o b x c -> reads_back k o.
Proof.
  intros Ha token d Hs Hd. cbn [setting_column nth QPIRI_FIELDS] in Hd.
  destruct Ha; cbn [shows_option] in Hs.
  1-6: cbn [dget String.eqb Ascii.eqb Bool.eqb] in Hs; injection Hs as <-;
    unfold select_reading, charge_source_reading, resolve_output_priority, resolve_chrage_source_priority, qpiri_value, vget;
    cbn [dget String.eqb Ascii.eqb Bool.eqb]; cbn [setting_column nth QPIRI_FIELDS] in Hd; rewrite Hd; vm_compute; reflexivity.
  all: destruct Hs as (w & ->); subst o;
    unfold select_reading, max_current_reading, resolve_max_utility_charging_current, resolve_max_charging_current, qpiri_value, vget;
    cbn [dget String.eqb Ascii.eqb Bool.eqb]; cbn [setting_column nth QPIRI_FIELDS] in Hd; rewrite Hd; now apply amps_read_back.
Qed.

(** ** Lemmas: the world *)

Section World.
Context {S : Type} `{RegisterTransport S} (net : network) (now : float).

(** Over PI30 every setting of a select is its command. *)
Lemma setting_command uri k o b x c (w : snapshot_cache * S) : speaks_pi30 uri -> asked k o b x c ->
  apply_setting (adapter_for net now uri false) x w = a_set_data (adapter_for net now uri false) c w.
Proof.
  intros Hu Ha. unfold adapter_for.
  destruct Hu as [[-> _]|[-> _]]; destruct Ha as [| | | | | |b o n c _ _ E _|b o n c _ _ E _]; try reflexivity; rewrite <- E; reflexivity.
Qed.

Lemma acknowledged uri c (w : snapshot_cache * S) : speaks_pi30 uri -> command_ok c = true ->
  answers_set net uri c ack_stream ->
  exists ack, fst (a_set_data (adapter_for net now uri false) c w) = Ok ack /\ is_ack (VDict ack) = true.
Proof.
  intros Hu Hc Ha. unfold command_ok in Hc. apply andb_prop in Hc as [Hc Hraw]. apply andb_prop in Hc as [Hc Hstrip].
  unfold answers_set in Ha. unfold adapter_for. destruct Hu as [[E Hp]|[E Hp]]; rewrite E in *.
  - cbn [a_set_data voltronic_adapter base_adapter fst ret]. unfold voltronic_set_data.
    destruct (startswith uri "tcp://") eqn:Et.
    + specialize (Hp eq_refl). destruct (parse_tcp_uri uri); [|discriminate]. cbn [rbind]. rewrite Ha.
      unfold send_voltronic_set_command. destruct (encode_ascii (strip c)); [|discriminate]. cbn [rbind].
      eexists. split; [reflexivity|]. vm_compute. reflexivity.
    + destruct Ha as (chunks & -> & Hs). eexists. split; [reflexivity|].
      rewrite (voltronic_answer uri c false chunks "(ACK9"); [exact Hraw| |exact Hc| |rewrite Hs; vm_compute; reflexivity|discriminate].
      * now rewrite Et.
      * rewrite Hs. vm_compute. reflexivity.
  - destruct Ha as (frame & Hf & Hd). cbn [a_set_data eybond_adapter base_adapter fst ret].
    unfold send_eybond_set_command, send_eybond_voltronic, eybond_protocol. unfold eybond_is_pi18 in *. rewrite Hp. cbn [orb].
    rewrite Hf. cbn [rbind]. rewrite Hd. eexists. split; [reflexivity|]. vm_compute. reflexivity.
Qed.

(** The configuration read back. *)
Lemma configuration uri strict tokens (w : snapshot_cache * S) : speaks_pi30 uri ->
  Forall telemetry_token tokens -> tokens <> [] -> answers_query net uri "QPIRI" (reply_stream tokens) ->
  exists junk, fst (get_direct_data net now uri "QPIRI" strict w)
               = Ok (strdict (decode_qpiri (str (chars (join " " tokens) ++ junk)))).
Proof.
  intros Hu Ht Hne Ha. unfold answers_query in Ha. unfold get_direct_data, adapter_for. change (upper "QPIRI") with "QPIRI".
  destruct Hu as [[E Hp]|[E Hp]]; rewrite E in *.
  - destruct Ha as (chunks & Hch & Hs). cbn [a_get_data voltronic_adapter base_adapter fst ret]. rewrite Hch.
    destruct (decoded_stream "QPIRI" tokens uri strict chunks eq_refl Ht Hne Hp Hs) as (junk & ->). now exists junk.
  - destruct Ha as (frame & Hf & Hd). cbn [a_get_data eybond_adapter base_adapter fst ret].
    unfold eybond_get_data, send_eybond_voltronic, eybond_protocol. unfold eybond_is_pi18 in *. rewrite Hp. cbn [orb].
    rewrite Hf. cbn [rbind]. rewrite Hd. destruct (dongle_reply "QPIRI" tokens Ht Hne) as (junk & Hj). exists junk.
    unfold rmap. cbn [rbind]. destruct (reply_stream tokens) as [|b l] eqn:Er; [|now rewrite Hj].
    unfold reply_stream, reply_text in Er. now destruct (join " " tokens).
Qed.
End World.

Lemma qpiri_keys s k v : dget k (strdict (decode_qpiri s)) = Some v -> In k QPIRI_FIELDS.
Proof.
  rewrite dget_strdict. destruct (dget k (decode_qpiri s)) eqn:E; [|discriminate]. intros _. apply dget_some_in in E.
  unfold decode_qpiri, zip in E. exact (in_combine_l _ _ _ _ E).
Qed.

Lemma configuration_good s key v : dget key (strdict (decode_qpiri s)) = Some v -> good_result "QPIRI" (strdict (decode_qpiri s)).
Proof.
  intros Hk. split; [intros E; rewrite E in Hk; discriminate|].
  assert (forall k, ~ In k QPIRI_FIELDS -> dget k (strdict (decode_qpiri s)) = None) as Hno.
  { intros k Hn. destruct (dget k (strdict (decode_qpiri s))) as [u|] eqn:E; [|reflexivity]. now apply qpiri_keys in E. }
  split; [unfold dmem; now rewrite Hno by (vm_compute; intuition discriminate)|].
  split; [unfold status_nak; now rewrite Hno by (vm_compute; intuition discriminate)|discriminate].
Qed.

(** ** Property *)

(** C6: from an option to a PI30 inverter and back: whichever option of the four
    setting selects is picked, for an inverter that speaks PI30 behind a gateway,
    on a serial port or behind a dongle (a PI18 or Modbus one answers otherwise),
    the dispatcher hands the transport the PI30 command of that option letter for
    letter; when the inverter acknowledges it and its next configuration reply
    shows the option, one write and one read are made, the select stops waiting
    and shows the option, and the configuration read is published. *)
Theorem setting_end_to_end {S} `{RegisterTransport S} (before after : network) (now t0 t1 : float) (show : pyval -> string)
    (uri id o : string) (strict : bool) (k : select_kind) (c : string) (s : select) (st : coord)
    (tokens : list string) (token : string) (w : snapshot_cache * S)
    (Hu : speaks_pi30 uri) (Ho : In o (select_options k)) (Hc : command_for k o (raw_readback s) = Some c)
    (Hp : polls id st = true) (Hack : answers_set before uri c ack_stream)
    (Ht : Forall telemetry_token tokens) (Htok : nth_error tokens (setting_column k) = Some token)
    (Hlen : (Datatypes.S (setting_column k) < List.length tokens)%nat) (Hshow : shows_option k o token)
    (Hread : answers_query after uri "QPIRI" (reply_stream tokens)) :
  exists x, select_setting k o (raw_readback s) = Some x
  /\ apply_setting (adapter_for before now uri false) x w = a_set_data (adapter_for before now uri false) c w
  /\ exists ack d s' st', fst (apply_setting (adapter_for before now uri false) x w) = Ok ack
  /\ fst (get_direct_data after now uri "QPIRI" strict w) = Ok d
  /\ select_option show k id t0 o [([], Ok (VDict ack))] [([], t1, VDict d)] (s, st) = ((s', st'), 1%nat, 1%nat, Polled tt)
  /\ pending_option s' = None /\ current_option s' = VStr o
  /\ dget "qpiri" (select_data id (c_data st')) = Some d.
Proof.
  destruct (option_asks k o (raw_readback s) Ho) as (x & c' & Hx & Hc' & Ha).
  assert (c' = c) as -> by congruence. exists x. split; [exact Hx|].
  pose proof (setting_command before now uri k o _ x c w Hu Ha) as Hcmd. split; [exact Hcmd|].
  destruct (acknowledged before now uri c w Hu (commands_ok _ _ _ _ _ Ha) Hack) as (ack & Eack & Hok).
  assert (tokens <> []) as Hne by (intros ->; cbn in Hlen; lia).
  destruct (configuration after now uri strict tokens w Hu Ht Hne Hread) as (junk & Ed).
  set (text := str (chars (join " " tokens) ++ junk)) in *.
  assert (dget (nth (setting_column k) QPIRI_FIELDS "") (strdict (decode_qpiri text))
          = Some (VStr (transform_qpiri_value (setting_column k) token))) as Hd.
  { rewrite dget_strdict, (proj1 (decode_qpiri_fields text (setting_column k) (nth (setting_column k) QPIRI_FIELDS "") ltac:(now destruct k))).
    unfold text. now rewrite (split_ws_join tokens junk (setting_column k) token Ht Hlen Htok). }
  assert (holding o t0 (choose t0 o s)) as Hh by (repeat split).
  destruct (reread_confirming show k id o t0 t1 (strdict (decode_qpiri text)) (choose t0 o s) st (configuration_good _ _ _ Hd)
    (asked_reads_back _ _ _ _ _ Ha token _ Hshow Hd) Hh Hp) as (s' & st' & E & H1 & H2 & H3).
  exists ack, (strdict (decode_qpiri text)), s', st'. split; [now rewrite Hcmd|]. split; [exact Ed|].
  split; [|now split]. unfold select_option. rewrite (existsb_in o _ Ho). unfold set_and_confirm, WRITE_ATTEMPTS, CONFIRM_ATTEMPTS.
  cbn [write_until_ack fold_left fst snd]. rewrite Hok. cbn [confirm fold_left]. rewrite E. cbn [fst]. now rewrite H1.
Qed.

(** ** Witness *)

(** An inverter behind a dongle: it acknowledges the change to [SBU], then shows it. *)
Definition sbu_tokens : list string :=
  ["230.0"; "21.7"; "230.0"; "50.0"; "21.7"; "5000"; "5000"; "48.0"; "46.0"; "42.0"; "56.4"; "54.0"; "2"; "10"; "060"; "1"; "2"; "1";
   "6"; "01"; "0"; "0"; "54.0"; "0"; "1"; "480"; "0"; "000"].
Definition dongle_network (command : string) (reply : bytes) : network := {|
  n_conn _ _ := Raise TimeoutError; n_set_conn _ _ := Raise TimeoutError; n_exn_str _ := "";
  n_http_get := n_http_get offline; n_http_post := n_http_post offline;
  n_dongle _ frame := match build_pi30_frame command with
                      | Ok f => if zlist_eqb frame f then Ok (Some reply) else Ok None
                      | Raise e => Raise e
                      end |}.
Definition dongle_uri : string := "eybond://0.0.0.0:8899/?pn=Q0011223344&devaddr=1".

Lemma sbu_tokens_ok : Forall telemetry_token sbu_tokens.
Proof. repeat (apply Forall_cons; [split; [discriminate|repeat constructor]|]). constructor. Qed.

Lemma setting_end_to_end_witness :
  exists ack d s' st',
  fst (apply_setting (adapter_for (H := demo_transport) (dongle_network "POP02" ack_stream) f0 dongle_uri false)
         (SetOutputPriority OutputSourcePrioritySetting_SBU_PRIORITY) ([], tt)) = Ok ack
  /\ fst (get_direct_data (H := demo_transport) (dongle_network "QPIRI" (reply_stream sbu_tokens)) f0 dongle_uri "QPIRI" false ([], tt)) = Ok d
  /\ select_option no_text OutputPriority "roof" f0 "SBU" [([], Ok (VDict ack))] [([], f0, VDict d)] (demo_select, coord_init [demo_target])
     = ((s', st'), 1%nat, 1%nat, Polled tt)
  /\ current_option s' = VStr "SBU".
Proof.
  destruct (setting_end_to_end (H := demo_transport) (dongle_network "POP02" ack_stream) (dongle_network "QPIRI" (reply_stream sbu_tokens))
    f0 f0 f0 no_text dongle_uri "roof" "SBU" false OutputPriority "POP02"
    demo_select (coord_init [demo_target]) sbu_tokens "2" ([], tt)) as (x & Hx & _ & ack & d & s' & st' & H1 & H2 & H3 & _ & H4 & _).
  - right. split; reflexivity.
  - cbn. auto.
  - reflexivity.
  - reflexivity.
  - change (dongle_brings (dongle_network "POP02" ack_stream) dongle_uri "POP02" ack_stream).
    eexists. split; vm_compute; reflexivity.
  - exact sbu_tokens_ok.
  - reflexivity.
  - cbn. lia.
  - reflexivity.
  - change (dongle_brings (dongle_network "QPIRI" (reply_stream sbu_tokens)) dongle_uri "QPIRI" (reply_stream sbu_tokens)).
    eexists. split; vm_compute; reflexivity.
  - injection Hx as <-. exists ack, d, s', st'. now repeat split.
Defined.
