(* ===== verification/ControlEntities.v ===== *)
(** The control entities the platforms create for an inverter: what each declares
    ([number.py], [select.py], [switch.py], [button.py]), and how the state of
    charge finds the ones it follows: by entity ids it builds from the name of
    the inverter. The ids the entities really have are Home Assistant's to give: they
    are a parameter, with the rule they are given by as a hypothesis. *)

From Stdlib Require Import ZArith List Bool Lia String Ascii Floats.SpecFloat Permutation.
From S2P Require Import Prelude PyStr PyInt PyFloat PyDict Uri Entities SocSensor Controls.
Import ListNotations.
#[local] Open Scope string_scope.
#[local] Open Scope list_scope.
#[local] Open Scope Z_scope.

(** ** Entities *)

(** The platform an entity belongs to, and what it declares. *)
Record control_entity := {
  ce_platform : string;
  ce_unique_id : string;
  ce_name : string;
  ce_category : option EntityCategory.t;
  ce_icon : option string;
  ce_device : DeviceInfo
}.

(** *** Numbers *)

(** A class of numbers: its kind gives the suffix of the unique id, the default
    value and the range. *)
Record number_class := { nc_kind : number_kind; nc_name_suffix : string; nc_unit : string; nc_icon : string }.

Definition BatteryCapacityNumber : number_class :=
  {| nc_kind := BatteryCapacity; nc_name_suffix := "vSoC Battery Capacity (Ah)"; nc_unit := "Ah"; nc_icon := "mdi:battery" |}.

Definition FullChargeSyncVoltageNumber : number_class :=
  {| nc_kind := FullChargeSyncVoltage; nc_name_suffix := "vSoC Full Charge Sync Voltage"; nc_unit := "V";
     nc_icon := "mdi:battery-charging-100" |}.

Definition DischargeFloorSoCNumber : number_class :=
  {| nc_kind := DischargeFloorSoC; nc_name_suffix := "vSoC Discharge Floor"; nc_unit := "%"; nc_icon := "mdi:battery-low" |}.

Definition FloatVoltageWindowNumber : number_class :=
  {| nc_kind := FloatVoltageWindow; nc_name_suffix := "vSoC Float Voltage Window"; nc_unit := "V"; nc_icon := "mdi:sine-wave" |}.

Definition FloatNoiseFloorNumber : number_class :=
  {| nc_kind := FloatNoiseFloor; nc_name_suffix := "vSoC Float Noise Floor"; nc_unit := "A"; nc_icon := "mdi:current-dc" |}.

(** [_VSocConfigNumber.__init__] *)
Definition number_entity (c : number_class) (d : InverterDevice) : control_entity := {|
  ce_platform := "number"; ce_unique_id := (i_id d ++ "_" ++ id_suffix (nc_kind c))%string;
  ce_name := (i_name d ++ " " ++ nc_name_suffix c)%string;
  ce_category := Some EntityCategory.CONFIG; ce_icon := Some (nc_icon c); ce_device := device_info d |}.

Definition number_entities (d : InverterDevice) : list control_entity :=
  map (fun c => number_entity c d)
    [BatteryCapacityNumber; FullChargeSyncVoltageNumber; DischargeFloorSoCNumber; FloatVoltageWindowNumber; FloatNoiseFloorNumber].

(** *** Selects *)

Definition battery_mode_entity (d : InverterDevice) : control_entity := {|
  ce_platform := "select"; ce_unique_id := (i_id d ++ "_battery_mode")%string;
  ce_name := (i_name d ++ " vSoC Battery Mode")%string;
  ce_category := Some EntityCategory.CONFIG; ce_icon := Some "mdi:battery-sync"; ce_device := device_info d |}.

(** A class of selects: its kind gives the options and the reading. *)
Record select_class := { sc_kind : select_kind; sc_suffix : string; sc_name : string }.

Definition InverterOutputPrioritySelect : select_class :=
  {| sc_kind := OutputPriority; sc_suffix := "output_priority"; sc_name := "Output Priority" |}.

Definition InverterChargeSourcePrioritySelect : select_class :=
  {| sc_kind := ChargeSource; sc_suffix := "charge_source_priority"; sc_name := "Charge Source Priority" |}.

Definition InverterMaxUtilityChargingCurrentNumber : select_class :=
  {| sc_kind := MaxUtilityCurrent; sc_suffix := "max_utility_charging_current"; sc_name := "Max Utility Charging Current" |}.

Definition InverterMaxChargingCurrentSelect : select_class :=
  {| sc_kind := MaxCurrent; sc_suffix := "max_charging_current"; sc_name := "Max Charging Current" |}.

Definition select_entity (c : select_class) (d : InverterDevice) : control_entity := {|
  ce_platform := "select"; ce_unique_id := (i_id d ++ "_" ++ sc_suffix c)%string;
  ce_name := (i_name d ++ " " ++ sc_name c)%string;
  ce_category := None; ce_icon := None; ce_device := device_info d |}.

Definition select_entities (d : InverterDevice) : list control_entity :=
  map (fun c => select_entity c d)
    [InverterOutputPrioritySelect; InverterChargeSourcePrioritySelect; InverterMaxUtilityChargingCurrentNumber;
     InverterMaxChargingCurrentSelect]
  ++ [battery_mode_entity d].

(** *** The switch and the button *)

Definition deadband_entity (d : InverterDevice) : control_entity := {|
  ce_platform := "switch"; ce_unique_id := (i_id d ++ "_float_deadband")%string;
  ce_name := (i_name d ++ " vSoC Float Deadband")%string;
  ce_category := Some EntityCategory.CONFIG; ce_icon := Some "mdi:sine-wave"; ce_device := device_info d |}.

(** [SMG2ExitFaultButton] *)
Definition exit_fault_entity (d : InverterDevice) : control_entity := {|
  ce_platform := "button"; ce_unique_id := (i_id d ++ "_exit_fault_state")%string;
  ce_name := (i_name d ++ " Exit Fault State")%string;
  ce_category := None; ce_icon := Some "mdi:restart-alert"; ce_device := device_info d |}.

(** *** The platforms *)

Definition setup_numbers (items : list InverterDevice) : list control_entity := flat_map number_entities items.
Definition setup_selects (items : list InverterDevice) : list control_entity := flat_map select_entities items.
Definition setup_switches (items : list InverterDevice) : list control_entity := map deadband_entity items.

(** Every control of the inverters of an entry, without the buttons. *)
Definition setup_controls (items : list InverterDevice) : list control_entity :=
  setup_numbers items ++ setup_selects items ++ setup_switches items.

(** ** Slugs and entity ids

    [slugify] is Home Assistant's; the id it suggests for an entity is made of the
    platform and the slug of the entity's name. *)
Definition suggested_id (slugify : string -> string) (e : control_entity) : string :=
  (ce_platform e ++ "." ++ slugify (ce_name e))%string.

(** The ids [eid] the entities [es], registered for the first time and in this order, are
    given, when those of [taken] are not free: an entity whose suggested id is free gets
    it, and no two have the same. Nothing is said of the id given when the suggestion is
    not free. *)
Class EntityIds (slugify : string -> string) (taken : list string) (es : list control_entity) (eid : control_entity -> string) : Prop := {
  eid_free pre e post : es = pre ++ e :: post -> ~ In (suggested_id slugify e) (taken ++ map eid pre) ->
    eid e = suggested_id slugify e;
  eid_distinct : NoDup (map eid es)
}.

Definition is_alnum (c : ascii) : bool := is_alpha c || is_digit c.

(** The runs of letters and digits. *)
Fixpoint alnum_words (cur l : list ascii) : list string :=
  let flush := match cur with [] => [] | _ => [str (rev cur)] end in
  match l with
  | [] => flush
  | c :: l => if is_alnum c then alnum_words (c :: cur) l else flush ++ alnum_words [] l
  end.

Definition slug_words (t : string) : list string := alnum_words [] (chars (lower t)).

(** The slug of an ASCII text: its words in lower case, joined by underscores. *)
Definition ascii_slug (t : string) : string := join "_" (slug_words t).

Definition is_ascii (t : string) : bool := forallb (fun c => ord c <? 128) (chars t).

(** What the integration relies on. [unknown] is the slug of a text without letters
    or digits. *)
Class SlugLaws (slugify : string -> string) : Prop := {
  slug_ascii t : is_ascii t = true -> ascii_slug t <> "" -> slugify t = ascii_slug t;
  slug_space a b : slugify a <> "" -> slugify a <> "unknown" -> slugify b <> "" -> slugify b <> "unknown" ->
    slugify (a ++ " " ++ b)%string = (slugify a ++ "_" ++ slugify b)%string
}.

(** ** Lemmas *)

Lemma alnum_words_space cur l : forall m,
  alnum_words cur (l ++ " "%char :: m) = alnum_words cur l ++ alnum_words [] m.
Proof.
  revert cur. induction l as [|c l IH]; intros cur m; [reflexivity|]. cbn [app alnum_words].
  destruct (is_alnum c); [apply IH|]. now rewrite IH, app_assoc.
Qed.

Lemma slug_words_space a b : slug_words (a ++ " " ++ b)%string = slug_words a ++ slug_words b.
Proof.
  unfold slug_words, lower. rewrite !chars_on_chars, !chars_app, !map_app. exact (alnum_words_space [] _ _).
Qed.

Lemma join_app sep u v : u <> [] -> v <> [] -> join sep (u ++ v) = (join sep u ++ sep ++ join sep v)%string.
Proof.
  unfold join. intros Hu Hv. induction u as [|x u IH]; [congruence|]. destruct u as [|y u].
  - cbn [app]. destruct v; [congruence|]. reflexivity.
  - cbn [app String.concat] in *. rewrite IH by discriminate.
    apply chars_inj. now rewrite !chars_app, <- !app_assoc.
Qed.

(** The reference slug has the laws. *)
#[export] Instance ascii_slug_laws : SlugLaws ascii_slug.
Proof.
  split; [reflexivity|]. intros a b Ha _ Hb _. unfold ascii_slug in *. rewrite slug_words_space.
  apply join_app; intros E; [apply Ha|apply Hb]; now rewrite E.
Qed.

(** *** The suggested ids *)

Definition number_tails : list string :=
  ["vsoc_battery_capacity_ah"; "vsoc_full_charge_sync_voltage"; "vsoc_discharge_floor"; "vsoc_float_voltage_window"; "vsoc_float_noise_floor"].
Definition select_tails : list string :=
  ["output_priority"; "charge_source_priority"; "max_utility_charging_current"; "max_charging_current"; "vsoc_battery_mode"].
Definition switch_tails : list string := ["vsoc_float_deadband"].

(** Platform, slug of the inverter's name and slug of the rest. *)
Definition id_text (k : string * string * string) : string :=
  let '(pl, slug, tail) := k in (pl ++ "." ++ slug ++ "_" ++ tail)%string.

Definition id_keys (pl : string) (tails slugs : list string) : list (string * string * string) :=
  flat_map (fun slug => map (fun t => (pl, slug, t)) tails) slugs.

Definition control_keys (slugs : list string) : list (string * string * string) :=
  id_keys "number" number_tails slugs ++ id_keys "select" select_tails slugs ++ id_keys "switch" switch_tails slugs.

Lemma id_keys_in pl tails slugs k : In k (id_keys pl tails slugs) <-> exists slug t, In slug slugs /\ In t tails /\ k = (pl, slug, t).
Proof.
  unfold id_keys. rewrite in_flat_map. split.
  - intros (slug & Hs & Hk). apply in_map_iff in Hk as (t & <- & Ht). now exists slug, t.
  - intros (slug & t & Hs & Ht & ->). exists slug. split; [exact Hs|]. apply in_map_iff. now exists t.
Qed.

Lemma id_keys_nodup pl tails slugs : NoDup tails -> NoDup slugs -> NoDup (id_keys pl tails slugs).
Proof.
  intros Ht Hs. induction Hs as [|slug slugs Hn _ IH]; [constructor|]. cbn [id_keys flat_map]. apply NoDup_app; [|exact IH|].
  - apply NoDup_map_NoDup_ForallPairs; [|exact Ht]. intros x y _ _ [= E]. exact E.
  - intros k Hk Hk'. apply in_map_iff in Hk as (t & <- & _). apply id_keys_in in Hk' as (s' & t' & Hs' & _ & [= <- _]). contradiction.
Qed.

Lemma control_keys_nodup slugs : NoDup slugs -> NoDup (control_keys slugs).
Proof.
  intros Hs.
  assert (forall pl pl' ts ts' k, pl <> pl' -> In k (id_keys pl ts slugs) -> ~ In k (id_keys pl' ts' slugs)) as Hd.
  { intros pl pl' ts ts' k Hne H1 H2. apply id_keys_in in H1 as (? & ? & _ & _ & ->). apply id_keys_in in H2 as (? & ? & _ & _ & [= E]). now apply Hne. }
  unfold control_keys. apply NoDup_app; [apply id_keys_nodup; [|exact Hs]|apply NoDup_app; [apply id_keys_nodup; [|exact Hs]..|]|].
  1-3: repeat (constructor; [cbn; intuition discriminate|]); constructor.
  - intros k. now apply Hd.
  - intros k H1. rewrite in_app_iff. intros [H2|H2]; revert H2; now apply (Hd "number" _ number_tails _ k).
Qed.

(** No tail ends another: the text of an id gives back what it is made of. *)
Definition tails_apart (u v : string) : bool :=
  String.eqb u v || negb (startswith (str (rev (chars ("_" ++ u)))) (str (rev (chars ("_" ++ v))))
                          || startswith (str (rev (chars ("_" ++ v)))) (str (rev (chars ("_" ++ u))))).

Lemma app_suffix {A} (a b u v : list A) : a ++ u = b ++ v -> (exists w, u = w ++ v) \/ exists w, v = w ++ u.
Proof.
  revert b. induction a as [|x a IH]; intros [|y b] E; cbn in E; [left; now exists []|left; now exists (y :: b)|right; now exists (x :: a)|].
  injection E as _ E. exact (IH b E).
Qed.

Definition id_table : list (string * string) :=
  map (pair "number") number_tails ++ map (pair "select") select_tails ++ map (pair "switch") switch_tails.

Lemma id_table_apart : forallb (fun x => forallb (fun y =>
  Nat.eqb (List.length (chars (fst x))) (List.length (chars (fst y))) && tails_apart (snd x) (snd y)) id_table) id_table = true.
Proof. vm_compute. reflexivity. Qed.

Lemma control_keys_table slugs k : In k (control_keys slugs) -> exists pl slug t, k = (pl, slug, t) /\ In (pl, t) id_table.
Proof.
  unfold control_keys, id_table. rewrite !in_app_iff, !id_keys_in.
  intros [(s & t & _ & Ht & ->)|[(s & t & _ & Ht & ->)|(s & t & _ & Ht & ->)]]; do 3 eexists; (split; [reflexivity|]);
    rewrite !in_app_iff; [left|right; left|right; right]; now apply in_map.
Qed.

Lemma ends_startswith (u v : string) w : chars u = w ++ chars v -> startswith (str (rev (chars u))) (str (rev (chars v))) = true.
Proof.
  intros ->. rewrite rev_app_distr.
  replace (str (rev (chars v) ++ rev w)) with (str (rev (chars v)) ++ str (rev w))%string; [apply prefix_app|].
  apply chars_inj. now rewrite chars_app, !chars_str.
Qed.

Lemma app_eq_length {A} (a b u v : list A) : List.length a = List.length b -> a ++ u = b ++ v -> a = b /\ u = v.
Proof.
  revert b. induction a as [|x a IH]; intros [|y b] Hl E; try discriminate; [now split|].
  injection E as -> E. injection Hl as Hl. destruct (IH b Hl E) as [-> ->]. now split.
Qed.

Lemma id_text_inj slugs k k' : In k (control_keys slugs) -> In k' (control_keys slugs) -> id_text k = id_text k' -> k = k'.
Proof.
  intros H H' E. apply control_keys_table in H as (pl & s & t & -> & H). apply control_keys_table in H' as (pl' & s' & t' & -> & H').
  pose proof id_table_apart as Ha. rewrite forallb_forall in Ha. specialize (Ha _ H). rewrite forallb_forall in Ha.
  specialize (Ha _ H'). apply andb_prop in Ha as [Hl Ht]. apply Nat.eqb_eq in Hl. cbn [fst snd] in *.
  apply (f_equal chars) in E. unfold id_text in E. rewrite !chars_app in E.
  apply app_eq_length in E as [E1 E]; [|exact Hl]. apply chars_inj in E1 as ->. injection E as E.
  destruct (app_suffix (chars s) (chars s') (chars "_" ++ chars t) (chars "_" ++ chars t') E) as [[w Ew]|[w Ew]];
    rewrite <- !(chars_app "_") in Ew; apply ends_startswith in Ew; unfold tails_apart in Ht; rewrite Ew in Ht;
    rewrite ?orb_true_r in Ht; cbn [negb orb] in Ht; rewrite ?orb_false_r in Ht;
    apply String.eqb_eq in Ht as ->; apply app_inv_tail in E; apply chars_inj in E as ->; reflexivity.
Qed.

Definition followed_controls (d : InverterDevice) : list control_entity :=
  [number_entity BatteryCapacityNumber d; number_entity FullChargeSyncVoltageNumber d; battery_mode_entity d; deadband_entity d;
   number_entity FloatVoltageWindowNumber d; number_entity FloatNoiseFloorNumber d; number_entity DischargeFloorSoCNumber d].

Lemma followed_created items d : In d items -> incl (followed_controls d) (setup_controls items).
Proof.
  intros Hd.
  assert (incl (number_entities d) (setup_numbers items)) as Hn
    by (intros x Hx; apply in_flat_map; now exists d).
  assert (incl (select_entities d) (setup_selects items)) as Hs
    by (intros x Hx; apply in_flat_map; now exists d).
  assert (In (deadband_entity d) (setup_switches items)) as Hw by now apply in_map.
  unfold setup_controls, followed_controls. intros x Hx. rewrite !in_app_iff.
  destruct Hx as [<-|[<-|[<-|[<-|[<-|[<-|[<-|[]]]]]]]]; try (left; apply Hn; cbn; tauto).
  - right; left. apply Hs. cbn. tauto.
  - right; right. exact Hw.
Qed.


Section Wiring.
Context (slugify : string -> string) `{!SlugLaws slugify}.

(** A name whose slug says something. *)
Definition named (d : InverterDevice) : Prop := slugify (i_name d) <> "" /\ slugify (i_name d) <> "unknown".

Lemma suggested_tail d (Hname : named d) e tail slug :
  ce_name e = (i_name d ++ " " ++ tail)%string -> ascii_slug tail = slug -> is_ascii tail = true ->
  slug <> "" -> slug <> "unknown" ->
  suggested_id slugify e = id_text (ce_platform e, slugify (i_name d), slug).
Proof.
  intros Hn <- Ha He Hu. unfold suggested_id. rewrite Hn. assert (slugify tail = ascii_slug tail) as Et by now apply slug_ascii.
  rewrite slug_space, Et; rewrite ?Et; now try apply Hname.
Qed.

(** The suggested id of a control whose name has a constant tail. *)
Ltac suggested Hname :=
  etransitivity;
  [eapply (suggested_tail _ Hname); [reflexivity|vm_compute; reflexivity|vm_compute; reflexivity|discriminate|discriminate]
  |reflexivity].

Ltac all_suggested Hname :=
  repeat (apply (f_equal2 cons); [suggested Hname|]); reflexivity.

Lemma suggested_numbers d : named d ->
  map (suggested_id slugify) (number_entities d) = map (fun t => id_text ("number", slugify (i_name d), t)) number_tails.
Proof. intros Hname. cbn [number_entities number_tails map]. all_suggested Hname. Qed.

Lemma suggested_selects d : named d ->
  map (suggested_id slugify) (select_entities d) = map (fun t => id_text ("select", slugify (i_name d), t)) select_tails.
Proof. intros Hname. cbn [select_entities select_tails map app]. all_suggested Hname. Qed.

Lemma suggested_switch d : named d ->
  suggested_id slugify (deadband_entity d) = id_text ("switch", slugify (i_name d), "vsoc_float_deadband").
Proof. intros Hname. suggested Hname. Qed.

Lemma suggested_followed d : named d -> map (suggested_id slugify) (followed_controls d) = followed_entities slugify d.
Proof. intros Hname. unfold followed_entities. cbn [followed_controls map]. all_suggested Hname. Qed.

Lemma suggested_controls items : Forall named items ->
  map (suggested_id slugify) (setup_controls items) = map id_text (control_keys (map (fun d => slugify (i_name d)) items)).
Proof.
  intros Hn. unfold setup_controls, control_keys. rewrite !map_app. f_equal; [|f_equal].
  - induction Hn as [|d items Hd _ IH]; [reflexivity|]. cbn [setup_numbers flat_map map id_keys]. rewrite !map_app, map_map.
    f_equal; [now apply suggested_numbers|exact IH].
  - induction Hn as [|d items Hd _ IH]; [reflexivity|]. cbn [setup_selects flat_map map id_keys]. rewrite !map_app, map_map.
    f_equal; [now apply suggested_selects|exact IH].
  - induction Hn as [|d items Hd _ IH]; [reflexivity|]. cbn [setup_switches flat_map map id_keys app switch_tails].
    f_equal; [now apply suggested_switch|exact IH].
Qed.

Lemma suggested_distinct items : Forall named items -> NoDup (map (fun d => slugify (i_name d)) items) ->
  NoDup (map (suggested_id slugify) (setup_controls items)).
Proof.
  intros Hn Hd. rewrite suggested_controls by exact Hn. apply NoDup_map_NoDup_ForallPairs; [|now apply control_keys_nodup].
  intros x y Hx Hy. now apply id_text_inj with (slugs := map (fun d => slugify (i_name d)) items).
Qed.

(** With distinct suggestions, each of them free, every entity gets its own. *)
Lemma all_suggested_given taken es eid : EntityIds slugify taken es eid -> NoDup (map (suggested_id slugify) es) ->
  (forall e, In e es -> ~ In (suggested_id slugify e) taken) -> map eid es = map (suggested_id slugify) es.
Proof.
  intros [Hfree _] Hn Ht.
  assert (forall post pre, es = pre ++ post -> map eid pre = map (suggested_id slugify) pre ->
    map eid es = map (suggested_id slugify) es) as H; [|exact (H es [] eq_refl eq_refl)].
  induction post as [|e post IH]; intros pre E Hpre; [now rewrite E, app_nil_r|].
  apply (IH (pre ++ [e])); [now rewrite <- app_assoc|]. rewrite !map_app, Hpre. f_equal. cbn [map]. f_equal.
  apply (Hfree pre e post E). rewrite in_app_iff, Hpre. intros [H|H].
  - apply (Ht e); [rewrite E; apply in_elt|exact H].
  - rewrite E, map_app in Hn. cbn [map] in Hn. apply NoDup_remove_2 in Hn. apply Hn. rewrite in_app_iff. now left.
Qed.
End Wiring.

(** ** Property *)


(** Two inverters, registered selects first, every control given the suggested id. *)
Definition demo_inverters : list InverterDevice :=
  [{| i_id := "x"; i_name := "Garage #2"; i_uri := ""; i_protocol := None |};
   {| i_id := "y"; i_name := "Attic"; i_uri := ""; i_protocol := None |}].

