(* ===== verification/Broadcast.v ===== *)
(** The broadcast address of the announcements: the address arithmetic of
    [_resolve_broadcast_for_announce_ip] of [api/protocols/eybond_dongle.py].

    An IPv4 address is its 32-bit number. The output of [ip -4 addr show] or
    [ipconfig] is an argument, [None] when the command fails; the parts of
    Python's [ipaddress] and [re] the function uses are defined here. *)

From Stdlib Require Import ZArith List Bool Lia String Ascii.
From S2P Require Import Prelude PyStr PyInt Uri Discovery EybondFrame ChildUri EybondHub.
Import ListNotations.
#[local] Open Scope string_scope.
#[local] Open Scope list_scope.
#[local] Open Scope Z_scope.

(** ** Addresses *)

(** [IPv4Address._parse_octet] *)
Definition parse_octet (s : string) : option Z :=
  let l := chars s in
  if negb (forallb is_digit l) || (List.length l =? 0)%nat || (3 <? List.length l)%nat then None
  else if negb (String.eqb s "0") && startswith s "0" then None
  else match py_int s with
       | Ok n => if n <=? 255 then Some n else None
       | Raise _ => None
       end.

(** [int.from_bytes(map(_parse_octet, octets))] *)
Definition ip_of_octets (a b c d : Z) : Z := Z.lor (Z.shiftl (Z.lor (Z.shiftl (Z.lor (Z.shiftl a 8) b) 8) c) 8) d.

(** [IPv4Address(s)]; [None] for its [ValueError]. *)
Definition parse_ipv4 (s : string) : option Z :=
  match map parse_octet (split_char "." s) with
  | [Some a; Some b; Some c; Some d] => Some (ip_of_octets a b c d)
  | _ => None
  end.

Definition octet (n i : Z) : Z := Z.land (Z.shiftr n (8 * i)) 255.

(** [str(address)] *)
Definition ip_text (n : Z) : string :=
  join "." [str_of_int (octet n 3); str_of_int (octet n 2); str_of_int (octet n 1); str_of_int (octet n 0)].

Definition is_loopback (n : Z) : bool := Z.shiftr n 24 =? 127.

(** ** Networks *)

Definition hostmask (prefix : Z) : Z := Z.ones (32 - prefix).
Definition netmask (prefix : Z) : Z := Z.shiftl (Z.ones prefix) (32 - prefix).

(** [_prefix_from_prefix_string], else [_prefix_from_ip_string]: a prefix length,
    a netmask, or a host mask. *)
Definition parse_prefix (s : string) : option Z :=
  let l := chars s in
  let length := if forallb is_digit l then match py_int s with Ok n => Some n | Raise _ => None end else None in
  match length with
  | Some n => if n <=? 32 then Some n else None
  | None =>
      match parse_ipv4 s with
      | Some m =>
          match find (fun p => m =? netmask p) (zrange 33) with
          | Some p => Some p
          | None => find (fun p => m =? hostmask p) (zrange 33)
          end
      | None => None
      end
  end.

(** [IPv4Network(f"{ip}/{mask}", strict=False)]: network address and prefix. *)
Definition parse_network (ip mask : string) : option (Z * Z) :=
  match parse_ipv4 ip, parse_prefix mask with
  | Some a, Some p => Some (Z.land a (netmask p), p)
  | _, _ => None
  end.

Definition in_network (target : Z) (net : Z * Z) : bool := Z.land target (netmask (snd net)) =? fst net.
Definition broadcast_address (net : Z * Z) : Z := Z.lor (fst net) (hostmask (snd net)).

(** ** Scanning the command's output *)

Definition takewhile (p : ascii -> bool) (l : list ascii) : list ascii := fst (partition_at (fun c => negb (p c)) l).
Definition addr_char (c : ascii) : bool := is_digit c || Ascii.eqb c ".".

(** One match of [inet\s+([\d\.]+)/(\d+)] at the start: the groups and the rest. *)
Definition match_inet (l : list ascii) : option (string * string * list ascii) :=
  if negb (startswith (str l) "inet") then None
  else
    let l1 := skipn 4 l in
    let l2 := dropwhile is_space l1 in
    let ip := takewhile addr_char l2 in
    let l3 := skipn (List.length ip) l2 in
    match l3 with
    | c :: l4 =>
        let digits := takewhile is_digit l4 in
        if (List.length l2 <? List.length l1)%nat && negb (List.length ip =? 0)%nat && Ascii.eqb c "/"
           && negb (List.length digits =? 0)%nat
        then Some (str ip, str digits, skipn (List.length digits) l4)
        else None
    | [] => None
    end.

(** [re.finditer]: non-overlapping matches from the left. *)
Fixpoint find_inets (fuel : nat) (l : list ascii) : list (string * string) :=
  match fuel, l with
  | S fuel, _ :: l' =>
      match match_inet l with
      | Some (ip, len, rest) => (ip, len) :: find_inets fuel rest
      | None => find_inets fuel l'
      end
  | _, _ => []
  end.

(** The first match of [:\s*([\d\.]+)] in a line. *)
Fixpoint search_colon (l : list ascii) : option string :=
  match l with
  | [] => None
  | c :: l' =>
      let ip := takewhile addr_char (dropwhile is_space l') in
      if Ascii.eqb c ":" && negb (List.length ip =? 0)%nat then Some (str ip) else search_colon l'
  end.

(** One line of [ipconfig]: the address seen last, and a subnet when a mask
    follows it. *)
Definition ipconfig_line (line : string) (current : option string) : option string * list (string * string) :=
  if str_contains "IPv4" line then
    (match search_colon (chars line) with Some ip => Some ip | None => current end, [])
  else if str_contains "Subnet Mask" line || str_contains "Маска подсети" line then
    (None, match search_colon (chars line), current with
           | Some mask, Some ip => if String.eqb ip "" then [] else [(ip, mask)]
           | _, _ => []
           end)
  else (current, []).

Fixpoint find_ipconfig (lines : list string) (current : option string) : list (string * string) :=
  match lines with
  | [] => []
  | line :: lines => let '(current, found) := ipconfig_line line current in found ++ find_ipconfig lines current
  end.

(** [raw.splitlines()], with an empty line, which the scan ignores, inside [\r\n]. *)
Definition line_break (c : ascii) : bool := existsb (Z.eqb (ord c)) [10; 11; 12; 13; 28; 29; 30].
Definition split_lines (raw : string) : list string :=
  split_char (chr 10) (on_chars (map (fun c => if line_break c then chr 10 else c)) raw).

Definition listed_networks (windows : bool) (raw : option string) : list (string * string) :=
  match raw with
  | None => []
  | Some raw => if windows then find_ipconfig (split_lines raw) None
                else find_inets (String.length raw) (chars raw)
  end.

Fixpoint first_broadcast (target : Z) (nets : list (string * string)) : option Z :=
  match nets with
  | [] => None
  | (ip, mask) :: nets =>
      match parse_network ip mask with
      | Some net => if in_network target net then Some (broadcast_address net) else first_broadcast target nets
      | None => first_broadcast target nets
      end
  end.

(** [".".join(str(target).split(".")[:3]) + ".255"] *)
Definition heuristic_broadcast (target : Z) : string :=
  (join "." (firstn 3 (split_char "." (ip_text target))) ++ ".255")%string.

Definition resolve_broadcast (windows : bool) (raw : option string) (announce_ip : string) : string :=
  match parse_ipv4 (strip announce_ip) with
  | None => DEFAULT_EYBOND_BROADCAST
  | Some target =>
      if is_loopback target then DEFAULT_EYBOND_BROADCAST
      else match first_broadcast target (listed_networks windows raw) with
           | Some b => ip_text b
           | None => heuristic_broadcast target
           end
  end.

Example resolve_linux :
  resolve_broadcast false (Some "2: eth0: inet 192.168.4.17/22 brd 192.168.7.255") "192.168.5.9" = "192.168.7.255"
  /\ resolve_broadcast false (Some "1: lo: inet 127.0.0.1/8 scope host lo") "192.168.5.9" = "192.168.5.255"
  /\ resolve_broadcast false None "127.0.0.1" = "255.255.255.255"
  /\ resolve_broadcast true (Some "IPv4 Address. . : 10.1.2.3
   Subnet Mask . . : 255.255.0.0") "10.1.9.9" = "10.1.255.255".
Proof. repeat apply conj; vm_compute; reflexivity. Qed.

(** ** Lemmas: numbers *)

Definition ip_ok (n : Z) : Prop := 0 <= n < 2 ^ 32.

Lemma land_netmask t p : ip_ok t -> 0 <= p <= 32 ->
  Z.land t (netmask p) = t / 2 ^ (32 - p) * 2 ^ (32 - p).
Proof.
  intros [H0 H1] Hp. unfold netmask. set (h := 32 - p).
  assert (Z.land t (Z.shiftl (Z.ones p) h) = Z.shiftl (Z.land (Z.shiftr t h) (Z.ones p)) h) as ->.
  { apply Z.bits_inj'. intros n Hn. rewrite Z.land_spec, !Z.shiftl_spec by lia.
    destruct (Z.ltb_spec n h); [rewrite !(Z.testbit_neg_r _ (n - h)) by lia; apply andb_false_r|].
    rewrite Z.land_spec, Z.shiftr_spec by lia. now replace (n - h + h) with n by lia. }
  rewrite Z.land_ones, Z.shiftr_div_pow2, Z.shiftl_mul_pow2 by lia. f_equal. apply Z.mod_small. split.
  - apply Z.div_pos; [exact H0|]. apply Z.pow_pos_nonneg; lia.
  - apply Z.div_lt_upper_bound; [apply Z.pow_pos_nonneg; lia|].
    rewrite <- Z.pow_add_r by lia. now replace (h + p) with 32 by lia.
Qed.

(** The broadcast address of the subnet of [t]: its host bits set. *)
Lemma broadcast_value t p : ip_ok t -> 0 <= p <= 32 ->
  Z.lor (Z.land t (netmask p)) (hostmask p) = t / 2 ^ (32 - p) * 2 ^ (32 - p) + (2 ^ (32 - p) - 1).
Proof.
  intros Ht Hp. rewrite land_netmask by assumption. unfold hostmask. rewrite <- Z.shiftl_mul_pow2 by lia.
  assert (0 < 2 ^ (32 - p)) by (apply Z.pow_pos_nonneg; lia).
  rewrite lor_shiftl_add; rewrite ?Z.ones_equiv, ?Z.shiftl_mul_pow2; lia.
Qed.

Lemma broadcast_ok t p : ip_ok t -> 0 <= p <= 32 -> ip_ok (Z.lor (Z.land t (netmask p)) (hostmask p)).
Proof.
  intros Ht Hp. rewrite broadcast_value by assumption. destruct Ht as [H0 H1]. unfold ip_ok.
  assert (0 < 2 ^ (32 - p)) by (apply Z.pow_pos_nonneg; lia).
  assert (0 <= t / 2 ^ (32 - p)) by (apply Z.div_pos; lia).
  assert (t / 2 ^ (32 - p) < 2 ^ p).
  { apply Z.div_lt_upper_bound; [lia|]. rewrite <- Z.pow_add_r by lia. now replace (32 - p + p) with 32 by lia. }
  assert (2 ^ 32 = 2 ^ p * 2 ^ (32 - p)) by (rewrite <- Z.pow_add_r by lia; f_equal; lia). nia.
Qed.

Lemma broadcast_same_net t p : ip_ok t -> 0 <= p <= 32 ->
  Z.land (Z.lor (Z.land t (netmask p)) (hostmask p)) (netmask p) = Z.land t (netmask p).
Proof.
  intros Ht Hp. rewrite (land_netmask (Z.lor _ _)) by (assumption || now apply broadcast_ok).
  rewrite broadcast_value, land_netmask by assumption.
  assert (0 < 2 ^ (32 - p)) by (apply Z.pow_pos_nonneg; lia). f_equal.
  rewrite Z.add_comm, Z.div_add by lia. rewrite Z.div_small by lia. reflexivity.
Qed.

(** ** Lemmas: texts *)

Lemma octet_range n i : 0 <= octet n i < 256.
Proof. unfold octet. change 255 with (Z.ones 8). rewrite Z.land_ones by lia. apply Z.mod_pos_bound. lia. Qed.

Lemma octet_value n i : 0 <= i -> octet n i = n / 2 ^ (8 * i) mod 256.
Proof. intros H. unfold octet. change 255 with (Z.ones 8). now rewrite Z.land_ones, Z.shiftr_div_pow2 by lia. Qed.

Lemma octets_join n : ip_ok n -> ip_of_octets (octet n 3) (octet n 2) (octet n 1) (octet n 0) = n.
Proof.
  intros [H0 H1]. pose proof (octet_range n 0). pose proof (octet_range n 1). pose proof (octet_range n 2).
  unfold ip_of_octets. rewrite !lor_shiftl_add by (rewrite ?Z.shiftl_mul_pow2; lia).
  rewrite !octet_value by lia. change (2 ^ (8 * 3)) with 16777216. change (2 ^ (8 * 2)) with 65536.
  change (2 ^ (8 * 1)) with 256. change (2 ^ (8 * 0)) with 1. change (2 ^ 8) with 256.
  rewrite Z.div_1_r. change (2 ^ 32) with 4294967296 in H1. clear - H0 H1.
  Z.to_euclidean_division_equations. lia.
Qed.

Definition octet_text_ok (k : Z) : bool :=
  match parse_octet (str_of_int k) with Some m => (m =? k) | None => false end
  && forallb (fun c => negb (Ascii.eqb c ".")) (chars (str_of_int k)).

Lemma octet_text k : 0 <= k < 256 ->
  parse_octet (str_of_int k) = Some k /\ Forall (fun c => Ascii.eqb c "." = false) (chars (str_of_int k)).
Proof.
  intros Hk. assert (octet_text_ok k = true) as H.
  { apply (zrange_forall octet_text_ok 256); [vm_compute; reflexivity|exact Hk]. }
  unfold octet_text_ok in H. apply andb_prop in H as [H1 H2]. split.
  - destruct (parse_octet _) as [m|]; [|discriminate]. apply Z.eqb_eq in H1. now subst.
  - rewrite forallb_forall in H2. apply Forall_forall. intros c Hc. apply H2 in Hc. now apply negb_true_iff in Hc.
Qed.

Lemma ip_text_split n :
  split_char "." (ip_text n) = map str_of_int [octet n 3; octet n 2; octet n 1; octet n 0].
Proof.
  unfold ip_text. apply split_join; [discriminate|]. cbn [map].
  repeat (apply Forall_cons; [apply octet_text, octet_range|]). apply Forall_nil.
Qed.

Lemma parse_ip_text n : ip_ok n -> parse_ipv4 (ip_text n) = Some n.
Proof.
  intros Hn. unfold parse_ipv4. rewrite ip_text_split. cbn [map].
  rewrite !(fun k H => proj1 (octet_text k H)) by apply octet_range. now rewrite octets_join.
Qed.

Lemma heuristic_is_slash24 t : ip_ok t ->
  heuristic_broadcast t = ip_text (Z.lor (Z.land t (netmask 24)) (hostmask 24)).
Proof.
  intros Ht. unfold heuristic_broadcast. rewrite ip_text_split. cbn [map firstn].
  rewrite (broadcast_value t 24 Ht) by lia. change (2 ^ (32 - 24)) with 256.
  unfold ip_text. rewrite !octet_value by lia. change (2 ^ (8 * 3)) with 16777216. change (2 ^ (8 * 2)) with 65536.
  change (2 ^ (8 * 1)) with 256. change (2 ^ (8 * 0)) with 1. rewrite Z.div_1_r. destruct Ht as [H0 H1].
  assert (forall k m, 0 < k -> m = 256 * k -> (t / 256 * 256 + (256 - 1)) / m = t / m) as E.
  { intros k m Hk ->. rewrite <- !Z.div_div by lia. f_equal. rewrite Z.add_comm, Z.div_add by lia. reflexivity. }
  rewrite (E 65536 16777216), (E 256 65536), (E 1 256) by lia.
  replace ((t / 256 * 256 + (256 - 1)) mod 256) with 255 by (rewrite Z.add_comm, Z.mod_add by lia; reflexivity).
  apply chars_inj. unfold join. cbn [String.concat]. repeat rewrite chars_app. now rewrite <- !app_assoc.
Qed.

Lemma Forall_dropwhile {A} (P : A -> Prop) (p : A -> bool) l : Forall P l -> Forall P (dropwhile p l).
Proof. induction 1 as [|a l Ha Hl IH]; [constructor|]. cbn [dropwhile]. destruct (p a); [exact IH|now constructor]. Qed.

Lemma digit_val_nonneg c : is_digit c = true -> 0 <= digit_val c.
Proof. unfold is_digit, digit_val. rewrite andb_true_iff, !Z.leb_le. lia. Qed.

Lemma int_digits_nonneg l : Forall (fun c => is_digit c = true) l -> forall acc k v k', 0 <= acc ->
  int_digits acc k l = Some (v, k') -> 0 <= v.
Proof.
  induction 1 as [|c l Hc _ IH]; intros acc k v k' Ha H; cbn [int_digits] in H; [now injection H as <- _|].
  rewrite Hc in H. apply digit_val_nonneg in Hc. eapply IH; [|exact H]. lia.
Qed.

Lemma py_int_digits_nonneg s n : Forall (fun c => is_digit c = true) (chars s) -> py_int s = Ok n -> 0 <= n.
Proof.
  intros Hs H. unfold py_int in H.
  assert (Forall (fun c => is_digit c = true) (chars (strip s))) as Hd.
  { rewrite chars_strip. unfold rdropwhile. apply Forall_rev, Forall_dropwhile, Forall_rev, Forall_dropwhile, Hs. }
  destruct (chars (strip s)) as [|c l]; [discriminate|]. inversion Hd as [|? ? Hc Hl]; subst.
  unfold split_sign in H. destruct (Ascii.eqb_spec c "-") as [->|_]; [discriminate|].
  destruct (Ascii.eqb_spec c "+") as [->|_]; [discriminate|]. cbn [int_unsigned] in H. rewrite Hc in H.
  destruct (int_digits (digit_val c) 1 l) as [[v k]|] eqn:E; [|discriminate]. destruct (k <=? _); [|discriminate].
  injection H as <-. apply (int_digits_nonneg l Hl _ _ _ _ (digit_val_nonneg c Hc) E).
Qed.

Lemma parse_octet_range s n : parse_octet s = Some n -> 0 <= n < 256.
Proof.
  unfold parse_octet. destruct (forallb is_digit (chars s)) eqn:Hd; [|discriminate]. cbn [negb orb].
  destruct (_ || _); [discriminate|]. destruct (_ && _); [discriminate|].
  destruct (py_int s) as [m|] eqn:E; [|discriminate]. destruct (Z.leb_spec m 255); [|discriminate].
  intros [= <-]. split; [|lia]. apply (py_int_digits_nonneg s m); [|exact E].
  apply Forall_forall. rewrite forallb_forall in Hd. exact Hd.
Qed.

Lemma parse_ipv4_ok s n : parse_ipv4 s = Some n -> ip_ok n.
Proof.
  unfold parse_ipv4. generalize (split_char "." s). intros l.
  assert (Forall (fun o => forall k, o = Some k -> 0 <= k < 256) (map parse_octet l)) as Ho.
  { apply Forall_map, Forall_forall. intros x _ k. apply parse_octet_range. }
  destruct Ho as [|[a|] ? Ha Ho]; [easy| |easy]. destruct Ho as [|[b|] ? Hb Ho]; [easy| |easy].
  destruct Ho as [|[c|] ? Hc Ho]; [easy| |easy]. destruct Ho as [|[d|] ? Hd Ho]; [easy| |easy].
  destruct Ho; [|easy]. intros [= <-]. specialize (Ha _ eq_refl). specialize (Hb _ eq_refl).
  specialize (Hc _ eq_refl). specialize (Hd _ eq_refl).
  unfold ip_of_octets, ip_ok. rewrite !lor_shiftl_add by (rewrite ?Z.shiftl_mul_pow2; lia). lia.
Qed.

Lemma parse_prefix_range s p : parse_prefix s = Some p -> 0 <= p <= 32.
Proof.
  unfold parse_prefix. intros H.
  assert (forall f q, find f (zrange 33) = Some q -> 0 <= q <= 32) as Hz.
  { intros f q Hq. apply find_some in Hq as [Hq _]. unfold zrange in Hq. apply in_map_iff in Hq as (k & <- & Hk).
    apply in_seq in Hk. lia. }
  destruct (forallb is_digit (chars s)) eqn:Hd; [destruct (py_int s) as [n|] eqn:E|].
  - destruct (Z.leb_spec n 32); [|discriminate]. injection H as <-. split; [|assumption].
    apply (py_int_digits_nonneg s n); [|exact E]. apply Forall_forall. rewrite forallb_forall in Hd. exact Hd.
  - destruct (parse_ipv4 s) as [m|]; [|discriminate]. destruct (find (fun p => m =? netmask p) (zrange 33)) as [q|] eqn:F;
      [injection H as <-; exact (Hz _ _ F)|exact (Hz _ _ H)].
  - destruct (parse_ipv4 s) as [m|]; [|discriminate]. destruct (find (fun p => m =? netmask p) (zrange 33)) as [q|] eqn:F;
      [injection H as <-; exact (Hz _ _ F)|exact (Hz _ _ H)].
Qed.

(** The listed subnets that parse. *)
Definition networks (nets : list (string * string)) : list (Z * Z) :=
  flat_map (fun im => match parse_network (fst im) (snd im) with Some net => [net] | None => [] end) nets.

(** The prefix of the first of them that holds the address, 24 when none does. *)
Definition chosen_prefix (target : Z) (nets : list (string * string)) : Z :=
  match find (in_network target) (networks nets) with Some net => snd net | None => 24 end.

Lemma first_broadcast_find target nets :
  first_broadcast target nets = option_map broadcast_address (find (in_network target) (networks nets)).
Proof.
  induction nets as [|[ip mask] nets IH]; [reflexivity|]. cbn [first_broadcast]. unfold networks. cbn [flat_map fst snd].
  destruct (parse_network ip mask) as [net|]; [|exact IH]. cbn [app find].
  destruct (in_network target net); [reflexivity|exact IH].
Qed.

Lemma networks_prefix nets net : In net (networks nets) -> 0 <= snd net <= 32.
Proof.
  unfold networks. rewrite in_flat_map. intros ([ip mask] & _ & H). cbn [fst snd] in H. unfold parse_network in H.
  destruct (parse_ipv4 ip); [|easy]. destruct (parse_prefix mask) eqn:E; [|easy]. destruct H as [<-|[]].
  exact (parse_prefix_range _ _ E).
Qed.

(** ** Properties *)

(** C27: where announcements go when no broadcast address is configured: to
    the directed broadcast address of a subnet that holds the announced address,
    the first one the operating system lists, a [/24] when it lists none. The
    address is a 32-bit one, in that subnet, with every host bit set, and its
    text reads back as it. *)
Theorem announce_goes_to_subnet (windows : bool) (raw : option string) (address : string) (l : listener) (t : Z)
    (Hb : l_broadcast l = DEFAULT_EYBOND_BROADCAST) (Ht : parse_ipv4 (strip address) = Some t)
    (Hl : is_loopback t = false) :
  let p := chosen_prefix t (listed_networks windows raw) in
  let b := Z.lor (Z.land t (netmask p)) (hostmask p) in
  announce_target (resolve_broadcast windows raw) address l = ip_text b
  /\ 0 <= p <= 32 /\ 0 <= b < 2 ^ 32
  /\ Z.land b (netmask p) = Z.land t (netmask p) /\ Z.land b (hostmask p) = hostmask p
  /\ parse_ipv4 (ip_text b) = Some b.
Proof.
  cbv zeta. set (nets := listed_networks windows raw). set (p := chosen_prefix t nets).
  pose proof (parse_ipv4_ok _ _ Ht) as Hok.
  assert (0 <= p <= 32) as Hp.
  { unfold p, chosen_prefix. destruct (find _ _) as [net|] eqn:F; [|lia]. apply find_some in F as [F _].
    exact (networks_prefix _ _ F). }
  assert (resolve_broadcast windows raw address = ip_text (Z.lor (Z.land t (netmask p)) (hostmask p))) as E.
  { unfold resolve_broadcast. rewrite Ht, Hl. fold nets. rewrite first_broadcast_find. unfold p, chosen_prefix.
    destruct (find _ _) as [net|] eqn:F; [|now apply heuristic_is_slash24].
    apply find_some in F as [_ F]. cbn [option_map]. unfold broadcast_address. unfold in_network in F.
    apply Z.eqb_eq in F. now rewrite F. }
  split; [|split; [exact Hp|split; [now apply broadcast_ok|split; [now apply broadcast_same_net|split]]]].
  - unfold announce_target. rewrite Hb, E. cbn [String.eqb].
    change (String.eqb DEFAULT_EYBOND_BROADCAST DEFAULT_EYBOND_BROADCAST) with true. cbv iota zeta.
    destruct (String.eqb_spec (ip_text (Z.lor (Z.land t (netmask p)) (hostmask p))) DEFAULT_EYBOND_BROADCAST) as [->|];
      [now rewrite andb_false_r|].
    destruct (String.eqb_spec (ip_text (Z.lor (Z.land t (netmask p)) (hostmask p))) "") as [E0|]; [|reflexivity].
    apply (f_equal parse_ipv4) in E0. now rewrite parse_ip_text in E0 by now apply broadcast_ok.
  - apply Z.bits_inj'. intros n Hn. rewrite !Z.land_spec, Z.lor_spec. destruct (Z.testbit (hostmask p) n);
      now rewrite ?orb_true_r, ?andb_false_r.
  - apply parse_ip_text, broadcast_ok; assumption.
Qed.

Lemma announce_goes_to_subnet_witness :
  announce_target (resolve_broadcast false (Some "2: eth0: inet 192.168.4.17/22 brd 192.168.7.255")) "192.168.5.9"
    (new_listener DEFAULT_EYBOND_BROADCAST None 1) = "192.168.7.255".
Proof.
  refine (eq_trans (proj1 (announce_goes_to_subnet false (Some "2: eth0: inet 192.168.4.17/22 brd 192.168.7.255")
    "192.168.5.9" (new_listener DEFAULT_EYBOND_BROADCAST None 1) 3232236809 eq_refl _ _)) _);
    vm_compute; reflexivity.
Defined.

(** On a point-to-point interface ([/32]) the announcements go to the host itself. *)
Example point_to_point_self :
  resolve_broadcast false (Some "inet 10.8.0.2/32 scope global wg0") "10.8.0.2" = "10.8.0.2".
Proof. vm_compute. reflexivity. Qed.
