(* ===== verification/DebugPanel.v ===== *)
(** The live debug panel: [debug_panel.py] over the event hub of [diag_hub.py].

    A panel's subscription is numbered; what its websocket was sent is kept in
    order. Starting a subscription and replaying the recent events is one step of
    the event loop, forwarding one queued event another. *)

From Stdlib Require Import ZArith List Bool Lia String Ascii.
From S2P Require Import Prelude PyStr PyInt PyFloat PyDict Diagnostics.
Import ListNotations.
#[local] Open Scope string_scope.
#[local] Open Scope list_scope.
#[local] Open Scope Z_scope.

Definition SUB_QUEUE_MAX : nat := 2000.
Definition REPLAY_LIMIT : nat := 150.

Record panels := { p_hub : hub; p_sent : Z -> list event }.

Definition queue_of (i : Z) (h : hub) : option sub_queue :=
  option_map snd (find (fun iq => fst iq =? i) (subscribers h)).

Definition with_sent (i : Z) (es : list event) (st : panels) : panels :=
  {| p_hub := p_hub st; p_sent := fun j => if j =? i then p_sent st j ++ es else p_sent st j |}.

(** [_ws_subscribe]: the queue joins the hub, then the recent events are sent. *)
Definition ws_subscribe (i : Z) (st : panels) : panels :=
  let h := subscribe i {| q_max := SUB_QUEUE_MAX; q_items := [] |} (p_hub st) in
  with_sent i (recent REPLAY_LIMIT h) {| p_hub := h; p_sent := p_sent st |}.

(** One turn of [_pump]. *)
Definition set_items (i : Z) (items : list event) (h : hub) : hub :=
  {| ring := ring h;
     subscribers := map (fun iq => if fst iq =? i then (i, {| q_max := q_max (snd iq); q_items := items |}) else iq)
                        (subscribers h) |}.

Definition pump (i : Z) (st : panels) : panels :=
  match queue_of i (p_hub st) with
  | Some q => match q_items q with
              | e :: es => with_sent i [e] {| p_hub := set_items i es (p_hub st); p_sent := p_sent st |}
              | [] => st
              end
  | None => st
  end.

(** [_unsubscribe]: the pump is cancelled and the queue leaves the hub. *)
Definition ws_unsubscribe (i : Z) (st : panels) : panels :=
  {| p_hub := unsubscribe i (p_hub st); p_sent := p_sent st |}.

Definition publish_event (now : float) (e : event) (st : panels) : panels :=
  {| p_hub := publish now e (p_hub st); p_sent := p_sent st |}.

(** [_ws_send_frame]: the answer of [get_direct_data], or the text of what it raised. *)
Definition ws_send_frame (text : exn -> string) (answer : res pydict) : pydict + string * string :=
  match answer with
  | Ok result => inl [("result", VDict result)]
  | Raise e => inr ("send_failed", text e)
  end.

(** [_debug_panel_wanted], over the options of the entries. *)
Definition DEFAULT_DEBUG_PANEL : bool := true.
Definition debug_panel_wanted (options : list pydict) : bool :=
  existsb (fun o => match dget "debug_panel" o with Some v => truthy v | None => DEFAULT_DEBUG_PANEL end) options.

(** What is asked of Home Assistant. *)
Inductive panel_action := Register | Remove | RegisterCommand (command : string) | RegisterStatic (url : string).

(** [async_apply_debug_panel] after the registrations: whether the panel is shown
    now, and what was done. *)
Definition apply_debug_panel (options : list pydict) (shown : bool) : bool * list panel_action :=
  let wanted := debug_panel_wanted options in
  if wanted && negb shown then (true, [Register])
  else if shown && negb wanted then (false, [Remove])
  else (shown, []).

Definition STATIC_URL : string := "/dess_monitor_local/dess_debug_panel.js".
Definition WS_COMMANDS : list string :=
  ["dess_monitor_local/diag/state"; "dess_monitor_local/diag/subscribe"; "dess_monitor_local/diag/send_frame"].

(** [_ensure_ws_registered], from its mark in [hass.data]. *)
Definition ensure_ws_registered (registered : bool) : bool * list panel_action :=
  if registered then (true, []) else (true, map RegisterCommand WS_COMMANDS ++ [RegisterStatic STATIC_URL]).

(** [async_apply_debug_panel], on the two marks: registered and shown. *)
Definition async_apply_debug_panel (options : list pydict) (marks : bool * bool) : (bool * bool) * list panel_action :=
  let '(registered, asked) := ensure_ws_registered (fst marks) in
  let '(shown, done) := apply_debug_panel options (snd marks) in
  ((registered, shown), asked ++ done).

(** ** Steps while panel [i] is open *)

Inductive op :=
| Publish (now : float) (e : event)
| Pump (j : Z)
| Open (j : Z)
| CloseOf (j : Z).

Definition run_op (st : panels) (o : op) : panels :=
  match o with
  | Publish now e => publish_event now e st
  | Pump j => pump j st
  | Open j => ws_subscribe j st
  | CloseOf j => ws_unsubscribe j st
  end.

(** Panel [i] is neither opened again nor closed. *)
Definition keeps (i : Z) (o : op) : bool :=
  match o with Open j | CloseOf j => negb (j =? i) | _ => true end.

Definition stamped (o : op) : list event :=
  match o with Publish now e => [dsetdefault "ts" (VFloat now) e] | _ => [] end.

Definition published (ops : list op) : list event := flat_map stamped ops.

(** A subsequence: some elements left out, the rest in order. *)
Inductive subseq {A} : list A -> list A -> Prop :=
| subseq_nil : subseq [] []
| subseq_keep x l l' : subseq l l' -> subseq (x :: l) (x :: l')
| subseq_drop x l l' : subseq l l' -> subseq l (x :: l').

(** ** Lemmas *)

Lemma subseq_snoc {A} (x : A) l l' : subseq l l' -> subseq (l ++ [x]) (l' ++ [x]).
Proof. induction 1; cbn [app]; constructor; try assumption. constructor. Qed.

Lemma subseq_skip {A} (x : A) l l' : subseq l l' -> subseq l (l' ++ [x]).
Proof. induction 1; cbn [app]; now repeat constructor. Qed.

Lemma queue_of_map i f (h : hub) r :
  (forall iq, fst (f iq) = fst iq) ->
  queue_of i {| ring := r; subscribers := map f (subscribers h) |}
  = match find (fun iq => fst iq =? i) (subscribers h) with Some iq => Some (snd (f iq)) | None => None end.
Proof.
  intros Hf. unfold queue_of. cbn [subscribers]. induction (subscribers h) as [|iq l IH]; [reflexivity|].
  cbn [map find]. rewrite Hf. destruct (fst iq =? i); [reflexivity|exact IH].
Qed.

Lemma queue_of_find i h q : queue_of i h = Some q ->
  exists iq, find (fun iq => fst iq =? i) (subscribers h) = Some iq /\ snd iq = q /\ fst iq = i.
Proof.
  unfold queue_of. destruct (find _ _) as [iq|] eqn:F; [|discriminate]. intros [= <-].
  exists iq. apply find_some in F as [_ F]. apply Z.eqb_eq in F. auto.
Qed.

Lemma publish_queue now e i h q : queue_of i h = Some q ->
  queue_of i (publish now e h) = Some (put_or_drop (dsetdefault "ts" (VFloat now) e) q).
Proof.
  intros H. apply queue_of_find in H as (iq & F & <- & _). unfold publish, hub_active.
  destruct (subscribers h) as [|s l] eqn:E; [discriminate|]. rewrite <- E in *.
  rewrite queue_of_map by reflexivity. now rewrite F.
Qed.

Lemma set_items_queue i j items h q : queue_of i h = Some q ->
  queue_of i (set_items j items h) = Some (if j =? i then {| q_max := q_max q; q_items := items |} else q).
Proof.
  intros H. apply queue_of_find in H as (iq & F & <- & Hi). unfold set_items.
  rewrite queue_of_map.
  - rewrite F, Hi, Z.eqb_sym. now destruct (j =? i).
  - intros [k s]. cbn [fst]. destruct (Z.eqb_spec k j) as [->|]; reflexivity.
Qed.

Lemma subscribe_queue i j q0 h q : j <> i -> queue_of i h = Some q -> queue_of i (subscribe j q0 h) = Some q.
Proof.
  intros Hj H. apply queue_of_find in H as (iq & F & <- & _). unfold subscribe.
  destruct (has_sub j h); unfold queue_of; cbn [subscribers]; [now rewrite F|].
  induction (subscribers h) as [|s l IH]; [discriminate|]. cbn [app find] in *.
  destruct (fst s =? i); [now injection F as ->|exact (IH F)].
Qed.

Lemma unsubscribe_queue i j h q : j <> i -> queue_of i h = Some q -> queue_of i (unsubscribe j h) = Some q.
Proof.
  intros Hj H. apply queue_of_find in H as (iq & F & <- & _). unfold unsubscribe, queue_of. cbn [subscribers].
  induction (subscribers h) as [|s l IH]; [discriminate|]. cbn [filter find] in *.
  destruct (Z.eqb_spec (fst s) i) as [E|E].
  - injection F as ->. destruct (Z.eqb_spec (fst iq) j); [congruence|]. cbn [negb find]. rewrite E, Z.eqb_refl. reflexivity.
  - destruct (negb (fst s =? j)); [|exact (IH F)]. cbn [find]. destruct (Z.eqb_spec (fst s) i); [congruence|exact (IH F)].
Qed.

Lemma subscribe_new i q h : has_sub i h = false -> queue_of i (subscribe i q h) = Some q.
Proof.
  intros H. unfold subscribe. rewrite H. unfold queue_of. cbn [subscribers]. unfold has_sub in H.
  induction (subscribers h) as [|s l IH]; [cbn; now rewrite Z.eqb_refl|].
  cbn [existsb app find] in *. apply orb_false_iff in H as [-> H]. exact (IH H).
Qed.

(** What panel [i] was sent since [base] and what waits for it: everything
    published, in order, apart from what met a full queue. *)
Definition delivered (i : Z) (base es : list event) (st : panels) : Prop :=
  exists q got, queue_of i (p_hub st) = Some q /\ q_max q = SUB_QUEUE_MAX
  /\ p_sent st i ++ q_items q = base ++ got /\ subseq got es
  /\ (List.length (q_items q) <= List.length es)%nat
  /\ ((List.length es <= SUB_QUEUE_MAX)%nat -> got = es).

Lemma delivered_quiet i base es st st' q : queue_of i (p_hub st) = Some q -> queue_of i (p_hub st') = Some q ->
  p_sent st' i = p_sent st i -> delivered i base es st -> delivered i base es st'.
Proof.
  intros H H' Hs (q0 & got & E & Hm & Hd & Hg). rewrite H in E. injection E as <-.
  exists q, got. rewrite Hs. auto.
Qed.

Lemma delivered_publish i base es st now e : delivered i base es st ->
  delivered i base (es ++ [dsetdefault "ts" (VFloat now) e]) (publish_event now e st).
Proof.
  intros (q & got & E & Hm & Hd & Hg & Hl & He). unfold delivered, publish_event. cbn [p_hub p_sent].
  rewrite (publish_queue now e i _ q E). set (x := dsetdefault _ _ e). rewrite length_app. cbn [List.length].
  unfold put_or_drop, queue_full. rewrite Hm. destruct (Nat.leb_spec SUB_QUEUE_MAX (List.length (q_items q))).
  - exists q, got. cbn [andb Nat.ltb Nat.leb SUB_QUEUE_MAX]. split; [reflexivity|]. split; [exact Hm|].
    split; [exact Hd|]. split; [now apply subseq_skip|]. split; [lia|]. intros Hc. lia.
  - eexists _, (got ++ [x]). rewrite andb_false_r. split; [reflexivity|]. cbn [q_max q_items].
    split; [reflexivity|]. rewrite !app_assoc, Hd. split; [reflexivity|]. split; [now apply subseq_snoc|].
    rewrite length_app. cbn [List.length]. split; [lia|]. intros Hc. rewrite He by lia. reflexivity.
Qed.

Lemma delivered_pump i j base es st : delivered i base es st -> delivered i base es (pump j st).
Proof.
  intros H. pose proof H as (q & got & E & Hm & Hd & Hg & Hl & He). unfold pump.
  destruct (queue_of j (p_hub st)) as [qj|] eqn:Ej; [|exact H]. destruct (q_items qj) as [|e rest] eqn:Eq; [exact H|].
  pose proof (set_items_queue i j rest _ q E) as Hq. destruct (Z.eqb_spec j i) as [->|Hne].
  - rewrite E in Ej. injection Ej as <-. eexists _, got. unfold with_sent. cbn [p_hub p_sent].
    split; [exact Hq|]. cbn [q_max q_items]. rewrite Z.eqb_refl, <- app_assoc. cbn [app]. rewrite <- Eq.
    rewrite Eq in Hl. cbn [List.length] in Hl. repeat split; auto. lia.
  - apply (delivered_quiet i base es st _ q); [exact E|exact Hq| |exact H].
    unfold with_sent. cbn [p_sent]. destruct (Z.eqb_spec i j); [congruence|reflexivity].
Qed.

Lemma delivered_run i base ops : forallb (keeps i) ops = true -> forall es st, delivered i base es st ->
  delivered i base (es ++ published ops) (fold_left run_op ops st).
Proof.
  induction ops as [|o ops IH]; intros Hk es st H; [now rewrite app_nil_r|].
  cbn [forallb published flat_map fold_left] in *. apply andb_prop in Hk as [Ho Hk].
  fold (published ops). rewrite app_assoc. apply IH; [exact Hk|].
  destruct o as [now e|j|j|j]; cbn [stamped run_op keeps] in *; rewrite ?app_nil_r.
  - now apply delivered_publish.
  - now apply delivered_pump.
  - apply negb_true_iff, Z.eqb_neq in Ho. pose proof H as (q & _ & E & _).
    apply (delivered_quiet i base es st _ q E); [now apply subscribe_queue| |exact H].
    unfold ws_subscribe, with_sent. cbn [p_sent]. destruct (Z.eqb_spec i j); [congruence|reflexivity].
  - apply negb_true_iff, Z.eqb_neq in Ho. pose proof H as (q & _ & E & _).
    apply (delivered_quiet i base es st _ q E); [now apply unsubscribe_queue|reflexivity|exact H].
Qed.

(** Setups register the commands once and leave the sidebar as the last options ask. *)
Lemma setups_register_once (optss : list (list pydict)) (options : list pydict) (marks : bool * bool) :
  let run := fold_left (fun ma os => let '(m, a) := async_apply_debug_panel os (fst ma) in (m, snd ma ++ a)) in
  let '((registered, shown), actions) := run (optss ++ [options]) (marks, []) in
  registered = true /\ shown = debug_panel_wanted options
  /\ filter (fun a => match a with RegisterCommand _ | RegisterStatic _ => true | _ => false end) actions
     = (if fst marks then [] else map RegisterCommand WS_COMMANDS ++ [RegisterStatic STATIC_URL]).
Proof.
  set (reg := fun a => match a with RegisterCommand _ | RegisterStatic _ => true | _ => false end). cbv zeta.
  assert (forall os m, fst (fst (async_apply_debug_panel os m)) = true
    /\ snd (fst (async_apply_debug_panel os m)) = debug_panel_wanted os
    /\ filter reg (snd (async_apply_debug_panel os m))
       = if fst m then [] else map RegisterCommand WS_COMMANDS ++ [RegisterStatic STATIC_URL]) as Hstep.
  { intros os [[] sh]; unfold async_apply_debug_panel, apply_debug_panel; cbn [fst snd ensure_ws_registered];
      destruct (debug_panel_wanted os), sh; now cbn. }
  set (run := fold_left _).
  assert (forall oss ma, filter reg (snd (run oss ma)) = filter reg (snd ma)
    ++ (if fst (fst ma) then [] else match oss with [] => [] | _ => map RegisterCommand WS_COMMANDS ++ [RegisterStatic STATIC_URL] end)) as Hrun.
  { induction oss as [|os oss IH]; intros [m a]; [cbn; now destruct (fst m); rewrite app_nil_r|].
    change (run (os :: oss) (m, a)) with (run oss (let '(m', a') := async_apply_debug_panel os m in (m', a ++ a'))).
    destruct (Hstep os m) as (H1 & _ & H3). destruct (async_apply_debug_panel os m) as [m' a'] eqn:E. cbn [fst snd] in *.
    rewrite IH. cbn [fst snd]. rewrite H1, filter_app, H3, app_nil_r. reflexivity. }
  specialize (Hrun (optss ++ [options]) (marks, [])).
  assert (run (optss ++ [options]) (marks, []) = let ma := run optss (marks, []) in
    let '(m, a) := async_apply_debug_panel options (fst ma) in (m, snd ma ++ a)) as E by (unfold run; now rewrite fold_left_app).
  rewrite E in *. cbv zeta in *. destruct (Hstep options (fst (run optss (marks, [])))) as (H1 & H2 & _).
  destruct (async_apply_debug_panel options (fst (run optss (marks, [])))) as [[r s] a]. cbn [fst snd] in *.
  split; [exact H1|]. split; [exact H2|]. rewrite Hrun. cbn [filter app].
  destruct (fst marks); [reflexivity|]. now destruct optss.
Qed.

(** ** Properties *)

(** A panel that opens is sent the last 150 events, and then, whatever
    other panels do, each later event in order and at most once; nothing is
    missed as long as no more than 2000 events came, however slow the panel is,
    and what was left out later met a full queue. Showing the sidebar entry
    follows the entries' options and repeating it does nothing. *)
Theorem panel_stream (i : Z) (st : panels) (ops : list op) (options : list pydict) (shown : bool)
    (Hnew : has_sub i (p_hub st) = false) (Hops : forallb (keeps i) ops = true) :
  let st' := fold_left run_op ops (ws_subscribe i st) in
  (exists q got, queue_of i (p_hub st') = Some q
     /\ p_sent st' i ++ q_items q = (p_sent st i ++ lastn 150 (ring (p_hub st))) ++ got
     /\ subseq got (published ops)
     /\ ((List.length (published ops) <= 2000)%nat -> got = published ops))
  /\ fst (apply_debug_panel options shown) = debug_panel_wanted options
  /\ apply_debug_panel options (fst (apply_debug_panel options shown)) = (debug_panel_wanted options, []).
Proof.
  cbv zeta. split.
  - destruct (delivered_run i (p_sent st i ++ lastn 150 (ring (p_hub st))) ops Hops [] (ws_subscribe i st))
      as (q & got & E & _ & Hd & Hg & _ & He).
    + eexists _, []. unfold ws_subscribe, with_sent. cbn [p_hub p_sent].
      split; [now apply subscribe_new|]. cbn [q_max q_items]. split; [reflexivity|].
      rewrite Z.eqb_refl, !app_nil_r. split; [|repeat constructor]. unfold subscribe. rewrite Hnew. reflexivity.
    + exists q, got. auto.
  - unfold apply_debug_panel. destruct (debug_panel_wanted options), shown; now split.
Qed.

Definition demo_event (n : Z) : event := [("t", VStr "frame"); ("ts", VFloat (flit 1 1)); ("n", VInt n)].

Lemma panel_stream_witness :
  let st := {| p_hub := {| ring := [demo_event 1]; subscribers := [] |}; p_sent := fun _ => [] |} in
  let st' := fold_left run_op [Publish (flit 1 1) (demo_event 2); Open 8; Pump 7; Publish (flit 1 1) (demo_event 3)] (ws_subscribe 7 st) in
  exists q got, queue_of 7 (p_hub st') = Some q /\ p_sent st' 7 ++ q_items q = [demo_event 1] ++ got
  /\ got = [demo_event 2; demo_event 3].
Proof.
  cbv zeta.
  destruct (proj1 (panel_stream 7 {| p_hub := {| ring := [demo_event 1]; subscribers := [] |}; p_sent := fun _ => [] |}
    [Publish (flit 1 1) (demo_event 2); Open 8; Pump 7; Publish (flit 1 1) (demo_event 3)] [] false eq_refl eq_refl))
    as (q & got & H1 & H2 & _ & H3).
  exists q, got. split; [exact H1|]. split; [exact H2|]. apply H3. cbn. lia.
Defined.
