(* ===== verification/Dump.v ===== *)
(** What the integration shows of its own state: the downloadable diagnostics
    ([diagnostics.py]) and the snapshot the debug panel asks for
    ([debug_panel.py]). Both are values assembled from the coordinator
    ([Coordinator]), the frame log ([Diagnostics]) and the hubs ([EybondHub]). *)

From Stdlib Require Import ZArith String Ascii Floats.SpecFloat.
From stdpp Require Import base gmap list strings.
From S2P Require Import Prelude PyStr PyInt PyFloat PyDict FailureTracker Coordinator Diagnostics Discovery EybondHub Controls.
#[local] Open Scope string_scope.
#[local] Open Scope list_scope.
#[local] Open Scope Z_scope.

(** ** The coordinator's section *)

(** A coordinator, as the dump sees it. *)
Record coordinator_view := {
  cv_success : bool;                      (* [last_update_success] *)
  cv_interval : option float;             (* [update_interval], in seconds *)
  cv_devices : option (list poll_target); (* [devices] *)
  cv_failures : tracker;
  cv_data : option (dict devdata)
}.

(** An entry's runtime data: none before the set-up, and an object that may have no
    coordinator. *)
Definition runtime_data := option (option coordinator_view).

Definition opt_float (o : option float) : pyval := match o with Some f => VFloat f | None => VNone end.

(** [getattr(t, ..., t)]: a bare URI stands for its own id and URI. *)
Definition target_dict (t : poll_target) : pydict :=
  match t with
  | Descriptor t => [("id", VStr (t_id t)); ("uri", VStr (t_uri t)); ("protocol", VStr (t_protocol t)); ("name", VStr (t_name t))]
  | BareUri s => [("id", VStr s); ("uri", VStr s); ("protocol", VNone); ("name", VNone)]
  end.

Definition failures_dict (t : tracker) : pydict :=
  map (fun dc => (fst dc, VDict (map (fun cn => (fst cn, VInt (snd cn))) (map_to_list (snd dc))))) (map_to_list t).

(** The data of a device: its time stamp, then its sections. *)
Definition devdata_dict (d : devdata) : pydict :=
  match d_timestamp d with Some t => [("timestamp", VTime t)] | None => [] end
  ++ map (fun s => (fst s, VDict (snd s))) (d_sections d).

Definition data_value (data : option (dict devdata)) : pyval :=
  match data with Some d => VDict (map (fun kv => (fst kv, VDict (devdata_dict (snd kv)))) d) | None => VNone end.

(** [_coordinator_section] *)
Definition coordinator_section (r : runtime_data) : pydict :=
  match r with
  | Some (Some c) => [
      ("present", VBool true);
      ("last_update_success", VBool (cv_success c));
      ("update_interval_seconds", opt_float (cv_interval c));
      ("devices", VList (map (fun t => VDict (target_dict t)) (match cv_devices c with Some l => l | None => [] end)));
      ("consecutive_failures", VDict (failures_dict (cv_failures c)));
      ("data", data_value (cv_data c))]
  | _ => [("present", VBool false)]
  end.

(** A running coordinator. *)
Definition view_of (success : bool) (interval : float) (published : bool) (st : coord) : coordinator_view :=
  {| cv_success := success; cv_interval := Some interval; cv_devices := Some (map Descriptor (c_devices st));
     cv_failures := c_failures st; cv_data := if published then Some (c_data st) else None |}.

(** ** The downloads *)

Definition REDACT_KEYS : list string := ["host"; "device"; "serial_device"; "agent_device_id"].

Definition frame_dict (r : frame_record) : pydict := [
  ("timestamp", VStr (timestamp r)); ("byte_count", VInt (byte_count r)); ("crc_valid", VBool (crc_valid r));
  ("raw_hex", VStr (raw_hex r)); ("raw_ascii", VStr (raw_ascii r))].

Definition frames_value (log : frame_log) : pyval :=
  VDict (map (fun kv => (fst kv, VList (map (fun r => VDict (frame_dict r)) (snd kv)))) (log_snapshot log)).

(** A config entry: [config_entry] with its title, version and runtime data. *)
Record shown_entry := { se_entry : config_entry; se_title : string; se_version : Z; se_runtime : runtime_data }.

Section Downloads.
(** [async_redact_data] is Home Assistant's. *)
Context (async_redact_data : pydict -> list string -> pydict).

(** [async_get_config_entry_diagnostics] *)
Definition config_entry_diagnostics (e : shown_entry) (log : frame_log) : pydict := [
  ("entry", VDict [
     ("title", VStr (se_title e));
     ("version", VInt (se_version e));
     ("data", VDict (async_redact_data (e_data (se_entry e)) REDACT_KEYS));
     ("options", VDict (async_redact_data (e_options (se_entry e)) REDACT_KEYS))]);
  ("coordinator", VDict (coordinator_section (se_runtime e)));
  ("frames", frames_value log)].
End Downloads.

(** [async_get_device_diagnostics], of a device with these identifiers. *)
Definition device_diagnostics (identifiers : list (string * string)) (r : runtime_data) (log : frame_log) : pydict :=
  let device_id := match identifiers with (_, id) :: _ => Some id | [] => None end in
  let device_data :=
    match r, device_id with
    | Some (Some c), Some id =>
        match cv_data c with
        | Some data => match dget id data with Some d => devdata_dict d | None => [] end
        | None => []
        end
    | _, _ => []
    end in
  [("device", VDict [("id", opt_str device_id); ("direct_data", VDict device_data)]); ("frames", frames_value log)].

(** ** The panel's snapshot *)

(** [entry.options.get(CONF_ENTRY_KIND) == ENTRY_KIND_EYBOND_HUB] *)
Definition shown_as_hub (options : pydict) : bool :=
  match vget "entry_kind" options with VStr s => String.eqb s "eybond_hub" | _ => false end.

(** The dongles of an entry: those of its hub, none for a plain device. *)
Definition entry_dongles (w : world) (e : config_entry) : list DongleRecord :=
  if shown_as_hub (e_options e) then
    match w_runtimes w !! e_id e with Some rt => all_records (registry_at w (r_ref rt)) | None => [] end
  else [].

Definition entry_state (w : world) (e : shown_entry) : pydict := [
  ("entry_id", VStr (e_id (se_entry e)));
  ("title", VStr (se_title e));
  ("kind", VStr (if shown_as_hub (e_options (se_entry e)) then "hub" else "device"));
  ("dongles", VList (map (fun r => VDict (record_to_dict r)) (entry_dongles w (se_entry e))));
  ("coordinator", VDict (coordinator_section (se_runtime e)))].

(** [_collect_state], over the entries of the integration. *)
Definition collect_state (w : world) (entries : list shown_entry) : pydict :=
  [("hubs", VList (map (fun e => VDict (entry_state w e)) entries))].

(** [_ws_state] *)
Definition ws_state (msg_id : Z) (w : world) (entries : list shown_entry) : Z * pydict := (msg_id, collect_state w entries).

(** ** Lemmas *)

(** The text [s] occurs as a value somewhere in [v]. *)
Inductive shows (s : string) : pyval -> Prop :=
| shows_here : shows s (VStr s)
| shows_list l v : In v l -> shows s v -> shows s (VList l)
| shows_dict d k v : In (k, v) d -> shows s v -> shows s (VDict d).

Lemma shows_get s k d v : dget k d = Some v -> shows s v -> shows s (VDict d).
Proof. intros H Hv. eapply shows_dict; [apply dget_some_in, H|exact Hv]. Qed.

Lemma section_shows_target s (c : coordinator_view) ts t :
  cv_devices c = Some ts -> In t ts -> shows s (VDict (target_dict t)) -> shows s (VDict (coordinator_section (Some (Some c)))).
Proof.
  intros Hc Ht Hs. eapply (shows_get s "devices"); [reflexivity|]. rewrite Hc. eapply shows_list; [|exact Hs].
  now apply (in_map (fun t => VDict (target_dict t))).
Qed.

(** What an entry redacts. *)
Definition redacted (v : pyval) : bool :=
  match v with VNone => true | VStr s => existsb (String.eqb s) [""; "**REDACTED**"] | _ => false end.

(** What is relied on: in the copy that is returned, the value of a redacted key is
    missing, empty or the mark. *)
Class RedactLaw (redact : pydict -> list string -> pydict) : Prop :=
  redact_marks d keys k : In k keys -> redacted (vget k (redact d keys)) = true.

(** The last frames of every command are in the dump, oldest first. *)
Lemma frames_value_get log k buf : dget k log = Some buf ->
  exists d, frames_value log = VDict d /\ dget k d = Some (VList (map (fun r => VDict (frame_dict r)) buf)).
Proof.
  intros H. eexists. split; [reflexivity|]. unfold log_snapshot. induction log as [|[k' b] log IH]; [discriminate|].
  cbn in *. destruct (k =? k')%string; [now injection H as ->|now apply IH].
Qed.

Lemma frames_value_none log k : dget k log = None ->
  dget k (map (fun kv => (fst kv, VList (map (fun r => VDict (frame_dict r)) (snd kv)))) (log_snapshot log)) = None.
Proof.
  unfold log_snapshot. induction log as [|[k' b] log IH]; [reflexivity|]. cbn.
  destruct (k =? k')%string; [discriminate|exact IH].
Qed.

(** ** Properties *)

(** C34: the diagnostics of a single-device entry mark its address in the entry's own data
    and options, and show it all the same: the coordinator's section lists the poll
    target, whose id and URI are that address. *)
Theorem dump_shows_address (redact : pydict -> list string -> pydict) (law : RedactLaw redact) (e : shown_entry) (log : frame_log)
    (u : string) (protocol name : option string) (st : coord) (success published : bool) (interval : float)
    (Hu : u <> "") (Hdevice : dget "device" (e_options (se_entry e)) = Some (VStr u))
    (Hst : c_devices st = get_active_devices None (Some u) protocol name)
    (Hrun : se_runtime e = Some (Some (view_of success interval published st))) :
  (forall k, In k REDACT_KEYS -> redacted (vget k (redact (e_options (se_entry e)) REDACT_KEYS)) = true
                              /\ redacted (vget k (redact (e_data (se_entry e)) REDACT_KEYS)) = true)
  /\ shows u (VDict (config_entry_diagnostics redact e log)).
Proof.
  split; [intros k Hk; split; now apply redact_marks|].
  eapply (shows_get u "coordinator"); [reflexivity|]. rewrite Hrun.
  destruct u as [|c u]; [congruence|]. cbn [get_active_devices] in Hst.
  eapply section_shows_target; [reflexivity|cbn [cv_devices view_of]; rewrite Hst; left; reflexivity|].
  eapply (shows_get _ "uri"); [reflexivity|constructor].
Qed.

(** After any recorded frames, the dump holds for every command its last
    twenty frames, oldest first, and nothing for a command without any. *)
Theorem dump_holds_last_frames (redact : pydict -> list string -> pydict) (e : shown_entry) (calls : list frame_call) (k : string) :
  exists frames, dget "frames" (config_entry_diagnostics redact e (fold_left record_call calls [])) = Some (VDict frames)
  /\ match dget k frames with
     | Some v => v = VList (map (fun r => VDict (frame_dict r)) (lastn 20 (history k calls)))
     | None => history k calls = []
     end.
Proof.
  eexists. split; [reflexivity|]. set (log := fold_left record_call calls []).
  pose proof (frame_log_keeps_last calls k) as H. cbv zeta in H. fold log in H. destruct (dget k log) as [buf|] eqn:E.
  - destruct (frames_value_get log k buf E) as (d & Hd & Hk). injection Hd as ->. rewrite Hk. now destruct H as [-> _].
  - rewrite (frames_value_none log k E). exact H.
Qed.

(** The panel's snapshot has one item for every entry, in order; the dongles of a
    hub's item read back as exactly its registry's records, and a plain device has
    none. *)
Theorem panel_state_faithful (w : world) (entries : list shown_entry) :
  exists items, dget "hubs" (collect_state w entries) = Some (VList items)
  /\ Forall2 (fun e item => exists d, item = VDict d /\ dget "entry_id" d = Some (VStr (e_id (se_entry e)))
       /\ exists ds, dget "dongles" d = Some (VList (map VDict ds))
       /\ map record_from_dict ds = map Some (entry_dongles w (se_entry e))) entries items.
Proof.
  eexists. split; [reflexivity|]. induction entries as [|e entries IH]; [constructor|]. cbn [map]. constructor; [|exact IH].
  eexists. split; [reflexivity|]. split; [reflexivity|]. exists (map record_to_dict (entry_dongles w (se_entry e))). split.
  - now rewrite map_map.
  - rewrite map_map. apply map_ext. intros r. apply record_from_to.
Qed.

(** A redaction that marks every key it is given. *)
Definition mark_all (d : pydict) (keys : list string) : pydict :=
  map (fun kv => (fst kv, if existsb (String.eqb (fst kv)) keys then VStr "**REDACTED**" else snd kv)) d.

#[export] Instance mark_all_law : RedactLaw mark_all.
Proof.
  intros d keys k Hk. unfold vget, mark_all. induction d as [|[k' v] d IH]; [reflexivity|]. cbn [map dget fst snd].
  destruct (String.eqb_spec k k') as [->|]; [|exact IH].
  assert (existsb (String.eqb k') keys = true) as -> by (apply existsb_exists; exists k'; split; [exact Hk|apply String.eqb_refl]).
  reflexivity.
Qed.

Definition demo_address : string := "tcp://192.0.2.7:8899".

Definition demo_running : coord := coord_init (get_active_devices None (Some demo_address) (Some "voltronic") (Some "Roof")).

Definition demo_entry : shown_entry := {|
  se_entry := {| e_id := "e1"; e_data := [("name", VStr "Roof")]; e_options := [("device", VStr demo_address)] |};
  se_title := "Roof"; se_version := 1; se_runtime := Some (Some (view_of true (flit 10 1) true demo_running)) |}.

Lemma dump_shows_address_witness :
  mark_all (e_options (se_entry demo_entry)) REDACT_KEYS = [("device", VStr "**REDACTED**")]
  /\ shows demo_address (VDict (config_entry_diagnostics mark_all demo_entry [])).
Proof.
  split; [vm_compute; reflexivity|].
  refine (proj2 (dump_shows_address mark_all mark_all_law demo_entry [] demo_address (Some "voltronic") (Some "Roof")
    demo_running true true (flit 10 1) _ eq_refl eq_refl eq_refl)). discriminate.
Defined.
