(* ===== verification/EntrySetup.v ===== *)
(** Setting a device entry up: the part of [async_setup_entry] of [__init__.py]
    for entries that are not hubs, over the constructor and the first refresh of
    the coordinator ([coordinators/direct_coordinator.py]) and the hub objects
    ([hub.py]); and that what is polled is what the user chose in the flow. *)

From Stdlib Require Import ZArith String Ascii Floats.SpecFloat.
From stdpp Require Import base gmap sets list strings.
From S2P Require Import Prelude PyStr PyInt PyFloat FloatMono PyDict Uri Discovery EybondFrame ChildUri EybondManager Adapters Coordinator Entities Controls ConfigFlow Forms EybondHub Flows FlowEntries.
#[local] Set Warnings "-clear-no-such-hyp".
#[local] Open Scope string_scope.
#[local] Open Scope list_scope.
#[local] Open Scope Z_scope.
#[local] Open Scope py_scope.

(** ** The coordinator of an entry *)

(** [timedelta(seconds=n)], in seconds. *)
Definition timedelta (seconds : Z) : res Z :=
  if (-999999999 <=? seconds / 86400) && (seconds / 86400 <=? 999999999) then Ok seconds
  else Raise (OverflowError "days; must have magnitude <= 999999999").

(** [DirectCoordinator.__init__]: the update interval and the initial state. *)
Definition coordinator_new (options : pydict) : res (Z * coord) :=
  let! interval_seconds := int_of_val (default (VInt DEFAULT_UPDATE_INTERVAL) (dget "update_interval" options)) in
  let! update_interval := timedelta interval_seconds in
  Ok (update_interval, coord_init []).

(** [_bus_mode], and the strict check of [_async_update_data]. *)
Definition coordinator_bus_mode (options : pydict) : pyval := default (VStr DEFAULT_BUS_MODE) (dget "bus_mode" options).
Definition coordinator_strict_crc (options : pydict) : bool := truthy (default (VBool false) (dget "strict_crc" options)).

(** A text an entry stores. *)
Definition text_at (k : string) (d : pydict) : option string :=
  match dget k d with Some (VStr s) => Some s | _ => None end.

(** [get_active_devices] on an entry, and [_async_setup]. *)
Definition entry_targets (targets : option (list DeviceTarget)) (e : config_entry) : list DeviceTarget :=
  get_active_devices targets (text_at "device" (e_options e)) (text_at "protocol" (e_options e)) (text_at "name" (e_data e)).

Definition coordinator_setup (targets : option (list DeviceTarget)) (e : config_entry) (st : coord) : coord :=
  set_targets (entry_targets targets e) st.

(** [async_config_entry_first_refresh], as Home Assistant documents it: a poll that
    raises makes the entry not ready. *)
Definition first_refresh (now : Z) (bus : string -> list pyval) (st : coord) : res coord :=
  match update_data (c_data st) now bus st with
  | (st, Ok data) => Ok (with_data data st)
  | (_, Raise _) => Raise (GenericException "ConfigEntryNotReady")
  end.

(** ** The entry *)

Record device_runtime := {
  dr_entry : config_entry;
  dr_interval : Z;
  dr_coord : coord;
  dr_hub : hub_objects
}.

(** [_migrate_data_to_options] on the entry. *)
Definition migrated (e : config_entry) : config_entry :=
  let '(data, options) := migrate_data_to_options (e_data e) (e_options e) in
  {| e_id := e_id e; e_data := data; e_options := options |}.

(** [async_setup_entry] for a device: the first refresh at [now] with the answers
    of [bus], the objects the platforms read, and the refresh after the platforms;
    the entities the platforms create are in [Entities] and [ControlEntities]. *)
Definition setup_device (now : Z) (bus : string -> list pyval) (later : Z) (bus' : string -> list pyval) (e : config_entry)
    : res device_runtime :=
  let e := migrated e in
  let! c := coordinator_new (e_options e) in
  let! st := first_refresh now bus (coordinator_setup None e (snd c)) in
  match dget "name" (e_data e) with
  | Some (VStr name) =>
      let h := hub_init (map Descriptor (c_devices st)) {| hub_username := name; hub_items := [] |} in
      Ok {| dr_entry := e; dr_interval := fst c; dr_coord := refresh later bus' st; dr_hub := h |}
  | Some _ => Raise (TypeError "lower")
  | None => Raise (KeyError "name")
  end.

(** ** Lemmas: the coordinator *)

Lemma update_devices prev now bus st : c_devices (fst (update_data prev now bus st)) = c_devices st.
Proof.
  unfold update_data. set (multi := 1 <? _). destruct (poll_devices prev multi now bus (c_devices st) st) as [s1 o] eqn:E.
  apply devices_spec in E as (_ & F & _). now destruct o.
Qed.

(** A poll of one device publishes under its id, or raises. *)
Lemma update_single prev now bus st t data st' : c_devices st = [t] -> update_data prev now bus st = (st', Ok data) ->
  exists dev, data = [(t_id t, dev)]
  /\ snd (fetch_device_data prev now (t_id t) st (bus (t_id t))) = Polled dev.
Proof.
  intros Hd. unfold update_data. rewrite Hd. cbn [length Z.of_nat Z.ltb Pos.of_succ_nat Z.compare Pos.compare poll_devices].
  unfold fetch_device_guarded. destruct (fetch_device_data prev now (t_id t) st (bus (t_id t))) as [s1 [dev| |e]]; cbn [rmap rbind];
    intros [= <- <-]; now exists dev.
Qed.

Lemma refresh_devices now bus st : c_devices (refresh now bus st) = c_devices st.
Proof.
  unfold refresh. pose proof (update_devices (c_data st) now bus st) as H.
  destruct (update_data (c_data st) now bus st) as [s [data|e]]; exact H.
Qed.

(** A refresh never loses the device. *)
Lemma refresh_keeps now bus st t : c_devices st = [t] -> is_Some (dget (t_id t) (c_data st)) ->
  is_Some (dget (t_id t) (c_data (refresh now bus st))).
Proof.
  intros Hd Hs. unfold refresh. destruct (update_data (c_data st) now bus st) as [s [data|e]] eqn:E.
  - destruct (update_single _ _ _ _ _ _ _ Hd E) as (dev & -> & _). cbn [with_data c_data dget]. rewrite String.eqb_refl. eauto.
  - unfold update_data in E. set (multi := 1 <? _) in E.
    destruct (poll_devices (c_data st) multi now bus (c_devices st) st) as [s1 o] eqn:E1.
    apply devices_spec in E1 as (F & _). destruct o; [discriminate|]. injection E as <- _. now rewrite F.
Qed.

(** ** Lemmas: the entry the flow leaves *)

Lemma eybond_uri_nonempty scheme host port addr bc ann : scheme <> "" -> eybond_device_uri scheme host port addr bc ann <> "".
Proof. intros H. unfold eybond_device_uri. destruct scheme; [congruence|]. now destruct (map _ _). Qed.

Lemma uri_nonempty c : connection_ok c -> k_uri c <> "".
Proof.
  intros [Hpair Haddr _ _ _ _ _ _ _]. unfold k_uri, build_device_uri. rewrite (normalize_fixed _ _ Hpair).
  revert Haddr. pose proof (compatible_cases _ _ Hpair) as Hcase. cbn [In] in Hcase. clear Hpair.
  repeat (destruct Hcase as [[= <- <-]|Hcase]); [..|destruct Hcase].
  all: cbn -[eybond_device_uri]; intros Haddr; try discriminate; try (now apply eybond_uri_nonempty); try exact (proj1 Haddr).
Qed.

(** A stored interval is one [timedelta] takes, and it is the one chosen. *)
Lemma interval_new c : connection_ok c -> coordinator_new (connection_options c) = Ok (k_interval c, coord_init []).
Proof.
  intros Hok. pose proof (co_interval c Hok) as H. unfold MIN_UPDATE_INTERVAL, MAX_UPDATE_INTERVAL in H.
  unfold coordinator_new. cbn [connection_options dget String.eqb Ascii.eqb Bool.eqb default from_option id int_of_val rbind].
  unfold timedelta. rewrite (proj2 (Z.leb_le _ _)) by (apply Z.div_le_lower_bound; lia).
  rewrite (proj2 (Z.leb_le _ _)) by (apply Z.div_le_upper_bound; lia). reflexivity.
Qed.

(** The target a device entry polls. *)
Definition chosen (title : string) (c : connection) : DeviceTarget :=
  {| t_id := k_uri c; t_uri := k_uri c; t_protocol := k_protocol c; t_name := title |}.

Lemma chosen_targets e title c : connection_ok c -> title <> "" -> e_options e = connection_options c ->
  dget "name" (e_data e) = Some (VStr title) -> entry_targets None e = [chosen title c].
Proof.
  intros Hok Ht Ho Hn. unfold entry_targets, text_at. rewrite Ho, Hn.
  cbn [connection_options dget String.eqb Ascii.eqb Bool.eqb get_active_devices default]. pose proof (uri_nonempty c Hok) as Hu.
  unfold chosen. destruct (k_uri c); [congruence|]. now destruct title.
Qed.

(** ** Properties *)

(** C7: what is polled is what the user chose. From whatever entry for a device
    the config flow creates, the set-up builds one coordinator with the interval
    typed into the form, the frame check and the bus mode picked there, and one
    target: the chosen endpoint, under the chosen protocol and the given name; the
    set-up gives up exactly when the first poll of that target raises, and
    otherwise that endpoint has data before any entity exists and keeps it over the
    refresh after them, the one device object carries the same address. When the
    form's fields are plain, that address selects the adapter of the chosen protocol
    and transport. *)
Theorem entry_end_to_end (fs : config_flow) (title : string) (data options : pydict)
    (Hr : config_reach fs (CreateEntry title data options)) (Hdev : is_hub (entry_of data options) = false)
    (now later : Z) (bus bus' : string -> list pyval) :
  exists c, connection_ok c /\ options = connection_options c
  /\ coordinator_bus_mode options = VStr (k_mode c) /\ coordinator_strict_crc options = k_crc c
  /\ match setup_device now bus later bus' (entry_of data options) with
     | Ok rt =>
         (exists dev st, update_data [] now bus (set_targets [chosen title c] (coord_init [])) = (st, Ok [(k_uri c, dev)]))
         /\ dr_interval rt = k_interval c
         /\ c_devices (dr_coord rt) = [chosen title c]
         /\ is_Some (dget (k_uri c) (c_data (dr_coord rt)))
         /\ hub_items (dr_hub rt) = [{| i_id := k_uri c; i_name := title; i_uri := k_uri c; i_protocol := Some (k_protocol c) |}]
     | Raise e =>
         e = GenericException "ConfigEntryNotReady"
         /\ exists st e', update_data [] now bus (set_targets [chosen title c] (coord_init [])) = (st, Raise e')
     end
  /\ (uri_fields_ok (k_protocol c) (k_transport c) (k_host c) (k_port c) (k_serial c) (k_agent c) (k_addr c) (k_broadcast c)
        (k_announce c) -> get_adapter (k_uri c) = adapter_wanted (k_protocol c) (k_transport c)).
Proof.
  pose proof (config_reach_ok fs _ Hr) as Hok. inversion Hok as [| | | | | |? ? ? ? (Ht & _ & Hname & Hnodev & Hkind)]; subst.
  destruct (hub_options_flow (entry_of data options)); [destruct Hkind; congruence|]. destruct Hkind as (_ & c & -> & Hc).
  exists c. split; [exact Hc|]. do 3 (split; [reflexivity|]). split; [|apply uri_adapter, (co_pair c Hc)].
  assert (migrated (entry_of data (connection_options c)) = entry_of data (connection_options c)) as Em.
  { unfold migrated, migrate_data_to_options, entry_of. cbn [e_data e_options e_id]. now rewrite Hnodev. }
  unfold setup_device. rewrite Em. cbn [entry_of e_options e_data]. rewrite (interval_new c Hc). cbn [rbind fst snd].
  unfold coordinator_setup. rewrite (chosen_targets (entry_of data (connection_options c)) title c Hc Ht eq_refl Hname).
  unfold first_refresh. cbn [c_data set_targets coord_init].
  destruct (update_data [] now bus (set_targets [chosen title c] (coord_init []))) as [st [d|e]] eqn:E; cbn [rbind];
    [|split; [reflexivity|now exists st, e]].
  assert (c_devices st = [chosen title c]) as Hd by (pose proof (update_devices [] now bus (set_targets [chosen title c] (coord_init []))) as H; now rewrite E in H).
  destruct (update_single [] now bus (set_targets [chosen title c] (coord_init [])) (chosen title c) d st eq_refl E) as (dev & -> & _).
  rewrite Hname. cbn [dr_interval dr_coord dr_hub]. cbn [with_data c_devices].
  split; [now exists dev, st|]. split; [reflexivity|].
  split; [now rewrite refresh_devices|]. split.
  - apply (refresh_keeps later bus' (with_data _ st) (chosen title c)); [exact Hd|]. cbn [with_data c_data dget chosen t_id].
    rewrite String.eqb_refl. eauto.
  - rewrite Hd. cbn [map hub_init hub_items device_of app hub_username chosen t_id t_uri t_name t_protocol].
    now rewrite (proj2 (String.eqb_neq title "") Ht).
Qed.

(** ** Witness *)

Definition roof : connection := bridge "192.168.1.5".

Definition roof_input : pydict := [
  ("host", VStr "192.168.1.5"); ("port", VInt 8899); ("update_interval", VFloat (float_of_Z 10)); ("strict_crc", VBool true);
  ("bus_mode", VStr "concurrent_writes")].

Definition roof_data : pydict := [("name", VStr "Roof")].

(** A bridge behind which every read answers. *)
Definition answering (uri : string) : list pyval := map (fun _ => VDict [("battery_voltage", VStr "26.40")]) (seq 0 12).

Lemma roof_created : exists fs, config_reach fs (CreateEntry "Roof" roof_data (connection_options roof)).
Proof.
  pose proof cr_start as H.
  eapply (cr_answer _ _ "device" None []) in H; [|apply an_choice; now left|reflexivity].
  eapply (cr_answer _ _ "device" (Some [("name", VStr " Roof ")]) []) in H; [|apply an_submit|vm_compute; reflexivity].
  2: { apply conforms_intro; [reflexivity|apply string_nodupb_sound; reflexivity|]. repeat constructor. now eexists. }
  eapply (cr_answer _ _ "protocol" (Some [("protocol", VStr "voltronic")]) []) in H; [|apply an_submit|vm_compute; reflexivity].
  2: { apply conforms_intro; [reflexivity|apply string_nodupb_sound; reflexivity|]. repeat constructor. }
  eapply (cr_answer _ _ "transport" (Some [("transport", VStr "tcp_elfin")]) []) in H; [|apply an_submit|vm_compute; reflexivity].
  2: { apply conforms_intro; [reflexivity|apply string_nodupb_sound; reflexivity|]. repeat constructor. }
  eapply (cr_answer _ _ "connection" (Some roof_input) []) in H; [|apply an_submit|vm_compute; reflexivity].
  2: { apply conforms_intro; [reflexivity|apply string_nodupb_sound; reflexivity|].
       repeat (apply List.Forall2_cons; [try now eexists|]); [..|apply List.Forall2_nil]; cbn [f_kind snd accepts].
       - eexists. split; [reflexivity|]. now apply small_range.
       - right. now left. }
  eexists. exact H.
Qed.

(** The inverter answers at set-up and not at the refresh after it. *)
Lemma entry_end_to_end_witness :
  is_hub (entry_of roof_data (connection_options roof)) = false
  /\ exists rt, setup_device 0 answering 10 (fun _ => []) (entry_of roof_data (connection_options roof)) = Ok rt
     /\ dr_interval rt = 10
     /\ is_Some (dget "tcp://192.168.1.5:8899" (c_data (dr_coord rt)))
     /\ hub_items (dr_hub rt) = [{| i_id := "tcp://192.168.1.5:8899"; i_name := "Roof"; i_uri := "tcp://192.168.1.5:8899";
                                    i_protocol := Some "voltronic" |}].
Proof.
  split; [reflexivity|]. destruct roof_created as [fs Hr].
  destruct (entry_end_to_end fs "Roof" roof_data (connection_options roof) Hr eq_refl 0 10 answering (fun _ => []))
    as (c & Hc & Ho & _ & _ & H & _).
  destruct (setup_device 0 answering 10 (fun _ => []) (entry_of roof_data (connection_options roof))) as [rt|e] eqn:E;
    [|vm_compute in E; discriminate].
  exists rt. split; [reflexivity|]. destruct H as (_ & Hi & _ & Hd & Hit).
  unfold connection_options in Ho. injection Ho as Hp _ Hu _ _ _ _ _ _ _ Hv _ _.
  rewrite <- Hu in Hd, Hit. rewrite <- Hp in Hit. rewrite <- Hv in Hi.
  split; [exact Hi|]. split; [exact Hd|exact Hit].
Defined.
